(* ===== verification/_CoqProject ===== *)
-Q . S2P
Prelude.v
CString.v
Mem.v
KState.v
Mmu.v
Console.v
Kalloc.v
Vm.v
AddrSpace.v
VmSpec.v
VmGrow.v
VmFork.v
File.v
Proc.v
Syscall.v
Sysproc.v
Msg.v
Pipe.v
Trap.v
Ulib.v
Posix.v
Text.v
Sort.v
FileTools.v
Myshell.v
Bio.v
Layout.v
Log.v
Inode.v
ConsoleDev.v
Devices.v
Ide.v
Fs.v
FileIO.v
Exec.v
Sysfile.v
ProcMem.v
ForkSpec.v
ProcGrow.v
WaitSpec.v
UserMem.v
Sched.v
Sh.v
Grep.v
TextSpec.v
RmSpec.v
ShellSpec.v
UserProgs.v
UserWorld.v
ShSpec.v
BioSpec.v
IdeSpec.v
LogSpec.v
TxnSpec.v
FileSpec.v
Mkfs.v
RwSpec.v
DirSpec.v
PathSpec.v
MkfsSpec.v
Crash.v
PipeSpec.v
ConsoleSpec.v
DevSpec.v
Boot.v
BootMain.v
MsgSpec.v
MutexProto.v
Spinlock.v
Example.v
ProcResults.v
IpcResults.v
FsResults.v
MkfsResults.v
UserResults.v
KernelResults.v
DevResults.v
Umalloc.v
MallocResults.v
BootResults.v
