(* ===== verification/Prelude.v ===== *)
(** * A verification development of the G19 operating-systems project

    The repository holds two programs.  Project 1 is an xv6 kernel (x86, in C)
    with its user programs, extended with system calls for priorities, waiting,
    shared memory, mutexes and message queues
    (src/G19_Project1_xv6CustomizeSystemCalls, "xv6" below).  Project 2 is a set
    of UNIX utilities and a shell for a POSIX host (src/G19_Project2_1/src).

    ** How the code is modelled

    C functions are functions in a state and outcome monad [M S A] (this file):
    a computation ends in [Ret] with a value, [Panic] (a call of panic), [Block]
    (the process gave up the processor in sched) or [Undef] (the C code has no
    defined behaviour from here on: a wild pointer, an index out of range, a
    write past an object).  A theorem that a call returns is stated with [Ret],
    so it excludes the other three.

    The kernel state is the record [kstate] of KState: memory as a map from
    addresses to bytes (Mem), the process table, the file and inode tables, the
    buffers, the log, pipes, mutexes, queues, the console, the blocks written to
    the disk, and the list of held locks.  A pointer into a table is an index; a
    page or a page table is an address.  Kernel code is written as [K A := M
    kstate A] and composed the way the C code composes it.  A function that
    sleeps is cut at the sleep: [f_round] is one pass of its loop, [f_resume]
    what it does when it runs again.  Integers are [Z] with [u32], [i32], [u8]
    where C wraps around.

    Code outside of src/ is a parameter: [Linker] (the end of the kernel image,
    the addresses of linker symbols), [Disk] (the size of the disk image),
    [Posix], [Shell], [Host] (system calls and library functions of the host), [Io] and
    [Xv6] (the system calls as user programs see them), each with its laws in a
    record ([Stream], [Full], [sort_world], [tree_calls], [fd_calls], [xv_fds],
    [image_host], [input_host]) that UserWorld and MkfsResults instantiate.
    [Ports] is the hardware: port instructions and device registers as functions
    on a state [W].  Drivers are written as [D W A := M (devst W) A], over the
    kernel's state, the hardware and the static variables of the device files;
    [lift_k] runs kernel code there.  What a theorem relies on is a record of
    laws ([ide_laws], [kbd_laws], [rtc_laws], [tty_laws], [quiet],
    [idle_disk]) that DevResults and BootResults instantiate.  [BootImage] has
    the addresses and the code that the linker puts into the kernel, and
    [sbrk_law] the contract of sbrk.  [FsOps] is the interface from the process
    code to the file system; FileIO discharges it with the definitions of fs.c
    and log.c.

    ** Which file models what

    - Memory: Mem, CString (string.c), Mmu (mmu.h, memlayout.h), Kalloc
      (kalloc.c), Vm (vm.c); AddrSpace, VmSpec, VmGrow, VmFork say
      what the functions of vm.c do to an address space and to the free pages.
    - Processes: Proc (proc.c), Sysproc (sysproc.c), Syscall and Trap
      (syscall.c, trap.c), Exec (exec.c); ProcMem (who owns which page),
      ForkSpec, ProcGrow, WaitSpec (wait, sleep, wakeup), Sched (the scheduler,
      exit), UserMem.
    - Synchronisation: Spinlock (spinlock.c on several processors, instruction
      by instruction, and its protocol), Sysproc (the mutex calls); MutexProto
      is the protocol of the mutexes over all interleavings.
    - Communication: Pipe (pipe.c), Msg (the message calls of sysproc.c);
      PipeSpec, MsgSpec.
    - File system: Bio (sleeplock.c, bio.c, memide.c), Layout (fs.h), Log
      (log.c), Inode and Fs (fs.c), File and FileIO (file.c), Sysfile
      (sysfile.c); BioSpec (the cache), LogSpec and Crash (the log
      and recovery), TxnSpec (within an operation), FileSpec (bmap), RwSpec
      (readi, writei), DirSpec and PathSpec (directories, paths).
      Mkfs is mkfs.c, which builds the disk image; MkfsSpec.
    - Console: Console (cprintf), ConsoleDev (console.c); ConsoleSpec.
    - Devices: Devices (lapic.c, ioapic.c, picirq.c, uart.c, kbd.c, mp.c, and
      mycpu), Ide (ide.c, and trap with the devices); DevSpec, IdeSpec.
    - Booting: Boot (bootmain.c, main.c, the CRT half of console.c, segments and
      gates); BootMain (main on all processors).
    - xv6 programs: Umalloc (umalloc.c), Ulib (the interface; ulib.c, printf.c), Grep (grep.c), Sh
      (sh.c), UserProgs (cat, echo, kill, ln, mkdir, rm, wc, ls, init, zombie);
      ShSpec, ShellSpec.
    - Project 2: Posix (the interface), Text (cat, cp, mv, wc, head, tail,
      grep), Sort, FileTools (rm, chmod, ls, touch), Myshell
      (custom_shell.c); TextSpec, RmSpec, ShellSpec.
    - Example and UserWorld hold a concrete machine and concrete systems on
      which the theorems are instantiated; the files with the suffix Results the
      main theorems, with their instances (KernelResults also the behaviours
      that differ from the documentation).

    ** What the theorems show

    - commit is atomic: after any prefix of its writes, recovery leaves all
      blocks old or all new; the buffer cache is transparent; log_write absorbs;
      begin_op reserves; balloc returns a fresh block; what writei writes readi
      reads back, nothing else changes, and a write fits the reservation; dirlink
      and dirlookup are inverse; namei computes the walk through the directories
      on the disk.
    - mkfs ends with a well-formed file system, and the kernel that runs on it
      finds and reads the files that mkfs was given.
    - fork copies memory into pages of its own; growproc, wait and exit keep the
      ownership of pages and the process tree; the allocator is a stack of pages;
      the scheduler is fair.
    - the boot loader loads the kernel; main and the start of the other
      processors end in a state that satisfies these invariants, with every page
      accounted for and the first process ready.
    - the IDE driver is a queue of requests, each of which completes, and does to
      buffers and disk what memide.c does; scan codes become the text that was
      typed, and printed text is on the screen and on the serial line; mpinit
      finds the processors of the BIOS tables.
    - the objects that malloc returns stay apart and keep their contents over any
      sequence of calls, and memory that is freed can be allocated again.
    - spin locks and user mutexes exclude each other over all interleavings, and
      no wakeup of a mutex is lost; pipes and message queues are FIFOs; the
      console refines a line editor.
    - grep matches the language of its pattern; the shell's parser terminates on
      every line and inverts the printer of commands; the utilities of Project 2
      print, copy, sort and remove what they should in spite of short reads and
      writes.

    ** Fuel and bounds

    Loops of C that are not structural take a number that bounds their rounds
    and end in [Undef] when it runs out, so a theorem that concludes [Ret] shows
    that it was enough.  The bounds are computed from the state where the code
    does it too (the length of the path in namex, [n / BSIZE + 2] rounds in readi
    and writei, the pages of the range in freerange) and are otherwise arguments
    of the theorems, which hold for every large enough value.  In the drivers
    [polls] bounds the loops that wait for a device or walk a table of the BIOS,
    in the user allocator [loops] those over the free list.

    ** Assumptions and omissions

    A kernel step between two sleeps runs without interference from other
    processors: the code holds the lock of the data it uses, and Spinlock is the
    part where processors interleave.  A block is written to the disk as a
    whole.  The file system runs on memide.c's disk; ide.c, with the same
    interface, is proved to do the same.  A driver's theorem considers one
    processor at a time; in main_boots the processors take turns at the points
    where main waits.

    Not modelled: the assembly files and vectors.pl (their code and addresses
    are parameters), idtinit, lgdt and the task register, whose values no C code
    reads, and the test programs (usertests.c and the like), which are tests of
    the kernel and not part of it. *)

From stdpp Require Export base numbers list strings gmap.
From Stdlib Require Export ZArith Lia.

#[global] Open Scope Z_scope.

(** ** Machine integers

    Unsigned 32-bit values ([uint], pointers, page-table entries) are integers
    of [[0, 2^32)], C [int]s are integers of [[-2^31, 2^31)].  [u32] is the
    conversion to [uint], [i32] the conversion to [int]; every place where the
    C code can wrap around goes through one of them. *)

Definition u32 (z : Z) : Z := z mod 2 ^ 32.

Definition i32 (z : Z) : Z := (z + 2 ^ 31) mod 2 ^ 32 - 2 ^ 31.

Definition u8 (z : Z) : Z := z mod 256.

Lemma u32_id z : 0 <= z < 2 ^ 32 -> u32 z = z.
Proof. apply Z.mod_small. Qed.

Lemma u32_range z : 0 <= u32 z < 2 ^ 32.
Proof. apply Z.mod_pos_bound. lia. Qed.

Lemma u32_sub_borrow a b : 0 <= a < b -> b <= 2 ^ 32 -> u32 (a - b) = a - b + 2 ^ 32.
Proof.
  intros. unfold u32. rewrite <- (Z.mod_add _ 1) by lia. apply Z.mod_small. lia.
Qed.

Lemma i32_id z : - 2 ^ 31 <= z < 2 ^ 31 -> i32 z = z.
Proof. intros. unfold i32. rewrite Z.mod_small by lia. lia. Qed.

Lemma i32_range z : - 2 ^ 31 <= i32 z < 2 ^ 31.
Proof.
  unfold i32. pose proof (Z.mod_pos_bound (z + 2 ^ 31) (2 ^ 32) ltac:(lia)). lia.
Qed.

Lemma i32_u32 z : i32 (u32 z) = i32 z.
Proof. unfold i32, u32. by rewrite Z.add_mod_idemp_l by lia. Qed.

Lemma u32_i32 z : u32 (i32 z) = u32 z.
Proof.
  unfold i32, u32. rewrite Zminus_mod_idemp_l. f_equal. lia.
Qed.

Lemma u8_range z : 0 <= u8 z < 256.
Proof. apply Z.mod_pos_bound. lia. Qed.

Lemma u8_id z : 0 <= z < 256 -> u8 z = z.
Proof. apply Z.mod_small. Qed.

Create HintDb machine.
Create HintDb kernel.

#[export] Hint Resolve u32_range i32_range u8_range : machine.

(** ** Computations of the kernel

    A C function is a function from a state to an [outcome]: it returns a
    value, it calls [panic], it gives up the processor inside [sched] (through
    [sleep], [yield] or [exit]), or it does what C leaves undefined (a null
    dereference, an access outside an object, a page fault in the kernel). *)

Inductive outcome (S A : Type) : Type :=
  | Ret (a : A) (s : S)
  | Panic (msg : string) (s : S)
  | Block (s : S)
  | Undef (msg : string) (s : S).

Arguments Ret {S A} a s.
Arguments Panic {S A} msg s.
Arguments Block {S A} s.
Arguments Undef {S A} msg s.

(** The state a run ends in. *)
Definition post {S A} (o : outcome S A) : S :=
  match o with Ret _ s | Panic _ s | Block s | Undef _ s => s end.

Definition M (S A : Type) : Type := S -> outcome S A.

Definition ret {S A} (a : A) : M S A := fun s => Ret a s.

Definition bind {S A B} (m : M S A) (f : A -> M S B) : M S B := fun s =>
  match m s with
  | Ret a s' => f a s'
  | Panic e s' => Panic e s'
  | Block s' => Block s'
  | Undef e s' => Undef e s'
  end.

Definition panic {S A} (msg : string) : M S A := fun s => Panic msg s.
Definition undef {S A} (msg : string) : M S A := fun s => Undef msg s.
Definition gets {S A} (f : S -> A) : M S A := fun s => Ret (f s) s.
Definition modify {S} (f : S -> S) : M S unit := fun s => Ret tt (f s).
Definition when {S} (b : bool) (m : M S unit) : M S unit := if b then m else ret tt.

Declare Scope kernel_scope.
Delimit Scope kernel_scope with kernel.

Notation "x <- m ;; k" := (bind m (fun x => k))
  (at level 100, m at next level, right associativity) : kernel_scope.
Notation "m ;; k" := (bind m (fun _ => k))
  (at level 100, right associativity) : kernel_scope.

#[global] Open Scope kernel_scope.

(** [wp m s Q]: run from [s], [m] returns normally, with a value and a state
    that satisfy [Q] (no panic, no undefined behaviour, no blocking). *)

Definition wp {S A} (m : M S A) (s : S) (Q : A -> S -> Prop) : Prop :=
  match m s with
  | Ret a s' => Q a s'
  | _ => False
  end.

Section wp_rules.
Context {S : Type}.
Implicit Types s : S.

Lemma wp_ret {A} (a : A) s (Q : A -> S -> Prop) : Q a s -> wp (ret a) s Q.
Proof. done. Qed.

Lemma wp_bind {A B} (m : M S A) (f : A -> M S B) s Q :
  wp m s (fun a s' => wp (f a) s' Q) -> wp (bind m f) s Q.
Proof. unfold wp, bind. destruct (m s); naive_solver. Qed.

Lemma wp_mono {A} (m : M S A) s (P Q : A -> S -> Prop) :
  wp m s P -> (forall a s', P a s' -> Q a s') -> wp m s Q.
Proof. unfold wp. destruct (m s); naive_solver. Qed.

Lemma wp_gets {A} (f : S -> A) s (Q : A -> S -> Prop) : Q (f s) s -> wp (gets f) s Q.
Proof. done. Qed.

Lemma wp_modify f s (Q : unit -> S -> Prop) : Q tt (f s) -> wp (modify f) s Q.
Proof. done. Qed.

Lemma wp_when b (m : M S unit) s (Q : unit -> S -> Prop) :
  (b = true -> wp m s Q) -> (b = false -> Q tt s) -> wp (when b m) s Q.
Proof. unfold when. destruct b; naive_solver. Qed.

Lemma wp_run {A} (m : M S A) s Q :
  wp m s Q <-> exists a s', m s = Ret a s' /\ Q a s'.
Proof.
  unfold wp. destruct (m s) as [a s'|e s'|s'|e s']; split; try done; try (intros (?&?&?&?); done).
  - eauto.
  - intros (b & s2 & [= <- <-] & HQ). done.
Qed.

Lemma wp_conj {A} (m : M S A) s (P Q : A -> S -> Prop) :
  wp m s P -> wp m s Q -> wp m s (fun a s' => P a s' /\ Q a s').
Proof. unfold wp. destruct (m s); naive_solver. Qed.

Lemma bind_ret_l {A B} (m : M S A) (f : A -> M S B) s a s' :
  m s = Ret a s' -> bind m f s = f a s'.
Proof. unfold bind. by intros ->. Qed.

Lemma bind_cong {A B} (m m' : M S A) (f : A -> M S B) s :
  m s = m' s -> bind m f s = bind m' f s.
Proof. unfold bind. by intros ->. Qed.

Lemma bind_cong_r {A B} (m : M S A) (f g : A -> M S B) s :
  (forall a s', m s = Ret a s' -> f a s' = g a s') -> bind m f s = bind m g s.
Proof. unfold bind. destruct (m s); auto. Qed.

Lemma bind_assoc {A B C} (m : M S A) (f : A -> M S B) (g : B -> M S C) s :
  bind (bind m f) g s = bind m (fun a => bind (f a) g) s.
Proof. unfold bind. by destruct (m s). Qed.
End wp_rules.

(** One step of symbolic execution under [wp]: sequencing, reads and writes
    of the state.  Calls are left to the lemmas of the callee. *)

Ltac wp_step :=
  lazymatch goal with
  | |- wp (bind _ _) _ _ => apply wp_bind
  | |- wp (ret _) _ _ => apply wp_ret
  | |- wp (gets _) _ _ => apply wp_gets
  | |- wp (modify _) _ _ => apply wp_modify
  | |- wp (when _ _) _ _ => apply wp_when; intros
  end.

Ltac wp_steps := repeat (wp_step; cbv beta).

(** Apply the specification [H] of the call at the head. *)

Tactic Notation "wp_call" uconstr(H) := eapply wp_mono; [eapply H | cbv beta].

(** ** Lists *)

Section lists.
Context {A : Type}.
Implicit Types l : list A.

(** The index of the first element that satisfies [p]. *)
Fixpoint find_index (p : A -> bool) l : option nat :=
  match l with
  | [] => None
  | x :: l' => if p x then Some 0%nat else S <$> find_index p l'
  end.

Lemma find_index_Some p l i :
  find_index p l = Some i <->
  (exists x, l !! i = Some x /\ p x = true) /\
  (forall j y, (j < i)%nat -> l !! j = Some y -> p y = false).
Proof.
  revert i. induction l as [|x l IH]; intros i; simpl.
  - split; [done|]. intros [(y & Hy & _) _]. by rewrite lookup_nil in Hy.
  - destruct (p x) eqn:Hx.
    + split.
      * intros [= <-]. split; [by exists x|]. intros; lia.
      * intros [_ H]. destruct i as [|i]; [done|]. exfalso.
        specialize (H 0%nat x ltac:(lia) eq_refl). congruence.
    + destruct (find_index p l) as [k|] eqn:Hk; simpl.
      * destruct i as [|i].
        { split; [done|]. intros [(y & Hy & Hp) _]. simplify_eq/=. congruence. }
        specialize (IH i). split.
        { intros [= ->]. destruct IH as [IH _]. destruct (IH eq_refl) as [H1 H2].
          split; [done|]. intros [|j] y Hj Hy; simplify_eq/=; [done|]. eapply H2; eauto; lia. }
        { intros [H1 H2]. f_equal. f_equal.
          enough (Some k = Some i) by congruence. apply IH. split; [done|].
          intros j y Hj Hy. apply (H2 (S j) y); [lia|done]. }
      * split; [done|]. intros [(y & Hy & Hp) H2]. destruct i as [|i]; simplify_eq/=; [congruence|].
        enough (None = Some i) by done. apply IH. split; [eauto|].
        intros j z Hj Hz. apply (H2 (S j) z); [lia|done].
Qed.

Lemma find_index_None p l :
  find_index p l = None <-> (forall j y, l !! j = Some y -> p y = false).
Proof.
  induction l as [|x l IH]; simpl.
  - split; [|done]. intros _ j y Hy. by rewrite lookup_nil in Hy.
  - destruct (p x) eqn:Hx.
    + split; [done|]. intros H. specialize (H 0%nat x eq_refl). congruence.
    + destruct (find_index p l); simpl.
      * split; [done|]. intros H. enough (Some n = None) by done.
        apply IH. intros j y Hy. apply (H (S j) y Hy).
      * split; [|done]. intros _ [|j] y Hy; simplify_eq/=; [done|].
        by apply (proj1 IH eq_refl j).
Qed.

Lemma find_index_lt p l i : find_index p l = Some i -> (i < length l)%nat.
Proof.
  intros [(x & Hx & _) _]%find_index_Some. by apply lookup_lt_Some in Hx.
Qed.
End lists.

#[export] Hint Resolve find_index_lt : kernel.

Lemma filter_notin `{EqDecision A} (x : A) (l : list A) :
  x ∉ l -> filter (fun y => y <> x) l = l.
Proof.
  induction l as [|y l IH]; [done|]. intros [Hne Hl]%not_elem_of_cons.
  rewrite filter_cons_True by done. by rewrite IH.
Qed.

(** [bool] tests of the C code as propositions. *)

Ltac bool_prop :=
  repeat match goal with
  | H : _ && _ = true |- _ => apply andb_prop in H; destruct H
  | H : _ && _ = false |- _ => apply andb_false_iff in H
  | H : _ || _ = false |- _ => apply orb_false_elim in H; destruct H
  | H : _ || _ = true |- _ => apply orb_prop in H
  | H : negb _ = true |- _ => apply negb_true_iff in H
  | H : negb _ = false |- _ => apply negb_false_iff in H
  | H : (_ =? _) = true |- _ => apply Z.eqb_eq in H
  | H : (_ =? _) = false |- _ => apply Z.eqb_neq in H
  | H : (_ <? _) = true |- _ => apply Z.ltb_lt in H
  | H : (_ <? _) = false |- _ => apply Z.ltb_ge in H
  | H : (_ <=? _) = true |- _ => apply Z.leb_le in H
  | H : (_ <=? _) = false |- _ => apply Z.leb_gt in H
  end.

(** Evaluate the comparisons of the goal that [lia] decides. *)

Ltac zbool :=
  repeat match goal with
  | |- context [?a <=? ?b] =>
      first [rewrite (proj2 (Z.leb_le a b)) by lia | rewrite (proj2 (Z.leb_gt a b)) by lia]
  | |- context [?a <? ?b] =>
      first [rewrite (proj2 (Z.ltb_lt a b)) by lia | rewrite (proj2 (Z.ltb_ge a b)) by lia]
  | |- context [?a =? ?b] =>
      first [rewrite (proj2 (Z.eqb_eq a b)) by lia | rewrite (proj2 (Z.eqb_neq a b)) by lia]
  end; cbn [andb orb negb].
