(* ===== verification/CString.v ===== *)
(** * C strings in buffers (string.c)

    The string functions of string.c on character buffers, the list of the
    bytes of the array.  A function that would run past the end of a buffer
    gives [None].  [cstr] is the string a buffer holds. *)

From S2P Require Import Prelude.

(** ** The functions *)

(** [for(n = 0; s[n]; n++);] *)
Fixpoint strlen (s : list Z) : option Z :=
  match s with
  | [] => None
  | c :: s' => if c =? 0 then Some 0 else n ← strlen s'; Some (n + 1)
  end.

(** [while(n > 0 && *p && *p == *q) n--, p++, q++;] *)
Fixpoint strncmp (p q : list Z) (n : nat) : option Z :=
  match n with
  | O => Some 0
  | S n' =>
      match p, q with
      | a :: p', b :: q' =>
          if negb (a =? 0) && (a =? b) then strncmp p' q' n' else Some (u8 a - u8 b)
      | _, _ => None
      end
  end.

(** [while(n-- > 0) *s++ = 0;] *)
Fixpoint strncpy_pad (s : list Z) (n : nat) : option (list Z) :=
  match n, s with
  | O, _ => Some s
  | S n', _ :: s' => r ← strncpy_pad s' n'; Some (0 :: r)
  | S _, [] => None
  end.

(** [while(n-- > 0 && ( *s++ = *t++) != 0);] then the padding *)
Fixpoint strncpy (s t : list Z) (n : nat) : option (list Z) :=
  match n with
  | O => Some s
  | S n' =>
      match s, t with
      | _ :: s', c :: t' =>
          r ← (if c =? 0 then strncpy_pad s' n' else strncpy s' t' n'); Some (c :: r)
      | _, _ => None
      end
  end.

(** [while(--n > 0 && ( *s++ = *t++) != 0);  *s = 0;] with [n] the number of
    characters that may still be copied. *)
Fixpoint safestrcpy_loop (s t : list Z) (n : nat) : option (list Z) :=
  match n, s with
  | O, _ :: s' => Some (0 :: s')
  | S n', _ :: s' =>
      match t with
      | c :: t' =>
          if c =? 0 then
            match s' with _ :: s'' => Some (c :: 0 :: s'') | [] => None end
          else r ← safestrcpy_loop s' t' n'; Some (c :: r)
      | [] => None
      end
  | _, [] => None
  end.

Definition safestrcpy (s t : list Z) (n : Z) : option (list Z) :=
  if n <=? 0 then Some s else safestrcpy_loop s t (Z.to_nat (n - 1)).

(** ** The string of a buffer *)

Fixpoint cstr (s : list Z) : list Z :=
  match s with
  | [] => []
  | c :: s' => if c =? 0 then [] else c :: cstr s'
  end.

Lemma strlen_cstr s n : strlen s = Some n -> n = Z.of_nat (length (cstr s)).
Proof.
  revert n. induction s as [|c s IH]; intros n Hn; [done|]. cbn [strlen cstr] in *.
  destruct (c =? 0); [by simplify_eq|]. destruct (strlen s) as [k|]; [|done].
  simplify_eq/=. rewrite (IH k eq_refl). lia.
Qed.

Lemma strlen_total s : 0 ∈ s -> exists n, strlen s = Some n.
Proof.
  induction s as [|c s IH]; intros Hin; [by apply not_elem_of_nil in Hin|]. cbn [strlen].
  destruct (c =? 0) eqn:Hc; [by eauto|]. bool_prop.
  apply elem_of_cons in Hin as [?|Hin]; [lia|]. destruct (IH Hin) as [n ->]. eauto.
Qed.

(** [strncmp] compares the first [n] characters of the strings. *)
Lemma strncmp_eq p q n r : Forall (fun c => 0 <= c < 256) p -> Forall (fun c => 0 <= c < 256) q ->
  strncmp p q n = Some r -> (r = 0 <-> take n (cstr p) = take n (cstr q)).
Proof.
  intros Hp. revert q n. induction Hp as [|a p Ha Hp IH]; intros q n Hq Hr.
  { destruct n; [|done]. simplify_eq/=. done. }
  destruct n as [|n]; [by simplify_eq/=|]. destruct q as [|b q]; [done|].
  apply Forall_cons in Hq as [Hb Hq]. cbn [strncmp cstr] in *.
  destruct (a =? 0) eqn:Ea; cbn [negb andb] in Hr; bool_prop.
  - simplify_eq. rewrite !u8_id by lia. destruct (b =? 0) eqn:Eb; bool_prop; [by subst|].
    cbn [take]. split; [lia|done].
  - destruct (a =? b) eqn:Eab; bool_prop.
    + subst b. rewrite (proj2 (Z.eqb_neq a 0)) by done. cbn [take].
      rewrite (IH q n Hq Hr). split; [by intros ->|]. by intros [= ->].
    + simplify_eq. rewrite !u8_id by lia. destruct (b =? 0) eqn:Eb; bool_prop; cbn [take].
      * split; [lia|done].
      * split; [lia|]. by intros [= ?].
Qed.

(** The copy keeps the size of the buffer, is terminated, and holds the first
    [n] characters of the string. *)
Lemma safestrcpy_loop_spec s t n : (n < length s)%nat -> (n <= length t)%nat ->
  exists r, safestrcpy_loop s t n = Some r /\ length r = length s /\ 0 ∈ r /\ cstr r = take n (cstr t).
Proof.
  revert s t. induction n as [|n IH]; intros [|x s] t Hs Ht; cbn in Hs; try lia.
  { exists (0 :: s). cbn. split; [done|]. split; [done|]. split; [apply list_elem_of_here|done]. }
  destruct t as [|c t]; [cbn in Ht; lia|]. cbn [safestrcpy_loop cstr].
  destruct (c =? 0) eqn:Hc; bool_prop.
  - subst c. destruct s as [|y s]; [cbn in Hs; lia|]. exists (0 :: 0 :: s). split; [done|].
    split; [done|]. split; [apply list_elem_of_here|]. done.
  - destruct (IH s t) as (r & -> & Hl & H0 & Hr); [lia|cbn in Ht; lia|]. exists (c :: r).
    split; [done|]. split; [cbn; lia|]. split; [by apply list_elem_of_further|].
    cbn [cstr take]. rewrite (proj2 (Z.eqb_neq c 0)) by done. by rewrite Hr.
Qed.

Lemma safestrcpy_spec s t n : 0 < n <= Z.of_nat (length s) -> n - 1 <= Z.of_nat (length t) ->
  exists r, safestrcpy s t n = Some r /\ length r = length s /\ 0 ∈ r /\
    cstr r = take (Z.to_nat (n - 1)) (cstr t).
Proof.
  intros Hn Ht. unfold safestrcpy. zbool. apply safestrcpy_loop_spec; lia.
Qed.

(** [strncpy] fills the field: the string, padded with zeros, not terminated
    when the string has [n] characters or more. *)
Lemma strncpy_pad_spec s n : (n <= length s)%nat ->
  strncpy_pad s n = Some (replicate n 0 ++ drop n s).
Proof.
  revert s. induction n as [|n IH]; intros [|x s] Hn; cbn in *; try lia; try done.
  rewrite IH by lia. done.
Qed.

Lemma strncpy_spec s t n : (n <= length s)%nat -> (n <= length t)%nat ->
  exists r, strncpy s t n = Some (take n r ++ drop n s) /\ length (take n r) = n /\
    take n r = take n (cstr t) ++ replicate (n - length (take n (cstr t))) 0.
Proof.
  revert s t. induction n as [|n IH]; intros s t Hs Ht.
  { exists []. split; [by destruct s|]. done. }
  destruct s as [|x s]; [cbn in Hs; lia|]. destruct t as [|c t]; [cbn in Ht; lia|].
  cbn [strncpy cstr]. destruct (c =? 0) eqn:Hc; bool_prop.
  - subst c. rewrite strncpy_pad_spec by (cbn in Hs; lia). exists (replicate (S n) 0).
    rewrite take_replicate, Nat.min_id, length_replicate.
    cbn [mbind option_bind replicate app take drop length]. rewrite Nat.sub_0_r. done.
  - destruct (IH s t) as (r & -> & Hl & Hr); [cbn in Hs; lia|cbn in Ht; lia|]. exists (c :: r).
    cbn [mbind option_bind take drop length app]. rewrite Hl, Hr.
    split; [by rewrite <- Hr|]. split; [done|]. done.
Qed.

(** The same for a terminated string of any length. *)
Lemma strncpy_str s t n : Forall (fun c => c <> 0) t -> (n <= length s)%nat ->
  strncpy s (t ++ [0]) n = Some (take n t ++ replicate (n - length t) 0 ++ drop n s).
Proof.
  intros Ht. revert s n. induction Ht as [|c t Hc Ht IH]; intros s [|n] Hs; try by destruct s.
  - destruct s as [|x s]; [cbn in Hs; lia|]. cbn [strncpy app]. rewrite Z.eqb_refl, strncpy_pad_spec by (cbn in Hs; lia). done.
  - destruct s as [|x s]; [cbn in Hs; lia|]. cbn [strncpy app]. rewrite (proj2 (Z.eqb_neq c 0) Hc), IH by (cbn in Hs; lia). done.
Qed.
