(* ===== verification/Mem.v ===== *)
(** * Byte-addressed memory and the block operations of string.c

    Memory is a total map from addresses to bytes.  This file has the 32-bit
    little-endian accesses the compiler generates for [uint] objects, the
    string instructions of x86.h, and the block functions of string.c
    ([memset], [memcmp], [memmove], [memcpy]) with the user library's
    [memmove] of ulib.c, translated loop by loop and related to their
    reference meaning. *)

From S2P Require Import Prelude.

(** ** Loads and stores *)

Definition memory : Type := Z -> Z.

Definition ld8 (m : memory) (a : Z) : Z := u8 (m a).

Definition st8 (m : memory) (a v : Z) : memory :=
  fun x => if x =? a then u8 v else m x.

Definition ld32 (m : memory) (a : Z) : Z :=
  ld8 m a + 2 ^ 8 * ld8 m (a + 1) + 2 ^ 16 * ld8 m (a + 2) + 2 ^ 24 * ld8 m (a + 3).

Definition st32 (m : memory) (a v : Z) : memory :=
  fun x => if (a <=? x) && (x <? a + 4) then (v / 2 ^ (8 * (x - a))) mod 256 else m x.

(** [n] bytes from [a], and the bytes [bs] stored from [a] on. *)
Fixpoint ld_bytes (m : memory) (a : Z) (n : nat) : list Z :=
  match n with
  | O => []
  | S n' => ld8 m a :: ld_bytes m (a + 1) n'
  end.

Fixpoint st_bytes (m : memory) (a : Z) (bs : list Z) : memory :=
  match bs with
  | [] => m
  | b :: bs' => st_bytes (st8 m a b) (a + 1) bs'
  end.

Lemma ld8_range m a : 0 <= ld8 m a < 256.
Proof. apply u8_range. Qed.

Lemma ld32_range m a : 0 <= ld32 m a < 2 ^ 32.
Proof.
  unfold ld32. pose proof (ld8_range m a). pose proof (ld8_range m (a + 1)).
  pose proof (ld8_range m (a + 2)). pose proof (ld8_range m (a + 3)). lia.
Qed.

Lemma ld32_ext m m' a :
  (forall x, a <= x < a + 4 -> m' x = m x) -> ld32 m' a = ld32 m a.
Proof. intros H. unfold ld32, ld8. rewrite !H by lia. done. Qed.

Lemma st32_other m a v x : x < a \/ a + 4 <= x -> st32 m a v x = m x.
Proof.
  intros. unfold st32. destruct (a <=? x) eqn:?, (x <? a + 4) eqn:?; bool_prop; try done; lia.
Qed.

Lemma st8_same m a v : st8 m a v a = u8 v.
Proof. unfold st8. by rewrite Z.eqb_refl. Qed.

Lemma st8_other m a v x : x <> a -> st8 m a v x = m x.
Proof. intros. unfold st8. by rewrite (proj2 (Z.eqb_neq _ _)). Qed.

Lemma ld_bytes_length m a n : length (ld_bytes m a n) = n.
Proof. revert a. induction n as [|n IH]; intros a; cbn; [done|by rewrite IH]. Qed.

Lemma ld_bytes_ext m m' a n : (forall x, a <= x < a + Z.of_nat n -> m' x = m x) -> ld_bytes m' a n = ld_bytes m a n.
Proof.
  revert a. induction n as [|n IH]; intros a H; cbn [ld_bytes]; [done|]. unfold ld8. rewrite (H a) by lia. f_equal. apply IH.
  intros. apply H. lia.
Qed.

Lemma ld_bytes_st8 m a n j v : (j < n)%nat -> ld_bytes (st8 m (a + Z.of_nat j) v) a n = <[j := u8 v]> (ld_bytes m a n).
Proof.
  revert a j. induction n as [|n IH]; intros a [|j] Hj; cbn [ld_bytes list_insert insert]; try lia.
  - rewrite Z.add_0_r. unfold ld8. rewrite st8_same, (u8_id (u8 v)) by apply u8_range. f_equal. apply ld_bytes_ext.
    intros. apply st8_other. lia.
  - unfold ld8 at 1. rewrite st8_other by lia. fold (ld8 m a). f_equal.
    trans (<[j := u8 v]> (ld_bytes m (a + 1) n)); [|done]. rewrite <- (IH (a + 1) j) by lia. do 2 f_equal. lia.
Qed.

Lemma ld_bytes_nth m a n i : (i < n)%nat -> nth i (ld_bytes m a n) 0 = ld8 m (a + Z.of_nat i).
Proof.
  revert a i. induction n as [|n IH]; intros a [|i] Hi; cbn [ld_bytes nth]; try lia; [by rewrite Z.add_0_r|].
  rewrite IH by lia. f_equal. lia.
Qed.

Lemma st_bytes_eq m a bs x : Forall (fun c => 0 <= c < 256) bs ->
  st_bytes m a bs x = if decide (a <= x < a + Z.of_nat (length bs)) then nth (Z.to_nat (x - a)) bs 0 else m x.
Proof.
  intros Hf. revert m a. induction Hf as [|c bs Hc Hf IH]; intros m a; cbn [st_bytes length]; [by rewrite decide_False by lia|].
  rewrite IH. destruct (decide (x = a)) as [->|Hx].
  - rewrite decide_False, decide_True by lia. by rewrite Z.sub_diag, st8_same, u8_id.
  - rewrite st8_other by done. destruct (decide (a + 1 <= x < a + 1 + Z.of_nat (length bs))).
    + rewrite decide_True by lia. by replace (Z.to_nat (x - a)) with (S (Z.to_nat (x - (a + 1)))) by lia.
    + by rewrite decide_False by lia.
Qed.

Lemma le_bytes v :
  0 <= v < 2 ^ 32 ->
  v mod 256 + 2 ^ 8 * ((v / 2 ^ 8) mod 256) + 2 ^ 16 * ((v / 2 ^ 16) mod 256)
  + 2 ^ 24 * ((v / 2 ^ 24) mod 256) = v.
Proof. intros. Z.div_mod_to_equations. lia. Qed.

Lemma st32_byte m a v k : 0 <= k < 4 -> st32 m a v (a + k) = (v / 2 ^ (8 * k)) mod 256.
Proof.
  intros Hk. unfold st32. rewrite (proj2 (Z.leb_le _ _)), (proj2 (Z.ltb_lt _ _)) by lia.
  cbn [andb]. do 3 f_equal. lia.
Qed.

Lemma ld32_st32_same m a v : 0 <= v < 2 ^ 32 -> ld32 (st32 m a v) a = v.
Proof.
  intros Hv. unfold ld32, ld8, u8. rewrite <- (Z.add_0_r a) at 2.
  rewrite !st32_byte, !Z.mod_mod by lia.
  change (2 ^ (8 * 0)) with 1. rewrite Z.div_1_r. by apply le_bytes.
Qed.

Lemma ld32_st32_other m a v b : b + 4 <= a \/ a + 4 <= b -> ld32 (st32 m a v) b = ld32 m b.
Proof. intros. apply ld32_ext. intros. apply st32_other. lia. Qed.

(** ** The string instructions (x86.h) *)

(** [rep stosb]: [cnt] bytes at [addr] get the low byte of [data]. *)
Definition stosb (m : memory) (addr data cnt : Z) : memory :=
  fun x => if (addr <=? x) && (x <? addr + cnt) then u8 data else m x.

(** [rep stosl]: [cnt] words at [addr] get [data], least significant byte first. *)
Definition stosl (m : memory) (addr data cnt : Z) : memory :=
  fun x => if (addr <=? x) && (x <? addr + 4 * cnt)
           then (data / 2 ^ (8 * ((x - addr) mod 4))) mod 256 else m x.

(** ** string.c *)

Definition memset (m : memory) (dst c n : Z) : memory :=
  if (Z.rem (i32 dst) 4 =? 0) && (n mod 4 =? 0) then
    let c := Z.land c 255 in
    stosl m dst (Z.lor (Z.lor (Z.lor (Z.shiftl c 24) (Z.shiftl c 16)) (Z.shiftl c 8)) c) (n / 4)
  else stosb m dst c n.

(** The difference of the first pair of distinct bytes, 0 if there is none. *)
Fixpoint memcmp (m : memory) (v1 v2 : Z) (n : nat) : Z :=
  match n with
  | O => 0
  | S n' =>
      if negb (ld8 m v1 =? ld8 m v2) then ld8 m v1 - ld8 m v2
      else memcmp m (v1 + 1) (v2 + 1) n'
  end.

(** The loop that stores upwards, [d] and [s] post-incremented. *)
Fixpoint copy_up (m : memory) (d s : Z) (n : nat) : memory :=
  match n with
  | O => m
  | S n' => copy_up (st8 m d (ld8 m s)) (d + 1) (s + 1) n'
  end.

(** The loop that stores downwards, [d] and [s] pre-decremented. *)
Fixpoint copy_down (m : memory) (d s : Z) (n : nat) : memory :=
  match n with
  | O => m
  | S n' => copy_down (st8 m (d - 1) (ld8 m (s - 1))) (d - 1) (s - 1) n'
  end.

Definition memmove (m : memory) (dst src n : Z) : memory :=
  if (src <? dst) && (dst <? src + n) then copy_down m (dst + n) (src + n) (Z.to_nat n)
  else copy_up m dst src (Z.to_nat n).

Definition memcpy (m : memory) (dst src n : Z) : memory := memmove m dst src n.

(** The user library's [memmove] (ulib.c) only copies upwards. *)
Definition ulib_memmove (m : memory) (vdst vsrc n : Z) : memory :=
  copy_up m vdst vsrc (Z.to_nat n).

(** The user library's [memset] (ulib.c) is a single [stosb]. *)
Definition ulib_memset (m : memory) (dst c n : Z) : memory := stosb m dst c n.

(** ** Reference meaning *)

(** The block [[dst, dst+n)] after a simultaneous copy from [src]. *)
Definition block_copied (m : memory) (dst src n : Z) (x : Z) : Z :=
  if (dst <=? x) && (x <? dst + n) then ld8 m (x - dst + src) else m x.

Lemma spread_byte c : 0 <= c < 256 ->
  Z.lor (Z.lor (Z.lor (Z.shiftl c 24) (Z.shiftl c 16)) (Z.shiftl c 8)) c
  = c * 2 ^ 24 + c * 2 ^ 16 + c * 2 ^ 8 + c.
Proof.
  intros Hc.
  assert (forall hi lo k, 0 <= lo < 2 ^ k -> 0 <= k ->
            Z.lor (Z.shiftl hi k) lo = hi * 2 ^ k + lo) as Hor.
  { intros hi lo k Hlo Hk. rewrite <- Z.shiftl_mul_pow2 by done.
    symmetry. apply Z.add_nocarry_lor. apply Z.bits_inj'. intros i Hi.
    rewrite Z.land_spec, Z.bits_0. destruct (decide (i < k)).
    - by rewrite Z.shiftl_spec_low.
    - rewrite <- (Z.mod_small lo (2 ^ k)) by done.
      rewrite Z.mod_pow2_bits_high by lia. apply andb_false_r. }
  rewrite <- !Z.lor_assoc.
  rewrite (Hor c c 8) by lia.
  rewrite (Hor c (c * 2 ^ 8 + c) 16) by lia.
  rewrite (Hor c (c * 2 ^ 16 + (c * 2 ^ 8 + c)) 24) by lia. lia.
Qed.

Lemma spread_byte_digit c i : 0 <= c < 256 -> 0 <= i < 4 ->
  ((c * 2 ^ 24 + c * 2 ^ 16 + c * 2 ^ 8 + c) / 2 ^ (8 * i)) mod 256 = c.
Proof.
  intros Hc Hi. assert (i = 0 \/ i = 1 \/ i = 2 \/ i = 3) as [-> | [-> | [-> | ->]]] by lia.
  all: simpl; Z.div_mod_to_equations; lia.
Qed.

Lemma memset_spec m dst c n x : 0 <= n ->
  memset m dst c n x = if (dst <=? x) && (x <? dst + n) then u8 c else m x.
Proof.
  intros Hn. unfold memset. destruct ((Z.rem (i32 dst) 4 =? 0) && (n mod 4 =? 0)) eqn:Hal; [|done].
  bool_prop. unfold stosl.
  assert (4 * (n / 4) = n) as -> by (Z.div_mod_to_equations; lia).
  destruct ((dst <=? x) && (x <? dst + n)) eqn:Hx; [|done].
  change 255 with (Z.ones 8). rewrite Z.land_ones by lia. change (2 ^ 8) with 256.
  fold (u8 c). pose proof (u8_range c). rewrite spread_byte by done.
  apply spread_byte_digit; [done|]. apply Z.mod_pos_bound. lia.
Qed.

Lemma memset_in m dst c n x : dst <= x < dst + n -> memset m dst c n x = u8 c.
Proof.
  intros. rewrite memset_spec by lia.
  by zbool.
Qed.

Lemma memset_out m dst c n x : 0 <= n -> x < dst \/ dst + n <= x -> memset m dst c n x = m x.
Proof.
  intros. rewrite memset_spec by lia.
  destruct (dst <=? x) eqn:?, (x <? dst + n) eqn:?; bool_prop; try done; lia.
Qed.

Lemma copy_up_spec m d s n x : d <= s \/ s + Z.of_nat n <= d ->
  copy_up m d s n x = block_copied m d s (Z.of_nat n) x.
Proof.
  revert m d s. induction n as [|n IH]; intros m d s Hd.
  - simpl. unfold block_copied. destruct (d <=? x) eqn:?, (x <? d + Z.of_nat 0) eqn:?; bool_prop; try done; lia.
  - cbn [copy_up]. rewrite IH by lia. unfold block_copied.
    destruct (decide (x = d)) as [->|Hne].
    + zbool. rewrite st8_same. replace (d - d + s) with s by lia.
      apply u8_id, ld8_range.
    + destruct (decide (d < x < d + Z.of_nat (S n))).
      * zbool.
        unfold ld8. rewrite st8_other by lia. do 2 f_equal. lia.
      * destruct (d + 1 <=? x) eqn:?, (x <? d + 1 + Z.of_nat n) eqn:?,
          (d <=? x) eqn:?, (x <? d + Z.of_nat (S n)) eqn:?; bool_prop; try lia;
          cbn [andb]; by rewrite st8_other.
Qed.

Lemma copy_down_spec m d s n x : s <= d \/ d + Z.of_nat n <= s ->
  copy_down m (d + Z.of_nat n) (s + Z.of_nat n) n x = block_copied m d s (Z.of_nat n) x.
Proof.
  revert m. induction n as [|n IH]; intros m Hd.
  - simpl. unfold block_copied. destruct (d <=? x) eqn:?, (x <? d + Z.of_nat 0) eqn:?; bool_prop; try done; lia.
  - cbn [copy_down].
    replace (d + Z.of_nat (S n) - 1) with (d + Z.of_nat n) by lia.
    replace (s + Z.of_nat (S n) - 1) with (s + Z.of_nat n) by lia.
    rewrite IH by lia. unfold block_copied.
    destruct (decide (x = d + Z.of_nat n)) as [->|Hne].
    + zbool. rewrite st8_same.
      replace (d + Z.of_nat n - d + s) with (s + Z.of_nat n) by lia.
      apply u8_id, ld8_range.
    + destruct (decide (d <= x < d + Z.of_nat n)).
      * zbool.
        unfold ld8. rewrite st8_other by lia. done.
      * destruct (d <=? x) eqn:?, (x <? d + Z.of_nat n) eqn:?,
          (x <? d + Z.of_nat (S n)) eqn:?; bool_prop; try lia;
          cbn [andb]; by rewrite st8_other.
Qed.

Lemma memmove_spec m dst src n x : 0 <= n ->
  memmove m dst src n x = block_copied m dst src n x.
Proof.
  intros Hn. unfold memmove. destruct ((src <? dst) && (dst <? src + n)) eqn:Hov; bool_prop.
  - rewrite <- (Z2Nat.id n) at 1 2 4 by done. apply copy_down_spec. lia.
  - rewrite <- (Z2Nat.id n) at 2 by done. apply copy_up_spec.
    destruct Hov as [Hov|Hov]; bool_prop; lia.
Qed.

Lemma memmove_in m dst src n x : dst <= x < dst + n ->
  memmove m dst src n x = ld8 m (x - dst + src).
Proof.
  intros. rewrite memmove_spec by lia. unfold block_copied.
  by zbool.
Qed.

Lemma memmove_out m dst src n x : 0 <= n -> x < dst \/ dst + n <= x ->
  memmove m dst src n x = m x.
Proof.
  intros. rewrite memmove_spec by lia. unfold block_copied.
  destruct (dst <=? x) eqn:?, (x <? dst + n) eqn:?; bool_prop; try done; lia.
Qed.

#[export] Hint Resolve ld8_range ld32_range : machine.
