(* ===== verification/KState.v ===== *)
(** * The kernel's data

    The constants of param.h, mmu.h, memlayout.h and fs.h, the structures of
    proc.h, file.h and of the C files that define their own, and the record
    [kstate] of the kernel's global variables.  A pointer into a static table
    ([ptable.proc], [ftable.file], [icache.inode]) is an index of the table;
    a pointer to a page of [kalloc] is its address.  Every structure has one
    setter per field. *)

From S2P Require Import Prelude Mem.

(** ** Constants *)

Definition NPROC : nat := 64.
Definition KSTACKSIZE : Z := 4096.
Definition NCPU : Z := 8.
Definition NOFILE : nat := 16.
Definition NFILE : nat := 100.
Definition NINODE : nat := 50.
Definition NDEV : Z := 10.
Definition ROOTDEV : Z := 1.
Definition MAXARG : Z := 32.
Definition MAXOPBLOCKS : Z := 10.
Definition LOGSIZE : Z := MAXOPBLOCKS * 3.
Definition NBUF : nat := Z.to_nat (MAXOPBLOCKS * 3).

Definition EXTMEM : Z := 0x100000.
Definition PHYSTOP : Z := 0xE000000.
Definition DEVSPACE : Z := 0xFE000000.
Definition KERNBASE : Z := 0x80000000.
Definition KERNLINK : Z := KERNBASE + EXTMEM.

Definition V2P (a : Z) : Z := u32 (a - KERNBASE).
Definition P2V (a : Z) : Z := u32 (a + KERNBASE).

Definition NPDENTRIES : nat := 1024.
Definition NPTENTRIES : nat := 1024.
Definition PGSIZE : Z := 4096.
Definition PTXSHIFT : Z := 12.
Definition PDXSHIFT : Z := 22.

Definition PDX (va : Z) : Z := Z.land (Z.shiftr va PDXSHIFT) 0x3FF.
Definition PTX (va : Z) : Z := Z.land (Z.shiftr va PTXSHIFT) 0x3FF.
Definition PGADDR (d t o : Z) : Z :=
  u32 (Z.lor (Z.lor (Z.shiftl d PDXSHIFT) (Z.shiftl t PTXSHIFT)) o).

Definition PGROUNDUP (sz : Z) : Z := Z.land (u32 (sz + PGSIZE - 1)) (Z.lnot (PGSIZE - 1)).
Definition PGROUNDDOWN (a : Z) : Z := Z.land a (Z.lnot (PGSIZE - 1)).

Definition PTE_P : Z := 0x001.
Definition PTE_W : Z := 0x002.
Definition PTE_U : Z := 0x004.
Definition PTE_PS : Z := 0x080.

Definition PTE_ADDR (pte : Z) : Z := Z.land pte (Z.lnot 0xFFF).
Definition PTE_FLAGS (pte : Z) : Z := Z.land pte 0xFFF.

Definition FL_IF : Z := 0x200.
Definition SEG_KCODE : Z := 1.
Definition SEG_KDATA : Z := 2.
Definition SEG_UCODE : Z := 3.
Definition SEG_UDATA : Z := 4.
Definition DPL_USER : Z := 3.

Definition SHM_NKEYS : Z := 4.
Definition NSHM : Z := 8.
Definition MAX_MUTEXES : Z := 10.
Definition IPC_CREAT : Z := 512.
Definition IPC_EXCL : Z := 1024.
Definition IPC_NOWAIT : Z := 2048.
Definition IPC_RMID : Z := 0.
Definition MSG_DATA : Z := 4000.

(** ** Link-time symbols

    The addresses the linker script kernel.ld assigns: the start of the data
    section, the end of the kernel image, and two code addresses the kernel
    stores.  The script starts the image at [KERNLINK] and aligns the data
    section to a page; the boot code maps the first 4 MB, which hold the whole
    image. *)

Class Linker : Type := {
  kdata : Z;
  kend : Z;
  forkret_addr : Z;
  trapret_addr : Z;
  kdata_low : KERNLINK < kdata;
  kdata_aligned : kdata mod PGSIZE = 0;
  kend_low : kdata <= kend;
  kend_high : kend < KERNBASE + 4 * 1024 * 1024;
}.

(** ** Enumerations *)

Inductive procstate : Type := UNUSED | EMBRYO | SLEEPING | RUNNABLE | RUNNING | ZOMBIE.

Inductive filetype : Type := FD_NONE | FD_PIPE | FD_INODE.

(** The objects whose address a process can sleep on ([p->chan]). *)

Inductive channel : Type :=
  | ChProc (i : nat)
  | ChTicks
  | ChMutex (i : nat)
  | ChQueue (a : Z)
  | ChPipeRead (a : Z)
  | ChPipeWrite (a : Z)
  | ChLog
  | ChInode (i : nat)
  | ChBuf (i : nat)
  | ChBufLock (i : nat)
  | ChInput.

(** The spinlocks of the kernel. *)

Inductive lockid : Type :=
  | LkPtable
  | LkTicks
  | LkKmem
  | LkShm
  | LkMutexTable
  | LkQueueList
  | LkQueue (a : Z)
  | LkFtable
  | LkIcache
  | LkPipe (a : Z)
  | LkLog
  | LkBcache
  | LkIde
  | LkCons
  | LkInodeSleep (i : nat)
  | LkBufSleep (i : nat).

#[export] Instance procstate_eq_dec : EqDecision procstate.
Proof. solve_decision. Defined.
#[export] Instance filetype_eq_dec : EqDecision filetype.
Proof. solve_decision. Defined.
#[export] Instance channel_eq_dec : EqDecision channel.
Proof. solve_decision. Defined.
#[export] Instance lockid_eq_dec : EqDecision lockid.
Proof. solve_decision. Defined.

(** ** Structures *)

(* BEGIN trapframe *)
Record trapframe : Type := mk_trapframe {
  tf_edi : Z;
  tf_esi : Z;
  tf_ebp : Z;
  tf_oesp : Z;
  tf_ebx : Z;
  tf_edx : Z;
  tf_ecx : Z;
  tf_eax : Z;
  tf_gs : Z;
  tf_fs : Z;
  tf_es : Z;
  tf_ds : Z;
  tf_trapno : Z;
  tf_err : Z;
  tf_eip : Z;
  tf_cs : Z;
  tf_eflags : Z;
  tf_esp : Z;
  tf_ss : Z;
}.

Definition set_tf_edi (v : Z) (r : trapframe) : trapframe :=
  mk_trapframe v (tf_esi r) (tf_ebp r) (tf_oesp r) (tf_ebx r) (tf_edx r) (tf_ecx r) (tf_eax r)
    (tf_gs r) (tf_fs r) (tf_es r) (tf_ds r) (tf_trapno r) (tf_err r) (tf_eip r) (tf_cs r)
    (tf_eflags r) (tf_esp r) (tf_ss r).
Definition set_tf_esi (v : Z) (r : trapframe) : trapframe :=
  mk_trapframe (tf_edi r) v (tf_ebp r) (tf_oesp r) (tf_ebx r) (tf_edx r) (tf_ecx r) (tf_eax r)
    (tf_gs r) (tf_fs r) (tf_es r) (tf_ds r) (tf_trapno r) (tf_err r) (tf_eip r) (tf_cs r)
    (tf_eflags r) (tf_esp r) (tf_ss r).
Definition set_tf_ebp (v : Z) (r : trapframe) : trapframe :=
  mk_trapframe (tf_edi r) (tf_esi r) v (tf_oesp r) (tf_ebx r) (tf_edx r) (tf_ecx r) (tf_eax r)
    (tf_gs r) (tf_fs r) (tf_es r) (tf_ds r) (tf_trapno r) (tf_err r) (tf_eip r) (tf_cs r)
    (tf_eflags r) (tf_esp r) (tf_ss r).
Definition set_tf_oesp (v : Z) (r : trapframe) : trapframe :=
  mk_trapframe (tf_edi r) (tf_esi r) (tf_ebp r) v (tf_ebx r) (tf_edx r) (tf_ecx r) (tf_eax r)
    (tf_gs r) (tf_fs r) (tf_es r) (tf_ds r) (tf_trapno r) (tf_err r) (tf_eip r) (tf_cs r)
    (tf_eflags r) (tf_esp r) (tf_ss r).
Definition set_tf_ebx (v : Z) (r : trapframe) : trapframe :=
  mk_trapframe (tf_edi r) (tf_esi r) (tf_ebp r) (tf_oesp r) v (tf_edx r) (tf_ecx r) (tf_eax r)
    (tf_gs r) (tf_fs r) (tf_es r) (tf_ds r) (tf_trapno r) (tf_err r) (tf_eip r) (tf_cs r)
    (tf_eflags r) (tf_esp r) (tf_ss r).
Definition set_tf_edx (v : Z) (r : trapframe) : trapframe :=
  mk_trapframe (tf_edi r) (tf_esi r) (tf_ebp r) (tf_oesp r) (tf_ebx r) v (tf_ecx r) (tf_eax r)
    (tf_gs r) (tf_fs r) (tf_es r) (tf_ds r) (tf_trapno r) (tf_err r) (tf_eip r) (tf_cs r)
    (tf_eflags r) (tf_esp r) (tf_ss r).
Definition set_tf_ecx (v : Z) (r : trapframe) : trapframe :=
  mk_trapframe (tf_edi r) (tf_esi r) (tf_ebp r) (tf_oesp r) (tf_ebx r) (tf_edx r) v (tf_eax r)
    (tf_gs r) (tf_fs r) (tf_es r) (tf_ds r) (tf_trapno r) (tf_err r) (tf_eip r) (tf_cs r)
    (tf_eflags r) (tf_esp r) (tf_ss r).
Definition set_tf_eax (v : Z) (r : trapframe) : trapframe :=
  mk_trapframe (tf_edi r) (tf_esi r) (tf_ebp r) (tf_oesp r) (tf_ebx r) (tf_edx r) (tf_ecx r) v
    (tf_gs r) (tf_fs r) (tf_es r) (tf_ds r) (tf_trapno r) (tf_err r) (tf_eip r) (tf_cs r)
    (tf_eflags r) (tf_esp r) (tf_ss r).
Definition set_tf_gs (v : Z) (r : trapframe) : trapframe :=
  mk_trapframe (tf_edi r) (tf_esi r) (tf_ebp r) (tf_oesp r) (tf_ebx r) (tf_edx r) (tf_ecx r)
    (tf_eax r) v (tf_fs r) (tf_es r) (tf_ds r) (tf_trapno r) (tf_err r) (tf_eip r) (tf_cs r)
    (tf_eflags r) (tf_esp r) (tf_ss r).
Definition set_tf_fs (v : Z) (r : trapframe) : trapframe :=
  mk_trapframe (tf_edi r) (tf_esi r) (tf_ebp r) (tf_oesp r) (tf_ebx r) (tf_edx r) (tf_ecx r)
    (tf_eax r) (tf_gs r) v (tf_es r) (tf_ds r) (tf_trapno r) (tf_err r) (tf_eip r) (tf_cs r)
    (tf_eflags r) (tf_esp r) (tf_ss r).
Definition set_tf_es (v : Z) (r : trapframe) : trapframe :=
  mk_trapframe (tf_edi r) (tf_esi r) (tf_ebp r) (tf_oesp r) (tf_ebx r) (tf_edx r) (tf_ecx r)
    (tf_eax r) (tf_gs r) (tf_fs r) v (tf_ds r) (tf_trapno r) (tf_err r) (tf_eip r) (tf_cs r)
    (tf_eflags r) (tf_esp r) (tf_ss r).
Definition set_tf_ds (v : Z) (r : trapframe) : trapframe :=
  mk_trapframe (tf_edi r) (tf_esi r) (tf_ebp r) (tf_oesp r) (tf_ebx r) (tf_edx r) (tf_ecx r)
    (tf_eax r) (tf_gs r) (tf_fs r) (tf_es r) v (tf_trapno r) (tf_err r) (tf_eip r) (tf_cs r)
    (tf_eflags r) (tf_esp r) (tf_ss r).
Definition set_tf_trapno (v : Z) (r : trapframe) : trapframe :=
  mk_trapframe (tf_edi r) (tf_esi r) (tf_ebp r) (tf_oesp r) (tf_ebx r) (tf_edx r) (tf_ecx r)
    (tf_eax r) (tf_gs r) (tf_fs r) (tf_es r) (tf_ds r) v (tf_err r) (tf_eip r) (tf_cs r)
    (tf_eflags r) (tf_esp r) (tf_ss r).
Definition set_tf_err (v : Z) (r : trapframe) : trapframe :=
  mk_trapframe (tf_edi r) (tf_esi r) (tf_ebp r) (tf_oesp r) (tf_ebx r) (tf_edx r) (tf_ecx r)
    (tf_eax r) (tf_gs r) (tf_fs r) (tf_es r) (tf_ds r) (tf_trapno r) v (tf_eip r) (tf_cs r)
    (tf_eflags r) (tf_esp r) (tf_ss r).
Definition set_tf_eip (v : Z) (r : trapframe) : trapframe :=
  mk_trapframe (tf_edi r) (tf_esi r) (tf_ebp r) (tf_oesp r) (tf_ebx r) (tf_edx r) (tf_ecx r)
    (tf_eax r) (tf_gs r) (tf_fs r) (tf_es r) (tf_ds r) (tf_trapno r) (tf_err r) v (tf_cs r)
    (tf_eflags r) (tf_esp r) (tf_ss r).
Definition set_tf_cs (v : Z) (r : trapframe) : trapframe :=
  mk_trapframe (tf_edi r) (tf_esi r) (tf_ebp r) (tf_oesp r) (tf_ebx r) (tf_edx r) (tf_ecx r)
    (tf_eax r) (tf_gs r) (tf_fs r) (tf_es r) (tf_ds r) (tf_trapno r) (tf_err r) (tf_eip r) v
    (tf_eflags r) (tf_esp r) (tf_ss r).
Definition set_tf_eflags (v : Z) (r : trapframe) : trapframe :=
  mk_trapframe (tf_edi r) (tf_esi r) (tf_ebp r) (tf_oesp r) (tf_ebx r) (tf_edx r) (tf_ecx r)
    (tf_eax r) (tf_gs r) (tf_fs r) (tf_es r) (tf_ds r) (tf_trapno r) (tf_err r) (tf_eip r)
    (tf_cs r) v (tf_esp r) (tf_ss r).
Definition set_tf_esp (v : Z) (r : trapframe) : trapframe :=
  mk_trapframe (tf_edi r) (tf_esi r) (tf_ebp r) (tf_oesp r) (tf_ebx r) (tf_edx r) (tf_ecx r)
    (tf_eax r) (tf_gs r) (tf_fs r) (tf_es r) (tf_ds r) (tf_trapno r) (tf_err r) (tf_eip r)
    (tf_cs r) (tf_eflags r) v (tf_ss r).
Definition set_tf_ss (v : Z) (r : trapframe) : trapframe :=
  mk_trapframe (tf_edi r) (tf_esi r) (tf_ebp r) (tf_oesp r) (tf_ebx r) (tf_edx r) (tf_ecx r)
    (tf_eax r) (tf_gs r) (tf_fs r) (tf_es r) (tf_ds r) (tf_trapno r) (tf_err r) (tf_eip r)
    (tf_cs r) (tf_eflags r) (tf_esp r) v.
(* END trapframe *)

(* BEGIN context *)
Record context : Type := mk_context {
  cx_edi : Z;
  cx_esi : Z;
  cx_ebx : Z;
  cx_ebp : Z;
  cx_eip : Z;
}.

Definition set_cx_edi (v : Z) (r : context) : context :=
  mk_context v (cx_esi r) (cx_ebx r) (cx_ebp r) (cx_eip r).
Definition set_cx_esi (v : Z) (r : context) : context :=
  mk_context (cx_edi r) v (cx_ebx r) (cx_ebp r) (cx_eip r).
Definition set_cx_ebx (v : Z) (r : context) : context :=
  mk_context (cx_edi r) (cx_esi r) v (cx_ebp r) (cx_eip r).
Definition set_cx_ebp (v : Z) (r : context) : context :=
  mk_context (cx_edi r) (cx_esi r) (cx_ebx r) v (cx_eip r).
Definition set_cx_eip (v : Z) (r : context) : context :=
  mk_context (cx_edi r) (cx_esi r) (cx_ebx r) (cx_ebp r) v.
(* END context *)

(* BEGIN proc *)
Record proc : Type := mk_proc {
  p_sz : Z;
  p_pgdir : Z;
  p_kstack : Z;
  p_state : procstate;
  p_pid : Z;
  p_parent : option nat;
  p_tf : trapframe;
  p_context : context;
  p_chan : option channel;
  p_killed : Z;
  p_ofile : list (option nat);
  p_cwd : option nat;
  p_name : list Z;
  p_priority : Z;
  p_ctime : Z;
  p_etime : Z;
  p_rtime : Z;
}.

Definition set_p_sz (v : Z) (r : proc) : proc :=
  mk_proc v (p_pgdir r) (p_kstack r) (p_state r) (p_pid r) (p_parent r) (p_tf r) (p_context r)
    (p_chan r) (p_killed r) (p_ofile r) (p_cwd r) (p_name r) (p_priority r) (p_ctime r)
    (p_etime r) (p_rtime r).
Definition set_p_pgdir (v : Z) (r : proc) : proc :=
  mk_proc (p_sz r) v (p_kstack r) (p_state r) (p_pid r) (p_parent r) (p_tf r) (p_context r)
    (p_chan r) (p_killed r) (p_ofile r) (p_cwd r) (p_name r) (p_priority r) (p_ctime r)
    (p_etime r) (p_rtime r).
Definition set_p_kstack (v : Z) (r : proc) : proc :=
  mk_proc (p_sz r) (p_pgdir r) v (p_state r) (p_pid r) (p_parent r) (p_tf r) (p_context r)
    (p_chan r) (p_killed r) (p_ofile r) (p_cwd r) (p_name r) (p_priority r) (p_ctime r)
    (p_etime r) (p_rtime r).
Definition set_p_state (v : procstate) (r : proc) : proc :=
  mk_proc (p_sz r) (p_pgdir r) (p_kstack r) v (p_pid r) (p_parent r) (p_tf r) (p_context r)
    (p_chan r) (p_killed r) (p_ofile r) (p_cwd r) (p_name r) (p_priority r) (p_ctime r)
    (p_etime r) (p_rtime r).
Definition set_p_pid (v : Z) (r : proc) : proc :=
  mk_proc (p_sz r) (p_pgdir r) (p_kstack r) (p_state r) v (p_parent r) (p_tf r) (p_context r)
    (p_chan r) (p_killed r) (p_ofile r) (p_cwd r) (p_name r) (p_priority r) (p_ctime r)
    (p_etime r) (p_rtime r).
Definition set_p_parent (v : option nat) (r : proc) : proc :=
  mk_proc (p_sz r) (p_pgdir r) (p_kstack r) (p_state r) (p_pid r) v (p_tf r) (p_context r)
    (p_chan r) (p_killed r) (p_ofile r) (p_cwd r) (p_name r) (p_priority r) (p_ctime r)
    (p_etime r) (p_rtime r).
Definition set_p_tf (v : trapframe) (r : proc) : proc :=
  mk_proc (p_sz r) (p_pgdir r) (p_kstack r) (p_state r) (p_pid r) (p_parent r) v (p_context r)
    (p_chan r) (p_killed r) (p_ofile r) (p_cwd r) (p_name r) (p_priority r) (p_ctime r)
    (p_etime r) (p_rtime r).
Definition set_p_context (v : context) (r : proc) : proc :=
  mk_proc (p_sz r) (p_pgdir r) (p_kstack r) (p_state r) (p_pid r) (p_parent r) (p_tf r) v
    (p_chan r) (p_killed r) (p_ofile r) (p_cwd r) (p_name r) (p_priority r) (p_ctime r)
    (p_etime r) (p_rtime r).
Definition set_p_chan (v : option channel) (r : proc) : proc :=
  mk_proc (p_sz r) (p_pgdir r) (p_kstack r) (p_state r) (p_pid r) (p_parent r) (p_tf r)
    (p_context r) v (p_killed r) (p_ofile r) (p_cwd r) (p_name r) (p_priority r) (p_ctime r)
    (p_etime r) (p_rtime r).
Definition set_p_killed (v : Z) (r : proc) : proc :=
  mk_proc (p_sz r) (p_pgdir r) (p_kstack r) (p_state r) (p_pid r) (p_parent r) (p_tf r)
    (p_context r) (p_chan r) v (p_ofile r) (p_cwd r) (p_name r) (p_priority r) (p_ctime r)
    (p_etime r) (p_rtime r).
Definition set_p_ofile (v : list (option nat)) (r : proc) : proc :=
  mk_proc (p_sz r) (p_pgdir r) (p_kstack r) (p_state r) (p_pid r) (p_parent r) (p_tf r)
    (p_context r) (p_chan r) (p_killed r) v (p_cwd r) (p_name r) (p_priority r) (p_ctime r)
    (p_etime r) (p_rtime r).
Definition set_p_cwd (v : option nat) (r : proc) : proc :=
  mk_proc (p_sz r) (p_pgdir r) (p_kstack r) (p_state r) (p_pid r) (p_parent r) (p_tf r)
    (p_context r) (p_chan r) (p_killed r) (p_ofile r) v (p_name r) (p_priority r) (p_ctime r)
    (p_etime r) (p_rtime r).
Definition set_p_name (v : list Z) (r : proc) : proc :=
  mk_proc (p_sz r) (p_pgdir r) (p_kstack r) (p_state r) (p_pid r) (p_parent r) (p_tf r)
    (p_context r) (p_chan r) (p_killed r) (p_ofile r) (p_cwd r) v (p_priority r) (p_ctime r)
    (p_etime r) (p_rtime r).
Definition set_p_priority (v : Z) (r : proc) : proc :=
  mk_proc (p_sz r) (p_pgdir r) (p_kstack r) (p_state r) (p_pid r) (p_parent r) (p_tf r)
    (p_context r) (p_chan r) (p_killed r) (p_ofile r) (p_cwd r) (p_name r) v (p_ctime r)
    (p_etime r) (p_rtime r).
Definition set_p_ctime (v : Z) (r : proc) : proc :=
  mk_proc (p_sz r) (p_pgdir r) (p_kstack r) (p_state r) (p_pid r) (p_parent r) (p_tf r)
    (p_context r) (p_chan r) (p_killed r) (p_ofile r) (p_cwd r) (p_name r) (p_priority r) v
    (p_etime r) (p_rtime r).
Definition set_p_etime (v : Z) (r : proc) : proc :=
  mk_proc (p_sz r) (p_pgdir r) (p_kstack r) (p_state r) (p_pid r) (p_parent r) (p_tf r)
    (p_context r) (p_chan r) (p_killed r) (p_ofile r) (p_cwd r) (p_name r) (p_priority r)
    (p_ctime r) v (p_rtime r).
Definition set_p_rtime (v : Z) (r : proc) : proc :=
  mk_proc (p_sz r) (p_pgdir r) (p_kstack r) (p_state r) (p_pid r) (p_parent r) (p_tf r)
    (p_context r) (p_chan r) (p_killed r) (p_ofile r) (p_cwd r) (p_name r) (p_priority r)
    (p_ctime r) (p_etime r) v.
(* END proc *)

(* BEGIN file *)
Record file : Type := mk_file {
  f_type : filetype;
  f_ref : Z;
  f_readable : Z;
  f_writable : Z;
  f_pipe : Z;
  f_ip : option nat;
  f_off : Z;
}.

Definition set_f_type (v : filetype) (r : file) : file :=
  mk_file v (f_ref r) (f_readable r) (f_writable r) (f_pipe r) (f_ip r) (f_off r).
Definition set_f_ref (v : Z) (r : file) : file :=
  mk_file (f_type r) v (f_readable r) (f_writable r) (f_pipe r) (f_ip r) (f_off r).
Definition set_f_readable (v : Z) (r : file) : file :=
  mk_file (f_type r) (f_ref r) v (f_writable r) (f_pipe r) (f_ip r) (f_off r).
Definition set_f_writable (v : Z) (r : file) : file :=
  mk_file (f_type r) (f_ref r) (f_readable r) v (f_pipe r) (f_ip r) (f_off r).
Definition set_f_pipe (v : Z) (r : file) : file :=
  mk_file (f_type r) (f_ref r) (f_readable r) (f_writable r) v (f_ip r) (f_off r).
Definition set_f_ip (v : option nat) (r : file) : file :=
  mk_file (f_type r) (f_ref r) (f_readable r) (f_writable r) (f_pipe r) v (f_off r).
Definition set_f_off (v : Z) (r : file) : file :=
  mk_file (f_type r) (f_ref r) (f_readable r) (f_writable r) (f_pipe r) (f_ip r) v.
(* END file *)

(* BEGIN inode *)
Record inode : Type := mk_inode {
  i_dev : Z;
  i_inum : Z;
  i_ref : Z;
  i_locked : bool;
  i_lkpid : Z;
  i_valid : bool;
  i_type : Z;
  i_major : Z;
  i_minor : Z;
  i_nlink : Z;
  i_size : Z;
  i_addrs : list Z;
}.

Definition set_i_dev (v : Z) (r : inode) : inode :=
  mk_inode v (i_inum r) (i_ref r) (i_locked r) (i_lkpid r) (i_valid r) (i_type r) (i_major r)
    (i_minor r) (i_nlink r) (i_size r) (i_addrs r).
Definition set_i_inum (v : Z) (r : inode) : inode :=
  mk_inode (i_dev r) v (i_ref r) (i_locked r) (i_lkpid r) (i_valid r) (i_type r) (i_major r)
    (i_minor r) (i_nlink r) (i_size r) (i_addrs r).
Definition set_i_ref (v : Z) (r : inode) : inode :=
  mk_inode (i_dev r) (i_inum r) v (i_locked r) (i_lkpid r) (i_valid r) (i_type r) (i_major r)
    (i_minor r) (i_nlink r) (i_size r) (i_addrs r).
Definition set_i_locked (v : bool) (r : inode) : inode :=
  mk_inode (i_dev r) (i_inum r) (i_ref r) v (i_lkpid r) (i_valid r) (i_type r) (i_major r)
    (i_minor r) (i_nlink r) (i_size r) (i_addrs r).
Definition set_i_lkpid (v : Z) (r : inode) : inode :=
  mk_inode (i_dev r) (i_inum r) (i_ref r) (i_locked r) v (i_valid r) (i_type r) (i_major r)
    (i_minor r) (i_nlink r) (i_size r) (i_addrs r).
Definition set_i_valid (v : bool) (r : inode) : inode :=
  mk_inode (i_dev r) (i_inum r) (i_ref r) (i_locked r) (i_lkpid r) v (i_type r) (i_major r)
    (i_minor r) (i_nlink r) (i_size r) (i_addrs r).
Definition set_i_type (v : Z) (r : inode) : inode :=
  mk_inode (i_dev r) (i_inum r) (i_ref r) (i_locked r) (i_lkpid r) (i_valid r) v (i_major r)
    (i_minor r) (i_nlink r) (i_size r) (i_addrs r).
Definition set_i_major (v : Z) (r : inode) : inode :=
  mk_inode (i_dev r) (i_inum r) (i_ref r) (i_locked r) (i_lkpid r) (i_valid r) (i_type r) v
    (i_minor r) (i_nlink r) (i_size r) (i_addrs r).
Definition set_i_minor (v : Z) (r : inode) : inode :=
  mk_inode (i_dev r) (i_inum r) (i_ref r) (i_locked r) (i_lkpid r) (i_valid r) (i_type r)
    (i_major r) v (i_nlink r) (i_size r) (i_addrs r).
Definition set_i_nlink (v : Z) (r : inode) : inode :=
  mk_inode (i_dev r) (i_inum r) (i_ref r) (i_locked r) (i_lkpid r) (i_valid r) (i_type r)
    (i_major r) (i_minor r) v (i_size r) (i_addrs r).
Definition set_i_size (v : Z) (r : inode) : inode :=
  mk_inode (i_dev r) (i_inum r) (i_ref r) (i_locked r) (i_lkpid r) (i_valid r) (i_type r)
    (i_major r) (i_minor r) (i_nlink r) v (i_addrs r).
Definition set_i_addrs (v : list Z) (r : inode) : inode :=
  mk_inode (i_dev r) (i_inum r) (i_ref r) (i_locked r) (i_lkpid r) (i_valid r) (i_type r)
    (i_major r) (i_minor r) (i_nlink r) (i_size r) v.
(* END inode *)

(* BEGIN umutex *)
Record umutex : Type := mk_umutex {
  mx_allocated : bool;
  mx_locked : bool;
  mx_pid : Z;
}.

Definition set_mx_allocated (v : bool) (r : umutex) : umutex :=
  mk_umutex v (mx_locked r) (mx_pid r).
Definition set_mx_locked (v : bool) (r : umutex) : umutex :=
  mk_umutex (mx_allocated r) v (mx_pid r).
Definition set_mx_pid (v : Z) (r : umutex) : umutex :=
  mk_umutex (mx_allocated r) (mx_locked r) v.
(* END umutex *)

(* BEGIN msg_node *)
Record msg_node : Type := mk_msg_node {
  mn_next : Z;
  mn_msgtyp : Z;
  mn_length : Z;
  mn_data : list Z;
}.

Definition set_mn_next (v : Z) (r : msg_node) : msg_node :=
  mk_msg_node v (mn_msgtyp r) (mn_length r) (mn_data r).
Definition set_mn_msgtyp (v : Z) (r : msg_node) : msg_node :=
  mk_msg_node (mn_next r) v (mn_length r) (mn_data r).
Definition set_mn_length (v : Z) (r : msg_node) : msg_node :=
  mk_msg_node (mn_next r) (mn_msgtyp r) v (mn_data r).
Definition set_mn_data (v : list Z) (r : msg_node) : msg_node :=
  mk_msg_node (mn_next r) (mn_msgtyp r) (mn_length r) v.
(* END msg_node *)

(* BEGIN msg_queue *)
Record msg_queue : Type := mk_msg_queue {
  mq_next : Z;
  mq_id : Z;
  mq_key : Z;
  mq_head : Z;
  mq_tail : Z;
}.

Definition set_mq_next (v : Z) (r : msg_queue) : msg_queue :=
  mk_msg_queue v (mq_id r) (mq_key r) (mq_head r) (mq_tail r).
Definition set_mq_id (v : Z) (r : msg_queue) : msg_queue :=
  mk_msg_queue (mq_next r) v (mq_key r) (mq_head r) (mq_tail r).
Definition set_mq_key (v : Z) (r : msg_queue) : msg_queue :=
  mk_msg_queue (mq_next r) (mq_id r) v (mq_head r) (mq_tail r).
Definition set_mq_head (v : Z) (r : msg_queue) : msg_queue :=
  mk_msg_queue (mq_next r) (mq_id r) (mq_key r) v (mq_tail r).
Definition set_mq_tail (v : Z) (r : msg_queue) : msg_queue :=
  mk_msg_queue (mq_next r) (mq_id r) (mq_key r) (mq_head r) v.
(* END msg_queue *)

(* BEGIN shm_region *)
Record shm_region : Type := mk_shm_region {
  sr_page : Z;
  sr_refcnt : Z;
}.

Definition set_sr_page (v : Z) (r : shm_region) : shm_region :=
  mk_shm_region v (sr_refcnt r).
Definition set_sr_refcnt (v : Z) (r : shm_region) : shm_region :=
  mk_shm_region (sr_page r) v.
(* END shm_region *)

(** A pipe (pipe.c). *)

(* BEGIN pipe *)
Record pipe : Type := mk_pipe {
  pi_data : list Z;
  pi_nread : Z;
  pi_nwrite : Z;
  pi_readopen : Z;
  pi_writeopen : Z;
}.

Definition set_pi_data (v : list Z) (r : pipe) : pipe :=
  mk_pipe v (pi_nread r) (pi_nwrite r) (pi_readopen r) (pi_writeopen r).
Definition set_pi_nread (v : Z) (r : pipe) : pipe :=
  mk_pipe (pi_data r) v (pi_nwrite r) (pi_readopen r) (pi_writeopen r).
Definition set_pi_nwrite (v : Z) (r : pipe) : pipe :=
  mk_pipe (pi_data r) (pi_nread r) v (pi_readopen r) (pi_writeopen r).
Definition set_pi_readopen (v : Z) (r : pipe) : pipe :=
  mk_pipe (pi_data r) (pi_nread r) (pi_nwrite r) v (pi_writeopen r).
Definition set_pi_writeopen (v : Z) (r : pipe) : pipe :=
  mk_pipe (pi_data r) (pi_nread r) (pi_nwrite r) (pi_readopen r) v.
(* END pipe *)

(** A buffer of the cache (buf.h); its sleep lock is [b_locked], [b_lkpid]. *)

(* BEGIN buf *)
Record buf : Type := mk_buf {
  b_flags : Z;
  b_dev : Z;
  b_blockno : Z;
  b_locked : bool;
  b_lkpid : Z;
  b_refcnt : Z;
  b_data : list Z;
}.

Definition set_b_flags (v : Z) (r : buf) : buf :=
  mk_buf v (b_dev r) (b_blockno r) (b_locked r) (b_lkpid r) (b_refcnt r) (b_data r).
Definition set_b_dev (v : Z) (r : buf) : buf :=
  mk_buf (b_flags r) v (b_blockno r) (b_locked r) (b_lkpid r) (b_refcnt r) (b_data r).
Definition set_b_blockno (v : Z) (r : buf) : buf :=
  mk_buf (b_flags r) (b_dev r) v (b_locked r) (b_lkpid r) (b_refcnt r) (b_data r).
Definition set_b_locked (v : bool) (r : buf) : buf :=
  mk_buf (b_flags r) (b_dev r) (b_blockno r) v (b_lkpid r) (b_refcnt r) (b_data r).
Definition set_b_lkpid (v : Z) (r : buf) : buf :=
  mk_buf (b_flags r) (b_dev r) (b_blockno r) (b_locked r) v (b_refcnt r) (b_data r).
Definition set_b_refcnt (v : Z) (r : buf) : buf :=
  mk_buf (b_flags r) (b_dev r) (b_blockno r) (b_locked r) (b_lkpid r) v (b_data r).
Definition set_b_data (v : list Z) (r : buf) : buf :=
  mk_buf (b_flags r) (b_dev r) (b_blockno r) (b_locked r) (b_lkpid r) (b_refcnt r) v.
(* END buf *)

(** The super block (fs.h). *)

(* BEGIN superblock *)
Record superblock : Type := mk_superblock {
  sb_size : Z;
  sb_nblocks : Z;
  sb_ninodes : Z;
  sb_nlog : Z;
  sb_logstart : Z;
  sb_inodestart : Z;
  sb_bmapstart : Z;
}.

Definition set_sb_size (v : Z) (r : superblock) : superblock :=
  mk_superblock v (sb_nblocks r) (sb_ninodes r) (sb_nlog r) (sb_logstart r) (sb_inodestart r)
    (sb_bmapstart r).
Definition set_sb_nblocks (v : Z) (r : superblock) : superblock :=
  mk_superblock (sb_size r) v (sb_ninodes r) (sb_nlog r) (sb_logstart r) (sb_inodestart r)
    (sb_bmapstart r).
Definition set_sb_ninodes (v : Z) (r : superblock) : superblock :=
  mk_superblock (sb_size r) (sb_nblocks r) v (sb_nlog r) (sb_logstart r) (sb_inodestart r)
    (sb_bmapstart r).
Definition set_sb_nlog (v : Z) (r : superblock) : superblock :=
  mk_superblock (sb_size r) (sb_nblocks r) (sb_ninodes r) v (sb_logstart r) (sb_inodestart r)
    (sb_bmapstart r).
Definition set_sb_logstart (v : Z) (r : superblock) : superblock :=
  mk_superblock (sb_size r) (sb_nblocks r) (sb_ninodes r) (sb_nlog r) v (sb_inodestart r)
    (sb_bmapstart r).
Definition set_sb_inodestart (v : Z) (r : superblock) : superblock :=
  mk_superblock (sb_size r) (sb_nblocks r) (sb_ninodes r) (sb_nlog r) (sb_logstart r) v
    (sb_bmapstart r).
Definition set_sb_bmapstart (v : Z) (r : superblock) : superblock :=
  mk_superblock (sb_size r) (sb_nblocks r) (sb_ninodes r) (sb_nlog r) (sb_logstart r)
    (sb_inodestart r) v.
(* END superblock *)

(** The log with its header in memory (log.c). *)

(* BEGIN logst *)
Record logst : Type := mk_logst {
  lg_start : Z;
  lg_size : Z;
  lg_outstanding : Z;
  lg_committing : bool;
  lg_dev : Z;
  lg_n : Z;
  lg_block : list Z;
}.

Definition set_lg_start (v : Z) (r : logst) : logst :=
  mk_logst v (lg_size r) (lg_outstanding r) (lg_committing r) (lg_dev r) (lg_n r) (lg_block r).
Definition set_lg_size (v : Z) (r : logst) : logst :=
  mk_logst (lg_start r) v (lg_outstanding r) (lg_committing r) (lg_dev r) (lg_n r) (lg_block r).
Definition set_lg_outstanding (v : Z) (r : logst) : logst :=
  mk_logst (lg_start r) (lg_size r) v (lg_committing r) (lg_dev r) (lg_n r) (lg_block r).
Definition set_lg_committing (v : bool) (r : logst) : logst :=
  mk_logst (lg_start r) (lg_size r) (lg_outstanding r) v (lg_dev r) (lg_n r) (lg_block r).
Definition set_lg_dev (v : Z) (r : logst) : logst :=
  mk_logst (lg_start r) (lg_size r) (lg_outstanding r) (lg_committing r) v (lg_n r) (lg_block r).
Definition set_lg_n (v : Z) (r : logst) : logst :=
  mk_logst (lg_start r) (lg_size r) (lg_outstanding r) (lg_committing r) (lg_dev r) v
    (lg_block r).
Definition set_lg_block (v : list Z) (r : logst) : logst :=
  mk_logst (lg_start r) (lg_size r) (lg_outstanding r) (lg_committing r) (lg_dev r) (lg_n r) v.
(* END logst *)

(** The line buffer of the console (console.c). *)

(* BEGIN cinput *)
Record cinput : Type := mk_cinput {
  in_buf : list Z;
  in_r : Z;
  in_w : Z;
  in_e : Z;
}.

Definition set_in_buf (v : list Z) (r : cinput) : cinput :=
  mk_cinput v (in_r r) (in_w r) (in_e r).
Definition set_in_r (v : Z) (r : cinput) : cinput :=
  mk_cinput (in_buf r) v (in_w r) (in_e r).
Definition set_in_w (v : Z) (r : cinput) : cinput :=
  mk_cinput (in_buf r) (in_r r) v (in_e r).
Definition set_in_e (v : Z) (r : cinput) : cinput :=
  mk_cinput (in_buf r) (in_r r) (in_w r) v.
(* END cinput *)

(** ** The global variables *)

(* BEGIN kstate *)
Record kstate : Type := mk_kstate {
  held : list lockid;
  cur : option nat;
  mem : Z -> Z;
  freelist : Z;
  use_lock : bool;
  ptable : list proc;
  nextpid : Z;
  ticks : Z;
  initproc : option nat;
  forkret_first : bool;
  cr3 : Z;
  kpgdir : Z;
  shmtable : list shm_region;
  shm_pages : list Z;
  user_mutexes : list umutex;
  mutex_table_inited : bool;
  queue_list_head : Z;
  queue_list_initialized : bool;
  next_queue_id : Z;
  queues : gmap Z msg_queue;
  nodes : gmap Z msg_node;
  ftable : list file;
  icache : list inode;
  ncpu : Z;
  cons_locking : bool;
  out : list Z;
  pipes : gmap Z pipe;
  bufs : list buf;
  lru : list nat;
  klog : logst;
  sb : superblock;
  disk0 : Z -> list Z;
  writes : list (Z * list Z);
  input : cinput;
}.

Definition set_held (v : list lockid) (r : kstate) : kstate :=
  mk_kstate v (cur r) (mem r) (freelist r) (use_lock r) (ptable r) (nextpid r) (ticks r)
    (initproc r) (forkret_first r) (cr3 r) (kpgdir r) (shmtable r) (shm_pages r)
    (user_mutexes r) (mutex_table_inited r) (queue_list_head r) (queue_list_initialized r)
    (next_queue_id r) (queues r) (nodes r) (ftable r) (icache r) (ncpu r) (cons_locking r)
    (out r) (pipes r) (bufs r) (lru r) (klog r) (sb r) (disk0 r) (writes r) (input r).
Definition set_cur (v : option nat) (r : kstate) : kstate :=
  mk_kstate (held r) v (mem r) (freelist r) (use_lock r) (ptable r) (nextpid r) (ticks r)
    (initproc r) (forkret_first r) (cr3 r) (kpgdir r) (shmtable r) (shm_pages r)
    (user_mutexes r) (mutex_table_inited r) (queue_list_head r) (queue_list_initialized r)
    (next_queue_id r) (queues r) (nodes r) (ftable r) (icache r) (ncpu r) (cons_locking r)
    (out r) (pipes r) (bufs r) (lru r) (klog r) (sb r) (disk0 r) (writes r) (input r).
Definition set_mem (v : Z -> Z) (r : kstate) : kstate :=
  mk_kstate (held r) (cur r) v (freelist r) (use_lock r) (ptable r) (nextpid r) (ticks r)
    (initproc r) (forkret_first r) (cr3 r) (kpgdir r) (shmtable r) (shm_pages r)
    (user_mutexes r) (mutex_table_inited r) (queue_list_head r) (queue_list_initialized r)
    (next_queue_id r) (queues r) (nodes r) (ftable r) (icache r) (ncpu r) (cons_locking r)
    (out r) (pipes r) (bufs r) (lru r) (klog r) (sb r) (disk0 r) (writes r) (input r).
Definition set_freelist (v : Z) (r : kstate) : kstate :=
  mk_kstate (held r) (cur r) (mem r) v (use_lock r) (ptable r) (nextpid r) (ticks r)
    (initproc r) (forkret_first r) (cr3 r) (kpgdir r) (shmtable r) (shm_pages r)
    (user_mutexes r) (mutex_table_inited r) (queue_list_head r) (queue_list_initialized r)
    (next_queue_id r) (queues r) (nodes r) (ftable r) (icache r) (ncpu r) (cons_locking r)
    (out r) (pipes r) (bufs r) (lru r) (klog r) (sb r) (disk0 r) (writes r) (input r).
Definition set_use_lock (v : bool) (r : kstate) : kstate :=
  mk_kstate (held r) (cur r) (mem r) (freelist r) v (ptable r) (nextpid r) (ticks r)
    (initproc r) (forkret_first r) (cr3 r) (kpgdir r) (shmtable r) (shm_pages r)
    (user_mutexes r) (mutex_table_inited r) (queue_list_head r) (queue_list_initialized r)
    (next_queue_id r) (queues r) (nodes r) (ftable r) (icache r) (ncpu r) (cons_locking r)
    (out r) (pipes r) (bufs r) (lru r) (klog r) (sb r) (disk0 r) (writes r) (input r).
Definition set_ptable (v : list proc) (r : kstate) : kstate :=
  mk_kstate (held r) (cur r) (mem r) (freelist r) (use_lock r) v (nextpid r) (ticks r)
    (initproc r) (forkret_first r) (cr3 r) (kpgdir r) (shmtable r) (shm_pages r)
    (user_mutexes r) (mutex_table_inited r) (queue_list_head r) (queue_list_initialized r)
    (next_queue_id r) (queues r) (nodes r) (ftable r) (icache r) (ncpu r) (cons_locking r)
    (out r) (pipes r) (bufs r) (lru r) (klog r) (sb r) (disk0 r) (writes r) (input r).
Definition set_nextpid (v : Z) (r : kstate) : kstate :=
  mk_kstate (held r) (cur r) (mem r) (freelist r) (use_lock r) (ptable r) v (ticks r)
    (initproc r) (forkret_first r) (cr3 r) (kpgdir r) (shmtable r) (shm_pages r)
    (user_mutexes r) (mutex_table_inited r) (queue_list_head r) (queue_list_initialized r)
    (next_queue_id r) (queues r) (nodes r) (ftable r) (icache r) (ncpu r) (cons_locking r)
    (out r) (pipes r) (bufs r) (lru r) (klog r) (sb r) (disk0 r) (writes r) (input r).
Definition set_ticks (v : Z) (r : kstate) : kstate :=
  mk_kstate (held r) (cur r) (mem r) (freelist r) (use_lock r) (ptable r) (nextpid r) v
    (initproc r) (forkret_first r) (cr3 r) (kpgdir r) (shmtable r) (shm_pages r)
    (user_mutexes r) (mutex_table_inited r) (queue_list_head r) (queue_list_initialized r)
    (next_queue_id r) (queues r) (nodes r) (ftable r) (icache r) (ncpu r) (cons_locking r)
    (out r) (pipes r) (bufs r) (lru r) (klog r) (sb r) (disk0 r) (writes r) (input r).
Definition set_initproc (v : option nat) (r : kstate) : kstate :=
  mk_kstate (held r) (cur r) (mem r) (freelist r) (use_lock r) (ptable r) (nextpid r) (ticks r)
    v (forkret_first r) (cr3 r) (kpgdir r) (shmtable r) (shm_pages r) (user_mutexes r)
    (mutex_table_inited r) (queue_list_head r) (queue_list_initialized r) (next_queue_id r)
    (queues r) (nodes r) (ftable r) (icache r) (ncpu r) (cons_locking r) (out r) (pipes r)
    (bufs r) (lru r) (klog r) (sb r) (disk0 r) (writes r) (input r).
Definition set_forkret_first (v : bool) (r : kstate) : kstate :=
  mk_kstate (held r) (cur r) (mem r) (freelist r) (use_lock r) (ptable r) (nextpid r) (ticks r)
    (initproc r) v (cr3 r) (kpgdir r) (shmtable r) (shm_pages r) (user_mutexes r)
    (mutex_table_inited r) (queue_list_head r) (queue_list_initialized r) (next_queue_id r)
    (queues r) (nodes r) (ftable r) (icache r) (ncpu r) (cons_locking r) (out r) (pipes r)
    (bufs r) (lru r) (klog r) (sb r) (disk0 r) (writes r) (input r).
Definition set_cr3 (v : Z) (r : kstate) : kstate :=
  mk_kstate (held r) (cur r) (mem r) (freelist r) (use_lock r) (ptable r) (nextpid r) (ticks r)
    (initproc r) (forkret_first r) v (kpgdir r) (shmtable r) (shm_pages r) (user_mutexes r)
    (mutex_table_inited r) (queue_list_head r) (queue_list_initialized r) (next_queue_id r)
    (queues r) (nodes r) (ftable r) (icache r) (ncpu r) (cons_locking r) (out r) (pipes r)
    (bufs r) (lru r) (klog r) (sb r) (disk0 r) (writes r) (input r).
Definition set_kpgdir (v : Z) (r : kstate) : kstate :=
  mk_kstate (held r) (cur r) (mem r) (freelist r) (use_lock r) (ptable r) (nextpid r) (ticks r)
    (initproc r) (forkret_first r) (cr3 r) v (shmtable r) (shm_pages r) (user_mutexes r)
    (mutex_table_inited r) (queue_list_head r) (queue_list_initialized r) (next_queue_id r)
    (queues r) (nodes r) (ftable r) (icache r) (ncpu r) (cons_locking r) (out r) (pipes r)
    (bufs r) (lru r) (klog r) (sb r) (disk0 r) (writes r) (input r).
Definition set_shmtable (v : list shm_region) (r : kstate) : kstate :=
  mk_kstate (held r) (cur r) (mem r) (freelist r) (use_lock r) (ptable r) (nextpid r) (ticks r)
    (initproc r) (forkret_first r) (cr3 r) (kpgdir r) v (shm_pages r) (user_mutexes r)
    (mutex_table_inited r) (queue_list_head r) (queue_list_initialized r) (next_queue_id r)
    (queues r) (nodes r) (ftable r) (icache r) (ncpu r) (cons_locking r) (out r) (pipes r)
    (bufs r) (lru r) (klog r) (sb r) (disk0 r) (writes r) (input r).
Definition set_shm_pages (v : list Z) (r : kstate) : kstate :=
  mk_kstate (held r) (cur r) (mem r) (freelist r) (use_lock r) (ptable r) (nextpid r) (ticks r)
    (initproc r) (forkret_first r) (cr3 r) (kpgdir r) (shmtable r) v (user_mutexes r)
    (mutex_table_inited r) (queue_list_head r) (queue_list_initialized r) (next_queue_id r)
    (queues r) (nodes r) (ftable r) (icache r) (ncpu r) (cons_locking r) (out r) (pipes r)
    (bufs r) (lru r) (klog r) (sb r) (disk0 r) (writes r) (input r).
Definition set_user_mutexes (v : list umutex) (r : kstate) : kstate :=
  mk_kstate (held r) (cur r) (mem r) (freelist r) (use_lock r) (ptable r) (nextpid r) (ticks r)
    (initproc r) (forkret_first r) (cr3 r) (kpgdir r) (shmtable r) (shm_pages r) v
    (mutex_table_inited r) (queue_list_head r) (queue_list_initialized r) (next_queue_id r)
    (queues r) (nodes r) (ftable r) (icache r) (ncpu r) (cons_locking r) (out r) (pipes r)
    (bufs r) (lru r) (klog r) (sb r) (disk0 r) (writes r) (input r).
Definition set_mutex_table_inited (v : bool) (r : kstate) : kstate :=
  mk_kstate (held r) (cur r) (mem r) (freelist r) (use_lock r) (ptable r) (nextpid r) (ticks r)
    (initproc r) (forkret_first r) (cr3 r) (kpgdir r) (shmtable r) (shm_pages r)
    (user_mutexes r) v (queue_list_head r) (queue_list_initialized r) (next_queue_id r)
    (queues r) (nodes r) (ftable r) (icache r) (ncpu r) (cons_locking r) (out r) (pipes r)
    (bufs r) (lru r) (klog r) (sb r) (disk0 r) (writes r) (input r).
Definition set_queue_list_head (v : Z) (r : kstate) : kstate :=
  mk_kstate (held r) (cur r) (mem r) (freelist r) (use_lock r) (ptable r) (nextpid r) (ticks r)
    (initproc r) (forkret_first r) (cr3 r) (kpgdir r) (shmtable r) (shm_pages r)
    (user_mutexes r) (mutex_table_inited r) v (queue_list_initialized r) (next_queue_id r)
    (queues r) (nodes r) (ftable r) (icache r) (ncpu r) (cons_locking r) (out r) (pipes r)
    (bufs r) (lru r) (klog r) (sb r) (disk0 r) (writes r) (input r).
Definition set_queue_list_initialized (v : bool) (r : kstate) : kstate :=
  mk_kstate (held r) (cur r) (mem r) (freelist r) (use_lock r) (ptable r) (nextpid r) (ticks r)
    (initproc r) (forkret_first r) (cr3 r) (kpgdir r) (shmtable r) (shm_pages r)
    (user_mutexes r) (mutex_table_inited r) (queue_list_head r) v (next_queue_id r) (queues r)
    (nodes r) (ftable r) (icache r) (ncpu r) (cons_locking r) (out r) (pipes r) (bufs r) (lru r)
    (klog r) (sb r) (disk0 r) (writes r) (input r).
Definition set_next_queue_id (v : Z) (r : kstate) : kstate :=
  mk_kstate (held r) (cur r) (mem r) (freelist r) (use_lock r) (ptable r) (nextpid r) (ticks r)
    (initproc r) (forkret_first r) (cr3 r) (kpgdir r) (shmtable r) (shm_pages r)
    (user_mutexes r) (mutex_table_inited r) (queue_list_head r) (queue_list_initialized r) v
    (queues r) (nodes r) (ftable r) (icache r) (ncpu r) (cons_locking r) (out r) (pipes r)
    (bufs r) (lru r) (klog r) (sb r) (disk0 r) (writes r) (input r).
Definition set_queues (v : gmap Z msg_queue) (r : kstate) : kstate :=
  mk_kstate (held r) (cur r) (mem r) (freelist r) (use_lock r) (ptable r) (nextpid r) (ticks r)
    (initproc r) (forkret_first r) (cr3 r) (kpgdir r) (shmtable r) (shm_pages r)
    (user_mutexes r) (mutex_table_inited r) (queue_list_head r) (queue_list_initialized r)
    (next_queue_id r) v (nodes r) (ftable r) (icache r) (ncpu r) (cons_locking r) (out r)
    (pipes r) (bufs r) (lru r) (klog r) (sb r) (disk0 r) (writes r) (input r).
Definition set_nodes (v : gmap Z msg_node) (r : kstate) : kstate :=
  mk_kstate (held r) (cur r) (mem r) (freelist r) (use_lock r) (ptable r) (nextpid r) (ticks r)
    (initproc r) (forkret_first r) (cr3 r) (kpgdir r) (shmtable r) (shm_pages r)
    (user_mutexes r) (mutex_table_inited r) (queue_list_head r) (queue_list_initialized r)
    (next_queue_id r) (queues r) v (ftable r) (icache r) (ncpu r) (cons_locking r) (out r)
    (pipes r) (bufs r) (lru r) (klog r) (sb r) (disk0 r) (writes r) (input r).
Definition set_ftable (v : list file) (r : kstate) : kstate :=
  mk_kstate (held r) (cur r) (mem r) (freelist r) (use_lock r) (ptable r) (nextpid r) (ticks r)
    (initproc r) (forkret_first r) (cr3 r) (kpgdir r) (shmtable r) (shm_pages r)
    (user_mutexes r) (mutex_table_inited r) (queue_list_head r) (queue_list_initialized r)
    (next_queue_id r) (queues r) (nodes r) v (icache r) (ncpu r) (cons_locking r) (out r)
    (pipes r) (bufs r) (lru r) (klog r) (sb r) (disk0 r) (writes r) (input r).
Definition set_icache (v : list inode) (r : kstate) : kstate :=
  mk_kstate (held r) (cur r) (mem r) (freelist r) (use_lock r) (ptable r) (nextpid r) (ticks r)
    (initproc r) (forkret_first r) (cr3 r) (kpgdir r) (shmtable r) (shm_pages r)
    (user_mutexes r) (mutex_table_inited r) (queue_list_head r) (queue_list_initialized r)
    (next_queue_id r) (queues r) (nodes r) (ftable r) v (ncpu r) (cons_locking r) (out r)
    (pipes r) (bufs r) (lru r) (klog r) (sb r) (disk0 r) (writes r) (input r).
Definition set_ncpu (v : Z) (r : kstate) : kstate :=
  mk_kstate (held r) (cur r) (mem r) (freelist r) (use_lock r) (ptable r) (nextpid r) (ticks r)
    (initproc r) (forkret_first r) (cr3 r) (kpgdir r) (shmtable r) (shm_pages r)
    (user_mutexes r) (mutex_table_inited r) (queue_list_head r) (queue_list_initialized r)
    (next_queue_id r) (queues r) (nodes r) (ftable r) (icache r) v (cons_locking r) (out r)
    (pipes r) (bufs r) (lru r) (klog r) (sb r) (disk0 r) (writes r) (input r).
Definition set_cons_locking (v : bool) (r : kstate) : kstate :=
  mk_kstate (held r) (cur r) (mem r) (freelist r) (use_lock r) (ptable r) (nextpid r) (ticks r)
    (initproc r) (forkret_first r) (cr3 r) (kpgdir r) (shmtable r) (shm_pages r)
    (user_mutexes r) (mutex_table_inited r) (queue_list_head r) (queue_list_initialized r)
    (next_queue_id r) (queues r) (nodes r) (ftable r) (icache r) (ncpu r) v (out r) (pipes r)
    (bufs r) (lru r) (klog r) (sb r) (disk0 r) (writes r) (input r).
Definition set_out (v : list Z) (r : kstate) : kstate :=
  mk_kstate (held r) (cur r) (mem r) (freelist r) (use_lock r) (ptable r) (nextpid r) (ticks r)
    (initproc r) (forkret_first r) (cr3 r) (kpgdir r) (shmtable r) (shm_pages r)
    (user_mutexes r) (mutex_table_inited r) (queue_list_head r) (queue_list_initialized r)
    (next_queue_id r) (queues r) (nodes r) (ftable r) (icache r) (ncpu r) (cons_locking r) v
    (pipes r) (bufs r) (lru r) (klog r) (sb r) (disk0 r) (writes r) (input r).
Definition set_pipes (v : gmap Z pipe) (r : kstate) : kstate :=
  mk_kstate (held r) (cur r) (mem r) (freelist r) (use_lock r) (ptable r) (nextpid r) (ticks r)
    (initproc r) (forkret_first r) (cr3 r) (kpgdir r) (shmtable r) (shm_pages r)
    (user_mutexes r) (mutex_table_inited r) (queue_list_head r) (queue_list_initialized r)
    (next_queue_id r) (queues r) (nodes r) (ftable r) (icache r) (ncpu r) (cons_locking r)
    (out r) v (bufs r) (lru r) (klog r) (sb r) (disk0 r) (writes r) (input r).
Definition set_bufs (v : list buf) (r : kstate) : kstate :=
  mk_kstate (held r) (cur r) (mem r) (freelist r) (use_lock r) (ptable r) (nextpid r) (ticks r)
    (initproc r) (forkret_first r) (cr3 r) (kpgdir r) (shmtable r) (shm_pages r)
    (user_mutexes r) (mutex_table_inited r) (queue_list_head r) (queue_list_initialized r)
    (next_queue_id r) (queues r) (nodes r) (ftable r) (icache r) (ncpu r) (cons_locking r)
    (out r) (pipes r) v (lru r) (klog r) (sb r) (disk0 r) (writes r) (input r).
Definition set_lru (v : list nat) (r : kstate) : kstate :=
  mk_kstate (held r) (cur r) (mem r) (freelist r) (use_lock r) (ptable r) (nextpid r) (ticks r)
    (initproc r) (forkret_first r) (cr3 r) (kpgdir r) (shmtable r) (shm_pages r)
    (user_mutexes r) (mutex_table_inited r) (queue_list_head r) (queue_list_initialized r)
    (next_queue_id r) (queues r) (nodes r) (ftable r) (icache r) (ncpu r) (cons_locking r)
    (out r) (pipes r) (bufs r) v (klog r) (sb r) (disk0 r) (writes r) (input r).
Definition set_klog (v : logst) (r : kstate) : kstate :=
  mk_kstate (held r) (cur r) (mem r) (freelist r) (use_lock r) (ptable r) (nextpid r) (ticks r)
    (initproc r) (forkret_first r) (cr3 r) (kpgdir r) (shmtable r) (shm_pages r)
    (user_mutexes r) (mutex_table_inited r) (queue_list_head r) (queue_list_initialized r)
    (next_queue_id r) (queues r) (nodes r) (ftable r) (icache r) (ncpu r) (cons_locking r)
    (out r) (pipes r) (bufs r) (lru r) v (sb r) (disk0 r) (writes r) (input r).
Definition set_sb (v : superblock) (r : kstate) : kstate :=
  mk_kstate (held r) (cur r) (mem r) (freelist r) (use_lock r) (ptable r) (nextpid r) (ticks r)
    (initproc r) (forkret_first r) (cr3 r) (kpgdir r) (shmtable r) (shm_pages r)
    (user_mutexes r) (mutex_table_inited r) (queue_list_head r) (queue_list_initialized r)
    (next_queue_id r) (queues r) (nodes r) (ftable r) (icache r) (ncpu r) (cons_locking r)
    (out r) (pipes r) (bufs r) (lru r) (klog r) v (disk0 r) (writes r) (input r).
Definition set_disk0 (v : Z -> list Z) (r : kstate) : kstate :=
  mk_kstate (held r) (cur r) (mem r) (freelist r) (use_lock r) (ptable r) (nextpid r) (ticks r)
    (initproc r) (forkret_first r) (cr3 r) (kpgdir r) (shmtable r) (shm_pages r)
    (user_mutexes r) (mutex_table_inited r) (queue_list_head r) (queue_list_initialized r)
    (next_queue_id r) (queues r) (nodes r) (ftable r) (icache r) (ncpu r) (cons_locking r)
    (out r) (pipes r) (bufs r) (lru r) (klog r) (sb r) v (writes r) (input r).
Definition set_writes (v : list (Z * list Z)) (r : kstate) : kstate :=
  mk_kstate (held r) (cur r) (mem r) (freelist r) (use_lock r) (ptable r) (nextpid r) (ticks r)
    (initproc r) (forkret_first r) (cr3 r) (kpgdir r) (shmtable r) (shm_pages r)
    (user_mutexes r) (mutex_table_inited r) (queue_list_head r) (queue_list_initialized r)
    (next_queue_id r) (queues r) (nodes r) (ftable r) (icache r) (ncpu r) (cons_locking r)
    (out r) (pipes r) (bufs r) (lru r) (klog r) (sb r) (disk0 r) v (input r).
Definition set_input (v : cinput) (r : kstate) : kstate :=
  mk_kstate (held r) (cur r) (mem r) (freelist r) (use_lock r) (ptable r) (nextpid r) (ticks r)
    (initproc r) (forkret_first r) (cr3 r) (kpgdir r) (shmtable r) (shm_pages r)
    (user_mutexes r) (mutex_table_inited r) (queue_list_head r) (queue_list_initialized r)
    (next_queue_id r) (queues r) (nodes r) (ftable r) (icache r) (ncpu r) (cons_locking r)
    (out r) (pipes r) (bufs r) (lru r) (klog r) (sb r) (disk0 r) (writes r) v.
(* END kstate *)

(** ** Simplification of field reads after field writes *)

(* BEGIN tactics *)
Ltac is_field p :=
  lazymatch p with
  | tf_edi => idtac | tf_esi => idtac | tf_ebp => idtac | tf_oesp => idtac | tf_ebx => idtac
  | tf_edx => idtac | tf_ecx => idtac | tf_eax => idtac | tf_gs => idtac | tf_fs => idtac
  | tf_es => idtac | tf_ds => idtac | tf_trapno => idtac | tf_err => idtac | tf_eip => idtac
  | tf_cs => idtac | tf_eflags => idtac | tf_esp => idtac | tf_ss => idtac | cx_edi => idtac
  | cx_esi => idtac | cx_ebx => idtac | cx_ebp => idtac | cx_eip => idtac | p_sz => idtac
  | p_pgdir => idtac | p_kstack => idtac | p_state => idtac | p_pid => idtac
  | p_parent => idtac | p_tf => idtac | p_context => idtac | p_chan => idtac
  | p_killed => idtac | p_ofile => idtac | p_cwd => idtac | p_name => idtac
  | p_priority => idtac | p_ctime => idtac | p_etime => idtac | p_rtime => idtac
  | f_type => idtac | f_ref => idtac | f_readable => idtac | f_writable => idtac
  | f_pipe => idtac | f_ip => idtac | f_off => idtac | i_dev => idtac | i_inum => idtac
  | i_ref => idtac | i_locked => idtac | i_lkpid => idtac | i_valid => idtac | i_type => idtac
  | i_major => idtac | i_minor => idtac | i_nlink => idtac | i_size => idtac | i_addrs => idtac
  | mx_allocated => idtac | mx_locked => idtac | mx_pid => idtac | mn_next => idtac
  | mn_msgtyp => idtac | mn_length => idtac | mn_data => idtac | mq_next => idtac
  | mq_id => idtac | mq_key => idtac | mq_head => idtac | mq_tail => idtac | sr_page => idtac
  | sr_refcnt => idtac | pi_data => idtac | pi_nread => idtac | pi_nwrite => idtac
  | pi_readopen => idtac | pi_writeopen => idtac | b_flags => idtac | b_dev => idtac
  | b_blockno => idtac | b_locked => idtac | b_lkpid => idtac | b_refcnt => idtac
  | b_data => idtac | sb_size => idtac | sb_nblocks => idtac | sb_ninodes => idtac
  | sb_nlog => idtac | sb_logstart => idtac | sb_inodestart => idtac | sb_bmapstart => idtac
  | lg_start => idtac | lg_size => idtac | lg_outstanding => idtac | lg_committing => idtac
  | lg_dev => idtac | lg_n => idtac | lg_block => idtac | in_buf => idtac | in_r => idtac
  | in_w => idtac | in_e => idtac | held => idtac | cur => idtac | mem => idtac
  | freelist => idtac | use_lock => idtac | ptable => idtac | nextpid => idtac | ticks => idtac
  | initproc => idtac | forkret_first => idtac | cr3 => idtac | kpgdir => idtac
  | shmtable => idtac | shm_pages => idtac | user_mutexes => idtac
  | mutex_table_inited => idtac | queue_list_head => idtac | queue_list_initialized => idtac
  | next_queue_id => idtac | queues => idtac | nodes => idtac | ftable => idtac
  | icache => idtac | ncpu => idtac | cons_locking => idtac | out => idtac | pipes => idtac
  | bufs => idtac | lru => idtac | klog => idtac | sb => idtac | disk0 => idtac
  | writes => idtac | input => idtac
  end.

Ltac is_setter f :=
  lazymatch f with
  | set_tf_edi => idtac | set_tf_esi => idtac | set_tf_ebp => idtac | set_tf_oesp => idtac
  | set_tf_ebx => idtac | set_tf_edx => idtac | set_tf_ecx => idtac | set_tf_eax => idtac
  | set_tf_gs => idtac | set_tf_fs => idtac | set_tf_es => idtac | set_tf_ds => idtac
  | set_tf_trapno => idtac | set_tf_err => idtac | set_tf_eip => idtac | set_tf_cs => idtac
  | set_tf_eflags => idtac | set_tf_esp => idtac | set_tf_ss => idtac | set_cx_edi => idtac
  | set_cx_esi => idtac | set_cx_ebx => idtac | set_cx_ebp => idtac | set_cx_eip => idtac
  | set_p_sz => idtac | set_p_pgdir => idtac | set_p_kstack => idtac | set_p_state => idtac
  | set_p_pid => idtac | set_p_parent => idtac | set_p_tf => idtac | set_p_context => idtac
  | set_p_chan => idtac | set_p_killed => idtac | set_p_ofile => idtac | set_p_cwd => idtac
  | set_p_name => idtac | set_p_priority => idtac | set_p_ctime => idtac | set_p_etime => idtac
  | set_p_rtime => idtac | set_f_type => idtac | set_f_ref => idtac | set_f_readable => idtac
  | set_f_writable => idtac | set_f_pipe => idtac | set_f_ip => idtac | set_f_off => idtac
  | set_i_dev => idtac | set_i_inum => idtac | set_i_ref => idtac | set_i_locked => idtac
  | set_i_lkpid => idtac | set_i_valid => idtac | set_i_type => idtac | set_i_major => idtac
  | set_i_minor => idtac | set_i_nlink => idtac | set_i_size => idtac | set_i_addrs => idtac
  | set_mx_allocated => idtac | set_mx_locked => idtac | set_mx_pid => idtac
  | set_mn_next => idtac | set_mn_msgtyp => idtac | set_mn_length => idtac
  | set_mn_data => idtac | set_mq_next => idtac | set_mq_id => idtac | set_mq_key => idtac
  | set_mq_head => idtac | set_mq_tail => idtac | set_sr_page => idtac | set_sr_refcnt => idtac
  | set_pi_data => idtac | set_pi_nread => idtac | set_pi_nwrite => idtac
  | set_pi_readopen => idtac | set_pi_writeopen => idtac | set_b_flags => idtac
  | set_b_dev => idtac | set_b_blockno => idtac | set_b_locked => idtac | set_b_lkpid => idtac
  | set_b_refcnt => idtac | set_b_data => idtac | set_sb_size => idtac
  | set_sb_nblocks => idtac | set_sb_ninodes => idtac | set_sb_nlog => idtac
  | set_sb_logstart => idtac | set_sb_inodestart => idtac | set_sb_bmapstart => idtac
  | set_lg_start => idtac | set_lg_size => idtac | set_lg_outstanding => idtac
  | set_lg_committing => idtac | set_lg_dev => idtac | set_lg_n => idtac
  | set_lg_block => idtac | set_in_buf => idtac | set_in_r => idtac | set_in_w => idtac
  | set_in_e => idtac | set_held => idtac | set_cur => idtac | set_mem => idtac
  | set_freelist => idtac | set_use_lock => idtac | set_ptable => idtac | set_nextpid => idtac
  | set_ticks => idtac | set_initproc => idtac | set_forkret_first => idtac | set_cr3 => idtac
  | set_kpgdir => idtac | set_shmtable => idtac | set_shm_pages => idtac
  | set_user_mutexes => idtac | set_mutex_table_inited => idtac | set_queue_list_head => idtac
  | set_queue_list_initialized => idtac | set_next_queue_id => idtac | set_queues => idtac
  | set_nodes => idtac | set_ftable => idtac | set_icache => idtac | set_ncpu => idtac
  | set_cons_locking => idtac | set_out => idtac | set_pipes => idtac | set_bufs => idtac
  | set_lru => idtac | set_klog => idtac | set_sb => idtac | set_disk0 => idtac
  | set_writes => idtac | set_input => idtac
  end.

(** The position of a setter of [kstate]. *)

Ltac kindex f :=
  lazymatch f with
  | set_held => constr:(0%nat) | set_cur => constr:(1%nat) | set_mem => constr:(2%nat)
  | set_freelist => constr:(3%nat) | set_use_lock => constr:(4%nat)
  | set_ptable => constr:(5%nat) | set_nextpid => constr:(6%nat) | set_ticks => constr:(7%nat)
  | set_initproc => constr:(8%nat) | set_forkret_first => constr:(9%nat)
  | set_cr3 => constr:(10%nat) | set_kpgdir => constr:(11%nat)
  | set_shmtable => constr:(12%nat) | set_shm_pages => constr:(13%nat)
  | set_user_mutexes => constr:(14%nat) | set_mutex_table_inited => constr:(15%nat)
  | set_queue_list_head => constr:(16%nat) | set_queue_list_initialized => constr:(17%nat)
  | set_next_queue_id => constr:(18%nat) | set_queues => constr:(19%nat)
  | set_nodes => constr:(20%nat) | set_ftable => constr:(21%nat)
  | set_icache => constr:(22%nat) | set_ncpu => constr:(23%nat)
  | set_cons_locking => constr:(24%nat) | set_out => constr:(25%nat)
  | set_pipes => constr:(26%nat) | set_bufs => constr:(27%nat) | set_lru => constr:(28%nat)
  | set_klog => constr:(29%nat) | set_sb => constr:(30%nat) | set_disk0 => constr:(31%nat)
  | set_writes => constr:(32%nat) | set_input => constr:(33%nat)
  end.
(* END tactics *)

(** Keeps a proof at the statement it was given for. *)
Lemma stated (P : Prop) : P -> P.
Proof. exact (fun h => h). Qed.

Ltac kfield p f v s :=
  let tv := type of v in
  let ts := type of s in
  let g := eval cbn [p f] in (fun (x : tv) (r : ts) => p (f x r)) in
  lazymatch g with
  | fun x _ => x =>
      constr:(stated (forall (x : tv) (r : ts), p (f x r) = x) (fun x r => eq_refl) v s)
  | _ => constr:(stated (forall (x : tv) (r : ts), p (f x r) = p r) (fun x r => eq_refl) v s)
  end.

Ltac ksimpl_step :=
  match goal with
  | |- context [?p (?f ?v ?s)] =>
      is_field p; is_setter f;
      let e := kfield p f v s in rewrite e
  end.

Ltac ksimpl := repeat (progress ksimpl_step).

Ltac ksimpl_in H :=
  repeat match type of H with
  | context [?p (?f ?v ?s)] =>
      is_field p; is_setter f;
      let e := kfield p f v s in rewrite e in H
  end.

Ltac ksimpl_all :=
  ksimpl; repeat match goal with
  | H : context [?p (?f ?v ?s)] |- _ =>
      is_field p; is_setter f;
      let e := kfield p f v s in rewrite e in H
  end.

(** [knorm] brings nested updates of the state into a fixed order, with one
    update for each field. *)

Ltac kcollapse f v w s :=
  let tv := type of v in
  constr:(stated (forall (x y : tv) (r : kstate), f x (f y r) = f x r) (fun x y r => eq_refl) v w s).

Ltac kswap f v g w s :=
  let tv := type of v in
  let tw := type of w in
  constr:(stated (forall (x : tv) (y : tw) (r : kstate), f x (g y r) = g y (f x r))
            (fun x y r => eq_refl) v w s).

Ltac knorm_step :=
  match goal with
  | |- context [?f ?v (?g ?w ?s)] =>
      let i := kindex f in
      let j := kindex g in
      let c := eval cbv in (Nat.compare i j) in
      lazymatch c with
      | Eq => let e := kcollapse f v w s in rewrite e
      | Gt => let e := kswap f v g w s in rewrite e
      end
  end.

Ltac knorm := ksimpl; repeat knorm_step.

(** ** Kernel computations *)

Definition K (A : Type) : Type := M kstate A.

(** Spinlocks as the code of one processor sees them: the list of the locks
    the processor holds.  The code of spinlock.c on several processors is
    modelled in [Spinlock], which proves that it implements this view. *)

Definition holding (lk : lockid) (s : kstate) : bool := bool_decide (lk ∈ held s).

Definition acquire (lk : lockid) : K unit := fun s =>
  if holding lk s then Panic "acquire" s else Ret tt (set_held (lk :: held s) s).

Definition release (lk : lockid) : K unit := fun s =>
  if holding lk s
  then Ret tt (set_held (filter (fun l => l <> lk) (held s)) s)
  else Panic "release" s.

(** [myproc()]: the process that runs on this processor. *)

Definition myproc : K (option nat) := gets cur.

(** A process table slot through a pointer; the null pointer faults. *)

Definition proc_at (i : nat) : K proc := fun s =>
  match ptable s !! i with
  | Some p => Ret p s
  | None => Undef "proc out of range" s
  end.

Definition upd_proc (i : nat) (f : proc -> proc) : K unit :=
  modify (fun s => set_ptable (alter f i (ptable s)) s).

(** [struct proc *curproc = myproc(); ... curproc->...] *)

Definition curproc : K nat := fun s =>
  match cur s with
  | Some i => Ret i s
  | None => Undef "curproc is null" s
  end.

(** Memory through the kernel's direct map. *)

Definition load32 (a : Z) : K Z := gets (fun s => ld32 (mem s) a).
Definition store32 (a v : Z) : K unit := modify (fun s => set_mem (st32 (mem s) a v) s).
Definition upd_mem (f : memory -> memory) : K unit := modify (fun s => set_mem (f (mem s)) s).

(** ** Rules for the primitives *)

Lemma acquire_run lk s : lk ∉ held s -> acquire lk s = Ret tt (set_held (lk :: held s) s).
Proof. intros. unfold acquire, holding. by rewrite bool_decide_eq_false_2. Qed.

Lemma release_run lk l s : held s = lk :: l -> lk ∉ l ->
  release lk s = Ret tt (set_held l s).
Proof.
  intros Hh Hl. unfold release, holding. rewrite bool_decide_eq_true_2 by (rewrite Hh; set_solver).
  do 2 f_equal. rewrite Hh. rewrite filter_cons_False by naive_solver.
  by apply filter_notin.
Qed.

Lemma release_second a lk l s : held s = a :: lk :: l -> a <> lk -> lk ∉ l ->
  release lk s = Ret tt (set_held (a :: l) s).
Proof.
  intros Hh Ha Hl. unfold release, holding.
  rewrite bool_decide_eq_true_2 by (rewrite Hh; apply list_elem_of_further, list_elem_of_here).
  do 2 f_equal. rewrite Hh, filter_cons_True by done. rewrite filter_cons_False by naive_solver.
  by rewrite filter_notin.
Qed.

(** ** Symbolic execution

    Equations that run the first operation of a sequence; [krun] applies them
    as long as it can. *)

Section run.
Context {A B : Type}.
Implicit Types s : kstate.

Lemma run_ret (a : A) (f : A -> K B) s : bind (ret a) f s = f a s.
Proof. done. Qed.

Lemma run_gets (g : kstate -> A) (f : A -> K B) s : bind (gets g) f s = f (g s) s.
Proof. done. Qed.

Lemma run_modify g (f : unit -> K B) s : bind (modify g) f s = f tt (g s).
Proof. done. Qed.

Lemma run_load32 a (f : Z -> K B) s : bind (load32 a) f s = f (ld32 (mem s) a) s.
Proof. done. Qed.

Lemma run_store32 a v (f : unit -> K B) s :
  bind (store32 a v) f s = f tt (set_mem (st32 (mem s) a v) s).
Proof. done. Qed.

Lemma run_upd_mem g (f : unit -> K B) s : bind (upd_mem g) f s = f tt (set_mem (g (mem s)) s).
Proof. done. Qed.

Lemma run_when_true (m : K unit) (f : unit -> K B) s : bind (when true m) f s = bind m f s.
Proof. done. Qed.

Lemma run_when_false (m : K unit) (f : unit -> K B) s : bind (when false m) f s = f tt s.
Proof. done. Qed.

Lemma run_bind {C} (m : K C) (g : C -> K A) (f : A -> K B) s :
  bind (bind m g) f s = bind m (fun c => bind (g c) f) s.
Proof. apply bind_assoc. Qed.

Lemma run_upd_proc i g (f : unit -> K B) s :
  bind (upd_proc i g) f s = f tt (set_ptable (alter g i (ptable s)) s).
Proof. done. Qed.

Lemma run_upd_proc_set i g (f : unit -> K B) pt s :
  bind (upd_proc i g) f (set_ptable pt s) = f tt (set_ptable (alter g i pt) s).
Proof. done. Qed.

Lemma run_proc_at i p (f : proc -> K B) s : ptable s !! i = Some p -> bind (proc_at i) f s = f p s.
Proof. intros H. unfold bind, proc_at. by rewrite H. Qed.

Lemma run_curproc i (f : nat -> K B) s : cur s = Some i -> bind curproc f s = f i s.
Proof. intros H. unfold bind, curproc. by rewrite H. Qed.

Lemma run_acquire lk (f : unit -> K B) s : lk ∉ held s ->
  bind (acquire lk) f s = f tt (set_held (lk :: held s) s).
Proof. intros H. unfold bind. by rewrite acquire_run. Qed.

Lemma run_release lk l (f : unit -> K B) s : held s = lk :: l -> lk ∉ l ->
  bind (release lk) f s = f tt (set_held l s).
Proof. intros H1 H2. unfold bind. by rewrite (release_run lk l). Qed.

End run.

Lemma set_held_id s l : held s = l -> set_held l s = s.
Proof. intros <-. by destruct s. Qed.

Ltac krun :=
  repeat (first [rewrite run_upd_proc_set | rewrite run_upd_proc
                |rewrite run_ret | rewrite run_gets | rewrite run_modify | rewrite run_load32
                |rewrite run_store32 | rewrite run_upd_mem | rewrite run_bind
                |rewrite run_when_true | rewrite run_when_false]; cbv beta); ksimpl.
