(* ===== verification/Mmu.v ===== *)
(** * Arithmetic of the memory-management unit's macros

    What the macros of mmu.h and memlayout.h compute, the decomposition of a
    virtual address, page-table entries as an address with flags, pages of
    physical memory, and frames: which addresses a memory update leaves
    alone. *)

From S2P Require Import Prelude Mem KState.

Section mmu.
Context {LK : Linker}.

(** ** Rounding and index macros *)

Lemma land_lnot_ones a k : 0 <= k -> Z.land a (Z.lnot (2 ^ k - 1)) = a - a mod 2 ^ k.
Proof.
  intros Hk. rewrite <- Z.ldiff_land. replace (2 ^ k - 1) with (Z.ones k).
  2:{ rewrite Z.ones_equiv. lia. }
  rewrite Z.ldiff_ones_r, Z.shiftr_div_pow2, Z.shiftl_mul_pow2 by done.
  rewrite (Z.div_mod a (2 ^ k)) at 2 by lia. lia.
Qed.

Lemma PGROUNDDOWN_eq a : PGROUNDDOWN a = a - a mod 4096.
Proof. apply (land_lnot_ones a 12). lia. Qed.

Lemma PGROUNDUP_eq sz : 0 <= sz <= 2 ^ 32 - 4096 ->
  PGROUNDUP sz = (sz + 4095) - (sz + 4095) mod 4096.
Proof.
  intros. unfold PGROUNDUP. change PGSIZE with (2 ^ 12). rewrite land_lnot_ones by lia.
  rewrite u32_id by lia. f_equal; [lia|]. f_equal. lia.
Qed.

Lemma PGROUNDUP_aligned sz : PGROUNDUP sz mod 4096 = 0.
Proof.
  unfold PGROUNDUP. change PGSIZE with (2 ^ 12). rewrite land_lnot_ones by lia.
  change (2 ^ 12) with 4096. Z.div_mod_to_equations. lia.
Qed.

Lemma PGROUNDUP_bounds sz : 0 <= sz <= 2 ^ 32 - 4096 -> sz <= PGROUNDUP sz < sz + 4096.
Proof. intros. rewrite PGROUNDUP_eq by done. Z.div_mod_to_equations. lia. Qed.

Lemma PGROUNDUP_id sz : 0 <= sz <= 2 ^ 32 - 4096 -> sz mod 4096 = 0 -> PGROUNDUP sz = sz.
Proof. intros. rewrite PGROUNDUP_eq by done. Z.div_mod_to_equations. lia. Qed.

Lemma PDX_eq va : PDX va = (va / 2 ^ 22) mod 1024.
Proof.
  unfold PDX, PDXSHIFT. change 0x3FF with (Z.ones 10).
  by rewrite Z.land_ones, Z.shiftr_div_pow2 by lia.
Qed.

Lemma PTX_eq va : PTX va = (va / 2 ^ 12) mod 1024.
Proof.
  unfold PTX, PTXSHIFT. change 0x3FF with (Z.ones 10).
  by rewrite Z.land_ones, Z.shiftr_div_pow2 by lia.
Qed.

Lemma PDX_range va : 0 <= PDX va < 1024.
Proof. rewrite PDX_eq. apply Z.mod_pos_bound. lia. Qed.

Lemma PTX_range va : 0 <= PTX va < 1024.
Proof. rewrite PTX_eq. apply Z.mod_pos_bound. lia. Qed.

Lemma va_split va : 0 <= va < 2 ^ 32 ->
  va = 2 ^ 22 * PDX va + 2 ^ 12 * PTX va + va mod 4096.
Proof. intros. rewrite PDX_eq, PTX_eq. Z.div_mod_to_equations. lia. Qed.

(** Page-aligned addresses are determined by their two indices. *)
Lemma va_indices_inj a b :
  0 <= a < 2 ^ 32 -> 0 <= b < 2 ^ 32 -> a mod 4096 = 0 -> b mod 4096 = 0 ->
  PDX a = PDX b -> PTX a = PTX b -> a = b.
Proof.
  intros Ha Hb Ea Eb Hd Ht. rewrite (va_split a), (va_split b) by done. lia.
Qed.

Lemma PDX_user va : 0 <= va < KERNBASE -> PDX va < 512.
Proof.
  unfold KERNBASE. intros. rewrite PDX_eq. Z.div_mod_to_equations. lia.
Qed.

Lemma PDX_kernel va : KERNBASE <= va < 2 ^ 32 -> 512 <= PDX va.
Proof.
  unfold KERNBASE. intros. rewrite PDX_eq. Z.div_mod_to_equations. lia.
Qed.

Lemma lor_add hi lo k : 0 <= k -> hi mod 2 ^ k = 0 -> 0 <= lo < 2 ^ k ->
  Z.lor hi lo = hi + lo.
Proof.
  intros Hk Hhi Hlo. symmetry. apply Z.add_nocarry_lor. apply Z.bits_inj'. intros i Hi.
  rewrite Z.land_spec, Z.bits_0. destruct (decide (i < k)).
  - rewrite <- (Z.mod_pow2_bits_low hi k) by lia. rewrite Hhi, Z.bits_0. done.
  - rewrite <- (Z.mod_small lo (2 ^ k)) by done. rewrite Z.mod_pow2_bits_high by lia.
    apply andb_false_r.
Qed.

Lemma PGADDR_eq d : 0 <= d < 1024 -> PGADDR d 0 0 = 2 ^ 22 * d.
Proof.
  intros. unfold PGADDR, PDXSHIFT, PTXSHIFT. rewrite Z.shiftl_0_l, !Z.lor_0_r.
  rewrite Z.shiftl_mul_pow2 by lia. rewrite u32_id by lia. lia.
Qed.

(** ** Page-table entries *)

Lemma PTE_ADDR_eq pte : PTE_ADDR pte = pte - pte mod 4096.
Proof. apply (land_lnot_ones pte 12). lia. Qed.

Lemma PTE_FLAGS_eq pte : PTE_FLAGS pte = pte mod 4096.
Proof. unfold PTE_FLAGS. change 0xFFF with (Z.ones 12). by rewrite Z.land_ones. Qed.

Definition present (pte : Z) : bool := negb (Z.land pte PTE_P =? 0).
Definition user_pte (pte : Z) : bool := negb (Z.land pte PTE_U =? 0).

Lemma present_odd pte : present pte = Z.odd pte.
Proof.
  unfold present, PTE_P. change 1 with (Z.ones 1) at 1. rewrite Z.land_ones by lia.
  change (2 ^ 1) with 2. rewrite Zmod_odd. by destruct (Z.odd pte).
Qed.

Lemma present_0 : present 0 = false.
Proof. done. Qed.

Lemma lor_range a b k : 0 <= k -> 0 <= a < 2 ^ k -> 0 <= b < 2 ^ k -> 0 <= Z.lor a b < 2 ^ k.
Proof.
  intros Hk Ha Hb. split; [apply Z.lor_nonneg; lia|].
  destruct (decide (Z.lor a b = 0)) as [->|Hne]; [lia|].
  apply Z.log2_lt_pow2; [pose proof (proj2 (Z.lor_nonneg a b)); lia|].
  rewrite Z.log2_lor by lia.
  assert (forall z, 0 <= z < 2 ^ k -> z <> 0 \/ 0 < k -> Z.log2 z < k) as Hl.
  { intros z Hz Hz'. destruct (decide (z = 0)) as [->|]; [cbn; lia|].
    apply Z.log2_lt_pow2; lia. }
  assert (0 < k).
  { destruct (decide (k = 0)) as [->|]; [|lia]. assert (a = 0) as -> by lia.
    assert (b = 0) as -> by lia. done. }
  apply Z.max_lub_lt; apply Hl; lia.
Qed.

(** An entry written by [mappages]: page address, permissions, present bit. *)
Lemma mk_pte_eq pa perm : pa mod 4096 = 0 -> 0 <= perm < 4096 ->
  Z.lor (Z.lor pa perm) PTE_P = pa + Z.lor perm PTE_P /\ 0 <= Z.lor perm PTE_P < 4096.
Proof.
  intros Ha Hp. assert (0 <= Z.lor perm PTE_P < 4096) as Hl.
  { apply (lor_range _ _ 12); unfold PTE_P; lia. }
  rewrite <- Z.lor_assoc. split; [|done]. apply (lor_add _ _ 12); [lia|done|done].
Qed.

Lemma mk_pte_addr pa perm : pa mod 4096 = 0 -> 0 <= perm < 4096 ->
  PTE_ADDR (Z.lor (Z.lor pa perm) PTE_P) = pa.
Proof.
  intros Ha Hp. destruct (mk_pte_eq pa perm Ha Hp) as [-> Hl].
  rewrite PTE_ADDR_eq, <- Z.add_mod_idemp_l, Ha, Z.add_0_l, Z.mod_small by lia. lia.
Qed.

Lemma mk_pte_flags pa perm : pa mod 4096 = 0 -> 0 <= perm < 4096 ->
  PTE_FLAGS (Z.lor (Z.lor pa perm) PTE_P) = Z.lor perm PTE_P.
Proof.
  intros Ha Hp. destruct (mk_pte_eq pa perm Ha Hp) as [-> Hl].
  rewrite PTE_FLAGS_eq, <- Z.add_mod_idemp_l, Ha, Z.add_0_l, Z.mod_small by lia. lia.
Qed.

Lemma lor_present x : present (Z.lor x PTE_P) = true.
Proof.
  unfold present. apply negb_true_iff, Z.eqb_neq. intros H.
  apply (f_equal (fun z => Z.testbit z 0)) in H.
  rewrite Z.land_spec, Z.lor_spec in H. cbn in H. by rewrite orb_true_r in H.
Qed.

(** ** Pages of physical memory, at their kernel addresses *)

Definition is_page (p : Z) : Prop :=
  p mod 4096 = 0 /\ kend <= p < KERNBASE + PHYSTOP.

#[global] Instance is_page_dec p : Decision (is_page p).
Proof. unfold is_page. apply _. Defined.

Lemma is_page_bounds p : is_page p -> KERNBASE + 0x101000 <= p < KERNBASE + PHYSTOP.
Proof.
  intros [Ha Hb]. pose proof kdata_low. pose proof kend_low. pose proof kdata_aligned.
  unfold KERNLINK, KERNBASE, EXTMEM, PGSIZE in *. split; [|lia].
  Z.div_mod_to_equations. lia.
Qed.

Lemma page_neq_disjoint p q : is_page p -> is_page q -> p <> q -> p + 4096 <= q \/ q + 4096 <= p.
Proof. intros [Hp _] [Hq _] Hne. Z.div_mod_to_equations. lia. Qed.

Lemma V2P_page p : is_page p -> V2P p = p - KERNBASE.
Proof. intros H%is_page_bounds. unfold V2P. apply u32_id. unfold KERNBASE, PHYSTOP in *. lia. Qed.

Lemma P2V_V2P p : is_page p -> P2V (V2P p) = p.
Proof.
  intros H. rewrite V2P_page by done. unfold P2V. rewrite u32_id; [lia|].
  apply is_page_bounds in H. unfold KERNBASE, PHYSTOP in *. lia.
Qed.

Lemma V2P_page_aligned p : is_page p -> V2P p mod 4096 = 0.
Proof.
  intros H. rewrite V2P_page by done. destruct H as [Ha _]. unfold KERNBASE.
  Z.div_mod_to_equations. lia.
Qed.

Lemma V2P_page_range p : is_page p -> 0 < V2P p < PHYSTOP.
Proof.
  intros H. rewrite V2P_page by done. apply is_page_bounds in H. lia.
Qed.

(** ** Frames *)

(** [m'] agrees with [m] outside the pages that satisfy [P]. *)
Definition frame (P : Z -> Prop) (m m' : memory) : Prop :=
  forall a, (forall p, P p -> a < p \/ p + 4096 <= a) -> m' a = m a.

Lemma frame_refl P m : frame P m m.
Proof. done. Qed.

Lemma frame_trans P m1 m2 m3 : frame P m1 m2 -> frame P m2 m3 -> frame P m1 m3.
Proof. intros H1 H2 a Ha. rewrite H2, H1; auto. Qed.

Lemma frame_weaken (P Q : Z -> Prop) m m' :
  (forall p, P p -> Q p) -> frame P m m' -> frame Q m m'.
Proof. intros Hs H a Ha. apply H. auto. Qed.

Lemma frame_st32 p o m v : 0 <= o <= 4092 -> frame (eq p) m (st32 m (p + o) v).
Proof. intros Ho a Ha. apply st32_other. specialize (Ha p eq_refl). lia. Qed.

Lemma frame_memset p m c : frame (eq p) m (memset m p c PGSIZE).
Proof. intros a Ha. apply memset_out; [done|]. by apply Ha. Qed.

Lemma frame_memmove p m src n o : 0 <= o -> 0 <= n -> o + n <= 4096 ->
  frame (eq p) m (memmove m (p + o) src n).
Proof.
  intros Ho Hn Hon a Ha. apply memmove_out; [done|]. specialize (Ha p eq_refl). lia.
Qed.

Lemma frame_byte (P : Z -> Prop) m m' q a :
  frame P m m' -> is_page q -> (forall p, P p -> is_page p) -> ~ P q ->
  q <= a < q + 4096 -> m' a = m a.
Proof.
  intros Hf Hq HP Hnin Ha. apply Hf. intros p Hp.
  assert (p <> q) by congruence.
  destruct (page_neq_disjoint p q); auto; lia.
Qed.

Lemma frame_ld32 (P : Z -> Prop) m m' q o :
  frame P m m' -> is_page q -> (forall p, P p -> is_page p) -> ~ P q -> 0 <= o <= 4092 ->
  ld32 m' (q + o) = ld32 m (q + o).
Proof.
  intros Hf Hq HP Hnin Ho. apply ld32_ext. intros x Hx.
  eapply frame_byte; eauto. lia.
Qed.

End mmu.

#[export] Hint Resolve PDX_range PTX_range frame_refl : kernel.
