(* ===== verification/Console.v ===== *)
(** * Formatted console output (console.c)

    [printint] and [cprintf] with the console as the list of the bytes sent to
    it.  The loops produce the digits the way the C code fills its buffer; the
    lemmas give the value of the printed digits and the bound that keeps the
    16-byte buffer from overflowing. *)

From S2P Require Import Prelude Mem KState.
From Stdlib Require Export Ascii.

(** ** Characters *)

Definition chr (a : ascii) : Z := Z.of_N (N_of_ascii a).

Fixpoint bytes (s : string) : list Z :=
  match s with
  | EmptyString => []
  | String a s' => chr a :: bytes s'
  end.

(** ** Output *)

Definition BACKSPACE : Z := 0x100.

(** [consputc]: the byte sequence sent to the serial port. *)
Definition consputc (c : Z) : K unit :=
  modify (fun s => set_out (out s ++ (if c =? BACKSPACE then [8; 32; 8] else [u8 c])) s).

Fixpoint consputs (cs : list Z) : K unit :=
  match cs with
  | [] => ret tt
  | c :: cs' => consputc c ;; consputs cs'
  end.

(** [digits[d]] of the table 0123456789abcdef. *)
Definition digit (d : Z) : Z := if d <? 10 then chr "0" + d else chr "a" + (d - 10).

(** [do{ buf[i++] = digits[x % base]; }while((x /= base) != 0);] The buffer is
    printed from its end, so the digits are consed. *)
Fixpoint printint_loop (fuel : nat) (x base : Z) (acc : list Z) : list Z :=
  match fuel with
  | O => acc
  | S fuel' =>
      let acc' := digit (x mod base) :: acc in
      let x' := x / base in
      if x' =? 0 then acc' else printint_loop fuel' x' base acc'
  end.

Definition printint_bytes (xx base : Z) (sign : bool) : list Z :=
  let neg := sign && (xx <? 0) in
  let x := if neg then u32 (- xx) else u32 xx in
  let ds := printint_loop 32 x base [] in
  if neg then chr "-" :: ds else ds.

Definition printint (xx base : Z) (sign : bool) : K unit :=
  consputs (printint_bytes xx base sign).

(** The variable arguments of [cprintf]: a word, or a string pointer. *)
Inductive parg : Type := PInt (z : Z) | PStr (s : option (list Z)).

(** The loop over the format; a directive without its argument is undefined. *)
Fixpoint cprintf_loop (fmt : list Z) (args : list parg) : K unit :=
  match fmt with
  | [] => ret tt
  | c :: fmt' =>
      if negb (c =? chr "%") then consputc c ;; cprintf_loop fmt' args
      else
        match fmt' with
        | [] => ret tt
        | d :: fmt'' =>
            if d =? chr "d" then
              match args with
              | PInt z :: args' => printint (i32 z) 10 true ;; cprintf_loop fmt'' args'
              | _ => undef "cprintf: %d"
              end
            else if (d =? chr "x") || (d =? chr "p") then
              match args with
              | PInt z :: args' => printint (i32 z) 16 false ;; cprintf_loop fmt'' args'
              | _ => undef "cprintf: %x"
              end
            else if d =? chr "s" then
              match args with
              | PStr o :: args' =>
                  consputs (match o with Some b => b | None => bytes "(null)" end) ;;
                  cprintf_loop fmt'' args'
              | _ => undef "cprintf: %s"
              end
            else if d =? chr "%" then consputc (chr "%") ;; cprintf_loop fmt'' args
            else consputc (chr "%") ;; consputc d ;; cprintf_loop fmt'' args
        end
  end.

Definition cprintf (fmt : list Z) (args : list parg) : K unit :=
  locking <- gets cons_locking ;;
  when locking (acquire LkCons) ;;
  cprintf_loop fmt args ;;
  when locking (release LkCons).

(** ** What is printed *)

Definition is_digit (c : Z) : bool := (chr "0" <=? c) && (c <=? chr "9").

(** The number a list of decimal digits denotes, most significant first. *)
Definition decimal (acc : Z) (ds : list Z) : Z :=
  fold_left (fun n c => n * 10 + (c - chr "0")) ds acc.

Lemma digit_decimal d : 0 <= d < 10 -> is_digit (digit d) = true /\ digit d - chr "0" = d.
Proof.
  intros. unfold digit, is_digit. change (chr "0") with 48. change (chr "9") with 57. zbool. lia.
Qed.

Lemma printint_loop_value fuel x acc :
  0 <= x < 10 ^ Z.of_nat fuel -> (0 < fuel)%nat ->
  exists ds, printint_loop fuel x 10 acc = ds ++ acc /\
    Forall (fun c => is_digit c = true) ds /\ decimal 0 ds = x /\
    (0 < length ds <= fuel)%nat.
Proof.
  revert x acc. induction fuel as [|fuel IH]; intros x acc Hx Hf; [lia|].
  cbn [printint_loop]. destruct (digit_decimal (x mod 10)) as [Hd1 Hd2];
    [apply Z.mod_pos_bound; lia|].
  destruct (x / 10 =? 0) eqn:Hz; bool_prop.
  - exists [digit (x mod 10)]. split; [done|]. split; [by constructor|]. split; [|cbn; lia].
    cbn [decimal fold_left]. unfold decimal. cbn [fold_left]. rewrite Hd2.
    Z.div_mod_to_equations. lia.
  - assert (x / 10 < 10 ^ Z.of_nat fuel).
    { apply Z.div_lt_upper_bound; [lia|]. rewrite <- Z.pow_succ_r by lia.
      rewrite <- Nat2Z.inj_succ. lia. }
    assert (0 <= x / 10) by (apply Z.div_pos; lia).
    destruct (decide (fuel = 0%nat)) as [->|]; [cbn in *; lia|].
    destruct (IH (x / 10) (digit (x mod 10) :: acc)) as (ds & -> & Hall & Hval & Hlen); [lia|lia|].
    exists (ds ++ [digit (x mod 10)]). rewrite <- app_assoc. split; [done|].
    split; [apply Forall_app; split; [done|by constructor]|].
    split; [|rewrite length_app; cbn; lia].
    unfold decimal in *. rewrite fold_left_app, Hval. cbn [fold_left]. rewrite Hd2.
    Z.div_mod_to_equations. lia.
Qed.

(** Extra fuel does not change the digits. *)
Lemma printint_loop_fuel n k x acc : 0 <= x < 10 ^ Z.of_nat n -> (0 < n)%nat ->
  printint_loop (n + k) x 10 acc = printint_loop n x 10 acc.
Proof.
  revert x acc. induction n as [|n IH]; intros x acc Hx Hn; [lia|].
  cbn [Nat.add printint_loop]. destruct (x / 10 =? 0) eqn:Hz; [done|]. bool_prop.
  assert (x / 10 < 10 ^ Z.of_nat n).
  { apply Z.div_lt_upper_bound; [lia|]. rewrite <- Z.pow_succ_r by lia.
    rewrite <- Nat2Z.inj_succ. lia. }
  assert (0 <= x / 10) by (apply Z.div_pos; lia).
  destruct (decide (n = 0%nat)) as [->|]; [cbn in *; lia|].
  apply IH; lia.
Qed.

Lemma consputs_run cs s : Forall (fun c => 0 <= c < 256) cs ->
  consputs cs s = Ret tt (set_out (out s ++ cs) s).
Proof.
  revert s. induction cs as [|c cs IH]; intros s Hc.
  - rewrite app_nil_r. by destruct s.
  - apply Forall_cons in Hc as [Hc Hcs]. cbn [consputs]. unfold consputc.
    unfold bind, modify. unfold BACKSPACE. zbool. rewrite IH by done. ksimpl.
    rewrite u8_id by done. rewrite <- app_assoc. done.
Qed.

(** A format without directives is sent as it is. *)
Definition plain (fmt : list Z) : bool :=
  forallb (fun c => (0 <=? c) && (c <? 256) && negb (c =? chr "%")) fmt.

Lemma cprintf_loop_plain fmt args s : plain fmt = true ->
  cprintf_loop fmt args s = Ret tt (set_out (out s ++ fmt) s).
Proof.
  revert s. induction fmt as [|c fmt IH]; intros s Hc.
  - rewrite app_nil_r. by destruct s.
  - apply andb_prop in Hc as [Hc Hf]. cbn [cprintf_loop].
    apply andb_prop in Hc as [Hr Hp]. rewrite Hp. bool_prop.
    unfold bind, consputc, modify, BACKSPACE. zbool. rewrite IH by done. ksimpl.
    rewrite u8_id, <- app_assoc by done. done.
Qed.

Lemma cprintf_plain fmt args s : plain fmt = true -> LkCons ∉ held s ->
  cprintf fmt args s = Ret tt (set_out (out s ++ fmt) s).
Proof.
  intros Hp Hl. unfold cprintf, bind, gets. destruct (cons_locking s); unfold when, ret.
  - rewrite acquire_run by done. rewrite cprintf_loop_plain by done. ksimpl.
    erewrite release_run; [|by ksimpl|done]. ksimpl. by destruct s.
  - by rewrite cprintf_loop_plain.
Qed.
