(* ===== verification/Kalloc.v ===== *)
(** * The physical page allocator (kalloc.c)

    The free list is threaded through the free pages themselves: the first
    word of a free page points to the next one.  [free_pages] relates the
    memory to the list of free pages; [kalloc] and [kfree] are proved to be
    the pop and the push of that list. *)

From S2P Require Import Prelude Mem KState Mmu.

Section kalloc.
Context {LK : Linker}.

(** ** Operations *)

Definition kfree (v : Z) : K unit :=
  if negb (v mod PGSIZE =? 0) || (v <? kend) || (PHYSTOP <=? V2P v) then panic "kfree"
  else
    (* Fill with junk to catch dangling refs. *)
    upd_mem (fun m => memset m v 1 PGSIZE) ;;
    ul <- gets use_lock ;;
    when ul (acquire LkKmem) ;;
    fl <- gets freelist ;;
    store32 v fl ;;
    modify (set_freelist v) ;;
    ul <- gets use_lock ;;
    when ul (release LkKmem).

Definition kalloc : K Z :=
  ul <- gets use_lock ;;
  when ul (acquire LkKmem) ;;
  r <- gets freelist ;;
  when (negb (r =? 0)) (nx <- load32 r ;; modify (set_freelist nx)) ;;
  ul <- gets use_lock ;;
  when ul (release LkKmem) ;;
  ret r.

(** [for(; p + PGSIZE <= (char* )vend; p += PGSIZE) kfree(p);] *)
Fixpoint freerange_loop (fuel : nat) (p vend : Z) : K unit :=
  match fuel with
  | O => undef "freerange: fuel"
  | S fuel' =>
      if p + PGSIZE <=? vend then kfree p ;; freerange_loop fuel' (p + PGSIZE) vend
      else ret tt
  end.

Definition freerange_fuel (p vend : Z) : nat := S (Z.to_nat ((vend - p) / PGSIZE)).

Definition freerange (vstart vend : Z) : K unit :=
  let p := PGROUNDUP vstart in
  freerange_loop (freerange_fuel p vend) p vend.

Definition kinit1 (vstart vend : Z) : K unit :=
  (* initlock(&kmem.lock, "kmem") leaves the lock free *)
  modify (fun s => set_held (filter (fun l => l <> LkKmem) (held s)) s) ;;
  modify (set_use_lock false) ;;
  freerange vstart vend.

Definition kinit2 (vstart vend : Z) : K unit :=
  freerange vstart vend ;;
  modify (set_use_lock true).

(** ** The free list *)

(** The pages [l], in order, from the list head [h]. *)
Fixpoint chain (m : memory) (h : Z) (l : list Z) : Prop :=
  match l with
  | [] => h = 0
  | p :: l' => h = p /\ chain m (ld32 m p) l'
  end.

(** The free pages of the state are exactly [l]. *)
Definition free_pages (s : kstate) (l : list Z) : Prop :=
  chain (mem s) (freelist s) l /\ NoDup l /\ Forall is_page l.

(** What [kfree] leaves in the page [v]. *)
Definition freed_mem (m : memory) (v fl : Z) : memory := st32 (memset m v 1 PGSIZE) v fl.

(** ** Equations of the operations *)

Lemma kfree_check v : is_page v ->
  negb (v mod PGSIZE =? 0) || (v <? kend) || (PHYSTOP <=? V2P v) = false.
Proof.
  intros Hv. rewrite V2P_page by done. destruct Hv as [Ha Hb]. unfold PGSIZE.
  rewrite Ha. zbool. done.
Qed.

Lemma kfree_run v s : is_page v -> LkKmem ∉ held s ->
  kfree v s = Ret tt (set_freelist v (set_mem (freed_mem (mem s) v (freelist s)) s)).
Proof.
  intros Hv Hl. unfold kfree. rewrite kfree_check by done.
  unfold bind at 1, upd_mem, modify. unfold bind at 1, gets at 1. ksimpl.
  destruct (use_lock s) eqn:Hul; unfold when at 1.
  - unfold bind at 1. rewrite acquire_run by (by ksimpl).
    unfold bind, gets, store32, modify, when. ksimpl. rewrite Hul.
    erewrite release_run; [|by ksimpl|done]. done.
  - unfold bind, gets, store32, modify, when, ret. ksimpl. by rewrite Hul.
Qed.

Lemma kalloc_run s : LkKmem ∉ held s ->
  kalloc s = Ret (freelist s)
    (if freelist s =? 0 then s else set_freelist (ld32 (mem s) (freelist s)) s).
Proof.
  intros Hl. unfold kalloc. unfold bind at 1, gets at 1.
  destruct (use_lock s) eqn:Hul; unfold when at 1.
  - unfold bind at 1. rewrite acquire_run by done.
    unfold bind, gets, load32, modify, when, ret. ksimpl.
    destruct (freelist s =? 0) eqn:Hz; cbn [negb]; unfold gets, ret; ksimpl; rewrite Hul;
      (erewrite release_run; [|by ksimpl|done]); [|done].
    by destruct s.
  - unfold bind, gets, load32, modify, when, ret. ksimpl.
    destruct (freelist s =? 0) eqn:Hz; cbn [negb]; unfold gets, ret; ksimpl; rewrite Hul; done.
Qed.

(** ** The list relation *)

Lemma chain_frame (P : Z -> Prop) m m' h l :
  frame P m m' -> (forall p, P p -> is_page p) -> Forall is_page l ->
  (forall p, p ∈ l -> ~ P p) -> chain m h l -> chain m' h l.
Proof.
  intros Hf HP. revert h. induction l as [|p l IH]; intros h Hl Hd; [done|]. cbn.
  intros [-> Hc]. split; [done|]. apply Forall_cons in Hl as [Hp Hl].
  replace (ld32 m' p) with (ld32 m p).
  - apply IH; [done| |done]. intros q Hq. apply Hd. by apply list_elem_of_further.
  - rewrite <- (Z.add_0_r p). symmetry. eapply frame_ld32; eauto; [|lia].
    apply Hd, list_elem_of_here.
Qed.

Lemma freed_frame m v fl : frame (eq v) m (freed_mem m v fl).
Proof.
  unfold freed_mem. eapply frame_trans; [apply (frame_memset v m 1)|].
  pose proof (frame_st32 v 0 (memset m v 1 PGSIZE) fl ltac:(lia)) as H.
  by rewrite Z.add_0_r in H.
Qed.

Lemma freed_next m v fl : 0 <= fl < 2 ^ 32 -> ld32 (freed_mem m v fl) v = fl.
Proof. apply ld32_st32_same. Qed.

(** The rest of a freed page is filled with ones. *)
Lemma freed_junk m v fl a : v + 4 <= a < v + 4096 -> freed_mem m v fl a = 1.
Proof.
  intros. unfold freed_mem. rewrite st32_other by lia. rewrite memset_in by (unfold PGSIZE; lia). done.
Qed.

Lemma is_page_u32 p : is_page p -> 0 <= p < 2 ^ 32.
Proof. intros H%is_page_bounds. unfold KERNBASE, PHYSTOP in *. lia. Qed.

Lemma chain_head_range m h l : Forall is_page l -> chain m h l -> 0 <= h < 2 ^ 32.
Proof.
  destruct l as [|p l]; cbn.
  - intros _ ->. lia.
  - intros [Hp _]%Forall_cons [-> _]. by apply is_page_u32.
Qed.

Lemma free_pages_push s l v : free_pages s l -> is_page v -> v ∉ l ->
  free_pages (set_freelist v (set_mem (freed_mem (mem s) v (freelist s)) s)) (v :: l).
Proof.
  intros (Hc & Hn & Hp) Hv Hvl. unfold free_pages. ksimpl.
  split; [|split; [by constructor|by constructor]].
  cbn. split; [done|]. rewrite freed_next by (by eapply chain_head_range).
  eapply chain_frame; [apply freed_frame|by intros ? <-|done| |done].
  by intros p Hpl <-.
Qed.

Lemma free_pages_pop s p l : free_pages s (p :: l) ->
  freelist s = p /\ is_page p /\ p ∉ l /\
  free_pages (set_freelist (ld32 (mem s) (freelist s)) s) l.
Proof.
  intros (Hc & Hn & Hp). cbn in Hc. destruct Hc as [-> Hc].
  apply NoDup_cons in Hn as [Hn1 Hn2]. apply Forall_cons in Hp as [Hp1 Hp2].
  unfold free_pages. ksimpl. done.
Qed.

Lemma free_pages_nil s : free_pages s [] -> freelist s = 0.
Proof. intros (Hc & _). done. Qed.

Lemma free_pages_mem (P : Z -> Prop) s l m' :
  free_pages s l -> frame P (mem s) m' -> (forall p, P p -> is_page p) ->
  (forall p, p ∈ l -> ~ P p) -> free_pages (set_mem m' s) l.
Proof.
  intros (Hc & Hn & Hp) Hf HP Hd. unfold free_pages. ksimpl. split; [|done].
  by eapply chain_frame.
Qed.

(** The free pages depend on the memory and the head only. *)
Lemma free_pages_ext s s' l : mem s' = mem s -> freelist s' = freelist s ->
  free_pages s l -> free_pages s' l.
Proof. unfold free_pages. by intros -> ->. Qed.

Lemma page_neq_0 p : is_page p -> p <> 0.
Proof. intros H%is_page_bounds. unfold KERNBASE in *. lia. Qed.

(** ** Specifications *)

Lemma kalloc_spec s l : free_pages s l -> LkKmem ∉ held s ->
  match l with
  | [] => kalloc s = Ret 0 s
  | p :: l' => exists s', kalloc s = Ret p s' /\ s' = set_freelist (freelist s') s /\
                 free_pages s' l' /\ is_page p /\ p ∉ l'
  end.
Proof.
  intros Hf Hl. rewrite kalloc_run by done. destruct l as [|p l'].
  - rewrite (free_pages_nil _ Hf). done.
  - apply free_pages_pop in Hf as (-> & Hp & Hn & Hf). exists (set_freelist (ld32 (mem s) p) s).
    rewrite (proj2 (Z.eqb_neq p 0)) by (by apply page_neq_0). ksimpl. done.
Qed.

Lemma kalloc_pop s p l : free_pages s (p :: l) -> LkKmem ∉ held s ->
  exists f, kalloc s = Ret p (set_freelist f s) /\ free_pages (set_freelist f s) l /\
    is_page p /\ p ∉ l.
Proof.
  intros Hf Hl. destruct (kalloc_spec s (p :: l) Hf Hl) as (s' & Hk & Hs & H).
  exists (freelist s'). by rewrite <- Hs.
Qed.

Lemma kfree_spec s l v : free_pages s l -> LkKmem ∉ held s -> is_page v -> v ∉ l ->
  exists s', kfree v s = Ret tt s' /\ free_pages s' (v :: l) /\
    s' = set_freelist v (set_mem (mem s') s) /\ frame (eq v) (mem s) (mem s').
Proof.
  intros Hf Hl Hv Hn. rewrite kfree_run by done. eexists. split; [done|].
  split; [by apply free_pages_push|]. ksimpl. split; [done|]. apply freed_frame.
Qed.

Lemma kfree_panics v s : ~ is_page v -> 0 <= v < 2 ^ 32 -> kfree v s = Panic "kfree" s.
Proof.
  intros Hv Hr. unfold kfree.
  destruct (negb (v mod PGSIZE =? 0) || (v <? kend) || (PHYSTOP <=? V2P v)) eqn:E; [done|].
  exfalso. apply Hv. bool_prop. unfold V2P in *.
  pose proof kdata_low. pose proof kend_low. unfold KERNLINK, KERNBASE, EXTMEM, PHYSTOP, PGSIZE in *.
  rewrite u32_id in * by lia. split; [done|]. unfold KERNBASE, PHYSTOP. lia.
Qed.

(** Pages [p], [p + 4096], ... below [vend], last one first. *)
Fixpoint pages_down (n : nat) (p : Z) : list Z :=
  match n with
  | O => []
  | S n' => pages_down n' (p + PGSIZE) ++ [p]
  end.

Lemma elem_of_pages_down n p q :
  q ∈ pages_down n p <-> exists i, 0 <= i < Z.of_nat n /\ q = p + 4096 * i.
Proof.
  revert p. induction n as [|n IH]; intros p; cbn [pages_down].
  - split; [set_solver|]. intros (i & ? & _). lia.
  - rewrite elem_of_app, IH, list_elem_of_singleton. unfold PGSIZE. split.
    + intros [(i & Hi & ->)| ->]; [exists (i + 1)|exists 0]; lia.
    + intros (i & Hi & ->). destruct (decide (i = 0)) as [->|]; [right; lia|].
      left. exists (i - 1). lia.
Qed.

Lemma freerange_loop_spec n fuel p vend s l :
  free_pages s l -> LkKmem ∉ held s ->
  p mod 4096 = 0 -> kend <= p -> vend <= KERNBASE + PHYSTOP ->
  Z.of_nat n = Z.max 0 ((vend - p) / 4096) -> (n < fuel)%nat ->
  (forall q, q ∈ pages_down n p -> q ∉ l) ->
  exists s', freerange_loop fuel p vend s = Ret tt s' /\
    free_pages s' (pages_down n p ++ l) /\
    s' = set_freelist (freelist s') (set_mem (mem s') s) /\
    frame (fun q => q ∈ pages_down n p) (mem s) (mem s').
Proof.
  revert fuel p s l. induction n as [|n IH]; intros fuel p s l Hf Hh Ha Hp Hv Hn Hfu Hd.
  - destruct fuel as [|fuel]; [lia|]. cbn [freerange_loop]. exists s.
    rewrite (proj2 (Z.leb_gt _ _)) by (unfold PGSIZE; Z.div_mod_to_equations; lia).
    split; [done|]. split; [done|]. split; [by destruct s|apply frame_refl].
  - destruct fuel as [|fuel]; [lia|]. cbn [freerange_loop].
    assert (p + 4096 <= vend) by (Z.div_mod_to_equations; lia).
    rewrite (proj2 (Z.leb_le _ _)) by (unfold PGSIZE; lia).
    destruct (kfree_spec s l p) as (s1 & Hr & Hf1 & Hs1 & Hfr); [done|done|split; [done|lia]| |].
    { apply Hd. apply elem_of_pages_down. exists 0. lia. }
    erewrite bind_ret_l by done.
    destruct (IH fuel (p + PGSIZE) s1 (p :: l)) as (s2 & Hr2 & Hf2 & Hs2 & Hfr2); unfold PGSIZE in *; try lia.
    + done.
    + rewrite Hs1. by ksimpl.
    + Z.div_mod_to_equations. lia.
    + replace (vend - (p + 4096)) with (vend - p + (-1) * 4096) by lia.
      rewrite Z.div_add by lia. lia.
    + intros q Hq. apply not_elem_of_cons. split.
      * apply elem_of_pages_down in Hq as (i & Hi & ->). lia.
      * apply Hd. cbn [pages_down]. unfold PGSIZE. set_solver.
    + exists s2. split; [done|]. split; [|split].
      * cbn [pages_down]. by rewrite <- app_assoc.
      * rewrite Hs2 at 1. rewrite Hs1. done.
      * cbn [pages_down]. eapply frame_trans; [eapply frame_weaken; [|exact Hfr]|eapply frame_weaken; [|exact Hfr2]].
        -- intros q <-. apply elem_of_app. right. by apply list_elem_of_singleton.
        -- intros q Hq. apply elem_of_app. by left.
Qed.

Lemma length_pages_down n p : length (pages_down n p) = n.
Proof. revert p. induction n as [|n IH]; intros p; cbn [pages_down]; [done|]. rewrite length_app, IH. cbn. lia. Qed.

(** [freerange] terminates and puts exactly the whole pages of the range on the
    free list. *)
Lemma freerange_spec s l vstart vend :
  free_pages s l -> LkKmem ∉ held s -> kend <= vstart -> vstart <= vend -> vend <= KERNBASE + PHYSTOP ->
  (forall q, vstart <= q < vend -> ~ q ∈ l) ->
  exists s' l', freerange vstart vend s = Ret tt s' /\ free_pages s' (l' ++ l) /\
    (forall q, q ∈ l' <-> q mod 4096 = 0 /\ vstart <= q /\ q + 4096 <= vend) /\
    Z.of_nat (length l') = Z.max 0 ((vend - PGROUNDUP vstart) / 4096) /\
    s' = set_freelist (freelist s') (set_mem (mem s') s) /\ frame (fun q => q ∈ l') (mem s) (mem s').
Proof.
  intros Hf Hk Hlo Hle Hhi Hd. set (p := PGROUNDUP vstart).
  pose proof kend_low. pose proof kdata_low. unfold KERNLINK, EXTMEM, KERNBASE, PHYSTOP in *.
  assert (vstart <= p < vstart + 4096) as Hp by (apply PGROUNDUP_bounds; lia).
  assert (p mod 4096 = 0) as Hal by apply PGROUNDUP_aligned.
  set (n := Z.to_nat (Z.max 0 ((vend - p) / 4096))).
  assert (Z.of_nat n = Z.max 0 ((vend - p) / 4096)) as Hn by (unfold n; lia).
  assert (forall q, q ∈ pages_down n p <-> q mod 4096 = 0 /\ vstart <= q /\ q + 4096 <= vend) as Hin.
  { intros q. rewrite elem_of_pages_down, Hn. split.
    - intros (i & Hi & ->). assert (0 <= i < (vend - p) / 4096) as [Hi0 Hi1] by lia.
      split; [|Z.div_mod_to_equations; lia]. Z.div_mod_to_equations. lia.
    - intros (Hq & Hlo' & Hhi'). exists ((q - p) / 4096). Z.div_mod_to_equations. lia. }
  destruct (freerange_loop_spec n (freerange_fuel p vend) p vend s l) as (s' & Hr & Hf' & Hs' & Hfr);
    [done|done|done|lia|unfold KERNBASE, PHYSTOP; lia|done| | |].
  - unfold freerange_fuel, PGSIZE. lia.
  - intros q (_ & H1 & H2)%Hin. apply Hd. lia.
  - exists s', (pages_down n p). rewrite length_pages_down. done.
Qed.

End kalloc.
