(* ===== verification/Vm.v ===== *)
(** * Virtual memory (vm.c)

    Page directories and page tables live in pages of [kalloc] and are read
    and written word by word in the memory of the state.  The operations are
    those of vm.c except the loading of program segments, which reads the file
    system. *)

From S2P Require Import Prelude Mem KState Mmu Console Kalloc.

Section vm.
Context {LK : Linker}.

(** Address of the PTE for [va], 0 if there is none (and, with [alloc], none
    could be made). *)
Definition walkpgdir (pgdir va : Z) (alloc : bool) : K Z :=
  let pde := pgdir + 4 * PDX va in
  d <- load32 pde ;;
  if present d then ret (P2V (PTE_ADDR d) + 4 * PTX va)
  else if negb alloc then ret 0
  else
    pgtab <- kalloc ;;
    if pgtab =? 0 then ret 0
    else
      (* Make sure all those PTE_P bits are zero. *)
      upd_mem (fun m => memset m pgtab 0 PGSIZE) ;;
      store32 pde (Z.lor (Z.lor (Z.lor (V2P pgtab) PTE_P) PTE_W) PTE_U) ;;
      ret (pgtab + 4 * PTX va).

Fixpoint mappages_loop (fuel : nat) (pgdir a last pa perm : Z) : K Z :=
  match fuel with
  | O => undef "mappages: fuel"
  | S fuel' =>
      pte <- walkpgdir pgdir a true ;;
      if pte =? 0 then ret (-1)
      else
        e <- load32 pte ;;
        if present e then panic "remap"
        else
          store32 pte (Z.lor (Z.lor pa perm) PTE_P) ;;
          if a =? last then ret 0
          else mappages_loop fuel' pgdir (u32 (a + PGSIZE)) last (u32 (pa + PGSIZE)) perm
  end.

(** Create PTEs for [va .. va+size-1] that refer to physical addresses from
    [pa]. *)
Definition mappages (pgdir va size pa perm : Z) : K Z :=
  let a := PGROUNDDOWN va in
  let last := PGROUNDDOWN (u32 (va + size - 1)) in
  mappages_loop (S (Z.to_nat (u32 (last - a) / PGSIZE))) pgdir a last pa perm.

Fixpoint deallocuvm_loop (fuel : nat) (pgdir a oldsz : Z) : K unit :=
  match fuel with
  | O => undef "deallocuvm: fuel"
  | S fuel' =>
      if a <? oldsz then
        pte <- walkpgdir pgdir a false ;;
        if pte =? 0 then
          deallocuvm_loop fuel' pgdir (u32 (u32 (PGADDR (PDX a + 1) 0 0 - PGSIZE) + PGSIZE)) oldsz
        else
          e <- load32 pte ;;
          (if present e then
             let pa := PTE_ADDR e in
             if pa =? 0 then panic "kfree"
             else kfree (P2V pa) ;; store32 pte 0
           else ret tt) ;;
          deallocuvm_loop fuel' pgdir (u32 (a + PGSIZE)) oldsz
      else ret tt
  end.

(** Deallocate user pages to bring the process size from [oldsz] to [newsz]. *)
Definition deallocuvm (pgdir oldsz newsz : Z) : K Z :=
  if oldsz <=? newsz then ret oldsz
  else
    let a := PGROUNDUP newsz in
    deallocuvm_loop (S (Z.to_nat ((oldsz - a) / PGSIZE + 1))) pgdir a oldsz ;;
    ret newsz.

(** [for(i = 0; i < NPDENTRIES; i++) if(pgdir[i] & PTE_P) kfree(...);] *)
Fixpoint freevm_tables (idx : list Z) (pgdir : Z) : K unit :=
  match idx with
  | [] => ret tt
  | i :: idx' =>
      d <- load32 (pgdir + 4 * i) ;;
      when (present d) (kfree (P2V (PTE_ADDR d))) ;;
      freevm_tables idx' pgdir
  end.

(** Free a page table and all the physical memory pages in the user part. *)
Definition freevm (pgdir : Z) : K unit :=
  if pgdir =? 0 then panic "freevm: no pgdir"
  else
    deallocuvm pgdir KERNBASE 0 ;;
    freevm_tables (seqZ 0 1024) pgdir ;;
    kfree pgdir.

Fixpoint allocuvm_loop (fuel : nat) (pgdir a oldsz newsz : Z) : K Z :=
  match fuel with
  | O => undef "allocuvm: fuel"
  | S fuel' =>
      if a <? newsz then
        p <- kalloc ;;
        if p =? 0 then
          cprintf (bytes "allocuvm out of memory" ++ [10]) [] ;;
          deallocuvm pgdir newsz oldsz ;;
          ret 0
        else
          upd_mem (fun m => memset m p 0 PGSIZE) ;;
          r <- mappages pgdir a PGSIZE (V2P p) (Z.lor PTE_W PTE_U) ;;
          if r <? 0 then
            cprintf (bytes "allocuvm out of memory (2)" ++ [10]) [] ;;
            deallocuvm pgdir newsz oldsz ;;
            kfree p ;;
            ret 0
          else allocuvm_loop fuel' pgdir (u32 (a + PGSIZE)) oldsz newsz
      else ret newsz
  end.

(** Allocate page tables and physical memory to grow a process from [oldsz] to
    [newsz].  Returns the new size or 0 on error. *)
Definition allocuvm (pgdir oldsz newsz : Z) : K Z :=
  if KERNBASE <=? newsz then ret 0
  else if newsz <? oldsz then ret oldsz
  else
    let a := PGROUNDUP oldsz in
    allocuvm_loop (S (Z.to_nat ((newsz - a) / PGSIZE + 1))) pgdir a oldsz newsz.

(** The kernel's mappings, present in every process's page table:
    virtual start, physical start, physical end, permissions. *)
Definition kmap : list (Z * Z * Z * Z) :=
  [ (KERNBASE, 0, EXTMEM, PTE_W);
    (KERNLINK, V2P KERNLINK, V2P kdata, 0);
    (kdata, V2P kdata, PHYSTOP, PTE_W);
    (DEVSPACE, DEVSPACE, 0, PTE_W) ].

Fixpoint setupkvm_loop (ks : list (Z * Z * Z * Z)) (pgdir : Z) : K Z :=
  match ks with
  | [] => ret pgdir
  | (virt, phys_start, phys_end, perm) :: ks' =>
      r <- mappages pgdir virt (u32 (phys_end - phys_start)) phys_start perm ;;
      if r <? 0 then freevm pgdir ;; ret 0
      else setupkvm_loop ks' pgdir
  end.

(** Set up the kernel part of a page table. *)
Definition setupkvm : K Z :=
  pgdir <- kalloc ;;
  if pgdir =? 0 then ret 0
  else
    upd_mem (fun m => memset m pgdir 0 PGSIZE) ;;
    if DEVSPACE <? P2V PHYSTOP then panic "PHYSTOP too high"
    else setupkvm_loop kmap pgdir.

Definition switchkvm : K unit :=
  kp <- gets kpgdir ;;
  modify (set_cr3 (V2P kp)).

Definition kvmalloc : K unit :=
  kp <- setupkvm ;;
  modify (set_kpgdir kp) ;;
  switchkvm.

(** Switch the page-table register (and the task state) to process [p]. *)
Definition switchuvm (op : option nat) : K unit :=
  match op with
  | None => panic "switchuvm: no process"
  | Some i =>
      p <- proc_at i ;;
      if p_kstack p =? 0 then panic "switchuvm: no kstack"
      else if p_pgdir p =? 0 then panic "switchuvm: no pgdir"
      else modify (set_cr3 (V2P (p_pgdir p)))
  end.

(** Load the initcode (the bytes at [init]) into address 0 of [pgdir]. *)
Definition inituvm (pgdir init sz : Z) : K unit :=
  if PGSIZE <=? sz then panic "inituvm: more than a page"
  else
    p <- kalloc ;;
    upd_mem (fun m => memset m p 0 PGSIZE) ;;
    mappages pgdir 0 PGSIZE (V2P p) (Z.lor PTE_W PTE_U) ;;
    upd_mem (fun m => memmove m p init sz).

(** Clear PTE_U on a page. *)
Definition clearpteu (pgdir uva : Z) : K unit :=
  pte <- walkpgdir pgdir uva false ;;
  if pte =? 0 then panic "clearpteu"
  else
    e <- load32 pte ;;
    store32 pte (Z.land e (Z.lnot PTE_U)).

Fixpoint copyuvm_loop (fuel : nat) (pgdir d i sz : Z) : K Z :=
  match fuel with
  | O => undef "copyuvm: fuel"
  | S fuel' =>
      if i <? sz then
        pte <- walkpgdir pgdir i false ;;
        if pte =? 0 then panic "copyuvm: pte should exist"
        else
          e <- load32 pte ;;
          if negb (present e) then panic "copyuvm: page not present"
          else
            let pa := PTE_ADDR e in
            let flags := PTE_FLAGS e in
            p <- kalloc ;;
            if p =? 0 then freevm d ;; ret 0
            else
              upd_mem (fun m => memmove m p (P2V pa) PGSIZE) ;;
              r <- mappages d i PGSIZE (V2P p) flags ;;
              if r <? 0 then kfree p ;; freevm d ;; ret 0
              else copyuvm_loop fuel' pgdir d (u32 (i + PGSIZE)) sz
      else ret d
  end.

(** Given a parent process's page table, create a copy of it for a child. *)
Definition copyuvm (pgdir sz : Z) : K Z :=
  d <- setupkvm ;;
  if d =? 0 then ret 0
  else copyuvm_loop (S (Z.to_nat (sz / PGSIZE + 1))) pgdir d 0 sz.

(** Map user virtual address to kernel address.  The entry's address is used
    without a test for 0. *)
Definition uva2ka (pgdir uva : Z) : K Z :=
  pte <- walkpgdir pgdir uva false ;;
  if pte =? 0 then undef "uva2ka: null pte"
  else
    e <- load32 pte ;;
    if negb (present e) then ret 0
    else if negb (user_pte e) then ret 0
    else ret (P2V (PTE_ADDR e)).

(** The source of a copy: [n] bytes from offset [o]. *)
Definition source : Type := Z -> nat -> K (list Z).

Definition from_kernel (p : Z) : source := fun o n => gets (fun s => ld_bytes (mem s) (p + o) n).

(** [copied] bytes are done, [len] are left. *)
Fixpoint copyout_loop (fuel : nat) (pgdir va : Z) (buf : source) (copied len : Z) : K Z :=
  match fuel with
  | O => undef "copyout: fuel"
  | S fuel' =>
      if 0 <? len then
        let va0 := PGROUNDDOWN va in
        pa0 <- uva2ka pgdir va0 ;;
        if pa0 =? 0 then ret (-1)
        else
          let n := Z.min (PGSIZE - (va - va0)) len in
          bs <- buf copied (Z.to_nat n) ;;
          upd_mem (fun m => st_bytes m (pa0 + (va - va0)) bs) ;;
          copyout_loop fuel' pgdir (u32 (va0 + PGSIZE)) buf (copied + n) (len - n)
      else ret 0
  end.

(** Copy [len] bytes from [p] to user address [va]. *)
Definition copyout (pgdir va : Z) (p : source) (len : Z) : K Z :=
  copyout_loop (S (Z.to_nat (len / PGSIZE + 2))) pgdir va p 0 len.

(** ** Shared memory regions *)

Definition shminit : K unit :=
  modify (set_shmtable (replicate (Z.to_nat NSHM) (mk_shm_region 0 0))).

Definition region_at (id : Z) : K shm_region := fun s =>
  match shmtable s !! Z.to_nat id with
  | Some r => Ret r s
  | None => Undef "shmtable out of range" s
  end.

Definition upd_region (id : Z) (f : shm_region -> shm_region) : K unit :=
  modify (fun s => set_shmtable (alter f (Z.to_nat id) (shmtable s)) s).

(** Map shared memory region [id] into the calling process. *)
Definition shmget (id : Z) : K Z :=
  me <- curproc ;;
  if (id <? 0) || (NSHM <=? id) then ret (-1)
  else
    acquire LkShm ;;
    r <- region_at id ;;
    ok <- (if sr_page r =? 0 then
             p <- kalloc ;;
             if p =? 0 then release LkShm ;; ret false
             else
               upd_mem (fun m => memset m p 0 PGSIZE) ;;
               upd_region id (set_sr_page p) ;;
               upd_region id (set_sr_refcnt 0) ;;
               ret true
           else ret true) ;;
    if negb ok then ret (-1)
    else
      r <- region_at id ;;
      cp <- proc_at me ;;
      let va := PGROUNDUP (p_sz cp) in
      m <- mappages (p_pgdir cp) va PGSIZE (V2P (sr_page r)) (Z.lor PTE_W PTE_U) ;;
      if m <? 0 then release LkShm ;; ret (-1)
      else
        upd_proc me (set_p_sz (u32 (va + PGSIZE))) ;;
        upd_region id (fun r => set_sr_refcnt (i32 (sr_refcnt r + 1)) r) ;;
        release LkShm ;;
        switchuvm (Some me) ;;
        ret (i32 va).

(** Reference count of shared memory region [id]. *)
Definition shmem_count (id : Z) : K Z :=
  if (id <? 0) || (NSHM <=? id) then ret (-1)
  else
    acquire LkShm ;;
    r <- region_at id ;;
    release LkShm ;;
    ret (sr_refcnt r).

End vm.
