(* ===== verification/AddrSpace.v ===== *)
(** * Address spaces

    The two-level page table of a directory as a function from virtual pages
    to entries ([pte_of]), the pages an address space owns ([own]: the
    directory, the tables and the user pages), and the invariant [aspace]
    that these pages are distinct and not free.  The lemmas say how the
    elementary updates of vm.c (a new table, a store in a table, a store in
    another page) change the function and preserve the invariant. *)

From S2P Require Import Prelude Mem KState Mmu Kalloc.

Section aspace.
Context {LK : Linker}.

(** ** Views *)

Definition pde (m : memory) (dir i : Z) : Z := ld32 m (dir + 4 * i).

Definition tab (m : memory) (dir i : Z) : Z := P2V (PTE_ADDR (pde m dir i)).

(** The entry for [va]; an absent table is a table of zeros. *)
Definition pte_of (m : memory) (dir va : Z) : Z :=
  if present (pde m dir (PDX va)) then ld32 m (tab m dir (PDX va) + 4 * PTX va) else 0.

Definition leaf (pte : Z) : Z := P2V (PTE_ADDR pte).

(** User virtual pages and virtual pages. *)
Definition uva (va : Z) : Prop := 0 <= va < KERNBASE /\ va mod 4096 = 0.
Definition vpage (va : Z) : Prop := 0 <= va < 2 ^ 32 /\ va mod 4096 = 0.

(** ** Ownership *)

Inductive own (m : memory) (dir : Z) : Z -> Prop :=
  | own_dir : own m dir dir
  | own_tab i : 0 <= i < 1024 -> present (pde m dir i) = true -> own m dir (tab m dir i)
  | own_leaf va : uva va -> present (pte_of m dir va) = true -> own m dir (leaf (pte_of m dir va)).

Record aspace (m : memory) (dir : Z) (l : list Z) : Prop := {
  as_page p : own m dir p -> is_page p;
  as_free p : own m dir p -> p ∉ l;
  as_tab_dir i : 0 <= i < 1024 -> present (pde m dir i) = true -> tab m dir i <> dir;
  as_tab_inj i j : 0 <= i < 1024 -> 0 <= j < 1024 ->
    present (pde m dir i) = true -> present (pde m dir j) = true ->
    tab m dir i = tab m dir j -> i = j;
  as_leaf_dir va : uva va -> present (pte_of m dir va) = true -> leaf (pte_of m dir va) <> dir;
  as_leaf_tab va i : uva va -> present (pte_of m dir va) = true ->
    0 <= i < 1024 -> present (pde m dir i) = true -> leaf (pte_of m dir va) <> tab m dir i;
  as_leaf_inj va vb : uva va -> uva vb ->
    present (pte_of m dir va) = true -> present (pte_of m dir vb) = true ->
    leaf (pte_of m dir va) = leaf (pte_of m dir vb) -> va = vb;
}.

Lemma uva_vpage va : uva va -> vpage va.
Proof. unfold uva, vpage, KERNBASE. lia. Qed.

Lemma vpage_inj a b : vpage a -> vpage b -> PDX a = PDX b -> PTX a = PTX b -> a = b.
Proof. intros [Ha Ea] [Hb Eb]. by apply va_indices_inj. Qed.

Lemma as_dir_page m dir l : aspace m dir l -> is_page dir.
Proof. intros H. eapply as_page; [done|]. constructor. Qed.

Lemma as_tab_page m dir l i : aspace m dir l -> 0 <= i < 1024 ->
  present (pde m dir i) = true -> is_page (tab m dir i).
Proof. intros H Hi Hp. eapply as_page; [done|]. by constructor. Qed.

Lemma as_leaf_page m dir l va : aspace m dir l -> uva va ->
  present (pte_of m dir va) = true -> is_page (leaf (pte_of m dir va)).
Proof. intros H Hi Hp. eapply as_page; [done|]. by constructor. Qed.

Lemma aspace_subset m dir l l' : aspace m dir l -> (forall p, p ∈ l' -> p ∈ l) -> aspace m dir l'.
Proof.
  intros H Hs. destruct H. constructor; try done. intros p Hp Hin. by eapply as_free0, Hs.
Qed.

Lemma aspace_list m dir l l' : aspace m dir l -> (forall p, own m dir p -> p ∉ l') -> aspace m dir l'.
Proof. intros H Hs. by destruct H. Qed.

Lemma aspace_cons m dir l p : aspace m dir l -> ~ own m dir p -> aspace m dir (p :: l).
Proof.
  intros H Hp. destruct H. constructor; try done.
  intros q Hq [-> | Hin]%elem_of_cons; [done|]. by eapply as_free0.
Qed.

(** ** Updates elsewhere *)

Lemma pde_frame (P : Z -> Prop) m m' dir i :
  frame P m m' -> (forall p, P p -> is_page p) -> is_page dir -> ~ P dir -> 0 <= i < 1024 ->
  pde m' dir i = pde m dir i.
Proof. intros. unfold pde. eapply frame_ld32; eauto. lia. Qed.

(** A store that touches neither the directory nor a table. *)
Definition untouched (P : Z -> Prop) (m : memory) (dir : Z) : Prop :=
  ~ P dir /\ forall i, 0 <= i < 1024 -> present (pde m dir i) = true -> ~ P (tab m dir i).

Lemma pte_frame (P : Z -> Prop) m m' dir l va :
  frame P m m' -> (forall p, P p -> is_page p) -> aspace m dir l -> untouched P m dir ->
  pte_of m' dir va = pte_of m dir va.
Proof.
  intros Hf HP Ha [Hd Ht]. unfold pte_of, tab.
  pose proof (PDX_range va). pose proof (PTX_range va).
  rewrite (pde_frame P m m' dir (PDX va)) by (eauto using as_dir_page).
  destruct (present (pde m dir (PDX va))) eqn:Hp; [|done].
  eapply (frame_ld32 P); [done|by eapply as_tab_page|done|by apply Ht|lia].
Qed.

Lemma own_ext m m' dir p :
  (forall i, 0 <= i < 1024 -> pde m' dir i = pde m dir i) ->
  (forall va, pte_of m' dir va = pte_of m dir va) ->
  own m dir p -> own m' dir p.
Proof.
  intros Hd Hp [|i Hi Hi'|va Hva Hva'].
  - constructor.
  - replace (tab m dir i) with (tab m' dir i) by (unfold tab; by rewrite Hd).
    constructor; [done|]. by rewrite Hd.
  - rewrite <- Hp. constructor; [done|]. by rewrite Hp.
Qed.

Lemma aspace_ext m m' dir l :
  (forall i, 0 <= i < 1024 -> pde m' dir i = pde m dir i) ->
  (forall va, pte_of m' dir va = pte_of m dir va) ->
  aspace m dir l -> aspace m' dir l.
Proof.
  intros Hd Hp H.
  assert (forall i, 0 <= i < 1024 -> tab m' dir i = tab m dir i) as Ht
    by (intros; unfold tab; by rewrite Hd).
  assert (forall p, own m' dir p -> own m dir p) as Ho.
  { intros p. apply own_ext; intros; symmetry; auto. }
  destruct H. constructor.
  - intros p Hq%Ho. auto.
  - intros p Hq%Ho. auto.
  - intros i Hi. rewrite Hd, Ht by done. auto.
  - intros i j Hi Hj. rewrite !Hd, !Ht by done. auto.
  - intros va Hva. rewrite Hp. auto.
  - intros va i Hva. rewrite Hp. intros Hpr Hi. rewrite Hd, Ht by done. auto.
  - intros va vb. rewrite !Hp. auto.
Qed.

Lemma own_frame (P : Z -> Prop) m m' dir l p :
  frame P m m' -> (forall p, P p -> is_page p) -> aspace m dir l -> untouched P m dir ->
  own m' dir p <-> own m dir p.
Proof.
  intros Hf HP Ha Hu. pose proof Hu as [Hd _].
  assert (forall i, 0 <= i < 1024 -> pde m' dir i = pde m dir i) as H1
    by (intros; eapply pde_frame; eauto using as_dir_page).
  assert (forall va, pte_of m' dir va = pte_of m dir va) as H2
    by (intros; eapply pte_frame; eauto).
  split; apply own_ext; intros; auto; symmetry; auto.
Qed.

Lemma aspace_frame (P : Z -> Prop) m m' dir l :
  frame P m m' -> (forall p, P p -> is_page p) -> aspace m dir l -> untouched P m dir ->
  aspace m' dir l.
Proof.
  intros Hf HP Ha Hu. pose proof Hu as [Hd _]. eapply aspace_ext; [| |done].
  - intros. eapply pde_frame; eauto using as_dir_page.
  - intros. eapply pte_frame; eauto.
Qed.

(** A page the address space does not own is not touched by its updates, and
    a page it owns outside directory and tables may be written freely. *)
Lemma untouched_not_own m dir p : ~ own m dir p -> untouched (eq p) m dir.
Proof.
  intros Hn. split.
  - intros ->. apply Hn. constructor.
  - intros i Hi Hp ->. apply Hn. by constructor.
Qed.

Lemma untouched_leaf m dir l va : aspace m dir l -> uva va -> present (pte_of m dir va) = true ->
  untouched (eq (leaf (pte_of m dir va))) m dir.
Proof.
  intros Ha Hva Hp. split.
  - by eapply as_leaf_dir.
  - intros i Hi Hpi. by eapply as_leaf_tab.
Qed.

(** ** A new page table *)

Definition table_entry (p : Z) : Z := Z.lor (Z.lor (Z.lor (V2P p) PTE_P) PTE_W) PTE_U.

Lemma table_entry_eq p : is_page p -> table_entry p = V2P p + 7.
Proof.
  intros Hp. unfold table_entry. rewrite <- !Z.lor_assoc.
  change (Z.lor PTE_P (Z.lor PTE_W PTE_U)) with 7.
  apply (lor_add _ _ 12); [lia|by apply V2P_page_aligned|lia].
Qed.

Lemma table_entry_leaf p : is_page p ->
  P2V (PTE_ADDR (table_entry p)) = p /\ present (table_entry p) = true /\
  0 <= table_entry p < 2 ^ 32.
Proof.
  intros Hp. pose proof (V2P_page_aligned p Hp) as Ha. pose proof (V2P_page_range p Hp) as Hr.
  rewrite table_entry_eq by done. rewrite PTE_ADDR_eq, present_odd.
  rewrite <- Z.add_mod_idemp_l, Ha by lia. change ((0 + 7) mod 4096) with 7.
  replace (V2P p + 7 - 7) with (V2P p) by lia. rewrite P2V_V2P by done.
  split; [done|]. split; [|unfold PHYSTOP in *; lia].
  rewrite Z.odd_add. replace (Z.odd (V2P p)) with false; [done|].
  symmetry. rewrite <- (Z.mul_1_r (V2P p)).
  assert (V2P p = 2 * (2048 * (V2P p / 4096))) as -> by (Z.div_mod_to_equations; lia).
  by rewrite Z.mul_1_r, Z.odd_mul.
Qed.

Definition with_table (m : memory) (dir i p : Z) : memory :=
  st32 (memset m p 0 PGSIZE) (dir + 4 * i) (table_entry p).

Section new_table.
Variables (m : memory) (dir p i : Z) (l : list Z).
Hypothesis Has : aspace m dir (p :: l).
Hypothesis Hpage : is_page p.
Hypothesis Hi : 0 <= i < 1024.
Hypothesis Habs : present (pde m dir i) = false.

Let m' := with_table m dir i p.

Lemma new_table_frame : frame (fun q => q = dir \/ q = p) m m'.
Proof.
  eapply frame_trans with (m2 := memset m p 0 PGSIZE).
  - eapply frame_weaken; [|apply frame_memset]. intros q <-. by right.
  - eapply frame_weaken; [|apply frame_st32; lia]. intros q <-. by left.
Qed.

Lemma new_table_not_own : ~ own m dir p.
Proof using Has. intros Ho. eapply as_free in Ho; [|done]. by apply Ho, list_elem_of_here. Qed.

Lemma new_table_dir : p <> dir.
Proof using Has. intros Heq. apply new_table_not_own. rewrite Heq. constructor. Qed.

Lemma new_table_pde j : 0 <= j < 1024 ->
  pde m' dir j = if decide (j = i) then table_entry p else pde m dir j.
Proof using Has Hpage Hi.
  intros Hj. unfold m', with_table, pde. case_decide as Hji.
  - subst j. apply ld32_st32_same. by apply table_entry_leaf.
  - rewrite ld32_st32_other by lia. eapply (frame_ld32 (eq p)); [apply frame_memset| | | |lia].
    + by eapply as_dir_page.
    + by intros ? <-.
    + apply new_table_dir.
Qed.

Lemma new_table_tab j : 0 <= j < 1024 ->
  tab m' dir j = if decide (j = i) then p else tab m dir j.
Proof using Has Hpage Hi.
  intros Hj. unfold tab. rewrite new_table_pde by done. case_decide; [|done].
  by apply table_entry_leaf.
Qed.

Lemma new_table_present j : 0 <= j < 1024 ->
  present (pde m' dir j) = if decide (j = i) then true else present (pde m dir j).
Proof using Has Hpage Hi.
  intros Hj. rewrite new_table_pde by done. case_decide; [|done]. by apply table_entry_leaf.
Qed.

Lemma new_table_zero o : 0 <= o <= 4092 -> ld32 m' (p + o) = 0.
Proof using Has Hpage Hi.
  intros Ho. unfold m', with_table.
  assert (is_page dir) as Hd by (by eapply as_dir_page).
  destruct (page_neq_disjoint p dir Hpage Hd new_table_dir) as [H|H];
    rewrite ld32_st32_other by lia; unfold ld32, ld8; rewrite !memset_in by (unfold PGSIZE; lia); done.
Qed.

Lemma new_table_pte va : pte_of m' dir va = pte_of m dir va.
Proof using Has Hpage Hi Habs.
  unfold pte_of. pose proof (PDX_range va). pose proof (PTX_range va).
  rewrite new_table_present, new_table_tab by done. case_decide as Hd.
  - rewrite Hd, Habs. apply new_table_zero. lia.
  - destruct (present (pde m dir (PDX va))) eqn:Hp; [|done].
    eapply (frame_ld32 (fun q => q = dir \/ q = p)); [apply new_table_frame| | | |lia].
    + by eapply as_tab_page.
    + intros q [-> | ->]; [by eapply as_dir_page|done].
    + intros [H' | H']; [by apply (as_tab_dir _ _ _ Has (PDX va))|].
      apply new_table_not_own. rewrite <- H'. by constructor.
Qed.

Lemma new_table_own q : own m' dir q <-> own m dir q \/ q = p.
Proof using Has Hpage Hi Habs.
  split.
  - intros [|j Hj Hp|va Hva Hp].
    + left. constructor.
    + rewrite new_table_present in Hp by done. rewrite new_table_tab by done.
      case_decide; [by right|]. left. by constructor.
    + rewrite new_table_pte in *. left. by constructor.
  - intros [[|j Hj Hp|va Hva Hp] | ->].
    + constructor.
    + assert (j <> i) by (intros ->; congruence).
      replace (tab m dir j) with (tab m' dir j) by (rewrite new_table_tab by done; by case_decide).
      constructor; [done|]. rewrite new_table_present by done. by case_decide.
    + rewrite <- new_table_pte. constructor; [done|]. by rewrite new_table_pte.
    + replace p with (tab m' dir i) by (rewrite new_table_tab by done; by case_decide).
      constructor; [done|]. rewrite new_table_present by done. by case_decide.
Qed.

Lemma new_table_aspace : p ∉ l -> aspace m' dir l.
Proof using Has Hpage Hi Habs.
  intros Hpl. pose proof new_table_not_own as Hno. pose proof new_table_dir as Hnd.
  destruct Has. constructor.
  - intros q [Hq| ->]%new_table_own; [by apply as_page0|done].
  - intros q [Hq| ->]%new_table_own; [|done]. intros Hin. eapply as_free0; [done|].
    by apply list_elem_of_further.
  - intros j Hj. rewrite new_table_present, new_table_tab by done. case_decide; auto.
  - intros j k Hj Hk. rewrite !new_table_present, !new_table_tab by done.
    case_decide as D1; case_decide as D2; intros Hpj Hpk Heq.
    + congruence.
    + exfalso. apply Hno. rewrite Heq. by constructor.
    + exfalso. apply Hno. rewrite <- Heq. by constructor.
    + auto.
  - intros va Hva. rewrite new_table_pte. auto.
  - intros va j Hva Hp Hj. rewrite new_table_present, new_table_tab by done.
    rewrite new_table_pte in *. case_decide; [|auto].
    intros _ Heq. apply Hno. rewrite <- Heq. by constructor.
  - intros va vb. rewrite !new_table_pte. auto.
Qed.

End new_table.

(** ** A store in a table *)

Section store_pte.
Variables (m : memory) (dir va v : Z) (l : list Z).
Hypothesis Has : aspace m dir l.
Hypothesis Hpres : present (pde m dir (PDX va)) = true.
Hypothesis Hv : 0 <= v < 2 ^ 32.

Let t := tab m dir (PDX va).
Let m' := st32 m (t + 4 * PTX va) v.

Lemma store_pte_frame : frame (eq t) m m'.
Proof. pose proof (PTX_range va). apply frame_st32. lia. Qed.

Lemma store_pte_tab_page : is_page t.
Proof using Has Hpres. eapply as_tab_page; [done|apply PDX_range|done]. Qed.

Lemma store_pte_pde i : 0 <= i < 1024 -> pde m' dir i = pde m dir i.
Proof using Has Hpres.
  intros Hi. eapply pde_frame; [apply store_pte_frame| | | |done].
  - intros ? <-. apply store_pte_tab_page.
  - by eapply as_dir_page.
  - eapply as_tab_dir; [done|apply PDX_range|done].
Qed.

Lemma store_pte_tab i : 0 <= i < 1024 -> tab m' dir i = tab m dir i.
Proof using Has Hpres. intros Hi. unfold tab. by rewrite store_pte_pde. Qed.

Lemma store_pte_pte vb : pte_of m' dir vb =
  if decide (PDX vb = PDX va /\ PTX vb = PTX va) then v else pte_of m dir vb.
Proof using Has Hpres Hv.
  pose proof (PDX_range vb). pose proof (PTX_range vb). pose proof (PTX_range va).
  unfold pte_of. rewrite store_pte_pde, store_pte_tab by done.
  case_decide as Hd.
  - destruct Hd as [E1 E2]. rewrite E1, E2, Hpres. by apply ld32_st32_same.
  - destruct (present (pde m dir (PDX vb))) eqn:Hp; [|done].
    destruct (decide (PDX vb = PDX va)) as [He|He].
    + rewrite He. apply ld32_st32_other. unfold t. assert (PTX vb <> PTX va) by tauto. lia.
    + eapply frame_ld32; [apply store_pte_frame| | | |lia].
      * by eapply as_tab_page.
      * intros ? <-. apply store_pte_tab_page.
      * intros Heq. apply He. symmetry. eapply as_tab_inj; eauto. apply PDX_range.
Qed.

Lemma store_pte_pte_page vb : vpage va -> vpage vb ->
  pte_of m' dir vb = if decide (vb = va) then v else pte_of m dir vb.
Proof using Has Hpres Hv.
  intros Ha Hb. rewrite store_pte_pte. case_decide as D1; case_decide as D2; try done.
  - exfalso. apply D2. destruct D1. by apply vpage_inj.
  - exfalso. apply D1. by rewrite D2.
Qed.

End store_pte.

(** Clearing an entry gives the page back. *)
Section clear_pte.
Variables (m : memory) (dir va : Z) (l : list Z).
Hypothesis Has : aspace m dir l.
Hypothesis Hpres : present (pde m dir (PDX va)) = true.
Hypothesis Hva : uva va.

Let m' := st32 m (tab m dir (PDX va) + 4 * PTX va) 0.

Lemma clear_pte_pte vb : vpage vb ->
  pte_of m' dir vb = if decide (vb = va) then 0 else pte_of m dir vb.
Proof using Has Hpres Hva.
  intros Hb. eapply store_pte_pte_page; eauto; [lia|by apply uva_vpage].
Qed.

Lemma clear_pte_own q : own m' dir q ->
  own m dir q /\ (present (pte_of m dir va) = true -> q <> leaf (pte_of m dir va)).
Proof using Has Hpres Hva.
  assert (forall i, 0 <= i < 1024 -> pde m' dir i = pde m dir i) as Hpde
    by (intros; by eapply store_pte_pde).
  assert (forall i, 0 <= i < 1024 -> tab m' dir i = tab m dir i) as Htab
    by (intros; by eapply store_pte_tab).
  intros [|i Hi Hp|vb Hvb Hp].
  - split; [constructor|]. intros Hpr. apply not_eq_sym. by eapply as_leaf_dir.
  - rewrite Hpde in Hp by done. rewrite Htab by done. split; [by constructor|].
    intros Hpr. apply not_eq_sym. by eapply as_leaf_tab.
  - rewrite clear_pte_pte in * by (by apply uva_vpage). case_decide; [done|].
    split; [by constructor|]. intros Hpr Heq. by eapply as_leaf_inj in Heq.
Qed.

Lemma clear_pte_own_back q : own m dir q ->
  q = leaf (pte_of m dir va) \/ own m' dir q.
Proof using Has Hpres Hva.
  assert (forall i, 0 <= i < 1024 -> pde m' dir i = pde m dir i) as Hpde
    by (intros; by eapply store_pte_pde).
  assert (forall i, 0 <= i < 1024 -> tab m' dir i = tab m dir i) as Htab
    by (intros; by eapply store_pte_tab).
  intros [|i Hi Hp|vb Hvb Hp].
  - right. constructor.
  - right. rewrite <- Htab by done. constructor; [done|]. by rewrite Hpde.
  - destruct (decide (vb = va)) as [->|Hne]; [by left|]. right.
    assert (pte_of m' dir vb = pte_of m dir vb) as He
      by (rewrite clear_pte_pte by (by apply uva_vpage); by case_decide).
    rewrite <- He. constructor; [done|]. by rewrite He.
Qed.

Lemma clear_pte_aspace : aspace m' dir l.
Proof using Has Hpres Hva.
  assert (forall i, 0 <= i < 1024 -> pde m' dir i = pde m dir i) as Hpde
    by (intros; by eapply store_pte_pde).
  assert (forall i, 0 <= i < 1024 -> tab m' dir i = tab m dir i) as Htab
    by (intros; by eapply store_pte_tab).
  assert (forall vb, uva vb -> present (pte_of m' dir vb) = true ->
            pte_of m' dir vb = pte_of m dir vb) as Hpte.
  { intros vb Hvb. rewrite clear_pte_pte by (by apply uva_vpage). by case_decide. }
  pose proof clear_pte_own as Hown. destruct Has. constructor.
  - intros q [Hq _]%Hown. auto.
  - intros q [Hq _]%Hown. auto.
  - intros i Hi. rewrite Hpde, Htab by done. auto.
  - intros i j Hi Hj. rewrite !Hpde, !Htab by done. auto.
  - intros vb Hvb Hp. pose proof (Hpte vb Hvb Hp) as E. rewrite E in *. auto.
  - intros vb i Hvb Hp Hi. pose proof (Hpte vb Hvb Hp) as E. rewrite E in *.
    rewrite Hpde, Htab by done. auto.
  - intros vb vc Hvb Hvc Hb Hc. pose proof (Hpte vb Hvb Hb) as Eb.
    pose proof (Hpte vc Hvc Hc) as Ec. rewrite Eb, Ec in *. auto.
Qed.

End clear_pte.

(** Setting an entry takes a fresh page into the address space. *)
Section set_pte.
Variables (m : memory) (dir va v p : Z) (l : list Z).
Hypothesis Has : aspace m dir l.
Hypothesis Hpres : present (pde m dir (PDX va)) = true.
Hypothesis Hva : uva va.
Hypothesis Hempty : present (pte_of m dir va) = false.
Hypothesis Hv : 0 <= v < 2 ^ 32.
Hypothesis Hleaf : leaf v = p.
Hypothesis Hvp : present v = true.
Hypothesis Hp : is_page p.
Hypothesis Hpl : p ∉ l.
Hypothesis Hno : ~ own m dir p.

Let m' := st32 m (tab m dir (PDX va) + 4 * PTX va) v.

Lemma set_pte_pte vb : vpage vb ->
  pte_of m' dir vb = if decide (vb = va) then v else pte_of m dir vb.
Proof using Has Hpres Hva Hv. intros. by eapply store_pte_pte_page; eauto using uva_vpage. Qed.

Lemma set_pte_own q : own m' dir q <-> own m dir q \/ q = p.
Proof using Has Hpres Hva Hempty Hv Hleaf Hvp.
  assert (forall i, 0 <= i < 1024 -> pde m' dir i = pde m dir i) as Hpde
    by (intros; by eapply store_pte_pde).
  assert (forall i, 0 <= i < 1024 -> tab m' dir i = tab m dir i) as Htab
    by (intros; by eapply store_pte_tab).
  split.
  - intros [|i Hi Hpr|vb Hvb Hpr].
    + left. constructor.
    + rewrite Hpde in Hpr by done. rewrite Htab by done. left. by constructor.
    + rewrite set_pte_pte in * by (by apply uva_vpage). case_decide; [by right|].
      left. by constructor.
  - intros [[|i Hi Hpr|vb Hvb Hpr] | ->].
    + constructor.
    + rewrite <- Htab by done. constructor; [done|]. by rewrite Hpde.
    + assert (vb <> va) by congruence.
      assert (pte_of m' dir vb = pte_of m dir vb) as He
        by (rewrite set_pte_pte by (by apply uva_vpage); by case_decide).
      rewrite <- He. constructor; [done|]. by rewrite He.
    + assert (pte_of m' dir va = v) as He
        by (rewrite set_pte_pte by (by apply uva_vpage); by case_decide).
      rewrite <- Hleaf, <- He. constructor; [done|]. by rewrite He.
Qed.

Lemma set_pte_aspace : aspace m' dir l.
Proof using All.
  assert (forall i, 0 <= i < 1024 -> pde m' dir i = pde m dir i) as Hpde
    by (intros; by eapply store_pte_pde).
  assert (forall i, 0 <= i < 1024 -> tab m' dir i = tab m dir i) as Htab
    by (intros; by eapply store_pte_tab).
  assert (forall vb, uva vb -> vb <> va -> pte_of m' dir vb = pte_of m dir vb) as Hpte.
  { intros vb Hvb Hne. rewrite set_pte_pte by (by apply uva_vpage). by case_decide. }
  assert (pte_of m' dir va = v) as Hptev
    by (rewrite set_pte_pte by (by apply uva_vpage); by case_decide).
  pose proof set_pte_own as Hown. pose proof Has as Has'. destruct Has'. constructor.
  - intros q [Hq| ->]%Hown; auto.
  - intros q [Hq| ->]%Hown; auto.
  - intros i Hi. rewrite Hpde, Htab by done. auto.
  - intros i j Hi Hj. rewrite !Hpde, !Htab by done. auto.
  - intros vb Hvb Hpr. destruct (decide (vb = va)) as [->|Hne].
    + rewrite Hptev, Hleaf. intros Heq. apply Hno. rewrite Heq. constructor.
    + rewrite Hpte in * by done. auto.
  - intros vb i Hvb Hpr Hi. rewrite Hpde, Htab by done. intros Hpi.
    destruct (decide (vb = va)) as [->|Hne].
    + rewrite Hptev, Hleaf. intros Heq. apply Hno. rewrite Heq. by constructor.
    + rewrite Hpte in * by done. auto.
  - intros vb vc Hvb Hvc. destruct (decide (vb = va)) as [->|Hb], (decide (vc = va)) as [->|Hc];
      rewrite ?Hptev, ?Hleaf, ?Hpte by done; auto.
    + intros _ Hpc Heq. exfalso. apply Hno. rewrite Heq. by constructor.
    + intros Hpb _ Heq. exfalso. apply Hno. rewrite <- Heq. by constructor.
Qed.

End set_pte.

(** Entries of the kernel part own nothing. *)
Lemma set_kernel_pte m dir va v l :
  aspace m dir l -> present (pde m dir (PDX va)) = true -> 0 <= v < 2 ^ 32 ->
  KERNBASE <= va < 2 ^ 32 ->
  let m' := st32 m (tab m dir (PDX va) + 4 * PTX va) v in
  aspace m' dir l /\ (forall q, own m' dir q <-> own m dir q).
Proof.
  intros Has Hpres Hv Hva m'.
  assert (forall i, 0 <= i < 1024 -> pde m' dir i = pde m dir i) as Hpde
    by (intros; by eapply store_pte_pde).
  assert (forall i, 0 <= i < 1024 -> tab m' dir i = tab m dir i) as Htab
    by (intros; by eapply store_pte_tab).
  assert (forall vb, uva vb -> pte_of m' dir vb = pte_of m dir vb) as Hpte.
  { intros vb [Hvb _]. unfold m'. erewrite store_pte_pte by eauto. case_decide as Hd; [|done].
    pose proof (PDX_user vb Hvb). pose proof (PDX_kernel va Hva). lia. }
  assert (forall q, own m' dir q <-> own m dir q) as Hown.
  { intros q. split; (intros [|i Hi Hp|vb Hvb Hp]; [constructor| |]).
    - rewrite Htab, Hpde in * by done. by constructor.
    - rewrite Hpte in * by done. by constructor.
    - rewrite <- Htab by done. constructor; [done|]. by rewrite Hpde.
    - rewrite <- Hpte by done. constructor; [done|]. by rewrite Hpte. }
  split; [|done]. destruct Has. constructor.
  - intros q Hq%Hown. auto.
  - intros q Hq%Hown. auto.
  - intros i Hi. rewrite Hpde, Htab by done. auto.
  - intros i j Hi Hj. rewrite !Hpde, !Htab by done. auto.
  - intros vb Hvb. rewrite Hpte by done. auto.
  - intros vb i Hvb Hp Hi. rewrite Hpde, Htab by done. rewrite Hpte in * by done. auto.
  - intros vb vc Hvb Hvc. rewrite !Hpte by done. auto.
Qed.

End aspace.
