(* ===== verification/VmSpec.v ===== *)
(** * What the operations of vm.c do to address spaces

    For each operation: the new page-table function, the pages that change
    hands between the address space and the free list, and the memory that
    stays as it was.  [res] is the set of the pages an address space and the
    free list have together; no operation loses or invents a page of it. *)

From S2P Require Import Prelude Mem KState Mmu Console Kalloc Vm AddrSpace.

Section vmspec.
Context {LK : Linker}.

(** Only the memory, the free list and the console output may change. *)
Definition vmstep (s s' : kstate) : Prop :=
  s' = set_out (out s') (set_freelist (freelist s') (set_mem (mem s') s)).

Lemma vmstep_refl s : vmstep s s.
Proof. by destruct s. Qed.

Lemma vmstep_trans s1 s2 s3 : vmstep s1 s2 -> vmstep s2 s3 -> vmstep s1 s3.
Proof. unfold vmstep. intros H1 H2. rewrite H2 at 1. rewrite H1. done. Qed.

Lemma vmstep_set_mem s m : vmstep s (set_mem m s).
Proof. by destruct s. Qed.

Lemma vmstep_set_freelist s f : vmstep s (set_freelist f s).
Proof. by destruct s. Qed.

Lemma vmstep_held s s' : vmstep s s' -> held s' = held s.
Proof. intros ->. done. Qed.

Lemma vmstep_ptable s s' : vmstep s s' -> ptable s' = ptable s.
Proof. intros ->. done. Qed.

Lemma vmstep_ftable s s' : vmstep s s' -> ftable s' = ftable s.
Proof. intros ->. done. Qed.

Lemma vmstep_icache s s' : vmstep s s' -> icache s' = icache s.
Proof. intros ->. done. Qed.

Lemma vmstep_cons_locking s s' : vmstep s s' -> cons_locking s' = cons_locking s.
Proof. intros ->. done. Qed.

(** The pages of the address space and of the free list. *)
Definition res (m : memory) (dir : Z) (l : list Z) (p : Z) : Prop := own m dir p \/ p ∈ l.

(** The directory and the tables. *)
Definition tabs (m : memory) (dir p : Z) : Prop :=
  p = dir \/ exists i, 0 <= i < 1024 /\ present (pde m dir i) = true /\ p = tab m dir i.

Lemma tabs_own m dir p : tabs m dir p -> own m dir p.
Proof. intros [-> | (i & Hi & Hp & ->)]; by constructor. Qed.

Lemma free_pages_is_page s l p : free_pages s l -> p ∈ l -> is_page p.
Proof. intros (_ & _ & Hp) Hin. rewrite Forall_forall in Hp. auto. Qed.

Lemma res_is_page s dir l p : free_pages s l -> aspace (mem s) dir l ->
  res (mem s) dir l p -> is_page p.
Proof. intros Hf Ha [Ho|Hin]; [by eapply as_page|by eapply free_pages_is_page]. Qed.

(** An address space that takes pages from the free list, from [l] to [l'],
    and the pages [G] from its caller.  Nothing but the tables and the free
    pages is written. *)
Record grow (s s' : kstate) (dir : Z) (l l' : list Z) (G : Z -> Prop) : Prop := {
  gr_step : vmstep s s';
  gr_free : free_pages s' l';
  gr_as : aspace (mem s') dir l';
  gr_res q : res (mem s') dir l' q <-> res (mem s) dir l q \/ G q;
  gr_own q : own (mem s) dir q -> own (mem s') dir q;
  gr_sub q : q ∈ l' -> q ∈ l;
  gr_tabs q : tabs (mem s') dir q -> tabs (mem s) dir q \/ q ∈ l;
  gr_frame : frame (fun q => tabs (mem s) dir q \/ q ∈ l) (mem s) (mem s')
}.

Lemma grow_refl s dir l G : free_pages s l -> aspace (mem s) dir l -> (forall q, ~ G q) ->
  grow s s dir l l G.
Proof.
  intros Hf Ha HG. constructor; auto using vmstep_refl, frame_refl.
  intros q. specialize (HG q). tauto.
Qed.

Lemma grow_trans s1 s2 s3 dir l1 l2 l3 G1 G2 G :
  grow s1 s2 dir l1 l2 G1 -> grow s2 s3 dir l2 l3 G2 -> (forall q, G q <-> G1 q \/ G2 q) ->
  grow s1 s3 dir l1 l3 G.
Proof.
  intros H1 H2 HG. destruct H1 as [S1 F1 A1 R1 O1 B1 T1 M1], H2 as [S2 F2 A2 R2 O2 B2 T2 M2].
  constructor; auto; [by eapply vmstep_trans| | |].
  - intros q. rewrite R2, R1, HG. tauto.
  - intros q [H|H]%T2; [auto|]. right. auto.
  - eapply frame_trans; [exact M1|]. eapply frame_weaken; [|exact M2].
    intros q [H|H]; [auto|]. right. auto.
Qed.

Lemma grow_gain s s' dir l l' G G' : (forall q, G q <-> G' q) ->
  grow s s' dir l l' G -> grow s s' dir l l' G'.
Proof. intros HG []. constructor; auto. intros q. by rewrite <- HG. Qed.

(** ** walkpgdir *)

Lemma walkpgdir_look dir va s :
  walkpgdir dir va false s =
  Ret (if present (pde (mem s) dir (PDX va)) then tab (mem s) dir (PDX va) + 4 * PTX va else 0) s.
Proof.
  unfold walkpgdir, bind, load32, gets. fold (pde (mem s) dir (PDX va)).
  destruct (present (pde (mem s) dir (PDX va))) eqn:Hp; cbn [negb]; done.
Qed.

Lemma walkpgdir_alloc s dir va l :
  free_pages s l -> aspace (mem s) dir l -> LkKmem ∉ held s ->
  (l = [] /\ present (pde (mem s) dir (PDX va)) = false /\ walkpgdir dir va true s = Ret 0 s) \/
  exists s' l', let r := tab (mem s') dir (PDX va) + 4 * PTX va in
    walkpgdir dir va true s = Ret r s' /\ r <> 0 /\
    present (pde (mem s') dir (PDX va)) = true /\
    (forall vb, pte_of (mem s') dir vb = pte_of (mem s) dir vb) /\
    (forall j, 0 <= j < 1024 -> j <> PDX va -> pde (mem s') dir j = pde (mem s) dir j) /\
    grow s s' dir l l' (fun _ => False).
Proof.
  intros Hf Ha Hh. pose proof (PDX_range va) as Hi. pose proof (PTX_range va) as Hj.
  unfold walkpgdir, bind, load32, gets, upd_mem, store32, modify, ret. fold (pde (mem s) dir (PDX va)).
  destruct (present (pde (mem s) dir (PDX va))) eqn:Hp.
  { right. exists s, l. cbn zeta. split; [done|]. split; [|by auto 6 using grow_refl].
    fold (tab (mem s) dir (PDX va)).
    assert (is_page (tab (mem s) dir (PDX va))) as H'%is_page_bounds by (by eapply as_tab_page).
    unfold KERNBASE in *. lia. }
  cbn [negb]. pose proof (kalloc_spec s l Hf Hh) as Hk. destruct l as [|p l'].
  { left. by rewrite Hk. }
  right. destruct Hk as (s1 & Hr & Hs1 & Hf1 & Hpp & Hnp). rewrite Hr.
  rewrite (proj2 (Z.eqb_neq p 0)) by (by apply page_neq_0).
  ksimpl. fold (table_entry p).
  assert (mem s1 = mem s) as Hm1 by (rewrite Hs1; done). rewrite Hm1.
  fold (with_table (mem s) dir (PDX va) p).
  exists (set_mem (with_table (mem s) dir (PDX va) p) s1), l'. cbn zeta. ksimpl.
  pose proof (new_table_own _ _ _ _ _ Ha Hpp Hi Hp) as Hown.
  rewrite (new_table_tab _ _ _ _ _ Ha Hpp Hi), (new_table_present _ _ _ _ _ Ha Hpp Hi) by exact Hi.
  rewrite !decide_True by done. split; [done|].
  split; [apply is_page_bounds in Hpp; unfold KERNBASE in *; lia|]. split; [done|].
  split; [intros vb; by eapply new_table_pte|].
  split; [intros j Hjr Hne; by rewrite (new_table_pde _ _ _ _ _ Ha Hpp Hi), decide_False|].
  constructor; ksimpl.
  - rewrite Hs1. by destruct s.
  - apply (free_pages_mem (fun q => q = dir \/ q = p)); [done| | |].
    + rewrite Hm1. by apply new_table_frame.
    + intros q [-> | ->]; [by eapply as_dir_page|done].
    + intros q Hq [-> | ->]; [|done]. eapply as_free; [exact Ha|constructor|].
      by apply list_elem_of_further.
  - by apply new_table_aspace.
  - intros q. unfold res. rewrite Hown, elem_of_cons. tauto.
  - intros q Hq. apply Hown. by left.
  - intros q Hq. by apply list_elem_of_further.
  - intros q [-> | (i & Hi' & Hpi & ->)]; [left; by left|].
    rewrite (new_table_present _ _ _ _ _ Ha Hpp Hi) in Hpi by done.
    rewrite (new_table_tab _ _ _ _ _ Ha Hpp Hi) by done.
    case_decide; [right; apply list_elem_of_here|]. left. right. by exists i.
  - eapply frame_weaken; [|by apply new_table_frame]. intros q [-> | ->]; [left; by left|].
    right. apply list_elem_of_here.
Qed.

(** ** mappages *)

(** One page: the entry written, and the page gained if it is a user page. *)
Definition map_pre (m : memory) (dir : Z) (l : list Z) (va pa perm : Z) : Prop :=
  vpage va /\ present (pte_of m dir va) = false /\
  0 <= pa < 2 ^ 32 /\ pa mod 4096 = 0 /\ 0 <= perm < 4096 /\
  (va < KERNBASE -> is_page (P2V pa) /\ ~ P2V pa ∈ l /\ ~ own m dir (P2V pa)).

Definition map_gain (va pa : Z) (q : Z) : Prop := va < KERNBASE /\ q = P2V pa.

Lemma map_pre_entry m dir l va pa perm : map_pre m dir l va pa perm ->
  let v := Z.lor (Z.lor pa perm) PTE_P in
  0 <= v < 2 ^ 32 /\ present v = true /\ leaf v = P2V pa.
Proof.
  intros (Hva & _ & Hpa & Hal & Hperm & _) v. split; [|split].
  - destruct (mk_pte_eq pa perm Hal Hperm) as [E ?]. unfold v. rewrite E.
    Z.div_mod_to_equations. lia.
  - apply lor_present.
  - unfold leaf, v. by rewrite mk_pte_addr.
Qed.

(** The precondition of a mapping survives the growth of the address space. *)
Lemma map_pre_grow s s' dir l l' G va pa perm :
  grow s s' dir l l' G -> (va < KERNBASE -> ~ G (P2V pa)) ->
  pte_of (mem s') dir va = pte_of (mem s) dir va ->
  map_pre (mem s) dir l va pa perm -> map_pre (mem s') dir l' va pa perm.
Proof.
  intros Hg HG Hpte (Hva & Hnp & Hpa & Hal & Hperm & Hu). unfold map_pre. rewrite Hpte.
  do 5 (split; [done|]). intros Hlt. destruct (Hu Hlt) as (Hp & Hnl & Hno).
  split; [done|]. split; [intros H; by apply Hnl, (gr_sub _ _ _ _ _ _ Hg)|].
  intros Ho. assert (res (mem s') dir l' (P2V pa)) as Hr by (by left).
  apply (gr_res _ _ _ _ _ _ Hg) in Hr as [[?|?]|?]; [done..|]. by apply HG.
Qed.

Lemma grow_store s dir va pa perm l :
  free_pages s l -> aspace (mem s) dir l -> present (pde (mem s) dir (PDX va)) = true ->
  map_pre (mem s) dir l va pa perm ->
  grow s (set_mem (st32 (mem s) (tab (mem s) dir (PDX va) + 4 * PTX va)
                     (Z.lor (Z.lor pa perm) PTE_P)) s) dir l l (map_gain va pa).
Proof.
  intros Hf Ha Hpr Hpre. destruct (map_pre_entry _ _ _ _ _ _ Hpre) as (Hv & Hvp & Hvl).
  set (v := Z.lor (Z.lor pa perm) PTE_P) in *.
  pose proof (store_pte_frame (mem s) dir va v) as Hfr. cbn zeta in Hfr.
  assert (tabs (mem s) dir (tab (mem s) dir (PDX va))) as Ht
    by (right; exists (PDX va); split; [apply PDX_range|done]).
  set (m2 := st32 _ _ _) in *.
  assert (aspace m2 dir l /\ forall q, own m2 dir q <-> own (mem s) dir q \/ map_gain va pa q) as [Ha2 Ho2].
  { destruct Hpre as (Hva & Hnp & _ & _ & _ & Hu). unfold map_gain, m2.
    destruct (decide (va < KERNBASE)) as [Hlt|Hge].
    - assert (uva va) as Huva by (split; [destruct Hva; lia|apply Hva]).
      destruct (Hu Hlt) as (Hp & Hnl & Hno). split; [by apply (set_pte_aspace _ _ _ v (P2V pa))|].
      intros q. rewrite (set_pte_own _ _ _ v (P2V pa) l) by done. tauto.
    - destruct (set_kernel_pte (mem s) dir va v l) as [H1 H2]; [done|done|done|destruct Hva; lia|].
      split; [done|]. intros q. rewrite (H2 q). split; [tauto|]. intros [?|[? _]]; [done|lia]. }
  constructor; ksimpl; auto.
  - apply vmstep_set_mem.
  - apply (free_pages_mem (eq (tab (mem s) dir (PDX va)))); [done|done| |].
    + intros q <-. eapply as_tab_page; [done|apply PDX_range|done].
    + intros q Hq <-. eapply as_free; [exact Ha| |exact Hq]. by apply tabs_own.
  - intros q. unfold res. rewrite Ho2. tauto.
  - intros q Hq. apply Ho2. by left.
  - intros q [-> | (i & Hi & Hpi & ->)]; left; [by left|right]. exists i.
    rewrite <- (store_pte_pde _ _ va v _ Ha Hpr i Hi), <- (store_pte_tab _ _ va v _ Ha Hpr i Hi). done.
  - eapply frame_weaken; [|exact Hfr]. intros q <-. by left.
Qed.

Lemma mappages_iter fuel s dir va last pa perm l :
  free_pages s l -> aspace (mem s) dir l -> LkKmem ∉ held s ->
  map_pre (mem s) dir l va pa perm ->
  (l = [] /\ mappages_loop (S fuel) dir va last pa perm s = Ret (-1) s) \/
  exists s' l', grow s s' dir l l' (map_gain va pa) /\
    (forall vb, vpage vb -> pte_of (mem s') dir vb =
       if decide (vb = va) then Z.lor (Z.lor pa perm) PTE_P else pte_of (mem s) dir vb) /\
    (forall j, 0 <= j < 1024 -> j <> PDX va -> pde (mem s') dir j = pde (mem s) dir j) /\
    mappages_loop (S fuel) dir va last pa perm s =
      (if va =? last then ret 0
       else mappages_loop fuel dir (u32 (va + PGSIZE)) last (u32 (pa + PGSIZE)) perm) s'.
Proof.
  intros Hf Ha Hh Hpre. pose proof Hpre as (Hva & Hnp & _). cbn [mappages_loop].
  destruct (walkpgdir_alloc s dir va l Hf Ha Hh) as [(-> & _ & Hw)|(s1 & l1 & Hw & Hr & Hpr & Hpte & Hpde & G1)].
  { left. split; [done|]. by erewrite bind_ret_l by exact Hw. }
  right. erewrite bind_ret_l by exact Hw. rewrite (proj2 (Z.eqb_neq _ 0)) by done.
  unfold bind at 1, load32, gets.
  assert (ld32 (mem s1) (tab (mem s1) dir (PDX va) + 4 * PTX va) = pte_of (mem s) dir va) as ->
    by (rewrite <- Hpte; unfold pte_of; by rewrite Hpr).
  rewrite Hnp. unfold bind at 1, store32, modify.
  assert (map_pre (mem s1) dir l1 va pa perm) as Hpre1
    by (eapply map_pre_grow; [exact G1|auto|apply Hpte|done]).
  exists (set_mem (st32 (mem s1) (tab (mem s1) dir (PDX va) + 4 * PTX va)
                     (Z.lor (Z.lor pa perm) PTE_P)) s1), l1.
  split; [|split; [|split; [|done]]].
  - eapply grow_trans; [exact G1| |].
    + eapply grow_store; [by eapply gr_free|by eapply gr_as|done|done].
    + intros q. tauto.
  - intros vb Hvb. ksimpl. rewrite <- Hpte.
    apply (store_pte_pte_page _ _ _ _ l1); [by eapply gr_as|done| |by apply Hpre1|done].
    by apply (map_pre_entry _ _ _ _ _ _ Hpre1).
  - intros j Hj Hne. ksimpl. rewrite (store_pte_pde _ _ _ _ l1); [by apply Hpde|by eapply gr_as|done|done].
Qed.

(** Mapping one page. *)
Lemma mappages_page s dir va pa perm l :
  free_pages s l -> aspace (mem s) dir l -> LkKmem ∉ held s ->
  map_pre (mem s) dir l va pa perm ->
  (l = [] /\ mappages dir va PGSIZE pa perm s = Ret (-1) s) \/
  exists s' l', grow s s' dir l l' (map_gain va pa) /\
    mappages dir va PGSIZE pa perm s = Ret 0 s' /\
    (forall vb, vpage vb -> pte_of (mem s') dir vb =
       if decide (vb = va) then Z.lor (Z.lor pa perm) PTE_P else pte_of (mem s) dir vb).
Proof.
  intros Hf Ha Hh Hpre. pose proof Hpre as ([Hr Hal] & _). unfold mappages.
  assert (PGROUNDDOWN va = va) as -> by (rewrite PGROUNDDOWN_eq; lia).
  assert (PGROUNDDOWN (u32 (va + PGSIZE - 1)) = va) as ->.
  { unfold PGSIZE. rewrite u32_id by (Z.div_mod_to_equations; lia).
    rewrite PGROUNDDOWN_eq. Z.div_mod_to_equations. lia. }
  destruct (mappages_iter (Z.to_nat (u32 (va - va) / PGSIZE)) s dir va va pa perm l Hf Ha Hh Hpre)
    as [H|(s' & l' & Hg & Hpte & _ & Heq)]; [by left|].
  right. exists s', l'. rewrite Heq, Z.eqb_refl. done.
Qed.

(** ** deallocuvm *)

(** An address space that gives the pages of the virtual range [lo, hi) back. *)
Record shrink (s s' : kstate) (dir : Z) (l l' : list Z) (lo hi : Z) : Prop := {
  sh_step : vmstep s s';
  sh_free : free_pages s' l';
  sh_as : aspace (mem s') dir l';
  sh_res q : res (mem s') dir l' q <-> res (mem s) dir l q;
  sh_pde i : 0 <= i < 1024 -> pde (mem s') dir i = pde (mem s) dir i;
  sh_in vb : uva vb -> lo <= vb < hi -> present (pte_of (mem s') dir vb) = false;
  sh_out vb : vpage vb -> ~ (lo <= vb < hi) -> pte_of (mem s') dir vb = pte_of (mem s) dir vb;
  sh_frame : frame (fun q => tabs (mem s) dir q \/
    exists vb, uva vb /\ lo <= vb < hi /\ present (pte_of (mem s) dir vb) = true /\
               q = leaf (pte_of (mem s) dir vb)) (mem s) (mem s')
}.

Lemma shrink_empty s dir l lo hi : free_pages s l -> aspace (mem s) dir l ->
  (forall vb, uva vb -> lo <= vb < hi -> present (pte_of (mem s) dir vb) = false) ->
  shrink s s dir l l lo hi.
Proof. intros. constructor; auto using vmstep_refl, frame_refl. Qed.

Lemma tabs_pde m m' dir q : (forall i, 0 <= i < 1024 -> pde m' dir i = pde m dir i) ->
  tabs m' dir q -> tabs m dir q.
Proof.
  intros Hp [-> | (i & Hi & Hpi & ->)]; [by left|]. right. exists i. unfold tab in *.
  rewrite Hp in * by done. done.
Qed.

Lemma shrink_trans s1 s2 s3 dir l1 l2 l3 a b c :
  shrink s1 s2 dir l1 l2 a b -> shrink s2 s3 dir l2 l3 b c -> a <= b <= c ->
  shrink s1 s3 dir l1 l3 a c.
Proof.
  intros H1 H2 Habc. destruct H1 as [S1 F1 A1 R1 D1 I1 O1 M1], H2 as [S2 F2 A2 R2 D2 I2 O2 M2].
  constructor; auto.
  - by eapply vmstep_trans.
  - intros q. by rewrite R2, R1.
  - intros i Hi. by rewrite D2, D1.
  - intros vb Hvb Hr. destruct (decide (b <= vb)); [apply I2; [done|lia]|].
    rewrite O2 by (try apply uva_vpage; try done; lia). apply I1; [done|lia].
  - intros vb Hvb Hr. rewrite O2, O1; [done|done|lia|done|lia].
  - eapply frame_trans.
    + eapply frame_weaken; [|exact M1]. intros q [H|(vb & Hu & Hr & H)]; [by left|].
      right. exists vb. split; [done|]. split; [lia|done].
    + eapply frame_weaken; [|exact M2]. intros q [H|(vb & Hu & Hr & H)].
      * left. eapply tabs_pde; [|exact H]. done.
      * right. exists vb. rewrite <- (O1 vb) by (try apply uva_vpage; try done; lia).
        split; [done|]. split; [lia|done].
Qed.

Lemma shrink_ext s s' dir l l' lo hi lo' hi' :
  (forall vb, vpage vb -> (lo <= vb < hi <-> lo' <= vb < hi')) ->
  shrink s s' dir l l' lo hi -> shrink s s' dir l l' lo' hi'.
Proof.
  intros He [S F A R D I O M]. constructor; auto.
  - intros vb Hvb Hr. apply I; [done|]. apply He; [by apply uva_vpage|done].
  - intros vb Hvb Hr. apply O; [done|]. by rewrite He.
  - eapply frame_weaken; [|exact M]. intros q [H|(vb & Hu & Hr & H)]; [by left|].
    right. exists vb. split; [done|]. split; [|done]. apply He; [by apply uva_vpage|done].
Qed.

(** Freeing the page of one entry and clearing it. *)
Lemma dealloc_page s dir va l :
  free_pages s l -> aspace (mem s) dir l -> LkKmem ∉ held s -> uva va ->
  present (pte_of (mem s) dir va) = true ->
  exists s1 l', kfree (leaf (pte_of (mem s) dir va)) s = Ret tt s1 /\
    shrink s (set_mem (st32 (mem s1) (tab (mem s) dir (PDX va) + 4 * PTX va) 0) s1)
      dir l l' va (va + 4096).
Proof.
  intros Hf Ha Hh Hva Hp. set (p := leaf (pte_of (mem s) dir va)) in *.
  assert (own (mem s) dir p) as Hop by (by constructor).
  assert (is_page p) as Hpp by (by eapply as_page).
  assert (p ∉ l) as Hpl by (by eapply as_free).
  assert (present (pde (mem s) dir (PDX va)) = true) as Hpr.
  { unfold pte_of in Hp. by destruct (present (pde (mem s) dir (PDX va))). }
  destruct (kfree_spec s l p Hf Hh Hpp Hpl) as (s1 & Hk & Hf1 & Hr1).
  destruct Hr1 as [Hs1 Hfr1].
  assert (forall q, p = q -> is_page q) as HP by (by intros ? <-).
  assert (untouched (eq p) (mem s) dir) as Hu by (by eapply untouched_leaf).
  assert (forall i, 0 <= i < 1024 -> pde (mem s1) dir i = pde (mem s) dir i) as Hpde1.
  { intros i Hi. eapply pde_frame; [exact Hfr1|done|by eapply as_dir_page|apply Hu|done]. }
  assert (forall vb, pte_of (mem s1) dir vb = pte_of (mem s) dir vb) as Hpte1
    by (intros vb; by eapply pte_frame).
  assert (aspace (mem s1) dir l) as Ha1 by (by eapply aspace_frame).
  pose proof (own_frame _ _ _ _ _ p Hfr1 HP Ha Hu) as Hown1.
  pose proof (PDX_range va) as Hi.
  assert (tab (mem s1) dir (PDX va) = tab (mem s) dir (PDX va)) as Htab by (unfold tab; by rewrite Hpde1).
  assert (present (pde (mem s1) dir (PDX va)) = true) as Hpr1 by (by rewrite Hpde1).
  exists s1, (p :: l). split; [done|]. rewrite <- Htab.
  pose proof (clear_pte_own _ _ _ _ Ha1 Hpr1 Hva) as Hc1.
  pose proof (clear_pte_own_back _ _ _ _ Ha1 Hpr1 Hva) as Hc2.
  pose proof (clear_pte_aspace _ _ _ _ Ha1 Hpr1 Hva) as Hc3.
  pose proof (clear_pte_pte _ _ _ _ Ha1 Hpr1 Hva) as Hc4.
  pose proof (store_pte_pde _ _ va 0 _ Ha1 Hpr1) as Hc5.
  pose proof (store_pte_frame (mem s1) dir va 0) as Hfr2. cbn zeta in *.
  set (m2 := st32 _ _ 0) in *.
  assert (~ own m2 dir p) as Hnp.
  { intros [_ H]%Hc1. apply H; rewrite Hpte1; done. }
  assert (tabs (mem s) dir (tab (mem s1) dir (PDX va))) as Ht.
  { right. exists (PDX va). by rewrite Htab. }
  constructor; ksimpl.
  - rewrite Hs1. by destruct s.
  - apply (free_pages_mem (eq (tab (mem s1) dir (PDX va)))); [done|done| |].
    + intros q <-. by eapply as_tab_page.
    + intros q Hq Heq. rewrite <- Heq in Hq. apply elem_of_cons in Hq as [Hq|Hq].
      * eapply as_leaf_tab; [exact Ha|exact Hva|exact Hp|exact Hi|exact Hpr|]. by rewrite <- Htab.
      * eapply as_free; [exact Ha| |exact Hq]. by apply tabs_own.
  - by apply aspace_cons.
  - intros q. unfold res. rewrite elem_of_cons. split.
    + intros [[H _]%Hc1|[->|?]]; [left|by left|by right].
      by apply (own_frame _ _ _ _ _ q Hfr1 HP Ha Hu).
    + intros [H|?]; [|by auto]. apply (own_frame _ _ _ _ _ q Hfr1 HP Ha Hu) in H.
      apply Hc2 in H as [H|H]; [|by auto]. right. left. by rewrite H, Hpte1.
  - intros i Hi'. by rewrite Hc5, Hpde1.
  - intros vb Hvb Hr. rewrite Hc4 by (by apply uva_vpage). case_decide; [done|].
    destruct Hvb as [_ Hvb], Hva as [_ Hva]. Z.div_mod_to_equations. lia.
  - intros vb Hvb Hr. rewrite Hc4 by done. case_decide; [lia|]. apply Hpte1.
  - eapply frame_trans; (eapply frame_weaken; [|eassumption]); intros q <-; [right|by left].
    exists va. split; [done|]. split; [lia|done].
Qed.

(** ** The loop of deallocuvm *)

Lemma dealloc_skip va : uva va ->
  u32 (u32 (PGADDR (PDX va + 1) 0 0 - PGSIZE) + PGSIZE) = 2 ^ 22 * (PDX va + 1).
Proof.
  intros [Hva _]. pose proof (PDX_user va Hva). pose proof (PDX_range va).
  rewrite PGADDR_eq by lia. unfold PGSIZE. rewrite (u32_id (_ - _)) by lia. rewrite u32_id; lia.
Qed.

Lemma deallocuvm_loop_spec fuel s dir a hi l :
  free_pages s l -> aspace (mem s) dir l -> LkKmem ∉ held s ->
  0 <= a -> a mod 4096 = 0 -> hi <= KERNBASE ->
  (1 <= fuel)%nat -> hi - a <= 4096 * (Z.of_nat fuel - 1) ->
  exists s' l', deallocuvm_loop fuel dir a hi s = Ret tt s' /\ shrink s s' dir l l' a hi.
Proof.
  revert s a l. induction fuel as [|fuel IH]; intros s a l Hf Ha Hh H0 Hal Hhi Hfu Hm; [lia|].
  cbn [deallocuvm_loop]. destruct (a <? hi) eqn:Hlt; bool_prop.
  2:{ exists s, l. split; [done|]. apply shrink_empty; [done|done|lia]. }
  assert (uva a) as Hua by (split; [lia|done]).
  assert (LkKmem ∉ held s) as Hh' by done.
  unfold bind at 1. rewrite walkpgdir_look.
  destruct (present (pde (mem s) dir (PDX a))) eqn:Hp.
  - assert (is_page (tab (mem s) dir (PDX a))) as Htp by (eapply as_tab_page; [done|apply PDX_range|done]).
    rewrite (proj2 (Z.eqb_neq _ 0)).
    2:{ apply is_page_bounds in Htp. pose proof (PTX_range a). unfold KERNBASE in *. lia. }
    unfold bind at 1, load32, gets.
    assert (ld32 (mem s) (tab (mem s) dir (PDX a) + 4 * PTX a) = pte_of (mem s) dir a) as ->
      by (unfold pte_of; by rewrite Hp).
    rewrite u32_id by (unfold PGSIZE, KERNBASE in *; lia).
    assert (exists s1 l1, (if present (pte_of (mem s) dir a) then
       if PTE_ADDR (pte_of (mem s) dir a) =? 0 then panic "kfree"
       else kfree (P2V (PTE_ADDR (pte_of (mem s) dir a))) ;;
            store32 (tab (mem s) dir (PDX a) + 4 * PTX a) 0 else ret tt) s = Ret tt s1 /\
       shrink s s1 dir l l1 a (a + 4096)) as (s1 & l1 & Hr & Hs1).
    { destruct (present (pte_of (mem s) dir a)) eqn:Hpa.
      - destruct (dealloc_page s dir a l Hf Ha Hh Hua Hpa) as (s1 & l1 & Hk & Hsh).
        rewrite (proj2 (Z.eqb_neq _ 0)).
        + unfold bind. fold (leaf (pte_of (mem s) dir a)). rewrite Hk. eexists _, l1. split; [done|]. done.
        + intros E. assert (is_page (leaf (pte_of (mem s) dir a))) as H%is_page_bounds by (by eapply as_leaf_page).
          unfold leaf, P2V in H. rewrite E, u32_id in H by (unfold KERNBASE; lia). lia.
      - exists s, l. split; [done|]. apply shrink_empty; [done|done|]. intros vb [_ Hvb] Hr.
        assert (vb = a) as -> by (Z.div_mod_to_equations; lia). done. }
    unfold bind at 1. rewrite Hr.
    destruct (IH s1 (a + 4096) l1) as (s2 & l2 & Hr2 & Hs2).
    all: try first [by eapply sh_free|by eapply sh_as|lia].
    { by rewrite (vmstep_held s s1) by (by eapply sh_step). }
    { rewrite <- Z.add_mod_idemp_r by lia. by rewrite Z.add_0_r. }
    exists s2, l2. split; [done|]. eapply (shrink_trans _ _ _ _ _ _ _ _ (Z.min (a + 4096) hi)); [| |lia].
    + eapply shrink_ext; [|exact Hs1]. intros vb [_ Hvb]. Z.div_mod_to_equations. lia.
    + eapply shrink_ext; [|exact Hs2]. intros vb [_ Hvb]. lia.
  - rewrite Z.eqb_refl, dealloc_skip by done.
    destruct Hua as [Hr _]. pose proof (PDX_user a Hr) as Hpu. pose proof (PDX_range a) as Hpr.
    pose proof (va_split a ltac:(unfold KERNBASE in *; lia)) as Hsp. pose proof (PTX_range a) as Hpt.
    destruct (IH s (2 ^ 22 * (PDX a + 1)) l) as (s2 & l2 & Hr2 & Hs2); [done|done|done|lia| |done|lia|lia|].
    { change (2 ^ 22) with (1024 * 4096).
      replace (1024 * 4096 * (PDX a + 1)) with (1024 * (PDX a + 1) * 4096) by lia. apply Z.mod_mul. lia. }
    exists s2, l2. split; [done|].
    eapply (shrink_trans _ _ _ _ _ _ _ _ (Z.min (2 ^ 22 * (PDX a + 1)) hi)); [| |lia].
    + apply shrink_empty; [done|done|]. intros vb [Hvb _] Hin. unfold pte_of.
      replace (PDX vb) with (PDX a); [by rewrite Hp|].
      rewrite Hal in Hsp. rewrite (PDX_eq vb), (PDX_eq a) in *. unfold KERNBASE in *.
      Z.div_mod_to_equations. lia.
    + eapply shrink_ext; [|exact Hs2]. intros vb [_ Hvb]. lia.
Qed.

Lemma deallocuvm_spec s dir oldsz newsz l :
  free_pages s l -> aspace (mem s) dir l -> LkKmem ∉ held s ->
  0 <= newsz <= KERNBASE -> 0 <= oldsz <= KERNBASE ->
  exists s' l', deallocuvm dir oldsz newsz s = Ret (Z.min oldsz newsz) s' /\
    shrink s s' dir l l' (PGROUNDUP newsz) oldsz.
Proof.
  intros Hf Ha Hh Hn Ho. unfold deallocuvm. destruct (oldsz <=? newsz) eqn:Hle; bool_prop.
  - exists s, l. rewrite Z.min_l by done. split; [done|]. apply shrink_empty; [done|done|].
    intros vb [Hu _] Hr. pose proof (PGROUNDUP_bounds newsz). unfold KERNBASE in *. lia.
  - pose proof (PGROUNDUP_bounds newsz) as Hb. pose proof (PGROUNDUP_aligned newsz) as Hal.
    destruct (deallocuvm_loop_spec (S (Z.to_nat ((oldsz - PGROUNDUP newsz) / PGSIZE + 1)))
                s dir (PGROUNDUP newsz) oldsz l) as (s' & l' & Hr & Hs); try done; try lia.
    + unfold KERNBASE in *. lia.
    + unfold PGSIZE. rewrite Nat2Z.inj_succ.
      destruct (decide (0 <= (oldsz - PGROUNDUP newsz) / 4096 + 1)) as [Hd|Hd].
      * rewrite Z2Nat.id by done. Z.div_mod_to_equations. lia.
      * Z.div_mod_to_equations. lia.
    + exists s', l'. unfold bind. rewrite Hr, Z.min_r by lia. done.
Qed.

(** ** freevm *)

(** The loop over the page directory frees the tables. *)
Lemma freevm_tables_spec idx s dir l :
  free_pages s l -> LkKmem ∉ held s -> is_page dir -> NoDup idx ->
  (forall i, i ∈ idx -> 0 <= i < 1024) ->
  (forall i, i ∈ idx -> present (pde (mem s) dir i) = true ->
     is_page (tab (mem s) dir i) /\ tab (mem s) dir i <> dir /\ ~ tab (mem s) dir i ∈ l) ->
  (forall i j, i ∈ idx -> j ∈ idx -> present (pde (mem s) dir i) = true ->
     present (pde (mem s) dir j) = true -> tab (mem s) dir i = tab (mem s) dir j -> i = j) ->
  exists s' l', freevm_tables idx dir s = Ret tt s' /\ vmstep s s' /\ free_pages s' l' /\
    (forall q, q ∈ l' <-> q ∈ l \/ exists i, i ∈ idx /\ present (pde (mem s) dir i) = true /\
                                             q = tab (mem s) dir i) /\
    frame (tabs (mem s) dir) (mem s) (mem s').
Proof.
  revert s l. induction idx as [|i idx IH]; intros s l Hf Hh Hd Hnd Hrg Ht Hinj.
  { exists s, l. split; [done|]. split; [apply vmstep_refl|]. split; [done|].
    split; [|apply frame_refl]. intros q. split; [by auto|].
    intros [?|(i & H & _)]; [done|]. by apply not_elem_of_nil in H. }
  apply NoDup_cons in Hnd as [Hi Hnd]. cbn [freevm_tables].
  assert (i ∈ i :: idx) as Hin by apply list_elem_of_here.
  assert (forall j, j ∈ idx -> j ∈ i :: idx) as Hmono by (intros; by apply list_elem_of_further).
  unfold bind at 1, load32, gets. fold (pde (mem s) dir i).
  destruct (present (pde (mem s) dir i)) eqn:Hp; unfold when.
  2:{ unfold bind at 1, ret.
      destruct (IH s l) as (s' & l' & Hr & Hst & Hf' & Hq & Hfr); auto.
      exists s', l'. do 3 (split; [done|]). split; [|done].
      intros q. rewrite Hq. split; (intros [?|(j & Hj & Hpj & ->)]; [by left|]).
      - right. exists j. auto.
      - apply elem_of_cons in Hj as [->|Hj]; [congruence|]. right. by exists j. }
  destruct (Ht i Hin Hp) as (Htp & Htd & Htl).
  fold (tab (mem s) dir i).
  destruct (kfree_spec s l (tab (mem s) dir i) Hf Hh Htp Htl) as (s1 & Hk & Hf1 & Hs1 & Hfr1).
  unfold bind at 1. rewrite Hk.
  assert (forall j, 0 <= j < 1024 -> pde (mem s1) dir j = pde (mem s) dir j) as Hpde.
  { intros j Hj. eapply pde_frame; [exact Hfr1|by intros ? <-|done|done|done]. }
  assert (forall j, j ∈ idx -> pde (mem s1) dir j = pde (mem s) dir j /\
            tab (mem s1) dir j = tab (mem s) dir j) as Htab.
  { intros j Hj. unfold tab. rewrite Hpde by auto. done. }
  destruct (IH s1 (tab (mem s) dir i :: l)) as (s' & l' & Hr & Hst & Hf' & Hq & Hfr); auto.
  { by rewrite Hs1. }
  { intros j Hj. destruct (Htab j Hj) as [-> ->]. intros Hpj.
    destruct (Ht j (Hmono j Hj) Hpj) as (H1 & H2 & H3). split; [done|]. split; [done|].
    intros [H|H]%elem_of_cons; [|done]. apply Hi. by rewrite <- (Hinj j i (Hmono j Hj) Hin Hpj Hp H). }
  { intros j k Hj Hk'. destruct (Htab j Hj) as [-> ->], (Htab k Hk') as [-> ->]. auto. }
  exists s', l'. split; [done|]. split; [eapply vmstep_trans; [|exact Hst]; rewrite Hs1; by destruct s|].
  split; [done|]. split.
  - intros q. rewrite Hq, elem_of_cons. split.
    + intros [[->|?]|(j & Hj & H)]; [right; by exists i|by left|]. right. exists j.
      destruct (Htab j Hj) as [E1 E2]. rewrite E1, E2 in H. auto.
    + intros [?|(j & Hj & Hpj & ->)]; [by auto|].
      apply elem_of_cons in Hj as [->|Hj]; [by auto|]. right. exists j.
      destruct (Htab j Hj) as [E1 E2]. by rewrite E1, E2.
  - eapply frame_trans; [eapply frame_weaken; [|exact Hfr1]|eapply frame_weaken; [|exact Hfr]].
    + intros q <-. right. exists i. auto.
    + intros q. by apply tabs_pde.
Qed.

(** [freevm] returns every page of the address space to the free list. *)
Lemma freevm_spec s dir l :
  free_pages s l -> aspace (mem s) dir l -> LkKmem ∉ held s ->
  exists s' l', freevm dir s = Ret tt s' /\ vmstep s s' /\ free_pages s' l' /\
    (forall q, q ∈ l' <-> res (mem s) dir l q) /\
    frame (own (mem s) dir) (mem s) (mem s').
Proof.
  intros Hf Ha Hh. assert (is_page dir) as Hd by (by eapply as_dir_page).
  unfold freevm. rewrite (proj2 (Z.eqb_neq dir 0)) by (by apply page_neq_0).
  destruct (deallocuvm_spec s dir KERNBASE 0 l) as (s1 & l1 & Hr1 & H1); try done.
  destruct H1 as [S1 F1 A1 R1 D1 I1 O1 M1]. unfold bind at 1. rewrite Hr1.
  destruct (freevm_tables_spec (seqZ 0 1024) s1 dir l1) as (s2 & l2 & Hr2 & S2 & F2 & Q2 & M2).
  all: try done.
  { by rewrite (vmstep_held s s1). }
  { apply NoDup_seqZ. }
  { intros i Hi%elem_of_seqZ. lia. }
  { intros i Hi%elem_of_seqZ Hp. assert (0 <= i < 1024) by lia.
    split; [by eapply as_tab_page|]. split; [by eapply as_tab_dir|].
    eapply as_free; [done|by constructor]. }
  { intros i j Hi%elem_of_seqZ Hj%elem_of_seqZ. intros. eapply as_tab_inj; eauto; lia. }
  unfold bind. rewrite Hr2.
  assert (dir ∉ l2) as Hdl.
  { intros [H|(i & Hi%elem_of_seqZ & Hp & H)]%Q2.
    - eapply as_free; [exact A1|constructor|exact H].
    - eapply (as_tab_dir _ _ _ A1 i); [lia|done|done]. }
  destruct (kfree_spec s2 l2 dir F2) as (s3 & Hk & F3 & Hs3 & M3); [|done|done|].
  { by rewrite (vmstep_held s1 s2), (vmstep_held s s1). }
  assert (vmstep s2 s3) as S3 by (rewrite Hs3; by destruct s2).
  assert (forall q, own (mem s1) dir q <-> tabs (mem s1) dir q) as Hnl.
  { intros q. split; [|apply tabs_own]. intros [|i Hi Hp|va Hva Hp]; [by left|right; by exists i|].
    rewrite I1 in Hp; [done|done|]. destruct Hva. change (PGROUNDUP 0) with 0. lia. }
  exists s3, (dir :: l2). split; [done|].
  split; [by eauto using vmstep_trans|]. split; [done|]. split.
  - intros q. rewrite <- R1. unfold res. rewrite elem_of_cons, Q2, Hnl. unfold tabs.
    setoid_rewrite elem_of_seqZ. replace (0 + 1024) with 1024 by lia. tauto.
  - eapply frame_trans; [|eapply frame_trans]; [| |eapply frame_weaken; [|exact M3]].
    + eapply frame_weaken; [|exact M1]. intros q [H|(vb & Hu & _ & Hp & ->)]; [by apply tabs_own|by constructor].
    + eapply frame_weaken; [|exact M2]. intros q Hq. apply tabs_own. eapply tabs_pde; [exact D1|exact Hq].
    + intros q <-. constructor.
Qed.

End vmspec.
