(* ===== verification/VmGrow.v ===== *)
(** * Growing an address space: allocuvm and setupkvm

    [allocuvm] either maps a fresh zeroed page at every page of the new range,
    or fails with everything it had taken given back; in both cases the pages
    outside the range, their contents and the pages of everybody else stay as
    they were.  [setupkvm] builds the kernel half, and fails only if there are
    fewer than 514 free pages. *)

From S2P Require Import Prelude Mem KState Mmu Console Kalloc Vm AddrSpace VmSpec.

Section vmgrow.
Context {LK : Linker}.

(** ** Taking a page from the free list *)

(** A page leaves the free list and is filled with [upd]. *)
Record taken (s s1 : kstate) (dir p : Z) (l1 : list Z) : Prop := {
  tk_step : vmstep s s1;
  tk_free : free_pages s1 l1;
  tk_as : aspace (mem s1) dir l1;
  tk_pte vb : pte_of (mem s1) dir vb = pte_of (mem s) dir vb;
  tk_own q : own (mem s1) dir q <-> own (mem s) dir q;
  tk_tabs q : tabs (mem s1) dir q <-> tabs (mem s) dir q;
  tk_frame : frame (eq p) (mem s) (mem s1);
  tk_page : is_page p;
  tk_fresh : ~ own (mem s) dir p;
  tk_list : ~ p ∈ l1
}.

Lemma take_page s dir p l1 upd :
  free_pages s (p :: l1) -> aspace (mem s) dir (p :: l1) -> LkKmem ∉ held s ->
  (forall m, frame (eq p) m (upd m)) ->
  exists s0, kalloc s = Ret p s0 /\ mem s0 = mem s /\
    taken s (set_mem (upd (mem s0)) s0) dir p l1.
Proof.
  intros Hf Ha Hh Hupd. destruct (kalloc_spec s (p :: l1) Hf Hh) as (s0 & Hk & Hs0 & Hf0 & Hp & Hn).
  assert (mem s0 = mem s) as Hm by (rewrite Hs0; done). exists s0. split; [done|]. split; [done|].
  assert (~ own (mem s) dir p) as Hno by (by eapply new_table_not_own).
  specialize (Hupd (mem s)). rewrite Hm.
  assert (forall q, p = q -> is_page q) as HP by (by intros ? <-).
  pose proof (untouched_not_own _ _ _ Hno) as Hu.
  assert (forall i, 0 <= i < 1024 -> pde (upd (mem s)) dir i = pde (mem s) dir i) as Hpde.
  { intros i Hi. eapply pde_frame; [exact Hupd|done|by eapply as_dir_page|apply Hu|done]. }
  constructor; ksimpl; auto.
  - rewrite Hs0. by destruct s.
  - apply (free_pages_mem (eq p)); [done|by rewrite Hm|done|by intros q Hq <-].
  - eapply aspace_frame; [exact Hupd|done| |done]. eapply aspace_subset; [exact Ha|].
    intros. by apply list_elem_of_further.
  - intros vb. by eapply pte_frame.
  - intros q. by eapply own_frame.
  - intros q. split; apply tabs_pde; [done|]. intros i Hi. by rewrite Hpde.
Qed.

(** Mapping the page that was taken. *)
Lemma map_taken s s1 dir p l1 a perm :
  taken s s1 dir p l1 -> LkKmem ∉ held s -> uva a -> present (pte_of (mem s) dir a) = false ->
  0 <= perm < 4096 ->
  (l1 = [] /\ mappages dir a PGSIZE (V2P p) perm s1 = Ret (-1) s1) \/
  exists s2 l2, mappages dir a PGSIZE (V2P p) perm s1 = Ret 0 s2 /\
    grow s s2 dir (p :: l1) l2 (fun _ => False) /\
    (forall vb, vpage vb -> pte_of (mem s2) dir vb =
       if decide (vb = a) then Z.lor (Z.lor (V2P p) perm) PTE_P else pte_of (mem s) dir vb) /\
    (forall o, 0 <= o < 4096 -> mem s2 (p + o) = mem s1 (p + o)).
Proof.
  intros [St F A Pt O T Fr Hp Hn Hl] Hh Hua Hnp Hperm.
  assert (P2V (V2P p) = p) as E by (by apply P2V_V2P).
  assert (map_pre (mem s1) dir l1 a (V2P p) perm) as Hpre.
  { unfold map_pre. rewrite Pt, E, O. split; [by apply uva_vpage|]. split; [done|].
    pose proof (V2P_page_range p Hp). unfold PHYSTOP in *. split; [lia|].
    split; [by apply V2P_page_aligned|]. split; [done|]. done. }
  destruct (mappages_page s1 dir a (V2P p) perm l1 F A) as [H|(s2 & l2 & G & Hm & Hpte)];
    [by rewrite (vmstep_held s s1)|done|by left|].
  right. exists s2, l2. split; [done|]. split; [|split].
  - destruct G as [S2 F2 A2 R2 O2 B2 T2 M2]. constructor; auto.
    + by eapply vmstep_trans.
    + intros q. rewrite R2. unfold res, map_gain. rewrite O, elem_of_cons, E.
      destruct Hua. split; [|tauto]. intros [[?|?]|[? ->]]; auto.
    + intros q Hq. by apply O2, O.
    + intros q Hq. apply list_elem_of_further. auto.
    + intros q [H|H]%T2; [left; by apply T|]. right. by apply list_elem_of_further.
    + eapply frame_trans; [eapply frame_weaken; [|exact Fr]|eapply frame_weaken; [|exact M2]].
      * intros q <-. right. apply list_elem_of_here.
      * intros q [H|H]; [left; by apply T|]. right. by apply list_elem_of_further.
  - intros vb Hvb. rewrite Hpte, Pt by done. done.
  - intros o Ho. eapply frame_byte; [apply (gr_frame _ _ _ _ _ _ G)|done| | |lia].
    + intros q [H|H]; [eapply as_page; [exact A|by apply tabs_own]|by eapply free_pages_is_page].
    + intros [H|H]; [|done]. by apply Hn, O, tabs_own.
Qed.

(** ** allocuvm *)

(** A failed growth over [lo, hi): nothing is mapped there, and no page is lost. *)
Record undone (s s' : kstate) (dir : Z) (l l' : list Z) (lo hi : Z) : Prop := {
  un_step : vmstep s s';
  un_free : free_pages s' l';
  un_as : aspace (mem s') dir l';
  un_res q : res (mem s') dir l' q <-> res (mem s) dir l q;
  un_in vb : uva vb -> lo <= vb < hi -> present (pte_of (mem s') dir vb) = false;
  un_out vb : vpage vb -> ~ (lo <= vb < hi) -> pte_of (mem s') dir vb = pte_of (mem s) dir vb;
  un_frame : frame (fun q => tabs (mem s) dir q \/ q ∈ l \/
    exists vb, uva vb /\ lo <= vb < hi /\ present (pte_of (mem s) dir vb) = true /\
               q = leaf (pte_of (mem s) dir vb)) (mem s) (mem s')
}.

Lemma undone_step s s2 s' dir l l2 l' lo hi a E :
  grow s s2 dir l l2 (fun _ => False) ->
  (forall vb, vpage vb -> pte_of (mem s2) dir vb = if decide (vb = a) then E else pte_of (mem s) dir vb) ->
  leaf E ∈ l -> lo <= a < hi ->
  undone s2 s' dir l2 l' lo hi -> undone s s' dir l l' lo hi.
Proof.
  intros [S1 F1 A1 R1 O1 B1 T1 M1] Hpte HE Hr [S2 F2 A2 R2 I2 Q2 M2]. constructor; auto.
  - by eapply vmstep_trans.
  - intros q. rewrite R2, R1. tauto.
  - intros vb Hvb Hn. rewrite Q2, Hpte by done. by rewrite decide_False by lia.
  - eapply frame_trans; [eapply frame_weaken; [|exact M1]; tauto|].
    eapply frame_weaken; [|exact M2]. intros q [H|[H|(vb & Hu & Hvr & Hp & ->)]].
    + apply T1 in H. tauto.
    + right. left. auto.
    + rewrite Hpte in Hp |- * by (by apply uva_vpage). case_decide; [by auto|].
      right. right. by exists vb.
Qed.

(** Failure before any page was taken in this round. *)
Lemma alloc_fail_first s dir oldsz newsz msg :
  free_pages s [] -> aspace (mem s) dir [] -> LkKmem ∉ held s -> LkCons ∉ held s ->
  plain msg = true -> 0 <= oldsz <= newsz -> newsz < KERNBASE ->
  exists s' l', (cprintf msg [] ;; deallocuvm dir newsz oldsz ;; ret 0) s = Ret 0 s' /\
    undone s s' dir [] l' (PGROUNDUP oldsz) newsz.
Proof.
  intros Hf Ha Hk Hc Hp Ho Hn. set (s0 := set_out (out s ++ msg) s).
  destruct (deallocuvm_spec s0 dir newsz oldsz []) as (s' & l' & Hr & Hs);
    [done|done|done|lia|lia|].
  exists s', l'. unfold bind. rewrite cprintf_plain by done. fold s0. rewrite Hr. split; [done|].
  destruct Hs as [S F A R D I O M]. constructor; auto.
  eapply frame_weaken; [|exact M]. intros q [H|H]; [by left|by right; right].
Qed.

(** Failure with the page [p] in hand. *)
Lemma alloc_fail_second s s1 dir p oldsz newsz msg :
  taken s s1 dir p [] -> LkKmem ∉ held s -> LkCons ∉ held s ->
  plain msg = true -> 0 <= oldsz <= newsz -> newsz < KERNBASE ->
  exists s' l', (cprintf msg [] ;; deallocuvm dir newsz oldsz ;; kfree p ;; ret 0) s1 = Ret 0 s' /\
    undone s s' dir [p] l' (PGROUNDUP oldsz) newsz.
Proof.
  intros [St F A Pt O T Fr Hp Hn Hl] Hk Hc Hpl Ho Hnz. set (s0 := set_out (out s1 ++ msg) s1).
  destruct (deallocuvm_spec s0 dir newsz oldsz []) as (s2 & l2 & Hr & Hs);
    [done|done|by unfold s0; ksimpl; rewrite (vmstep_held s s1)|lia|lia|].
  destruct Hs as [S2 F2 A2 R2 D2 I2 O2 M2].
  assert (~ res (mem s2) dir l2 p) as Hnr.
  { rewrite R2. intros [H|H]; [|by apply not_elem_of_nil in H]. by apply Hn, O. }
  assert (vmstep s s2) as S02.
  { eapply vmstep_trans; [exact St|]. eapply vmstep_trans; [|exact S2]. unfold s0. by destruct s1. }
  destruct (kfree_spec s2 l2 p F2) as (s3 & Hkf & F3 & Hs3 & M3);
    [by rewrite (vmstep_held s s2)|done|intros H; apply Hnr; by right|].
  exists s3, (p :: l2). unfold bind. rewrite cprintf_plain by (by rewrite ?(vmstep_held s s1)).
  fold s0. rewrite Hr, Hkf. split; [done|].
  assert (forall q, p = q -> is_page q) as HP by (by intros ? <-).
  assert (~ own (mem s2) dir p) as Hno by (intros H; apply Hnr; by left).
  pose proof (untouched_not_own _ _ _ Hno) as Hu.
  constructor; auto.
  - eapply vmstep_trans; [exact S02|]. rewrite Hs3. by destruct s2.
  - apply aspace_cons; [by eapply aspace_frame|]. by rewrite (own_frame _ _ _ _ _ p M3 HP A2 Hu).
  - intros q. unfold res. rewrite (own_frame _ _ _ _ _ q M3 HP A2 Hu), elem_of_cons, <- O.
    specialize (R2 q). unfold res in R2. change (mem s0) with (mem s1) in R2.
    rewrite list_elem_of_singleton. rewrite elem_of_nil in R2. tauto.
  - intros vb Hvb Hvr. rewrite (pte_frame _ _ _ _ _ _ M3 HP A2 Hu). auto.
  - intros vb Hvb Hvr. rewrite (pte_frame _ _ _ _ _ _ M3 HP A2 Hu), O2 by done. apply Pt.
  - eapply frame_trans; [|eapply frame_trans]; (eapply frame_weaken; [|eassumption]);
      [intros q <-; right; left; apply list_elem_of_here| |intros q <-; right; left; apply list_elem_of_here].
    change (mem s0) with (mem s1). intros q [H|(vb & H)]; [left; by apply T|].
    rewrite Pt in H. right. right. by exists vb.
Qed.

(** A user page of zeros. *)
Definition zero_page (m : memory) (dir vb : Z) : Prop :=
  exists p, is_page p /\ pte_of m dir vb = Z.lor (Z.lor (V2P p) (Z.lor PTE_W PTE_U)) PTE_P /\
            forall o, 0 <= o < 4096 -> m (p + o) = 0.

(** Growing does not touch the user pages that are mapped already. *)
Lemma leaf_not_tabs m dir l vb : aspace m dir l -> uva vb -> present (pte_of m dir vb) = true ->
  ~ tabs m dir (leaf (pte_of m dir vb)).
Proof.
  intros Ha Hu Hp [H|(i & Hi & Hpi & H)].
  - by eapply as_leaf_dir.
  - by eapply as_leaf_tab.
Qed.

Lemma grow_leaf_byte s s' dir l l' G vb o :
  grow s s' dir l l' G -> free_pages s l -> aspace (mem s) dir l -> uva vb ->
  present (pte_of (mem s) dir vb) = true -> 0 <= o < 4096 ->
  mem s' (leaf (pte_of (mem s) dir vb) + o) = mem s (leaf (pte_of (mem s) dir vb) + o).
Proof.
  intros Hg Hf Ha Hu Hp Ho.
  eapply frame_byte; [apply (gr_frame _ _ _ _ _ _ Hg)|by eapply as_leaf_page| | |lia].
  - intros q [H|H]; [eapply as_page; [exact Ha|by apply tabs_own]|by eapply free_pages_is_page].
  - intros [H|H]; [by eapply leaf_not_tabs|]. eapply as_free; [exact Ha| |exact H]. by constructor.
Qed.

Lemma zero_page_entry m dir l p a : is_page p -> uva a -> aspace m dir l ->
  pte_of m dir a = Z.lor (Z.lor (V2P p) (Z.lor PTE_W PTE_U)) PTE_P ->
  present (pte_of m dir a) = true /\ leaf (pte_of m dir a) = p.
Proof.
  intros Hp Ha _ ->. split; [apply lor_present|]. unfold leaf.
  rewrite mk_pte_addr, P2V_V2P; [done|done|by apply V2P_page_aligned|].
  change (Z.lor PTE_W PTE_U) with 6. lia.
Qed.

Lemma zero_page_grow s s' dir l l' G vb :
  grow s s' dir l l' G -> free_pages s l -> aspace (mem s) dir l -> uva vb ->
  pte_of (mem s') dir vb = pte_of (mem s) dir vb ->
  zero_page (mem s) dir vb -> zero_page (mem s') dir vb.
Proof.
  intros Hg Hf Ha Hu He (p & Hp & Hpte & Hz). exists p. rewrite He. split; [done|]. split; [done|].
  destruct (zero_page_entry _ _ _ _ _ Hp Hu Ha Hpte) as [Hpr Hl].
  intros o Ho. pose proof (grow_leaf_byte _ _ _ _ _ _ _ o Hg Hf Ha Hu Hpr Ho) as H.
  rewrite Hl in H. rewrite H. auto.
Qed.

Lemma allocuvm_loop_spec fuel s dir a oldsz newsz l :
  free_pages s l -> aspace (mem s) dir l -> LkKmem ∉ held s -> LkCons ∉ held s ->
  0 <= oldsz <= newsz -> newsz < KERNBASE -> PGROUNDUP oldsz <= a -> a mod 4096 = 0 ->
  (forall vb, uva vb -> a <= vb < newsz -> present (pte_of (mem s) dir vb) = false) ->
  (1 <= fuel)%nat -> newsz - a <= 4096 * (Z.of_nat fuel - 1) ->
  exists r s' l', allocuvm_loop fuel dir a oldsz newsz s = Ret r s' /\
    ((r = newsz /\ grow s s' dir l l' (fun _ => False) /\
      (forall vb, vpage vb -> ~ (a <= vb < newsz) -> pte_of (mem s') dir vb = pte_of (mem s) dir vb) /\
      (forall vb, uva vb -> a <= vb < newsz -> zero_page (mem s') dir vb)) \/
     (r = 0 /\ a < newsz /\ undone s s' dir l l' (PGROUNDUP oldsz) newsz)).
Proof.
  revert s a l. induction fuel as [|fuel IH];
    intros s a l Hf Ha Hk Hc Ho Hn Hlo Hal Hempty Hfu Hm; [lia|].
  pose proof (PGROUNDUP_bounds oldsz ltac:(unfold KERNBASE in *; lia)) as Hpg.
  cbn [allocuvm_loop]. destruct (a <? newsz) eqn:Hlt; bool_prop.
  2:{ exists newsz, s, l. split; [done|]. left. split; [done|]. split; [by apply grow_refl; auto|].
      split; [done|]. lia. }
  assert (uva a) as Hua by (split; [lia|done]).
  unfold bind at 1. destruct l as [|p l1].
  { rewrite (kalloc_spec s [] Hf Hk). rewrite Z.eqb_refl.
    destruct (alloc_fail_first s dir oldsz newsz (bytes "allocuvm out of memory" ++ [10]))
      as (s' & l' & Hr & Hu); [done..|]. rewrite Hr. exists 0, s', l'. auto. }
  destruct (take_page s dir p l1 (fun m => memset m p 0 PGSIZE) Hf Ha Hk)
    as (s0 & Hr0 & Hm0 & Htk); [intros; apply frame_memset|].
  rewrite Hr0, (proj2 (Z.eqb_neq p 0)) by (eapply page_neq_0, tk_page, Htk).
  unfold bind at 1, upd_mem, modify. set (s1 := set_mem _ s0) in *.
  destruct (map_taken s s1 dir p l1 a (Z.lor PTE_W PTE_U) Htk Hk Hua)
    as [[-> Hmp]|(s2 & l2 & Hmp & Hg & Hpte & Hcont)]; [apply Hempty; [done|lia]|done| |];
    unfold bind at 1; rewrite Hmp.
  { destruct (alloc_fail_second s s1 dir p oldsz newsz (bytes "allocuvm out of memory (2)" ++ [10]))
      as (s' & l' & Hr & Hu); [done..|]. change (-1 <? 0) with true. cbv iota.
    rewrite Hr. exists 0, s', l'. auto. }
  change (0 <? 0) with false. cbv iota. rewrite u32_id by (unfold PGSIZE, KERNBASE in *; lia).
  change PGSIZE with 4096.
  pose proof Hg as [Hst Hf2 Ha2 R2 O2 B2 T2 M2].
  destruct (IH s2 (a + 4096) l2) as (r & s' & l' & Hr & Hcase).
  all: try first [done|lia|by rewrite (vmstep_held s s2)].
  { rewrite <- Z.add_mod_idemp_r by lia. by rewrite Z.add_0_r. }
  { intros vb Hvb Hr. rewrite Hpte by (by apply uva_vpage). rewrite decide_False by lia.
    apply Hempty; [done|lia]. }
  assert (leaf (pte_of (mem s2) dir a) = p) as Hleaf.
  { eapply zero_page_entry; [eapply tk_page, Htk|done|exact Ha2|].
    rewrite Hpte by (by apply uva_vpage). by rewrite decide_True. }
  rewrite Hr. exists r, s', l'. split; [done|].
  destruct Hcase as [(-> & G2 & Hout & Hz)|(-> & _ & Hu)]; [left|right].
  - split; [done|]. split; [eapply grow_trans; [exact Hg|exact G2|intros; tauto]|]. split.
    + intros vb Hvb Hn'. rewrite Hout, Hpte by (done || lia). by rewrite decide_False by lia.
    + intros vb Hvb Hr'. destruct (decide (vb = a)) as [->|Hne].
      2:{ apply Hz; [done|]. destruct Hvb as [_ Hvb]. Z.div_mod_to_equations. lia. }
      eapply zero_page_grow; [exact G2|done|done|done|apply Hout; [by apply uva_vpage|lia]|].
      exists p. split; [eapply tk_page, Htk|]. rewrite Hpte by (by apply uva_vpage). rewrite decide_True by done.
      split; [done|]. intros o Hoff. rewrite Hcont by done. unfold s1. ksimpl.
      by rewrite memset_in by (unfold PGSIZE; lia).
  - split; [done|]. split; [done|]. eapply undone_step; [exact Hg|exact Hpte| |lia|exact Hu].
    rewrite Hpte, decide_True in Hleaf by (done || by apply uva_vpage). rewrite Hleaf.
    apply list_elem_of_here.
Qed.

Lemma allocuvm_spec s dir oldsz newsz l :
  free_pages s l -> aspace (mem s) dir l -> LkKmem ∉ held s -> LkCons ∉ held s ->
  0 <= oldsz <= newsz -> newsz < KERNBASE ->
  (forall vb, uva vb -> PGROUNDUP oldsz <= vb < newsz -> present (pte_of (mem s) dir vb) = false) ->
  exists r s' l', allocuvm dir oldsz newsz s = Ret r s' /\
    ((r = newsz /\ grow s s' dir l l' (fun _ => False) /\
      (forall vb, vpage vb -> ~ (PGROUNDUP oldsz <= vb < newsz) ->
         pte_of (mem s') dir vb = pte_of (mem s) dir vb) /\
      (forall vb, uva vb -> PGROUNDUP oldsz <= vb < newsz -> zero_page (mem s') dir vb)) \/
     (r = 0 /\ undone s s' dir l l' (PGROUNDUP oldsz) newsz)).
Proof.
  intros Hf Ha Hk Hc Ho Hn He. unfold allocuvm. rewrite (proj2 (Z.leb_gt _ _)) by lia.
  rewrite (proj2 (Z.ltb_ge newsz oldsz)) by lia.
  pose proof (PGROUNDUP_aligned oldsz) as Hal.
  destruct (allocuvm_loop_spec (S (Z.to_nat ((newsz - PGROUNDUP oldsz) / PGSIZE + 1)))
              s dir (PGROUNDUP oldsz) oldsz newsz l) as (r & s' & l' & Hr & Hcase); try done; try lia.
  - unfold PGSIZE. destruct (decide (0 <= (newsz - PGROUNDUP oldsz) / 4096 + 1)) as [Hd|Hd].
    + rewrite Nat2Z.inj_succ, Z2Nat.id by done. Z.div_mod_to_equations. lia.
    + rewrite Nat2Z.inj_succ. Z.div_mod_to_equations. lia.
  - exists r, s', l'. split; [done|]. destruct Hcase as [H|(-> & _ & H)]; auto.
Qed.

(** A zeroed page is an empty address space. *)
Lemma aspace_zero_dir m dir l : is_page dir -> ~ dir ∈ l ->
  (forall i, 0 <= i < 1024 -> pde m dir i = 0) ->
  aspace m dir l /\ (forall vb, pte_of m dir vb = 0) /\ (forall q, own m dir q -> q = dir).
Proof.
  intros Hd Hl Hz.
  assert (forall vb, pte_of m dir vb = 0) as Hpte.
  { intros vb. unfold pte_of. by rewrite (Hz (PDX vb)) by apply PDX_range. }
  assert (forall q, own m dir q -> q = dir) as Ho.
  { intros q [|i Hi Hp|va Hva Hp]; [done| |].
    - rewrite Hz in Hp by done. by rewrite present_0 in Hp.
    - rewrite Hpte in Hp. by rewrite present_0 in Hp. }
  split; [|done]. constructor.
  - by intros p ->%Ho.
  - by intros p ->%Ho.
  - intros i Hi Hp. rewrite Hz in Hp by done. by rewrite present_0 in Hp.
  - intros i j Hi Hj Hp. rewrite Hz in Hp by done. by rewrite present_0 in Hp.
  - intros va Hva Hp. rewrite Hpte in Hp. by rewrite present_0 in Hp.
  - intros va i Hva Hp. rewrite Hpte in Hp. by rewrite present_0 in Hp.
  - intros va vb Hva Hvb Hp. rewrite Hpte in Hp. by rewrite present_0 in Hp.
Qed.

End vmgrow.

(** * The kernel half of an address space: setupkvm

    [setupkvm] makes a directory with the mappings of [kmap] and an empty user
    half, or fails with every page back in the free list. *)

Section vmkernel.
Context {LK : Linker}.

(** ** Mapping a range of kernel addresses *)

(** One iteration. *)
(** The tables of the user half are the same. *)
Definition low_pdes (m m' : memory) (dir : Z) : Prop := forall j, 0 <= j < 512 -> pde m' dir j = pde m dir j.

Lemma mappages_kernel_iter fuel s dir a last pa perm l :
  free_pages s l -> aspace (mem s) dir l -> LkKmem ∉ held s ->
  KERNBASE <= a -> vpage a -> 0 <= pa < 2 ^ 32 -> pa mod 4096 = 0 -> 0 <= perm < 4096 ->
  present (pte_of (mem s) dir a) = false ->
  (l = [] /\ mappages_loop (S fuel) dir a last pa perm s = Ret (-1) s) \/
  exists s' l', grow s s' dir l l' (fun _ => False) /\
    (forall vb, vpage vb -> pte_of (mem s') dir vb =
       if decide (vb = a) then Z.lor (Z.lor pa perm) PTE_P else pte_of (mem s) dir vb) /\
    low_pdes (mem s) (mem s') dir /\
    mappages_loop (S fuel) dir a last pa perm s =
      (if a =? last then ret 0
       else mappages_loop fuel dir (u32 (a + PGSIZE)) last (u32 (pa + PGSIZE)) perm) s'.
Proof.
  intros Hf Ha Hh Hk Hva Hpa Hpal Hperm He.
  destruct (mappages_iter fuel s dir a last pa perm l Hf Ha Hh) as [H|(s1 & l1 & G1 & H)].
  - unfold map_pre. do 5 (split; [done|]). lia.
  - by left.
  - right. exists s1, l1. split; [eapply grow_gain; [|exact G1]; unfold map_gain; lia|]. destruct H as (H1 & H2 & H3).
    split; [done|]. split; [|done]. intros j Hj. apply H2; [lia|]. pose proof (PDX_kernel a ltac:(destruct Hva; lia)). lia.
Qed.

Lemma mappages_kernel n fuel s dir a pa perm l :
  free_pages s l -> aspace (mem s) dir l -> LkKmem ∉ held s ->
  KERNBASE <= a -> a mod 4096 = 0 -> a + 4096 * Z.of_nat n < 2 ^ 32 ->
  0 <= pa -> pa mod 4096 = 0 -> pa + 4096 * Z.of_nat n < 2 ^ 32 -> 0 <= perm < 4096 ->
  (forall k, 0 <= k <= Z.of_nat n -> present (pte_of (mem s) dir (a + 4096 * k)) = false) ->
  (n < fuel)%nat ->
  exists r s' l', mappages_loop fuel dir a (a + 4096 * Z.of_nat n) pa perm s = Ret r s' /\
    grow s s' dir l l' (fun _ => False) /\
    (forall vb, vpage vb -> ~ (a <= vb <= a + 4096 * Z.of_nat n) ->
       pte_of (mem s') dir vb = pte_of (mem s) dir vb) /\
    low_pdes (mem s) (mem s') dir /\
    ((r = 0 /\ forall k, 0 <= k <= Z.of_nat n ->
        pte_of (mem s') dir (a + 4096 * k) = Z.lor (Z.lor (pa + 4096 * k) perm) PTE_P) \/
     (r = -1 /\ l' = [])).
Proof.
  revert fuel s a pa l. induction n as [|n IH];
    intros fuel s a pa l Hf Ha Hh Hk Hal Hlt Hpa Hpal Hplt Hperm He Hfu;
    (destruct fuel as [|fuel]; [lia|]).
  all: assert (vpage a) as Hva by (unfold vpage, KERNBASE in *; lia).
  all: assert (present (pte_of (mem s) dir a) = false) as He0
    by (specialize (He 0); rewrite Z.mul_0_r, Z.add_0_r in He; apply He; lia).
  all: match goal with |- context [mappages_loop _ _ _ ?last _ _ _] =>
         destruct (mappages_kernel_iter fuel s dir a last pa perm l Hf Ha Hh Hk Hva ltac:(lia) Hpal Hperm He0)
           as [[-> Hr]|(s1 & l1 & G1 & Hpte & Hlow & Hr)] end; rewrite Hr.
  1, 3: exists (-1), s, []; split; [done|]; split; [by apply grow_refl; auto|]; split; [done|]; split; [done|]; by right.
  - rewrite Z.mul_0_r, Z.add_0_r, Z.eqb_refl. exists 0, s1, l1. split; [done|]. split; [done|].
    split; [|split; [done|left; split; [done|]]].
    + intros vb Hvb Hn. rewrite Hpte by done. rewrite decide_False by lia. done.
    + intros k Hk0. assert (k = 0) as -> by lia. rewrite Z.mul_0_r, !Z.add_0_r, Hpte by done.
      by rewrite decide_True.
  - rewrite (proj2 (Z.eqb_neq _ _)) by lia. unfold PGSIZE. rewrite !u32_id by (unfold KERNBASE in *; lia).
    replace (a + 4096 * Z.of_nat (S n)) with ((a + 4096) + 4096 * Z.of_nat n) by lia.
    destruct (IH fuel s1 (a + 4096) (pa + 4096) l1) as (r & s2 & l2 & Hr2 & G2 & Hout & Hlow2 & Hcase); try lia.
    1, 2: by eapply gr_free || eapply gr_as.
    + rewrite (vmstep_held s s1); [done|]. by eapply gr_step.
    + rewrite <- Z.add_mod_idemp_r by lia. by rewrite Z.add_0_r.
    + rewrite <- Z.add_mod_idemp_r by lia. by rewrite Z.add_0_r.
    + intros k Hk0. rewrite Hpte.
      2:{ split; [unfold KERNBASE in *; lia|]. Z.div_mod_to_equations. lia. }
      rewrite decide_False by lia. replace (a + 4096 + 4096 * k) with (a + 4096 * (k + 1)) by lia.
      apply He. lia.
    + rewrite Hr2. exists r, s2, l2. split; [done|]. split; [eapply grow_trans; [exact G1|exact G2|tauto]|].
      split.
      * intros vb Hvb Hn. rewrite Hout, Hpte by (done || lia). by rewrite decide_False by lia.
      * split; [intros j Hj; by rewrite Hlow2, Hlow|]. destruct Hcase as [[-> Hm]|[-> ->]]; [left|by right]. split; [done|].
        intros k Hk0. destruct (decide (k = 0)) as [->|Hk1].
        -- rewrite Z.mul_0_r, !Z.add_0_r, Hout, Hpte by (done || lia). by rewrite decide_True.
        -- specialize (Hm (k - 1)). replace (a + 4096 + 4096 * (k - 1)) with (a + 4096 * k) in Hm by lia.
           replace (pa + 4096 + 4096 * (k - 1)) with (pa + 4096 * k) in Hm by lia. apply Hm. lia.
Qed.

(** ** The table of kernel mappings *)

(** An entry of [kmap] covers a whole number of pages without wrapping. *)
Definition kentry_ok (e : Z * Z * Z * Z) : Prop :=
  let '(virt, ps, pe, perm) := e in
  let size := u32 (pe - ps) in
  KERNBASE <= virt /\ virt mod 4096 = 0 /\ 0 <= ps /\ ps mod 4096 = 0 /\
  0 < size /\ size mod 4096 = 0 /\ virt + size <= 2 ^ 32 /\ ps + size <= 2 ^ 32 /\ 0 <= perm < 4096.

(** The entry is mapped: each of its pages has the right frame and permissions. *)
Definition kmapped (m : memory) (dir : Z) (e : Z * Z * Z * Z) : Prop :=
  let '(virt, ps, pe, perm) := e in
  forall off, 0 <= off < u32 (pe - ps) -> off mod 4096 = 0 ->
    pte_of m dir (virt + off) = Z.lor (Z.lor (ps + off) perm) PTE_P.

(** The entries lie above [lo], in order. *)
Fixpoint kentries_ok (lo : Z) (ks : list (Z * Z * Z * Z)) : Prop :=
  match ks with
  | [] => True
  | (virt, ps, pe, perm) :: ks' =>
      lo <= virt /\ kentry_ok (virt, ps, pe, perm) /\ kentries_ok (virt + u32 (pe - ps)) ks'
  end.

Lemma mappages_kentry s dir virt ps pe perm l :
  free_pages s l -> aspace (mem s) dir l -> LkKmem ∉ held s ->
  kentry_ok (virt, ps, pe, perm) ->
  (forall vb, vpage vb -> virt <= vb -> present (pte_of (mem s) dir vb) = false) ->
  exists r s' l', mappages dir virt (u32 (pe - ps)) ps perm s = Ret r s' /\
    grow s s' dir l l' (fun _ => False) /\
    (forall vb, vpage vb -> ~ (virt <= vb < virt + u32 (pe - ps)) ->
       pte_of (mem s') dir vb = pte_of (mem s) dir vb) /\
    low_pdes (mem s) (mem s') dir /\
    ((r = 0 /\ kmapped (mem s') dir (virt, ps, pe, perm)) \/ (r = -1 /\ l' = [])).
Proof.
  intros Hf Ha Hh (Hv & Hval & Hps & Hpal & Hsz & Hsal & Hve & Hpe & Hperm) He.
  set (size := u32 (pe - ps)) in *. unfold mappages.
  assert (PGROUNDDOWN virt = virt) as -> by (rewrite PGROUNDDOWN_eq; lia).
  assert (PGROUNDDOWN (u32 (virt + size - 1)) = virt + size - 4096) as ->.
  { rewrite u32_id by (unfold KERNBASE in *; lia). rewrite PGROUNDDOWN_eq.
    Z.div_mod_to_equations. lia. }
  set (n := Z.to_nat (size / 4096 - 1)).
  assert (Z.of_nat n = size / 4096 - 1) as Hn by (unfold n; Z.div_mod_to_equations; lia).
  assert (virt + size - 4096 = virt + 4096 * Z.of_nat n) as ->
    by (rewrite Hn; Z.div_mod_to_equations; lia).
  destruct (mappages_kernel n (S (Z.to_nat (u32 (virt + 4096 * Z.of_nat n - virt) / PGSIZE)))
              s dir virt ps perm l) as (r & s' & l' & Hr & Hg & Hout & Hlow & Hcase); try done.
  1, 2: rewrite Hn; Z.div_mod_to_equations; lia.
  { intros k Hk. apply He; [|lia]. split; [|Z.div_mod_to_equations; lia].
    unfold KERNBASE in *. rewrite Hn in Hk. Z.div_mod_to_equations. lia. }
  { unfold PGSIZE. replace (virt + 4096 * Z.of_nat n - virt) with (4096 * Z.of_nat n) by lia.
    rewrite u32_id by (rewrite Hn; Z.div_mod_to_equations; unfold KERNBASE in *; lia).
    rewrite Z.mul_comm, Z.div_mul, Nat2Z.id by lia. lia. }
  exists r, s', l'. split; [done|]. split; [done|]. split.
  - intros vb Hvb Hnr. apply Hout; [done|]. rewrite Hn. destruct Hvb as [_ Hvb].
    Z.div_mod_to_equations. lia.
  - split; [done|]. destruct Hcase as [[-> Hm]|?]; [left|by right]. split; [done|]. intros off Hoff Hoal.
    specialize (Hm (off / 4096)). replace (4096 * (off / 4096)) with off in Hm by (Z.div_mod_to_equations; lia).
    apply Hm. rewrite Hn. fold size in Hoff. Z.div_mod_to_equations. lia.
Qed.

Lemma kmapped_ext m m' dir virt ps pe perm :
  (forall vb, vpage vb -> virt <= vb < virt + u32 (pe - ps) -> pte_of m' dir vb = pte_of m dir vb) ->
  kentry_ok (virt, ps, pe, perm) ->
  kmapped m dir (virt, ps, pe, perm) -> kmapped m' dir (virt, ps, pe, perm).
Proof.
  intros Hout (Hv & Hval & _ & _ & _ & _ & Hve & _) Hm off Hoff Hal. rewrite Hout; auto; [|lia].
  split; [unfold KERNBASE in *; lia|]. Z.div_mod_to_equations. lia.
Qed.

Lemma kentries_in lo ks e : kentries_ok lo ks -> e ∈ ks -> kentry_ok e.
Proof.
  revert lo. induction ks as [|[[[virt ps] pe] perm] ks IH]; intros lo Hk Hin.
  - by apply not_elem_of_nil in Hin.
  - destruct Hk as (_ & Hok & Hk). apply elem_of_cons in Hin as [->|Hin]; [done|by eapply IH].
Qed.

(** A directory without user tables owns at most itself and 512 tables. *)
Definition no_low_pde (m : memory) (dir : Z) : Prop := forall j, 0 <= j < 512 -> present (pde m dir j) = false.

Lemma kernel_own m dir : no_low_pde m dir -> exists ts, length ts = 513%nat /\ forall q, own m dir q -> q ∈ ts.
Proof.
  intros Hno. exists (dir :: (tab m dir <$> seqZ 512 512)). split; [by rewrite length_cons, length_fmap, length_seqZ|].
  intros q [|i Hi Hp|va Hva Hp]; [apply list_elem_of_here| |].
  - apply list_elem_of_further, list_elem_of_fmap_2, elem_of_seqZ.
    destruct (decide (i < 512)); [by rewrite Hno in Hp by lia|lia].
  - exfalso. unfold pte_of in Hp. destruct Hva as [Hva _]. rewrite Hno in Hp; [done|].
    pose proof (PDX_range va). pose proof (PDX_user va Hva). lia.
Qed.

Lemma setupkvm_loop_spec ks s dir lo l :
  free_pages s l -> aspace (mem s) dir l -> LkKmem ∉ held s -> kentries_ok lo ks ->
  (forall vb, vpage vb -> lo <= vb -> present (pte_of (mem s) dir vb) = false) -> no_low_pde (mem s) dir ->
  exists r s' l', setupkvm_loop ks dir s = Ret r s' /\
    ((r = dir /\ grow s s' dir l l' (fun _ => False) /\
      (forall vb, vpage vb -> vb < lo -> pte_of (mem s') dir vb = pte_of (mem s) dir vb) /\
      (forall e, e ∈ ks -> kmapped (mem s') dir e) /\ no_low_pde (mem s') dir) \/
     (r = 0 /\ vmstep s s' /\ free_pages s' l' /\ (forall q, q ∈ l' <-> res (mem s) dir l q) /\
      frame (res (mem s) dir l) (mem s) (mem s') /\
      exists ts, length ts = 513%nat /\ forall q, res (mem s) dir l q -> q ∈ ts)).
Proof.
  revert s lo l. induction ks as [|[[[virt ps] pe] perm] ks IH]; intros s lo l Hf Ha Hh Hks He Hno.
  { exists dir, s, l. split; [done|]. left. split; [done|]. split; [by apply grow_refl; auto|].
    split; [done|]. split; [|done]. by intros e ?%not_elem_of_nil. }
  destruct Hks as (Hlo & Hok & Hks). cbn [setupkvm_loop].
  destruct (mappages_kentry s dir virt ps pe perm l Hf Ha Hh Hok) as (r & s1 & l1 & Hr & G1 & Hout & Hlow & Hcase).
  { intros vb Hvb Hle. apply He; [done|lia]. }
  assert (no_low_pde (mem s1) dir) as Hno1 by (intros j Hj; rewrite Hlow by done; by apply Hno).
  unfold bind at 1. rewrite Hr. pose proof G1 as [S1 F1 A1 R1 O1 B1 T1 M1].
  assert (LkKmem ∉ held s1) as Hh1 by (by rewrite (vmstep_held s s1)).
  destruct Hcase as [[-> Hm]|[-> ->]].
  - change (0 <? 0) with false. cbv iota.
    destruct (IH s1 (virt + u32 (pe - ps)) l1 F1 A1 Hh1 Hks) as (r & s2 & l2 & Hr2 & Hcase).
    { intros vb Hvb Hle. rewrite Hout by (done || lia). apply He; [done|].
      destruct Hok as (_ & _ & _ & _ & Hsz & _). lia. }
    { exact Hno1. }
    rewrite Hr2. exists r, s2, l2. split; [done|].
    destruct Hcase as [(-> & G2 & Hout2 & Hm2 & Hno2)|(-> & S2 & F2 & R2 & M2 & ts & Hts & Hin)].
    + left. split; [done|]. split; [eapply grow_trans; [exact G1|exact G2|tauto]|]. split; [|split; [|exact Hno2]].
      * intros vb Hvb Hlt. pose proof (u32_range (pe - ps)). rewrite Hout2, Hout by (done || lia). done.
      * intros e [->|Hin]%elem_of_cons; [|auto]. eapply kmapped_ext; [|done|exact Hm]. intros. apply Hout2; [done|lia].
    + right. split; [done|]. split; [by eapply vmstep_trans|]. split; [done|].
      split; [intros q; rewrite R2, R1; tauto|].
      split; [|exists ts; split; [done|]; intros q Hq; apply Hin, R1; by left].
      eapply frame_trans; [eapply frame_weaken; [|exact M1]|eapply frame_weaken; [|exact M2]].
      * intros q [H|H]; [left; by apply tabs_own|by right].
      * intros q H. apply R1 in H. tauto.
  - change (-1 <? 0) with true. cbv iota.
    destruct (freevm_spec s1 dir [] F1 A1 Hh1) as (s2 & l2 & Hr2 & S2 & F2 & R2 & M2).
    unfold bind. rewrite Hr2. exists 0, s2, l2. split; [done|]. right. split; [done|].
    split; [by eapply vmstep_trans|]. split; [done|].
    split; [intros q; rewrite R2, R1; tauto|].
    split; [|destruct (kernel_own (mem s1) dir Hno1) as (ts & Hts & Hin); exists ts; split; [done|];
             intros q Hq; assert (res (mem s1) dir [] q) as [?|[]%elem_of_nil] by (apply R1; by left); by apply Hin].
    eapply frame_trans; [eapply frame_weaken; [|exact M1]|eapply frame_weaken; [|exact M2]].
    + intros q [H|H]; [left; by apply tabs_own|by right].
    + intros q H. assert (res (mem s1) dir [] q) as Hq by (by left). apply R1 in Hq. tauto.
Qed.

Lemma kmap_ok : kentries_ok KERNBASE kmap.
Proof.
  pose proof kdata_low as H1. pose proof kdata_aligned as H2. pose proof kend_low as H3.
  pose proof kend_high as H4. unfold PGSIZE in *.
  assert (V2P kdata = kdata - KERNBASE) as Hk
    by (unfold V2P, KERNLINK, EXTMEM, KERNBASE in *; apply u32_id; lia).
  unfold kmap, kentries_ok, kentry_ok. rewrite Hk. change (V2P KERNLINK) with EXTMEM.
  unfold KERNLINK, KERNBASE, EXTMEM, PHYSTOP, DEVSPACE, PTE_W in *.
  change (u32 (0 - 0xFE000000)) with 0x2000000. change (u32 (0x100000 - 0)) with 0x100000.
  rewrite !u32_id by lia. repeat split; try lia; try (Z.div_mod_to_equations; lia).
Qed.

(** A directory with the kernel's mappings and nothing in the user half; or
    failure, with the free pages as they were. *)
Lemma setupkvm_spec s l :
  free_pages s l -> LkKmem ∉ held s ->
  exists r s' l', setupkvm s = Ret r s' /\ vmstep s s' /\ free_pages s' l' /\
    frame (fun q => q ∈ l) (mem s) (mem s') /\
    ((r <> 0 /\ aspace (mem s') r l' /\ (forall q, res (mem s') r l' q <-> q ∈ l) /\
      (forall vb, uva vb -> pte_of (mem s') r vb = 0) /\
      (forall e, e ∈ kmap -> kmapped (mem s') r e) /\ no_low_pde (mem s') r) \/
     (r = 0 /\ (forall q, q ∈ l' <-> q ∈ l) /\ (length l <= 513)%nat)).
Proof.
  intros Hf Hh. unfold setupkvm, bind at 1. pose proof (kalloc_spec s l Hf Hh) as Hk.
  destruct l as [|p l1].
  { rewrite Hk. rewrite Z.eqb_refl. exists 0, s, []. split; [done|]. split; [apply vmstep_refl|].
    split; [done|]. split; [apply frame_refl|]. right. cbn. split; [done|]. split; [done|lia]. }
  destruct Hk as (s0 & Hr & Hs0 & Hf0 & Hp & Hn). rewrite Hr.
  rewrite (proj2 (Z.eqb_neq p 0)) by (by apply page_neq_0).
  unfold bind, upd_mem, modify. change (DEVSPACE <? P2V PHYSTOP) with false. cbv iota.
  assert (mem s0 = mem s) as Hm0 by (rewrite Hs0; done). rewrite Hm0.
  set (s1 := set_mem _ s0).
  assert (forall i, 0 <= i < 1024 -> pde (mem s1) p i = 0) as Hz.
  { intros i Hi. unfold s1, pde. ksimpl. unfold ld32, ld8.
    rewrite !memset_in by (unfold PGSIZE; lia). done. }
  destruct (aspace_zero_dir (mem s1) p l1 Hp Hn Hz) as (Ha1 & Hpte & Hown).
  assert (free_pages s1 l1) as Hf1.
  { apply (free_pages_mem (eq p)); [done|rewrite Hm0; apply frame_memset|by intros ? <-|by intros q Hq <-]. }
  assert (vmstep s s1) as S1 by (unfold s1; rewrite Hs0; by destruct s).
  assert (frame (fun q => q ∈ p :: l1) (mem s) (mem s1)) as M1.
  { eapply frame_weaken; [|apply (frame_memset p)]. intros q <-. apply list_elem_of_here. }
  assert (forall q, res (mem s1) p l1 q <-> q ∈ p :: l1) as Hres.
  { intros q. unfold res. rewrite elem_of_cons. split; [intros [H%Hown|?]; auto|].
    intros [->|?]; [left; constructor|by right]. }
  destruct (setupkvm_loop_spec kmap s1 p KERNBASE l1 Hf1 Ha1) as (r & s' & l' & Hr' & Hcase);
    [by rewrite (vmstep_held s s1)|apply kmap_ok|intros; by rewrite Hpte|intros j Hj; by rewrite Hz by lia|].
  rewrite Hr'. exists r, s', l'. split; [done|].
  destruct Hcase as [(-> & [S2 F2 A2 R2 O2 B2 T2 M2] & Hout & Hm)|(-> & S2 & F2 & R2 & M2 & ts & Hts & Hin)];
    (split; [by eapply vmstep_trans|]); (split; [done|]); split.
  - eapply frame_trans; [exact M1|]. eapply frame_weaken; [|exact M2].
    intros q [H|H]; apply Hres; [left; by apply tabs_own|by right].
  - left. split; [by apply page_neq_0|]. split; [done|]. split; [intros q; rewrite R2, Hres; tauto|].
    split; [|done]. intros vb Hvb. rewrite Hout; [apply Hpte|by apply uva_vpage|apply Hvb].
  - eapply frame_trans; [exact M1|]. eapply frame_weaken; [|exact M2]. intros q. apply Hres.
  - right. split; [done|]. split; [intros q; by rewrite R2|]. rewrite <- Hts. apply submseteq_length, NoDup_submseteq.
    + destruct Hf as (_ & Hnd & _). exact Hnd.
    + intros q Hq. apply Hin. by apply Hres.
Qed.

End vmkernel.
