(* ===== verification/VmFork.v ===== *)
(** * Copying an address space: copyuvm

    The child of a fork gets its own pages, with the contents and permissions
    of the parent's; the parent's address space is not touched, and a failure
    gives every page back. *)

From S2P Require Import Prelude Mem KState Mmu Console Kalloc Vm AddrSpace VmSpec VmGrow.

Section vmfork.
Context {LK : Linker}.

(** ** Address spaces that stand by *)

(** What happens in pages that an address space does not own leaves it as it
    is, contents included. *)
Lemma bystander (Q : Z -> Prop) m m' dir l :
  frame Q m m' -> (forall q, Q q -> is_page q) -> (forall q, own m dir q -> ~ Q q) ->
  aspace m dir l ->
  (forall vb, pte_of m' dir vb = pte_of m dir vb) /\ (forall q, own m' dir q <-> own m dir q) /\
  aspace m' dir l /\
  (forall q a, own m dir q -> q <= a < q + 4096 -> m' a = m a).
Proof.
  intros Hf HQ Hd Ha.
  assert (untouched Q m dir) as Hu.
  { split; [apply Hd; constructor|]. intros i Hi Hp. apply Hd. by constructor. }
  split; [intros vb; by eapply pte_frame|]. split; [intros q; by eapply own_frame|].
  split; [by eapply aspace_frame|].
  intros q a Hq Hr. eapply frame_byte; [exact Hf|by eapply as_page|done|by apply Hd|done].
Qed.

(** Two address spaces without a page in common. *)
Definition separate (m : memory) (d1 d2 : Z) : Prop := forall q, own m d1 q -> ~ own m d2 q.

(** The page of [vb] has the same contents and permissions in both. *)
Definition copied (m : memory) (pgdir d vb : Z) : Prop :=
  present (pte_of m d vb) = true /\
  PTE_FLAGS (pte_of m d vb) = PTE_FLAGS (pte_of m pgdir vb) /\
  forall o, 0 <= o < 4096 ->
    ld8 m (leaf (pte_of m d vb) + o) = ld8 m (leaf (pte_of m pgdir vb) + o).

Lemma flags_present e : present e = true ->
  0 <= PTE_FLAGS e < 4096 /\ Z.lor (PTE_FLAGS e) PTE_P = PTE_FLAGS e.
Proof.
  rewrite present_odd. intros Ho. rewrite PTE_FLAGS_eq.
  split; [apply Z.mod_pos_bound; lia|]. apply Z.bits_inj'. intros n Hn.
  rewrite Z.lor_spec. destruct (decide (n = 0)) as [->|Hn0].
  - rewrite Z.bit0_odd. rewrite Z.bit0_odd. cbn [PTE_P]. change (Z.odd PTE_P) with true.
    rewrite orb_true_r. change 4096 with (2 ^ 12). rewrite <- Z.bit0_odd, Z.mod_pow2_bits_low by lia.
    by rewrite Z.bit0_odd.
  - unfold PTE_P. rewrite (Z.bits_above_log2 1 n) by (cbn; lia). apply orb_false_r.
Qed.

(** The entry made for the copy. *)
Lemma copy_entry p e : is_page p -> present e = true ->
  let v := Z.lor (Z.lor (V2P p) (PTE_FLAGS e)) PTE_P in
  present v = true /\ PTE_FLAGS v = PTE_FLAGS e /\ leaf v = p.
Proof.
  intros Hp He. destruct (flags_present e He) as [Hr Hl]. pose proof (V2P_page_aligned p Hp).
  cbn zeta. split; [apply lor_present|]. rewrite mk_pte_flags by done. split; [done|].
  unfold leaf. rewrite mk_pte_addr by done. by apply P2V_V2P.
Qed.

(** Growing the child leaves the parent and what has been copied. *)
Section grow_child.
Variables (s s' : kstate) (pgdir d : Z) (l l' : list Z).
Hypothesis Hf : free_pages s l.
Hypothesis Hp : aspace (mem s) pgdir l.
Hypothesis Hd : aspace (mem s) d l.
Hypothesis Hsep : separate (mem s) pgdir d.
Hypothesis Hg : grow s s' d l l' (fun _ => False).

Lemma grow_child_frame_pages q : tabs (mem s) d q \/ q ∈ l -> is_page q.
Proof using Hf Hd.
  intros [H|H]; [eapply as_page; [exact Hd|by apply tabs_own]|by eapply free_pages_is_page].
Qed.

Lemma grow_child_frame_parent q : own (mem s) pgdir q -> ~ (tabs (mem s) d q \/ q ∈ l).
Proof using Hp Hsep.
  intros Ho [H|H]; [by apply (Hsep q Ho), tabs_own|]. by eapply as_free in Ho.
Qed.

Lemma grow_child_parent :
  (forall vb, pte_of (mem s') pgdir vb = pte_of (mem s) pgdir vb) /\
  aspace (mem s') pgdir l' /\ separate (mem s') pgdir d /\
  (forall q a, own (mem s) pgdir q -> q <= a < q + 4096 -> mem s' a = mem s a).
Proof using All.
  destruct (bystander _ _ _ _ _ (gr_frame _ _ _ _ _ _ Hg) grow_child_frame_pages
              grow_child_frame_parent Hp) as (H1 & H2 & H3 & H4).
  split; [done|]. split; [|split; [|done]].
  - eapply aspace_subset; [done|]. apply (gr_sub _ _ _ _ _ _ Hg).
  - intros q Hq Hc. apply H2 in Hq. assert (res (mem s') d l' q) as Hr by (by left).
    apply (gr_res _ _ _ _ _ _ Hg) in Hr as [[?|Hin]|?]; [by eapply Hsep| |done].
    exact (as_free _ _ _ Hp q Hq Hin).
Qed.

Lemma grow_child_copied vb : uva vb -> present (pte_of (mem s) pgdir vb) = true ->
  pte_of (mem s') d vb = pte_of (mem s) d vb ->
  copied (mem s) pgdir d vb -> copied (mem s') pgdir d vb.
Proof using All.
  intros Hu Hpp He (Hpr & Hfl & Hc). destruct grow_child_parent as (H1 & _ & _ & H4).
  unfold copied. rewrite He, H1. split; [done|]. split; [done|]. intros o Ho.
  specialize (Hc o Ho). unfold ld8 in *.
  rewrite (grow_leaf_byte _ _ _ _ _ _ _ o Hg Hf Hd Hu Hpr Ho).
  rewrite (H4 (leaf (pte_of (mem s) pgdir vb))); [done|by constructor|lia].
Qed.

End grow_child.

(** ** The loop *)

(** A failed copy: the child's pages and the free pages are all free. *)
Definition copy_failed (s s' : kstate) (d : Z) (l l' : list Z) : Prop :=
  vmstep s s' /\ free_pages s' l' /\ (forall q, q ∈ l' <-> res (mem s) d l q) /\
  frame (res (mem s) d l) (mem s) (mem s').

Lemma copy_fail_first s d l : free_pages s l -> aspace (mem s) d l -> LkKmem ∉ held s ->
  exists s' l', (freevm d ;; ret 0) s = Ret 0 s' /\ copy_failed s s' d l l'.
Proof.
  intros Hf Ha Hh. destruct (freevm_spec s d l Hf Ha Hh) as (s' & l' & Hr & H1 & H2 & H3 & H4).
  exists s', l'. unfold bind. rewrite Hr. split; [done|]. do 3 (split; [done|]).
  eapply frame_weaken; [|exact H4]. intros q Hq. by left.
Qed.

Lemma copy_fail_second s s1 d p : taken s s1 d p [] -> LkKmem ∉ held s ->
  exists s' l', (kfree p ;; freevm d ;; ret 0) s1 = Ret 0 s' /\ copy_failed s s' d [p] l'.
Proof.
  intros [St F A Pt O T Fr Hp Hn Hl] Hh.
  destruct (kfree_spec s1 [] p F) as (s2 & Hk & F2 & Hs2 & M2);
    [by rewrite (vmstep_held s s1)|done|done|].
  assert (forall q, p = q -> is_page q) as HP by (by intros ? <-).
  assert (~ own (mem s1) d p) as Hno by (by rewrite O).
  pose proof (untouched_not_own _ _ _ Hno) as Hu.
  pose proof (fun q => own_frame _ _ _ _ _ q M2 HP A Hu) as O2.
  assert (vmstep s s2) as S2 by (eapply vmstep_trans; [exact St|]; rewrite Hs2; by destruct s1).
  destruct (freevm_spec s2 d [p] F2) as (s' & l' & Hr & H1 & H2 & H3 & H4).
  { apply aspace_cons; [by eapply aspace_frame|]. by rewrite O2. }
  { by rewrite (vmstep_held s s2). }
  exists s', l'. unfold bind. rewrite Hk, Hr. split; [done|].
  split; [by eapply vmstep_trans|]. split; [done|]. split.
  - intros q. rewrite H3. unfold res. by rewrite O2, O.
  - eapply frame_trans; [|eapply frame_trans]; (eapply frame_weaken; [|eassumption]).
    + intros q <-. right. apply list_elem_of_here.
    + intros q <-. right. apply list_elem_of_here.
    + intros q Hq. left. by apply O, O2.
Qed.

Lemma copy_failed_grow s s2 s' d l l2 l' :
  grow s s2 d l l2 (fun _ => False) -> copy_failed s2 s' d l2 l' -> copy_failed s s' d l l'.
Proof.
  intros [S1 F1 A1 R1 O1 B1 T1 M1] (S2 & F2 & R2 & M2).
  split; [by eapply vmstep_trans|]. split; [done|]. split; [intros q; rewrite R2, R1; tauto|].
  eapply frame_trans; [eapply frame_weaken; [|exact M1]|eapply frame_weaken; [|exact M2]].
  - intros q [H|H]; [left; by apply tabs_own|by right].
  - intros q H. apply R1 in H. tauto.
Qed.

(** The read of the parent's entry. *)
Lemma copy_read s dir vb l : aspace (mem s) dir l -> present (pte_of (mem s) dir vb) = true ->
  exists pte, walkpgdir dir vb false s = Ret pte s /\ pte <> 0 /\
    ld32 (mem s) pte = pte_of (mem s) dir vb.
Proof.
  intros Ha Hp. rewrite walkpgdir_look. unfold pte_of in *.
  destruct (present (pde (mem s) dir (PDX vb))) eqn:Hd; [|done].
  eexists. split; [done|]. split; [|done].
  assert (is_page (tab (mem s) dir (PDX vb))) as H%is_page_bounds
    by (eapply as_tab_page; [done|apply PDX_range|done]).
  pose proof (PTX_range vb). unfold KERNBASE in *. lia.
Qed.

(** The page that a round of the loop adds. *)
Lemma copy_page_done s s2 pgdir d i p l l2 :
  let e := pte_of (mem s) pgdir i in
  free_pages s l -> aspace (mem s) pgdir l -> aspace (mem s) d l -> separate (mem s) pgdir d ->
  grow s s2 d l l2 (fun _ => False) -> uva i -> present e = true -> is_page p ->
  pte_of (mem s2) d i = Z.lor (Z.lor (V2P p) (PTE_FLAGS e)) PTE_P ->
  (forall o, 0 <= o < 4096 -> mem s2 (p + o) = memmove (mem s) p (leaf e) PGSIZE (p + o)) ->
  copied (mem s2) pgdir d i.
Proof.
  intros e Hf Hp Hd Hsep Hg Hui He Hpg Hpte Hcont.
  destruct (grow_child_parent s s2 pgdir d l l2 Hf Hp Hd Hsep Hg) as (E1 & _ & _ & Hb).
  destruct (copy_entry p e Hpg He) as (C1 & C2 & C3).
  unfold copied. rewrite Hpte, E1. fold e. rewrite C3. split; [done|]. split; [done|].
  intros o Ho. unfold ld8. rewrite Hcont by done.
  rewrite (Hb (leaf e) (leaf e + o) (own_leaf (mem s) pgdir i Hui He)) by lia.
  rewrite memmove_in by (unfold PGSIZE; lia).
  replace (p + o - p + leaf e) with (leaf e + o) by lia. unfold ld8. apply u8_id, u8_range.
Qed.

Lemma copyuvm_loop_spec fuel s pgdir d i sz l :
  free_pages s l -> aspace (mem s) pgdir l -> aspace (mem s) d l -> separate (mem s) pgdir d ->
  LkKmem ∉ held s -> sz <= KERNBASE -> 0 <= i -> i mod 4096 = 0 ->
  (forall vb, uva vb -> vb < sz -> present (pte_of (mem s) pgdir vb) = true) ->
  (forall vb, uva vb -> i <= vb -> present (pte_of (mem s) d vb) = false) ->
  (1 <= fuel)%nat -> sz - i <= 4096 * (Z.of_nat fuel - 1) ->
  exists r s' l', copyuvm_loop fuel pgdir d i sz s = Ret r s' /\
    ((r = d /\ grow s s' d l l' (fun _ => False) /\
      (forall vb, vpage vb -> ~ (i <= vb < sz) -> pte_of (mem s') d vb = pte_of (mem s) d vb) /\
      (forall vb, uva vb -> i <= vb < sz -> copied (mem s') pgdir d vb)) \/
     (r = 0 /\ copy_failed s s' d l l')).
Proof.
  revert s i l. induction fuel as [|fuel IH];
    intros s i l Hf Hp Hd Hsep Hh Hsz H0 Hal Hpp Hdp Hfu Hm; [lia|].
  cbn [copyuvm_loop]. destruct (i <? sz) eqn:Hlt; bool_prop.
  2:{ exists d, s, l. split; [done|]. left. split; [done|]. split; [by apply grow_refl; auto|].
      split; [done|]. lia. }
  assert (uva i) as Hui by (split; [lia|done]). assert (vpage i) as Hvi by (by apply uva_vpage).
  destruct (copy_read s pgdir i l Hp (Hpp i Hui Hlt)) as (pte & Hw & Hw0 & Hld).
  unfold bind at 1. rewrite Hw, (proj2 (Z.eqb_neq pte 0)) by done.
  unfold bind at 1, load32, gets. rewrite Hld, (Hpp i Hui Hlt). cbn [negb].
  set (e := pte_of (mem s) pgdir i) in *. unfold bind at 1. destruct l as [|p l1].
  { rewrite (kalloc_spec s [] Hf Hh), Z.eqb_refl.
    destruct (copy_fail_first s d [] Hf Hd Hh) as (s' & l' & Hr & Hc). rewrite Hr.
    exists 0, s', l'. auto. }
  fold (leaf e).
  destruct (take_page s d p l1 (fun m => memmove m p (leaf e) PGSIZE) Hf Hd Hh)
    as (s0 & Hr0 & Hm0 & Htk).
  { intros m. pose proof (frame_memmove p m (leaf e) PGSIZE 0) as H. rewrite Z.add_0_r in H.
    apply H; unfold PGSIZE; lia. }
  rewrite Hr0, (proj2 (Z.eqb_neq p 0)) by (eapply page_neq_0, tk_page, Htk).
  unfold bind at 1, upd_mem, modify. set (s1 := set_mem _ s0) in *.
  destruct (flags_present e (Hpp i Hui Hlt)) as [Hfr _].
  destruct (map_taken s s1 d p l1 i (PTE_FLAGS e) Htk Hh Hui (Hdp i Hui ltac:(lia)) Hfr)
    as [[-> Hmp]|(s2 & l2 & Hmp & Hg & Hpte & Hcont)]; unfold bind at 1; rewrite Hmp.
  { destruct (copy_fail_second s s1 d p Htk Hh) as (s' & l' & Hr & Hc).
    change (-1 <? 0) with true. cbv iota. rewrite Hr. exists 0, s', l'. auto. }
  change (0 <? 0) with false. cbv iota. rewrite u32_id by (unfold PGSIZE, KERNBASE in *; lia).
  change PGSIZE with 4096.
  destruct (grow_child_parent s s2 pgdir d (p :: l1) l2 Hf Hp Hd Hsep Hg) as (E1 & Hp2 & Hsep2 & Hb2).
  pose proof Hg as [Hst Hf2 Hd2 _ _ _ _ _].
  destruct (IH s2 (i + 4096) l2) as (r & s' & l' & Hr & Hcase).
  all: try first [done|lia|by rewrite (vmstep_held s s2)].
  { rewrite <- Z.add_mod_idemp_r by lia. by rewrite Z.add_0_r. }
  { intros vb. rewrite E1. auto. }
  { intros vb Hvb Hr. rewrite Hpte by (by apply uva_vpage). rewrite decide_False by lia.
    apply Hdp; [done|lia]. }
  rewrite Hr. exists r, s', l'. split; [done|].
  destruct Hcase as [(-> & G2 & Hout & Hc)|[-> Hc]]; [left|right; split; [done|by eapply copy_failed_grow]].
  split; [done|]. split; [eapply grow_trans; [exact Hg|exact G2|intros; tauto]|]. split.
  - intros vb Hvb Hn'. rewrite Hout, Hpte by (done || lia). by rewrite decide_False by lia.
  - intros vb Hvb Hr'. destruct (decide (vb = i)) as [->|Hne].
    2:{ apply Hc; [done|]. destruct Hvb as [_ Hvb]. Z.div_mod_to_equations. lia. }
    eapply (grow_child_copied s2); [exact Hf2|exact Hp2|exact Hd2|exact Hsep2|exact G2|done| | |].
    + rewrite E1. auto.
    + apply Hout; [done|lia].
    + eapply (copy_page_done s s2 pgdir d i p (p :: l1) l2 Hf Hp Hd Hsep Hg Hui);
        [by apply Hpp|by eapply tk_page| |].
      * rewrite Hpte by done. by rewrite decide_True.
      * intros o Ho. rewrite Hcont by done. unfold s1. ksimpl. by rewrite Hm0.
Qed.

(** ** copyuvm *)

Lemma copyuvm_spec s pgdir sz l :
  free_pages s l -> aspace (mem s) pgdir l -> LkKmem ∉ held s -> 0 <= sz <= KERNBASE ->
  (forall vb, uva vb -> vb < sz -> present (pte_of (mem s) pgdir vb) = true) ->
  exists r s' l', copyuvm pgdir sz s = Ret r s' /\ vmstep s s' /\ free_pages s' l' /\
    frame (fun q => q ∈ l) (mem s) (mem s') /\
    ((r <> 0 /\ aspace (mem s') r l' /\ separate (mem s') pgdir r /\
      (forall q, res (mem s') r l' q <-> q ∈ l) /\
      (forall vb, uva vb -> vb < sz -> copied (mem s') pgdir r vb) /\
      (forall vb, uva vb -> sz <= vb -> pte_of (mem s') r vb = 0) /\
      (forall e, e ∈ kmap -> kmapped (mem s') r e)) \/
     (r = 0 /\ forall q, q ∈ l' <-> q ∈ l)).
Proof.
  intros Hf Hp Hh Hsz Hpp. unfold copyuvm, bind.
  destruct (setupkvm_spec s l Hf Hh) as (d & s1 & l1 & Hr & S1 & F1 & M1 & Hcase). rewrite Hr.
  destruct Hcase as [(Hd0 & Ad & Rd & Ud & Kd & _)|(-> & Rd & _)].
  2:{ rewrite Z.eqb_refl. exists 0, s1, l1. do 4 (split; [done|]). by right. }
  rewrite (proj2 (Z.eqb_neq d 0)) by done.
  destruct (bystander _ _ _ _ _ M1 (fun q => free_pages_is_page s l q Hf) (as_free _ _ _ Hp) Hp)
    as (E1 & O1 & Ap & _).
  assert (forall q, q ∈ l1 -> q ∈ l) as Hsub by (intros q Hq; apply Rd; by right).
  assert (separate (mem s1) pgdir d) as Hsep.
  { intros q Hq Hc. apply O1 in Hq. eapply as_free; [exact Hp|exact Hq|]. apply Rd. by left. }
  destruct (copyuvm_loop_spec (S (Z.to_nat (sz / PGSIZE + 1))) s1 pgdir d 0 sz l1)
    as (r & s' & l' & Hr' & Hcase); try done; try lia.
  - eapply aspace_subset; [exact Ap|done].
  - by rewrite (vmstep_held s s1).
  - intros vb. rewrite E1. auto.
  - intros vb Hvb _. by rewrite Ud.
  - unfold PGSIZE. rewrite Nat2Z.inj_succ, Z2Nat.id by (Z.div_mod_to_equations; lia).
    Z.div_mod_to_equations. lia.
  - rewrite Hr'. exists r, s', l'. split; [done|].
    destruct Hcase as [(-> & G & Hout & Hc)|(-> & S2 & F2 & R2 & M2)].
    + destruct (grow_child_parent s1 s' pgdir d l1 l') as (_ & _ & Hsep' & _); try done.
      { eapply aspace_subset; [exact Ap|done]. }
      destruct G as [S2 F2 A2 R2 O2 B2 T2 M2].
      split; [by eapply vmstep_trans|]. split; [done|]. split.
      { eapply frame_trans; [exact M1|]. eapply frame_weaken; [|exact M2].
        intros q [H|H]; apply Rd; [left; by apply tabs_own|by right]. }
      left. split; [done|]. split; [done|]. split; [done|].
      split; [intros q; rewrite R2, Rd; tauto|].
      split; [intros vb Hvb Hlt; apply Hc; [done|destruct Hvb; lia]|].
      split; [intros vb Hvb Hge; rewrite Hout, Ud; [done|done|by apply uva_vpage|lia]|].
      intros [[[virt ps] pe] perm] He. pose proof (kentries_in _ _ _ kmap_ok He) as Hok.
      eapply kmapped_ext; [|exact Hok|by apply Kd].
      intros vb Hvb Hvr. apply Hout; [done|]. destruct Hok as [Hv _]. lia.
    + split; [by eapply vmstep_trans|]. split; [done|]. split.
      { eapply frame_trans; [exact M1|]. eapply frame_weaken; [|exact M2]. intros q. apply Rd. }
      right. split; [done|]. intros q. by rewrite R2.
Qed.

End vmfork.
