(* ===== verification/File.v ===== *)
(** * The file table (file.c) and inode references (idup of fs.c)

    Reference counting of open files.  What the last close of a file does to
    the file system (log transactions, [iput], pipes) is the interface
    [FsOps]. *)

From S2P Require Import Prelude Mem KState.

(** ** The file system calls of proc.c and file.c *)

Class FsOps : Type := {
  fs_begin_op : K unit;
  fs_end_op : K unit;
  fs_iput : option nat -> K unit;
  fs_pipeclose : Z -> Z -> K unit;
  fs_namei : list Z -> K (option nat);
  fs_iinit : Z -> K unit;
  fs_initlog : Z -> K unit;
}.

Section file.
Context {FS : FsOps}.

(** ** Slots *)

Definition file_at (f : nat) : K file := fun s =>
  match ftable s !! f with
  | Some x => Ret x s
  | None => Undef "file out of range" s
  end.

Definition upd_file (f : nat) (g : file -> file) : K unit :=
  modify (fun s => set_ftable (alter g f (ftable s)) s).

Definition inode_at (i : nat) : K inode := fun s =>
  match icache s !! i with
  | Some x => Ret x s
  | None => Undef "inode out of range" s
  end.

Definition upd_inode (i : nat) (g : inode -> inode) : K unit :=
  modify (fun s => set_icache (alter g i (icache s)) s).

(** ** Operations *)

(** Allocate a file structure. *)
Definition filealloc : K (option nat) :=
  acquire LkFtable ;;
  ft <- gets ftable ;;
  match find_index (fun f => f_ref f =? 0) ft with
  | Some f =>
      upd_file f (set_f_ref 1) ;;
      release LkFtable ;;
      ret (Some f)
  | None => release LkFtable ;; ret None
  end.

(** Increment ref count for file [f]. *)
Definition filedup (f : nat) : K nat :=
  acquire LkFtable ;;
  x <- file_at f ;;
  if f_ref x <? 1 then panic "filedup"
  else
    upd_file f (fun x => set_f_ref (i32 (f_ref x + 1)) x) ;;
    release LkFtable ;;
    ret f.

(** Close file [f]: decrement the count, close when it reaches 0. *)
Definition fileclose (f : nat) : K unit :=
  acquire LkFtable ;;
  x <- file_at f ;;
  if f_ref x <? 1 then panic "fileclose"
  else
    upd_file f (fun x => set_f_ref (f_ref x - 1) x) ;;
    ff <- file_at f ;;
    if 0 <? f_ref ff then release LkFtable
    else
      upd_file f (set_f_ref 0) ;;
      upd_file f (set_f_type FD_NONE) ;;
      release LkFtable ;;
      match f_type ff with
      | FD_PIPE => fs_pipeclose (f_pipe ff) (f_writable ff)
      | FD_INODE => fs_begin_op ;; fs_iput (f_ip ff) ;; fs_end_op
      | FD_NONE => ret tt
      end.

(** Increment reference count for [ip]; a null pointer faults. *)
Definition idup (ip : option nat) : K (option nat) :=
  acquire LkIcache ;;
  match ip with
  | None => undef "idup: null inode"
  | Some i =>
      _ <- inode_at i ;;
      upd_inode i (fun x => set_i_ref (i32 (i_ref x + 1)) x) ;;
      release LkIcache ;;
      ret ip
  end.

End file.
