(* ===== verification/Proc.v ===== *)
(** * Processes (proc.c)

    The process table is a list of slots and a pointer to a slot is its
    index.  A kernel thread that calls [sched] gives up the processor: the
    computation ends in [Block], and what the thread does when the scheduler
    switches back to it is the definition with the suffix [_resume]. *)

From S2P Require Import Prelude CString Mem KState Mmu Console Kalloc Vm File.

Section proc.
Context {LK : Linker} {FS : FsOps}.

(** [initlock(&ptable.lock, ...)]: the lock is free. *)
Definition pinit : K unit := modify (fun s => set_held (filter (fun l => l <> LkPtable) (held s)) s).

(** ** Creation *)

(** The trap frame of a new kernel stack: the page comes from [kfree], which
    filled it with ones. *)
Definition junk_trapframe : trapframe :=
  let w := 0x01010101 in let h := 0x0101 in
  mk_trapframe w w w w w w w w h h h h w w w h w w h.

(** Sizes of struct trapframe and struct context. *)
Definition sizeof_trapframe : Z := 76.
Definition sizeof_context : Z := 20.

(** Look in the process table for an UNUSED proc; [None] is the null pointer. *)
Definition allocproc : K (option nat) :=
  acquire LkPtable ;;
  pt <- gets ptable ;;
  match find_index (fun p => bool_decide (p_state p = UNUSED)) pt with
  | None => release LkPtable ;; ret None
  | Some i =>
      upd_proc i (set_p_state EMBRYO) ;;
      pid <- gets nextpid ;;
      modify (set_nextpid (i32 (pid + 1))) ;;
      upd_proc i (set_p_pid pid) ;;
      upd_proc i (set_p_priority 60) ;;
      t <- gets ticks ;;
      upd_proc i (set_p_ctime (i32 t)) ;;
      upd_proc i (set_p_rtime 0) ;;
      upd_proc i (set_p_etime 0) ;;
      release LkPtable ;;
      (* Allocate kernel stack. *)
      ks <- kalloc ;;
      upd_proc i (set_p_kstack ks) ;;
      if ks =? 0 then upd_proc i (set_p_state UNUSED) ;; ret None
      else
        (* Leave room for trap frame. *)
        let sp := ks + KSTACKSIZE - sizeof_trapframe in
        upd_proc i (set_p_tf junk_trapframe) ;;
        (* Set up new context to start executing at forkret, which returns to trapret. *)
        let sp := sp - 4 in
        store32 sp trapret_addr ;;
        upd_proc i (set_p_context (mk_context 0 0 0 0 forkret_addr)) ;;
        ret (Some i)
  end.

Definition zero_trapframe : trapframe :=
  mk_trapframe 0 0 0 0 0 0 0 0 0 0 0 0 0 0 0 0 0 0 0.

(** [(SEG_UCODE << 3) | DPL_USER], [(SEG_UDATA << 3) | DPL_USER] *)
Definition user_cs : Z := Z.lor (Z.shiftl SEG_UCODE 3) DPL_USER.
Definition user_ds : Z := Z.lor (Z.shiftl SEG_UDATA 3) DPL_USER.

(** Copy into [p->name]. *)
Definition set_name (i : nat) (t : list Z) : K unit :=
  p <- proc_at i ;;
  match safestrcpy (p_name p) t 16 with
  | Some nm => upd_proc i (set_p_name nm)
  | None => undef "safestrcpy"
  end.

(** Set up first user process; [init] and [size] are the linker's
    _binary_initcode_start and _binary_initcode_size. *)
Definition userinit (init size : Z) : K unit :=
  op <- allocproc ;;
  modify (set_initproc op) ;;
  match op with
  | None => undef "userinit: null proc"
  | Some i =>
      d <- setupkvm ;;
      upd_proc i (set_p_pgdir d) ;;
      if d =? 0 then panic "userinit: out of memory?"
      else
        inituvm d init size ;;
        upd_proc i (set_p_sz PGSIZE) ;;
        upd_proc i (set_p_tf
          (set_tf_eip 0 (set_tf_esp PGSIZE (set_tf_eflags FL_IF
            (set_tf_ss user_ds (set_tf_es user_ds (set_tf_ds user_ds
              (set_tf_cs user_cs zero_trapframe)))))))) ;;
        set_name i (bytes "initcode" ++ [0]) ;;
        cwd <- fs_namei (bytes "/") ;;
        upd_proc i (set_p_cwd cwd) ;;
        acquire LkPtable ;;
        upd_proc i (set_p_state RUNNABLE) ;;
        release LkPtable
  end.

(** Grow current process's memory by [n] bytes. *)
Definition growproc (n : Z) : K Z :=
  me <- curproc ;;
  p <- proc_at me ;;
  let sz := p_sz p in
  r <- (if 0 <? n then
          sz' <- allocuvm (p_pgdir p) sz (u32 (sz + n)) ;;
          ret (if sz' =? 0 then None else Some sz')
        else if n <? 0 then
          sz' <- deallocuvm (p_pgdir p) sz (u32 (sz + n)) ;;
          ret (if sz' =? 0 then None else Some sz')
        else ret (Some sz)) ;;
  match r with
  | None => ret (-1)
  | Some sz' =>
      upd_proc me (set_p_sz sz') ;;
      switchuvm (Some me) ;;
      ret 0
  end.

(** [for(i = 0; i < NOFILE; i++) if(curproc->ofile[i]) np->ofile[i] = filedup(...);] *)
Fixpoint dup_files (fds : list nat) (me np : nat) : K unit :=
  match fds with
  | [] => ret tt
  | fd :: fds' =>
      p <- proc_at me ;;
      match p_ofile p !! fd with
      | Some (Some f) =>
          f' <- filedup f ;;
          upd_proc np (fun q => set_p_ofile (<[fd := Some f']> (p_ofile q)) q)
      | Some None => ret tt
      | None => undef "ofile out of range"
      end ;;
      dup_files fds' me np
  end.

(** The part that fork and fork2 share, after allocproc; [after] is what comes
    before the pid is read. *)
Definition fork_child (me np : nat) (after : K unit) : K Z :=
  p <- proc_at me ;;
  d <- copyuvm (p_pgdir p) (p_sz p) ;;
  upd_proc np (set_p_pgdir d) ;;
  if d =? 0 then
    q <- proc_at np ;;
    kfree (p_kstack q) ;;
    upd_proc np (set_p_kstack 0) ;;
    upd_proc np (set_p_state UNUSED) ;;
    ret (-1)
  else
    p <- proc_at me ;;
    upd_proc np (set_p_sz (p_sz p)) ;;
    upd_proc np (set_p_parent (Some me)) ;;
    (* Clear %eax so that fork returns 0 in the child. *)
    upd_proc np (set_p_tf (set_tf_eax 0 (p_tf p))) ;;
    dup_files (seq 0 NOFILE) me np ;;
    p <- proc_at me ;;
    cwd <- idup (p_cwd p) ;;
    upd_proc np (set_p_cwd cwd) ;;
    set_name np (p_name p) ;;
    after ;;
    q <- proc_at np ;;
    acquire LkPtable ;;
    upd_proc np (set_p_state RUNNABLE) ;;
    release LkPtable ;;
    ret (p_pid q).

(** Create a new process copying the caller as the parent. *)
Definition fork : K Z :=
  me <- curproc ;;
  onp <- allocproc ;;
  match onp with
  | None => ret (-1)
  | Some np => fork_child me np (ret tt)
  end.

(** Like fork, but the child gets the specified priority. *)
Definition fork2 (priority : Z) : K Z :=
  me <- curproc ;;
  if (priority <? 0) || (100 <? priority) then ret (-1)
  else
    onp <- allocproc ;;
    match onp with
    | None => ret (-1)
    | Some np => fork_child me np (upd_proc np (set_p_priority priority))
    end.

(** ** Giving up the processor *)

(** Enter scheduler.  Must hold only ptable.lock and have changed the state.
    [ncli] is the number of the locks held: interrupts are off while it is
    not 0. *)
Definition sched {A} : K A := fun s =>
  match cur s with
  | None => Undef "sched: no process" s
  | Some me =>
      if negb (holding LkPtable s) then Panic "sched ptable.lock" s
      else if negb (length (held s) =? 1)%nat then Panic "sched locks" s
      else match ptable s !! me with
           | None => Undef "proc out of range" s
           | Some p => if bool_decide (p_state p = RUNNING) then Panic "sched running" s else Block s
           end
  end.

Definition yield : K unit :=
  acquire LkPtable ;;
  me <- curproc ;;
  upd_proc me (set_p_state RUNNABLE) ;;
  sched.

Definition yield_resume : K unit := release LkPtable.

(** Atomically release lock and sleep on [chan]. *)
Definition sleep {A} (chan : channel) (lk : lockid) : K A :=
  op <- myproc ;;
  match op with
  | None => panic "sleep"
  | Some me =>
      when (bool_decide (lk <> LkPtable)) (acquire LkPtable ;; release lk) ;;
      upd_proc me (set_p_chan (Some chan)) ;;
      upd_proc me (set_p_state SLEEPING) ;;
      sched
  end.

(** The rest of [sleep]: tidy up, reacquire original lock. *)
Definition sleep_resume (lk : lockid) : K unit :=
  me <- curproc ;;
  upd_proc me (set_p_chan None) ;;
  when (bool_decide (lk <> LkPtable)) (release LkPtable ;; acquire lk).

(** Wake up the processes that sleep on [chan]; [None] is the null pointer. *)
Definition wake (chan : option channel) (p : proc) : proc :=
  if bool_decide (p_state p = SLEEPING) && bool_decide (p_chan p = chan)
  then set_p_state RUNNABLE p else p.

Definition wakeup1 (chan : option channel) : K unit :=
  modify (fun s => set_ptable (wake chan <$> ptable s) s).

Definition wakeup (chan : channel) : K unit :=
  acquire LkPtable ;;
  wakeup1 (Some chan) ;;
  release LkPtable.

(** A fork child's first scheduling. *)
Definition forkret : K unit :=
  release LkPtable ;;
  first <- gets forkret_first ;;
  when first (modify (set_forkret_first false) ;; fs_iinit ROOTDEV ;; fs_initlog ROOTDEV).

(** ** Exit *)

Fixpoint close_files (fds : list nat) (me : nat) : K unit :=
  match fds with
  | [] => ret tt
  | fd :: fds' =>
      p <- proc_at me ;;
      match p_ofile p !! fd with
      | Some (Some f) =>
          fileclose f ;;
          upd_proc me (fun q => set_p_ofile (<[fd := None]> (p_ofile q)) q)
      | Some None => ret tt
      | None => undef "ofile out of range"
      end ;;
      close_files fds' me
  end.

(** The part of exit that gives the files back. *)
Definition exit_files (me : nat) : K unit :=
  close_files (seq 0 NOFILE) me ;;
  fs_begin_op ;;
  p <- proc_at me ;;
  fs_iput (p_cwd p) ;;
  fs_end_op ;;
  upd_proc me (set_p_cwd None).

(** Pass abandoned children to init. *)
Fixpoint reparent (idx : list nat) (me : nat) : K unit :=
  match idx with
  | [] => ret tt
  | i :: idx' =>
      p <- proc_at i ;;
      when (bool_decide (p_parent p = Some me))
        (ini <- gets initproc ;;
         upd_proc i (set_p_parent ini) ;;
         when (bool_decide (p_state p = ZOMBIE)) (wakeup1 (ChProc <$> ini))) ;;
      reparent idx' me
  end.

(** The part of exit under the lock of the process table. *)
Definition exit_zombie (me : nat) : K unit :=
  acquire LkPtable ;;
  p <- proc_at me ;;
  wakeup1 (ChProc <$> p_parent p) ;;
  reparent (seq 0 NPROC) me ;;
  t <- gets ticks ;;
  upd_proc me (set_p_etime (i32 t)) ;;
  upd_proc me (set_p_state ZOMBIE) ;;
  sched (A := unit) ;;
  panic "zombie exit".

Definition exit : K unit :=
  me <- curproc ;;
  ini <- gets initproc ;;
  if bool_decide (ini = Some me) then panic "init exiting"
  else exit_files me ;; exit_zombie me.

(** ** Wait *)

(** [p->name[0] = 0] *)
Definition clear_name (nm : list Z) : list Z := <[0%nat := 0]> nm.

(** Release the resources of the zombie in slot [i]; its pid. *)
Definition reap (i : nat) : K Z :=
  p <- proc_at i ;;
  let pid := p_pid p in
  kfree (p_kstack p) ;;
  upd_proc i (set_p_kstack 0) ;;
  freevm (p_pgdir p) ;;
  upd_proc i (set_p_pid 0) ;;
  upd_proc i (set_p_parent None) ;;
  upd_proc i (fun p => set_p_name (clear_name (p_name p)) p) ;;
  upd_proc i (set_p_killed 0) ;;
  upd_proc i (set_p_state UNUSED) ;;
  release LkPtable ;;
  ret pid.

(** Scan for exited children: the pid of the one that was reaped, or whether
    there are children. *)
Fixpoint wait_scan (idx : list nat) (me : nat) (havekids : bool) : K (bool + Z) :=
  match idx with
  | [] => ret (inl havekids)
  | i :: idx' =>
      p <- proc_at i ;;
      if bool_decide (p_parent p <> Some me) then wait_scan idx' me havekids
      else if bool_decide (p_state p = ZOMBIE) then pid <- reap i ;; ret (inr pid)
      else wait_scan idx' me true
  end.

(** One round of the loop of wait, entered with ptable.lock held; it ends in
    [Block] when there is a child to wait for. *)
Definition wait_round (me : nat) : K Z :=
  r <- wait_scan (seq 0 NPROC) me false ;;
  match r with
  | inr pid => ret pid
  | inl havekids =>
      p <- proc_at me ;;
      if negb havekids || negb (p_killed p =? 0) then release LkPtable ;; ret (-1)
      else sleep (ChProc me) LkPtable
  end.

Definition wait : K Z :=
  me <- curproc ;;
  acquire LkPtable ;;
  wait_round me.

Definition wait_resume : K Z :=
  me <- curproc ;;
  sleep_resume LkPtable ;;
  wait_round me.

(** ** Scheduler *)

(** The next process to run, from position [pos] of the loop over the table. *)
Definition scheduler_next (pos : nat) (pt : list proc) : option nat :=
  (Nat.add pos) <$> find_index (fun p => bool_decide (p_state p = RUNNABLE)) (drop pos pt).

(** Switch to chosen process. *)
Definition scheduler_switch (i : nat) : K unit :=
  modify (set_cur (Some i)) ;;
  switchuvm (Some i) ;;
  upd_proc i (set_p_state RUNNING).

(** The process is done running for now. *)
Definition scheduler_back : K unit :=
  switchkvm ;;
  modify (set_cur None).

(** ** Signals and listings *)

Definition kill (pid : Z) : K Z :=
  acquire LkPtable ;;
  pt <- gets ptable ;;
  match find_index (fun p => p_pid p =? pid) pt with
  | Some i =>
      upd_proc i (set_p_killed 1) ;;
      upd_proc i (fun p => if bool_decide (p_state p = SLEEPING) then set_p_state RUNNABLE p else p) ;;
      release LkPtable ;;
      ret 0
  | None => release LkPtable ;; ret (-1)
  end.

Definition state_name (st : procstate) : list Z :=
  bytes match st with
  | UNUSED => "unused" | EMBRYO => "embryo" | SLEEPING => "sleep "
  | RUNNABLE => "runble" | RUNNING => "run   " | ZOMBIE => "zombie"
  end.

(** [getcallerpcs] of spinlock.c: the saved return addresses of the frames. *)
Fixpoint getcallerpcs_loop (n : nat) (m : memory) (ebp : Z) : list Z :=
  match n with
  | O => []
  | S n' =>
      if (ebp =? 0) || (ebp <? KERNBASE) || (ebp =? 0xffffffff) then replicate n 0
      else ld32 m (ebp + 4) :: getcallerpcs_loop n' m (ld32 m ebp)
  end.

Definition getcallerpcs (m : memory) (v : Z) : list Z := getcallerpcs_loop 10 m (u32 (v - 8)).

(** [for(i=0; i<10 && pc[i] != 0; i++) cprintf(" %p", pc[i]);] *)
Fixpoint print_pcs (pcs : list Z) : K unit :=
  match pcs with
  | [] => ret tt
  | pc :: pcs' => if pc =? 0 then ret tt else cprintf (bytes " %p") [PInt pc] ;; print_pcs pcs'
  end.

Fixpoint procdump_loop (ps : list proc) : K unit :=
  match ps with
  | [] => ret tt
  | p :: ps' =>
      (if bool_decide (p_state p = UNUSED) then ret tt
       else
         cprintf (bytes "%d %s %s")
           [PInt (p_pid p); PStr (Some (state_name (p_state p))); PStr (Some (cstr (p_name p)))] ;;
         when (bool_decide (p_state p = SLEEPING))
           (m <- gets mem ;; print_pcs (getcallerpcs m (u32 (cx_ebp (p_context p) + 8)))) ;;
         cprintf [10] []) ;;
      procdump_loop ps'
  end.

Definition procdump : K unit := pt <- gets ptable ;; procdump_loop pt.

(** [p->rtime++] of the running processes. *)
Definition run_tick (p : proc) : proc :=
  if bool_decide (p_state p = RUNNING) then set_p_rtime (i32 (p_rtime p + 1)) p else p.

Definition update_rtime : K unit :=
  acquire LkPtable ;;
  modify (fun s => set_ptable (run_tick <$> ptable s) s) ;;
  release LkPtable.

End proc.
