(* ===== verification/Syscall.v ===== *)
(** * System call arguments (syscall.c)

    The kernel reads and writes user memory through the page table that is
    loaded ([cr3]); an access the hardware does not allow faults in the
    kernel, which is the end of it ([trap] panics), and is [Undef] here. *)

From S2P Require Import Prelude Mem KState Mmu Vm AddrSpace.

Section syscall.
Context {LK : Linker}.

(** ** Memory through the page table *)

(** The kernel address of the byte at [va]; supervisor writes need PTE_W
    because CR0_WP is set (entry.S). *)
Definition hw_translate (s : kstate) (va : Z) (write : bool) : option Z :=
  let e := pte_of (mem s) (P2V (cr3 s)) va in
  if present e && (negb write || negb (Z.land e PTE_W =? 0))
  then Some (leaf e + va mod PGSIZE) else None.

Definition vread8 (va : Z) : K Z := fun s =>
  match hw_translate s va false with
  | Some a => Ret (ld8 (mem s) a) s
  | None => Undef "page fault" s
  end.

Definition vwrite8 (va v : Z) : K unit := fun s =>
  match hw_translate s va true with
  | Some a => Ret tt (set_mem (st8 (mem s) a v) s)
  | None => Undef "page fault" s
  end.

(** Little-endian words, byte by byte. *)
Definition vread32 (va : Z) : K Z :=
  b0 <- vread8 (u32 va) ;;
  b1 <- vread8 (u32 (va + 1)) ;;
  b2 <- vread8 (u32 (va + 2)) ;;
  b3 <- vread8 (u32 (va + 3)) ;;
  ret (b0 + b1 * 2 ^ 8 + b2 * 2 ^ 16 + b3 * 2 ^ 24).

Definition vwrite32 (va v : Z) : K unit :=
  vwrite8 (u32 va) (Z.land v 255) ;;
  vwrite8 (u32 (va + 1)) (Z.land (Z.shiftr v 8) 255) ;;
  vwrite8 (u32 (va + 2)) (Z.land (Z.shiftr v 16) 255) ;;
  vwrite8 (u32 (va + 3)) (Z.land (Z.shiftr v 24) 255).

(** [n] bytes from [va]: the reads and the writes of a memmove between user
    memory and a kernel object. *)
Fixpoint vread (va : Z) (n : nat) : K (list Z) :=
  match n with
  | O => ret []
  | S n' => b <- vread8 (u32 va) ;; bs <- vread (va + 1) n' ;; ret (b :: bs)
  end.

Fixpoint vwrite (va : Z) (bs : list Z) : K unit :=
  match bs with
  | [] => ret tt
  | b :: bs' => vwrite8 (u32 va) b ;; vwrite (va + 1) bs'
  end.

(** ** Fetching arguments

    The C functions return -1 or store the value: [None] or [Some]. *)

(** Fetch the int at [addr] from the current process. *)
Definition fetchint (addr : Z) : K (option Z) :=
  me <- curproc ;;
  p <- proc_at me ;;
  if (p_sz p <=? addr) || (p_sz p <? u32 (addr + 4)) then ret None
  else v <- vread32 addr ;; ret (Some (i32 v)).

(** [for(s = *pp; s < ep; s++) if( *s == 0) return s - *pp;] *)
Fixpoint fetchstr_loop (n : nat) (s : Z) (len : Z) : K (option Z) :=
  match n with
  | O => ret None
  | S n' => c <- vread8 s ;; if c =? 0 then ret (Some len) else fetchstr_loop n' (s + 1) (len + 1)
  end.

(** The length of the nul-terminated string at [addr]. *)
Definition fetchstr (addr : Z) : K (option Z) :=
  me <- curproc ;;
  p <- proc_at me ;;
  if p_sz p <=? addr then ret None
  else fetchstr_loop (Z.to_nat (p_sz p - addr)) addr 0.

(** Fetch the nth 32-bit system call argument. *)
Definition argint (n : Z) : K (option Z) :=
  me <- curproc ;;
  p <- proc_at me ;;
  fetchint (u32 (tf_esp (p_tf p) + 4 + 4 * n)).

(** [if(argint(n, &v) < 0) return -1;] and the rest [k] of the handler. *)
Definition with_argint (n : Z) (k : Z -> K Z) : K Z :=
  a <- argint n ;;
  match a with
  | None => ret (-1)
  | Some v => k v
  end.

(** Fetch the nth argument as a pointer to a block of [size] bytes. *)
Definition argptr (n size : Z) : K (option Z) :=
  me <- curproc ;;
  r <- argint n ;;
  match r with
  | None => ret None
  | Some i =>
      p <- proc_at me ;;
      if (size <? 0) || (p_sz p <=? u32 i) || (p_sz p <? u32 (u32 i + size)) then ret None
      else ret (Some (u32 i))
  end.

(** Fetch the nth argument as a string pointer: the address and the length. *)
Definition argstr (n : Z) : K (option (Z * Z)) :=
  r <- argint n ;;
  match r with
  | None => ret None
  | Some addr =>
      l <- fetchstr (u32 addr) ;;
      ret (match l with Some len => Some (u32 addr, len) | None => None end)
  end.

End syscall.
