(* ===== verification/Sysproc.v ===== *)
(** * System calls on processes and user mutexes (sysproc.c)

    The handlers of sysproc.c, the project's own among them: process queries
    and priorities, [waitx] and [waitpid], the copy-based and the true shared
    memory, and the table of user mutexes.  A handler that can sleep is split at
    the [sleep]: its loop body is the definition with the suffix [_round],
    entered again by [_resume]. *)

From S2P Require Import Prelude CString Mem KState Mmu Console Kalloc Vm AddrSpace File Proc Syscall.

Section sysproc.
Context {LK : Linker} {FS : FsOps}.

(** ** The system calls of xv6 *)

Definition sys_fork : K Z := fork.

Definition sys_exit : K Z := exit ;; ret 0.

Definition sys_wait : K Z := wait.

Definition sys_kill : K Z :=
  with_argint 0 kill.

Definition sys_getpid : K Z :=
  me <- curproc ;;
  p <- proc_at me ;;
  ret (p_pid p).

Definition sys_sbrk : K Z :=
  with_argint 0 (fun n =>
    me <- curproc ;;
    p <- proc_at me ;;
    let addr := i32 (p_sz p) in
    r <- growproc n ;;
    if r <? 0 then ret (-1) else ret addr).

(** [while(ticks - ticks0 < n)], an unsigned comparison. *)
Definition sys_sleep_round (ticks0 n : Z) : K Z :=
  t <- gets ticks ;;
  if u32 (t - ticks0) <? u32 n then
    me <- curproc ;;
    p <- proc_at me ;;
    if negb (p_killed p =? 0) then release LkTicks ;; ret (-1)
    else sleep ChTicks LkTicks
  else release LkTicks ;; ret 0.

Definition sys_sleep : K Z :=
  with_argint 0 (fun n =>
    acquire LkTicks ;;
    t0 <- gets ticks ;;
    sys_sleep_round t0 n).

Definition sys_sleep_resume (ticks0 n : Z) : K Z :=
  sleep_resume LkTicks ;;
  sys_sleep_round ticks0 n.

Definition sys_uptime : K Z :=
  acquire LkTicks ;;
  t <- gets ticks ;;
  release LkTicks ;;
  ret (i32 t).

(** ** Process queries *)

Definition sys_getppid : K Z :=
  me <- curproc ;;
  p <- proc_at me ;;
  match p_parent p with
  | None => ret (-1)
  | Some j => q <- proc_at j ;; ret (p_pid q)
  end.

(** [if (p->state != UNUSED) count++;] over the table. *)
Fixpoint count_used (ps : list proc) (count : Z) : Z :=
  match ps with
  | [] => count
  | p :: ps' => count_used ps' (if bool_decide (p_state p <> UNUSED) then count + 1 else count)
  end.

Definition sys_getprocs : K Z :=
  acquire LkPtable ;;
  pt <- gets ptable ;;
  let count := count_used pt 0 in
  release LkPtable ;;
  ret count.

Definition set_priority (pid prio : Z) : K Z :=
  if (prio <? 0) || (100 <? prio) then ret (-1)
  else
    acquire LkPtable ;;
    pt <- gets ptable ;;
    old <- (match find_index (fun p => p_pid p =? pid) pt with
            | Some i =>
                p <- proc_at i ;;
                upd_proc i (set_p_priority prio) ;;
                ret (p_priority p)
            | None => ret (-1)
            end) ;;
    release LkPtable ;;
    ret old.

Definition sys_set_priority : K Z :=
  with_argint 0 (fun pid => with_argint 1 (fun prio => set_priority pid prio)).

Fixpoint cps_loop (ps : list proc) : K unit :=
  match ps with
  | [] => ret tt
  | p :: ps' =>
      (if bool_decide (p_state p = UNUSED) then ret tt
       else cprintf (bytes "%d" ++ [9] ++ bytes "%s" ++ [9] ++ bytes "%d" ++ [9] ++ bytes "%s" ++ [10])
              [PInt (p_pid p); PStr (Some (state_name (p_state p))); PInt (p_priority p);
               PStr (Some (cstr (p_name p)))]) ;;
      cps_loop ps'
  end.

Definition sys_cps : K Z :=
  cprintf ([10] ++ bytes "PID" ++ [9] ++ bytes "State" ++ [9] ++ bytes "Prio" ++ [9]
             ++ bytes "Name" ++ [10]) [] ;;
  acquire LkPtable ;;
  pt <- gets ptable ;;
  cps_loop pt ;;
  release LkPtable ;;
  ret 0.

(** ** waitx *)

(** Like [wait_scan], with the times stored through the two addresses, which
    are used as they come from the user. *)
Fixpoint waitx_scan (idx : list nat) (me : nat) (wtime_addr rtime_addr : Z) (havekids : bool)
  : K (bool + Z) :=
  match idx with
  | [] => ret (inl havekids)
  | i :: idx' =>
      p <- proc_at i ;;
      if bool_decide (p_parent p <> Some me) then waitx_scan idx' me wtime_addr rtime_addr havekids
      else if bool_decide (p_state p = ZOMBIE) then
        let wtime := i32 (i32 (p_etime p - p_ctime p) - p_rtime p) in
        let rtime := p_rtime p in
        vwrite32 (u32 wtime_addr) (u32 wtime) ;;
        vwrite32 (u32 rtime_addr) (u32 rtime) ;;
        pid <- reap i ;;
        ret (inr pid)
      else waitx_scan idx' me wtime_addr rtime_addr true
  end.

Definition waitx_round (me : nat) (wtime_addr rtime_addr : Z) : K Z :=
  r <- waitx_scan (seq 0 NPROC) me wtime_addr rtime_addr false ;;
  match r with
  | inr pid => ret pid
  | inl havekids =>
      p <- proc_at me ;;
      if negb havekids || negb (p_killed p =? 0) then release LkPtable ;; ret (-1)
      else sleep (ChProc me) LkPtable
  end.

Definition sys_waitx : K Z :=
  with_argint 0 (fun wtime_addr => with_argint 1 (fun rtime_addr =>
    me <- curproc ;;
    acquire LkPtable ;;
    waitx_round me wtime_addr rtime_addr)).

Definition sys_waitx_resume (wtime_addr rtime_addr : Z) : K Z :=
  me <- curproc ;;
  sleep_resume LkPtable ;;
  waitx_round me wtime_addr rtime_addr.

(** ** waitpid *)

(** Release the resources of the child, in the order of sys_waitpid. *)
Definition waitpid_reap (i : nat) : K Z :=
  p <- proc_at i ;;
  let cpid := p_pid p in
  kfree (p_kstack p) ;;
  upd_proc i (set_p_kstack 0) ;;
  freevm (p_pgdir p) ;;
  upd_proc i (set_p_state UNUSED) ;;
  upd_proc i (set_p_pid 0) ;;
  upd_proc i (set_p_parent None) ;;
  upd_proc i (fun p => set_p_name (clear_name (p_name p)) p) ;;
  upd_proc i (set_p_killed 0) ;;
  release LkPtable ;;
  ret cpid.

Fixpoint waitpid_scan (idx : list nat) (me : nat) (pid : Z) (found : bool) : K (bool + Z) :=
  match idx with
  | [] => ret (inl found)
  | i :: idx' =>
      p <- proc_at i ;;
      if bool_decide (p_parent p <> Some me) || negb (p_pid p =? pid)
      then waitpid_scan idx' me pid found
      else if bool_decide (p_state p = ZOMBIE) then cpid <- waitpid_reap i ;; ret (inr cpid)
      else waitpid_scan idx' me pid true
  end.

Definition waitpid_round (me : nat) (pid : Z) : K Z :=
  r <- waitpid_scan (seq 0 NPROC) me pid false ;;
  match r with
  | inr cpid => ret cpid
  | inl found =>
      p <- proc_at me ;;
      if negb found || negb (p_killed p =? 0) then release LkPtable ;; ret (-1)
      else sleep (ChProc me) LkPtable
  end.

Definition sys_waitpid : K Z :=
  with_argint 0 (fun pid =>
    me <- curproc ;;
    acquire LkPtable ;;
    waitpid_round me pid).

Definition sys_waitpid_resume (pid : Z) : K Z :=
  me <- curproc ;;
  sleep_resume LkPtable ;;
  waitpid_round me pid.

(** ** Signals, shared memory, processors *)

Definition sys_sigkill : K Z :=
  with_argint 0 kill.

(** Copy-based shared memory: the page of the key is copied into a new page of
    the caller. *)
Definition shmem (key : Z) : K Z :=
  if (key <? 0) || (SHM_NKEYS <=? key) then ret (-1)
  else
    ps <- gets shm_pages ;;
    ok <- (match ps !! Z.to_nat key with
           | None => undef "shm_pages out of range"
           | Some pg =>
               if pg =? 0 then
                 p <- kalloc ;;
                 modify (fun s => set_shm_pages (<[Z.to_nat key := p]> (shm_pages s)) s) ;;
                 if p =? 0 then ret None
                 else upd_mem (fun m => memset m p 0 PGSIZE) ;; ret (Some p)
               else ret (Some pg)
           end) ;;
    match ok with
    | None => ret (-1)
    | Some pg =>
        me <- curproc ;;
        p <- proc_at me ;;
        let va := p_sz p in
        r <- growproc PGSIZE ;;
        if r <? 0 then ret (-1)
        else
          c <- copyout (p_pgdir p) va (from_kernel pg) PGSIZE ;;
          if c <? 0 then ret (-1) else ret (i32 va)
    end.

Definition sys_shmem : K Z :=
  with_argint 0 shmem.

Definition sys_fork2 : K Z :=
  with_argint 0 fork2.

Definition sys_shmget : K Z :=
  with_argint 0 shmget.

Definition sys_shmem_count : K Z :=
  with_argint 0 shmem_count.

Definition sys_getncpu : K Z := n <- gets ncpu ;; ret n.

End sysproc.

(** * User mutexes (sysproc.c)

    The table of mutexes and its three system calls.  [mutex_lock] sleeps on
    the mutex while it is locked; [mutex_unlock] releases the table's lock
    before it wakes the sleepers, and is split there ([mutex_unlock_wake]). *)

Section mutex.
Context {LK : Linker} {FS : FsOps}.

(** ** Operations *)

Definition mutex_table_init : K unit :=
  inited <- gets mutex_table_inited ;;
  when (negb inited)
    (modify (fun s => set_held (filter (fun l => l <> LkMutexTable) (held s)) s) ;;
     modify (set_mutex_table_inited true)).

Definition mutex_at (id : nat) : K umutex := fun s =>
  match user_mutexes s !! id with
  | Some m => Ret m s
  | None => Undef "user_mutexes out of range" s
  end.

Definition upd_mutex (id : nat) (f : umutex -> umutex) : K unit :=
  modify (fun s => set_user_mutexes (alter f id (user_mutexes s)) s).

(** An ID of a newly allocated mutex. *)
Definition sys_mutex_create : K Z :=
  mutex_table_init ;;
  acquire LkMutexTable ;;
  ms <- gets user_mutexes ;;
  match find_index (fun m => negb (mx_allocated m)) ms with
  | Some i =>
      upd_mutex i (set_mx_allocated true) ;;
      upd_mutex i (set_mx_locked false) ;;
      upd_mutex i (set_mx_pid 0) ;;
      release LkMutexTable ;;
      ret (Z.of_nat i)
  | None => release LkMutexTable ;; ret (-1)
  end.

(** [while (user_mutexes[id].locked) sleep(...);] and the rest, entered with
    the lock of the table held. *)
Definition mutex_lock_round (id : nat) : K Z :=
  m <- mutex_at id ;;
  if mx_locked m then sleep (ChMutex id) LkMutexTable
  else
    upd_mutex id (set_mx_locked true) ;;
    me <- curproc ;;
    p <- proc_at me ;;
    upd_mutex id (set_mx_pid (p_pid p)) ;;
    release LkMutexTable ;;
    ret 0.

Definition mutex_lock (id : Z) : K Z :=
  if (id <? 0) || (MAX_MUTEXES <=? id) then ret (-1)
  else
    mutex_table_init ;;
    acquire LkMutexTable ;;
    m <- mutex_at (Z.to_nat id) ;;
    if negb (mx_allocated m) then release LkMutexTable ;; ret (-1)
    else mutex_lock_round (Z.to_nat id).

Definition mutex_lock_resume (id : nat) : K Z :=
  sleep_resume LkMutexTable ;;
  mutex_lock_round id.

(** The critical section of mutex_unlock: whether the caller held the mutex. *)
Definition mutex_unlock_release (id : nat) : K bool :=
  acquire LkMutexTable ;;
  m <- mutex_at id ;;
  me <- curproc ;;
  p <- proc_at me ;;
  if negb (mx_allocated m) || negb (mx_locked m) || negb (mx_pid m =? p_pid p)
  then release LkMutexTable ;; ret false
  else
    upd_mutex id (set_mx_locked false) ;;
    upd_mutex id (set_mx_pid 0) ;;
    release LkMutexTable ;;
    ret true.

(** The wakeup after it. *)
Definition mutex_unlock_wake (id : nat) : K unit := wakeup (ChMutex id).

Definition mutex_unlock (id : Z) : K Z :=
  if (id <? 0) || (MAX_MUTEXES <=? id) then ret (-1)
  else
    mutex_table_init ;;
    ok <- mutex_unlock_release (Z.to_nat id) ;;
    if negb ok then ret (-1)
    else mutex_unlock_wake (Z.to_nat id) ;; ret 0.

Definition sys_mutex_lock : K Z :=
  with_argint 0 mutex_lock.

Definition sys_mutex_unlock : K Z :=
  with_argint 0 mutex_unlock.

End mutex.
