(* ===== verification/Msg.v ===== *)
(** * Message queues (sysproc.c)

    Queues and messages are pages of [kalloc] linked by pointers.  The structs
    are kept in two heaps indexed by the address of the page; a pointer to a
    page that was given back faults.  The handlers are split where they leave
    a critical section: [msg_find] looks the queue up under the lock of the
    list, and what follows works on the pointer it found. *)

From S2P Require Import Prelude Mem KState Mmu Kalloc Vm File Proc Syscall.

Section msg.
Context {LK : Linker} {FS : FsOps}.

(** ** Structs through pointers *)

Definition queue_at (q : Z) : K msg_queue := fun s =>
  match queues s !! q with
  | Some x => Ret x s
  | None => Undef "dangling msg_queue" s
  end.

Definition upd_queue (q : Z) (f : msg_queue -> msg_queue) : K unit :=
  modify (fun s => set_queues (alter f q (queues s)) s).

Definition node_at (n : Z) : K msg_node := fun s =>
  match nodes s !! n with
  | Some x => Ret x s
  | None => Undef "dangling msg_node" s
  end.

Definition upd_node (n : Z) (f : msg_node -> msg_node) : K unit :=
  modify (fun s => set_nodes (alter f n (nodes s)) s).

(** The bytes of a page after the three words of struct msg_node: the array
    [data] and the padding behind it. *)
Definition NODE_ROOM : Z := PGSIZE - 12.

(** A fresh page holds the junk of kfree. *)
Definition JUNK : Z := 0x01010101.

Definition new_node (n : Z) : K unit :=
  modify (fun s => set_nodes (<[n := mk_msg_node JUNK (i32 JUNK) (i32 JUNK)
                                      (replicate (Z.to_nat NODE_ROOM) 1)]> (nodes s)) s).

Definition new_queue (q : Z) : K unit :=
  modify (fun s => set_queues (<[q := mk_msg_queue JUNK (i32 JUNK) (i32 JUNK) JUNK JUNK]> (queues s)) s).

Definition free_node (n : Z) : K unit :=
  kfree n ;; modify (fun s => set_nodes (delete n (nodes s)) s).

Definition free_queue (q : Z) : K unit :=
  kfree q ;; modify (fun s => set_queues (delete q (queues s)) s).

(** [initlock(lk, ...)]: the lock is free. *)
Definition initlock (lk : lockid) : K unit :=
  modify (fun s => set_held (filter (fun l => l <> lk) (held s)) s).

Definition queue_table_initialize : K unit :=
  inited <- gets queue_list_initialized ;;
  when (negb inited) (initlock LkQueueList ;; modify (set_queue_list_initialized true)).

(** [while (queue) { if (test) break; queue = queue->next; }] *)
Fixpoint queue_search (fuel : nat) (test : msg_queue -> bool) (q : Z) : K Z :=
  match fuel with
  | O => undef "queue_search: fuel"
  | S fuel' =>
      if q =? 0 then ret 0
      else x <- queue_at q ;; if test x then ret q else queue_search fuel' test (mq_next x)
  end.

(** Enough for a list without a cycle. *)
Definition queue_fuel (s : kstate) : nat := S (size (queues s)).
Definition node_fuel (s : kstate) : nat := S (size (nodes s)).

(** ** msgget *)

Definition msgget (key msgflg : Z) : K Z :=
  queue_table_initialize ;;
  acquire LkQueueList ;;
  h <- gets queue_list_head ;;
  fuel <- gets queue_fuel ;;
  q <- queue_search fuel (fun x => mq_key x =? key) h ;;
  if negb (q =? 0) then release LkQueueList ;; x <- queue_at q ;; ret (mq_id x)
  else if Z.land msgflg IPC_CREAT =? 0 then release LkQueueList ;; ret (-1)
  else
    q <- kalloc ;;
    if q =? 0 then release LkQueueList ;; ret (-1)
    else
      new_queue q ;;
      upd_queue q (set_mq_key key) ;;
      id <- gets next_queue_id ;;
      modify (set_next_queue_id (i32 (id + 1))) ;;
      upd_queue q (set_mq_id id) ;;
      upd_queue q (set_mq_head 0) ;;
      upd_queue q (set_mq_tail 0) ;;
      initlock (LkQueue q) ;;
      h <- gets queue_list_head ;;
      upd_queue q (set_mq_next h) ;;
      modify (set_queue_list_head q) ;;
      x <- queue_at q ;;
      release LkQueueList ;;
      ret (mq_id x).

Definition sys_msgget : K Z :=
  with_argint 0 (fun key => with_argint 1 (fun msgflg => msgget key msgflg)).

(** ** msgsnd *)

(** The lookup by id under the lock of the list; 0 if there is none. *)
Definition msg_find (msqid : Z) : K Z :=
  queue_table_initialize ;;
  acquire LkQueueList ;;
  h <- gets queue_list_head ;;
  fuel <- gets queue_fuel ;;
  q <- queue_search fuel (fun x => mq_id x =? msqid) h ;;
  release LkQueueList ;;
  ret q.

(** Link the node at the tail and wake the receivers. *)
Definition msg_append (q node : Z) : K unit :=
  acquire (LkQueue q) ;;
  x <- queue_at q ;;
  (if mq_head x =? 0 then
     upd_queue q (set_mq_head node) ;;
     upd_queue q (set_mq_tail node)
   else
     _ <- node_at (mq_tail x) ;;
     upd_node (mq_tail x) (set_mn_next node) ;;
     upd_queue q (set_mq_tail node)) ;;
  wakeup (ChQueue q) ;;
  release (LkQueue q).

(** [memmove(node->data, msgp + sizeof(long), msgsz)]: writing past the end of
    the page is outside the object. *)
Definition node_fill (node msgp msgsz : Z) : K unit :=
  if NODE_ROOM <? msgsz then undef "msgsnd: past the page"
  else
    bs <- vread (msgp + 4) (Z.to_nat msgsz) ;;
    upd_node node (fun x => set_mn_data (bs ++ drop (length bs) (mn_data x)) x).

Definition msgsnd (msqid msgp msgsz : Z) : K Z :=
  q <- msg_find msqid ;;
  if q =? 0 then ret (-1)
  else
    node <- kalloc ;;
    if node =? 0 then ret (-1)
    else
      new_node node ;;
      ty <- vread32 msgp ;;
      upd_node node (set_mn_msgtyp (i32 ty)) ;;
      upd_node node (set_mn_length msgsz) ;;
      upd_node node (set_mn_next 0) ;;
      when (0 <? msgsz) (node_fill node msgp msgsz) ;;
      msg_append q node ;;
      ret 0.

Definition sys_msgsnd : K Z :=
  with_argint 0 (fun msqid => with_argint 2 (fun msgsz => with_argint 3 (fun _ =>
    b <- argptr 1 (i32 (msgsz + 4)) ;;
    match b with
    | None => ret (-1)
    | Some msgp => msgsnd msqid msgp msgsz
    end))).

(** ** msgrcv *)

(** The first node that matches, with its predecessor (0 at the head). *)
Fixpoint node_search (fuel : nat) (msgtyp prev n : Z) : K (option (Z * Z)) :=
  match fuel with
  | O => undef "node_search: fuel"
  | S fuel' =>
      if n =? 0 then ret None
      else
        x <- node_at n ;;
        if (msgtyp =? 0) || (mn_msgtyp x =? msgtyp) then ret (Some (prev, n))
        else node_search fuel' msgtyp n (mn_next x)
  end.

(** Unlink the node. *)
Definition msg_unlink (q prev n : Z) : K unit :=
  x <- node_at n ;;
  (if negb (prev =? 0) then _ <- node_at prev ;; upd_node prev (set_mn_next (mn_next x))
   else upd_queue q (set_mq_head (mn_next x))) ;;
  y <- queue_at q ;;
  when (n =? mq_tail y) (upd_queue q (set_mq_tail prev)).

(** Copy the unlinked node out and free it. *)
Definition msg_deliver (n msgsz : Z) : K Z :=
  x <- node_at n ;;
  let copysz := if u32 (mn_length x) <? u32 msgsz then mn_length x else msgsz in
  b <- argptr 1 (i32 (4 + copysz)) ;;
  match b with
  | None => free_node n ;; ret (-1)
  | Some msgp =>
      vwrite32 msgp (u32 (mn_msgtyp x)) ;;
      when (0 <? copysz)
        (if NODE_ROOM <? copysz then undef "msgrcv: past the page"
         else vwrite (msgp + 4) (take (Z.to_nat copysz) (mn_data x))) ;;
      free_node n ;;
      ret copysz
  end.

(** One round of the loop, entered with the lock of the queue held. *)
Definition msgrcv_round (q msgsz msgtyp msgflg : Z) : K Z :=
  y <- queue_at q ;;
  fuel <- gets node_fuel ;;
  r <- node_search fuel msgtyp 0 (mq_head y) ;;
  match r with
  | Some (prev, n) =>
      msg_unlink q prev n ;;
      release (LkQueue q) ;;
      msg_deliver n msgsz
  | None =>
      if negb (Z.land msgflg IPC_NOWAIT =? 0) then release (LkQueue q) ;; ret (-1)
      else
        me <- curproc ;;
        p <- proc_at me ;;
        if negb (p_killed p =? 0) then release (LkQueue q) ;; ret (-1)
        else sleep (ChQueue q) (LkQueue q)
  end.

Definition msgrcv (msqid msgsz msgtyp msgflg : Z) : K Z :=
  q <- msg_find msqid ;;
  if q =? 0 then ret (-1)
  else
    acquire (LkQueue q) ;;
    msgrcv_round q msgsz msgtyp msgflg.

Definition msgrcv_resume (q msgsz msgtyp msgflg : Z) : K Z :=
  sleep_resume (LkQueue q) ;;
  msgrcv_round q msgsz msgtyp msgflg.

Definition sys_msgrcv : K Z :=
  with_argint 0 (fun msqid => with_argint 2 (fun msgsz => with_argint 3 (fun msgtyp =>
    with_argint 4 (fun msgflg => msgrcv msqid msgsz msgtyp msgflg)))).

(** ** msgctl *)

Fixpoint free_nodes (fuel : nat) (n : Z) : K unit :=
  match fuel with
  | O => undef "free_nodes: fuel"
  | S fuel' =>
      if n =? 0 then ret tt
      else x <- node_at n ;; free_node n ;; free_nodes fuel' (mn_next x)
  end.

(** The queue with its predecessor in the list. *)
Fixpoint queue_search_prev (fuel : nat) (msqid prev q : Z) : K (option (Z * Z)) :=
  match fuel with
  | O => undef "queue_search: fuel"
  | S fuel' =>
      if q =? 0 then ret None
      else
        x <- queue_at q ;;
        if mq_id x =? msqid then ret (Some (prev, q)) else queue_search_prev fuel' msqid q (mq_next x)
  end.

Definition msgctl (msqid cmd : Z) : K Z :=
  if negb (cmd =? IPC_RMID) then ret (-1)
  else
    queue_table_initialize ;;
    acquire LkQueueList ;;
    h <- gets queue_list_head ;;
    fuel <- gets queue_fuel ;;
    r <- queue_search_prev fuel msqid 0 h ;;
    match r with
    | None => release LkQueueList ;; ret (-1)
    | Some (prev, q) =>
        x <- queue_at q ;;
        (if negb (prev =? 0) then _ <- queue_at prev ;; upd_queue prev (set_mq_next (mq_next x))
         else modify (set_queue_list_head (mq_next x))) ;;
        release LkQueueList ;;
        acquire (LkQueue q) ;;
        x <- queue_at q ;;
        nf <- gets node_fuel ;;
        free_nodes nf (mq_head x) ;;
        upd_queue q (set_mq_tail 0) ;;
        upd_queue q (set_mq_head 0) ;;
        wakeup (ChQueue q) ;;
        release (LkQueue q) ;;
        free_queue q ;;
        ret 0
    end.

Definition sys_msgctl : K Z :=
  with_argint 0 (fun msqid => with_argint 1 (fun cmd => msgctl msqid cmd)).

End msg.
