(* ===== verification/Pipe.v ===== *)
(** * Pipes (pipe.c)

    A pipe is a page of [kalloc] with a ring buffer of [PIPESIZE] bytes; the
    structs are kept in a heap indexed by the address of the page.  A reader
    that finds the pipe empty and a writer that finds it full go to sleep: the
    definitions with the suffix [_resume] are what they do when they are woken
    up, the writer with the number of bytes it has written. *)

From S2P Require Import Prelude Mem KState Mmu Kalloc Vm File Proc Syscall Msg.

Section pipe.
Context {LK : Linker} {FS : FsOps}.

(** ** Structs through pointers *)

Definition PIPESIZE : Z := 512.

Definition pipe_at (p : Z) : K pipe := fun s =>
  match pipes s !! p with
  | Some x => Ret x s
  | None => Undef "dangling pipe" s
  end.

Definition upd_pipe (p : Z) (f : pipe -> pipe) : K unit :=
  modify (fun s => set_pipes (alter f p (pipes s)) s).

(** A fresh page holds the junk of kfree. *)
Definition new_pipe (p : Z) : K unit :=
  modify (fun s => set_pipes (<[p := mk_pipe (replicate (Z.to_nat PIPESIZE) 1) JUNK JUNK
                                       (i32 JUNK) (i32 JUNK)]> (pipes s)) s).

Definition free_pipe (p : Z) : K unit :=
  kfree p ;; modify (fun s => set_pipes (delete p (pipes s)) s).

(** [p->data[p->nwrite++ % PIPESIZE] = c] *)
Definition pipe_put (c : Z) (x : pipe) : pipe :=
  set_pi_nwrite (u32 (pi_nwrite x + 1))
    (set_pi_data (<[Z.to_nat (pi_nwrite x mod PIPESIZE) := c]> (pi_data x)) x).

(** [p->data[p->nread++ % PIPESIZE]] *)
Definition pipe_next (x : pipe) : option Z := pi_data x !! Z.to_nat (pi_nread x mod PIPESIZE).
Definition pipe_advance (x : pipe) : pipe := set_pi_nread (u32 (pi_nread x + 1)) x.

(** ** Creation and close *)

(** [bad:] of pipealloc, reached with no page allocated. *)
Definition pipealloc_bad (f0 f1 : option nat) : K (option (nat * nat)) :=
  match f0 with Some f => fileclose f | None => ret tt end ;;
  match f1 with Some f => fileclose f | None => ret tt end ;;
  ret None.

(** The two files, or [None] for -1. *)
Definition pipealloc : K (option (nat * nat)) :=
  f0 <- filealloc ;;
  match f0 with
  | None => pipealloc_bad None None
  | Some a =>
      f1 <- filealloc ;;
      match f1 with
      | None => pipealloc_bad f0 None
      | Some b =>
          p <- kalloc ;;
          if p =? 0 then pipealloc_bad f0 f1
          else
            new_pipe p ;;
            upd_pipe p (set_pi_readopen 1) ;;
            upd_pipe p (set_pi_writeopen 1) ;;
            upd_pipe p (set_pi_nwrite 0) ;;
            upd_pipe p (set_pi_nread 0) ;;
            initlock (LkPipe p) ;;
            upd_file a (set_f_type FD_PIPE) ;;
            upd_file a (set_f_readable 1) ;;
            upd_file a (set_f_writable 0) ;;
            upd_file a (set_f_pipe p) ;;
            upd_file b (set_f_type FD_PIPE) ;;
            upd_file b (set_f_readable 0) ;;
            upd_file b (set_f_writable 1) ;;
            upd_file b (set_f_pipe p) ;;
            ret (Some (a, b))
      end
  end.

Definition pipeclose (p writable : Z) : K unit :=
  acquire (LkPipe p) ;;
  _ <- pipe_at p ;;
  (if negb (writable =? 0) then
     upd_pipe p (set_pi_writeopen 0) ;;
     wakeup (ChPipeRead p)
   else
     upd_pipe p (set_pi_readopen 0) ;;
     wakeup (ChPipeWrite p)) ;;
  x <- pipe_at p ;;
  if (pi_readopen x =? 0) && (pi_writeopen x =? 0) then
    release (LkPipe p) ;;
    free_pipe p
  else release (LkPipe p).

(** ** Writing *)

(** [if(... || myproc()->killed)] *)
Definition me_killed : K bool :=
  me <- curproc ;;
  p <- proc_at me ;;
  ret (negb (p_killed p =? 0)).

(** The loop from index [i], with [k] bytes left; p->lock is held. *)
Fixpoint pipewrite_loop (k : nat) (p addr i n : Z) : K Z :=
  match k with
  | O =>
      wakeup (ChPipeRead p) ;;
      release (LkPipe p) ;;
      ret n
  | S k' =>
      x <- pipe_at p ;;
      if pi_nwrite x =? u32 (pi_nread x + PIPESIZE) then
        killed <- (if pi_readopen x =? 0 then ret true else me_killed) ;;
        if killed then
          release (LkPipe p) ;;
          ret (-1)
        else
          wakeup (ChPipeRead p) ;;
          sleep (ChPipeWrite p) (LkPipe p)
      else
        c <- vread8 (u32 (addr + i)) ;;
        upd_pipe p (pipe_put c) ;;
        pipewrite_loop k' p addr (i + 1) n
  end.

Definition pipewrite (p addr n : Z) : K Z :=
  acquire (LkPipe p) ;;
  pipewrite_loop (Z.to_nat n) p addr 0 n.

(** After the sleep at index [i]. *)
Definition pipewrite_resume (p addr i n : Z) : K Z :=
  sleep_resume (LkPipe p) ;;
  pipewrite_loop (Z.to_nat (n - i)) p addr i n.

(** ** Reading *)

(** [for(i = 0; i < n; i++)]: the number of bytes copied. *)
Fixpoint piperead_copy (k : nat) (p addr i : Z) : K Z :=
  match k with
  | O => ret i
  | S k' =>
      x <- pipe_at p ;;
      if pi_nread x =? pi_nwrite x then ret i
      else
        match pipe_next x with
        | None => undef "pipe data out of range"
        | Some c =>
            upd_pipe p pipe_advance ;;
            vwrite8 (u32 (addr + i)) c ;;
            piperead_copy k' p addr (i + 1)
        end
  end.

(** The wait for a byte, and the rest; p->lock is held. *)
Definition piperead_round (p addr n : Z) : K Z :=
  x <- pipe_at p ;;
  if (pi_nread x =? pi_nwrite x) && negb (pi_writeopen x =? 0) then
    killed <- me_killed ;;
    if killed then
      release (LkPipe p) ;;
      ret (-1)
    else sleep (ChPipeRead p) (LkPipe p)
  else
    i <- piperead_copy (Z.to_nat n) p addr 0 ;;
    wakeup (ChPipeWrite p) ;;
    release (LkPipe p) ;;
    ret i.

Definition piperead (p addr n : Z) : K Z :=
  acquire (LkPipe p) ;;
  piperead_round p addr n.

Definition piperead_resume (p addr n : Z) : K Z :=
  sleep_resume (LkPipe p) ;;
  piperead_round p addr n.

End pipe.
