(* ===== verification/Trap.v ===== *)
(** * Traps and the dispatch of system calls (trap.c, syscall.c)

    [syscall] looks the handler up in the table and stores its result in the
    saved %eax; [trap] is the handler of every trap.  When the handler of a
    system call gives up the processor, [syscall_return] and [trap_sys_end]
    are what is left of the trap. *)

From S2P Require Import Prelude CString Mem KState Mmu Console Vm File Proc Syscall Sysproc.
From S2P Require Import Msg.

(** The handlers of sysfile.c by number, and of the device interrupts. *)
Class Handlers : Type := {
  sys_file : Z -> K Z;
  ideintr : K unit;
  kbdintr : K unit;
  uartintr : K unit;
}.

Section trap.
Context {LK : Linker} {FS : FsOps} {HD : Handlers}.

(** ** syscall *)

(** The table [syscalls[]]. *)
Definition syscalls (num : Z) : option (K Z) :=
  match num with
  | 1 => Some sys_fork
  | 2 => Some sys_exit
  | 3 => Some sys_wait
  | 4 | 5 => Some (sys_file num)
  | 6 => Some sys_kill
  | 7 | 8 | 9 | 10 => Some (sys_file num)
  | 11 => Some sys_getpid
  | 12 => Some sys_sbrk
  | 13 => Some sys_sleep
  | 14 => Some sys_uptime
  | 15 | 16 | 17 | 18 | 19 | 20 | 21 => Some (sys_file num)
  | 22 => Some sys_getppid
  | 23 => Some sys_getprocs
  | 24 => Some sys_set_priority
  | 25 => Some sys_cps
  | 26 => Some sys_waitx
  | 27 => Some sys_waitpid
  | 28 => Some sys_sigkill
  | 29 => Some sys_shmem
  | 30 => Some sys_fork2
  | 31 => Some sys_shmget
  | 32 => Some sys_shmem_count
  | 33 => Some sys_mutex_create
  | 34 => Some sys_mutex_lock
  | 35 => Some sys_mutex_unlock
  | 36 => Some sys_msgget
  | 37 => Some sys_msgsnd
  | 38 => Some sys_msgrcv
  | 39 => Some sys_msgctl
  | 40 => Some sys_getncpu
  | _ => None
  end.

(** [curproc->tf->eax = ...] *)
Definition syscall_return (r : Z) : K unit :=
  me <- curproc ;;
  upd_proc me (fun p => set_p_tf (set_tf_eax (u32 r) (p_tf p)) p).

Definition syscall : K unit :=
  me <- curproc ;;
  p <- proc_at me ;;
  let num := i32 (tf_eax (p_tf p)) in
  match syscalls num with
  | Some h => r <- h ;; syscall_return r
  | None =>
      cprintf (bytes "%d %s: unknown sys call %d" ++ [10])
        [PInt (p_pid p); PStr (Some (cstr (p_name p))); PInt num] ;;
      syscall_return (-1)
  end.

(** ** trap *)

Definition T_SYSCALL : Z := 64.
Definition T_IRQ0 : Z := 32.
Definition IRQ_TIMER : Z := 0.
Definition IRQ_KBD : Z := 1.
Definition IRQ_COM1 : Z := 4.
Definition IRQ_IDE : Z := 14.
Definition IRQ_SPURIOUS : Z := 31.

(** [if(myproc()->killed) exit();] *)
Definition exit_if_killed : K unit :=
  me <- curproc ;;
  p <- proc_at me ;;
  when (negb (p_killed p =? 0)) exit.

Definition trap_sys_end : K unit := exit_if_killed.

Definition trap_syscall (tf : trapframe) : K unit :=
  exit_if_killed ;;
  me <- curproc ;;
  upd_proc me (set_p_tf tf) ;;
  syscall ;;
  trap_sys_end.

(** The clock tick, on the first processor. *)
Definition timer_tick : K unit :=
  acquire LkTicks ;;
  modify (fun s => set_ticks (u32 (ticks s + 1)) s) ;;
  wakeup ChTicks ;;
  release LkTicks ;;
  update_rtime.

(** [if(myproc() && myproc()->killed && (tf->cs&3) == DPL_USER) exit();] *)
Definition exit_if_killed_user (tf : trapframe) : K unit :=
  op <- myproc ;;
  match op with
  | None => ret tt
  | Some me =>
      p <- proc_at me ;;
      when (negb (p_killed p =? 0) && (Z.land (tf_cs tf) 3 =? DPL_USER)) exit
  end.

(** The default case of the switch; [cpu] is [cpuid()] and [cr2] the faulting
    address. *)
Definition trap_unexpected (cpu cr2 : Z) (tf : trapframe) : K unit :=
  op <- myproc ;;
  match op with
  | Some me =>
      if Z.land (tf_cs tf) 3 =? 0 then
        cprintf (bytes "unexpected trap %d from cpu %d eip %x (cr2=0x%x)" ++ [10])
          [PInt (tf_trapno tf); PInt cpu; PInt (tf_eip tf); PInt cr2] ;;
        panic "trap"
      else
        p <- proc_at me ;;
        cprintf (bytes "pid %d %s: trap %d err %d on cpu %d eip 0x%x addr 0x%x--kill proc" ++ [10])
          [PInt (p_pid p); PStr (Some (cstr (p_name p))); PInt (tf_trapno tf); PInt (tf_err tf); PInt cpu;
           PInt (tf_eip tf); PInt cr2] ;;
        upd_proc me (set_p_killed 1)
  | None =>
      cprintf (bytes "unexpected trap %d from cpu %d eip %x (cr2=0x%x)" ++ [10])
        [PInt (tf_trapno tf); PInt cpu; PInt (tf_eip tf); PInt cr2] ;;
      panic "trap"
  end.

(** The switch over the other trap numbers. *)
Definition trap_dispatch (cpu cr2 : Z) (tf : trapframe) : K unit :=
  let no := tf_trapno tf in
  if no =? T_IRQ0 + IRQ_TIMER then when (cpu =? 0) timer_tick
  else if no =? T_IRQ0 + IRQ_IDE then ideintr
  else if no =? T_IRQ0 + IRQ_IDE + 1 then ret tt
  else if no =? T_IRQ0 + IRQ_KBD then kbdintr
  else if no =? T_IRQ0 + IRQ_COM1 then uartintr
  else if (no =? T_IRQ0 + 7) || (no =? T_IRQ0 + IRQ_SPURIOUS) then
    cprintf (bytes "cpu%d: spurious interrupt at %x:%x" ++ [10])
      [PInt cpu; PInt (tf_cs tf); PInt (tf_eip tf)]
  else
    trap_unexpected cpu cr2 tf.

(** Force process to give up CPU on clock tick. *)
Definition trap_yield (tf : trapframe) : K unit :=
  op <- myproc ;;
  match op with
  | None => ret tt
  | Some me =>
      p <- proc_at me ;;
      when (bool_decide (p_state p = RUNNING) && (tf_trapno tf =? T_IRQ0 + IRQ_TIMER)) yield
  end.

Definition trap (cpu cr2 : Z) (tf : trapframe) : K unit :=
  if tf_trapno tf =? T_SYSCALL then trap_syscall tf
  else
    trap_dispatch cpu cr2 tf ;;
    exit_if_killed_user tf ;;
    trap_yield tf ;;
    exit_if_killed_user tf.

(** What is left of the trap after [yield] gave up the processor. *)
Definition trap_yield_resume (tf : trapframe) : K unit :=
  yield_resume ;;
  exit_if_killed_user tf.

End trap.
