(* ===== verification/Ulib.v ===== *)
(** * System calls as user programs see them, and their library
    (ulib.c, printf.c)

    The programs are written against the calls of the class [Io], on a world
    [W] that they cannot look into.  [Stream] states what the programs rely on
    when they read one descriptor and write another one: the documented
    behaviour of read and write, with short counts. *)

From S2P Require Import Prelude CString Console.

Class Io (W : Type) : Type := {
  io_open : list Z -> Z -> Z -> M W Z;           (** path, flags, mode *)
  io_read : Z -> nat -> M W (Z * list Z);        (** the result, and the bytes stored in the buffer *)
  io_write : Z -> list Z -> M W Z;
  io_close : Z -> M W unit;
}.

(** [rest w] is what is still to be read from [fdin], [out w] what has been
    written to [fdout].  A read returns at least one byte and at most as many
    as asked for, and 0 only at the end; a write takes at least one byte. *)
Record Stream {W} {IO : Io W} (fdin fdout : Z) (rest out : W -> list Z) : Prop := {
  st_read n w : (0 < n)%nat -> exists k w', io_read fdin n w = Ret (Z.of_nat k, take k (rest w)) w' /\
    (k <= n)%nat /\ (k <= length (rest w))%nat /\ (rest w <> [] -> (0 < k)%nat) /\
    rest w' = drop k (rest w) /\ out w' = out w;
  st_write bs w : bs <> [] -> exists k w', io_write fdout bs w = Ret (Z.of_nat k) w' /\
    (0 < k <= length bs)%nat /\ out w' = out w ++ take k bs /\ rest w' = rest w;
}.

(** Calls that never stop short: a regular file, a terminal. *)
Record Full {W} {IO : Io W} (fdin fdout : Z) (rest out : W -> list Z) : Prop := {
  fu_read n w : exists w', io_read fdin n w = Ret (Z.of_nat (min n (length (rest w))), take n (rest w)) w' /\
    rest w' = drop n (rest w) /\ out w' = out w;
  fu_write bs w : exists w', io_write fdout bs w = Ret (Z.of_nat (length bs)) w' /\
    out w' = out w ++ bs /\ rest w' = rest w;
}.

(** * The library of the user programs (ulib.c, printf.c)

    String functions on C strings without their terminator, and formatted
    output on a descriptor, which is written byte by byte. *)

(** ** Strings *)

(** [while(( *s++ = *t++) != 0)] on the array [s] and the bytes from [t] on;
    [None] when the copy runs out of one of them. *)
Fixpoint strcpy (s t : list Z) : option (list Z) :=
  match s, t with
  | _ :: s', c :: t' => if c =? 0 then Some (c :: s') else option_map (cons c) (strcpy s' t')
  | _, _ => None
  end.

(** [while( *p && *p == *q) p++, q++; return (uchar)*p - (uchar)*q;] *)
Fixpoint strcmp (p q : list Z) : Z :=
  match p, q with
  | [], [] => 0
  | [], b :: _ => - u8 b
  | a :: _, [] => u8 a
  | a :: p', b :: q' => if u8 a =? u8 b then strcmp p' q' else u8 a - u8 b
  end.

(** The suffix that starts with [c]. *)
Fixpoint strchr (s : list Z) (c : Z) : option (list Z) :=
  match s with
  | [] => None
  | d :: s' => if d =? c then Some s else strchr s' c
  end.

(** [while('0' <= *s && *s <= '9') n = n*10 + *s++ - '0';]; [None] when the
    number does not fit an int. *)
Fixpoint atoi_loop (s : list Z) (n : Z) : option Z :=
  match s with
  | [] => Some n
  | c :: s' =>
      if is_digit c then
        let n' := n * 10 + c - chr "0" in
        if n' <? 2 ^ 31 then atoi_loop s' n' else None
      else Some n
  end.

Definition atoi (s : list Z) : option Z := atoi_loop s 0.

(** The copy is the string, the rest of the array stays. *)
Lemma strcpy_spec t rest : 0 ∉ t -> forall s, (length t < length s)%nat ->
  strcpy s (t ++ 0 :: rest) = Some (t ++ 0 :: drop (S (length t)) s).
Proof.
  induction t as [|c t IH]; intros Ht [|d s] Hs; cbn [length] in Hs; try lia; cbn [app strcpy drop length].
  - done.
  - apply not_elem_of_cons in Ht as [Hc Ht]. rewrite (proj2 (Z.eqb_neq c 0)) by congruence. rewrite IH by (done || lia). done.
Qed.

(** ** Output *)

Section output.
Context {W : Type} {IO : Io W}.

Definition putc (fd c : Z) : M W unit := io_write fd [u8 c] ;; ret tt.

Fixpoint putbytes (fd : Z) (bs : list Z) : M W unit :=
  match bs with
  | [] => ret tt
  | c :: bs' => putc fd c ;; putbytes fd bs'
  end.

(** [digits[d]] of the table 0123456789ABCDEF. *)
Definition udigit (d : Z) : Z := if d <? 10 then chr "0" + d else chr "A" + (d - 10).

Fixpoint uprintint_loop (fuel : nat) (x base : Z) (acc : list Z) : list Z :=
  match fuel with
  | O => acc
  | S fuel' =>
      let acc' := udigit (x mod base) :: acc in
      if x / base =? 0 then acc' else uprintint_loop fuel' (x / base) base acc'
  end.

Definition uprintint (fd xx base : Z) (sgn : bool) : M W unit :=
  let neg := sgn && (xx <? 0) in
  let x := if neg then u32 (- xx) else u32 xx in
  let ds := uprintint_loop 32 x base [] in
  putbytes fd (if neg then chr "-" :: ds else ds).

(** The loop over the format: [state] says that the last character was a per
    cent sign.  A directive without its argument is undefined. *)
Fixpoint uprintf_loop (fd : Z) (fmt : list Z) (state : bool) (args : list parg) : M W unit :=
  match fmt with
  | [] => ret tt
  | c :: fmt' =>
      if negb state then
        if c =? chr "%" then uprintf_loop fd fmt' true args
        else putc fd c ;; uprintf_loop fd fmt' false args
      else if c =? chr "d" then
        match args with
        | PInt z :: args' => uprintint fd (i32 z) 10 true ;; uprintf_loop fd fmt' false args'
        | _ => undef "printf: %d"
        end
      else if (c =? chr "x") || (c =? chr "p") then
        match args with
        | PInt z :: args' => uprintint fd (i32 z) 16 false ;; uprintf_loop fd fmt' false args'
        | _ => undef "printf: %x"
        end
      else if c =? chr "s" then
        match args with
        | PStr o :: args' =>
            putbytes fd (match o with Some b => b | None => bytes "(null)" end) ;;
            uprintf_loop fd fmt' false args'
        | _ => undef "printf: %s"
        end
      else if c =? chr "c" then
        match args with
        | PInt z :: args' => putc fd z ;; uprintf_loop fd fmt' false args'
        | _ => undef "printf: %c"
        end
      else if c =? chr "%" then putc fd c ;; uprintf_loop fd fmt' false args
      else putc fd (chr "%") ;; putc fd c ;; uprintf_loop fd fmt' false args
  end.

Definition uprintf (fd : Z) (fmt : list Z) (args : list parg) : M W unit := uprintf_loop fd fmt false args.

(** ** Input *)

(** [for(i=0; i+1 < max; )] of gets: [k] more bytes fit. *)
Fixpoint gets_loop (k : nat) (acc : list Z) : M W (list Z) :=
  match k with
  | O => ret acc
  | S k' =>
      nb <- io_read 0 1 ;;
      match nb with
      | (n, c :: _) =>
          if n <? 1 then ret acc
          else if (c =? 10) || (c =? 13) then ret (acc ++ [c])
          else gets_loop k' (acc ++ [c])
      | (n, []) => ret acc
      end
  end.

(** The string stored in [buf], before the terminator. *)
Definition ugets (max : Z) : M W (list Z) := gets_loop (Z.to_nat (max - 1)) [].

End output.
