(* ===== verification/Posix.v ===== *)
(** * The POSIX interface of the utilities

    The calls of the C library and the system that the programs of the second
    project use, beyond those of [Io]: a class, so that the programs and their
    theorems do not depend on an implementation. *)

From S2P Require Import Prelude Console Ulib.

Class Posix (W : Type) : Type := {
  px_io :: Io W;
  px_stdout : list Z -> M W unit;              (** printf, as the bytes printed *)
  px_stderr : list Z -> M W unit;              (** fprintf(stderr, ...) and perror *)
  px_errno : M W Z;
  px_strerror : Z -> list Z;
  px_fstat : Z -> M W (option Z);              (** st_mode *)
  px_stat : list Z -> M W (option (Z * Z));    (** st_mode and st_size *)
  px_lstat : list Z -> M W (option (Z * Z));
  px_unlink : list Z -> M W Z;
  px_rmdir : list Z -> M W Z;
  px_rename : list Z -> list Z -> M W Z;
  px_chmod : list Z -> Z -> M W Z;
  px_utime : list Z -> M W Z;
  px_opendir : list Z -> M W (option Z);       (** the directory stream *)
  px_readdir : Z -> M W (option (list Z));     (** the name of the next entry *)
  px_closedir : Z -> M W unit;
  px_alloc : Z -> M W bool;                    (** malloc or realloc of so many bytes succeeds *)
  px_dup2 : Z -> Z -> M W unit;
  px_contents : list Z -> M W (option (list Z)); (** fopen to fclose: the bytes that fgetc returns *)
}.

(** Flags and modes. *)
Definition PX_RDONLY : Z := 0.
Definition PX_WRONLY : Z := 1.
Definition PX_CREAT : Z := 64.
Definition PX_TRUNC : Z := 512.
Definition PX_APPEND : Z := 1024.
Definition EXDEV : Z := 18.

Definition S_IFMT : Z := 0xf000.
Definition S_ISDIR (m : Z) : bool := Z.land m S_IFMT =? 0x4000.
Definition S_ISLNK (m : Z) : bool := Z.land m S_IFMT =? 0xa000.
Definition S_ISCHR (m : Z) : bool := Z.land m S_IFMT =? 0x2000.
Definition S_ISBLK (m : Z) : bool := Z.land m S_IFMT =? 0x6000.

(** ** Functions of the C library *)

(** [isspace] in the C locale. *)
Definition isspace (c : Z) : bool := (c =? 32) || ((9 <=? c) && (c <=? 13)).

Fixpoint skip_space (s : list Z) : list Z :=
  match s with
  | c :: s' => if isspace c then skip_space s' else s
  | [] => []
  end.

(** The digits of base at most ten at the front of [s]: the number, the rest,
    and whether there were any. *)
Fixpoint strtol_digits (base : Z) (s : list Z) (acc : Z) (any : bool) : Z * list Z * bool :=
  match s with
  | c :: s' =>
      let d := c - chr "0" in
      if (0 <=? d) && (d <? base) then strtol_digits base s' (acc * base + d) true else (acc, s, any)
  | [] => (acc, s, any)
  end.

Definition LONG_MAX : Z := 2 ^ 63 - 1.
Definition LONG_MIN : Z := - 2 ^ 63.

(** [strtol(s, &end, base)]: the value, [end], and whether errno is set. *)
Definition strtol (s : list Z) (base : Z) : Z * list Z * bool :=
  let s1 := skip_space s in
  let '(neg, s2) := match s1 with
                    | c :: s' => if c =? chr "-" then (true, s') else if c =? chr "+" then (false, s') else (false, s1)
                    | [] => (false, s1)
                    end in
  let '(v, e, any) := strtol_digits base s2 0 false in
  let v := if neg : bool then - v else v in
  if negb any then (0, s, false)
  else if LONG_MAX <? v then (LONG_MAX, e, true)
  else if v <? LONG_MIN then (LONG_MIN, e, true)
  else (v, e, false).

(** [atoi]; [None] when the value does not fit an int, which C leaves open. *)
Definition libc_atoi (s : list Z) : option Z :=
  let '(v, _, _) := strtol s 10 in
  if (- 2 ^ 31 <=? v) && (v <? 2 ^ 31) then Some v else None.

Section messages.
Context {W : Type} {PX : Posix W}.

(** [fprintf(stderr, "prog: %s: %s\n", path, strerror(errno));] *)
Definition err_path (prog path : list Z) : M W unit :=
  e <- px_errno ;;
  px_stderr (prog ++ bytes ": " ++ path ++ bytes ": " ++ px_strerror e ++ [10]).

Definition perror (msg : list Z) : M W unit :=
  e <- px_errno ;;
  px_stderr (msg ++ bytes ": " ++ px_strerror e ++ [10]).

End messages.
