(* ===== verification/Text.v ===== *)
(** * cat, cp, mv, wc, head, tail and grep of Project 2
    (custom_cat.c, custom_cp.c, custom_mv.c, custom_wc.c, custom_head.c,
    custom_tail.c, custom_grep.c)

    The first three copy a descriptor to another one with the same loop, and
    what the loop copies is proved here; the others read a text by chunks or
    lines.  Buffers are lists; the loops have a bound on the number of calls,
    which the theorems show to be enough. *)

From S2P Require Import Prelude CString Console Ulib Posix.

Section copy.
Context {W : Type} {PX : Posix W}.

Definition BUF_SIZE : nat := 4096.

(** ** The loop *)

(** [while (off < n) { w = write(fd, buf + off, n - off); ... off += w; }]:
    whether every write succeeded. *)
Fixpoint write_all (k : nat) (fd : Z) (bs : list Z) : M W bool :=
  match bs with
  | [] => ret true
  | _ =>
      match k with
      | O => undef "write: loop bound"
      | S k' =>
          w <- io_write fd bs ;;
          if w <? 0 then ret false
          else write_all k' fd (drop (Z.to_nat w) bs)
      end
  end.

(** How the copy ended. *)
Inductive pumped := PEof | PReadErr | PWriteErr.

(** [while ((n = read(src, buf, BUF_SIZE)) > 0)] *)
Fixpoint pump (k : nat) (src dst : Z) : M W pumped :=
  match k with
  | O => undef "read: loop bound"
  | S k' =>
      nb <- io_read src BUF_SIZE ;;
      let '(n, bs) := nb in
      if 0 <? n then
        ok <- write_all (length bs) dst bs ;;
        if ok then pump k' src dst else ret PWriteErr
      else ret (if n <? 0 then PReadErr else PEof)
  end.

(** ** custom_cat *)

Definition cat_dump (k : nat) (path : list Z) : M W Z :=
  fd <- io_open path PX_RDONLY 0 ;;
  if fd <? 0 then err_path (bytes "custom_cat") path ;; ret 1
  else
    r <- pump k fd 1 ;;
    match r with
    | PWriteErr => perror (bytes "custom_cat: write") ;; io_close fd ;; ret 1
    | PReadErr => perror (bytes "custom_cat: read") ;; io_close fd ;; ret 0
    | PEof => io_close fd ;; ret 0
    end.

(** [for (...) rc |= dump(argv[i]);] *)
Fixpoint cat_files (k : nat) (paths : list (list Z)) (rc : Z) : M W Z :=
  match paths with
  | [] => ret rc
  | p :: paths' => r <- cat_dump k p ;; cat_files k paths' (Z.lor rc r)
  end.

Definition cat_main (k : nat) (args : list (list Z)) : M W Z :=
  match args with
  | [] => px_stderr (bytes "Usage: custom_cat <file> [file ...]" ++ [10]) ;; ret 1
  | _ => cat_files k args 0
  end.

(** ** custom_cp *)

(** [mode_t mode = 0644; if (fstat(src, &st) == 0) mode = st.st_mode & 0777;] *)
Definition copy_mode (src : Z) : M W Z :=
  st <- px_fstat src ;;
  ret (match st with Some m => Z.land m 0x1ff | None => 0x1a4 end).

Definition arrow (l : string) (a b : list Z) : list Z :=
  bytes l ++ bytes " '" ++ a ++ bytes "' -> '" ++ b ++ bytes "'" ++ [10].

Definition cp_main (k : nat) (args : list (list Z)) : M W Z :=
  match args with
  | [a; b] =>
      src <- io_open a PX_RDONLY 0 ;;
      if src <? 0 then err_path (bytes "custom_cp") a ;; ret 1
      else
        mode <- copy_mode src ;;
        dst <- io_open b (Z.lor (Z.lor PX_WRONLY PX_CREAT) PX_TRUNC) mode ;;
        if dst <? 0 then err_path (bytes "custom_cp") b ;; io_close src ;; ret 1
        else
          r <- pump k src dst ;;
          match r with
          | PWriteErr => perror (bytes "custom_cp: write") ;; io_close src ;; io_close dst ;; ret 1
          | _ =>
              (match r with PReadErr => perror (bytes "custom_cp: read") | _ => ret tt end) ;;
              io_close src ;;
              io_close dst ;;
              px_stdout (arrow "Copied" a b) ;;
              ret 0
          end
  | _ => px_stderr (bytes "Usage: custom_cp <source> <destination>" ++ [10]) ;; ret 1
  end.

(** ** custom_mv *)

Definition copy_then_unlink (k : nat) (a b : list Z) : M W Z :=
  src <- io_open a PX_RDONLY 0 ;;
  if src <? 0 then perror a ;; ret 1
  else
    mode <- copy_mode src ;;
    dst <- io_open b (Z.lor (Z.lor PX_WRONLY PX_CREAT) PX_TRUNC) mode ;;
    if dst <? 0 then perror b ;; io_close src ;; ret 1
    else
      r <- pump k src dst ;;
      match r with
      | PWriteErr => perror (bytes "write") ;; io_close src ;; io_close dst ;; ret 1
      | _ =>
          io_close src ;;
          io_close dst ;;
          u <- px_unlink a ;;
          if u <? 0 then perror (bytes "unlink") ;; ret 1 else ret 0
      end.

Definition mv_main (k : nat) (args : list (list Z)) : M W Z :=
  match args with
  | [a; b] =>
      r <- px_rename a b ;;
      if r =? 0 then px_stdout (arrow "Moved" a b) ;; ret 0
      else
        e <- px_errno ;;
        if e =? EXDEV then
          c <- copy_then_unlink k a b ;;
          if c =? 0 then px_stdout (arrow "Moved (cross-device)" a b) ;; ret 0 else ret 1
        else px_stderr (bytes "custom_mv: " ++ px_strerror e ++ [10]) ;; ret 1
  | _ => px_stderr (bytes "Usage: custom_mv <source> <destination>" ++ [10]) ;; ret 1
  end.

(** ** What the loop copies *)

Section streams.
Context (src dst : Z) (rest out : W -> list Z) (St : Stream src dst rest out).

Lemma write_all_run k : forall bs w, (length bs <= k)%nat ->
  exists w', write_all k dst bs w = Ret true w' /\ out w' = out w ++ bs /\ rest w' = rest w.
Proof using St.
  induction k as [|k IH]; intros bs w Hk; destruct bs as [|b bs]; try (cbn in Hk; lia);
    try (exists w; by rewrite app_nil_r).
  cbn [write_all]. destruct (st_write _ _ _ _ St (b :: bs) w ltac:(done)) as (n & w1 & Hw & Hn & Ho & Hr).
  rewrite (bind_ret_l _ _ _ _ _ Hw), (proj2 (Z.ltb_ge _ 0)), Nat2Z.id by lia.
  destruct (IH (drop n (b :: bs)) w1) as (w2 & Hrun & Ho2 & Hr2); [rewrite length_drop; lia|].
  exists w2. split; [done|]. rewrite Ho2, Ho, <- app_assoc, take_drop. split; [done|congruence].
Qed.

(** The whole input arrives at the output, in spite of short reads and writes. *)
Lemma pump_run k : forall w, (length (rest w) < k)%nat ->
  exists w', pump k src dst w = Ret PEof w' /\ out w' = out w ++ rest w /\ rest w' = [].
Proof using St.
  induction k as [|k IH]; intros w Hk; [lia|]. cbn [pump].
  destruct (st_read _ _ _ _ St BUF_SIZE w) as (n & w1 & Hrd & Hn1 & Hn2 & Hpos & Hr & Ho); [unfold BUF_SIZE; lia|].
  rewrite (bind_ret_l _ _ _ _ _ Hrd). destruct (rest w) as [|c d] eqn:Ew.
  - assert (n = 0%nat) as -> by (cbn in Hn2; lia). exists w1. split; [done|]. rewrite Ho, app_nil_r. split; [done|]. by rewrite Hr.
  - rewrite <- Ew in *. specialize (Hpos ltac:(by rewrite Ew)). rewrite (proj2 (Z.ltb_lt 0 _)) by lia.
    destruct (write_all_run (length (take n (rest w))) (take n (rest w)) w1 ltac:(done)) as (w2 & Hw & Ho2 & Hr2).
    rewrite (bind_ret_l _ _ _ _ _ Hw). destruct (IH w2) as (w3 & Hrun & Ho3 & Hr3).
    { rewrite Hr2, Hr, length_drop. lia. }
    exists w3. split; [done|]. split; [|done]. rewrite Ho3, Ho2, Hr2, Hr, Ho, <- app_assoc, take_drop. done.
Qed.

End streams.

End copy.

(** * wc, head, tail and grep (custom_wc.c, custom_head.c, custom_tail.c, custom_grep.c)

    Counters are unbounded except where the code indexes with them; the loops
    over input have a bound on the number of reads. *)

(** The bytes that printf prints for a decimal. *)
Definition dec_bytes (n : Z) : list Z :=
  if n <? 0 then chr "-" :: printint_loop 20 (- n) 10 [] else printint_loop 20 n 10 [].

(** ** custom_wc *)

Record counts := mk_counts { wc_lines : Z; wc_words : Z; wc_chars : Z; wc_in_word : bool }.

(** The body of the loop over the characters. *)
Definition wc_char (n : counts) (c : Z) : counts :=
  let lines := if c =? 10 then wc_lines n + 1 else wc_lines n in
  let chars := wc_chars n + 1 in
  if isspace c then mk_counts lines (wc_words n) chars false
  else if negb (wc_in_word n) then mk_counts lines (wc_words n + 1) chars true
  else mk_counts lines (wc_words n) chars (wc_in_word n).

Definition wc_count (data : list Z) : counts := fold_left wc_char data (mk_counts 0 0 0 false).

(** ** custom_tail *)

Definition MAX_LINE_LEN : nat := 4096.

(** The circular buffer of saved lines, the number of lines so far, and the
    line being read. *)
Record tailst := mk_tailst { t_circ : list (option (list Z)); t_count : Z; t_line : list Z }.

(** [circ[count % keep_lines] = strdup(temp_line); count++; t_len = 0;] with
    the copy that strdup returns, or a null pointer. *)
Definition tail_save (keep : Z) (t : tailst) (copy : option (list Z)) : tailst :=
  mk_tailst (<[Z.to_nat (t_count t mod keep) := copy]> (t_circ t)) (t_count t + 1) [].

(** The lines that are printed, in order. *)
Definition tail_saved (keep : Z) (t : tailst) : list (option (list Z)) :=
  let start := if keep <? t_count t then t_count t mod keep else 0 in
  let limit := if keep <? t_count t then keep else t_count t in
  map (fun i => nth (Z.to_nat ((start + i) mod keep)) (t_circ t) None) (seqZ 0 limit).

Section text.
Context {W : Type} {PX : Posix W}.

Definition wc_main (args : list (list Z)) : M W Z :=
  match args with
  | [path] =>
      o <- px_contents path ;;
      match o with
      | None => err_path (bytes "custom_wc") path ;; ret 1
      | Some data =>
          let n := wc_count data in
          px_stdout (bytes "  " ++ dec_bytes (wc_lines n) ++ bytes " " ++ dec_bytes (wc_words n) ++ bytes " "
                       ++ dec_bytes (wc_chars n) ++ bytes " " ++ path ++ [10]) ;;
          ret 0
      end
  | _ => px_stderr (bytes "Usage: custom_wc <file>" ++ [10]) ;; ret 1
  end.

(** [strdup] copies up to the first null byte. *)
Definition strdup (s : list Z) : M W (option (list Z)) :=
  ok <- px_alloc (Z.of_nat (length (cstr s)) + 1) ;;
  ret (if ok : bool then Some (cstr s) else None).

(** The body of the loop over a buffer. *)
Definition tail_byte (keep : Z) (t : tailst) (c : Z) : M W tailst :=
  let line := t_line t ++ [c] in
  if (c =? 10) || (length line =? MAX_LINE_LEN - 1)%nat then
    copy <- strdup line ;;
    ret (tail_save keep t copy)
  else ret (mk_tailst (t_circ t) (t_count t) line).

Fixpoint tail_bytes (keep : Z) (bs : list Z) (t : tailst) : M W tailst :=
  match bs with
  | [] => ret t
  | c :: bs' => t <- tail_byte keep t c ;; tail_bytes keep bs' t
  end.

(** A trailing line without a newline. *)
Definition tail_last (keep : Z) (t : tailst) : M W tailst :=
  if (0 <? length (t_line t))%nat then
    copy <- strdup (t_line t) ;;
    ret (tail_save keep t copy)
  else ret t.

(** [while ((n = read(fd, buf, BUF_SIZE)) > 0)] *)
Fixpoint tail_loop (k : nat) (fd keep : Z) (t : tailst) : M W (Z * tailst) :=
  match k with
  | O => undef "tail: loop bound"
  | S k' =>
      nb <- io_read fd BUF_SIZE ;;
      let '(n, bs) := nb in
      if 0 <? n then t <- tail_bytes keep bs t ;; tail_loop k' fd keep t else ret (n, t)
  end.

(** The loop that prints the saved lines; a failed write is given up. *)
Fixpoint tail_print (ls : list (option (list Z))) : M W unit :=
  match ls with
  | [] => ret tt
  | o :: ls' =>
      match o with
      | Some l => write_all (length l) 1 l ;; ret tt
      | None => ret tt
      end ;;
      tail_print ls'
  end.

Definition dump_tail (k : nat) (path : list Z) (keep : Z) : M W Z :=
  fd <- io_open path PX_RDONLY 0 ;;
  if fd <? 0 then err_path (bytes "custom_tail") path ;; ret 1
  else
    ok <- px_alloc (keep * 8) ;;
    if negb ok then perror (bytes "custom_tail: calloc") ;; io_close fd ;; ret 1
    else
      r <- tail_loop k fd keep (mk_tailst (replicate (Z.to_nat keep) None) 0 []) ;;
      let '(n, t) := r in
      when (n <? 0) (perror (bytes "custom_tail: read")) ;;
      t <- tail_last keep t ;;
      tail_print (tail_saved keep t) ;;
      io_close fd ;;
      ret 0.

Definition tail_usage : M W Z :=
  px_stderr (bytes "Usage: custom_tail [-n N] <file>" ++ [10]) ;; ret 1.

(** [-n] is recognized as the first argument only. *)
Definition tail_main (k : nat) (args : list (list Z)) : M W Z :=
  match args with
  | [] => tail_usage
  | a :: rest =>
      if strcmp a (bytes "-n") =? 0 then
        match rest with
        | num :: path :: _ =>
            match libc_atoi num with
            | Some n => dump_tail k path (if n <=? 0 then 10 else n)
            | None => undef "atoi: overflow"
            end
        | _ => tail_usage
        end
      else dump_tail k a 10
  end.

(** ** custom_head *)

(** The loop over a buffer: the lines printed so far and the bytes collected;
    it stops when [nlines] lines are out. *)
Fixpoint head_bytes (nlines : Z) (bs : list Z) (printed : Z) (acc : list Z) : M W (Z * list Z) :=
  match bs with
  | [] => ret (printed, acc)
  | c :: bs' =>
      if nlines <=? printed then ret (printed, acc)
      else
        let acc := acc ++ [c] in
        pa <- (if c =? 10 then io_write 1 acc ;; ret (printed + 1, []) else ret (printed, acc)) ;;
        let '(printed, acc) := pa in
        acc <- (if (length acc =? BUF_SIZE - 1)%nat then io_write 1 acc ;; ret [] else ret acc) ;;
        head_bytes nlines bs' printed acc
  end.

(** [while (lines_printed < nlines)]: whether the reads succeeded, and the
    bytes left over. *)
Fixpoint head_loop (k : nat) (fd nlines printed : Z) (acc : list Z) : M W (bool * list Z) :=
  if nlines <=? printed then ret (true, acc)
  else
    match k with
    | O => undef "head: loop bound"
    | S k' =>
        nb <- io_read fd BUF_SIZE ;;
        let '(n, bs) := nb in
        if n <? 0 then ret (false, acc)
        else if n =? 0 then ret (true, acc)
        else
          pa <- head_bytes nlines bs printed acc ;;
          head_loop k' fd nlines pa.1 pa.2
    end.

Definition head_file (k : nat) (path : list Z) (nlines : Z) : M W Z :=
  fd <- io_open path PX_RDONLY 0 ;;
  if fd <? 0 then err_path (bytes "custom_head") path ;; ret 1
  else
    r <- head_loop k fd nlines 0 [] ;;
    let '(ok, acc) := r in
    if negb ok then perror (bytes "custom_head: read") ;; io_close fd ;; ret 1
    else
      when (0 <? length acc)%nat (io_write 1 acc ;; ret tt) ;;
      io_close fd ;;
      ret 0.

(** The arguments: the number of lines and the last path. *)
Fixpoint head_args (args : list (list Z)) (n : Z) (path : option (list Z)) : M W (option (Z * option (list Z))) :=
  match args with
  | [] => ret (Some (n, path))
  | a :: args' =>
      if strcmp a (bytes "-n") =? 0 then
        match args' with
        | [] => px_stderr (bytes "custom_head: option -n requires an argument" ++ [10]) ;; ret None
        | num :: args'' =>
            match libc_atoi num with
            | None => undef "atoi: overflow"
            | Some v =>
                if v <=? 0 then
                  px_stderr (bytes "custom_head: invalid line count '" ++ num ++ bytes "'" ++ [10]) ;; ret None
                else head_args args'' v path
            end
        end
      else head_args args' n (Some a)
  end.

Definition head_main (k : nat) (args : list (list Z)) : M W Z :=
  r <- head_args args 10 None ;;
  match r with
  | None => ret 1
  | Some (_, None) => px_stderr (bytes "Usage: custom_head [-n N] <file>" ++ [10]) ;; ret 1
  | Some (n, Some path) => head_file k path n
  end.

(** ** custom_grep *)

(** [fgets(line, MAX_LINE, fp)] on the bytes that are left: the line, with its
    newline, and the rest; at most [k] bytes. *)
Fixpoint fgets (k : nat) (data : list Z) : list Z * list Z :=
  match k, data with
  | S k', c :: data' => if c =? 10 then ([c], data') else let '(l, r) := fgets k' data' in (c :: l, r)
  | _, _ => ([], data)
  end.

(** [strstr(line, pattern) != NULL] *)
Fixpoint prefix_of (p s : list Z) : bool :=
  match p, s with
  | [], _ => true
  | a :: p', b :: s' => (a =? b) && prefix_of p' s'
  | _, [] => false
  end.

Fixpoint strstr (s p : list Z) : bool :=
  prefix_of p s || match s with [] => false | _ :: s' => strstr s' p end.

(** The loop over the lines: the bytes printed, and the number of matches.
    fgets fails when nothing is left; [k] bounds the number of calls. *)
Fixpoint pgrep_loop (k : nat) (pattern data : list Z) (lineno matches : Z) : M W Z :=
  match data with
  | [] => ret matches
  | _ =>
      match k with
      | O => undef "grep: loop bound"
      | S k' =>
          let '(line, rest) := fgets 4095 data in
          let lineno := lineno + 1 in
          if strstr (cstr line) pattern then
            px_stdout (dec_bytes lineno ++ bytes ": " ++ cstr line) ;;
            pgrep_loop k' pattern rest lineno (matches + 1)
          else pgrep_loop k' pattern rest lineno matches
      end
  end.

Definition pgrep_main (args : list (list Z)) : M W Z :=
  match args with
  | [pattern; path] =>
      o <- px_contents path ;;
      match o with
      | None => err_path (bytes "custom_grep") path ;; ret 1
      | Some data =>
          matches <- pgrep_loop (length data) pattern data 0 0 ;;
          ret (if 0 <? matches then 0 else 1)
      end
  | _ => px_stderr (bytes "Usage: custom_grep <pattern> <file>" ++ [10]) ;; ret 1
  end.

End text.
