(* ===== verification/Sort.v ===== *)
(** * sort (custom_sort.c)

    The file is read into a buffer, the buffer is cut into C strings in place,
    and the library's qsort orders the pointers to them.  The buffer behind
    the last byte that was read is not initialized: a string that runs into it
    is undefined. *)

From S2P Require Import Prelude CString Console Ulib Posix.

(** ** Comparators *)

Definition cmp_alpha (opt_reverse : bool) (a b : list Z) : Z :=
  let result := strcmp a b in
  if opt_reverse then - result else result.

Definition cmp_numeric (opt_reverse : bool) (a b : list Z) : Z :=
  let la := (strtol a 10).1.1 in
  let lb := (strtol b 10).1.1 in
  let result := (if lb <? la then 1 else 0) - (if la <? lb then 1 else 0) in
  if opt_reverse then - result else result.

(** ** Lines *)

(** [data[i] = '\0'] for every newline. *)
Definition zero_newlines (data : list Z) : list Z := map (fun c => if c =? 10 then 0 else c) data.

(** The string at an offset of the buffer, if it ends inside. *)
Definition line_at (buf : list Z) (o : nat) : option (list Z) :=
  if bool_decide (0 ∈ drop o buf) then Some (cstr (drop o buf)) else None.

Record options := mk_options { opt_reverse : bool; opt_numeric : bool; opt_path : option (list Z) }.

(** The loop over the arguments. *)
Fixpoint sort_args (args : list (list Z)) (o : options) : options :=
  match args with
  | [] => o
  | a :: args' =>
      sort_args args'
        (if strcmp a (bytes "-r") =? 0 then mk_options true (opt_numeric o) (opt_path o)
         else if strcmp a (bytes "-n") =? 0 then mk_options (opt_reverse o) true (opt_path o)
         else mk_options (opt_reverse o) (opt_numeric o) (Some a))
  end.

Section sort.
Context {W : Type} {PX : Posix W}.

(** [void qsort(void *base, size_t nmemb, size_t size, int ( *compar)(...))],
    on the strings that the pointers stand for. *)
Variable qsort : (list Z -> list Z -> Z) -> list (list Z) -> list (list Z).

(** [while ((n = read(fd, data + len, cap - len)) > 0)] of read_file *)
Fixpoint read_loop (k : nat) (fd : Z) (cap : nat) (data : list Z) : M W (option (list Z)) :=
  match k with
  | O => undef "sort: loop bound"
  | S k' =>
      nb <- io_read fd (cap - length data) ;;
      let '(n, bs) := nb in
      if 0 <? n then
        let data := data ++ bs in
        if (length data =? cap)%nat then
          ok <- px_alloc (Z.of_nat (cap * 2)) ;;
          if ok : bool then read_loop k' fd (cap * 2) data
          else perror (bytes "custom_sort: realloc") ;; io_close fd ;; ret None
        else read_loop k' fd cap data
      else if n <? 0 then perror (bytes "custom_sort: read") ;; io_close fd ;; ret None
      else io_close fd ;; ret (Some data)
  end.

Definition read_file (k : nat) (path : list Z) : M W (option (list Z)) :=
  fd <- io_open path PX_RDONLY 0 ;;
  if fd <? 0 then err_path (bytes "custom_sort") path ;; ret None
  else
    ok <- px_alloc 4096 ;;
    if ok : bool then read_loop k fd 4096 []
    else perror (bytes "custom_sort: malloc") ;; io_close fd ;; ret None.

(** The loop that collects the starts of the lines: [i] is the index of the
    first byte of [data], [count] and [cap] the use and size of the array. *)
Fixpoint line_starts (data : list Z) (i : nat) (count cap : Z) : M W (option (list nat)) :=
  match data with
  | [] => ret (Some [])
  | c :: d =>
      match d with
      | _ :: _ =>
          if c =? 10 then
            ok <- (if count =? cap then px_alloc (cap * 2 * 8) else ret true) ;;
            if ok : bool then
              more <- line_starts d (S i) (count + 1) (if count =? cap then cap * 2 else cap) ;;
              ret (match more with Some l => Some (S i :: l) | None => None end)
            else perror (bytes "custom_sort: realloc") ;; ret None
          else line_starts d (S i) count cap
      | [] => ret (Some [])
      end
  end.

(** The strings of the lines; one that is not terminated is undefined. *)
Fixpoint line_strings (buf : list Z) (starts : list nat) : M W (list (list Z)) :=
  match starts with
  | [] => ret []
  | o :: starts' =>
      match line_at buf o with
      | Some l => ls <- line_strings buf starts' ;; ret (l :: ls)
      | None => undef "string runs past the data"
      end
  end.

Fixpoint print_lines (ls : list (list Z)) : M W unit :=
  match ls with
  | [] => ret tt
  | l :: ls' => px_stdout (l ++ [10]) ;; print_lines ls'
  end.

Definition sort_data (o : options) (data : list Z) : M W Z :=
  match data with
  | [] => ret 0
  | _ =>
      ok <- px_alloc (256 * 8) ;;
      if negb ok then perror (bytes "custom_sort: malloc") ;; ret 1
      else
        st <- line_starts data 0 1 256 ;;
        match st with
        | None => ret 1
        | Some starts =>
            ls <- line_strings (zero_newlines data) (0%nat :: starts) ;;
            let cmp := if opt_numeric o then cmp_numeric (opt_reverse o) else cmp_alpha (opt_reverse o) in
            print_lines (qsort cmp ls) ;;
            ret 0
        end
  end.

Definition sort_main (k : nat) (args : list (list Z)) : M W Z :=
  let o := sort_args args (mk_options false false None) in
  match opt_path o with
  | None => px_stderr (bytes "Usage: custom_sort [-r] [-n] <file>" ++ [10]) ;; ret 1
  | Some path =>
      d <- read_file k path ;;
      match d with
      | None => ret 1
      | Some data => sort_data o data
      end
  end.

End sort.
