(* ===== verification/FileTools.v ===== *)
(** * rm, chmod, ls and touch (custom_rm.c, custom_chmod.c, custom_ls.c, custom_touch.c) *)

From S2P Require Import Prelude CString Console Ulib Posix Text.

(** [snprintf(buf, size, "%s/%s", dir, name)] cuts what does not fit. *)
Definition join_path (size : nat) (dir name : list Z) : list Z := take (size - 1) (dir ++ bytes "/" ++ name).

Definition RM_CHILD : nat := 2048.
Definition LS_FULL : nat := 1024.

(** ** Modes *)

(** [parse_mode]: the mode, [None] for -1. *)
Definition parse_mode (str : list Z) : option Z :=
  match str with
  | [] => None
  | _ =>
      let '(val, end_, erange) := strtol str 8 in
      if (erange : bool) || (0 <? length end_)%nat then None
      else if (val <? 0) || (0xfff <? val) then None
      else Some val
  end.

(** printf's [%04o] and [%8ld]. *)
Definition pad_left (c : Z) (n : nat) (s : list Z) : list Z := replicate (n - length s) c ++ s.

Definition oct4_bytes (n : Z) : list Z := pad_left (chr "0") 4 (printint_loop 12 n 8 []).

Definition is_dot (name : list Z) : bool := (strcmp name (bytes ".") =? 0) || (strcmp name (bytes "..") =? 0).

Section tools.
Context {W : Type} {PX : Posix W}.

(** ** custom_rm *)

(** The loop over the directory stream, with the recursive call. *)
Fixpoint rm_walk (remove : list Z -> M W Z) (d : Z) (path : list Z) (j : nat) (rc : Z) : M W Z :=
  match j with
  | O => undef "rm: loop bound"
  | S j' =>
      entry <- px_readdir d ;;
      match entry with
      | None => ret rc
      | Some name =>
          if is_dot name then rm_walk remove d path j' rc
          else
            r <- remove (join_path RM_CHILD path name) ;;
            rm_walk remove d path j' (Z.lor rc r)
      end
  end.

(** [k] bounds the depth of the calls and the iterations of a loop. *)
Fixpoint remove_recursive (k : nat) (path : list Z) : M W Z :=
  match k with
  | O => undef "rm: recursion bound"
  | S k' =>
      st <- px_lstat path ;;
      match st with
      | None => err_path (bytes "custom_rm") path ;; ret 1
      | Some (mode, _) =>
          if negb (S_ISDIR mode) then
            r <- px_unlink path ;;
            if r <? 0 then err_path (bytes "custom_rm") path ;; ret 1 else ret 0
          else
            dir <- px_opendir path ;;
            match dir with
            | None => err_path (bytes "custom_rm") path ;; ret 1
            | Some d =>
                rc <- rm_walk (remove_recursive k') d path k' 0 ;;
                px_closedir d ;;
                r <- px_rmdir path ;;
                if r <? 0 then err_path (bytes "custom_rm: rmdir") path ;; ret 1 else ret rc
            end
      end
  end.

(** The loop over the arguments: the flag and the last path. *)
Fixpoint flag_args (flag : string) (args : list (list Z)) (on : bool) (target : option (list Z)) : bool * option (list Z) :=
  match args with
  | [] => (on, target)
  | a :: args' =>
      if strcmp a (bytes flag) =? 0 then flag_args flag args' true target else flag_args flag args' on (Some a)
  end.

Definition rm_main (k : nat) (args : list (list Z)) : M W Z :=
  let '(recursive, target) := flag_args "-r" args false None in
  match target with
  | None => px_stderr (bytes "Usage: custom_rm [-r] <path>" ++ [10]) ;; ret 1
  | Some t =>
      if recursive : bool then remove_recursive k t
      else
        r <- px_unlink t ;;
        if r <? 0 then err_path (bytes "custom_rm") t ;; ret 1 else ret 0
  end.

(** ** custom_chmod *)

Definition chmod_usage (prog : list Z) : M W unit :=
  px_stderr (bytes "Usage: " ++ prog ++ bytes " <mode> <file> [file ...]" ++ [10]) ;;
  px_stderr (bytes "  <mode>  Octal permission (e.g. 755, 644, 400)" ++ [10]) ;;
  px_stderr ([10] ++ bytes "Examples:" ++ [10]) ;;
  px_stderr (bytes "  " ++ prog ++ bytes " 755 script.sh" ++ [10]) ;;
  px_stderr (bytes "  " ++ prog ++ bytes " 644 readme.txt notes.txt" ++ [10]).

Fixpoint chmod_files (mode : Z) (files : list (list Z)) (errors : Z) : M W Z :=
  match files with
  | [] => ret errors
  | f :: files' =>
      r <- px_chmod f mode ;;
      if r <? 0 then
        e <- px_errno ;;
        px_stderr (bytes "custom_chmod: cannot change permissions of '" ++ f ++ bytes "': " ++ px_strerror e ++ [10]) ;;
        chmod_files mode files' (errors + 1)
      else
        px_stdout (bytes "'" ++ f ++ bytes "' -> " ++ oct4_bytes mode ++ [10]) ;;
        chmod_files mode files' errors
  end.

(** [argv] with the program name. *)
Definition chmod_main (prog : list Z) (args : list (list Z)) : M W Z :=
  match args with
  | m :: _ :: _ =>
      match parse_mode m with
      | None => px_stderr (bytes "custom_chmod: invalid mode '" ++ m ++ bytes "'" ++ [10]) ;; ret 1
      | Some mode =>
          errors <- chmod_files mode (tail args) 0 ;;
          ret (if 0 <? errors then 1 else 0)
      end
  | _ => chmod_usage prog ;; ret 1
  end.

(** ** custom_ls *)

Definition type_char (mode : Z) : Z :=
  if S_ISDIR mode then chr "d"
  else if S_ISLNK mode then chr "l"
  else if S_ISCHR mode then chr "c"
  else if S_ISBLK mode then chr "b"
  else chr "-".

Definition print_long (dirpath name : list Z) : M W unit :=
  let full := join_path LS_FULL dirpath name in
  st <- px_stat full ;;
  match st with
  | None => perror full
  | Some (mode, size) =>
      px_stdout (type_char mode :: bytes "  " ++ pad_left 32 8 (dec_bytes size) ++ bytes "  " ++ name ++ [10])
  end.

(** [entry->d_name[0] == '.'] *)
Definition hidden (name : list Z) : bool := match name with c :: _ => c =? chr "." | [] => false end.

Fixpoint ls_loop (k : nat) (d : Z) (path : list Z) (long_format : bool) : M W unit :=
  match k with
  | O => undef "ls: loop bound"
  | S k' =>
      entry <- px_readdir d ;;
      match entry with
      | None => ret tt
      | Some name =>
          (if hidden name then ret tt
           else if long_format then print_long path name
           else px_stdout (name ++ bytes "  ")) ;;
          ls_loop k' d path long_format
      end
  end.

Definition ls_main (k : nat) (args : list (list Z)) : M W Z :=
  let '(long_format, target) := flag_args "-l" args false None in
  let path := match target with Some t => t | None => bytes "." end in
  dir <- px_opendir path ;;
  match dir with
  | None =>
      e <- px_errno ;;
      px_stderr (bytes "custom_ls: cannot open '" ++ path ++ bytes "': " ++ px_strerror e ++ [10]) ;;
      ret 1
  | Some d =>
      ls_loop k d path long_format ;;
      when (negb long_format) (px_stdout [10]) ;;
      px_closedir d ;;
      ret 0
  end.

(** ** custom_touch *)

Definition touch_main (args : list (list Z)) : M W Z :=
  match args with
  | [file_name] =>
      fd <- io_open file_name (Z.lor PX_CREAT PX_WRONLY) 0x1a4 ;;
      if fd <? 0 then perror (bytes "Error while creating the file") ;; ret 1
      else
        io_close fd ;;
        r <- px_utime file_name ;;
        if negb (r =? 0) then perror (bytes "Error while updating timestamps") ;; ret 1 else ret 0
  | _ => perror (bytes "Command should in the form 'touch <file_name>'") ;; ret 1
  end.

End tools.
