(* ===== verification/Myshell.v ===== *)
(** * The shell of the second project (custom_shell.c)

    The parent and the children are separate processes: [sh_fork] takes the
    code that the child runs, up to its exit status.  [sh_execvp] gives the
    exit status of the program that replaces the child, or fails. *)

From S2P Require Import Prelude CString Console Ulib Posix.

Class Shell (W : Type) : Type := {
  sh_posix :: Posix W;
  sh_fork : M W Z -> M W Z;
  sh_execvp : list (list Z) -> M W (option Z);
  sh_waitpid : Z -> M W unit;
  sh_pipe : M W (option (Z * Z));
  sh_sigint : bool -> M W unit;                (** signal(SIGINT, ...): ignored or default *)
  sh_chdir : list Z -> M W Z;
  sh_getcwd : nat -> M W (option (list Z));
  sh_getenv : list Z -> M W (option (list Z));
  sh_fgets : nat -> M W (option (list Z));     (** at most so many bytes of a line of the standard input *)
  sh_fflush : M W unit;
}.

Definition MAX_LINE : nat := 1024.
Definition MAX_TOKENS : nat := 64.
Definition PROMPT : list Z := bytes "myshell> ".

(** ** Tokens *)

(** The delimiters " \t\r\n". *)
Definition is_delim (c : Z) : bool := (c =? 32) || (c =? 9) || (c =? 13) || (c =? 10).

Fixpoint skip_delims (s : list Z) : list Z :=
  match s with
  | c :: s' => if is_delim c then skip_delims s' else s
  | [] => []
  end.

(** The token at the front and what follows the delimiter that ends it. *)
Fixpoint span_token (s : list Z) : list Z * list Z :=
  match s with
  | [] => ([], [])
  | c :: s' => if is_delim c then ([], s') else let '(t, r) := span_token s' in (c :: t, r)
  end.

(** [strtok]: the next token and the saved position. *)
Definition strtok (s : list Z) : option (list Z * list Z) :=
  match skip_delims s with
  | [] => None
  | s' => Some (span_token s')
  end.

(** [while (tok && count < MAX_TOKENS - 1)] *)
Fixpoint tokenize_loop (left : nat) (s : list Z) : list (list Z) :=
  match left with
  | O => []
  | S left' =>
      match strtok s with
      | None => []
      | Some (t, r) => t :: tokenize_loop left' r
      end
  end.

Definition tokenize (line : list Z) : list (list Z) := tokenize_loop (MAX_TOKENS - 1) line.

Definition is_tok (s : string) (t : list Z) : bool := strcmp t (bytes s) =? 0.

(** The index of the first bar. *)
Fixpoint find_pipe (tokens : list (list Z)) : option nat :=
  match tokens with
  | [] => None
  | t :: tokens' => if is_tok "|" t then Some 0%nat else option_map S (find_pipe tokens')
  end.

(** [for (; rm + 2 < n; rm++) tokens[rm] = tokens[rm + 2]; n -= 2;] *)
Definition remove_two (i : nat) (tokens : list (list Z)) : list (list Z) := take i tokens ++ drop (i + 2) tokens.

Inductive builtin := NotBuiltin | BuiltinDone | ShellExit.

Section shell.
Context {W : Type} {SH : Shell W}.

(** ** Redirections *)

(** [apply_redirections]: the tokens that are left, or the status the child
    exits with.  Every iteration takes at least one token out of sight. *)
Fixpoint apply_loop (k : nat) (i : nat) (tokens : list (list Z)) : M W (Z + list (list Z)) :=
  match tokens !! i with
  | None => ret (inr tokens)
  | Some t =>
      match k with
      | O => undef "shell: loop bound"
      | S k' =>
          if is_tok ">" t || is_tok ">>" t then
            match tokens !! (i + 1)%nat with
            | None => px_stderr (bytes "myshell: syntax error near '" ++ t ++ bytes "'" ++ [10]) ;; ret (inl 1)
            | Some f =>
                let flags := Z.lor (Z.lor PX_WRONLY PX_CREAT) (if is_tok ">>" t then PX_APPEND else PX_TRUNC) in
                fd <- io_open f flags 0x1a4 ;;
                if fd <? 0 then perror f ;; ret (inl 1)
                else
                  px_dup2 fd 1 ;;
                  io_close fd ;;
                  apply_loop k' i (remove_two i tokens)
            end
          else if is_tok "<" t then
            match tokens !! (i + 1)%nat with
            | None => px_stderr (bytes "myshell: syntax error near '<'" ++ [10]) ;; ret (inl 1)
            | Some f =>
                fd <- io_open f PX_RDONLY 0 ;;
                if fd <? 0 then perror f ;; ret (inl 1)
                else
                  px_dup2 fd 0 ;;
                  io_close fd ;;
                  apply_loop k' i (remove_two i tokens)
            end
          else apply_loop k' (S i) tokens
      end
  end.

Definition apply_redirections (tokens : list (list Z)) : M W (Z + list (list Z)) :=
  apply_loop (length tokens) 0 tokens.

(** ** Commands *)

(** The child from the redirections on.  With no token left the program name
    is a null pointer. *)
Definition exec_child (tokens : list (list Z)) : M W Z :=
  r <- apply_redirections tokens ;;
  match r with
  | inl status => ret status
  | inr [] => undef "execvp of a null pointer"
  | inr (t :: ts) =>
      s <- sh_execvp (t :: ts) ;;
      match s with
      | Some status => ret status
      | None =>
          e <- px_errno ;;
          px_stderr (bytes "myshell: " ++ t ++ bytes ": " ++ px_strerror e ++ [10]) ;;
          ret 127
      end
  end.

Definition launch_single (tokens : list (list Z)) : M W unit :=
  pid <- sh_fork (sh_sigint false ;; exec_child tokens) ;;
  if pid <? 0 then perror (bytes "fork") else sh_waitpid pid.

Definition launch_pipe (left right : list (list Z)) : M W unit :=
  p <- sh_pipe ;;
  match p with
  | None => perror (bytes "pipe")
  | Some (rd, wr) =>
      pid_left <- sh_fork (sh_sigint false ;; io_close rd ;; px_dup2 wr 1 ;; io_close wr ;; exec_child left) ;;
      if pid_left <? 0 then perror (bytes "fork")
      else
        pid_right <- sh_fork (sh_sigint false ;; io_close wr ;; px_dup2 rd 0 ;; io_close rd ;; exec_child right) ;;
        if pid_right <? 0 then perror (bytes "fork")
        else
          io_close rd ;;
          io_close wr ;;
          sh_waitpid pid_left ;;
          sh_waitpid pid_right
  end.

(** The arguments of echo, with a blank between them. *)
Fixpoint echo_args (args : list (list Z)) : list Z :=
  match args with
  | [] => []
  | [a] => a
  | a :: args' => a ++ bytes " " ++ echo_args args'
  end.

Definition help_text : list Z :=
  [10] ++ bytes "=== Custom Shell " ++ [226; 128; 148] ++ bytes " Available Commands ===" ++ [10; 10] ++
  bytes "Built-ins (run in the shell process itself):" ++ [10] ++
  bytes "  cd <dir>       Change working directory" ++ [10] ++
  bytes "  pwd            Print working directory" ++ [10] ++
  bytes "  echo <msg>     Print a message" ++ [10] ++
  bytes "  exit           Quit the shell" ++ [10] ++
  bytes "  help           Show this help" ++ [10; 10] ++
  bytes "Custom utilities:" ++ [10] ++
  bytes "  custom_ls   [-l] [dir]           List directory contents" ++ [10] ++
  bytes "  custom_cat  <file> [file ...]     Print files to stdout" ++ [10] ++
  bytes "  custom_grep <pattern> <file>      Search for pattern in file" ++ [10] ++
  bytes "  custom_wc   <file>                Count lines/words/chars" ++ [10] ++
  bytes "  custom_cp   <src> <dst>           Copy a file" ++ [10] ++
  bytes "  custom_mv   <src> <dst>           Move/rename a file" ++ [10] ++
  bytes "  custom_rm   [-r] <path>           Remove file or directory" ++ [10] ++
  bytes "  custom_tail [-n N] <file>         Print last N lines (default 10)" ++ [10] ++
  bytes "  custom_head [-n N] <file>         Print first N lines (default 10)" ++ [10] ++
  bytes "  custom_chmod <mode> <file>         Change file permissions (octal)" ++ [10] ++
  bytes "  custom_sort [-r] [-n] <file>      Sort lines (alpha, numeric, reverse)" ++ [10; 10] ++
  bytes "Shell features:" ++ [10] ++
  bytes "  cmd1 | cmd2                       Pipe output of cmd1 into cmd2" ++ [10] ++
  bytes "  cmd > file                        Redirect stdout to file" ++ [10] ++
  bytes "  cmd >> file                       Append stdout to file" ++ [10] ++
  bytes "  cmd < file                        Redirect stdin from file" ++ [10; 10].

Definition run_builtin (tokens : list (list Z)) : M W builtin :=
  match tokens with
  | [] => ret BuiltinDone
  | t :: args =>
      if is_tok "exit" t then px_stdout (bytes "Goodbye!" ++ [10]) ;; ret ShellExit
      else if is_tok "cd" t then
        home <- (match args with a :: _ => ret (Some a) | [] => sh_getenv (bytes "HOME") end) ;;
        r <- sh_chdir (match home with Some p => p | None => bytes "/" end) ;;
        when (negb (r =? 0)) (perror (bytes "cd")) ;;
        ret BuiltinDone
      else if is_tok "pwd" t then
        cwd <- sh_getcwd 1024 ;;
        match cwd with
        | Some d => px_stdout (d ++ [10])
        | None => perror (bytes "pwd")
        end ;;
        ret BuiltinDone
      else if is_tok "echo" t then px_stdout (echo_args args ++ [10]) ;; ret BuiltinDone
      else if is_tok "help" t then px_stdout help_text ;; ret BuiltinDone
      else ret NotBuiltin
  end.

(** ** The loop *)

(** What a line does; the result says whether the loop goes on. *)
Definition shell_line (line : list Z) : M W bool :=
  let tokens := tokenize (cstr line) in
  if (length tokens =? 0)%nat then ret true
  else
    b <- run_builtin tokens ;;
    match b with
    | ShellExit => ret false
    | BuiltinDone => ret true
    | NotBuiltin =>
        match find_pipe tokens with
        | Some pipe_pos =>
            let left := take pipe_pos tokens in
            let right := drop (pipe_pos + 1) tokens in
            if (length left =? 0)%nat || (length right =? 0)%nat then
              px_stderr (bytes "myshell: syntax error near '|'" ++ [10]) ;; ret true
            else launch_pipe left right ;; ret true
        | None => launch_single tokens ;; ret true
        end
    end.

(** [while (1)]; [k] bounds the number of lines. *)
Fixpoint shell_loop (k : nat) : M W Z :=
  match k with
  | O => undef "shell: line bound"
  | S k' =>
      px_stdout PROMPT ;;
      sh_fflush ;;
      l <- sh_fgets (MAX_LINE - 1) ;;
      match l with
      | None => px_stdout [10] ;; ret 0
      | Some line =>
          go <- shell_line line ;;
          if go : bool then shell_loop k' else ret 0
      end
  end.

Definition shell_main (k : nat) : M W Z :=
  sh_sigint true ;;
  px_stdout (bytes "==== Custom UNIX-like Shell (G19) ====" ++ [10]) ;;
  px_stdout (bytes "Type 'help' to see available commands, 'exit' to quit." ++ [10; 10]) ;;
  shell_loop k.

End shell.
