(* ===== verification/Bio.v ===== *)
(** * Sleep locks, the buffer cache and the memory disk
    (sleeplock.c, bio.c, memide.c)

    The buffers are a table and the list [lru] is the doubly linked list from
    [head.next] on.  The disk is what it held at boot and the writes since
    then, oldest first, so that every prefix of the writes is a disk a crash
    can leave behind.  A caller that finds a sleep lock taken goes to sleep
    ([Block]). *)

From S2P Require Import Prelude Mem KState Mmu Kalloc Vm File Proc.

(** The size of the disk image in blocks ([_binary_fs_img_size]/BSIZE). *)
Class Disk : Type := { disksize : Z }.

Section bio.
Context {LK : Linker} {FS : FsOps} {DK : Disk}.

(** ** Sleep locks (sleeplock.c) *)

(** A struct sleeplock inside another object: the spinlock that protects it,
    its address as a channel, and the fields [locked] and [pid]. *)
Record sleeplock : Type := mk_sleeplock {
  sl_lk : lockid;
  sl_chan : channel;
  sl_get : K (bool * Z);
  sl_set : bool -> Z -> K unit;
}.

Definition initsleeplock (lk : sleeplock) : K unit :=
  modify (fun s => set_held (filter (fun l => l <> sl_lk lk) (held s)) s) ;;
  sl_set lk false 0.

(** [while (lk->locked) sleep(lk, &lk->lk);] and the rest. *)
Definition acquiresleep_round (lk : sleeplock) : K unit :=
  x <- sl_get lk ;;
  if x.1 then sleep (sl_chan lk) (sl_lk lk)
  else
    me <- curproc ;;
    p <- proc_at me ;;
    sl_set lk true (p_pid p) ;;
    release (sl_lk lk).

Definition acquiresleep (lk : sleeplock) : K unit :=
  acquire (sl_lk lk) ;;
  acquiresleep_round lk.

Definition acquiresleep_resume (lk : sleeplock) : K unit :=
  sleep_resume (sl_lk lk) ;;
  acquiresleep_round lk.

Definition releasesleep (lk : sleeplock) : K unit :=
  acquire (sl_lk lk) ;;
  sl_set lk false 0 ;;
  wakeup (sl_chan lk) ;;
  release (sl_lk lk).

Definition holdingsleep (lk : sleeplock) : K bool :=
  acquire (sl_lk lk) ;;
  x <- sl_get lk ;;
  r <- (if x.1 then me <- curproc ;; p <- proc_at me ;; ret (x.2 =? p_pid p) else ret false) ;;
  release (sl_lk lk) ;;
  ret r.

(** ** Buffers *)

Definition B_VALID : Z := 2.
Definition B_DIRTY : Z := 4.
Definition BSIZE : Z := 512.

Definition buf_at (b : nat) : K buf := fun s =>
  match bufs s !! b with
  | Some x => Ret x s
  | None => Undef "buf out of range" s
  end.

Definition upd_buf (b : nat) (f : buf -> buf) : K unit :=
  modify (fun s => set_bufs (alter f b (bufs s)) s).

Definition buf_lock (b : nat) : sleeplock :=
  mk_sleeplock (LkBufSleep b) (ChBufLock b)
    (x <- buf_at b ;; ret (b_locked x, b_lkpid x))
    (fun l pid => upd_buf b (set_b_locked l) ;; upd_buf b (set_b_lkpid pid)).

(** [b->flags & f] *)
Definition has_flag (f : Z) (x : buf) : bool := negb (Z.land (b_flags x) f =? 0).

(** ** The memory disk (memide.c) *)

(** The blocks after the writes [ws]. *)
Definition disk_after (d : Z -> list Z) (ws : list (Z * list Z)) : Z -> list Z :=
  foldl (fun d w => fun b => if b =? w.1 then w.2 else d b) d ws.

Definition disk (s : kstate) : Z -> list Z := disk_after (disk0 s) (writes s).

(** Sync buf with disk. *)
Definition iderw (b : nat) : K unit :=
  h <- holdingsleep (buf_lock b) ;;
  if negb h then panic "iderw: buf not locked"
  else
    x <- buf_at b ;;
    if Z.land (b_flags x) (Z.lor B_VALID B_DIRTY) =? B_VALID then panic "iderw: nothing to do"
    else if negb (b_dev x =? 1) then panic "iderw: request not for disk 1"
    else if disksize <=? b_blockno x then panic "iderw: block out of range"
    else
      (if has_flag B_DIRTY x then
         upd_buf b (fun x => set_b_flags (Z.land (b_flags x) (Z.lnot B_DIRTY)) x) ;;
         modify (fun s => set_writes (writes s ++ [(b_blockno x, b_data x)]) s)
       else
         d <- gets disk ;;
         upd_buf b (set_b_data (d (b_blockno x)))) ;;
      upd_buf b (fun x => set_b_flags (Z.lor (b_flags x) B_VALID) x).

(** ** The buffer cache (bio.c) *)

(** [for(b = bcache.buf; b < bcache.buf+NBUF; b++)]: each buffer is pushed in
    front of the list. *)
Fixpoint binit_loop (bs : list nat) : K unit :=
  match bs with
  | [] => ret tt
  | b :: bs' =>
      initsleeplock (buf_lock b) ;;
      modify (fun s => set_lru (b :: lru s) s) ;;
      binit_loop bs'
  end.

Definition binit : K unit :=
  modify (fun s => set_held (filter (fun l => l <> LkBcache) (held s)) s) ;;
  modify (set_lru []) ;;
  binit_loop (seq 0 NBUF).

(** The first buffer of the list that satisfies the test. *)
Fixpoint find_buf (test : buf -> bool) (l : list nat) (bs : list buf) : option nat :=
  match l with
  | [] => None
  | b :: l' => if from_option test false (bs !! b) then Some b else find_buf test l' bs
  end.

Definition bget (dev blockno : Z) : K nat :=
  acquire LkBcache ;;
  l <- gets lru ;;
  bs <- gets bufs ;;
  (* Is the block already cached? *)
  match find_buf (fun x => (b_dev x =? dev) && (b_blockno x =? blockno)) l bs with
  | Some b =>
      upd_buf b (fun x => set_b_refcnt (u32 (b_refcnt x + 1)) x) ;;
      release LkBcache ;;
      acquiresleep (buf_lock b) ;;
      ret b
  | None =>
      (* Not cached; recycle an unused buffer. *)
      match find_buf (fun x => (b_refcnt x =? 0) && negb (has_flag B_DIRTY x)) (rev l) bs with
      | Some b =>
          upd_buf b (set_b_dev dev) ;;
          upd_buf b (set_b_blockno blockno) ;;
          upd_buf b (set_b_flags 0) ;;
          upd_buf b (set_b_refcnt 1) ;;
          release LkBcache ;;
          acquiresleep (buf_lock b) ;;
          ret b
      | None => panic "bget: no buffers"
      end
  end.

(** Return a locked buf with the contents of the indicated block. *)
Definition bread (dev blockno : Z) : K nat :=
  b <- bget dev blockno ;;
  x <- buf_at b ;;
  when (negb (has_flag B_VALID x)) (iderw b) ;;
  ret b.

(** Write b's contents to disk.  Must be locked. *)
Definition bwrite (b : nat) : K unit :=
  h <- holdingsleep (buf_lock b) ;;
  if negb h then panic "bwrite"
  else
    upd_buf b (fun x => set_b_flags (Z.lor (b_flags x) B_DIRTY) x) ;;
    iderw b.

(** Release a locked buffer.  Move to the head of the MRU list. *)
Definition brelse (b : nat) : K unit :=
  h <- holdingsleep (buf_lock b) ;;
  if negb h then panic "brelse"
  else
    releasesleep (buf_lock b) ;;
    acquire LkBcache ;;
    upd_buf b (fun x => set_b_refcnt (u32 (b_refcnt x - 1)) x) ;;
    x <- buf_at b ;;
    when (b_refcnt x =? 0) (modify (fun s => set_lru (b :: filter (fun c => c <> b) (lru s)) s)) ;;
    release LkBcache.

End bio.
