(* ===== verification/Layout.v ===== *)
(** * The on-disk format (fs.h)

    The bytes of a block as a list, the 16- and 32-bit fields of the
    structures the C code overlays on them, and the structures: super block,
    disk inode and directory entry.  A field can be read back after it was
    written, and a write leaves the other fields alone. *)

From S2P Require Import Prelude KState.

(** ** Fields *)

Definition get16 (d : list Z) (o : nat) : Z := u8 (nth o d 0) + 2 ^ 8 * u8 (nth (o + 1) d 0).

Definition get32 (d : list Z) (o : nat) : Z :=
  u8 (nth o d 0) + 2 ^ 8 * u8 (nth (o + 1) d 0) + 2 ^ 16 * u8 (nth (o + 2) d 0)
  + 2 ^ 24 * u8 (nth (o + 3) d 0).

(** [bs] over the bytes from [o] on. *)
Definition splice (d : list Z) (o : nat) (bs : list Z) : list Z :=
  take o d ++ bs ++ drop (o + length bs) d.

Definition le16 (v : Z) : list Z := [v mod 256; (v / 2 ^ 8) mod 256].
Definition le32 (v : Z) : list Z :=
  [v mod 256; (v / 2 ^ 8) mod 256; (v / 2 ^ 16) mod 256; (v / 2 ^ 24) mod 256].

Definition put16 (d : list Z) (o : nat) (v : Z) : list Z := splice d o (le16 v).
Definition put32 (d : list Z) (o : nat) (v : Z) : list Z := splice d o (le32 v).

(** The conversion to [short]. *)
Definition i16 (z : Z) : Z := (z + 2 ^ 15) mod 2 ^ 16 - 2 ^ 15.
Definition u16 (z : Z) : Z := z mod 2 ^ 16.

(** ** Constants *)

Definition ROOTINO : Z := 1.
Definition FSSIZE : Z := 1000.
Definition NDIRECT : Z := 12.
Definition NINDIRECT : Z := 128.
Definition MAXFILE : Z := NDIRECT + NINDIRECT.
Definition IPB : Z := 8.
Definition BPB : Z := 4096.
Definition DIRSIZ : nat := 14.
Definition T_DIR : Z := 1.
Definition T_FILE : Z := 2.
Definition T_DEV : Z := 3.

Definition IBLOCK (i : Z) (sb : superblock) : Z := u32 (i / IPB + sb_inodestart sb).
Definition BBLOCK (b : Z) (sb : superblock) : Z := u32 (b / BPB + sb_bmapstart sb).

(** ** Structures *)

(** [memmove(sb, bp->data, sizeof( *sb))] *)
Definition get_superblock (d : list Z) : superblock :=
  mk_superblock (get32 d 0) (get32 d 4) (get32 d 8) (get32 d 12) (get32 d 16) (get32 d 20) (get32 d 24).

Record dinode : Type := mk_dinode {
  di_type : Z;
  di_major : Z;
  di_minor : Z;
  di_nlink : Z;
  di_size : Z;
  di_addrs : list Z;
}.

(** The words of an array of [uint]. *)
Fixpoint get_words (d : list Z) (o n : nat) : list Z :=
  match n with
  | O => []
  | S n' => get32 d o :: get_words d (o + 4) n'
  end.

Fixpoint put_words (d : list Z) (o : nat) (ws : list Z) : list Z :=
  match ws with
  | [] => d
  | w :: ws' => put_words (put32 d o w) (o + 4) ws'
  end.

(** [(struct dinode* )bp->data + inum%IPB] *)
Definition dinode_off (inum : Z) : nat := Z.to_nat (64 * (inum mod IPB)).

Definition get_dinode (d : list Z) (o : nat) : dinode :=
  mk_dinode (i16 (get16 d o)) (i16 (get16 d (o + 2))) (i16 (get16 d (o + 4))) (i16 (get16 d (o + 6)))
    (get32 d (o + 8)) (get_words d (o + 12) 13).

Definition put_dinode (d : list Z) (o : nat) (x : dinode) : list Z :=
  let d := put16 d o (di_type x) in
  let d := put16 d (o + 2) (di_major x) in
  let d := put16 d (o + 4) (di_minor x) in
  let d := put16 d (o + 6) (di_nlink x) in
  let d := put32 d (o + 8) (di_size x) in
  put_words d (o + 12) (di_addrs x).

(** A directory entry: the inode number and the 14 bytes of the name. *)
Definition dirent_inum (d : list Z) : Z := get16 d 0.
Definition dirent_name (d : list Z) : list Z := take DIRSIZ (drop 2 d).
Definition dirent_bytes (inum : Z) (name : list Z) : list Z := le16 inum ++ name.

(** ** Reading back *)

Lemma length_splice d o bs : (o + length bs <= length d)%nat -> length (splice d o bs) = length d.
Proof. intros H. unfold splice. rewrite !length_app, length_take, length_drop. lia. Qed.

Lemma nth_splice d o bs k : (o + length bs <= length d)%nat ->
  nth k (splice d o bs) 0 =
  if decide (o <= k < o + length bs)%nat then nth (k - o) bs 0 else nth k d 0.
Proof.
  intros H. unfold splice. case_decide as D.
  - rewrite app_nth2; rewrite length_take, Nat.min_l by lia; [|lia]. rewrite app_nth1 by lia. done.
  - destruct (decide (k < o)%nat).
    + rewrite app_nth1 by (rewrite length_take; lia). rewrite <- (take_drop o d) at 2.
      by rewrite app_nth1 by (rewrite length_take; lia).
    + rewrite app_nth2; rewrite length_take, Nat.min_l by lia; [|lia]. rewrite app_nth2 by lia.
      rewrite <- (take_drop (o + length bs) d) at 2.
      rewrite app_nth2; rewrite length_take, Nat.min_l by lia; [|lia]. f_equal. lia.
Qed.

Lemma byte_u8 v k : u8 ((v / k) mod 256) = (v / k) mod 256.
Proof. apply u8_id, Z.mod_pos_bound. lia. Qed.

Lemma get32_put32 d o v : (o + 4 <= length d)%nat -> 0 <= v < 2 ^ 32 -> get32 (put32 d o v) o = v.
Proof.
  intros Hd Hv. unfold get32, put32. rewrite !nth_splice by (cbn; lia). cbn [length le32].
  repeat (rewrite decide_True by lia). rewrite Nat.sub_diag.
  replace (o + 1 - o)%nat with 1%nat by lia. replace (o + 2 - o)%nat with 2%nat by lia.
  replace (o + 3 - o)%nat with 3%nat by lia. cbn [nth le32]. rewrite !byte_u8. rewrite u8_id by (apply Z.mod_pos_bound; lia).
  Z.div_mod_to_equations. lia.
Qed.

Lemma get16_put16 d o v : (o + 2 <= length d)%nat -> 0 <= v < 2 ^ 16 -> get16 (put16 d o v) o = v.
Proof.
  intros Hd Hv. unfold get16, put16. rewrite !nth_splice by (cbn; lia). cbn [length le16].
  repeat (rewrite decide_True by lia). rewrite Nat.sub_diag.
  replace (o + 1 - o)%nat with 1%nat by lia. cbn [nth le16]. rewrite byte_u8.
  rewrite u8_id by (apply Z.mod_pos_bound; lia). Z.div_mod_to_equations. lia.
Qed.

Lemma get32_splice_other d o bs a : (o + length bs <= length d)%nat ->
  (a + 4 <= o \/ o + length bs <= a)%nat -> get32 (splice d o bs) a = get32 d a.
Proof.
  intros Hd Ha. unfold get32. rewrite !nth_splice by done. by repeat (rewrite decide_False by lia).
Qed.

Lemma get16_splice_other d o bs a : (o + length bs <= length d)%nat ->
  (a + 2 <= o \/ o + length bs <= a)%nat -> get16 (splice d o bs) a = get16 d a.
Proof.
  intros Hd Ha. unfold get16. rewrite !nth_splice by done. by repeat (rewrite decide_False by lia).
Qed.

Lemma get16_put16_other d o v a : (o + 2 <= length d)%nat ->
  (a + 2 <= o \/ o + 2 <= a)%nat -> get16 (put16 d o v) a = get16 d a.
Proof. intros. by apply get16_splice_other. Qed.

Lemma get32_range d o : 0 <= get32 d o < 2 ^ 32.
Proof.
  unfold get32. pose proof (u8_range (nth o d 0)). pose proof (u8_range (nth (o + 1) d 0)).
  pose proof (u8_range (nth (o + 2) d 0)). pose proof (u8_range (nth (o + 3) d 0)). lia.
Qed.

Lemma length_put32 d o v : (o + 4 <= length d)%nat -> length (put32 d o v) = length d.
Proof. intros. by apply length_splice. Qed.

Lemma length_put16 d o v : (o + 2 <= length d)%nat -> length (put16 d o v) = length d.
Proof. intros. by apply length_splice. Qed.

Lemma length_put_words d o ws : (o + 4 * length ws <= length d)%nat -> length (put_words d o ws) = length d.
Proof.
  revert d o. induction ws as [|w ws IH]; intros d o H; [done|]. cbn [put_words length] in *.
  rewrite IH; rewrite length_put32; lia.
Qed.

(** Words before and after an array are kept. *)
Lemma get32_put_words_other d o ws a : (o + 4 * length ws <= length d)%nat ->
  (a + 4 <= o \/ o + 4 * length ws <= a)%nat -> get32 (put_words d o ws) a = get32 d a.
Proof.
  revert d o. induction ws as [|w ws IH]; intros d o Hd Ha; [done|]. cbn [put_words length] in *.
  rewrite IH; [|rewrite length_put32; lia|lia]. apply get32_splice_other; cbn; lia.
Qed.

Lemma get16_put_words_other d o ws a : (o + 4 * length ws <= length d)%nat ->
  (a + 2 <= o \/ o + 4 * length ws <= a)%nat -> get16 (put_words d o ws) a = get16 d a.
Proof.
  revert d o. induction ws as [|w ws IH]; intros d o Hd Ha; [done|]. cbn [put_words length] in *.
  rewrite IH; [|rewrite length_put32; lia|lia]. apply get16_splice_other; cbn; lia.
Qed.

Lemma get_put_words d o ws : (o + 4 * length ws <= length d)%nat ->
  Forall (fun w => 0 <= w < 2 ^ 32) ws -> get_words (put_words d o ws) o (length ws) = ws.
Proof.
  revert d o. induction ws as [|w ws IH]; intros d o Hd Hw; [done|].
  apply Forall_cons in Hw as [Hw Hws]. cbn [put_words length get_words] in *.
  rewrite IH; [|rewrite length_put32; lia|done]. f_equal.
  rewrite get32_put_words_other by (rewrite ?length_put32; lia). apply get32_put32; lia.
Qed.

Lemma get_words_lookup d o n i : (i < n)%nat -> get_words d o n !! i = Some (get32 d (o + 4 * i)).
Proof.
  revert o i. induction n as [|n IH]; intros o i Hi; [lia|]. destruct i as [|i]; cbn [get_words lookup list_lookup].
  - do 2 f_equal. lia.
  - rewrite IH by lia. do 2 f_equal. lia.
Qed.

Lemma i16_u16 v : - 2 ^ 15 <= v < 2 ^ 15 -> i16 (v mod 2 ^ 16) = v.
Proof. intros. unfold i16. rewrite Zplus_mod_idemp_l, Z.mod_small by lia. lia. Qed.

Lemma get16_put16_short d o v : (o + 2 <= length d)%nat -> - 2 ^ 15 <= v < 2 ^ 15 -> i16 (get16 (put16 d o v) o) = v.
Proof.
  intros Hd Hv. assert (put16 d o v = put16 d o (v mod 2 ^ 16)) as ->.
  { unfold put16, le16. do 2 f_equal.
    - change (2 ^ 16) with (256 * 256). rewrite Z.rem_mul_r by lia. rewrite (Z.mul_comm 256), Z.mod_add by lia.
      by rewrite Z.mod_mod by lia.
    - f_equal. Z.div_mod_to_equations. lia. }
  rewrite get16_put16; [by apply i16_u16|done|apply Z.mod_pos_bound; lia].
Qed.

Record dinode_ok (x : dinode) : Prop := {
  do_type : - 2 ^ 15 <= di_type x < 2 ^ 15;
  do_major : - 2 ^ 15 <= di_major x < 2 ^ 15;
  do_minor : - 2 ^ 15 <= di_minor x < 2 ^ 15;
  do_nlink : - 2 ^ 15 <= di_nlink x < 2 ^ 15;
  do_size : 0 <= di_size x < 2 ^ 32;
  do_len : length (di_addrs x) = 13%nat;
  do_addrs : Forall (fun w => 0 <= w < 2 ^ 32) (di_addrs x);
}.

(** A disk inode written to a block is read back unchanged. *)
Lemma get_put_dinode d o x : (o + 64 <= length d)%nat -> dinode_ok x -> get_dinode (put_dinode d o x) o = x.
Proof.
  intros Hd [H1 H2 H3 H4 H5 H6 H7]. unfold get_dinode, put_dinode.
  set (d1 := put16 d o _). assert (length d1 = length d) as L1 by (apply length_put16; lia).
  set (d2 := put16 d1 _ _). assert (length d2 = length d) as L2 by (unfold d2; rewrite length_put16; lia).
  set (d3 := put16 d2 _ _). assert (length d3 = length d) as L3 by (unfold d3; rewrite length_put16; lia).
  set (d4 := put16 d3 _ _). assert (length d4 = length d) as L4 by (unfold d4; rewrite length_put16; lia).
  set (d5 := put32 d4 _ _). assert (length d5 = length d) as L5 by (unfold d5; rewrite length_put32; lia).
  assert (forall a, (a + 2 <= o + 8)%nat -> get16 (put_words d5 (o + 12) (di_addrs x)) a = get16 d4 a) as G5.
  { intros a Ha. rewrite get16_put_words_other by lia. apply get16_splice_other; cbn; lia. }
  destruct x as [ty mj mn nl sz ad]; cbn [di_type di_major di_minor di_nlink di_size di_addrs] in *. f_equal.
  - rewrite G5 by lia. unfold d4. rewrite get16_put16_other by lia. unfold d3. rewrite get16_put16_other by lia.
    unfold d2. rewrite get16_put16_other by lia. apply get16_put16_short; lia.
  - rewrite G5 by lia. unfold d4. rewrite get16_put16_other by lia. unfold d3. rewrite get16_put16_other by lia.
    apply get16_put16_short; lia.
  - rewrite G5 by lia. unfold d4. rewrite get16_put16_other by lia. apply get16_put16_short; lia.
  - rewrite G5 by lia. apply get16_put16_short; lia.
  - rewrite get32_put_words_other by lia. apply get32_put32; lia.
  - rewrite <- H6. apply get_put_words; [lia|done].
Qed.

Lemma length_put_dinode d o x : (o + 64 <= length d)%nat -> length (di_addrs x) = 13%nat -> length (put_dinode d o x) = length d.
Proof.
  intros Hd Hl. unfold put_dinode.
  set (d1 := put16 d o _). assert (length d1 = length d) as L1 by (apply length_put16; lia).
  set (d2 := put16 d1 _ _). assert (length d2 = length d) as L2 by (unfold d2; rewrite length_put16; lia).
  set (d3 := put16 d2 _ _). assert (length d3 = length d) as L3 by (unfold d3; rewrite length_put16; lia).
  set (d4 := put16 d3 _ _). assert (length d4 = length d) as L4 by (unfold d4; rewrite length_put16; lia).
  set (d5 := put32 d4 _ _). assert (length d5 = length d) as L5 by (unfold d5; rewrite length_put32; lia).
  rewrite length_put_words; lia.
Qed.

(** Bytes outside of the disk inode. *)
Lemma nth_put_dinode_other d o x k : (o + 64 <= length d)%nat -> length (di_addrs x) = 13%nat ->
  (k < o \/ o + 64 <= k)%nat -> nth k (put_dinode d o x) 0 = nth k d 0.
Proof.
  intros Hd Hl Hk. unfold put_dinode.
  assert (forall d' a v, (a + 2 <= length d')%nat -> (o <= a)%nat -> (a + 2 <= o + 64)%nat -> length (put16 d' a v) = length d' /\ nth k (put16 d' a v) 0 = nth k d' 0) as P16.
  { intros d' a v H1 H2 H3. split; [by apply length_put16|]. unfold put16. rewrite nth_splice by (cbn; lia). cbn [length le16]. by rewrite decide_False by lia. }
  assert (forall d' a v, (a + 4 <= length d')%nat -> (o <= a)%nat -> (a + 4 <= o + 64)%nat -> length (put32 d' a v) = length d' /\ nth k (put32 d' a v) 0 = nth k d' 0) as P32.
  { intros d' a v H1 H2 H3. split; [by apply length_put32|]. unfold put32. rewrite nth_splice by (cbn; lia). cbn [length le32]. by rewrite decide_False by lia. }
  assert (forall ws d' a, (a + 4 * length ws <= length d')%nat -> (o <= a)%nat -> (a + 4 * length ws <= o + 64)%nat -> nth k (put_words d' a ws) 0 = nth k d' 0) as PW.
  { induction ws as [|w ws IH]; intros d' a H1 H2 H3; cbn [put_words length] in *; [done|].
    destruct (P32 d' a w) as [E1 E2]; [lia..|]. rewrite IH by lia. done. }
  set (d1 := put16 d o _). destruct (P16 d o (di_type x)) as [L1 E1]; [lia..|]. fold d1 in L1, E1.
  set (d2 := put16 d1 _ _). destruct (P16 d1 (o + 2)%nat (di_major x)) as [L2 E2]; [lia..|]. fold d2 in L2, E2.
  set (d3 := put16 d2 _ _). destruct (P16 d2 (o + 4)%nat (di_minor x)) as [L3 E3]; [lia..|]. fold d3 in L3, E3.
  set (d4 := put16 d3 _ _). destruct (P16 d3 (o + 6)%nat (di_nlink x)) as [L4 E4]; [lia..|]. fold d4 in L4, E4.
  set (d5 := put32 d4 _ _). destruct (P32 d4 (o + 8)%nat (di_size x)) as [L5 E5]; [lia..|]. fold d5 in L5, E5.
  rewrite PW by lia. congruence.
Qed.

Lemma get16_put_dinode_other d o x a : (o + 64 <= length d)%nat -> length (di_addrs x) = 13%nat ->
  (a + 2 <= o \/ o + 64 <= a)%nat -> get16 (put_dinode d o x) a = get16 d a.
Proof. intros. unfold get16. by rewrite !nth_put_dinode_other by lia. Qed.

Lemma get32_put_dinode_other d o x a : (o + 64 <= length d)%nat -> length (di_addrs x) = 13%nat ->
  (a + 4 <= o \/ o + 64 <= a)%nat -> get32 (put_dinode d o x) a = get32 d a.
Proof. intros. unfold get32. by rewrite !nth_put_dinode_other by lia. Qed.

Lemma length_get_words d o n : length (get_words d o n) = n.
Proof. revert o. induction n as [|n IH]; intros o; cbn [get_words length]; [done|]. by rewrite IH. Qed.
