(* ===== verification/Log.v ===== *)
(** * The write-ahead log (log.c)

    A transaction collects the block numbers of the buffers it changes in the
    in-memory header; the last [end_op] copies them to the log, writes the
    header (the commit), installs them and clears the header.  At boot
    [initlog] installs a committed transaction that a crash left behind. *)

From S2P Require Import Prelude Mem KState Mmu Kalloc Vm File Proc Bio Layout.

Section log.
Context {LK : Linker} {DK : Disk}.

Definition upd_log (f : logst -> logst) : K unit := modify (fun s => set_klog (f (klog s)) s).

(** [b->data] *)
Definition buf_data (b : nat) : K (list Z) := x <- buf_at b ;; ret (b_data x).
Definition set_buf_data (b : nat) (d : list Z) : K unit := upd_buf b (set_b_data d).

(** Read the super block (fs.c). *)
Definition readsb (dev : Z) : K superblock :=
  bp <- bread (u32 dev) 1 ;;
  d <- buf_data bp ;;
  brelse bp ;;
  ret (get_superblock d).

(** [log.lh.block[tail]] *)
Definition log_block (tail : nat) : K Z := fun s =>
  match lg_block (klog s) !! tail with
  | Some b => Ret b s
  | None => Undef "log.lh.block out of range" s
  end.

(** Copy committed blocks from log to their home location: the iterations
    from [tail] on, [k] of them. *)
Fixpoint install_trans_loop (k tail : nat) : K unit :=
  match k with
  | O => ret tt
  | S k' =>
      l <- gets klog ;;
      lbuf <- bread (u32 (lg_dev l)) (u32 (lg_start l + Z.of_nat tail + 1)) ;;
      bno <- log_block tail ;;
      dbuf <- bread (u32 (lg_dev l)) (u32 bno) ;;
      d <- buf_data lbuf ;;
      set_buf_data dbuf d ;;
      bwrite dbuf ;;
      brelse lbuf ;;
      brelse dbuf ;;
      install_trans_loop k' (S tail)
  end.

Definition install_trans : K unit :=
  l <- gets klog ;;
  install_trans_loop (Z.to_nat (lg_n l)) 0.

(** Read the log header from disk into the in-memory log header. *)
Definition read_head : K unit :=
  l <- gets klog ;;
  bp <- bread (u32 (lg_dev l)) (u32 (lg_start l)) ;;
  d <- buf_data bp ;;
  let n := i32 (get32 d 0) in
  upd_log (set_lg_n n) ;;
  if LOGSIZE <? n then undef "read_head: log.lh.block overflow"
  else
    upd_log (set_lg_block (map i32 (get_words d 4 (Z.to_nat n)) ++ drop (Z.to_nat n) (lg_block l))) ;;
    brelse bp.

(** Write in-memory log header to disk. *)
Definition write_head : K unit :=
  l <- gets klog ;;
  bp <- bread (u32 (lg_dev l)) (u32 (lg_start l)) ;;
  d <- buf_data bp ;;
  if LOGSIZE <? lg_n l then undef "write_head: log.lh.block overflow"
  else
    set_buf_data bp (put_words (put32 d 0 (lg_n l)) 4 (take (Z.to_nat (lg_n l)) (lg_block l))) ;;
    bwrite bp ;;
    brelse bp.

Definition recover_from_log : K unit :=
  read_head ;;
  install_trans ;;
  upd_log (set_lg_n 0) ;;
  write_head.

Definition initlog (dev : Z) : K unit :=
  modify (fun s => set_held (filter (fun l => l <> LkLog) (held s)) s) ;;
  sb <- readsb dev ;;
  upd_log (set_lg_start (i32 (sb_logstart sb))) ;;
  upd_log (set_lg_size (i32 (sb_nlog sb))) ;;
  upd_log (set_lg_dev dev) ;;
  recover_from_log.

(** The body of the [while(1)] of [begin_op]. *)
Definition begin_op_round : K unit :=
  l <- gets klog ;;
  if lg_committing l then sleep ChLog LkLog
  else if LOGSIZE <? i32 (lg_n l + (lg_outstanding l + 1) * MAXOPBLOCKS) then sleep ChLog LkLog
  else
    upd_log (set_lg_outstanding (i32 (lg_outstanding l + 1))) ;;
    release LkLog.

(** Called at the start of each FS system call. *)
Definition begin_op : K unit :=
  acquire LkLog ;;
  begin_op_round.

Definition begin_op_resume : K unit :=
  sleep_resume LkLog ;;
  begin_op_round.

(** Copy modified blocks from cache to log. *)
Fixpoint write_log_loop (k tail : nat) : K unit :=
  match k with
  | O => ret tt
  | S k' =>
      l <- gets klog ;;
      to <- bread (u32 (lg_dev l)) (u32 (lg_start l + Z.of_nat tail + 1)) ;;
      bno <- log_block tail ;;
      from <- bread (u32 (lg_dev l)) (u32 bno) ;;
      d <- buf_data from ;;
      set_buf_data to d ;;
      bwrite to ;;
      brelse from ;;
      brelse to ;;
      write_log_loop k' (S tail)
  end.

Definition write_log : K unit :=
  l <- gets klog ;;
  write_log_loop (Z.to_nat (lg_n l)) 0.

Definition commit : K unit :=
  l <- gets klog ;;
  when (0 <? lg_n l)
    (write_log ;;
     write_head ;;
     install_trans ;;
     upd_log (set_lg_n 0) ;;
     write_head).

(** Called at the end of each FS system call; commits if this was the last
    outstanding operation. *)
Definition end_op : K unit :=
  acquire LkLog ;;
  upd_log (fun l => set_lg_outstanding (i32 (lg_outstanding l - 1)) l) ;;
  l <- gets klog ;;
  if lg_committing l then panic "log.committing"
  else
    do_commit <- (if lg_outstanding l =? 0 then upd_log (set_lg_committing true) ;; ret true
                  else wakeup ChLog ;; ret false) ;;
    release LkLog ;;
    when do_commit
      (commit ;;
       acquire LkLog ;;
       upd_log (set_lg_committing false) ;;
       wakeup ChLog ;;
       release LkLog).

(** Record the block number and pin in the cache with [B_DIRTY]. *)
Definition log_write (b : nat) : K unit :=
  l <- gets klog ;;
  if (LOGSIZE <=? lg_n l) || (lg_size l - 1 <=? lg_n l) then panic "too big a transaction"
  else if lg_outstanding l <? 1 then panic "log_write outside of trans"
  else
    acquire LkLog ;;
    x <- buf_at b ;;
    let n := Z.to_nat (lg_n l) in
    (* log absorbtion *)
    let i := default n (find_index (fun c => u32 c =? b_blockno x) (take n (lg_block l))) in
    upd_log (fun l => set_lg_block (<[i := i32 (b_blockno x)]> (lg_block l)) l) ;;
    when (Z.of_nat i =? lg_n l) (upd_log (fun l => set_lg_n (lg_n l + 1) l)) ;;
    upd_buf b (fun x => set_b_flags (Z.lor (b_flags x) B_DIRTY) x) ;;
    release LkLog.

End log.
