(* ===== verification/Inode.v ===== *)
(** * Blocks and inodes (fs.c, first half)

    The bitmap allocator, the inode cache and the block map of an inode.  The
    super block, the inode cache and the buffers are fields of the kernel
    state; a pointer to an inode is its index in the cache. *)

From S2P Require Import Prelude Mem KState Mmu Kalloc Vm File Proc Bio Layout Log Console.

Section inode.
Context {DK : Disk}.

(** ** Blocks *)

(** Zero a block. *)
Definition bzero (dev bno : Z) : K unit :=
  bp <- bread (u32 dev) (u32 bno) ;;
  set_buf_data bp (replicate (Z.to_nat BSIZE) 0) ;;
  log_write bp ;;
  brelse bp.

(** [bp->data[bi/8] & m] with [m = 1 << (bi % 8)] *)
Definition bit_of (bi : Z) : Z := Z.shiftl 1 (bi mod 8).
Definition byte_of (bi : Z) : nat := Z.to_nat (bi / 8).
Definition bit_free (d : list Z) (bi : Z) : bool := Z.land (nth (byte_of bi) d 0) (bit_of bi) =? 0.
Definition bit_set (d : list Z) (bi : Z) : list Z :=
  <[byte_of bi := Z.lor (nth (byte_of bi) d 0) (bit_of bi)]> d.
Definition bit_clear (d : list Z) (bi : Z) : list Z :=
  <[byte_of bi := Z.land (nth (byte_of bi) d 0) (u8 (Z.lnot (bit_of bi)))]> d.

(** [for(bi = 0; bi < BPB && b + bi < sb.size; bi++)]: the first free bit, from
    [bi] on. *)
Fixpoint balloc_scan (k : nat) (d : list Z) (b bi size : Z) : option Z :=
  match k with
  | O => None
  | S k' =>
      if b + bi <? size then
        if bit_free d bi then Some bi else balloc_scan k' d b (bi + 1) size
      else None
  end.

(** [for(b = 0; b < sb.size; b += BPB)] *)
Fixpoint balloc_loop (k : nat) (dev b : Z) : K Z :=
  sb <- gets sb ;;
  if b <? sb_size sb then
    match k with
    | O => undef "balloc: loop bound"
    | S k' =>
        bp <- bread dev (BBLOCK b sb) ;;
        d <- buf_data bp ;;
        match balloc_scan (Z.to_nat BPB) d b 0 (sb_size sb) with
        | Some bi =>
            set_buf_data bp (bit_set d bi) ;;
            log_write bp ;;
            brelse bp ;;
            bzero dev (b + bi) ;;
            ret (b + bi)
        | None =>
            brelse bp ;;
            balloc_loop k' dev (b + BPB)
        end
    end
  else panic "balloc: out of blocks".

(** Allocate a zeroed disk block. *)
Definition balloc (dev : Z) : K Z :=
  sb <- gets sb ;;
  balloc_loop (Z.to_nat (sb_size sb / BPB + 1)) dev 0.

(** Free a disk block. *)
Definition bfree (dev b : Z) : K unit :=
  sb <- gets sb ;;
  bp <- bread (u32 dev) (BBLOCK b sb) ;;
  d <- buf_data bp ;;
  let bi := b mod BPB in
  if bit_free d bi then panic "freeing free block"
  else
    set_buf_data bp (bit_clear d bi) ;;
    log_write bp ;;
    brelse bp.

(** ** The inode cache *)

Definition inode_lock (i : nat) : sleeplock :=
  mk_sleeplock (LkInodeSleep i) (ChInode i)
    (x <- inode_at i ;; ret (i_locked x, i_lkpid x))
    (fun l pid => upd_inode i (set_i_locked l) ;; upd_inode i (set_i_lkpid pid)).

Fixpoint iinit_loop (l : list nat) : K unit :=
  match l with
  | [] => ret tt
  | i :: l' => initsleeplock (inode_lock i) ;; iinit_loop l'
  end.

Definition iinit_fmt : list Z := Eval cbv in
  bytes "sb: size %d nblocks %d ninodes %d nlog %d logstart %d inodestart %d bmap start %d" ++ [10].

Definition iinit (dev : Z) : K unit :=
  modify (fun s => set_held (filter (fun l => l <> LkIcache) (held s)) s) ;;
  iinit_loop (seq 0 NINODE) ;;
  x <- readsb dev ;;
  modify (set_sb x) ;;
  cprintf iinit_fmt
    [PInt (sb_size x); PInt (sb_nblocks x); PInt (sb_ninodes x); PInt (sb_nlog x);
     PInt (sb_logstart x); PInt (sb_inodestart x); PInt (sb_bmapstart x)].

(** Find the inode with number [inum] on device [dev] and return the in-memory
    copy.  The scan remembers the first empty slot, which is used only when the
    whole table has been searched. *)
Definition iget (dev inum : Z) : K nat :=
  acquire LkIcache ;;
  ic <- gets icache ;;
  match find_index (fun x => (0 <? i_ref x) && (i_dev x =? dev) && (i_inum x =? inum)) ic with
  | Some i =>
      upd_inode i (fun x => set_i_ref (i32 (i_ref x + 1)) x) ;;
      release LkIcache ;;
      ret i
  | None =>
      match find_index (fun x => i_ref x =? 0) ic with
      | None => panic "iget: no inodes"
      | Some i =>
          upd_inode i (set_i_dev dev) ;;
          upd_inode i (set_i_inum inum) ;;
          upd_inode i (set_i_ref 1) ;;
          upd_inode i (set_i_valid false) ;;
          release LkIcache ;;
          ret i
      end
  end.

(** [for(inum = 1; inum < sb.ninodes; inum++)] *)
Fixpoint ialloc_loop (k : nat) (dev type inum : Z) : K nat :=
  sb <- gets sb ;;
  if inum <? sb_ninodes sb then
    match k with
    | O => undef "ialloc: loop bound"
    | S k' =>
        bp <- bread dev (IBLOCK inum sb) ;;
        d <- buf_data bp ;;
        let dip := dinode_off inum in
        if di_type (get_dinode d dip) =? 0 then
          set_buf_data bp (put_dinode d dip (mk_dinode type 0 0 0 0 (replicate 13 0))) ;;
          log_write bp ;;
          brelse bp ;;
          iget dev inum
        else
          brelse bp ;;
          ialloc_loop k' dev type (inum + 1)
    end
  else panic "ialloc: no inodes".

(** Allocate an inode on device [dev]. *)
Definition ialloc (dev type : Z) : K nat :=
  sb <- gets sb ;;
  ialloc_loop (Z.to_nat (sb_ninodes sb)) dev type 1.

Definition dinode_of (x : inode) : dinode :=
  mk_dinode (i_type x) (i_major x) (i_minor x) (i_nlink x) (i_size x) (i_addrs x).

(** Copy a modified in-memory inode to disk. *)
Definition iupdate (ip : nat) : K unit :=
  x <- inode_at ip ;;
  sb <- gets sb ;;
  bp <- bread (i_dev x) (IBLOCK (i_inum x) sb) ;;
  d <- buf_data bp ;;
  set_buf_data bp (put_dinode d (dinode_off (i_inum x)) (dinode_of x)) ;;
  log_write bp ;;
  brelse bp.

(** The fields that [ilock] copies. *)
Definition load_dinode (di : dinode) (x : inode) : inode :=
  set_i_addrs (di_addrs di) (set_i_size (di_size di) (set_i_nlink (di_nlink di)
    (set_i_minor (di_minor di) (set_i_major (di_major di) (set_i_type (di_type di) x))))).

(** What [ilock] does with the lock taken. *)
Definition ilock_load (ip : nat) : K unit :=
  x <- inode_at ip ;;
  when (negb (i_valid x))
    (sb <- gets sb ;;
     bp <- bread (i_dev x) (IBLOCK (i_inum x) sb) ;;
     d <- buf_data bp ;;
     upd_inode ip (load_dinode (get_dinode d (dinode_off (i_inum x)))) ;;
     brelse bp ;;
     upd_inode ip (set_i_valid true) ;;
     x <- inode_at ip ;;
     when (i_type x =? 0) (panic "ilock: no type")).

(** Lock the given inode; reads the inode from disk if necessary. *)
Definition ilock (oip : option nat) : K unit :=
  match oip with
  | None => panic "ilock"
  | Some ip =>
      x <- inode_at ip ;;
      if i_ref x <? 1 then panic "ilock"
      else
        acquiresleep (inode_lock ip) ;;
        ilock_load ip
  end.

(** Unlock the given inode. *)
Definition iunlock (oip : option nat) : K unit :=
  match oip with
  | None => panic "iunlock"
  | Some ip =>
      h <- holdingsleep (inode_lock ip) ;;
      x <- inode_at ip ;;
      if negb h || (i_ref x <? 1) then panic "iunlock"
      else releasesleep (inode_lock ip)
  end.

(** ** The content of an inode *)

(** Return the disk block address of the nth block in inode [ip]; allocates
    one if there is none. *)
Definition bmap (ip : nat) (bn : Z) : K Z :=
  x <- inode_at ip ;;
  if bn <? NDIRECT then
    let addr := nth (Z.to_nat bn) (i_addrs x) 0 in
    if addr =? 0 then
      addr <- balloc (i_dev x) ;;
      upd_inode ip (fun x => set_i_addrs (<[Z.to_nat bn := addr]> (i_addrs x)) x) ;;
      ret addr
    else ret addr
  else
    let bn := bn - NDIRECT in
    if bn <? NINDIRECT then
      let addr := nth (Z.to_nat NDIRECT) (i_addrs x) 0 in
      addr <- (if addr =? 0 then
                 addr <- balloc (i_dev x) ;;
                 upd_inode ip (fun x => set_i_addrs (<[Z.to_nat NDIRECT := addr]> (i_addrs x)) x) ;;
                 ret addr
               else ret addr) ;;
      bp <- bread (i_dev x) addr ;;
      d <- buf_data bp ;;
      addr <- (if get32 d (4 * Z.to_nat bn) =? 0 then
                 addr <- balloc (i_dev x) ;;
                 d <- buf_data bp ;;
                 set_buf_data bp (put32 d (4 * Z.to_nat bn) addr) ;;
                 log_write bp ;;
                 ret addr
               else ret (get32 d (4 * Z.to_nat bn))) ;;
      brelse bp ;;
      ret addr
    else panic "bmap: out of range".

(** [for(i = 0; i < NDIRECT; i++)] *)
Fixpoint itrunc_direct (k i : nat) (ip : nat) : K unit :=
  match k with
  | O => ret tt
  | S k' =>
      x <- inode_at ip ;;
      when (negb (nth i (i_addrs x) 0 =? 0))
        (bfree (i_dev x) (nth i (i_addrs x) 0) ;;
         upd_inode ip (fun x => set_i_addrs (<[i := 0]> (i_addrs x)) x)) ;;
      itrunc_direct k' (S i) ip
  end.

(** [for(j = 0; j < NINDIRECT; j++)] *)
Fixpoint itrunc_indirect (k j : nat) (ip bp : nat) : K unit :=
  match k with
  | O => ret tt
  | S k' =>
      x <- inode_at ip ;;
      d <- buf_data bp ;;
      when (negb (get32 d (4 * j) =? 0)) (bfree (i_dev x) (get32 d (4 * j))) ;;
      itrunc_indirect k' (S j) ip bp
  end.

(** Truncate inode (discard contents). *)
Definition itrunc (ip : nat) : K unit :=
  itrunc_direct (Z.to_nat NDIRECT) 0 ip ;;
  x <- inode_at ip ;;
  let a := nth (Z.to_nat NDIRECT) (i_addrs x) 0 in
  when (negb (a =? 0))
    (bp <- bread (i_dev x) a ;;
     itrunc_indirect (Z.to_nat NINDIRECT) 0 ip bp ;;
     brelse bp ;;
     bfree (i_dev x) a ;;
     upd_inode ip (fun x => set_i_addrs (<[Z.to_nat NDIRECT := 0]> (i_addrs x)) x)) ;;
  upd_inode ip (set_i_size 0) ;;
  iupdate ip.

(** Drop a reference to an in-memory inode; the last reference to an inode
    without links frees it on disk.  A null pointer faults. *)
Definition iput (oip : option nat) : K unit :=
  match oip with
  | None => undef "iput: null inode"
  | Some ip =>
      acquiresleep (inode_lock ip) ;;
      x <- inode_at ip ;;
      when (i_valid x && (i_nlink x =? 0))
        (acquire LkIcache ;;
         x <- inode_at ip ;;
         release LkIcache ;;
         when (i_ref x =? 1)
           (itrunc ip ;;
            upd_inode ip (set_i_type 0) ;;
            iupdate ip ;;
            upd_inode ip (set_i_valid false))) ;;
      releasesleep (inode_lock ip) ;;
      acquire LkIcache ;;
      upd_inode ip (fun x => set_i_ref (i32 (i_ref x - 1)) x) ;;
      release LkIcache
  end.

(** Common idiom: unlock, then put. *)
Definition iunlockput (ip : option nat) : K unit :=
  iunlock ip ;;
  iput ip.

(** The fields of [struct stat]. *)
Record stat : Type := mk_stat {
  st_type : Z;
  st_dev : Z;
  st_ino : Z;
  st_nlink : Z;
  st_size : Z;
}.

(** Copy stat information from inode. *)
Definition stati (ip : nat) : K stat :=
  x <- inode_at ip ;;
  ret (mk_stat (i_type x) (i32 (i_dev x)) (i_inum x) (i_nlink x) (i_size x)).

End inode.
