(* ===== verification/ConsoleDev.v ===== *)
(** * The console device (console.c)

    The line editor that the keyboard and serial interrupts feed
    ([consoleintr]), and the read and write functions that [devsw] holds for
    the console.  The characters that [getc] returns before it is exhausted
    are a list.  A destination is a function that stores bytes at an offset;
    the bytes themselves are also returned, for callers whose destination is a
    local variable. *)

From S2P Require Import Prelude Mem KState Mmu Kalloc Vm File Proc Bio Layout Log Console Inode Pipe.

Section console.
Context {DK : Disk}.

Definition INPUT_BUF : Z := 128.

Definition upd_input (f : cinput -> cinput) : K unit := modify (fun s => set_input (f (input s)) s).

(** [input.buf[i % INPUT_BUF]] *)
Definition in_at (x : cinput) (i : Z) : Z := nth (Z.to_nat (i mod INPUT_BUF)) (in_buf x) 0.

(** [C(x)] *)
Definition Ctrl (c : ascii) : Z := chr c - chr "@".

(** [while(input.e != input.w && input.buf[(input.e-1) % INPUT_BUF] != '\n')] *)
Fixpoint kill_line (k : nat) : K unit :=
  x <- gets input ;;
  if negb (in_e x =? in_w x) && negb (in_at x (u32 (in_e x - 1)) =? 10) then
    match k with
    | O => undef "consoleintr: loop bound"
    | S k' =>
        upd_input (fun x => set_in_e (u32 (in_e x - 1)) x) ;;
        consputc BACKSPACE ;;
        kill_line k'
    end
  else ret tt.

(** One character of the [switch]. *)
Definition consoleintr_char (c : Z) : K unit :=
  x <- gets input ;;
  if c =? Ctrl "U" then kill_line (Z.to_nat (u32 (in_e x - in_w x)))
  else if (c =? Ctrl "H") || (c =? 127) then
    when (negb (in_e x =? in_w x))
      (upd_input (fun x => set_in_e (u32 (in_e x - 1)) x) ;;
       consputc BACKSPACE)
  else
    when (negb (c =? 0) && (u32 (in_e x - in_r x) <? INPUT_BUF))
      (let c := if c =? 13 then 10 else c in
       upd_input (fun x => set_in_buf (<[Z.to_nat (in_e x mod INPUT_BUF) := u8 c]> (in_buf x)) x) ;;
       upd_input (fun x => set_in_e (u32 (in_e x + 1)) x) ;;
       consputc c ;;
       x <- gets input ;;
       when ((c =? 10) || (c =? Ctrl "D") || (in_e x =? u32 (in_r x + INPUT_BUF)))
         (upd_input (fun x => set_in_w (in_e x) x) ;;
          wakeup ChInput)).

(** [while((c = getc()) >= 0)]; the result is [doprocdump]. *)
Fixpoint consoleintr_loop (cs : list Z) (doprocdump : bool) : K bool :=
  match cs with
  | [] => ret doprocdump
  | c :: cs' =>
      if c =? Ctrl "P" then consoleintr_loop cs' true
      else consoleintr_char c ;; consoleintr_loop cs' doprocdump
  end.

Definition consoleintr (cs : list Z) : K unit :=
  acquire LkCons ;;
  doprocdump <- consoleintr_loop cs false ;;
  release LkCons ;;
  when doprocdump procdump.

(** The loop of [consoleread]: [n] bytes left of [target], [tot] stored. *)
Fixpoint consoleread_loop (k : nat) (ip : nat) (dst : Z -> list Z -> K unit) (target n : Z)
    (acc : list Z) : K (Z * list Z) :=
  match k with
  | O =>
      release LkCons ;;
      ilock (Some ip) ;;
      ret (i32 (target - n), acc)
  | S k' =>
      x <- gets input ;;
      if in_r x =? in_w x then
        killed <- me_killed ;;
        if killed then
          release LkCons ;;
          ilock (Some ip) ;;
          ret (-1, acc)
        else sleep ChInput LkCons
      else
        let c := in_at x (in_r x) in
        upd_input (fun x => set_in_r (u32 (in_r x + 1)) x) ;;
        if c =? Ctrl "D" then
          when (n <? target) (upd_input (fun x => set_in_r (u32 (in_r x - 1)) x)) ;;
          release LkCons ;;
          ilock (Some ip) ;;
          ret (i32 (target - n), acc)
        else
          dst (Z.of_nat (length acc)) [c] ;;
          if c =? 10 then
            release LkCons ;;
            ilock (Some ip) ;;
            ret (i32 (target - (n - 1)), acc ++ [c])
          else consoleread_loop k' ip dst target (n - 1) (acc ++ [c])
  end.

Definition consoleread (ip : nat) (dst : Z -> list Z -> K unit) (n : Z) : K (Z * list Z) :=
  iunlock (Some ip) ;;
  acquire LkCons ;;
  consoleread_loop (Z.to_nat n) ip dst (u32 n) n [].

(** A reader that was woken up goes back to the test of the inner loop. *)
Definition consoleread_resume (ip : nat) (dst : Z -> list Z -> K unit) (target n : Z) (acc : list Z)
    : K (Z * list Z) :=
  sleep_resume LkCons ;;
  consoleread_loop (Z.to_nat n) ip dst target n acc.

(** [for(i = 0; i < n; i++) consputc(buf[i] & 0xff);] *)
Fixpoint consolewrite_loop (k : nat) (src : Z -> nat -> K (list Z)) (i : Z) : K unit :=
  match k with
  | O => ret tt
  | S k' =>
      bs <- src i 1%nat ;;
      consputs (map u8 bs) ;;
      consolewrite_loop k' src (i + 1)
  end.

Definition consolewrite (ip : nat) (src : Z -> nat -> K (list Z)) (n : Z) : K Z :=
  iunlock (Some ip) ;;
  acquire LkCons ;;
  consolewrite_loop (Z.to_nat n) src 0 ;;
  release LkCons ;;
  ilock (Some ip) ;;
  ret n.

(** The device table after [consoleinit]: only the console has functions. *)
Definition CONSOLE : Z := 1.

Definition devsw_read (major : Z) : option (nat -> (Z -> list Z -> K unit) -> Z -> K (Z * list Z)) :=
  if major =? CONSOLE then Some consoleread else None.

Definition devsw_write (major : Z) : option (nat -> (Z -> nat -> K (list Z)) -> Z -> K Z) :=
  if major =? CONSOLE then Some consolewrite else None.

End console.
