(* ===== verification/Devices.v ===== *)
(** * Devices and interrupt controllers
    (lapic.c, ioapic.c, picirq.c, uart.c, kbd.c, kbd.h, mp.c, and [mycpu] of
    proc.c)

    The machine is a parameter: [Ports] has the instructions [inb], [outb],
    [inl] and [outl] and the loads and stores of device registers, as functions
    on the state [W] of the hardware.  The state of a driver is [devst]: the
    kernel's variables, the hardware, and the static variables of the device
    files.  A loop that polls a register, or that walks a table of the BIOS, has
    no bound in the code; [polls] bounds it here, and a run that reaches the
    bound ends with [undef]. *)

From S2P Require Import Prelude CString Mem KState Mmu Console Vm File Proc Bio Layout Inode ConsoleDev.
From S2P Require Import Trap.

(** ** The machine *)

Class Ports (W : Type) : Type := {
  pt_inb : Z -> W -> Z * W;
  pt_outb : Z -> Z -> W -> W;
  pt_inl : Z -> W -> Z * W;
  pt_outl : Z -> Z -> W -> W;
  pt_load : Z -> W -> Z * W;
  pt_store : Z -> Z -> W -> W;
}.

(** Segment and gate descriptors (mmu.h). *)
Record segdesc : Type := mk_segdesc {
  lim_15_0 : Z;
  base_15_0 : Z;
  base_23_16 : Z;
  sd_type : Z;
  sd_s : Z;
  sd_dpl : Z;
  sd_p : Z;
  lim_19_16 : Z;
  sd_avl : Z;
  sd_rsv1 : Z;
  sd_db : Z;
  sd_g : Z;
  base_31_24 : Z;
}.

Record gatedesc : Type := mk_gatedesc {
  off_15_0 : Z;
  gd_cs : Z;
  gd_args : Z;
  gd_rsv1 : Z;
  gd_type : Z;
  gd_s : Z;
  gd_dpl : Z;
  gd_p : Z;
  off_31_16 : Z;
}.

(** [dv_if] is the interrupt flag of the processor; a null [lapic] or [ioapic]
    is 0; [dv_apicids], [dv_started] and [dv_gdts] have the fields [apicid],
    [started] and [gdt] of [cpus]; [dv_qnext] has the field [qnext] of the
    buffers. *)
Record devst (W : Type) : Type := mk_devst {
  dv_k : kstate;
  dv_w : W;
  dv_if : bool;
  dv_lapic : Z;
  dv_ioapic : Z;
  dv_ioapicid : Z;
  dv_apicids : list Z;
  dv_started : list Z;
  dv_gdts : list (list segdesc);
  dv_idt : list gatedesc;
  dv_uart : bool;
  dv_panicked : bool;
  dv_shift : Z;
  dv_idequeue : option nat;
  dv_qnext : list (option nat);
  dv_havedisk1 : bool;
}.

Arguments mk_devst {W}.
Arguments dv_k {W}.
Arguments dv_w {W}.
Arguments dv_if {W}.
Arguments dv_lapic {W}.
Arguments dv_ioapic {W}.
Arguments dv_ioapicid {W}.
Arguments dv_apicids {W}.
Arguments dv_started {W}.
Arguments dv_gdts {W}.
Arguments dv_idt {W}.
Arguments dv_uart {W}.
Arguments dv_panicked {W}.
Arguments dv_shift {W}.
Arguments dv_idequeue {W}.
Arguments dv_qnext {W}.
Arguments dv_havedisk1 {W}.

Section setters.
Context {W : Type}.
Implicit Types d : devst W.

Definition set_dv_k (v : kstate) d : devst W :=
  mk_devst v (dv_w d) (dv_if d) (dv_lapic d) (dv_ioapic d) (dv_ioapicid d) (dv_apicids d) (dv_started d)
    (dv_gdts d) (dv_idt d) (dv_uart d) (dv_panicked d) (dv_shift d) (dv_idequeue d) (dv_qnext d)
    (dv_havedisk1 d).
Definition set_dv_w (v : W) d : devst W :=
  mk_devst (dv_k d) v (dv_if d) (dv_lapic d) (dv_ioapic d) (dv_ioapicid d) (dv_apicids d) (dv_started d)
    (dv_gdts d) (dv_idt d) (dv_uart d) (dv_panicked d) (dv_shift d) (dv_idequeue d) (dv_qnext d)
    (dv_havedisk1 d).
Definition set_dv_if (v : bool) d : devst W :=
  mk_devst (dv_k d) (dv_w d) v (dv_lapic d) (dv_ioapic d) (dv_ioapicid d) (dv_apicids d) (dv_started d)
    (dv_gdts d) (dv_idt d) (dv_uart d) (dv_panicked d) (dv_shift d) (dv_idequeue d) (dv_qnext d)
    (dv_havedisk1 d).
Definition set_dv_lapic (v : Z) d : devst W :=
  mk_devst (dv_k d) (dv_w d) (dv_if d) v (dv_ioapic d) (dv_ioapicid d) (dv_apicids d) (dv_started d)
    (dv_gdts d) (dv_idt d) (dv_uart d) (dv_panicked d) (dv_shift d) (dv_idequeue d) (dv_qnext d)
    (dv_havedisk1 d).
Definition set_dv_ioapic (v : Z) d : devst W :=
  mk_devst (dv_k d) (dv_w d) (dv_if d) (dv_lapic d) v (dv_ioapicid d) (dv_apicids d) (dv_started d)
    (dv_gdts d) (dv_idt d) (dv_uart d) (dv_panicked d) (dv_shift d) (dv_idequeue d) (dv_qnext d)
    (dv_havedisk1 d).
Definition set_dv_ioapicid (v : Z) d : devst W :=
  mk_devst (dv_k d) (dv_w d) (dv_if d) (dv_lapic d) (dv_ioapic d) v (dv_apicids d) (dv_started d)
    (dv_gdts d) (dv_idt d) (dv_uart d) (dv_panicked d) (dv_shift d) (dv_idequeue d) (dv_qnext d)
    (dv_havedisk1 d).
Definition set_dv_apicids (v : list Z) d : devst W :=
  mk_devst (dv_k d) (dv_w d) (dv_if d) (dv_lapic d) (dv_ioapic d) (dv_ioapicid d) v (dv_started d)
    (dv_gdts d) (dv_idt d) (dv_uart d) (dv_panicked d) (dv_shift d) (dv_idequeue d) (dv_qnext d)
    (dv_havedisk1 d).
Definition set_dv_started (v : list Z) d : devst W :=
  mk_devst (dv_k d) (dv_w d) (dv_if d) (dv_lapic d) (dv_ioapic d) (dv_ioapicid d) (dv_apicids d) v
    (dv_gdts d) (dv_idt d) (dv_uart d) (dv_panicked d) (dv_shift d) (dv_idequeue d) (dv_qnext d)
    (dv_havedisk1 d).
Definition set_dv_gdts (v : list (list segdesc)) d : devst W :=
  mk_devst (dv_k d) (dv_w d) (dv_if d) (dv_lapic d) (dv_ioapic d) (dv_ioapicid d) (dv_apicids d)
    (dv_started d) v (dv_idt d) (dv_uart d) (dv_panicked d) (dv_shift d) (dv_idequeue d) (dv_qnext d)
    (dv_havedisk1 d).
Definition set_dv_idt (v : list gatedesc) d : devst W :=
  mk_devst (dv_k d) (dv_w d) (dv_if d) (dv_lapic d) (dv_ioapic d) (dv_ioapicid d) (dv_apicids d)
    (dv_started d) (dv_gdts d) v (dv_uart d) (dv_panicked d) (dv_shift d) (dv_idequeue d) (dv_qnext d)
    (dv_havedisk1 d).
Definition set_dv_uart (v : bool) d : devst W :=
  mk_devst (dv_k d) (dv_w d) (dv_if d) (dv_lapic d) (dv_ioapic d) (dv_ioapicid d) (dv_apicids d)
    (dv_started d) (dv_gdts d) (dv_idt d) v (dv_panicked d) (dv_shift d) (dv_idequeue d) (dv_qnext d)
    (dv_havedisk1 d).
Definition set_dv_panicked (v : bool) d : devst W :=
  mk_devst (dv_k d) (dv_w d) (dv_if d) (dv_lapic d) (dv_ioapic d) (dv_ioapicid d) (dv_apicids d)
    (dv_started d) (dv_gdts d) (dv_idt d) (dv_uart d) v (dv_shift d) (dv_idequeue d) (dv_qnext d)
    (dv_havedisk1 d).
Definition set_dv_shift (v : Z) d : devst W :=
  mk_devst (dv_k d) (dv_w d) (dv_if d) (dv_lapic d) (dv_ioapic d) (dv_ioapicid d) (dv_apicids d)
    (dv_started d) (dv_gdts d) (dv_idt d) (dv_uart d) (dv_panicked d) v (dv_idequeue d) (dv_qnext d)
    (dv_havedisk1 d).
Definition set_dv_idequeue (v : option nat) d : devst W :=
  mk_devst (dv_k d) (dv_w d) (dv_if d) (dv_lapic d) (dv_ioapic d) (dv_ioapicid d) (dv_apicids d)
    (dv_started d) (dv_gdts d) (dv_idt d) (dv_uart d) (dv_panicked d) (dv_shift d) v (dv_qnext d)
    (dv_havedisk1 d).
Definition set_dv_qnext (v : list (option nat)) d : devst W :=
  mk_devst (dv_k d) (dv_w d) (dv_if d) (dv_lapic d) (dv_ioapic d) (dv_ioapicid d) (dv_apicids d)
    (dv_started d) (dv_gdts d) (dv_idt d) (dv_uart d) (dv_panicked d) (dv_shift d) (dv_idequeue d) v
    (dv_havedisk1 d).
Definition set_dv_havedisk1 (v : bool) d : devst W :=
  mk_devst (dv_k d) (dv_w d) (dv_if d) (dv_lapic d) (dv_ioapic d) (dv_ioapicid d) (dv_apicids d)
    (dv_started d) (dv_gdts d) (dv_idt d) (dv_uart d) (dv_panicked d) (dv_shift d) (dv_idequeue d)
    (dv_qnext d) v.
End setters.

Definition D (W A : Type) : Type := M (devst W) A.

Section machine.
Context {W : Type} {PT : Ports W}.

(** The kernel's code that does not use devices. *)
Definition lift_k {A} (m : K A) : D W A := fun d =>
  match m (dv_k d) with
  | Ret a s => Ret a (set_dv_k s d)
  | Panic e s => Panic e (set_dv_k s d)
  | Block s => Block (set_dv_k s d)
  | Undef e s => Undef e (set_dv_k s d)
  end.

(** ** Instructions (x86.h) *)

Definition inb (port : Z) : D W Z := fun d =>
  let '(v, w) := pt_inb port (dv_w d) in Ret (u8 v) (set_dv_w w d).

Definition outb (port v : Z) : D W unit := fun d =>
  Ret tt (set_dv_w (pt_outb port (u8 v) (dv_w d)) d).

Definition inl (port : Z) : D W Z := fun d =>
  let '(v, w) := pt_inl port (dv_w d) in Ret (u32 v) (set_dv_w w d).

Definition outl (port v : Z) : D W unit := fun d =>
  Ret tt (set_dv_w (pt_outl port (u32 v) (dv_w d)) d).

(** [rep insl]: the bytes of [cnt] words. *)
Fixpoint insl (port : Z) (cnt : nat) : D W (list Z) :=
  match cnt with
  | O => ret []
  | S cnt' => v <- inl port ;; bs <- insl port cnt' ;; ret (le32 v ++ bs)
  end.

(** [rep outsl]: [cnt] words from offset [o] of the bytes. *)
Fixpoint outsl (port : Z) (bs : list Z) (o cnt : nat) : D W unit :=
  match cnt with
  | O => ret tt
  | S cnt' => outl port (get32 bs o) ;; outsl port bs (o + 4) cnt'
  end.

(** A register in the memory of a device; address 0 is not mapped. *)
Definition mmio_load (base off : Z) : D W Z := fun d =>
  if base =? 0 then Undef "null device" d
  else let '(v, w) := pt_load (base + off) (dv_w d) in Ret (u32 v) (set_dv_w w d).

Definition mmio_store (base off v : Z) : D W unit := fun d =>
  if base =? 0 then Undef "null device" d
  else Ret tt (set_dv_w (pt_store (base + off) (u32 v) (dv_w d)) d).

(** [while((r = read) fails the test) ;] *)
Fixpoint poll (k : nat) (read : D W Z) (ready : Z -> bool) : D W Z :=
  r <- read ;;
  if ready r then ret r
  else match k with
       | O => undef "poll: loop bound"
       | S k' => poll k' read ready
       end.

End machine.

(** ** The local APIC (lapic.c) *)

Module Lapic.
Definition ID : Z := 0x0020 / 4.
Definition VER : Z := 0x0030 / 4.
Definition TPR : Z := 0x0080 / 4.
Definition EOI : Z := 0x00B0 / 4.
Definition SVR : Z := 0x00F0 / 4.
Definition ENABLE : Z := 0x100.
Definition ESR : Z := 0x0280 / 4.
Definition ICRLO : Z := 0x0300 / 4.
Definition INIT : Z := 0x500.
Definition STARTUP : Z := 0x600.
Definition DELIVS : Z := 0x1000.
Definition ASSERT : Z := 0x4000.
Definition LEVEL : Z := 0x8000.
Definition BCAST : Z := 0x80000.
Definition ICRHI : Z := 0x0310 / 4.
Definition TIMER : Z := 0x0320 / 4.
Definition X1 : Z := 0xB.
Definition PERIODIC : Z := 0x20000.
Definition PCINT : Z := 0x0340 / 4.
Definition LINT0 : Z := 0x0350 / 4.
Definition LINT1 : Z := 0x0360 / 4.
Definition ERROR : Z := 0x0370 / 4.
Definition MASKED : Z := 0x10000.
Definition TICR : Z := 0x0380 / 4.
Definition TDCR : Z := 0x03E0 / 4.
Definition CMOS_PORT : Z := 0x70.
Definition CMOS_RETURN : Z := 0x71.
Definition CMOS_STATA : Z := 0x0a.
Definition CMOS_STATB : Z := 0x0b.
Definition CMOS_UIP : Z := 0x80.
Definition SECS : Z := 0x00.
Definition MINS : Z := 0x02.
Definition HOURS : Z := 0x04.
Definition DAY : Z := 0x07.
Definition MONTH : Z := 0x08.
Definition YEAR : Z := 0x09.
End Lapic.

Definition IRQ_ERROR : Z := 19.

(** date.h *)
Record rtcdate : Type := mk_rtcdate {
  rt_second : Z;
  rt_minute : Z;
  rt_hour : Z;
  rt_day : Z;
  rt_month : Z;
  rt_year : Z;
}.

#[export] Instance rtcdate_eq_dec : EqDecision rtcdate.
Proof. solve_decision. Defined.

Section lapic.
Context {W : Type} {PT : Ports W} (polls : nat).
Import Lapic.

(** [lapic[index]] *)
Definition lapicr (index : Z) : D W Z :=
  lapic <- gets dv_lapic ;;
  mmio_load lapic (4 * index).

Definition lapicw (index value : Z) : D W unit :=
  lapic <- gets dv_lapic ;;
  mmio_store lapic (4 * index) value ;;
  lapicr ID ;;
  ret tt.

Definition lapicinit : D W unit :=
  lapic <- gets dv_lapic ;;
  if lapic =? 0 then ret tt
  else
    lapicw SVR (Z.lor ENABLE (T_IRQ0 + IRQ_SPURIOUS)) ;;
    lapicw TDCR X1 ;;
    lapicw TIMER (Z.lor PERIODIC (T_IRQ0 + IRQ_TIMER)) ;;
    lapicw TICR 10000000 ;;
    lapicw LINT0 MASKED ;;
    lapicw LINT1 MASKED ;;
    ver <- lapicr VER ;;
    when (4 <=? Z.land (Z.shiftr ver 16) 0xFF) (lapicw PCINT MASKED) ;;
    lapicw ERROR (T_IRQ0 + IRQ_ERROR) ;;
    lapicw ESR 0 ;;
    lapicw ESR 0 ;;
    lapicw EOI 0 ;;
    lapicw ICRHI 0 ;;
    lapicw ICRLO (Z.lor (Z.lor BCAST INIT) LEVEL) ;;
    poll polls (lapicr ICRLO) (fun r => Z.land r DELIVS =? 0) ;;
    lapicw TPR 0.

Definition lapicid : D W Z :=
  lapic <- gets dv_lapic ;;
  if lapic =? 0 then ret 0
  else
    id <- lapicr ID ;;
    ret (Z.shiftr id 24).

Definition lapiceoi : D W unit :=
  lapic <- gets dv_lapic ;;
  when (negb (lapic =? 0)) (lapicw EOI 0).

(** The body of the function is empty. *)
Definition microdelay (us : Z) : D W unit := ret tt.

(** [wrv[i] = v] for the warm reset vector, an array of [ushort]. *)
Definition set_wrv (i v : Z) : D W unit :=
  let a := P2V (Z.lor (Z.shiftl 0x40 4) 0x67) + 2 * i in
  lift_k (upd_mem (fun m => st_bytes m a (le16 (u16 v)))).

Definition lapicstartap (apicid addr : Z) : D W unit :=
  outb CMOS_PORT 0xF ;;
  outb (CMOS_PORT + 1) 0x0A ;;
  set_wrv 0 0 ;;
  set_wrv 1 (Z.shiftr addr 4) ;;
  lapicw ICRHI (Z.shiftl apicid 24) ;;
  lapicw ICRLO (Z.lor (Z.lor INIT LEVEL) ASSERT) ;;
  microdelay 200 ;;
  lapicw ICRLO (Z.lor INIT LEVEL) ;;
  microdelay 100 ;;
  let startup :=
    lapicw ICRHI (Z.shiftl apicid 24) ;;
    lapicw ICRLO (Z.lor STARTUP (Z.shiftr addr 12)) ;;
    microdelay 200 in
  startup ;;
  startup.

Definition cmos_read (reg : Z) : D W Z :=
  outb CMOS_PORT reg ;;
  microdelay 200 ;;
  inb CMOS_RETURN.

Definition fill_rtcdate : D W rtcdate :=
  second <- cmos_read SECS ;;
  minute <- cmos_read MINS ;;
  hour <- cmos_read HOURS ;;
  day <- cmos_read DAY ;;
  month <- cmos_read MONTH ;;
  year <- cmos_read YEAR ;;
  ret (mk_rtcdate second minute hour day month year).

(** The loop that reads the clock until two readings agree. *)
Fixpoint cmos_stable (k : nat) : D W rtcdate :=
  let again := match k with
               | O => undef "cmostime: loop bound"
               | S k' => cmos_stable k'
               end in
  t1 <- fill_rtcdate ;;
  a <- cmos_read CMOS_STATA ;;
  if negb (Z.land a CMOS_UIP =? 0) then again
  else
    t2 <- fill_rtcdate ;;
    if bool_decide (t1 = t2) then ret t1 else again.

(** [CONV(x)] *)
Definition conv_bcd (x : Z) : Z := u32 (Z.shiftr x 4 * 10 + Z.land x 0xf).

Definition cmostime : D W rtcdate :=
  sb <- cmos_read CMOS_STATB ;;
  let bcd := Z.land sb (Z.shiftl 1 2) =? 0 in
  t1 <- cmos_stable polls ;;
  let t := if bcd
           then mk_rtcdate (conv_bcd (rt_second t1)) (conv_bcd (rt_minute t1)) (conv_bcd (rt_hour t1))
                  (conv_bcd (rt_day t1)) (conv_bcd (rt_month t1)) (conv_bcd (rt_year t1))
           else t1 in
  ret (mk_rtcdate (rt_second t) (rt_minute t) (rt_hour t) (rt_day t) (rt_month t)
         (u32 (rt_year t + 2000))).

(** ** The processor that runs (proc.c) *)

(** [for (i = 0; i < ncpu; ++i) if (cpus[i].apicid == apicid)] *)
Definition find_cpu (apicid : Z) (d : devst W) : option nat :=
  find_index (fun a => a =? apicid) (take (Z.to_nat (ncpu (dv_k d))) (dv_apicids d)).

(** A pointer into [cpus] is its index. *)
Definition mycpu : D W nat :=
  intr <- gets dv_if ;;
  if (intr : bool) then panic "mycpu called with interrupts enabled"
  else
    apicid <- lapicid ;;
    c <- gets (find_cpu apicid) ;;
    match c with
    | Some i => ret i
    | None => panic "unknown apicid"
    end.

Definition cpuid : D W Z := c <- mycpu ;; ret (Z.of_nat c).

End lapic.

(** ** The I/O APIC and the old controllers (ioapic.c, picirq.c) *)

Definition IOAPIC : Z := 0xFEC00000.
Definition REG_ID : Z := 0x00.
Definition REG_VER : Z := 0x01.
Definition REG_TABLE : Z := 0x10.
Definition INT_DISABLED : Z := 0x00010000.
Definition IO_PIC1 : Z := 0x20.
Definition IO_PIC2 : Z := 0xA0.

Section ioapic.
Context {W : Type} {PT : Ports W}.

Definition ioapicread (reg : Z) : D W Z :=
  ioapic <- gets dv_ioapic ;;
  mmio_store ioapic 0 reg ;;
  mmio_load ioapic 16.

Definition ioapicwrite (reg data : Z) : D W unit :=
  ioapic <- gets dv_ioapic ;;
  mmio_store ioapic 0 reg ;;
  mmio_store ioapic 16 data.

(** [for(i = 0; i <= maxintr; i++)], [k] rounds from [i]. *)
Fixpoint ioapic_disable (k : nat) (i : Z) : D W unit :=
  match k with
  | O => ret tt
  | S k' =>
      ioapicwrite (REG_TABLE + 2 * i) (Z.lor INT_DISABLED (T_IRQ0 + i)) ;;
      ioapicwrite (REG_TABLE + 2 * i + 1) 0 ;;
      ioapic_disable k' (i + 1)
  end.

Definition ioapicinit : D W unit :=
  modify (set_dv_ioapic IOAPIC) ;;
  ver <- ioapicread REG_VER ;;
  let maxintr := Z.land (Z.shiftr ver 16) 0xFF in
  r <- ioapicread REG_ID ;;
  let id := Z.shiftr r 24 in
  ioapicid <- gets dv_ioapicid ;;
  when (negb (id =? ioapicid))
    (lift_k (cprintf (bytes "ioapicinit: id isn't equal to ioapicid; not a MP" ++ [10]) [])) ;;
  ioapic_disable (Z.to_nat (maxintr + 1)) 0.

Definition ioapicenable (irq cpunum : Z) : D W unit :=
  ioapicwrite (REG_TABLE + 2 * irq) (T_IRQ0 + irq) ;;
  ioapicwrite (REG_TABLE + 2 * irq + 1) (Z.shiftl cpunum 24).

Definition picinit : D W unit :=
  outb (IO_PIC1 + 1) 0xFF ;;
  outb (IO_PIC2 + 1) 0xFF.

End ioapic.

(** ** The console's input loop with a device behind it (console.c) *)

Section getc.
Context {W : Type} {PT : Ports W} (polls : nat).

(** [while((c = getc()) >= 0)] *)
Fixpoint consoleintr_getc (k : nat) (getc : D W Z) (doprocdump : bool) : D W bool :=
  c <- getc ;;
  if c <? 0 then ret doprocdump
  else match k with
       | O => undef "consoleintr: loop bound"
       | S k' =>
           if c =? Ctrl "P" then consoleintr_getc k' getc true
           else lift_k (consoleintr_char c) ;; consoleintr_getc k' getc doprocdump
       end.

Definition dev_consoleintr (getc : D W Z) : D W unit :=
  lift_k (acquire LkCons) ;;
  doprocdump <- consoleintr_getc polls getc false ;;
  lift_k (release LkCons) ;;
  when doprocdump (lift_k procdump).

(** ** The serial port (uart.c) *)

Definition COM1 : Z := 0x3f8.

(** [for(i = 0; i < 128 && !(inb(COM1+5) & 0x20); i++) microdelay(10);] *)
Fixpoint uart_wait (k : nat) : D W unit :=
  match k with
  | O => ret tt
  | S k' =>
      st <- inb (COM1 + 5) ;;
      if Z.land st 0x20 =? 0 then microdelay 10 ;; uart_wait k' else ret tt
  end.

Definition uartputc (c : Z) : D W unit :=
  uart <- gets dv_uart ;;
  if negb uart then ret tt
  else
    uart_wait 128 ;;
    outb (COM1 + 0) c.

Fixpoint uart_puts (cs : list Z) : D W unit :=
  match cs with
  | [] => ret tt
  | c :: cs' => uartputc c ;; uart_puts cs'
  end.

Definition uartinit : D W unit :=
  outb (COM1 + 2) 0 ;;
  outb (COM1 + 3) 0x80 ;;
  outb (COM1 + 0) (115200 / 9600) ;;
  outb (COM1 + 1) 0 ;;
  outb (COM1 + 3) 0x03 ;;
  outb (COM1 + 4) 0 ;;
  outb (COM1 + 1) 0x01 ;;
  st <- inb (COM1 + 5) ;;
  if st =? 0xFF then ret tt
  else
    modify (set_dv_uart true) ;;
    inb (COM1 + 2) ;;
    inb (COM1 + 0) ;;
    ioapicenable IRQ_COM1 0 ;;
    uart_puts (bytes "xv6..." ++ [10]).

Definition uartgetc : D W Z :=
  uart <- gets dv_uart ;;
  if negb uart then ret (-1)
  else
    st <- inb (COM1 + 5) ;;
    if Z.land st 0x01 =? 0 then ret (-1) else inb (COM1 + 0).

Definition uart_intr : D W unit := dev_consoleintr uartgetc.

End getc.

(** ** The keyboard (kbd.h, kbd.c) *)

Module Kbd.
Definition KBSTATP : Z := 0x64.
Definition KBS_DIB : Z := 0x01.
Definition KBDATAP : Z := 0x60.
Definition NO : Z := 0.
Definition SHIFT : Z := 1.
Definition CTL : Z := 2.
Definition ALT : Z := 4.
Definition CAPSLOCK : Z := 8.
Definition NUMLOCK : Z := 16.
Definition SCROLLLOCK : Z := 32.
Definition E0ESC : Z := 64.
Definition KEY_HOME : Z := 0xE0.
Definition KEY_END : Z := 0xE1.
Definition KEY_UP : Z := 0xE2.
Definition KEY_DN : Z := 0xE3.
Definition KEY_LF : Z := 0xE4.
Definition KEY_RT : Z := 0xE5.
Definition KEY_PGUP : Z := 0xE6.
Definition KEY_PGDN : Z := 0xE7.
Definition KEY_INS : Z := 0xE8.
Definition KEY_DEL : Z := 0xE9.

(** An array of 256 [uchar]s: the first elements, and those with a
    designator. *)
Definition table (dense : list Z) (sparse : list (Z * Z)) (i : Z) : Z :=
  match find_index (fun p => p.1 =? i) sparse with
  | Some j => nth j (map snd sparse) 0
  | None => nth (Z.to_nat i) dense 0
  end.

Definition shiftcode : Z -> Z :=
  table [] [(0x1D, CTL); (0x2A, SHIFT); (0x36, SHIFT); (0x38, ALT); (0x9D, CTL); (0xB8, ALT)].

Definition togglecode : Z -> Z :=
  table [] [(0x3A, CAPSLOCK); (0x45, NUMLOCK); (0x46, SCROLLLOCK)].

(** The designated elements that the three maps share. *)
Definition special : list (Z * Z) :=
  [(0xC8, KEY_UP); (0xD0, KEY_DN); (0xC9, KEY_PGUP); (0xD1, KEY_PGDN); (0xCB, KEY_LF);
   (0xCD, KEY_RT); (0x97, KEY_HOME); (0xCF, KEY_END); (0xD2, KEY_INS); (0xD3, KEY_DEL)].

Definition normalmap : Z -> Z := table
  ([NO; 0x1B] ++ bytes "1234567890-=" ++ [8; 9] ++
   bytes "qwertyuiop[]" ++ [10; NO] ++ bytes "asdfghjkl;'`" ++ [NO] ++
   bytes "\zxcvbnm,./" ++ [NO; 42;
   NO; 32; NO; NO; NO; NO; NO; NO;
   NO; NO; NO; NO; NO; NO; NO; 55] ++
   bytes "89-456+1230." ++ [NO; NO; NO; NO])
  ((0x9C, 10) :: (0xB5, chr "/") :: special).

Definition shiftmap : Z -> Z := table
  ([NO; 0x1B] ++ bytes "!@#$%^&*()_+" ++ [8; 9] ++
   bytes "QWERTYUIOP{}" ++ [10; NO] ++ bytes "ASDFGHJKL:" ++ [34] ++ bytes "~" ++ [NO] ++
   bytes "|ZXCVBNM<>?" ++ [NO; 42;
   NO; 32; NO; NO; NO; NO; NO; NO;
   NO; NO; NO; NO; NO; NO; NO; 55] ++
   bytes "89-456+1230." ++ [NO; NO; NO; NO])
  ((0x9C, 10) :: (0xB5, chr "/") :: special).

(** [C(x)] as an element of an array of [uchar] *)
Definition C (c : ascii) : Z := u8 (Ctrl c).

Definition ctlmap : Z -> Z := table
  ([NO; NO; NO; NO; NO; NO; NO; NO;
    NO; NO; NO; NO; NO; NO; NO; NO;
    C "Q"; C "W"; C "E"; C "R"; C "T"; C "Y"; C "U"; C "I";
    C "O"; C "P"; NO; NO; 13; NO; C "A"; C "S";
    C "D"; C "F"; C "G"; C "H"; C "J"; C "K"; C "L"; NO;
    NO; NO; NO; C "\"; C "Z"; C "X"; C "C"; C "V";
    C "B"; C "N"; C "M"; NO; NO; C "/"; NO; NO])
  ((0x9C, 13) :: (0xB5, C "/") :: special).

Definition charcode (i : Z) : Z -> Z :=
  if i =? 0 then normalmap else if i =? 1 then shiftmap else ctlmap.

(** [if(shift & CAPSLOCK)] *)
Definition capslock (shift c : Z) : Z :=
  if negb (Z.land shift CAPSLOCK =? 0) then
    if (chr "a" <=? c) && (c <=? chr "z") then u32 (c + (chr "A" - chr "a"))
    else if (chr "A" <=? c) && (c <=? chr "Z") then u32 (c + (chr "a" - chr "A"))
    else c
  else c.

Section kbd.
Context {W : Type} {PT : Ports W} (polls : nat).

Definition kbdgetc : D W Z :=
  st <- inb KBSTATP ;;
  if Z.land st KBS_DIB =? 0 then ret (-1)
  else
    data <- inb KBDATAP ;;
    shift <- gets dv_shift ;;
    if data =? 0xE0 then
      modify (set_dv_shift (Z.lor shift E0ESC)) ;;
      ret 0
    else if negb (Z.land data 0x80 =? 0) then
      (* Key released *)
      let data := if negb (Z.land shift E0ESC =? 0) then data else Z.land data 0x7F in
      modify (set_dv_shift (Z.land shift (Z.lnot (Z.lor (shiftcode data) E0ESC)))) ;;
      ret 0
    else
      (* Last character was an E0 escape; or with 0x80 *)
      let esc := negb (Z.land shift E0ESC =? 0) in
      let data := if esc then Z.lor data 0x80 else data in
      let shift := if esc then Z.land shift (Z.lnot E0ESC) else shift in
      let shift := Z.lor shift (shiftcode data) in
      let shift := Z.lxor shift (togglecode data) in
      modify (set_dv_shift shift) ;;
      ret (capslock shift (charcode (Z.land shift (Z.lor CTL SHIFT)) data)).

Definition kbd_intr : D W unit := dev_consoleintr polls kbdgetc.
End kbd.
End Kbd.

(** ** The processors (mp.c, mp.h)

    The structures of mp.h are read from memory at their offsets: [struct mp]
    has 16 bytes, [struct mpconf] 44, [struct mpproc] 20, [struct mpioapic] 8. *)

Definition sizeof_mp : Z := 16.
Definition sizeof_mpconf : Z := 44.
Definition sizeof_mpproc : Z := 20.
Definition sizeof_mpioapic : Z := 8.
Definition MPPROC : Z := 0x00.
Definition MPBUS : Z := 0x01.
Definition MPIOAPIC : Z := 0x02.
Definition MPIOINTR : Z := 0x03.
Definition MPLINTR : Z := 0x04.

Definition ld16 (m : memory) (a : Z) : Z := ld8 m a + 2 ^ 8 * ld8 m (a + 1).

Definition mp_physaddr (m : memory) (mp : Z) : Z := ld32 m (mp + 4).
Definition mp_imcrp (m : memory) (mp : Z) : Z := ld8 m (mp + 12).
Definition mpconf_length (m : memory) (conf : Z) : Z := ld16 m (conf + 4).
Definition mpconf_version (m : memory) (conf : Z) : Z := ld8 m (conf + 6).
Definition mpconf_lapicaddr (m : memory) (conf : Z) : Z := ld32 m (conf + 36).
Definition mpproc_apicid (m : memory) (p : Z) : Z := ld8 m (p + 1).
Definition mpioapic_apicno (m : memory) (p : Z) : Z := ld8 m (p + 1).

(** The loop of [sum]: [len] bytes from [addr], in an [int]. *)
Fixpoint sum_loop (m : memory) (addr : Z) (len : nat) (acc : Z) : Z :=
  match len with
  | O => acc
  | S len' => sum_loop m (addr + 1) len' (acc + ld8 m addr)
  end.

Definition sum (m : memory) (addr len : Z) : Z := u8 (sum_loop m addr (Z.to_nat len) 0).

(** [memcmp(p, s, 4) == 0] for a string constant [s] of four characters *)
Definition has_signature (m : memory) (p : Z) (s : string) : bool :=
  bool_decide (ld_bytes m p 4 = bytes s).

(** [for(p = addr; p < e; p += sizeof(struct mp))]; [None] is the null
    pointer. *)
Fixpoint mpsearch_loop (k : nat) (m : memory) (p e : Z) : option Z :=
  match k with
  | O => None
  | S k' =>
      if p <? e then
        if has_signature m p "_MP_" && (sum m p sizeof_mp =? 0) then Some p
        else mpsearch_loop k' m (p + sizeof_mp) e
      else None
  end.

Definition mpsearch1 (m : memory) (a len : Z) : option Z :=
  let addr := P2V a in
  mpsearch_loop (Z.to_nat (len / sizeof_mp + 1)) m addr (addr + len).

Definition mpsearch (m : memory) : option Z :=
  let bda := P2V 0x400 in
  let p := Z.shiftl (Z.lor (Z.shiftl (ld8 m (bda + 0x0F)) 8) (ld8 m (bda + 0x0E))) 4 in
  let first :=
    if negb (p =? 0) then mpsearch1 m p 1024
    else
      let p := Z.lor (Z.shiftl (ld8 m (bda + 0x14)) 8) (ld8 m (bda + 0x13)) * 1024 in
      mpsearch1 m (u32 (p - 1024)) 1024 in
  match first with
  | Some mp => Some mp
  | None => mpsearch1 m 0xF0000 0x10000
  end.

(** The pair of [*pmp] and the result. *)
Definition mpconfig (m : memory) : option (Z * Z) :=
  match mpsearch m with
  | None => None
  | Some mp =>
      if mp_physaddr m mp =? 0 then None
      else
        let conf := P2V (mp_physaddr m mp) in
        if negb (has_signature m conf "PCMP") then None
        else if negb (mpconf_version m conf =? 1) && negb (mpconf_version m conf =? 4) then None
        else if negb (sum m conf (mpconf_length m conf) =? 0) then None
        else Some (mp, conf)
  end.

Section mp.
Context {W : Type} {PT : Ports W} (polls : nat).

(** The loop over the entries; the result is [ismp].  The [break] of the
    default case leaves the [switch], not the loop. *)
Fixpoint mp_entries (k : nat) (p e : Z) (ismp : bool) : D W bool :=
  if p <? e then
    match k with
    | O => undef "mpinit: loop bound"
    | S k' =>
        m <- gets (fun d => mem (dv_k d)) ;;
        let t := ld8 m p in
        if t =? MPPROC then
          n <- gets (fun d => ncpu (dv_k d)) ;;
          when (n <? NCPU)
            (modify (fun d => set_dv_apicids (<[Z.to_nat n := mpproc_apicid m p]> (dv_apicids d)) d) ;;
             lift_k (modify (set_ncpu (n + 1)))) ;;
          mp_entries k' (p + sizeof_mpproc) e ismp
        else if t =? MPIOAPIC then
          modify (set_dv_ioapicid (mpioapic_apicno m p)) ;;
          mp_entries k' (p + sizeof_mpioapic) e ismp
        else if (t =? MPBUS) || (t =? MPIOINTR) || (t =? MPLINTR) then
          mp_entries k' (p + 8) e ismp
        else mp_entries k' p e false
    end
  else ret ismp.

Definition mpinit : D W unit :=
  m <- gets (fun d => mem (dv_k d)) ;;
  match mpconfig m with
  | None => panic "Expect to run on an SMP"
  | Some (mp, conf) =>
      modify (set_dv_lapic (mpconf_lapicaddr m conf)) ;;
      ismp <- mp_entries polls (conf + sizeof_mpconf) (conf + mpconf_length m conf) true ;;
      if negb ismp then panic "Didn't find a suitable machine"
      else
        when (negb (mp_imcrp m mp =? 0))
          (outb 0x22 0x70 ;;
           v <- inb 0x23 ;;
           outb 0x23 (Z.lor v 1))
  end.

End mp.
