(* ===== verification/Ide.v ===== *)
(** * The IDE disk driver (ide.c) and traps on a machine with devices (trap.c)

    The driver keeps the buffers with a pending request in a list linked
    through [qnext]; the head is the request the disk works on.  [ide_rw] is
    the driver's [iderw] and [ide_intr] its [ideintr]; the functions of the
    same names in [Bio] and [Trap] are memide.c's and the kernel's view of the
    handler.  [dev_trap] is [trap] with the handlers of the devices and the
    acknowledgement of the interrupt. *)

From S2P Require Import Prelude CString Mem KState Mmu Console Vm File Proc Bio Layout Inode ConsoleDev.
From S2P Require Import Trap Devices.

Definition SECTOR_SIZE : Z := 512.
Definition IDE_BSY : Z := 0x80.
Definition IDE_DRDY : Z := 0x40.
Definition IDE_DF : Z := 0x20.
Definition IDE_ERR : Z := 0x01.
Definition IDE_CMD_READ : Z := 0x20.
Definition IDE_CMD_WRITE : Z := 0x30.
Definition IDE_CMD_RDMUL : Z := 0xc4.
Definition IDE_CMD_WRMUL : Z := 0xc5.

Section ide.
Context {LK : Linker} {FS : FsOps} {W : Type} {PT : Ports W} (polls : nat).

(** Wait for IDE disk to become ready. *)
Definition idewait (checkerr : bool) : D W Z :=
  r <- poll polls (inb 0x1f7) (fun r => Z.land r (Z.lor IDE_BSY IDE_DRDY) =? IDE_DRDY) ;;
  if checkerr && negb (Z.land r (Z.lor IDE_DF IDE_ERR) =? 0) then ret (-1) else ret 0.

(** [for(i=0; i<1000; i++) if(inb(0x1f7) != 0)] *)
Fixpoint ide_probe (k : nat) : D W unit :=
  match k with
  | O => ret tt
  | S k' =>
      r <- inb 0x1f7 ;;
      if negb (r =? 0) then modify (set_dv_havedisk1 true) else ide_probe k'
  end.

Definition ideinit : D W unit :=
  lift_k (modify (fun s => set_held (filter (fun l => l <> LkIde) (held s)) s)) ;;
  n <- gets (fun d => ncpu (dv_k d)) ;;
  ioapicenable IRQ_IDE (n - 1) ;;
  idewait false ;;
  outb 0x1f6 (Z.lor 0xe0 (Z.shiftl 1 4)) ;;
  ide_probe 1000 ;;
  outb 0x1f6 (Z.lor 0xe0 (Z.shiftl 0 4)).

(** Start the request for b. *)
Definition idestart (ob : option nat) : D W unit :=
  match ob with
  | None => panic "idestart"
  | Some b =>
      x <- lift_k (buf_at b) ;;
      if FSSIZE <=? b_blockno x then panic "incorrect blockno"
      else
        let sector_per_block := BSIZE / SECTOR_SIZE in
        let sector := i32 (b_blockno x * sector_per_block) in
        let read_cmd := if sector_per_block =? 1 then IDE_CMD_READ else IDE_CMD_RDMUL in
        let write_cmd := if sector_per_block =? 1 then IDE_CMD_WRITE else IDE_CMD_WRMUL in
        if 7 <? sector_per_block then panic "idestart"
        else
          idewait false ;;
          outb 0x3f6 0 ;;
          outb 0x1f2 sector_per_block ;;
          outb 0x1f3 (Z.land sector 0xff) ;;
          outb 0x1f4 (Z.land (Z.shiftr sector 8) 0xff) ;;
          outb 0x1f5 (Z.land (Z.shiftr sector 16) 0xff) ;;
          outb 0x1f6 (Z.lor (Z.lor 0xe0 (Z.shiftl (Z.land (b_dev x) 1) 4))
                        (Z.land (Z.shiftr sector 24) 0x0f)) ;;
          if has_flag B_DIRTY x then
            outb 0x1f7 write_cmd ;;
            outsl 0x1f0 (b_data x) 0 (Z.to_nat (BSIZE / 4))
          else outb 0x1f7 read_cmd
  end.

(** [b->qnext] *)
Definition qnext_at (b : nat) : D W (option nat) := fun d =>
  match dv_qnext d !! b with
  | Some n => Ret n d
  | None => Undef "buf out of range" d
  end.

Definition set_qnext (b : nat) (n : option nat) : D W unit :=
  modify (fun d => set_dv_qnext (<[b := n]> (dv_qnext d)) d).

(** Interrupt handler. *)
Definition ide_intr : D W unit :=
  lift_k (acquire LkIde) ;;
  q <- gets dv_idequeue ;;
  match q with
  | None => lift_k (release LkIde)
  | Some b =>
      n <- qnext_at b ;;
      modify (set_dv_idequeue n) ;;
      (* Read data if needed. *)
      x <- lift_k (buf_at b) ;;
      (if has_flag B_DIRTY x then ret tt
       else
         r <- idewait true ;;
         when (0 <=? r)
           (bs <- insl 0x1f0 (Z.to_nat (BSIZE / 4)) ;;
            lift_k (upd_buf b (set_b_data bs)))) ;;
      (* Wake process waiting for this buf. *)
      lift_k (upd_buf b (fun x => set_b_flags (Z.lor (b_flags x) B_VALID) x)) ;;
      lift_k (upd_buf b (fun x => set_b_flags (Z.land (b_flags x) (Z.lnot B_DIRTY)) x)) ;;
      lift_k (wakeup (ChBuf b)) ;;
      (* Start disk on next buf in queue. *)
      q <- gets dv_idequeue ;;
      when (bool_decide (q <> None)) (idestart q) ;;
      lift_k (release LkIde)
  end.

(** [*pp], where [pp] is the address of [idequeue] or of the [qnext] of a
    buffer. *)
Definition link_at (pp : option nat) : D W (option nat) :=
  match pp with
  | None => gets dv_idequeue
  | Some b => qnext_at b
  end.

Definition set_link (pp : option nat) (n : option nat) : D W unit :=
  match pp with
  | None => modify (set_dv_idequeue n)
  | Some b => set_qnext b n
  end.

(** [for(pp=&idequeue; *pp; pp=&( *pp)->qnext)] *)
Fixpoint last_link (k : nat) (pp : option nat) : D W (option nat) :=
  n <- link_at pp ;;
  match n with
  | None => ret pp
  | Some c =>
      match k with
      | O => undef "iderw: loop bound"
      | S k' => last_link k' (Some c)
      end
  end.

(** Wait for request to finish. *)
Definition ide_rw_round (b : nat) : D W unit :=
  x <- lift_k (buf_at b) ;;
  if negb (Z.land (b_flags x) (Z.lor B_VALID B_DIRTY) =? B_VALID)
  then lift_k (sleep (ChBuf b) LkIde)
  else lift_k (release LkIde).

(** Sync buf with disk. *)
Definition ide_rw (b : nat) : D W unit :=
  h <- lift_k (holdingsleep (buf_lock b)) ;;
  if negb h then panic "iderw: buf not locked"
  else
    x <- lift_k (buf_at b) ;;
    havedisk1 <- gets dv_havedisk1 ;;
    if Z.land (b_flags x) (Z.lor B_VALID B_DIRTY) =? B_VALID then panic "iderw: nothing to do"
    else if negb (b_dev x =? 0) && negb havedisk1 then panic "iderw: ide disk 1 not present"
    else
      lift_k (acquire LkIde) ;;
      (* Append b to idequeue. *)
      set_qnext b None ;;
      pp <- last_link NBUF None ;;
      set_link pp (Some b) ;;
      (* Start disk if necessary. *)
      q <- gets dv_idequeue ;;
      when (bool_decide (q = Some b)) (idestart (Some b)) ;;
      ide_rw_round b.

(** A process that was woken up goes back to the test of the loop. *)
Definition ide_rw_resume (b : nat) : D W unit :=
  lift_k (sleep_resume LkIde) ;;
  ide_rw_round b.

End ide.

(** ** Traps with the devices (trap.c) *)

Section devtrap.
Context {LK : Linker} {FS : FsOps} {HD : Handlers} {W : Type} {PT : Ports W} (polls : nat).

(** The switch, with the handlers of the devices and [lapiceoi]. *)
Definition dev_dispatch (cr2 : Z) (tf : trapframe) : D W unit :=
  let no := tf_trapno tf in
  if no =? T_IRQ0 + IRQ_TIMER then
    cpu <- cpuid ;;
    lift_k (when (cpu =? 0) timer_tick) ;;
    lapiceoi
  else if no =? T_IRQ0 + IRQ_IDE then ide_intr polls ;; lapiceoi
  else if no =? T_IRQ0 + IRQ_IDE + 1 then ret tt
  else if no =? T_IRQ0 + IRQ_KBD then Kbd.kbd_intr polls ;; lapiceoi
  else if no =? T_IRQ0 + IRQ_COM1 then uart_intr polls ;; lapiceoi
  else if (no =? T_IRQ0 + 7) || (no =? T_IRQ0 + IRQ_SPURIOUS) then
    cpu <- cpuid ;;
    lift_k (cprintf (bytes "cpu%d: spurious interrupt at %x:%x" ++ [10])
      [PInt cpu; PInt (tf_cs tf); PInt (tf_eip tf)]) ;;
    lapiceoi
  else
    cpu <- cpuid ;;
    lift_k (trap_unexpected cpu cr2 tf).

Definition dev_trap (cr2 : Z) (tf : trapframe) : D W unit :=
  if tf_trapno tf =? T_SYSCALL then lift_k (trap_syscall tf)
  else
    dev_dispatch cr2 tf ;;
    lift_k (exit_if_killed_user tf) ;;
    lift_k (trap_yield tf) ;;
    lift_k (exit_if_killed_user tf).

End devtrap.
