(* ===== verification/Fs.v ===== *)
(** * File contents, directories and path names (fs.c, second half)

    The destination of [readi] and the source of [writei] are functions: user
    memory, kernel memory, or a local variable of the caller.  A C string is
    the list of its bytes before the NUL; a [char[DIRSIZ]] is a list of at
    most [DIRSIZ] bytes, as [namecmp] and [strncpy] see it. *)

From S2P Require Import Prelude CString Mem KState Mmu Kalloc Vm File Proc Bio Layout Log Inode.
From S2P Require Import ConsoleDev Syscall.

Section fs.
Context {DK : Disk}.

(** ** Sources and destinations *)

Definition sink : Type := Z -> list Z -> K unit.

Definition to_kernel (p : Z) : sink := fun o bs => upd_mem (fun m => st_bytes m (p + o) bs).
Definition to_user (addr : Z) : sink := fun o bs => vwrite (u32 (addr + o)) bs.
Definition from_user (addr : Z) : source := fun o n => vread (u32 (addr + o)) n.

(** A local variable: the bytes that [readi] returns are its new value. *)
Definition to_local : sink := fun _ _ => ret tt.
Definition from_bytes (bs : list Z) : source := fun o n => ret (take n (drop (Z.to_nat o) bs)).

(** [bp->data + off%BSIZE], [m] bytes *)
Definition slice (d : list Z) (o : Z) (m : Z) : list Z := take (Z.to_nat m) (drop (Z.to_nat o) d).

(** [for(tot=0; tot<n; tot+=m, off+=m, dst+=m)]; the bytes read so far are [acc]. *)
Fixpoint readi_loop (k : nat) (ip : nat) (dst : sink) (tot off n : Z) (acc : list Z) : K (list Z) :=
  if tot <? n then
    match k with
    | O => undef "readi: loop bound"
    | S k' =>
        a <- bmap ip (off / BSIZE) ;;
        x <- inode_at ip ;;
        bp <- bread (i_dev x) a ;;
        let m := Z.min (n - tot) (BSIZE - off mod BSIZE) in
        d <- buf_data bp ;;
        dst tot (slice d (off mod BSIZE) m) ;;
        brelse bp ;;
        readi_loop k' ip dst (tot + m) (off + m) n (acc ++ slice d (off mod BSIZE) m)
    end
  else ret acc.

(** Read data from inode: the result of the C function and the bytes copied to
    the destination. *)
Definition readi (ip : nat) (dst : sink) (off n : Z) : K (Z * list Z) :=
  x <- inode_at ip ;;
  if i_type x =? T_DEV then
    if (i_major x <? 0) || (NDEV <=? i_major x) then ret (-1, [])
    else
      match devsw_read (i_major x) with
      | None => ret (-1, [])
      | Some read => read ip dst (i32 n)
      end
  else if (i_size x <? off) || (u32 (off + n) <? off) then ret (-1, [])
  else
    let n := if i_size x <? u32 (off + n) then u32 (i_size x - off) else n in
    bs <- readi_loop (Z.to_nat (n / BSIZE + 2)) ip dst 0 off n [] ;;
    ret (i32 n, bs).

(** [for(tot=0; tot<n; tot+=m, off+=m, src+=m)]; the final [off] is returned. *)
Fixpoint writei_loop (k : nat) (ip : nat) (src : source) (tot off n : Z) : K Z :=
  if tot <? n then
    match k with
    | O => undef "writei: loop bound"
    | S k' =>
        a <- bmap ip (off / BSIZE) ;;
        x <- inode_at ip ;;
        bp <- bread (i_dev x) a ;;
        let m := Z.min (n - tot) (BSIZE - off mod BSIZE) in
        bs <- src tot (Z.to_nat m) ;;
        d <- buf_data bp ;;
        set_buf_data bp (splice d (Z.to_nat (off mod BSIZE)) bs) ;;
        log_write bp ;;
        brelse bp ;;
        writei_loop k' ip src (tot + m) (off + m) n
    end
  else ret off.

(** Write data to inode. *)
Definition writei (ip : nat) (src : source) (off n : Z) : K Z :=
  x <- inode_at ip ;;
  if i_type x =? T_DEV then
    if (i_major x <? 0) || (NDEV <=? i_major x) then ret (-1)
    else
      match devsw_write (i_major x) with
      | None => ret (-1)
      | Some write => write ip src (i32 n)
      end
  else if (i_size x <? off) || (u32 (off + n) <? off) then ret (-1)
  else if MAXFILE * BSIZE <? u32 (off + n) then ret (-1)
  else
    off <- writei_loop (Z.to_nat (n / BSIZE + 2)) ip src 0 off n ;;
    x <- inode_at ip ;;
    when ((0 <? n) && (i_size x <? off))
      (upd_inode ip (set_i_size off) ;;
       iupdate ip) ;;
    ret (i32 n).

(** ** Directories *)

(** The bytes of a name with the NUL that ends it, when it is shorter than
    [DIRSIZ]. *)
Definition namecmp (s t : list Z) : option Z := strncmp (s ++ [0]) (t ++ [0]) DIRSIZ.

(** [sizeof(struct dirent)] *)
Definition DESIZE : Z := 16.

(** [for(off = 0; off < dp->size; off += sizeof(de))]: the entry's offset and inode. *)
Fixpoint dirlookup_loop (k : nat) (dp : nat) (name : list Z) (off : Z) : K (option (nat * Z)) :=
  x <- inode_at dp ;;
  if off <? i_size x then
    match k with
    | O => undef "dirlookup: loop bound"
    | S k' =>
        r <- readi dp to_local off DESIZE ;;
        if negb (r.1 =? DESIZE) then panic "dirlookup read"
        else if dirent_inum r.2 =? 0 then dirlookup_loop k' dp name (off + DESIZE)
        else
          match namecmp name (dirent_name r.2) with
          | None => undef "namecmp"
          | Some c =>
              if c =? 0 then
                i <- iget (i_dev x) (dirent_inum r.2) ;;
                ret (Some (i, off))
              else dirlookup_loop k' dp name (off + DESIZE)
          end
    end
  else ret None.

(** Look for a directory entry in a directory. *)
Definition dirlookup (dp : nat) (name : list Z) : K (option (nat * Z)) :=
  x <- inode_at dp ;;
  if negb (i_type x =? T_DIR) then panic "dirlookup not DIR"
  else dirlookup_loop (Z.to_nat (i_size x / DESIZE + 1)) dp name 0.

(** Look for an empty dirent: its offset, or the size. *)
Fixpoint dirlink_scan (k : nat) (dp : nat) (off : Z) : K Z :=
  x <- inode_at dp ;;
  if off <? i_size x then
    match k with
    | O => undef "dirlink: loop bound"
    | S k' =>
        r <- readi dp to_local off DESIZE ;;
        if negb (r.1 =? DESIZE) then panic "dirlink read"
        else if dirent_inum r.2 =? 0 then ret off
        else dirlink_scan k' dp (off + DESIZE)
    end
  else ret off.

(** [strncpy(de.name, name, DIRSIZ)] *)
Definition dirent_pad (name : list Z) : list Z :=
  default [] (strncpy (replicate DIRSIZ 0) (name ++ [0]) DIRSIZ).

(** Write a new directory entry (name, inum) into the directory [dp]. *)
Definition dirlink (dp : nat) (name : list Z) (inum : Z) : K Z :=
  r <- dirlookup dp name ;;
  match r with
  | Some (ip, _) =>
      iput (Some ip) ;;
      ret (-1)
  | None =>
      x <- inode_at dp ;;
      off <- dirlink_scan (Z.to_nat (i_size x / DESIZE + 1)) dp 0 ;;
      w <- writei dp (from_bytes (dirent_bytes (u16 inum) (dirent_pad name))) off DESIZE ;;
      if negb (w =? DESIZE) then panic "dirlink" else ret 0
  end.

(** ** Paths *)

Definition slash : Z := 47.

Fixpoint skip_slashes (path : list Z) : list Z :=
  match path with
  | c :: path' => if c =? slash then skip_slashes path' else path
  | [] => []
  end.

(** The bytes up to the next slash or the end, and the rest. *)
Fixpoint span_elem (path : list Z) : list Z * list Z :=
  match path with
  | c :: path' => if c =? slash then ([], path) else let '(e, r) := span_elem path' in (c :: e, r)
  | [] => ([], [])
  end.

(** Copy the next path element from [path] into [name]: the name and the rest
    of the path, [None] if there is no name to remove. *)
Definition skipelem (path : list Z) : option (list Z * list Z) :=
  match skip_slashes path with
  | [] => None
  | path' =>
      let '(s, rest) := span_elem path' in
      Some (take DIRSIZ s, skip_slashes rest)
  end.

(** [while((path = skipelem(path, name)) != 0)]; [name] is the element copied
    last. *)
Fixpoint namex_loop (k : nat) (ip : nat) (path : list Z) (nameiparent : bool) (name : list Z)
    : K (option nat * list Z) :=
  match skipelem path with
  | None =>
      if nameiparent then iput (Some ip) ;; ret (None, name) else ret (Some ip, name)
  | Some (name, path) =>
      match k with
      | O => undef "namex: loop bound"
      | S k' =>
          ilock (Some ip) ;;
          x <- inode_at ip ;;
          if negb (i_type x =? T_DIR) then iunlockput (Some ip) ;; ret (None, name)
          else if nameiparent && match path with [] => true | _ => false end then
            iunlock (Some ip) ;;
            ret (Some ip, name)
          else
            r <- dirlookup ip name ;;
            match r with
            | None => iunlockput (Some ip) ;; ret (None, name)
            | Some (next, _) =>
                iunlockput (Some ip) ;;
                namex_loop k' next path nameiparent name
            end
      end
  end.

(** Look up and return the inode for a path name. *)
Definition namex (path : list Z) (nameiparent : bool) : K (option nat * list Z) :=
  oip <- match path with
         | c :: _ =>
             if c =? slash then i <- iget ROOTDEV ROOTINO ;; ret (Some i)
             else me <- curproc ;; p <- proc_at me ;; idup (p_cwd p)
         | [] => me <- curproc ;; p <- proc_at me ;; idup (p_cwd p)
         end ;;
  match oip with
  | Some ip => namex_loop (length path) ip path nameiparent []
  | None => undef "namex: null inode"
  end.

Definition namei (path : list Z) : K (option nat) := r <- namex path false ;; ret r.1.

Definition nameiparent (path : list Z) : K (option nat * list Z) := namex path true.

End fs.
