(* ===== verification/FileIO.v ===== *)
(** * Open files on top of the file system (file.c)

    Reading, writing and stat of an open file, and the instance of [FsOps]:
    the file table and the process code run on the real log, inode layer and
    pipes. *)

From S2P Require Import Prelude CString Mem KState Mmu Kalloc Vm File Proc Syscall Pipe Bio Layout.
From S2P Require Import Log Inode ConsoleDev Fs.

#[export] Instance kernel_fs {LK : Linker} {DK : Disk} : FsOps := {
  fs_begin_op := begin_op;
  fs_end_op := end_op;
  fs_iput := iput;
  fs_pipeclose := pipeclose;
  fs_namei := namei;
  fs_iinit := iinit;
  fs_initlog := initlog;
}.

Section fileio.
Context {LK : Linker} {DK : Disk}.

Definition fileinit : K unit :=
  modify (fun s => set_held (filter (fun l => l <> LkFtable) (held s)) s).

(** The inode of an FD_INODE file; the C code passes [f->ip] on. *)
Definition file_inode (x : file) : K nat :=
  match f_ip x with
  | Some ip => ret ip
  | None => undef "null inode"
  end.

(** The fields of [*st], at their offsets in [struct stat]. *)
Definition put_stat (addr : Z) (st : stat) : K unit :=
  vwrite addr (le16 (st_type st)) ;;
  vwrite (addr + 4) (le32 (st_dev st)) ;;
  vwrite (addr + 8) (le32 (st_ino st)) ;;
  vwrite (addr + 12) (le16 (st_nlink st)) ;;
  vwrite (addr + 16) (le32 (st_size st)).

(** Get metadata about file [f]. *)
Definition filestat (f : nat) (addr : Z) : K Z :=
  x <- file_at f ;;
  match f_type x with
  | FD_INODE =>
      ilock (f_ip x) ;;
      ip <- file_inode x ;;
      st <- stati ip ;;
      put_stat addr st ;;
      iunlock (f_ip x) ;;
      ret 0
  | _ => ret (-1)
  end.

(** [f->off += r] when [r > 0] *)
Definition advance (f : nat) (r : Z) : K unit :=
  when (0 <? r) (upd_file f (fun x => set_f_off (u32 (f_off x + r)) x)).

(** Read from file [f]. *)
Definition fileread (f : nat) (addr n : Z) : K Z :=
  x <- file_at f ;;
  if f_readable x =? 0 then ret (-1)
  else
    match f_type x with
    | FD_PIPE => piperead (f_pipe x) addr n
    | FD_INODE =>
        ilock (f_ip x) ;;
        ip <- file_inode x ;;
        x <- file_at f ;;
        r <- readi ip (to_user addr) (f_off x) (u32 n) ;;
        advance f r.1 ;;
        iunlock (f_ip x) ;;
        ret r.1
    | FD_NONE => panic "fileread"
    end.

(** [((MAXOPBLOCKS-1-1-2) / 2) * 512] *)
Definition write_max : Z := (MAXOPBLOCKS - 1 - 1 - 2) / 2 * 512.

(** [while(i < n)] *)
Fixpoint filewrite_loop (k : nat) (f : nat) (addr i n : Z) : K Z :=
  if i <? n then
    match k with
    | O => undef "filewrite: loop bound"
    | S k' =>
        let n1 := Z.min (n - i) write_max in
        begin_op ;;
        x <- file_at f ;;
        ilock (f_ip x) ;;
        ip <- file_inode x ;;
        x <- file_at f ;;
        r <- writei ip (from_user (u32 (addr + i))) (f_off x) n1 ;;
        advance f r ;;
        iunlock (f_ip x) ;;
        end_op ;;
        if r <? 0 then ret i
        else if negb (r =? n1) then panic "short filewrite"
        else filewrite_loop k' f addr (i + r) n
    end
  else ret i.

(** Write to file [f]. *)
Definition filewrite (f : nat) (addr n : Z) : K Z :=
  x <- file_at f ;;
  if f_writable x =? 0 then ret (-1)
  else
    match f_type x with
    | FD_PIPE => pipewrite (f_pipe x) addr n
    | FD_INODE =>
        i <- filewrite_loop (Z.to_nat (n / write_max + 1)) f addr 0 n ;;
        ret (if i =? n then n else -1)
    | FD_NONE => panic "filewrite"
    end.

End fileio.
