(* ===== verification/Exec.v ===== *)
(** * exec (exec.c, loaduvm of vm.c)

    [exec] replaces the memory image of the current process.  The ELF and
    program headers are read into local variables; the path and the argument
    strings are in the old image, found there by [sys_exec]: an argument is
    its address and its length. *)

From S2P Require Import Prelude CString Mem KState Mmu Console Kalloc Vm File Proc Syscall Bio.
From S2P Require Import Layout Log Inode Fs FileIO.

Section exec.
Context {LK : Linker} {DK : Disk}.

(** [for(i = 0; i < sz; i += PGSIZE)] of loaduvm *)
Fixpoint loaduvm_loop (k : nat) (pgdir addr : Z) (ip : nat) (offset i sz : Z) : K Z :=
  if i <? sz then
    match k with
    | O => undef "loaduvm: loop bound"
    | S k' =>
        pte <- walkpgdir pgdir (u32 (addr + i)) false ;;
        if pte =? 0 then panic "loaduvm: address should exist"
        else
          e <- load32 pte ;;
          let n := if u32 (sz - i) <? PGSIZE then u32 (sz - i) else PGSIZE in
          r <- readi ip (to_kernel (P2V (PTE_ADDR e))) (u32 (offset + i)) n ;;
          if negb (u32 r.1 =? n) then ret (-1)
          else loaduvm_loop k' pgdir addr ip offset (i + PGSIZE) sz
    end
  else ret 0.

(** Load a program segment into [pgdir]. *)
Definition loaduvm (pgdir addr : Z) (ip : nat) (offset sz : Z) : K Z :=
  if negb (addr mod PGSIZE =? 0) then panic "loaduvm: addr must be page aligned"
  else loaduvm_loop (Z.to_nat (sz / PGSIZE + 1)) pgdir addr ip offset 0 sz.

(** ** The headers (elf.h) *)

Definition ELF_MAGIC : Z := 0x464C457F.
Definition ELF_PROG_LOAD : Z := 1.
Definition ELFHDR_SIZE : Z := 52.
Definition PROGHDR_SIZE : Z := 32.

Definition elf_magic (d : list Z) : Z := get32 d 0.
Definition elf_entry (d : list Z) : Z := get32 d 24.
Definition elf_phoff (d : list Z) : Z := get32 d 28.
Definition elf_phnum (d : list Z) : Z := get16 d 44.

Definition ph_type (d : list Z) : Z := get32 d 0.
Definition ph_off (d : list Z) : Z := get32 d 4.
Definition ph_vaddr (d : list Z) : Z := get32 d 8.
Definition ph_filesz (d : list Z) : Z := get32 d 16.
Definition ph_memsz (d : list Z) : Z := get32 d 20.

(** ** exec *)

(** [bad:] *)
Definition exec_bad (pgdir : Z) (oip : option nat) : K Z :=
  when (negb (pgdir =? 0)) (freevm pgdir) ;;
  match oip with
  | Some ip => iunlockput (Some ip) ;; end_op
  | None => ret tt
  end ;;
  ret (-1).

(** [for(i=0, off=elf.phoff; i<elf.phnum; i++, off+=sizeof(ph))]: the new size,
    [None] for [goto bad]. *)
Fixpoint exec_segments (k : nat) (ip : nat) (pgdir off sz : Z) : K (option Z) :=
  match k with
  | O => ret (Some sz)
  | S k' =>
      r <- readi ip to_local (u32 off) PROGHDR_SIZE ;;
      let ph := r.2 in
      if negb (r.1 =? PROGHDR_SIZE) then ret None
      else if negb (ph_type ph =? ELF_PROG_LOAD) then exec_segments k' ip pgdir (off + PROGHDR_SIZE) sz
      else if ph_memsz ph <? ph_filesz ph then ret None
      else if u32 (ph_vaddr ph + ph_memsz ph) <? ph_vaddr ph then ret None
      else
        sz <- allocuvm pgdir sz (u32 (ph_vaddr ph + ph_memsz ph)) ;;
        if sz =? 0 then ret None
        else if negb (ph_vaddr ph mod PGSIZE =? 0) then ret None
        else
          r <- loaduvm pgdir (ph_vaddr ph) ip (ph_off ph) (ph_filesz ph) ;;
          if r <? 0 then ret None
          else exec_segments k' ip pgdir (off + PROGHDR_SIZE) sz
  end.

(** [for(argc = 0; argv[argc]; argc++)]: push the strings; the final [sp] and
    the addresses pushed so far, [None] for [goto bad]. *)
Fixpoint exec_args (argv : list (Z * Z)) (pgdir sp argc : Z) (ustack : list Z) : K (option (Z * list Z)) :=
  match argv with
  | [] => ret (Some (sp, ustack))
  | (a, len) :: argv' =>
      if MAXARG <=? argc then ret None
      else
        let sp := Z.land (u32 (sp - (len + 1))) (2 ^ 32 - 4) in
        r <- copyout pgdir sp (from_user a) (len + 1) ;;
        if r <? 0 then ret None
        else exec_args argv' pgdir sp (argc + 1) (ustack ++ [sp])
  end.

(** [for(last=s=path; *s; s++) if( *s == '/') last = s+1;] *)
Fixpoint last_elem (s last : list Z) : list Z :=
  match s with
  | [] => last
  | c :: s' => last_elem s' (if c =? slash then s' else last)
  end.

(** From [Commit to the user image] on. *)
Definition exec_commit (path : list Z) (pgdir sz entry sp : Z) : K Z :=
  me <- curproc ;;
  p <- proc_at me ;;
  match safestrcpy (p_name p) (last_elem path path ++ [0]) 16 with
  | None => undef "exec: name"
  | Some name =>
      upd_proc me (set_p_name name) ;;
      upd_proc me (set_p_pgdir pgdir) ;;
      upd_proc me (set_p_sz sz) ;;
      upd_proc me (fun p => set_p_tf (set_tf_eip entry (p_tf p)) p) ;;
      upd_proc me (fun p => set_p_tf (set_tf_esp sp (p_tf p)) p) ;;
      switchuvm (Some me) ;;
      freevm (p_pgdir p) ;;
      ret 0
  end.

(** The new stack: two pages, the first inaccessible, and the arguments. *)
Definition exec_stack (path : list Z) (argv : list (Z * Z)) (pgdir sz entry : Z) : K Z :=
  let sz := PGROUNDUP sz in
  sz <- allocuvm pgdir sz (u32 (sz + 2 * PGSIZE)) ;;
  if sz =? 0 then exec_bad pgdir None
  else
    clearpteu pgdir (u32 (sz - 2 * PGSIZE)) ;;
    o <- exec_args argv pgdir sz 0 [] ;;
    match o with
    | None => exec_bad pgdir None
    | Some (sp, ustack) =>
        let argc := Z.of_nat (length argv) in
        let words := [0xffffffff; argc; u32 (sp - (argc + 1) * 4)] ++ ustack ++ [0] in
        let sp := u32 (sp - (3 + argc + 1) * 4) in
        r <- copyout pgdir sp (from_bytes (concat (map le32 words))) ((3 + argc + 1) * 4) ;;
        if r <? 0 then exec_bad pgdir None
        else exec_commit path pgdir sz entry sp
    end.

Definition exec (path : list Z) (argv : list (Z * Z)) : K Z :=
  begin_op ;;
  oip <- namei path ;;
  match oip with
  | None =>
      end_op ;;
      cprintf (bytes "exec: fail" ++ [10]) [] ;;
      ret (-1)
  | Some ip =>
      ilock (Some ip) ;;
      r <- readi ip to_local 0 ELFHDR_SIZE ;;
      let elf := r.2 in
      if negb (r.1 =? ELFHDR_SIZE) then exec_bad 0 (Some ip)
      else if negb (elf_magic elf =? ELF_MAGIC) then exec_bad 0 (Some ip)
      else
        pgdir <- setupkvm ;;
        if pgdir =? 0 then exec_bad 0 (Some ip)
        else
          o <- exec_segments (Z.to_nat (elf_phnum elf)) ip pgdir (i32 (elf_phoff elf)) 0 ;;
          match o with
          | None => exec_bad pgdir (Some ip)
          | Some sz =>
              iunlockput (Some ip) ;;
              end_op ;;
              exec_stack path argv pgdir sz (elf_entry elf)
          end
  end.

End exec.
