(* ===== verification/Sysfile.v ===== *)
(** * File-system system calls (sysfile.c)

    The handlers with their argument checks, error exits and transactions.  A
    path argument is read from user memory as the bytes before its NUL. *)

From S2P Require Import Prelude CString Mem KState Mmu Console Kalloc Vm File Proc Syscall Pipe Bio.
From S2P Require Import Layout Log Inode ConsoleDev Fs FileIO Exec.

Section sysfile.
Context {LK : Linker} {DK : Disk}.

(** ** Arguments *)

(** The nth argument as a file descriptor: the descriptor and the file. *)
Definition argfd (n : Z) : K (option (Z * nat)) :=
  a <- argint n ;;
  match a with
  | None => ret None
  | Some fd =>
      if (fd <? 0) || (Z.of_nat NOFILE <=? fd) then ret None
      else
        me <- curproc ;;
        p <- proc_at me ;;
        match p_ofile p !! Z.to_nat fd with
        | Some (Some f) => ret (Some (fd, f))
        | Some None => ret None
        | None => undef "ofile out of range"
        end
  end.

(** Allocate a file descriptor for the given file. *)
Definition fdalloc (f : nat) : K Z :=
  me <- curproc ;;
  p <- proc_at me ;;
  match find_index (fun o => match o with None => true | _ => false end) (p_ofile p) with
  | Some fd =>
      upd_proc me (fun p => set_p_ofile (<[fd := Some f]> (p_ofile p)) p) ;;
      ret (Z.of_nat fd)
  | None => ret (-1)
  end.

(** [myproc()->ofile[fd] = 0] *)
Definition fdclear (fd : Z) : K unit :=
  me <- curproc ;;
  upd_proc me (fun p => set_p_ofile (<[Z.to_nat fd := None]> (p_ofile p)) p).

(** [argstr] for a path: the bytes of the string. *)
Definition argpath (n : Z) : K (option (list Z)) :=
  r <- argstr n ;;
  match r with
  | None => ret None
  | Some (a, len) => bs <- vread a (Z.to_nat len) ;; ret (Some bs)
  end.

(** ** Descriptors *)

Definition sys_dup : K Z :=
  a <- argfd 0 ;;
  match a with
  | None => ret (-1)
  | Some (_, f) =>
      fd <- fdalloc f ;;
      if fd <? 0 then ret (-1)
      else filedup f ;; ret fd
  end.

(** The arguments of read and write: [argfd(0), argint(2), argptr(1, n)]. *)
Definition with_fd_buf (k : nat -> Z -> Z -> K Z) : K Z :=
  a <- argfd 0 ;;
  match a with
  | None => ret (-1)
  | Some (_, f) =>
      with_argint 2 (fun n =>
        q <- argptr 1 n ;;
        match q with
        | None => ret (-1)
        | Some p => k f p n
        end)
  end.

Definition sys_read : K Z := with_fd_buf fileread.
Definition sys_write : K Z := with_fd_buf filewrite.

Definition sys_close : K Z :=
  a <- argfd 0 ;;
  match a with
  | None => ret (-1)
  | Some (fd, f) =>
      fdclear fd ;;
      fileclose f ;;
      ret 0
  end.

(** [sizeof(struct stat)] *)
Definition STAT_SIZE : Z := 20.

Definition sys_fstat : K Z :=
  a <- argfd 0 ;;
  match a with
  | None => ret (-1)
  | Some (_, f) =>
      q <- argptr 1 STAT_SIZE ;;
      match q with
      | None => ret (-1)
      | Some st => filestat f st
      end
  end.

(** ** Links *)

(** [ip->nlink++] and [ip->nlink--], a short. *)
Definition add_nlink (ip : nat) (k : Z) : K unit :=
  upd_inode ip (fun x => set_i_nlink (i16 (i_nlink x + k)) x).

(** [bad:] of sys_link *)
Definition link_bad (ip : nat) : K Z :=
  ilock (Some ip) ;;
  add_nlink ip (-1) ;;
  iupdate ip ;;
  iunlockput (Some ip) ;;
  end_op ;;
  ret (-1).

(** Create the path [new] as a link to the same inode as [old]. *)
Definition sys_link : K Z :=
  oold <- argpath 0 ;;
  match oold with
  | None => ret (-1)
  | Some old =>
      onew <- argpath 1 ;;
      match onew with
      | None => ret (-1)
      | Some new =>
          begin_op ;;
          oip <- namei old ;;
          match oip with
          | None => end_op ;; ret (-1)
          | Some ip =>
              ilock (Some ip) ;;
              x <- inode_at ip ;;
              if i_type x =? T_DIR then iunlockput (Some ip) ;; end_op ;; ret (-1)
              else
                add_nlink ip 1 ;;
                iupdate ip ;;
                iunlock (Some ip) ;;
                r <- nameiparent new ;;
                match r with
                | (None, _) => link_bad ip
                | (Some dp, name) =>
                    ilock (Some dp) ;;
                    d <- inode_at dp ;;
                    x <- inode_at ip ;;
                    l <- (if negb (i_dev d =? i_dev x) then ret (-1) else dirlink dp name (i_inum x)) ;;
                    if l <? 0 then iunlockput (Some dp) ;; link_bad ip
                    else
                      iunlockput (Some dp) ;;
                      iput (Some ip) ;;
                      end_op ;;
                      ret 0
                end
          end
      end
  end.

(** [for(off=2*sizeof(de); off<dp->size; off+=sizeof(de))] *)
Fixpoint isdirempty_loop (k : nat) (dp : nat) (off : Z) : K bool :=
  x <- inode_at dp ;;
  if off <? i_size x then
    match k with
    | O => undef "isdirempty: loop bound"
    | S k' =>
        r <- readi dp to_local off DESIZE ;;
        if negb (r.1 =? DESIZE) then panic "isdirempty: readi"
        else if negb (dirent_inum r.2 =? 0) then ret false
        else isdirempty_loop k' dp (off + DESIZE)
    end
  else ret true.

(** Is the directory [dp] empty except for "." and ".." ? *)
Definition isdirempty (dp : nat) : K bool :=
  x <- inode_at dp ;;
  isdirempty_loop (Z.to_nat (i_size x / DESIZE + 1)) dp (2 * DESIZE).

(** [bad:] of sys_unlink *)
Definition unlink_bad (dp : nat) : K Z :=
  iunlockput (Some dp) ;;
  end_op ;;
  ret (-1).

Definition is_dots (name : list Z) : bool :=
  bool_decide (namecmp name (bytes ".") = Some 0) || bool_decide (namecmp name (bytes "..") = Some 0).

Definition sys_unlink : K Z :=
  opath <- argpath 0 ;;
  match opath with
  | None => ret (-1)
  | Some path =>
      begin_op ;;
      r <- nameiparent path ;;
      match r with
      | (None, _) => end_op ;; ret (-1)
      | (Some dp, name) =>
          ilock (Some dp) ;;
          if is_dots name then unlink_bad dp
          else
            l <- dirlookup dp name ;;
            match l with
            | None => unlink_bad dp
            | Some (ip, off) =>
                ilock (Some ip) ;;
                x <- inode_at ip ;;
                if i_nlink x <? 1 then panic "unlink: nlink < 1"
                else
                  keep <- (if i_type x =? T_DIR then e <- isdirempty ip ;; ret (negb e) else ret false) ;;
                  if keep then iunlockput (Some ip) ;; unlink_bad dp
                  else
                    w <- writei dp (from_bytes (replicate (Z.to_nat DESIZE) 0)) off DESIZE ;;
                    if negb (w =? DESIZE) then panic "unlink: writei"
                    else
                      x <- inode_at ip ;;
                      when (i_type x =? T_DIR) (add_nlink dp (-1) ;; iupdate dp) ;;
                      iunlockput (Some dp) ;;
                      add_nlink ip (-1) ;;
                      iupdate ip ;;
                      iunlockput (Some ip) ;;
                      end_op ;;
                      ret 0
            end
      end
  end.

(** ** Creation *)

(** The part of [create] that makes a new inode. *)
Definition create_new (dp : nat) (name : list Z) (type major minor : Z) : K (option nat) :=
  d <- inode_at dp ;;
  ip <- ialloc (i_dev d) type ;;
  ilock (Some ip) ;;
  upd_inode ip (set_i_major (i16 major)) ;;
  upd_inode ip (set_i_minor (i16 minor)) ;;
  upd_inode ip (set_i_nlink 1) ;;
  iupdate ip ;;
  x <- inode_at ip ;;
  when (type =? T_DIR)
    (add_nlink dp 1 ;;
     iupdate dp ;;
     r <- dirlink ip (bytes ".") (i_inum x) ;;
     r' <- (if r <? 0 then ret (-1) else dirlink ip (bytes "..") (i_inum d)) ;;
     when (r' <? 0) (panic "create dots")) ;;
  r <- dirlink dp name (i_inum x) ;;
  if r <? 0 then panic "create: dirlink"
  else iunlockput (Some dp) ;; ret (Some ip).

Definition create (path : list Z) (type major minor : Z) : K (option nat) :=
  r <- nameiparent path ;;
  match r with
  | (None, _) => ret None
  | (Some dp, name) =>
      ilock (Some dp) ;;
      l <- dirlookup dp name ;;
      match l with
      | Some (ip, _) =>
          iunlockput (Some dp) ;;
          ilock (Some ip) ;;
          x <- inode_at ip ;;
          if (type =? T_FILE) && (i_type x =? T_FILE) then ret (Some ip)
          else iunlockput (Some ip) ;; ret None
      | None => create_new dp name type major minor
      end
  end.

Definition O_RDONLY : Z := 0x000.
Definition O_WRONLY : Z := 0x001.
Definition O_RDWR : Z := 0x002.
Definition O_CREATE : Z := 0x200.

Definition flag (omode f : Z) : bool := negb (Z.land omode f =? 0).

(** The inode of sys_open, locked; [None] after the error exits. *)
Definition open_inode (path : list Z) (omode : Z) : K (option nat) :=
  if flag omode O_CREATE then
    oip <- create path T_FILE 0 0 ;;
    match oip with
    | None => end_op ;; ret None
    | Some ip => ret (Some ip)
    end
  else
    oip <- namei path ;;
    match oip with
    | None => end_op ;; ret None
    | Some ip =>
        ilock (Some ip) ;;
        x <- inode_at ip ;;
        if (i_type x =? T_DIR) && negb (omode =? O_RDONLY) then
          iunlockput (Some ip) ;; end_op ;; ret None
        else ret (Some ip)
    end.

(** [f->type = FD_INODE; ...] *)
Definition open_file (f ip : nat) (omode : Z) : K unit :=
  upd_file f (set_f_type FD_INODE) ;;
  upd_file f (set_f_ip (Some ip)) ;;
  upd_file f (set_f_off 0) ;;
  upd_file f (set_f_readable (if flag omode O_WRONLY then 0 else 1)) ;;
  upd_file f (set_f_writable (if flag omode O_WRONLY || flag omode O_RDWR then 1 else 0)).

Definition sys_open : K Z :=
  opath <- argpath 0 ;;
  match opath with
  | None => ret (-1)
  | Some path =>
      with_argint 1 (fun omode =>
        begin_op ;;
        oip <- open_inode path omode ;;
        match oip with
        | None => ret (-1)
        | Some ip =>
            fo <- filealloc ;;
            match fo with
            | None => iunlockput (Some ip) ;; end_op ;; ret (-1)
            | Some f =>
                fd <- fdalloc f ;;
                if fd <? 0 then
                  fileclose f ;;
                  iunlockput (Some ip) ;;
                  end_op ;;
                  ret (-1)
                else
                  iunlock (Some ip) ;;
                  end_op ;;
                  open_file f ip omode ;;
                  ret fd
            end
        end)
  end.

(** [end_op(); return -1;] or the inode released and the transaction ended. *)
Definition finish_create (oip : option nat) : K Z :=
  match oip with
  | None => end_op ;; ret (-1)
  | Some ip => iunlockput (Some ip) ;; end_op ;; ret 0
  end.

Definition sys_mkdir : K Z :=
  begin_op ;;
  opath <- argpath 0 ;;
  match opath with
  | None => finish_create None
  | Some path => oip <- create path T_DIR 0 0 ;; finish_create oip
  end.

Definition sys_mknod : K Z :=
  begin_op ;;
  opath <- argpath 0 ;;
  match opath with
  | None => finish_create None
  | Some path =>
      omajor <- argint 1 ;;
      match omajor with
      | None => finish_create None
      | Some major =>
          ominor <- argint 2 ;;
          match ominor with
          | None => finish_create None
          | Some minor => oip <- create path T_DEV (i16 major) (i16 minor) ;; finish_create oip
          end
      end
  end.

Definition sys_chdir : K Z :=
  me <- curproc ;;
  begin_op ;;
  opath <- argpath 0 ;;
  oip <- match opath with None => ret None | Some path => namei path end ;;
  match oip with
  | None => end_op ;; ret (-1)
  | Some ip =>
      ilock (Some ip) ;;
      x <- inode_at ip ;;
      if negb (i_type x =? T_DIR) then iunlockput (Some ip) ;; end_op ;; ret (-1)
      else
        iunlock (Some ip) ;;
        p <- proc_at me ;;
        iput (p_cwd p) ;;
        end_op ;;
        upd_proc me (set_p_cwd (Some ip)) ;;
        ret 0
  end.

(** ** exec and pipe *)

(** [for(i=0;; i++)]: the argument strings from index [i] on, [None] for an
    early return. *)
Fixpoint fetch_argv (k : nat) (uargv i : Z) : K (option (list (Z * Z))) :=
  match k with
  | O => ret None
  | S k' =>
      a <- fetchint (u32 (uargv + 4 * i)) ;;
      match a with
      | None => ret None
      | Some uarg =>
          if uarg =? 0 then ret (Some [])
          else
            l <- fetchstr (u32 uarg) ;;
            match l with
            | None => ret None
            | Some len =>
                rest <- fetch_argv k' uargv (i + 1) ;;
                ret (match rest with Some r => Some ((u32 uarg, len) :: r) | None => None end)
            end
      end
  end.

Definition sys_exec : K Z :=
  opath <- argpath 0 ;;
  match opath with
  | None => ret (-1)
  | Some path =>
      with_argint 1 (fun uargv =>
        oargv <- fetch_argv (Z.to_nat MAXARG) (u32 uargv) 0 ;;
        match oargv with
        | None => ret (-1)
        | Some argv => exec path argv
        end)
  end.

(** No descriptor for one of the ends of a new pipe. *)
Definition pipe_bad (fd0 : Z) (rf wf : nat) : K Z :=
  when (0 <=? fd0) (fdclear fd0) ;;
  fileclose rf ;;
  fileclose wf ;;
  ret (-1).

Definition sys_pipe : K Z :=
  q <- argptr 0 8 ;;
  match q with
  | None => ret (-1)
  | Some fd =>
      r <- pipealloc ;;
      match r with
      | None => ret (-1)
      | Some (rf, wf) =>
          fd0 <- fdalloc rf ;;
          if fd0 <? 0 then pipe_bad fd0 rf wf
          else
            fd1 <- fdalloc wf ;;
            if fd1 <? 0 then pipe_bad fd0 rf wf
            else
              vwrite32 fd fd0 ;;
              vwrite32 (u32 (fd + 4)) fd1 ;;
              ret 0
      end
  end.

(** ** The table *)

(** The handlers of this file by their number in syscall.h. *)
Definition sysfile_table (num : Z) : K Z :=
  match num with
  | 4 => sys_pipe
  | 5 => sys_read
  | 7 => sys_exec
  | 8 => sys_fstat
  | 9 => sys_chdir
  | 10 => sys_dup
  | 15 => sys_open
  | 16 => sys_write
  | 17 => sys_mknod
  | 18 => sys_unlink
  | 19 => sys_link
  | 20 => sys_mkdir
  | 21 => sys_close
  | _ => ret (-1)
  end.

End sysfile.
