(* ===== verification/ProcMem.v ===== *)
(** * Who owns which page

    The invariant of the physical pages over the whole process table: the
    kernel stacks and the address spaces of the processes are disjoint from
    one another and from the free list.  [allocproc], [fork], [fork2],
    [growproc] and the reaping of a zombie preserve it, on success and on
    failure. *)

From S2P Require Import Prelude CString Mem KState Mmu Console Kalloc Vm AddrSpace VmSpec VmGrow.
From S2P Require Import VmFork File Proc.

Section procmem.
Context {LK : Linker} {FS : FsOps}.

(** ** The invariant *)

(** A process with an address space: from the end of fork to the reaping. *)
Definition has_mem (p : proc) : bool :=
  match p_state p with UNUSED | EMBRYO => false | _ => true end.

(** The pages of a process. *)
Definition powns (m : memory) (p : proc) (x : Z) : Prop :=
  (p_kstack p <> 0 /\ x = p_kstack p) \/ (has_mem p = true /\ own m (p_pgdir p) x).

Record pmem (s : kstate) (l : list Z) : Prop := {
  pm_free : free_pages s l;
  pm_page i p x : ptable s !! i = Some p -> powns (mem s) p x -> is_page x;
  pm_off i p x : ptable s !! i = Some p -> powns (mem s) p x -> ~ x ∈ l;
  pm_disj i j p q x : ptable s !! i = Some p -> ptable s !! j = Some q ->
    powns (mem s) p x -> powns (mem s) q x -> i = j;
  pm_kstack i p : ptable s !! i = Some p -> has_mem p = true -> p_kstack p <> 0;
  pm_stack i p : ptable s !! i = Some p -> has_mem p = true -> ~ own (mem s) (p_pgdir p) (p_kstack p);
  pm_as i p : ptable s !! i = Some p -> has_mem p = true -> aspace (mem s) (p_pgdir p) l;
  pm_full i p vb : ptable s !! i = Some p -> has_mem p = true -> uva vb ->
    (present (pte_of (mem s) (p_pgdir p) vb) = true <-> vb < p_sz p);
  pm_sz i p : ptable s !! i = Some p -> has_mem p = true -> 0 <= p_sz p <= KERNBASE;
  pm_unused i p : ptable s !! i = Some p -> p_state p = UNUSED -> p_kstack p = 0
}.

(** The slots and their arrays have the size the C declarations give them. *)
Record pshape (s : kstate) : Prop := {
  ps_len : length (ptable s) = NPROC;
  ps_ofile i p : ptable s !! i = Some p -> length (p_ofile p) = NOFILE;
  ps_name i p : ptable s !! i = Some p -> length (p_name p) = 16%nat;
}.

(** ** Updates of one slot *)

Lemma alter_insert_eq {A} (f : A -> A) (i : nat) (x : A) (l : list A) :
  (i < length l)%nat -> alter f i (<[i := x]> l) = <[i := f x]> l.
Proof.
  intros Hi. apply list_eq. intros j. destruct (decide (i = j)) as [<-|Hne].
  - by rewrite list_lookup_alter_eq, !list_lookup_insert_eq by done.
  - by rewrite list_lookup_alter_ne, !list_lookup_insert_ne by done.
Qed.

Lemma alter_eq_insert {A} (f : A -> A) (i : nat) (x : A) (l : list A) :
  l !! i = Some x -> alter f i l = <[i := f x]> l.
Proof.
  intros Hi. rewrite <- (list_insert_id l i x) at 1 by done.
  apply alter_insert_eq. by eapply lookup_lt_Some.
Qed.

Lemma upd_proc_run i f p s : ptable s !! i = Some p ->
  upd_proc i f s = Ret tt (set_ptable (<[i := f p]> (ptable s)) s).
Proof. intros Hi. unfold upd_proc, modify. by rewrite (alter_eq_insert f i p). Qed.

Lemma proc_at_run i p s : ptable s !! i = Some p -> proc_at i s = Ret p s.
Proof. intros H. unfold proc_at. by rewrite H. Qed.

(** ** One process changes *)

(** The pages that an operation on slot [k] may use: the free ones and those
    of the process in the slot. *)
Definition slot_pages (s : kstate) (l : list Z) (k : nat) (x : Z) : Prop :=
  x ∈ l \/ exists c0, ptable s !! k = Some c0 /\ powns (mem s) c0 x.

Lemma slot_pages_page s l k x : pmem s l -> slot_pages s l k x -> is_page x.
Proof.
  intros Hp [Hx|(c0 & Hk & Ho)]; [eapply free_pages_is_page; [by eapply pm_free|done]|by eapply pm_page].
Qed.

(** The other processes stand by. *)
Lemma pmem_frame s l k (Q : Z -> Prop) m' :
  pmem s l -> frame Q (mem s) m' -> (forall x, Q x -> slot_pages s l k x) ->
  forall i p, ptable s !! i = Some p -> i <> k -> has_mem p = true ->
    (forall vb, pte_of m' (p_pgdir p) vb = pte_of (mem s) (p_pgdir p) vb) /\
    (forall x, own m' (p_pgdir p) x <-> own (mem s) (p_pgdir p) x) /\
    aspace m' (p_pgdir p) l /\
    (forall x a, own (mem s) (p_pgdir p) x -> x <= a < x + 4096 -> m' a = mem s a).
Proof.
  intros Hp Hf HQ i p Hi Hne Hm. eapply bystander; [exact Hf| | |by eapply pm_as].
  - intros q Hq. eapply slot_pages_page; eauto.
  - intros q Hq [Hx|(c0 & Hk & Ho)]%HQ; [eapply (pm_off _ _ Hp i p q Hi); [by right|done]|].
    apply Hne. eapply (pm_disj _ _ Hp i k p c0 q Hi Hk); [by right|done].
Qed.

(** A state in which only slot [k] changed, and its pages and the free ones
    were redistributed. *)
Lemma pmem_slot s s' l l' k c (Q : Z -> Prop) :
  pmem s l -> frame Q (mem s) (mem s') -> (forall x, Q x -> slot_pages s l k x) ->
  free_pages s' l' -> (forall x, x ∈ l' -> slot_pages s l k x) ->
  ptable s' = <[k := c]> (ptable s) -> (k < length (ptable s))%nat ->
  (forall x, powns (mem s') c x -> slot_pages s l k x /\ ~ x ∈ l') ->
  (has_mem c = true -> p_kstack c <> 0 /\ ~ own (mem s') (p_pgdir c) (p_kstack c) /\ aspace (mem s') (p_pgdir c) l' /\
     (forall vb, uva vb -> (present (pte_of (mem s') (p_pgdir c) vb) = true <-> vb < p_sz c)) /\
     0 <= p_sz c <= KERNBASE) ->
  (p_state c = UNUSED -> p_kstack c = 0) ->
  pmem s' l'.
Proof.
  intros Hp Hf HQ Hf' Hsub Hpt Hk Hc Hcm Hcu.
  pose proof (pmem_frame s l k Q (mem s') Hp Hf HQ) as Hst.
  assert (forall i p, ptable s' !! i = Some p -> (i = k /\ p = c) \/ (i <> k /\ ptable s !! i = Some p)) as Hl.
  { intros i p. rewrite Hpt. destruct (decide (i = k)) as [->|Hne].
    - rewrite list_lookup_insert_eq by done. intros [= <-]. by left.
    - rewrite list_lookup_insert_ne by done. by right. }
  assert (forall i p x, ptable s !! i = Some p -> i <> k -> powns (mem s') p x -> powns (mem s) p x) as Hback.
  { intros i p x Hi Hne [?|[Hm Ho]]; [by left|right]. split; [done|]. by apply (Hst i p Hi Hne Hm). }
  assert (forall i p x, ptable s !! i = Some p -> i <> k -> powns (mem s') p x -> ~ slot_pages s l k x) as Hoff.
  { intros i p x Hi Hne Ho%(Hback i p x Hi Hne) [Hx|(c0 & Hc0 & Hx)].
    - by eapply pm_off.
    - apply Hne. by eapply (pm_disj _ _ Hp i k p c0 x). }
  constructor; [done|..].
  - intros i p x [[-> ->]|[Hne Hi]]%Hl Ho.
    + eapply slot_pages_page; [done|by apply Hc].
    + eapply (pm_page _ _ Hp i p x Hi). by eapply Hback.
  - intros i p x [[-> ->]|[Hne Hi]]%Hl Ho; [by apply Hc|]. intros Hin%Hsub. by eapply Hoff.
  - intros i j p q x [[-> ->]|[Hne Hi]]%Hl [[-> ->]|[Hne' Hj]]%Hl Ho Ho'; [done|exfalso|exfalso|].
    + eapply (Hoff j q x Hj); [done..|by apply Hc].
    + eapply (Hoff i p x Hi); [done..|by apply Hc].
    + eapply (pm_disj _ _ Hp i j p q x Hi Hj); by eapply Hback.
  - intros i p [[-> ->]|[Hne Hi]]%Hl Hm; [by apply Hcm|]. by eapply pm_kstack.
  - intros i p [[-> ->]|[Hne Hi]]%Hl Hm; [by apply Hcm|].
    destruct (Hst i p Hi Hne Hm) as (_ & Ho & _). rewrite Ho. by eapply pm_stack.
  - intros i p [[-> ->]|[Hne Hi]]%Hl Hm; [by apply Hcm|].
    eapply aspace_list; [by apply (Hst i p Hi Hne Hm)|].
    intros x Hx Hin%Hsub. eapply (Hoff i p x Hi); [done|by right|done].
  - intros i p vb [[-> ->]|[Hne Hi]]%Hl Hm Hu; [by apply Hcm|].
    destruct (Hst i p Hi Hne Hm) as (Hpte & _). rewrite Hpte. by eapply pm_full.
  - intros i p [[-> ->]|[Hne Hi]]%Hl Hm; [by apply Hcm|]. by eapply pm_sz.
  - intros i p [[-> ->]|[Hne Hi]]%Hl Hm; [by apply Hcu|]. by eapply pm_unused.
Qed.

(** Changes that do not concern the pages. *)
Definition same_pages (p p' : proc) : Prop :=
  p_kstack p' = p_kstack p /\ p_pgdir p' = p_pgdir p /\ p_sz p' = p_sz p /\
  has_mem p' = has_mem p /\ (p_state p' = UNUSED -> p_state p = UNUSED).

Lemma same_pages_owns m p p' x : same_pages p p' -> (powns m p' x <-> powns m p x).
Proof. intros (E1 & E2 & _ & E3 & _). unfold powns. by rewrite E1, E2, E3. Qed.

Lemma pmem_same s s' l : pmem s l -> mem s' = mem s -> freelist s' = freelist s ->
  (forall i p', ptable s' !! i = Some p' -> exists p, ptable s !! i = Some p /\ same_pages p p') ->
  pmem s' l.
Proof.
  intros Hp Hm Hf Hpt. constructor; rewrite ?Hm.
  - eapply free_pages_ext; [done|done|by eapply pm_free].
  - intros i p' x (p & Hi & Hs)%Hpt Ho. rewrite (same_pages_owns _ _ _ _ Hs) in Ho. by eapply pm_page.
  - intros i p' x (p & Hi & Hs)%Hpt Ho. rewrite (same_pages_owns _ _ _ _ Hs) in Ho. by eapply pm_off.
  - intros i j p' q' x (p & Hi & Hs)%Hpt (q & Hj & Hs')%Hpt Ho Ho'.
    rewrite (same_pages_owns _ _ _ _ Hs) in Ho. rewrite (same_pages_owns _ _ _ _ Hs') in Ho'.
    by eapply (pm_disj _ _ Hp i j p q x).
  - intros i p' (p & Hi & -> & _ & _ & E & _)%Hpt. rewrite E. by eapply pm_kstack.
  - intros i p' (p & Hi & -> & -> & _ & E & _)%Hpt. rewrite E. by eapply pm_stack.
  - intros i p' (p & Hi & _ & -> & _ & E & _)%Hpt. rewrite E. by eapply pm_as.
  - intros i p' vb (p & Hi & _ & -> & -> & E & _)%Hpt. rewrite E. by eapply pm_full.
  - intros i p' (p & Hi & _ & _ & -> & E & _)%Hpt. rewrite E. by eapply pm_sz.
  - intros i p' (p & Hi & -> & _ & _ & _ & E)%Hpt. intros Hu. eapply pm_unused; eauto.
Qed.

Lemma same_pages_refl p : same_pages p p.
Proof. done. Qed.

(** ** allocproc *)

Definition embryo (p0 : proc) (pid t : Z) : proc :=
  set_p_etime 0 (set_p_rtime 0 (set_p_ctime (i32 t) (set_p_priority 60
    (set_p_pid pid (set_p_state EMBRYO p0))))).

Definition new_proc (p0 : proc) (pid t ks : Z) : proc :=
  set_p_context (mk_context 0 0 0 0 forkret_addr)
    (set_p_tf junk_trapframe (set_p_kstack ks (embryo p0 pid t))).

Definition unused (p : proc) : bool := bool_decide (p_state p = UNUSED).

(** What allocproc does after it found the slot [i]. *)
Definition allocproc_stack (i : nat) : K (option nat) :=
  ks <- kalloc ;;
  upd_proc i (set_p_kstack ks) ;;
  if ks =? 0 then upd_proc i (set_p_state UNUSED) ;; ret None
  else
    upd_proc i (set_p_tf junk_trapframe) ;;
    store32 (ks + KSTACKSIZE - sizeof_trapframe - 4) trapret_addr ;;
    upd_proc i (set_p_context (mk_context 0 0 0 0 forkret_addr)) ;;
    ret (Some i).

Lemma allocproc_full s : held s = [] -> find_index unused (ptable s) = None ->
  allocproc s = Ret None s.
Proof.
  intros Hh Hfi. unfold allocproc. rewrite run_acquire by (rewrite Hh; apply not_elem_of_nil). krun.
  change (fun p : proc => bool_decide (p_state p = UNUSED)) with unused. rewrite Hfi.
  erewrite run_release; [|by ksimpl|rewrite Hh; apply not_elem_of_nil]. knorm.
  by rewrite set_held_id.
Qed.

Lemma allocproc_found s i p0 : held s = [] -> find_index unused (ptable s) = Some i ->
  ptable s !! i = Some p0 ->
  allocproc s = allocproc_stack i (set_ptable (<[i := embryo p0 (nextpid s) (ticks s)]> (ptable s))
                                     (set_nextpid (i32 (nextpid s + 1)) s)).
Proof.
  intros Hh Hfi Hp0. pose proof (lookup_lt_Some _ _ _ Hp0) as Hlt.
  unfold allocproc. rewrite run_acquire by (rewrite Hh; apply not_elem_of_nil). krun.
  change (fun p : proc => bool_decide (p_state p = UNUSED)) with unused. rewrite Hfi. krun.
  erewrite run_release; [|by ksimpl|rewrite Hh; apply not_elem_of_nil].
  ksimpl. rewrite (alter_eq_insert _ i p0 (ptable s)) by done. rewrite !alter_insert_eq by done.
  knorm. rewrite set_held_id by (by ksimpl). unfold allocproc_stack, embryo. reflexivity.
Qed.

Lemma allocproc_spec s l : free_pages s l -> held s = [] ->
  match find_index unused (ptable s) with
  | None => allocproc s = Ret None s
  | Some i => exists p0, ptable s !! i = Some p0 /\ p_state p0 = UNUSED /\
      let s0 := set_nextpid (i32 (nextpid s + 1)) s in
      match l with
      | [] => allocproc s = Ret None (set_ptable (<[i := set_p_state UNUSED
                (set_p_kstack 0 (embryo p0 (nextpid s) (ticks s)))]> (ptable s)) s0)
      | ks :: l1 => exists f, let s' := set_mem (st32 (mem s) (ks + 4016) trapret_addr) (set_freelist f
                 (set_ptable (<[i := new_proc p0 (nextpid s) (ticks s) ks]> (ptable s)) s0)) in
          allocproc s = Ret (Some i) s' /\ free_pages s' l1 /\ is_page ks /\ ~ ks ∈ l1
      end
  end.
Proof.
  intros Hf Hh. destruct (find_index unused (ptable s)) as [i|] eqn:Hfi; [|by apply allocproc_full].
  pose proof Hfi as [(p0 & Hp0 & Hu) _]%find_index_Some. apply bool_decide_eq_true in Hu.
  exists p0. split; [done|]. split; [done|]. cbn zeta.
  rewrite (allocproc_found s i p0 Hh Hfi Hp0). pose proof (lookup_lt_Some _ _ _ Hp0) as Hlt.
  set (s0 := set_ptable _ _). unfold allocproc_stack.
  assert (free_pages s0 l) as Hf0 by done.
  assert (LkKmem ∉ held s0) as Hk0 by (unfold s0; ksimpl; rewrite Hh; apply not_elem_of_nil).
  destruct l as [|ks l1].
  - rewrite (bind_ret_l _ _ _ _ _ (kalloc_spec s0 [] Hf0 Hk0)). unfold s0. krun.
    rewrite Z.eqb_refl. krun. by rewrite !alter_insert_eq.
  - destruct (kalloc_pop s0 ks l1 Hf0 Hk0) as (f & Hr & Hf1 & Hp & Hn).
    exists f. rewrite (bind_ret_l _ _ _ _ _ Hr). unfold s0. krun.
    rewrite (proj2 (Z.eqb_neq ks 0)) by (by apply page_neq_0). krun.
    replace (ks + KSTACKSIZE - sizeof_trapframe - 4) with (ks + 4016)
      by (unfold KSTACKSIZE, sizeof_trapframe; lia).
    rewrite !alter_insert_eq by done. split; [unfold ret, new_proc; knorm; reflexivity|]. split; [|done].
    pose proof (free_pages_mem (eq ks) _ l1 (st32 (mem s) (ks + 4016) trapret_addr) Hf1) as Hf2.
    eapply free_pages_ext; [..|apply Hf2]; [by ksimpl|by ksimpl| |by intros ? <-|by intros q Hq <-].
    apply frame_st32. lia.
Qed.

(** The invariant after allocproc took the slot [i] and the stack [ks]. *)
Lemma allocproc_pmem s l1 i p0 ks f :
  pmem s (ks :: l1) -> ptable s !! i = Some p0 -> p_state p0 = UNUSED -> is_page ks -> ~ ks ∈ l1 ->
  let s' := set_mem (st32 (mem s) (ks + 4016) trapret_addr) (set_freelist f
              (set_ptable (<[i := new_proc p0 (nextpid s) (ticks s) ks]> (ptable s))
                (set_nextpid (i32 (nextpid s + 1)) s))) in
  free_pages s' l1 -> pmem s' l1.
Proof.
  intros Hp Hi Hu Hks Hn s' Hf. pose proof (lookup_lt_Some _ _ _ Hi) as Hlt.
  assert (frame (eq ks) (mem s) (mem s')) as M by (apply frame_st32; lia).
  assert (slot_pages s (ks :: l1) i ks) as Hsl by (left; apply list_elem_of_here).
  eapply (pmem_slot s s' (ks :: l1) l1 i (new_proc p0 (nextpid s) (ticks s) ks) (eq ks));
    [done|done|by intros ? <-|done| | |done| |done|done].
  - intros x Hx. left. by apply list_elem_of_further.
  - unfold s'. by ksimpl.
  - intros x [[_ ->]|[? _]]; done.
Qed.

End procmem.
