(* ===== verification/ForkSpec.v ===== *)
(** * What fork does

    The child's slot, its open files with their reference counts, its address
    space and the return value, on success and on each failure; the invariant
    of the pages ([pmem]) is preserved. *)

From S2P Require Import Prelude CString Mem KState Mmu Console Kalloc Vm AddrSpace VmSpec VmGrow.
From S2P Require Import VmFork File Proc ProcMem.

Section forkspec.
Context {LK : Linker} {FS : FsOps}.

(** ** Duplicating the open files *)

(** The descriptors of [fds] that refer to file [f]. *)
Definition refs_in (fds : list nat) (p : proc) (f : nat) : nat :=
  length (filter (fun fd => p_ofile p !! fd = Some (Some f)) fds).

(** The open files exist and their counts can grow. *)
Definition files_ok (s : kstate) (fds : list nat) (p : proc) : Prop :=
  forall fd, fd ∈ fds -> exists o, p_ofile p !! fd = Some o /\
    forall f, o = Some f -> exists x, ftable s !! f = Some x /\ 1 <= f_ref x < 2 ^ 31 - Z.of_nat (length fds).

(** The array of the child after the loop. *)
Fixpoint dup_ofile (fds : list nat) (p : proc) (fs : list (option nat)) : list (option nat) :=
  match fds with
  | [] => fs
  | fd :: fds' =>
      dup_ofile fds' p (match p_ofile p !! fd with Some (Some f) => <[fd := Some f]> fs | _ => fs end)
  end.

Lemma filedup_run f x s : ftable s !! f = Some x -> LkFtable ∉ held s -> 1 <= f_ref x ->
  filedup f s = Ret f (set_ftable (<[f := set_f_ref (i32 (f_ref x + 1)) x]> (ftable s)) s).
Proof.
  intros Hf Hl Hr. unfold filedup. rewrite run_acquire by done.
  unfold file_at, upd_file. unfold bind at 1. ksimpl. rewrite Hf.
  rewrite (proj2 (Z.ltb_ge _ _)) by lia. krun.
  rewrite (alter_eq_insert _ f x) by done.
  erewrite run_release; [|by ksimpl|done]. knorm. rewrite set_held_id by (by ksimpl). done.
Qed.

Lemma dup_files_spec fds s me np p c pt :
  ptable s = <[np := c]> pt -> pt !! me = Some p -> me <> np -> (np < length pt)%nat ->
  LkFtable ∉ held s -> files_ok s fds p ->
  exists ft, dup_files fds me np s =
      Ret tt (set_ftable ft (set_ptable (<[np := set_p_ofile (dup_ofile fds p (p_ofile c)) c]> pt) s)) /\
    (forall f x, ftable s !! f = Some x ->
       exists x', ft !! f = Some x' /\ x' = set_f_ref (f_ref x') x /\
         (1 <= f_ref x < 2 ^ 31 - Z.of_nat (length fds) ->
          f_ref x' = f_ref x + Z.of_nat (refs_in fds p f))).
Proof.
  revert s c. induction fds as [|fd fds IH]; intros s c Hpt Hme Hne Hnp Hl Hok.
  { exists (ftable s). cbn [dup_files dup_ofile]. split.
    - replace (set_p_ofile (p_ofile c) c) with c by (by destruct c). rewrite <- Hpt. by destruct s.
    - intros f x Hx. exists x. split; [done|]. split; [by destruct x|]. unfold refs_in. cbn. lia. }
  cbn [dup_files dup_ofile].
  assert (ptable s !! me = Some p) as Hme' by (rewrite Hpt, list_lookup_insert_ne by done; done).
  rewrite (run_proc_at _ _ _ _ Hme').
  destruct (Hok fd (list_elem_of_here _ _)) as (o & Ho & Hof). rewrite Ho.
  assert (forall s', ftable s' = ftable s -> files_ok s' fds p) as Hok'.
  { intros s' Hs' fd' Hin. destruct (Hok fd') as (o' & Ho' & Hof'); [by apply list_elem_of_further|].
    exists o'. split; [done|]. intros f Hf. rewrite Hs'. destruct (Hof' f Hf) as (x & Hx & Hr).
    exists x. split; [done|]. cbn in Hr. lia. }
  destruct o as [f|].
  2:{ rewrite run_ret. destruct (IH s c Hpt Hme Hne Hnp Hl (Hok' s eq_refl)) as (ft & Hr & Hft).
      exists ft. split; [done|]. intros f x Hx. destruct (Hft f x Hx) as (x' & H1 & H2 & H3).
      exists x'. split; [done|]. split; [done|]. intros Hb. rewrite H3 by (cbn in Hb; lia).
      unfold refs_in. rewrite filter_cons_False; [done|]. by rewrite Ho. }
  destruct (Hof f eq_refl) as (x & Hx & Hxr). cbn [length] in Hxr.
  rewrite run_bind. unfold bind at 1. rewrite (filedup_run f x s Hx Hl) by lia. krun.
  rewrite Hpt, alter_insert_eq by done.
  set (s1 := set_ptable _ _).
  destruct (IH s1 (set_p_ofile (<[fd := Some f]> (p_ofile c)) c)) as (ft & Hr & Hft); try done.
  { intros fd' Hin. destruct (Hok fd') as (o' & Ho' & Hof'); [by apply list_elem_of_further|].
    exists o'. split; [done|]. intros g Hg. destruct (Hof' g Hg) as (y & Hy & Hyr). unfold s1. ksimpl.
    cbn [length] in Hyr. destruct (decide (g = f)) as [->|Hgf].
    - assert (y = x) as -> by congruence. eexists.
      split; [apply list_lookup_insert_eq; by eapply lookup_lt_Some|]. cbn. rewrite i32_id by lia. lia.
    - exists y. rewrite list_lookup_insert_ne by done. split; [done|]. lia. }
  exists ft. split.
  { rewrite Hr. unfold s1. knorm. done. }
  intros g y Hy. unfold s1 in Hft. destruct (decide (g = f)) as [->|Hgf].
  - assert (y = x) as -> by congruence.
    destruct (Hft f (set_f_ref (i32 (f_ref x + 1)) x)) as (x' & H1 & H2 & H3).
    { ksimpl. apply list_lookup_insert_eq. by eapply lookup_lt_Some. }
    exists x'. split; [done|]. split; [by rewrite H2|]. intros Hb. cbn [length] in Hb.
    cbn [f_ref set_f_ref] in H3. rewrite i32_id in H3 by lia. rewrite H3 by lia.
    unfold refs_in. rewrite filter_cons_True by done. cbn [length]. lia.
  - destruct (Hft g y) as (x' & H1 & H2 & H3).
    { ksimpl. rewrite list_lookup_insert_ne by done. done. }
    exists x'. split; [done|]. split; [done|]. intros Hb. cbn [length] in Hb. rewrite H3 by lia.
    unfold refs_in. rewrite filter_cons_False; [done|]. rewrite Ho. congruence.
Qed.

(** ** The child *)

Lemma idup_run i x s : icache s !! i = Some x -> LkIcache ∉ held s ->
  idup (Some i) s = Ret (Some i) (set_icache (<[i := set_i_ref (i32 (i_ref x + 1)) x]> (icache s)) s).
Proof.
  intros Hi Hl. unfold idup. rewrite run_acquire by done.
  unfold inode_at, upd_inode. unfold bind at 1. ksimpl. rewrite Hi. krun.
  rewrite (alter_eq_insert _ i x) by done.
  erewrite run_release; [|by ksimpl|done]. knorm. rewrite set_held_id by (by ksimpl). done.
Qed.

(** The slot of the child [c] of [p] in slot [me], with directory [d] and the
    change [g] of the priority. *)
Definition child_of (p c : proc) (me : nat) (d : Z) (nm : list Z) (g : proc -> proc) : proc :=
  set_p_state RUNNABLE (g (set_p_name nm (set_p_cwd (p_cwd p)
    (set_p_ofile (dup_ofile (seq 0 NOFILE) p (p_ofile c))
      (set_p_tf (set_tf_eax 0 (p_tf p)) (set_p_parent (Some me) (set_p_sz (p_sz p) (set_p_pgdir d c)))))))).

(** The end of fork, from the state with the child's address space. *)
Definition fork_finish (me np : nat) (after : K unit) : K Z :=
  p <- proc_at me ;;
  upd_proc np (set_p_sz (p_sz p)) ;;
  upd_proc np (set_p_parent (Some me)) ;;
  upd_proc np (set_p_tf (set_tf_eax 0 (p_tf p))) ;;
  dup_files (seq 0 NOFILE) me np ;;
  p <- proc_at me ;;
  cwd <- idup (p_cwd p) ;;
  upd_proc np (set_p_cwd cwd) ;;
  set_name np (p_name p) ;;
  after ;;
  q <- proc_at np ;;
  acquire LkPtable ;;
  upd_proc np (set_p_state RUNNABLE) ;;
  release LkPtable ;;
  ret (p_pid q).

(** What fork and fork2 do between the name and the pid. *)
Definition sets_priority (np : nat) (after : K unit) (g : proc -> proc) : Prop :=
  (forall c, exists pr, g c = set_p_priority pr c) /\
  (forall s c, ptable s !! np = Some c -> after s = Ret tt (set_ptable (<[np := g c]> (ptable s)) s)).

Lemma fork_finish_spec s me np p c after g i x :
  ptable s !! me = Some p -> ptable s !! np = Some c -> me <> np -> held s = [] ->
  files_ok s (seq 0 NOFILE) p -> p_cwd p = Some i -> icache s !! i = Some x ->
  length (p_name p) = 16%nat -> length (p_name c) = 16%nat -> sets_priority np after g ->
  exists ft nm, fork_finish me np after s = Ret (p_pid c)
      (set_icache (<[i := set_i_ref (i32 (i_ref x + 1)) x]> (icache s))
        (set_ftable ft
          (set_ptable (<[np := set_p_state RUNNABLE (g (set_p_name nm (set_p_cwd (p_cwd p)
             (set_p_ofile (dup_ofile (seq 0 NOFILE) p (p_ofile c)) (set_p_tf (set_tf_eax 0 (p_tf p))
               (set_p_parent (Some me) (set_p_sz (p_sz p) c)))))))]> (ptable s)) s))) /\
    length nm = 16%nat /\ cstr nm = take 15 (cstr (p_name p)) /\
    (forall f y, ftable s !! f = Some y -> exists y', ft !! f = Some y' /\ y' = set_f_ref (f_ref y') y /\
       (1 <= f_ref y < 2 ^ 31 - 16 -> f_ref y' = f_ref y + Z.of_nat (refs_in (seq 0 NOFILE) p f))).
Proof.
  intros Hme Hnp Hne Hh Hok Hcwd Hi Hn1 Hn2 [Hg Hafter].
  assert (forall lk : lockid, lk ∉ held s) as Hfree by (intros lk; rewrite Hh; apply not_elem_of_nil).
  pose proof (lookup_lt_Some _ _ _ Hnp) as Hlt.
  unfold fork_finish. rewrite (run_proc_at _ _ _ _ Hme). krun.
  rewrite (alter_eq_insert _ np c (ptable s)), !alter_insert_eq by done.
  set (c1 := set_p_tf _ _).
  destruct (dup_files_spec (seq 0 NOFILE) (set_ptable (<[np := c1]> (ptable s)) s) me np p c1 (ptable s))
    as (ft & Hr & Hft); try done.
  erewrite bind_ret_l by exact Hr. ksimpl.
  erewrite run_proc_at; [|ksimpl; rewrite list_lookup_insert_ne by done; exact Hme].
  rewrite Hcwd. erewrite bind_ret_l by (apply (idup_run i x); [by ksimpl|by ksimpl]). ksimpl. krun.
  rewrite alter_insert_eq by done.
  destruct (safestrcpy_spec (p_name c) (p_name p) 16) as (nm & Hnm & Hl & _ & Hc); [rewrite Hn2; lia|rewrite Hn1; lia|].
  unfold set_name. rewrite run_bind.
  erewrite run_proc_at; [|ksimpl; by apply list_lookup_insert_eq]. unfold c1. ksimpl. rewrite Hnm. krun.
  rewrite alter_insert_eq by done.
  erewrite bind_ret_l by (apply Hafter; ksimpl; by apply list_lookup_insert_eq). ksimpl.
  erewrite run_proc_at; [|ksimpl; apply list_lookup_insert_eq; by rewrite length_insert].
  rewrite run_acquire by (by ksimpl). krun.
  rewrite list_insert_insert_eq, alter_insert_eq by done.
  erewrite run_release; [|by ksimpl|done].
  destruct (Hg (set_p_name nm (set_p_cwd (Some i) (set_p_ofile (dup_ofile (seq 0 NOFILE) p (p_ofile c))
    (set_p_tf (set_tf_eax 0 (p_tf p)) (set_p_parent (Some me) (set_p_sz (p_sz p) c))))))) as [pr Hpr].
  exists ft, nm. split; [|split; [lia|split; [done|]]].
  - unfold ret. rewrite !Hpr. ksimpl. knorm. rewrite set_held_id by (by ksimpl). done.
  - intros f y Hy. destruct (Hft f y Hy) as (y' & H1 & H2 & H3). exists y'. done.
Qed.

(** The process that forks: its files and its directory are there. *)
Record parent_ok (s : kstate) (me : nat) (p : proc) : Prop := {
  pa_slot : ptable s !! me = Some p;
  pa_mem : has_mem p = true;
  pa_files : files_ok s (seq 0 NOFILE) p;
  pa_cwd : exists i x, p_cwd p = Some i /\ icache s !! i = Some x
}.

(** A child [ch] of [p] made in the slot of [c]. *)
Record forked (s s' : kstate) (l l' : list Z) (me np : nat) (p c ch : proc) (g : proc -> proc) : Prop := {
  fk_slot : ptable s' = <[np := ch]> (ptable s);
  fk_child : exists d nm, ch = child_of p c me d nm g /\ length nm = 16%nat /\
               cstr nm = take 15 (cstr (p_name p));
  fk_copied vb : uva vb -> vb < p_sz p -> copied (mem s') (p_pgdir p) (p_pgdir ch) vb;
  fk_kernel e : e ∈ kmap -> kmapped (mem s') (p_pgdir ch) e;
  fk_pages x : powns (mem s') ch x \/ x ∈ l' <-> powns (mem s) c x \/ x ∈ l;
  fk_frame : frame (fun x => x ∈ l) (mem s) (mem s');
  fk_files f y : ftable s !! f = Some y -> exists y', ftable s' !! f = Some y' /\
    y' = set_f_ref (f_ref y') y /\
    (1 <= f_ref y < 2 ^ 31 - 16 -> f_ref y' = f_ref y + Z.of_nat (refs_in (seq 0 NOFILE) p f));
  fk_rest : held s' = held s /\ cur s' = cur s /\ nextpid s' = nextpid s /\ ticks s' = ticks s
}.

Lemma child_of_fields p c me d nm g :
  (forall c, exists pr, g c = set_p_priority pr c) ->
  let ch := child_of p c me d nm g in
  p_state ch = RUNNABLE /\ p_pgdir ch = d /\ p_kstack ch = p_kstack c /\ p_sz ch = p_sz p /\
  p_pid ch = p_pid c /\ p_parent ch = Some me /\ p_tf ch = set_tf_eax 0 (p_tf p).
Proof.
  intros Hg ch. unfold ch, child_of. match goal with |- context [g ?x] => destruct (Hg x) as [pr ->] end.
  done.
Qed.

(** Failure of the copy: the slot is UNUSED again and its stack is free. *)
Lemma fork_child_fail s me np p c after l s1 l1 :
  pmem s l -> ptable s !! me = Some p -> ptable s !! np = Some c -> me <> np -> held s = [] ->
  p_state c = EMBRYO -> p_kstack c <> 0 ->
  copyuvm (p_pgdir p) (p_sz p) s = Ret 0 s1 -> vmstep s s1 -> free_pages s1 l1 ->
  frame (fun x => x ∈ l) (mem s) (mem s1) -> (forall x, x ∈ l1 <-> x ∈ l) ->
  exists s' l', fork_child me np after s = Ret (-1) s' /\ pmem s' l' /\
    ptable s' = <[np := set_p_state UNUSED (set_p_kstack 0 (set_p_pgdir 0 c))]> (ptable s) /\
    (forall x, x ∈ l' <-> x ∈ l \/ x = p_kstack c) /\
    frame (slot_pages s l np) (mem s) (mem s') /\
    held s' = held s /\ cur s' = cur s /\ nextpid s' = nextpid s /\ ticks s' = ticks s.
Proof.
  intros Hp Hme Hnp Hne Hh Hst Hks Hr S1 F1 M1 R1. pose proof (lookup_lt_Some _ _ _ Hnp) as Hlt.
  assert (powns (mem s) c (p_kstack c)) as Hown by (by left).
  unfold fork_child. rewrite (run_proc_at _ _ _ _ Hme). erewrite bind_ret_l by exact Hr. krun.
  rewrite Z.eqb_refl, (vmstep_ptable s s1), (alter_eq_insert _ np c) by done.
  erewrite run_proc_at; [|ksimpl; by apply list_lookup_insert_eq]. ksimpl.
  set (s2 := set_ptable _ s1).
  destruct (kfree_spec s2 l1 (p_kstack c)) as (s3 & Hk & F3 & Hs3 & M3).
  { eapply free_pages_ext; [..|exact F1]; done. }
  { unfold s2. ksimpl. rewrite (vmstep_held s s1), Hh by done. apply not_elem_of_nil. }
  { by eapply pm_page. }
  { rewrite R1. by eapply pm_off. }
  erewrite bind_ret_l by exact Hk. krun.
  assert (ptable s3 = <[np := set_p_pgdir 0 c]> (ptable s)) as Hpt3 by (by rewrite Hs3).
  rewrite Hpt3, !alter_insert_eq by done.
  eexists _, (p_kstack c :: l1). split; [done|].
  assert (forall x, x ∈ p_kstack c :: l1 -> slot_pages s l np x) as Hsl.
  { intros x [->|Hx%R1]%elem_of_cons; [right; eauto|by left]. }
  assert (frame (slot_pages s l np) (mem s) (mem s3)) as M13.
  { eapply frame_trans; (eapply frame_weaken; [|eassumption]); [intros x Hx; by left|].
    intros x <-. right. eauto. }
  split; [|split; [by ksimpl|split; [|split; [by ksimpl|]]]].
  - eapply (pmem_slot s _ l _ np _ (slot_pages s l np) Hp); [by ksimpl|done| |done|by ksimpl|done| |done|by ksimpl].
    + eapply free_pages_ext; [..|exact F3]; by ksimpl.
    + intros x [[Hx _]|[Hx _]]; [by ksimpl_in Hx|done].
  - intros x. rewrite elem_of_cons, R1. tauto.
  - ksimpl. rewrite Hs3. unfold s2. ksimpl. unfold vmstep in S1. rewrite S1. done.
Qed.

(** Success: the invariant holds with the child in its slot. *)
Lemma forked_pmem s s' l l' me np p c ch g :
  pmem s l -> pshape s -> ptable s !! np = Some c -> p_state c = EMBRYO -> p_kstack c <> 0 ->
  parent_ok s me p ->
  (forall c, exists pr, g c = set_p_priority pr c) ->
  free_pages s' l' -> aspace (mem s') (p_pgdir ch) l' ->
  (forall x, res (mem s') (p_pgdir ch) l' x <-> x ∈ l) ->
  (forall vb, uva vb -> p_sz p <= vb -> pte_of (mem s') (p_pgdir ch) vb = 0) ->
  forked s s' l l' me np p c ch g ->
  pmem s' l'.
Proof.
  intros Hp Hsh Hnp Hst Hks [Hme Hm _ _] Hg Hf' Ha Hres Hz [F1 (d & nm & -> & _) F3 F4 F5 F6 F7 F8].
  pose proof (lookup_lt_Some _ _ _ Hnp) as Hlt.
  destruct (child_of_fields p c me d nm g Hg) as (E1 & E2 & E3 & E4 & E5 & E6 & E7).
  set (ch := child_of p c me d nm g) in *.
  assert (powns (mem s) c (p_kstack c)) as Hown by (by left).
  assert (forall x, own (mem s') d x -> x ∈ l) as Hol.
  { intros x Hx. apply Hres. left. by rewrite E2. }
  pose proof (pm_off _ _ Hp np c _ Hnp Hown) as Hkl.
  eapply (pmem_slot s s' l l' np ch (fun x => x ∈ l)); [done|done|by left|done| |done|done| | |by rewrite E1].
  - intros x Hx. left. apply Hres. by right.
  - intros x [[Hk ->]|[_ Ho]].
    + rewrite E3. split; [right; eauto|]. intros Hx. apply Hkl. apply Hres. by right.
    + rewrite E2 in Ho. split; [left; auto|]. eapply as_free; [exact Ha|by rewrite E2].
  - intros _. rewrite E2, E3, E4 in *. split; [done|]. split; [intros H; by apply Hkl, Hol|]. split; [done|].
    split; [|by eapply pm_sz]. intros vb Hu. split.
    + intros Hpr. destruct (decide (vb < p_sz p)) as [?|Hge]; [done|].
      rewrite Hz in Hpr by (done || lia). done.
    + intros Hlt'. by destruct (F3 vb Hu Hlt') as [? _].
Qed.

Lemma fork_child_spec s me np p c after g l :
  pmem s l -> pshape s -> parent_ok s me p -> ptable s !! np = Some c -> me <> np -> held s = [] ->
  p_state c = EMBRYO -> p_kstack c <> 0 -> sets_priority np after g ->
  exists r s' l', fork_child me np after s = Ret r s' /\ pmem s' l' /\
    ((r = p_pid c /\ exists ch, forked s s' l l' me np p c ch g) \/
     (r = -1 /\ ptable s' = <[np := set_p_state UNUSED (set_p_kstack 0 (set_p_pgdir 0 c))]> (ptable s) /\
      (forall x, x ∈ l' <-> x ∈ l \/ x = p_kstack c) /\
      frame (slot_pages s l np) (mem s) (mem s') /\
      held s' = held s /\ cur s' = cur s /\ nextpid s' = nextpid s /\ ticks s' = ticks s)).
Proof.
  intros Hp Hsh Hpa Hnp Hne Hh Hst Hks Haf. pose proof Hpa as [Hme Hm Hfi (i & x & Hcwd & Hi)].
  pose proof (lookup_lt_Some _ _ _ Hnp) as Hlt.
  destruct (copyuvm_spec s (p_pgdir p) (p_sz p) l) as (d & s1 & l1 & Hr & S1 & F1 & M1 & Hcase).
  { by eapply pm_free. } { by eapply pm_as. } { rewrite Hh. apply not_elem_of_nil. }
  { by eapply pm_sz. } { intros vb Hu Hv. by eapply pm_full. }
  destruct Hcase as [(Hd & A1 & Sep & R1 & C1 & Z1 & K1)|(-> & R1)].
  2:{ destruct (fork_child_fail s me np p c after l s1 l1) as (s' & l' & H); try done.
      exists (-1), s', l'. destruct H as (H1 & H2 & H3). auto 10. }
  set (s2 := set_ptable (<[np := set_p_pgdir d c]> (ptable s)) s1).
  destruct (fork_finish_spec s2 me np p (set_p_pgdir d c) after g i x) as (ft & nm & Hff & Hn1 & Hn2 & Hft).
  { unfold s2. ksimpl. by rewrite list_lookup_insert_ne. }
  { unfold s2. ksimpl. by apply list_lookup_insert_eq. }
  { done. } { unfold s2. ksimpl. by rewrite (vmstep_held s s1). }
  { intros fd Hfd. unfold s2. ksimpl. rewrite (vmstep_ftable s s1) by done. by apply Hfi. }
  { done. } { unfold s2. ksimpl. by rewrite (vmstep_icache s s1). }
  { by eapply ps_name. } { ksimpl. by eapply ps_name. } { done. }
  set (s' := set_icache _ _) in Hff. set (ch := child_of p c me d nm g).
  assert (forked s s' l l1 me np p c ch g) as Hfk.
  { assert (mem s' = mem s1) as Hm' by done.
    destruct (child_of_fields p c me d nm g (proj1 Haf)) as (E1 & E2 & E3 & _). fold ch in E1, E2, E3.
    constructor.
    - unfold s', s2. ksimpl. by rewrite list_insert_insert_eq.
    - by exists d, nm.
    - rewrite Hm', E2. auto.
    - rewrite Hm', E2. auto.
    - intros y. rewrite Hm'. unfold powns, has_mem. rewrite E1, E2, E3, Hst.
      split.
      + intros [[H|[_ H]]|H]; [left; by left|right; apply R1; by left|right; apply R1; by right].
      + intros [[H|[? _]]|H]; [left; by left|done|].
        apply R1 in H as [H|H]; [left; right; done|by right].
    - by rewrite Hm'.
    - intros f y Hy. unfold s'. ksimpl. apply Hft. unfold s2. ksimpl. by rewrite (vmstep_ftable s s1).
    - unfold s', s2. ksimpl. unfold vmstep in S1. rewrite S1. done. }
  exists (p_pid c), s', l1. split; [|split; [|left; by eauto]].
  - unfold fork_child. rewrite (run_proc_at _ _ _ _ Hme). erewrite bind_ret_l by exact Hr. krun.
    rewrite (proj2 (Z.eqb_neq d 0)), (vmstep_ptable s s1), (alter_eq_insert _ np c) by done.
    fold s2. exact Hff.
  - destruct (child_of_fields p c me d nm g (proj1 Haf)) as (_ & E2 & _). fold ch in E2.
    eapply forked_pmem; [done|done|exact Hnp|done|done|exact Hpa|apply Haf| | | | |exact Hfk].
    + eapply free_pages_ext; [..|exact F1]; done.
    + by rewrite E2.
    + rewrite E2. done.
    + rewrite E2. done.
Qed.

(** ** fork and fork2 *)

(** A successful fork by [p]: the child's slot was unused, and is filled from
    the parent's. *)
Record fork_done (s s' : kstate) (l l' : list Z) (me : nat) (p : proc) (g : proc -> proc) : Prop := {
  fd_slot : exists np c0 ch ks d nm,
    find_index unused (ptable s) = Some np /\ ptable s !! np = Some c0 /\ np <> me /\
    ch = child_of p (new_proc c0 (nextpid s) (ticks s) ks) me d nm g /\
    length nm = 16%nat /\ cstr nm = take 15 (cstr (p_name p)) /\
    ptable s' = <[np := ch]> (ptable s) /\
    (forall vb, uva vb -> vb < p_sz p -> copied (mem s') (p_pgdir p) d vb) /\
    (forall e, e ∈ kmap -> kmapped (mem s') d e) /\
    (forall x, powns (mem s') ch x \/ x ∈ l' <-> x ∈ l);
  fd_frame : frame (fun x => x ∈ l) (mem s) (mem s');
  fd_files f y : ftable s !! f = Some y -> exists y', ftable s' !! f = Some y' /\
    y' = set_f_ref (f_ref y') y /\
    (1 <= f_ref y < 2 ^ 31 - 16 -> f_ref y' = f_ref y + Z.of_nat (refs_in (seq 0 NOFILE) p f));
  fd_rest : held s' = [] /\ cur s' = cur s /\ nextpid s' = i32 (nextpid s + 1) /\ ticks s' = ticks s
}.

(** A failed fork: the free pages are what they were, and so are the slots
    but for an unused one, which stays unused. *)
Record fork_failed (s s' : kstate) (l l' : list Z) : Prop := {
  ff_pages x : x ∈ l' <-> x ∈ l;
  ff_frame : frame (fun x => x ∈ l) (mem s) (mem s');
  ff_slots : ptable s' = ptable s \/ exists np c0 c1,
    ptable s !! np = Some c0 /\ p_state c0 = UNUSED /\ p_state c1 = UNUSED /\
    ptable s' = <[np := c1]> (ptable s);
  ff_rest : held s' = [] /\ cur s' = cur s /\ ticks s' = ticks s
}.

Definition fork_from (me : nat) (after : nat -> K unit) : K Z :=
  onp <- allocproc ;;
  match onp with
  | None => ret (-1)
  | Some np => fork_child me np (after np)
  end.

Lemma fork_from_spec s l me p after g :
  pmem s l -> pshape s -> parent_ok s me p -> held s = [] ->
  (forall np, sets_priority np (after np) g) ->
  exists r s' l', fork_from me after s = Ret r s' /\ pmem s' l' /\
    ((r = nextpid s /\ fork_done s s' l l' me p g) \/ (r = -1 /\ fork_failed s s' l l')).
Proof.
  intros Hp Hsh Hpa Hh Haf. pose proof (allocproc_spec s l (pm_free _ _ Hp) Hh) as Hal.
  unfold fork_from. destruct (find_index unused (ptable s)) as [np|] eqn:Hfi.
  2:{ exists (-1), s, l. erewrite bind_ret_l by exact Hal. split; [done|]. split; [done|]. right.
      split; [done|]. constructor; [done|apply frame_refl|by left|done]. }
  destruct Hal as (c0 & Hc0 & Hu & Hal). cbn zeta in Hal. pose proof (lookup_lt_Some _ _ _ Hc0) as Hlt.
  destruct l as [|ks l1].
  { eexists (-1), _, []. erewrite bind_ret_l by exact Hal. split; [done|]. split.
    - eapply (pmem_slot s _ [] [] np _ (fun _ => False));
        [done|apply frame_refl|done| |by intros x ?%not_elem_of_nil|by ksimpl|done| |done|done].
      + eapply free_pages_ext; [..|exact (pm_free _ _ Hp)]; by ksimpl.
      + intros x [[H _]|[H _]]; [by ksimpl_in H|done].
    - right. split; [done|]. constructor; [done|apply frame_refl| |by ksimpl]. right.
      eexists np, c0, _. split; [done|]. split; [done|]. split; [|by ksimpl]. done. }
  destruct Hal as (f & Hal & Hf1 & Hks & Hnks). cbn zeta in *. set (s1 := set_mem _ _) in *.
  pose proof (allocproc_pmem s l1 np c0 ks f Hp Hc0 Hu Hks Hnks Hf1) as Hp1. fold s1 in Hp1.
  pose proof Hpa as [Hme Hm Hfi' Hcwd].
  assert (np <> me) as Hne by (intros ->; unfold has_mem in Hm; simplify_eq; by rewrite Hu in Hm).
  set (c := new_proc c0 (nextpid s) (ticks s) ks) in *.
  assert (ptable s1 = <[np := c]> (ptable s)) as Hpt1 by done.
  assert (frame (fun x => x ∈ ks :: l1) (mem s) (mem s1)) as M1.
  { eapply frame_weaken; [|apply (frame_st32 ks 4016); lia]. intros x <-. apply list_elem_of_here. }
  assert (pshape s1) as Hsh1.
  { destruct Hsh as [Hlen Hof Hnm]. constructor; rewrite Hpt1.
    - by rewrite length_insert.
    - intros i q [(<- & <- & _)|[_ Hi]]%list_lookup_insert_Some; [|by eapply Hof].
      exact (Hof np c0 Hc0).
    - intros i q [(<- & <- & _)|[_ Hi]]%list_lookup_insert_Some; [|by eapply Hnm].
      exact (Hnm np c0 Hc0). }
  destruct (fork_child_spec s1 me np p c (after np) g l1) as (r & s' & l' & Hr & Hp' & Hcase); try done.
  { constructor; try done. rewrite Hpt1. by rewrite list_lookup_insert_ne. }
  { rewrite Hpt1. by apply list_lookup_insert_eq. }
  { unfold c, new_proc. ksimpl. by apply page_neq_0. }
  exists r, s', l'. erewrite bind_ret_l by exact Hal. split; [done|]. split; [done|].
  assert (forall x, powns (mem s1) c x <-> x = ks) as Hown.
  { intros x. split; [intros [[_ ->]|[? _]]; done|]. intros ->. left.
    split; [by apply page_neq_0|done]. }
  destruct Hcase as [(-> & ch & [G1 (d & nm & Hch & Hn1 & Hn2) G3 G4 G5 G6 G7 G8])|
                     (-> & G1 & G2 & G3 & G4)]; [left|right]; (split; [done|]).
  - assert (p_pgdir ch = d) as Hd.
    { rewrite Hch. by apply (child_of_fields p c me d nm g (proj1 (Haf np))). }
    rewrite Hd in *. constructor.
    + exists np, c0, ch, ks, d, nm. do 6 (split; [done|]).
      split; [by rewrite G1, Hpt1, list_insert_insert_eq|]. split; [done|]. split; [done|].
      intros x. rewrite G5, Hown, elem_of_cons. done.
    + eapply frame_trans; [exact M1|]. eapply frame_weaken; [|exact G6].
      intros x Hx. by apply list_elem_of_further.
    + done.
    + destruct G8 as (-> & -> & -> & ->). done.
  - constructor.
    + intros x. rewrite G2, elem_of_cons. unfold c, new_proc. ksimpl. tauto.
    + eapply frame_trans; [exact M1|]. eapply frame_weaken; [|exact G3].
      intros x [Hx|(c' & Hc' & Hx)]; [by apply list_elem_of_further|].
      rewrite Hpt1, list_lookup_insert_eq in Hc' by done. simplify_eq. apply Hown in Hx as ->.
      apply list_elem_of_here.
    + right. exists np, c0, (set_p_state UNUSED (set_p_kstack 0 (set_p_pgdir 0 c))).
      split; [done|]. split; [done|]. split; [by ksimpl|].
      rewrite G1, Hpt1, list_insert_insert_eq. reflexivity.
    + destruct G4 as (-> & -> & _ & ->). done.
Qed.

Lemma sets_priority_fork np : sets_priority np (ret tt) (fun c => c).
Proof.
  split; [intros c; exists (p_priority c); by destruct c|].
  intros s c Hc. rewrite list_insert_id by done. by destruct s.
Qed.

Lemma sets_priority_fork2 np pr : sets_priority np (upd_proc np (set_p_priority pr)) (set_p_priority pr).
Proof. split; [eauto|]. intros s c Hc. by apply upd_proc_run. Qed.

End forkspec.
