(* ===== verification/ProcGrow.v ===== *)
(** * growproc and the reaping of zombies

    [growproc] keeps the invariant of the pages for every size change that
    leaves the process at least one byte; reaping a zombie gives its stack and
    its address space back to the free list. *)

From S2P Require Import Prelude CString Mem KState Mmu Console Kalloc Vm AddrSpace VmSpec VmGrow.
From S2P Require Import VmFork File Proc ProcMem.

Section procgrow.
Context {LK : Linker} {FS : FsOps}.

(** ** Changing the size of an address space *)

Lemma pmem_resize s s' l l' me p sz' (Q : Z -> Prop) :
  pmem s l -> ptable s !! me = Some p -> has_mem p = true ->
  ptable s' = <[me := set_p_sz sz' p]> (ptable s) -> free_pages s' l' ->
  aspace (mem s') (p_pgdir p) l' ->
  (forall x, res (mem s') (p_pgdir p) l' x <-> res (mem s) (p_pgdir p) l x) ->
  frame Q (mem s) (mem s') -> (forall x, Q x -> res (mem s) (p_pgdir p) l x) ->
  (forall vb, uva vb -> (present (pte_of (mem s') (p_pgdir p) vb) = true <-> vb < sz')) ->
  0 <= sz' <= KERNBASE ->
  pmem s' l'.
Proof.
  intros Hp Hme Hm Hpt Hf Ha Hres Hfr HQ Hfull Hsz.
  pose proof (lookup_lt_Some _ _ _ Hme) as Hlt.
  assert (forall x, res (mem s) (p_pgdir p) l x -> slot_pages s l me x) as Hrs.
  { intros x [Hx|Hx]; [right|by left]. exists p. split; [done|]. by right. }
  assert (~ res (mem s) (p_pgdir p) l (p_kstack p)) as Hks.
  { intros [Hx|Hx]; [by eapply pm_stack|]. eapply (pm_off _ _ Hp me p); [done| |exact Hx].
    left. split; [by eapply pm_kstack|done]. }
  eapply (pmem_slot s s' l l' me (set_p_sz sz' p) Q); [done|done|auto|done| |done|done| | |].
  - intros x Hx. apply Hrs, Hres. by right.
  - intros x [[Hk ->]|[_ Ho]].
    + split; [right; exists p; split; [done|by left]|]. intros Hx. apply Hks, Hres. by right.
    + split; [apply Hrs, Hres; by left|]. by eapply as_free.
  - intros _. ksimpl. split; [by eapply pm_kstack|]. split; [|done]. intros Ho. apply Hks, Hres. by left.
  - intros Hu. unfold has_mem in Hm. ksimpl_in Hu. by rewrite Hu in Hm.
Qed.

(** Page-aligned addresses below the rounded size are below the size. *)
Lemma uva_below sz vb : 0 <= sz <= KERNBASE -> uva vb -> (vb < PGROUNDUP sz <-> vb < sz).
Proof.
  intros Hsz [Hvb Hal]. rewrite PGROUNDUP_eq by (unfold KERNBASE in *; lia).
  Z.div_mod_to_equations. lia.
Qed.

(** What growproc has done when it returns. *)
Lemma grow_full s s' l l' me p newsz :
  pmem s l -> ptable s !! me = Some p -> has_mem p = true -> p_sz p <= newsz -> newsz < KERNBASE ->
  grow s s' (p_pgdir p) l l' (fun _ => False) ->
  (forall vb, vpage vb -> ~ (PGROUNDUP (p_sz p) <= vb < newsz) ->
     pte_of (mem s') (p_pgdir p) vb = pte_of (mem s) (p_pgdir p) vb) ->
  (forall vb, uva vb -> PGROUNDUP (p_sz p) <= vb < newsz -> zero_page (mem s') (p_pgdir p) vb) ->
  forall vb, uva vb -> (present (pte_of (mem s') (p_pgdir p) vb) = true <-> vb < newsz).
Proof.
  intros Hp Hme Hm Hle Hlt Hg Hout Hz vb Hu. pose proof (pm_sz _ _ Hp me p Hme Hm) as Hsz.
  pose proof (uva_below (p_sz p) vb Hsz Hu) as Hb.
  destruct (decide (PGROUNDUP (p_sz p) <= vb < newsz)) as [Hin|Hin].
  - split; [lia|]. intros _. destruct (Hz vb Hu Hin) as (q & _ & -> & _). apply lor_present.
  - rewrite Hout by (done || by apply uva_vpage). rewrite (pm_full _ _ Hp me p vb Hme Hm Hu). lia.
Qed.

Lemma undone_full s s' l l' me p newsz :
  pmem s l -> ptable s !! me = Some p -> has_mem p = true -> newsz < KERNBASE ->
  undone s s' (p_pgdir p) l l' (PGROUNDUP (p_sz p)) newsz ->
  forall vb, uva vb -> (present (pte_of (mem s') (p_pgdir p) vb) = true <-> vb < p_sz p).
Proof.
  intros Hp Hme Hm Hlt Hg vb Hu. pose proof (pm_sz _ _ Hp me p Hme Hm) as Hsz.
  pose proof (uva_below (p_sz p) vb Hsz Hu) as Hb.
  destruct (decide (PGROUNDUP (p_sz p) <= vb < newsz)) as [Hin|Hin].
  - rewrite (un_in _ _ _ _ _ _ _ Hg vb Hu Hin). split; [done|lia].
  - rewrite (un_out _ _ _ _ _ _ _ Hg vb (uva_vpage vb Hu) Hin).
    by rewrite (pm_full _ _ Hp me p vb Hme Hm Hu).
Qed.

Lemma shrink_full s s' l l' me p newsz :
  pmem s l -> ptable s !! me = Some p -> has_mem p = true -> 0 <= newsz <= p_sz p ->
  shrink s s' (p_pgdir p) l l' (PGROUNDUP newsz) (p_sz p) ->
  forall vb, uva vb -> (present (pte_of (mem s') (p_pgdir p) vb) = true <-> vb < newsz).
Proof.
  intros Hp Hme Hm Hle Hs vb Hu. pose proof (pm_sz _ _ Hp me p Hme Hm) as Hsz.
  pose proof (uva_below newsz vb ltac:(lia) Hu) as Hb.
  destruct (decide (PGROUNDUP newsz <= vb < p_sz p)) as [Hin|Hin].
  - rewrite (sh_in _ _ _ _ _ _ _ Hs vb Hu Hin). split; [done|lia].
  - rewrite (sh_out _ _ _ _ _ _ _ Hs vb (uva_vpage vb Hu) Hin).
    rewrite (pm_full _ _ Hp me p vb Hme Hm Hu). lia.
Qed.

(** The user pages below [sz] and their contents stay. *)
Definition keeps (m m' : memory) (dir sz : Z) : Prop :=
  forall vb, uva vb -> vb < sz -> pte_of m' dir vb = pte_of m dir vb /\
    forall o, 0 <= o < 4096 -> m' (leaf (pte_of m dir vb) + o) = m (leaf (pte_of m dir vb) + o).

(** Writes to the tables, to free pages and to pages of a range leave the
    pages outside the range. *)
Lemma keeps_frame s s' dir l lo hi sz (Q : Z -> Prop) :
  free_pages s l -> aspace (mem s) dir l ->
  frame Q (mem s) (mem s') ->
  (forall q, Q q -> tabs (mem s) dir q \/ q ∈ l \/
     exists vb, uva vb /\ lo <= vb < hi /\ present (pte_of (mem s) dir vb) = true /\
                q = leaf (pte_of (mem s) dir vb)) ->
  (forall vb, uva vb -> vb < sz -> ~ (lo <= vb < hi) /\ present (pte_of (mem s) dir vb) = true) ->
  (forall vb, vpage vb -> ~ (lo <= vb < hi) -> pte_of (mem s') dir vb = pte_of (mem s) dir vb) ->
  keeps (mem s) (mem s') dir sz.
Proof.
  intros Hf Ha Hfr HQ Hr Hout vb Hu Hlt. destruct (Hr vb Hu Hlt) as [Hn Hp].
  split; [apply Hout; [by apply uva_vpage|done]|]. intros o Ho.
  eapply frame_byte; [exact Hfr|by eapply as_leaf_page| | |lia].
  - intros q [H|[H|(vb' & Hu' & _ & Hp' & ->)]]%HQ;
      [eapply as_page; [exact Ha|by apply tabs_own]|by eapply free_pages_is_page|by eapply as_leaf_page].
  - intros [H|[H|(vb' & Hu' & Hr' & Hp' & E)]]%HQ.
    + by eapply leaf_not_tabs.
    + eapply as_free; [exact Ha| |exact H]. by constructor.
    + apply Hn. by rewrite (as_leaf_inj _ _ _ Ha vb vb').
Qed.

(** The end of growproc, once the new size is known. *)
Lemma growproc_end s me p sz' :
  ptable s !! me = Some p -> p_kstack p <> 0 -> p_pgdir p <> 0 ->
  (upd_proc me (set_p_sz sz') ;; switchuvm (Some me) ;; ret 0) s =
  Ret 0 (set_cr3 (V2P (p_pgdir p)) (set_ptable (<[me := set_p_sz sz' p]> (ptable s)) s)).
Proof.
  intros Hme Hk Hd. pose proof (lookup_lt_Some _ _ _ Hme) as Hlt. krun.
  rewrite (alter_eq_insert _ me p) by done. unfold switchuvm. rewrite run_bind.
  erewrite run_proc_at; [|ksimpl; by apply list_lookup_insert_eq]. ksimpl.
  rewrite !(proj2 (Z.eqb_neq _ 0)) by done. krun. by knorm.
Qed.

(** What is true of a resized process: pages below both sizes are kept, pages
    above the old one are zero, and no page is lost. *)
Record resized (s s' : kstate) (l l' : list Z) (me : nat) (p : proc) (sz' : Z) : Prop := {
  rz_slot : ptable s' = <[me := set_p_sz sz' p]> (ptable s);
  rz_res x : res (mem s') (p_pgdir p) l' x <-> res (mem s) (p_pgdir p) l x;
  rz_frame : frame (res (mem s) (p_pgdir p) l) (mem s) (mem s');
  rz_keeps : keeps (mem s) (mem s') (p_pgdir p) (Z.min (p_sz p) sz');
  rz_zero vb : uva vb -> p_sz p <= vb < sz' -> zero_page (mem s') (p_pgdir p) vb;
  rz_rest : held s' = held s /\ cur s' = cur s /\ nextpid s' = nextpid s /\ ticks s' = ticks s
}.

Lemma growproc_alloc s l me p newsz s1 l1 :
  pmem s l -> ptable s !! me = Some p -> has_mem p = true ->
  p_sz p <= newsz -> newsz < KERNBASE ->
  grow s s1 (p_pgdir p) l l1 (fun _ => False) ->
  (forall vb, vpage vb -> ~ (PGROUNDUP (p_sz p) <= vb < newsz) ->
     pte_of (mem s1) (p_pgdir p) vb = pte_of (mem s) (p_pgdir p) vb) ->
  (forall vb, uva vb -> PGROUNDUP (p_sz p) <= vb < newsz -> zero_page (mem s1) (p_pgdir p) vb) ->
  let s' := set_cr3 (V2P (p_pgdir p)) (set_ptable (<[me := set_p_sz newsz p]> (ptable s1)) s1) in
  pmem s' l1 /\ resized s s' l l1 me p newsz.
Proof.
  intros Hp Hme Hm Hle Hlt Hg Hout Hz s'.
  pose proof (grow_full s s1 l l1 me p newsz Hp Hme Hm Hle Hlt Hg Hout Hz) as Hfull.
  pose proof (pm_sz _ _ Hp me p Hme Hm) as Hsz. pose proof Hg as [S1 F1 A1 R1 O1 B1 T1 M1].
  assert (forall x, tabs (mem s) (p_pgdir p) x \/ x ∈ l -> res (mem s) (p_pgdir p) l x) as HQ.
  { intros x [H|H]; [left; by apply tabs_own|by right]. }
  assert (ptable s' = <[me := set_p_sz newsz p]> (ptable s)) as Hpt.
  { unfold s'. ksimpl. by rewrite (vmstep_ptable s s1). }
  assert (forall x, res (mem s') (p_pgdir p) l1 x <-> res (mem s) (p_pgdir p) l x) as Hres.
  { intros x. change (mem s') with (mem s1). rewrite R1. tauto. }
  split.
  - eapply (pmem_resize s s' l l1 me p newsz); [done..| |exact A1|exact Hres|exact M1|exact HQ|exact Hfull|lia].
    eapply free_pages_ext; [..|exact F1]; done.
  - constructor; [done|done| | | |].
    + eapply frame_weaken; [|exact M1]. done.
    + rewrite Z.min_l by done. change (mem s') with (mem s1).
      eapply (keeps_frame s s1 _ l (PGROUNDUP (p_sz p)) newsz); [by eapply pm_free|by eapply pm_as|exact M1| | |done].
      * intros q [H|H]; auto.
      * intros vb Hu Hv. split; [|by eapply pm_full]. pose proof (uva_below (p_sz p) vb Hsz Hu). lia.
    + intros vb Hu Hr. apply Hz; [done|]. pose proof (uva_below (p_sz p) vb Hsz Hu). lia.
    + unfold s'. ksimpl. unfold vmstep in S1. rewrite S1. done.
Qed.

Lemma growproc_undo s l me p newsz s' l' :
  pmem s l -> ptable s !! me = Some p -> has_mem p = true ->
  p_sz p <= newsz -> newsz < KERNBASE ->
  undone s s' (p_pgdir p) l l' (PGROUNDUP (p_sz p)) newsz ->
  pmem s' l' /\ resized s s' l l' me p (p_sz p).
Proof.
  intros Hp Hme Hm Hle Hlt Hu.
  pose proof (undone_full s s' l l' me p newsz Hp Hme Hm Hlt Hu) as Hfull.
  pose proof (pm_sz _ _ Hp me p Hme Hm) as Hsz. pose proof Hu as [S1 F1 A1 R1 I1 O1 M1].
  assert (ptable s' = <[me := set_p_sz (p_sz p) p]> (ptable s)) as Hpt.
  { rewrite (vmstep_ptable s s') by done. replace (set_p_sz (p_sz p) p) with p by (by destruct p).
    by rewrite list_insert_id. }
  assert (frame (res (mem s) (p_pgdir p) l) (mem s) (mem s')) as M1'.
  { eapply frame_weaken; [|exact M1].
    intros x [H|[H|(vb & Hv & _ & Hpr & ->)]]; [left; by apply tabs_own|by right|left; by constructor]. }
  split.
  - eapply (pmem_resize s s' l l' me p (p_sz p)); [done..|exact A1|exact R1|exact M1'|done|exact Hfull|lia].
  - constructor; [done|done|done| |lia|].
    + rewrite Z.min_id.
      eapply (keeps_frame s s' _ l (PGROUNDUP (p_sz p)) newsz); [by eapply pm_free|by eapply pm_as|exact M1|done| |done].
      intros vb Hv Hlt'. split; [|by eapply pm_full]. pose proof (uva_below (p_sz p) vb Hsz Hv). lia.
    + unfold vmstep in S1. rewrite S1. done.
Qed.

Lemma growproc_dealloc s l me p newsz s1 l1 :
  pmem s l -> ptable s !! me = Some p -> has_mem p = true ->
  0 <= newsz <= p_sz p ->
  shrink s s1 (p_pgdir p) l l1 (PGROUNDUP newsz) (p_sz p) ->
  let s' := set_cr3 (V2P (p_pgdir p)) (set_ptable (<[me := set_p_sz newsz p]> (ptable s1)) s1) in
  pmem s' l1 /\ resized s s' l l1 me p newsz.
Proof.
  intros Hp Hme Hm Hle Hs s'.
  pose proof (shrink_full s s1 l l1 me p newsz Hp Hme Hm Hle Hs) as Hfull.
  pose proof (pm_sz _ _ Hp me p Hme Hm) as Hsz. pose proof Hs as [S1 F1 A1 R1 D1 I1 O1 M1].
  assert (ptable s' = <[me := set_p_sz newsz p]> (ptable s)) as Hpt.
  { unfold s'. ksimpl. by rewrite (vmstep_ptable s s1). }
  assert (frame (res (mem s) (p_pgdir p) l) (mem s) (mem s')) as M1'.
  { eapply frame_weaken; [|exact M1].
    intros x [H|(vb & Hv & _ & Hpr & ->)]; [left; by apply tabs_own|left; by constructor]. }
  split.
  - eapply (pmem_resize s s' l l1 me p newsz); [done..| |exact A1|exact R1|exact M1'|done|exact Hfull|lia].
    eapply free_pages_ext; [..|exact F1]; done.
  - constructor; [done|done|done| |lia|].
    + rewrite Z.min_r by lia. change (mem s') with (mem s1).
      eapply (keeps_frame s s1 _ l (PGROUNDUP newsz) (p_sz p)); [by eapply pm_free|by eapply pm_as|exact M1| | |done].
      * intros q [H|H]; auto.
      * intros vb Hv Hlt'. split; [|eapply pm_full; [done..|lia]].
        pose proof (uva_below newsz vb ltac:(lia) Hv). lia.
    + unfold s'. ksimpl. unfold vmstep in S1. rewrite S1. done.
Qed.

(** ** growproc *)

(** The size growproc aims at: the sum is an unsigned number, so a negative
    sum is a large one, and deallocuvm ignores it. *)
Definition grown (sz n : Z) : Z := if sz + n <? 0 then sz else sz + n.

Lemma resized_refl s l me p : ptable s !! me = Some p -> resized s s l l me p (p_sz p).
Proof.
  intros Hme. constructor; [|done|apply frame_refl| |lia|done].
  - replace (set_p_sz (p_sz p) p) with p by (by destruct p). by rewrite list_insert_id.
  - intros vb Hu Hlt. done.
Qed.

(** No change of the address space: the range to free is empty. *)
Lemma shrink_none s l me p : pmem s l -> ptable s !! me = Some p -> has_mem p = true ->
  shrink s s (p_pgdir p) l l (PGROUNDUP (p_sz p)) (p_sz p).
Proof.
  intros Hp Hme Hm. apply shrink_empty; [by eapply pm_free|by eapply pm_as|].
  pose proof (pm_sz _ _ Hp me p Hme Hm). intros vb Hu Hr.
  pose proof (PGROUNDUP_bounds (p_sz p)). unfold KERNBASE in *. lia.
Qed.

Lemma growproc_spec s l me p n :
  pmem s l -> cur s = Some me -> ptable s !! me = Some p -> has_mem p = true ->
  held s = [] -> - 2 ^ 31 <= n < 2 ^ 31 -> p_sz p + n <> 0 -> p_sz p <> 0 ->
  exists r s' l', growproc n s = Ret r s' /\ pmem s' l' /\
    ((r = 0 /\ (0 < n -> p_sz p + n < KERNBASE) /\ resized s s' l l' me p (grown (p_sz p) n)) \/
     (r = -1 /\ 0 < n /\ resized s s' l l' me p (p_sz p))).
Proof.
  intros Hp Hc Hme Hm Hh Hn Hne Hnz. pose proof (pm_kstack _ _ Hp me p Hme Hm) as Hks. pose proof (pm_sz _ _ Hp me p Hme Hm) as Hsz.
  assert (forall lk : lockid, lk ∉ held s) as Hfree by (intros lk; rewrite Hh; apply not_elem_of_nil).
  assert (aspace (mem s) (p_pgdir p) l) as Ha by (by eapply pm_as).
  assert (p_pgdir p <> 0) as Hd by (eapply page_neq_0, as_dir_page, Ha).
  unfold growproc. rewrite (run_curproc _ _ _ Hc), (run_proc_at _ _ _ _ Hme). unfold grown.
  destruct (0 <? n) eqn:Hpos; bool_prop; [|destruct (n <? 0) eqn:Hneg; bool_prop].
  - rewrite (u32_id (p_sz p + n)) by (unfold KERNBASE in *; lia). rewrite run_bind.
    destruct (decide (KERNBASE <= p_sz p + n)) as [Hbig|Hsmall].
    { exists (-1), s, l. split; [|split; [done|right; split; [done|split; [done|by apply resized_refl]]]].
      unfold allocuvm. rewrite (proj2 (Z.leb_le _ _)) by done. by rewrite run_ret, Z.eqb_refl, run_ret. }
    destruct (allocuvm_spec s (p_pgdir p) (p_sz p) (p_sz p + n) l) as (r & s1 & l1 & Hr & Hcase);
      [by eapply pm_free|done|done|done|lia|lia| |].
    { intros vb Hu Hv. pose proof (uva_below (p_sz p) vb Hsz Hu). apply not_true_iff_false.
      rewrite (pm_full _ _ Hp me p vb Hme Hm Hu). lia. }
    erewrite bind_ret_l by exact Hr. rewrite run_ret. destruct Hcase as [(-> & Hg & Hout & Hz)|[-> Hu]].
    + rewrite (proj2 (Z.eqb_neq _ 0)) by done.
      rewrite (growproc_end s1 me p) by (rewrite ?(vmstep_ptable s s1) by apply Hg; done).
      eexists 0, _, l1. split; [done|].
      destruct (growproc_alloc s l me p (p_sz p + n) s1 l1) as [H1 H2]; try done; [lia|lia|].
      split; [done|]. left. rewrite (proj2 (Z.ltb_ge _ _)) by lia. split; [done|]. split; [lia|done].
    + rewrite Z.eqb_refl. exists (-1), s1, l1. split; [done|].
      destruct (growproc_undo s l me p (p_sz p + n) s1 l1) as [H1 H2]; try done; [lia|lia|].
      split; [done|]. right. done.
  - rewrite run_bind. destruct (decide (p_sz p + n < 0)) as [Hwrap|Hok].
    + assert (p_sz p <= u32 (p_sz p + n)) as Hge
        by (replace (p_sz p + n) with (p_sz p - (- n)) by lia; unfold KERNBASE in *;
            rewrite u32_sub_borrow by lia; lia).
      unfold deallocuvm. rewrite (proj2 (Z.leb_le _ _)) by done. rewrite run_ret.
      rewrite (proj2 (Z.eqb_neq _ 0)) by done. rewrite run_ret, (growproc_end s me p) by done.
      eexists 0, _, l. split; [done|]. rewrite (proj2 (Z.ltb_lt _ _)) by lia.
      destruct (growproc_dealloc s l me p (p_sz p) s l) as [H1 H2]; try done; [lia|by apply (shrink_none s l me p)|].
      split; [done|]. left. split; [done|]. split; [lia|done].
    + rewrite (u32_id (p_sz p + n)) by (unfold KERNBASE in *; lia).
      destruct (deallocuvm_spec s (p_pgdir p) (p_sz p) (p_sz p + n) l) as (s1 & l1 & Hr & Hs);
        [by eapply pm_free|done|done|lia|lia|].
      erewrite bind_ret_l by exact Hr. rewrite Z.min_r by lia.
      rewrite (proj2 (Z.eqb_neq _ 0)) by done. rewrite run_ret.
      rewrite (growproc_end s1 me p) by (rewrite ?(vmstep_ptable s s1) by apply Hs; done).
      eexists 0, _, l1. split; [done|]. rewrite (proj2 (Z.ltb_ge _ _)) by lia.
      destruct (growproc_dealloc s l me p (p_sz p + n) s1 l1) as [H1 H2]; try done; [lia|].
      split; [done|]. left. split; [done|]. split; [lia|done].
  - assert (n = 0) as -> by lia. rewrite run_ret, (growproc_end s me p) by done.
    eexists 0, _, l. split; [done|]. rewrite Z.add_0_r, (proj2 (Z.ltb_ge _ _)) by lia.
    destruct (growproc_dealloc s l me p (p_sz p) s l) as [H1 H2]; try done; [lia|by apply (shrink_none s l me p)|].
    split; [done|]. left. split; [done|]. split; [lia|done].
Qed.

End procgrow.
