(* ===== verification/WaitSpec.v ===== *)
(** * wait, waitx, waitpid; sleep and wakeup

    The three loops over the table are one scan for an exited child.  The
    child's stack and address space go back to the free list, its slot becomes
    unused, and its pid is returned; without an exited child the caller sleeps,
    or gets -1 when there is nothing to wait for.  The last part says what
    [sleep] and [wakeup] do to the process table. *)

From S2P Require Import Prelude CString Mem KState Mmu Console Kalloc Vm AddrSpace VmSpec VmGrow VmFork File Proc.
From S2P Require Import Syscall Sysproc ProcMem.

Section waitspec.
Context {LK : Linker} {FS : FsOps}.

(** ** Reaping *)

Definition reaped (p : proc) : proc :=
  set_p_state UNUSED (set_p_killed 0 (set_p_name (clear_name (p_name p))
    (set_p_parent None (set_p_pid 0 (set_p_kstack 0 p))))).

(** What reaping the process [p] of slot [i] has done. *)
Record reap_done (s s' : kstate) (l l' : list Z) (i : nat) (p : proc) : Prop := {
  rd_slot : ptable s' = <[i := reaped p]> (ptable s);
  rd_pages x : x ∈ l' <-> x ∈ l \/ powns (mem s) p x;
  rd_frame : frame (powns (mem s) p) (mem s) (mem s');
  rd_rest : held s' = [] /\ cur s' = cur s /\ nextpid s' = nextpid s /\ ticks s' = ticks s
}.

(** Freeing the stack and the address space. *)
Lemma reap_free s l i p :
  pmem s l -> ptable s !! i = Some p -> p_state p = ZOMBIE -> LkKmem ∉ held s ->
  exists s1 s2 l', kfree (p_kstack p) s = Ret tt s1 /\ ptable s1 = ptable s /\
    freevm (p_pgdir p) (set_ptable (<[i := set_p_kstack 0 p]> (ptable s)) s1) = Ret tt s2 /\
    vmstep (set_ptable (<[i := set_p_kstack 0 p]> (ptable s)) s) s2 /\ free_pages s2 l' /\
    (forall x, x ∈ l' <-> x ∈ l \/ powns (mem s) p x) /\
    frame (powns (mem s) p) (mem s) (mem s2).
Proof.
  intros Hp Hi Hz Hh. set (d := p_pgdir p).
  assert (has_mem p = true) as Hm by (unfold has_mem; by rewrite Hz).
  pose proof (pm_kstack _ _ Hp i p Hi Hm) as Hk.
  assert (powns (mem s) p (p_kstack p)) as Hks by (by left).
  assert (forall x, own (mem s) d x -> powns (mem s) p x) as Hown by (intros x Hx; by right).
  pose proof (pm_off _ _ Hp i p _ Hi Hks) as Hnl. pose proof (pm_page _ _ Hp i p _ Hi Hks) as Hpg.
  pose proof (pm_stack _ _ Hp i p Hi Hm) as Hst.
  destruct (kfree_spec s l (p_kstack p)) as (s1 & Hr1 & F1 & Hs1 & M1); [by eapply pm_free|done|done|done|].
  assert (forall x, p_kstack p = x -> is_page x) as HP by (by intros ? <-).
  pose proof (untouched_not_own _ _ _ Hst) as Hu.
  assert (aspace (mem s) d l) as Ha by (by eapply pm_as).
  pose proof (fun x => own_frame _ _ _ _ _ x M1 HP Ha Hu) as Ho1.
  set (s1' := set_ptable (<[i := set_p_kstack 0 p]> (ptable s)) s1).
  destruct (freevm_spec s1' d (p_kstack p :: l)) as (s2 & l' & Hr2 & S2 & F2 & R2 & M2).
  { eapply free_pages_ext; [..|exact F1]; done. }
  { apply aspace_cons; [by eapply (aspace_frame _ _ (mem s1))|]. change (mem s1') with (mem s1). by rewrite Ho1. }
  { unfold s1'. ksimpl. by rewrite Hs1. }
  exists s1, s2, l'. split; [done|]. split; [by rewrite Hs1|]. split; [done|].
  split. { eapply vmstep_trans; [|exact S2]. unfold s1'. rewrite Hs1. by destruct s. }
  split; [done|]. split.
  - intros x. rewrite R2. unfold res. change (mem s1') with (mem s1). rewrite Ho1, elem_of_cons.
    unfold powns. rewrite Hm. fold d. tauto.
  - eapply frame_trans; (eapply frame_weaken; [|eassumption]).
    + by intros x <-.
    + intros x Hx. apply Hown. by apply Ho1.
Qed.

Lemma reap_spec s l i p :
  pmem s l -> ptable s !! i = Some p -> p_state p = ZOMBIE -> held s = [LkPtable] ->
  exists s' l', reap i s = Ret (p_pid p) s' /\ pmem s' l' /\ reap_done s s' l l' i p.
Proof.
  intros Hp Hi Hz Hh. pose proof (lookup_lt_Some _ _ _ Hi) as Hlt.
  assert (LkKmem ∉ held s) as Hkm by (rewrite Hh; intros ?%list_elem_of_singleton; done).
  destruct (reap_free s l i p Hp Hi Hz Hkm) as (s1 & s2 & l' & H1 & Hpt1 & H2 & S2 & F2 & R2 & M2).
  unfold reap. rewrite (run_proc_at _ _ _ _ Hi). erewrite bind_ret_l by exact H1. krun.
  rewrite Hpt1, (alter_eq_insert _ i p) by done. erewrite bind_ret_l by exact H2. krun.
  rewrite (vmstep_ptable _ _ S2). ksimpl. rewrite !alter_insert_eq by done. ksimpl. fold (reaped p).
  erewrite run_release; [|ksimpl; rewrite (vmstep_held _ _ S2); by ksimpl|apply not_elem_of_nil].
  eexists _, l'. split; [done|]. set (s' := set_held _ _).
  assert (reap_done s s' l l' i p) as Hrd.
  { constructor; [done|done|done|]. unfold s'. ksimpl. unfold vmstep in S2. rewrite S2. done. }
  split; [|done]. destruct Hrd as [D1 D2 D3 D4].
  eapply (pmem_slot s s' l l' i (reaped p) (powns (mem s) p)); [done|done| | | |done|done| |done|done].
  - intros x Hx. right. eauto.
  - eapply free_pages_ext; [..|exact F2]; done.
  - intros x [Hx|Hx]%R2; [by left|right; eauto].
  - intros x [[H _]|[H _]]; done.
Qed.

(** ** The scan *)

(** Loop over the slots [idx]: [act] on the first exited child, else whether
    there was a child. *)
Fixpoint child_scan (child : proc -> bool) (act : nat -> proc -> K Z) (idx : list nat) (kids : bool)
  : K (bool + Z) :=
  match idx with
  | [] => ret (inl kids)
  | i :: idx' =>
      p <- proc_at i ;;
      if negb (child p) then child_scan child act idx' kids
      else if bool_decide (p_state p = ZOMBIE) then pid <- act i p ;; ret (inr pid)
      else child_scan child act idx' true
  end.

Definition exited (child : proc -> bool) (p : proc) : bool :=
  child p && bool_decide (p_state p = ZOMBIE).

Lemma child_scan_spec child act n k kids s :
  (k + n = length (ptable s))%nat ->
  child_scan child act (seq k n) kids s =
  match find_index (exited child) (drop k (ptable s)) with
  | Some j => (p <- proc_at (k + j) ;; pid <- act (k + j)%nat p ;; ret (inr pid)) s
  | None => Ret (inl (kids || existsb child (drop k (ptable s)))) s
  end.
Proof.
  revert k kids. induction n as [|n IH]; intros k kids Hk.
  - rewrite drop_ge by lia. cbn. by rewrite orb_false_r.
  - destruct (lookup_lt_is_Some_2 (ptable s) k) as [p Hp]; [lia|].
    cbn [seq child_scan]. rewrite (run_proc_at _ _ _ _ Hp).
    rewrite (drop_S _ _ _ Hp). cbn [find_index existsb]. unfold exited at 1.
    destruct (child p) eqn:Hc; cbn [negb andb].
    + destruct (bool_decide (p_state p = ZOMBIE)) eqn:Hz.
      * rewrite Nat.add_0_r, (run_proc_at _ _ _ _ Hp). done.
      * rewrite IH by lia. destruct (find_index (exited child) (drop (S k) (ptable s))) as [j|]; cbn [fmap option_fmap option_map].
        -- by replace (k + S j)%nat with (S k + j)%nat by lia.
        -- by rewrite orb_true_r.
    + rewrite IH by lia. destruct (find_index (exited child) (drop (S k) (ptable s))) as [j|]; [|done].
      cbn [fmap option_fmap option_map]. by replace (k + S j)%nat with (S k + j)%nat by lia.
Qed.

(** The child tests. *)
Definition my_child (me : nat) (p : proc) : bool := bool_decide (p_parent p = Some me).
Definition my_child_pid (me : nat) (pid : Z) (p : proc) : bool := my_child me p && (p_pid p =? pid).

Lemma wait_scan_eq me idx kids s :
  wait_scan idx me kids s = child_scan (my_child me) (fun i _ => reap i) idx kids s.
Proof.
  revert kids s. induction idx as [|i idx IH]; intros kids s; [done|]. cbn [wait_scan child_scan].
  destruct (ptable s !! i) as [p|] eqn:Hi; [|unfold bind, proc_at; by rewrite Hi].
  rewrite !(run_proc_at _ _ _ _ Hi).
  unfold my_child. rewrite bool_decide_not. destruct (bool_decide (p_parent p = Some me)); cbn [negb]; [|apply IH].
  destruct (bool_decide (p_state p = ZOMBIE)); [done|apply IH].
Qed.

(** The stores of waitx before the child is reaped. *)
Definition waitx_act (wtime_addr rtime_addr : Z) (i : nat) (p : proc) : K Z :=
  vwrite32 (u32 wtime_addr) (u32 (i32 (i32 (p_etime p - p_ctime p) - p_rtime p))) ;;
  vwrite32 (u32 rtime_addr) (u32 (p_rtime p)) ;;
  reap i.

Lemma waitx_scan_eq me wa ra idx kids s :
  waitx_scan idx me wa ra kids s = child_scan (my_child me) (waitx_act wa ra) idx kids s.
Proof.
  revert kids s. induction idx as [|i idx IH]; intros kids s; [done|]. cbn [waitx_scan child_scan].
  destruct (ptable s !! i) as [p|] eqn:Hi; [|unfold bind, proc_at; by rewrite Hi].
  rewrite !(run_proc_at _ _ _ _ Hi).
  unfold my_child. rewrite bool_decide_not. destruct (bool_decide (p_parent p = Some me)); cbn [negb]; [|apply IH].
  destruct (bool_decide (p_state p = ZOMBIE)); [|apply IH]. unfold waitx_act, bind.
  destruct (vwrite32 (u32 wa) _ s) as [? s1|?|?|?]; try done. by destruct (vwrite32 (u32 ra) _ s1).
Qed.

Lemma waitpid_scan_eq me pid idx found s :
  waitpid_scan idx me pid found s =
  child_scan (my_child_pid me pid) (fun i _ => waitpid_reap i) idx found s.
Proof.
  revert found s. induction idx as [|i idx IH]; intros found s; [done|]. cbn [waitpid_scan child_scan].
  destruct (ptable s !! i) as [p|] eqn:Hi; [|unfold bind, proc_at; by rewrite Hi].
  rewrite !(run_proc_at _ _ _ _ Hi).
  unfold my_child_pid, my_child. rewrite bool_decide_not.
  destruct (bool_decide (p_parent p = Some me)); cbn [negb orb andb]; [|apply IH].
  destruct (p_pid p =? pid); cbn [negb]; [|apply IH].
  destruct (bool_decide (p_state p = ZOMBIE)); [done|apply IH].
Qed.

(** ** The rounds *)

(** The state of a process that sleeps on [ch] under ptable.lock. *)
Definition asleep (me : nat) (ch : channel) (s : kstate) : kstate :=
  set_ptable (alter (fun p => set_p_state SLEEPING (set_p_chan (Some ch) p)) me (ptable s)) s.

Lemma sleep_ptable_run {A} me p ch s : cur s = Some me -> ptable s !! me = Some p -> held s = [LkPtable] ->
  sleep (A := A) ch LkPtable s = Block (asleep me ch s).
Proof.
  intros Hc Hp Hh. pose proof (lookup_lt_Some _ _ _ Hp) as Hlt. unfold sleep, myproc. krun. rewrite Hc.
  rewrite bool_decide_eq_false_2 by (intros H; by apply H). krun.
  unfold sched, asleep. ksimpl. rewrite Hc. unfold holding. ksimpl.
  rewrite bool_decide_eq_true_2 by (rewrite Hh; apply list_elem_of_here). rewrite Hh. cbn [negb length Nat.eqb].
  rewrite !(alter_eq_insert _ me p (ptable s)), alter_insert_eq by done.
  rewrite list_lookup_insert_eq by done. ksimpl. rewrite bool_decide_eq_false_2 by done. done.
Qed.

(** What each loop does in one round, given what it does with the exited child
    that it finds. *)
Lemma scan_round child act me me_p s :
  cur s = Some me -> ptable s !! me = Some me_p -> held s = [LkPtable] -> length (ptable s) = NPROC ->
  (r <- child_scan child act (seq 0 NPROC) false ;;
   match r with
   | inr pid => ret pid
   | inl kids =>
       p <- proc_at me ;;
       if negb kids || negb (p_killed p =? 0) then release LkPtable ;; ret (-1)
       else sleep (ChProc me) LkPtable
   end) s =
  match find_index (exited child) (ptable s) with
  | Some i => (p <- proc_at i ;; act i p) s
  | None => if existsb child (ptable s) && (p_killed me_p =? 0) then Block (asleep me (ChProc me) s)
            else Ret (-1) (set_held [] s)
  end.
Proof.
  intros Hc Hme Hh Hl. unfold bind at 1. rewrite child_scan_spec by lia. rewrite drop_0.
  destruct (find_index (exited child) (ptable s)) as [i|].
  - unfold bind. destruct (proc_at (0 + i) s) as [p s0|? ?|?|? ?] eqn:E; cbn [Nat.add] in E; rewrite E; [|done..].
    cbn [Nat.add]. by destruct (act i p s0).
  - rewrite (run_proc_at _ _ _ _ Hme). cbn [orb].
    destruct (existsb child (ptable s)), (p_killed me_p =? 0); cbn [negb orb andb].
    2-4: rewrite (run_release _ []); [done|done|apply not_elem_of_nil].
    by apply (sleep_ptable_run me me_p).
Qed.

(** ** wait *)

Lemma asleep_pmem s l me p ch : pmem s l -> ptable s !! me = Some p -> has_mem p = true ->
  pmem (asleep me ch s) l.
Proof.
  intros Hp Hme Hm. eapply pmem_same; [exact Hp|done|done|].
  intros i p' Hi. unfold asleep in Hi. ksimpl_in Hi.
  rewrite (alter_eq_insert _ me p) in Hi by done.
  apply list_lookup_insert_Some in Hi as [(<- & <- & _)|[_ Hi]]; [|by exists p'].
  exists p. split; [done|]. do 3 (split; [done|]). split; [by rewrite Hm|done].
Qed.

(** The exited child that the scan finds. *)
Lemma exited_child child pt i : find_index (exited child) pt = Some i ->
  exists q, pt !! i = Some q /\ child q = true /\ p_state q = ZOMBIE.
Proof.
  intros [(q & Hq & He) _]%find_index_Some. exists q. unfold exited in He. bool_prop.
  split; [done|]. split; [done|]. by eapply bool_decide_eq_true_1.
Qed.

(** The outcome of a round, from a state [s] with ptable.lock held. *)
Definition round_spec (child : proc -> bool) (s : kstate) (l : list Z) (me : nat) (p : proc)
    (r : outcome kstate Z) : Prop :=
  match find_index (exited child) (ptable s) with
  | Some i => exists q s' l', ptable s !! i = Some q /\ child q = true /\ p_state q = ZOMBIE /\
      r = Ret (p_pid q) s' /\ pmem s' l' /\ reap_done s s' l l' i q
  | None =>
      if existsb child (ptable s) && (p_killed p =? 0)
      then exists s', r = Block s' /\ s' = asleep me (ChProc me) s /\ pmem s' l
      else r = Ret (-1) (set_held [] s)
  end.

Lemma scan_reap child act s l me p :
  pmem s l -> length (ptable s) = NPROC -> cur s = Some me -> ptable s !! me = Some p ->
  has_mem p = true -> held s = [LkPtable] ->
  (forall i q, ptable s !! i = Some q -> act i q s = reap i s) ->
  round_spec child s l me p
    ((r <- child_scan child act (seq 0 NPROC) false ;;
      match r with
      | inr pid => ret pid
      | inl kids =>
          p <- proc_at me ;;
          if negb kids || negb (p_killed p =? 0) then release LkPtable ;; ret (-1)
          else sleep (ChProc me) LkPtable
      end) s).
Proof.
  intros Hp Hl Hc Hme Hm Hh Hact. unfold round_spec. rewrite (scan_round _ _ me p s) by done.
  destruct (find_index (exited child) (ptable s)) as [i|] eqn:Hfi.
  - destruct (exited_child _ _ _ Hfi) as (q & Hq & Hch & Hz).
    rewrite (run_proc_at i q), Hact by done.
    destruct (reap_spec s l i q Hp Hq Hz Hh) as (s' & l' & Hr & Hp' & Hd).
    exists q, s', l'. done.
  - destruct (existsb child (ptable s) && (p_killed p =? 0)); [|done].
    eexists. split; [done|]. split; [done|]. by apply (asleep_pmem s l me p).
Qed.

(** The caller: a process with its address space, no lock held. *)
Record caller (s : kstate) (l : list Z) (me : nat) (p : proc) : Prop := {
  cl_mem : pmem s l;
  cl_len : length (ptable s) = NPROC;
  cl_cur : cur s = Some me;
  cl_slot : ptable s !! me = Some p;
  cl_has : has_mem p = true;
  cl_held : held s = []
}.

Lemma pmem_set_held s l h : pmem s l -> pmem (set_held h s) l.
Proof. intros Hp. eapply pmem_same; [exact Hp|done|done|]. intros i q Hi. by exists q. Qed.

Lemma wait_spec s l me p : caller s l me p ->
  round_spec (my_child me) (set_held [LkPtable] s) l me p (wait s).
Proof.
  intros [Hp Hl Hc Hme Hm Hh]. set (s0 := set_held [LkPtable] s).
  assert (wait s = wait_round me s0) as ->.
  { unfold wait. rewrite (run_curproc _ _ _ Hc), run_acquire by (rewrite Hh; apply not_elem_of_nil).
    by rewrite Hh. }
  unfold wait_round. rewrite (bind_cong _ _ _ _ (wait_scan_eq me (seq 0 NPROC) false s0)).
  apply scan_reap; try done. by apply pmem_set_held.
Qed.

(** The fields are cleared in another order; the result is the same. *)
Lemma waitpid_reap_eq i s : waitpid_reap i s = reap i s.
Proof.
  unfold waitpid_reap, reap. do 4 (apply bind_cong_r; intros ? ? _). krun.
  do 2 f_equal. apply list_eq. intros j.
  destruct (decide (i = j)) as [<-|Hne]; [|by rewrite !list_lookup_alter_ne].
  rewrite !list_lookup_alter_eq. by destruct (_ !! i) as [[]|].
Qed.

Lemma sys_waitpid_spec s l me p pid : caller s l me p -> argint 0 s = Ret (Some pid) s ->
  round_spec (my_child_pid me pid) (set_held [LkPtable] s) l me p (sys_waitpid s).
Proof.
  intros [Hp Hl Hc Hme Hm Hh] Harg. set (s0 := set_held [LkPtable] s).
  assert (sys_waitpid s = waitpid_round me pid s0) as ->.
  { unfold sys_waitpid, with_argint. erewrite bind_ret_l by exact Harg. cbv beta iota.
    rewrite (run_curproc _ _ _ Hc), run_acquire by (rewrite Hh; apply not_elem_of_nil). by rewrite Hh. }
  unfold waitpid_round. rewrite (bind_cong _ _ _ _ (waitpid_scan_eq me pid (seq 0 NPROC) false s0)).
  apply scan_reap; try done; [by apply pmem_set_held|]. intros. apply waitpid_reap_eq.
Qed.

End waitspec.

(** * Sleep and wakeup

    Equations of [sleep], [wakeup] and their relatives, and what they do to the
    processes that sleep. *)

Section sleepspec.
Context {LK : Linker} {FS : FsOps}.

(** [sleep] with another lock than ptable.lock: the lock is released, the
    process sleeps, and only ptable.lock stays held, for the scheduler. *)
Lemma sleep_run {A} me p ch lk s : cur s = Some me -> ptable s !! me = Some p -> held s = [lk] ->
  lk <> LkPtable -> sleep (A := A) ch lk s = Block (asleep me ch (set_held [LkPtable] s)).
Proof.
  intros Hc Hp Hh Hlk. pose proof (lookup_lt_Some _ _ _ Hp) as Hlt. unfold sleep, myproc. krun. rewrite Hc.
  rewrite bool_decide_eq_true_2 by done. krun.
  rewrite run_acquire by (rewrite Hh; intros ?%list_elem_of_singleton; done).
  erewrite bind_ret_l by (eapply (release_second LkPtable lk []);
    [ksimpl; by rewrite Hh|done|apply not_elem_of_nil]).
  krun. unfold sched, asleep. ksimpl. rewrite Hc. unfold holding. ksimpl.
  rewrite bool_decide_eq_true_2 by apply list_elem_of_here. cbn [negb length Nat.eqb].
  rewrite !(alter_eq_insert _ me p (ptable s)), alter_insert_eq by done.
  rewrite list_lookup_insert_eq by done. ksimpl. rewrite bool_decide_eq_false_2 by done. by knorm.
Qed.

Lemma sleep_resume_run me lk s : cur s = Some me -> held s = [LkPtable] -> lk <> LkPtable ->
  sleep_resume lk s = Ret tt (set_held [lk] (set_ptable (alter (set_p_chan None) me (ptable s)) s)).
Proof.
  intros Hc Hh Hlk. unfold sleep_resume. rewrite (run_curproc _ _ _ Hc). krun.
  rewrite bool_decide_eq_true_2 by done. unfold when.
  erewrite run_release; [|ksimpl; exact Hh|apply not_elem_of_nil].
  rewrite acquire_run by (ksimpl; apply not_elem_of_nil). by knorm.
Qed.

Lemma sleep_resume_ptable_run me s : cur s = Some me ->
  sleep_resume LkPtable s = Ret tt (set_ptable (alter (set_p_chan None) me (ptable s)) s).
Proof.
  intros Hc. unfold sleep_resume. rewrite (run_curproc _ _ _ Hc). krun.
  by rewrite bool_decide_eq_false_2 by (intros H; by apply H).
Qed.

(** [wakeup] makes exactly the sleepers of the channel runnable. *)
Lemma wakeup_run ch s : LkPtable ∉ held s ->
  wakeup ch s = Ret tt (set_ptable (wake (Some ch) <$> ptable s) s).
Proof.
  intros Hl. unfold wakeup, wakeup1. rewrite run_acquire by done. krun.
  erewrite release_run; [|by ksimpl|done]. knorm. by rewrite set_held_id by (by ksimpl).
Qed.

Lemma wake_state chan p :
  p_state (wake chan p) = (if decide (p_state p = SLEEPING /\ p_chan p = chan) then RUNNABLE else p_state p).
Proof.
  unfold wake. case_decide as D.
  - destruct D. rewrite !bool_decide_eq_true_2 by done. by ksimpl.
  - destruct (bool_decide (p_state p = SLEEPING)) eqn:E1, (bool_decide (p_chan p = chan)) eqn:E2;
      try apply bool_decide_eq_true_1 in E1; try apply bool_decide_eq_true_1 in E2; naive_solver.
Qed.

(** Everything but the state is kept. *)
Lemma wake_eq chan p : wake chan p = set_p_state (p_state (wake chan p)) p.
Proof. unfold wake. destruct (_ && _); by destruct p. Qed.

Lemma wake_same_pages chan p : same_pages p (wake chan p).
Proof.
  rewrite wake_eq. do 3 (split; [done|]). unfold has_mem. ksimpl. rewrite wake_state.
  case_decide as D; [|done]. destruct D as [D _]. rewrite D. split; done.
Qed.

Lemma wake_lookup chan (pt : list proc) (i : nat) p' : (wake chan <$> pt) !! i = Some p' ->
  exists p, pt !! i = Some p /\ p' = wake chan p.
Proof. rewrite list_lookup_fmap. intros (p & Hp & ->)%fmap_Some. eauto. Qed.

Lemma wakeup_pmem ch s l : pmem s l -> pmem (set_ptable (wake (Some ch) <$> ptable s) s) l.
Proof.
  intros Hp. eapply pmem_same; [exact Hp|done|done|]. ksimpl.
  intros i p' (p & Hi & ->)%wake_lookup. exists p. split; [done|]. apply wake_same_pages.
Qed.

(** [yield] makes the caller runnable and leaves with ptable.lock held. *)
Lemma yield_run me p s : cur s = Some me -> ptable s !! me = Some p -> held s = [] ->
  yield s = Block (set_held [LkPtable] (set_ptable (<[me := set_p_state RUNNABLE p]> (ptable s)) s)).
Proof.
  intros Hc Hp Hh. pose proof (lookup_lt_Some _ _ _ Hp) as Hlt. unfold yield.
  rewrite run_acquire by (rewrite Hh; apply not_elem_of_nil). rewrite (run_curproc me) by done. krun.
  unfold sched, holding. ksimpl. rewrite Hc, Hh.
  rewrite bool_decide_eq_true_2 by apply list_elem_of_here. cbn [negb length Nat.eqb].
  rewrite (alter_eq_insert _ me p (ptable s)) by done.
  rewrite list_lookup_insert_eq by done. ksimpl. rewrite bool_decide_eq_false_2 by done. by knorm.
Qed.

(** The scheduler leaves the current process and enters [j]. *)
Lemma dispatch_inv j s s' : (scheduler_back ;; scheduler_switch j) s = Ret tt s' ->
  exists p, ptable s !! j = Some p /\ p_kstack p <> 0 /\ p_pgdir p <> 0 /\
    s' = set_ptable (<[j := set_p_state RUNNING p]> (ptable s))
           (set_cr3 (V2P (p_pgdir p)) (set_cur (Some j) s)).
Proof.
  unfold scheduler_back, scheduler_switch, switchkvm, switchuvm. krun.
  destruct (ptable s !! j) as [p|] eqn:Hp.
  - erewrite run_proc_at by (ksimpl; exact Hp).
    destruct (p_kstack p =? 0) eqn:E1; [done|]. destruct (p_pgdir p =? 0) eqn:E2; [done|]. krun.
    erewrite upd_proc_run by (ksimpl; exact Hp). intros [= <-]. bool_prop.
    exists p. do 3 (split; [done|]). by knorm.
  - unfold bind at 1, proc_at. ksimpl. by rewrite Hp.
Qed.

(** [kill] marks the first slot with the pid and makes it runnable if it
    sleeps, wherever it sleeps. *)
Lemma kill_run pid s : LkPtable ∉ held s ->
  kill pid s =
  match find_index (fun p => p_pid p =? pid) (ptable s) with
  | Some i => Ret 0 (set_ptable (alter (fun p => let p := set_p_killed 1 p in
                if bool_decide (p_state p = SLEEPING) then set_p_state RUNNABLE p else p) i (ptable s)) s)
  | None => Ret (-1) s
  end.
Proof.
  intros Hl. unfold kill. rewrite run_acquire by done. krun.
  destruct (find_index _ (ptable s)) as [i|] eqn:Hf.
  - pose proof Hf as [(p & Hp & _) _]%find_index_Some. pose proof (lookup_lt_Some _ _ _ Hp) as Hlt.
    krun. erewrite run_release; [|by ksimpl|done]. unfold ret. knorm.
    rewrite set_held_id by (by ksimpl).
    by rewrite !(alter_eq_insert _ i p (ptable s)), alter_insert_eq by done.
  - erewrite run_release; [|by ksimpl|done]. unfold ret. knorm. by rewrite set_held_id.
Qed.

End sleepspec.
