(* ===== verification/UserMem.v ===== *)
(** * Accesses to user memory

    For a process whose pages are all mapped, fetching an argument from any
    stack pointer either fails with -1 or gives the word in the process's
    memory; it never faults in the kernel.  The blocks and strings that argptr
    and argstr accept lie inside the address space.  The last part is about
    stores through the page table. *)

From S2P Require Import Prelude CString Mem KState Mmu Console Kalloc Vm AddrSpace VmSpec VmGrow VmFork File Proc.
From S2P Require Import Syscall ProcMem ProcGrow WaitSpec.

Section syscallspec.
Context {LK : Linker} {FS : FsOps}.

(** The caller with its own page table loaded. *)
Record ucaller (s : kstate) (l : list Z) (me : nat) (p : proc) : Prop := {
  uc_caller : caller s l me p;
  uc_cr3 : cr3 s = V2P (p_pgdir p)
}.

(** The byte of the process at [va]. *)
Definition user_byte (s : kstate) (p : proc) (va : Z) : Z :=
  ld8 (mem s) (leaf (pte_of (mem s) (p_pgdir p) va) + va mod PGSIZE).

Definition user_word (s : kstate) (p : proc) (va : Z) : Z :=
  user_byte s p va + user_byte s p (va + 1) * 2 ^ 8 + user_byte s p (va + 2) * 2 ^ 16
  + user_byte s p (va + 3) * 2 ^ 24.

(** ** Reads of user memory *)

(** The entry of an address is the entry of its page. *)
Lemma pte_of_page m dir va : 0 <= va < 2 ^ 32 -> pte_of m dir (va - va mod 4096) = pte_of m dir va.
Proof.
  intros Hva. unfold pte_of.
  replace (PDX (va - va mod 4096)) with (PDX va); [replace (PTX (va - va mod 4096)) with (PTX va); [done|]|].
  - rewrite !PTX_eq. change (2 ^ 12) with 4096. f_equal. Z.div_mod_to_equations. lia.
  - rewrite !PDX_eq. change (2 ^ 22) with 4194304. f_equal. Z.div_mod_to_equations. lia.
Qed.

Lemma user_present s l me p va : caller s l me p -> 0 <= va < p_sz p ->
  present (pte_of (mem s) (p_pgdir p) va) = true.
Proof.
  intros [Hp Hl Hc Hme Hm Hh] Hva. pose proof (pm_sz _ _ Hp me p Hme Hm) as Hsz. unfold KERNBASE in *.
  rewrite <- pte_of_page by lia. apply (pm_full _ _ Hp me p _ Hme Hm).
  - split; [unfold KERNBASE|]; Z.div_mod_to_equations; lia.
  - Z.div_mod_to_equations. lia.
Qed.

Lemma ucaller_dir s l me p : ucaller s l me p -> P2V (cr3 s) = p_pgdir p.
Proof.
  intros [[Hp Hl Hc Hme Hm Hh] Hcr]. rewrite Hcr. apply P2V_V2P.
  eapply as_dir_page, (pm_as _ _ Hp me p Hme Hm).
Qed.

Lemma vread8_user s l me p va : ucaller s l me p -> 0 <= va < p_sz p ->
  vread8 va s = Ret (user_byte s p va) s.
Proof.
  intros Hu Hva. unfold vread8, hw_translate. rewrite (ucaller_dir _ _ _ _ Hu).
  rewrite (user_present s l me p va) by (apply Hu || done). done.
Qed.

Lemma user_u32 s l me p va : ucaller s l me p -> 0 <= va < p_sz p -> u32 va = va.
Proof.
  intros [[Hp Hl Hc Hme Hm Hh] _] Hva. pose proof (pm_sz _ _ Hp me p Hme Hm).
  apply u32_id. unfold KERNBASE in *. lia.
Qed.

Lemma vread32_user s l me p va : ucaller s l me p -> 0 <= va -> va + 4 <= p_sz p ->
  vread32 va s = Ret (user_word s p va) s.
Proof.
  intros Hu H0 H4. unfold vread32.
  rewrite !(user_u32 s l me p) by (done || lia).
  do 4 (erewrite bind_ret_l by (eapply vread8_user; [exact Hu|lia])). done.
Qed.

Lemma vread_user s l me p va n : ucaller s l me p -> 0 <= va -> va + Z.of_nat n <= p_sz p ->
  exists bs, vread va n s = Ret bs s /\ length bs = n /\
    forall k, (k < n)%nat -> bs !! k = Some (user_byte s p (va + Z.of_nat k)).
Proof.
  intros Hu. revert va. induction n as [|n IH]; intros va H0 Hn.
  { exists []. split; [done|]. split; [done|]. lia. }
  cbn [vread]. rewrite (user_u32 s l me p) by (done || lia).
  erewrite bind_ret_l by (eapply vread8_user; [exact Hu|lia]).
  destruct (IH (va + 1)) as (bs & Hr & Hl & Hb); [lia|lia|].
  erewrite bind_ret_l by exact Hr. eexists. split; [done|]. split; [cbn; lia|].
  intros [|k] Hk; cbn [lookup list_lookup].
  - by rewrite Z.add_0_r.
  - rewrite Hb by lia. do 2 f_equal. lia.
Qed.

(** ** Arguments *)

Lemma fetchint_spec s l me p addr : ucaller s l me p -> 0 <= addr < 2 ^ 32 ->
  fetchint addr s = Ret (if addr + 4 <=? p_sz p then Some (i32 (user_word s p addr)) else None) s.
Proof.
  intros Hu Ha. pose proof (uc_caller _ _ _ _ Hu) as [Hp Hl Hc Hme Hm Hh].
  pose proof (pm_sz _ _ Hp me p Hme Hm) as Hsz. unfold fetchint.
  rewrite (run_curproc _ _ _ Hc), (run_proc_at _ _ _ _ Hme). unfold KERNBASE in *.
  destruct (decide (p_sz p <= addr)) as [Hge|Hlt].
  { rewrite (proj2 (Z.leb_le _ _)) by done. by rewrite (proj2 (Z.leb_gt _ _)) by lia. }
  rewrite (proj2 (Z.leb_gt _ _)), (u32_id (addr + 4)) by lia. cbn [orb].
  destruct (p_sz p <? addr + 4) eqn:Hd; bool_prop.
  - by rewrite (proj2 (Z.leb_gt _ _)) by lia.
  - rewrite (proj2 (Z.leb_le _ _)) by lia.
    by erewrite bind_ret_l by (eapply vread32_user; [exact Hu|lia|lia]).
Qed.

(** The address of argument [n]. *)
Definition arg_addr (p : proc) (n : Z) : Z := u32 (tf_esp (p_tf p) + 4 + 4 * n).

Lemma argint_spec s l me p n : ucaller s l me p ->
  argint n s = Ret (if arg_addr p n + 4 <=? p_sz p then Some (i32 (user_word s p (arg_addr p n))) else None) s.
Proof.
  intros Hu. pose proof (uc_caller _ _ _ _ Hu) as [Hp Hl Hc Hme Hm Hh]. unfold argint.
  rewrite (run_curproc _ _ _ Hc), (run_proc_at _ _ _ _ Hme). fold (arg_addr p n).
  eapply fetchint_spec; [done|apply u32_range].
Qed.

(** An accepted block lies in the address space. *)
Lemma argptr_spec s l me p n size : ucaller s l me p -> - 2 ^ 31 <= size < 2 ^ 31 ->
  exists r, argptr n size s = Ret r s /\
    match r with
    | Some a => 0 <= size /\ 0 <= a < p_sz p /\ a + size <= p_sz p /\
                arg_addr p n + 4 <= p_sz p /\ a = u32 (user_word s p (arg_addr p n))
    | None => size < 0 \/ p_sz p < arg_addr p n + 4 \/ p_sz p <= u32 (user_word s p (arg_addr p n)) \/
              p_sz p < u32 (user_word s p (arg_addr p n)) + size
    end.
Proof.
  intros Hu Hs. pose proof (uc_caller _ _ _ _ Hu) as [Hp Hl Hc Hme Hm Hh].
  pose proof (pm_sz _ _ Hp me p Hme Hm) as Hsz. unfold argptr. rewrite (run_curproc _ _ _ Hc).
  erewrite bind_ret_l by (by eapply argint_spec). unfold KERNBASE in *.
  destruct (arg_addr p n + 4 <=? p_sz p) eqn:Ha; bool_prop.
  2:{ exists None. split; [done|]. lia. }
  rewrite (run_proc_at _ _ _ _ Hme). set (w := user_word s p (arg_addr p n)).
  rewrite u32_i32. pose proof (u32_range w) as Hw.
  destruct (size <? 0) eqn:H1; bool_prop; cbn [orb]; [exists None; split; [done|lia]|].
  destruct (p_sz p <=? u32 w) eqn:H2; bool_prop; cbn [orb]; [exists None; split; [done|lia]|].
  rewrite (u32_id (u32 w + size)) by lia.
  destruct (p_sz p <? u32 w + size) eqn:H3; bool_prop; [exists None; split; [done|lia]|].
  exists (Some (u32 w)). split; [done|]. lia.
Qed.

(** ** Strings *)

Lemma fetchstr_loop_spec s l me p n a len : ucaller s l me p -> 0 <= a -> a + Z.of_nat n <= p_sz p ->
  exists r, fetchstr_loop n a len s = Ret r s /\
    match r with
    | Some k => len <= k < len + Z.of_nat n /\ user_byte s p (a + (k - len)) = 0 /\
                forall j, 0 <= j < k - len -> user_byte s p (a + j) <> 0
    | None => forall j, 0 <= j < Z.of_nat n -> user_byte s p (a + j) <> 0
    end.
Proof.
  intros Hu. revert a len. induction n as [|n IH]; intros a len H0 Hn.
  { exists None. split; [done|]. lia. }
  cbn [fetchstr_loop]. erewrite bind_ret_l by (eapply vread8_user; [exact Hu|lia]).
  destruct (user_byte s p a =? 0) eqn:Hz; bool_prop.
  { exists (Some len). split; [done|]. rewrite Z.sub_diag, Z.add_0_r. split; [lia|]. split; [done|lia]. }
  destruct (IH (a + 1) (len + 1)) as (r & Hr & Hcase); [lia|lia|]. exists r. split; [done|].
  destruct r as [k|].
  - destruct Hcase as (H1 & H2 & H3). split; [lia|].
    replace (a + (k - len)) with (a + 1 + (k - (len + 1))) by lia. split; [done|].
    intros j Hj. destruct (decide (j = 0)) as [->|]; [by rewrite Z.add_0_r|].
    replace (a + j) with (a + 1 + (j - 1)) by lia. apply H3. lia.
  - intros j Hj. destruct (decide (j = 0)) as [->|]; [by rewrite Z.add_0_r|].
    replace (a + j) with (a + 1 + (j - 1)) by lia. apply Hcase. lia.
Qed.

Lemma argstr_spec s l me p n : ucaller s l me p ->
  exists r, argstr n s = Ret r s /\
    match r with
    | Some (a, len) => 0 <= a /\ 0 <= len /\ a + len < p_sz p /\ user_byte s p (a + len) = 0 /\
                       forall j, 0 <= j < len -> user_byte s p (a + j) <> 0
    | None => True
    end.
Proof.
  intros Hu. pose proof (uc_caller _ _ _ _ Hu) as [Hp Hl Hc Hme Hm Hh]. unfold argstr.
  erewrite bind_ret_l by (by eapply argint_spec).
  destruct (arg_addr p n + 4 <=? p_sz p); [|by exists None].
  rewrite u32_i32. set (w := user_word s p (arg_addr p n)). pose proof (u32_range w) as Hw.
  unfold fetchstr. rewrite run_bind, (run_curproc _ _ _ Hc), run_bind, (run_proc_at _ _ _ _ Hme).
  destruct (p_sz p <=? u32 w) eqn:Hle; bool_prop; [by exists None|].
  destruct (fetchstr_loop_spec s l me p (Z.to_nat (p_sz p - u32 w)) (u32 w) 0) as (r & Hr & Hcase); [done|lia|lia|].
  erewrite bind_ret_l by exact Hr. destruct r as [k|]; [|by exists None].
  exists (Some (u32 w, k)). split; [done|]. destruct Hcase as (H1 & H2 & H3). rewrite Z.sub_0_r in *.
  split; [lia|]. split; [lia|]. split; [lia|]. done.
Qed.

End syscallspec.

(** * Stores in user memory

    A store of the kernel through a user address changes that byte of the
    process and nothing else: the page tables, the free list and the memory
    of the other processes stay as they are.  Blocks written can be read
    back. *)

Section usermem.
Context {LK : Linker} {FS : FsOps}.

(** ** Accesses depend on the memory and the page-table register only *)

Lemma vread8_ext va s t c : vread8 va s = Ret c s -> mem t = mem s -> cr3 t = cr3 s -> vread8 va t = Ret c t.
Proof.
  unfold vread8, hw_translate. intros H -> ->. revert H. destruct (_ && _); [|done]. by intros [= <-].
Qed.

Lemma vwrite8_inv va c s s' : vwrite8 va c s = Ret tt s' -> s' = set_mem (mem s') s.
Proof. unfold vwrite8. destruct (hw_translate s va true); [|done]. by intros [= <-]. Qed.

Lemma vwrite8_ext va c s t m : vwrite8 va c s = Ret tt (set_mem m s) -> mem t = mem s -> cr3 t = cr3 s ->
  vwrite8 va c t = Ret tt (set_mem m t).
Proof.
  unfold vwrite8, hw_translate. intros H -> ->. revert H. destruct (_ && _); [|done]. intros [= E].
  f_equal. by rewrite <- E.
Qed.

Lemma vwrite_cons_inv va c bs s m : vwrite va (c :: bs) s = Ret tt (set_mem m s) ->
  exists m1, vwrite8 (u32 va) c s = Ret tt (set_mem m1 s) /\ vwrite (va + 1) bs (set_mem m1 s) = Ret tt (set_mem m s).
Proof.
  cbn [vwrite]. unfold bind. destruct (vwrite8 (u32 va) c s) as [[] s1|?|?|?] eqn:E; try done.
  intros H. exists (mem s1). rewrite <- (vwrite8_inv _ _ _ _ E). done.
Qed.

Lemma vwrite_ext va bs s t m : vwrite va bs s = Ret tt (set_mem m s) -> mem t = mem s -> cr3 t = cr3 s ->
  vwrite va bs t = Ret tt (set_mem m t).
Proof.
  revert va s t m. induction bs as [|c bs IH]; intros va s t m Hw Hm Hc.
  - cbn [vwrite] in *. unfold ret in *. injection Hw as E. f_equal.
    assert (m = mem s) as -> by (by rewrite E). rewrite <- Hm. by destruct t.
  - apply vwrite_cons_inv in Hw as (m1 & H1 & H2). cbn [vwrite].
    erewrite bind_ret_l by (by eapply vwrite8_ext).
    rewrite (IH (va + 1) (set_mem m1 s) (set_mem m1 t) m) by done. done.
Qed.

(** ** User memory *)

(** The hardware allows a store at [va]. *)
Definition writable (s : kstate) (p : proc) (va : Z) : Prop :=
  Z.land (pte_of (mem s) (p_pgdir p) va) PTE_W <> 0.

(** Where the byte at [va] is. *)
Definition uaddr (s : kstate) (p : proc) (va : Z) : Z :=
  leaf (pte_of (mem s) (p_pgdir p) va) + va mod PGSIZE.

(** The user page of an address. *)
Lemma user_page s l me p va : caller s l me p -> 0 <= va < p_sz p ->
  uva (va - va mod 4096) /\ present (pte_of (mem s) (p_pgdir p) (va - va mod 4096)) = true /\
  leaf (pte_of (mem s) (p_pgdir p) (va - va mod 4096)) = leaf (pte_of (mem s) (p_pgdir p) va).
Proof.
  intros Hc Hva. pose proof (pm_sz _ _ (cl_mem _ _ _ _ Hc) me p (cl_slot _ _ _ _ Hc) (cl_has _ _ _ _ Hc)) as Hsz.
  unfold KERNBASE in Hsz. rewrite pte_of_page by lia. split; [|split; [by eapply user_present|done]].
  split; [unfold KERNBASE|]; Z.div_mod_to_equations; lia.
Qed.

Lemma uaddr_frame s p va c : frame (eq (leaf (pte_of (mem s) (p_pgdir p) va))) (mem s)
  (st8 (mem s) (uaddr s p va) c).
Proof.
  intros a Ha. apply st8_other. specialize (Ha _ eq_refl). unfold uaddr, PGSIZE.
  pose proof (Z.mod_pos_bound va 4096). lia.
Qed.

Section store.
Variables (s : kstate) (l : list Z) (me : nat) (p : proc) (va c : Z).
Hypothesis Hu : ucaller s l me p.
Hypothesis Hva : 0 <= va < p_sz p.

Let m' := st8 (mem s) (uaddr s p va) c.

Lemma store_keeps_tables : 
  (forall vb, pte_of m' (p_pgdir p) vb = pte_of (mem s) (p_pgdir p) vb) /\
  (forall q, own m' (p_pgdir p) q <-> own (mem s) (p_pgdir p) q) /\ aspace m' (p_pgdir p) l.
Proof using Hu Hva.
  pose proof (uc_caller _ _ _ _ Hu) as Hc. pose proof Hc as [Hp Hl Hcu Hme Hm Hh].
  destruct (user_page _ _ _ _ _ Hc Hva) as (Hv & Hpr & Hlf).
  pose proof (pm_as _ _ Hp me p Hme Hm) as Ha.
  pose proof (untouched_leaf _ _ _ _ Ha Hv Hpr) as Hun. rewrite Hlf in Hun.
  assert (forall q, leaf (pte_of (mem s) (p_pgdir p) va) = q -> is_page q) as Hpg.
  { intros q <-. rewrite <- Hlf. by eapply as_leaf_page. }
  pose proof (uaddr_frame s p va c) as Hf. fold m' in Hf.
  split; [|split].
  - intros vb. by eapply pte_frame.
  - intros q. by eapply own_frame.
  - by eapply aspace_frame.
Qed.

Lemma store_pmem : pmem (set_mem m' s) l.
Proof using Hu Hva.
  pose proof (uc_caller _ _ _ _ Hu) as Hc. pose proof Hc as [Hp Hl Hcu Hme Hm Hh].
  destruct (user_page _ _ _ _ _ Hc Hva) as (Hv & Hpr & Hlf).
  destruct store_keeps_tables as (Hpte & Hown & Has).
  assert (own (mem s) (p_pgdir p) (leaf (pte_of (mem s) (p_pgdir p) va))) as Hol
    by (rewrite <- Hlf; by constructor).
  assert (forall x, leaf (pte_of (mem s) (p_pgdir p) va) = x -> slot_pages s l me x) as Hslot.
  { intros x <-. right. exists p. split; [done|]. by right. }
  eapply (pmem_slot s _ l l me p (eq (leaf (pte_of (mem s) (p_pgdir p) va))));
    [done|apply uaddr_frame|exact Hslot| |by left|by rewrite list_insert_id|by eapply lookup_lt_Some| | |].
  - eapply free_pages_mem; [by eapply pm_free|apply uaddr_frame| |].
    + intros q <-. eapply (pm_page _ _ Hp me p); [done|]. by right.
    + intros q Hq <-. eapply (pm_off _ _ Hp me p); [done| |exact Hq]. by right.
  - intros x Hx. assert (powns (mem s) p x) as Hx' by (destruct Hx as [?|[? Ho]];
      [by left|right; split; [done|by apply Hown]]).
    split; [right; by exists p|]. by eapply pm_off.
  - intros _. ksimpl. rewrite Hown. split; [by eapply pm_kstack|]. split; [by eapply pm_stack|].
    split; [done|]. split; [|by eapply pm_sz]. intros vb Hvb. rewrite Hpte. by eapply pm_full.
  - by eapply pm_unused.
Qed.

Lemma store_ucaller : ucaller (set_mem m' s) l me p.
Proof using Hu Hva.
  pose proof (uc_caller _ _ _ _ Hu) as [Hp Hl Hcu Hme Hm Hh].
  constructor; [|apply Hu]. constructor; try done. apply store_pmem.
Qed.

Lemma uaddr_inj vb : 0 <= vb < p_sz p -> uaddr s p vb = uaddr s p va -> vb = va.
Proof using Hu Hva.
  intros Hvb E. pose proof (uc_caller _ _ _ _ Hu) as Hc. pose proof Hc as [Hp Hl Hcu Hme Hm Hh].
  destruct (user_page _ _ _ _ _ Hc Hva) as (Hv1 & Hp1 & Hl1).
  destruct (user_page _ _ _ _ _ Hc Hvb) as (Hv2 & Hp2 & Hl2).
  pose proof (pm_as _ _ Hp me p Hme Hm) as Ha.
  pose proof (as_leaf_page _ _ _ _ Ha Hv1 Hp1) as [Hm1 _]. rewrite Hl1 in Hm1.
  pose proof (as_leaf_page _ _ _ _ Ha Hv2 Hp2) as [Hm2 _]. rewrite Hl2 in Hm2.
  unfold uaddr, PGSIZE in E.
  assert (leaf (pte_of (mem s) (p_pgdir p) vb) = leaf (pte_of (mem s) (p_pgdir p) va)) as Elf
    by (Z.div_mod_to_equations; lia).
  rewrite <- Hl1, <- Hl2 in Elf. apply (as_leaf_inj _ _ _ Ha _ _ Hv2 Hv1 Hp2 Hp1) in Elf.
  rewrite <- Hl1, <- Hl2, Elf in E. lia.
Qed.

Lemma store_byte vb : 0 <= vb < p_sz p ->
  user_byte (set_mem m' s) p vb = if decide (vb = va) then u8 c else user_byte s p vb.
Proof using Hu Hva.
  intros Hvb. unfold user_byte. ksimpl. rewrite (proj1 store_keeps_tables). fold (uaddr s p vb).
  unfold m', ld8. case_decide as D.
  - subst vb. rewrite st8_same. unfold u8. apply Z.mod_mod. lia.
  - rewrite st8_other; [done|]. intros E. apply D. by apply uaddr_inj.
Qed.

Lemma vwrite8_user : writable s p va -> vwrite8 va c s = Ret tt (set_mem m' s).
Proof using Hu Hva.
  intros Hw. unfold vwrite8, hw_translate. rewrite (ucaller_dir _ _ _ _ Hu).
  rewrite (user_present s l me p va) by (apply Hu || done). cbn [negb orb andb].
  unfold writable in Hw. by rewrite (proj2 (Z.eqb_neq _ _)).
Qed.

End store.

(** A block of user memory. *)
Lemma vwrite_user l me p bs : forall s va, ucaller s l me p -> 0 <= va ->
  va + Z.of_nat (length bs) <= p_sz p ->
  (forall k, (k < length bs)%nat -> writable s p (va + Z.of_nat k)) ->
  exists m', vwrite va bs s = Ret tt (set_mem m' s) /\ ucaller (set_mem m' s) l me p /\
    (forall vb, pte_of m' (p_pgdir p) vb = pte_of (mem s) (p_pgdir p) vb) /\
    (forall vb, 0 <= vb < p_sz p ->
       user_byte (set_mem m' s) p vb =
       if decide (va <= vb < va + Z.of_nat (length bs)) then u8 (nth (Z.to_nat (vb - va)) bs 0) else user_byte s p vb).
Proof.
  induction bs as [|c bs IH]; intros s va Hu H0 Hlen Hw.
  { exists (mem s). replace (set_mem (mem s) s) with s by (by destruct s). split; [done|]. split; [done|].
    split; [done|]. intros vb Hvb. rewrite decide_False; [done|cbn [length]; lia]. }
  cbn [length] in *. cbn [vwrite]. rewrite (user_u32 s l me p) by (done || lia).
  pose proof (Hw 0%nat ltac:(lia)) as Hw0. rewrite Z.add_0_r in Hw0.
  assert (0 <= va < p_sz p) as Hva by lia.
  rewrite (bind_ret_l _ _ _ _ _ (vwrite8_user s l me p va c Hu Hva Hw0)).
  set (m1 := st8 (mem s) (uaddr s p va) c).
  destruct (store_keeps_tables s l me p va c Hu Hva) as (Hpte & _). fold m1 in Hpte.
  destruct (IH (set_mem m1 s) (va + 1)) as (m' & Hr & Hu' & Hpt & Hb);
    [by apply store_ucaller|lia|lia| |].
  { intros k Hk. unfold writable. ksimpl. rewrite Hpte.
    replace (va + 1 + Z.of_nat k) with (va + Z.of_nat (S k)) by lia. apply Hw. lia. }
  exists m'. split; [done|]. split; [done|]. split; [intros vb; by rewrite Hpt|].
  intros vb Hvb. change (set_mem m' s) with (set_mem m' (set_mem m1 s)). rewrite Hb by done.
  destruct (decide (vb = va)) as [->|Hne].
  - rewrite decide_False by lia. rewrite decide_True by lia. rewrite Z.sub_diag. cbn [Z.to_nat nth].
    rewrite (store_byte s l me p va c Hu Hva) by done. by rewrite decide_True.
  - case_decide as D1; case_decide as D2; try lia.
    + replace (Z.to_nat (vb - va)) with (S (Z.to_nat (vb - (va + 1)))) by lia. done.
    + rewrite (store_byte s l me p va c Hu Hva) by done. by rewrite decide_False.
Qed.

End usermem.
