(* ===== verification/Sched.v ===== *)
(** * The scheduler is fair; what exit leaves behind

    The contract between the scheduler and a process that runs is [lets_run]:
    no other process is taken off the ready state.  The operations by which
    processes change the table keep it.  Under the contract the round robin
    of [scheduler] chooses every ready process after at most [NPROC] turns.
    The last part follows a process through [exit].

    One processor is considered: with several, a process that another
    processor chooses first also runs. *)

From S2P Require Import Prelude CString Mem KState Mmu Console Kalloc Vm File Proc.

Section sched.
Context {LK : Linker} {FS : FsOps}.

(** ** The contract *)

Definition ready (j : nat) (pt : list proc) : Prop := exists p, pt !! j = Some p /\ p_state p = RUNNABLE.

(** The step of process [me] leaves the ready state of the others alone. *)
Definition lets_run (me : nat) (s s' : kstate) : Prop :=
  length (ptable s') = length (ptable s) /\ forall j, j <> me -> ready j (ptable s) -> ready j (ptable s').

#[export] Instance lets_run_preorder me : PreOrder (lets_run me).
Proof.
  split; [by intros s|]. intros s1 s2 s3 [L12 R12] [L23 R23]. split; [congruence|]. eauto.
Qed.

(** A computation that keeps the contract from every state in which [me] is
    the current process, whatever its outcome. *)
Definition fair {A} (me : nat) (m : K A) : Prop :=
  forall s, cur s = Some me -> cur (post (m s)) = Some me /\ lets_run me s (post (m s)).

Lemma fair_bind {A B} me (m : K A) (f : A -> K B) : fair me m -> (forall a, fair me (f a)) -> fair me (bind m f).
Proof.
  intros Hm Hf s Hc. destruct (Hm s Hc) as [Hc1 H1]. unfold bind. destruct (m s) as [a s1|e s1|s1|e s1]; try done.
  destruct (Hf a s1 Hc1) as [Hc2 H2]. split; [done|]. by transitivity s1.
Qed.

(** Computations that leave the table alone. *)
Lemma fair_quiet {A} me (m : K A) :
  (forall s, cur (post (m s)) = cur s /\ ptable (post (m s)) = ptable s) -> fair me m.
Proof.
  intros H s Hc. destruct (H s) as [H1 H2]. split; [congruence|]. split; [congruence|]. by rewrite H2.
Qed.

Lemma fair_ret {A} me (a : A) : fair me (ret a).
Proof. by apply fair_quiet. Qed.

Lemma fair_gets {A} me (f : kstate -> A) : fair me (gets f).
Proof. by apply fair_quiet. Qed.

Lemma fair_panic {A} me e : fair me (panic (A := A) e).
Proof. by apply fair_quiet. Qed.

Lemma fair_undef {A} me e : fair me (undef (A := A) e).
Proof. by apply fair_quiet. Qed.

Lemma fair_acquire me lk : fair me (acquire lk).
Proof. apply fair_quiet. intros s. unfold acquire. by destruct (holding lk s). Qed.

Lemma fair_release me lk : fair me (release lk).
Proof. apply fair_quiet. intros s. unfold release. by destruct (holding lk s). Qed.

Lemma fair_proc_at me i : fair me (proc_at i).
Proof. apply fair_quiet. intros s. unfold proc_at. by destruct (ptable s !! i). Qed.

Lemma fair_sched {A} me : fair me (sched (A := A)).
Proof.
  apply fair_quiet. intros s. unfold sched. destruct (cur s) as [i|] eqn:E; [|done].
  destruct (holding LkPtable s); [|done]. destruct (length (held s) =? 1)%nat; [|done]. cbn [negb].
  destruct (ptable s !! i); [|done]. by destruct (bool_decide _).
Qed.

Lemma fair_myproc me : fair me myproc.
Proof. by apply fair_quiet. Qed.

Lemma fair_when me b (m : K unit) : fair me m -> fair me (when b m).
Proof. destruct b; [done|]. intros _. apply fair_ret. Qed.

Lemma fair_curproc {B} me (f : nat -> K B) : fair me (f me) -> fair me (bind curproc f).
Proof. intros Hf s Hc. rewrite (run_curproc me) by done. by apply Hf. Qed.

Lemma fair_me {B} me (f : option nat -> K B) : fair me (f (Some me)) -> fair me (bind myproc f).
Proof. intros Hf s Hc. unfold bind, myproc, gets. rewrite Hc. by apply Hf. Qed.

(** A slot changes without losing its ready state, or it is the caller's own. *)
Lemma fair_upd me i f : (i = me \/ forall p, p_state p = RUNNABLE -> p_state (f p) = RUNNABLE) -> fair me (upd_proc i f).
Proof.
  intros Hf s Hc. unfold upd_proc, modify. cbn [post]. split; [done|]. split; [ksimpl; apply length_alter|].
  intros j Hj (p' & Hp' & Hr). unfold ready. ksimpl. destruct (decide (i = j)) as [->|Hne].
  - exists (f p'). rewrite list_lookup_alter_eq, Hp'. split; [done|]. destruct Hf as [?|Hf]; [done|by apply Hf].
  - exists p'. by rewrite list_lookup_alter_ne.
Qed.

Lemma fair_wakeup1 me ch : fair me (wakeup1 ch).
Proof.
  intros s Hc. unfold wakeup1, modify. cbn [post]. split; [done|]. split; [ksimpl; apply length_fmap|].
  intros j Hj (p & Hp & Hr). exists (wake ch p). ksimpl. rewrite list_lookup_fmap, Hp. split; [done|].
  unfold wake. by rewrite Hr.
Qed.

Create HintDb fair.
#[local] Hint Resolve fair_ret fair_gets fair_panic fair_undef fair_acquire fair_release fair_proc_at fair_sched
  fair_wakeup1 fair_when : fair.
#[local] Hint Extern 1 (fair _ (bind curproc _)) => apply fair_curproc : fair.
#[local] Hint Extern 1 (fair _ (bind myproc _)) => apply fair_me : fair.
#[local] Hint Extern 2 (fair _ (bind _ _)) => apply fair_bind; [|intros ?] : fair.
#[local] Hint Extern 1 (fair ?me (upd_proc ?me _)) => apply fair_upd; by left : fair.
#[local] Hint Extern 2 (fair _ (upd_proc _ _)) => apply fair_upd; right; by intros : fair.

(** ** The operations keep the contract *)

Lemma fair_yield me : fair me yield.
Proof. unfold yield. eauto 10 with fair. Qed.

Lemma fair_sleep {A} me ch lk : fair me (sleep (A := A) ch lk).
Proof. unfold sleep. eauto 12 with fair. Qed.

Lemma fair_sleep_resume me lk : fair me (sleep_resume lk).
Proof. unfold sleep_resume. eauto 10 with fair. Qed.

Lemma fair_wakeup me ch : fair me (wakeup ch).
Proof. unfold wakeup. eauto 10 with fair. Qed.

Lemma fair_kill me pid : fair me (kill pid).
Proof.
  unfold kill. apply fair_bind; [eauto with fair|]. intros _. apply fair_bind; [eauto with fair|]. intros pt.
  destruct (find_index _ pt) as [i|]; [|eauto 10 with fair].
  apply fair_bind; [eauto with fair|]. intros _. apply fair_bind; [|eauto 10 with fair].
  apply fair_upd. right. intros p Hp. by rewrite Hp.
Qed.

Lemma fair_reparent me idx : fair me (reparent idx me).
Proof. induction idx as [|i idx IH]; cbn [reparent]; eauto 20 with fair. Qed.

Lemma fair_exit_zombie me : fair me (exit_zombie me).
Proof. unfold exit_zombie. pose proof (fair_reparent me (seq 0 NPROC)). eauto 20 with fair. Qed.

(** ** Round robin *)

(** A turn of the loop: a process is chosen, runs under the contract, and gives
    the processor back; or the loop reaches the end of the table and starts
    again, after the lock was open for a moment. *)
Inductive turn : nat * kstate -> option nat -> nat * kstate -> Prop :=
| TPick pos s i s1 s2 s3 : scheduler_next pos (ptable s) = Some i -> scheduler_switch i s = Ret tt s1 ->
    lets_run i s1 s2 -> scheduler_back s2 = Ret tt s3 -> turn (pos, s) (Some i) (S i, s3)
| TWrap pos s s' : scheduler_next pos (ptable s) = None ->
    length (ptable s') = length (ptable s) -> (forall j, ready j (ptable s) -> ready j (ptable s')) ->
    turn (pos, s) None (0%nat, s').

Inductive turns : nat * kstate -> list (option nat) -> nat * kstate -> Prop :=
| TNil c : turns c [] c
| TCons c e c' tr c'' : turn c e c' -> turns c' tr c'' -> turns c (e :: tr) c''.

Lemma switch_keeps i s s1 : scheduler_switch i s = Ret tt s1 ->
  length (ptable s1) = length (ptable s) /\ forall j, j <> i -> ready j (ptable s) -> ready j (ptable s1).
Proof.
  unfold scheduler_switch, switchuvm. krun. unfold bind at 1, proc_at. ksimpl.
  destruct (ptable s !! i) as [p|] eqn:E; [|done].
  destruct (p_kstack p =? 0); [done|]. destruct (p_pgdir p =? 0); [done|]. krun. intros [= <-]. ksimpl.
  split; [apply length_alter|]. intros j Hj (q & Hq & Hr). exists q. by rewrite list_lookup_alter_ne.
Qed.

Lemma back_keeps s s1 : scheduler_back s = Ret tt s1 -> ptable s1 = ptable s.
Proof. by intros [= <-]. Qed.

(** The next process is the first ready one from the position on. *)
Lemma scheduler_next_first pos pt i : scheduler_next pos pt = Some i ->
  (pos <= i < length pt)%nat /\ ready i pt /\ forall j, (pos <= j < i)%nat -> ~ ready j pt.
Proof.
  unfold scheduler_next. destruct (find_index _ _) as [k|] eqn:E; [|done]. intros [= <-].
  apply find_index_Some in E as [(p & Hp & Hs) Hmin]. apply bool_decide_eq_true in Hs.
  rewrite lookup_drop in Hp. pose proof (lookup_lt_Some _ _ _ Hp). split; [lia|]. split; [by exists p|].
  intros j Hj (q & Hq & Hr). specialize (Hmin (j - pos)%nat q ltac:(lia)).
  rewrite lookup_drop in Hmin. replace (pos + (j - pos))%nat with j in Hmin by lia.
  specialize (Hmin Hq). apply bool_decide_eq_false in Hmin. done.
Qed.

Lemma scheduler_next_none pos pt j : scheduler_next pos pt = None -> (pos <= j)%nat -> ~ ready j pt.
Proof.
  unfold scheduler_next. destruct (find_index _ _) as [k|] eqn:E; [done|]. intros _ Hj (q & Hq & Hr).
  rewrite find_index_None in E. specialize (E (j - pos)%nat q). rewrite lookup_drop in E.
  replace (pos + (j - pos))%nat with j in E by lia. specialize (E Hq). by apply bool_decide_eq_false in E.
Qed.

(** The turns before slot [j] is reached from position [pos], among [n] slots. *)
Definition distance (n j pos : nat) : nat := if (pos <=? j)%nat then j - pos else S (n - pos + j).

Lemma turn_closer c e c' j : turn c e c' -> ready j (ptable c.2) -> e <> Some j -> (c.1 <= length (ptable c.2))%nat ->
  let n := length (ptable c.2) in
  length (ptable c'.2) = n /\ ready j (ptable c'.2) /\ (c'.1 <= n)%nat /\
  (distance n j c'.1 < distance n j c.1)%nat.
Proof.
  intros Ht Hj He Hpos. pose proof Hj as (pj & Hpj & _). apply lookup_lt_Some in Hpj. unfold distance.
  destruct Ht as [pos s i s1 s2 s3 Hn Hsw [Hl2 Hr2] Hb|pos s s' Hn Hl Hr]; cbn [fst snd] in *.
  - destruct (scheduler_next_first _ _ _ Hn) as ([Hlo Hhi] & _ & Hmin). destruct (switch_keeps _ _ _ Hsw) as [Hl1 Hr1].
    rewrite (back_keeps _ _ Hb). assert (j <> i) as Hji by congruence.
    split; [congruence|]. split; [by apply Hr2, Hr1|]. split; [lia|].
    destruct (Nat.leb_spec pos j).
    + assert (i < j)%nat by (destruct (decide (i < j)%nat); [done|]; exfalso; apply (Hmin j); [lia|done]).
      rewrite (proj2 (Nat.leb_le _ _)) by lia. lia.
    + rewrite (proj2 (Nat.leb_gt _ _)) by lia. lia.
  - split; [done|]. split; [by apply Hr|]. split; [lia|].
    destruct (Nat.leb_spec pos j); [by destruct (scheduler_next_none _ _ _ Hn H)|]. cbn [Nat.leb]. lia.
Qed.

Lemma turns_bound c tr c' j : turns c tr c' -> ready j (ptable c.2) -> Some j ∉ tr -> (c.1 <= length (ptable c.2))%nat ->
  (length tr <= distance (length (ptable c.2)) j c.1)%nat.
Proof.
  induction 1 as [c|c e c1 tr c2 Ht _ IH]; intros Hj Hn Hpos; [cbn; lia|].
  apply not_elem_of_cons in Hn as [He Hn].
  destruct (turn_closer _ _ _ _ Ht Hj ltac:(done) Hpos) as (Hl & Hr & Hp & Hd). rewrite Hl in IH.
  specialize (IH Hr Hn Hp). cbn [length]. lia.
Qed.

(** The choice depends on the states alone. *)
Lemma scheduler_next_states pos pt pt' : p_state <$> pt = p_state <$> pt' -> scheduler_next pos pt = scheduler_next pos pt'.
Proof.
  intros E. unfold scheduler_next. f_equal.
  assert (forall l l' : list proc, p_state <$> l = p_state <$> l' ->
    find_index (fun p => bool_decide (p_state p = RUNNABLE)) l = find_index (fun p => bool_decide (p_state p = RUNNABLE)) l') as H.
  { induction l as [|p l IH]; intros [|p' l']; try done. intros [= Ep El]. cbn [find_index]. rewrite Ep. by rewrite (IH l'). }
  apply H. by rewrite !fmap_drop, E.
Qed.

End sched.

(** * What exit leaves behind

    The part of [exit] under the lock of the process table turns the caller
    into a zombie, wakes its parent, and passes its children to init, which is
    woken when one of them has exited. *)

Section exit.
Context {LK : Linker} {FS : FsOps}.
Variables (me : nat) (ini : option nat).

(** A round of the loop over the table. *)
Definition adopt (pt : list proc) (i : nat) : list proc :=
  match pt !! i with
  | Some p =>
      if bool_decide (p_parent p = Some me) then
        let pt' := alter (set_p_parent ini) i pt in
        if bool_decide (p_state p = ZOMBIE) then wake (ChProc <$> ini) <$> pt' else pt'
      else pt
  | None => pt
  end.

Lemma length_adopt pt i : length (adopt pt i) = length pt.
Proof.
  unfold adopt. destruct (pt !! i); [|done]. destruct (bool_decide _); [|done].
  destruct (bool_decide _); by rewrite ?length_fmap, length_alter.
Qed.

Lemma reparent_run idx : forall s, initproc s = ini -> (forall i, i ∈ idx -> (i < length (ptable s))%nat) ->
  reparent idx me s = Ret tt (set_ptable (foldl adopt (ptable s) idx) s).
Proof.
  induction idx as [|i idx IH]; intros s Hi Hr; cbn [reparent foldl]; [by destruct s|].
  destruct (lookup_lt_is_Some_2 (ptable s) i) as [p Hp]; [apply Hr; left|].
  assert (forall k, k ∈ idx -> (k < length (adopt (ptable s) i))%nat) as Hr'.
  { intros k Hk. rewrite length_adopt. apply Hr. by right. }
  rewrite (run_proc_at i p) by done. krun. unfold adopt in *. rewrite Hp in *. unfold when.
  destruct (bool_decide (p_parent p = Some me)); [|by krun; apply IH].
  krun. rewrite Hi. unfold upd_proc. krun. destruct (bool_decide (p_state p = ZOMBIE)); unfold wakeup1; krun; rewrite IH; ksimpl; done.
Qed.

Lemma wake_parent ch p : p_parent (wake ch p) = p_parent p.
Proof. unfold wake. by destruct (_ && _). Qed.

Lemma wake_zombie ch p : bool_decide (p_state (wake ch p) = ZOMBIE) = bool_decide (p_state p = ZOMBIE).
Proof.
  unfold wake. destruct (bool_decide_reflect (p_state p = SLEEPING)) as [E|]; [|done]. cbn [andb].
  destruct (bool_decide (p_chan p = ch)); [|done]. by rewrite E.
Qed.

Lemma wake_idem ch p : wake ch (wake ch p) = wake ch p.
Proof. unfold wake at 2 3. destruct (_ && _) eqn:E; [done|]. unfold wake. by rewrite E. Qed.

Lemma wake_set_parent ch o p : wake ch (set_p_parent o p) = set_p_parent o (wake ch p).
Proof. unfold wake. change (p_state (set_p_parent o p)) with (p_state p). change (p_chan (set_p_parent o p)) with (p_chan p). by destruct (_ && _). Qed.

Definition zombie_child (p : proc) : bool := bool_decide (p_parent p = Some me) && bool_decide (p_state p = ZOMBIE).

(** Slot [j] after the first [k] rounds; [woke] says whether one woke init. *)
Definition adopted (woke : bool) (k j : nat) (p : proc) : proc :=
  let p := if woke then wake (ChProc <$> ini) p else p in
  if bool_decide (j < k)%nat && bool_decide (p_parent p = Some me) then set_p_parent ini p else p.

Lemma adopted_wake woke k j p : wake (ChProc <$> ini) (adopted woke k j p) = adopted true k j p.
Proof.
  unfold adopted. destruct woke; cbv zeta; rewrite ?wake_parent; destruct (_ && _); by rewrite ?wake_set_parent, ?wake_idem.
Qed.

Lemma adopted_at woke k p : adopted woke k k p = if woke then wake (ChProc <$> ini) p else p.
Proof. unfold adopted. by rewrite bool_decide_eq_false_2 by lia. Qed.

Lemma adopted_next woke k j p : j <> k -> adopted woke (S k) j p = adopted woke k j p.
Proof.
  intros Hj. unfold adopted. by rewrite (bool_decide_ext (j < S k)%nat (j < k)%nat) by lia.
Qed.

Lemma adopt_all pt k : (k <= length pt)%nat ->
  forall j, foldl adopt pt (seq 0 k) !! j = adopted (existsb zombie_child (take k pt)) k j <$> pt !! j.
Proof.
  induction k as [|k IH]; intros Hk j.
  - cbn. destruct (pt !! j) as [p|]; [|done]. cbn. unfold adopted. by rewrite bool_decide_eq_false_2 by lia.
  - rewrite seq_S, foldl_app. cbn [foldl Nat.add]. destruct (lookup_lt_is_Some_2 pt k) as [q Hq]; [lia|].
    specialize (IH ltac:(lia)). set (w := existsb zombie_child (take k pt)) in *.
    rewrite (take_S_r _ _ q) by done. rewrite existsb_app. cbn [existsb]. rewrite orb_false_r. fold w.
    unfold adopt. rewrite IH, Hq. cbn [fmap option_fmap option_map]. rewrite adopted_at. unfold zombie_child at 1.
    assert (p_parent (if w then wake (ChProc <$> ini) q else q) = p_parent q) as -> by (by destruct w; rewrite ?wake_parent).
    assert (bool_decide (p_state (if w then wake (ChProc <$> ini) q else q) = ZOMBIE) = bool_decide (p_state q = ZOMBIE)) as ->
      by (by destruct w; rewrite ?wake_zombie).
    assert (forall j, alter (set_p_parent ini) k (foldl adopt pt (seq 0 k)) !! j =
      (if bool_decide (j = k) then set_p_parent ini else id) <$> (adopted w k j <$> pt !! j)) as Halt.
    { intros j'. case_bool_decide as D; [subst; by rewrite list_lookup_alter_eq, IH|].
      rewrite list_lookup_alter_ne, IH by done. by destruct (pt !! j'). }
    assert (forall x j p, pt !! j = Some p -> p_parent q = Some me ->
      (if bool_decide (j = k) then set_p_parent ini else id) (adopted x k j p) = adopted x (S k) j p) as Hstep.
    { intros x j' p Hp Hpar. case_bool_decide as D; [|by rewrite adopted_next]. subst j'. rewrite adopted_at. unfold adopted.
      rewrite bool_decide_eq_true_2 by lia. assert (p = q) as -> by congruence. rewrite bool_decide_eq_true_2; [done|].
      by destruct x; rewrite ?wake_parent. }
    destruct (bool_decide_reflect (p_parent q = Some me)) as [Hpar|Hpar]; cbn [andb].
    + destruct (bool_decide (p_state q = ZOMBIE)).
      * rewrite orb_true_r, list_lookup_fmap, Halt. destruct (pt !! j) as [p|] eqn:Hp; [|done]. cbn. f_equal.
        rewrite <- Hstep by done. destruct (bool_decide (j = k)); cbn; by rewrite ?wake_set_parent, adopted_wake.
      * rewrite orb_false_r, Halt. destruct (pt !! j) as [p|] eqn:Hp; [|done]. cbn. f_equal. by apply Hstep.
    + rewrite orb_false_r, IH. destruct (pt !! j) as [p|] eqn:Hp; [|done]. cbn. f_equal.
      destruct (decide (j = k)) as [->|Hne]; [|by rewrite adopted_next]. assert (p = q) as -> by congruence.
      rewrite adopted_at. unfold adopted. rewrite (bool_decide_eq_false_2 (p_parent _ = Some me)), andb_false_r; [done|].
      destruct w; rewrite ?wake_parent; done.
Qed.

(** ** The whole step *)

(** The processes that the exit of [p] wakes up: its parent, and init when it
    gets a child that has already exited. *)
Definition exit_wakes (pt : list proc) (p q : proc) : bool :=
  bool_decide (p_state q = SLEEPING) &&
  (bool_decide (p_chan q = ChProc <$> p_parent p) ||
   existsb zombie_child pt && bool_decide (p_chan q = ChProc <$> ini)).

(** What becomes of another process. *)
Definition after_exit (pt : list proc) (p q : proc) : proc :=
  set_p_parent (if bool_decide (p_parent q = Some me) then ini else p_parent q)
    (if exit_wakes pt p q then set_p_state RUNNABLE q else q).

Lemma zombie_child_wake ch pt : existsb zombie_child (wake ch <$> pt) = existsb zombie_child pt.
Proof. induction pt as [|q pt IH]; [done|]. cbn. rewrite IH. unfold zombie_child at 1. by rewrite wake_parent, wake_zombie. Qed.

Lemma wake_twice (w : bool) c1 c2 q : (if w then wake c2 (wake c1 q) else wake c1 q) =
  if bool_decide (p_state q = SLEEPING) && (bool_decide (p_chan q = c1) || w && bool_decide (p_chan q = c2))
  then set_p_state RUNNABLE q else q.
Proof.
  unfold wake at 2 3. destruct (bool_decide_reflect (p_state q = SLEEPING)) as [E|E]; cbn [andb].
  - destruct (bool_decide (p_chan q = c1)); cbn [orb]; [by destruct w|].
    destruct w; [|done]. unfold wake. by rewrite (bool_decide_eq_true_2 _ E).
  - destruct w; [|done]. unfold wake. by rewrite (bool_decide_eq_false_2 _ E).
Qed.

Lemma after_exit_eq pt p q j k : (j < k)%nat ->
  adopted (existsb zombie_child pt) k j (wake (ChProc <$> p_parent p) q) = after_exit pt p q.
Proof.
  intros Hj. unfold adopted, after_exit, exit_wakes. rewrite (bool_decide_eq_true_2 (j < k)%nat) by done.
  cbn [andb]. cbv zeta. rewrite wake_twice. set (b := _ && _).
  assert (p_parent (if b then set_p_state RUNNABLE q else q) = p_parent q) as -> by (by destruct b).
  destruct (bool_decide (p_parent q = Some me)); [done|]. destruct b; by destruct q.
Qed.

Lemma exit_zombie_run s p : cur s = Some me -> ptable s !! me = Some p ->
  held s = [] -> initproc s = ini -> length (ptable s) = NPROC ->
  exists s', exit_zombie me s = Block s' /\ held s' = [LkPtable] /\
    ptable s' !! me = Some (set_p_state ZOMBIE (set_p_etime (i32 (ticks s)) (after_exit (ptable s) p p))) /\
    forall j, j <> me -> ptable s' !! j = after_exit (ptable s) p <$> ptable s !! j.
Proof.
  intros Hc Hp Hh Hi Hlen. unfold exit_zombie. rewrite run_acquire by (rewrite Hh; apply not_elem_of_nil).
  rewrite (run_proc_at me p) by done. unfold wakeup1. krun. rewrite Hh.
  set (s1 := set_ptable (wake (ChProc <$> p_parent p) <$> ptable s) (set_held [LkPtable] s)).
  assert (length (ptable s1) = NPROC) as Hlen1 by (unfold s1; ksimpl; by rewrite length_fmap).
  rewrite (bind_ret_l _ _ _ _ _ (reparent_run (seq 0 NPROC) s1 Hi ltac:(intros i [_ H]%elem_of_seq; lia))).
  set (pt := foldl adopt (ptable s1) (seq 0 NPROC)).
  assert (forall j, pt !! j = after_exit (ptable s) p <$> ptable s !! j) as Hpt.
  { intros j. unfold pt. rewrite adopt_all by lia. rewrite firstn_all2 by lia. unfold s1. ksimpl.
    rewrite zombie_child_wake, list_lookup_fmap. destruct (ptable s !! j) as [q|] eqn:Hq; [|done]. cbn. f_equal.
    apply after_exit_eq. apply lookup_lt_Some in Hq. lia. }
  krun. unfold upd_proc. krun. ksimpl. unfold bind, sched, holding. ksimpl.
  change (cur s1) with (cur s). change (held s1) with [LkPtable]. change (ticks s1) with (ticks s). rewrite Hc.
  rewrite bool_decide_eq_true_2 by left. cbn [negb length Nat.eqb].
  rewrite list_lookup_alter_eq, list_lookup_alter_eq, Hpt, Hp. cbn [fmap option_fmap option_map]. ksimpl.
  eexists. split; [done|]. ksimpl. split; [done|]. split.
  - by rewrite list_lookup_alter_eq, list_lookup_alter_eq, Hpt, Hp.
  - intros j Hj. by rewrite list_lookup_alter_ne, list_lookup_alter_ne, Hpt by done.
Qed.

End exit.
