(* ===== verification/Sh.v ===== *)
(** * The shell (sh.c)

    The input line is a buffer and the pointers into it are offsets: a token is
    the pair of the offsets [q] and [eq] of its first byte and the byte behind
    it.  The parsing functions pass the current offset as state; [panic] ends
    the shell's child.  Memory for the nodes is assumed to be there: the
    constructors do not test the result of malloc.

    [parseexec] keeps a pointer to the node of the command while it wraps
    redirections around it, and fills in its arguments as it finds them; here
    the arguments and the redirections are collected and the node is built at
    the end.  [runcmd] and the loop of [main] run over the interface [Xv6]. *)

From S2P Require Import Prelude CString Console Ulib Layout.

(** ** Commands *)

Definition MAXARGS : nat := 10.

(** Offsets of a token. *)
Definition token : Type := nat * nat.

Inductive cmd :=
| EXEC (argv : list token)
| REDIR (c : cmd) (file : token) (mode fd : Z)
| PIPE (left right : cmd)
| LIST (left right : cmd)
| BACK (c : cmd).

Definition SH_RDONLY : Z := 0.
Definition SH_WRONLY : Z := 1.
Definition SH_CREATE : Z := 0x200.

(** ** Tokens *)

(** " \t\r\n\v" *)
Definition whitespace : list Z := [32; 9; 13; 10; 11].
Definition symbols : list Z := bytes "<|>&;()".

Definition is_ws (c : Z) : bool := match strchr whitespace c with Some _ => true | None => false end.
Definition is_sym (c : Z) : bool := match strchr symbols c with Some _ => true | None => false end.

(** [while(s < es && strchr(whitespace, *s)) s++;] *)
Fixpoint skip_ws (s : list Z) : nat :=
  match s with
  | c :: s' => if is_ws c then S (skip_ws s') else 0
  | [] => 0
  end.

(** [while(s < es && !strchr(whitespace, *s) && !strchr(symbols, *s)) s++;] *)
Fixpoint word_length (s : list Z) : nat :=
  match s with
  | c :: s' => if negb (is_ws c) && negb (is_sym c) then S (word_length s') else 0
  | [] => 0
  end.

Section parse.
Variable buf : list Z.

(** [*s]: the buffer is terminated. *)
Definition at_ (s : nat) : Z := nth s buf 0.

Definition past_ws (s : nat) : nat := s + skip_ws (drop s buf).

(** The token: its kind, and its offsets. *)
Definition gettoken : M nat (Z * token) := fun ps =>
  let s := past_ws ps in
  let c := at_ s in
  let '(ret, e) :=
    if c =? 0 then (0, s)
    else if (c =? chr "|") || (c =? chr "(") || (c =? chr ")") || (c =? chr ";") || (c =? chr "&") || (c =? chr "<")
    then (c, S s)
    else if c =? chr ">" then (if at_ (S s) =? chr ">" then (chr "+", S (S s)) else (c, S s))
    else (chr "a", s + word_length (drop s buf))%nat in
  Ret (ret, (s, e)) (past_ws e).

Definition peek (toks : list Z) : M nat bool := fun ps =>
  let s := past_ws ps in
  Ret (negb (at_ s =? 0) && match strchr toks (at_ s) with Some _ => true | None => false end) s.

(** ** The grammar *)

(** A redirection: the file, the mode and the descriptor. *)
Definition redir : Type := token * Z * Z.

Definition redirs (c : cmd) (rs : list redir) : cmd :=
  fold_left (fun c '(f, mode, fd) => REDIR c f mode fd) rs c.

(** [while(peek(ps, es, "<>"))] of parseredirs: the redirections in order. *)
Fixpoint parseredirs (k : nat) : M nat (list redir) :=
  p <- peek (bytes "<>") ;;
  if negb p then ret []
  else
    match k with
    | O => undef "parseredirs: loop bound"
    | S k' =>
        tok <- gettoken ;;
        file <- gettoken ;;
        if negb (file.1 =? chr "a") then panic "missing file for redirection"
        else
          rs <- parseredirs k' ;;
          ret ((if tok.1 =? chr "<" then (file.2, SH_RDONLY, 0)
                else (file.2, Z.lor SH_WRONLY SH_CREATE, 1)) :: rs)
    end.

(** The loop of parseexec: [k] is how many arguments still fit. *)
Fixpoint parseargs (k : nat) : M nat (list token * list redir) :=
  p <- peek (bytes "|)&;") ;;
  if p then ret ([], [])
  else
    tok <- gettoken ;;
    if tok.1 =? 0 then ret ([], [])
    else if negb (tok.1 =? chr "a") then panic "syntax"
    else
      match k with
      | O => panic "too many args"
      | S k' =>
          rs <- parseredirs (length buf) ;;
          more <- parseargs k' ;;
          ret (tok.2 :: more.1, rs ++ more.2)
      end.

(** [while(peek(ps, es, "&"))]: the number of ampersands. *)
Fixpoint parsebacks (k : nat) : M nat nat :=
  p <- peek (bytes "&") ;;
  if negb p then ret 0%nat
  else
    match k with
    | O => undef "parseline: loop bound"
    | S k' => gettoken ;; n <- parsebacks k' ;; ret (S n)
    end.

Fixpoint backs (n : nat) (c : cmd) : cmd :=
  match n with
  | O => c
  | S n' => backs n' (BACK c)
  end.

(** The four functions call each other; [k] bounds the depth. *)
Fixpoint parseline (k : nat) : M nat cmd :=
  match k with
  | O => undef "parse: depth"
  | S k' =>
      c <- parsepipe k' ;;
      n <- parsebacks (length buf) ;;
      let c := backs n c in
      p <- peek (bytes ";") ;;
      if p then
        gettoken ;;
        r <- parseline k' ;;
        ret (LIST c r)
      else ret c
  end

with parsepipe (k : nat) : M nat cmd :=
  match k with
  | O => undef "parse: depth"
  | S k' =>
      c <- parseexec k' ;;
      p <- peek (bytes "|") ;;
      if p then
        gettoken ;;
        r <- parsepipe k' ;;
        ret (PIPE c r)
      else ret c
  end

with parseblock (k : nat) : M nat cmd :=
  match k with
  | O => undef "parse: depth"
  | S k' =>
      p <- peek (bytes "(") ;;
      if negb p then panic "parseblock"
      else
        gettoken ;;
        c <- parseline k' ;;
        p <- peek (bytes ")") ;;
        if negb p then panic "syntax - missing )"
        else
          gettoken ;;
          rs <- parseredirs (length buf) ;;
          ret (redirs c rs)
  end

with parseexec (k : nat) : M nat cmd :=
  match k with
  | O => undef "parse: depth"
  | S k' =>
      p <- peek (bytes "(") ;;
      if p then parseblock k'
      else
        rs <- parseredirs (length buf) ;;
        more <- parseargs (MAXARGS - 1) ;;
        ret (redirs (EXEC more.1) (rs ++ more.2))
  end.

(** ** Termination of the strings *)

Definition parse_fuel : nat := 4 * length buf + 5.

End parse.

(** [*eargv[i] = 0;] for every argument, [*efile = 0;] *)
Fixpoint nulterminate (c : cmd) (buf : list Z) : list Z :=
  match c with
  | EXEC argv => fold_left (fun b (t : token) => <[t.2 := 0]> b) argv buf
  | REDIR c f _ _ => <[f.2 := 0]> (nulterminate c buf)
  | PIPE l r | LIST l r => nulterminate r (nulterminate l buf)
  | BACK c => nulterminate c buf
  end.

(** The command and the buffer its tokens point into, with its terminator.
    What is left of the line at the end is a syntax error of its own. *)
Definition parsecmd (buf : list Z) : M nat (cmd * list Z) :=
  c <- parseline buf (parse_fuel buf) ;;
  peek buf [] ;;
  (fun s => if negb (s =? length buf)%nat then Panic "leftovers" s
            else Ret (c, nulterminate c (buf ++ [0])) s).

(** * Running commands (sh.c)

    The system calls of xv6 that its user programs make, and the half of the
    shell that makes them.  A process is the code it runs until it exits;
    [xv_fork] takes the code of the child.  [runcmd] never returns to its
    caller, so that its result stands for the end of the process. *)

Class Xv6 (W : Type) : Type := {
  xv_io :: Io W;
  xv_fork : M W unit -> M W Z;
  xv_exec : list Z -> list (list Z) -> M W bool;    (** whether the program was run; it does not return then *)
  xv_wait : M W Z;
  xv_pipe : M W (option (Z * Z));
  xv_dup : Z -> M W Z;
  xv_chdir : list Z -> M W Z;
  xv_mkdir : list Z -> M W Z;
  xv_mknod : list Z -> Z -> Z -> M W Z;
  xv_unlink : list Z -> M W Z;
  xv_link : list Z -> list Z -> M W Z;
  xv_kill : Z -> M W Z;
  xv_fstat : Z -> M W (option (Z * Z * Z * Z * Z)); (** type, dev, ino, nlink, size *)
  xv_sleep : Z -> M W Z;
}.

Section run.
Context {W : Type} {XV : Xv6 W}.

Definition sh_panic (s : list Z) : M W unit := uprintf 2 (bytes "%s" ++ [10]) [PStr (Some s)].

(** [fork1()]: the rest of the parent runs only if there is a child. *)
Definition fork1 (child parent : M W unit) : M W unit :=
  pid <- xv_fork child ;;
  if pid =? -1 then sh_panic (bytes "fork") else parent.

(** What the two children of a pipe do before they run their commands, and
    the parent afterwards. *)
Definition pipe_left (p : Z * Z) : M W unit :=
  io_close 1 ;;
  xv_dup p.2 ;;
  io_close p.1 ;;
  io_close p.2.

Definition pipe_right (p : Z * Z) : M W unit :=
  io_close 0 ;;
  xv_dup p.1 ;;
  io_close p.1 ;;
  io_close p.2.

Definition pipe_parent (p : Z * Z) : M W unit :=
  io_close p.1 ;;
  io_close p.2 ;;
  xv_wait ;;
  xv_wait ;;
  ret tt.

Variable buf : list Z.

(** The C string a token points to. *)
Definition str (t : token) : list Z := cstr (drop t.1 buf).

Fixpoint runcmd (c : cmd) : M W unit :=
  match c with
  | EXEC argv =>
      match argv with
      | [] => ret tt
      | a :: _ =>
          ok <- xv_exec (str a) (map str argv) ;;
          if ok : bool then ret tt
          else uprintf 2 (bytes "exec %s failed" ++ [10]) [PStr (Some (str a))]
      end
  | REDIR c file mode fd =>
      io_close fd ;;
      r <- io_open (str file) mode 0 ;;
      if r <? 0 then uprintf 2 (bytes "open %s failed" ++ [10]) [PStr (Some (str file))]
      else runcmd c
  | LIST l r => fork1 (runcmd l) (xv_wait ;; runcmd r)
  | PIPE l r =>
      p <- xv_pipe ;;
      match p with
      | None => sh_panic (bytes "pipe")
      | Some p =>
          fork1 (pipe_left p ;; runcmd l)
            (fork1 (pipe_right p ;; runcmd r)
               (pipe_parent p))
      end
  | BACK c => fork1 (runcmd c) (ret tt)
  end.

End run.

(** ** The loop *)

Section main.
Context {W : Type} {XV : Xv6 W}.

(** [runcmd(parsecmd(buf))] in the child. *)
Definition sh_child (line : list Z) : M W unit :=
  match parsecmd line 0%nat with
  | Ret (c, buf) _ => runcmd buf c
  | Panic e s =>
      if String.eqb e "leftovers" then
        uprintf 2 (bytes "leftovers: %s" ++ [10]) [PStr (Some (drop s line))] ;;
        sh_panic (bytes "syntax")
      else sh_panic (bytes e)
  | _ => undef "parsecmd"
  end.

(** [getcmd]: the line, [None] at the end of the input. *)
Definition getcmd : M W (option (list Z)) :=
  uprintf 2 (bytes "$ ") [] ;;
  l <- ugets 100 ;;
  match cstr l with
  | [] => ret None
  | b => ret (Some b)
  end.

Definition is_cd (b : list Z) : bool :=
  (nth 0 b 0 =? chr "c") && (nth 1 b 0 =? chr "d") && (nth 2 b 0 =? 32).

(** Chdir in the shell itself; the newline at the end is chopped off. *)
Definition sh_cd (b : list Z) : M W unit :=
  let dir := drop 3 (take (length b - 1) b) in
  r <- xv_chdir dir ;;
  when (r <? 0) (uprintf 2 (bytes "cannot cd %s" ++ [10]) [PStr (Some dir)]).

Fixpoint sh_loop (k : nat) : M W unit :=
  match k with
  | O => undef "sh: line bound"
  | S k' =>
      l <- getcmd ;;
      match l with
      | None => ret tt
      | Some b =>
          if is_cd b then sh_cd b ;; sh_loop k'
          else fork1 (sh_child b) (xv_wait ;; sh_loop k')
      end
  end.

(** [while((fd = open("console", O_RDWR)) >= 0)]: at most four opens. *)
Fixpoint open_console (k : nat) : M W unit :=
  match k with
  | O => undef "sh: descriptors"
  | S k' =>
      fd <- io_open (bytes "console") 2 0 ;;
      if 0 <=? fd then
        if 3 <=? fd then io_close fd else open_console k'
      else ret tt
  end.

Definition sh_main (k : nat) : M W unit :=
  open_console k ;;
  sh_loop k.

End main.
