(* ===== verification/Grep.v ===== *)
(** * The grep of the user programs (grep.c)

    C strings are lists of characters without the terminator.  The loop over the
    input buffer is modelled with the chunks that [read] returns.  The matcher
    of Kernighan and Pike is proved against the language a pattern denotes, and
    the loop against the lines of the input. *)

From S2P Require Import Prelude CString Console Ulib.

(** ** The matcher *)

Definition caret : Z := chr "^".
Definition dollar : Z := chr "$".
Definition dot : Z := chr ".".
Definition star : Z := chr "*".

(** matchhere: search for [re] at beginning of [text]; the inner loop is
    matchstar: search for [c*re]. *)
Fixpoint matchhere (re text : list Z) : bool :=
  match re with
  | [] => true
  | c :: re1 =>
      match re1 with
      | s :: re2 =>
          if s =? star then
            (fix matchstar (text : list Z) : bool :=
               if matchhere re2 text then true
               else match text with
                    | [] => false
                    | t :: text' => if (t =? c) || (c =? dot) then matchstar text' else false
                    end) text
          else match text with
               | [] => false
               | t :: text' => if (c =? dot) || (c =? t) then matchhere re1 text' else false
               end
      | [] =>
          if c =? dollar then match text with [] => true | _ => false end
          else match text with
               | [] => false
               | t :: text' => if (c =? dot) || (c =? t) then matchhere re1 text' else false
               end
      end
  end.

(** The loop of match over the suffixes of the text. *)
Fixpoint match_loop (re text : list Z) : bool :=
  if matchhere re text then true
  else match text with
       | [] => false
       | _ :: text' => match_loop re text'
       end.

Definition match_ (re text : list Z) : bool :=
  match re with
  | c :: re' => if c =? caret then matchhere re' text else match_loop re text
  | [] => match_loop re text
  end.

(** ** The buffer loop *)

(** [strchr(p, '\n')], which gives up at a null byte: the line and the bytes
    after its newline. *)
Fixpoint next_line (p : list Z) : option (list Z * list Z) :=
  match p with
  | [] => None
  | c :: p' =>
      if c =? 0 then None
      else if c =? 10 then Some ([], p')
      else match next_line p' with
           | Some (l, r) => Some (c :: l, r)
           | None => None
           end
  end.

Section grep.
Context {W : Type} {IO : Io W}.

(** [while((q = strchr(p, '\n')) != 0)]: the bytes left at [p].  There are at
    most as many lines as bytes. *)
Fixpoint grep_lines (k : nat) (pattern p : list Z) : M W (list Z) :=
  match next_line p with
  | None => ret p
  | Some (l, r) =>
      match k with
      | O => undef "grep: loop bound"
      | S k' =>
          when (match_ pattern l) (io_write 1 (l ++ [10]) ;; ret tt) ;;
          grep_lines k' pattern r
      end
  end.

(** [while((n = read(fd, buf+m, sizeof(buf)-m-1)) > 0)], with [buf] the [m]
    bytes kept; [k] bounds the number of reads. *)
Fixpoint grep_loop (k : nat) (pattern : list Z) (fd : Z) (buf : list Z) : M W unit :=
  match k with
  | O => undef "grep: loop bound"
  | S k' =>
      nb <- io_read fd (1024 - length buf - 1) ;;
      let '(n, bs) := nb in
      if n <=? 0 then ret tt
      else
        let buf := buf ++ bs in
        p <- grep_lines (length buf) pattern buf ;;
        grep_loop k' pattern fd (if (length p =? length buf)%nat then [] else p)
  end.

Definition grep (k : nat) (pattern : list Z) (fd : Z) : M W unit := grep_loop k pattern fd [].

(** The files of the command line. *)
Fixpoint grep_files (k : nat) (pattern : list Z) (files : list (list Z)) : M W unit :=
  match files with
  | [] => ret tt
  | f :: files' =>
      fd <- io_open f 0 0 ;;
      if fd <? 0 then uprintf 1 (bytes "grep: cannot open %s" ++ [10]) [PStr (Some f)]
      else
        grep k pattern fd ;;
        io_close fd ;;
        grep_files k pattern files'
  end.

(** [argv] without the program name. *)
Definition grep_main (k : nat) (argv : list (list Z)) : M W unit :=
  match argv with
  | [] => uprintf 2 (bytes "usage: grep pattern [file ...]" ++ [10]) []
  | [pattern] => grep k pattern 0
  | pattern :: files => grep_files k pattern files
  end.

End grep.

(** * What grep matches and prints

    The language of a pattern, the proof that the matcher decides it, and what
    [grep] writes for a file. *)

(** ** The language of a pattern *)

Inductive item := One (c : Z) | Many (c : Z).

(** The items of a pattern, and whether it ends with a dollar sign. *)
Fixpoint parse_re (re : list Z) : list item * bool :=
  match re with
  | [] => ([], false)
  | c :: re1 =>
      match re1 with
      | s :: re2 =>
          if s =? star then let '(l, e) := parse_re re2 in (Many c :: l, e)
          else let '(l, e) := parse_re re1 in (One c :: l, e)
      | [] => if c =? dollar then ([], true) else ([One c], false)
      end
  end.

Definition fits (c t : Z) : Prop := c = dot \/ c = t.

Inductive lang : list item -> list Z -> Prop :=
| lang_nil : lang [] []
| lang_one c t l w : fits c t -> lang l w -> lang (One c :: l) (t :: w)
| lang_none c l w : lang l w -> lang (Many c :: l) w
| lang_more c t l w : fits c t -> lang (Many c :: l) w -> lang (Many c :: l) (t :: w).

(** A prefix of the text is in the language; all of it, for an anchored
    pattern. *)
Definition matches_here (re text : list Z) : Prop :=
  exists w rest, text = w ++ rest /\ lang (parse_re re).1 w /\ ((parse_re re).2 = true -> rest = []).

Lemma fits_dec c t : (c =? dot) || (c =? t) = true <-> fits c t.
Proof. unfold fits. rewrite orb_true_iff, !Z.eqb_eq. done. Qed.

(** Induction that also gives the hypothesis for the tail of the tail. *)
Lemma list_ind2 (P : list Z -> Prop) : P [] -> (forall c, P [c]) -> (forall c d l, P (d :: l) -> P l -> P (c :: d :: l)) ->
  forall l, P l.
Proof.
  intros H0 H1 H2. assert (forall l, P l /\ forall c, P (c :: l)) as H; [|intros l; apply H].
  induction l as [|d l [IH1 IH2]]; [auto|]. split; [apply IH2|]. intros c. by apply H2.
Qed.

(** The pattern [c*re] against the text. *)
Lemma matchstar_spec c re : (forall text, matchhere re text = true <-> matches_here re text) -> forall text,
  (fix matchstar (text : list Z) : bool :=
     if matchhere re text then true
     else match text with
          | [] => false
          | t :: text' => if (t =? c) || (c =? dot) then matchstar text' else false
          end) text = true <->
  exists w rest, text = w ++ rest /\ lang (Many c :: (parse_re re).1) w /\ ((parse_re re).2 = true -> rest = []).
Proof.
  intros Hre. induction text as [|t text IH]; pose proof (Hre []) as Hn; [|pose proof (Hre (t :: text)) as Ht].
  - destruct (matchhere re []); (split; [|try done]).
    + intros _. destruct (proj1 Hn eq_refl) as (w & rest & E & Hw & He). exists w, rest. auto using lang_none.
    + done.
    + intros (w & rest & E & Hw & He). symmetry in E. apply app_eq_nil in E as [-> ->]. inversion Hw; subst.
      apply Hn. by exists [], [].
  - destruct (matchhere re (t :: text)); (split; [|try done]).
    + intros _. destruct (proj1 Ht eq_refl) as (w & rest & E & Hw & He). exists w, rest. auto using lang_none.
    + destruct ((t =? c) || (c =? dot)) eqn:Ef; [|done]. intros (w & rest & -> & Hw & He)%IH.
      exists (t :: w), rest. split; [done|]. split; [|done]. apply lang_more; [|done].
      apply fits_dec. by rewrite orb_comm, Z.eqb_sym.
    + intros (w & rest & E & Hw & He). inversion Hw as [| |c' l w' Hl|c' t' l w' Hf Hl]; subst.
      * exfalso. assert (false = true) by (apply Ht; by exists w, rest). done.
      * injection E as -> ->. apply fits_dec in Hf. rewrite orb_comm, (Z.eqb_sym c t') in Hf. rewrite Hf. apply IH. by exists w', rest.
Qed.

(** A pattern that starts with a plain character. *)
Lemma match_one_spec c re : (forall text, matchhere re text = true <-> matches_here re text) -> forall text,
  match text with
  | [] => false
  | t :: text' => if (c =? dot) || (c =? t) then matchhere re text' else false
  end = true <->
  exists w rest, text = w ++ rest /\ lang (One c :: (parse_re re).1) w /\ ((parse_re re).2 = true -> rest = []).
Proof.
  intros Hre text. split.
  - destruct text as [|t text]; [done|]. destruct ((c =? dot) || (c =? t)) eqn:Ef; [|done].
    intros (w & rest & -> & Hw & He)%Hre. exists (t :: w), rest. split; [done|]. split; [|done].
    apply lang_one; [by apply fits_dec|done].
  - intros (w & rest & -> & Hw & He). inversion Hw as [|c' t l w' Hf Hl| |]; subst. cbn [app].
    apply fits_dec in Hf. rewrite Hf. apply Hre. by exists w', rest.
Qed.

Lemma matchhere_spec re : forall text, matchhere re text = true <-> matches_here re text.
Proof.
  induction re as [|c|c s re IH1 IH2] using list_ind2; intros text.
  - split; [|done]. intros _. exists [], text. split; [done|]. split; [constructor|done].
  - unfold matches_here. cbn [matchhere parse_re]. destruct (c =? dollar); cbn [fst snd].
    + split.
      * destruct text; [|done]. intros _. exists [], []. split; [done|]. split; [constructor|done].
      * intros (w & rest & -> & Hw & He). rewrite He by done. by inversion Hw; subst.
    + apply (match_one_spec c []). intros t. split; [|done]. intros _. exists [], t. split; [done|]. split; [constructor|done].
  - unfold matches_here. change (parse_re (c :: s :: re)) with
      (if s =? star then let '(l, e) := parse_re re in (Many c :: l, e)
       else let '(l, e) := parse_re (s :: re) in (One c :: l, e)).
    destruct (s =? star) eqn:Es.
    + pose proof (matchstar_spec c re IH2 text) as H. destruct (parse_re re) as [l e]. cbn [fst snd] in *.
      rewrite <- H. cbn [matchhere]. by rewrite Es.
    + pose proof (match_one_spec c (s :: re) IH1 text) as H. destruct (parse_re (s :: re)) as [l e]. cbn [fst snd] in *.
      rewrite <- H. change (matchhere (c :: s :: re) text) with
        (if s =? star then (fix matchstar (text : list Z) : bool :=
           if matchhere re text then true
           else match text with
                | [] => false
                | t :: text' => if (t =? c) || (c =? dot) then matchstar text' else false
                end) text
         else match text with
              | [] => false
              | t :: text' => if (c =? dot) || (c =? t) then matchhere (s :: re) text' else false
              end). by rewrite Es.
Qed.

(** ** match *)

(** A caret anchors the pattern at the beginning of the text; otherwise it may
    match anywhere. *)
Definition matches (re text : list Z) : Prop :=
  match re with
  | c :: re' => if c =? caret then matches_here re' text else exists u v, text = u ++ v /\ matches_here re v
  | [] => exists u v, text = u ++ v /\ matches_here re v
  end.

Lemma match_loop_spec re text : match_loop re text = true <-> exists u v, text = u ++ v /\ matches_here re v.
Proof.
  induction text as [|t text IH]; cbn [match_loop]; pose proof (matchhere_spec re) as Hre.
  - destruct (matchhere re []) eqn:E; (split; [|try done]).
    + intros _. exists [], []. by rewrite <- Hre.
    + done.
    + intros (u & v & Ev & Hv). symmetry in Ev. apply app_eq_nil in Ev as [-> ->]. apply Hre in Hv. congruence.
  - destruct (matchhere re (t :: text)) eqn:E.
    + split; [|done]. intros _. exists [], (t :: text). by rewrite <- Hre.
    + rewrite IH. split.
      * intros (u & v & -> & Hv). by exists (t :: u), v.
      * intros ([|x u] & v & Ev & Hv); cbn in Ev; [subst v; apply Hre in Hv; congruence|]. injection Ev as -> ->. by exists u, v.
Qed.

Lemma match_spec re text : match_ re text = true <-> matches re text.
Proof.
  unfold match_, matches. destruct re as [|c re]; [apply match_loop_spec|].
  destruct (c =? caret); [apply matchhere_spec|apply match_loop_spec].
Qed.

(** ** The lines of the input *)

(** The terminated lines, without their newlines, and the bytes after the last
    newline. *)
Fixpoint split_lines (data : list Z) : list (list Z) * list Z :=
  match data with
  | [] => ([], [])
  | c :: d =>
      let '(ls, r) := split_lines d in
      if c =? 10 then ([] :: ls, r)
      else match ls with
           | l :: ls' => ((c :: l) :: ls', r)
           | [] => ([], c :: r)
           end
  end.

(** What grep prints of a list of lines. *)
Definition grep_out (pattern : list Z) (ls : list (list Z)) : list Z :=
  concat (map (fun l => if match_ pattern l then l ++ [10] else []) ls).

Lemma grep_out_app pattern l1 l2 : grep_out pattern (l1 ++ l2) = grep_out pattern l1 ++ grep_out pattern l2.
Proof. unfold grep_out. by rewrite map_app, concat_app. Qed.

Lemma next_line_split p : Forall (fun c => c <> 0) p ->
  match next_line p with
  | Some (l, r) => p = l ++ 10 :: r /\ split_lines p = (l :: (split_lines r).1, (split_lines r).2)
  | None => split_lines p = ([], p)
  end.
Proof.
  induction 1 as [|c p Hc _ IH]; [done|]. cbn [next_line split_lines]. rewrite (proj2 (Z.eqb_neq c 0)) by done.
  destruct (c =? 10) eqn:E.
  - bool_prop. subst c. split; [done|]. by destruct (split_lines p).
  - destruct (next_line p) as [[l r]|]; [destruct IH as [-> IH]|]; rewrite IH; done.
Qed.

Lemma split_lines_app p q : let '(l1, r1) := split_lines p in
  split_lines (p ++ q) = (l1 ++ (split_lines (r1 ++ q)).1, (split_lines (r1 ++ q)).2).
Proof.
  induction p as [|c p IH]; cbn [app split_lines]; [by destruct (split_lines q)|].
  destruct (split_lines p) as [l1 r1]. rewrite IH. destruct (c =? 10) eqn:E; [done|].
  destruct l1 as [|l l1]; [|done]. cbn [app split_lines]. rewrite E. destruct (split_lines (r1 ++ q)) as [[|l2 ls2] r2]; done.
Qed.

Lemma split_lines_rest p : (length (split_lines p).2 <= length p)%nat /\ ((split_lines p).1 <> [] -> (length (split_lines p).2 < length p)%nat).
Proof.
  induction p as [|c p IH]; [done|]. cbn [split_lines length]. destruct (split_lines p) as [ls r]. cbn [fst snd] in *.
  destruct (c =? 10); cbn [fst snd]; [split; [lia|intros; destruct IH; lia]|].
  destruct ls; cbn [fst snd length]; destruct IH as [IH1 IH2]; (split; [lia|]); [done|]. intros _. specialize (IH2 ltac:(done)). lia.
Qed.

Lemma split_lines_idem p : split_lines (split_lines p).2 = ([], (split_lines p).2).
Proof.
  induction p as [|c p IH]; [done|]. cbn [split_lines]. destruct (split_lines p) as [ls r]. cbn [snd] in *.
  destruct (c =? 10) eqn:E; [done|]. destruct ls; cbn [snd]; [|done]. cbn [split_lines]. by rewrite IH, E.
Qed.

Lemma split_lines_nul p : Forall (fun c => c <> 0) p -> Forall (fun c => c <> 0) (split_lines p).2.
Proof.
  induction 1 as [|c p Hc _ IH]; [done|]. cbn [split_lines]. destruct (split_lines p) as [ls r]. cbn [snd] in *.
  destruct (c =? 10); [done|]. destruct ls; [by constructor|done].
Qed.

(** Bytes without a newline in front of other bytes. *)
Lemma split_lines_prefix b q : split_lines b = ([], b) ->
  split_lines (b ++ q) = match split_lines q with
                         | ([], r) => ([], b ++ r)
                         | (l :: ls, r) => ((b ++ l) :: ls, r)
                         end.
Proof.
  induction b as [|c b IH]; cbn [app split_lines]; [by destruct (split_lines q) as [[|??] ?]|].
  destruct (split_lines b) as [[|l ls] r] eqn:Eb; destruct (c =? 10); try done. intros [= ->].
  rewrite IH by done. by destruct (split_lines q) as [[|??] ?].
Qed.

Section output.
Context {W : Type} {IO : Io W} (fd : Z) (rest out : W -> list Z) (F : Full fd 1 rest out) (pattern : list Z).

Lemma grep_lines_run k : forall p w, Forall (fun c => c <> 0) p -> (length p <= k)%nat ->
  exists w', grep_lines k pattern p w = Ret (split_lines p).2 w' /\
    out w' = out w ++ grep_out pattern (split_lines p).1 /\ rest w' = rest w.
Proof using F.
  induction k as [|k IH]; intros p w Hp Hk; pose proof (next_line_split p Hp) as Hn.
  - destruct p; [|cbn in Hk; lia]. exists w. cbn. by rewrite app_nil_r.
  - cbn [grep_lines]. destruct (next_line p) as [[l r]|]; [destruct Hn as [-> Hn]|]; rewrite Hn; cbn [fst snd].
    + apply Forall_app in Hp as [Hl Hr]. apply Forall_cons in Hr as [_ Hr]. rewrite length_app in Hk. cbn [length] in Hk.
      unfold grep_out. cbn [map concat]. fold (grep_out pattern (split_lines r).1). unfold when.
      destruct (match_ pattern l).
      * destruct (fu_write _ _ _ _ F (l ++ [10]) w) as (w1 & Hw & Ho & Hre).
        destruct (IH r w1 Hr ltac:(lia)) as (w2 & Hrun & Ho2 & Hr2). exists w2.
        rewrite bind_assoc, (bind_ret_l _ _ _ _ _ Hw). rewrite (bind_ret_l (ret tt) _ w1 tt w1) by done.
        split; [done|]. rewrite Ho2, Ho, <- app_assoc. split; [done|congruence].
      * destruct (IH r w Hr ltac:(lia)) as (w2 & Hrun & Ho2 & Hr2). exists w2. by split.
    + exists w. cbn. by rewrite app_nil_r.
Qed.

(** Lines of at most 1023 bytes with their newline. *)
Definition short_lines (data : list Z) : Prop := Forall (fun l => (length l < 1023)%nat) (split_lines data).1.

Lemma grep_loop_run k : forall buf w, (length (rest w) < k)%nat -> (length buf < 1023)%nat ->
  split_lines buf = ([], buf) -> Forall (fun c => c <> 0) (buf ++ rest w) -> short_lines (buf ++ rest w) ->
  exists w', grep_loop k pattern fd buf w = Ret tt w' /\ rest w' = [] /\
    out w' = out w ++ grep_out pattern (split_lines (buf ++ rest w)).1.
Proof using F.
  induction k as [|k IH]; intros buf w Hk Hb Hsb Hnul Hs; [lia|]. cbn [grep_loop].
  destruct (fu_read _ _ _ _ F (1024 - length buf - 1) w) as (w1 & Hrd & Hr1 & Ho1).
  rewrite (bind_ret_l _ _ _ _ _ Hrd). set (n := (1024 - length buf - 1)%nat) in *.
  destruct (rest w) as [|c d] eqn:Ew.
  { exists w1. rewrite Nat.min_0_r. cbn [Z.of_nat Z.leb]. change (0 <=? 0) with true. split; [done|].
    split; [by rewrite Hr1; destruct n|]. rewrite app_nil_r, Hsb, Ho1. cbn. by rewrite app_nil_r. }
  rewrite <- Ew in *. assert (0 < length (rest w))%nat as Hlen by (rewrite Ew; cbn; lia).
  rewrite (proj2 (Z.leb_gt _ _)) by lia.
  assert (buf ++ rest w = (buf ++ take n (rest w)) ++ rest w1) as Edata by (by rewrite Hr1, <- app_assoc, take_drop).
  set (b := buf ++ take n (rest w)) in *. rewrite Edata in *. apply Forall_app in Hnul as [Hnb Hnr].
  destruct (grep_lines_run (length b) b w1 Hnb ltac:(lia)) as (w2 & Hl & Ho2 & Hr2).
  rewrite (bind_ret_l _ _ _ _ _ Hl). pose proof (split_lines_app b (rest w1)) as Hsp.
  pose proof (split_lines_rest b) as [Hle Hlt]. pose proof (split_lines_idem b) as Hid. pose proof (split_lines_nul b Hnb) as Hnb'.
  unfold short_lines in Hs. destruct (split_lines b) as [ls r] eqn:Eb. cbn [fst snd] in *. rewrite Hsp in *. cbn [fst snd] in *.
  apply Forall_app in Hs as [_ Hs]. assert (length (rest w1) < k)%nat as Hk' by (rewrite Hr1, length_drop; unfold n; lia).
  rewrite grep_out_app, app_assoc, <- Ho1, <- Ho2. rewrite <- Hr2 in *. destruct (Nat.eqb_spec (length r) (length b)) as [Eq|Ne].
  - assert (ls = []) as ->. { destruct ls; [done|]. specialize (Hlt ltac:(done)). lia. }
    assert (r = b) as ->. { pose proof (next_line_split b Hnb) as Hn. destruct (next_line b) as [[? ?]|]; [destruct Hn as [_ Hn]|]; rewrite Hn in Eb; by simplify_eq. }
    assert ((split_lines (b ++ rest w2)).1 = [] /\ (split_lines (rest w2)).1 = []) as [E1 E2].
    { pose proof (split_lines_prefix b (rest w2) Eb) as Hpre. destruct (decide (length (rest w) <= n)%nat) as [Hsh|Hfull].
      - rewrite Hr1, drop_ge by lia. by rewrite app_nil_r, Eb.
      - assert (length b = 1023)%nat as Lb by (unfold b; rewrite length_app, length_take; lia). rewrite Hpre in *.
        destruct (split_lines (rest w2)) as [[|l ls] r]; [done|]. apply Forall_cons in Hs as [Hs _]. rewrite length_app in Hs. lia. }
    destruct (IH [] w2) as (w' & Hrun & Hre & Ho); [lia|cbn; lia|done|done|unfold short_lines; cbn [app]; by rewrite E2|].
    exists w'. split; [done|]. split; [done|]. rewrite Ho. cbn [app]. by rewrite E1, E2.
  - destruct (IH r w2) as (w' & Hrun & Hre & Ho); [lia| |done|by apply Forall_app|done|by exists w'].
    assert (length b <= 1023)%nat; [|lia]. unfold b. rewrite length_app, length_take. unfold n. lia.
Qed.

End output.
