(* ===== verification/TextSpec.v ===== *)
(** * What wc, head, tail and sort compute *)

From Stdlib Require Import Sorting.Sorted.
From S2P Require Import Prelude CString Console Ulib Posix Text Sort Grep.

(** ** wc *)

(** The maximal runs of characters that are not white space: the first one,
    which is empty if the text starts with white space, and the others. *)
Fixpoint runs (data : list Z) : list Z * list (list Z) :=
  match data with
  | [] => ([], [])
  | c :: d =>
      let '(w, ws) := runs d in
      if isspace c then ([], match w with [] => ws | _ => w :: ws end) else (c :: w, ws)
  end.

Definition words_of (data : list Z) : list (list Z) :=
  match runs data with ([], ws) => ws | (w, ws) => w :: ws end.

Lemma wc_fold data : forall n, fold_left wc_char data n =
  mk_counts (wc_lines n + Z.of_nat (length (filter (fun c => c = 10) data)))
    (wc_words n + Z.of_nat (length (if wc_in_word n then (runs data).2 else words_of data)))
    (wc_chars n + Z.of_nat (length data))
    (match last data with Some c => negb (isspace c) | None => wc_in_word n end).
Proof.
  induction data as [|c data IH]; intros n; cbn [fold_left].
  - unfold words_of. destruct n as [l w ch b]. cbn. destruct b; f_equal; cbn; lia.
  - rewrite IH. clear IH. destruct n as [l w ch b]. unfold wc_char, words_of. cbn [wc_lines wc_words wc_chars wc_in_word runs length].
    rewrite filter_cons, last_cons.
    destruct (runs data) as [r rs]. destruct (decide (c = 10)) as [->|Hc].
    + cbn. destruct b, r; cbn; f_equal; try lia; by destruct (last data).
    + rewrite (proj2 (Z.eqb_neq c 10)) by done. destruct (isspace c) eqn:Es, b; cbn; destruct r; cbn; f_equal; try lia;
        destruct (last data); cbn; rewrite ?Es; done.
Qed.

Lemma wc_count_run data :
  let n := wc_count data in
  wc_lines n = Z.of_nat (length (filter (fun c => c = 10) data)) /\
  wc_words n = Z.of_nat (length (words_of data)) /\ wc_chars n = Z.of_nat (length data).
Proof. unfold wc_count. rewrite wc_fold. done. Qed.

(** ** tail *)

(** The pieces the input is cut into: after each newline, and after 4095 bytes
    without one. *)
Fixpoint tail_cut (cur data : list Z) : list (list Z) :=
  match data with
  | [] => match cur with [] => [] | _ => [cur] end
  | c :: d =>
      let l := cur ++ [c] in
      if (c =? 10) || (length l =? MAX_LINE_LEN - 1)%nat then l :: tail_cut [] d else tail_cut l d
  end.

Definition last_n {A} (n : nat) (l : list A) : list A := drop (length l - n) l.

(** The state with the line [line] saved, and after a byte, when the copies
    succeed. *)
Definition tail_saved_line (keep : Z) (t : tailst) (line : list Z) : tailst := tail_save keep t (Some (cstr line)).

Definition tail_step (keep : Z) (t : tailst) (c : Z) : tailst :=
  let line := t_line t ++ [c] in
  if (c =? 10) || (length line =? MAX_LINE_LEN - 1)%nat then tail_saved_line keep t line
  else mk_tailst (t_circ t) (t_count t) line.

Definition tail_finish (keep : Z) (t : tailst) : tailst :=
  if (0 <? length (t_line t))%nat then tail_saved_line keep t (t_line t) else t.

Section tail.
Variable keep : Z.
Hypothesis Hkeep : 0 < keep.

(** The buffer holds the last lines of [ls]. *)
Record tail_rep (t : tailst) (ls : list (list Z)) : Prop := {
  tr_len : length (t_circ t) = Z.to_nat keep;
  tr_count : t_count t = Z.of_nat (length ls);
  tr_at i l : ls !! i = Some l -> Z.of_nat (length ls) - keep <= Z.of_nat i ->
    t_circ t !! Z.to_nat (Z.of_nat i mod keep) = Some (Some l);
}.

Lemma mod_neq a b : 0 <= b -> b < a -> a < b + keep -> a mod keep <> b mod keep.
Proof using Hkeep.
  intros Hb H1 H2 E. pose proof (Z.div_mod a keep ltac:(lia)) as Ea. pose proof (Z.div_mod b keep ltac:(lia)) as Eb.
  assert (a - b = keep * (a / keep - b / keep)) as Ed by lia. assert (0 < a / keep - b / keep) by nia. nia.
Qed.

Lemma tail_save_rep t ls line : tail_rep t ls -> Forall (fun c => c <> 0) line ->
  tail_rep (tail_saved_line keep t line) (ls ++ [line]) /\ t_line (tail_saved_line keep t line) = [].
Proof using Hkeep.
  intros [Hl Hc Ha] Hn. assert (cstr line = line) as El.
  { clear -Hn. induction Hn as [|c l Hc _ IH]; [done|]. cbn. by rewrite (proj2 (Z.eqb_neq c 0)), IH. }
  split; [|done]. unfold tail_saved_line, tail_save. rewrite El. pose proof (Z.mod_pos_bound (t_count t) keep Hkeep) as Hm. constructor; cbn.
  - by rewrite length_insert.
  - rewrite length_app, Hc. cbn. lia.
  - intros i l Hi Hr. rewrite length_app in Hr. cbn in Hr. apply lookup_app_Some in Hi as [Hi|[Hge Hi]].
    + pose proof (lookup_lt_Some _ _ _ Hi) as Hlt. rewrite list_lookup_insert_ne; [apply Ha; [done|lia]|].
      rewrite Hc. intros E. apply Z2Nat.inj in E; [|apply Z.mod_pos_bound; lia..].
      apply (mod_neq (Z.of_nat (length ls)) (Z.of_nat i)) in E; [done|lia..].
    + apply list_lookup_singleton_Some in Hi as [Hi <-]. replace (Z.of_nat i) with (t_count t) by lia.
      apply list_lookup_insert_eq. lia.
Qed.

Lemma tail_fold data : forall t ls cur, tail_rep t ls -> t_line t = cur -> Forall (fun c => c <> 0) (cur ++ data) ->
  tail_rep (tail_finish keep (fold_left (tail_step keep) data t)) (ls ++ tail_cut cur data).
Proof using Hkeep.
  induction data as [|c data IH]; intros t ls cur Ht Hcur Hn; cbn [fold_left tail_cut].
  - rewrite app_nil_r in Hn. unfold tail_finish. rewrite Hcur. destruct cur as [|c cur]; [by rewrite app_nil_r|].
    cbn [length Nat.ltb Nat.leb]. by apply tail_save_rep.
  - rewrite (cons_middle c cur data), app_assoc in Hn. pose proof Hn as Hn'. apply Forall_app in Hn' as [Hnl Hnd].
    unfold tail_step at 2. rewrite Hcur. destruct (_ || _).
    + destruct (tail_save_rep t ls (cur ++ [c]) Ht Hnl) as [Ht' Hl']. rewrite (cons_middle (cur ++ [c]) ls (tail_cut [] data)), (app_assoc ls). by apply IH.
    + apply (IH (mk_tailst (t_circ t) (t_count t) (cur ++ [c])) ls (cur ++ [c])); [|done|done]. by destruct Ht.
Qed.

Lemma tail_saved_rep t ls : tail_rep t ls -> tail_saved keep t = Some <$> last_n (Z.to_nat keep) ls.
Proof using Hkeep.
  intros [Hl Hc Ha]. unfold tail_saved, last_n. rewrite Hc. apply list_eq. intros i.
  change (map ?f ?l) with (f <$> l). rewrite !list_lookup_fmap, lookup_drop.
  destruct (keep <? Z.of_nat (length ls)) eqn:E; bool_prop.
  - destruct (decide (i < Z.to_nat keep)%nat) as [Hi|Hi].
    + rewrite lookup_seqZ_lt by lia. cbn. destruct (lookup_lt_is_Some_2 ls (length ls - Z.to_nat keep + i)) as [l Hls]; [lia|].
      rewrite Hls. cbn. f_equal. apply nth_lookup_Some. rewrite <- (Ha _ l Hls) by lia. do 2 f_equal.
      rewrite Zplus_mod_idemp_l. replace (Z.of_nat (length ls - Z.to_nat keep + i)) with (Z.of_nat (length ls) + Z.of_nat i + (-1) * keep) by lia.
      rewrite Z.mod_add by lia. f_equal; lia.
    + rewrite lookup_seqZ_ge by lia. symmetry. by rewrite lookup_ge_None_2 by lia.
  - replace (length ls - Z.to_nat keep)%nat with 0%nat by lia. cbn [Nat.add]. destruct (decide (i < length ls)%nat) as [Hi|Hi].
    + rewrite lookup_seqZ_lt by lia. cbn. destruct (lookup_lt_is_Some_2 ls i Hi) as [l Hls]. rewrite Hls. cbn. f_equal.
      apply nth_lookup_Some. rewrite <- (Ha _ l Hls) by lia. by replace (0 + (0 + Z.of_nat i)) with (Z.of_nat i) by lia.
    + rewrite lookup_seqZ_ge by lia. symmetry. by rewrite lookup_ge_None_2 by lia.
Qed.

End tail.

(** Lines with their newlines, and a last line without one. *)
Definition with_newlines (ls : list (list Z)) (r : list Z) : list (list Z) :=
  map (fun l => l ++ [10]) ls ++ match r with [] => [] | _ => [r] end.

Lemma room_pos : (0 < MAX_LINE_LEN - 1)%nat.
Proof. by apply Nat.ltb_lt. Qed.

(** Lines that fit the buffer are not cut. *)
Lemma tail_cut_lines data : forall cur, let '(ls, r) := split_lines data in
  Forall (fun l => (length l < MAX_LINE_LEN - 1)%nat) ls -> (length r < MAX_LINE_LEN - 1)%nat ->
  (length cur + length (match ls with l :: _ => l | [] => r end) < MAX_LINE_LEN - 1)%nat ->
  tail_cut cur data = match ls with
                      | [] => with_newlines [] (cur ++ r)
                      | l :: ls' => (cur ++ l ++ [10]) :: with_newlines ls' r
                      end.
Proof.
  pose proof room_pos as Hpos. induction data as [|c data IH]; intros cur; cbn [split_lines].
  - intros _ _ _. cbn. rewrite app_nil_r. by destruct cur.
  - cbn [tail_cut]. destruct (split_lines data) as [ls r]. rewrite length_app. cbn [length].
    destruct (c =? 10) eqn:Ec; bool_prop.
    + subst c. intros Hls Hr Hc. apply Forall_cons in Hls as [_ Hls]. cbn [orb]. cbn. f_equal.
      rewrite (IH []); [|done|done|destruct Hls; cbn [length]; lia]. by destruct ls.
    + destruct ls as [|l ls]; intros Hls Hr Hc; cbn [length] in *;
        rewrite (proj2 (Nat.eqb_neq _ _)) by lia; cbn [orb].
      * rewrite IH; [by rewrite <- app_assoc|done|lia|rewrite length_app; cbn [length]; lia].
      * apply Forall_cons in Hls as [Hl0 Hls]. cbn [length] in Hl0.
        rewrite IH; [by rewrite <- app_assoc|constructor; [lia|done]|lia|rewrite length_app; cbn [length]; lia].
Qed.

(** The whole input in lines that fit. *)
Definition fits_buffer (data : list Z) : Prop :=
  Forall (fun l => (length l < MAX_LINE_LEN - 1)%nat) (split_lines data).1 /\ (length (split_lines data).2 < MAX_LINE_LEN - 1)%nat.

Lemma tail_cut_all data : fits_buffer data ->
  tail_cut [] data = with_newlines (split_lines data).1 (split_lines data).2.
Proof.
  unfold fits_buffer. pose proof room_pos. pose proof (tail_cut_lines data []) as Hcut. destruct (split_lines data) as [ls r]. cbn [fst snd]. intros [Hls Hr].
  rewrite Hcut; [by destruct ls|done|done|destruct Hls; cbn [length]; lia].
Qed.

Section programs.
Context {W : Type} {PX : Posix W} (fd : Z) (rest out : W -> list Z).

(** Memory is there when it is asked for. *)
Definition allocs : Prop := forall n w, exists w', px_alloc n w = Ret true w' /\ rest w' = rest w /\ out w' = out w.

Lemma strdup_run (Al : allocs) l w : exists w', strdup l w = Ret (Some (cstr l)) w' /\ rest w' = rest w /\ out w' = out w.
Proof.
  unfold strdup. destruct (Al (Z.of_nat (length (cstr l)) + 1) w) as (w' & Ha & Hr & Ho). exists w'. by rewrite (bind_ret_l _ _ _ _ _ Ha).
Qed.

Lemma tail_bytes_run (Al : allocs) keep bs : forall t w,
  exists w', tail_bytes keep bs t w = Ret (fold_left (tail_step keep) bs t) w' /\ rest w' = rest w /\ out w' = out w.
Proof.
  induction bs as [|c bs IH]; intros t w; [by exists w|]. cbn [tail_bytes fold_left].
  assert (exists w1, tail_byte keep t c w = Ret (tail_step keep t c) w1 /\ rest w1 = rest w /\ out w1 = out w) as (w1 & H1 & Hr1 & Ho1).
  { unfold tail_byte, tail_step. destruct (_ || _); [|by exists w]. destruct (strdup_run Al (t_line t ++ [c]) w) as (w1 & Hd & ? & ?).
    exists w1. by rewrite (bind_ret_l _ _ _ _ _ Hd). }
  rewrite (bind_ret_l _ _ _ _ _ H1). destruct (IH (tail_step keep t c) w1) as (w2 & H2 & Hr2 & Ho2). exists w2. split; [done|]. split; congruence.
Qed.

Lemma tail_last_run (Al : allocs) keep t w : exists w', tail_last keep t w = Ret (tail_finish keep t) w' /\ out w' = out w.
Proof.
  unfold tail_last, tail_finish. destruct (_ <? _)%nat; [|by exists w]. destruct (strdup_run Al (t_line t) w) as (w1 & Hd & _ & ?).
  exists w1. by rewrite (bind_ret_l _ _ _ _ _ Hd).
Qed.

Lemma tail_loop_run (St : Stream fd 1 rest out) (Al : allocs) keep k : forall t w, (length (rest w) < k)%nat ->
  exists w', tail_loop k fd keep t w = Ret (0, fold_left (tail_step keep) (rest w) t) w' /\ out w' = out w.
Proof.
  induction k as [|k IH]; intros t w Hk; [lia|]. cbn [tail_loop].
  destruct (st_read _ _ _ _ St BUF_SIZE w) as (n & w1 & Hrd & Hn1 & Hn2 & Hpos & Hr & Ho); [unfold BUF_SIZE; lia|].
  rewrite (bind_ret_l _ _ _ _ _ Hrd). destruct (rest w) as [|c d] eqn:Ew.
  - assert (n = 0%nat) as -> by (cbn in Hn2; lia). by exists w1.
  - rewrite <- Ew in *. specialize (Hpos ltac:(by rewrite Ew)). rewrite (proj2 (Z.ltb_lt 0 _)) by lia.
    destruct (tail_bytes_run Al keep (take n (rest w)) t w1) as (w2 & Hb & Hr2 & Ho2). rewrite (bind_ret_l _ _ _ _ _ Hb).
    destruct (IH (fold_left (tail_step keep) (take n (rest w)) t) w2) as (w3 & Hrun & Ho3); [rewrite Hr2, Hr, length_drop; lia|].
    exists w3. rewrite Hrun, Hr2, Hr, <- fold_left_app, take_drop. split; [done|congruence].
Qed.

Lemma tail_print_run (St : Stream fd 1 rest out) ls : forall w,
  exists w', tail_print (Some <$> ls) w = Ret tt w' /\ out w' = out w ++ concat ls.
Proof.
  induction ls as [|l ls IH]; intros w; cbn [fmap list_fmap tail_print].
  - exists w. by rewrite app_nil_r.
  - destruct (write_all_run fd 1 rest out St (length l) l w ltac:(done)) as (w1 & Hw & Ho & _).
    destruct (IH w1) as (w2 & Hrun & Ho2). exists w2. rewrite bind_assoc, (bind_ret_l _ _ _ _ _ Hw).
    rewrite (bind_ret_l (ret tt) _ w1 tt w1) by done. split; [done|]. rewrite Ho2, Ho, <- app_assoc. done.
Qed.

(** What custom_tail prints. *)
Lemma dump_tail_run (St : Stream fd 1 rest out) (Al : allocs) keep k path w w0 : 0 < keep ->
  io_open path PX_RDONLY 0 w = Ret fd w0 -> 0 <= fd -> (length (rest w0) < k)%nat ->
  Forall (fun c => c <> 0) (rest w0) ->
  exists w1, dump_tail k path keep w = (io_close fd ;; ret 0) w1 /\
    out w1 = out w0 ++ concat (last_n (Z.to_nat keep) (tail_cut [] (rest w0))).
Proof.
  intros Hkeep Hopen Hfd Hk Hn. unfold dump_tail. rewrite (bind_ret_l _ _ _ _ _ Hopen), (proj2 (Z.ltb_ge fd 0)) by lia.
  destruct (Al (keep * 8) w0) as (wa & Ha & Hra & Hoa). rewrite (bind_ret_l _ _ _ _ _ Ha). cbn [negb]. rewrite <- Hra in *. rewrite <- Hoa.
  destruct (tail_loop_run St Al keep k (mk_tailst (replicate (Z.to_nat keep) None) 0 []) wa Hk) as (w2 & Hl & Ho).
  rewrite (bind_ret_l _ _ _ _ _ Hl). change (0 <? 0) with false. unfold when. rewrite (bind_ret_l (ret tt) _ w2 tt w2) by done.
  assert (tail_rep keep (mk_tailst (replicate (Z.to_nat keep) None) 0 []) []) as H0.
  { constructor; cbn; [by rewrite length_replicate|done|done]. }
  pose proof (tail_fold keep Hkeep (rest wa) _ _ [] H0 eq_refl Hn) as Hrep. cbn [app] in Hrep.
  destruct (tail_last_run Al keep (fold_left (tail_step keep) (rest wa) (mk_tailst (replicate (Z.to_nat keep) None) 0 [])) w2) as (w3 & H3 & Ho3).
  rewrite (bind_ret_l _ _ _ _ _ H3), (tail_saved_rep keep Hkeep _ _ Hrep).
  destruct (tail_print_run St (last_n (Z.to_nat keep) (tail_cut [] (rest wa))) w3) as (w4 & Hp & Ho4).
  exists w4. rewrite (bind_ret_l _ _ _ _ _ Hp). split; [done|]. by rewrite Ho4, Ho3, Ho.
Qed.

(** ** head *)

(** The bytes up to and including the [n]-th newline. *)
Fixpoint first_lines (n : Z) (data : list Z) : list Z :=
  match data with
  | [] => []
  | c :: d => if n <=? 0 then [] else c :: first_lines (if c =? 10 then n - 1 else n) d
  end.

Lemma head_bytes_run (F : Full fd 1 rest out) n bs : forall printed acc w, exists printed' acc' w',
  head_bytes n bs printed acc w = Ret (printed', acc') w' /\ rest w' = rest w /\
  forall more, out w ++ acc ++ first_lines (n - printed) (bs ++ more) = out w' ++ acc' ++ first_lines (n - printed') more.
Proof.
  induction bs as [|c bs IH]; intros printed acc w; cbn [head_bytes]; [by exists printed, acc, w|].
  destruct (n <=? printed) eqn:E; bool_prop.
  { exists printed, acc, w. split; [done|]. split; [done|]. intros more. cbn [app first_lines].
    rewrite (proj2 (Z.leb_le (n - printed) 0)) by lia. destruct more; cbn [first_lines]; [done|].
    by rewrite (proj2 (Z.leb_le (n - printed) 0)) by lia. }
  assert (exists pa w1, (if c =? 10 then io_write 1 (acc ++ [c]) ;; ret (printed + 1, []) else ret (printed, acc ++ [c])) w = Ret pa w1 /\
    rest w1 = rest w /\ pa.1 = (if c =? 10 then printed + 1 else printed) /\ out w1 ++ pa.2 = out w ++ acc ++ [c]) as (pa & w1 & Hpa & Hr1 & Hp1 & Ho1).
  { destruct (c =? 10).
    - destruct (fu_write _ _ _ _ F (acc ++ [c]) w) as (w1 & Hw & Ho & Hr). exists (printed + 1, []), w1.
      rewrite (bind_ret_l _ _ _ _ _ Hw). cbn. by rewrite app_nil_r.
    - by exists (printed, acc ++ [c]), w. }
  rewrite (bind_ret_l _ _ _ _ _ Hpa). destruct pa as [pr ac]. cbn [fst snd] in *.
  assert (exists ac' w2, (if (length ac =? BUF_SIZE - 1)%nat then io_write 1 ac ;; ret [] else ret ac) w1 = Ret ac' w2 /\
    rest w2 = rest w1 /\ out w2 ++ ac' = out w1 ++ ac) as (ac' & w2 & Hac & Hr2 & Ho2).
  { destruct (_ =? _)%nat.
    - destruct (fu_write _ _ _ _ F ac w1) as (w2 & Hw & Ho & Hr). exists [], w2. rewrite (bind_ret_l _ _ _ _ _ Hw). by rewrite app_nil_r.
    - by exists ac, w1. }
  rewrite (bind_ret_l _ _ _ _ _ Hac). destruct (IH pr ac' w2) as (pr' & ac'' & w' & Hrun & Hr & Hall).
  exists pr', ac'', w'. split; [done|]. split; [congruence|]. intros more. rewrite <- Hall. cbn [app first_lines].
  rewrite (proj2 (Z.leb_gt (n - printed) 0)) by lia. rewrite (app_assoc (out w2)), Ho2, Ho1, <- !app_assoc. cbn [app]. do 3 f_equal.
  rewrite Hp1. destruct (c =? 10); f_equal; lia.
Qed.

Lemma first_lines_none n data : n <= 0 -> first_lines n data = [].
Proof. intros Hn. destruct data; cbn; [done|]. by rewrite (proj2 (Z.leb_le n 0)). Qed.

Lemma head_loop_run (F : Full fd 1 rest out) n k : forall printed acc w, (length (rest w) < k)%nat ->
  exists acc' w', head_loop k fd n printed acc w = Ret (true, acc') w' /\
    out w' ++ acc' = out w ++ acc ++ first_lines (n - printed) (rest w).
Proof.
  induction k as [|k IH]; intros printed acc w Hk; [lia|]. cbn [head_loop]. destruct (n <=? printed) eqn:E; bool_prop.
  { exists acc, w. rewrite first_lines_none by lia. by rewrite app_nil_r. }
  destruct (fu_read _ _ _ _ F BUF_SIZE w) as (w1 & Hrd & Hr & Ho). rewrite (bind_ret_l _ _ _ _ _ Hrd).
  rewrite (proj2 (Z.ltb_ge _ 0)) by lia. destruct (rest w) as [|c d] eqn:Ew.
  - rewrite Nat.min_0_r. exists acc, w1. split; [done|]. cbn [first_lines]. by rewrite Ho, app_nil_r.
  - rewrite <- Ew in *. assert (0 < length (rest w))%nat by (rewrite Ew; cbn; lia).
    assert (0 < BUF_SIZE)%nat by (by apply Nat.ltb_lt). rewrite (proj2 (Z.eqb_neq _ 0)) by lia.
    destruct (head_bytes_run F n (take BUF_SIZE (rest w)) printed acc w1) as (pr & ac & w2 & Hb & Hr2 & Hall).
    rewrite (bind_ret_l _ _ _ _ _ Hb). cbn [fst snd].
    destruct (IH pr ac w2) as (acc' & w' & Hrun & Hout); [rewrite Hr2, Hr, length_drop; lia|].
    exists acc', w'. split; [done|]. rewrite Hout, Hr2, Hr, <- Hall, take_drop. by rewrite Ho.
Qed.

(** What custom_head prints. *)
Lemma head_file_run (F : Full fd 1 rest out) n k path w w0 :
  io_open path PX_RDONLY 0 w = Ret fd w0 -> 0 <= fd -> (length (rest w0) < k)%nat ->
  exists w1, head_file k path n w = (io_close fd ;; ret 0) w1 /\ out w1 = out w0 ++ first_lines n (rest w0).
Proof.
  intros Hopen Hfd Hk. unfold head_file. rewrite (bind_ret_l _ _ _ _ _ Hopen), (proj2 (Z.ltb_ge fd 0)) by lia.
  destruct (head_loop_run F n k 0 [] w0 Hk) as (acc & w2 & Hl & Ho). rewrite (bind_ret_l _ _ _ _ _ Hl). cbn [negb].
  rewrite Z.sub_0_r in Ho. cbn [app] in Ho. unfold when. destruct acc as [|c acc].
  - exists w2. split; [done|]. by rewrite <- Ho, app_nil_r.
  - cbn [length Nat.ltb Nat.leb]. destruct (fu_write _ _ _ _ F (c :: acc) w2) as (w3 & Hw & Ho3 & _). exists w3.
    rewrite bind_assoc, (bind_ret_l _ _ _ _ _ Hw). rewrite (bind_ret_l (ret tt) _ w3 tt w3) by done. split; [done|]. by rewrite Ho3, Ho.
Qed.

End programs.

(** * sort sorts

    Both comparators order the lines, so qsort may be used with them; the
    output of a file of terminated lines is a sorted permutation of its lines;
    a last line without a newline is undefined behaviour. *)

(** ** The comparators are orders *)

(** What qsort asks of its comparator on the elements it sorts: a total
    preorder. *)
Record comparator {A} (P : A -> Prop) (cmp : A -> A -> Z) : Prop := {
  co_total a b : P a -> P b -> cmp a b <= 0 \/ cmp b a <= 0;
  co_trans a b c : P a -> P b -> P c -> cmp a b <= 0 -> cmp b c <= 0 -> cmp a c <= 0;
}.

(** Strings: bytes that are not null. *)
Definition is_string (s : list Z) : Prop := Forall (fun c => 0 < c < 256) s.

Lemma strcmp_opp a : forall b, strcmp b a = - strcmp a b.
Proof.
  induction a as [|x a IH]; intros [|y b]; cbn; try lia. rewrite (Z.eqb_sym (u8 y)). destruct (u8 x =? u8 y); [apply IH|lia].
Qed.

Lemma u8_byte c : 0 < c < 256 -> u8 c = c.
Proof. intros H. unfold u8. rewrite Z.mod_small; lia. Qed.

Lemma strcmp_trans a : forall b c, is_string a -> is_string b -> is_string c ->
  strcmp a b <= 0 -> strcmp b c <= 0 -> strcmp a c <= 0.
Proof.
  induction a as [|x a IH]; intros [|y b] [|z c] Ha Hb Hc; cbn [strcmp]; try lia;
    repeat match goal with H : is_string (_ :: _) |- _ => apply Forall_cons in H as [? H] end; rewrite ?u8_byte by done; try lia.
  destruct (Z.eqb_spec x y), (Z.eqb_spec y z), (Z.eqb_spec x z); try lia. by apply IH.
Qed.

Lemma cmp_alpha_order r : comparator is_string (cmp_alpha r).
Proof.
  constructor; unfold cmp_alpha.
  - intros a b _ _. rewrite (strcmp_opp b a). destruct r; lia.
  - intros a b c Ha Hb Hc. destruct r; [|by apply strcmp_trans].
    rewrite (strcmp_opp b a), (strcmp_opp c b), (strcmp_opp c a). intros H1 H2.
    pose proof (strcmp_trans c b a Hc Hb Ha). lia.
Qed.

Lemma cmp_numeric_order P r : comparator P (cmp_numeric r).
Proof.
  constructor; unfold cmp_numeric; intros; repeat match goal with |- context [?a <? ?b] => destruct (Z.ltb_spec a b) end;
    repeat match goal with H : context [?a <? ?b] |- _ => destruct (Z.ltb_spec a b) end; destruct r; lia.
Qed.

(** ** The lines of the buffer *)

(** A text of terminated lines. *)
Definition text_of (ls : list (list Z)) : list Z := concat (map (fun l => l ++ [10]) ls).

Definition is_line (l : list Z) : Prop := Forall (fun c => 0 < c < 256 /\ c <> 10) l.

Fixpoint starts_of (i : nat) (ls : list (list Z)) : list nat :=
  match ls with
  | [] => []
  | l :: ls' => i :: starts_of (i + length l + 1) ls'
  end.

Lemma line_string l : is_line l -> is_string l.
Proof. intros H. eapply Forall_impl; [exact H|]. by intros c [? _]. Qed.

Lemma zero_line l : is_line l -> zero_newlines l = l.
Proof. induction 1 as [|c l [_ Hc] _ IH]; [done|]. cbn. rewrite (proj2 (Z.eqb_neq c 10)) by done. by rewrite <- IH at 2. Qed.

Lemma cstr_line l post : is_line l -> cstr (l ++ 0 :: post) = l.
Proof.
  induction 1 as [|c l [Hc _] _ IH]; [done|]. cbn [app cstr]. rewrite (proj2 (Z.eqb_neq c 0)) by lia. by rewrite IH.
Qed.

Lemma line_at_found pre l post : is_line l -> line_at (zero_newlines (pre ++ l ++ 10 :: post)) (length pre) = Some l.
Proof.
  intros Hl. assert (drop (length pre) (zero_newlines (pre ++ l ++ 10 :: post)) = l ++ 0 :: zero_newlines post) as E.
  { unfold zero_newlines. rewrite <- fmap_drop, drop_app_length, map_app. f_equal. exact (zero_line l Hl). }
  unfold line_at. rewrite E, (cstr_line _ _ Hl), bool_decide_eq_true_2; [done|]. apply elem_of_app. right. left.
Qed.

Section sort_spec.
Context {W : Type} {PX : Posix W}.

Lemma line_strings_app ls t more : forall pre (w : W), Forall is_line ls ->
  line_strings (zero_newlines (pre ++ text_of ls ++ t)) (starts_of (length pre) ls ++ more) w =
  bind (line_strings (zero_newlines (pre ++ text_of ls ++ t)) more) (fun r => ret (ls ++ r)) w.
Proof.
  induction ls as [|l ls IH]; intros pre w Hls.
  { unfold bind, ret. cbn [starts_of app]. by destruct (line_strings _ _ w). }
  apply Forall_cons in Hls as [Hl Hls]. cbn [starts_of app line_strings].
  change (text_of (l :: ls)) with ((l ++ [10]) ++ text_of ls). rewrite <- !(app_assoc l). cbn [app]. rewrite line_at_found by done.
  specialize (IH (pre ++ l ++ [10]) w Hls). rewrite !length_app, Nat.add_assoc, <- !app_assoc in IH. cbn [app length] in IH.
  unfold bind at 1. rewrite IH. unfold bind, ret. by destruct (line_strings _ more w).
Qed.

Lemma line_strings_run ls (w : W) : Forall is_line ls ->
  line_strings (zero_newlines (text_of ls)) (starts_of 0 ls) w = Ret ls w.
Proof.
  intros H. pose proof (line_strings_app ls [] [] [] w H) as E. rewrite !app_nil_r in E. cbn [app length] in E. rewrite E.
  unfold bind, ret. cbn. by rewrite app_nil_r.
Qed.

(** The string of an unterminated last line. *)
Lemma line_at_none pre l : is_line l -> line_at (zero_newlines (pre ++ l)) (length pre) = None.
Proof.
  intros Hl. assert (drop (length pre) (zero_newlines (pre ++ l)) = l) as E.
  { unfold zero_newlines. rewrite <- fmap_drop, drop_app_length. exact (zero_line l Hl). }
  unfold line_at. rewrite E, bool_decide_eq_false_2; [done|]. intros H0.
  pose proof (proj1 (Forall_forall _ _) Hl 0 H0) as [? _]. lia.
Qed.

(** What sort relies on: the memory it asks for, the bytes of the file and the
    standard output. *)
Record sort_world (fd : Z) (rest out : W -> list Z) : Prop := {
  sw_alloc n w : exists w', px_alloc n w = Ret true w' /\ rest w' = rest w /\ out w' = out w;
  sw_stdout bs w : exists w', px_stdout bs w = Ret tt w' /\ rest w' = rest w /\ out w' = out w ++ bs;
  sw_close w : exists w', io_close fd w = Ret tt w' /\ out w' = out w;
  sw_read n w : (0 < n)%nat -> exists k w', io_read fd n w = Ret (Z.of_nat k, take k (rest w)) w' /\
    (k <= n)%nat /\ (k <= length (rest w))%nat /\ (rest w <> [] -> (0 < k)%nat) /\
    rest w' = drop k (rest w) /\ out w' = out w;
}.

Context (fd : Z) (rest out : W -> list Z) (SW : sort_world fd rest out).

(** Up to the first newline, when bytes follow it. *)
Lemma line_starts_next l d : is_line l -> d <> [] -> forall i count cap w, exists count' cap' w1, out w1 = out w /\
  line_starts (l ++ 10 :: d) i count cap w =
  bind (line_starts d (i + length l + 1) count' cap')
    (fun more => ret (match more with Some m => Some ((i + length l + 1)%nat :: m) | None => None end)) w1.
Proof using SW.
  intros Hl Hd. induction Hl as [|c l [_ Hc] Hl IH]; intros i count cap w.
  - destruct d as [|d0 d']; [done|]. set (d := d0 :: d'). cbn [app length line_starts]. change (10 =? 10) with true. cbv iota.
    assert (exists w1, (if count =? cap then px_alloc (cap * 2 * 8) else ret true) w = Ret true w1 /\ out w1 = out w) as (w1 & Ha & Ho1).
    { destruct (count =? cap); [|by exists w]. destruct (sw_alloc _ _ _ SW (cap * 2 * 8) w) as (w1 & ? & _ & ?). by exists w1. }
    unfold d at 1. fold d. rewrite (bind_ret_l _ _ _ _ _ Ha). rewrite Nat.add_0_r, Nat.add_1_r. by eexists _, _, w1.
  - destruct (IH (S i) count cap w) as (count' & cap' & w1 & Ho & Hr). exists count', cap', w1. split; [done|].
    cbn [length]. replace (i + S (length l) + 1)%nat with (S i + length l + 1)%nat by lia. rewrite <- Hr.
    cbn [app line_starts]. rewrite (proj2 (Z.eqb_neq c 10)) by done. by destruct l.
Qed.

(** The last line, terminated or not. *)
Lemma line_starts_last l t : is_line l -> t = [] \/ t = [10] -> forall i count cap w,
  line_starts (l ++ t) i count cap w = Ret (Some []) w.
Proof.
  intros Hl Ht. induction Hl as [|c l [_ Hc] Hl IH]; intros i count cap w; [by destruct Ht as [-> | ->]|].
  specialize (IH (S i) count cap w). cbn [app line_starts]. rewrite (proj2 (Z.eqb_neq c 10)) by done. by destruct (l ++ t).
Qed.

Lemma line_starts_run ls l t : l ++ t <> [] -> is_line l -> t = [] \/ t = [10] -> forall i count cap w, Forall is_line ls ->
  exists w', out w' = out w /\
    line_starts (text_of ls ++ l ++ t) i count cap w = Ret (Some (tail (starts_of i (ls ++ [l])))) w'.
Proof using SW.
  intros Hne Hl Ht. induction ls as [|l0 ls IH]; intros i count cap w Hls; cbn [app].
  { exists w. split; [done|]. exact (line_starts_last l t Hl Ht i count cap w). }
  apply Forall_cons in Hls as [Hl0 Hls]. change (text_of (l0 :: ls)) with ((l0 ++ [10]) ++ text_of ls). rewrite <- !(app_assoc l0). cbn [app].
  destruct (line_starts_next l0 (text_of ls ++ l ++ t) Hl0) with (i := i) (count := count) (cap := cap) (w := w) as (c' & p' & w1 & Ho1 & ->).
  { intros E. apply app_eq_nil in E as [_ E]. done. }
  destruct (IH (i + length l0 + 1)%nat c' p' w1 Hls) as (w2 & Ho2 & Hr). exists w2. split; [congruence|].
  rewrite (bind_ret_l _ _ _ _ _ Hr). cbn [starts_of tail]. by destruct ls.
Qed.

Lemma starts_app ls : forall i l, starts_of i (ls ++ [l]) = starts_of i ls ++ [(i + length (text_of ls))%nat].
Proof.
  induction ls as [|l0 ls IH]; intros i l; cbn [app starts_of]; [by rewrite Nat.add_0_r|].
  rewrite IH. change (text_of (l0 :: ls)) with ((l0 ++ [10]) ++ text_of ls). rewrite !length_app. cbn [length]. do 3 f_equal; lia.
Qed.

Lemma print_lines_run ls : forall w, exists w', print_lines ls w = Ret tt w' /\ out w' = out w ++ text_of ls.
Proof using SW.
  induction ls as [|l ls IH]; intros w; [exists w; by rewrite app_nil_r|].
  cbn [print_lines]. destruct (sw_stdout _ _ _ SW (l ++ [10]) w) as (w1 & H1 & _ & Ho1). rewrite (bind_ret_l _ _ _ _ _ H1).
  destruct (IH w1) as (w2 & H2 & Ho2). exists w2. split; [done|]. by rewrite Ho2, Ho1, <- app_assoc.
Qed.

(** The comparator that the options choose. *)
Definition chosen (o : options) : list Z -> list Z -> Z :=
  if opt_numeric o then cmp_numeric (opt_reverse o) else cmp_alpha (opt_reverse o).

Lemma chosen_order o : comparator is_string (chosen o).
Proof. unfold chosen. destruct (opt_numeric o); [apply cmp_numeric_order|apply cmp_alpha_order]. Qed.

Variable qsort : (list Z -> list Z -> Z) -> list (list Z) -> list (list Z).

(** Up to the strings: the lines with the last one, terminated or not. *)
Lemma sort_data_starts o ls l t w : l ++ t <> [] -> Forall is_line ls -> is_line l -> t = [] \/ t = [10] ->
  exists w', out w' = out w /\ sort_data qsort o (text_of ls ++ l ++ t) w =
    bind (line_strings (zero_newlines (text_of ls ++ l ++ t)) (starts_of 0 (ls ++ [l])))
      (fun ls' => print_lines (qsort (chosen o) ls') ;; ret 0) w'.
Proof using SW.
  intros Hne Hls Hl Ht. unfold sort_data. destruct (text_of ls ++ l ++ t) as [|d ds] eqn:E.
  { apply app_eq_nil in E as [_ E]. done. }
  rewrite <- E. destruct (sw_alloc _ _ _ SW (256 * 8) w) as (w1 & Ha & _ & Ho1). rewrite (bind_ret_l _ _ _ _ _ Ha). cbn [negb].
  destruct (line_starts_run ls l t Hne Hl Ht 0 1 256 w1 Hls) as (w2 & Ho2 & Hs). exists w2. split; [congruence|].
  rewrite (bind_ret_l _ _ _ _ _ Hs). by destruct ls.
Qed.

Lemma sort_data_run o ls w : ls <> [] -> Forall is_line ls ->
  exists w', sort_data qsort o (text_of ls) w = Ret 0 w' /\ out w' = out w ++ text_of (qsort (chosen o) ls).
Proof using SW.
  intros Hne Hls. destruct ls as [|l ls' _] using rev_ind; [done|]. clear Hne. pose proof Hls as Hall.
  apply Forall_app in Hls as [Hls Hl]. apply Forall_cons in Hl as [Hl _].
  destruct (sort_data_starts o ls' l [10] w) as (w1 & Ho1 & Hr); [by destruct l|done..|by right|].
  assert (text_of (ls' ++ [l]) = text_of ls' ++ l ++ [10]) as E by (unfold text_of; rewrite map_app, concat_app; cbn; by rewrite app_nil_r).
  rewrite <- E in Hr. rewrite (bind_ret_l _ _ _ _ _ (line_strings_run (ls' ++ [l]) w1 Hall)) in Hr.
  destruct (print_lines_run (qsort (chosen o) (ls' ++ [l])) w1) as (w3 & Hp & Ho3).
  rewrite (bind_ret_l _ _ _ _ _ Hp) in Hr. exists w3. split; [done|]. congruence.
Qed.

(** A last line without a newline: its string runs into memory that was never
    written. *)
Lemma sort_data_unterminated o ls l w : l <> [] -> Forall is_line ls -> is_line l ->
  exists w', sort_data qsort o (text_of ls ++ l) w = Undef "string runs past the data" w'.
Proof using SW.
  intros Hne Hls Hl. destruct (sort_data_starts o ls l [] w) as (w1 & _ & E); [by rewrite app_nil_r|done..|by left|].
  exists w1. rewrite app_nil_r in E. rewrite E, starts_app. clear E. pose proof (line_strings_app ls l [length (text_of ls)] [] w1 Hls) as E. cbn [app length] in E.
  unfold bind at 1. cbn [Nat.add]. rewrite E. unfold bind at 1. cbn [line_strings]. by rewrite line_at_none.
Qed.

(** Reading the whole file, whatever the sizes of the reads. *)
Lemma read_loop_run k : forall cap data w, (length data < cap)%nat -> (length (rest w) < k)%nat ->
  exists w', read_loop k fd cap data w = Ret (Some (data ++ rest w)) w' /\ out w' = out w.
Proof using SW.
  induction k as [|k IH]; intros cap data w Hcap Hk; [lia|]. cbn [read_loop].
  destruct (sw_read _ _ _ SW (cap - length data) w) as (n & w1 & Hrd & Hn1 & Hn2 & Hpos & Hr & Ho); [lia|].
  rewrite (bind_ret_l _ _ _ _ _ Hrd). destruct (decide (rest w = [])) as [Ew|Ew].
  - rewrite Ew in *. assert (n = 0%nat) as -> by (cbn in Hn2; lia). change (0 <? Z.of_nat 0) with false. cbv iota.
    destruct (sw_close _ _ _ SW w1) as (w2 & Hc & Ho2). exists w2. rewrite app_nil_r.
    change (Z.of_nat 0 <? 0) with false. cbv iota. rewrite (bind_ret_l _ _ _ _ _ Hc). split; [done|congruence].
  - specialize (Hpos Ew). rewrite (proj2 (Z.ltb_lt 0 _)) by lia. assert (data ++ rest w = (data ++ take n (rest w)) ++ rest w1) as -> by (by rewrite Hr, <- app_assoc, take_drop).
    assert (length (data ++ take n (rest w)) <= cap)%nat by (rewrite length_app, length_take; lia).
    rewrite <- Ho. destruct (Nat.eqb_spec (length (data ++ take n (rest w))) cap).
    + destruct (sw_alloc _ _ _ SW (Z.of_nat (cap * 2)) w1) as (w2 & Ha & Hr2 & Ho2). rewrite (bind_ret_l _ _ _ _ _ Ha).
      rewrite <- Hr2, <- Ho2. apply IH; [lia|]. rewrite Hr2, Hr, length_drop. lia.
    + apply IH; [lia|]. rewrite Hr, length_drop. lia.
Qed.

End sort_spec.
