(* ===== verification/RmSpec.v ===== *)
(** * What custom_rm -r removes

    The calls are used on a tree of files, a finite map from paths to whether
    they are directories, with directory streams that hand out the entries that
    were there when the directory was opened. *)

From stdpp Require Import gmap fin_maps.
From S2P Require Import Prelude CString Console Ulib Posix Text FileTools.

Definition child (p n : list Z) : list Z := p ++ bytes "/" ++ n.

(** [q] is [p] or below it. *)
Definition under (p q : list Z) : Prop := q = p \/ exists r, q = child p r.

#[export] Instance under_dec p q : Decision (under p q).
Proof.
  refine (if decide (q = p) then left _ else if decide ((p ++ bytes "/") `prefix_of` q) then left _ else right _); unfold under, child.
  - by left.
  - right. destruct p0 as [r ->]. exists r. by rewrite <- app_assoc.
  - intros [?|[r ->]]; [done|]. apply n0. exists r. by rewrite <- app_assoc.
Defined.

(** A name in a directory. *)
Definition is_name (n : list Z) : Prop := n <> [] /\ (chr "/" ∉ n) /\ is_dot n = false.

(** Below a path of the tree there are its entries and what is below them. *)
Definition tree_ok (m : gmap (list Z) bool) : Prop :=
  forall p r, is_Some (m !! p) -> is_Some (m !! child p r) -> m !! p = Some true /\
    exists n, is_name n /\ is_Some (m !! child p n) /\ under (child p n) (child p r).

(** The subtree at [p], and what remains without it. *)
Definition below (p : list Z) (m : gmap (list Z) bool) : gmap (list Z) bool := filter (fun kv => under p kv.1) m.

Definition without (p : list Z) (m : gmap (list Z) bool) : gmap (list Z) bool := filter (fun kv => ~ under p kv.1) m.

(** What rm relies on. *)
Record tree_calls {W} {PX : Posix W} (files : W -> gmap (list Z) bool) (streams : W -> gmap Z (list (list Z))) : Prop := {
  tc_lstat p b w : files w !! p = Some b -> exists mode size, px_lstat p w = Ret (Some (mode, size)) w /\ S_ISDIR mode = b;
  tc_unlink p w : files w !! p = Some false ->
    exists w', px_unlink p w = Ret 0 w' /\ files w' = delete p (files w) /\ streams w' = streams w;
  tc_opendir p w : files w !! p = Some true -> exists d names w', px_opendir p w = Ret (Some d) w' /\ files w' = files w /\
    streams w !! d = None /\ streams w' = <[d := names]> (streams w) /\ (length (filter is_dot names) <= 2)%nat /\
    NoDup names /\ forall n, is_dot n = false -> n ∈ names <-> is_name n /\ is_Some (files w !! child p n);
  tc_readdir d names w : streams w !! d = Some names -> exists w', px_readdir d w = Ret (head names) w' /\
    files w' = files w /\ streams w' = <[d := tail names]> (streams w);
  tc_closedir d w : exists w', px_closedir d w = Ret tt w' /\ files w' = files w /\ streams w' = delete d (streams w);
  tc_rmdir p w : files w !! p = Some true -> (forall n, files w !! child p n = None) ->
    exists w', px_rmdir p w = Ret 0 w' /\ files w' = delete p (files w) /\ streams w' = streams w;
}.

(** ** Paths *)

Lemma under_trans p q r : under p q -> under q r -> under p r.
Proof.
  intros [->|[s ->]] [->|[t ->]]; unfold under, child; eauto. right. exists (s ++ bytes "/" ++ t). by rewrite <- !app_assoc.
Qed.

Lemma under_child p n : under p (child p n).
Proof. right. by exists n. Qed.

Lemma child_not_self p r : child p r <> p.
Proof. unfold child. intros E. apply (f_equal length) in E. rewrite !length_app in E. cbn in E. lia. Qed.

Lemma not_under_parent p n : ~ under (child p n) p.
Proof.
  intros [E|[r E]]; apply (f_equal length) in E; unfold child in E; rewrite !length_app in E; cbn in E; lia.
Qed.

(** Entries of one directory are not below one another. *)
Lemma siblings p a b : is_name a -> is_name b -> under (child p a) (child p b) -> a = b.
Proof.
  intros [_ [Ha _]] [_ [Hb _]] [E|[r E]]; unfold child in E; rewrite <- ?app_assoc in E; simplify_list_eq; [done|].
  destruct Hb. apply elem_of_app. right. left.
Qed.

Lemma without_lookup p m q : without p m !! q = if decide (under p q) then None else m !! q.
Proof.
  unfold without. rewrite map_lookup_filter. destruct (m !! q) as [b|]; cbn; [|by destruct (decide _)].
  by destruct (decide (under p q)) as [H|H]; [rewrite option_guard_False by (by intros ?)|rewrite option_guard_True by done].
Qed.

Lemma tree_ok_without p m : tree_ok m -> tree_ok (without p m).
Proof.
  intros Hok q r. rewrite !without_lookup. destruct (decide (under p q)) as [?|Hq]; [by intros []|].
  destruct (decide (under p (child q r))) as [?|Hr]; [by intros _ []|]. intros H1 H2.
  destruct (Hok q r H1 H2) as (Hd & n & Hn & Hs & Hu). split; [done|]. exists n. split; [done|]. rewrite without_lookup.
  destruct (decide (under p (child q n))) as [Hp|]; [|done]. destruct Hr. by eapply under_trans.
Qed.

Lemma without_file p m : tree_ok m -> m !! p = Some false -> without p m = delete p m.
Proof.
  intros Hok Hp. apply map_eq. intros q. rewrite without_lookup. destruct (decide (under p q)) as [[->|[r ->]]|Hu].
  - by rewrite lookup_delete_eq.
  - rewrite lookup_delete_ne by (symmetry; apply child_not_self). destruct (m !! child p r) as [b|] eqn:E; [|done].
    destruct (Hok p r) as [Hd _]; [by rewrite Hp|by rewrite E|]. congruence.
  - rewrite lookup_delete_ne; [done|]. intros ->. destruct Hu. by left.
Qed.

(** The map without the subtrees of the given entries of [p]. *)
Definition without_all (p : list Z) (names : list (list Z)) (m : gmap (list Z) bool) : gmap (list Z) bool :=
  foldl (fun m n => if is_dot n then m else without (child p n) m) m names.

Lemma without_all_lookup p names : forall m q,
  without_all p names m !! q = if decide (Exists (fun n => is_dot n = false /\ under (child p n) q) names) then None else m !! q.
Proof.
  induction names as [|n names IH]; intros m q; cbn; [done|]. unfold without_all in IH. rewrite IH.
  destruct (decide (Exists _ (n :: names))) as [H|H]; destruct (decide (Exists _ names)) as [H1|H1]; try done.
  - apply Exists_cons in H as [[Hd Hu]|H]; [|done]. by rewrite Hd, without_lookup, decide_True.
  - destruct H. by apply Exists_cons_tl.
  - destruct (is_dot n) eqn:Ed; [done|]. rewrite without_lookup, decide_False; [done|]. intros Hu. destruct H. by apply Exists_cons_hd.
Qed.

Section removal.
Context {W : Type} {PX : Posix W} (files : W -> gmap (list Z) bool) (streams : W -> gmap Z (list (list Z))).
Context (TC : tree_calls files streams).

(** Every path of the subtree fits the buffer. *)
Definition paths_fit (p : list Z) (m : gmap (list Z) bool) : Prop :=
  forall q, under p q -> is_Some (m !! q) -> (length q < RM_CHILD)%nat.

(** What the call does to a path, with enough fuel. *)
Definition removes (k : nat) : Prop := forall p w, is_Some (files w !! p) -> tree_ok (files w) -> paths_fit p (files w) ->
  (size (below p (files w)) + 3 <= k)%nat ->
  exists w', remove_recursive k p w = Ret 0 w' /\ files w' = without p (files w) /\ streams w' = streams w.

Lemma join_path_fits p n m : paths_fit p m -> is_Some (m !! child p n) -> join_path RM_CHILD p n = child p n.
Proof.
  intros Hfit Hs. specialize (Hfit _ (under_child p n) Hs). unfold join_path. rewrite take_ge; [done|]. unfold child in Hfit. lia.
Qed.

Lemma below_mono p q m m' : m ⊆ m' -> under q p -> below p m ⊆ below q m'.
Proof.
  intros Hm Hu. apply map_subseteq_spec. intros r b. unfold below. rewrite !map_lookup_filter_Some. cbn.
  intros [Hr Hp]. split; [by eapply lookup_weaken|by eapply under_trans].
Qed.

Lemma below_child_size p n m m' : m ⊆ m' -> is_Some (m' !! p) -> (size (below (child p n) m) < size (below p m'))%nat.
Proof.
  intros Hm [b Hp]. apply map_subset_size. split; [by apply below_mono; [|apply under_child]|]. intros Hsub.
  assert (below p m' !! p = Some b) as H by (unfold below; apply map_lookup_filter_Some; split; [done|by left]).
  pose proof (lookup_weaken _ _ _ _ H Hsub) as H2. unfold below in H2. apply map_lookup_filter_Some in H2 as [_ H2]. by apply not_under_parent in H2.
Qed.

(** The loop over the entries. *)
Lemma rm_walk_run k p d : removes k -> forall names j rc w, streams w !! d = Some names -> (length names < j)%nat ->
  tree_ok (files w) -> paths_fit p (files w) -> is_Some (files w !! p) -> (size (below p (files w)) + 2 <= k)%nat -> NoDup names ->
  Forall (fun n => is_dot n = false -> is_name n /\ is_Some (files w !! child p n)) names ->
  exists w', rm_walk (remove_recursive k) d p j rc w = Ret rc w' /\ files w' = without_all p names (files w) /\
    streams w' = <[d := []]> (streams w).
Proof using TC.
  intros Hk. induction names as [|n names IH]; intros j rc w Hd Hj Hok Hfit Hp Hsz Hnd Hall; destruct j as [|j]; cbn [length] in Hj; try lia;
    cbn [rm_walk]; destruct (tc_readdir _ _ TC d _ w Hd) as (w1 & Hr & Hf1 & Hs1); rewrite (bind_ret_l _ _ _ _ _ Hr); cbn [head].
  { exists w1. split; [done|]. by rewrite Hs1. }
  cbn [tail] in Hs1. apply NoDup_cons in Hnd as [Hni Hnd]. apply Forall_cons in Hall as [Hn Hall].
  assert (streams w1 !! d = Some names) as Hd1 by (rewrite Hs1; apply lookup_insert_eq). cbn [without_all foldl].
  destruct (is_dot n) eqn:Ed.
  { destruct (IH j rc w1) as (w2 & Hw & Hf & Hs); rewrite ?Hf1; try done; [lia|]. exists w2. split; [done|].
    split; [by rewrite Hf, Hf1|]. by rewrite Hs, Hs1, insert_insert_eq. }
  destruct (Hn eq_refl) as [Hname Hcn]. rewrite (join_path_fits p n (files w)) by done.
  destruct (Hk (child p n) w1) as (w2 & Hrec & Hf2 & Hs2); rewrite ?Hf1; [done|done| | |].
  { intros q Hq. apply Hfit. eapply under_trans; [apply under_child|done]. }
  { pose proof (below_child_size p n (files w) (files w) ltac:(done) Hp). lia. }
  rewrite (bind_ret_l _ _ _ _ _ Hrec), Z.lor_0_r. rewrite Hs1 in Hs2. rewrite Hf1 in Hf2.
  destruct (IH j rc w2) as (w3 & Hw & Hf3 & Hs3); rewrite ?Hs2, ?Hf2, ?lookup_insert_eq; try done; [lia| | | | | |].
  - by apply tree_ok_without.
  - intros q Hq. rewrite without_lookup. destruct (decide _); [by intros []|]. by apply Hfit.
  - rewrite without_lookup, decide_False; [done|]. apply not_under_parent.
  - assert (size (below p (without (child p n) (files w))) <= size (below p (files w)))%nat; [|lia].
    apply map_subseteq_size, below_mono; [|by left]. apply map_filter_subseteq.
  - apply Forall_forall. intros n' Hn' Hd'. destruct (proj1 (Forall_forall _ _) Hall n' Hn' Hd') as [Hname' Hc']. split; [done|].
    rewrite without_lookup, decide_False; [done|]. intros Hu. apply siblings in Hu; [|done..]. by subst n'.
  - exists w3. split; [done|]. split; [by rewrite Hf3, Hf2|]. by rewrite Hs3, Hs2, insert_insert_eq.
Qed.

Lemma entries_count p names m : NoDup names -> is_Some (m !! p) -> (length (filter is_dot names) <= 2)%nat ->
  Forall (fun n => is_dot n = false -> is_Some (m !! child p n)) names -> (length names <= size (below p m) + 1)%nat.
Proof.
  intros Hnd Hp Hdots Hall. set (kids := filter (fun n => ~ is_dot n) names).
  assert (length names = length (filter is_dot names) + length kids)%nat as ->.
  { rewrite <- length_app. apply Permutation_length. symmetry. apply (filter_app_complement is_dot). }
  assert (S (length kids) <= size (below p m))%nat; [|lia].
  assert (NoDup (p :: (child p <$> kids))) as Hnd'.
  { apply NoDup_cons. split.
    - intros (n & E & _)%list_elem_of_fmap. symmetry in E. by apply child_not_self in E.
    - apply NoDup_fmap_2_strong; [|by apply NoDup_filter]. intros a b _ _ E. unfold child in E. by simplify_list_eq. }
  rewrite <- size_dom, <- (length_fmap (child p) kids). change (S (length ?l)) with (length (p :: l)).
  rewrite <- (size_list_to_set (C := gset (list Z)) _ Hnd'). apply subseteq_size. intros q Hq. apply elem_of_list_to_set in Hq.
  apply elem_of_dom. apply elem_of_cons in Hq as [->|(n & -> & Hn)%list_elem_of_fmap].
  - destruct Hp as [b Hb]. exists b. apply map_lookup_filter_Some. split; [done|by left].
  - apply list_elem_of_filter in Hn as [Hdot Hn]. destruct (proj1 (Forall_forall _ _) Hall n Hn) as [b Hb]; [by destruct (is_dot n); [destruct Hdot|]|].
    exists b. apply map_lookup_filter_Some. split; [done|apply under_child].
Qed.

(** Without its entries, a directory is empty, and removing it removes the
    subtree. *)
Lemma without_entries p names m : tree_ok m -> m !! p = Some true -> Forall (fun n => is_dot n = false -> is_name n) names ->
  (forall n, is_name n -> is_Some (m !! child p n) -> n ∈ names) ->
  without_all p names m !! p = Some true /\ (forall r, without_all p names m !! child p r = None) /\
  delete p (without_all p names m) = without p m.
Proof.
  intros Hok Hp Hn Hin.
  assert (forall q, ~ under p q -> ~ Exists (fun n => is_dot n = false /\ under (child p n) q) names) as Hout.
  { intros q Hq (n & _ & _ & Hu)%Exists_exists. destruct Hq. eapply under_trans; [apply under_child|done]. }
  assert (forall r, without_all p names m !! child p r = None) as Hkids.
  { intros r. rewrite without_all_lookup. destruct (decide _) as [|Hne]; [done|]. destruct (m !! child p r) as [b|] eqn:E; [|done].
    destruct (Hok p r) as (_ & n & Hnn & Hs & Hu); [by rewrite Hp|by rewrite E|]. destruct Hne. apply Exists_exists.
    exists n. split; [by apply Hin|]. split; [apply Hnn|done]. }
  split; [|split; [done|]].
  - rewrite without_all_lookup, decide_False; [done|]. intros (n & _ & _ & Hu)%Exists_exists. by apply not_under_parent in Hu.
  - apply map_eq. intros q. rewrite without_lookup. destruct (decide (under p q)) as [[->|[r ->]]|Hq].
    + by rewrite lookup_delete_eq.
    + by rewrite lookup_delete_ne by (symmetry; apply child_not_self).
    + rewrite lookup_delete_ne by (intros ->; destruct Hq; by left). rewrite without_all_lookup, decide_False; [done|by apply Hout].
Qed.

Lemma remove_recursive_run k : removes k.
Proof using TC.
  induction k as [|k IH]; intros p w [b Hp] Hok Hfit Hk; [lia|]. cbn [remove_recursive].
  destruct (tc_lstat _ _ TC p b w Hp) as (mode & sz & Hst & Hmode). rewrite (bind_ret_l _ _ _ _ _ Hst), Hmode. destruct b; cbn [negb].
  2: { destruct (tc_unlink _ _ TC p w Hp) as (w1 & Hu & Hf & Hs). rewrite (bind_ret_l _ _ _ _ _ Hu). exists w1. split; [done|].
       split; [|done]. by rewrite (without_file p) by done. }
  destruct (tc_opendir _ _ TC p w Hp) as (d & names & w1 & Ho & Hf1 & Hfree & Hs1 & Hdots & Hnd & Hnames). rewrite (bind_ret_l _ _ _ _ _ Ho).
  assert (is_Some (files w !! p)) as Hsome by (by rewrite Hp).
  assert (Forall (fun n => is_dot n = false -> is_name n /\ is_Some (files w !! child p n)) names) as Hall
    by (apply Forall_forall; intros n Hn Hd; by apply Hnames).
  pose proof (entries_count p names (files w) Hnd Hsome Hdots) as Hlen.
  destruct (rm_walk_run k p d IH names k 0 w1) as (w2 & Hw & Hf2 & Hs2); rewrite ?Hf1; try done.
  { rewrite Hs1. apply lookup_insert_eq. }
  { enough (length names <= size (below p (files w)) + 1)%nat by lia. apply Hlen. eapply Forall_impl; [exact Hall|]. by intros n H Hd; apply H. }
  { lia. }
  rewrite (bind_ret_l _ _ _ _ _ Hw). destruct (tc_closedir _ _ TC d w2) as (w3 & Hc & Hf3 & Hs3). rewrite (bind_ret_l _ _ _ _ _ Hc).
  destruct (without_entries p names (files w)) as (Hdir & Hkids & Hdel); [done|done| | |].
  { eapply Forall_impl; [exact Hall|]. by intros n H Hd; apply H. }
  { intros n Hn Hsn. apply Hnames; [apply Hn|done]. }
  assert (files w3 = without_all p names (files w)) as Ew by (by rewrite Hf3, Hf2, Hf1). rewrite <- Ew in Hdir, Hkids, Hdel.
  destruct (tc_rmdir _ _ TC p w3 Hdir Hkids) as (w4 & Hr & Hf4 & Hs4).
  rewrite (bind_ret_l _ _ _ _ _ Hr). exists w4. split; [done|]. split; [by rewrite Hf4|].
  rewrite Hs4, Hs3, Hs2, Hs1, insert_insert_eq, delete_insert_eq. by rewrite delete_id.
Qed.

(** ** Paths that do not fit *)

(** The path of an entry is cut back to the directory's own path. *)
Lemma join_path_cut p n : (length p = RM_CHILD - 1)%nat -> join_path RM_CHILD p n = p.
Proof. intros H. unfold join_path. rewrite <- H. apply take_app_length. Qed.

Lemma rm_walk_stuck m k p d : (length p = RM_CHILD - 1)%nat ->
  (forall w, files w = m -> exists e w', remove_recursive k p w = Undef e w') -> forall names j rc w,
  streams w !! d = Some names -> files w = m -> Exists (fun n => is_dot n = false) names ->
  exists e w', rm_walk (remove_recursive k) d p j rc w = Undef e w'.
Proof using TC.
  intros Hp Hrec. induction names as [|n names IH]; intros j rc w Hd Hw Hex; [by apply Exists_nil in Hex|].
  destruct j as [|j]; [by eexists _, _|]. cbn [rm_walk]. destruct (tc_readdir _ _ TC d _ w Hd) as (w1 & Hr & Hf1 & Hs1).
  rewrite (bind_ret_l _ _ _ _ _ Hr). cbn [head]. apply Exists_cons in Hex. destruct (is_dot n) eqn:Ed.
  - apply IH; [rewrite Hs1; apply lookup_insert_eq|congruence|]. by destruct Hex.
  - rewrite join_path_cut by done. destruct (Hrec w1) as (e & w' & E); [congruence|]. exists e, w'. unfold bind. by rewrite E.
Qed.

(** On a directory with a path of 2047 bytes and an entry, the function calls
    itself on the same path: no amount of fuel is enough. *)
Lemma remove_recursive_stuck p n k : (length p = RM_CHILD - 1)%nat -> is_name n -> forall w,
  files w !! p = Some true -> is_Some (files w !! child p n) -> exists e w', remove_recursive k p w = Undef e w'.
Proof using TC.
  intros Hlen Hn. induction k as [|k IH]; intros w Hp Hc; [by eexists _, _|]. cbn [remove_recursive].
  destruct (tc_lstat _ _ TC p true w Hp) as (mode & sz & Hst & Hmode). rewrite (bind_ret_l _ _ _ _ _ Hst), Hmode. cbn [negb].
  destruct (tc_opendir _ _ TC p w Hp) as (d & names & w1 & Ho & Hf1 & _ & Hs1 & _ & _ & Hnames). rewrite (bind_ret_l _ _ _ _ _ Ho).
  destruct (rm_walk_stuck (files w) k p d Hlen) with (names := names) (j := k) (rc := 0) (w := w1) as (e & w' & E).
  - intros w2 Hw2. apply IH; by rewrite Hw2.
  - rewrite Hs1. apply lookup_insert_eq.
  - done.
  - apply Exists_exists. exists n. split; [by apply Hnames; [apply Hn|]|apply Hn].
  - exists e, w'. unfold bind at 1. by rewrite E.
Qed.

End removal.
