(* ===== verification/ShellSpec.v ===== *)
(** * Tokens and redirections of the shell of Project 2, and the descriptors of
    the commands that sh runs *)

From stdpp Require Import gmap fin_maps.
From S2P Require Import Prelude CString Console Ulib Posix Myshell Sh.

(** ** Tokens *)

(** The pieces between the delimiters; the tokens are those that are not
    empty. *)
Fixpoint pieces (s : list Z) : list (list Z) :=
  match s with
  | [] => [[]]
  | c :: s' =>
      if is_delim c then [] :: pieces s'
      else match pieces s' with p :: ps => (c :: p) :: ps | [] => [[c]] end
  end.

Definition fields (s : list Z) : list (list Z) := filter (fun p => p <> []) (pieces s).

Lemma fields_skip s : fields s = fields (skip_delims s).
Proof.
  unfold fields. induction s as [|c s IH]; [done|]. cbn [pieces skip_delims]. destruct (is_delim c) eqn:E; [|by cbn [pieces]; rewrite E].
  rewrite filter_cons_False by (intros H; by apply H). exact IH.
Qed.

Lemma pieces_span s : pieces s = (span_token s).1 :: (if forallb (fun c => negb (is_delim c)) s then [] else pieces (span_token s).2).
Proof.
  induction s as [|c s IH]; [done|]. cbn [pieces span_token forallb]. destruct (is_delim c); [done|]. cbn [negb andb].
  rewrite IH. by destruct (span_token s).
Qed.

Lemma span_rest s : forallb (fun c => negb (is_delim c)) s = true -> (span_token s).2 = [].
Proof.
  induction s as [|c s IH]; [done|]. cbn [span_token forallb]. destruct (is_delim c); [done|]. cbn [negb andb]. intros H. specialize (IH H).
  by destruct (span_token s).
Qed.

Lemma fields_strtok s : fields s = match strtok s with None => [] | Some (t, r) => t :: fields r end.
Proof.
  rewrite fields_skip. unfold strtok. destruct (skip_delims s) as [|c s'] eqn:E; [done|].
  assert (is_delim c = false) as Hc.
  { clear -E. induction s as [|d s IH]; [done|]. cbn in E. destruct (is_delim d) eqn:Ed; [by apply IH|]. by injection E as -> ->. }
  unfold fields. rewrite (pieces_span (c :: s')). pose proof (span_rest (c :: s')) as Hr. cbn [span_token] in *. rewrite Hc in *.
  destruct (span_token s') as [t r]. cbn [fst snd] in *. rewrite filter_cons_True by done. f_equal.
  destruct (forallb _ _); [|done]. by rewrite Hr.
Qed.

Lemma tokenize_loop_run n : forall s, tokenize_loop n s = take n (fields s).
Proof.
  induction n as [|n IH]; intros s; [done|]. cbn [tokenize_loop]. rewrite fields_strtok. destruct (strtok s) as [[t r]|]; [|done].
  cbn [take]. by rewrite IH.
Qed.

(** ** Redirections *)

Inductive redirect := ROut (f : list Z) | RAppend (f : list Z) | RIn (f : list Z).

Definition redirect_of (t f : list Z) : option redirect :=
  if is_tok ">" t then Some (ROut f)
  else if is_tok ">>" t then Some (RAppend f)
  else if is_tok "<" t then Some (RIn f)
  else None.

Definition is_redirect (t : list Z) : bool := is_tok ">" t || is_tok ">>" t || is_tok "<" t.

(** The redirections and the words of a command; [None] if the file name of
    the last redirection is missing. *)
Fixpoint split_redirs (toks : list (list Z)) : option (list redirect * list (list Z)) :=
  match toks with
  | [] => Some ([], [])
  | t :: toks1 =>
      if is_redirect t then
        match toks1 with
        | [] => None
        | f :: toks2 =>
            match redirect_of t f, split_redirs toks2 with
            | Some r, Some (rs, ws) => Some (r :: rs, ws)
            | _, _ => None
            end
        end
      else match split_redirs toks1 with Some (rs, ws) => Some (rs, t :: ws) | None => None end
  end.

(** What a descriptor stands for: the path and the flags it was opened with. *)
Definition OUT_FLAGS : Z := Z.lor (Z.lor PX_WRONLY PX_CREAT) PX_TRUNC.
Definition APPEND_FLAGS : Z := Z.lor (Z.lor PX_WRONLY PX_CREAT) PX_APPEND.

Definition redirect_fd (m : gmap Z (list Z * Z)) (r : redirect) : gmap Z (list Z * Z) :=
  match r with
  | ROut f => <[1 := (f, OUT_FLAGS)]> m
  | RAppend f => <[1 := (f, APPEND_FLAGS)]> m
  | RIn f => <[0 := (f, PX_RDONLY)]> m
  end.

(** The calls on descriptors, when they succeed. *)
Record fd_calls {W} {SH : Shell W} (fds : W -> gmap Z (list Z * Z)) : Prop := {
  fc_open p flags mode w : exists fd w', io_open p flags mode w = Ret fd w' /\ 0 <= fd /\ fds w !! fd = None /\
    fds w' = <[fd := (p, flags)]> (fds w);
  fc_dup2 a b d w : fds w !! a = Some d -> exists w', px_dup2 a b w = Ret tt w' /\ fds w' = <[b := d]> (fds w);
  fc_close a w : exists w', io_close a w = Ret tt w' /\ fds w' = delete a (fds w);
  fc_stderr bs w : exists w', px_stderr bs w = Ret tt w';
}.

Section redirections.
Context {W : Type} {SH : Shell W} (fds : W -> gmap Z (list Z * Z)) (FC : fd_calls fds).

(** One redirection: open, dup2 onto an open descriptor, close. *)
Lemma redirect_one (f : list Z) flags mode (target : Z) w (next : M W (Z + list (list Z))) : is_Some (fds w !! target) ->
  exists w', (fd <- io_open f flags mode ;; if fd <? 0 then perror f ;; ret (inl 1)
              else px_dup2 fd target ;; io_close fd ;; next) w = next w' /\ fds w' = <[target := (f, flags)]> (fds w).
Proof using FC.
  intros [d Hd]. destruct (fc_open _ FC f flags mode w) as (fd & w1 & Ho & Hfd & Hfree & Hf1). rewrite (bind_ret_l _ _ _ _ _ Ho).
  rewrite (proj2 (Z.ltb_ge fd 0)) by lia. assert (fd <> target) as Hne by (intros ->; congruence).
  destruct (fc_dup2 _ FC fd target (f, flags) w1) as (w2 & Hdup & Hf2); [rewrite Hf1; apply lookup_insert_eq|].
  rewrite (bind_ret_l _ _ _ _ _ Hdup). destruct (fc_close _ FC fd w2) as (w3 & Hc & Hf3). rewrite (bind_ret_l _ _ _ _ _ Hc).
  exists w3. split; [done|]. rewrite Hf3, Hf2, Hf1, delete_insert_ne by done. by rewrite delete_insert_eq, delete_id.
Qed.

Lemma redirect_fd_std m r : is_Some (m !! 0) /\ is_Some (m !! 1) -> is_Some (redirect_fd m r !! 0) /\ is_Some (redirect_fd m r !! 1).
Proof. intros [H0 H1]. destruct r; cbn; rewrite ?lookup_insert_eq, ?lookup_insert_ne by lia; eauto. Qed.

Lemma out_not_append t : is_tok ">" t = true -> is_tok ">>" t = false.
Proof.
  unfold is_tok. change (bytes ">") with [62]. change (bytes ">>") with [62; 62]. destruct t as [|c [|d t]]; cbn [strcmp].
  - done.
  - destruct (u8 c =? u8 62) eqn:E; bool_prop; [done|]. intros ?. lia.
  - destruct (u8 c =? u8 62) eqn:E; bool_prop; [|intros; lia]. intros ->%Z.eqb_eq. done.
Qed.

Lemma remove_two_at (pre rest : list (list Z)) t f : remove_two (length pre) (pre ++ t :: f :: rest) = pre ++ rest.
Proof.
  unfold remove_two. rewrite take_app_length. f_equal. rewrite drop_app_add. done.
Qed.

(** The loop at position [length pre], after tokens that are kept. *)
Lemma apply_loop_run k : forall pre toks w, (length toks <= k)%nat -> is_Some (fds w !! 0) /\ is_Some (fds w !! 1) ->
  match split_redirs toks with
  | Some (rs, ws) => exists w', apply_loop k (length pre) (pre ++ toks) w = Ret (inr (pre ++ ws)) w' /\
      fds w' = foldl redirect_fd (fds w) rs
  | None => exists w', apply_loop k (length pre) (pre ++ toks) w = Ret (inl 1) w'
  end.
Proof using FC.
  induction k as [|k IH]; intros pre toks w Hk Hstd.
  { destruct toks; [|cbn in Hk; lia]. exists w. cbn [apply_loop]. by rewrite app_nil_r, lookup_ge_None_2. }
  destruct toks as [|t toks]; [exists w; cbn [apply_loop]; by rewrite app_nil_r, lookup_ge_None_2|]. cbn [length] in Hk.
  cbn [apply_loop split_redirs]. rewrite list_lookup_middle by done. unfold is_redirect, redirect_of.
  assert ((pre ++ t :: toks) !! (length pre + 1)%nat = head toks) as Hnext
    by (rewrite lookup_app_r by lia; by destruct toks; replace (length pre + 1 - length pre)%nat with 1%nat by lia).
  rewrite Hnext.
  assert (forall r f toks2 next, toks = f :: toks2 -> (exists w', next = apply_loop k (length pre) (pre ++ toks2) w' /\ fds w' = redirect_fd (fds w) r) ->
    match match split_redirs toks2 with Some (rs, ws) => Some (r :: rs, ws) | None => None end with
    | Some (rs, ws) => exists w', next = Ret (inr (pre ++ ws)) w' /\ fds w' = foldl redirect_fd (fds w) rs
    | None => exists w', next = Ret (inl 1) w'
    end) as Hstep.
  { intros r f toks2 next -> (w1 & -> & Hf). cbn [length] in Hk. specialize (IH pre toks2 w1 ltac:(lia)). rewrite Hf in IH.
    specialize (IH (redirect_fd_std (fds w) r Hstd)). destruct (split_redirs toks2) as [[rs ws]|]; [|done]. exact IH. }
  destruct (is_tok ">" t || is_tok ">>" t) eqn:Eo; cbn [orb].
  - destruct toks as [|f toks]; cbn [head].
    { destruct (fc_stderr _ FC (bytes "myshell: syntax error near '" ++ t ++ bytes "'" ++ [10]) w) as (w' & Hw). exists w'.
      by rewrite (bind_ret_l _ _ _ _ _ Hw). }
    rewrite remove_two_at. destruct (is_tok ">" t) eqn:E1; [rewrite (out_not_append t E1)|destruct (is_tok ">>" t); [|done]];
      (eapply Hstep; [reflexivity|]); apply redirect_one, Hstd.
  - destruct (is_tok ">" t); [done|]. destruct (is_tok ">>" t); [done|]. destruct (is_tok "<" t).
    + destruct toks as [|f toks]; cbn [head].
      { destruct (fc_stderr _ FC (bytes "myshell: syntax error near '<'" ++ [10]) w) as (w' & Hw). exists w'. by rewrite (bind_ret_l _ _ _ _ _ Hw). }
      rewrite remove_two_at. eapply Hstep; [reflexivity|]. apply redirect_one, Hstd.
    + specialize (IH (pre ++ [t]) toks w ltac:(lia) Hstd). rewrite length_app, Nat.add_1_r, <- app_assoc in IH. cbn [app] in IH.
      destruct (split_redirs toks) as [[rs ws]|]; [|done]. destruct IH as (w' & H1 & H2). exists w'. by rewrite <- app_assoc in H1.
Qed.

End redirections.

(** * Descriptors of the commands that sh runs

    Descriptors are allocated from the lowest free number, as fdalloc of the
    kernel does; redirections and pipes depend on it. *)

(** What a descriptor stands for. *)
Inductive ofile := OPath (path : list Z) (flags : Z) | OPipeRead (id : nat) | OPipeWrite (id : nat).

Definition lowest_free (m : gmap Z ofile) (fd : Z) : Prop :=
  0 <= fd /\ m !! fd = None /\ forall i, 0 <= i < fd -> is_Some (m !! i).

(** The calls on descriptors, when they succeed. *)
Record xv_fds {W} {XV : Xv6 W} (fds : W -> gmap Z ofile) : Prop := {
  xf_open p flags w : exists fd w', io_open p flags 0 w = Ret fd w' /\ lowest_free (fds w) fd /\
    fds w' = <[fd := OPath p flags]> (fds w);
  xf_close fd w : exists w', io_close fd w = Ret tt w' /\ fds w' = delete fd (fds w);
  xf_dup a d w : fds w !! a = Some d -> exists fd w', xv_dup a w = Ret fd w' /\ lowest_free (fds w) fd /\ fds w' = <[fd := d]> (fds w);
  xf_pipe w : exists r wr id w', xv_pipe w = Ret (Some (r, wr)) w' /\ lowest_free (fds w) r /\
    lowest_free (<[r := OPipeRead id]> (fds w)) wr /\
    fds w' = <[wr := OPipeWrite id]> (<[r := OPipeRead id]> (fds w));
}.

Lemma lowest_free_unique m a b : lowest_free m a -> lowest_free m b -> a = b.
Proof.
  intros (Ha & Hna & Hla) (Hb & Hnb & Hlb). destruct (Z.lt_trichotomy a b) as [H|[H|H]]; [|done|].
  - destruct (Hlb a) as [x Hx]; [lia|]. congruence.
  - destruct (Hla b) as [x Hx]; [lia|]. congruence.
Qed.

(** Closing a descriptor with none free below makes it the lowest one. *)
Lemma lowest_free_delete m fd : 0 <= fd -> (forall i, 0 <= i < fd -> is_Some (m !! i)) -> lowest_free (delete fd m) fd.
Proof.
  intros H0 Hl. split; [done|]. split; [apply lookup_delete_eq|]. intros i Hi. rewrite lookup_delete_ne by lia. by apply Hl.
Qed.

Section spec.
Context {W : Type} {XV : Xv6 W} (fds : W -> gmap Z ofile) (XF : xv_fds fds).

(** A redirection puts the file on the descriptor it closes. *)
Lemma runcmd_redir buf c file mode fd w : 0 <= fd -> (forall i, 0 <= i < fd -> is_Some (fds w !! i)) ->
  exists w', runcmd buf (REDIR c file mode fd) w = runcmd buf c w' /\ fds w' = <[fd := OPath (str buf file) mode]> (fds w).
Proof using XF.
  intros Hfd Hlow. cbn [runcmd]. destruct (xf_close _ XF fd w) as (w1 & Hc & Hf1). rewrite (bind_ret_l _ _ _ _ _ Hc).
  destruct (xf_open _ XF (str buf file) mode w1) as (r & w2 & Ho & Hl & Hf2). rewrite (bind_ret_l _ _ _ _ _ Ho).
  rewrite Hf1 in Hl, Hf2. assert (r = fd) as -> by (eapply lowest_free_unique; [exact Hl|by apply lowest_free_delete]).
  rewrite (proj2 (Z.ltb_ge fd 0)) by lia. exists w2. split; [done|]. by rewrite Hf2, insert_delete_eq.
Qed.

(** The end of a pipe takes the place of a standard descriptor, and both
    descriptors of the pipe are closed. *)
Lemma pipe_end (std src a b : Z) d (m : gmap Z ofile) w : src = a \/ src = b -> m !! a = None -> m !! b = None -> 0 <= std ->
  (forall i, 0 <= i <= std -> is_Some (m !! i)) -> fds w !! src = Some d -> delete b (delete a (fds w)) = m ->
  exists w', (io_close std ;; xv_dup src ;; io_close a ;; io_close b) w = Ret tt w' /\ fds w' = <[std := d]> m.
Proof using XF.
  intros Hsrc Ha Hb Hstd Hlow Hd Hm.
  assert (forall i, 0 <= i <= std -> i <> a /\ i <> b) as Hne by (intros i Hi; destruct (Hlow i Hi) as [x Hx]; split; congruence).
  destruct (Hne std) as [Hsa Hsb]; [lia|]. assert (src <> std) by (destruct Hsrc; congruence).
  destruct (xf_close _ XF std w) as (w1 & Hc1 & Hf1). rewrite (bind_ret_l _ _ _ _ _ Hc1).
  destruct (xf_dup _ XF src d w1) as (r & w2 & Hdup & Hl & Hf2); [by rewrite Hf1, lookup_delete_ne by done|]. rewrite (bind_ret_l _ _ _ _ _ Hdup).
  assert (r = std) as ->.
  { rewrite Hf1 in Hl. eapply lowest_free_unique; [exact Hl|]. apply lowest_free_delete; [done|]. intros i Hi.
    destruct (Hne i) as [? ?]; [lia|]. destruct (Hlow i) as [x Hx]; [lia|]. exists x. rewrite <- Hm in Hx.
    by rewrite !lookup_delete_ne in Hx by done. }
  destruct (xf_close _ XF a w2) as (w3 & Hc3 & Hf3). rewrite (bind_ret_l _ _ _ _ _ Hc3).
  destruct (xf_close _ XF b w3) as (w4 & Hc4 & Hf4). exists w4. split; [done|].
  rewrite Hf4, Hf3, Hf2, Hf1, insert_delete_eq, !delete_insert_ne by done. by rewrite Hm.
Qed.

(** The descriptors of a pipe and without it. *)
Lemma pipe_fds (m : gmap Z ofile) r wr id : lowest_free m r -> lowest_free (<[r := OPipeRead id]> m) wr ->
  let m' := <[wr := OPipeWrite id]> (<[r := OPipeRead id]> m) in
  r <> wr /\ m !! r = None /\ m !! wr = None /\ m' !! r = Some (OPipeRead id) /\ m' !! wr = Some (OPipeWrite id) /\ delete wr (delete r m') = m.
Proof.
  intros (_ & Hr & _) (_ & Hw & _) m'. assert (r <> wr) as Hne by (intros ->; by rewrite lookup_insert_eq in Hw).
  rewrite lookup_insert_ne in Hw by done. unfold m'. rewrite lookup_insert_ne, !lookup_insert_eq by done.
  do 5 (split; [done|]). rewrite delete_insert_ne, delete_insert_eq by done. rewrite delete_insert_eq, (delete_id m r) by done. by rewrite delete_id.
Qed.

(** A pipeline: the left command runs with the write end as its output, the
    right one with the read end as its input, and neither child nor the parent
    keeps another descriptor of the pipe. *)
Lemma runcmd_pipe buf l r w : is_Some (fds w !! 0) -> is_Some (fds w !! 1) ->
  exists p id wp, runcmd buf (PIPE l r) w = fork1 (pipe_left p ;; runcmd buf l) (fork1 (pipe_right p ;; runcmd buf r) (pipe_parent p)) wp /\
    forall wc, fds wc = fds wp ->
      (exists wl, (pipe_left p ;; runcmd buf l) wc = runcmd buf l wl /\ fds wl = <[1 := OPipeWrite id]> (fds w)) /\
      (exists wr, (pipe_right p ;; runcmd buf r) wc = runcmd buf r wr /\ fds wr = <[0 := OPipeRead id]> (fds w)) /\
      (exists w', pipe_parent p wc = (xv_wait ;; xv_wait ;; ret tt) w' /\ fds w' = fds w).
Proof using XF.
  intros H0 H1. destruct (xf_pipe _ XF w) as (rd & wr & id & wp & Hp & Hlr & Hlw & Hf). exists (rd, wr), id, wp.
  cbn [runcmd]. rewrite (bind_ret_l _ _ _ _ _ Hp). split; [done|]. intros wc Hwc. rewrite Hf in Hwc.
  destruct (pipe_fds _ _ _ _ Hlr Hlw) as (Hne & Hnr & Hnw & Hr & Hw & Hdel). rewrite <- Hwc in Hr, Hw, Hdel.
  split; [|split].
  - destruct (pipe_end 1 wr rd wr (OPipeWrite id) (fds w) wc) as (wl & Hrun & Hfl); [by right|done|done|lia| |done|done|].
    { intros i Hi. destruct (decide (i = 0)) as [->|]; [done|]. by replace i with 1 by lia. }
    exists wl. split; [|done]. unfold pipe_left. cbn [fst snd]. by rewrite (bind_ret_l _ _ _ _ _ Hrun).
  - destruct (pipe_end 0 rd rd wr (OPipeRead id) (fds w) wc) as (wl & Hrun & Hfl); [by left|done|done|lia| |done|done|].
    { intros i Hi. by replace i with 0 by lia. }
    exists wl. split; [|done]. unfold pipe_right. cbn [fst snd]. by rewrite (bind_ret_l _ _ _ _ _ Hrun).
  - destruct (xf_close _ XF rd wc) as (w3 & Hc3 & Hf3). destruct (xf_close _ XF wr w3) as (w4 & Hc4 & Hf4). exists w4.
    unfold pipe_parent. cbn [fst snd]. rewrite (bind_ret_l _ _ _ _ _ Hc3), (bind_ret_l _ _ _ _ _ Hc4). split; [done|]. congruence.
Qed.

End spec.
