(* ===== verification/UserProgs.v ===== *)
(** * The small user programs of xv6

    cat.c, echo.c, kill.c, ln.c, ls.c, mkdir.c, rm.c, wc.c, init.c and
    zombie.c.  [main] takes the arguments without the program name; a result
    [false] of a helper means that it has called exit. *)

From S2P Require Import Prelude CString Console Layout Ulib Sh Fs.

Section programs.
Context {W : Type} {XV : Xv6 W}.

Definition say (fd : Z) (s : string) (args : list parg) : M W unit := uprintf fd (bytes s ++ [10]) args.

(** ** cat *)

Fixpoint xcat (k : nat) (fd : Z) : M W bool :=
  match k with
  | O => undef "cat: loop bound"
  | S k' =>
      nb <- io_read fd 512 ;;
      let '(n, bs) := nb in
      if 0 <? n then
        r <- io_write 1 bs ;;
        if negb (r =? n) then say 1 "cat: write error" [] ;; ret false
        else xcat k' fd
      else if n <? 0 then say 1 "cat: read error" [] ;; ret false
      else ret true
  end.

Fixpoint xcat_files (k : nat) (files : list (list Z)) : M W unit :=
  match files with
  | [] => ret tt
  | f :: files' =>
      fd <- io_open f 0 0 ;;
      if fd <? 0 then say 1 "cat: cannot open %s" [PStr (Some f)]
      else
        ok <- xcat k fd ;;
        if ok : bool then io_close fd ;; xcat_files k files' else ret tt
  end.

Definition xcat_main (k : nat) (args : list (list Z)) : M W unit :=
  match args with
  | [] => xcat k 0 ;; ret tt
  | _ => xcat_files k args
  end.

(** ** echo, kill, ln, mkdir, rm *)

Fixpoint echo_main (args : list (list Z)) : M W unit :=
  match args with
  | [] => ret tt
  | a :: args' =>
      uprintf 1 (bytes "%s%s") [PStr (Some a); PStr (Some (match args' with [] => [10] | _ => bytes " " end))] ;;
      echo_main args'
  end.

Fixpoint kill_all (args : list (list Z)) : M W unit :=
  match args with
  | [] => ret tt
  | a :: args' =>
      match atoi a with
      | Some pid => xv_kill pid ;; kill_all args'
      | None => undef "atoi: overflow"
      end
  end.

Definition kill_main (args : list (list Z)) : M W unit :=
  match args with
  | [] => say 2 "usage: kill pid..." []
  | _ => kill_all args
  end.

Definition ln_main (args : list (list Z)) : M W unit :=
  match args with
  | [old; new] =>
      r <- xv_link old new ;;
      when (r <? 0) (say 2 "link %s %s: failed" [PStr (Some old); PStr (Some new)])
  | _ => say 2 "Usage: ln old new" []
  end.

(** The loops of mkdir and rm stop at the first failure. *)
Fixpoint each_path (call : list Z -> M W Z) (msg : string) (args : list (list Z)) : M W unit :=
  match args with
  | [] => ret tt
  | a :: args' =>
      r <- call a ;;
      if r <? 0 then say 2 msg [PStr (Some a)] else each_path call msg args'
  end.

Definition mkdir_main (args : list (list Z)) : M W unit :=
  match args with
  | [] => say 2 "Usage: mkdir files..." []
  | _ => each_path xv_mkdir "mkdir: %s failed to create" args
  end.

Definition xrm_main (args : list (list Z)) : M W unit :=
  match args with
  | [] => say 2 "Usage: rm files..." []
  | _ => each_path xv_unlink "rm: %s failed to delete" args
  end.

(** ** wc *)

Record xcounts := mk_xcounts { x_l : Z; x_w : Z; x_c : Z; x_inword : bool }.

(** The body of the loop over the buffer; a null byte is not found in the
    string of white space. *)
Definition xwc_char (n : xcounts) (ch : Z) : xcounts :=
  let c := x_c n + 1 in
  let l := if ch =? 10 then x_l n + 1 else x_l n in
  match strchr [32; 13; 9; 10; 11] ch with
  | Some _ => mk_xcounts l (x_w n) c false
  | None => if negb (x_inword n) then mk_xcounts l (x_w n + 1) c true else mk_xcounts l (x_w n) c (x_inword n)
  end.

Fixpoint xwc_loop (k : nat) (fd : Z) (n : xcounts) : M W (Z * xcounts) :=
  match k with
  | O => undef "wc: loop bound"
  | S k' =>
      nb <- io_read fd 512 ;;
      if 0 <? nb.1 then xwc_loop k' fd (fold_left xwc_char nb.2 n) else ret (nb.1, n)
  end.

Definition xwc (k : nat) (fd : Z) (name : list Z) : M W bool :=
  r <- xwc_loop k fd (mk_xcounts 0 0 0 false) ;;
  if r.1 <? 0 then say 1 "wc: read error" [] ;; ret false
  else say 1 "%d %d %d %s" [PInt (x_l r.2); PInt (x_w r.2); PInt (x_c r.2); PStr (Some name)] ;; ret true.

Fixpoint xwc_files (k : nat) (files : list (list Z)) : M W unit :=
  match files with
  | [] => ret tt
  | f :: files' =>
      fd <- io_open f 0 0 ;;
      if fd <? 0 then say 1 "wc: cannot open %s" [PStr (Some f)]
      else
        ok <- xwc k fd f ;;
        if ok : bool then io_close fd ;; xwc_files k files' else ret tt
  end.

Definition xwc_main (k : nat) (args : list (list Z)) : M W unit :=
  match args with
  | [] => xwc k 0 [] ;; ret tt
  | _ => xwc_files k args
  end.

(** ** ls *)

(** The characters after the last slash. *)
Fixpoint after_slash (path : list Z) : list Z :=
  match path with
  | [] => []
  | c :: p => if bool_decide (chr "/" ∈ p) then after_slash p else if c =? chr "/" then p else c :: p
  end.

Definition fmtname (path : list Z) : list Z :=
  let p := after_slash path in
  if (DIRSIZ <=? length p)%nat then p else p ++ replicate (DIRSIZ - length p) 32.

(** [stat] of ulib.c. *)
Definition ustat (n : list Z) : M W (option (Z * Z * Z * Z * Z)) :=
  fd <- io_open n SH_RDONLY 0 ;;
  if fd <? 0 then ret None
  else
    r <- xv_fstat fd ;;
    io_close fd ;;
    ret r.

Definition ls_line (name : list Z) (st : Z * Z * Z * Z * Z) : M W unit :=
  let '(type, _, ino, _, size) := st in
  say 1 "%s %d %d %d" [PStr (Some (fmtname name)); PInt type; PInt ino; PInt size].

(** [while(read(fd, &de, sizeof(de)) == sizeof(de))]: the entry is its number
    in two bytes and its name. *)
Fixpoint xls_loop (k : nat) (fd : Z) (dir : list Z) : M W unit :=
  match k with
  | O => undef "ls: loop bound"
  | S k' =>
      nb <- io_read fd (2 + DIRSIZ) ;;
      if negb (nb.1 =? Z.of_nat (2 + DIRSIZ)) then ret tt
      else
        (if get16 nb.2 0 =? 0 then ret tt
         else
           let buf := dir ++ chr "/" :: cstr (take DIRSIZ (drop 2 nb.2)) in
           st <- ustat buf ;;
           match st with
           | None => say 1 "ls: cannot stat %s" [PStr (Some buf)]
           | Some st => ls_line buf st
           end) ;;
        xls_loop k' fd dir
  end.

Definition xls (k : nat) (path : list Z) : M W unit :=
  fd <- io_open path 0 0 ;;
  if fd <? 0 then say 2 "ls: cannot open %s" [PStr (Some path)]
  else
    st <- xv_fstat fd ;;
    match st with
    | None => say 2 "ls: cannot stat %s" [PStr (Some path)] ;; io_close fd
    | Some st =>
        let '(type, _, _, _, _) := st in
        (if type =? T_FILE then ls_line path st
         else if type =? T_DIR then
           if (512 <? length path + 1 + DIRSIZ + 1)%nat then say 1 "ls: path too long" []
           else xls_loop k fd path
         else ret tt) ;;
        io_close fd
    end.

Fixpoint xls_all (k : nat) (args : list (list Z)) : M W unit :=
  match args with
  | [] => ret tt
  | a :: args' => xls k a ;; xls_all k args'
  end.

Definition xls_main (k : nat) (args : list (list Z)) : M W unit :=
  match args with
  | [] => xls k (bytes ".")
  | _ => xls_all k args
  end.

(** ** init and zombie *)

(** [while((wpid=wait()) >= 0 && wpid != pid)] *)
Fixpoint init_wait (k : nat) (pid : Z) : M W unit :=
  match k with
  | O => undef "init: wait bound"
  | S k' =>
      wpid <- xv_wait ;;
      if (0 <=? wpid) && negb (wpid =? pid) then say 1 "zombie!" [] ;; init_wait k' pid else ret tt
  end.

(** The loop of init, for [k] shells. *)
Fixpoint init_loop (k : nat) : M W unit :=
  match k with
  | O => undef "init: shells"
  | S k' =>
      say 1 "init: starting sh" [] ;;
      pid <- xv_fork (ok <- xv_exec (bytes "sh") [bytes "sh"] ;; if ok : bool then ret tt else say 1 "init: exec sh failed" []) ;;
      if pid <? 0 then say 1 "init: fork failed" []
      else init_wait k pid ;; init_loop k'
  end.

Definition init_main (k : nat) : M W unit :=
  fd <- io_open (bytes "console") 2 0 ;;
  when (fd <? 0) (xv_mknod (bytes "console") 1 1 ;; io_open (bytes "console") 2 0 ;; ret tt) ;;
  xv_dup 0 ;;
  xv_dup 0 ;;
  init_loop k.

Definition zombie_main : M W unit :=
  pid <- xv_fork (ret tt) ;;
  when (0 <? pid) (xv_sleep 5 ;; ret tt).

End programs.

(** ** What cat and wc do *)

Section streams.
Context {W : Type} {XV : Xv6 W} (fd : Z) (rest out : W -> list Z) (F : Full fd 1 rest out).

(** cat copies its input. *)
Lemma xcat_run k : forall w, (length (rest w) < k)%nat ->
  exists w', xcat k fd w = Ret true w' /\ rest w' = [] /\ out w' = out w ++ rest w.
Proof using F.
  induction k as [|k IH]; intros w Hk; [lia|]. cbn [xcat]. set (n := 512%nat). assert (0 < n)%nat as Hn by (unfold n; lia).
  destruct (fu_read _ _ _ _ F n w) as (w1 & Hrd & Hr1 & Ho1).
  rewrite (bind_ret_l _ _ _ _ _ Hrd). destruct (rest w) as [|c d] eqn:Ew.
  { rewrite Nat.min_0_r. exists w1. split; [done|]. split; [by rewrite Hr1; destruct n|]. by rewrite Ho1, app_nil_r. }
  rewrite <- Ew in *. assert (0 < length (rest w))%nat by (rewrite Ew; cbn; lia).
  rewrite (proj2 (Z.ltb_lt 0 _)) by lia. destruct (fu_write _ _ _ _ F (take n (rest w)) w1) as (w2 & Hw & Ho2 & Hr2).
  rewrite (bind_ret_l _ _ _ _ _ Hw), length_take, Z.eqb_refl. cbn [negb]. destruct (IH w2) as (w3 & H3 & Hr3 & Ho3).
  { rewrite Hr2, Hr1, length_drop. lia. }
  exists w3. split; [done|]. split; [done|]. by rewrite Ho3, Ho2, Hr2, Hr1, Ho1, <- app_assoc, take_drop.
Qed.

(** wc counts every byte of its input, in blocks of any number. *)
Lemma xwc_loop_run k : forall n w, (length (rest w) < k)%nat ->
  exists w', xwc_loop k fd n w = Ret (0, fold_left xwc_char (rest w) n) w' /\ out w' = out w.
Proof using F.
  induction k as [|k IH]; intros c w Hk; [lia|]. cbn [xwc_loop]. set (n := 512%nat). assert (0 < n)%nat as Hn by (unfold n; lia).
  destruct (fu_read _ _ _ _ F n w) as (w1 & Hrd & Hr1 & Ho1). rewrite (bind_ret_l _ _ _ _ _ Hrd). cbn [fst snd].
  destruct (rest w) as [|b d] eqn:Ew; [rewrite Nat.min_0_r; by exists w1|].
  rewrite <- Ew in *. assert (0 < length (rest w))%nat by (rewrite Ew; cbn; lia). rewrite (proj2 (Z.ltb_lt 0 _)) by lia.
  destruct (IH (fold_left xwc_char (take n (rest w)) c) w1) as (w2 & H2 & Ho2); [rewrite Hr1, length_drop; lia|].
  exists w2. rewrite H2, Hr1, <- fold_left_app, take_drop. split; [done|congruence].
Qed.

End streams.
