(* ===== verification/UserWorld.v ===== *)
(** * Two small systems for the user programs

    [user_posix rcap wcap] has one input and one output; its reads and writes
    stop after [rcap] and [wcap] bytes.  [tree_posix] is a tree of files with
    directory streams.  Both show that the laws the programs rely on can hold. *)

From stdpp Require Import gmap fin_maps.
From S2P Require Import Prelude Console Ulib Posix FileTools Myshell Sh TextSpec RmSpec ShellSpec.

(** ** One input, one output *)

Record uworld := mk_uworld { u_in : list Z; u_out : list Z; u_err : list Z; u_fds : gmap Z (list Z * Z) }.

Section streams.
Context (rcap wcap : nat -> nat).

#[local] Instance user_io : Io uworld := {
  io_open p flags _ w :=
    let fd := Z.of_nat (fresh (list_to_set (Z.to_nat <$> (map_to_list (u_fds w)).*1) : gset nat)) in
    Ret fd (mk_uworld (u_in w) (u_out w) (u_err w) (<[fd := (p, flags)]> (u_fds w)));
  io_read _ n w :=
    let k := min (rcap n) (length (u_in w)) in
    Ret (Z.of_nat k, take k (u_in w)) (mk_uworld (drop k (u_in w)) (u_out w) (u_err w) (u_fds w));
  io_write _ bs w :=
    let k := wcap (length bs) in
    Ret (Z.of_nat k) (mk_uworld (u_in w) (u_out w ++ take k bs) (u_err w) (u_fds w));
  io_close fd w := Ret tt (mk_uworld (u_in w) (u_out w) (u_err w) (delete fd (u_fds w)));
}.

Definition user_posix : Posix uworld := {|
  px_io := user_io;
  px_stdout bs w := Ret tt (mk_uworld (u_in w) (u_out w ++ bs) (u_err w) (u_fds w));
  px_stderr bs w := Ret tt (mk_uworld (u_in w) (u_out w) (u_err w ++ bs) (u_fds w));
  px_errno := ret 2;
  px_strerror _ := bytes "No such file or directory";
  px_fstat _ := ret (Some 0x81a4);
  px_stat _ := ret None;
  px_lstat _ := ret None;
  px_unlink _ := ret (-1);
  px_rmdir _ := ret (-1);
  px_rename _ _ := ret (-1);
  px_chmod _ _ := ret (-1);
  px_utime _ := ret (-1);
  px_opendir _ := ret None;
  px_readdir _ := ret None;
  px_closedir _ := ret tt;
  px_alloc _ := ret true;
  px_dup2 a b w := Ret tt (mk_uworld (u_in w) (u_out w) (u_err w)
    (match u_fds w !! a with Some d => <[b := d]> (u_fds w) | None => u_fds w end));
  px_contents _ w := Ret (Some (u_in w)) w;
|}.

(** A shell whose children are not run: it has no other process. *)
Definition user_shell : Shell uworld := {|
  sh_posix := user_posix;
  sh_fork _ := ret 7;
  sh_execvp _ := ret (Some 0);
  sh_waitpid _ := ret tt;
  sh_pipe := ret None;
  sh_sigint _ := ret tt;
  sh_chdir _ := ret 0;
  sh_getcwd _ := ret None;
  sh_getenv _ := ret None;
  sh_fgets _ := ret None;
  sh_fflush := ret tt;
|}.

(** A cap takes something, and not more than it is given. *)
Definition cap_ok (cap : nat -> nat) : Prop := forall n, (0 < n)%nat -> (0 < cap n <= n)%nat.

Lemma user_stream fdin fdout : cap_ok rcap -> cap_ok wcap -> Stream (IO := user_io) fdin fdout u_in u_out.
Proof.
  intros Hr Hw. constructor.
  - intros n w Hn. specialize (Hr n Hn). eexists _, _. split; [reflexivity|]. cbn [u_in u_out]. split; [lia|]. split; [lia|]. split; [|done].
    intros Hne. destruct (u_in w); [done|]. cbn [length]. lia.
  - intros bs w Hne. eexists _, _. split; [reflexivity|]. cbn [u_in u_out]. split; [|done]. apply Hw. destruct bs; [done|]. cbn [length]. lia.
Qed.

Lemma user_sort_world fd : cap_ok rcap -> sort_world (PX := user_posix) fd u_in u_out.
Proof.
  intros Hr. constructor.
  - intros n w. by exists w.
  - intros bs w. by eexists.
  - intros w. by eexists.
  - intros n w Hn. specialize (Hr n Hn). eexists _, _. split; [reflexivity|]. cbn [u_in u_out]. split; [lia|]. split; [lia|]. split; [|done].
    intros Hne. destruct (u_in w); [done|]. cbn [length]. lia.
Qed.

Lemma user_fd_calls : fd_calls (SH := user_shell) u_fds.
Proof.
  constructor.
  - intros p flags mode w. eexists _, _. split; [reflexivity|]. cbn [u_fds]. split; [lia|]. split; [|done].
    set (used := (list_to_set (Z.to_nat <$> (map_to_list (u_fds w)).*1) : gset nat)).
    destruct (u_fds w !! Z.of_nat (fresh used)) as [d|] eqn:E; [|done]. exfalso. apply (is_fresh used).
    unfold used. apply elem_of_list_to_set, list_elem_of_fmap. exists (Z.of_nat (fresh used)). split; [by rewrite Nat2Z.id|].
    apply list_elem_of_fmap. eexists (_, d). split; [reflexivity|]. by apply elem_of_map_to_list.
  - intros a b d w Hd. eexists. split; [reflexivity|]. cbn [u_fds]. by rewrite Hd.
  - intros a w. by eexists.
  - intros bs w. by eexists.
Qed.

End streams.

(** Reads and writes that never stop short, and some that do. *)
Definition whole (n : nat) : nat := n.
Definition three (n : nat) : nat := min 3 n.

Lemma take_cap n (l : list Z) : take (min n (length l)) l = take n l.
Proof. destruct (Nat.le_ge_cases n (length l)); [by rewrite Nat.min_l|]. by rewrite Nat.min_r, !take_ge. Qed.

Lemma drop_cap n (l : list Z) : drop (min n (length l)) l = drop n l.
Proof. destruct (Nat.le_ge_cases n (length l)); [by rewrite Nat.min_l|]. by rewrite Nat.min_r, !drop_ge. Qed.

Lemma user_full fdin fdout : Full (IO := user_io whole whole) fdin fdout u_in u_out.
Proof.
  constructor.
  - intros n w. eexists. split; [cbn [io_read user_io]; unfold whole; by rewrite take_cap|]. cbn [u_in u_out]. by rewrite drop_cap.
  - intros bs w. eexists. split; [reflexivity|]. cbn [u_in u_out]. unfold whole. by rewrite firstn_all.
Qed.

Lemma three_ok : cap_ok three.
Proof. intros n Hn. unfold three. lia. Qed.

(** ** A tree of files *)

Record tworld := mk_tworld { t_files : gmap (list Z) bool; t_streams : gmap Z (list (list Z)) }.

#[export] Instance is_name_dec n : Decision (is_name n).
Proof. unfold is_name. apply _. Defined.

(** The name of [q] in the directory [p]. *)
Definition entry_of (p q : list Z) : option (list Z) :=
  let n := drop (length p + 1) q in
  if decide (q = child p n /\ is_name n) then Some n else None.

Definition entries (p : list Z) (m : gmap (list Z) bool) : list (list Z) :=
  bytes "." :: bytes ".." :: elements (list_to_set (omap (fun kv => entry_of p kv.1) (map_to_list m)) : gset (list Z)).

Lemma entry_of_child p q n : entry_of p q = Some n <-> q = child p n /\ is_name n.
Proof.
  unfold entry_of. split.
  - intros H. case_decide as Hd; [|done]. injection H as <-. done.
  - intros [-> Hn]. assert (drop (length p + 1) (child p n) = n) as ->.
    { unfold child. rewrite app_assoc. replace (length p + 1)%nat with (length (p ++ bytes "/")) by (by rewrite length_app). apply drop_app_length. }
    by rewrite decide_True.
Qed.

Lemma entries_spec p m n : is_dot n = false -> n ∈ entries p m <-> is_name n /\ is_Some (m !! child p n).
Proof.
  intros Hd. unfold entries. rewrite !elem_of_cons, elem_of_elements, elem_of_list_to_set, list_elem_of_omap. split.
  - intros [->|[->|([q b] & Hq & He)]]; [done..|]. apply entry_of_child in He as [Eq Hn]. cbn in Eq. subst q. split; [done|]. exists b.
    by apply elem_of_map_to_list in Hq.
  - intros [Hn [b Hb]]. right; right. exists (child p n, b). split; [by apply elem_of_map_to_list|]. by apply entry_of_child.
Qed.

Lemma entries_dots p m : (length (filter is_dot (entries p m)) <= 2)%nat /\ NoDup (entries p m).
Proof.
  unfold entries. set (ns := elements _). assert (forall n, n ∈ ns -> is_name n) as Hn.
  { intros n H. unfold ns in H. apply elem_of_elements, elem_of_list_to_set, list_elem_of_omap in H as (kv & _ & He). by apply entry_of_child in He as [_ ?]. }
  split.
  - assert (filter is_dot ns = []) as E.
    2: { rewrite !filter_cons_True by done. rewrite E. cbn. lia. }
    apply elem_of_nil_inv. intros n H. apply list_elem_of_filter in H as [Hd H]. destruct (Hn n H) as (_ & _ & E). by rewrite E in Hd.
  - repeat apply NoDup_cons_2; [| |apply NoDup_elements].
    + intros H. apply elem_of_cons in H as [H|H]; [done|]. by destruct (Hn _ H) as (_ & _ & ?).
    + intros H. by destruct (Hn _ H) as (_ & _ & ?).
Qed.

#[local] Instance tree_io : Io tworld := {
  io_open _ _ _ := ret (-1);
  io_read _ _ := ret (-1, []);
  io_write _ _ := ret (-1);
  io_close _ := ret tt;
}.

Definition tree_posix : Posix tworld := {|
  px_io := tree_io;
  px_stdout _ := ret tt;
  px_stderr _ := ret tt;
  px_errno := ret 2;
  px_strerror _ := bytes "No such file or directory";
  px_fstat _ := ret None;
  px_stat _ := ret None;
  px_lstat p w := Ret (match t_files w !! p with Some b => Some (if b : bool then 0x41ed else 0x81a4, 0) | None => None end) w;
  px_unlink p w :=
    match t_files w !! p with
    | Some false => Ret 0 (mk_tworld (delete p (t_files w)) (t_streams w))
    | _ => Ret (-1) w
    end;
  px_rmdir p w :=
    if decide (entries p (t_files w) = [bytes "."; bytes ".."]) then Ret 0 (mk_tworld (delete p (t_files w)) (t_streams w))
    else Ret (-1) w;
  px_rename _ _ := ret (-1);
  px_chmod _ _ := ret (-1);
  px_utime _ := ret (-1);
  px_opendir p w :=
    match t_files w !! p with
    | Some true =>
        let d := fresh (dom (t_streams w) : gset Z) in
        Ret (Some d) (mk_tworld (t_files w) (<[d := entries p (t_files w)]> (t_streams w)))
    | _ => Ret None w
    end;
  px_readdir d w :=
    match t_streams w !! d with
    | Some names => Ret (head names) (mk_tworld (t_files w) (<[d := tail names]> (t_streams w)))
    | None => Ret None w
    end;
  px_closedir d w := Ret tt (mk_tworld (t_files w) (delete d (t_streams w)));
  px_alloc _ := ret true;
  px_dup2 _ _ := ret tt;
  px_contents _ := ret None;
|}.

Lemma tree_posix_calls : tree_calls (PX := tree_posix) t_files t_streams.
Proof.
  constructor; cbn [px_lstat px_unlink px_opendir px_readdir px_closedir px_rmdir tree_posix].
  - intros p b w ->. destruct b; by eexists _, _.
  - intros p w ->. by eexists.
  - intros p w ->. eexists _, _, _. split; [reflexivity|]. cbn [t_files t_streams]. split; [done|].
    split; [apply not_elem_of_dom, is_fresh|]. split; [done|]. destruct (entries_dots p (t_files w)). split; [done|]. split; [done|].
    intros n Hn. by apply entries_spec.
  - intros d names w ->. by eexists.
  - intros d w. by eexists.
  - intros p w _ Hnone. assert (entries p (t_files w) = [bytes "."; bytes ".."]) as E.
    { unfold entries. do 2 f_equal. apply elements_empty_iff. intros n. rewrite elem_of_list_to_set, list_elem_of_omap. split; [|set_solver].
      intros ([q b] & Hq & He). apply entry_of_child in He as [Eq _]. cbn in Eq. subst q. apply elem_of_map_to_list in Hq. by rewrite Hnone in Hq. }
    rewrite decide_True by done. by eexists.
Qed.

(** ** The descriptors of an xv6 process *)

Record xworld := mk_xworld { x_fds : gmap Z ofile; x_pipes : nat }.

Fixpoint lowest_from {A} (k : nat) (i : Z) (m : gmap Z A) : Z :=
  match k with
  | O => i
  | S k' => match m !! i with None => i | Some _ => lowest_from k' (i + 1) m end
  end.

Definition lowest {A} (m : gmap Z A) : Z := lowest_from (S (size m)) 0 m.

Lemma lowest_from_spec {A} (m : gmap Z A) k : forall i, 0 <= i -> (forall j, 0 <= j < i -> is_Some (m !! j)) ->
  let r := lowest_from k i m in
  0 <= r /\ (forall j, 0 <= j < r -> is_Some (m !! j)) /\ (m !! r = None \/ r = i + Z.of_nat k).
Proof.
  induction k as [|k IH]; intros i Hi Hlow r; cbn [lowest_from] in r; [split; [done|]; split; [done|]; right; unfold r; lia|].
  unfold r. destruct (m !! i) as [d|] eqn:E; [|auto]. destruct (IH (i + 1)) as (H1 & H2 & H3); [lia| |].
  - intros j Hj. destruct (decide (j = i)) as [->|]; [by rewrite E|]. apply Hlow. lia.
  - split; [done|]. split; [done|]. destruct H3; [by left|right; lia].
Qed.

Lemma lowest_spec (m : gmap Z ofile) : lowest_free m (lowest m).
Proof.
  destruct (lowest_from_spec m (S (size m)) 0) as (H1 & H2 & H3); [lia|intros; lia|]. split; [done|]. fold (lowest m) in *.
  split; [|done]. destruct H3 as [H3|H3]; [done|]. exfalso.
  assert (size (list_to_set (seqZ 0 (Z.of_nat (S (size m)))) : gset Z) <= size (dom m))%nat as Hle.
  { apply subseteq_size. intros j Hj. apply elem_of_list_to_set, elem_of_seqZ in Hj. apply elem_of_dom, H2. lia. }
  rewrite size_list_to_set in Hle by apply NoDup_seqZ. rewrite length_seqZ, size_dom in Hle. lia.
Qed.

#[local] Instance xv_user_io : Io xworld := {
  io_open p flags _ w := let fd := lowest (x_fds w) in Ret fd (mk_xworld (<[fd := OPath p flags]> (x_fds w)) (x_pipes w));
  io_read _ _ := ret (0, []);
  io_write _ bs := ret (Z.of_nat (length bs));
  io_close fd w := Ret tt (mk_xworld (delete fd (x_fds w)) (x_pipes w));
}.

(** The child of a fork has its own descriptors; what it does to them is not
    seen here. *)
Definition xv_user : Xv6 xworld := {|
  xv_io := xv_user_io;
  xv_fork _ := ret 7;
  xv_exec _ _ := ret true;
  xv_wait := ret 7;
  xv_pipe w :=
    let r := lowest (x_fds w) in
    let m := <[r := OPipeRead (x_pipes w)]> (x_fds w) in
    let wr := lowest m in
    Ret (Some (r, wr)) (mk_xworld (<[wr := OPipeWrite (x_pipes w)]> m) (S (x_pipes w)));
  xv_dup a w :=
    match x_fds w !! a with
    | Some d => let fd := lowest (x_fds w) in Ret fd (mk_xworld (<[fd := d]> (x_fds w)) (x_pipes w))
    | None => Ret (-1) w
    end;
  xv_chdir _ := ret 0;
  xv_mkdir _ := ret 0;
  xv_mknod _ _ _ := ret 0;
  xv_unlink _ := ret 0;
  xv_link _ _ := ret 0;
  xv_kill _ := ret 0;
  xv_fstat _ := ret None;
  xv_sleep _ := ret 0;
|}.

Lemma xv_user_fds : xv_fds (XV := xv_user) x_fds.
Proof.
  constructor.
  - intros p flags w. eexists _, _. split; [reflexivity|]. split; [apply lowest_spec|done].
  - intros fd w. by eexists.
  - intros a d w Hd. cbn [xv_dup xv_user]. rewrite Hd. eexists _, _. split; [reflexivity|]. split; [apply lowest_spec|done].
  - intros w. eexists _, _, _, _. split; [reflexivity|]. split; [apply lowest_spec|]. split; [apply lowest_spec|done].
Qed.
