(* ===== verification/ShSpec.v ===== *)
(** * The shell's parser

    The parser terminates on every line, and a command that is printed and
    parsed again is the same command, with the strings of its arguments intact
    after [nulterminate]. *)

From S2P Require Import Prelude CString Console Ulib Sh.

(** ** Runs that return or panic *)

Definition good {A} (m : M nat A) (s : nat) (Q : A -> nat -> Prop) : Prop :=
  match m s with
  | Ret a s' => Q a s'
  | Panic _ _ => True
  | _ => False
  end.

Lemma good_bind {A B} (m : M nat A) (f : A -> M nat B) s Q :
  good m s (fun a s' => good (f a) s' Q) -> good (bind m f) s Q.
Proof. unfold good, bind. by destruct (m s). Qed.

Lemma good_mono {A} (m : M nat A) s (P Q : A -> nat -> Prop) :
  good m s P -> (forall a s', P a s' -> Q a s') -> good m s Q.
Proof. unfold good. destruct (m s); eauto. Qed.

Lemma good_ret {A} (a : A) s (Q : A -> nat -> Prop) : Q a s -> good (ret a) s Q.
Proof. done. Qed.

Lemma good_panic {A} e s (Q : A -> nat -> Prop) : good (panic e) s Q.
Proof. done. Qed.

(** The end of a branch, where an arithmetic fact is left. *)
Ltac good_end := apply good_ret; cbv beta; lia.

(** A call whose specification is [H]. *)
Tactic Notation "good_call" uconstr(H) := apply good_bind; eapply good_mono; [eapply H; lia|cbv beta].

(** ** Offsets *)

Lemma skip_ws_le s : (skip_ws s <= length s)%nat.
Proof. induction s as [|c s IH]; [done|]. cbn. destruct (is_ws c); lia. Qed.

Lemma word_length_le s : (word_length s <= length s)%nat.
Proof. induction s as [|c s IH]; [done|]. cbn. destruct (_ && _); lia. Qed.

(** The byte after the white space is not white space. *)
Lemma skip_ws_stop s : match drop (skip_ws s) s with c :: _ => is_ws c = false | [] => True end.
Proof. induction s as [|c s IH]; [done|]. cbn. destruct (is_ws c) eqn:E; [done|]. done. Qed.

(** ** The strings of the tokens *)

(** Commands with their strings. *)
Inductive scmd :=
| SExec (argv : list (list Z))
| SRedir (c : scmd) (file : list Z) (mode fd : Z)
| SPipe (left right : scmd)
| SList (left right : scmd)
| SBack (c : scmd).

(** A command whose tokens are read off with [f]. *)
Fixpoint read_cmd (f : token -> list Z) (c : cmd) : scmd :=
  match c with
  | EXEC argv => SExec (map f argv)
  | REDIR c t mode fd => SRedir (read_cmd f c) (f t) mode fd
  | PIPE l r => SPipe (read_cmd f l) (read_cmd f r)
  | LIST l r => SList (read_cmd f l) (read_cmd f r)
  | BACK c => SBack (read_cmd f c)
  end.

(** The bytes of a token in the line, and the C string at its start. *)
Definition slice (buf : list Z) (t : token) : list Z := take (t.2 - t.1) (drop t.1 buf).
Definition string_at (buf : list Z) (t : token) : list Z := cstr (drop t.1 buf).

Fixpoint tokens (c : cmd) : list token :=
  match c with
  | EXEC argv => argv
  | REDIR c t _ _ => tokens c ++ [t]
  | PIPE l r | LIST l r => tokens l ++ tokens r
  | BACK c => tokens c
  end.

Definition word_char (c : Z) : Prop := c <> 0 /\ is_ws c = false /\ is_sym c = false.

(** A token of the line: characters of a word up to a character that is none. *)
Definition tok_ok (buf : list Z) (t : token) : Prop :=
  (t.1 <= t.2 <= length buf)%nat /\
  (forall i c, (t.1 <= i < t.2)%nat -> buf !! i = Some c -> word_char c) /\
  (forall c, buf !! t.2 = Some c -> ~ word_char c).

Lemma read_cmd_ext f g c : (forall t, t ∈ tokens c -> f t = g t) -> read_cmd f c = read_cmd g c.
Proof.
  induction c as [argv|c IH t mode fd|l IHl r IHr|l IHl r IHr|c IH]; cbn; intros H.
  - f_equal. apply map_ext_in. intros t Ht. apply H. by apply list_elem_of_In.
  - rewrite IH by (intros; apply H, elem_of_app; by left). rewrite (H t); [done|]. apply elem_of_app. right. by apply list_elem_of_singleton.
  - rewrite IHl, IHr by (intros; apply H, elem_of_app; auto). done.
  - rewrite IHl, IHr by (intros; apply H, elem_of_app; auto). done.
  - by rewrite IH.
Qed.

Lemma fold_terminate (l : list token) (b : list Z) (i : nat) :
  fold_left (fun (b : list Z) (t : token) => <[t.2 := 0]> b) l b !! i =
  if bool_decide (i ∈ l.*2) then (fun _ => 0) <$> b !! i else b !! i.
Proof.
  revert b. induction l as [|t l IH]; intros b; cbn [fold_left fmap list_fmap]; [done|]. rewrite IH.
  destruct (decide (t.2 = i)) as [<-|Hne].
  - rewrite (bool_decide_eq_true_2 (t.2 ∈ t.2 :: _)) by left.
    destruct (decide (t.2 < length b)%nat); [rewrite list_lookup_insert_eq by done|rewrite !lookup_ge_None_2 by (rewrite ?length_insert; lia)];
      destruct (bool_decide _); try done; destruct (lookup_lt_is_Some_2 b t.2) as [x Hx]; try done; rewrite Hx; done.
  - rewrite list_lookup_insert_ne by done. rewrite (bool_decide_ext (i ∈ t.2 :: l.*2) (i ∈ l.*2)); [done|].
    rewrite elem_of_cons. split; [intros [?|?]; [congruence|done]|by right].
Qed.

Lemma nulterminate_tokens c b : nulterminate c b = fold_left (fun (b : list Z) (t : token) => <[t.2 := 0]> b) (tokens c) b.
Proof.
  revert b. induction c as [argv|c IH t mode fd|l IHl r IHr|l IHl r IHr|c IH]; intros b; cbn; try done.
  - by rewrite fold_left_app, IH.
  - by rewrite fold_left_app, IHl, IHr.
  - by rewrite fold_left_app, IHl, IHr.
Qed.

(** The C string at [q] in a buffer with a null byte at [e] and none before. *)
Lemma cstr_until b q e l : (q <= e)%nat -> length l = (e - q)%nat ->
  (forall i c, l !! i = Some c -> c <> 0 /\ b !! (q + i)%nat = Some c) -> b !! e = Some 0 -> cstr (drop q b) = l.
Proof.
  revert q. induction l as [|c l IH]; intros q Hq Hl Hb He; cbn in Hl.
  - assert (q = e) as -> by lia. by rewrite (drop_S _ _ _ He).
  - destruct (Hb 0%nat c eq_refl) as [Hc Hqc]. rewrite Nat.add_0_r in Hqc. rewrite (drop_S _ _ _ Hqc). cbn [cstr].
    rewrite (proj2 (Z.eqb_neq c 0)) by done. f_equal. apply (IH (S q)); [lia|lia| |done].
    intros i d Hd. destruct (Hb (S i) d Hd). split; [done|]. by replace (S q + i)%nat with (q + S i)%nat by lia.
Qed.

(** Every token keeps its string: the null bytes are written behind tokens, and
    no token contains the end of another one. *)
Lemma strings_intact buf c : Forall (tok_ok buf) (tokens c) ->
  read_cmd (string_at (nulterminate c (buf ++ [0]))) c = read_cmd (slice buf) c.
Proof.
  intros Hall. apply read_cmd_ext. intros [q e] Ht. rewrite Forall_forall in Hall.
  destruct (Hall _ Ht) as ([Hq He] & Hw & _). cbn [fst snd] in *.
  unfold string_at, slice. cbn [fst snd]. rewrite nulterminate_tokens. apply (cstr_until _ q e); [done| | |].
  - rewrite length_take, length_drop. lia.
  - intros i d Hd. apply lookup_take_Some in Hd as [Hd Hi]. rewrite lookup_drop in Hd.
    pose proof (Hw (q + i)%nat d ltac:(lia) Hd) as Hwd. split; [apply Hwd|]. rewrite fold_terminate, bool_decide_eq_false_2.
    + apply lookup_app_l_Some. done.
    + intros (t' & Et & Ht')%list_elem_of_fmap. destruct (Hall _ Ht') as (_ & _ & Hend).
      apply (Hend d); [by rewrite <- Et|done].
  - rewrite fold_terminate, bool_decide_eq_true_2 by (apply list_elem_of_fmap; by exists (q, e)).
    destruct (lookup_lt_is_Some_2 (buf ++ [0]) e) as [x ->]; [|done]. rewrite length_app. cbn. lia.
Qed.

(** ** The functions of the parser *)

Section offsets.
Variable buf : list Z.
Hypothesis Hnul : Forall (fun c => c <> 0) buf.

Lemma past_ws_bounds s : (s <= length buf)%nat -> (s <= past_ws buf s <= length buf)%nat.
Proof. intros Hs. unfold past_ws. pose proof (skip_ws_le (drop s buf)) as H. rewrite length_drop in H. lia. Qed.

Lemma at_lt s : at_ buf s <> 0 -> (s < length buf)%nat.
Proof. intros H. destruct (decide (s < length buf)%nat); [done|]. destruct H. unfold at_. apply nth_overflow. lia. Qed.

Lemma at_drop s : (s < length buf)%nat -> drop s buf = at_ buf s :: drop (S s) buf.
Proof.
  intros Hs. destruct (lookup_lt_is_Some_2 buf s Hs) as [c Hc]. rewrite (drop_S _ _ _ Hc). f_equal.
  unfold at_. symmetry. by apply nth_lookup_Some.
Qed.

Lemma past_ws_stop s : (s <= length buf)%nat -> is_ws (at_ buf (past_ws buf s)) = false.
Proof.
  intros Hs. pose proof (skip_ws_stop (drop s buf)) as H. rewrite drop_drop in H.
  destruct (decide (past_ws buf s < length buf)%nat) as [Hlt|Hge].
  - unfold past_ws in Hlt. rewrite (at_drop _ Hlt) in H. done.
  - unfold at_. rewrite nth_overflow by lia. done.
Qed.

Lemma past_ws_idem s : (s <= length buf)%nat -> past_ws buf (past_ws buf s) = past_ws buf s.
Proof.
  intros Hs. unfold past_ws at 1. pose proof (skip_ws_stop (drop s buf)) as H. rewrite drop_drop in H. fold (past_ws buf s) in H.
  destruct (drop (past_ws buf s) buf) as [|c l]; cbn; [lia|]. rewrite H. lia.
Qed.

Lemma word_chars l : forall i c, (i < word_length l)%nat -> l !! i = Some c -> is_ws c = false /\ is_sym c = false.
Proof.
  induction l as [|d l IH]; intros i c Hi Hc; [done|]. cbn [word_length] in Hi.
  destruct (is_ws d) eqn:E1, (is_sym d) eqn:E2; cbn [negb andb] in Hi; try lia.
  destruct i as [|i]; [by injection Hc as <-|]. apply (IH i); [lia|done].
Qed.

Lemma word_stop l c : l !! word_length l = Some c -> is_ws c = true \/ is_sym c = true.
Proof.
  induction l as [|d l IH]; [done|]. cbn [word_length]. destruct (is_ws d) eqn:E1, (is_sym d) eqn:E2; cbn [negb andb];
    [intros [= <-]; auto..|]. cbn. apply IH.
Qed.

Lemma word_tok_ok s : (s <= length buf)%nat -> tok_ok buf (s, s + word_length (drop s buf))%nat.
Proof using Hnul.
  intros Hs. pose proof (word_length_le (drop s buf)) as Hl. rewrite length_drop in Hl. split; [cbn; lia|]. cbn [fst snd]. split.
  - intros i c Hi Hc. split; [by apply (Forall_lookup_1 (fun c => c <> 0) buf i)|]. apply (word_chars (drop s buf) (i - s)); [lia|].
    rewrite lookup_drop. by replace (s + (i - s))%nat with i by lia.
  - intros c Hc (_ & H1 & H2). rewrite <- lookup_drop in Hc. destruct (word_stop _ _ Hc); congruence.
Qed.

Lemma not_symbol c : (c =? chr "|") || (c =? chr "(") || (c =? chr ")") || (c =? chr ";") || (c =? chr "&") || (c =? chr "<") = false ->
  (c =? chr ">") = false -> is_sym c = false.
Proof.
  rewrite !orb_false_iff. intros [[[[[B1 B2] B3] B4] B5] B6] E. unfold is_sym, symbols. cbn [bytes strchr].
  by rewrite (Z.eqb_sym (chr "<")), B6, (Z.eqb_sym (chr "|")), B1, (Z.eqb_sym (chr ">")), E, (Z.eqb_sym (chr "&")), B5,
    (Z.eqb_sym (chr ";")), B4, (Z.eqb_sym (chr "(")), B2, (Z.eqb_sym (chr ")")), B3.
Qed.

(** A token ends behind the place where it starts, unless the line ends. *)
Lemma gettoken_good s : (s <= length buf)%nat ->
  good (gettoken buf) s (fun r s' => (s <= s' <= length buf)%nat /\ (at_ buf (past_ws buf s) <> 0 -> (s < s')%nat) /\
    (r.1 = chr "a" -> tok_ok buf r.2)).
Proof using Hnul.
  intros Hs. pose proof (past_ws_bounds s Hs) as Hp. pose proof (past_ws_stop s Hs) as Hw. unfold good, gettoken.
  set (p := past_ws buf s) in *. destruct (at_ buf p =? 0) eqn:E0.
  { pose proof (past_ws_bounds p). bool_prop. split; [lia|]. split; done. }
  bool_prop. pose proof (at_lt _ E0) as Hlt.
  assert (forall e (P : Prop), (p < e <= length buf)%nat -> P ->
    (s <= past_ws buf e <= length buf)%nat /\ (at_ buf p <> 0 -> (s < past_ws buf e)%nat) /\ P) as H.
  { intros e P He HP. pose proof (past_ws_bounds e). split; [lia|]. split; [lia|done]. }
  destruct (_ || _) eqn:E1; [apply H; [lia|]; cbn [fst snd]; intros Ea; by rewrite Ea in E1|].
  destruct (at_ buf p =? chr ">") eqn:E2.
  - destruct (at_ buf (S p) =? chr ">") eqn:E3; [|apply H; [lia|]; cbn [fst snd]; intros Ea; by rewrite Ea in E2]. bool_prop.
    assert (S p < length buf)%nat by (apply at_lt; rewrite E3; done). apply H; [lia|done].
  - apply H; [|intros _; apply word_tok_ok; lia]. pose proof (word_length_le (drop p buf)) as Hl. rewrite length_drop in Hl.
    rewrite (at_drop _ Hlt) in *. cbn [word_length] in *. rewrite Hw in *. cbn [negb andb] in *.
    rewrite (not_symbol _ E1 E2) in *. cbn [negb] in *. lia.
Qed.

Lemma peek_good toks s : (s <= length buf)%nat ->
  good (peek buf toks) s (fun p s' => (s <= s' <= length buf)%nat /\ (p = true -> at_ buf (past_ws buf s') <> 0)).
Proof.
  intros Hs. pose proof (past_ws_bounds s Hs) as Hp. unfold good, peek. split; [lia|].
  intros H. apply andb_prop in H as [H _]. rewrite past_ws_idem by done. apply negb_true_iff in H. by bool_prop.
Qed.

(** ** Termination *)

Lemma peeked s : (s <= length buf)%nat -> at_ buf (past_ws buf s) <> 0 -> (s < length buf)%nat.
Proof. intros Hs H%at_lt. pose proof (past_ws_bounds s). lia. Qed.

Definition redir_file (r : redir) : token := r.1.1.

Lemma parseredirs_good k : forall s, (s <= length buf)%nat -> (length buf - s <= k)%nat ->
  good (parseredirs buf k) s (fun rs s' => (s <= s' <= length buf)%nat /\ Forall (tok_ok buf) (map redir_file rs)).
Proof using Hnul.
  induction k as [|k IH]; intros s Hs Hk; cbn [parseredirs]; good_call peek_good; intros p s1 [H1 H1'];
    (destruct p; cbn [negb]; [|apply good_ret; split; [lia|constructor]]); specialize (H1' eq_refl).
  - pose proof (peeked s1 ltac:(lia) H1'). lia.
  - good_call gettoken_good. intros t s2 (H2 & H2' & _). specialize (H2' H1').
    good_call gettoken_good. intros f s3 (H3 & _ & H3a). destruct (f.1 =? chr "a") eqn:Ef; cbn [negb]; [|apply good_panic].
    good_call IH. intros rs s4 [H4 Hrs]. apply good_ret. split; [lia|]. cbn [map]. constructor; [|done]. bool_prop.
    destruct (t.1 =? chr "<"); by apply H3a.
Qed.

Lemma parseargs_good k : forall s, (s <= length buf)%nat ->
  good (parseargs buf k) s (fun more s' => (s <= s' <= length buf)%nat /\
    Forall (tok_ok buf) more.1 /\ Forall (tok_ok buf) (map redir_file more.2)).
Proof using Hnul.
  induction k as [|k IH]; intros s Hs; cbn [parseargs]; good_call peek_good; intros p s1 [H1 _];
    (destruct p; [apply good_ret; split; [lia|by split]|]); good_call gettoken_good; intros t s2 (H2 & _ & H2a);
    (destruct (t.1 =? 0); [apply good_ret; split; [lia|by split]|]);
    (destruct (t.1 =? chr "a") eqn:Et; cbn [negb]; [|apply good_panic]); [apply good_panic|].
  good_call parseredirs_good. intros rs s3 [H3 Hrs]. good_call IH. intros more s4 (H4 & Hm1 & Hm2).
  apply good_ret. cbn [fst snd]. split; [lia|]. split; [constructor; [bool_prop; by apply H2a|done]|].
  rewrite map_app. by apply Forall_app.
Qed.

Lemma parsebacks_good k : forall s, (s <= length buf)%nat -> (length buf - s <= k)%nat ->
  good (parsebacks buf k) s (fun _ s' => (s <= s' <= length buf)%nat).
Proof using Hnul.
  induction k as [|k IH]; intros s Hs Hk; cbn [parsebacks]; good_call peek_good; intros p s1 [H1 H1'];
    (destruct p; cbn [negb]; [|good_end]); specialize (H1' eq_refl).
  - pose proof (peeked s1 ltac:(lia) H1'). lia.
  - good_call gettoken_good. intros t s2 (H2 & H2' & _). specialize (H2' H1'). good_call IH. intros n s3 H3. good_end.
Qed.

Lemma tokens_redirs rs : forall c, tokens (redirs c rs) = tokens c ++ map redir_file rs.
Proof.
  induction rs as [|[[f mode] fd] rs IH]; intros c; [cbn; by rewrite app_nil_r|].
  change (redirs c ((f, mode, fd) :: rs)) with (redirs (REDIR c f mode fd) rs). rewrite IH. cbn. by rewrite <- app_assoc.
Qed.

Lemma tokens_backs n : forall c, tokens (backs n c) = tokens c.
Proof. induction n as [|n IH]; intros c; cbn; [done|]. by rewrite IH. Qed.

(** The parsing functions return within the line, with sound tokens. *)
Definition parsed (m : M nat cmd) (s : nat) : Prop :=
  good m s (fun c s' => (s <= s' <= length buf)%nat /\ Forall (tok_ok buf) (tokens c)).

Lemma parsed_from (m : M nat cmd) {B} (f : cmd -> M nat B) s Q : parsed m s ->
  (forall c s', (s <= s' <= length buf)%nat -> Forall (tok_ok buf) (tokens c) -> good (f c) s' Q) -> good (bind m f) s Q.
Proof. intros Hm Hf. apply good_bind. eapply good_mono; [exact Hm|]. intros c s' [H1 H2]. by apply Hf. Qed.

(** The depth is enough: a block and what follows a separator start behind the
    place where the caller started. *)
Lemma parse_good k : forall s, (s <= length buf)%nat ->
  ((4 * (length buf - s) + 4 <= k)%nat -> parsed (parseline buf k) s) /\
  ((4 * (length buf - s) + 3 <= k)%nat -> parsed (parsepipe buf k) s) /\
  ((4 * (length buf - s) + 1 <= k)%nat -> parsed (parseblock buf k) s) /\
  ((4 * (length buf - s) + 2 <= k)%nat -> parsed (parseexec buf k) s).
Proof using Hnul.
  induction k as [|k IH]; intros s Hs; [repeat split; lia|]. split; [|split; [|split]]; intros Hk.
  - cbn [parseline]. eapply parsed_from; [apply IH; lia|]. intros c s1 H1 Hc.
    good_call parsebacks_good. intros n s2 H2. good_call peek_good. intros p s3 [H3 H3'].
    rewrite <- (tokens_backs n) in Hc. destruct p; [|apply good_ret; split; [lia|done]].
    good_call gettoken_good. intros t s4 (H4 & H4' & _). specialize (H4' (H3' eq_refl)).
    eapply parsed_from; [apply IH; lia|]. intros r s5 H5 Hr. apply good_ret. split; [lia|]. by apply Forall_app.
  - cbn [parsepipe]. eapply parsed_from; [apply IH; lia|]. intros c s1 H1 Hc.
    good_call peek_good. intros p s3 [H3 H3']. destruct p; [|apply good_ret; split; [lia|done]].
    good_call gettoken_good. intros t s4 (H4 & H4' & _). specialize (H4' (H3' eq_refl)).
    eapply parsed_from; [apply IH; lia|]. intros r s5 H5 Hr. apply good_ret. split; [lia|]. by apply Forall_app.
  - cbn [parseblock]. unfold parsed. good_call peek_good. intros p s1 [H1 H1']. destruct p; cbn [negb]; [|apply good_panic].
    good_call gettoken_good. intros t s2 (H2 & H2' & _). specialize (H2' (H1' eq_refl)).
    eapply parsed_from; [apply IH; lia|]. intros c s3 H3 Hc.
    good_call peek_good. intros p s4 [H4 _]. destruct p; cbn [negb]; [|apply good_panic].
    good_call gettoken_good. intros t' s5 (H5 & _ & _). good_call parseredirs_good. intros rs s6 [H6 Hrs].
    apply good_ret. split; [lia|]. rewrite tokens_redirs. by apply Forall_app.
  - cbn [parseexec]. unfold parsed. good_call peek_good. intros p s1 [H1 H1']. destruct p.
    + eapply good_mono; [apply IH; lia|]. cbv beta. intros c s' [H2 Hc]. split; [lia|done].
    + good_call parseredirs_good. intros rs s2 [H2 Hrs]. good_call parseargs_good. intros more s3 (H3 & Hm1 & Hm2).
      apply good_ret. split; [lia|]. rewrite tokens_redirs, map_app. cbn [tokens]. rewrite !Forall_app. done.
Qed.

Lemma parsecmd_good : good (parsecmd buf) 0 (fun r _ => read_cmd (string_at r.2) r.1 = read_cmd (slice buf) r.1).
Proof using Hnul.
  unfold parsecmd. eapply parsed_from; [apply parse_good; unfold parse_fuel; lia|]. intros c s H Hc.
  good_call peek_good. intros p s1 _. unfold good. destruct (negb _); [done|]. cbn [fst snd]. by apply strings_intact.
Qed.

End offsets.

(** * Commands survive printing and parsing

    [show] writes a command as a line of the shell.  Parsing the line gives a
    command with the same structure and the same strings. *)

(** ** Printing *)

Definition paren (s : list Z) : list Z := chr "(" :: s ++ [chr ")"].

Fixpoint show (c : scmd) : list Z :=
  match c with
  | SExec argv => concat (map (fun w => w ++ [32]) argv)
  | SRedir c f _ fd => paren (show c) ++ (if fd =? 1 then chr ">" else chr "<") :: f ++ [32]
  | SPipe l r => paren (show l) ++ chr "|" :: paren (show r)
  | SList l r => paren (show l) ++ chr ";" :: paren (show r)
  | SBack c => paren (show c) ++ [chr "&"]
  end.

Definition word (w : list Z) : Prop := w <> [] /\ Forall word_char w.

(** Words of proper characters, at most nine arguments, and the two kinds of
    redirection the shell knows. *)
Fixpoint wf (c : scmd) : Prop :=
  match c with
  | SExec argv => Forall word argv /\ (length argv < MAXARGS)%nat
  | SRedir c f mode fd =>
      wf c /\ word f /\ ((mode = SH_RDONLY /\ fd = 0) \/ (mode = Z.lor SH_WRONLY SH_CREATE /\ fd = 1))
  | SPipe l r | SList l r => wf l /\ wf r
  | SBack c => wf c
  end.

(** ** The functions on a known line *)

Section round.
Variable buf : list Z.

(** The rest of the line at offset [s]. *)
Definition here (s : nat) (l : list Z) : Prop := (s <= length buf)%nat /\ drop s buf = l.

Definition no_ws (l : list Z) : Prop := match l with c :: _ => is_ws c = false /\ c <> 0 | [] => True end.

Lemma here_app s l1 l2 : here s (l1 ++ l2) -> here (s + length l1) l2.
Proof.
  intros [Hs Hd]. assert (length buf - s = length l1 + length l2)%nat as Hl by (by rewrite <- length_drop, Hd, length_app).
  split; [lia|]. rewrite <- drop_drop, Hd. apply drop_app_length.
Qed.

Lemma here_cons s c l : here s (c :: l) -> here (S s) l /\ at_ buf s = c /\ (s < length buf)%nat.
Proof.
  intros H. pose proof H as [Hs Hd]. assert (length buf - s = S (length l))%nat as Hl by (by rewrite <- length_drop, Hd).
  split; [rewrite <- Nat.add_1_r; by apply (here_app s [c])|]. rewrite at_drop in Hd by lia. injection Hd as Hc _. split; [done|lia].
Qed.

Lemma here_past s l : here s l -> no_ws l -> past_ws buf s = s.
Proof. intros [Hs Hd] Hl. unfold past_ws. rewrite Hd. destruct l as [|c l]; cbn; [lia|]. destruct Hl as [-> _]. lia. Qed.

Lemma peek_here toks s c l : here s (c :: l) -> is_ws c = false -> c <> 0 ->
  peek buf toks s = Ret (match strchr toks c with Some _ => true | None => false end) s.
Proof.
  intros H Hw H0. destruct (here_cons _ _ _ H) as (_ & Hat & _). unfold peek. rewrite (here_past _ _ H) by done.
  rewrite Hat, (proj2 (Z.eqb_neq c 0)) by done. done.
Qed.

Lemma peek_yes toks s c l r : here s (c :: l) -> is_ws c = false -> c <> 0 -> strchr toks c = Some r ->
  peek buf toks s = Ret true s.
Proof. intros H Hw H0 Hr. by rewrite (peek_here _ _ _ _ H Hw H0), Hr. Qed.

Lemma peek_end toks s : here s [] -> peek buf toks s = Ret false s.
Proof.
  intros H. unfold peek. rewrite (here_past _ _ H) by done. destruct H as [Hs Hd].
  assert (length buf - s = 0)%nat by (by rewrite <- length_drop, Hd). unfold at_. rewrite nth_overflow by lia. done.
Qed.

(** A symbol, with no white space behind it. *)
Lemma gettoken_sym s c l : here s (c :: l) -> is_ws c = false -> c <> 0 ->
  (c =? chr "|") || (c =? chr "(") || (c =? chr ")") || (c =? chr ";") || (c =? chr "&") || (c =? chr "<") = true ->
  no_ws l -> gettoken buf s = Ret (c, (s, S s)) (S s).
Proof.
  intros H Hw H0 Hc Hl. destruct (here_cons _ _ _ H) as (Hn & Hat & _). unfold gettoken. rewrite (here_past _ _ H) by done.
  rewrite Hat, (proj2 (Z.eqb_neq c 0)), Hc by done. by rewrite (here_past _ _ Hn).
Qed.

Lemma gettoken_gt s d l : here s (chr ">" :: d :: l) -> d <> chr ">" -> no_ws (d :: l) ->
  gettoken buf s = Ret (chr ">", (s, S s)) (S s).
Proof.
  intros H Hd Hl. destruct (here_cons _ _ _ H) as (Hn & Hat & _). destruct (here_cons _ _ _ Hn) as (_ & Hat2 & _).
  unfold gettoken. rewrite (here_past _ _ H) by done. rewrite Hat, Hat2.
  change (chr ">" =? 0) with false. destruct (_ || _) eqn:E; [done|]. rewrite (proj2 (Z.eqb_neq d (chr ">"))) by done.
  rewrite Z.eqb_refl. by rewrite (here_past _ _ Hn).
Qed.

Lemma word_length_word w l : Forall word_char w -> word_length (w ++ 32 :: l) = length w.
Proof. induction 1 as [|c w (_ & Hw & Hs) _ IH]; [done|]. cbn [app word_length]. rewrite Hw, Hs. cbn [negb andb]. by rewrite IH. Qed.

(** A word, with one blank behind it. *)
Lemma gettoken_word s w l : here s (w ++ 32 :: l) -> word w -> no_ws l ->
  exists t, gettoken buf s = Ret (chr "a", t) (s + length w + 1)%nat /\ slice buf t = w /\ here (s + length w + 1)%nat l.
Proof.
  intros H [Hne Hw] Hl. assert (here (s + length w + 1)%nat l) as Hn.
  { replace (s + length w + 1)%nat with (s + length (w ++ [32%Z]))%nat by (rewrite length_app; cbn; lia).
    apply here_app. by rewrite <- app_assoc. }
  exists (s, s + length w)%nat. split; [|split; [|done]].
  - destruct w as [|c w]; [done|]. apply Forall_cons in Hw as Hw'. destruct Hw' as [(H0 & Hws & Hsym) _].
    destruct (here_cons _ _ _ H) as (_ & Hat & _). unfold gettoken. rewrite (here_past _ _ H) by done.
    rewrite Hat, (proj2 (Z.eqb_neq c 0)) by done. rewrite (proj2 H), word_length_word by done.
    assert (forall d, is_sym d = true -> (c =? d) = false) as Hc by (intros d Hd; apply Z.eqb_neq; congruence).
    rewrite !Hc by done. cbn [orb]. f_equal. unfold past_ws. pose proof (here_app _ _ _ H) as [_ Hd2]. rewrite Hd2.
    cbn [skip_ws]. change (is_ws 32) with true. cbv iota. destruct l as [|d l]; cbn [skip_ws]; [lia|]. destruct Hl as [-> _]. lia.
  - unfold slice. cbn [fst snd]. replace (s + length w - s)%nat with (length w) by lia. rewrite (proj2 H). apply take_app_length.
Qed.

(** The next byte is none of [toks]. *)
Definition quiet (toks l : list Z) : Prop :=
  match l with c :: _ => is_ws c = false /\ c <> 0 /\ strchr toks c = None | [] => True end.

Lemma quiet_no_ws toks l : quiet toks l -> no_ws l.
Proof. destruct l; [done|]. by intros (H1 & H2 & _). Qed.

Lemma peek_quiet toks s l : here s l -> quiet toks l -> peek buf toks s = Ret false s.
Proof.
  destruct l as [|c l]; [intros H _; by apply peek_end|]. intros H (Hw & H0 & Hs). by rewrite (peek_here _ _ _ _ H Hw H0), Hs.
Qed.

Lemma parseredirs_quiet k s l : here s l -> quiet (bytes "<>") l -> parseredirs buf k s = Ret [] s.
Proof. intros H Hq. destruct k; cbn [parseredirs]; by rewrite (bind_ret_l _ _ _ _ _ (peek_quiet _ _ _ H Hq)). Qed.

Lemma parsebacks_quiet k s l : here s l -> quiet (bytes "&") l -> parsebacks buf k s = Ret 0%nat s.
Proof. intros H Hq. destruct k; cbn [parsebacks]; by rewrite (bind_ret_l _ _ _ _ _ (peek_quiet _ _ _ H Hq)). Qed.

(** What may follow a line: its end, or the end of a block. *)
Definition stop (tl : list Z) : Prop := tl = [] \/ exists l, tl = chr ")" :: l.

Lemma stop_quiet toks tl : stop tl -> strchr toks (chr ")") = None -> quiet toks tl.
Proof. by intros [->|(l & ->)] H. Qed.

Lemma strchr_none toks c : Forall (fun d => is_sym d = true) toks -> is_sym c = false -> strchr toks c = None.
Proof.
  induction 1 as [|d toks Hd _ IH]; intros Hc; [done|]. cbn [strchr]. rewrite (proj2 (Z.eqb_neq d c)) by congruence. by apply IH.
Qed.

(** The arguments of a command, or what follows them. *)
Lemma args_quiet toks argv tl : Forall word argv -> stop tl -> Forall (fun d => is_sym d = true) toks ->
  strchr toks (chr ")") = None -> quiet toks (concat (map (fun w => w ++ [32]) argv) ++ tl).
Proof.
  intros Ha Ht Hs Hp. destruct Ha as [|w argv [Hne Hw] _]; [by apply stop_quiet|].
  destruct Hw as [|c w (H0 & Hws & Hsym) _]; [done|]. split; [done|]. split; [done|]. by apply strchr_none.
Qed.

Lemma parseargs_show argv : forall k s tl, Forall word argv -> (length argv <= k)%nat -> stop tl ->
  let l := concat (map (fun w => w ++ [32]) argv) in here s (l ++ tl) ->
  exists ts, parseargs buf k s = Ret (ts, []) (s + length l)%nat /\ map (slice buf) ts = argv.
Proof.
  induction argv as [|w argv IH]; intros k s tl Ha Hk Ht l H.
  - exists []. split; [|done]. unfold l in *. cbn [map concat app length] in *. rewrite Nat.add_0_r. destruct Ht as [->|(tl' & ->)].
    + assert (gettoken buf s = Ret (0, (s, s)) s) as Hg.
      { unfold gettoken. rewrite (here_past _ _ H) by done. destruct H as [Hs Hd]. assert (length buf - s = 0)%nat by (by rewrite <- length_drop, Hd).
        unfold at_. rewrite nth_overflow by lia. change (0 =? 0) with true. cbv beta iota zeta. rewrite (here_past s []); [done|by split|done]. }
      destruct k; cbn [parseargs]; by rewrite (bind_ret_l _ _ _ _ _ (peek_end _ _ H)), (bind_ret_l _ _ _ _ _ Hg).
    + destruct k; cbn [parseargs]; by rewrite (bind_ret_l _ _ _ _ _ (peek_here _ _ _ _ H eq_refl ltac:(done))).
  - apply Forall_cons in Ha as [Hw Ha]. destruct k as [|k]; [cbn in Hk; lia|]. cbn [length] in Hk.
    set (l' := concat (map (fun w => w ++ [32]) argv)).
    assert (l = w ++ 32 :: l') as El by (unfold l; cbn [map concat]; by rewrite <- app_assoc). rewrite El in *.
    pose proof (args_quiet (bytes "<>") argv tl Ha Ht ltac:(repeat constructor) eq_refl) as Hq.
    assert (quiet (bytes "|)&;") ((w ++ 32 :: l') ++ tl)) as Hq1.
    { destruct Hw as [Hne Hw]. destruct Hw as [|c w (H0 & Hws & Hsym) _]; [done|]. split; [done|]. split; [done|].
      apply strchr_none; [repeat constructor|done]. }
    cbn [parseargs]. rewrite (bind_ret_l _ _ _ _ _ (peek_quiet _ _ _ H Hq1)). rewrite <- app_assoc in H. cbn [app] in H.
    destruct (gettoken_word s w (l' ++ tl) H Hw (quiet_no_ws _ _ Hq)) as (t & Hg & Hsl & Hn).
    rewrite (bind_ret_l _ _ _ _ _ Hg). cbn [fst snd]. change (chr "a" =? 0) with false. rewrite Z.eqb_refl. cbn [negb].
    rewrite (bind_ret_l _ _ _ _ _ (parseredirs_quiet (length buf) _ _ Hn Hq)).
    destruct (IH k (s + length w + 1)%nat tl Ha ltac:(lia) Ht Hn) as (ts & Hp & Hm).
    rewrite (bind_ret_l _ _ _ _ _ Hp). exists (t :: ts). cbn [fst snd map]. rewrite Hsl, Hm. split; [|done].
    rewrite length_app. cbn [length]. unfold ret. cbn [app]. f_equal. fold l'. lia.
Qed.

(** ** Lines *)

(** The line of a command is parsed back, whatever may follow it. *)
Definition parses (c : scmd) : Prop := forall s k tl, stop tl -> here s (show c ++ tl) ->
  (4 * (length buf - s) + 4 <= k)%nat ->
  exists c', parseline buf k s = Ret c' (s + length (show c))%nat /\ read_cmd (slice buf) c' = c.

Lemma here_paren s l tl : here s (paren l ++ tl) -> here (S s) (l ++ chr ")" :: tl) /\ here (S s + length l)%nat (chr ")" :: tl) /\
  here (s + length (paren l))%nat tl /\ (s < length buf)%nat.
Proof.
  intros H. pose proof H as H'. unfold paren in H. cbn [app] in H. rewrite <- app_assoc in H. cbn [app] in H.
  destruct (here_cons _ _ _ H) as (H1 & _ & Hlt). split; [done|]. split; [by apply here_app|]. split; [by apply here_app|done].
Qed.

Lemma length_paren l : length (paren l) = (length l + 2)%nat.
Proof. unfold paren. cbn [length]. rewrite length_app. cbn. lia. Qed.

(** A command in parentheses, and the redirections behind it. *)
Lemma parseblock_show c s k tl rs e : parses c -> here s (paren (show c) ++ tl) -> no_ws tl -> no_ws (show c ++ [chr ")"]) ->
  (4 * (length buf - s) + 1 <= k)%nat -> parseredirs buf (length buf) (s + length (paren (show c)))%nat = Ret rs e ->
  exists c', parseblock buf k s = Ret (redirs c' rs) e /\ read_cmd (slice buf) c' = c.
Proof.
  intros Hc H Htl Hsh Hk Hr. destruct (here_paren _ _ _ H) as (H1 & H2 & H3 & Hlt). destruct k as [|k]; [lia|].
  destruct (Hc (S s) k (chr ")" :: tl)) as (c' & Hp & Hm); [right; by eexists|done|lia|].
  exists c'. split; [|done]. cbn [parseblock].
  assert (here s (chr "(" :: show c ++ chr ")" :: tl)) as H0 by (unfold paren in H; cbn [app] in H; by rewrite <- app_assoc in H).
  rewrite (bind_ret_l _ _ _ _ _ (peek_yes (bytes "(") _ _ _ _ H0 eq_refl ltac:(done) eq_refl)). cbn [negb].
  assert (no_ws (show c ++ chr ")" :: tl)) as Hnw by (destruct (show c); done).
  rewrite (bind_ret_l _ _ _ _ _ (gettoken_sym _ _ _ H0 eq_refl ltac:(done) eq_refl Hnw)).
  rewrite (bind_ret_l _ _ _ _ _ Hp). rewrite (bind_ret_l _ _ _ _ _ (peek_yes (bytes ")") _ _ _ _ H2 eq_refl ltac:(done) eq_refl)). cbn [negb].
  rewrite (bind_ret_l _ _ _ _ _ (gettoken_sym _ _ _ H2 eq_refl ltac:(done) eq_refl Htl)).
  rewrite length_paren in Hr. replace (S (S s + length (show c)))%nat with (s + (length (show c) + 2))%nat by lia.
  by rewrite (bind_ret_l _ _ _ _ _ Hr).
Qed.

Lemma show_no_ws c tl : wf c -> no_ws tl -> no_ws (show c ++ tl).
Proof.
  destruct c as [argv| | | |]; cbn [show]; intros Hwf Ht; try done. destruct Hwf as [Ha _].
  destruct Ha as [|w argv [Hne Hw] _]; [done|]. destruct Hw as [|c w (H0 & Hws & _) _]; done.
Qed.

Lemma parseexec_block c s k tl rs e : parses c -> wf c -> here s (paren (show c) ++ tl) -> no_ws tl ->
  (4 * (length buf - s) + 2 <= k)%nat -> parseredirs buf (length buf) (s + length (paren (show c)))%nat = Ret rs e ->
  exists c', parseexec buf k s = Ret (redirs c' rs) e /\ read_cmd (slice buf) c' = c.
Proof.
  intros Hc Hwf H Htl Hk Hr. destruct k as [|k]; [lia|].
  destruct (parseblock_show c s k tl rs e Hc H Htl (show_no_ws c [chr ")"] Hwf ltac:(done)) ltac:(lia) Hr) as (c' & Hp & Hm).
  exists c'. split; [|done]. cbn [parseexec].
  assert (here s (chr "(" :: show c ++ chr ")" :: tl)) as H0 by (unfold paren in H; cbn [app] in H; by rewrite <- app_assoc in H).
  by rewrite (bind_ret_l _ _ _ _ _ (peek_yes (bytes "(") _ _ _ _ H0 eq_refl ltac:(done) eq_refl)).
Qed.

(** A command in parentheses that nothing is redirected of. *)
Lemma parseexec_paren c s k tl : parses c -> wf c -> here s (paren (show c) ++ tl) -> quiet (bytes "<>") tl ->
  (4 * (length buf - s) + 2 <= k)%nat ->
  exists c', parseexec buf k s = Ret c' (s + length (paren (show c)))%nat /\ read_cmd (slice buf) c' = c.
Proof.
  intros Hc Hwf H Hq Hk. destruct (here_paren _ _ _ H) as (_ & _ & H3 & _).
  apply (parseexec_block c s k tl [] _ Hc Hwf H (quiet_no_ws _ _ Hq) Hk). by apply (parseredirs_quiet _ _ tl).
Qed.

(** After a command, a line that ends. *)
Lemma parseline_end k s e c tl : parsepipe buf k s = Ret c e -> here e tl -> stop tl -> parseline buf (S k) s = Ret c e.
Proof.
  intros Hp He Ht. cbn [parseline]. rewrite (bind_ret_l _ _ _ _ _ Hp).
  rewrite (bind_ret_l _ _ _ _ _ (parsebacks_quiet (length buf) _ _ He (stop_quiet (bytes "&") _ Ht eq_refl))).
  by rewrite (bind_ret_l _ _ _ _ _ (peek_quiet _ _ _ He (stop_quiet (bytes ";") _ Ht eq_refl))).
Qed.

Lemma parsepipe_end k s e c tl : parseexec buf k s = Ret c e -> here e tl -> quiet (bytes "|") tl -> parsepipe buf (S k) s = Ret c e.
Proof.
  intros Hp He Hq. cbn [parsepipe]. rewrite (bind_ret_l _ _ _ _ _ Hp). by rewrite (bind_ret_l _ _ _ _ _ (peek_quiet _ _ _ He Hq)).
Qed.

(** ** Every kind of command *)

Lemma parses_exec argv : wf (SExec argv) -> parses (SExec argv).
Proof.
  intros [Ha Hn] s k tl Ht H Hk. destruct k as [|[|[|k]]]; try lia. unfold MAXARGS in Hn.
  destruct (parseargs_show argv (MAXARGS - 1) s tl Ha ltac:(unfold MAXARGS; lia) Ht H) as (ts & Hp & Hm).
  exists (EXEC ts). split; [|cbn; by rewrite Hm]. cbn [show] in *. pose proof (here_app _ _ _ H) as He.
  eapply parseline_end; [|exact He|done]. eapply parsepipe_end; [|exact He|by apply stop_quiet].
  cbn [parseexec]. rewrite (bind_ret_l _ _ _ _ _ (peek_quiet _ _ _ H (args_quiet (bytes "(") argv tl Ha Ht ltac:(repeat constructor) eq_refl))).
  rewrite (bind_ret_l _ _ _ _ _ (parseredirs_quiet (length buf) _ _ H (args_quiet (bytes "<>") argv tl Ha Ht ltac:(repeat constructor) eq_refl))).
  by rewrite (bind_ret_l _ _ _ _ _ Hp).
Qed.

Lemma parses_pipe l r : parses l -> parses r -> wf l -> wf r -> parses (SPipe l r).
Proof.
  intros Hl Hr Wl Wr s k tl Ht H Hk. destruct k as [|[|[|k]]]; try lia. cbn [show] in *. rewrite <- app_assoc in H. cbn [app] in H.
  destruct (parseexec_paren l s (S k) _ Hl Wl H ltac:(done) ltac:(lia)) as (l' & Pl & Ml).
  destruct (here_paren _ _ _ H) as (_ & _ & H1 & Hlt). destruct (here_cons _ _ _ H1) as (H2 & _ & _).
  destruct (parseexec_paren r (S (s + length (paren (show l)))) k tl Hr Wr H2 (stop_quiet (bytes "<>") _ Ht eq_refl)) as (r' & Pr & Mr);
    [rewrite length_paren; lia|]. destruct (here_paren _ _ _ H2) as (_ & _ & H3 & _).
  exists (PIPE l' r'). split; [|cbn; by rewrite Ml, Mr]. rewrite length_app. cbn [length].
  replace (s + (length (paren (show l)) + S (length (paren (show r)))))%nat
    with (S (s + length (paren (show l))) + length (paren (show r)))%nat by lia.
  eapply parseline_end; [|exact H3|done]. cbn [parsepipe]. rewrite (bind_ret_l _ _ _ _ _ Pl).
  rewrite (bind_ret_l _ _ _ _ _ (peek_yes (bytes "|") _ _ _ _ H1 eq_refl ltac:(done) eq_refl)).
  rewrite (bind_ret_l _ _ _ _ _ (gettoken_sym _ _ _ H1 eq_refl ltac:(done) eq_refl ltac:(done))).
  by rewrite (bind_ret_l _ _ _ _ _ (parsepipe_end _ _ _ _ _ Pr H3 (stop_quiet (bytes "|") _ Ht eq_refl))).
Qed.

Lemma parses_list l r : parses l -> parses r -> wf l -> wf r -> parses (SList l r).
Proof.
  intros Hl Hr Wl Wr s k tl Ht H Hk. destruct k as [|[|[|[|k]]]]; try lia. cbn [show] in *. rewrite <- app_assoc in H. cbn [app] in H.
  destruct (parseexec_paren l s (S (S k)) _ Hl Wl H ltac:(done) ltac:(lia)) as (l' & Pl & Ml).
  destruct (here_paren _ _ _ H) as (_ & _ & H1 & Hlt). destruct (here_cons _ _ _ H1) as (H2 & _ & Hlt1). rewrite length_paren in Hlt1.
  set (s2 := S (s + length (paren (show l)))) in *.
  assert (4 * (length buf - s2) + 8 <= S (S (S (S k))))%nat as Hk2 by (unfold s2; rewrite length_paren; lia).
  destruct (parseexec_paren r s2 (S k) tl Hr Wr H2 (stop_quiet (bytes "<>") _ Ht eq_refl) ltac:(lia)) as (r' & Pr & Mr).
  destruct (here_paren _ _ _ H2) as (_ & _ & H3 & _).
  exists (LIST l' r'). split; [|cbn; by rewrite Ml, Mr]. rewrite length_app. cbn [length].
  replace (s + (length (paren (show l)) + S (length (paren (show r)))))%nat with (s2 + length (paren (show r)))%nat by (unfold s2; lia).
  cbn [parseline]. rewrite (bind_ret_l _ _ _ _ _ (parsepipe_end _ _ _ _ _ Pl H1 ltac:(done))).
  rewrite (bind_ret_l _ _ _ _ _ (parsebacks_quiet (length buf) _ _ H1 ltac:(done))).
  rewrite (bind_ret_l _ _ _ _ _ (peek_yes (bytes ";") _ _ _ _ H1 eq_refl ltac:(done) eq_refl)).
  rewrite (bind_ret_l _ _ _ _ _ (gettoken_sym _ _ _ H1 eq_refl ltac:(done) eq_refl ltac:(done))). fold s2.
  pose proof (parsepipe_end _ _ _ _ _ Pr H3 (stop_quiet (bytes "|") _ Ht eq_refl)) as Pp.
  by rewrite (bind_ret_l _ _ _ _ _ (parseline_end _ _ _ _ _ Pp H3 Ht)).
Qed.

Lemma parses_back c : parses c -> wf c -> parses (SBack c).
Proof.
  intros Hc Wc s k tl Ht H Hk. destruct k as [|[|[|k]]]; try lia. cbn [show] in *. rewrite <- app_assoc in H. cbn [app] in H.
  destruct (parseexec_paren c s (S k) _ Hc Wc H ltac:(done) ltac:(lia)) as (c' & Pc & Mc).
  destruct (here_paren _ _ _ H) as (_ & _ & H1 & Hlt). destruct (here_cons _ _ _ H1) as (H2 & _ & Hlt1).
  exists (BACK c'). split; [|cbn; by rewrite Mc]. rewrite length_app. cbn [length].
  assert (parsebacks buf (length buf) (s + length (paren (show c)))%nat = Ret 1%nat (S (s + length (paren (show c))))) as Hb.
  { destruct (length buf) as [|n]; [lia|]. cbn [parsebacks].
    rewrite (bind_ret_l _ _ _ _ _ (peek_yes (bytes "&") _ _ _ _ H1 eq_refl ltac:(done) eq_refl)). cbn [negb].
    rewrite (bind_ret_l _ _ _ _ _ (gettoken_sym _ _ _ H1 eq_refl ltac:(done) eq_refl (quiet_no_ws _ _ (stop_quiet [] _ Ht eq_refl)))).
    by rewrite (bind_ret_l _ _ _ _ _ (parsebacks_quiet n _ _ H2 (stop_quiet (bytes "&") _ Ht eq_refl))). }
  cbn [parseline]. rewrite (bind_ret_l _ _ _ _ _ (parsepipe_end _ _ _ _ _ Pc H1 ltac:(done))).
  rewrite (bind_ret_l _ _ _ _ _ Hb). cbn [backs].
  rewrite (bind_ret_l _ _ _ _ _ (peek_quiet _ _ _ H2 (stop_quiet (bytes ";") _ Ht eq_refl))). unfold ret. f_equal. lia.
Qed.

(** One redirection at the end of the line. *)
Lemma parseredirs_one s f tl (out : bool) : (0 < length buf)%nat -> word f -> stop tl ->
  here s ((if out then chr ">" else chr "<") :: f ++ 32 :: tl) ->
  exists t, slice buf t = f /\ parseredirs buf (length buf) s =
    Ret [(if out then (t, Z.lor SH_WRONLY SH_CREATE, 1) else (t, SH_RDONLY, 0))] (S s + length f + 1)%nat.
Proof.
  intros Hb Hf Ht H. destruct (here_cons _ _ _ H) as (H1 & _ & _).
  pose proof (quiet_no_ws _ _ (stop_quiet [] _ Ht eq_refl)) as Hnt.
  destruct (gettoken_word (S s) f tl H1 Hf Hnt) as (t & Hg & Hsl & Hn). exists t. split; [done|].
  destruct (length buf) as [|n]; [lia|]. cbn [parseredirs].
  assert (peek buf (bytes "<>") s = Ret true s) as Hp by (destruct out; by eapply (peek_yes _ _ _ _ _ H)).
  rewrite (bind_ret_l _ _ _ _ _ Hp). cbn [negb].
  assert (gettoken buf s = Ret (if out then chr ">" else chr "<", (s, S s)) (S s)) as Ho.
  { destruct Hf as [Hne Hw]. destruct Hw as [|c f (H0 & Hws & Hsym) _]; [done|]. destruct out.
    - eapply (gettoken_gt s c); [exact H| |done]. intros ->. done.
    - eapply (gettoken_sym s _ _ H); done. }
  rewrite (bind_ret_l _ _ _ _ _ Ho), (bind_ret_l _ _ _ _ _ Hg). cbn [fst snd]. rewrite Z.eqb_refl. cbn [negb].
  rewrite (bind_ret_l _ _ _ _ _ (parseredirs_quiet n _ _ Hn (stop_quiet (bytes "<>") _ Ht eq_refl))). by destruct out.
Qed.

Lemma parses_redir c f mode fd : parses c -> wf (SRedir c f mode fd) -> parses (SRedir c f mode fd).
Proof.
  intros Hc (Wc & Wf & Hm) s k tl Ht H Hk. destruct k as [|[|[|k]]]; try lia. cbn [show] in *. rewrite <- app_assoc in H. cbn [app] in H.
  rewrite <- app_assoc in H. cbn [app] in H. destruct (here_paren _ _ _ H) as (_ & _ & H1 & Hlt).
  destruct (parseredirs_one _ f tl (fd =? 1) ltac:(lia) Wf Ht H1) as (t & Hsl & Hr).
  assert (no_ws ((if fd =? 1 then chr ">" else chr "<") :: f ++ 32 :: tl)) as Hnw by (by destruct (fd =? 1)).
  destruct (parseexec_block c s (S k) _ _ _ Hc Wc H Hnw ltac:(lia) Hr) as (c' & Pc & Mc).
  assert (here (S (s + length (paren (show c))) + length f + 1)%nat tl) as H2.
  { destruct (here_cons _ _ _ H1) as (H2 & _ & _). apply here_app in H2. apply here_cons in H2 as (H2 & _ & _).
    by rewrite Nat.add_1_r. }
  eexists. split.
  - rewrite length_app. cbn [length]. rewrite length_app. cbn [length].
    replace (s + (length (paren (show c)) + S (length f + 1)))%nat with (S (s + length (paren (show c))) + length f + 1)%nat by lia.
    eapply parseline_end; [|exact H2|done]. eapply parsepipe_end; [exact Pc|exact H2|by apply stop_quiet].
  - destruct Hm as [[-> ->]|[-> ->]]; cbn; by rewrite Mc, Hsl.
Qed.

Lemma parses_all c : wf c -> parses c.
Proof.
  induction c as [argv|c IH f mode fd|l IHl r IHr|l IHl r IHr|c IH]; intros Hwf.
  - by apply parses_exec.
  - apply parses_redir; [|done]. apply IH. by destruct Hwf.
  - destruct Hwf. apply parses_pipe; auto.
  - destruct Hwf. apply parses_list; auto.
  - apply parses_back; auto.
Qed.

End round.

Lemma show_nul c : wf c -> Forall (fun x => x <> 0) (show c).
Proof.
  assert (forall w, word w -> Forall (fun x => x <> 0) w) as Hw.
  { intros w [_ H]. eapply Forall_impl; [exact H|]. by intros x (? & _ & _). }
  assert (forall l, Forall (fun x => x <> 0) l -> Forall (fun x => x <> 0) (paren l)) as Hp.
  { intros l Hl. unfold paren. constructor; [done|]. apply Forall_app. split; [done|]. by repeat constructor. }
  induction c as [argv|c IH f mode fd|l IHl r IHr|l IHl r IHr|c IH]; cbn [show wf].
  - intros [Ha _]. induction Ha as [|w argv Hww _ IHa]; [constructor|]. cbn [map concat]. rewrite !Forall_app. split; [|done].
    split; [by apply Hw|by repeat constructor].
  - intros (Wc & Wf & _). apply Forall_app. split; [auto|]. constructor; [by destruct (fd =? 1)|]. apply Forall_app.
    split; [by apply Hw|by repeat constructor].
  - intros [? ?]. apply Forall_app. split; [auto|]. constructor; [done|auto].
  - intros [? ?]. apply Forall_app. split; [auto|]. constructor; [done|auto].
  - intros ?. apply Forall_app. split; [auto|]. by repeat constructor.
Qed.

Lemma parsecmd_show c : wf c ->
  exists c' buf', parsecmd (show c) 0%nat = Ret (c', buf') (length (show c)) /\ read_cmd (string_at buf') c' = c.
Proof.
  intros Hwf. assert (here (show c) 0%nat (show c ++ [])) as H by (split; [lia|by rewrite app_nil_r]).
  destruct (parses_all (show c) c Hwf 0%nat (parse_fuel (show c)) [] ltac:(by left) H) as (c' & Hp & Hm); [unfold parse_fuel; lia|].
  exists c', (nulterminate c' (show c ++ [0])). pose proof (parsecmd_good (show c) (show_nul c Hwf)) as Hg. unfold good in Hg.
  assert (parsecmd (show c) 0%nat = Ret (c', nulterminate c' (show c ++ [0])) (length (show c))) as E.
  { unfold parsecmd. rewrite (bind_ret_l _ _ _ _ _ Hp). cbn [Nat.add].
    rewrite (bind_ret_l _ _ _ _ _ (peek_end (show c) [] (length (show c)) ltac:(split; [done|by rewrite drop_all]))).
    by rewrite Nat.eqb_refl. }
  split; [done|]. rewrite E in Hg. cbn [fst snd] in Hg. by rewrite Hg.
Qed.
