(* ===== verification/BioSpec.v ===== *)
(** * The buffer cache is transparent

    Equations of the sleep locks of buffers and of the operations of bio.c
    for a process that works on the cache alone.  [binv] is the invariant of
    the cache: one buffer per block, the buffers of [H] locked by the caller
    and the others free, clean buffers equal to the disk.  [content] is the
    block as the readers of the cache see it: what [bread] returns, what
    [bwrite] sends to the disk, and what eviction preserves. *)

From S2P Require Import Prelude Mem KState Mmu Kalloc Vm File Proc ProcMem WaitSpec Bio.

Section biospec.
Context {LK : Linker} {FS : FsOps} {DK : Disk}.

(** A running process that holds no spinlock. *)
Record fscaller (s : kstate) (me : nat) (p : proc) : Prop := {
  fc_cur : cur s = Some me;
  fc_slot : ptable s !! me = Some p;
  fc_state : p_state p = RUNNING;
  fc_held : held s = [];
}.

(** ** Equations *)

Lemma run_buf_at {B} b x (f : buf -> K B) s : bufs s !! b = Some x -> bind (buf_at b) f s = f x s.
Proof. intros H. unfold bind, buf_at. by rewrite H. Qed.

Lemma run_upd_buf {B} b g x (f : unit -> K B) s : bufs s !! b = Some x ->
  bind (upd_buf b g) f s = f tt (set_bufs (<[b := g x]> (bufs s)) s).
Proof. intros H. unfold bind, upd_buf, modify. by rewrite (alter_eq_insert _ b x). Qed.

Lemma run_upd_buf_set {B} b g x bs (f : unit -> K B) s : (b < length bs)%nat ->
  bind (upd_buf b g) f (set_bufs (<[b := x]> bs) s) = f tt (set_bufs (<[b := g x]> bs) s).
Proof.
  intros H. unfold bind, upd_buf, modify. ksimpl. rewrite (alter_eq_insert _ b x).
  - rewrite list_insert_insert_eq. by knorm.
  - by apply list_lookup_insert_eq.
Qed.

Lemma upd_buf_eq b g x s : bufs s !! b = Some x ->
  upd_buf b g s = Ret tt (set_bufs (<[b := g x]> (bufs s)) s).
Proof. intros H. unfold upd_buf, modify. by rewrite (alter_eq_insert _ b x). Qed.

Lemma holdingsleep_run b x me p s : fscaller s me p -> bufs s !! b = Some x ->
  b_locked x = true -> b_lkpid x = p_pid p -> holdingsleep (buf_lock b) s = Ret true s.
Proof.
  intros [Hc Hp Hr Hh] Hb Hl Hk. unfold holdingsleep, buf_lock, sl_lk, sl_get.
  rewrite run_acquire by (rewrite Hh; apply not_elem_of_nil). krun.
  erewrite run_buf_at by (by ksimpl). krun. rewrite Hl. cbn [fst snd]. krun.
  rewrite (run_curproc me) by (by ksimpl). krun. erewrite run_proc_at by (ksimpl; exact Hp). krun.
  erewrite run_release; [|ksimpl; by rewrite Hh|apply not_elem_of_nil].
  unfold ret. rewrite Hk, Z.eqb_refl. knorm. by rewrite set_held_id.
Qed.

Lemma acquiresleep_run b x me p s : fscaller s me p -> bufs s !! b = Some x -> b_locked x = false ->
  acquiresleep (buf_lock b) s =
  Ret tt (set_bufs (<[b := set_b_lkpid (p_pid p) (set_b_locked true x)]> (bufs s)) s).
Proof.
  intros [Hc Hp Hr Hh] Hb Hl. pose proof (lookup_lt_Some _ _ _ Hb) as Hlt.
  unfold acquiresleep, acquiresleep_round, buf_lock, sl_lk, sl_get, sl_set, sl_chan.
  rewrite run_acquire by (rewrite Hh; apply not_elem_of_nil). krun.
  erewrite run_buf_at by (by ksimpl). krun. rewrite Hl. cbn [fst]. krun.
  rewrite (run_curproc me) by (by ksimpl). krun. erewrite run_proc_at by (ksimpl; exact Hp). krun.
  erewrite run_upd_buf by (by ksimpl). ksimpl.
  rewrite run_upd_buf_set by done. erewrite release_run; [|ksimpl; by rewrite Hh|apply not_elem_of_nil].
  knorm. by rewrite set_held_id.
Qed.

Lemma releasesleep_run b x me p s : fscaller s me p -> bufs s !! b = Some x ->
  releasesleep (buf_lock b) s =
  Ret tt (set_ptable (wake (Some (ChBufLock b)) <$> ptable s)
           (set_bufs (<[b := set_b_lkpid 0 (set_b_locked false x)]> (bufs s)) s)).
Proof.
  intros [Hc Hp Hr Hh] Hb. pose proof (lookup_lt_Some _ _ _ Hb) as Hlt.
  unfold releasesleep, buf_lock, sl_lk, sl_set, sl_chan.
  rewrite run_acquire by (rewrite Hh; apply not_elem_of_nil). krun.
  erewrite run_upd_buf by (by ksimpl). ksimpl. rewrite run_upd_buf_set by done.
  erewrite bind_ret_l by (apply wakeup_run; ksimpl; rewrite Hh;
    intros [?|?%not_elem_of_nil]%elem_of_cons; done).
  erewrite release_run; [|ksimpl; by rewrite Hh|apply not_elem_of_nil].
  knorm. by rewrite set_held_id.
Qed.

(** ** The invariant *)

(** An invalid buffer, or one that holds a block of the disk. *)
Definition buf_ok (x : buf) : Prop :=
  (b_flags x = 0 /\ b_dev x <> 1) \/
  ((b_flags x = 2 \/ b_flags x = 6) /\ b_dev x = 1 /\ 0 <= b_blockno x < disksize /\
   length (b_data x) = Z.to_nat BSIZE).

Definition buf_mine (pid : Z) (x : buf) : Prop :=
  b_locked x = true /\ b_lkpid x = pid /\ b_refcnt x = 1 /\ b_dev x = 1.

Definition buf_idle (x : buf) : Prop := b_locked x = false /\ b_refcnt x = 0.

Record binv (s : kstate) (pid : Z) (H : list nat) : Prop := {
  bi_len : length (bufs s) = NBUF;
  bi_lru : lru s ≡ₚ seq 0 NBUF;
  bi_uniq : forall b c x y, bufs s !! b = Some x -> bufs s !! c = Some y ->
    b_dev x = 1 -> b_dev y = 1 -> b_blockno x = b_blockno y -> b = c;
  bi_mine : forall b x, bufs s !! b = Some x -> b ∈ H -> buf_mine pid x;
  bi_idle : forall b x, bufs s !! b = Some x -> b ∉ H -> buf_idle x;
  bi_ok : forall b x, bufs s !! b = Some x -> buf_ok x;
  bi_clean : forall b x, bufs s !! b = Some x -> b ∉ H -> b_flags x = 2 ->
    b_data x = disk s (b_blockno x);
  bi_disk : forall n, length (disk s n) = Z.to_nat BSIZE;
}.

(** The block as the cache presents it. *)
Definition holds_block (n : Z) (x : buf) : bool := (b_dev x =? 1) && (b_blockno x =? n).

Definition content (s : kstate) (n : Z) : list Z :=
  match find_index (holds_block n) (bufs s) with
  | Some b => match bufs s !! b with Some x => b_data x | None => [] end
  | None => disk s n
  end.

(** Block [n] waits in the cache to be written. *)
Definition isdirty (s : kstate) (n : Z) : Prop :=
  exists b x, bufs s !! b = Some x /\ b_flags x = 6 /\ b_blockno x = n.

(** A place for block [n]: its buffer, or one that can be recycled. *)
Definition room (s : kstate) (H : list nat) (n : Z) : Prop :=
  (exists b x, bufs s !! b = Some x /\ b_dev x = 1 /\ b_blockno x = n) \/
  (exists b x, bufs s !! b = Some x /\ (b ∉ H) /\ b_flags x <> 6).

Lemma holds_block_iff n x : holds_block n x = true <-> b_dev x = 1 /\ b_blockno x = n.
Proof. unfold holds_block. rewrite andb_true_iff, !Z.eqb_eq. done. Qed.

Lemma content_cached s pid H b x : binv s pid H -> bufs s !! b = Some x -> b_dev x = 1 ->
  content s (b_blockno x) = b_data x.
Proof.
  intros I Hb Hd. unfold content. destruct (find_index _ _) as [c|] eqn:E.
  - apply find_index_Some in E as [(y & Hy & [Hyd Hyn]%holds_block_iff) _]. rewrite Hy.
    assert (c = b) as -> by (eapply (bi_uniq _ _ _ I); eauto). by simplify_eq.
  - rewrite find_index_None in E. specialize (E _ _ Hb). by rewrite (proj2 (holds_block_iff _ _)) in E.
Qed.

Lemma content_uncached s n : (forall b x, bufs s !! b = Some x -> b_dev x = 1 -> b_blockno x <> n) ->
  content s n = disk s n.
Proof.
  intros Hn. unfold content. destruct (find_index _ _) as [c|] eqn:E; [|done].
  apply find_index_Some in E as [(y & Hy & [Hyd Hyn]%holds_block_iff) _]. by destruct (Hn _ _ Hy Hyd).
Qed.

Lemma length_content s pid H n : binv s pid H -> length (content s n) = Z.to_nat BSIZE.
Proof.
  intros I. unfold content. destruct (find_index _ _) as [c|] eqn:E; [|apply (bi_disk _ _ _ I)].
  apply find_index_Some in E as [(y & Hy & [Hyd Hyn]%holds_block_iff) _]. rewrite Hy.
  destruct (bi_ok _ _ _ I _ _ Hy) as [[_ ?]|(_ & _ & _ & ?)]; done.
Qed.

Lemma find_buf_Some test l bs b : find_buf test l bs = Some b ->
  b ∈ l /\ exists x, bs !! b = Some x /\ test x = true.
Proof.
  induction l as [|c l IH]; [done|]. cbn [find_buf]. destruct (bs !! c) as [x|] eqn:Hc; cbn.
  - destruct (test x) eqn:Ht; [|intros [? ?]%IH; split; [by right|done]].
    intros [= <-]. split; [left|eauto].
  - intros [? ?]%IH. split; [by right|done].
Qed.

Lemma find_buf_None test l bs b x : find_buf test l bs = None -> b ∈ l -> bs !! b = Some x -> test x = false.
Proof.
  induction l as [|c l IH]; [by intros _ ?%not_elem_of_nil|]. cbn [find_buf]. intros Hf Hb Hx.
  destruct (bs !! c) as [y|] eqn:Hc; cbn in Hf.
  - destruct (test y) eqn:Ht; [done|]. apply elem_of_cons in Hb as [->|Hb]; [by simplify_eq|by apply IH].
  - apply elem_of_cons in Hb as [->|Hb]; [by simplify_eq|by apply IH].
Qed.

Lemma binv_in_lru s pid H b x : binv s pid H -> bufs s !! b = Some x -> b ∈ lru s.
Proof.
  intros I Hb%lookup_lt_Some. rewrite (bi_lru _ _ _ I), elem_of_seq, <- (bi_len _ _ _ I). lia.
Qed.

(** ** One buffer changes *)

Definition with_buf (b : nat) (x : buf) (s : kstate) : kstate := set_bufs (<[b := x]> (bufs s)) s.

Lemma with_buf_lookup s b c x y : bufs (with_buf b x s) !! c = Some y ->
  (c = b /\ y = x) \/ (c <> b /\ bufs s !! c = Some y).
Proof.
  unfold with_buf. ksimpl. destruct (decide (c = b)) as [->|Hc].
  - intros Hy. left. split; [done|]. pose proof (lookup_lt_Some _ _ _ Hy) as Hlt.
    rewrite length_insert in Hlt. rewrite list_lookup_insert_eq in Hy by done. by simplify_eq.
  - rewrite list_lookup_insert_ne by done. by right.
Qed.

Lemma binv_with_buf s pid H H' b x : binv s pid H ->
  (forall c, c <> b -> c ∈ H' <-> c ∈ H) -> buf_ok x ->
  (b ∈ H' -> buf_mine pid x) -> (b ∉ H' -> buf_idle x) ->
  (b ∉ H' -> b_flags x = 2 -> b_data x = disk s (b_blockno x)) ->
  (forall c y, c <> b -> bufs s !! c = Some y -> b_dev y = 1 -> b_dev x = 1 -> b_blockno y <> b_blockno x) ->
  binv (with_buf b x s) pid H'.
Proof.
  intros I HH Hok Hm Hi Hcl Hu. constructor.
  - unfold with_buf. ksimpl. rewrite length_insert. apply (bi_len _ _ _ I).
  - unfold with_buf. ksimpl. apply (bi_lru _ _ _ I).
  - intros c d y z [[-> ->]|[Hc Hy]]%with_buf_lookup [[-> ->]|[Hd Hz]]%with_buf_lookup Dy Dz E; try done.
    + by destruct (Hu _ _ Hd Hz).
    + by destruct (Hu _ _ Hc Hy).
    + by eapply (bi_uniq _ _ _ I).
  - intros c y [[-> ->]|[Hc Hy]]%with_buf_lookup; [done|]. intros HcH.
    by eapply (bi_mine _ _ _ I); [|apply HH].
  - intros c y [[-> ->]|[Hc Hy]]%with_buf_lookup; [done|]. intros HcH.
    eapply (bi_idle _ _ _ I); [done|]. by rewrite <- HH.
  - intros c y [[-> ->]|[Hc Hy]]%with_buf_lookup; [done|]. by eapply (bi_ok _ _ _ I).
  - intros c y [[-> ->]|[Hc Hy]]%with_buf_lookup; [done|]. intros HcH.
    change (disk (with_buf b x s)) with (disk s). eapply (bi_clean _ _ _ I); [done|]. by rewrite <- HH.
  - apply (bi_disk _ _ _ I).
Qed.

(** The blocks stay the same when the buffer holds the content of its new
    block and the old block, if it is another one, is on the disk. *)
Lemma content_with_buf s pid H H' b x x' : binv s pid H -> binv (with_buf b x' s) pid H' ->
  bufs s !! b = Some x -> b_dev x' = 1 -> b_data x' = content s (b_blockno x') ->
  (b_dev x = 1 -> b_blockno x = b_blockno x' \/ b_data x = disk s (b_blockno x)) ->
  forall k, content (with_buf b x' s) k = content s k.
Proof.
  intros I I' Hb Hd' Hx' Hold k. pose proof (lookup_lt_Some _ _ _ Hb) as Hlt.
  assert (bufs (with_buf b x' s) !! b = Some x') as Hb' by (by apply list_lookup_insert_eq).
  destruct (decide (k = b_blockno x')) as [->|Hk]; [by erewrite content_cached|].
  destruct (find_index (holds_block k) (bufs s)) as [c|] eqn:E.
  - apply find_index_Some in E as [(y & Hy & [Dy En]%holds_block_iff) _]. rewrite <- En in *.
    erewrite (content_cached s) by done. destruct (decide (c = b)) as [->|Hc].
    + simplify_eq. destruct (Hold Dy) as [Hd0| ->]; [done|]. rewrite content_uncached; [done|].
      intros d z [[-> ->]|[Hdb Hz]]%with_buf_lookup Dz; [done|]. intros Ez. apply Hdb.
      by eapply (bi_uniq _ _ _ I).
    + erewrite (content_cached (with_buf b x' s)); [done|done| |done].
      unfold with_buf. ksimpl. by rewrite list_lookup_insert_ne.
  - rewrite find_index_None in E. assert (forall d z, bufs s !! d = Some z -> b_dev z = 1 -> b_blockno z <> k) as Hn.
    { intros d z Hz Dz Ez. specialize (E _ _ Hz). by rewrite (proj2 (holds_block_iff _ _)) in E. }
    rewrite !content_uncached; [done|done|].
    intros d z [[-> ->]|[Hdb Hz]]%with_buf_lookup Dz; [done|eauto].
Qed.

Lemma isdirty_with_buf s b x x' k : bufs s !! b = Some x -> b_flags x' = b_flags x ->
  b_blockno x' = b_blockno x \/ b_flags x <> 6 -> isdirty (with_buf b x' s) k <-> isdirty s k.
Proof.
  intros Hb Hf Hn. pose proof (lookup_lt_Some _ _ _ Hb) as Hlt. split.
  - intros (c & y & [[-> ->]|[Hc Hy]]%with_buf_lookup & Fy & Ny).
    + exists b, x. split; [done|]. split; [congruence|]. destruct Hn as [Hn|Hn]; congruence.
    + by exists c, y.
  - intros (c & y & Hy & Fy & Ny). destruct (decide (c = b)) as [->|Hc].
    + simplify_eq. exists b, x'. split; [by apply list_lookup_insert_eq|].
      split; [congruence|]. destruct Hn as [Hn|Hn]; congruence.
    + exists c, y. split; [|done]. unfold with_buf. ksimpl. by rewrite list_lookup_insert_ne.
Qed.

(** ** bread *)

(** A buffer that its caller has just locked. *)
Definition take_buf (pid : Z) (x : buf) : buf :=
  set_b_lkpid pid (set_b_locked true (set_b_refcnt 1 x)).

Lemma fscaller_bufs s me p bs : fscaller s me p -> fscaller (set_bufs bs s) me p.
Proof. intros []. by constructor. Qed.

Lemma bget_cached s me p H b x : fscaller s me p -> binv s (p_pid p) H -> bufs s !! b = Some x ->
  b_dev x = 1 -> b ∉ H ->
  bget 1 (b_blockno x) s = Ret b (with_buf b (take_buf (p_pid p) x) s).
Proof.
  intros C I Hb Hd HbH. pose proof (fc_held _ _ _ C) as Hh. pose proof (lookup_lt_Some _ _ _ Hb) as Hlt.
  destruct (bi_idle _ _ _ I _ _ Hb HbH) as [Hl Hr].
  unfold bget. rewrite run_acquire by (rewrite Hh; apply not_elem_of_nil). krun.
  destruct (find_buf _ (lru s) (bufs s)) as [c|] eqn:Hf.
  - apply find_buf_Some in Hf as (_ & y & Hy & [E1%Z.eqb_eq E2%Z.eqb_eq]%andb_true_iff).
    assert (c = b) as -> by (by eapply (bi_uniq _ _ _ I)). simplify_eq.
    erewrite run_upd_buf by (ksimpl; exact Hb). ksimpl. rewrite Hr.
    erewrite run_release; [|ksimpl; by rewrite Hh|apply not_elem_of_nil]. knorm.
    erewrite bind_ret_l; [reflexivity|]. rewrite (set_held_id _ []) by (by ksimpl).
    erewrite acquiresleep_run; [|by apply fscaller_bufs|ksimpl; by apply list_lookup_insert_eq|by ksimpl].
    ksimpl. rewrite list_insert_insert_eq. by knorm.
  - eapply find_buf_None in Hf; [|by eapply binv_in_lru|exact Hb]. by rewrite Hd, !Z.eqb_refl in Hf.
Qed.

Lemma bget_recycle s me p H n : fscaller s me p -> binv s (p_pid p) H ->
  (forall b x, bufs s !! b = Some x -> b_dev x = 1 -> b_blockno x <> n) ->
  (exists b x, bufs s !! b = Some x /\ (b ∉ H) /\ b_flags x <> 6) ->
  exists b x, bufs s !! b = Some x /\ (b ∉ H) /\ b_flags x <> 6 /\
    bget 1 n s = Ret b (with_buf b (take_buf (p_pid p)
                       (set_b_flags 0 (set_b_blockno n (set_b_dev 1 x)))) s).
Proof.
  intros C I Hn (b0 & x0 & Hb0 & HbH0 & Hf0). pose proof (fc_held _ _ _ C) as Hh.
  unfold bget. rewrite run_acquire by (rewrite Hh; apply not_elem_of_nil). krun.
  destruct (find_buf _ (lru s) (bufs s)) as [c|] eqn:Hf.
  { apply find_buf_Some in Hf as (_ & y & Hy & [E1%Z.eqb_eq E2%Z.eqb_eq]%andb_true_iff).
    by destruct (Hn _ _ Hy E1). }
  clear Hf. destruct (find_buf _ (rev (lru s)) (bufs s)) as [b|] eqn:Hf.
  - apply find_buf_Some in Hf as (_ & x & Hb & [E1%Z.eqb_eq E2%negb_true_iff]%andb_true_iff).
    assert (b ∉ H) as HbH. { intros HH. destruct (bi_mine _ _ _ I _ _ Hb HH) as (_ & _ & E & _). lia. }
    exists b, x. split; [done|]. split; [done|]. split; [intros E; unfold has_flag in E2; by rewrite E in E2|].
    pose proof (lookup_lt_Some _ _ _ Hb) as Hlt. destruct (bi_idle _ _ _ I _ _ Hb HbH) as [Hl Hr].
    erewrite run_upd_buf by (ksimpl; exact Hb). ksimpl. rewrite !run_upd_buf_set by done.
    erewrite run_release; [|ksimpl; by rewrite Hh|apply not_elem_of_nil]. knorm.
    erewrite bind_ret_l; [reflexivity|]. rewrite (set_held_id _ []) by (by ksimpl).
    erewrite acquiresleep_run; [|by apply fscaller_bufs|ksimpl; by apply list_lookup_insert_eq|by ksimpl].
    ksimpl. rewrite list_insert_insert_eq. by knorm.
  - exfalso. eapply find_buf_None in Hf; [|apply list_elem_of_In; rewrite <- in_rev; apply list_elem_of_In|exact Hb0].
    + destruct (bi_idle _ _ _ I _ _ Hb0 HbH0) as [Hl Hr]. rewrite Hr in Hf.
      destruct (bi_ok _ _ _ I _ _ Hb0) as [[E _]|[[E|E] _]]; unfold has_flag in Hf; rewrite E in Hf; done.
    + by eapply binv_in_lru.
Qed.

(** The block is read from the disk into the recycled buffer. *)
Lemma iderw_read s me p b x : fscaller s me p -> bufs s !! b = Some x -> b_locked x = true ->
  b_lkpid x = p_pid p -> b_flags x = 0 -> b_dev x = 1 -> b_blockno x < disksize ->
  iderw b s = Ret tt (with_buf b (set_b_flags B_VALID (set_b_data (disk s (b_blockno x)) x)) s).
Proof.
  intros C Hb Hl Hk Hf Hd Hn. pose proof (lookup_lt_Some _ _ _ Hb) as Hlt. unfold iderw.
  erewrite bind_ret_l by (by eapply holdingsleep_run). cbn [negb]. erewrite run_buf_at by done.
  unfold has_flag. rewrite Hf, Hd, (proj2 (Z.leb_gt _ _)) by lia.
  change (Z.land 0 (Z.lor B_VALID B_DIRTY) =? B_VALID) with false. change (1 =? 1) with true.
  change (Z.land 0 B_DIRTY =? 0) with true. cbn [negb]. krun.
  erewrite run_upd_buf by done. erewrite upd_buf_eq by (ksimpl; by apply list_lookup_insert_eq).
  unfold with_buf. ksimpl. rewrite Hf, list_insert_insert_eq. cbn [Z.lor]. by knorm.
Qed.

(** Buffer [b] is the caller's, with the content of block [n]; nothing else
    has changed. *)
Record bread_post (s : kstate) (pid : Z) (H : list nat) (n : Z) (b : nat) (x : buf) : Prop := {
  bp_lookup : bufs (with_buf b x s) !! b = Some x;
  bp_new : b ∉ H;
  bp_no : b_blockno x = n;
  bp_dev : b_dev x = 1;
  bp_data : b_data x = content s n;
  bp_clean : b_flags x = 2 -> b_data x = disk s n;
  bp_inv : binv (with_buf b x s) pid (b :: H);
  bp_content : forall k, content (with_buf b x s) k = content s k;
  bp_flags : b_flags x = 2 \/ b_flags x = 6;
  bp_dirty : forall k, isdirty (with_buf b x s) k <-> isdirty s k;
}.

Lemma bread_hit s me p H b x : fscaller s me p -> binv s (p_pid p) H -> bufs s !! b = Some x ->
  b_dev x = 1 -> b ∉ H ->
  bread 1 (b_blockno x) s = Ret b (with_buf b (take_buf (p_pid p) x) s) /\
  bread_post s (p_pid p) H (b_blockno x) b (take_buf (p_pid p) x).
Proof.
  intros C I Hb Hd HbH. pose proof (lookup_lt_Some _ _ _ Hb) as Hlt.
  assert (b_flags x = 2 \/ b_flags x = 6) as Hfl by (destruct (bi_ok _ _ _ I _ _ Hb) as [[_ ?]|[? _]]; done).
  assert (binv (with_buf b (take_buf (p_pid p) x) s) (p_pid p) (b :: H)) as I'.
  { eapply binv_with_buf; [exact I| | | | | |].
    - intros c Hc. rewrite elem_of_cons. split; [by intros [?|?]|by right].
    - exact (bi_ok _ _ _ I _ _ Hb).
    - done.
    - intros Hbb. destruct Hbb. left.
    - intros Hbb. destruct Hbb. left.
    - intros c y Hc Hy Dy _ En'. apply Hc. by eapply (bi_uniq _ _ _ I). }
  split; [|constructor; try done].
  - unfold bread. erewrite bind_ret_l by (by eapply bget_cached).
    erewrite run_buf_at by (unfold with_buf; ksimpl; by apply list_lookup_insert_eq).
    unfold has_flag, take_buf. ksimpl. by destruct Hfl as [-> | ->].
  - by apply list_lookup_insert_eq.
  - by erewrite content_cached.
  - by apply (bi_clean _ _ _ I b x).
  - eapply content_with_buf; [exact I|exact I'|exact Hb|done| |by left].
    symmetry. exact (content_cached _ _ _ _ _ I Hb Hd).
  - intros k. by apply (isdirty_with_buf s b x); [| |left].
Qed.

Lemma bread_miss s me p H n : fscaller s me p -> binv s (p_pid p) H -> 0 <= n < disksize ->
  (forall b x, bufs s !! b = Some x -> b_dev x = 1 -> b_blockno x <> n) ->
  (exists b x, bufs s !! b = Some x /\ (b ∉ H) /\ b_flags x <> 6) ->
  exists b x, bread 1 n s = Ret b (with_buf b x s) /\ bread_post s (p_pid p) H n b x.
Proof.
  intros C I Hn Hno Hroom.
  destruct (bget_recycle s me p H n) as (b & x & Hb & HbH & Hf & Hg); [done..|].
  pose proof (lookup_lt_Some _ _ _ Hb) as Hlt.
  set (x1 := take_buf (p_pid p) (set_b_flags 0 (set_b_blockno n (set_b_dev 1 x)))) in *.
  set (x2 := set_b_flags B_VALID (set_b_data (disk s n) x1)).
  assert (binv (with_buf b x2 s) (p_pid p) (b :: H)) as I'.
  { eapply binv_with_buf; [exact I| | | | | |].
    - intros c Hc. rewrite elem_of_cons. split; [by intros [?|?]|by right].
    - right. split; [by left|]. split; [done|]. split; [done|]. apply (bi_disk _ _ _ I).
    - done.
    - intros Hbb. destruct Hbb. left.
    - intros Hbb. destruct Hbb. left.
    - intros c y Hc Hy Dy _ En'. by destruct (Hno _ _ Hy Dy). }
  exists b, x2. split; [|constructor; try done].
  - unfold bread. rewrite (bind_ret_l _ _ _ _ _ Hg).
    erewrite run_buf_at by (unfold with_buf; ksimpl; by apply list_lookup_insert_eq).
    change (has_flag B_VALID x1) with false. cbn [negb]. unfold when.
    erewrite bind_ret_l.
    2:{ eapply (iderw_read _ me p); [by apply fscaller_bufs|unfold with_buf; ksimpl; by apply list_lookup_insert_eq|done..|].
        change (n < disksize). lia. }
    unfold with_buf. ksimpl. rewrite list_insert_insert_eq. by knorm.
  - by apply list_lookup_insert_eq.
  - by rewrite content_uncached.
  - eapply content_with_buf; [exact I|exact I'|exact Hb|done| |].
    + change (disk s n = content s n). by rewrite content_uncached.
    + intros Dx. right. eapply (bi_clean _ _ _ I); [done|done|].
      destruct (bi_ok _ _ _ I _ _ Hb) as [[_ ?]|[[?|?] _]]; done.
  - by left.
  - intros k. split.
    + intros (c & y & [[-> ->]|[Hc Hy]]%with_buf_lookup & Fy & Ny); [done|]. by exists c, y.
    + intros (c & y & Hy & Fy & Ny). exists c, y. split; [|done]. unfold with_buf. ksimpl.
      rewrite list_lookup_insert_ne; [done|]. intros ->. by simplify_eq.
Qed.

Lemma bread_run s me p H n : fscaller s me p -> binv s (p_pid p) H -> 0 <= n < disksize ->
  (forall b x, bufs s !! b = Some x -> b ∈ H -> b_blockno x <> n) -> room s H n ->
  exists b x, bread 1 n s = Ret b (with_buf b x s) /\ bread_post s (p_pid p) H n b x.
Proof.
  intros C I Hn HH Hroom.
  destruct (find_index (holds_block n) (bufs s)) as [b|] eqn:E.
  - apply find_index_Some in E as [(x & Hb & [Hd En]%holds_block_iff) _]. rewrite <- En in *.
    exists b, (take_buf (p_pid p) x). eapply bread_hit; try done. intros HbH. by destruct (HH _ _ Hb HbH).
  - rewrite find_index_None in E.
    assert (forall d z, bufs s !! d = Some z -> b_dev z = 1 -> b_blockno z <> n) as Hno.
    { intros d z Hz Dz Ez. specialize (E _ _ Hz). by rewrite (proj2 (holds_block_iff _ _)) in E. }
    destruct Hroom as [(b & x & Hb & Dx & Nx)|Hroom]; [by destruct (Hno _ _ Hb Dx)|].
    by eapply bread_miss.
Qed.

(** ** bwrite and brelse *)

(** The buffer's data has gone to the disk. *)
Definition wrote (b : nat) (x : buf) (s : kstate) : kstate :=
  set_writes (writes s ++ [(b_blockno x, b_data x)]) (with_buf b (set_b_flags 2 x) s).

Lemma disk_wrote b x s k : disk (wrote b x s) k = if k =? b_blockno x then b_data x else disk s k.
Proof. unfold disk, wrote, disk_after. ksimpl. by rewrite foldl_app. Qed.

Lemma bwrite_run s me p H b x : fscaller s me p -> binv s (p_pid p) H -> bufs s !! b = Some x -> b ∈ H ->
  bwrite b s = Ret tt (wrote b x s).
Proof.
  intros C I Hb HbH. pose proof (lookup_lt_Some _ _ _ Hb) as Hlt.
  destruct (bi_mine _ _ _ I _ _ Hb HbH) as (Hl & Hk & Hr & Hd).
  destruct (bi_ok _ _ _ I _ _ Hb) as [[_ ?]|(Hf & _ & Hn & _)]; [done|].
  assert (Z.lor (b_flags x) B_DIRTY = 6) as Hf6 by (by destruct Hf as [-> | ->]).
  unfold bwrite. erewrite bind_ret_l by (by eapply holdingsleep_run). cbn [negb].
  erewrite run_upd_buf by done. rewrite Hf6. unfold iderw.
  erewrite bind_ret_l by (eapply (holdingsleep_run b (set_b_flags 6 x));
    [by apply fscaller_bufs|ksimpl; by apply list_lookup_insert_eq|done..]).
  cbn [negb]. erewrite run_buf_at by (ksimpl; by apply list_lookup_insert_eq). unfold has_flag. ksimpl.
  rewrite Hd, (proj2 (Z.leb_gt _ _)) by lia.
  change (Z.land 6 (Z.lor B_VALID B_DIRTY) =? B_VALID) with false. change (1 =? 1) with true.
  change (Z.land 6 B_DIRTY =? 0) with false. cbn [negb]. krun. rewrite run_upd_buf_set by done. krun.
  erewrite upd_buf_eq by (ksimpl; by apply list_lookup_insert_eq).
  unfold wrote, with_buf. ksimpl. rewrite list_insert_insert_eq.
  change (Z.lor (Z.land 6 (Z.lnot B_DIRTY)) B_VALID) with 2. by knorm.
Qed.

Lemma bwrite_inv s pid H b x : binv s pid H -> bufs s !! b = Some x -> b ∈ H -> binv (wrote b x s) pid H.
Proof.
  intros I Hb HbH. destruct (bi_mine _ _ _ I _ _ Hb HbH) as (Hl & Hk & Hr & Hd).
  destruct (bi_ok _ _ _ I _ _ Hb) as [[_ ?]|(Hf & _ & Hn & Hsz)]; [done|].
  assert (binv (with_buf b (set_b_flags 2 x) s) pid H) as I1.
  { eapply binv_with_buf; [exact I|done| |done|done|done|].
    - right. split; [by left|done].
    - intros c y Hc Hy Dy _ E. apply Hc. by eapply (bi_uniq _ _ _ I). }
  destruct I1 as [I1 I2 I3 I4 I5 I6 I7 I8]. constructor; try done.
  - intros c y Hy HcH Fy. rewrite disk_wrote. destruct (Z.eqb_spec (b_blockno y) (b_blockno x)) as [E|E].
    + exfalso. apply with_buf_lookup in Hy as [[-> ->]|[Hc Hy]]; [done|]. apply Hc.
      eapply (bi_uniq _ _ _ I); try done. destruct (bi_ok _ _ _ I _ _ Hy) as [[? _]|[_ [? _]]]; [|done]. congruence.
    + by apply (I7 c).
  - intros n. rewrite disk_wrote. destruct (_ =? _); [done|apply (bi_disk _ _ _ I)].
Qed.

Lemma bwrite_content s pid H b x : binv s pid H -> bufs s !! b = Some x -> b ∈ H ->
  forall k, content (wrote b x s) k = content s k.
Proof.
  intros I Hb HbH k. pose proof (bwrite_inv _ _ _ _ _ I Hb HbH) as I'.
  destruct (bi_mine _ _ _ I _ _ Hb HbH) as (_ & _ & _ & Hd).
  destruct (find_index (holds_block k) (bufs s)) as [c|] eqn:E.
  - apply find_index_Some in E as [(y & Hy & [Dy En]%holds_block_iff) _]. rewrite <- En in *.
    erewrite (content_cached s) by done. destruct (decide (c = b)) as [->|Hc].
    + simplify_eq. change (b_blockno x) with (b_blockno (set_b_flags 2 x)).
      erewrite (content_cached (wrote b x s)); [done|done|by apply list_lookup_insert_eq; eapply lookup_lt_Some|done].
    + erewrite (content_cached (wrote b x s)); [done|done| |done].
      unfold wrote, with_buf. ksimpl. by rewrite list_lookup_insert_ne.
  - rewrite find_index_None in E. assert (forall d z, bufs s !! d = Some z -> b_dev z = 1 -> b_blockno z <> k) as Hn.
    { intros d z Hz Dz Ez. specialize (E _ _ Hz). by rewrite (proj2 (holds_block_iff _ _)) in E. }
    rewrite !content_uncached.
    + rewrite disk_wrote. destruct (Z.eqb_spec k (b_blockno x)) as [->|]; [|done]. by destruct (Hn _ _ Hb Hd).
    + done.
    + intros d z [[-> ->]|[Hdb Hz]]%with_buf_lookup Dz; [by apply (Hn _ _ Hb)|eauto].
Qed.

Lemma bwrite_dirty s pid H b x k : binv s pid H -> bufs s !! b = Some x -> b ∈ H ->
  isdirty (wrote b x s) k <-> isdirty s k /\ k <> b_blockno x.
Proof.
  intros I Hb HbH. destruct (bi_mine _ _ _ I _ _ Hb HbH) as (_ & _ & _ & Hd). split.
  - intros (c & y & [[-> ->]|[Hc Hy]]%with_buf_lookup & Fy & Ny); [done|]. split; [by exists c, y|].
    intros ->. apply Hc. eapply (bi_uniq _ _ _ I); try done.
    destruct (bi_ok _ _ _ I _ _ Hy) as [[? _]|[_ [? _]]]; [congruence|done].
  - intros [(c & y & Hy & Fy & Ny) Hk]. exists c, y. split; [|done]. unfold wrote, with_buf. ksimpl.
    rewrite list_lookup_insert_ne; [done|]. intros ->. by simplify_eq.
Qed.

Definition drop_buf (x : buf) : buf := set_b_refcnt 0 (set_b_lkpid 0 (set_b_locked false x)).

(** The buffer is free again, at the front of the list. *)
Definition released (b : nat) (x : buf) (s : kstate) : kstate :=
  set_lru (b :: filter (fun c => c <> b) (lru s))
    (set_ptable (wake (Some (ChBufLock b)) <$> ptable s) (with_buf b (drop_buf x) s)).

Lemma wake_running chan p : p_state p = RUNNING -> wake chan p = p.
Proof. intros H. unfold wake. by rewrite H. Qed.

Lemma fscaller_wake s me p ch : fscaller s me p -> fscaller (set_ptable (wake ch <$> ptable s) s) me p.
Proof.
  intros [H1 H2 H3 H4]. constructor; try done. ksimpl. rewrite list_lookup_fmap, H2. cbn. by rewrite wake_running.
Qed.

Lemma brelse_run s me p H b x : fscaller s me p -> binv s (p_pid p) H -> bufs s !! b = Some x -> b ∈ H ->
  brelse b s = Ret tt (released b x s).
Proof.
  intros C I Hb HbH. pose proof (lookup_lt_Some _ _ _ Hb) as Hlt. pose proof (fc_held _ _ _ C) as Hh.
  destruct (bi_mine _ _ _ I _ _ Hb HbH) as (Hl & Hk & Hr & Hd).
  unfold brelse. erewrite bind_ret_l by (by eapply holdingsleep_run). cbn [negb].
  erewrite bind_ret_l by (by eapply releasesleep_run).
  rewrite run_acquire by (ksimpl; rewrite Hh; apply not_elem_of_nil). krun.
  erewrite run_upd_buf by (ksimpl; by apply list_lookup_insert_eq). ksimpl. rewrite Hr.
  erewrite run_buf_at by (ksimpl; apply list_lookup_insert_eq; by rewrite length_insert). ksimpl.
  change (u32 (1 - 1)) with 0. change (0 =? 0) with true. krun.
  erewrite release_run; [|ksimpl; by rewrite Hh|apply not_elem_of_nil].
  rewrite list_insert_insert_eq. unfold released, with_buf. knorm. by rewrite set_held_id.
Qed.

Lemma lru_front s pid H b x : binv s pid H -> bufs s !! b = Some x ->
  b :: filter (fun c => c <> b) (lru s) ≡ₚ lru s.
Proof.
  intros I Hb. pose proof (binv_in_lru _ _ _ _ _ I Hb) as Hin.
  assert (NoDup (lru s)) as Hnd by (rewrite (bi_lru _ _ _ I); apply NoDup_seq).
  apply NoDup_Permutation; [|done|].
  - constructor; [by rewrite list_elem_of_filter; intros [? _]|by apply NoDup_filter].
  - intros c. rewrite elem_of_cons, list_elem_of_filter. split; [intros [->|[_ ?]]; done|].
    intros Hc. destruct (decide (c = b)); [by left|by right].
Qed.

Lemma brelse_inv s me p H H' b x : fscaller s me p -> binv s (p_pid p) H -> bufs s !! b = Some x -> b ∈ H ->
  (b ∉ H') -> (forall c, c <> b -> c ∈ H' <-> c ∈ H) ->
  (b_flags x = 2 -> b_data x = disk s (b_blockno x)) ->
  fscaller (released b x s) me p /\ binv (released b x s) (p_pid p) H' /\
  (forall k, content (released b x s) k = content s k) /\
  (forall k, isdirty (released b x s) k <-> isdirty s k).
Proof.
  intros C I Hb HbH HbH' HH Hcl. destruct (bi_mine _ _ _ I _ _ Hb HbH) as (Hl & Hk & Hr & Hd).
  assert (binv (with_buf b (drop_buf x) s) (p_pid p) H') as I1.
  { eapply binv_with_buf; [exact I|done|exact (bi_ok _ _ _ I _ _ Hb)|done|done|done|].
    intros c y Hc Hy Dy _ E. apply Hc. by eapply (bi_uniq _ _ _ I). }
  split; [|split; [|split]].
  - apply (fscaller_bufs _ _ _ (<[b := drop_buf x]> (bufs s))) in C. apply (fscaller_wake _ _ _ (Some (ChBufLock b))) in C.
    destruct C. by constructor.
  - pose proof (lru_front _ _ _ _ _ I Hb) as Hp. destruct I1 as [I1 I2 I3 I4 I5 I6 I7 I8]. constructor; try done.
    unfold released. ksimpl. rewrite Hp. apply (bi_lru _ _ _ I).
  - change (forall k, content (with_buf b (drop_buf x) s) k = content s k).
    eapply content_with_buf; [exact I|exact I1|exact Hb|done| |by left].
    symmetry. exact (content_cached _ _ _ _ _ I Hb Hd).
  - intros k. change (isdirty (with_buf b (drop_buf x) s) k <-> isdirty s k).
    by apply (isdirty_with_buf s b x); [| |left].
Qed.

(** ** Changing the data of a locked buffer *)

Lemma set_data_inv s pid H b x d : binv s pid H -> bufs s !! b = Some x -> b ∈ H ->
  length d = Z.to_nat BSIZE ->
  binv (with_buf b (set_b_data d x) s) pid H /\
  (forall k, content (with_buf b (set_b_data d x) s) k = if k =? b_blockno x then d else content s k) /\
  (forall k, isdirty (with_buf b (set_b_data d x) s) k <-> isdirty s k).
Proof.
  intros I Hb HbH Hlen. destruct (bi_mine _ _ _ I _ _ Hb HbH) as (Hl & Hk & Hr & Hd).
  assert (binv (with_buf b (set_b_data d x) s) pid H) as I1.
  { eapply binv_with_buf; [exact I|done| |done|done|done|].
    - destruct (bi_ok _ _ _ I _ _ Hb) as [[_ ?]|(? & ? & ? & _)]; [done|by right].
    - intros c y Hc Hy Dy _ E. apply Hc. by eapply (bi_uniq _ _ _ I). }
  split; [done|]. split; [|intros k; by apply (isdirty_with_buf s b x); [| |left]].
  intros k. destruct (Z.eqb_spec k (b_blockno x)) as [->|Hkn].
  - change (b_blockno x) with (b_blockno (set_b_data d x)).
    erewrite content_cached; [done|done|by apply list_lookup_insert_eq; eapply lookup_lt_Some|done].
  - destruct (find_index (holds_block k) (bufs s)) as [c|] eqn:E.
    + apply find_index_Some in E as [(y & Hy & [Dy En]%holds_block_iff) _]. rewrite <- En in *.
      erewrite (content_cached s) by done. erewrite content_cached; [done|done| |done].
      unfold with_buf. ksimpl. rewrite list_lookup_insert_ne; [done|]. intros ->. by simplify_eq.
    + rewrite find_index_None in E. assert (forall d z, bufs s !! d = Some z -> b_dev z = 1 -> b_blockno z <> k) as Hn.
      { intros e z Hz Dz Ez. specialize (E _ _ Hz). by rewrite (proj2 (holds_block_iff _ _)) in E. }
      rewrite !content_uncached; [done|done|].
      intros e z [[-> ->]|[Hdb Hz]]%with_buf_lookup Dz; [done|eauto].
Qed.

End biospec.
