(* ===== verification/IdeSpec.v ===== *)
(** * The IDE driver as a queue of requests

    The laws [ide_laws] say what the driver relies on of an ATA controller: the
    status register shows a busy drive for a bounded number of reads, the task
    file holds the sector address, a read command makes the words of the sector
    available at the data register, a write command takes 128 words and stores
    them.  The invariant [ide_inv] relates the linked list of the driver and the
    command the drive works on to a queue of buffers and the contents of the
    drives before the first request of the queue. *)

From S2P Require Import Prelude Mem KState Mmu Kalloc Vm File Proc ProcMem WaitSpec Bio Layout.
From S2P Require Import BioSpec Console Inode ConsoleDev Trap Devices Ide.

(** ** The controller *)

(** The data phase of a command: none, words for the host, or words from the
    host for a sector of a drive. *)
Inductive xfer : Type :=
  | Idle
  | ToHost (ws : list Z)
  | FromHost (drive sector : Z) (ws : list Z).

(** The task-file registers (count, the three address bytes, drive and head),
    the number of status reads that will show a busy drive, the error bit, the
    data phase, the contents of the drives and their unreadable sectors. *)
Record ide_view : Type := mk_view {
  iv_count : Z;
  iv_lba0 : Z;
  iv_lba1 : Z;
  iv_lba2 : Z;
  iv_dev : Z;
  iv_busy : nat;
  iv_err : bool;
  iv_xfer : xfer;
  iv_sect : Z -> Z -> list Z;
  iv_bad : Z -> Z -> bool;
}.

Definition drive_of (v : ide_view) : Z := Z.land (Z.shiftr (iv_dev v) 4) 1.

Definition sector_of (v : ide_view) : Z :=
  iv_lba0 v + 2 ^ 8 * iv_lba1 v + 2 ^ 16 * iv_lba2 v + 2 ^ 24 * Z.land (iv_dev v) 0x0f.

Definition set_task (port val : Z) (v : ide_view) : ide_view :=
  let t c a0 a1 a2 d := mk_view c a0 a1 a2 d (iv_busy v) (iv_err v) (iv_xfer v) (iv_sect v) (iv_bad v) in
  if port =? 0x1f2 then t val (iv_lba0 v) (iv_lba1 v) (iv_lba2 v) (iv_dev v)
  else if port =? 0x1f3 then t (iv_count v) val (iv_lba1 v) (iv_lba2 v) (iv_dev v)
  else if port =? 0x1f4 then t (iv_count v) (iv_lba0 v) val (iv_lba2 v) (iv_dev v)
  else if port =? 0x1f5 then t (iv_count v) (iv_lba0 v) (iv_lba1 v) val (iv_dev v)
  else if port =? 0x1f6 then t (iv_count v) (iv_lba0 v) (iv_lba1 v) (iv_lba2 v) val
  else v.

Definition set_busy (n : nat) (v : ide_view) : ide_view :=
  mk_view (iv_count v) (iv_lba0 v) (iv_lba1 v) (iv_lba2 v) (iv_dev v) n (iv_err v) (iv_xfer v)
    (iv_sect v) (iv_bad v).

Definition set_data (e : bool) (x : xfer) (v : ide_view) : ide_view :=
  mk_view (iv_count v) (iv_lba0 v) (iv_lba1 v) (iv_lba2 v) (iv_dev v) (iv_busy v) e x
    (iv_sect v) (iv_bad v).

Definition upd_sect (sect : Z -> Z -> list Z) (dr n : Z) (bs : list Z) : Z -> Z -> list Z :=
  fun dr' n' => if (dr' =? dr) && (n' =? n) then bs else sect dr' n'.

Definition set_sect (f : Z -> Z -> list Z) (v : ide_view) : ide_view :=
  mk_view (iv_count v) (iv_lba0 v) (iv_lba1 v) (iv_lba2 v) (iv_dev v) (iv_busy v) (iv_err v) (iv_xfer v)
    f (iv_bad v).

(** A read command for one sector. *)
Definition start_read (v : ide_view) : ide_view :=
  let dr := drive_of v in
  let n := sector_of v in
  if iv_bad v dr n then set_data true Idle v
  else set_data false (ToHost (get_words (iv_sect v dr n) 0 128)) v.

(** One word of the data of a write command; the 128th ends the command. *)
Definition take_word (dr n : Z) (ws : list Z) (v : ide_view) : ide_view :=
  if (length ws =? 128)%nat
  then set_sect (upd_sect (iv_sect v) dr n (concat (map le32 ws))) (set_data false Idle v)
  else set_data false (FromHost dr n ws) v.

Section laws.
Context {W : Type} {PT : Ports W} (view : W -> ide_view) (limit : nat).

Record ide_laws : Prop := {
  il_busy : forall w n, iv_busy (view w) = S n ->
    Z.land (u8 (pt_inb 0x1f7 w).1) (Z.lor IDE_BSY IDE_DRDY) <> IDE_DRDY /\
    view (pt_inb 0x1f7 w).2 = set_busy n (view w);
  il_ready : forall w, iv_busy (view w) = 0%nat ->
    Z.land (u8 (pt_inb 0x1f7 w).1) (Z.lor IDE_BSY IDE_DRDY) = IDE_DRDY /\
    (Z.land (u8 (pt_inb 0x1f7 w).1) (Z.lor IDE_DF IDE_ERR) =? 0) = negb (iv_err (view w)) /\
    view (pt_inb 0x1f7 w).2 = view w;
  il_control : forall w, view (pt_outb 0x3f6 0 w) = view w;
  il_task : forall w port val, 0x1f2 <= port <= 0x1f6 -> view (pt_outb port val w) = set_task port val (view w);
  il_read : forall w, iv_busy (view w) = 0%nat -> iv_count (view w) = 1 ->
    exists n, (n <= limit)%nat /\ view (pt_outb 0x1f7 IDE_CMD_READ w) = set_busy n (start_read (view w));
  il_write : forall w, iv_busy (view w) = 0%nat -> iv_count (view w) = 1 ->
    view (pt_outb 0x1f7 IDE_CMD_WRITE w) =
    set_data false (FromHost (drive_of (view w)) (sector_of (view w)) []) (view w);
  il_inl : forall w v ws, iv_xfer (view w) = ToHost (v :: ws) -> (pt_inl 0x1f0 w).1 = v /\
    view (pt_inl 0x1f0 w).2 = set_data (iv_err (view w)) (ToHost ws) (view w);
  il_outl : forall w v dr n ws, iv_xfer (view w) = FromHost dr n ws -> (length ws < 128)%nat ->
    exists k, (k <= limit)%nat /\
    view (pt_outl 0x1f0 v w) = set_busy k (take_word dr n (ws ++ [v]) (view w));
}.
End laws.

(** ** The driver's accesses to the controller *)

Section access.
Context {LK : Linker} {FS : FsOps} {W : Type} {PT : Ports W}.
Context (polls limit : nat) (view : W -> ide_view) (L : ide_laws view limit).
Implicit Types d : devst W.

(** [m] returns [a], and of the driver's state only the controller changes, to
    one that looks like [v]. *)
Definition hw {A} (m : D W A) d (a : A) (v : ide_view) : Prop :=
  exists w, m d = Ret a (set_dv_w w d) /\ view w = v.

Lemma hw_bind {A B} (m : D W A) (f : A -> D W B) d a b v v' : hw m d a v ->
  (forall w, view w = v -> hw (f a) (set_dv_w w d) b v') -> hw (bind m f) d b v'.
Proof.
  intros (w & R & V) H. destruct (H w V) as (w' & R' & V'). exists w'.
  by rewrite (bind_ret_l _ _ _ _ _ R).
Qed.

Lemma hw_ret {A} (a : A) d v : view (dv_w d) = v -> hw (ret a) d a v.
Proof. exists (dv_w d). split; [by destruct d|done]. Qed.

Lemma hw_task port val d : 0x1f2 <= port <= 0x1f6 ->
  hw (outb port val) d tt (set_task port (u8 val) (view (dv_w d))).
Proof. intros. eexists. split; [done|]. by apply (il_task _ _ L). Qed.

Lemma inb_eq port d :
  inb port d = Ret (u8 (pt_inb port (dv_w d)).1) (set_dv_w (pt_inb port (dv_w d)).2 d).
Proof. unfold inb. by destruct (pt_inb _ _). Qed.

Lemma status_run k d : (iv_busy (view (dv_w d)) <= k)%nat ->
  exists r, hw (poll k (inb 0x1f7) (fun r => Z.land r (Z.lor IDE_BSY IDE_DRDY) =? IDE_DRDY)) d r
      (set_busy 0 (view (dv_w d))) /\
    (Z.land r (Z.lor IDE_DF IDE_ERR) =? 0) = negb (iv_err (view (dv_w d))).
Proof.
  revert d. induction k as [|k IH]; intros d Hk; cbn [poll];
    destruct (iv_busy (view (dv_w d))) as [|n] eqn:Hn; try lia.
  1,2: destruct (il_ready _ _ L _ Hn) as (H1 & H2 & H3); eexists; split; [|exact H2];
    exists (pt_inb 0x1f7 (dv_w d)).2; split; [|by rewrite H3; destruct (view (dv_w d)); cbn in *; subst];
    by rewrite (bind_ret_l _ _ _ _ _ (inb_eq _ _)), H1.
  destruct (il_busy _ _ L _ _ Hn) as (H1 & H2). destruct (IH (set_dv_w (pt_inb 0x1f7 (dv_w d)).2 d)) as (r & (w & R & V) & He).
  { cbn. rewrite H2. cbn. lia. }
  exists r. cbn in V, He. rewrite H2 in V, He. split; [|done]. exists w. split; [|done].
  by rewrite (bind_ret_l _ _ _ _ _ (inb_eq _ _)), (proj2 (Z.eqb_neq _ _) H1), R.
Qed.

Lemma idewait_run c d : (iv_busy (view (dv_w d)) <= polls)%nat ->
  hw (idewait polls c) d (if c && iv_err (view (dv_w d)) then -1 else 0) (set_busy 0 (view (dv_w d))).
Proof.
  intros Hb. destruct (status_run polls d Hb) as (r & R & He). unfold idewait.
  eapply hw_bind; [exact R|]. intros w V. rewrite He, negb_involutive.
  destruct (c && _); by apply hw_ret.
Qed.

Lemma insl_run ws d : iv_xfer (view (dv_w d)) = ToHost ws -> Forall (fun w => 0 <= w < 2 ^ 32) ws ->
  hw (insl 0x1f0 (length ws)) d (concat (map le32 ws))
    (set_data (iv_err (view (dv_w d))) (ToHost []) (view (dv_w d))).
Proof.
  revert d. induction ws as [|v ws IH]; intros d Hx Hf; cbn [insl length map concat].
  { apply hw_ret. destruct (view (dv_w d)); cbn in *; by subst. }
  apply Forall_cons in Hf as [Hv Hf]. destruct (il_inl _ _ L _ _ _ Hx) as [H1 H2].
  eapply (hw_bind _ _ _ v); [eexists; split; [|exact H2]|].
  { unfold inl. destruct (pt_inl _ _) as [v' w']; cbn in *. subst. by rewrite u32_id. }
  intros w V. cbn in V. eapply hw_bind; [apply IH; [by cbn; rewrite V|done]|]. intros w' V'.
  apply hw_ret. cbn in *. by rewrite V', V.
Qed.

Lemma outsl_run bs cnt : forall ws o dr n d, iv_xfer (view (dv_w d)) = FromHost dr n ws ->
  (length ws + S cnt = 128)%nat -> exists k, (k <= limit)%nat /\
  hw (outsl 0x1f0 bs o (S cnt)) d tt (set_busy k (set_sect (upd_sect (iv_sect (view (dv_w d))) dr n
    (concat (map le32 (ws ++ get_words bs o (S cnt))))) (set_data false Idle (view (dv_w d))))).
Proof.
  induction cnt as [|cnt IH]; intros ws o dr n d Hx Hl; destruct (il_outl _ _ L _ (u32 (get32 bs o)) _ _ _ Hx ltac:(lia)) as (k & Hk & V).
  all: rewrite u32_id in V by apply get32_range; unfold take_word in V; rewrite length_app in V; cbn [length] in V.
  - exists k. split; [done|]. cbn [outsl get_words]. rewrite (proj2 (Nat.eqb_eq _ _)) in V by lia.
    eapply hw_bind; [eexists; split; [done|]; rewrite u32_id by apply get32_range; exact V|].
    intros w Vw. by apply hw_ret.
  - set (w1 := pt_outl 0x1f0 (get32 bs o) (dv_w d)) in *. rewrite (proj2 (Nat.eqb_neq _ _)) in V by lia.
    destruct (IH (ws ++ [get32 bs o]) (o + 4)%nat dr n (set_dv_w w1 d)) as (k' & Hk' & H).
    { cbn. by rewrite V. }
    { rewrite length_app. cbn. lia. }
    exists k'. split; [done|]. destruct H as (w & R & Vw). exists w. split.
    + etransitivity; [|exact R]. change (outsl 0x1f0 bs o (S (S cnt))) with (outl 0x1f0 (get32 bs o) ;; outsl 0x1f0 bs (o + 4) (S cnt)). unfold bind at 1, outl at 1. rewrite u32_id by apply get32_range. done.
    + rewrite Vw. cbn [dv_w set_dv_w]. rewrite V, <- app_assoc. done.
Qed.

End access.

(** ** Words and bytes *)

Definition sector (bs : list Z) : Prop := length bs = 512%nat /\ Forall (fun c => 0 <= c < 256) bs.

Lemma le32_get32 bs o : (o + 4 <= length bs)%nat -> Forall (fun c => 0 <= c < 256) bs ->
  le32 (get32 bs o) = take 4 (drop o bs).
Proof.
  intros Ho Hf. pose proof (Forall_drop _ o _ Hf) as Hd. pose proof (length_drop bs o) as Hl.
  assert (forall k, nth (o + k) bs 0 = nth k (drop o bs) 0) as Hn by (intros k; by rewrite !nth_lookup, lookup_drop).
  unfold get32. rewrite <- (Nat.add_0_r o) at 1. rewrite !Hn.
  destruct (drop o bs) as [|c0 [|c1 [|c2 [|c3 l]]]]; cbn [length] in Hl; try lia.
  rewrite !Forall_cons in Hd. destruct Hd as (R0 & R1 & R2 & R3 & _). cbn [nth take firstn].
  unfold le32. rewrite !u8_id by done. repeat f_equal; Z.div_mod_to_equations; lia.
Qed.

Lemma words_bytes bs n : forall o, (o + 4 * n <= length bs)%nat -> Forall (fun c => 0 <= c < 256) bs ->
  concat (map le32 (get_words bs o n)) = take (4 * n) (drop o bs).
Proof.
  induction n as [|n IH]; intros o Ho Hf; [done|]. cbn [get_words map concat].
  rewrite le32_get32, IH by (done || lia). replace (4 * S n)%nat with (4 + 4 * n)%nat by lia.
  by rewrite <- (take_take_drop (drop o bs)), drop_drop.
Qed.

Lemma sector_words bs : sector bs -> concat (map le32 (get_words bs 0 128)) = bs.
Proof. intros [Hl Hf]. rewrite words_bytes by (done || lia). by apply take_ge; rewrite Hl. Qed.

Lemma words_range bs o n : Forall (fun w => 0 <= w < 2 ^ 32) (get_words bs o n).
Proof. revert o. induction n as [|n IH]; intros o; constructor; [apply get32_range|apply IH]. Qed.

(** ** Requests *)

(** A buffer that [iderw] may be called for. *)
Record request (x : buf) : Prop := {
  rq_block : 0 <= b_blockno x < FSSIZE;
  rq_data : sector (b_data x);
  rq_flags : Z.land (b_flags x) (Z.lor B_VALID B_DIRTY) <> B_VALID;
}.

Definition drive (x : buf) : Z := Z.land (b_dev x) 1.

(** The drives and the buffer once the request is done. *)
Definition served_disk (disk : Z -> Z -> list Z) (x : buf) : Z -> Z -> list Z :=
  if has_flag B_DIRTY x then upd_sect disk (drive x) (b_blockno x) (b_data x) else disk.

Definition served (bad : Z -> Z -> bool) (disk : Z -> Z -> list Z) (x : buf) : buf :=
  let x' := if has_flag B_DIRTY x || bad (drive x) (b_blockno x) then x
            else set_b_data (disk (drive x) (b_blockno x)) x in
  set_b_flags (Z.land (Z.lor (b_flags x) B_VALID) (Z.lnot B_DIRTY)) x'.

(** The controller works on the request of [x]; [disk] is what the drives held
    before it. *)
Definition working (disk : Z -> Z -> list Z) (x : buf) (v : ide_view) : Prop :=
  (forall dr n, iv_sect v dr n = served_disk disk x dr n) /\
  (has_flag B_DIRTY x = false ->
     iv_err v = iv_bad v (drive x) (b_blockno x) /\
     (iv_err v = false -> iv_xfer v = ToHost (get_words (disk (drive x) (b_blockno x)) 0 128))).

(** The task file after the stores of [idestart]. *)
Definition addressed (x : buf) (v : ide_view) : ide_view :=
  let n := b_blockno x in
  mk_view 1 (u8 (Z.land n 0xff)) (u8 (Z.land (Z.shiftr n 8) 0xff)) (u8 (Z.land (Z.shiftr n 16) 0xff))
    (u8 (Z.lor (Z.lor 0xe0 (Z.shiftl (Z.land (b_dev x) 1) 4)) (Z.land (Z.shiftr n 24) 0x0f)))
    (iv_busy v) (iv_err v) (iv_xfer v) (iv_sect v) (iv_bad v).

Lemma addressed_at x v : 0 <= b_blockno x < FSSIZE ->
  drive_of (addressed x v) = drive x /\ sector_of (addressed x v) = b_blockno x.
Proof.
  unfold FSSIZE. intros Hb. unfold drive_of, sector_of, drive, addressed. cbn [iv_dev iv_lba0 iv_lba1 iv_lba2].
  assert (Z.shiftr (b_blockno x) 24 = 0) as -> by (rewrite Z.shiftr_div_pow2 by lia; apply Z.div_small; lia).
  change 0xff with (Z.ones 8). rewrite !Z.land_ones, !Z.shiftr_div_pow2 by lia. unfold u8.
  change (Z.land (b_dev x) 1) with (Z.land (b_dev x) (Z.ones 1)). rewrite Z.land_ones by lia.
  pose proof (Z.mod_pos_bound (b_dev x) (2 ^ 1) ltac:(lia)) as Hd. change (Z.land 0 15) with 0.
  assert (b_dev x mod 2 ^ 1 = 0 \/ b_dev x mod 2 ^ 1 = 1) as [-> | ->] by lia; (split; [done|]).
  all: match goal with |- context [Z.land ?t 15] => replace (Z.land t 15) with 0 by done end.
  all: Z.div_mod_to_equations; lia.
Qed.

Section start.
Context {LK : Linker} {FS : FsOps} {W : Type} {PT : Ports W}.
Context (polls limit : nat) (view : W -> ide_view) (L : ide_laws view limit).
Implicit Types d : devst W.

Lemma lift_k_ret {A} (m : K A) d a s : m (dv_k d) = Ret a s -> lift_k m d = Ret a (set_dv_k s d).
Proof. unfold lift_k. by intros ->. Qed.

Lemma lift_k_block {A} (m : K A) d s : m (dv_k d) = Block s -> lift_k m d = Block (set_dv_k s d).
Proof. unfold lift_k. by intros ->. Qed.

Lemma set_dv_k_id d s : s = dv_k d -> set_dv_k s d = d.
Proof. intros ->. by destruct d. Qed.

Lemma lift_buf_at b x d : bufs (dv_k d) !! b = Some x -> lift_k (buf_at b) d = Ret x d.
Proof.
  intros Hb. erewrite lift_k_ret; [|unfold buf_at; by rewrite Hb]. by rewrite set_dv_k_id.
Qed.

Lemma hw_step {A B} (m : D W A) (f : A -> D W B) d a v : hw view m d a v ->
  exists w, view w = v /\ bind m f d = f a (set_dv_w w d).
Proof. intros (w & R & V). exists w. split; [done|]. by apply bind_ret_l. Qed.

(** The stores to the task file. *)
Lemma address_run {A} x (f : D W A) d : let n := b_blockno x in
  exists w, view w = addressed x (view (dv_w d)) /\
  (outb 0x1f2 1 ;; outb 0x1f3 (Z.land n 0xff) ;; outb 0x1f4 (Z.land (Z.shiftr n 8) 0xff) ;;
    outb 0x1f5 (Z.land (Z.shiftr n 16) 0xff) ;;
    outb 0x1f6 (Z.lor (Z.lor 0xe0 (Z.shiftl (Z.land (b_dev x) 1) 4)) (Z.land (Z.shiftr n 24) 0x0f)) ;; f) d =
  f (set_dv_w w d).
Proof.
  intros n. unfold addressed. cbv zeta. fold n. eexists. split; [|reflexivity].
  destruct (view (dv_w d)) as [c a0 a1 a2 dv b e x0 sct bd] eqn:V. cbn [dv_w set_dv_w].
  rewrite !(il_task _ _ L) by lia. by rewrite V.
Qed.

Lemma idestart_command b x d : bufs (dv_k d) !! b = Some x -> request x -> (iv_busy (view (dv_w d)) <= polls)%nat ->
  exists w, view w = addressed x (set_busy 0 (view (dv_w d))) /\ idestart polls (Some b) d =
    (if has_flag B_DIRTY x then outb 0x1f7 IDE_CMD_WRITE ;; outsl 0x1f0 (b_data x) 0 128
     else outb 0x1f7 IDE_CMD_READ) (set_dv_w w d).
Proof.
  intros Hb [Hn Hx Hf] Hbusy. unfold idestart. rewrite (bind_ret_l _ _ _ _ _ (lift_buf_at _ _ _ Hb)).
  rewrite (proj2 (Z.leb_gt _ _)) by lia. change (BSIZE / SECTOR_SIZE) with 1.
  cbn [Z.eqb Pos.eqb Z.ltb Z.compare Pos.compare Pos.compare_cont].
  rewrite Z.mul_1_r, i32_id by (unfold FSSIZE in Hn; lia).
  destruct (idewait_run polls limit view L false d Hbusy) as (w1 & R1 & V1). rewrite (bind_ret_l _ _ _ _ _ R1).
  rewrite (bind_ret_l (outb 0x3f6 0) _ _ tt _ eq_refl).
  match goal with |- exists w, _ /\ bind _ (fun _ => bind _ (fun _ => bind _ (fun _ => bind _ (fun _ => bind _ (fun _ => ?f))))) ?d1 = _ =>
    destruct (address_run x f d1) as (w & V & E) end.
  exists w. split; [|exact E].
  rewrite V. cbn [dv_w set_dv_w]. by rewrite (il_control _ _ L), V1.
Qed.

(** [idestart] hands the request to the controller. *)
Lemma idestart_run b x d disk : bufs (dv_k d) !! b = Some x -> request x ->
  (iv_busy (view (dv_w d)) <= polls)%nat -> (forall dr n, iv_sect (view (dv_w d)) dr n = disk dr n) ->
  exists w, idestart polls (Some b) d = Ret tt (set_dv_w w d) /\ working disk x (view w) /\
    (iv_busy (view w) <= limit)%nat /\ iv_bad (view w) = iv_bad (view (dv_w d)).
Proof.
  intros Hb Rq Hbusy Hs. destruct (idestart_command b x d Hb Rq Hbusy) as (w0 & V0 & E). rewrite E. clear E.
  destruct Rq as [Hn Hx Hf]. destruct (addressed_at x (set_busy 0 (view (dv_w d))) Hn) as [Hdr Hse]. rewrite <- V0 in Hdr, Hse.
  assert (iv_busy (view w0) = 0%nat /\ iv_count (view w0) = 1) as [Hb0 Hc0] by (by rewrite V0).
  assert (forall dr n, iv_sect (view w0) dr n = disk dr n) as Hs0 by (by rewrite V0).
  assert (iv_bad (view w0) = iv_bad (view (dv_w d))) as Hbad by (by rewrite V0).
  unfold working, served_disk. destruct (has_flag B_DIRTY x) eqn:Hd.
  - pose proof (il_write _ _ L w0 Hb0 Hc0) as V1. rewrite Hdr, Hse in V1.
    set (w1 := pt_outb 0x1f7 IDE_CMD_WRITE w0) in *. rewrite (bind_ret_l (outb 0x1f7 IDE_CMD_WRITE) _ (set_dv_w w0 d) tt (set_dv_w w1 d) eq_refl).
    destruct (outsl_run limit view L (b_data x) 127 [] 0 (drive x) (b_blockno x) (set_dv_w w1 d)) as (k & Hk & w & R & V);
      [cbn [dv_w set_dv_w]; by rewrite V1|done|].
    exists w. split; [exact R|]. cbn [dv_w set_dv_w] in V. rewrite V, V1. cbn [set_busy set_sect set_data iv_sect iv_busy iv_bad].
    split; [|done]. split; [|done]. intros dr n. rewrite app_nil_l, sector_words by done. unfold upd_sect. by rewrite Hs0.
  - destruct (il_read _ _ L w0 Hb0 Hc0) as (k & Hk & V1). exists (pt_outb 0x1f7 IDE_CMD_READ w0). split; [done|].
    rewrite V1. unfold start_read. rewrite Hdr, Hse.
    destruct (iv_bad (view w0) (drive x) (b_blockno x)) eqn:Eb; cbn [set_busy set_data iv_sect iv_busy iv_bad iv_err iv_xfer].
    all: split; [split; [done|intros _; split; [done|]]|done]; rewrite ?Hs0; done.
Qed.

End start.

(** ** The queue *)

(** The buffers linked through [qnext] from [h] on. *)
Fixpoint chain (qn : list (option nat)) (h : option nat) (q : list nat) : Prop :=
  match q with
  | [] => h = None
  | b :: q' => h = Some b /\ exists n, qn !! b = Some n /\ chain qn n q'
  end.

Lemma chain_insert qn h q b n : b ∉ q -> chain qn h q -> chain (<[b := n]> qn) h q.
Proof.
  revert h. induction q as [|c q IH]; intros h Hb; [done|]. apply not_elem_of_cons in Hb as [Hc Hb].
  intros (-> & m & Hm & H). split; [done|]. exists m. split; [by rewrite list_lookup_insert_ne|by apply IH].
Qed.

Lemma chain_lt qn h q b : chain qn h q -> b ∈ q -> (b < length qn)%nat.
Proof.
  revert h. induction q as [|c q IH]; intros h; [intros _ []%elem_of_nil|].
  intros (_ & m & Hm & H) [->|Hb]%elem_of_cons; [by eapply lookup_lt_Some|by eapply IH].
Qed.

Lemma chain_length qn h q : NoDup q -> chain qn h q -> (length q <= length qn)%nat.
Proof.
  intros Hn Hc. rewrite <- (length_seq (length qn) 0). apply submseteq_length, NoDup_submseteq; [done|].
  intros b Hb. apply elem_of_seq. split; [lia|]. by eapply chain_lt.
Qed.

(** The link at the end of the chain from [pp]. *)
Definition end_link (pp : option nat) (q : list nat) : option nat :=
  match last q with Some c => Some c | None => pp end.

Section queue.
Context {LK : Linker} {FS : FsOps} {W : Type} {PT : Ports W}.
Implicit Types d : devst W.

Definition link (d : devst W) (pp : option nat) : option (option nat) :=
  match pp with None => Some (dv_idequeue d) | Some b => dv_qnext d !! b end.

Lemma last_link_run q : forall k pp h d, link d pp = Some h -> chain (dv_qnext d) h q -> (length q <= k)%nat ->
  last_link k pp d = Ret (end_link pp q) d.
Proof.
  induction q as [|c q IH]; intros k pp h d Hl Hc Hk.
  - cbn in Hc. subst h. assert (link_at pp d = Ret None d) as E.
    { destruct pp; cbn in *; [unfold qnext_at; by rewrite Hl|by unfold gets; injection Hl as ->]. }
    destruct k; cbn [last_link]; by rewrite (bind_ret_l _ _ _ _ _ E).
  - destruct Hc as (-> & m & Hm & Hc). assert (link_at pp d = Ret (Some c) d) as E.
    { destruct pp; cbn in *; [unfold qnext_at; by rewrite Hl|by unfold gets; injection Hl as ->]. }
    destruct k as [|k]; cbn [length] in Hk; [lia|]. cbn [last_link]. rewrite (bind_ret_l _ _ _ _ _ E).
    erewrite IH; [|exact Hm|done|lia]. unfold end_link. destruct q as [|c' q]; [done|]. rewrite last_cons_cons. destruct (last (c' :: q)) eqn:El; [done|by apply last_None in El].
Qed.

(** A new request goes to the end. *)
Lemma enqueue_run {A} b q (f : D W A) d : NoDup q -> b ∉ q -> (b < length (dv_qnext d))%nat -> length (dv_qnext d) = NBUF ->
  chain (dv_qnext d) (dv_idequeue d) q ->
  exists h qn, (set_qnext b None ;; pp <- last_link NBUF None ;; set_link pp (Some b) ;; f) d =
    f (set_dv_idequeue h (set_dv_qnext qn d)) /\ length qn = NBUF /\ chain qn h (q ++ [b]).
Proof.
  intros Hnd Hb Hlt Hlen Hc. set (d1 := set_dv_qnext (<[b := None]> (dv_qnext d)) d).
  assert (chain (dv_qnext d1) (dv_idequeue d1) q) as Hc1 by (by apply chain_insert).
  rewrite (bind_ret_l (set_qnext b None) _ d tt d1 eq_refl).
  erewrite bind_ret_l; [|eapply (last_link_run q NBUF None (dv_idequeue d1)); [done|done|]].
  2: { rewrite <- Hlen. by eapply chain_length. }
  assert (dv_qnext d1 !! b = Some None) as Hb1 by (by apply list_lookup_insert_eq).
  unfold end_link. destruct (last q) as [c|] eqn:Hla.
  - apply last_Some in Hla as [q' ->]. exists (dv_idequeue d), (<[c := Some b]> (dv_qnext d1)).
    split; [done|]. split; [unfold d1; cbn [dv_qnext set_dv_qnext]; by rewrite !length_insert|].
    apply NoDup_app in Hnd as (Hn1 & Hn2 & _). rewrite not_elem_of_app, list_elem_of_singleton in Hb. destruct Hb as [Hb Hbc].
    change (dv_idequeue d1) with (dv_idequeue d) in Hc1. clear Hc. generalize dependent (dv_idequeue d).
    assert (c ∉ q') as Hcq by (intros Hin; apply (Hn2 c Hin), list_elem_of_here).
    clear Hn1 Hn2. induction q' as [|a q' IH]; intros h Hc1.
    + cbn in Hc1. destruct Hc1 as (-> & m & Hm & ->). split; [done|]. exists (Some b).
      split; [apply list_lookup_insert_eq; by eapply lookup_lt_Some|]. split; [done|]. exists None.
      split; [by rewrite list_lookup_insert_ne|done].
    + apply not_elem_of_cons in Hb as [Hba Hb]. apply not_elem_of_cons in Hcq as [Hca Hcq].
      destruct Hc1 as (-> & m & Hm & Hc1). split; [done|]. exists m. split; [by rewrite list_lookup_insert_ne|by apply IH].
  - apply last_None in Hla as ->. exists (Some b), (dv_qnext d1). split; [done|].
    split; [unfold d1; cbn [dv_qnext set_dv_qnext]; by rewrite length_insert|]. split; [done|]. by exists None.
Qed.

End queue.

(** ** The driver and its specification *)

Section driver.
Context {LK : Linker} {FS : FsOps} {W : Type} {PT : Ports W}.
Context (polls limit : nat) (view : W -> ide_view) (L : ide_laws view limit) (Hlim : (limit <= polls)%nat).
Implicit Types d : devst W.

(** The driver has the requests of [q], the first of them at the controller;
    [disk] is what the drives held before the first request. *)
Record ide_inv d (disk : Z -> Z -> list Z) (q : list nat) : Prop := {
  iq_nodup : NoDup q;
  iq_len : length (dv_qnext d) = NBUF;
  iq_chain : chain (dv_qnext d) (dv_idequeue d) q;
  iq_request : forall b, b ∈ q -> exists x, bufs (dv_k d) !! b = Some x /\ request x;
  iq_disk : forall dr n, sector (disk dr n);
  iq_busy : (iv_busy (view (dv_w d)) <= limit)%nat;
  iq_idle : q = [] -> forall dr n, iv_sect (view (dv_w d)) dr n = disk dr n;
  iq_work : forall b q', q = b :: q' -> exists x, bufs (dv_k d) !! b = Some x /\ working disk x (view (dv_w d));
}.

Definition bad_of d : Z -> Z -> bool := iv_bad (view (dv_w d)).

Lemma served_sector disk x : (forall dr n, sector (disk dr n)) -> request x ->
  forall dr n, sector (served_disk disk x dr n).
Proof.
  intros Hd [_ Hx _] dr n. unfold served_disk, upd_sect. destruct (has_flag _ _); [|done]. by destruct (_ && _).
Qed.

(** The buffer gets the data of the sector, if the request is a read and the
    drive reports no error. *)
Lemma intr_data b x d disk : bufs (dv_k d) !! b = Some x -> working disk x (view (dv_w d)) ->
  (forall dr n, sector (disk dr n)) -> (iv_busy (view (dv_w d)) <= limit)%nat ->
  exists w, (if has_flag B_DIRTY x then ret tt
      else r <- idewait polls true ;;
           when (0 <=? r) (bs <- insl 0x1f0 (Z.to_nat (BSIZE / 4)) ;; lift_k (upd_buf b (set_b_data bs)))) d =
    Ret tt (set_dv_k (with_buf b (if has_flag B_DIRTY x || bad_of d (drive x) (b_blockno x) then x
                                  else set_b_data (disk (drive x) (b_blockno x)) x) (dv_k d)) (set_dv_w w d)) /\
    (forall dr n, iv_sect (view w) dr n = served_disk disk x dr n) /\ (iv_busy (view w) <= limit)%nat /\
    iv_bad (view w) = bad_of d.
Proof.
  intros Hb [Hs Hr] Hd Hbusy. assert (with_buf b x (dv_k d) = dv_k d) as Hid.
  { unfold with_buf. rewrite list_insert_id by done. by destruct (dv_k d). }
  destruct (has_flag B_DIRTY x) eqn:Hdirty.
  { exists (dv_w d). cbn [orb]. rewrite Hid. split; [by destruct d|done]. }
  destruct (Hr eq_refl) as [He Hx]. destruct (idewait_run polls limit view L true d ltac:(lia)) as (w1 & R1 & V1).
  rewrite (bind_ret_l _ _ _ _ _ R1). unfold bad_of. rewrite <- He. cbn [andb orb].
  destruct (iv_err (view (dv_w d))) eqn:Ee; cbn [Z.leb Z.compare when].
  { exists w1. rewrite Hid, V1. split; [by destruct d|]. split; [done|]. split; [cbn; lia|done]. }
  assert (iv_xfer (view w1) = ToHost (get_words (disk (drive x) (b_blockno x)) 0 128)) as Hx1 by (rewrite V1; by apply Hx).
  destruct (insl_run limit view L _ (set_dv_w w1 d) Hx1 (words_range _ _ _)) as (w2 & R2 & V2).
  rewrite length_get_words in R2. rewrite sector_words in R2 by done. exists w2.
  change (Z.to_nat (BSIZE / 4)) with 128%nat. rewrite (bind_ret_l _ _ _ _ _ R2). cbn [dv_w set_dv_w] in V2. rewrite V2, V1.
  split; [by erewrite lift_k_ret by (by apply upd_buf_eq)|]. split; [done|]. split; [cbn; lia|done].
Qed.

(** What [ide_intr] does to the kernel's state. *)
Definition completed (b : nat) (x : buf) (s : kstate) : kstate :=
  set_ptable (wake (Some (ChBuf b)) <$> ptable s) (with_buf b x s).

Lemma intr_finish {A} b x (f : D W A) d : bufs (dv_k d) !! b = Some x -> LkPtable ∉ held (dv_k d) ->
  (lift_k (upd_buf b (fun x => set_b_flags (Z.lor (b_flags x) B_VALID) x)) ;;
   lift_k (upd_buf b (fun x => set_b_flags (Z.land (b_flags x) (Z.lnot B_DIRTY)) x)) ;;
   lift_k (wakeup (ChBuf b)) ;; f) d =
  f (set_dv_k (completed b (set_b_flags (Z.land (Z.lor (b_flags x) B_VALID) (Z.lnot B_DIRTY)) x) (dv_k d)) d).
Proof.
  intros Hb Hh. pose proof (lookup_lt_Some _ _ _ Hb) as Hlt.
  erewrite bind_ret_l by (by apply lift_k_ret, upd_buf_eq).
  erewrite bind_ret_l by (apply lift_k_ret, upd_buf_eq; cbn [dv_k set_dv_k]; ksimpl; by apply list_lookup_insert_eq).
  erewrite bind_ret_l by (apply lift_k_ret, wakeup_run; cbn [dv_k set_dv_k]; by ksimpl).
  cbn [dv_k set_dv_k]. unfold completed, with_buf. ksimpl. rewrite list_insert_insert_eq.
  by f_equal.
Qed.

Lemma completed_twice b y z s : completed b y (with_buf b z s) = completed b y s.
Proof. unfold completed, with_buf. ksimpl. rewrite list_insert_insert_eq. by knorm. Qed.

Lemma served_eq (c : bool) bs x fl :
  set_b_flags (fl (b_flags (if c then x else set_b_data bs x))) (if c then x else set_b_data bs x) =
  set_b_flags (fl (b_flags x)) (if c then x else set_b_data bs x).
Proof. by destruct c. Qed.

Lemma intr_release b y s d : LkIde ∉ held s -> dv_k d = completed b y (set_held (LkIde :: held s) s) ->
  lift_k (release LkIde) d = Ret tt (set_dv_k (completed b y s) d).
Proof.
  intros Hi Hd. erewrite lift_k_ret; [reflexivity|]. rewrite Hd. erewrite release_run; [|unfold completed, with_buf; by ksimpl|done].
  unfold completed, with_buf. knorm. by rewrite set_held_id by (by ksimpl).
Qed.

Lemma completed_lookup b y s c : c <> b -> bufs (completed b y s) !! c = bufs s !! c.
Proof. intros. unfold completed, with_buf. ksimpl. by rewrite list_lookup_insert_ne. Qed.

(** An interrupt completes the first request and starts the next one. *)
Lemma ide_intr_run d disk b q : ide_inv d disk (b :: q) -> LkIde ∉ held (dv_k d) -> LkPtable ∉ held (dv_k d) ->
  exists x d', bufs (dv_k d) !! b = Some x /\ ide_intr polls d = Ret tt d' /\
    dv_k d' = completed b (served (bad_of d) disk x) (dv_k d) /\ bad_of d' = bad_of d /\
    ide_inv d' (served_disk disk x) q.
Proof.
  intros [I1 I2 I3 I4 I5 I6 _ I8] Hi Hp. destruct (I8 b q eq_refl) as (x & Hx & Hw). clear I8.
  destruct (I4 b (list_elem_of_here _ _)) as (x' & Hx' & Rx). rewrite Hx in Hx'. injection Hx' as <-.
  destruct I3 as (Hq & n & Hn & Hc). set (s1 := set_held (LkIde :: held (dv_k d)) (dv_k d)).
  pose (d1 := set_dv_idequeue n (set_dv_k s1 d)).
  assert (bufs (dv_k d1) !! b = Some x) as Hx1 by (unfold d1, s1; cbn [dv_k set_dv_k set_dv_idequeue]; by ksimpl).
  destruct (intr_data b x d1 disk Hx1) as (w & R & Hs & Hb & Hbad); [done..|].
  exists x. unfold ide_intr. erewrite bind_ret_l by (by apply lift_k_ret, acquire_run). fold s1.
  erewrite (bind_ret_l (gets dv_idequeue)) by reflexivity. change (dv_idequeue (set_dv_k s1 d)) with (dv_idequeue d). rewrite Hq.
  erewrite bind_ret_l by (unfold qnext_at; cbn [dv_qnext set_dv_k]; by rewrite Hn).
  rewrite (bind_ret_l (modify (set_dv_idequeue n)) _ _ tt d1 eq_refl).
  rewrite (bind_ret_l _ _ _ _ _ (lift_buf_at _ _ _ Hx1)), (bind_ret_l _ _ _ _ _ R).
  erewrite intr_finish; [|cbn [dv_k set_dv_k]; unfold with_buf; ksimpl; apply list_lookup_insert_eq; by eapply lookup_lt_Some|].
  2: { cbn [dv_k set_dv_k set_dv_idequeue d1]. unfold with_buf, s1. ksimpl. by apply not_elem_of_cons. }
  erewrite (bind_ret_l (gets dv_idequeue)) by reflexivity. rewrite (served_eq _ _ _ (fun f => Z.land (Z.lor f B_VALID) (Z.lnot B_DIRTY))).
  change (bad_of d1) with (bad_of d) in *. change (dv_k d1) with s1. cbn [dv_k set_dv_k dv_idequeue set_dv_w].
  rewrite completed_twice. fold (served (bad_of d) disk x). set (y := served (bad_of d) disk x).
  set (d2 := set_dv_k _ _). change (dv_idequeue d1) with n. apply NoDup_cons in I1 as [Hbq I1].
  assert (forall c, c ∈ q -> exists z, bufs (completed b y (dv_k d)) !! c = Some z /\ request z) as Hreq.
  { intros c Hin. destruct (I4 c (list_elem_of_further _ _ _ Hin)) as (z & Hz & Rz). exists z. split; [|done].
    rewrite completed_lookup; [done|]. by intros ->. }
  destruct q as [|c q]; cbn [chain] in Hc.
  - subst n. rewrite bool_decide_eq_false_2 by (intros H; by apply H). cbn [when].
    rewrite (bind_ret_l (ret tt) _ d2 tt d2 eq_refl).
    exists (set_dv_k (completed b y (dv_k d)) d2). split; [done|]. split; [by apply (intr_release b y (dv_k d))|].
    split; [done|]. split; [exact Hbad|]. constructor; try done. by apply served_sector.
  - destruct Hc as (-> & m & Hm & Hc). rewrite bool_decide_eq_true_2 by done. cbn [when].
    destruct (Hreq c (list_elem_of_here _ _)) as (z & Hz & Rz).
    destruct (idestart_run polls limit view L c z d2 (served_disk disk x)) as (w' & R' & Hw' & Hb' & Hbad'); [exact Hz|done|..].
    { change (view (dv_w d2)) with (view w). lia. }
    { exact Hs. }
    rewrite (bind_ret_l _ _ _ _ _ R').
    exists (set_dv_k (completed b y (dv_k d)) (set_dv_w w' d2)). split; [done|].
    split; [by apply (intr_release b y (dv_k d))|]. split; [done|].
    split; [unfold bad_of; cbn [dv_w set_dv_k set_dv_w]; rewrite Hbad'; exact Hbad|].
    constructor; try done; [by split; [|exists m]|by apply served_sector|].
    intros c' q' [= <- <-]. by exists z.
Qed.

(** The empty queue: the interrupt is ignored. *)
Lemma ide_intr_none d disk : ide_inv d disk [] -> LkIde ∉ held (dv_k d) -> ide_intr polls d = Ret tt d.
Proof.
  intros I Hi. unfold ide_intr. erewrite bind_ret_l by (by apply lift_k_ret, acquire_run).
  erewrite (bind_ret_l (gets dv_idequeue)) by reflexivity. cbn [dv_idequeue set_dv_k]. rewrite (iq_chain _ _ _ I : dv_idequeue d = None).
  erewrite lift_k_ret by (apply (release_run _ (held (dv_k d))); [cbn [dv_k set_dv_k]; by ksimpl|done]).
  cbn [dv_k set_dv_k]. knorm. rewrite (set_held_id (dv_k d)) by done. by destruct d.
Qed.

(** The caller of [iderw]: a running process that has the buffer's lock. *)
Record rw_caller d (me : nat) (p : proc) (b : nat) (x : buf) : Prop := {
  rc_caller : fscaller (dv_k d) me p;
  rc_buf : bufs (dv_k d) !! b = Some x;
  rc_locked : b_locked x = true;
  rc_pid : b_lkpid x = p_pid p;
  rc_request : request x;
  rc_drive : b_dev x = 0 \/ dv_havedisk1 d = true;
  rc_range : (b < NBUF)%nat;
}.

(** The kernel's state when [iderw] has gone to sleep. *)
Definition waiting (me b : nat) (s : kstate) : kstate := asleep me (ChBuf b) (set_held [LkPtable] s).

(** A new request goes to the end of the queue, and its caller to sleep. *)
Lemma ide_rw_run d disk q me p b x : ide_inv d disk q -> rw_caller d me p b x -> b ∉ q ->
  exists d', ide_rw polls b d = Block d' /\ dv_k d' = waiting me b (dv_k d) /\ bad_of d' = bad_of d /\
    dv_havedisk1 d' = dv_havedisk1 d /\ ide_inv d' disk (q ++ [b]).
Proof.
  intros [I1 I2 I3 I4 I5 I6 I7 I8] [Hc Hx Hl Hk Rx Hdr Hlt] Hb. pose proof Hc as [C1 C2 C3 C4].
  unfold ide_rw. erewrite bind_ret_l by (by eapply lift_k_ret, holdingsleep_run). rewrite set_dv_k_id by done. cbn [negb].
  rewrite (bind_ret_l _ _ _ _ _ (lift_buf_at _ _ _ Hx)). erewrite (bind_ret_l (gets dv_havedisk1)) by reflexivity.
  rewrite (proj2 (Z.eqb_neq _ _)) by apply (rq_flags _ Rx).
  replace (negb (b_dev x =? 0) && negb (dv_havedisk1 d)) with false by (by destruct Hdr as [-> | ->]; [|rewrite andb_false_r]).
  erewrite bind_ret_l by (apply lift_k_ret, acquire_run; rewrite C4; apply not_elem_of_nil). rewrite C4.
  set (d1 := set_dv_k (set_held [LkIde] (dv_k d)) d).
  match goal with |- context [bind (set_qnext b None) (fun _ => bind _ (fun pp => bind _ (fun _ => ?f))) d1] =>
    destruct (enqueue_run b q f d1 I1 Hb) as (h & qn & E & Hqn & Hch); [change (dv_qnext d1) with (dv_qnext d); by rewrite I2|done|done|] end.
  rewrite E. clear E. set (d2 := set_dv_idequeue h (set_dv_qnext qn d1)).
  erewrite (bind_ret_l (gets dv_idequeue)) by reflexivity. change (dv_idequeue d2) with h.
  assert (bufs (dv_k d2) !! b = Some x) as Hx2 by (unfold d2, d1; cbn [dv_k set_dv_k set_dv_qnext set_dv_idequeue]; by ksimpl).
  assert (exists w, (if bool_decide (h = Some b) then idestart polls (Some b) else ret tt) d2 = Ret tt (set_dv_w w d2) /\
    (iv_busy (view w) <= limit)%nat /\ iv_bad (view w) = bad_of d /\
    (q = [] -> working disk x (view w)) /\ (q <> [] -> view w = view (dv_w d))) as (w & R & Hw1 & Hw2 & Hw3 & Hw4).
  { destruct q as [|c q].
    - destruct Hch as [-> _]. rewrite bool_decide_eq_true_2 by done.
      destruct (idestart_run polls limit view L b x d2 disk Hx2 Rx) as (w & R & H1 & H2 & H3);
        [change (view (dv_w d2)) with (view (dv_w d)); lia|by apply I7|]. by exists w.
    - destruct Hch as [-> _]. apply not_elem_of_cons in Hb as [Hcb _]. rewrite bool_decide_eq_false_2 by congruence.
      exists (dv_w d). split; [by destruct d|]. done. }
  unfold when. rewrite (bind_ret_l _ _ _ _ _ R). unfold ide_rw_round.
  rewrite (bind_ret_l _ _ _ _ _ (lift_buf_at b x (set_dv_w w d2) Hx2)), (proj2 (Z.eqb_neq _ _)) by apply (rq_flags _ Rx). cbn [negb].
  eexists. split; [apply lift_k_block, (sleep_run me p); cbn [dv_k set_dv_k d2 d1 set_dv_w set_dv_qnext set_dv_idequeue]; by ksimpl|].
  cbn [dv_k set_dv_k d2 d1 set_dv_w set_dv_qnext set_dv_idequeue]. split; [unfold waiting; f_equal; by knorm|].
  split; [exact Hw2|]. split; [done|].
  assert (forall c y, bufs (dv_k d) !! c = Some y -> bufs (waiting me b (dv_k d)) !! c = Some y) as Hbufs.
  { intros c y Hy. unfold waiting, asleep. by ksimpl. }
  replace (asleep me _ _) with (waiting me b (dv_k d)) by (unfold waiting; f_equal; by knorm).
  constructor; try done.
  - apply NoDup_app. split; [done|]. split; [|apply NoDup_singleton]. by intros c Hcq ->%list_elem_of_singleton.
  - intros c [Hcq| ->%list_elem_of_singleton]%elem_of_app; [|exists x; by split; [apply Hbufs|]].
    destruct (I4 c Hcq) as (y & Hy & Ry). exists y. split; [by apply Hbufs|done].
  - by destruct q.
  - intros c q' Eq. destruct q as [|c0 q]; injection Eq as <- <-; [exists x; split; [by apply Hbufs|by apply Hw3]|].
    destruct (I8 c0 q eq_refl) as (y & Hy & Wy). exists y. split; [by apply Hbufs|].
    cbn [dv_w set_dv_k set_dv_w]. by rewrite Hw4.
Qed.

(** ** Runs of the driver

    [ide_run disk q d]: the driver can be in state [d], with the requests of
    [q] pending, and [disk] is the effect of the requests completed so far.
    Between a request and an interrupt the kernel may do anything that leaves
    the pending buffers alone. *)
Inductive ide_run : (Z -> Z -> list Z) -> list nat -> devst W -> Prop :=
  | run_start d disk : ide_inv d disk [] -> ide_run disk [] d
  | run_request d d' disk q me p b x : ide_run disk q d -> rw_caller d me p b x -> b ∉ q ->
      ide_rw polls b d = Block d' -> ide_run disk (q ++ [b]) d'
  | run_interrupt d d' disk b q x : ide_run disk (b :: q) d -> bufs (dv_k d) !! b = Some x ->
      LkIde ∉ held (dv_k d) -> LkPtable ∉ held (dv_k d) -> ide_intr polls d = Ret tt d' ->
      ide_run (served_disk disk x) q d'
  | run_kernel d disk q s : ide_run disk q d -> (forall b, b ∈ q -> bufs s !! b = bufs (dv_k d) !! b) ->
      ide_run disk q (set_dv_k s d).

Lemma ide_inv_kernel d disk q s : ide_inv d disk q -> (forall b, b ∈ q -> bufs s !! b = bufs (dv_k d) !! b) ->
  ide_inv (set_dv_k s d) disk q.
Proof.
  intros [I1 I2 I3 I4 I5 I6 I7 I8] Hs. constructor; try done; cbn [dv_k set_dv_k].
  - intros b Hb. rewrite Hs by done. by apply I4.
  - intros b q' ->. rewrite Hs by apply list_elem_of_here. by eapply I8.
Qed.

Lemma ide_run_inv disk q d : ide_run disk q d -> ide_inv d disk q.
Proof.
  induction 1 as [d disk I|d d' disk q me p b x _ I C Hb R|d d' disk b q x _ I Hx H1 H2 R|d disk q s _ I Hs]; [done|..].
  - destruct (ide_rw_run d disk q me p b x I C Hb) as (d2 & R2 & _ & _ & _ & I2). rewrite R in R2. by injection R2 as <-.
  - destruct (ide_intr_run d disk b q I H1 H2) as (x' & d2 & Hx2 & R2 & _ & _ & I2). rewrite R in R2. rewrite Hx in Hx2.
    by injection R2 as <-; injection Hx2 as <-.
  - by apply ide_inv_kernel.
Qed.

(** [n] interrupts in a row. *)
Fixpoint ide_intrs (n : nat) : D W unit :=
  match n with
  | O => ret tt
  | S n' => ide_intr polls ;; ide_intrs n'
  end.

(** The drives and the buffers after the requests of [q], in this order. *)
Fixpoint served_all (bad : Z -> Z -> bool) (disk : Z -> Z -> list Z) (bs : list buf) (q : list nat)
    : (Z -> Z -> list Z) * list buf :=
  match q with
  | [] => (disk, bs)
  | b :: q' =>
      match bs !! b with
      | Some x => served_all bad (served_disk disk x) (<[b := served bad disk x]> bs) q'
      | None => served_all bad disk bs q'
      end
  end.

Lemma served_all_app bad q1 q2 : forall disk bs, served_all bad disk bs (q1 ++ q2) =
  served_all bad (served_all bad disk bs q1).1 (served_all bad disk bs q1).2 q2.
Proof. induction q1 as [|b q1 IH]; intros disk bs; cbn [served_all app]; [done|]. by destruct (bs !! b). Qed.

Lemma served_all_length bad q : forall disk bs, length (served_all bad disk bs q).2 = length bs.
Proof.
  induction q as [|b q IH]; intros disk bs; cbn [served_all]; [done|]. destruct (bs !! b); rewrite IH; [apply length_insert|done].
Qed.

(** The last request is done: its buffer is valid and clean. *)
Lemma served_flags bad disk x : Z.land (b_flags (served bad disk x)) (Z.lor B_VALID B_DIRTY) = B_VALID.
Proof.
  unfold served. ksimpl. rewrite <- Z.land_assoc. change (Z.land (Z.lnot B_DIRTY) (Z.lor B_VALID B_DIRTY)) with B_VALID.
  apply Z.bits_inj'. intros n _. rewrite Z.land_spec, Z.lor_spec. by destruct (Z.testbit (b_flags x) n), (Z.testbit B_VALID n).
Qed.

Lemma served_last bad q b : forall disk bs, (b < length bs)%nat ->
  exists x, (served_all bad disk bs (q ++ [b])).2 !! b = Some x /\ Z.land (b_flags x) (Z.lor B_VALID B_DIRTY) = B_VALID.
Proof.
  intros disk bs Hb. rewrite served_all_app. cbn [served_all]. set (r := served_all bad disk bs q).
  assert (b < length r.2)%nat as Hr by (subst r; by rewrite served_all_length).
  destruct (lookup_lt_is_Some_2 _ _ Hr) as [y Hy]. rewrite Hy. cbn [snd]. eexists.
  split; [by apply list_lookup_insert_eq|apply served_flags].
Qed.

(** A process that sleeps on one of the buffers has become runnable. *)
Lemma wakes_run q ch : forall (pt : list proc) (me : nat) p, pt !! me = Some p -> p_chan p = Some ch ->
  (p_state p = RUNNABLE \/ p_state p = SLEEPING /\ ch ∈ (ChBuf <$> q)) ->
  exists p', foldl (fun pt b => wake (Some (ChBuf b)) <$> pt) pt q !! me = Some p' /\ p_state p' = RUNNABLE.
Proof.
  induction q as [|b q IH]; intros pt me p Hp Hc Hs; cbn [foldl].
  { destruct Hs as [Hs|[_ []%elem_of_nil]]. by exists p. }
  apply (IH _ me (wake (Some (ChBuf b)) p)); [by rewrite list_lookup_fmap, Hp|rewrite wake_eq; by ksimpl|].
  rewrite wake_state. case_decide as D; [by left|]. destruct Hs as [Hs|[Hs Hin]]; [by left|]. right. split; [done|].
  rewrite fmap_cons in Hin. apply elem_of_cons in Hin as [->|Hin]; [|done]. by destruct D.
Qed.


Lemma ide_intrs_run q1 q2 : forall d disk, ide_inv d disk (q1 ++ q2) -> LkIde ∉ held (dv_k d) -> LkPtable ∉ held (dv_k d) ->
  exists d', ide_intrs (length q1) d = Ret tt d' /\
    bufs (dv_k d') = (served_all (bad_of d) disk (bufs (dv_k d)) q1).2 /\ held (dv_k d') = held (dv_k d) /\
    ptable (dv_k d') = foldl (fun pt b => wake (Some (ChBuf b)) <$> pt) (ptable (dv_k d)) q1 /\
    ide_inv d' (served_all (bad_of d) disk (bufs (dv_k d)) q1).1 q2.
Proof.
  induction q1 as [|b q1 IH]; intros d disk I Hi Hp; [by exists d|].
  destruct (ide_intr_run d disk b (q1 ++ q2) I Hi Hp) as (x & d1 & Hx & R & Hk & Hbad & I1).
  assert (held (dv_k d1) = held (dv_k d)) as Hh by (rewrite Hk; unfold completed, with_buf; by ksimpl).
  assert (bufs (dv_k d1) = <[b := served (bad_of d) disk x]> (bufs (dv_k d))) as Hb by (rewrite Hk; unfold completed, with_buf; by ksimpl).
  assert (ptable (dv_k d1) = wake (Some (ChBuf b)) <$> ptable (dv_k d)) as Ht by (rewrite Hk; unfold completed, with_buf; by ksimpl).
  destruct (IH d1 _ I1) as (d' & R' & H1 & H2 & H3 & H4); [by rewrite Hh..|].
  exists d'. cbn [length ide_intrs served_all foldl]. rewrite (bind_ret_l _ _ _ _ _ R), Hx, <- Hb, <- Ht, <- Hbad, <- Hh. done.
Qed.

(** ** A request from the call to the return

    The caller sleeps, the scheduler runs, the disk interrupts, and the
    scheduler switches back to the caller. *)
Definition ide_rw_rest (me b : nat) : D W unit :=
  lift_k (scheduler_back ;; release LkPtable) ;;
  ide_intr polls ;;
  lift_k (acquire LkPtable ;; scheduler_switch me) ;;
  ide_rw_resume b.

(** The kernel's state while nothing runs. *)
Definition descheduled (s : kstate) : kstate := set_held [] (set_cur None (set_cr3 (V2P (kpgdir s)) s)).

Lemma leave_run s : held s = [LkPtable] -> (scheduler_back ;; release LkPtable) s = Ret tt (descheduled s).
Proof.
  intros Hh. unfold scheduler_back, switchkvm. krun. erewrite release_run; [|ksimpl; exact Hh|apply not_elem_of_nil].
  unfold descheduled. by knorm.
Qed.

Lemma enter_run me p s : held s = [] -> ptable s !! me = Some p -> p_kstack p <> 0 -> p_pgdir p <> 0 ->
  (acquire LkPtable ;; scheduler_switch me) s = Ret tt (set_held [LkPtable] (set_cur (Some me)
    (set_cr3 (V2P (p_pgdir p)) (set_ptable (<[me := set_p_state RUNNING p]> (ptable s)) s)))).
Proof.
  intros Hh Hp Hk Hd. rewrite run_acquire by (rewrite Hh; apply not_elem_of_nil). unfold scheduler_switch, switchuvm. krun.
  erewrite run_proc_at by (ksimpl; exact Hp). rewrite !(proj2 (Z.eqb_neq _ _)) by done. krun.
  erewrite upd_proc_run by (ksimpl; exact Hp). rewrite Hh. by knorm.
Qed.

(** The woken caller finds the buffer valid and returns. *)
Lemma resume_run me b x d : cur (dv_k d) = Some me -> held (dv_k d) = [LkPtable] -> bufs (dv_k d) !! b = Some x ->
  Z.land (b_flags x) (Z.lor B_VALID B_DIRTY) = B_VALID ->
  ide_rw_resume b d = Ret tt (set_dv_k (set_held [] (set_ptable (alter (set_p_chan None) me (ptable (dv_k d))) (dv_k d))) d).
Proof.
  intros Hc Hh Hx Hf. unfold ide_rw_resume, ide_rw_round. erewrite bind_ret_l by (by apply lift_k_ret, sleep_resume_run).
  erewrite bind_ret_l by (apply lift_buf_at; cbn [dv_k set_dv_k]; ksimpl; exact Hx). rewrite Hf, Z.eqb_refl. cbn [negb].
  erewrite lift_k_ret by (apply (release_run _ []); [cbn [dv_k set_dv_k]; by ksimpl|apply not_elem_of_nil]).
  cbn [dv_k set_dv_k]. by knorm.
Qed.

Lemma ide_rw_whole d disk me p b x : ide_inv d disk [] -> rw_caller d me p b x -> p_kstack p <> 0 -> p_pgdir p <> 0 ->
  exists d1 d2, ide_rw polls b d = Block d1 /\ ide_rw_rest me b d1 = Ret tt d2 /\
    bufs (dv_k d2) = <[b := served (bad_of d) disk x]> (bufs (dv_k d)) /\ held (dv_k d2) = [] /\ cur (dv_k d2) = Some me /\
    ide_inv d2 (served_disk disk x) [].
Proof.
  intros I C Hks Hpd. destruct (ide_rw_run d disk [] me p b x I C (not_elem_of_nil _)) as (d1 & R1 & K1 & B1 & _ & I1).
  pose proof C as [[C1 C2 C3 C4] Hx _ _ _ _ _]. pose proof (lookup_lt_Some _ _ _ C2) as Hlt.
  exists d1. set (s1 := waiting me b (dv_k d)) in *. set (d2 := set_dv_k (descheduled s1) d1).
  assert (held (descheduled s1) = [] /\ bufs (descheduled s1) = bufs (dv_k d)) as [Hh2 Hb2]
    by (unfold descheduled, s1, waiting, asleep; split; by ksimpl).
  assert (ide_inv d2 disk [b]) as I2.
  { apply ide_inv_kernel; [exact I1|]. intros c _. rewrite Hb2, K1. unfold s1, waiting, asleep. by ksimpl. }
  destruct (ide_intr_run d2 disk b [] I2) as (x' & d3 & Hx' & R3 & K3 & B3 & I3); [cbn [dv_k d2 set_dv_k]; rewrite Hh2; apply not_elem_of_nil..|].
  cbn [dv_k d2 set_dv_k] in Hx', K3. rewrite Hb2, Hx in Hx'. injection Hx' as <-.
  change (bad_of d2) with (bad_of d1) in K3. rewrite B1 in K3. set (y := served (bad_of d) disk x) in *.
  assert (held (dv_k d3) = [] /\ bufs (dv_k d3) = <[b := y]> (bufs (dv_k d))) as [Hh3 Hb3]
    by (rewrite K3; unfold completed, with_buf; ksimpl; by rewrite Hb2).
  assert (exists p3, ptable (dv_k d3) !! me = Some p3 /\ p_kstack p3 = p_kstack p /\ p_pgdir p3 = p_pgdir p) as (p3 & Hp3 & Ek & Ep).
  { rewrite K3. unfold completed, with_buf, descheduled, s1, waiting, asleep. ksimpl. rewrite list_lookup_fmap.
    rewrite (alter_eq_insert _ me p) by done. rewrite list_lookup_insert_eq by done. eexists. split; [done|].
    rewrite wake_eq. by ksimpl. }
  set (d4 := set_dv_k (set_held [LkPtable] (set_cur (Some me) (set_cr3 (V2P (p_pgdir p3))
    (set_ptable (<[me := set_p_state RUNNING p3]> (ptable (dv_k d3))) (dv_k d3))))) d3).
  eexists. split; [exact R1|]. split.
  { unfold ide_rw_rest. rewrite (bind_ret_l _ _ d1 tt d2) by (apply lift_k_ret; rewrite K1; by apply leave_run).
    rewrite (bind_ret_l _ _ _ _ _ R3).
    rewrite (bind_ret_l _ _ d3 tt d4) by (apply lift_k_ret, enter_run; [done|done|by rewrite Ek|by rewrite Ep]).
    apply (resume_run me b y); [done|done| |apply served_flags].
    cbn [d4 dv_k set_dv_k]. ksimpl. rewrite Hb3. apply list_lookup_insert_eq. by eapply lookup_lt_Some. }
  cbn [dv_k d4 set_dv_k]. ksimpl. split; [done|]. split; [done|]. split; [done|].
  change (ide_inv (set_dv_k (set_held [] (set_ptable (alter (set_p_chan None) me (ptable (dv_k d4))) (dv_k d4))) d3) (served_disk disk x) []).
  apply ide_inv_kernel; [done|]. intros c []%elem_of_nil.
Qed.

End driver.
