(* ===== verification/LogSpec.v ===== *)
(** * Commit and recovery of the log

    What [write_log], [write_head], [install_trans], [commit] and
    [recover_from_log] do to the disk, write by write, and that they do
    nothing else. *)

From S2P Require Import Prelude Mem KState Mmu Kalloc Vm File Proc ProcMem WaitSpec Bio BioSpec.
From S2P Require Import Layout Log.

Section logspec.
Context {LK : Linker} {FS : FsOps} {DK : Disk}.

(** ** Steps on the cache *)

(** The dirty blocks are among [L], which leaves room in the cache. *)
Definition dirty_in (s : kstate) (L : list Z) : Prop := forall k, isdirty s k -> k ∈ L.

(** From [s] to [s'] the cache sent [ws] to the disk: the blocks have changed
    accordingly, and nothing but the cache, the disk and the sleepers. *)
Record cache_step (s s' : kstate) (me : nat) (p : proc) (ws : list (Z * list Z)) : Prop := {
  ct_caller : fscaller s' me p;
  ct_inv : binv s' (p_pid p) [];
  ct_frame : s' = set_bufs (bufs s') (set_lru (lru s') (set_writes (writes s') (set_ptable (ptable s') s)));
  ct_writes : writes s' = writes s ++ ws;
  ct_content : forall k, content s' k = disk_after (content s) ws k;
  ct_dirty : forall k, isdirty s' k <-> isdirty s k /\ k ∉ ws.*1;
}.

Lemma disk_after_ext d d' ws : (forall k, d k = d' k) -> forall k, disk_after d ws k = disk_after d' ws k.
Proof.
  revert d d'. induction ws as [|w ws IH]; intros d d' Hd k; [done|]. cbn. apply IH. intros j.
  by destruct (_ =? _).
Qed.

Lemma disk_after_app d ws ws' : disk_after d (ws ++ ws') = disk_after (disk_after d ws) ws'.
Proof. apply foldl_app. Qed.

Lemma disk_after_other d ws k : k ∉ ws.*1 -> disk_after d ws k = d k.
Proof.
  revert d. induction ws as [|w ws IH]; intros d Hk; [done|]. cbn in *.
  apply not_elem_of_cons in Hk as [Hk Hws]. unfold disk_after in IH. rewrite IH by done.
  by destruct (Z.eqb_spec k w.1).
Qed.

Lemma disk_after_agree d1 d2 ws k : d1 k = d2 k \/ k ∈ ws.*1 -> disk_after d1 ws k = disk_after d2 ws k.
Proof.
  revert d1 d2. induction ws as [|w ws IH]; intros d1 d2; cbn.
  - by intros [?|?%not_elem_of_nil].
  - rewrite elem_of_cons. intros H. apply IH. destruct (Z.eqb_spec k w.1) as [->|]; [by left|]. tauto.
Qed.

(** Writing what is already there. *)
Lemma disk_after_same d ws k : (forall w, w ∈ ws -> d w.1 = w.2) -> disk_after d ws k = d k.
Proof.
  revert d. induction ws as [|w ws IH]; intros d H; [done|]. cbn. etransitivity; [apply IH|].
  - intros v Hv. cbn. rewrite (H v) by (by right). destruct (Z.eqb_spec v.1 w.1) as [E|]; [|done].
    rewrite <- (H v), <- (H w), E by (by left || by right). done.
  - cbn. destruct (Z.eqb_spec k w.1) as [->|]; [|done]. symmetry. apply H. left.
Qed.

Lemma cache_step_refl s me p : fscaller s me p -> binv s (p_pid p) [] -> cache_step s s me p [].
Proof.
  intros C I. constructor; try done.
  - by destruct s.
  - by rewrite app_nil_r.
  - intros k. split; [|by intros [? _]]. intros H. split; [done|apply not_elem_of_nil].
Qed.

Lemma cache_step_trans s s' s'' me p ws ws' : cache_step s s' me p ws -> cache_step s' s'' me p ws' ->
  cache_step s s'' me p (ws ++ ws').
Proof.
  intros [A1 A2 A3 A4 A5 A6] [B1 B2 B3 B4 B5 B6]. constructor; try done.
  - rewrite B3, A3 at 1. by destruct s.
  - by rewrite B4, A4, app_assoc.
  - intros k. rewrite B5, disk_after_app. by apply disk_after_ext.
  - intros k. rewrite B6, A6, fmap_app, elem_of_app. tauto.
Qed.

Lemma cache_step_klog s s' me p ws : cache_step s s' me p ws -> klog s' = klog s.
Proof. intros H. by rewrite (ct_frame _ _ _ _ _ H). Qed.

Lemma cache_step_disk s s' me p ws : cache_step s s' me p ws -> disk s' = disk_after (disk s) ws.
Proof.
  intros H. unfold disk. rewrite (ct_writes _ _ _ _ _ H), disk_after_app. do 2 f_equal.
  rewrite (ct_frame _ _ _ _ _ H). by ksimpl.
Qed.

(** ** Room in the cache *)

Lemma NoDup_incl_length {A} (l k : list A) : NoDup l -> (forall x, x ∈ l -> x ∈ k) -> (length l <= length k)%nat.
Proof. intros Hl Hk. by apply submseteq_length, NoDup_submseteq. Qed.

Lemma evictable s pid H L : binv s pid H -> dirty_in s L -> (length H + length L < NBUF)%nat ->
  exists b x, bufs s !! b = Some x /\ (b ∉ H) /\ b_flags x <> 6.
Proof.
  intros I HL Hlen. set (free := filter (fun b => b ∉ H) (seq 0 NBUF)).
  set (fl b := from_option b_flags 0 (bufs s !! b)).
  assert (forall b, b ∈ free -> (b ∉ H) /\ exists x, bufs s !! b = Some x) as Hfree.
  { intros b [Hb Hs]%list_elem_of_filter. split; [done|]. apply lookup_lt_is_Some.
    rewrite (bi_len _ _ _ I). apply elem_of_seq in Hs. lia. }
  destruct (decide (Forall (fun b => fl b = 6) free)) as [Hall|Hsome].
  - exfalso. rewrite Forall_forall in Hall. set (bn b := from_option b_blockno 0 (bufs s !! b)).
    assert (length free <= length L)%nat.
    { rewrite <- (length_fmap bn). apply NoDup_incl_length.
      - apply NoDup_fmap_2_strong; [|apply NoDup_filter, NoDup_seq]. intros b c Hb Hc E.
        destruct (Hfree _ Hb) as (_ & x & Hx), (Hfree _ Hc) as (_ & y & Hy).
        apply Hall in Hb, Hc. unfold fl, bn in *. rewrite Hx, Hy in *. cbn in *.
        eapply (bi_uniq _ _ _ I); try done.
        + destruct (bi_ok _ _ _ I _ _ Hx) as [[? _]|[_ [? _]]]; [congruence|done].
        + destruct (bi_ok _ _ _ I _ _ Hy) as [[? _]|[_ [? _]]]; [congruence|done].
      - intros k (b & -> & Hb)%list_elem_of_fmap. destruct (Hfree _ Hb) as (_ & x & Hx).
        apply HL. exists b, x. apply Hall in Hb. unfold fl, bn in *. by rewrite Hx in *. }
    assert (length (seq 0 NBUF) <= length (H ++ free))%nat.
    { apply NoDup_incl_length; [apply NoDup_seq|]. intros b Hb. rewrite elem_of_app.
      destruct (decide (b ∈ H)); [by left|]. right. by apply list_elem_of_filter. }
    rewrite length_app, length_seq in *. lia.
  - apply not_Forall_Exists in Hsome; [|apply _]. apply Exists_exists in Hsome as (b & Hb & Hf).
    destruct (Hfree _ Hb) as (HbH & x & Hx). exists b, x. change (fl b <> 6) in Hf. unfold fl in Hf. by rewrite Hx in Hf.
Qed.

Lemma isdirty_cached s pid H n : binv s pid H -> isdirty s n -> room s H n.
Proof.
  intros I (b & x & Hb & Hf & Hn). left. exists b, x. split; [done|]. split; [|done].
  destruct (bi_ok _ _ _ I _ _ Hb) as [[? _]|[_ [? _]]]; [congruence|done].
Qed.

(** ** Two blocks *)

(** Read block [a], then block [h], with the cache otherwise idle. *)
Record two_bufs (s s' : kstate) (p : proc) (a h : Z) (b c : nat) (x y : buf) : Prop := {
  tb_state : s' = with_buf c y (with_buf b x s);
  tb_ne : b <> c;
  tb_a : bufs s' !! b = Some x;
  tb_h : bufs s' !! c = Some y;
  tb_na : b_blockno x = a;
  tb_nh : b_blockno y = h;
  tb_da : b_data x = content s a;
  tb_dh : b_data y = content s h;
  tb_ca : b_flags x = 2 -> b_data x = disk s a;
  tb_ch : b_flags y = 2 -> b_data y = disk s h;
  tb_inv : binv s' (p_pid p) [c; b];
  tb_content : forall k, content s' k = content s k;
  tb_dirty : forall k, isdirty s' k <-> isdirty s k;
}.

Lemma bread_two s me p a h L : fscaller s me p -> binv s (p_pid p) [] -> a <> h ->
  0 <= a < disksize -> 0 <= h < disksize -> dirty_in s L -> (length L < NBUF)%nat ->
  isdirty s h \/ (S (length L) < NBUF)%nat ->
  exists b c x y s1 s', bread 1 a s = Ret b s1 /\ klog s1 = klog s /\ bread 1 h s1 = Ret c s' /\
    two_bufs s s' p a h b c x y /\ fscaller s' me p.
Proof.
  intros C I Hah Ha Hh HL Hn Hroom.
  destruct (bread_run s me p [] a) as (b & x & Hr & [P0 P1 P2 P3 P4 Pc P5 P6 P7 P8]); [done|done|done| | |].
  { by intros ? ? _ ?%not_elem_of_nil. }
  { right. by eapply evictable. }
  pose proof (fscaller_bufs s me p (<[b := x]> (bufs s)) C) as C1.
  destruct (bread_run (with_buf b x s) me p [b] h) as (c & y & Hr' & [Q0 Q1 Q2 Q3 Q4 Qc Q5 Q6 Q7 Q8]); [done|done|done| | |].
  { intros d z Hd ->%list_elem_of_singleton. simplify_eq. congruence. }
  { destruct Hroom as [Hd|Hd].
    - eapply isdirty_cached; [done|]. by apply P8.
    - right. apply (evictable _ (p_pid p) [b] L); [done| |cbn [length]; lia]. intros k Hk%P8. by apply HL. }
  assert (b <> c) as Hbc by (intros ->; destruct Q1; left).
  exists b, c, x, y, (with_buf b x s), (with_buf c y (with_buf b x s)). do 3 (split; [done|]). split.
  - constructor; try done.
    + unfold with_buf in *. ksimpl. by rewrite list_lookup_insert_ne.
    + by rewrite Q4, P6.
    + intros k. by rewrite Q6.
    + intros k. by rewrite Q8.
  - by apply fscaller_bufs.
Qed.

(** Copy the data of the locked buffer [u] to the locked buffer [t], write [t]
    and release both. *)
Lemma copy_out s me p H t u x y : fscaller s me p -> binv s (p_pid p) H -> t <> u ->
  (forall c, c ∈ H <-> c = t \/ c = u) -> bufs s !! t = Some x -> bufs s !! u = Some y ->
  (b_flags y = 2 -> b_data y = disk s (b_blockno y)) ->
  exists s2 s3 s4 s', set_buf_data t (b_data y) s = Ret tt s2 /\ bwrite t s2 = Ret tt s3 /\
    brelse u s3 = Ret tt s4 /\ brelse t s4 = Ret tt s' /\
    cache_step s s' me p [(b_blockno x, b_data y)].
Proof.
  intros C I Htu HH Ht Hu Hcl. pose proof (lookup_lt_Some _ _ _ Ht) as Hlt.
  assert (t ∈ H) as HtH by (apply HH; by left). assert (u ∈ H) as HuH by (apply HH; by right).
  destruct (bi_mine _ _ _ I _ _ Ht HtH) as (_ & _ & _ & Dt). destruct (bi_mine _ _ _ I _ _ Hu HuH) as (_ & _ & _ & Du).
  assert (length (b_data y) = Z.to_nat BSIZE) as Hlen.
  { destruct (bi_ok _ _ _ I _ _ Hu) as [[_ ?]|(_ & _ & _ & ?)]; done. }
  set (x1 := set_b_data (b_data y) x). set (s2 := with_buf t x1 s).
  destruct (set_data_inv s (p_pid p) H t x (b_data y) I Ht HtH Hlen) as (I2 & N2 & D2). fold x1 s2 in I2, N2, D2.
  assert (bufs s2 !! t = Some x1) as Ht2 by (by apply list_lookup_insert_eq).
  assert (fscaller s2 me p) as C2 by (by apply fscaller_bufs).
  set (s3 := wrote t x1 s2). pose proof (bwrite_run s2 me p H t x1 C2 I2 Ht2 HtH) as R3.
  pose proof (bwrite_inv _ _ _ _ _ I2 Ht2 HtH) as I3. pose proof (bwrite_content _ _ _ _ _ I2 Ht2 HtH) as N3.
  pose proof (fun k => bwrite_dirty _ _ _ _ _ k I2 Ht2 HtH) as D3. fold s3 in R3, I3, N3, D3.
  assert (fscaller s3 me p) as C3 by (destruct C2; by constructor).
  assert (bufs s3 !! u = Some y) as Hu3.
  { unfold s3, wrote, s2, with_buf. ksimpl. by rewrite !list_lookup_insert_ne. }
  assert (b_blockno y <> b_blockno x) as Hne by (intros E; apply Htu; symmetry; by eapply (bi_uniq _ _ _ I)).
  destruct (brelse_inv s3 me p H [t] u y) as (C4 & I4 & N4 & D4); [done|done|done|done| | | |].
  { by intros ?%list_elem_of_singleton. }
  { intros c Hc. rewrite list_elem_of_singleton, HH. split; [by left|by intros [?|?]]. }
  { intros F. unfold s3. rewrite disk_wrote. unfold x1. ksimpl. rewrite (proj2 (Z.eqb_neq _ _)) by done. by apply Hcl. }
  set (s4 := released u y s3) in *. set (x3 := set_b_flags 2 x1).
  assert (bufs s4 !! t = Some x3) as Ht4.
  { unfold s4, released, with_buf. ksimpl. rewrite list_lookup_insert_ne by done. unfold s3, wrote, with_buf. ksimpl.
    apply list_lookup_insert_eq. unfold s2, with_buf. ksimpl. by rewrite length_insert. }
  destruct (brelse_inv s4 me p [t] [] t x3) as (C5 & I5 & N5 & D5); [done|done|done|left|apply not_elem_of_nil| | |].
  { intros c Hc. rewrite list_elem_of_singleton. split; [by intros ?%not_elem_of_nil|done]. }
  { intros _. change (disk s4) with (disk s3). unfold s3. rewrite disk_wrote. unfold x3. ksimpl. by rewrite Z.eqb_refl. }
  exists s2, s3, s4, (released t x3 s4). split; [by apply upd_buf_eq|]. split; [done|].
  split; [by eapply brelse_run|]. split; [eapply brelse_run; try done; left|].
  constructor; try done.
  - intros k. rewrite N5, N4, N3, N2. cbn. by rewrite Z.eqb_sym.
  - intros k. rewrite D5, D4, D3, D2. cbn. by rewrite list_elem_of_singleton.
Qed.

(** The steps of a copy, counted from the state before the two reads. *)
Lemma two_bufs_step s s2 s6 me p a h b c x y ws : two_bufs s s2 p a h b c x y ->
  cache_step s2 s6 me p ws -> cache_step s s6 me p ws.
Proof.
  intros [T1 _ _ _ _ _ _ _ _ _ _ T12 T13] [A1 A2 A3 A4 A5 A6]. constructor; try done.
  - rewrite A3 at 1. rewrite T1. unfold with_buf. by knorm.
  - rewrite A4, T1. done.
  - intros k. rewrite A5. by apply disk_after_ext.
  - intros k. by rewrite A6, T13.
Qed.

(** One iteration of [write_log]: block [h] is copied to block [a]. *)
Lemma copy_to_first s me p a h L : fscaller s me p -> binv s (p_pid p) [] -> a <> h ->
  0 <= a < disksize -> 0 <= h < disksize -> dirty_in s L -> (length L < NBUF)%nat ->
  isdirty s h \/ (S (length L) < NBUF)%nat ->
  exists b c d s1 s2 s3 s4 s5 s6, bread 1 a s = Ret b s1 /\ klog s1 = klog s /\ bread 1 h s1 = Ret c s2 /\
    buf_data c s2 = Ret d s2 /\ set_buf_data b d s2 = Ret tt s3 /\ bwrite b s3 = Ret tt s4 /\
    brelse c s4 = Ret tt s5 /\ brelse b s5 = Ret tt s6 /\ cache_step s s6 me p [(a, content s h)].
Proof.
  intros C I Hah Ha Hh HL Hn Hroom.
  destruct (bread_two s me p a h L) as (b & c & x & y & s1 & s2 & R1 & K1 & R2 & T & C2); try done.
  pose proof T as [T1 T2 T3 T4 T5 T6 T7 T8 T9 T10 T11 T12 T13].
  destruct (copy_out s2 me p [c; b] b c x y) as (s3 & s4 & s5 & s6 & R3 & R4 & R5 & R6 & St); try done.
  { intros d. rewrite elem_of_cons, list_elem_of_singleton. tauto. }
  { intros F. rewrite T10 by done. by rewrite T1, T6. }
  exists b, c, (b_data y), s1, s2, s3, s4, s5, s6. do 3 (split; [done|]).
  split; [unfold buf_data; by rewrite (run_buf_at _ _ _ _ T4)|]. do 4 (split; [done|]).
  rewrite <- T8, <- T5. by eapply two_bufs_step.
Qed.

(** One iteration of [install_trans]: block [a] is copied to block [h]. *)
Lemma copy_to_second s me p a h L : fscaller s me p -> binv s (p_pid p) [] -> a <> h ->
  0 <= a < disksize -> 0 <= h < disksize -> dirty_in s L -> (length L < NBUF)%nat ->
  isdirty s h \/ (S (length L) < NBUF)%nat ->
  exists b c d s1 s2 s3 s4 s5 s6, bread 1 a s = Ret b s1 /\ klog s1 = klog s /\ bread 1 h s1 = Ret c s2 /\
    buf_data b s2 = Ret d s2 /\ set_buf_data c d s2 = Ret tt s3 /\ bwrite c s3 = Ret tt s4 /\
    brelse b s4 = Ret tt s5 /\ brelse c s5 = Ret tt s6 /\ cache_step s s6 me p [(h, content s a)].
Proof.
  intros C I Hah Ha Hh HL Hn Hroom.
  destruct (bread_two s me p a h L) as (b & c & x & y & s1 & s2 & R1 & K1 & R2 & T & C2); try done.
  pose proof T as [T1 T2 T3 T4 T5 T6 T7 T8 T9 T10 T11 T12 T13].
  destruct (copy_out s2 me p [c; b] c b y x) as (s3 & s4 & s5 & s6 & R3 & R4 & R5 & R6 & St); try done.
  { intros d. rewrite elem_of_cons, list_elem_of_singleton. tauto. }
  { intros F. rewrite T9 by done. by rewrite T1, T5. }
  exists b, c, (b_data x), s1, s2, s3, s4, s5, s6. do 3 (split; [done|]).
  split; [unfold buf_data; by rewrite (run_buf_at _ _ _ _ T3)|]. do 4 (split; [done|]).
  rewrite <- T7, <- T6. by eapply two_bufs_step.
Qed.

(** Change the data of block [a] and write it. *)
Lemma put_block s me p a L d : fscaller s me p -> binv s (p_pid p) [] -> 0 <= a < disksize ->
  dirty_in s L -> (length L < NBUF)%nat -> length d = Z.to_nat BSIZE ->
  exists b x s1 s2 s3 s', bread 1 a s = Ret b s1 /\ bufs s1 !! b = Some x /\ b_data x = content s a /\
    set_buf_data b d s1 = Ret tt s2 /\ bwrite b s2 = Ret tt s3 /\ brelse b s3 = Ret tt s' /\
    cache_step s s' me p [(a, d)].
Proof.
  intros C I Ha HL Hn Hd.
  destruct (bread_run s me p [] a) as (b & x & Hr & [P0 P1 P2 P3 P4 Pc P5 P6 P7 P8]); [done|done|done| | |].
  { by intros ? ? _ ?%not_elem_of_nil. }
  { right. by eapply evictable. }
  set (s1 := with_buf b x s) in *. pose proof (lookup_lt_Some _ _ _ P0) as Hlt.
  assert (fscaller s1 me p) as C1 by (by apply fscaller_bufs). assert (b ∈ [b]) as HbH by left.
  destruct (set_data_inv s1 (p_pid p) [b] b x d P5 P0 HbH Hd) as (I2 & N2 & D2).
  set (x1 := set_b_data d x) in *. set (s2 := with_buf b x1 s1) in *.
  assert (bufs s2 !! b = Some x1) as Hb2 by (by apply list_lookup_insert_eq).
  assert (fscaller s2 me p) as C2 by (by apply fscaller_bufs).
  set (s3 := wrote b x1 s2). pose proof (bwrite_run s2 me p [b] b x1 C2 I2 Hb2 HbH) as R3.
  pose proof (bwrite_inv _ _ _ _ _ I2 Hb2 HbH) as I3. pose proof (bwrite_content _ _ _ _ _ I2 Hb2 HbH) as N3.
  pose proof (fun k => bwrite_dirty _ _ _ _ _ k I2 Hb2 HbH) as D3. fold s3 in R3, I3, N3, D3.
  set (x3 := set_b_flags 2 x1).
  assert (bufs s3 !! b = Some x3) as Hb3.
  { apply list_lookup_insert_eq. unfold s2, with_buf. ksimpl. by rewrite length_insert. }
  assert (fscaller s3 me p) as C3 by (destruct C2; by constructor).
  destruct (brelse_inv s3 me p [b] [] b x3) as (C4 & I4 & N4 & D4); [done|done|done|done|apply not_elem_of_nil| | |].
  { intros c Hc. rewrite list_elem_of_singleton. split; [by intros ?%not_elem_of_nil|done]. }
  { intros _. unfold s3. rewrite disk_wrote. unfold x3. ksimpl. by rewrite Z.eqb_refl. }
  exists b, x, s1, s2, s3, (released b x3 s3). do 3 (split; [done|]). split; [by apply upd_buf_eq|].
  split; [done|]. split; [by eapply brelse_run|]. constructor; try done.
  - unfold s3, released, wrote, s2, s1, with_buf. ksimpl. unfold x1. ksimpl. by rewrite P2.
  - intros k. rewrite N4, N3, N2, P2, P6. done.
  - intros k. rewrite D4, D3, D2, P8. unfold x1. ksimpl. rewrite P2. cbn. by rewrite list_elem_of_singleton.
Qed.

(** Read block [a] and release it, with an update of the log in between. *)
Lemma get_block s me p a L : fscaller s me p -> binv s (p_pid p) [] -> 0 <= a < disksize ->
  dirty_in s L -> (length L < NBUF)%nat ->
  exists b x s1, bread 1 a s = Ret b s1 /\ bufs s1 !! b = Some x /\ b_data x = content s a /\ klog s1 = klog s /\
    forall l, exists s', brelse b (set_klog l s1) = Ret tt s' /\ cache_step (set_klog l s) s' me p [].
Proof.
  intros C I Ha HL Hn.
  destruct (bread_run s me p [] a) as (b & x & Hr & [P0 P1 P2 P3 P4 Pc P5 P6 P7 P8]); [done|done|done| | |].
  { by intros ? ? _ ?%not_elem_of_nil. }
  { right. by eapply evictable. }
  exists b, x, (with_buf b x s). do 4 (split; [done|]). intros l. set (s1 := set_klog l (with_buf b x s)).
  assert (fscaller s1 me p) as C1 by (destruct C; by constructor).
  assert (binv s1 (p_pid p) [b]) as I1 by (destruct P5; by constructor). assert (b ∈ [b]) as HbH by left.
  destruct (brelse_inv s1 me p [b] [] b x) as (C4 & I4 & N4 & D4); [done|done|done|done|apply not_elem_of_nil| | |].
  { intros c Hc. rewrite list_elem_of_singleton. split; [by intros ?%not_elem_of_nil|done]. }
  { intros F. rewrite P2. by apply Pc. }
  exists (released b x s1). split; [by eapply brelse_run|]. constructor; try done.
  - unfold released, s1, with_buf. ksimpl. by rewrite app_nil_r.
  - intros k. rewrite N4. exact (P6 k).
  - intros k. rewrite D4. change (isdirty s1 k) with (isdirty (with_buf b x s) k). rewrite P8.
    change (isdirty (set_klog l s) k) with (isdirty s k). cbn. split; [|by intros [? _]].
    intros ?. split; [done|apply not_elem_of_nil].
Qed.

(** ** log_write *)

(** The transaction so far: the blocks [hs] are in the in-memory header and
    are the dirty blocks of the cache. *)
Record trans_inv (s : kstate) (hs : list Z) : Prop := {
  ti_n : lg_n (klog s) = Z.of_nat (length hs);
  ti_block : take (length hs) (lg_block (klog s)) = hs;
  ti_len : length (lg_block (klog s)) = Z.to_nat LOGSIZE;
  ti_range : forall h, h ∈ hs -> 0 <= h < 2 ^ 31;
  ti_nodup : NoDup hs;
  ti_dirty : forall k, isdirty s k <-> k ∈ hs;
}.

(** [hs] with block [n], which is absorbed if it is already there. *)
Definition absorb (hs : list Z) (n : Z) : list Z := if decide (n ∈ hs) then hs else hs ++ [n].

(** The header after [log_write] of block [n]. *)
Definition logged (n : Z) (hs : list Z) (l : logst) : logst :=
  let i := default (length hs) (find_index (fun c => c =? n) hs) in
  set_lg_n (Z.of_nat (length (absorb hs n))) (set_lg_block (<[i := n]> (lg_block l)) l).

Lemma find_index_u32 n hs : (forall h, h ∈ hs -> 0 <= h < 2 ^ 31) ->
  find_index (fun c => u32 c =? n) hs = find_index (fun c => c =? n) hs.
Proof.
  induction hs as [|h hs IH]; intros H; [done|]. cbn. rewrite u32_id by (specialize (H h ltac:(left)); lia).
  rewrite IH; [done|]. intros k Hk. apply H. by right.
Qed.

Lemma find_index_eqb n hs :
  match find_index (fun c => c =? n) hs with Some i => hs !! i = Some n | None => n ∉ hs end.
Proof.
  destruct (find_index _ hs) as [i|] eqn:E.
  - apply find_index_Some in E as [(c & Hc & ->%Z.eqb_eq) _]. done.
  - rewrite find_index_None in E. intros (i & Hi)%list_elem_of_lookup. specialize (E _ _ Hi). lia.
Qed.

Lemma logged_block n hs l : take (length hs) (lg_block l) = hs -> (length hs < length (lg_block l))%nat ->
  take (length (absorb hs n)) (lg_block (logged n hs l)) = absorb hs n.
Proof.
  intros Ht Hlt. unfold logged, absorb. ksimpl. pose proof (find_index_eqb n hs) as E.
  destruct (find_index _ hs) as [i|]; cbn [default].
  - rewrite decide_True by (by eapply list_elem_of_lookup_2). rewrite list_insert_id; [done|].
    rewrite <- Ht in E. by apply lookup_take_Some in E as [? _].
  - rewrite decide_False by done. rewrite length_app. cbn [length].
    rewrite Nat.add_1_r. erewrite take_S_r by (by apply list_lookup_insert_eq). by rewrite take_insert_ge, Ht.
Qed.

Lemma log_write_run s me p H b x hs : fscaller s me p -> binv s (p_pid p) H -> bufs s !! b = Some x -> b ∈ H ->
  trans_inv s hs -> Z.of_nat (length hs) < Z.min LOGSIZE (lg_size (klog s) - 1) -> 1 <= lg_outstanding (klog s) ->
  disksize <= 2 ^ 31 ->
  log_write b s = Ret tt (set_klog (logged (b_blockno x) hs (klog s)) (with_buf b (set_b_flags 6 x) s)).
Proof.
  intros C I Hb HbH T Hn Ho Hds. pose proof (fc_held _ _ _ C) as Hh.
  destruct (bi_mine _ _ _ I _ _ Hb HbH) as (Hl & Hk & Hr & Hd).
  destruct (bi_ok _ _ _ I _ _ Hb) as [[_ ?]|(Hf & _ & Hnr & Hsz)]; [done|].
  unfold log_write. krun. rewrite (ti_n _ _ T), !(proj2 (Z.leb_gt _ _)), (proj2 (Z.ltb_ge _ _)) by lia. cbn [orb].
  rewrite run_acquire by (rewrite Hh; apply not_elem_of_nil). rewrite (run_buf_at b x) by (by ksimpl).
  rewrite Nat2Z.id, (ti_block _ _ T), (find_index_u32 _ _ (ti_range _ _ T)), (i32_id (b_blockno x)) by lia.
  set (i := default (length hs) _). unfold upd_log. krun. unfold when.
  assert ((Z.of_nat i =? Z.of_nat (length hs)) = bool_decide (b_blockno x ∉ hs)) as E.
  { pose proof (find_index_eqb (b_blockno x) hs) as E. unfold i. destruct (find_index _ hs) as [j|] eqn:Ef; cbn [from_option]; unfold id.
    - rewrite bool_decide_eq_false_2 by (intros Hx; apply Hx; by eapply list_elem_of_lookup_2).
      apply find_index_lt in Ef. apply Z.eqb_neq. lia.
    - rewrite bool_decide_eq_true_2 by done. apply Z.eqb_refl. }
  rewrite E. destruct (decide (b_blockno x ∈ hs)) as [Hin|Hin].
  - rewrite bool_decide_eq_false_2 by (intros Hx; by apply Hx). krun. erewrite run_upd_buf by (by ksimpl).
    erewrite release_run; [|ksimpl; by rewrite Hh|apply not_elem_of_nil].
    unfold logged, with_buf, absorb. rewrite decide_True by done. fold i. rewrite <- (ti_n _ _ T).
    assert (Z.lor (b_flags x) B_DIRTY = 6) as -> by (by destruct Hf as [-> | ->]). knorm.
    by rewrite (set_held_id _ []) by (by ksimpl).
  - rewrite bool_decide_eq_true_2 by done. krun. erewrite run_upd_buf by (by ksimpl).
    erewrite release_run; [|ksimpl; by rewrite Hh|apply not_elem_of_nil].
    unfold logged, with_buf, absorb. rewrite decide_False by done. fold i. rewrite length_app. cbn [length].
    rewrite Nat2Z.inj_add, <- (ti_n _ _ T).
    assert (Z.lor (b_flags x) B_DIRTY = 6) as -> by (by destruct Hf as [-> | ->]). knorm.
    by rewrite (set_held_id _ []) by (by ksimpl).
Qed.

Lemma absorb_elem hs n k : k ∈ absorb hs n <-> k ∈ hs \/ k = n.
Proof.
  unfold absorb. case_decide as D; [split; [by left|intros [?| ->]; done]|].
  by rewrite elem_of_app, list_elem_of_singleton.
Qed.

Lemma log_write_inv s pid H b x hs : binv s pid H -> bufs s !! b = Some x -> b ∈ H -> trans_inv s hs ->
  (length hs < Z.to_nat LOGSIZE)%nat -> disksize <= 2 ^ 31 ->
  let s' := set_klog (logged (b_blockno x) hs (klog s)) (with_buf b (set_b_flags 6 x) s) in
  binv s' pid H /\ trans_inv s' (absorb hs (b_blockno x)) /\ forall k, content s' k = content s k.
Proof.
  intros I Hb HbH T Hn Hds s'. pose proof (lookup_lt_Some _ _ _ Hb) as Hlt.
  destruct (bi_mine _ _ _ I _ _ Hb HbH) as (Hl & Hk & Hr & Hd).
  destruct (bi_ok _ _ _ I _ _ Hb) as [[_ ?]|(Hf & _ & Hnr & Hsz)]; [done|].
  assert (binv (with_buf b (set_b_flags 6 x) s) pid H) as I1.
  { eapply binv_with_buf; [exact I|done| |done|done|done|].
    - right. split; [by right|done].
    - intros c y Hc Hy Dy _ E. apply Hc. by eapply (bi_uniq _ _ _ I). }
  split; [by destruct I1; constructor|]. split.
  - destruct T as [T1 T2 T3 T4 T5 T6]. constructor.
    + done.
    + by apply logged_block; [|rewrite T3].
    + unfold s', logged. ksimpl. by rewrite length_insert.
    + intros h [?| ->]%absorb_elem; [by apply T4|lia].
    + unfold absorb. case_decide; [done|]. apply NoDup_app. split; [done|]. split; [|apply NoDup_singleton].
      by intros k Hk' ->%list_elem_of_singleton.
    + intros k. rewrite absorb_elem, <- T6. split.
      * intros (c & y & [[-> ->]|[Hc Hy]]%with_buf_lookup & Fy & Ny); [by right|left]. by exists c, y.
      * intros [(c & y & Hy & Fy & Ny)| ->].
        -- destruct (decide (c = b)) as [->|Hc]; [|exists c, y; split; [|done]; unfold s', with_buf; ksimpl; by rewrite list_lookup_insert_ne].
           simplify_eq. exists b, (set_b_flags 6 x). split; [by apply list_lookup_insert_eq|done].
        -- exists b, (set_b_flags 6 x). split; [by apply list_lookup_insert_eq|done].
  - change (forall k, content (with_buf b (set_b_flags 6 x) s) k = content s k).
    eapply content_with_buf; [exact I|exact I1|exact Hb|done| |by left].
    symmetry. exact (content_cached _ _ _ _ _ I Hb Hd).
Qed.

End logspec.
