(* ===== verification/TxnSpec.v ===== *)
(** * Blocks inside a transaction

    What the functions of fs.c do to the blocks of the disk, as the cache
    presents them: reading a block, changing it through the log, and
    allocating one from the bitmap.  [H] is the list of the buffers the caller
    holds and [hs] the blocks of the transaction. *)

From S2P Require Import Prelude Mem KState Mmu Kalloc Vm File Proc Bio Layout Log Inode.
From S2P Require Import WaitSpec BioSpec LogSpec.

Section txn.
Context {LK : Linker} {FS : FsOps} {DK : Disk}.

(** A process that can use the file system; [w] is the number of operations in
    progress that it relies on: 1 between [begin_op] and [end_op], 0 elsewhere. *)
Record txn (w : Z) (me : nat) (p : proc) (H : list nat) (hs : list Z) (s : kstate) : Prop := {
  tx_caller : fscaller s me p;
  tx_inv : binv s (p_pid p) H;
  tx_trans : trans_inv s hs;
  tx_out : w <= lg_outstanding (klog s);
}.

(** Nothing but the cache, the sleepers and the header of the log has changed,
    and nothing has been sent to the disk. *)
Record quiet (s s' : kstate) : Prop := {
  qt_frame : s' = set_bufs (bufs s') (set_lru (lru s') (set_ptable (ptable s') (set_klog (klog s') s)));
  qt_size : lg_size (klog s') = lg_size (klog s);
}.

(** Room for [k] more blocks in the log and in the cache. *)
Definition spare (H : list nat) (hs : list Z) (k : nat) (s : kstate) : Prop :=
  (length H + length hs + k < NBUF)%nat /\ Z.of_nat (length hs + k) <= Z.min LOGSIZE (lg_size (klog s) - 1).

(** No buffer that the caller holds is for block [n]. *)
Definition not_held (H : list nat) (n : Z) (s : kstate) : Prop :=
  forall b x, bufs s !! b = Some x -> b ∈ H -> b_blockno x <> n.

Lemma quiet_refl s : quiet s s.
Proof. split; [by destruct s|done]. Qed.

Lemma quiet_trans s s' s'' : quiet s s' -> quiet s' s'' -> quiet s s''.
Proof.
  intros [F1 G1] [F2 G2]. split; [|congruence]. rewrite F2 at 1. rewrite F1 at 1. by destruct s.
Qed.

Lemma quiet_icache s s' : quiet s s' -> icache s' = icache s.
Proof. intros [F _]. rewrite F. by ksimpl. Qed.

Lemma quiet_sb s s' : quiet s s' -> sb s' = sb s.
Proof. intros [F _]. rewrite F. by ksimpl. Qed.

Lemma quiet_disk s s' : quiet s s' -> disk s' = disk s.
Proof. intros [F _]. rewrite F. unfold disk. by ksimpl. Qed.

Lemma spare_le H hs k j s : spare H hs k s -> (j <= k)%nat -> spare H hs j s.
Proof. unfold spare. lia. Qed.

Lemma spare_absorb H hs n k s s' : spare H hs (S k) s -> quiet s s' -> spare H (absorb hs n) k s'.
Proof.
  unfold spare, absorb. intros [H1 H2] [_ ->]. case_decide; [lia|]. rewrite length_app. cbn [length]. lia.
Qed.

Lemma dirty_trans s hs : trans_inv s hs -> dirty_in s hs.
Proof. intros T k Hk. by apply (ti_dirty _ _ T). Qed.

(** ** Reading *)

Lemma tx_read w me p H hs s n : txn w me p H hs s -> 0 <= n < disksize -> not_held H n s -> (length H + length hs < NBUF)%nat ->
  exists b x s', bread 1 n s = Ret b s' /\ (b ∉ H) /\ txn w me p (b :: H) hs s' /\ quiet s s' /\
    bufs s' !! b = Some x /\ b_blockno x = n /\ b_data x = content s n /\ (b_flags x = 2 -> b_data x = disk s n) /\
    (forall c, c <> b -> bufs s' !! c = bufs s !! c) /\ (forall k, content s' k = content s k).
Proof.
  intros [C I T Ho] Hn HH Hlen. destruct (bread_run s me p H n C I Hn HH) as (b & x & Hr & [P0 P1 P2 P3 P4 Pc P5 P6 P7 P8]).
  { right. eapply evictable; [done|by apply dirty_trans|done]. }
  exists b, x, (with_buf b x s). split; [done|]. split; [done|]. split; [|split; [|repeat (split; [done|])]].
  - constructor; [by apply fscaller_bufs|done| |done]. destruct T as [T1 T2 T3 T4 T5 T6]. constructor; try done.
    intros k. rewrite P8. apply T6.
  - split; [|done]. unfold with_buf. by destruct s.
  - split; [|done]. intros c Hc. unfold with_buf. ksimpl. by rewrite list_lookup_insert_ne.
Qed.

Lemma tx_release w me p H H' hs s b x : txn w me p H hs s -> bufs s !! b = Some x -> b ∈ H -> (b ∉ H') ->
  (forall c, c <> b -> c ∈ H' <-> c ∈ H) -> (b_flags x = 2 -> b_data x = disk s (b_blockno x)) ->
  exists s', brelse b s = Ret tt s' /\ txn w me p H' hs s' /\ quiet s s' /\
    (forall c, c <> b -> bufs s' !! c = bufs s !! c) /\ (forall k, content s' k = content s k).
Proof.
  intros [C I T Ho] Hb HbH HbH' HH Hcl. destruct (brelse_inv s me p H H' b x C I Hb HbH HbH' HH Hcl) as (C' & I' & N' & D').
  exists (released b x s). split; [by eapply brelse_run|]. split; [|split; [|split; [|done]]].
  - constructor; [done|done| |done]. destruct T as [T1 T2 T3 T4 T5 T6]. constructor; try done. intros k. rewrite D'. apply T6.
  - split; [|done]. unfold released, with_buf. ksimpl. by destruct s.
  - intros c Hc. unfold released, with_buf. ksimpl. by rewrite list_lookup_insert_ne.
Qed.

(** ** Writing through the log *)

Lemma tx_log me p H hs s b x d : txn 1 me p H hs s -> bufs s !! b = Some x -> b ∈ H -> length d = Z.to_nat BSIZE ->
  Z.of_nat (length hs) < Z.min LOGSIZE (lg_size (klog s) - 1) -> disksize <= 2 ^ 31 ->
  exists s1 s', set_buf_data b d s = Ret tt s1 /\ log_write b s1 = Ret tt s' /\ txn 1 me p H (absorb hs (b_blockno x)) s' /\ quiet s s' /\
    bufs s' !! b = Some (set_b_flags 6 (set_b_data d x)) /\ (forall c, c <> b -> bufs s' !! c = bufs s !! c) /\
    (forall k, content s' k = if k =? b_blockno x then d else content s k).
Proof.
  intros [C I T Ho] Hb HbH Hd Hsp Hds. destruct (set_data_inv s (p_pid p) H b x d I Hb HbH Hd) as (I1 & N1 & D1).
  set (s1 := with_buf b (set_b_data d x) s) in *. pose proof (lookup_lt_Some _ _ _ Hb) as Hlt.
  assert (bufs s1 !! b = Some (set_b_data d x)) as Hb1 by (by apply list_lookup_insert_eq).
  assert (trans_inv s1 hs) as T1.
  { destruct T as [T1 T2 T3 T4 T5 T6]. constructor; try done. intros k. rewrite D1. apply T6. }
  assert (fscaller s1 me p) as C1 by (by apply fscaller_bufs).
  pose proof (log_write_run s1 me p H b (set_b_data d x) hs C1 I1 Hb1 HbH T1 ltac:(change (klog s1) with (klog s); lia) Ho Hds) as R.
  destruct (log_write_inv s1 (p_pid p) H b (set_b_data d x) hs I1 Hb1 HbH T1 ltac:(lia) Hds) as (I2 & T2 & N2).
  set (s2 := set_klog _ _) in *. exists s1, s2. split; [by apply upd_buf_eq|]. split; [done|].
  split; [|split; [|split; [|split]]].
  - constructor; [destruct C1; by constructor|done|done|]. done.
  - split; [|done]. unfold s2, s1, with_buf. ksimpl. by destruct s.
  - unfold s2, s1, with_buf. ksimpl. apply list_lookup_insert_eq. by rewrite length_insert.
  - intros c Hc. unfold s2, s1, with_buf. ksimpl. by rewrite !list_lookup_insert_ne.
  - intros k. rewrite N2, N1. done.
Qed.

(** Read a block, replace its data and release it. *)
Lemma tx_modify me p H hs s n : txn 1 me p H hs s -> 0 <= n < disksize -> not_held H n s -> spare H hs 1 s -> disksize <= 2 ^ 31 ->
  exists b s1, bread 1 n s = Ret b s1 /\ quiet s s1 /\ buf_data b s1 = Ret (content s n) s1 /\
    forall d, length d = Z.to_nat BSIZE -> exists s2 s3 s',
      set_buf_data b d s1 = Ret tt s2 /\ log_write b s2 = Ret tt s3 /\ brelse b s3 = Ret tt s' /\
      txn 1 me p H (absorb hs n) s' /\ quiet s s' /\ (forall c, c ∈ H -> bufs s' !! c = bufs s !! c) /\
      (forall k, content s' k = if k =? n then d else content s k).
Proof.
  intros X Hn HH Hsp Hds. assert (length H + length hs < NBUF)%nat as Hlen by (unfold spare in Hsp; lia).
  destruct (tx_read 1 me p H hs s n X Hn HH Hlen) as (b & x & s1 & R1 & Hnew & X1 & Q1 & Hb & Hno & Hdat & _ & Hoth & N1).
  exists b, s1. do 2 (split; [done|]). split; [unfold buf_data; rewrite (run_buf_at _ _ _ _ Hb); by rewrite <- Hdat|]. intros d Hd.
  destruct (tx_log me p (b :: H) hs s1 b x d X1 Hb ltac:(left) Hd) as (s2 & s3 & R2 & R3 & X3 & Q3 & Hb3 & Hoth3 & N3); [|done|].
  { destruct Hsp as [? ?]. destruct Q1 as [_ E]. rewrite E. lia. }
  destruct (tx_release 1 me p (b :: H) H (absorb hs (b_blockno x)) s3 b (set_b_flags 6 (set_b_data d x)) X3 Hb3 ltac:(left) Hnew)
    as (s' & R4 & X4 & Q4 & Hoth4 & N4); [|done|].
  { intros c Hc. rewrite elem_of_cons. split; [by right|by intros [?|?]]. }
  exists s2, s3, s'. rewrite Hno in *. do 3 (split; [done|]). split; [done|]. split; [by eapply quiet_trans; [|eapply quiet_trans]|]. split.
  - intros c Hc. assert (c <> b) by congruence. rewrite Hoth4, Hoth3, Hoth by done. done.
  - intros k. rewrite N4, N3, N1. done.
Qed.

(** Read a block and release it. *)
Lemma tx_peek w me p H hs s n : txn w me p H hs s -> 0 <= n < disksize -> not_held H n s -> (length H + length hs < NBUF)%nat ->
  exists b s1 s', bread 1 n s = Ret b s1 /\ buf_data b s1 = Ret (content s n) s1 /\ brelse b s1 = Ret tt s' /\
    txn w me p H hs s' /\ quiet s s1 /\ quiet s s' /\ (forall c, c ∈ H -> bufs s' !! c = bufs s !! c) /\ (forall k, content s' k = content s k).
Proof.
  intros X Hn HH Hlen.
  destruct (tx_read w me p H hs s n X Hn HH Hlen) as (b & x & s1 & R1 & Hnew & X1 & Q1 & Hb & Hno & Hdat & Hcl & Hoth & N1).
  destruct (tx_release w me p (b :: H) H hs s1 b x X1 Hb ltac:(left) Hnew) as (s' & R4 & X4 & Q4 & Hoth4 & N4).
  { intros c Hc. rewrite elem_of_cons. split; [by right|by intros [?|?]]. }
  { rewrite (quiet_disk _ _ Q1), Hno. done. }
  exists b, s1, s'. split; [done|]. split; [unfold buf_data; rewrite (run_buf_at _ _ _ _ Hb); by rewrite <- Hdat|].
  do 3 (split; [done|]). split; [by eapply quiet_trans|]. split.
  - intros c Hc. assert (c <> b) by congruence. rewrite Hoth4, Hoth by done. done.
  - intros k. by rewrite N4.
Qed.

Lemma not_held_same H n s s' : not_held H n s -> (forall c, c ∈ H -> bufs s' !! c = bufs s !! c) -> not_held H n s'.
Proof. intros Hn Hs b x Hb HbH. rewrite Hs in Hb by done. eauto. Qed.

(** ** The bitmap *)

Lemma bit_free_testbit d bi : 0 <= bi -> bit_free d bi = negb (Z.testbit (nth (byte_of bi) d 0) (bi mod 8)).
Proof.
  intros Hbi. unfold bit_free, bit_of. rewrite Z.shiftl_1_l. pose proof (Z.mod_pos_bound bi 8 ltac:(lia)) as Hm.
  set (v := nth _ _ _). set (k := bi mod 8) in *. destruct (Z.testbit v k) eqn:E; cbn [negb].
  - apply Z.eqb_neq. intros E0. apply (f_equal (fun z => Z.testbit z k)) in E0.
    rewrite Z.land_spec, E, Z.pow2_bits_true, Z.bits_0 in E0 by lia. done.
  - apply Z.eqb_eq. apply Z.bits_inj'. intros j Hj. rewrite Z.land_spec, Z.bits_0.
    destruct (decide (j = k)) as [->|Hne]; [by rewrite E|]. rewrite Z.pow2_bits_false by lia. apply andb_false_r.
Qed.

Lemma bit_set_free d bi bj : 0 <= bi -> 0 <= bj -> (byte_of bi < length d)%nat ->
  bit_free (bit_set d bi) bj = if bi =? bj then false else bit_free d bj.
Proof.
  intros Hi Hj Hlt. rewrite !bit_free_testbit by done. unfold bit_set.
  pose proof (Z.mod_pos_bound bi 8 ltac:(lia)). pose proof (Z.mod_pos_bound bj 8 ltac:(lia)).
  destruct (decide (byte_of bi = byte_of bj)) as [E|E].
  - rewrite <- E. rewrite (nth_lookup (<[_ := _]> d)), list_lookup_insert_eq by done. cbn [from_option]. unfold id.
    unfold bit_of. rewrite Z.lor_spec, Z.shiftl_1_l. destruct (Z.eqb_spec bi bj) as [->|Hne].
    + rewrite Z.pow2_bits_true by lia. by rewrite orb_true_r.
    + rewrite Z.pow2_bits_false; [by rewrite orb_false_r|]. intros Em. apply Hne. unfold byte_of in E.
      apply Z2Nat.inj in E; [|apply Z.div_pos; lia..]. rewrite (Z.div_mod bi 8), (Z.div_mod bj 8) by lia. congruence.
  - rewrite nth_lookup, list_lookup_insert_ne, <- nth_lookup by done. destruct (Z.eqb_spec bi bj) as [->|]; done.
Qed.

Lemma balloc_scan_spec d b size k : forall bi, 0 <= bi ->
  match balloc_scan k d b bi size with
  | Some r => bi <= r < bi + Z.of_nat k /\ b + r < size /\ bit_free d r = true
  | None => forall r, bi <= r < bi + Z.of_nat k -> b + r < size -> bit_free d r = false
  end.
Proof.
  induction k as [|k IH]; intros bi Hbi; cbn [balloc_scan]; [lia|]. destruct (b + bi <? size) eqn:E; bool_prop; [|intros r; lia].
  destruct (bit_free d bi) eqn:Ef; [split; [lia|done]|]. specialize (IH (bi + 1) ltac:(lia)).
  destruct (balloc_scan k d b (bi + 1) size) as [r|]; [destruct IH as (? & ? & ?); split; [lia|done]|].
  intros r Hr Hs. destruct (decide (r = bi)) as [->|]; [done|]. apply IH; lia.
Qed.

(** The file system of the super block: [D] is its first data block. *)
Record fs_layout (D : Z) (s : kstate) : Prop := {
  fl_size : 0 < sb_size (sb s) <= disksize;
  fl_bmap : 0 <= sb_bmapstart (sb s);
  fl_data : sb_bmapstart (sb s) + (sb_size (sb s) - 1) / BPB < D <= sb_size (sb s);
  fl_disk : disksize <= 2 ^ 31;
  fl_inodes : 0 <= sb_inodestart (sb s) /\ sb_inodestart (sb s) + (sb_ninodes (sb s) - 1) / IPB < sb_bmapstart (sb s);
}.

(** The bit of block [a] is set. *)
Definition used (s : kstate) (a : Z) : Prop := bit_free (content s (BBLOCK a (sb s))) (a mod BPB) = false.

(** The blocks before [D] and the blocks the caller holds are in use. *)
Definition meta_used (D : Z) (s : kstate) : Prop := forall a, 0 <= a < D -> used s a.
Definition held_used (D : Z) (H : list nat) (s : kstate) : Prop :=
  forall b x, bufs s !! b = Some x -> b ∈ H -> D <= b_blockno x /\ used s (b_blockno x).

Lemma bblock_range D s a : fs_layout D s -> 0 <= a < sb_size (sb s) ->
  BBLOCK a (sb s) = a / BPB + sb_bmapstart (sb s) /\ 0 <= BBLOCK a (sb s) < D /\ D <= disksize.
Proof.
  intros [Hs Hb Hd Hk _] Ha. pose proof (Z.div_le_mono a (sb_size (sb s) - 1) BPB ltac:(unfold BPB; lia) ltac:(lia)) as Hm.
  pose proof (Z.div_pos a BPB ltac:(lia) ltac:(unfold BPB; lia)). unfold BBLOCK. rewrite u32_id by lia. lia.
Qed.

Lemma data_pos D s : fs_layout D s -> 0 < D.
Proof. intros L. destruct (bblock_range D s 0 L) as (_ & H & _); [pose proof (fl_size _ _ L); lia|lia]. Qed.

Lemma quiet_layout D s s' : fs_layout D s -> quiet s s' -> fs_layout D s'.
Proof. intros [] Q. constructor; by rewrite ?(quiet_sb _ _ Q). Qed.

Lemma used_same s s' a : quiet s s' -> (forall k, content s' k = content s k) -> used s' a <-> used s a.
Proof. intros Q N. unfold used. by rewrite N, (quiet_sb _ _ Q). Qed.

(** The blocks of one page of the bitmap. *)
Lemma page_bits b bi sb : b mod BPB = 0 -> 0 <= bi < BPB -> BBLOCK (b + bi) sb = BBLOCK b sb /\ (b + bi) mod BPB = bi.
Proof.
  intros Hb Hbi. unfold BBLOCK, BPB in *. pose proof (Z.div_mod b 4096 ltac:(lia)) as E. rewrite Hb in E.
  assert ((b + bi) / 4096 = b / 4096) as ->.
  { rewrite E at 1. rewrite Z.add_0_r, (Z.mul_comm 4096), Z.add_comm, Z.div_add, Z.div_small by lia. lia. }
  split; [done|]. rewrite E, Z.add_0_r, (Z.mul_comm 4096), Z.add_comm, Z.mod_add, Z.mod_small by lia. done.
Qed.

(** What an allocation does to the blocks. *)
Definition allocated (s : kstate) (a : Z) (k : Z) : list Z :=
  if k =? a then replicate (Z.to_nat BSIZE) 0
  else if k =? BBLOCK a (sb s) then bit_set (content s k) (a mod BPB) else content s k.

Record alloc_post (D : Z) (me : nat) (p : proc) (H : list nat) (hs : list Z) (s s' : kstate) (a : Z) : Prop := {
  al_range : D <= a < sb_size (sb s);
  al_free : ~ used s a;
  al_txn : txn 1 me p H (absorb (absorb hs (BBLOCK a (sb s))) a) s';
  al_quiet : quiet s s';
  al_held : forall c, c ∈ H -> bufs s' !! c = bufs s !! c;
  al_content : forall k, content s' k = allocated s a k;
}.

Lemma bzero_run me p H hs s n : txn 1 me p H hs s -> 0 <= n < disksize -> not_held H n s -> spare H hs 1 s -> disksize <= 2 ^ 31 ->
  exists s', bzero 1 n s = Ret tt s' /\ txn 1 me p H (absorb hs n) s' /\ quiet s s' /\ (forall c, c ∈ H -> bufs s' !! c = bufs s !! c) /\
    (forall k, content s' k = if k =? n then replicate (Z.to_nat BSIZE) 0 else content s k).
Proof.
  intros X Hn HH Hsp Hds. destruct (tx_modify me p H hs s n X Hn HH Hsp Hds) as (b & s1 & R1 & _ & _ & Hd).
  destruct (Hd (replicate (Z.to_nat BSIZE) 0)) as (s2 & s3 & s' & R2 & R3 & R4 & Hpost); [by rewrite length_replicate|].
  exists s'. split; [|done]. unfold bzero. rewrite (u32_id 1), (u32_id n) by lia.
  rewrite (bind_ret_l _ _ _ _ _ R1), (bind_ret_l _ _ _ _ _ R2), (bind_ret_l _ _ _ _ _ R3). done.
Qed.

(** Take the free block [a] of the page at [b]. *)
Lemma balloc_take D me p H hs s b bi : txn 1 me p H hs s -> fs_layout D s -> meta_used D s -> held_used D H s -> spare H hs 2 s ->
  b mod BPB = 0 -> 0 <= b -> 0 <= bi < BPB -> b + bi < sb_size (sb s) -> bit_free (content s (BBLOCK b (sb s))) bi = true ->
  exists bp s1 s2 s3 s4 s', bread 1 (BBLOCK b (sb s)) s = Ret bp s1 /\ buf_data bp s1 = Ret (content s (BBLOCK b (sb s))) s1 /\
    set_buf_data bp (bit_set (content s (BBLOCK b (sb s))) bi) s1 = Ret tt s2 /\ log_write bp s2 = Ret tt s3 /\
    brelse bp s3 = Ret tt s4 /\ bzero 1 (b + bi) s4 = Ret tt s' /\ alloc_post D me p H hs s s' (b + bi).
Proof.
  intros X L HM HU Hsp Hb H0 Hbi Hsz Hfree. destruct (page_bits b bi (sb s) Hb Hbi) as [Eb Em].
  destruct (bblock_range D s (b + bi) L ltac:(lia)) as (_ & Hr & HD). rewrite Eb in Hr. set (n := BBLOCK b (sb s)) in *.
  assert (~ used s (b + bi)) as Hnu by (unfold used; rewrite Eb, Em; congruence).
  assert (D <= b + bi) as HDa by (destruct (decide (b + bi < D)); [destruct Hnu; apply HM; lia|lia]).
  pose proof (fl_disk _ _ L) as Hds. pose proof (fl_size _ _ L) as Hsize.
  assert (not_held H n s) as Hh1 by (intros c x Hc HcH; destruct (HU c x Hc HcH); lia).
  assert (not_held H (b + bi) s) as Hh2 by (intros c x Hc HcH E; destruct (HU c x Hc HcH) as [_ Hu]; by rewrite E in Hu).
  destruct (tx_modify me p H hs s n X ltac:(lia) Hh1 ltac:(eapply spare_le; [exact Hsp|lia]) Hds) as (bp & s1 & R1 & _ & Rd & Hmod).
  assert (length (content s n) = Z.to_nat BSIZE) as Hlen by (eapply length_content; apply (tx_inv _ _ _ _ _ _ X)).
  destruct (Hmod (bit_set (content s n) bi)) as (s2 & s3 & s4 & R2 & R3 & R4 & X4 & Q4 & Hh4 & N4); [by unfold bit_set; rewrite length_insert|].
  destruct (bzero_run me p H (absorb hs n) s4 (b + bi) X4 ltac:(lia)) as (s' & R5 & X5 & Q5 & Hh5 & N5); [by eapply not_held_same|by eapply spare_absorb|done|].
  exists bp, s1, s2, s3, s4, s'. do 6 (split; [done|]). constructor.
  - lia.
  - done.
  - by rewrite Eb.
  - by eapply quiet_trans.
  - intros c Hc. by rewrite Hh5, Hh4.
  - intros k. rewrite N5, N4. unfold allocated. rewrite Eb, Em. fold n. destruct (k =? b + bi); [done|].
    by destruct (Z.eqb_spec k n) as [->|].
Qed.

Lemma balloc_loop_run D me p H k : forall hs s b, txn 1 me p H hs s -> fs_layout D s -> meta_used D s -> held_used D H s -> spare H hs 2 s ->
  b mod BPB = 0 -> 0 <= b -> (forall a, 0 <= a < b -> a < sb_size (sb s) -> used s a) -> (exists a, 0 <= a < sb_size (sb s) /\ ~ used s a) ->
  sb_size (sb s) <= b + BPB * Z.of_nat k ->
  exists a s', balloc_loop k 1 b s = Ret a s' /\ alloc_post D me p H hs s s' a.
Proof.
  induction k as [|k IH]; intros hs s b X L HM HU Hsp Hb H0 Hbefore (a0 & Ha0 & Hf0) Hk.
  { exfalso. apply Hf0, Hbefore; lia. }
  assert (b < sb_size (sb s)) as Hlt by (destruct (decide (b < sb_size (sb s))); [done|exfalso; apply Hf0, Hbefore; lia]).
  cbn [balloc_loop]. rewrite run_gets, (proj2 (Z.ltb_lt _ _) Hlt). set (n := BBLOCK b (sb s)).
  pose proof (balloc_scan_spec (content s n) b (sb_size (sb s)) (Z.to_nat BPB) 0 ltac:(lia)) as Hscan.
  destruct (balloc_scan (Z.to_nat BPB) (content s n) b 0 (sb_size (sb s))) as [bi|] eqn:Es.
  - destruct Hscan as (Hbi & Hs & Hf). rewrite Z2Nat.id in Hbi by (unfold BPB; lia).
    destruct (balloc_take D me p H hs s b bi) as (bp & s1 & s2 & s3 & s4 & s' & R1 & Rd & R2 & R3 & R4 & R5 & Hpost); try done; try lia.
    exists (b + bi), s'. split; [|done]. fold n in R1, Rd, R2.
    rewrite (bind_ret_l _ _ _ _ _ R1), (bind_ret_l _ _ _ _ _ Rd), Es.
    rewrite (bind_ret_l _ _ _ _ _ R2), (bind_ret_l _ _ _ _ _ R3), (bind_ret_l _ _ _ _ _ R4), (bind_ret_l _ _ _ _ _ R5). done.
  - rewrite Z2Nat.id in Hscan by (unfold BPB; lia). destruct (bblock_range D s b L ltac:(lia)) as (_ & Hr & HD). fold n in Hr.
    destruct (tx_peek 1 me p H hs s n X ltac:(lia)) as (bp & s1 & s' & R1 & Rd & R2 & X2 & _ & Q2 & Hh2 & N2).
    { intros c x Hc HcH. destruct (HU c x Hc HcH). lia. }
    { unfold spare in Hsp. lia. }
    assert (forall a, used s' a <-> used s a) as Hu by (intros a; by apply used_same).
    destruct (IH hs s' (b + BPB)) as (a & s'' & R3 & [A1 A2 A3 A4 A5 A6]).
    + done.
    + by eapply quiet_layout.
    + intros a Ha. by apply Hu, HM.
    + intros c x Hc HcH. rewrite Hh2 in Hc by done. rewrite Hu. by eapply HU.
    + destruct Hsp as [? ?]. destruct Q2 as [_ E]. unfold spare. rewrite E. lia.
    + rewrite Z.add_mod, Hb, Z.mod_same by (unfold BPB; lia). by rewrite Z.mod_0_l by (unfold BPB; lia).
    + unfold BPB. lia.
    + intros a Ha. rewrite (quiet_sb _ _ Q2). intros Hs. apply Hu. destruct (decide (a < b)); [apply Hbefore; lia|].
      destruct (page_bits b (a - b) (sb s) Hb ltac:(lia)) as [E1 E2]. replace (b + (a - b)) with a in E1, E2 by lia.
      unfold used. rewrite E1, E2. fold n. apply Hscan; lia.
    + exists a0. rewrite (quiet_sb _ _ Q2). split; [done|]. by rewrite Hu.
    + rewrite (quiet_sb _ _ Q2). unfold BPB in *. lia.
    + exists a, s''. rewrite (bind_ret_l _ _ _ _ _ R1), (bind_ret_l _ _ _ _ _ Rd), Es, (bind_ret_l _ _ _ _ _ R2).
      split; [done|]. rewrite (quiet_sb _ _ Q2) in *. constructor.
      * done.
      * by rewrite <- Hu.
      * done.
      * by eapply quiet_trans.
      * intros c Hc. by rewrite A5, Hh2.
      * intros j. rewrite A6. unfold allocated. rewrite (quiet_sb _ _ Q2). by rewrite N2.
Qed.

(** The bitmap and the blocks after an allocation. *)
Lemma alloc_used D me p H hs s s' a c : fs_layout D s -> binv s (p_pid p) H -> alloc_post D me p H hs s s' a -> 0 <= c < sb_size (sb s) ->
  used s' c <-> used s c \/ c = a.
Proof.
  intros L I A Hc. pose proof (al_range _ _ _ _ _ _ _ _ A) as Ha. destruct (bblock_range D s c L Hc) as (Ec & Hrc & HD).
  destruct (bblock_range D s a L ltac:(pose proof (data_pos D s L); lia)) as (Ea & Hra & _).
  unfold used. rewrite (quiet_sb _ _ (al_quiet _ _ _ _ _ _ _ _ A)), (al_content _ _ _ _ _ _ _ _ A). unfold allocated.
  rewrite (proj2 (Z.eqb_neq _ a)) by lia. destruct (Z.eqb_spec (BBLOCK c (sb s)) (BBLOCK a (sb s))) as [E|E].
  - pose proof (Z.mod_pos_bound a BPB ltac:(unfold BPB; lia)) as Hma. pose proof (Z.mod_pos_bound c BPB ltac:(unfold BPB; lia)) as Hmc.
    rewrite bit_set_free; [|lia..|].
    + destruct (Z.eqb_spec (a mod BPB) (c mod BPB)) as [Em|Em].
      * split; [|done]. intros _. right. assert (c / BPB = a / BPB) as Ed by (rewrite Ec, Ea in E; lia).
        rewrite (Z.div_mod c BPB), (Z.div_mod a BPB) by (unfold BPB; lia). by rewrite <- Em, Ed.
      * split; [by left|]. by intros [?| ->].
    + rewrite (length_content s (p_pid p) H) by done. unfold byte_of, BPB, BSIZE in *. apply Z2Nat.inj_lt; [apply Z.div_pos; lia|lia|].
      apply Z.div_lt_upper_bound; lia.
  - split; [by left|]. intros [?| ->]; done.
Qed.

Lemma alloc_keeps D me p H hs s s' a c : fs_layout D s -> alloc_post D me p H hs s s' a -> D <= c -> used s c ->
  content s' c = content s c.
Proof.
  intros L A Hc Hu. pose proof (al_range _ _ _ _ _ _ _ _ A) as Ha. pose proof (al_free _ _ _ _ _ _ _ _ A) as Hf.
  destruct (bblock_range D s a L ltac:(pose proof (data_pos D s L); lia)) as (_ & Hra & _).
  rewrite (al_content _ _ _ _ _ _ _ _ A). unfold allocated. rewrite (proj2 (Z.eqb_neq c a)) by (intros ->; done).
  by rewrite (proj2 (Z.eqb_neq c (BBLOCK a (sb s)))) by lia.
Qed.

(** balloc returns a zeroed block that was free, and marks it in the bitmap. *)
Lemma balloc_run D me p H hs s : txn 1 me p H hs s -> fs_layout D s -> meta_used D s -> held_used D H s -> spare H hs 2 s ->
  (exists a, 0 <= a < sb_size (sb s) /\ ~ used s a) ->
  exists a s', balloc 1 s = Ret a s' /\ alloc_post D me p H hs s s' a.
Proof.
  intros X L HM HU Hsp Hex. unfold balloc. rewrite run_gets. pose proof (fl_size _ _ L).
  apply (balloc_loop_run D me p H); try done; [intros; lia|]. pose proof (Z.div_pos (sb_size (sb s)) BPB ltac:(lia) ltac:(unfold BPB; lia)).
  rewrite Z2Nat.id by lia. unfold BPB in *. pose proof (Z.div_mod (sb_size (sb s)) 4096 ltac:(lia)).
  pose proof (Z.mod_pos_bound (sb_size (sb s)) 4096 ltac:(lia)). lia.
Qed.

End txn.
