(* ===== verification/FileSpec.v ===== *)
(** * The content of a file

    The blocks of an inode and its bytes, and what it takes for them to stay as
    they are or to gain a block; what [bmap] does.  A file is well formed when
    its blocks are data blocks in use, all different, and none is missing below
    its size; a block that is missing reads as zeros. *)

From S2P Require Import Prelude Mem KState Mmu Kalloc Vm File Proc Bio Layout Log Inode Fs ProcMem WaitSpec.
From S2P Require Import BioSpec LogSpec TxnSpec.

Section filespec.
Context {LK : Linker} {FS : FsOps} {DK : Disk}.

(** ** The blocks of an inode *)

(** The address of the indirect block. *)
Definition ind (x : inode) : Z := nth (Z.to_nat NDIRECT) (i_addrs x) 0.

(** The address of block [bn], 0 if there is none. *)
Definition block_of (s : kstate) (x : inode) (bn : Z) : Z :=
  if bn <? NDIRECT then nth (Z.to_nat bn) (i_addrs x) 0
  else if ind x =? 0 then 0 else get32 (content s (ind x)) (4 * Z.to_nat (bn - NDIRECT)).

Definition data_block (D : Z) (s : kstate) (a : Z) : Prop := D <= a < sb_size (sb s) /\ used s a.

Definition full (s : kstate) (x : inode) (n : Z) : Prop :=
  forall bn, 0 <= bn < MAXFILE -> bn * BSIZE < n -> block_of s x bn <> 0.

Record file_ok (D : Z) (s : kstate) (x : inode) : Prop := {
  fo_dev : i_dev x = 1;
  fo_len : length (i_addrs x) = 13%nat;
  fo_ind : ind x <> 0 -> data_block D s (ind x);
  fo_data : forall bn, 0 <= bn < MAXFILE -> block_of s x bn <> 0 -> data_block D s (block_of s x bn);
  fo_inj : forall bn bm, 0 <= bn < MAXFILE -> 0 <= bm < MAXFILE -> block_of s x bn <> 0 ->
    block_of s x bn = block_of s x bm -> bn = bm;
  fo_sep : forall bn, 0 <= bn < MAXFILE -> block_of s x bn <> 0 -> block_of s x bn <> ind x;
  fo_full : full s x (i_size x);
  fo_size : 0 <= i_size x <= MAXFILE * BSIZE;
}.

(** Block [c] belongs to the file. *)
Definition owns (s : kstate) (x : inode) (c : Z) : Prop :=
  c <> 0 /\ (c = ind x \/ exists bn, 0 <= bn < MAXFILE /\ block_of s x bn = c).

(** The byte at offset [o]. *)
Definition fbyte (s : kstate) (x : inode) (o : Z) : Z :=
  let a := block_of s x (o / BSIZE) in
  if a =? 0 then 0 else nth (Z.to_nat (o mod BSIZE)) (content s a) 0.

Lemma offset_block o : 0 <= o < MAXFILE * BSIZE -> 0 <= o / BSIZE < MAXFILE.
Proof.
  intros [H0 H]. unfold MAXFILE, NDIRECT, NINDIRECT, BSIZE in *. split; [apply Z.div_pos; lia|apply Z.div_lt_upper_bound; lia].
Qed.

Lemma nth_zeros n k : nth k (replicate n 0) 0 = 0.
Proof. rewrite nth_lookup. destruct (replicate n 0 !! k) as [v|] eqn:E; [|done]. by apply lookup_replicate in E as [-> _]. Qed.

(** The file depends only on its own blocks and on their bits. *)
Lemma block_of_same s s' x : (ind x <> 0 -> content s' (ind x) = content s (ind x)) ->
  forall bn, block_of s' x bn = block_of s x bn.
Proof.
  intros Hi bn. unfold block_of. destruct (bn <? NDIRECT); [done|]. destruct (Z.eqb_spec (ind x) 0); [done|]. by rewrite Hi.
Qed.

Lemma file_same D s s' x : file_ok D s x -> sb s' = sb s -> (forall c, D <= c < sb_size (sb s) -> used s c -> used s' c) ->
  (forall c, owns s x c -> content s' c = content s c) ->
  file_ok D s' x /\ (forall bn, block_of s' x bn = block_of s x bn) /\
  (forall o, 0 <= o < MAXFILE * BSIZE -> fbyte s' x o = fbyte s x o).
Proof.
  intros [F1 F2 F3 F4 F5 F6 F7 F8] Esb HU HC.
  assert (forall bn, block_of s' x bn = block_of s x bn) as Eb by (apply block_of_same; intros ?; apply HC; split; [done|by left]).
  assert (forall a, data_block D s a -> data_block D s' a) as Hd by (intros a [? ?]; split; [by rewrite Esb|by apply HU]).
  split; [|split; [done|]].
  - constructor; try done.
    + intros ?. by apply Hd, F3.
    + intros bn Hbn. rewrite Eb. intros ?. by apply Hd, F4.
    + intros bn bm. rewrite !Eb. apply F5.
    + intros bn. rewrite Eb. apply F6.
    + intros bn ? ?. rewrite Eb. by apply F7.
  - intros o Ho. unfold fbyte. rewrite Eb. destruct (Z.eqb_spec (block_of s x (o / BSIZE)) 0) as [|Hne]; [done|].
    rewrite HC; [done|]. split; [done|]. right. exists (o / BSIZE). split; [by apply offset_block|done].
Qed.

(** A new, zeroed block [a] becomes block [bn]. *)
Lemma file_link D s s' x x' bn a : file_ok D s x -> sb s' = sb s -> (forall c, D <= c < sb_size (sb s) -> used s c -> used s' c) ->
  i_dev x' = i_dev x -> length (i_addrs x') = 13%nat -> i_size x' = i_size x -> ind x' = ind x ->
  (forall c, c <> ind x -> content s' c = content s c) ->
  0 <= bn < MAXFILE -> block_of s x bn = 0 -> (forall bm, 0 <= bm < MAXFILE -> block_of s' x' bm = if bm =? bn then a else block_of s x bm) ->
  data_block D s a -> a <> 0 -> ~ owns s x a -> content s a = replicate (Z.to_nat BSIZE) 0 ->
  file_ok D s' x' /\ (forall o, 0 <= o < MAXFILE * BSIZE -> fbyte s' x' o = fbyte s x o).
Proof.
  intros [F1 F2 F3 F4 F5 F6 F7 F8] Esb HU Ed El Es Ei HC Hbn Ez Eb Ha Ha0 Hno Hz.
  assert (forall c, data_block D s c -> data_block D s' c) as Hd by (intros c [? ?]; split; [by rewrite Esb|by apply HU]).
  assert (forall bm, 0 <= bm < MAXFILE -> block_of s x bm <> a) as Hna by (intros bm Hbm E; apply Hno; split; [done|]; right; by exists bm).
  split.
  - constructor.
    + by rewrite Ed.
    + done.
    + rewrite Ei. intros ?. by apply Hd, F3.
    + intros bm Hbm. rewrite Eb by done. destruct (bm =? bn); [by intros _; apply Hd|]. intros ?. by apply Hd, F4.
    + intros b1 b2 H1 H2. rewrite !Eb by done. destruct (Z.eqb_spec b1 bn), (Z.eqb_spec b2 bn); intros ? E; [congruence|..|by apply F5].
      * by destruct (Hna b2 H2).
      * by destruct (Hna b1 H1).
    + intros bm Hbm. rewrite Eb, Ei by done. destruct (bm =? bn); [|by apply F6]. intros _ ->. apply Hno. split; [done|by left].
    + intros bm Hbm. rewrite Es, Eb by done. destruct (bm =? bn); [done|]. by apply F7.
    + by rewrite Es.
  - intros o Ho. pose proof (offset_block o Ho) as Hob. unfold fbyte. rewrite Eb by done.
    assert (a <> ind x) as Hai by (intros ->; apply Hno; split; [done|by left]).
    destruct (Z.eqb_spec (o / BSIZE) bn) as [E|E].
    + rewrite E, Ez, (proj2 (Z.eqb_neq a 0)) by done. cbn [Z.eqb]. rewrite HC, Hz by done. apply nth_zeros.
    + destruct (Z.eqb_spec (block_of s x (o / BSIZE)) 0); [done|]. rewrite HC; [done|]. by apply F6.
Qed.

(** A new, zeroed block [a] becomes the indirect block. *)
Lemma file_link_ind D s x x' a : file_ok D s x -> ind x = 0 -> ind x' = a ->
  i_dev x' = i_dev x -> length (i_addrs x') = 13%nat -> i_size x' = i_size x ->
  (forall i, (i < 12)%nat -> nth i (i_addrs x') 0 = nth i (i_addrs x) 0) ->
  data_block D s a -> a <> 0 -> ~ owns s x a -> content s a = replicate (Z.to_nat BSIZE) 0 ->
  file_ok D s x' /\ (forall bn, 0 <= bn < MAXFILE -> block_of s x' bn = block_of s x bn) /\
  (forall o, 0 <= o < MAXFILE * BSIZE -> fbyte s x' o = fbyte s x o).
Proof.
  intros [F1 F2 F3 F4 F5 F6 F7 F8] Ei Ei' Ed El Es Ea Ha Ha0 Hno Hz.
  assert (forall bn, 0 <= bn < MAXFILE -> block_of s x' bn = block_of s x bn) as Eb.
  { intros bn Hbn. unfold block_of. destruct (bn <? NDIRECT) eqn:E; bool_prop.
    - apply Ea. unfold NDIRECT in E. lia.
    - rewrite Ei, Ei', (proj2 (Z.eqb_neq a 0)) by done. cbn [Z.eqb]. rewrite Hz. unfold get32. by rewrite !nth_zeros. }
  split; [|split; [done|]].
  - constructor; rewrite ?Ed, ?Es, ?Ei'; try done.
    + intros bn Hbn. rewrite Eb by done. by apply F4.
    + intros b1 b2 H1 H2. rewrite !Eb by done. by apply F5.
    + intros bn Hbn. rewrite Eb by done. intros _ E. apply Hno. split; [done|]. right. by exists bn.
    + intros bn Hbn ?. rewrite Eb by done. by apply F7.
  - intros o Ho. pose proof (offset_block o Ho) as Hob. unfold fbyte. by rewrite Eb.
Qed.

End filespec.

(** * The block map of an inode

    [bmap] finds a block of a file and allocates it, and the indirect block,
    when they are missing.  The bytes of the file and every block that belongs
    to something else stay as they are; the costs are what the allocation takes
    from the bitmap and from the log. *)

Section bmap.
Context {LK : Linker} {FS : FsOps} {DK : Disk}.

(** ** The frame *)

(** Nothing but the cache, the sleepers, the header of the log and the table of
    inodes has changed, and nothing has been sent to the disk. *)
Record filed (s s' : kstate) : Prop := {
  fd_frame : s' = set_bufs (bufs s') (set_lru (lru s') (set_ptable (ptable s') (set_klog (klog s') (set_icache (icache s') s))));
  fd_size : lg_size (klog s') = lg_size (klog s);
}.

Lemma filed_refl s : filed s s.
Proof. split; [by destruct s|done]. Qed.

Lemma filed_trans s s' s'' : filed s s' -> filed s' s'' -> filed s s''.
Proof. intros [F1 G1] [F2 G2]. split; [|congruence]. rewrite F2 at 1. rewrite F1 at 1. by destruct s. Qed.

Lemma quiet_filed s s' : quiet s s' -> filed s s'.
Proof. intros [F G]. split; [|done]. rewrite F at 1. rewrite F. ksimpl. by destruct s. Qed.

Lemma filed_sb s s' : filed s s' -> sb s' = sb s.
Proof. intros [F _]. rewrite F. by ksimpl. Qed.

Lemma filed_disk s s' : filed s s' -> disk s' = disk s.
Proof. intros [F _]. rewrite F. unfold disk. by ksimpl. Qed.

Lemma filed_icache s ic : filed s (set_icache ic s).
Proof. split; [by destruct s|done]. Qed.

Lemma filed_layout D s s' : fs_layout D s -> filed s s' -> fs_layout D s'.
Proof. intros [] Q. constructor; by rewrite ?(filed_sb _ _ Q). Qed.

Lemma txn_icache w me p H hs s ic : txn w me p H hs s -> txn w me p H hs (set_icache ic s).
Proof. intros [[] [] [] T4]. constructor; [by constructor..|done]. Qed.

Lemma spare_filed H hs k s s' : filed s s' -> spare H hs k s -> spare H hs k s'.
Proof. intros [_ E]. unfold spare. by rewrite E. Qed.

(** ** Free blocks *)

Definition frees (s : kstate) (n : nat) : Prop :=
  exists l, NoDup l /\ length l = n /\ forall a, a ∈ l -> 0 <= a < sb_size (sb s) /\ ~ used s a.

Lemma frees_le s n m : frees s n -> (m <= n)%nat -> frees s m.
Proof.
  intros (l & H1 & H2 & H3) Hm. exists (take m l). rewrite <- (take_drop m l) in H1, H3. apply NoDup_app in H1 as (H1 & _ & _).
  split; [done|]. split; [rewrite length_take; lia|]. intros a Ha. apply H3, elem_of_app. by left.
Qed.

Lemma frees_one s n : frees s (S n) -> exists a, 0 <= a < sb_size (sb s) /\ ~ used s a.
Proof. intros ([|a l] & _ & H & Hl); [done|]. exists a. apply Hl. left. Qed.

Lemma frees_alloc D me p H hs s s' a n : fs_layout D s -> binv s (p_pid p) H -> alloc_post D me p H hs s s' a ->
  frees s (S n) -> frees s' n.
Proof.
  intros L I A (l & H1 & H2 & H3).
  assert (frees s' (length (filter (fun c => c <> a) l))) as Hf.
  { exists (filter (fun c => c <> a) l). split; [by apply NoDup_filter|]. split; [done|].
    intros c [Hne Hc]%list_elem_of_filter. destruct (H3 c Hc) as [Hr Hu].
    rewrite (quiet_sb _ _ (al_quiet _ _ _ _ _ _ _ _ A)). split; [done|]. rewrite (alloc_used D me p H hs s s' a c) by done. tauto. }
  eapply frees_le; [exact Hf|]. assert (l ⊆+ a :: filter (fun c => c <> a) l) as Hs%submseteq_length.
  { apply NoDup_submseteq; [done|]. intros c Hc. rewrite elem_of_cons, list_elem_of_filter. destruct (decide (c = a)); tauto. }
  cbn [length] in Hs. lia.
Qed.

Lemma frees_same D s s' n : fs_layout D s -> sb s' = sb s -> (forall c, 0 <= c < D -> content s' c = content s c) -> frees s n -> frees s' n.
Proof.
  intros L E HC (l & H1 & H2 & H3). exists l. split; [done|]. split; [done|]. intros a Ha. destruct (H3 a Ha) as [Hr Hu].
  destruct (bblock_range D s a L Hr) as (_ & Hb & _). rewrite E. split; [done|]. unfold used. by rewrite E, HC.
Qed.

(** ** An allocation beside the file *)

Definition bitmap_block (s : kstate) (c : Z) : Prop :=
  sb_bmapstart (sb s) <= c <= sb_bmapstart (sb s) + (sb_size (sb s) - 1) / BPB.

(** Blocks that are in use and not part of the bitmap. *)
Definition settled (s : kstate) (c : Z) : Prop := 0 <= c < sb_size (sb s) /\ used s c /\ ~ bitmap_block s c.

Lemma bblock_bitmap D s a : fs_layout D s -> 0 <= a < sb_size (sb s) -> bitmap_block s (BBLOCK a (sb s)).
Proof.
  intros L Ha. destruct (bblock_range D s a L Ha) as (E & _ & _).
  pose proof (Z.div_le_mono a (sb_size (sb s) - 1) BPB ltac:(unfold BPB; lia) ltac:(lia)) as Hm.
  pose proof (Z.div_pos a BPB ltac:(lia) ltac:(unfold BPB; lia)). unfold bitmap_block. lia.
Qed.

Lemma data_settled D s a : fs_layout D s -> data_block D s a -> settled s a.
Proof. intros L [? ?]. pose proof (data_pos D s L). pose proof (fl_data _ _ L). unfold settled, bitmap_block. split; [lia|]. split; [done|lia]. Qed.

Lemma owned_data D s x c : file_ok D s x -> owns s x c -> data_block D s c.
Proof. intros F [Hc [->|(bn & Hbn & <-)]]; [by apply (fo_ind _ _ _ F)|by apply (fo_data _ _ _ F)]. Qed.

Lemma alloc_settled D me p H hs s s' a c : fs_layout D s -> alloc_post D me p H hs s s' a -> settled s c -> content s' c = content s c.
Proof.
  intros L A (Hc & Hu & Hb). rewrite (al_content _ _ _ _ _ _ _ _ A). unfold allocated.
  rewrite (proj2 (Z.eqb_neq c a)) by (intros ->; by destruct (al_free _ _ _ _ _ _ _ _ A)).
  rewrite (proj2 (Z.eqb_neq c (BBLOCK a (sb s)))); [done|]. intros ->. apply Hb. eapply bblock_bitmap; [done|].
  pose proof (al_range _ _ _ _ _ _ _ _ A). pose proof (data_pos D s L). lia.
Qed.

Lemma alloc_file D me p H hs s s' a x : fs_layout D s -> binv s (p_pid p) H -> alloc_post D me p H hs s s' a -> file_ok D s x ->
  file_ok D s' x /\ (forall bn, block_of s' x bn = block_of s x bn) /\
  (forall o, 0 <= o < MAXFILE * BSIZE -> fbyte s' x o = fbyte s x o) /\
  data_block D s' a /\ a <> 0 /\ ~ owns s' x a /\ content s' a = replicate (Z.to_nat BSIZE) 0.
Proof.
  intros L I A F. pose proof (al_range _ _ _ _ _ _ _ _ A) as Ha. pose proof (data_pos D s L) as HD.
  pose proof (quiet_sb _ _ (al_quiet _ _ _ _ _ _ _ _ A)) as Esb.
  assert (forall c, owns s x c -> content s' c = content s c) as HC.
  { intros c Hc. eapply alloc_settled; [done..|]. by eapply data_settled, owned_data. }
  destruct (file_same D s s' x F Esb) as (F' & Eb & Ef); [|done|].
  { intros c Hc Hu. apply (alloc_used D me p H hs s s' a c L I A); [lia|by left]. }
  do 3 (split; [done|]). split; [|split; [lia|split]].
  - split; [by rewrite Esb|]. apply (alloc_used D me p H hs s s' a a L I A); [lia|by right].
  - intros [H0 Ho]. apply (al_free _ _ _ _ _ _ _ _ A), (owned_data D s x a F). split; [done|]. destruct Ho as [?|(bn & ? & E)]; [by left|].
    right. exists bn. by rewrite <- Eb.
  - rewrite (al_content _ _ _ _ _ _ _ _ A). unfold allocated. by rewrite Z.eqb_refl.
Qed.

(** ** A file that has gained blocks *)

Record linked (D : Z) (me : nat) (p : proc) (ip : nat) (hs : list Z) (s : kstate) (x : inode)
    (hs' : list Z) (s' : kstate) (x' : inode) : Prop := {
  lk_txn : txn 1 me p [] hs' s';
  lk_icache : icache s' = <[ip := x']> (icache s);
  lk_filed : filed s s';
  lk_inode : x' = set_i_addrs (i_addrs x') x;
  lk_file : file_ok D s' x';
  lk_keep : forall bn, 0 <= bn < MAXFILE -> block_of s x bn <> 0 -> block_of s' x' bn = block_of s x bn;
  lk_used : forall c, 0 <= c < sb_size (sb s) -> used s c -> used s' c;
  lk_owns : forall c, settled s c -> owns s' x' c -> owns s x c;
  lk_other : forall c, settled s c -> ~ owns s x c -> content s' c = content s c;
  lk_log : hs ⊆ hs';
}.

Lemma settled_mono s s' c : sb s' = sb s -> (forall c, 0 <= c < sb_size (sb s) -> used s c -> used s' c) -> settled s c -> settled s' c.
Proof. intros E Hu (? & ? & ?). unfold settled, bitmap_block. rewrite E. auto. Qed.

Lemma linked_refl D me p ip hs s x : txn 1 me p [] hs s -> icache s !! ip = Some x -> file_ok D s x -> linked D me p ip hs s x hs s x.
Proof.
  intros X Hx F. constructor; try done.
  - by rewrite list_insert_id.
  - apply filed_refl.
  - by destruct x.
Qed.

Lemma linked_trans D me p ip hs s x hs1 s1 x1 hs2 s2 x2 :
  linked D me p ip hs s x hs1 s1 x1 -> linked D me p ip hs1 s1 x1 hs2 s2 x2 -> linked D me p ip hs s x hs2 s2 x2.
Proof.
  intros [A1 A2 A3 A4 A5 A6 A7 A8 A9 A10] [B1 B2 B3 B4 B5 B6 B7 B8 B9 B10]. pose proof (filed_sb _ _ A3) as E.
  assert (forall c, settled s c -> settled s1 c) as Hst by (intros c; by apply settled_mono).
  constructor; try done.
  - by rewrite B2, A2, list_insert_insert_eq.
  - by eapply filed_trans.
  - rewrite B4. rewrite A4. by destruct x.
  - intros bn Hbn Hne. rewrite B6; rewrite ?A6; done.
  - intros c Hc Hu. apply B7; [by rewrite E|by apply A7].
  - intros c Hc Ho. apply A8; [done|]. apply B8; [by apply Hst|done].
  - intros c Hc Ho. rewrite B9; [by apply A9|by apply Hst|]. intros Ho1. by apply Ho, A8.
  - by transitivity hs1.
Qed.

(** The inode in the table. *)
Definition with_inode (ip : nat) (x : inode) (s : kstate) : kstate := set_icache (<[ip := x]> (icache s)) s.

Lemma run_inode_at {B} ip x (f : inode -> K B) s : icache s !! ip = Some x -> bind (inode_at ip) f s = f x s.
Proof. intros H. unfold bind, inode_at. by rewrite H. Qed.

Lemma run_upd_inode {B} ip g x (f : unit -> K B) s : icache s !! ip = Some x -> bind (upd_inode ip g) f s = f tt (with_inode ip (g x) s).
Proof.
  intros H. unfold upd_inode, with_inode. rewrite run_modify. f_equal. f_equal. by apply alter_eq_insert.
Qed.

Lemma content_inode ip x s c : content (with_inode ip x s) c = content s c.
Proof. done. Qed.

(** What an allocation and the link to the new block have in common. *)
Lemma linked_intro D me p ip hs s x a hs1 hs' s1 s' x' : fs_layout D s ->
  forall H, binv s (p_pid p) H -> alloc_post D me p H hs s s1 a ->
  txn 1 me p [] hs' s' -> icache s' = <[ip := x']> (icache s) -> filed s1 s' -> x' = set_i_addrs (i_addrs x') x -> file_ok D s' x' ->
  (forall c, ~ bitmap_block s c -> c <> a -> ~ owns s x c -> content s' c = content s1 c) ->
  (forall c, bitmap_block s c -> content s' c = content s1 c) ->
  (forall bn, 0 <= bn < MAXFILE -> block_of s x bn <> 0 -> block_of s' x' bn = block_of s x bn) ->
  (forall c, owns s' x' c -> c = a \/ owns s x c) -> hs ⊆ hs1 -> hs1 ⊆ hs' ->
  linked D me p ip hs s x hs' s' x'.
Proof.
  intros L H I A X' Hic Hfd Hx F' HC HB Hkeep Hown Hh1 Hh2.
  pose proof (filed_trans _ _ _ (quiet_filed _ _ (al_quiet _ _ _ _ _ _ _ _ A)) Hfd) as Hfd'.
  pose proof (filed_sb _ _ Hfd) as E1. pose proof (quiet_sb _ _ (al_quiet _ _ _ _ _ _ _ _ A)) as E2.
  constructor; try done.
  - intros c Hc Hu. unfold used in *. rewrite E1, E2, HB by (by eapply bblock_bitmap). rewrite <- E2.
    apply (alloc_used D me p H hs s s1 a c L I A Hc). by left.
  - intros c (Hc & Hu & _) [->|?]%Hown; [by destruct (al_free _ _ _ _ _ _ _ _ A)|done].
  - intros c Hs Hno. pose proof Hs as (Hc & Hu & Hb). rewrite HC; [by eapply alloc_settled|done| |done].
    intros ->. by destruct (al_free _ _ _ _ _ _ _ _ A).
  - by transitivity hs1.
Qed.

(** The cached blocks may have moved before. *)
Lemma owns_same s s' x c : (forall k, content s' k = content s k) -> owns s' x c <-> owns s x c.
Proof.
  intros N. unfold owns. split; (intros [H0 [H|(bn & Hbn & H)]]; split; [done|by left|done|right; exists bn; split; [done|]]).
  - rewrite <- H. symmetry. apply block_of_same. done.
  - rewrite <- H. apply block_of_same. done.
Qed.

Lemma linked_start D me p ip hs s s0 x hs' s' x' : quiet s s0 -> (forall k, content s0 k = content s k) ->
  linked D me p ip hs s0 x hs' s' x' -> linked D me p ip hs s x hs' s' x'.
Proof.
  intros Q N [A1 A2 A3 A4 A5 A6 A7 A8 A9 A10]. pose proof (quiet_sb _ _ Q) as E.
  assert (forall c, used s0 c <-> used s c) as Hu by (intros c; by apply used_same).
  assert (forall c, settled s c -> settled s0 c) as Hst by (intros c; apply settled_mono; [done|]; intros ? _; by apply Hu).
  assert (forall bn, block_of s0 x bn = block_of s x bn) as Eb by (by apply block_of_same).
  constructor; try done.
  - by rewrite A2, (quiet_icache _ _ Q).
  - by eapply filed_trans; [apply quiet_filed|].
  - intros bn Hbn. rewrite <- Eb. by apply A6.
  - intros c Hc Hc'. apply A7; [by rewrite E|by apply Hu].
  - intros c Hc Ho. apply (owns_same s s0 x c N). auto.
  - intros c Hc Ho. rewrite <- N. apply A9; [by apply Hst|]. by rewrite (owns_same s s0 x c N).
Qed.

(** ** Links *)

Lemma ind_insert x i a : (i < 12)%nat -> ind (set_i_addrs (<[i := a]> (i_addrs x)) x) = ind x.
Proof.
  intros Hi. unfold ind. ksimpl. change (Z.to_nat NDIRECT) with 12%nat. rewrite !nth_lookup, list_lookup_insert_ne by lia. done.
Qed.

Lemma direct_insert s x bn bm a : length (i_addrs x) = 13%nat -> 0 <= bn < NDIRECT -> 0 <= bm ->
  block_of s (set_i_addrs (<[Z.to_nat bn := a]> (i_addrs x)) x) bm = if bm =? bn then a else block_of s x bm.
Proof.
  intros Hl Hbn Hbm. unfold block_of. rewrite ind_insert by (unfold NDIRECT in *; lia). ksimpl. destruct (Z.eqb_spec bm bn) as [->|Hne].
  - rewrite (proj2 (Z.ltb_lt bn NDIRECT)), nth_lookup, list_lookup_insert_eq by (unfold NDIRECT in *; lia). done.
  - by rewrite !nth_lookup, list_lookup_insert_ne by lia.
Qed.

(** [balloc], then [ip->addrs[bn] = addr]. *)
Lemma linked_direct D me p ip hs s s1 x bn a : fs_layout D s -> txn 1 me p [] hs s -> icache s !! ip = Some x -> file_ok D s x ->
  0 <= bn < NDIRECT -> block_of s x bn = 0 -> alloc_post D me p [] hs s s1 a ->
  let x' := set_i_addrs (<[Z.to_nat bn := a]> (i_addrs x)) x in let s' := with_inode ip x' s1 in
  linked D me p ip hs s x (absorb (absorb hs (BBLOCK a (sb s))) a) s' x' /\
  (forall o, 0 <= o < MAXFILE * BSIZE -> fbyte s' x' o = fbyte s x o).
Proof.
  intros L X Hx F Hbn Hz A x' s'. pose proof (tx_inv _ _ _ _ _ _ X) as I. pose proof (fo_len _ _ _ F) as Hl.
  destruct (alloc_file D me p [] hs s s1 a x L I A F) as (F1 & Eb & Ef & Ha & Ha0 & Hno & Hzero).
  assert (0 <= bn < MAXFILE) as Hbn' by (unfold MAXFILE, NDIRECT, NINDIRECT in *; lia).
  assert (forall bm, 0 <= bm < MAXFILE -> block_of s' x' bm = if bm =? bn then a else block_of s1 x bm) as Eb'.
  { intros bm Hbm. change (block_of s' x' bm) with (block_of s1 x' bm). apply direct_insert; [done..|lia]. }
  destruct (file_link D s1 s' x x' bn a F1) as [F' Ef']; try done.
  { unfold x'. ksimpl. by rewrite length_insert. }
  { apply ind_insert. unfold NDIRECT in *. lia. }
  { by rewrite Eb. }
  split; [|intros o Ho; by rewrite Ef', Ef].
  eapply (linked_intro D me p ip hs s x a (absorb (absorb hs (BBLOCK a (sb s))) a) _ s1 s' x' L [] I A); try done.
  - apply txn_icache. apply (al_txn _ _ _ _ _ _ _ _ A).
  - unfold s', with_inode. ksimpl. by rewrite (quiet_icache _ _ (al_quiet _ _ _ _ _ _ _ _ A)).
  - intros bm Hbm Hne. rewrite Eb', Eb by done. destruct (Z.eqb_spec bm bn) as [->|]; done.
  - intros c [H0 [E|(bm & Hbm & E)]].
    + right. split; [done|]. left. rewrite E. apply ind_insert. unfold NDIRECT in *. lia.
    + rewrite Eb', Eb in E by done. destruct (bm =? bn); [by left|]. right. split; [done|]. right. by exists bm.
  - intros c Hc. apply absorb_elem. left. apply absorb_elem. by left.
Qed.

(** [balloc], then [ip->addrs[NDIRECT] = addr]. *)
Lemma linked_ind D me p ip hs s s1 x a : fs_layout D s -> txn 1 me p [] hs s -> icache s !! ip = Some x -> file_ok D s x ->
  ind x = 0 -> alloc_post D me p [] hs s s1 a ->
  let x' := set_i_addrs (<[Z.to_nat NDIRECT := a]> (i_addrs x)) x in let s' := with_inode ip x' s1 in
  linked D me p ip hs s x (absorb (absorb hs (BBLOCK a (sb s))) a) s' x' /\ ind x' = a /\ a <> 0 /\
  (forall bn, 0 <= bn < MAXFILE -> block_of s' x' bn = block_of s x bn) /\
  (forall o, 0 <= o < MAXFILE * BSIZE -> fbyte s' x' o = fbyte s x o).
Proof.
  intros L X Hx F Hz A x' s'. pose proof (tx_inv _ _ _ _ _ _ X) as I. pose proof (fo_len _ _ _ F) as Hl.
  destruct (alloc_file D me p [] hs s s1 a x L I A F) as (F1 & Eb & Ef & Ha & Ha0 & Hno & Hzero).
  assert (ind x' = a) as Hind.
  { unfold ind, x'. ksimpl. rewrite nth_lookup, list_lookup_insert_eq by (rewrite Hl; unfold NDIRECT; lia). done. }
  destruct (file_link_ind D s1 x x' a F1) as (F' & Eb' & Ef'); try done.
  { unfold x'. ksimpl. by rewrite length_insert. }
  { intros i Hi. unfold x'. ksimpl. rewrite !nth_lookup, list_lookup_insert_ne by (unfold NDIRECT; lia). done. }
  assert (forall bm, 0 <= bm < MAXFILE -> block_of s' x' bm = block_of s x bm) as Eb2.
  { intros bm Hbm. change (block_of s' x' bm) with (block_of s1 x' bm). by rewrite Eb', Eb. }
  split; [|do 3 (split; [done|]); intros o Ho; change (fbyte s' x' o) with (fbyte s1 x' o); by rewrite Ef', Ef].
  eapply (linked_intro D me p ip hs s x a (absorb (absorb hs (BBLOCK a (sb s))) a) _ s1 s' x' L [] I A); try done.
  - apply txn_icache. apply (al_txn _ _ _ _ _ _ _ _ A).
  - unfold s', with_inode. ksimpl. by rewrite (quiet_icache _ _ (al_quiet _ _ _ _ _ _ _ _ A)).
  - by apply (file_same D s1 s' x').
  - intros bm Hbm _. by apply Eb2.
  - intros c [H0 [E|(bm & Hbm & E)]]; [left; congruence|]. right. split; [done|]. right. exists bm. by rewrite <- Eb2.
  - intros c Hc. apply absorb_elem. left. apply absorb_elem. by left.
Qed.

Lemma slot_insert s s' x bn bm a : ind x <> 0 -> length (content s (ind x)) = Z.to_nat BSIZE -> NDIRECT <= bn < MAXFILE -> 0 <= bm < MAXFILE ->
  0 <= a < 2 ^ 32 -> content s' (ind x) = put32 (content s (ind x)) (4 * Z.to_nat (bn - NDIRECT)) a ->
  block_of s' x bm = if bm =? bn then a else block_of s x bm.
Proof.
  intros Hi Hl Hbn Hbm Ha HC. unfold block_of. rewrite (proj2 (Z.eqb_neq (ind x) 0)), HC by done.
  unfold MAXFILE, NDIRECT, NINDIRECT in *. change (Z.to_nat BSIZE) with 512%nat in Hl. destruct (Z.eqb_spec bm bn) as [->|Hne].
  - rewrite (proj2 (Z.ltb_ge _ _)) by lia. apply get32_put32; [lia|done].
  - destruct (bm <? 12) eqn:E; bool_prop; [done|]. unfold put32. apply get32_splice_other; change (length (le32 a)) with 4%nat; lia.
Qed.

(** [balloc], then [a[bn] = addr] in the indirect block. *)
Lemma linked_slot D me p ip H hs hs' s s1 s' x bn a : fs_layout D s -> binv s (p_pid p) H -> icache s !! ip = Some x -> file_ok D s x ->
  NDIRECT <= bn < MAXFILE -> ind x <> 0 -> block_of s x bn = 0 -> alloc_post D me p H hs s s1 a ->
  quiet s1 s' -> (forall k, content s' k = if k =? ind x then put32 (content s1 k) (4 * Z.to_nat (bn - NDIRECT)) a else content s1 k) ->
  txn 1 me p [] hs' s' -> absorb (absorb hs (BBLOCK a (sb s))) a ⊆ hs' ->
  linked D me p ip hs s x hs' s' x /\ block_of s' x bn = a /\ a <> 0 /\
  (forall o, 0 <= o < MAXFILE * BSIZE -> fbyte s' x o = fbyte s x o).
Proof.
  intros L I Hx F Hbn Hi Hz A Q HC X' Hsub. pose proof (data_pos D s L) as HD. pose proof (fl_disk _ _ L) as Hds. pose proof (fl_size _ _ L) as Hsz.
  destruct (alloc_file D me p H hs s s1 a x L I A F) as (F1 & Eb & Ef & Ha & Ha0 & Hno & Hzero).
  pose proof (al_range _ _ _ _ _ _ _ _ A) as Har. pose proof (quiet_sb _ _ Q) as Esb. pose proof (fo_ind _ _ _ F Hi) as [Hir _].
  assert (forall bm, 0 <= bm < MAXFILE -> block_of s' x bm = if bm =? bn then a else block_of s1 x bm) as Eb'.
  { intros bm Hbm. apply (slot_insert s1 s'); [done| |done|done|lia|by rewrite HC, Z.eqb_refl].
    eapply length_content. apply (tx_inv _ _ _ _ _ _ (al_txn _ _ _ _ _ _ _ _ A)). }
  assert (0 <= bn < MAXFILE) as Hbn' by (unfold NDIRECT in *; lia).
  assert (forall c, bitmap_block s c -> content s' c = content s1 c) as HB.
  { intros c Hb. rewrite HC. rewrite (proj2 (Z.eqb_neq c (ind x))); [done|]. pose proof (fl_data _ _ L). unfold bitmap_block in Hb. lia. }
  pose proof (quiet_sb _ _ (al_quiet _ _ _ _ _ _ _ _ A)) as Esb1.
  destruct (file_link D s1 s' x x bn a F1) as [F' Ef']; try done.
  { intros c Hc. unfold used. rewrite Esb, Esb1, HB; [done|]. rewrite Esb1 in Hc. eapply bblock_bitmap; [done|lia]. }
  { apply (fo_len _ _ _ F). }
  { intros c Hc. rewrite HC. by rewrite (proj2 (Z.eqb_neq c (ind x))). }
  { by rewrite Eb. }
  split; [|split; [by rewrite Eb', Z.eqb_refl|split; [done|intros o Ho; by rewrite Ef', Ef]]].
  eapply (linked_intro D me p ip hs s x a (absorb (absorb hs (BBLOCK a (sb s))) a) _ s1 s' x L H I A); try done.
  - by rewrite (quiet_icache _ _ Q), (quiet_icache _ _ (al_quiet _ _ _ _ _ _ _ _ A)), list_insert_id.
  - by apply quiet_filed.
  - by destruct x.
  - intros c Hb Hca Hown. rewrite HC. rewrite (proj2 (Z.eqb_neq c (ind x))); [done|]. intros ->. apply Hown. split; [done|by left].
  - intros bm Hbm Hne. rewrite Eb', Eb by done. destruct (Z.eqb_spec bm bn) as [->|]; done.
  - intros c [H0 [E|(bm & Hbm & E)]]; [right; split; [done|by left]|].
    rewrite Eb', Eb in E by done. destruct (bm =? bn); [by left|]. right. split; [done|]. right. by exists bm.
  - intros c Hc. apply absorb_elem. left. apply absorb_elem. by left.
Qed.

(** ** Runs *)

(** The second half of [bmap]: slot [k] of the indirect block [addr]. *)
Definition bmap_slot (dev addr k : Z) : K Z :=
  bp <- bread dev addr ;;
  d <- buf_data bp ;;
  addr <- (if get32 d (4 * Z.to_nat k) =? 0 then
             addr <- balloc dev ;;
             d <- buf_data bp ;;
             set_buf_data bp (put32 d (4 * Z.to_nat k) addr) ;;
             log_write bp ;;
             ret addr
           else ret (get32 d (4 * Z.to_nat k))) ;;
  brelse bp ;;
  ret addr.

Lemma bmap_indirect ip bn x s : icache s !! ip = Some x -> NDIRECT <= bn < MAXFILE -> bmap ip bn s =
  (if ind x =? 0 then
     bind (balloc (i_dev x)) (fun a => upd_inode ip (fun x => set_i_addrs (<[Z.to_nat NDIRECT := a]> (i_addrs x)) x) ;;
                                       bmap_slot (i_dev x) a (bn - NDIRECT)) s
   else bmap_slot (i_dev x) (ind x) (bn - NDIRECT) s).
Proof.
  intros Hx Hbn. unfold bmap. rewrite (run_inode_at _ _ _ _ Hx). rewrite (proj2 (Z.ltb_ge bn NDIRECT)) by lia.
  rewrite (proj2 (Z.ltb_lt (bn - NDIRECT) NINDIRECT)) by (unfold MAXFILE in Hbn; lia). fold (ind x). destruct (ind x =? 0); [|by rewrite run_ret].
  rewrite run_bind. unfold bind at 1. symmetry. unfold bind at 1. destruct (balloc (i_dev x) s); [|done..].
  unfold upd_inode. by rewrite run_bind, !run_modify.
Qed.

(** A block that exists is found, and nothing changes. *)
Lemma bmap_found D w me p hs s ip x bn : txn w me p [] hs s -> fs_layout D s -> icache s !! ip = Some x -> file_ok D s x ->
  0 <= bn < MAXFILE -> block_of s x bn <> 0 -> (length hs < NBUF)%nat ->
  exists s', bmap ip bn s = Ret (block_of s x bn) s' /\ txn w me p [] hs s' /\ quiet s s' /\ (forall k, content s' k = content s k).
Proof.
  intros X L Hx F Hbn Hne Hlen. destruct (decide (bn < NDIRECT)) as [Hd|Hd].
  - exists s. split; [|by split; [done|split; [apply quiet_refl|]]]. unfold bmap, block_of in *. rewrite (run_inode_at _ _ _ _ Hx).
    rewrite (proj2 (Z.ltb_lt _ _) Hd) in *. by rewrite (proj2 (Z.eqb_neq _ 0) Hne).
  - rewrite (bmap_indirect ip bn x s Hx) by lia. unfold block_of in *. rewrite (proj2 (Z.ltb_ge bn NDIRECT)) in * by lia.
    destruct (Z.eqb_spec (ind x) 0) as [|Hi]; [done|]. destruct (fo_ind _ _ _ F Hi) as [Hr _]. pose proof (data_pos D s L). pose proof (fl_size _ _ L).
    destruct (tx_peek w me p [] hs s (ind x) X ltac:(lia)) as (b & s1 & s' & R1 & Rd & R2 & X2 & _ & Q2 & _ & N2); [intros ? ? _ Hn; by apply not_elem_of_nil in Hn|done|].
    exists s'. split; [|done]. unfold bmap_slot. rewrite (fo_dev _ _ _ F), (bind_ret_l _ _ _ _ _ R1), (bind_ret_l _ _ _ _ _ Rd).
    rewrite (proj2 (Z.eqb_neq _ 0) Hne), run_ret, (bind_ret_l _ _ _ _ _ R2). done.
Qed.

Lemma absorb_length hs n : (length (absorb hs n) <= S (length hs))%nat.
Proof. unfold absorb. case_decide; rewrite ?length_app; cbn [length]; lia. Qed.

Lemma absorb_sub hs n : hs ⊆ absorb hs n.
Proof. intros k Hk. apply absorb_elem. by left. Qed.

Lemma absorb_in hs n : n ∈ absorb hs n.
Proof. apply absorb_elem. by right. Qed.

#[local] Hint Resolve absorb_sub absorb_in : core.

Lemma not_held_nil n s : not_held [] n s.
Proof. intros ? ? _ Hn. by apply not_elem_of_nil in Hn. Qed.

Lemma buf_data_run b y s : bufs s !! b = Some y -> buf_data b s = Ret (b_data y) s.
Proof. intros H. unfold buf_data. by rewrite (run_buf_at _ _ _ _ H). Qed.

(** What the linked block costs: entries of the log, and blocks. *)
Definition ind_cost (x : inode) (hs : list Z) : nat :=
  if ind x =? 0 then 2 else if decide (ind x ∈ hs) then 0 else 1.
Definition block_cost (s : kstate) (x : inode) (bn : Z) : nat := if block_of s x bn =? 0 then 2 else 1.
Definition ind_need (x : inode) : nat := if ind x =? 0 then 1 else 0.
Definition block_need (s : kstate) (x : inode) (bn : Z) : nat := if block_of s x bn =? 0 then 1 else 0.

(** A missing block of the indirect half. *)
Lemma bmap_slot_run D me p hs s ip x bn : txn 1 me p [] hs s -> fs_layout D s -> meta_used D s -> icache s !! ip = Some x -> file_ok D s x ->
  NDIRECT <= bn < MAXFILE -> ind x <> 0 -> block_of s x bn = 0 -> frees s 1 -> spare [] hs 3 s ->
  exists a hs' s', bmap_slot 1 (ind x) (bn - NDIRECT) s = Ret a s' /\ linked D me p ip hs s x hs' s' x /\ block_of s' x bn = a /\ a <> 0 /\
    (forall o, 0 <= o < MAXFILE * BSIZE -> fbyte s' x o = fbyte s x o) /\ a ∈ hs' /\ ind x ∈ hs' /\
    (length hs' <= length hs + 2 + ind_cost x hs)%nat /\ (forall n, frees s (S n) -> frees s' n).
Proof.
  intros X L HM Hx F Hbn Hi Hz Hfr Hsp. destruct (fo_ind _ _ _ F Hi) as [Hr Hu]. pose proof (data_pos D s L) as HD. pose proof (fl_size _ _ L).
  destruct (tx_read 1 me p [] hs s (ind x) X ltac:(lia) (not_held_nil _ _)) as (b & y & s1 & R1 & _ & X1 & Q1 & Hb & Hno & Hdat & _ & _ & N1);
    [unfold spare in Hsp; cbn [length] in *; lia|].
  assert (forall c, used s1 c <-> used s c) as Hu1 by (intros c; by apply used_same).
  pose proof (quiet_layout D s s1 L Q1) as L1. pose proof (quiet_sb _ _ Q1) as E1.
  assert (file_ok D s1 x) as F1 by (apply (file_same D s s1 x F E1); [intros; by apply Hu1|intros; apply N1]).
  assert (forall n, frees s n -> frees s1 n) as Hfr1 by (intros n; apply (frees_same D); [done..|]; intros; apply N1).
  destruct (balloc_run D me p [b] hs s1 X1 L1) as (a & s2 & R2 & A).
  { intros c Hc. by apply Hu1, HM. }
  { intros c z Hc ->%list_elem_of_singleton. rewrite Hb in Hc. injection Hc as <-. rewrite Hno. split; [lia|by apply Hu1]. }
  { destruct Hsp as [? ?], Q1 as [_ E]. unfold spare. rewrite E. cbn [length] in *. lia. }
  { eapply frees_one. by apply Hfr1. }
  pose proof (al_quiet _ _ _ _ _ _ _ _ A) as Q2. pose proof (al_txn _ _ _ _ _ _ _ _ A) as X2. set (hs2 := absorb _ a) in *.
  assert (bufs s2 !! b = Some y) as Hb2 by (rewrite (al_held _ _ _ _ _ _ _ _ A); [done|left]).
  assert (length (b_data y) = Z.to_nat BSIZE) as Hly by (rewrite Hdat; eapply length_content, (tx_inv _ _ _ _ _ _ X)).
  assert (length hs2 <= length hs + 2)%nat as Hl2 by (unfold hs2; pose proof (absorb_length hs (BBLOCK a (sb s1))); pose proof (absorb_length (absorb hs (BBLOCK a (sb s1))) a); lia).
  destruct (tx_log me p [b] hs2 s2 b y (put32 (b_data y) (4 * Z.to_nat (bn - NDIRECT)) a) X2 Hb2 ltac:(left))
    as (s3 & s4 & R3 & R4 & X4 & Q4 & Hb4 & _ & N4).
  { rewrite length_put32; [done|]. rewrite Hly. unfold MAXFILE, NDIRECT, NINDIRECT in *. change (Z.to_nat BSIZE) with 512%nat. lia. }
  { destruct Hsp as [_ ?], Q1 as [_ Ea], Q2 as [_ Eb]. rewrite Eb, Ea. lia. }
  { apply (fl_disk _ _ L). }
  destruct (tx_release 1 me p [b] [] _ s4 b _ X4 Hb4 ltac:(left) ltac:(apply not_elem_of_nil)) as (s' & R5 & X5 & Q5 & _ & N5).
  { intros c Hc. rewrite list_elem_of_singleton. split; [intros []%not_elem_of_nil|done]. }
  { done. }
  rewrite Hno in *. pose proof (quiet_trans _ _ _ Q4 Q5) as Q45.
  assert (settled s1 (ind x)) as Hst by (eapply data_settled; [done|by apply (fo_ind _ _ _ F1)]).
  assert (b_data y = content s2 (ind x)) as Ey by (rewrite Hdat, (alloc_settled _ _ _ _ _ _ _ _ _ L1 A Hst); symmetry; apply N1).
  assert (block_of s1 x bn = 0) as Hz1 by (rewrite (block_of_same s s1 x) by (intros; apply N1); done).
  destruct (linked_slot D me p ip [b] hs (absorb hs2 (ind x)) s1 s2 s' x bn a L1 (tx_inv _ _ _ _ _ _ X1)) as (LK1 & Eb & Ha & Ef); try done.
  { by rewrite (quiet_icache _ _ Q1). }
  { intros k. rewrite N5, N4. destruct (Z.eqb_spec k (ind x)) as [->|]; [|done]. by rewrite <- Ey. }
  exists a, (absorb hs2 (ind x)), s'. split; [|split; [by eapply linked_start|]].
  { unfold bmap_slot. rewrite (bind_ret_l _ _ _ _ _ R1), (bind_ret_l _ _ _ _ _ (buf_data_run _ _ _ Hb)).
    unfold block_of in Hz. rewrite (proj2 (Z.ltb_ge bn NDIRECT)), (proj2 (Z.eqb_neq _ _) Hi) in Hz by lia.
    rewrite Hdat at 1. rewrite Hz. cbn [Z.eqb]. rewrite run_bind, (bind_ret_l _ _ _ _ _ R2).
    rewrite run_bind, (bind_ret_l _ _ _ _ _ (buf_data_run _ _ _ Hb2)), run_bind, (bind_ret_l _ _ _ _ _ R3).
    rewrite run_bind, (bind_ret_l _ _ _ _ _ R4), run_ret, (bind_ret_l _ _ _ _ _ R5). done. }
  do 2 (split; [done|]). split; [intros o Ho; rewrite Ef by done; by apply (file_same D s s1 x F E1); [intros; apply Hu1|intros; apply N1|]|].
  split; [apply absorb_sub, absorb_in|]. split; [apply absorb_in|]. split.
  - unfold ind_cost, absorb at 1. rewrite (proj2 (Z.eqb_neq _ _) Hi). case_decide as E; [lia|].
    rewrite decide_False; [rewrite length_app; cbn [length]; lia|]. intros Hin. apply E. unfold hs2. by do 2 apply absorb_sub.
  - intros n Hn. eapply (frees_same D s2); [by eapply quiet_layout|by apply quiet_sb| |].
    + intros c Hc. rewrite N5, N4. by rewrite (proj2 (Z.eqb_neq c (ind x))) by lia.
    + eapply frees_alloc; [exact L1|apply (tx_inv _ _ _ _ _ _ X1)|exact A|by apply Hfr1].
Qed.

Record bmap_post (D : Z) (me : nat) (p : proc) (ip : nat) (hs : list Z) (s : kstate) (x : inode) (bn : Z)
    (a : Z) (hs' : list Z) (s' : kstate) (x' : inode) : Prop := {
  bm_linked : linked D me p ip hs s x hs' s' x';
  bm_addr : block_of s' x' bn = a;
  bm_some : a <> 0;
  bm_found : block_of s x bn <> 0 -> x' = x;
  bm_bytes : forall o, 0 <= o < MAXFILE * BSIZE -> fbyte s' x' o = fbyte s x o;
  bm_log : (length hs' + ind_cost x' hs' + (if decide (a ∈ hs') then 0 else 1) <= length hs + ind_cost x hs + block_cost s x bn)%nat;
  bm_free : forall n, frees s (n + block_need s x bn + ind_need x) -> frees s' (n + ind_need x');
}.

Lemma linked_meta D me p ip hs s x hs' s' x' : fs_layout D s -> meta_used D s -> linked D me p ip hs s x hs' s' x' ->
  fs_layout D s' /\ meta_used D s'.
Proof.
  intros L HM LK0. split; [by eapply filed_layout, (lk_filed _ _ _ _ _ _ _ _ _ _ LK0)|]. intros c Hc.
  apply (lk_used _ _ _ _ _ _ _ _ _ _ LK0); [pose proof (fl_data _ _ L); lia|by apply HM].
Qed.

Lemma frees_inode ip x s n : frees s n -> frees (with_inode ip x s) n.
Proof. done. Qed.

Lemma bmap_direct_run D me p hs s ip x bn : txn 1 me p [] hs s -> fs_layout D s -> meta_used D s -> icache s !! ip = Some x -> file_ok D s x ->
  0 <= bn < NDIRECT -> block_of s x bn = 0 -> frees s 1 -> spare [] hs 2 s ->
  exists a hs' s' x', bmap ip bn s = Ret a s' /\ bmap_post D me p ip hs s x bn a hs' s' x'.
Proof.
  intros X L HM Hx F Hbn Hz Hfr Hsp. pose proof (tx_inv _ _ _ _ _ _ X) as I.
  destruct (balloc_run D me p [] hs s X L HM) as (a & s1 & R & A); [intros ? ? _ []%not_elem_of_nil|done|by eapply frees_one|].
  destruct (linked_direct D me p ip hs s s1 x bn a L X Hx F Hbn Hz A) as [LK1 Ef]. pose proof (fo_len _ _ _ F) as Hl.
  eexists a, _, _, _. split; [|constructor; [exact LK1| | |done|exact Ef| |]].
  - unfold bmap, block_of in *. rewrite (run_inode_at _ _ _ _ Hx). rewrite (proj2 (Z.ltb_lt bn NDIRECT)) in * by lia. rewrite Hz. cbn [Z.eqb].
    rewrite (fo_dev _ _ _ F), (bind_ret_l _ _ _ _ _ R). erewrite run_upd_inode; [done|]. by rewrite (quiet_icache _ _ (al_quiet _ _ _ _ _ _ _ _ A)).
  - etransitivity; [exact (direct_insert s1 x bn bn a Hl Hbn ltac:(lia))|]. by rewrite Z.eqb_refl.
  - pose proof (al_range _ _ _ _ _ _ _ _ A). pose proof (data_pos D s L). lia.
  - unfold ind_cost, block_cost. rewrite ind_insert, Hz, (decide_True (P := a ∈ _)) by (unfold NDIRECT in *; lia || apply absorb_in). cbn [Z.eqb].
    pose proof (absorb_length hs (BBLOCK a (sb s))). pose proof (absorb_length (absorb hs (BBLOCK a (sb s))) a).
    destruct (ind x =? 0); [lia|]. destruct (decide (ind x ∈ hs)) as [E|E]; [rewrite decide_True by (by do 2 apply absorb_sub); lia|].
    destruct (decide _); lia.
  - intros n Hn. unfold ind_need, block_need in *. rewrite ind_insert by (unfold NDIRECT in *; lia). rewrite Hz in Hn. cbn [Z.eqb] in Hn.
    apply frees_inode. eapply frees_alloc; [exact L|exact I|exact A|]. eapply frees_le; [exact Hn|]. lia.
Qed.

(** A block of the indirect half, with the indirect block. *)
Lemma bmap_both_run D me p hs s ip x bn : txn 1 me p [] hs s -> fs_layout D s -> meta_used D s -> icache s !! ip = Some x -> file_ok D s x ->
  NDIRECT <= bn < MAXFILE -> block_of s x bn = 0 -> ind x = 0 -> frees s 2 -> spare [] hs 5 s ->
  exists a hs' s' x', bmap ip bn s = Ret a s' /\ bmap_post D me p ip hs s x bn a hs' s' x'.
Proof.
  intros X L HM Hx F Hbn Hz Hi Hfr Hsp. pose proof (tx_inv _ _ _ _ _ _ X) as I.
  rewrite (bmap_indirect ip bn x s Hx), Hi, (fo_dev _ _ _ F) by done. cbn [Z.eqb].
  destruct (balloc_run D me p [] hs s X L HM) as (a1 & s1 & R & A);
    [intros ? ? _ []%not_elem_of_nil|eapply spare_le; [exact Hsp|lia]|by eapply frees_one|].
  destruct (linked_ind D me p ip hs s s1 x a1 L X Hx F Hi A) as (LK1 & Hi1 & Ha1 & Eb1 & Ef1).
  set (x1 := set_i_addrs _ x) in *. set (s1' := with_inode ip x1 s1) in *. set (hs1 := absorb (absorb hs _) a1) in *.
  destruct (linked_meta D me p ip hs s x hs1 s1' x1 L HM LK1) as [L1 HM1].
  assert (length hs1 <= length hs + 2)%nat as Hl1
    by (unfold hs1; pose proof (absorb_length hs (BBLOCK a1 (sb s))); pose proof (absorb_length (absorb hs (BBLOCK a1 (sb s))) a1); lia).
  assert (forall n, frees s (S n) -> frees s1' n) as Hfr1 by (intros n Hn; apply frees_inode; exact (frees_alloc D me p [] hs s s1 a1 n L I A Hn)).
  destruct (bmap_slot_run D me p hs1 s1' ip x1 bn) as (a & hs' & s' & R2 & LK2 & Eb & Ha & Ef & Hin & Hin2 & Hlen & Hfree); try done.
  { apply (lk_txn _ _ _ _ _ _ _ _ _ _ LK1). }
  { rewrite (lk_icache _ _ _ _ _ _ _ _ _ _ LK1). apply list_lookup_insert_eq. by eapply lookup_lt_Some. }
  { apply (lk_file _ _ _ _ _ _ _ _ _ _ LK1). }
  { by rewrite Hi1. }
  { rewrite Eb1; [done|]. unfold NDIRECT in *. lia. }
  { by apply Hfr1. }
  { eapply spare_filed; [apply (lk_filed _ _ _ _ _ _ _ _ _ _ LK1)|]. unfold spare in *. cbn [length] in *. lia. }
  exists a, hs', s', x1. split; [|constructor; try done].
  - rewrite (bind_ret_l _ _ _ _ _ R). erewrite run_upd_inode; [|by rewrite (quiet_icache _ _ (al_quiet _ _ _ _ _ _ _ _ A))].
    fold x1 s1'. by rewrite <- Hi1.
  - by eapply linked_trans.
  - intros o Ho. by rewrite Ef, Ef1.
  - unfold ind_cost in Hlen |- *. unfold block_cost. rewrite Hz, Hi, Hi1, (proj2 (Z.eqb_neq _ _) Ha1) in *. cbn [Z.eqb].
    rewrite (decide_True (P := a1 ∈ hs')), (decide_True (P := a ∈ hs')) by done.
    rewrite (decide_True (P := a1 ∈ hs1)) in Hlen by apply absorb_in. lia.
  - intros n. unfold ind_need, block_need. rewrite Hz, Hi, Hi1, (proj2 (Z.eqb_neq _ _) Ha1). cbn [Z.eqb]. intros Hn.
    apply Hfree, Hfr1. eapply frees_le; [exact Hn|lia].
Qed.

(** [bmap] returns a block of the file, new or not. *)
Lemma bmap_run D me p hs s ip x bn : txn 1 me p [] hs s -> fs_layout D s -> meta_used D s -> icache s !! ip = Some x -> file_ok D s x ->
  0 <= bn < MAXFILE -> frees s (block_need s x bn + ind_need x) -> spare [] hs (block_cost s x bn + ind_cost x hs + 1) s ->
  exists a hs' s' x', bmap ip bn s = Ret a s' /\ bmap_post D me p ip hs s x bn a hs' s' x'.
Proof.
  intros X L HM Hx F Hbn Hfr Hsp. destruct (Z.eqb_spec (block_of s x bn) 0) as [Hz|Hne].
  2: { destruct (bmap_found D 1 me p hs s ip x bn X L Hx F Hbn Hne) as (s' & R & X' & Q & N); [unfold spare in Hsp; cbn [length] in *; lia|].
    destruct (file_same D s s' x F (quiet_sb _ _ Q)) as (F' & Eb & Ef); [intros c _; by apply used_same|intros; apply N|].
    exists (block_of s x bn), hs, s', x. split; [done|]. constructor; [|by rewrite Eb|done|done|done| |].
    - eapply linked_start; [exact Q|done|]. apply linked_refl; [done|by rewrite (quiet_icache _ _ Q)|done].
    - unfold block_cost. rewrite (proj2 (Z.eqb_neq _ _) Hne). case_decide; lia.
    - intros n Hn. unfold block_need in Hn. rewrite (proj2 (Z.eqb_neq _ _) Hne) in Hn. rewrite Nat.add_0_r in Hn.
      eapply (frees_same D s); [done|by apply quiet_sb|intros; apply N|done]. }
  unfold block_need, block_cost in Hfr, Hsp. rewrite Hz in Hfr, Hsp. cbn [Z.eqb] in Hfr, Hsp.
  destruct (decide (bn < NDIRECT)) as [Hd|Hd].
  { apply bmap_direct_run; try done; [lia|by eapply frees_le; [exact Hfr|lia]|by eapply spare_le; [exact Hsp|lia]]. }
  rewrite (bmap_indirect ip bn x s Hx) by lia. rewrite (fo_dev _ _ _ F). destruct (Z.eqb_spec (ind x) 0) as [Hi|Hi].
  - unfold ind_need, ind_cost in *. rewrite Hi in *. cbn [Z.eqb] in *.
    destruct (bmap_both_run D me p hs s ip x bn) as (a & hs' & s' & x' & R & P); try done; [lia|].
    exists a, hs', s', x'. split; [|done]. rewrite (bmap_indirect ip bn x s Hx), Hi, (fo_dev _ _ _ F) in R by lia. done.
  - destruct (bmap_slot_run D me p hs s ip x bn) as (a & hs' & s' & R & LK1 & Eb & Ha & Ef & Hin & Hin2 & Hlen & Hfree); try done; [lia|..].
    { eapply frees_le; [exact Hfr|lia]. }
    { eapply spare_le; [exact Hsp|lia]. }
    exists a, hs', s', x. split; [done|]. constructor; try done.
    + unfold block_cost. rewrite Hz, (decide_True (P := a ∈ hs')) by done. cbn [Z.eqb]. unfold ind_cost at 1. rewrite (proj2 (Z.eqb_neq _ _) Hi), decide_True by done. lia.
    + intros n Hn. unfold block_need in Hn. rewrite Hz in Hn. cbn [Z.eqb] in Hn. apply Hfree. eapply frees_le; [exact Hn|lia].
Qed.

End bmap.
