(* ===== verification/Mkfs.v ===== *)
(** * The builder of the disk image (mkfs.c)

    mkfs runs on the host: [Host] is what it uses of the host's system calls.
    Its global variables are the record [mkst]; exit(1) and a failed assert end
    the program and are [Panic].  The host is little-endian. *)

From S2P Require Import Prelude CString KState Console Ulib Posix Text Bio Layout Inode Fs.

Class Host (W : Type) : Type := {
  ho_posix :: Posix W;
  ho_lseek : Z -> Z -> M W Z;   (** descriptor and offset from the start *)
}.

(** ** Constants and global variables *)

Definition NINODES : Z := 200.
Definition nbitmap : Z := FSSIZE / (BSIZE * 8) + 1.
Definition ninodeblocks : Z := NINODES / IPB + 1.
Definition nlog : Z := LOGSIZE.
Definition nmeta : Z := 2 + nlog + ninodeblocks + nbitmap.
Definition nblocks : Z := FSSIZE - nmeta.

(** The bytes in the order of the disk, read as a number of the host. *)
Definition xshort (x : Z) : Z := get16 (le16 x) 0.
Definition xint (x : Z) : Z := get32 (le32 x) 0.

Definition mk_sb : superblock :=
  mk_superblock (xint FSSIZE) (xint nblocks) (xint NINODES) (xint nlog) (xint 2) (xint (2 + nlog)) (xint (2 + nlog + ninodeblocks)).

(** [memmove(buf, &sb, sizeof(sb))] into a block of zeros. *)
Definition sb_bytes (sb : superblock) : list Z :=
  concat (map le32 [sb_size sb; sb_nblocks sb; sb_ninodes sb; sb_nlog sb; sb_logstart sb; sb_inodestart sb; sb_bmapstart sb])
  ++ replicate 484 0.

Record mkst (W : Type) : Type := mk_mkst {
  mk_world : W;
  mk_fsfd : Z;
  mk_freeinode : Z;
  mk_freeblock : Z;
}.
Arguments mk_mkst {W}.
Arguments mk_world {W}.
Arguments mk_fsfd {W}.
Arguments mk_freeinode {W}.
Arguments mk_freeblock {W}.

Section mkfs.
Context {W : Type} {HO : Host W}.

(** A call of the host. *)
Definition host {A} (m : M W A) : M (mkst W) A := fun s =>
  let wrap w := mk_mkst w (mk_fsfd s) (mk_freeinode s) (mk_freeblock s) in
  match m (mk_world s) with
  | Ret a w => Ret a (wrap w)
  | Panic e w => Panic e (wrap w)
  | Block w => Block (wrap w)
  | Undef e w => Undef e (wrap w)
  end.

Definition mexit {A} : M (mkst W) A := panic "exit(1)".
Definition massert (b : bool) : M (mkst W) unit := if b then ret tt else panic "assert".

(** ** Sectors *)

Definition wsect (sec : Z) (buf : list Z) : M (mkst W) unit :=
  fd <- gets mk_fsfd ;;
  p <- host (ho_lseek fd (u32 (sec * BSIZE))) ;;
  if negb (p =? u32 (sec * BSIZE)) then host (perror (bytes "lseek")) ;; mexit
  else
    n <- host (io_write fd buf) ;;
    if negb (n =? BSIZE) then host (perror (bytes "write")) ;; mexit else ret tt.

Definition rsect (sec : Z) : M (mkst W) (list Z) :=
  fd <- gets mk_fsfd ;;
  p <- host (ho_lseek fd (u32 (sec * BSIZE))) ;;
  if negb (p =? u32 (sec * BSIZE)) then host (perror (bytes "lseek")) ;; mexit
  else
    r <- host (io_read fd (Z.to_nat BSIZE)) ;;
    if negb (r.1 =? BSIZE) then host (perror (bytes "read")) ;; mexit else ret r.2.

(** ** Inodes *)

Definition winode (inum : Z) (ip : dinode) : M (mkst W) unit :=
  let bn := IBLOCK inum mk_sb in
  buf <- rsect bn ;;
  wsect bn (put_dinode buf (dinode_off inum) ip).

Definition rinode (inum : Z) : M (mkst W) dinode :=
  let bn := IBLOCK inum mk_sb in
  buf <- rsect bn ;;
  ret (get_dinode buf (dinode_off inum)).

(** [freeinode++] and [freeblock++] *)
Definition next_inode : M (mkst W) Z := fun s =>
  Ret (mk_freeinode s) (mk_mkst (mk_world s) (mk_fsfd s) (u32 (mk_freeinode s + 1)) (mk_freeblock s)).
Definition next_block : M (mkst W) Z := fun s =>
  Ret (mk_freeblock s) (mk_mkst (mk_world s) (mk_fsfd s) (mk_freeinode s) (u32 (mk_freeblock s + 1))).

Definition mk_ialloc (type : Z) : M (mkst W) Z :=
  inum <- next_inode ;;
  winode inum (mk_dinode (i16 (xshort type)) 0 0 (i16 (xshort 1)) (xint 0) (replicate 13 0)) ;;
  ret inum.

(** ** The bitmap *)

(** [for(i = 0; i < used; i++)] *)
Fixpoint mark_used (k : nat) (i : Z) (buf : list Z) : list Z :=
  match k with
  | O => buf
  | S k' => mark_used k' (i + 1) (bit_set buf i)
  end.

Definition bitmap (used : Z) : list Z := mark_used (Z.to_nat used) 0 (replicate (Z.to_nat BSIZE) 0).

Definition mk_balloc (used : Z) : M (mkst W) unit :=
  host (px_stdout (bytes "balloc: first " ++ dec_bytes used ++ bytes " blocks have been allocated" ++ [10])) ;;
  massert (used <? BSIZE * 8) ;;
  host (px_stdout (bytes "balloc: write bitmap block at sector " ++ dec_bytes (sb_bmapstart mk_sb) ++ [10])) ;;
  wsect (sb_bmapstart mk_sb) (bitmap used).

(** ** Appending to a file *)

Definition set_addr (i : nat) (a : Z) (d : dinode) : dinode :=
  mk_dinode (di_type d) (di_major d) (di_minor d) (di_nlink d) (di_size d) (<[i := a]> (di_addrs d)).
Definition set_size (n : Z) (d : dinode) : dinode :=
  mk_dinode (di_type d) (di_major d) (di_minor d) (di_nlink d) n (di_addrs d).

(** [if(xint(din.addrs[i]) == 0) din.addrs[i] = xint(freeblock++);] *)
Definition fill_addr (i : nat) (din : dinode) : M (mkst W) dinode :=
  if xint (nth i (di_addrs din) 0) =? 0 then b <- next_block ;; ret (set_addr i (xint b) din) else ret din.

(** The block of the file block [fbn]. *)
Definition append_block (fbn : Z) (din : dinode) : M (mkst W) (Z * dinode) :=
  if fbn <? NDIRECT then
    din <- fill_addr (Z.to_nat fbn) din ;;
    ret (xint (nth (Z.to_nat fbn) (di_addrs din) 0), din)
  else
    din <- fill_addr (Z.to_nat NDIRECT) din ;;
    let a := xint (nth (Z.to_nat NDIRECT) (di_addrs din) 0) in
    indirect <- rsect a ;;
    let o := (4 * Z.to_nat (fbn - NDIRECT))%nat in
    indirect <- (if get32 indirect o =? 0 then
                   b <- next_block ;;
                   let indirect := put32 indirect o (xint b) in
                   wsect a indirect ;;
                   ret indirect
                 else ret indirect) ;;
    ret (xint (get32 indirect o), din).

(** [while(n > 0)]: the bytes [p] still to be appended. *)
Fixpoint iappend_loop (k : nat) (p : list Z) (off : Z) (din : dinode) : M (mkst W) (Z * dinode) :=
  match p with
  | [] => ret (off, din)
  | _ =>
      match k with
      | O => undef "iappend: loop bound"
      | S k' =>
          let fbn := off / BSIZE in
          massert (fbn <? MAXFILE) ;;
          r <- append_block fbn din ;;
          let n1 := Z.to_nat (Z.min (Z.of_nat (length p)) ((fbn + 1) * BSIZE - off)) in
          buf <- rsect r.1 ;;
          wsect r.1 (splice buf (Z.to_nat (off - fbn * BSIZE)) (take n1 p)) ;;
          iappend_loop k' (drop n1 p) (off + Z.of_nat n1) r.2
      end
  end.

Definition iappend (inum : Z) (p : list Z) : M (mkst W) unit :=
  din <- rinode inum ;;
  let off := xint (di_size din) in
  r <- iappend_loop (length p) p off din ;;
  winode inum (set_size (xint r.1) r.2).

(** ** main *)

(** [for(i = 0; i < FSSIZE; i++) wsect(i, zeroes);] *)
Fixpoint zero_disk (k : nat) (i : Z) : M (mkst W) unit :=
  match k with
  | O => ret tt
  | S k' => wsect i (replicate (Z.to_nat BSIZE) 0) ;; zero_disk k' (i + 1)
  end.

(** [strcpy(de.name, name)] in a zeroed entry *)
Definition short_name (name : list Z) : list Z := default [] (strcpy (replicate DIRSIZ 0) (name ++ [0])).

(** [while((cc = read(fd, buf, sizeof(buf))) > 0) iappend(inum, buf, cc);] *)
Fixpoint append_file (k : nat) (fd inum : Z) : M (mkst W) unit :=
  match k with
  | O => undef "mkfs: loop bound"
  | S k' =>
      r <- host (io_read fd (Z.to_nat BSIZE)) ;;
      if 0 <? r.1 then iappend inum r.2 ;; append_file k' fd inum else ret tt
  end.

(** Skip leading _ in name. *)
Definition skip_underscore (name : list Z) : list Z :=
  match name with c :: name' => if c =? 95 then name' else name | [] => [] end.

(** [for(i = 2; i < argc; i++)]; [k] bounds the reads of a file. *)
Fixpoint add_files (k : nat) (rootino : Z) (args : list (list Z)) : M (mkst W) unit :=
  match args with
  | [] => ret tt
  | arg :: args' =>
      massert (bool_decide (slash ∉ arg)) ;;
      fd <- host (io_open arg 0 0) ;;
      if fd <? 0 then host (perror arg) ;; mexit
      else
        inum <- mk_ialloc T_FILE ;;
        iappend rootino (dirent_bytes (xshort inum) (dirent_pad (skip_underscore arg))) ;;
        append_file k fd inum ;;
        host (io_close fd) ;;
        add_files k rootino args'
  end.

Definition nmeta_message : list Z :=
  bytes "nmeta " ++ dec_bytes nmeta ++ bytes " (boot, super, log blocks " ++ dec_bytes nlog ++ bytes " inode blocks " ++ dec_bytes ninodeblocks
  ++ bytes ", bitmap blocks " ++ dec_bytes nbitmap ++ bytes ") blocks " ++ dec_bytes nblocks ++ bytes " total " ++ dec_bytes FSSIZE ++ [10].

(** Round the size of the root directory up to a whole block. *)
Definition fix_root (rootino : Z) : M (mkst W) unit :=
  din <- rinode rootino ;;
  let off := xint (di_size din) in
  winode rootino (set_size (xint ((off / BSIZE + 1) * BSIZE)) din).

Definition set_fsfd (fd : Z) : M (mkst W) unit := fun s =>
  Ret tt (mk_mkst (mk_world s) fd (mk_freeinode s) (mk_freeblock s)).
Definition set_freeblock (b : Z) : M (mkst W) unit := fun s =>
  Ret tt (mk_mkst (mk_world s) (mk_fsfd s) (mk_freeinode s) b).

(** O_RDWR|O_CREAT|O_TRUNC *)
Definition IMG_FLAGS : Z := 2 + PX_CREAT + PX_TRUNC.

(** [args] are the arguments after the name of the program. *)
Definition mkfs_main (k : nat) (args : list (list Z)) : M (mkst W) unit :=
  match args with
  | [] => host (px_stderr (bytes "Usage: mkfs fs.img files..." ++ [10])) ;; mexit
  | image :: files =>
      fd <- host (io_open image IMG_FLAGS 0x1b6) ;;
      set_fsfd fd ;;
      if fd <? 0 then host (perror image) ;; mexit
      else
        host (px_stdout nmeta_message) ;;
        set_freeblock nmeta ;;
        zero_disk (Z.to_nat FSSIZE) 0 ;;
        wsect 1 (sb_bytes mk_sb) ;;
        rootino <- mk_ialloc T_DIR ;;
        massert (rootino =? ROOTINO) ;;
        iappend rootino (dirent_bytes (xshort rootino) (short_name (bytes "."))) ;;
        iappend rootino (dirent_bytes (xshort rootino) (short_name (bytes ".."))) ;;
        add_files k rootino files ;;
        fix_root rootino ;;
        b <- gets mk_freeblock ;;
        mk_balloc b
  end.

End mkfs.
