(* ===== verification/RwSpec.v ===== *)
(** * Reading and writing a file

    [readi] returns the bytes of the file; [writei] replaces them, extends the
    file and keeps its inode on disk up to date.  Both leave every other file
    alone, and the number of blocks that [writei] logs is bounded. *)

From S2P Require Import Prelude Mem KState Mmu Kalloc Vm File Proc Bio Layout Log Inode Fs.
From S2P Require Import ProcMem WaitSpec BioSpec LogSpec TxnSpec FileSpec.

Section rw.
Context {LK : Linker} {FS : FsOps} {DK : Disk}.

(** ** Offsets *)

Lemma same_block off i : 0 <= off -> 0 <= i -> off mod BSIZE + i < BSIZE ->
  (off + i) / BSIZE = off / BSIZE /\ (off + i) mod BSIZE = off mod BSIZE + i.
Proof.
  intros Ho Hi Hm. unfold BSIZE in *. pose proof (Z.div_mod off 512 ltac:(lia)) as E. pose proof (Z.mod_pos_bound off 512 ltac:(lia)).
  split; [symmetry; apply (Z.div_unique _ _ _ (off mod 512 + i)); lia|symmetry; apply (Z.mod_unique _ _ (off / 512)); lia].
Qed.

(** What is left after a round that copies [m] of [r] bytes. *)
Lemma chunk_next off m r j : 0 <= off -> m = Z.min r (BSIZE - off mod BSIZE) -> 0 < r ->
  off mod BSIZE + r <= Z.of_nat (S j) * BSIZE -> m = r \/ (off + m) mod BSIZE + (r - m) <= Z.of_nat j * BSIZE.
Proof.
  intros H0 Hm Hr Hj. pose proof (Z.mod_pos_bound off BSIZE ltac:(unfold BSIZE; lia)). destruct (decide (m = r)); [by left|right].
  assert (m = BSIZE - off mod BSIZE) as Em by lia. assert ((off + m) mod BSIZE = 0) as ->; [|lia].
  rewrite Em. symmetry. apply (Z.mod_unique _ _ (off / BSIZE + 1)); [unfold BSIZE; lia|].
  rewrite (Z.div_mod off BSIZE) at 1 by (unfold BSIZE; lia). lia.
Qed.

Lemma slice_bytes s x off m : 0 <= off -> 0 <= m -> off mod BSIZE + m <= BSIZE -> block_of s x (off / BSIZE) <> 0 ->
  length (content s (block_of s x (off / BSIZE))) = Z.to_nat BSIZE ->
  slice (content s (block_of s x (off / BSIZE))) (off mod BSIZE) m = map (fbyte s x) (seqZ off m).
Proof.
  intros Ho Hm Hle Hne Hlen. pose proof (Z.mod_pos_bound off BSIZE ltac:(unfold BSIZE; lia)) as Hmod. apply list_eq. intros i.
  unfold slice. rewrite list_lookup_fmap. destruct (decide (i < Z.to_nat m)%nat) as [Hi|Hi].
  - rewrite lookup_take_lt, lookup_drop by lia. rewrite lookup_seqZ_lt by lia. cbn [fmap option_fmap option_map]. unfold fbyte.
    destruct (same_block off (Z.of_nat i) Ho ltac:(lia) ltac:(lia)) as [-> ->]. rewrite (proj2 (Z.eqb_neq _ _) Hne).
    rewrite nth_lookup. replace (Z.to_nat (off mod BSIZE + Z.of_nat i)) with (Z.to_nat (off mod BSIZE) + i)%nat by lia.
    destruct (lookup_lt_is_Some_2 (content s (block_of s x (off / BSIZE))) (Z.to_nat (off mod BSIZE) + i)) as [v Hv]; [rewrite Hlen; lia|].
    by rewrite Hv.
  - rewrite lookup_take_ge, lookup_seqZ_ge by lia. done.
Qed.

(** ** Reading *)

Lemma readi_loop_run D w me p hs ip x n : forall k s tot off acc,
  txn w me p [] hs s -> fs_layout D s -> icache s !! ip = Some x -> file_ok D s x -> (length hs < NBUF)%nat ->
  0 <= tot <= n -> 0 <= off -> off + (n - tot) <= i_size x -> tot = n \/ off mod BSIZE + (n - tot) <= Z.of_nat k * BSIZE ->
  exists s', readi_loop k ip to_local tot off n acc s = Ret (acc ++ map (fbyte s x) (seqZ off (n - tot))) s' /\
    txn w me p [] hs s' /\ quiet s s' /\ (forall c, content s' c = content s c).
Proof.
  induction k as [|k IH]; intros s tot off acc X L Hx F Hlen Ht Ho Hsz Hk;
    pose proof (Z.mod_pos_bound off BSIZE ltac:(unfold BSIZE; lia)) as Hmod; cbn [readi_loop].
  { assert (tot = n) as -> by lia. rewrite Z.ltb_irrefl, Z.sub_diag. exists s. rewrite app_nil_r. by (split; [done|]; split; [done|]; split; [apply quiet_refl|]). }
  destruct (tot <? n) eqn:E; bool_prop.
  2: { assert (tot = n) as -> by lia. rewrite Z.sub_diag. exists s. rewrite app_nil_r. by (split; [done|]; split; [done|]; split; [apply quiet_refl|]). }
  set (bn := off / BSIZE). assert (0 <= bn < MAXFILE) as Hbn by (apply offset_block; pose proof (fo_size _ _ _ F); lia).
  assert (block_of s x bn <> 0) as Hne.
  { apply (fo_full _ _ _ F); [done|]. pose proof (Z.mul_div_le off BSIZE ltac:(unfold BSIZE; lia)). fold bn in H. lia. }
  destruct (bmap_found D w me p hs s ip x bn X L Hx F Hbn Hne Hlen) as (s1 & R1 & X1 & Q1 & N1).
  pose proof (fo_data _ _ _ F bn Hbn Hne) as [Hr _]. pose proof (data_pos D s L). pose proof (fl_size _ _ L). set (a := block_of s x bn) in *.
  destruct (tx_peek w me p [] hs s1 a X1 ltac:(lia) (not_held_nil _ _) Hlen) as (b & s2 & s3 & R2 & Rd & R3 & X3 & _ & Q3 & _ & N3).
  set (m := Z.min (n - tot) (BSIZE - off mod BSIZE)). assert (0 < m) by lia. pose proof (quiet_trans _ _ _ Q1 Q3) as Q.
  assert (forall c, content s3 c = content s c) as N by (intros c; by rewrite N3, N1).
  assert (file_ok D s3 x /\ (forall o, 0 <= o < MAXFILE * BSIZE -> fbyte s3 x o = fbyte s x o)) as [F3 Ef].
  { destruct (file_same D s s3 x F (quiet_sb _ _ Q)) as (? & _ & ?); [intros c _; by apply used_same|intros; apply N|done]. }
  destruct (IH s3 (tot + m) (off + m) (acc ++ slice (content s a) (off mod BSIZE) m)) as (s' & R & X' & Q' & N'); try done; try lia.
  { by eapply quiet_layout. }
  { by rewrite (quiet_icache _ _ Q). }
  { destruct Hk as [?|Hk]; [lia|]. destruct (chunk_next off m (n - tot) k Ho eq_refl ltac:(lia) Hk); [left; lia|right; lia]. }
  exists s'. split; [|split; [done|split; [by eapply quiet_trans|intros c; by rewrite N']]].
  rewrite (bind_ret_l _ _ _ _ _ R1). fold bn. rewrite (run_inode_at ip x) by (by rewrite (quiet_icache _ _ Q1)).
  rewrite (fo_dev _ _ _ F), (bind_ret_l _ _ _ _ _ R2), (bind_ret_l _ _ _ _ _ Rd), N1. fold m. unfold to_local at 1. rewrite run_ret.
  rewrite (bind_ret_l _ _ _ _ _ R3), R. f_equal. rewrite <- app_assoc. f_equal. replace (n - tot) with (m + (n - (tot + m))) by lia.
  rewrite seqZ_app, map_app by lia. f_equal.
  - apply slice_bytes; [done|lia|lia|done|]. eapply length_content, (tx_inv _ _ _ _ _ _ X).
  - apply map_ext_in. intros o Hin. apply Ef. apply list_elem_of_In, elem_of_seqZ in Hin. pose proof (fo_size _ _ _ F). lia.
Qed.

Lemma readi_run D w me p hs s ip x off n : txn w me p [] hs s -> fs_layout D s -> icache s !! ip = Some x -> file_ok D s x ->
  i_type x <> T_DEV -> (length hs < NBUF)%nat -> 0 <= off <= i_size x -> 0 <= n -> off + n < 2 ^ 32 ->
  let r := Z.min n (i_size x - off) in
  exists s', readi ip to_local off n s = Ret (r, map (fbyte s x) (seqZ off r)) s' /\
    txn w me p [] hs s' /\ quiet s s' /\ (forall c, content s' c = content s c).
Proof.
  intros X L Hx F Hty Hlen Ho Hn Hov r. pose proof (fo_size _ _ _ F) as Hsz. unfold MAXFILE, NDIRECT, NINDIRECT, BSIZE in Hsz.
  unfold readi. rewrite (run_inode_at _ _ _ _ Hx), (proj2 (Z.eqb_neq _ _) Hty), (u32_id (off + n)) by lia.
  rewrite (proj2 (Z.ltb_ge (i_size x) off)), (proj2 (Z.ltb_ge (off + n) off)) by lia. cbn [orb].
  assert ((if i_size x <? off + n then u32 (i_size x - off) else n) = r) as ->.
  { destruct (i_size x <? off + n) eqn:E; bool_prop; [rewrite u32_id by lia|]; lia. }
  pose proof (Z.div_mod r BSIZE ltac:(unfold BSIZE; lia)) as Er. pose proof (Z.mod_pos_bound r BSIZE ltac:(unfold BSIZE; lia)).
  pose proof (Z.mod_pos_bound off BSIZE ltac:(unfold BSIZE; lia)). pose proof (Z.div_pos r BSIZE ltac:(lia) ltac:(unfold BSIZE; lia)).
  destruct (readi_loop_run D w me p hs ip x r (Z.to_nat (r / BSIZE + 2)) s 0 off []) as (s' & R & Hpost); try done; try lia.
  exists s'. split; [|done]. rewrite (bind_ret_l _ _ _ _ _ R). rewrite Z.sub_0_r. cbn [app]. by rewrite (i32_id r) by lia.
Qed.

(** ** Writing *)

(** A write to a data block of the file. *)
Lemma file_data D s s' x bn d : file_ok D s x -> sb s' = sb s -> (forall c, D <= c < sb_size (sb s) -> used s c -> used s' c) ->
  0 <= bn < MAXFILE -> block_of s x bn <> 0 -> (forall k, content s' k = if k =? block_of s x bn then d else content s k) ->
  file_ok D s' x /\ (forall bm, block_of s' x bm = block_of s x bm).
Proof.
  intros F Esb HU Hbn Hne N. assert (forall bm, block_of s' x bm = block_of s x bm) as Eb.
  { apply block_of_same. intros Hi. rewrite N, (proj2 (Z.eqb_neq _ (block_of s x bn))); [done|]. intros E. by destruct (fo_sep _ _ _ F bn Hbn Hne). }
  destruct F as [F1 F2 F3 F4 F5 F6 F7 F8]. split; [|done].
  assert (forall c, data_block D s c -> data_block D s' c) as Hd by (intros c [? ?]; split; [by rewrite Esb|by apply HU]).
  constructor; try done.
  - intros Hi. by apply Hd, F3.
  - intros bm Hbm. rewrite Eb. intros ?. by apply Hd, F4.
  - intros b1 b2. rewrite !Eb. apply F5.
  - intros bm. rewrite Eb. apply F6.
  - intros bm ? ?. rewrite Eb. by apply F7.
Qed.

Lemma linked_data D me p ip hs hs' s s' x bn d : fs_layout D s -> icache s !! ip = Some x -> file_ok D s x ->
  0 <= bn < MAXFILE -> block_of s x bn <> 0 -> txn 1 me p [] hs' s' -> quiet s s' -> hs ⊆ hs' ->
  (forall k, content s' k = if k =? block_of s x bn then d else content s k) ->
  linked D me p ip hs s x hs' s' x /\ (forall bm, block_of s' x bm = block_of s x bm).
Proof.
  intros L Hx F Hbn Hne X' Q Hsub N. destruct (fo_data _ _ _ F bn Hbn Hne) as [Hr _]. pose proof (data_pos D s L).
  assert (forall c, 0 <= c < sb_size (sb s) -> used s' c <-> used s c) as HU.
  { intros c Hc. unfold used. rewrite (quiet_sb _ _ Q), N. destruct (bblock_range D s c L Hc) as (_ & ? & _).
    by rewrite (proj2 (Z.eqb_neq _ (block_of s x bn))) by lia. }
  destruct (file_data D s s' x bn d F (quiet_sb _ _ Q)) as [F' Eb]; try done; [intros c Hc; apply HU; lia|].
  split; [|done]. constructor; try done.
  - by rewrite (quiet_icache _ _ Q), list_insert_id.
  - by apply quiet_filed.
  - by destruct x.
  - intros c Hc. by apply HU.
  - intros c Hc [H0 [E|(bm & Hbm & E)]]; (split; [done|]); [by left|]. right. exists bm. by rewrite <- Eb.
  - intros c _ Hno. rewrite N, (proj2 (Z.eqb_neq c (block_of s x bn))); [done|]. intros ->. apply Hno. split; [done|]. right. by exists bn.
Qed.

(** The bytes of the file after [bs] was written at [off]. *)
Definition overlay (f : Z -> Z) (off : Z) (bs : list Z) (o : Z) : Z :=
  if (off <=? o) && (o <? off + Z.of_nat (length bs)) then nth (Z.to_nat (o - off)) bs 0 else f o.

Lemma data_bytes D s s' x bn off bs : file_ok D s x -> 0 <= off -> bn = off / BSIZE -> 0 <= bn < MAXFILE -> block_of s x bn <> 0 ->
  off mod BSIZE + Z.of_nat (length bs) <= BSIZE -> length (content s (block_of s x bn)) = Z.to_nat BSIZE ->
  (forall bm, block_of s' x bm = block_of s x bm) ->
  (forall k, content s' k = if k =? block_of s x bn then splice (content s k) (Z.to_nat (off mod BSIZE)) bs else content s k) ->
  forall o, 0 <= o < MAXFILE * BSIZE -> fbyte s' x o = overlay (fbyte s x) off bs o.
Proof.
  intros F H0 Ebn Hbn Hne Hle Hlen Eb N o Ho. pose proof (offset_block o Ho) as Hob. unfold fbyte, overlay. rewrite Eb, N.
  pose proof (Z.mod_pos_bound off BSIZE ltac:(unfold BSIZE; lia)) as Hm. pose proof (Z.mod_pos_bound o BSIZE ltac:(unfold BSIZE; lia)) as Hm'.
  pose proof (Z.div_mod off BSIZE ltac:(unfold BSIZE; lia)) as E1. pose proof (Z.div_mod o BSIZE ltac:(unfold BSIZE; lia)) as E2.
  destruct (decide (o / BSIZE = bn)) as [E|E].
  - rewrite E, (proj2 (Z.eqb_neq _ _) Hne), Z.eqb_refl, nth_splice by (rewrite Hlen; lia). rewrite E, Ebn in E2.
    case_decide as Hd; destruct (off <=? o) eqn:T1, (o <? off + Z.of_nat (length bs)) eqn:T2; bool_prop; cbn [andb]; try done; try lia.
    f_equal. lia.
  - assert (((off <=? o) && (o <? off + Z.of_nat (length bs))) = false) as ->.
    { apply not_true_is_false. intros [T1 T2]%andb_prop. bool_prop. apply E.
      destruct (same_block off (o - off)) as [Es _]; [lia..|]. by replace (off + (o - off)) with o in Es by lia; congruence. }
    destruct (Z.eqb_spec (block_of s x (o / BSIZE)) 0) as [|Hnz]; [done|]. rewrite (proj2 (Z.eqb_neq _ (block_of s x bn))); [done|].
    intros Es. by apply E, (fo_inj _ _ _ F).
Qed.

Record written (D : Z) (me : nat) (p : proc) (ip : nat) (hs : list Z) (s : kstate) (x : inode) (off : Z) (bs : list Z)
    (hs' : list Z) (s' : kstate) (x' : inode) : Prop := {
  wr_linked : linked D me p ip hs s x hs' s' x';
  wr_bytes : forall o, 0 <= o < MAXFILE * BSIZE -> fbyte s' x' o = overlay (fbyte s x) off bs o;
  wr_full : full s x off -> full s' x' (off + Z.of_nat (length bs));
  wr_same : full s x (off + Z.of_nat (length bs)) -> x' = x;
}.

Lemma absorb_length_eq hs n : length (absorb hs n) = (length hs + if decide (n ∈ hs) then 0 else 1)%nat.
Proof. unfold absorb. case_decide; rewrite ?length_app; cbn [length]; lia. Qed.

Lemma ind_cost_mono x hs hs' : hs ⊆ hs' -> (ind_cost x hs' <= ind_cost x hs)%nat.
Proof. intros H. unfold ind_cost. destruct (ind x =? 0); [lia|]. case_decide as E1; case_decide as E2; try lia. by destruct E1; apply H. Qed.

(** A round of the loop of [writei]. *)
Lemma writei_round D me p hs s ip x off bs : txn 1 me p [] hs s -> fs_layout D s -> meta_used D s -> icache s !! ip = Some x -> file_ok D s x ->
  0 <= off -> bs <> [] -> off mod BSIZE + Z.of_nat (length bs) <= BSIZE -> off < MAXFILE * BSIZE ->
  frees s (block_need s x (off / BSIZE) + ind_need x) -> spare [] hs (block_cost s x (off / BSIZE) + ind_cost x hs + 1) s ->
  exists a b d hs' s1 s2 s3 s4 s' x', bmap ip (off / BSIZE) s = Ret a s1 /\ icache s1 !! ip = Some x' /\ bread 1 a s1 = Ret b s2 /\ filed s s2 /\
    buf_data b s2 = Ret d s2 /\ set_buf_data b (splice d (Z.to_nat (off mod BSIZE)) bs) s2 = Ret tt s3 /\ log_write b s3 = Ret tt s4 /\
    brelse b s4 = Ret tt s' /\ written D me p ip hs s x off bs hs' s' x' /\
    (length hs' + ind_cost x' hs' <= length hs + ind_cost x hs + block_cost s x (off / BSIZE))%nat /\
    (forall n, frees s (n + block_need s x (off / BSIZE) + ind_need x) -> frees s' (n + ind_need x')).
Proof.
  intros X L HM Hx F H0 Hbs Hle Hmax Hfr Hsp. set (bn := off / BSIZE) in *.
  assert (0 <= bn < MAXFILE) as Hbn by (by apply offset_block).
  destruct (bmap_run D me p hs s ip x bn X L HM Hx F Hbn Hfr Hsp) as (a & hs1 & s1 & x1 & R1 & [LK1 Ea Ha Hsame Ef1 Hlog Hfree]).
  destruct (linked_meta D me p ip hs s x hs1 s1 x1 L HM LK1) as [L1 HM1]. pose proof (lk_txn _ _ _ _ _ _ _ _ _ _ LK1) as X1.
  assert (icache s1 !! ip = Some x1) as Hx1 by (rewrite (lk_icache _ _ _ _ _ _ _ _ _ _ LK1); apply list_lookup_insert_eq; by eapply lookup_lt_Some).
  pose proof (lk_file _ _ _ _ _ _ _ _ _ _ LK1) as F1. pose proof (lk_filed _ _ _ _ _ _ _ _ _ _ LK1) as G1.
  assert (block_of s1 x1 bn <> 0) as Hne by (by rewrite Ea).
  destruct (fo_data _ _ _ F1 bn Hbn Hne) as [Hr _]. rewrite Ea in Hr. pose proof (data_pos D s1 L1). pose proof (fl_size _ _ L1).
  assert (length (content s1 a) = Z.to_nat BSIZE) as Hlen by (eapply length_content, (tx_inv _ _ _ _ _ _ X1)).
  assert (length hs1 + (if decide (a ∈ hs1) then 0 else 1) <= length hs + ind_cost x hs + block_cost s x bn)%nat as Hl1 by lia.
  assert (length hs1 < length hs + ind_cost x hs + block_cost s x bn + 1)%nat as Hl1' by lia.
  destruct (tx_modify me p [] hs1 s1 a X1 ltac:(lia) (not_held_nil _ _)) as (b & s2 & R2 & Q2 & Rd & Hmod); [|apply (fl_disk _ _ L)|].
  { apply (spare_filed _ _ _ s s1 G1). unfold spare in *. cbn [length] in *. lia. }
  pose proof (Z.mod_pos_bound off BSIZE ltac:(unfold BSIZE; lia)) as Hm.
  destruct (Hmod (splice (content s1 a) (Z.to_nat (off mod BSIZE)) bs)) as (s3 & s4 & s' & R3 & R4 & R5 & X' & Q' & _ & N'); [rewrite length_splice; [done|lia]|].
  assert (forall k, content s' k = if k =? block_of s1 x1 bn then splice (content s1 k) (Z.to_nat (off mod BSIZE)) bs else content s1 k) as N2.
  { intros k. rewrite N', Ea. by destruct (Z.eqb_spec k a) as [->|]. }
  destruct (linked_data D me p ip hs1 (absorb hs1 a) s1 s' x1 bn (splice (content s1 a) (Z.to_nat (off mod BSIZE)) bs) L1 Hx1 F1 Hbn Hne X' Q') as [LK2 Eb2].
  { apply absorb_sub. }
  { by rewrite Ea. }
  exists a, b, (content s1 a), (absorb hs1 a), s1, s2, s3, s4, s', x1. do 3 (split; [done|]).
  split; [by eapply filed_trans, quiet_filed|]. do 4 (split; [done|]). split; [|split].
  - constructor.
    + by eapply linked_trans.
    + intros o Ho. rewrite (data_bytes D s1 s' x1 bn off bs F1) by (done || by rewrite Ea). unfold overlay. by rewrite Ef1.
    + intros Hf bm Hbm Hlt. rewrite Eb2. destruct (decide (bm = bn)) as [->|Hnb]; [done|].
      assert (block_of s x bm <> 0) as Hb; [|by rewrite (lk_keep _ _ _ _ _ _ _ _ _ _ LK1)].
      apply Hf; [done|]. destruct (decide (bm * BSIZE < off)); [done|]. destruct Hnb.
      destruct (same_block off (bm * BSIZE - off)) as [E _]; [lia..|]. replace (off + (bm * BSIZE - off)) with (bm * BSIZE) in E by lia.
      rewrite Z.div_mul in E by (unfold BSIZE; lia). done.
    + intros Hf. apply Hsame, Hf; [done|]. pose proof (Z.mul_div_le off BSIZE ltac:(unfold BSIZE; lia)) as E. fold bn in E.
      destruct bs; [done|]. cbn [length]. lia.
  - rewrite absorb_length_eq. pose proof (ind_cost_mono x1 hs1 (absorb hs1 a) (absorb_sub _ _)). lia.
  - intros n Hn. eapply (frees_same D s1); [done|by apply quiet_sb| |by apply Hfree].
    intros c Hc. rewrite N'. by rewrite (proj2 (Z.eqb_neq c a)) by lia.
Qed.

Lemma overlay_nil f off o : overlay f off [] o = f o.
Proof. unfold overlay. cbn [length]. destruct (off <=? o) eqn:E, (o <? off + Z.of_nat 0) eqn:E2; bool_prop; try done. lia. Qed.

Lemma overlay_app f off b1 b2 o : overlay (overlay f off b1) (off + Z.of_nat (length b1)) b2 o = overlay f off (b1 ++ b2) o.
Proof.
  unfold overlay. rewrite length_app. repeat (match goal with |- context [?a <=? ?b] => destruct (Z.leb_spec a b)
    | |- context [?a <? ?b] => destruct (Z.ltb_spec a b) end; cbn [andb]); try lia; try done.
  - rewrite app_nth2 by lia. f_equal. lia.
  - by rewrite app_nth1 by lia.
Qed.

Lemma overlay_read f off bs : map (overlay f off bs) (seqZ off (Z.of_nat (length bs))) = bs.
Proof.
  apply list_eq. intros i. rewrite list_lookup_fmap. destruct (decide (i < length bs)%nat) as [Hi|Hi].
  - rewrite lookup_seqZ_lt by lia. cbn [fmap option_fmap option_map]. unfold overlay. rewrite (proj2 (Z.leb_le _ _)), (proj2 (Z.ltb_lt _ _)) by lia.
    cbn [andb]. replace (Z.to_nat (off + Z.of_nat i - off)) with i by lia. destruct (lookup_lt_is_Some_2 bs i Hi) as [v Hv].
    by rewrite nth_lookup, Hv.
  - rewrite lookup_seqZ_ge, lookup_ge_None_2 by lia. done.
Qed.

Lemma linked_full D me p ip hs s x hs' s' x' n : linked D me p ip hs s x hs' s' x' -> full s x n -> full s' x' n.
Proof. intros LK0 Hf bn Hbn Hlt. rewrite (lk_keep _ _ _ _ _ _ _ _ _ _ LK0); by auto. Qed.

Lemma full_le s x n m : full s x n -> m <= n -> full s x m.
Proof. intros Hf Hm bn Hbn Hlt. apply Hf; [done|lia]. Qed.

Lemma written_refl D me p ip hs s x off : txn 1 me p [] hs s -> icache s !! ip = Some x -> file_ok D s x -> written D me p ip hs s x off [] hs s x.
Proof.
  intros. constructor; [by apply linked_refl|intros; by rewrite overlay_nil| |done]. cbn [length]. by replace (off + Z.of_nat 0) with off by lia.
Qed.

Lemma written_trans D me p ip hs s x off b1 hs1 s1 x1 b2 hs2 s2 x2 : written D me p ip hs s x off b1 hs1 s1 x1 ->
  written D me p ip hs1 s1 x1 (off + Z.of_nat (length b1)) b2 hs2 s2 x2 -> written D me p ip hs s x off (b1 ++ b2) hs2 s2 x2.
Proof.
  intros [A1 A2 A3 A4] [B1 B2 B3 B4]. constructor.
  - by eapply linked_trans.
  - intros o Ho. rewrite B2, <- overlay_app by done. unfold overlay at 1 3. by rewrite A2.
  - intros Hf. rewrite length_app. replace (off + _) with (off + Z.of_nat (length b1) + Z.of_nat (length b2)) by lia. auto.
  - rewrite length_app. intros Hf. rewrite B4; [apply A4; eapply full_le; [exact Hf|lia]|].
    eapply linked_full; [exact A1|]. eapply full_le; [exact Hf|lia].
Qed.

(** What [j] blocks from [off] on cost. *)
Definition write_cost (s : kstate) (x : inode) (off : Z) (j : nat) : nat :=
  match j with O => 0 | S j' => block_cost s x (off / BSIZE) + 2 * j' end.
Definition write_need (s : kstate) (x : inode) (off : Z) (j : nat) : nat :=
  match j with O => 0 | S j' => block_need s x (off / BSIZE) + j' end.

Lemma write_cost_le s x off j : (write_cost s x off j <= 2 * j)%nat.
Proof. destruct j; cbn [write_cost]; [lia|]. unfold block_cost. destruct (_ =? 0); lia. Qed.

Lemma write_need_le s x off j : (write_need s x off j <= j)%nat.
Proof. destruct j; cbn [write_need]; [lia|]. unfold block_need. destruct (_ =? 0); lia. Qed.

(** [src] reads [bs] as long as only the file system is used. *)
Definition sourced (s : kstate) (src : source) (bs : list Z) : Prop :=
  forall s' o m, filed s s' -> 0 <= o -> (Z.to_nat o + m <= length bs)%nat -> src o m s' = Ret (take m (drop (Z.to_nat o) bs)) s'.

Lemma sourced_filed s s' src bs : filed s s' -> sourced s src bs -> sourced s' src bs.
Proof. intros Hf Hs t o m Ht. apply Hs. by eapply filed_trans. Qed.

Lemma sourced_bytes s bs : sourced s (from_bytes bs) bs.
Proof. by intros s' o m _ _ _. Qed.

Lemma writei_loop_run D me p ip src bs : forall j k hs s x tot off, (j <= k)%nat ->
  txn 1 me p [] hs s -> fs_layout D s -> meta_used D s -> icache s !! ip = Some x -> file_ok D s x -> sourced s src bs ->
  let n := Z.of_nat (length bs) in let r := n - tot in
  0 <= tot <= n -> 0 <= off -> off + r <= MAXFILE * BSIZE -> tot = n \/ off mod BSIZE + r <= Z.of_nat j * BSIZE ->
  frees s (write_need s x off j + ind_need x) -> spare [] hs (write_cost s x off j + ind_cost x hs + 1) s ->
  exists hs' s' x', writei_loop k ip src tot off n s = Ret (off + r) s' /\
    written D me p ip hs s x off (drop (Z.to_nat tot) bs) hs' s' x' /\
    (length hs' + ind_cost x' hs' <= length hs + ind_cost x hs + write_cost s x off j)%nat.
Proof.
  induction j as [|j IH]; intros k hs s x tot off Hjk X L HM Hx F Hsrc n r Ht H0 Hmax Hj Hfr Hsp;
    pose proof (Z.mod_pos_bound off BSIZE ltac:(unfold BSIZE; lia)) as Hm; (destruct (decide (tot = n)) as [->|Hne]; [
    exists hs, s, x; unfold r; rewrite Z.sub_diag, Z.add_0_r, drop_ge by lia; split; [destruct k; cbn [writei_loop]; by rewrite Z.ltb_irrefl|];
    split; [by apply written_refl|lia]|]); [lia|].
  destruct k as [|k]; [lia|]. cbn [writei_loop]. rewrite (proj2 (Z.ltb_lt tot n)) by lia. fold r.
  set (m := Z.min r (BSIZE - off mod BSIZE)). assert (0 < m <= r) as Hmr by lia. set (b1 := take (Z.to_nat m) (drop (Z.to_nat tot) bs)).
  assert (Z.of_nat (length b1) = m) as Hb1 by (unfold b1; rewrite length_take, length_drop; lia). cbn [write_need write_cost] in Hfr, Hsp |- *.
  destruct (writei_round D me p hs s ip x off b1) as (a & b & d & hs1 & s1 & s2 & s3 & s4 & s5 & x1 & R1 & Hx1 & R2 & G2 & Rd & R3 & R4 & R5 & W1 & Hl1 & Hf1); try done.
  { intros E. rewrite E in Hb1. cbn [length] in Hb1. lia. }
  { rewrite Hb1. lia. }
  { lia. }
  { eapply frees_le; [exact Hfr|lia]. }
  { eapply spare_le; [exact Hsp|lia]. }
  destruct (linked_meta D me p ip hs s x hs1 s5 x1 L HM (wr_linked _ _ _ _ _ _ _ _ _ _ _ _ W1)) as [L5 HM5]. pose proof (wr_linked _ _ _ _ _ _ _ _ _ _ _ _ W1) as LK1.
  pose proof (lk_filed _ _ _ _ _ _ _ _ _ _ LK1) as G5. pose proof (write_cost_le s5 x1 (off + m) j) as Hc. pose proof (write_need_le s5 x1 (off + m) j) as Hn.
  destruct (IH k hs1 s5 x1 (tot + m) (off + m)) as (hs' & s' & x' & R & W & Hl); try done; try lia.
  { apply (lk_txn _ _ _ _ _ _ _ _ _ _ LK1). }
  { rewrite (lk_icache _ _ _ _ _ _ _ _ _ _ LK1). apply list_lookup_insert_eq. by eapply lookup_lt_Some. }
  { apply (lk_file _ _ _ _ _ _ _ _ _ _ LK1). }
  { by eapply sourced_filed. }
  { destruct Hj as [?|Hj]; [lia|]. destruct (chunk_next off m r j H0 eq_refl ltac:(lia) Hj); [left; lia|right; lia]. }
  { eapply frees_le; [apply (Hf1 j); eapply frees_le; [exact Hfr|lia]|lia]. }
  { eapply spare_filed; [exact G5|]. unfold spare in *. cbn [length] in *. lia. }
  exists hs', s', x'. split; [|split].
  - rewrite (bind_ret_l _ _ _ _ _ R1), (run_inode_at _ _ _ _ Hx1).
    replace (i_dev x1) with 1 by (rewrite (lk_inode _ _ _ _ _ _ _ _ _ _ LK1); symmetry; apply (fo_dev _ _ _ F)).
    rewrite (bind_ret_l _ _ _ _ _ R2). rewrite (bind_ret_l _ _ _ _ _ (Hsrc s2 tot (Z.to_nat m) G2 ltac:(lia) ltac:(lia))). fold b1.
    rewrite (bind_ret_l _ _ _ _ _ Rd), (bind_ret_l _ _ _ _ _ R3), (bind_ret_l _ _ _ _ _ R4), (bind_ret_l _ _ _ _ _ R5). etransitivity; [exact R|]. f_equal. unfold r, n. lia.
  - replace (drop (Z.to_nat tot) bs) with (b1 ++ drop (Z.to_nat (tot + m)) bs); [by eapply written_trans; [exact W1|rewrite Hb1]|].
    unfold b1. replace (Z.to_nat (tot + m)) with (Z.to_nat tot + Z.to_nat m)%nat by lia. rewrite <- drop_drop. apply take_drop.
  - lia.
Qed.

(** ** The inode on disk *)

Definition disk_inode (s : kstate) (i : Z) : dinode := get_dinode (content s (IBLOCK i (sb s))) (dinode_off i).

Record synced (s : kstate) (x : inode) : Prop := {
  sy_inum : 0 <= i_inum x < sb_ninodes (sb s);
  sy_ok : dinode_ok (dinode_of x);
  sy_disk : disk_inode s (i_inum x) = dinode_of x;
}.

Lemma iblock_range D s i : fs_layout D s -> 0 <= i < sb_ninodes (sb s) ->
  0 <= IBLOCK i (sb s) < sb_bmapstart (sb s) /\ sb_bmapstart (sb s) < D.
Proof.
  intros L Hi. destruct (fl_inodes _ _ L) as [H1 H2]. pose proof (fl_data _ _ L) as Hd. pose proof (fl_size _ _ L) as Hs. pose proof (fl_disk _ _ L).
  pose proof (Z.div_le_mono i (sb_ninodes (sb s) - 1) IPB ltac:(unfold IPB; lia) ltac:(lia)). pose proof (Z.div_pos i IPB ltac:(lia) ltac:(unfold IPB; lia)).
  pose proof (Z.div_pos (sb_size (sb s) - 1) BPB ltac:(lia) ltac:(unfold BPB; lia)). unfold IBLOCK. rewrite u32_id by lia. lia.
Qed.

Lemma dinode_room i : (dinode_off i + 64 <= Z.to_nat BSIZE)%nat.
Proof. unfold dinode_off, BSIZE, IPB. pose proof (Z.mod_pos_bound i 8 ltac:(lia)). lia. Qed.

Lemma iupdate_run D me p hs s ip x : txn 1 me p [] hs s -> fs_layout D s -> icache s !! ip = Some x -> i_dev x = 1 ->
  0 <= i_inum x < sb_ninodes (sb s) -> length (i_addrs x) = 13%nat -> spare [] hs 1 s ->
  let ib := IBLOCK (i_inum x) (sb s) in
  exists s', iupdate ip s = Ret tt s' /\ txn 1 me p [] (absorb hs ib) s' /\ quiet s s' /\
    (forall k, content s' k = if k =? ib then put_dinode (content s ib) (dinode_off (i_inum x)) (dinode_of x) else content s k).
Proof.
  intros X L Hx Hdev Hi Hl Hsp ib. destruct (iblock_range D s (i_inum x) L Hi) as [Hr HD]. fold ib in Hr. pose proof (fl_size _ _ L). pose proof (fl_data _ _ L).
  destruct (tx_modify me p [] hs s ib X ltac:(lia) (not_held_nil _ _) Hsp (fl_disk _ _ L)) as (b & s1 & R1 & _ & Rd & Hmod).
  destruct (Hmod (put_dinode (content s ib) (dinode_off (i_inum x)) (dinode_of x))) as (s2 & s3 & s' & R2 & R3 & R4 & X' & Q' & _ & N').
  { pose proof (dinode_room (i_inum x)). rewrite length_put_dinode; rewrite ?(length_content s (p_pid p) []); try done; apply (tx_inv _ _ _ _ _ _ X). }
  exists s'. split; [|done]. unfold iupdate. rewrite (run_inode_at _ _ _ _ Hx), run_gets, Hdev, (bind_ret_l _ _ _ _ _ R1), (bind_ret_l _ _ _ _ _ Rd).
  rewrite (bind_ret_l _ _ _ _ _ R2), (bind_ret_l _ _ _ _ _ R3). done.
Qed.

(** The other inodes of the block stay as they are. *)
Lemma put_dinode_other d i j x : (Z.to_nat BSIZE <= length d)%nat -> length (di_addrs x) = 13%nat -> 0 <= i -> 0 <= j -> i <> j -> i / IPB = j / IPB ->
  get_dinode (put_dinode d (dinode_off i) x) (dinode_off j) = get_dinode d (dinode_off j).
Proof.
  intros Hd Hl Hi Hj Hne Hdiv. pose proof (Z.div_mod i IPB ltac:(unfold IPB; lia)). pose proof (Z.div_mod j IPB ltac:(unfold IPB; lia)).
  pose proof (Z.mod_pos_bound i IPB ltac:(unfold IPB; lia)). pose proof (Z.mod_pos_bound j IPB ltac:(unfold IPB; lia)).
  pose proof (dinode_room i). pose proof (dinode_room j).
  assert (dinode_off i + 64 <= dinode_off j \/ dinode_off j + 64 <= dinode_off i)%nat as Ho by (unfold dinode_off; lia).
  unfold get_dinode. rewrite !get16_put_dinode_other, get32_put_dinode_other by (lia || done). f_equal.
  apply list_eq. intros k. destruct (decide (k < 13)%nat) as [Hk|Hk].
  - rewrite !get_words_lookup by done. f_equal. apply get32_put_dinode_other; (lia || done).
  - rewrite !lookup_ge_None_2; [done|..]; rewrite length_get_words; lia.
Qed.


Lemma file_addrs D s x : fs_layout D s -> file_ok D s x -> Forall (fun w => 0 <= w < 2 ^ 32) (i_addrs x).
Proof.
  intros L F. apply Forall_lookup. intros i w Hw. pose proof (lookup_lt_Some _ _ _ Hw) as Hi. rewrite (fo_len _ _ _ F) in Hi.
  pose proof (data_pos D s L). pose proof (fl_size _ _ L). pose proof (fl_disk _ _ L). assert (nth i (i_addrs x) 0 = w) as Hn by (rewrite nth_lookup, Hw; done).
  destruct (Z.eqb_spec w 0) as [->|Hne]; [lia|]. destruct (decide (i = 12)%nat) as [->|Hi'].
  - destruct (fo_ind _ _ _ F) as [Hr _]; unfold ind in *; change (Z.to_nat NDIRECT) with 12%nat in *; [congruence|]. rewrite Hn in Hr. lia.
  - assert (block_of s x (Z.of_nat i) = w) as Hb.
    { unfold block_of. rewrite (proj2 (Z.ltb_lt _ _)) by (unfold NDIRECT; lia). by rewrite Nat2Z.id. }
    destruct (fo_data _ _ _ F (Z.of_nat i)) as [Hr _]; [unfold MAXFILE, NDIRECT, NINDIRECT; lia|congruence|]. rewrite Hb in Hr. lia.
Qed.

Lemma file_resize D s x n : file_ok D s x -> full s x n -> 0 <= n <= MAXFILE * BSIZE -> file_ok D s (set_i_size n x).
Proof. intros [F1 F2 F3 F4 F5 F6 F7 F8] Hf Hn. constructor; done. Qed.

(** Two files have no block in common. *)
Definition apart (s : kstate) (x y : inode) : Prop := forall c, owns s x c -> ~ owns s y c.

Lemma linked_apart D me p ip hs s x hs' s' x' y : fs_layout D s -> linked D me p ip hs s x hs' s' x' -> file_ok D s y -> apart s x y ->
  file_ok D s' y /\ apart s' x' y /\ (forall o, 0 <= o < MAXFILE * BSIZE -> fbyte s' y o = fbyte s y o).
Proof.
  intros L [A1 A2 A3 A4 A5 A6 A7 A8 A9 A10] F Hap. pose proof (data_pos D s L).
  assert (forall c, owns s y c -> settled s c) as Hst by (intros c Hc; by eapply data_settled, owned_data).
  assert (forall c, owns s y c -> content s' c = content s c) as HC by (intros c Hc; apply A9; [by apply Hst|intros Hx; by apply (Hap c)]).
  destruct (file_same D s s' y F (filed_sb _ _ A3)) as (F' & Eb & Ef); [intros c Hc; apply A7; lia|done|].
  split; [done|]. split; [|done]. intros c Hx Hy.
  assert (owns s y c) as Hy'.
  { destruct Hy as [H0 [E|(bn & Hbn & E)]]; (split; [done|]); [by left|]. right. exists bn. by rewrite <- Eb. }
  apply (Hap c); [apply A8; [by apply Hst|done]|done].
Qed.

(** A change of the blocks before the bitmap. *)
Lemma low_used D s s' c : fs_layout D s -> sb s' = sb s -> (forall c, sb_bmapstart (sb s) <= c -> content s' c = content s c) ->
  0 <= c < sb_size (sb s) -> used s c -> used s' c.
Proof.
  intros L E HC Hc. unfold used. rewrite E, HC; [done|]. destruct (bblock_bitmap D s c L Hc) as [? _]. done.
Qed.

Lemma low_same D s s' x : fs_layout D s -> sb s' = sb s -> (forall c, sb_bmapstart (sb s) <= c -> content s' c = content s c) -> file_ok D s x ->
  file_ok D s' x /\ (forall bn, block_of s' x bn = block_of s x bn) /\
  (forall o, 0 <= o < MAXFILE * BSIZE -> fbyte s' x o = fbyte s x o).
Proof.
  intros L E HC F. pose proof (data_pos D s L). pose proof (fl_data _ _ L). pose proof (fl_size _ _ L).
  pose proof (Z.div_pos (sb_size (sb s) - 1) BPB ltac:(lia) ltac:(unfold BPB; lia)).
  apply file_same; [done|done|intros c Hc; apply (low_used D); [done..|lia]|].
  intros c Hc. apply HC. destruct (owned_data D s x c F Hc) as [? _]. lia.
Qed.

Lemma owns_blocks s s' x c : (forall bn, block_of s' x bn = block_of s x bn) -> owns s' x c -> owns s x c.
Proof. intros Eb [H0 [E|(bn & Hbn & E)]]; (split; [done|]); [by left|]. right. exists bn. by rewrite <- Eb. Qed.

Lemma iblock_inj D s i j : fs_layout D s -> 0 <= i < sb_ninodes (sb s) -> 0 <= j < sb_ninodes (sb s) ->
  IBLOCK i (sb s) = IBLOCK j (sb s) -> i / IPB = j / IPB.
Proof.
  intros L Hi Hj. destruct (fl_inodes _ _ L) as [H1 H2]. pose proof (fl_data _ _ L) as Hd. pose proof (fl_size _ _ L) as Hs. pose proof (fl_disk _ _ L).
  assert (forall k, 0 <= k < sb_ninodes (sb s) -> 0 <= k / IPB <= (sb_ninodes (sb s) - 1) / IPB) as Hk.
  { intros k Hk. split; [apply Z.div_pos; [lia|unfold IPB; lia]|apply Z.div_le_mono; [unfold IPB; lia|lia]]. }
  pose proof (Hk i Hi). pose proof (Hk j Hj). pose proof (Z.div_pos (sb_size (sb s) - 1) BPB ltac:(lia) ltac:(unfold BPB; lia)).
  unfold IBLOCK. rewrite !u32_id by lia. lia.
Qed.

Lemma grown_ok D s x y : fs_layout D s -> file_ok D s x -> dinode_ok (dinode_of y) -> i_type x = i_type y -> i_major x = i_major y ->
  i_minor x = i_minor y -> i_nlink x = i_nlink y -> dinode_ok (dinode_of x).
Proof.
  intros L F [D1 D2 D3 D4 D5 D6 D7] E1 E2 E3 E4. constructor; cbn [dinode_of di_type di_major di_minor di_nlink di_size di_addrs] in *; rewrite ?E1, ?E2, ?E3, ?E4; try done.
  - pose proof (fo_size _ _ _ F). unfold MAXFILE, NDIRECT, NINDIRECT, BSIZE in *. lia.
  - apply (fo_len _ _ _ F).
  - by apply (file_addrs D s).
Qed.

(** ** writei *)

Record write_post (D : Z) (me : nat) (p : proc) (ip : nat) (hs : list Z) (s : kstate) (x : inode) (off : Z) (bs : list Z)
    (hs' : list Z) (s' : kstate) (x' : inode) : Prop := {
  wp_txn : txn 1 me p [] hs' s';
  wp_icache : icache s' = <[ip := x']> (icache s);
  wp_filed : filed s s';
  wp_file : file_ok D s' x';
  wp_inode : x' = set_i_size (Z.max (i_size x) (off + Z.of_nat (length bs))) (set_i_addrs (i_addrs x') x);
  wp_bytes : forall o, 0 <= o < MAXFILE * BSIZE -> fbyte s' x' o = overlay (fbyte s x) off bs o;
  wp_synced : synced s' x';
  wp_inodes : forall i, 0 <= i < sb_ninodes (sb s) -> i <> i_inum x -> disk_inode s' i = disk_inode s i;
  wp_apart : forall y, file_ok D s y -> apart s x y ->
    file_ok D s' y /\ apart s' x' y /\ (forall o, 0 <= o < MAXFILE * BSIZE -> fbyte s' y o = fbyte s y o);
  wp_meta : fs_layout D s' /\ meta_used D s';
}.

Lemma linked_inodes D me p ip hs s x hs' s' x' i : fs_layout D s -> meta_used D s -> file_ok D s x -> linked D me p ip hs s x hs' s' x' ->
  0 <= i < sb_ninodes (sb s) -> disk_inode s' i = disk_inode s i.
Proof.
  intros L HM F LK0 Hi. destruct (iblock_range D s i L Hi) as [Hr HD]. pose proof (fl_data _ _ L). unfold disk_inode.
  rewrite (filed_sb _ _ (lk_filed _ _ _ _ _ _ _ _ _ _ LK0)), (lk_other _ _ _ _ _ _ _ _ _ _ LK0); [done|..].
  - unfold settled, bitmap_block. split; [lia|]. split; [apply HM; lia|lia].
  - intros Ho. destruct (owned_data D s x _ F Ho) as [? _]. lia.
Qed.

(** A write below the size of the file leaves the inode alone. *)
Lemma write_same D me p ip hs s x off bs hs' s' x' : fs_layout D s -> meta_used D s -> file_ok D s x -> synced s x ->
  written D me p ip hs s x off bs hs' s' x' -> off + Z.of_nat (length bs) <= i_size x ->
  write_post D me p ip hs s x off bs hs' s' x'.
Proof.
  intros L HM F [Y1 Y2 Y3] [W1 W2 W3 W4] Hle. assert (x' = x) as -> by (apply W4; eapply full_le; [apply (fo_full _ _ _ F)|lia]).
  pose proof W1 as [A1 A2 A3 A4 A5 A6 A7 A8 A9 A10]. constructor; try done.
  - rewrite Z.max_l by lia. by destruct x.
  - constructor; [by rewrite (filed_sb _ _ A3)|done|]. rewrite <- Y3. by eapply linked_inodes.
  - intros i Hi _. by eapply linked_inodes.
  - intros y Fy Hap. by eapply linked_apart.
  - by eapply linked_meta.
Qed.

(** [ip->size = off; iupdate(ip)] after a write beyond the size. *)
Lemma write_grow D me p ip hs s x off bs hs1 s1 x1 : fs_layout D s -> meta_used D s -> icache s !! ip = Some x -> file_ok D s x -> synced s x ->
  written D me p ip hs s x off bs hs1 s1 x1 -> 0 <= off <= i_size x ->
  i_size x < off + Z.of_nat (length bs) <= MAXFILE * BSIZE -> spare [] hs1 1 s1 ->
  exists s' x', (upd_inode ip (set_i_size (off + Z.of_nat (length bs))) ;; iupdate ip) s1 = Ret tt s' /\
    write_post D me p ip hs s x off bs (absorb hs1 (IBLOCK (i_inum x) (sb s))) s' x'.
Proof.
  intros L HM Hx F [Y1 Y2 Y3] [W1 W2 W3 W4] Ho Hgt Hsp. set (n := off + Z.of_nat (length bs)) in *. set (ib := IBLOCK (i_inum x) (sb s)).
  pose proof W1 as [A1 A2 A3 A4 A5 A6 A7 A8 A9 A10]. destruct (linked_meta D me p ip hs s x hs1 s1 x1 L HM W1) as [L1 HM1].
  pose proof (filed_sb _ _ A3) as Esb. set (x2 := set_i_size n x1).
  assert (icache s1 !! ip = Some x1) as Hx1 by (rewrite A2; apply list_lookup_insert_eq; by eapply lookup_lt_Some).
  assert (full s1 x1 n) as Hfull by (apply W3; eapply full_le; [apply (fo_full _ _ _ F)|lia]).
  pose proof (file_resize D s1 x1 n A5 Hfull ltac:(lia)) as F2. fold x2 in F2. set (s2 := with_inode ip x2 s1).
  destruct (iblock_range D s (i_inum x) L Y1) as [Hib HD]. fold ib in Hib. assert (i_inum x2 = i_inum x) as Ein by (unfold x2; ksimpl; by rewrite A4).
  destruct (iupdate_run D me p hs1 s2 ip x2) as (s' & R & X' & Q & N).
  { by apply txn_icache. }
  { by apply (filed_layout D s1), filed_icache. }
  { unfold s2, with_inode. ksimpl. apply list_lookup_insert_eq. by eapply lookup_lt_Some. }
  { apply (fo_dev _ _ _ F2). }
  { rewrite Ein. change (sb s2) with (sb s1). by rewrite Esb. }
  { apply (fo_len _ _ _ F2). }
  { done. }
  rewrite Ein in *. change (sb s2) with (sb s1) in *. rewrite Esb in *. fold ib in X', N.
  assert (forall c, sb_bmapstart (sb s) <= c -> content s' c = content s1 c) as HC.
  { intros c Hc. rewrite N. by rewrite (proj2 (Z.eqb_neq c ib)) by lia. }
  exists s', x2. split; [rewrite (run_upd_inode _ _ _ _ _ Hx1); exact R|].
  assert (fs_layout D s') as L' by (apply (filed_layout D s1); [done|]; by apply (filed_trans _ s2), quiet_filed).
  assert (sb s' = sb s1) as Esb' by (rewrite (quiet_sb _ _ Q); done).
  assert (forall c, sb_bmapstart (sb s1) <= c -> content s' c = content s1 c) as HC1 by (by rewrite Esb).
  assert (forall c, 0 <= c < sb_size (sb s1) -> used s1 c -> used s' c) as HU by (intros c; by apply (low_used D)).
  destruct (low_same D s1 s' x2 L1 Esb' HC1 F2) as (F' & Eb & Ef). constructor.
  - done.
  - rewrite (quiet_icache _ _ Q). unfold s2, with_inode. ksimpl. by rewrite A2, list_insert_insert_eq.
  - apply (filed_trans _ s1); [done|]. by apply (filed_trans _ s2), quiet_filed.
  - done.
  - rewrite Z.max_r by lia. unfold x2. rewrite A4. by destruct x.
  - intros o Ho'. rewrite Ef by done. exact (W2 o Ho').
  - assert (dinode_ok (dinode_of x2)) as Hok by (apply (grown_ok D s1 x2 x); [done..| | | |]; unfold x2; by rewrite A4).
    constructor; [by rewrite Esb', Esb, Ein|done|].
    unfold disk_inode. rewrite Ein, Esb', Esb. fold ib. rewrite N, Z.eqb_refl. apply get_put_dinode; [|done].
    rewrite (length_content s2 (p_pid p) []) by apply (tx_inv _ _ _ _ _ _ (txn_icache _ _ _ _ _ _ _ A1)). apply dinode_room.
  - intros i Hi Hne. rewrite <- (linked_inodes D me p ip hs s x hs1 s1 x1 i L HM F W1 Hi). unfold disk_inode. rewrite Esb', N, Esb.
    destruct (Z.eqb_spec (IBLOCK i (sb s)) ib) as [E|]; [|done]. rewrite E. change (content s2 ib) with (content s1 ib).
    eapply put_dinode_other.
    + rewrite (length_content s1 (p_pid p) []); [done|]. apply (tx_inv _ _ _ _ _ _ A1).
    + apply (fo_len _ _ _ F2).
    + lia.
    + lia.
    + congruence.
    + symmetry. by apply (iblock_inj D s).
  - intros y Fy Hap. destruct (linked_apart D me p ip hs s x hs1 s1 x1 y L W1 Fy Hap) as (Fy1 & Hap1 & Efy).
    destruct (low_same D s1 s' y L1 Esb' HC1 Fy1) as (Fy' & Eby & Efy'). split; [done|]. split; [|intros o Ho'; by rewrite Efy', Efy].
    intros c Hc Hc'. apply (Hap1 c); [by apply (owns_blocks s1 s' x2 c Eb)|by apply (owns_blocks s1 s' y c Eby)].
  - split; [done|]. intros c Hc. apply HU; [pose proof (fl_data _ _ L1); lia|by apply HM1].
Qed.

(** The blocks that [n] bytes at [off] touch. *)
Definition touched (off n : Z) : nat := Z.to_nat ((off mod BSIZE + n + (BSIZE - 1)) / BSIZE).

Lemma touched_bounds off n : 0 <= n ->
  off mod BSIZE + n <= Z.of_nat (touched off n) * BSIZE /\ Z.of_nat (touched off n) <= n / BSIZE + 2 /\
  (Z.of_nat (touched off n) - 1) * BSIZE <= off mod BSIZE + n - 1.
Proof.
  intros Hn. unfold touched. pose proof (Z.mod_pos_bound off BSIZE ltac:(unfold BSIZE; lia)) as Hm. set (v := off mod BSIZE) in *.
  rewrite Z2Nat.id by (apply Z.div_pos; unfold BSIZE in *; lia). unfold BSIZE in *.
  pose proof (Z.div_mod (v + n + (512 - 1)) 512 ltac:(lia)). pose proof (Z.mod_pos_bound (v + n + (512 - 1)) 512 ltac:(lia)).
  pose proof (Z.div_mod n 512 ltac:(lia)). pose proof (Z.mod_pos_bound n 512 ltac:(lia)). lia.
Qed.

Lemma writei_run D me p ip hs s x off src bs : txn 1 me p [] hs s -> fs_layout D s -> meta_used D s -> icache s !! ip = Some x -> file_ok D s x ->
  synced s x -> i_type x <> T_DEV -> sourced s src bs -> let n := Z.of_nat (length bs) in let j := touched off n in
  0 <= off <= i_size x -> off + n <= MAXFILE * BSIZE ->
  frees s (write_need s x off j + ind_need x) -> spare [] hs (write_cost s x off j + ind_cost x hs + 2) s ->
  exists hs' s' x', writei ip src off n s = Ret n s' /\ write_post D me p ip hs s x off bs hs' s' x' /\
    (length hs' <= length hs + ind_cost x hs + write_cost s x off j + 1)%nat.
Proof.
  intros X L HM Hx F Y Hty Hsrc n j Ho Hmax Hfr Hsp. destruct (touched_bounds off n ltac:(lia)) as (T1 & T2 & _). fold j in T1, T2.
  assert (MAXFILE * BSIZE = 71680) as EM by done. pose proof (fo_size _ _ _ F) as Hsz.
  unfold writei. rewrite (run_inode_at _ _ _ _ Hx), (proj2 (Z.eqb_neq _ _) Hty), (u32_id (off + n)) by lia.
  rewrite (proj2 (Z.ltb_ge (i_size x) off)), (proj2 (Z.ltb_ge (off + n) off)), (proj2 (Z.ltb_ge _ (off + n))) by lia. cbn [orb].
  pose proof (Z.div_pos n BSIZE ltac:(lia) ltac:(unfold BSIZE; lia)).
  destruct (writei_loop_run D me p ip src bs j (Z.to_nat (n / BSIZE + 2)) hs s x 0 off) as (hs1 & s1 & x1 & R & W & Hl); try done; try lia.
  { eapply spare_le; [exact Hsp|lia]. }
  change (Z.of_nat (length bs) - 0) with (n - 0) in R. rewrite Z.sub_0_r in R. change (drop (Z.to_nat 0) bs) with bs in W.
  pose proof (wr_linked _ _ _ _ _ _ _ _ _ _ _ _ W) as LK1. fold n in R.
  assert (icache s1 !! ip = Some x1) as Hx1 by (rewrite (lk_icache _ _ _ _ _ _ _ _ _ _ LK1); apply list_lookup_insert_eq; by eapply lookup_lt_Some).
  assert (i_size x1 = i_size x) as Es by (by rewrite (lk_inode _ _ _ _ _ _ _ _ _ _ LK1)).
  rewrite (bind_ret_l _ _ _ _ _ R), (run_inode_at _ _ _ _ Hx1), Es. destruct (decide (i_size x < off + n)) as [Hg|Hg].
  - destruct (write_grow D me p ip hs s x off bs hs1 s1 x1) as (s' & x' & R2 & WP); try done.
    { eapply spare_filed; [apply (lk_filed _ _ _ _ _ _ _ _ _ _ LK1)|]. unfold spare in *. cbn [length] in *. lia. }
    exists (absorb hs1 (IBLOCK (i_inum x) (sb s))), s', x'. split; [|split; [done|pose proof (absorb_length hs1 (IBLOCK (i_inum x) (sb s))); lia]].
    rewrite (proj2 (Z.ltb_lt 0 n)), (proj2 (Z.ltb_lt _ _) Hg) by lia. cbn [andb]. rewrite run_when_true, (bind_ret_l _ _ _ _ _ R2).
    by rewrite (i32_id n) by lia.
  - exists hs1, s1, x1. split; [|split; [apply write_same; try done; lia|lia]].
    rewrite (proj2 (Z.ltb_ge (i_size x) (off + n))), andb_false_r by lia. rewrite run_when_false. by rewrite (i32_id n) by lia.
Qed.

(** A write of filewrite fits in the blocks that [begin_op] reserves: only the
    first block can be shared with older data, and then it exists. *)
Lemma chunk_cost D s x off n : file_ok D s x -> 0 <= off <= i_size x -> 0 <= n <= 1536 ->
  (write_cost s x off (touched off n) <= 7)%nat.
Proof.
  intros F Ho Hn. pose proof (fo_size _ _ _ F) as Hsz. destruct (touched_bounds off n ltac:(lia)) as (_ & _ & T). pose proof (Z.mod_pos_bound off BSIZE ltac:(unfold BSIZE; lia)) as Hm.
  destruct (decide (off mod BSIZE = 0)) as [E|E].
  - pose proof (write_cost_le s x off (touched off n)). unfold BSIZE in *. lia.
  - assert (touched off n <= 4)%nat as Ht by (unfold BSIZE in *; lia). destruct (touched off n) as [|t]; cbn [write_cost]; [lia|].
    assert (block_cost s x (off / BSIZE) = 1%nat) as ->; [|lia]. unfold block_cost. rewrite (proj2 (Z.eqb_neq _ 0)); [done|].
    assert (off <> MAXFILE * BSIZE) by (intros ->; by destruct E).
    apply (fo_full _ _ _ F); [apply offset_block; lia|]. pose proof (Z.div_mod off BSIZE ltac:(unfold BSIZE; lia)). lia.
Qed.

(** ** What writei needs and leaves *)

(** Between [begin_op] and [end_op]: the locked inode [x] of a well-formed file. *)
Record file_ready (D : Z) (me : nat) (p : proc) (hs : list Z) (s : kstate) (ip : nat) (x : inode) : Prop := {
  fr_txn : txn 1 me p [] hs s;
  fr_layout : fs_layout D s;
  fr_meta : meta_used D s;
  fr_icache : icache s !! ip = Some x;
  fr_file : file_ok D s x;
  fr_synced : synced s x;
  fr_type : i_type x <> T_DEV;
}.

Lemma write_ready D me p ip hs s x off bs hs' s' x' : file_ready D me p hs s ip x -> write_post D me p ip hs s x off bs hs' s' x' ->
  file_ready D me p hs' s' ip x'.
Proof.
  intros [] [W1 W2 W3 W4 W5 W6 W7 W8 W9 [W10 W11]]. constructor; try done.
  - rewrite W2. apply list_lookup_insert_eq. by eapply lookup_lt_Some.
  - by rewrite W5.
Qed.

(** A write of the size that filewrite uses. *)
Lemma writei_chunk D me p ip hs s x off src bs : file_ready D me p hs s ip x -> sourced s src bs -> let n := Z.of_nat (length bs) in
  0 <= off <= i_size x -> off + n <= MAXFILE * BSIZE -> n <= 1536 -> frees s (touched off n + 1) -> spare [] hs 11 s ->
  exists hs' s' x', writei ip src off n s = Ret n s' /\ write_post D me p ip hs s x off bs hs' s' x' /\ (length hs' <= length hs + 10)%nat.
Proof.
  intros [X L HM Hx F Y Hty] Hsrc n Ho Hmax Hn Hfr Hsp. pose proof (chunk_cost D s x off n F Ho ltac:(lia)) as Hc.
  pose proof (write_need_le s x off (touched off n)). assert (ind_need x <= 1)%nat by (unfold ind_need; destruct (_ =? 0); lia).
  assert (ind_cost x hs <= 2)%nat by (unfold ind_cost; destruct (_ =? 0); [lia|]; case_decide; lia).
  destruct (writei_run D me p ip hs s x off src bs) as (hs' & s' & x' & R & W & Hl); try done.
  { eapply frees_le; [exact Hfr|fold n; lia]. }
  { eapply spare_le; [exact Hsp|fold n; lia]. }
  exists hs', s', x'. split; [done|]. split; [done|]. fold n in Hl. lia.
Qed.

End rw.
