(* ===== verification/DirSpec.v ===== *)
(** * Directories

    A directory is a file of 16-byte entries.  [entry s x j] is the [j]-th entry
    of the directory with the inode [x], read from the blocks of the file.
    dirlookup returns the first entry that is in use and has the name, and
    dirlink writes the new entry into the first free one, so that dirlookup
    then finds it. *)

From S2P Require Import Prelude CString Mem KState Mmu Kalloc Vm File Proc Console Bio Layout Log Inode Fs FileIO.
From S2P Require Import ProcMem WaitSpec BioSpec LogSpec TxnSpec FileSpec RwSpec.

(** ** Names *)

(** The first [DIRSIZ] bytes of a name, padded with zeros. *)
Definition padded (name : list Z) : list Z := take DIRSIZ name ++ replicate (DIRSIZ - length name) 0.

Definition chars (name : list Z) : Prop := Forall (fun c => 0 < c < 256) name.

Lemma chars_nonzero name : chars name -> Forall (fun c => c <> 0) name.
Proof. intros H. eapply Forall_impl; [exact H|]. cbn; intros; lia. Qed.

Lemma dirent_pad_padded name : chars name -> dirent_pad name = padded name.
Proof.
  intros H. unfold dirent_pad. rewrite strncpy_str by (by apply chars_nonzero || by rewrite length_replicate). cbn [from_option id].
  by rewrite drop_replicate, Nat.sub_diag, app_nil_r.
Qed.

Lemma length_padded name : length (padded name) = DIRSIZ.
Proof. unfold padded. rewrite length_app, length_take, length_replicate. lia. Qed.

(** strncmp always finds an end. *)
Lemma strncmp_total p q n : exists r, strncmp (p ++ [0]) (q ++ [0]) n = Some r.
Proof.
  revert q n. induction p as [|a p IH]; intros q [|n]; try by eexists.
  - destruct q; by eexists.
  - destruct q as [|b q]; cbn [app strncmp].
    + destruct (negb (a =? 0)) eqn:E1, (a =? 0) eqn:E2; bool_prop; try done; by eexists.
    + destruct (_ && _); [apply IH|by eexists].
Qed.

Lemma u8_diff a b : 0 <= a < 256 -> 0 <= b < 256 -> u8 a - u8 b = 0 -> a = b.
Proof. intros Ha Hb. unfold u8. rewrite !Z.mod_small by lia. lia. Qed.

Lemma strncmp_padded p q n : chars p -> chars q ->
  strncmp (p ++ [0]) ((take n q ++ replicate (n - length q) 0) ++ [0]) n = Some 0 <-> take n p = take n q.
Proof.
  intros Hp. revert q n. induction Hp as [|a p Ha Hp IH]; intros q [|n] Hq; try done.
  - destruct Hq as [|b q Hb Hq]; [done|]. cbn [take app strncmp length]. rewrite Z.eqb_refl. cbn [negb andb]. split; [|done].
    intros E. apply (inj Some), u8_diff in E; cbv beta in *; lia.
  - destruct Hq as [|b q Hb Hq]; cbn [take app strncmp length replicate Nat.sub].
    + cbv beta in *. rewrite (proj2 (Z.eqb_neq a 0)) by lia. cbn [negb andb]. split; [|done]. intros E. apply (inj Some), u8_diff in E; cbv beta in *; lia.
    + cbv beta in *. rewrite (proj2 (Z.eqb_neq a 0)) by lia. cbn [negb andb]. destruct (Z.eqb_spec a b) as [->|Hne].
      * rewrite IH by done. split; intros E; [by rewrite E|by injection E].
      * split; [|congruence]. intros E. apply (inj Some), u8_diff in E; cbv beta in *; lia.
Qed.

(** An entry that is in use and has the name. *)
Definition names_entry (name e : list Z) : bool := negb (dirent_inum e =? 0) && bool_decide (namecmp name (dirent_name e) = Some 0).

(** The entry of dirlink and of mkfs. *)
Definition new_entry (inum : Z) (name : list Z) : list Z := dirent_bytes inum (padded name).

Lemma new_entry_inum i name : 0 <= i < 2 ^ 16 -> dirent_inum (new_entry i name) = i.
Proof.
  intros Hi. unfold dirent_inum, new_entry, dirent_bytes. transitivity (get16 (le16 i) 0); [done|]. exact (get16_put16 [0; 0] 0 i ltac:(cbn; lia) Hi).
Qed.

Lemma new_entry_name i name : dirent_name (new_entry i name) = padded name.
Proof. unfold dirent_name, new_entry, dirent_bytes. change (drop 2 (le16 i ++ padded name)) with (padded name). apply take_ge. by rewrite length_padded. Qed.

(** Two names meet only if their first [DIRSIZ] bytes agree. *)
Lemma matches_new name i name' : 0 < i < 2 ^ 16 -> chars name -> chars name' -> names_entry name (new_entry i name') = true <-> take DIRSIZ name = take DIRSIZ name'.
Proof.
  intros Hi H H'. unfold names_entry. rewrite new_entry_inum, (proj2 (Z.eqb_neq i 0)), new_entry_name by lia. cbn [negb andb].
  rewrite bool_decide_eq_true. by apply strncmp_padded.
Qed.

(** The inode in memory of a disk inode. *)
Definition node (i : Z) (d : dinode) : inode :=
  mk_inode 1 i 0 false 0 true (di_type d) (di_major d) (di_minor d) (di_nlink d) (di_size d) (di_addrs d).

(** ** The inode cache *)

Section dirs.
Context {LK : Linker} {FS : FsOps} {DK : Disk}.

(** The slot that iget returns for inode [inum] of device 1. *)
Definition iget_slot (ic : list inode) (inum : Z) : option nat :=
  match find_index (fun x => (0 <? i_ref x) && (i_dev x =? 1) && (i_inum x =? inum)) ic with
  | Some i => Some i
  | None => find_index (fun x => i_ref x =? 0) ic
  end.

(** What iget leaves in the slot: one more reference, or the first one. *)
Definition got (inum : Z) (x : inode) : inode :=
  if 0 <? i_ref x then set_i_ref (i32 (i_ref x + 1)) x else set_i_valid false (set_i_ref 1 (set_i_inum inum (set_i_dev 1 x))).

Lemma iget_slot_is ic inum i : iget_slot ic inum = Some i ->
  exists x, ic !! i = Some x /\ ((0 < i_ref x /\ i_dev x = 1 /\ i_inum x = inum) \/ i_ref x = 0).
Proof.
  unfold iget_slot. destruct (find_index _ ic) as [k|] eqn:E; intros Hi.
  - injection Hi as ->. apply find_index_Some in E as [(x & Hx & Ht) _]. exists x. split; [done|]. left.
    apply andb_prop in Ht as [[Hr%Z.ltb_lt Hd%Z.eqb_eq]%andb_prop Hn%Z.eqb_eq]. done.
  - apply find_index_Some in Hi as [(x & Hx & Hr%Z.eqb_eq) _]. exists x. split; [done|]. by right.
Qed.

Lemma iget_at s inum i x : held s = [] -> iget_slot (icache s) inum = Some i -> icache s !! i = Some x ->
  iget 1 inum s = Ret i (with_inode i (got inum x) s).
Proof.
  intros Hh Hi Hx. unfold iget_slot in Hi. unfold iget. rewrite run_acquire by (rewrite Hh; apply not_elem_of_nil). rewrite run_gets. ksimpl. rewrite Hh.
  destruct (find_index _ (icache s)) as [k|] eqn:E.
  - injection Hi as ->. apply find_index_Some in E as [(x' & Hx' & Ht) _]. assert (x' = x) as -> by congruence.
    apply andb_prop in Ht as [[Hr _]%andb_prop _]. unfold got. rewrite Hr.
    rewrite (run_upd_inode _ _ x) by (by ksimpl). erewrite run_release; [|by ksimpl|apply not_elem_of_nil].
    unfold with_inode. knorm. by rewrite set_held_id by (by ksimpl).
  - rewrite Hi. apply find_index_Some in Hi as [(x' & Hx' & Hr%Z.eqb_eq) _]. assert (x' = x) as -> by congruence. pose proof (lookup_lt_Some _ _ _ Hx) as Hlt.
    unfold got. rewrite Hr. cbn [Z.ltb Z.compare]. rewrite (run_upd_inode _ _ x) by (by ksimpl).
    do 3 (erewrite run_upd_inode by (unfold with_inode; ksimpl; by apply list_lookup_insert_eq; rewrite ?length_insert)).
    erewrite run_release; [|by ksimpl|apply not_elem_of_nil].
    unfold with_inode. knorm. rewrite set_held_id by (by ksimpl). rewrite !list_insert_insert_eq. reflexivity.
Qed.

Lemma iget_run me p s inum i x : fscaller s me p -> iget_slot (icache s) inum = Some i -> icache s !! i = Some x ->
  iget 1 inum s = Ret i (with_inode i (got inum x) s).
Proof. intros [_ _ _ Hh]. by apply iget_at. Qed.

Lemma got_is inum x : (0 < i_ref x /\ i_dev x = 1 /\ i_inum x = inum) \/ i_ref x = 0 -> i_dev (got inum x) = 1 /\ i_inum (got inum x) = inum.
Proof. unfold got. intros [(Hr & Hd & Hn)|Hr]; [by rewrite (proj2 (Z.ltb_lt _ _) Hr)|by rewrite Hr]. Qed.

(** ** Reading a directory *)

(** A copy of the inode with another size. *)
Lemma copy_addrs D s x y : file_ok D s x -> i_dev y = i_dev x -> i_addrs y = i_addrs x ->
  (forall bn, block_of s y bn = block_of s x bn) /\ (forall o, fbyte s y o = fbyte s x o) /\
  (full s y (i_size y) -> 0 <= i_size y <= MAXFILE * BSIZE -> file_ok D s y).
Proof.
  intros [F1 F2 F3 F4 F5 F6 F7 F8] Ed Ea. assert (ind y = ind x) as Ei by (unfold ind; by rewrite Ea).
  assert (forall bn, block_of s y bn = block_of s x bn) as Eb by (intros bn; unfold block_of; by rewrite Ei, Ea).
  split; [done|]. split; [intros o; unfold fbyte; by rewrite Eb|]. intros Hf Hs. constructor; rewrite ?Ed, ?Ea, ?Ei; try done; intros bn *; rewrite ?Eb; auto.
Qed.

Definition entry (s : kstate) (x : inode) (j : nat) : list Z := map (fbyte s x) (seqZ (16 * Z.of_nat j) 16).
Definition nents (x : inode) : nat := Z.to_nat (i_size x / 16).

Record dir_at (D w : Z) (me : nat) (p : proc) (hs : list Z) (s : kstate) (dp : nat) (x : inode) : Prop := {
  da_txn : txn w me p [] hs s;
  da_layout : fs_layout D s;
  da_icache : icache s !! dp = Some x;
  da_file : file_ok D s x;
  da_type : i_type x = T_DIR;
  da_size : i_size x mod 16 = 0;
  da_cache : (length hs < NBUF)%nat;
}.

(** Nothing that a reader sees has changed. *)
Definition same (s s' : kstate) : Prop := quiet s s' /\ forall c, content s' c = content s c.

Lemma same_refl s : same s s.
Proof. split; [apply quiet_refl|done]. Qed.

Lemma same_trans s s' s'' : same s s' -> same s' s'' -> same s s''.
Proof. intros [Q1 N1] [Q2 N2]. split; [by eapply quiet_trans|]. intros c. by rewrite N2. Qed.

Lemma same_file D s s' x : file_ok D s x -> same s s' -> file_ok D s' x /\ forall o, 0 <= o < MAXFILE * BSIZE -> fbyte s' x o = fbyte s x o.
Proof. intros F [Q N]. destruct (file_same D s s' x F (quiet_sb _ _ Q)) as (? & _ & ?); [intros c _; by apply used_same|intros; apply N|done]. Qed.

Lemma nents_bound D s x j : file_ok D s x -> (j < nents x)%nat -> 0 <= 16 * Z.of_nat j /\ 16 * Z.of_nat j + 16 <= i_size x /\ i_size x <= 71680.
Proof.
  intros F Hj. pose proof (fo_size _ _ _ F) as Hs. change (MAXFILE * BSIZE) with 71680 in Hs. unfold nents in Hj. Z.div_mod_to_equations. lia.
Qed.

Lemma entry_same D s s' x j : file_ok D s x -> same s s' -> (j < nents x)%nat -> entry s' x j = entry s x j.
Proof.
  intros F Hs Hj. destruct (nents_bound _ _ _ _ F Hj) as (B1 & B2 & B3). destruct (same_file _ _ _ _ F Hs) as [_ E].
  apply map_ext_in. intros o Ho%list_elem_of_In%elem_of_seqZ. apply E. change (MAXFILE * BSIZE) with 71680. lia.
Qed.

Lemma read_entry D w me p hs s dp x j : dir_at D w me p hs s dp x -> (j < nents x)%nat ->
  exists s', readi dp to_local (16 * Z.of_nat j) DESIZE s = Ret (DESIZE, entry s x j) s' /\ dir_at D w me p hs s' dp x /\ same s s'.
Proof.
  intros [X L Hx F Ht Hm Hl] Hj. destruct (nents_bound _ _ _ _ F Hj) as (B1 & B2 & B3). change DESIZE with 16.
  destruct (readi_run D w me p hs s dp x (16 * Z.of_nat j) 16 X L Hx F) as (s' & R & X' & Q & N); [by rewrite Ht|done|lia|lia|lia|].
  rewrite Z.min_l in R by lia. exists s'. split; [done|]. assert (same s s') as Hs by done. split; [|done]. constructor; try done.
  - by eapply quiet_layout.
  - by rewrite (quiet_icache _ _ Q).
  - by apply (same_file _ _ _ _ F Hs).
Qed.

(** ** dirlookup *)

Lemma dirlookup_skip D w me p hs dp x name k m : forall s j, dir_at D w me p hs s dp x -> (j + m <= nents x)%nat ->
  (forall i, (j <= i < j + m)%nat -> names_entry name (entry s x i) = false) ->
  exists s', dirlookup_loop (m + k) dp name (16 * Z.of_nat j) s = dirlookup_loop k dp name (16 * Z.of_nat (j + m)) s' /\ dir_at D w me p hs s' dp x /\ same s s'.
Proof.
  induction m as [|m IH]; intros s j A Hm Hno; [exists s; rewrite Nat.add_0_r; split; [done|split; [done|apply same_refl]]|].
  destruct (nents_bound D s x j (da_file _ _ _ _ _ _ _ _ A) ltac:(lia)) as (B1 & B2 & B3).
  destruct (read_entry _ _ _ _ _ _ _ _ j A ltac:(lia)) as (s1 & R1 & A1 & S1). cbn [Nat.add dirlookup_loop].
  rewrite (run_inode_at _ _ _ _ (da_icache _ _ _ _ _ _ _ _ A)), (proj2 (Z.ltb_lt _ (i_size x))), (bind_ret_l _ _ _ _ _ R1) by lia. cbn [fst snd]. rewrite Z.eqb_refl. cbn [negb].
  destruct (IH s1 (S j) A1 ltac:(lia)) as (s2 & R2 & A2 & S2).
  { intros i Hi. rewrite (entry_same D s) by (done || apply (da_file _ _ _ _ _ _ _ _ A) || lia). apply Hno. lia. }
  assert (16 * Z.of_nat j + DESIZE = 16 * Z.of_nat (S j)) as -> by (unfold DESIZE; lia). replace (j + S m)%nat with (S j + m)%nat by lia.
  exists s2. split; [|split; [done|by eapply same_trans]]. specialize (Hno j ltac:(lia)). unfold names_entry in Hno.
  destruct (dirent_inum (entry s x j) =? 0); [done|]. cbn [negb andb] in Hno. apply bool_decide_eq_false in Hno.
  destruct (strncmp_total name (dirent_name (entry s x j)) DIRSIZ) as [r Er]. unfold namecmp in *. rewrite Er in *. by rewrite (proj2 (Z.eqb_neq r 0)) by congruence.
Qed.

(** The first entry with the name. *)
Definition found (s : kstate) (x : inode) (name : list Z) (j : nat) : Prop :=
  (j < nents x)%nat /\ names_entry name (entry s x j) = true /\ forall i, (i < j)%nat -> names_entry name (entry s x i) = false.

Definition missing (s : kstate) (x : inode) (name : list Z) : Prop := forall i, (i < nents x)%nat -> names_entry name (entry s x i) = false.

Lemma dir_size D s x : file_ok D s x -> i_size x mod 16 = 0 -> i_size x = 16 * Z.of_nat (nents x) /\ Z.to_nat (i_size x / DESIZE + 1) = (nents x + 1)%nat.
Proof. intros F Hm. pose proof (fo_size _ _ _ F). unfold nents, DESIZE. Z.div_mod_to_equations. lia. Qed.

Lemma dirlookup_found D w me p hs s dp x name j i : dir_at D w me p hs s dp x -> found s x name j ->
  let inum := dirent_inum (entry s x j) in iget_slot (icache s) inum = Some i ->
  exists s1 z, dirlookup dp name s = Ret (Some (i, 16 * Z.of_nat j)) (with_inode i (got inum z) s1) /\ icache s !! i = Some z /\ txn w me p [] hs s1 /\ same s s1.
Proof.
  intros A (Hj & Hmt & Hno) inum Hi. pose proof A as [X L Hx F Ht Hm Hl]. destruct (dir_size _ _ _ F Hm) as [Es Ef].
  unfold dirlookup. rewrite (run_inode_at _ _ _ _ Hx), Ht, Z.eqb_refl. cbn [negb]. rewrite Ef. change 0 with (16 * Z.of_nat 0) at 1.
  replace (nents x + 1)%nat with (j + S (nents x - j))%nat by lia.
  destruct (dirlookup_skip D w me p hs dp x name (S (nents x - j)) j s 0 A ltac:(lia)) as (s1 & -> & A1 & S1); [intros k Hk; apply Hno; lia|].
  rewrite Nat.add_0_l. destruct (read_entry _ _ _ _ _ _ _ _ j A1 Hj) as (s2 & R2 & A2 & S2). cbn [dirlookup_loop].
  rewrite (run_inode_at _ _ _ _ (da_icache _ _ _ _ _ _ _ _ A1)), (proj2 (Z.ltb_lt _ (i_size x))), (bind_ret_l _ _ _ _ _ R2) by lia. cbn [fst snd]. rewrite Z.eqb_refl. cbn [negb].
  rewrite (entry_same D s) by done. fold inum. unfold names_entry in Hmt. fold inum in Hmt. apply andb_prop in Hmt as [E1 E2%bool_decide_eq_true].
  apply negb_true_iff in E1. rewrite E1, E2, Z.eqb_refl, (fo_dev _ _ _ F).
  pose proof (same_trans _ _ _ S1 S2) as S12. destruct (iget_slot_is _ _ _ Hi) as (z & Hz & _). rewrite <- (quiet_icache _ _ (proj1 S12)) in Hi.
  pose proof (iget_run me p s2 inum i z (tx_caller _ _ _ _ _ _ (da_txn _ _ _ _ _ _ _ _ A2)) Hi ltac:(by rewrite (quiet_icache _ _ (proj1 S12)))) as R3.
  exists s2, z. rewrite (bind_ret_l _ _ _ _ _ R3). split; [done|]. split; [done|]. split; [apply A2|]. done.
Qed.

Lemma dirlookup_missing D w me p hs s dp x name : dir_at D w me p hs s dp x -> missing s x name ->
  exists s1, dirlookup dp name s = Ret None s1 /\ dir_at D w me p hs s1 dp x /\ same s s1.
Proof.
  intros A Hno. pose proof A as [X L Hx F Ht Hm Hl]. destruct (dir_size _ _ _ F Hm) as [Es Ef].
  unfold dirlookup. rewrite (run_inode_at _ _ _ _ Hx), Ht, Z.eqb_refl. cbn [negb]. rewrite Ef. change 0 with (16 * Z.of_nat 0) at 1.
  destruct (dirlookup_skip D w me p hs dp x name 1 (nents x) s 0 A ltac:(lia)) as (s1 & -> & A1 & S1); [intros k Hk; apply Hno; lia|].
  exists s1. split; [|done]. cbn [dirlookup_loop]. by rewrite (run_inode_at _ _ _ _ (da_icache _ _ _ _ _ _ _ _ A1)), (proj2 (Z.ltb_ge _ (i_size x))) by (cbn [Nat.add]; lia).
Qed.

(** ** dirlink *)

(** The entry that dirlink uses: the first free one, or a new one at the end. *)
Definition free_entry (s : kstate) (x : inode) (j : nat) : Prop :=
  (j <= nents x)%nat /\ (j = nents x \/ dirent_inum (entry s x j) = 0) /\ forall i, (i < j)%nat -> dirent_inum (entry s x i) <> 0.

Lemma dirlink_skip D w me p hs dp x k m : forall s j, dir_at D w me p hs s dp x -> (j + m <= nents x)%nat ->
  (forall i, (j <= i < j + m)%nat -> dirent_inum (entry s x i) <> 0) ->
  exists s', dirlink_scan (m + k) dp (16 * Z.of_nat j) s = dirlink_scan k dp (16 * Z.of_nat (j + m)) s' /\ dir_at D w me p hs s' dp x /\ same s s'.
Proof.
  induction m as [|m IH]; intros s j A Hm Hno; [exists s; rewrite Nat.add_0_r; split; [done|split; [done|apply same_refl]]|].
  destruct (nents_bound D s x j (da_file _ _ _ _ _ _ _ _ A) ltac:(lia)) as (B1 & B2 & B3).
  destruct (read_entry _ _ _ _ _ _ _ _ j A ltac:(lia)) as (s1 & R1 & A1 & S1). cbn [Nat.add dirlink_scan].
  rewrite (run_inode_at _ _ _ _ (da_icache _ _ _ _ _ _ _ _ A)), (proj2 (Z.ltb_lt _ (i_size x))), (bind_ret_l _ _ _ _ _ R1) by lia. cbn [fst snd]. rewrite Z.eqb_refl. cbn [negb].
  destruct (IH s1 (S j) A1 ltac:(lia)) as (s2 & R2 & A2 & S2).
  { intros i Hi. rewrite (entry_same D s) by (done || apply (da_file _ _ _ _ _ _ _ _ A) || lia). apply Hno. lia. }
  rewrite (proj2 (Z.eqb_neq _ 0)) by (apply Hno; lia).
  assert (16 * Z.of_nat j + DESIZE = 16 * Z.of_nat (S j)) as -> by (unfold DESIZE; lia). replace (j + S m)%nat with (S j + m)%nat by lia.
  exists s2. split; [done|]. split; [done|by eapply same_trans].
Qed.

Lemma dirlink_scan_run D w me p hs s dp x j : dir_at D w me p hs s dp x -> free_entry s x j ->
  exists s', dirlink_scan (Z.to_nat (i_size x / DESIZE + 1)) dp 0 s = Ret (16 * Z.of_nat j) s' /\ dir_at D w me p hs s' dp x /\ same s s'.
Proof.
  intros A (Hj & Hfree & Hno). pose proof A as [X L Hx F Ht Hm Hl]. destruct (dir_size _ _ _ F Hm) as [Es Ef]. rewrite Ef. change 0 with (16 * Z.of_nat 0) at 1.
  replace (nents x + 1)%nat with (j + S (nents x - j))%nat by lia.
  destruct (dirlink_skip D w me p hs dp x (S (nents x - j)) j s 0 A ltac:(lia)) as (s1 & -> & A1 & S1); [intros k Hk; apply Hno; lia|].
  rewrite Nat.add_0_l. cbn [dirlink_scan]. rewrite (run_inode_at _ _ _ _ (da_icache _ _ _ _ _ _ _ _ A1)).
  destruct (decide (j = nents x)) as [->|Hne]; [rewrite (proj2 (Z.ltb_ge _ (i_size x))) by lia; by exists s1|]. destruct Hfree as [|Hfree]; [done|].
  destruct (read_entry _ _ _ _ _ _ _ _ j A1 ltac:(lia)) as (s2 & R2 & A2 & S2).
  rewrite (proj2 (Z.ltb_lt _ (i_size x))), (bind_ret_l _ _ _ _ _ R2) by lia. cbn [fst snd]. rewrite Z.eqb_refl. cbn [negb].
  rewrite (entry_same D s) by (done || lia). rewrite Hfree. exists s2. split; [done|]. split; [done|by eapply same_trans].
Qed.

(** The locked directory within an operation. *)
Record dir_ready (D : Z) (me : nat) (p : proc) (hs : list Z) (s : kstate) (dp : nat) (x : inode) : Prop := {
  dr_file : file_ready D me p hs s dp x;
  dr_type : i_type x = T_DIR;
  dr_size : i_size x mod 16 = 0;
}.

Lemma ready_dir D me p hs s dp x : dir_ready D me p hs s dp x -> (length hs < NBUF)%nat -> dir_at D 1 me p hs s dp x.
Proof. intros [[] ? ?] ?. by constructor. Qed.

Lemma same_ready D me p hs s s' dp x : dir_ready D me p hs s dp x -> dir_at D 1 me p hs s' dp x -> same s s' -> dir_ready D me p hs s' dp x.
Proof.
  intros [[R1 R2 R3 R4 R5 R6 R7] T M] [A1 A2 A3 A4 _ _ _] [Q N]. constructor; try done. constructor; try done.
  - intros a Ha. apply (used_same s); [done|done|]. by apply R3.
  - destruct R6 as [Y1 Y2 Y3]. constructor; rewrite ?(quiet_sb _ _ Q); try done. unfold disk_inode. by rewrite N, (quiet_sb _ _ Q).
Qed.

Lemma same_frees s s' n : same s s' -> frees s n -> frees s' n.
Proof.
  intros [Q N] (l & H1 & H2 & H3). exists l. split; [done|]. split; [done|]. intros a Ha. rewrite (quiet_sb _ _ Q). split; [by apply H3|].
  rewrite used_same by done. by apply H3.
Qed.

Lemma same_spare H hs k s s' : same s s' -> spare H hs k s -> spare H hs k s'.
Proof. intros [Q _]. unfold spare. by rewrite (qt_size _ _ Q). Qed.

Lemma touched_entry j : touched (16 * Z.of_nat j) 16 = 1%nat.
Proof. unfold touched, BSIZE. assert ((16 * Z.of_nat j) mod 512 <= 496) by (Z.div_mod_to_equations; lia). Z.div_mod_to_equations. lia. Qed.

(** The directory with the entry [e] at position [j]. *)
Record link_post (D : Z) (me : nat) (p : proc) (dp : nat) (s : kstate) (x : inode) (j : nat) (e : list Z) (hs' : list Z) (s' : kstate) (x' : inode) : Prop := {
  lp_ready : dir_ready D me p hs' s' dp x';
  lp_size : nents x' = Nat.max (nents x) (j + 1);
  lp_new : entry s' x' j = e;
  lp_other : forall i, (i < nents x)%nat -> i <> j -> entry s' x' i = entry s x i;
  lp_icache : icache s' = <[dp := x']> (icache s);
  lp_same : i_dev x' = i_dev x /\ i_inum x' = i_inum x /\ i_ref x' = i_ref x;
}.

Lemma write_entry D me p dp hs s x s1 j e hs' s' x' : dir_ready D me p hs s dp x -> dir_ready D me p hs s1 dp x -> same s s1 -> length e = 16%nat ->
  (j <= nents x)%nat -> 16 * Z.of_nat j + 16 <= MAXFILE * BSIZE ->
  write_post D me p dp hs s1 x (16 * Z.of_nat j) e hs' s' x' -> link_post D me p dp s x j e hs' s' x'.
Proof.
  intros [[_ _ _ _ F _ _] T M] R1 S1 He Hj Hmax W. pose proof (write_ready _ _ _ _ _ _ _ _ _ _ _ _ (dr_file _ _ _ _ _ _ _ R1) W) as RW.
  change (MAXFILE * BSIZE) with 71680 in Hmax. destruct (dir_size _ _ _ F M) as [Es _]. pose proof (wp_inode _ _ _ _ _ _ _ _ _ _ _ _ W) as Ex. rewrite He in Ex. change (Z.of_nat 16) with 16 in Ex.
  assert (i_size x' = Z.max (i_size x) (16 * Z.of_nat j + 16)) as Es' by (by rewrite Ex).
  assert (forall i, 16 * Z.of_nat i + 16 <= 71680 -> entry s' x' i = map (overlay (fbyte s1 x) (16 * Z.of_nat j) e) (seqZ (16 * Z.of_nat i) 16)) as Ee.
  { intros i Hi. apply map_ext_in. intros o Ho%list_elem_of_In%elem_of_seqZ. apply (wp_bytes _ _ _ _ _ _ _ _ _ _ _ _ W). change (MAXFILE * BSIZE) with 71680. lia. }
  constructor.
  - constructor; [done|by rewrite Ex|]. rewrite Es'. apply Z.mod_divide; [lia|]. exists (Z.max (Z.of_nat (nents x)) (Z.of_nat j + 1)). lia.
  - unfold nents at 1. rewrite Es', Es. replace (Z.max _ _) with (Z.of_nat (Nat.max (nents x) (j + 1)) * 16) by lia. rewrite Z.div_mul by lia. lia.
  - rewrite Ee by lia. pose proof (overlay_read (fbyte s1 x) (16 * Z.of_nat j) e) as E. by rewrite He in E.
  - intros i Hi Hne. destruct (nents_bound _ _ _ _ F Hi) as (B1 & B2 & B3). rewrite Ee by lia. rewrite <- (entry_same D s s1) by done. apply map_ext_in.
    intros o Ho%list_elem_of_In%elem_of_seqZ. unfold overlay. rewrite He. destruct (Z.leb_spec (16 * Z.of_nat j) o), (Z.ltb_spec o (16 * Z.of_nat j + Z.of_nat 16)); try done. lia.
  - rewrite (wp_icache _ _ _ _ _ _ _ _ _ _ _ _ W). by rewrite (quiet_icache _ _ (proj1 S1)).
  - by rewrite Ex.
Qed.

(** dirlink of a name that the directory does not have. *)
Lemma dirlink_run D me p hs s dp x name inum j : dir_ready D me p hs s dp x -> missing s x name -> free_entry s x j ->
  chars name -> 0 < inum < 2 ^ 16 -> 16 * Z.of_nat j + 16 <= MAXFILE * BSIZE -> frees s 2 -> spare [] hs 11 s ->
  exists hs' s' x', dirlink dp name inum s = Ret 0 s' /\ link_post D me p dp s x j (new_entry inum name) hs' s' x' /\ (length hs' <= length hs + 10)%nat.
Proof.
  intros R0 Hmiss Hfree Hc Hi Hmax Hfr Hsp. assert (length hs < NBUF)%nat as Hl by (unfold spare in Hsp; cbn in Hsp; lia).
  destruct (dirlookup_missing D 1 me p hs s dp x name (ready_dir _ _ _ _ _ _ _ R0 Hl) Hmiss) as (s1 & L1 & A1 & S1).
  assert (free_entry s1 x j) as Hfree1.
  { pose proof (fr_file _ _ _ _ _ _ _ (dr_file _ _ _ _ _ _ _ R0)) as F. destruct Hfree as (H1 & H2 & H3). split; [done|]. split.
    - destruct (decide (j = nents x)) as [|Hne]; [by left|]. right. destruct H2 as [|H2]; [done|]. by rewrite (entry_same D s) by (done || lia).
    - intros i Hij. rewrite (entry_same D s) by (done || lia). by apply H3. }
  destruct (dirlink_scan_run D 1 me p hs s1 dp x j A1 Hfree1) as (s2 & L2 & A2 & S2). pose proof (same_trans _ _ _ S1 S2) as S12.
  pose proof (same_ready _ _ _ _ _ _ _ _ R0 A2 S12) as R2. set (e := new_entry inum name). assert (length e = 16%nat) as He by (unfold e, new_entry, dirent_bytes; rewrite length_app, length_padded; done).
  pose proof (dr_file _ _ _ _ _ _ _ R2) as R2f. destruct (dir_size D s2 x (fr_file _ _ _ _ _ _ _ R2f) (dr_size _ _ _ _ _ _ _ R2)) as [Es _]. pose proof (proj1 Hfree) as Hj.
  destruct (writei_chunk D me p dp hs s2 x (16 * Z.of_nat j) (from_bytes e) e R2f (sourced_bytes _ _)) as (hs' & s' & x' & R & W & Hl'); rewrite ?He; change (Z.of_nat 16) with 16; [lia|done|lia| | |].
  { rewrite touched_entry. by apply (same_frees s). }
  { by apply (same_spare _ _ _ s). }
  exists hs', s', x'. split; [|split; [by eapply write_entry|done]]. unfold dirlink. rewrite (bind_ret_l _ _ _ _ _ L1), (run_inode_at _ _ _ _ (da_icache _ _ _ _ _ _ _ _ A1)).
  rewrite (bind_ret_l _ _ _ _ _ L2), dirent_pad_padded by done. unfold u16. rewrite Z.mod_small by lia. fold (new_entry inum name). fold e.
  rewrite He in R. change (Z.of_nat 16) with DESIZE in R. rewrite (bind_ret_l _ _ _ _ _ R), Z.eqb_refl. done.
Qed.

Lemma linked_found D me p dp s x j name inum hs' s' x' : link_post D me p dp s x j (new_entry inum name) hs' s' x' -> missing s x name -> (j <= nents x)%nat ->
  chars name -> 0 < inum < 2 ^ 16 -> found s' x' name j.
Proof.
  intros [_ Hs Hn Ho _ _] Hmiss Hj Hc Hi. split; [lia|]. split; [rewrite Hn; by apply matches_new|]. intros i Hij. rewrite Ho by lia. apply Hmiss. lia.
Qed.

Lemma find_index_insert {A} (f : A -> bool) l i x y : l !! i = Some x -> f y = f x -> find_index f (<[i := y]> l) = find_index f l.
Proof.
  revert i. induction l as [|z l IH]; intros [|i] Hx Ef; try done.
  - injection Hx as ->. cbn [insert list_insert find_index]. by rewrite Ef.
  - change (find_index f (z :: <[i := y]> l) = find_index f (z :: l)). cbn [find_index]. by rewrite IH.
Qed.

Lemma iget_slot_insert ic dp x x' inum : ic !! dp = Some x -> i_dev x' = i_dev x /\ i_inum x' = i_inum x /\ i_ref x' = i_ref x ->
  iget_slot (<[dp := x']> ic) inum = iget_slot ic inum.
Proof. intros Hx (E1 & E2 & E3). unfold iget_slot. by rewrite !(find_index_insert _ _ _ x) by (done || by rewrite E1, E2, E3 || by rewrite E3). Qed.

(** ** Locking an inode *)

Lemma inode_acquire ip x me p s : fscaller s me p -> icache s !! ip = Some x -> i_locked x = false ->
  acquiresleep (inode_lock ip) s = Ret tt (with_inode ip (set_i_lkpid (p_pid p) (set_i_locked true x)) s).
Proof.
  intros [Hc Hp Hr Hh] Hx Hl. pose proof (lookup_lt_Some _ _ _ Hx) as Hlt.
  unfold acquiresleep, acquiresleep_round, inode_lock, sl_lk, sl_get, sl_set, sl_chan.
  rewrite run_acquire by (rewrite Hh; apply not_elem_of_nil). krun.
  erewrite run_inode_at by (by ksimpl). krun. rewrite Hl. cbn [fst]. krun.
  rewrite (run_curproc me) by (by ksimpl). krun. erewrite run_proc_at by (ksimpl; exact Hp). krun.
  erewrite run_upd_inode by (by ksimpl). unfold with_inode. ksimpl.
  erewrite run_upd_inode by (ksimpl; by apply list_lookup_insert_eq). unfold with_inode.
  erewrite release_run; [|ksimpl; by rewrite Hh|apply not_elem_of_nil].
  ksimpl. rewrite list_insert_insert_eq. knorm. by rewrite set_held_id by (by ksimpl).
Qed.

Lemma inode_release ip x me p s : fscaller s me p -> icache s !! ip = Some x ->
  releasesleep (inode_lock ip) s =
  Ret tt (set_ptable (wake (Some (ChInode ip)) <$> ptable s) (with_inode ip (set_i_lkpid 0 (set_i_locked false x)) s)).
Proof.
  intros [Hc Hp Hr Hh] Hx. pose proof (lookup_lt_Some _ _ _ Hx) as Hlt.
  unfold releasesleep, inode_lock, sl_lk, sl_set, sl_chan.
  rewrite run_acquire by (rewrite Hh; apply not_elem_of_nil). krun.
  erewrite run_upd_inode by (by ksimpl). unfold with_inode. ksimpl.
  erewrite run_upd_inode by (ksimpl; by apply list_lookup_insert_eq). unfold with_inode. ksimpl. rewrite list_insert_insert_eq.
  erewrite bind_ret_l by (apply wakeup_run; ksimpl; rewrite Hh; intros [?|?%not_elem_of_nil]%elem_of_cons; done).
  erewrite release_run; [|ksimpl; by rewrite Hh|apply not_elem_of_nil]. knorm. by rewrite set_held_id by (by ksimpl).
Qed.

Lemma inode_holding ip x me p s : fscaller s me p -> icache s !! ip = Some x -> i_locked x = true -> i_lkpid x = p_pid p ->
  holdingsleep (inode_lock ip) s = Ret true s.
Proof.
  intros [Hc Hp Hr Hh] Hb Hl Hk. unfold holdingsleep, inode_lock, sl_lk, sl_get.
  rewrite run_acquire by (rewrite Hh; apply not_elem_of_nil). krun.
  erewrite run_inode_at by (by ksimpl). krun. rewrite Hl. cbn [fst snd]. krun.
  rewrite (run_curproc me) by (by ksimpl). krun. erewrite run_proc_at by (ksimpl; exact Hp). krun.
  erewrite run_release; [|ksimpl; by rewrite Hh|apply not_elem_of_nil].
  unfold ret. rewrite Hk, Z.eqb_refl. knorm. by rewrite set_held_id.
Qed.

(** The blocks and the super block are the same. *)
Definition alike (s s' : kstate) : Prop := sb s' = sb s /\ forall c, content s' c = content s c.

Lemma alike_trans s s' s'' : alike s s' -> alike s' s'' -> alike s s''.
Proof. intros [E1 N1] [E2 N2]. split; [congruence|]. intros c. by rewrite N2. Qed.

Lemma alike_inode s s' : alike s s' -> forall i, disk_inode s' i = disk_inode s i.
Proof. intros [E N] i. unfold disk_inode. by rewrite E, N. Qed.

Lemma alike_layout D s s' : alike s s' -> fs_layout D s -> fs_layout D s'.
Proof. intros [E N] []. constructor; rewrite ?E; done. Qed.

Lemma alike_file D s s' x : file_ok D s x -> alike s s' -> file_ok D s' x /\ forall o, 0 <= o < MAXFILE * BSIZE -> fbyte s' x o = fbyte s x o.
Proof. intros F [Q N]. destruct (file_same D s s' x F Q) as (? & _ & ?); [intros c _; unfold used; by rewrite N, Q|intros; apply N|done]. Qed.

Lemma txn_wake w me p H hs s ch : txn w me p H hs s -> txn w me p H hs (set_ptable (wake ch <$> ptable s) s).
Proof. intros [C I T O]. constructor; [by apply fscaller_wake|by destruct I|by destruct T|done]. Qed.

(** The inode in the cache when it is locked and read from the disk. *)
Definition locked_inode (p : proc) (d : dinode) (x : inode) : inode :=
  let x := set_i_lkpid (p_pid p) (set_i_locked true x) in if i_valid x then x else set_i_valid true (load_dinode d x).

Lemma ilock_run D w me p hs s ip x : txn w me p [] hs s -> fs_layout D s -> (length hs < NBUF)%nat -> icache s !! ip = Some x ->
  1 <= i_ref x -> i_locked x = false -> i_dev x = 1 -> 0 <= i_inum x < sb_ninodes (sb s) -> (i_valid x = false -> di_type (disk_inode s (i_inum x)) <> 0) ->
  exists s', ilock (Some ip) s = Ret tt s' /\ txn w me p [] hs s' /\ alike s s' /\ icache s' = <[ip := locked_inode p (disk_inode s (i_inum x)) x]> (icache s).
Proof.
  intros X L Hl Hx Hr Hul Hd Hi Hty. pose proof (lookup_lt_Some _ _ _ Hx) as Hlt. unfold ilock. rewrite (run_inode_at _ _ _ _ Hx), (proj2 (Z.ltb_ge (i_ref x) 1)) by lia.
  rewrite (bind_ret_l _ _ _ _ _ (inode_acquire ip x me p s (tx_caller _ _ _ _ _ _ X) Hx Hul)). set (x1 := set_i_lkpid _ _). set (s1 := with_inode ip x1 s).
  assert (txn w me p [] hs s1) as X1 by (by apply txn_icache). assert (icache s1 !! ip = Some x1) as Hx1 by (by apply list_lookup_insert_eq).
  unfold ilock_load. rewrite (run_inode_at _ _ _ _ Hx1). unfold locked_inode. fold x1. change (i_valid x1) with (i_valid x) in *. destruct (i_valid x) eqn:Ev; cbn [negb when].
  { exists s1. split; [done|]. split; [done|]. split; [done|]. done. }
  rewrite run_gets. change (sb s1) with (sb s). change (i_dev x1) with (i_dev x). change (i_inum x1) with (i_inum x). rewrite Hd.
  destruct (iblock_range D s (i_inum x) L Hi) as [Hb1 Hb2]. pose proof (fl_size _ _ L). pose proof (fl_data _ _ L).
  destruct (tx_read w me p [] hs s1 (IBLOCK (i_inum x) (sb s)) X1 ltac:(lia) (not_held_nil _ _) ltac:(cbn [length]; lia)) as (b & y & s2 & R2 & _ & X2 & Q2 & Hb & Hno & Hdat & Hcl & _ & N2).
  assert (buf_data b s2 = Ret (b_data y) s2) as Rd by (unfold buf_data; by rewrite (run_buf_at _ _ _ _ Hb)).
  assert (get_dinode (b_data y) (dinode_off (i_inum x)) = disk_inode s (i_inum x)) as Ed by (rewrite Hdat; done).
  rewrite (bind_ret_l _ _ _ _ _ R2), (bind_ret_l _ _ _ _ _ Rd), Ed. set (d := disk_inode s (i_inum x)) in *.
  assert (icache s2 = <[ip := x1]> (icache s)) as Ei2 by (by rewrite (quiet_icache _ _ Q2)).
  rewrite (run_upd_inode ip _ x1) by (by rewrite Ei2; apply list_lookup_insert_eq). set (x2 := load_dinode d x1). set (s3 := with_inode ip x2 s2).
  destruct (tx_release w me p [b] [] hs s3 b y (txn_icache _ _ _ _ _ _ _ X2) Hb) as (s4 & R4 & X4 & Q4 & _ & N4); [by left|by apply not_elem_of_nil| |by intros E; change (disk s3) with (disk s2); rewrite (quiet_disk _ _ Q2), Hno; apply Hcl|].
  { intros c Hc. split; [by intros ?%not_elem_of_nil|by intros ->%list_elem_of_singleton]. }
  assert (icache s4 = <[ip := x2]> (icache s)) as Ei4 by (rewrite (quiet_icache _ _ Q4); unfold s3, with_inode; ksimpl; by rewrite Ei2, list_insert_insert_eq).
  rewrite (bind_ret_l _ _ _ _ _ R4), (run_upd_inode ip _ x2) by (by rewrite Ei4; apply list_lookup_insert_eq). set (s5 := with_inode ip _ s4).
  assert (icache s5 = <[ip := set_i_valid true x2]> (icache s)) as Ei5 by (unfold s5, with_inode; ksimpl; by rewrite Ei4, list_insert_insert_eq).
  rewrite (run_inode_at ip (set_i_valid true x2)) by (by rewrite Ei5; apply list_lookup_insert_eq). change (i_type (set_i_valid true x2)) with (di_type d).
  rewrite (proj2 (Z.eqb_neq (di_type d) 0)) by (by apply Hty). exists s5. split; [done|]. split; [by apply txn_icache|]. split; [|done]. split.
  - change (sb s5) with (sb s4). rewrite (quiet_sb _ _ Q4). change (sb s3) with (sb s2). by rewrite (quiet_sb _ _ Q2).
  - intros c. change (content s5 c) with (content s4 c). rewrite N4. change (content s3 c) with (content s2 c). by rewrite N2.
Qed.

Definition unlocked_inode (x : inode) : inode := set_i_lkpid 0 (set_i_locked false x).
Definition put_inode (x : inode) : inode := set_i_ref (i32 (i_ref x - 1)) (unlocked_inode x).

Lemma release_step w me p hs s ip x : txn w me p [] hs s -> icache s !! ip = Some x ->
  exists s', releasesleep (inode_lock ip) s = Ret tt s' /\ txn w me p [] hs s' /\ alike s s' /\ icache s' = <[ip := unlocked_inode x]> (icache s).
Proof.
  intros X Hx. eexists. split; [apply (inode_release ip x me p s (tx_caller _ _ _ _ _ _ X) Hx)|]. split; [|split; [done|done]].
  apply (txn_wake w me p [] hs (with_inode ip _ s)). by apply txn_icache.
Qed.

Lemma iunlock_run w me p hs s ip x : txn w me p [] hs s -> icache s !! ip = Some x -> i_locked x = true -> i_lkpid x = p_pid p -> 1 <= i_ref x ->
  exists s', iunlock (Some ip) s = Ret tt s' /\ txn w me p [] hs s' /\ alike s s' /\ icache s' = <[ip := unlocked_inode x]> (icache s).
Proof.
  intros X Hx Hl Hk Hr. unfold iunlock. rewrite (bind_ret_l _ _ _ _ _ (inode_holding ip x me p s (tx_caller _ _ _ _ _ _ X) Hx Hl Hk)).
  rewrite (run_inode_at _ _ _ _ Hx), (proj2 (Z.ltb_ge (i_ref x) 1)) by lia. by apply release_step.
Qed.

(** iput of an inode that keeps a link. *)
Lemma iput_run w me p hs s ip x : txn w me p [] hs s -> icache s !! ip = Some x -> i_locked x = false -> (i_valid x = true -> i_nlink x <> 0) ->
  exists s', iput (Some ip) s = Ret tt s' /\ txn w me p [] hs s' /\ alike s s' /\ icache s' = <[ip := put_inode x]> (icache s).
Proof.
  intros X Hx Hl Hn. pose proof (lookup_lt_Some _ _ _ Hx) as Hlt. unfold iput. rewrite (bind_ret_l _ _ _ _ _ (inode_acquire ip x me p s (tx_caller _ _ _ _ _ _ X) Hx Hl)).
  set (x1 := set_i_lkpid _ _). set (s1 := with_inode ip x1 s). assert (icache s1 !! ip = Some x1) as Hx1 by (by apply list_lookup_insert_eq).
  rewrite (run_inode_at _ _ _ _ Hx1). assert (i_valid x1 && (i_nlink x1 =? 0) = false) as ->.
  { change (i_valid x1) with (i_valid x). change (i_nlink x1) with (i_nlink x). destruct (i_valid x); [|done]. by apply Z.eqb_neq, Hn. }
  cbn [when]. change (bind (ret tt) ?f s1) with (f tt s1). cbv beta.
  destruct (release_step w me p hs s1 ip x1 (txn_icache _ _ _ _ _ _ _ X) Hx1) as (s2 & R2 & X2 & A2 & E2). rewrite (bind_ret_l _ _ _ _ _ R2).
  assert (icache s2 = <[ip := unlocked_inode x1]> (icache s)) as E2' by (rewrite E2; apply list_insert_insert_eq).
  pose proof (fc_held _ _ _ (tx_caller _ _ _ _ _ _ X2)) as Hh. rewrite run_acquire by (rewrite Hh; apply not_elem_of_nil).
  erewrite run_upd_inode by (ksimpl; rewrite E2'; by apply list_lookup_insert_eq). unfold with_inode.
  erewrite release_run; [|ksimpl; by rewrite Hh|apply not_elem_of_nil]. eexists. split; [done|].
  assert (set_held [] (set_icache (<[ip := put_inode x]> (icache s2)) (set_held (LkIcache :: held s2) s2)) = set_icache (<[ip := put_inode x]> (icache s2)) s2) as Es by (knorm; by rewrite set_held_id by (by ksimpl)).
  change (set_held [] _) with (set_held [] (set_icache (<[ip := put_inode x]> (icache s2)) (set_held (LkIcache :: held s2) s2))). rewrite Es.
  split; [by apply txn_icache|]. split; [done|]. ksimpl. by rewrite E2', list_insert_insert_eq.
Qed.

Lemma iunlockput_run w me p hs s ip x : txn w me p [] hs s -> icache s !! ip = Some x -> i_locked x = true -> i_lkpid x = p_pid p -> 1 <= i_ref x ->
  (i_valid x = true -> i_nlink x <> 0) ->
  exists s', iunlockput (Some ip) s = Ret tt s' /\ txn w me p [] hs s' /\ alike s s' /\ icache s' = <[ip := put_inode x]> (icache s).
Proof.
  intros X Hx Hl Hk Hr Hn. pose proof (lookup_lt_Some _ _ _ Hx) as Hlt. destruct (iunlock_run w me p hs s ip x X Hx Hl Hk Hr) as (s1 & R1 & X1 & A1 & E1).
  destruct (iput_run w me p hs s1 ip (unlocked_inode x) X1) as (s2 & R2 & X2 & A2 & E2); [by rewrite E1; apply list_lookup_insert_eq|done|done|].
  exists s2. unfold iunlockput. rewrite (bind_ret_l _ _ _ _ _ R1). split; [done|]. split; [done|]. split; [by eapply alike_trans|].
  by rewrite E2, E1, list_insert_insert_eq.
Qed.

End dirs.
