(* ===== verification/PathSpec.v ===== *)
(** * Path names

    The elements that the loop of [namex] takes off a path with [skipelem]
    are the non-empty pieces between its slashes, cut to [DIRSIZ] bytes; the
    loops of the file system end within their bounds; and [namex] computes the
    walk through the directories on the disk, whatever the inode cache holds. *)

From S2P Require Import Prelude CString Mem KState Mmu Console Kalloc Vm File Proc Syscall Bio Layout Log Inode.
From S2P Require Import ConsoleDev Fs FileIO ProcMem ForkSpec WaitSpec BioSpec LogSpec TxnSpec FileSpec RwSpec.
From S2P Require Import DirSpec.

Section path.
Context {DK : Disk}.

(** The pieces of a path between its slashes, also the empty ones. *)
Fixpoint split_path (path : list Z) : list Z * list (list Z) :=
  match path with
  | [] => ([], [])
  | c :: path' =>
      let '(w, ws) := split_path path' in
      if c =? slash then ([], w :: ws) else (c :: w, ws)
  end.

Definition nonempty (w : list Z) : bool := match w with [] => false | _ => true end.

(** What a path names: its non-empty pieces, as directory entry names. *)
Definition elements (path : list Z) : list (list Z) :=
  let '(w, ws) := split_path path in
  map (take DIRSIZ) (List.filter nonempty (w :: ws)).

(** The elements that repeated calls of [skipelem] produce. *)
Fixpoint skip_all (k : nat) (path : list Z) : option (list (list Z)) :=
  match skipelem path with
  | None => Some []
  | Some (name, rest) =>
      match k with
      | O => None
      | S k' => match skip_all k' rest with Some l => Some (name :: l) | None => None end
      end
  end.

Lemma skip_slashes_elements path : elements (skip_slashes path) = elements path.
Proof.
  induction path as [|c path IH]; [done|]. cbn [skip_slashes]. destruct (c =? slash) eqn:E; [|done].
  rewrite IH. unfold elements. cbn [split_path]. destruct (split_path path) as [w ws]. by rewrite E.
Qed.

Lemma skip_slashes_head path c rest : skip_slashes path = c :: rest -> (c =? slash) = false.
Proof.
  induction path as [|d path IH]; [done|]. cbn [skip_slashes]. destruct (d =? slash) eqn:E; [done|]. by intros [= <- _].
Qed.

Lemma skip_slashes_length path : (length (skip_slashes path) <= length path)%nat.
Proof.
  induction path as [|d path IH]; [done|]. cbn [skip_slashes]. destruct (d =? slash); cbn [length] in *; lia.
Qed.

(** The first element and what follows it. *)
Lemma span_elem_spec path e r : span_elem path = (e, r) ->
  path = e ++ r /\ (r = [] \/ exists r', r = slash :: r') /\
  split_path path = (e, match r with [] => [] | _ :: r' => let '(w, ws) := split_path r' in w :: ws end).
Proof.
  revert e r. induction path as [|c path IH]; intros e r; cbn [span_elem]; [intros [= <- <-]; by split; [|split; [left|]]|].
  destruct (c =? slash) eqn:E.
  - intros [= <- <-]. split; [done|]. apply Z.eqb_eq in E. subst c. split; [right; by eexists|].
    cbn [split_path]. destruct (split_path path). done.
  - destruct (span_elem path) as [e' r']. intros [= <- <-]. destruct (IH e' r' eq_refl) as (-> & Hr & Hs).
    split; [done|]. split; [done|]. cbn [split_path]. by rewrite Hs, E.
Qed.

Lemma skipelem_spec path :
  match skipelem path with
  | None => elements path = []
  | Some (name, rest) => elements path = name :: elements rest /\ (length rest < length path)%nat /\
                         (length name <= DIRSIZ)%nat /\ name <> []
  end.
Proof.
  unfold skipelem. rewrite <- (skip_slashes_elements path). pose proof (skip_slashes_length path) as Hl.
  destruct (skip_slashes path) as [|c p'] eqn:Ep; [done|].
  pose proof (skip_slashes_head _ _ _ Ep) as Hc. destruct (span_elem (c :: p')) as [e r] eqn:Es.
  assert (exists e', e = c :: e') as (e' & He).
  { cbn [span_elem] in Es. rewrite Hc in Es. destruct (span_elem p') as [e' r']. injection Es as <- _. by exists e'. }
  destruct (span_elem_spec _ _ _ Es) as (Hp & Hr & Hsp). rewrite skip_slashes_elements. split; [|split; [|split]].
  - unfold elements at 1. rewrite Hsp, He. cbn [List.filter nonempty map]. f_equal. unfold elements.
    destruct Hr as [->|(r' & ->)]; [done|]. cbn [split_path]. destruct (split_path r') as [w ws].
    change (slash =? slash) with true. done.
  - pose proof (skip_slashes_length r). assert (length (c :: p') = length e + length r)%nat by (by rewrite Hp, length_app).
    rewrite He in *. cbn [length] in *. lia.
  - rewrite length_take. lia.
  - rewrite He. done.
Qed.

Lemma skip_all_spec k path : (length path <= k)%nat -> skip_all k path = Some (elements path).
Proof.
  revert path. induction k as [|k IH]; intros path Hk; pose proof (skipelem_spec path) as H; cbn [skip_all];
    destruct (skipelem path) as [[name rest]|]; try (by rewrite H).
  - destruct H as (_ & Hl & _). lia.
  - destruct H as (-> & Hl & _). by rewrite IH by lia.
Qed.

End path.

(** * The loops of the file system terminate

    The definitions bound their loops by a number of iterations computed from
    the sizes involved.  The bounds are never reached: with more iterations
    allowed the functions compute the same. *)

Section fuel.
Context {LK : Linker} {DK : Disk}.

Lemma bind_ext {A B} (m : K A) (f g : A -> K B) s : (forall a s, f a s = g a s) -> bind m f s = bind m g s.
Proof. intros H. unfold bind. by destruct (m s). Qed.

Lemma namex_loop_fuel j k ip path np name s : (length path <= k)%nat ->
  namex_loop (k + j) ip path np name s = namex_loop k ip path np name s.
Proof.
  revert ip path name s. induction k as [|k IH]; intros ip path name s Hk; cbn [Nat.add];
    pose proof (skipelem_spec path) as H.
  - destruct path; [|cbn in Hk; lia]. by destruct j.
  - cbn [namex_loop]. destruct (skipelem path) as [[n rest]|]; [|done]. destruct H as (_ & Hl & _).
    apply bind_ext. intros _ s1. apply bind_ext. intros x s2. destruct (negb _); [done|]. destruct (np && _); [done|].
    apply bind_ext. intros [[next o]|] s3; [|done]. apply bind_ext. intros _ s4. apply IH. lia.
Qed.

(** A number of iterations that is enough for [n] bytes from offset [off]. *)
Lemma chunk_step tot off n k : 0 <= tot < n -> 0 <= off ->
  (n - tot + off mod BSIZE + BSIZE - 1) / BSIZE <= Z.of_nat (S k) ->
  let m := Z.min (n - tot) (BSIZE - off mod BSIZE) in
  0 < m /\ tot + m <= n /\
  (tot + m < n -> (n - (tot + m) + (off + m) mod BSIZE + BSIZE - 1) / BSIZE <= Z.of_nat k).
Proof.
  intros Ht Ho Hk m. unfold BSIZE in *. pose proof (Z.mod_pos_bound off 512 ltac:(lia)) as Hm.
  assert (0 < m) by (unfold m; lia). assert (tot + m <= n) by (unfold m; lia). split; [done|]. split; [done|].
  intros Hlt. assert (m = 512 - off mod 512) as Em by (unfold m in *; lia).
  assert ((off + m) mod 512 = 0) as ->.
  { rewrite Em. replace (off + (512 - off mod 512)) with ((off / 512 + 1) * 512) by (pose proof (Z.div_mod off 512); lia).
    apply Z.mod_mul. lia. }
  rewrite Em. set (A := n - tot + off mod 512 + 512 - 1) in *.
  replace (n - (tot + (512 - off mod 512)) + 0 + 512 - 1) with (A + (-1) * 512) by (unfold A; lia).
  rewrite Z.div_add by lia. lia.
Qed.

Lemma readi_loop_fuel j k ip dst tot off n acc s : 0 <= tot -> 0 <= off ->
  (n <= tot \/ (n - tot + off mod BSIZE + BSIZE - 1) / BSIZE <= Z.of_nat k) ->
  readi_loop (k + j) ip dst tot off n acc s = readi_loop k ip dst tot off n acc s.
Proof.
  revert tot off acc s. induction k as [|k IH]; intros tot off acc s Ht Ho Hk.
  - assert (n <= tot) as Hn.
    { destruct Hk as [?|Hk]; [done|]. unfold BSIZE in *. pose proof (Z.mod_pos_bound off 512 ltac:(lia)).
      Z.div_mod_to_equations. lia. }
    cbn [Nat.add readi_loop]. destruct j; cbn [readi_loop]; by rewrite (proj2 (Z.ltb_ge tot n)) by lia.
  - cbn [Nat.add readi_loop]. destruct (tot <? n) eqn:E; [|done]. bool_prop. destruct Hk as [?|Hk]; [lia|].
    destruct (chunk_step tot off n k) as (Hm & Hle & Hnext); [lia|done|done|].
    apply bind_ext. intros a s1. apply bind_ext. intros x s2. apply bind_ext. intros bp s3. apply bind_ext. intros d s4.
    apply bind_ext. intros _ s5. apply bind_ext. intros _ s6. apply IH; [lia|lia|].
    destruct (decide (n <= tot + Z.min (n - tot) (BSIZE - off mod BSIZE))); [by left|right]. apply Hnext. lia.
Qed.

Lemma writei_loop_fuel j k ip src tot off n s : 0 <= tot -> 0 <= off ->
  (n <= tot \/ (n - tot + off mod BSIZE + BSIZE - 1) / BSIZE <= Z.of_nat k) ->
  writei_loop (k + j) ip src tot off n s = writei_loop k ip src tot off n s.
Proof.
  revert tot off s. induction k as [|k IH]; intros tot off s Ht Ho Hk.
  - assert (n <= tot) as Hn.
    { destruct Hk as [?|Hk]; [done|]. unfold BSIZE in *. pose proof (Z.mod_pos_bound off 512 ltac:(lia)).
      Z.div_mod_to_equations. lia. }
    cbn [Nat.add writei_loop]. destruct j; cbn [writei_loop]; by rewrite (proj2 (Z.ltb_ge tot n)) by lia.
  - cbn [Nat.add writei_loop]. destruct (tot <? n) eqn:E; [|done]. bool_prop. destruct Hk as [?|Hk]; [lia|].
    destruct (chunk_step tot off n k) as (Hm & Hle & Hnext); [lia|done|done|].
    apply bind_ext. intros a s1. apply bind_ext. intros x s2. apply bind_ext. intros bp s3. apply bind_ext. intros bs s4.
    apply bind_ext. intros d s5. apply bind_ext. intros _ s6. apply bind_ext. intros _ s7. apply bind_ext. intros _ s8.
    apply IH; [lia|lia|].
    destruct (decide (n <= tot + Z.min (n - tot) (BSIZE - off mod BSIZE))); [by left|right]. apply Hnext. lia.
Qed.

(** The bound used by [readi] and [writei]. *)
Lemma io_bound off n : 0 <= n -> 0 <= off ->
  n <= 0 \/ (n - 0 + off mod BSIZE + BSIZE - 1) / BSIZE <= Z.of_nat (Z.to_nat (n / BSIZE + 2)).
Proof.
  intros Hn Ho. right. unfold BSIZE. pose proof (Z.mod_pos_bound off 512 ltac:(lia)).
  rewrite Z2Nat.id by (Z.div_mod_to_equations; lia). Z.div_mod_to_equations. lia.
Qed.

End fuel.

(** * Path names

    [walk] is the meaning of a path: from an inode through the directories on
    the disk, one element after the other.  The invariant of the file system
    ([fs_ok]) says that the inodes in use are well-formed files with a link and
    that the directories name inodes in use; the invariant of the inode cache
    ([cache_ok]) says that its entries are copies of the disk.  Under them
    namex computes [walk], keeps the invariants and gives back the references
    that it has taken on the way. *)

(** ** The free slots of the inode cache *)

Definition free_slots (ic : list inode) : nat := length (List.filter (fun x => i_ref x =? 0) ic).

Definition is_free (x : inode) : nat := if i_ref x =? 0 then 1 else 0.

Lemma free_slots_insert ic : forall k x y, ic !! k = Some x -> (free_slots (<[k := y]> ic) + is_free x = free_slots ic + is_free y)%nat.
Proof.
  unfold free_slots, is_free. induction ic as [|z ic IH]; intros [|k] x y Hk; try done.
  - injection Hk as ->. cbn [insert list_insert List.filter]. destruct (i_ref x =? 0), (i_ref y =? 0); cbn [length]; lia.
  - specialize (IH k x y Hk). change (<[S k := y]> (z :: ic)) with (z :: <[k := y]> ic). cbn [List.filter]. destruct (i_ref z =? 0); cbn [length]; lia.
Qed.

Lemma free_slots_find ic inum : (0 < free_slots ic)%nat -> exists i, iget_slot ic inum = Some i.
Proof.
  intros H. unfold iget_slot. destruct (find_index _ ic) as [i|]; [by exists i|]. destruct (find_index (fun x => i_ref x =? 0) ic) as [i|] eqn:E; [by exists i|].
  pose proof (proj1 (find_index_None _ _) E) as Hn. unfold free_slots in H. destruct (List.filter _ ic) as [|x l] eqn:Ef; [cbn in H; lia|].
  assert (In x (List.filter (fun x => i_ref x =? 0) ic)) as Hin by (rewrite Ef; by left). apply filter_In in Hin as [Hin Hr].
  apply list_elem_of_In, list_elem_of_lookup in Hin as [k Hk]. by rewrite (Hn k x Hk) in Hr.
Qed.

Section names.
Context {LK : Linker} {FS : FsOps} {DK : Disk}.

(** ** The file system on the disk *)

Definition inode_of (s : kstate) (i : Z) : inode := node i (disk_inode s i).

(** An inode in use. *)
Definition live (s : kstate) (i : Z) : Prop := 0 < i < sb_ninodes (sb s) /\ di_type (disk_inode s i) <> 0.

Record fs_ok (D : Z) (s : kstate) : Prop := {
  fk_layout : fs_layout D s;
  fk_file : forall i, live s i -> file_ok D s (inode_of s i) /\ di_nlink (disk_inode s i) <> 0;
  fk_dir : forall i, live s i -> di_type (disk_inode s i) = T_DIR -> di_size (disk_inode s i) mod 16 = 0 /\
    forall j, (j < nents (inode_of s i))%nat -> dirent_inum (entry s (inode_of s i) j) <> 0 -> live s (dirent_inum (entry s (inode_of s i) j));
}.

(** The first entry with the name. *)
Definition dir_find (s : kstate) (i : Z) (name : list Z) : option nat :=
  find_index (names_entry name) (map (entry s (inode_of s i)) (seq 0 (nents (inode_of s i)))).

Fixpoint walk (s : kstate) (names : list (list Z)) (i : Z) : option Z :=
  match names with
  | [] => Some i
  | name :: names' =>
      if di_type (disk_inode s i) =? T_DIR then
        match dir_find s i name with
        | Some j => walk s names' (dirent_inum (entry s (inode_of s i) j))
        | None => None
        end
      else None
  end.

Lemma entries_lookup s x j : (j < nents x)%nat -> map (entry s x) (seq 0 (nents x)) !! j = Some (entry s x j).
Proof. intros H. rewrite list_lookup_fmap, lookup_seq_lt by done. done. Qed.

(** The directory entries of a copy of the inode. *)
Lemma entry_copy D s0 s i x j : file_ok D s0 (inode_of s0 i) -> alike s0 s -> dinode_of x = disk_inode s0 i -> i_dev x = 1 -> (j < nents x)%nat ->
  file_ok D s x /\ nents x = nents (inode_of s0 i) /\ entry s x j = entry s0 (inode_of s0 i) j.
Proof.
  intros F A Ex Ed Hj. assert (i_size x = i_size (inode_of s0 i)) as Es by (by unfold inode_of; rewrite <- Ex).
  destruct (copy_addrs D s0 (inode_of s0 i) x F) as (Eb & Ef & F'); [done|by unfold inode_of; rewrite <- Ex|].
  assert (file_ok D s0 x) as Fx.
  { rewrite Es in F'. apply F'; [|apply (fo_size _ _ _ F)]. intros bn Hbn Hlt. rewrite Eb. by apply (fo_full _ _ _ F). }
  destruct (alike_file _ _ _ _ Fx A) as [Fs Efs]. split; [done|]. split; [unfold nents; by rewrite Es|].
  destruct (nents_bound _ _ _ _ Fx Hj) as (B1 & B2 & B3). apply map_ext_in. intros o Ho%list_elem_of_In%elem_of_seqZ. rewrite <- Ef. apply Efs. change (MAXFILE * BSIZE) with 71680. lia.
Qed.

(** ** The inode cache *)

(** A slot: free, or a reference to an inode in use that is a copy of the disk
    once it is valid; [l] says that the caller has locked it. *)
Record slot_ok (p : proc) (s : kstate) (b : Z) (l : bool) (x : inode) : Prop := {
  so_ref : 0 <= i_ref x <= b;
  so_locked : i_locked x = l;
  so_mine : l = true -> i_lkpid x = p_pid p /\ 0 < i_ref x /\ i_valid x = true;
  so_live : 0 < i_ref x -> i_dev x = 1 /\ live s (i_inum x) /\ (i_valid x = true -> dinode_of x = disk_inode s (i_inum x));
}.

(** At least [f] slots are free, no inode has more than [b] references, and
    only [L] is locked. *)
Record cache_ok (p : proc) (s : kstate) (b : Z) (f : nat) (L : option nat) (ic : list inode) : Prop := {
  co_slot : forall k x, ic !! k = Some x -> slot_ok p s b (bool_decide (L = Some k)) x;
  co_free : (f <= free_slots ic)%nat;
}.

Lemma cache_insert p s b f L ic k x y b' f' L' : cache_ok p s b f L ic -> ic !! k = Some x -> slot_ok p s b' (bool_decide (L' = Some k)) y ->
  (forall l, l <> k -> bool_decide (L' = Some l) = bool_decide (L = Some l)) -> b <= b' -> (f' + is_free x <= f + is_free y)%nat -> cache_ok p s b' f' L' (<[k := y]> ic).
Proof.
  intros [C1 C2] Hx Hy HL Hb Hf. constructor.
  - intros l z Hz. destruct (decide (l = k)) as [->|Hne]; [rewrite list_lookup_insert_eq in Hz by (by eapply lookup_lt_Some); by injection Hz as <-|].
    rewrite list_lookup_insert_ne in Hz by done. rewrite (HL l Hne). destruct (C1 l z Hz) as [O1 O2 O3 O4]. constructor; try done. lia.
  - pose proof (free_slots_insert ic k x y Hx). lia.
Qed.

Lemma is_free_ref x : 0 < i_ref x -> is_free x = 0%nat.
Proof. intros H. unfold is_free. by rewrite (proj2 (Z.eqb_neq _ 0)) by lia. Qed.

(** ** The steps of namex *)

Section steps.
Context (D w : Z) (me : nat) (p : proc) (hs : list Z) (s0 : kstate).
Context (OK : fs_ok D s0) (Hlen : (length hs < NBUF)%nat).

Abbreviation running s := (txn w me p [] hs s /\ alike s0 s).

Lemma locked_copy d x : 0 < i_ref x -> (i_valid x = true -> dinode_of x = d) -> dinode_of (locked_inode p d x) = d.
Proof. intros Hr Hd. unfold locked_inode. cbn [i_valid set_i_lkpid set_i_locked]. destruct x as [? ? ? ? ? v]. cbn in *. destruct v; [by rewrite <- Hd|by destruct d]. Qed.

Lemma lock_step s b f ip x : running s -> cache_ok p s0 b f None (icache s) -> icache s !! ip = Some x -> 0 < i_ref x ->
  exists s' x', ilock (Some ip) s = Ret tt s' /\ running s' /\ cache_ok p s0 b f (Some ip) (icache s') /\ icache s' !! ip = Some x' /\
    i_inum x' = i_inum x /\ i_ref x' = i_ref x.
Proof.
  intros [X A] C Hx Hr. destruct (co_slot _ _ _ _ _ _ C ip x Hx) as [O1 O2 _ O4]. destruct (O4 Hr) as (Hd & [Hi Ht] & Hv). pose proof (lookup_lt_Some _ _ _ Hx) as Hlt.
  destruct (ilock_run D w me p hs s ip x X (alike_layout _ _ _ A (fk_layout _ _ OK)) Hlen Hx) as (s' & R & X' & A' & E); [lia|done|done| | |].
  { rewrite (proj1 A). lia. }
  { intros _. by rewrite (alike_inode _ _ A). }
  rewrite (alike_inode _ _ A) in E. set (x' := locked_inode p (disk_inode s0 (i_inum x)) x) in *.
  assert (i_inum x' = i_inum x /\ i_ref x' = i_ref x /\ i_dev x' = i_dev x /\ i_locked x' = true /\ i_lkpid x' = p_pid p /\ i_valid x' = true) as (E1 & E2 & E3 & E4 & E5 & E6).
  { unfold x', locked_inode. cbn [i_valid set_i_lkpid set_i_locked]. destruct (i_valid x) eqn:Ev; by destruct x. }
  exists s', x'. split; [done|]. split; [split; [done|by eapply alike_trans]|]. rewrite E. split; [|split; [by apply list_lookup_insert_eq|done]].
  apply (cache_insert p s0 b f None (icache s) ip x); try done.
  - rewrite bool_decide_true by done. constructor; rewrite ?E1, ?E2, ?E3; try done. intros _. split; [done|]. split; [done|]. intros _. by apply locked_copy.
  - intros l Hl. rewrite !bool_decide_false by congruence. done.
  - rewrite !is_free_ref by (by rewrite ?E2). lia.
Qed.

Lemma locked_dir s b f ip x : running s -> cache_ok p s0 b f (Some ip) (icache s) -> icache s !! ip = Some x -> i_type x = T_DIR ->
  dir_at D w me p hs s ip x /\ live s0 (i_inum x) /\ di_type (disk_inode s0 (i_inum x)) = T_DIR /\ nents x = nents (inode_of s0 (i_inum x)) /\
  forall j, (j < nents x)%nat -> entry s x j = entry s0 (inode_of s0 (i_inum x)) j.
Proof.
  intros [X A] C Hx Ht. destruct (co_slot _ _ _ _ _ _ C ip x Hx) as [O1 O2 O3 O4]. destruct (O3 (bool_decide_eq_true_2 _ eq_refl)) as (_ & Hr & Hv).
  destruct (O4 Hr) as (Hd & Hl & Ed). specialize (Ed Hv). destruct (fk_file _ _ OK _ Hl) as [F _].
  assert (i_size x = di_size (disk_inode s0 (i_inum x)) /\ i_type x = di_type (disk_inode s0 (i_inum x))) as [Es Et] by (by rewrite <- Ed).
  destruct (copy_addrs D s0 (inode_of s0 (i_inum x)) x F) as (Eb & Ef & F'); [done|by unfold inode_of; rewrite <- Ed|].
  assert (file_ok D s x) as Fs.
  { apply (alike_file D s0); [|done]. apply F'; rewrite Es; [|apply (fo_size _ _ _ F)]. intros bn Hbn Hlt. rewrite Eb. by apply (fo_full _ _ _ F). }
  split; [|split; [done|split; [congruence|split; [unfold nents; by rewrite Es|intros j Hj; by apply (entry_copy D)]]]].
  constructor; try done; [by eapply alike_layout; [|apply OK]|]. rewrite Es. apply (fk_dir _ _ OK); [done|congruence].
Qed.

Lemma find_none s b f ip x name : running s -> cache_ok p s0 b f (Some ip) (icache s) -> icache s !! ip = Some x -> i_type x = T_DIR ->
  dir_find s0 (i_inum x) name = None -> exists s', dirlookup ip name s = Ret None s' /\ running s' /\ icache s' = icache s.
Proof.
  intros RA C Hx Ht Hn. destruct (locked_dir s b f ip x RA C Hx Ht) as (A & Hl & _ & En & Ee). destruct RA as [X0 A0].
  destruct (dirlookup_missing D w me p hs s ip x name A) as (s1 & R & A1 & S1).
  { intros j Hj. rewrite Ee by done. unfold dir_find in Hn. rewrite find_index_None in Hn. apply (Hn j). apply entries_lookup. by rewrite <- En. }
  exists s1. split; [done|]. split; [|apply (quiet_icache _ _ (proj1 S1))]. split; [apply A1|]. apply (alike_trans _ _ _ A0). split; [apply (quiet_sb _ _ (proj1 S1))|apply S1].
Qed.

Lemma got_slot b l inum x : slot_ok p s0 b l x -> live s0 inum -> (0 < i_ref x /\ i_dev x = 1 /\ i_inum x = inum) \/ i_ref x = 0 -> b + 1 < 2 ^ 31 ->
  slot_ok p s0 (b + 1) l (got inum x) /\ i_ref (got inum x) = i_ref x + 1.
Proof.
  clear Hlen. intros [O1 O2 O3 O4] Hl Hg Hb. destruct (got_is inum x Hg) as [E1 E2]. unfold got in *. destruct (Z.ltb_spec 0 (i_ref x)) as [Hr|Hr].
  - rewrite (i32_id (i_ref x + 1)) by lia. split; [|done]. constructor; try done; cbn [i_ref set_i_ref].
    + lia.
    + intros E. destruct (O3 E) as (? & ? & ?). split; [done|]. split; [lia|done].
    + intros _. by apply O4.
  - assert (i_ref x = 0) as E0 by lia. rewrite E0. split; [|done]. constructor; try done; cbn [i_ref set_i_ref set_i_valid i_locked set_i_inum set_i_dev i_dev i_inum].
    + lia.
    + intros E. destruct (O3 E). lia.
Qed.

Lemma find_some s b f ip x name j : running s -> cache_ok p s0 b (S f) (Some ip) (icache s) -> icache s !! ip = Some x -> i_type x = T_DIR ->
  dir_find s0 (i_inum x) name = Some j -> b + 1 < 2 ^ 31 -> let inum := dirent_inum (entry s0 (inode_of s0 (i_inum x)) j) in
  exists i s' z, dirlookup ip name s = Ret (Some (i, 16 * Z.of_nat j)) s' /\ running s' /\ cache_ok p s0 (b + 1) f (Some ip) (icache s') /\
    icache s' !! i = Some z /\ i_inum z = inum /\ 0 < i_ref z /\ (i = ip -> 1 < i_ref z) /\ is_Some (icache s' !! ip).
Proof.
  intros RA C Hx Ht Hf Hb inum. destruct (locked_dir s b (S f) ip x RA C Hx Ht) as (A & Hl & Ht0 & En & Ee). destruct RA as [X0 A0].
  unfold dir_find in Hf. apply find_index_Some in Hf as [(e & He & Hm) Hbefore]. pose proof (lookup_lt_Some _ _ _ He) as Hj. rewrite length_map, length_seq in Hj.
  rewrite entries_lookup in He by done. injection He as <-. rewrite <- En in Hj.
  destruct (free_slots_find (icache s) inum) as [i Hi]; [pose proof (co_free _ _ _ _ _ _ C); lia|].
  destruct (dirlookup_found D w me p hs s ip x name j i A) as (s1 & z & R & Hz & X1 & S1).
  { split; [done|]. split; [by rewrite Ee|]. intros k Hk. rewrite Ee by lia. apply (Hbefore k); [done|]. apply entries_lookup. rewrite <- En. lia. }
  { by rewrite Ee. }
  rewrite Ee in R by done. fold inum in R. destruct (iget_slot_is _ _ _ Hi) as (z' & Hz' & Hg). assert (z' = z) as -> by congruence.
  assert (live s0 inum) as Hlive.
  { apply (fk_dir _ _ OK (i_inum x) Hl Ht0); [by rewrite <- En|]. unfold names_entry in Hm. apply andb_prop in Hm as [Hm%negb_true_iff%Z.eqb_neq _]. exact Hm. }
  pose proof (co_slot _ _ _ _ _ _ C i z Hz) as Oz. destruct (got_slot b _ inum z Oz Hlive Hg Hb) as [Og Er]. pose proof (so_ref _ _ _ _ _ Oz).
  assert (icache s1 = icache s) as Ei by (apply (quiet_icache _ _ (proj1 S1))).
  exists i, (with_inode i (got inum z) s1), (got inum z). split; [done|]. split; [split; [by apply txn_icache|]|].
  { apply (alike_trans _ _ _ A0). split; [apply (quiet_sb _ _ (proj1 S1))|apply S1]. }
  assert (icache (with_inode i (got inum z) s1) = <[i := got inum z]> (icache s)) as -> by (unfold with_inode; ksimpl; by rewrite Ei).
  split; [|split; [by apply list_lookup_insert_eq; eapply lookup_lt_Some|split; [by apply got_is|split; [lia|split]]]].
  - eapply (cache_insert p s0 b (S f)); [done|done|done|done|lia|]. rewrite (is_free_ref (got inum z)) by lia. unfold is_free. destruct (i_ref z =? 0); lia.
  - intros ->. rewrite Hx in Hz. injection Hz as <-. destruct (so_mine _ _ _ _ _ Oz) as (_ & ? & _); [by rewrite bool_decide_true|]. lia.
  - apply lookup_lt_is_Some_2. rewrite length_insert. by eapply lookup_lt_Some.
Qed.

Lemma put_step s b f ip x : running s -> cache_ok p s0 b f (Some ip) (icache s) -> icache s !! ip = Some x -> b < 2 ^ 31 ->
  exists s', iunlockput (Some ip) s = Ret tt s' /\ running s' /\ cache_ok p s0 b f None (icache s') /\ icache s' = <[ip := put_inode x]> (icache s) /\ i_ref (put_inode x) = i_ref x - 1.
Proof.
  intros [X A] C Hx Hb. destruct (co_slot _ _ _ _ _ _ C ip x Hx) as [O1 O2 O3 O4]. rewrite bool_decide_true in * by done. destruct (O3 eq_refl) as (Hk & Hr & Hv). destruct (O4 Hr) as (Hd & Hl & Ed).
  destruct (iunlockput_run w me p hs s ip x X Hx O2 Hk ltac:(lia)) as (s' & R & X' & A' & E).
  { intros _. change (i_nlink x) with (di_nlink (dinode_of x)). rewrite Ed by done. by apply (fk_file _ _ OK). }
  assert (i_ref (put_inode x) = i_ref x - 1) as Er by (unfold put_inode; cbn [i_ref set_i_ref]; by rewrite (i32_id (i_ref x - 1)) by lia).
  exists s'. split; [done|]. split; [split; [done|by eapply alike_trans]|]. split; [|done]. rewrite E.
  apply (cache_insert p s0 b f (Some ip) (icache s) ip x); try done.
  - rewrite bool_decide_false by done. constructor; rewrite ?Er; try done. lia.
  - intros l Hne. rewrite !bool_decide_false by congruence. done.
  - rewrite (is_free_ref x) by done. lia.
Qed.

(** ** namex *)

Lemma cache_weaken b b' f f' L ic : cache_ok p s0 b f L ic -> b <= b' -> (f' <= f)%nat -> cache_ok p s0 b' f' L ic.
Proof. intros [C1 C2] Hb Hf. constructor; [|lia]. intros k x Hx. destruct (C1 k x Hx). constructor; try done. lia. Qed.

(** The loop: the rest of the path from the inode in slot [ip]. *)
Definition walked (b : Z) (f : nat) (r : outcome kstate (option nat * list Z)) (t : option Z) : Prop :=
  match t with
  | Some t => exists i s' z nm, r = Ret (Some i, nm) s' /\ running s' /\ cache_ok p s0 b f None (icache s') /\ icache s' !! i = Some z /\ i_inum z = t /\ 0 < i_ref z
  | None => exists s' nm, r = Ret (None, nm) s' /\ running s' /\ cache_ok p s0 b f None (icache s')
  end.

Lemma namex_loop_walk k : forall s ip x path nm b f, let n := length (elements path) in running s -> cache_ok p s0 b (n + f) None (icache s) ->
  icache s !! ip = Some x -> 0 < i_ref x -> b + Z.of_nat n < 2 ^ 31 -> (length path <= k)%nat ->
  walked (b + Z.of_nat n) f (namex_loop k ip path false nm s) (walk s0 (elements path) (i_inum x)).
Proof.
  induction k as [|k IH]; intros s ip x path nm b f n RS C Hx Hr Hb Hk; unfold n in *; clear n; pose proof (skipelem_spec path) as He; cbn [namex_loop]; destruct (skipelem path) as [[name path']|].
  1: { destruct He as (_ & He & _). lia. }
  1, 3: rewrite He in *; cbn [walk length] in *; exists ip, s, x, nm; (split; [done|split; [done|split; [eapply cache_weaken; [done|lia|lia]|done]]]).
  destruct He as (He & Hlt & _). rewrite He in *. cbn [walk length] in *.
  destruct (lock_step s b _ ip x RS C Hx Hr) as (s1 & x1 & R1 & RS1 & C1 & Hx1 & En1 & Er1). rewrite (bind_ret_l _ _ _ _ _ R1), (run_inode_at _ _ _ _ Hx1).
  destruct (put_step s1 b _ ip x1 RS1 C1 Hx1 ltac:(lia)) as (sp & Rp & RSp & Cp & Ep & _).
  assert (di_type (disk_inode s0 (i_inum x)) = i_type x1) as Ety.
  { destruct (co_slot _ _ _ _ _ _ C1 ip x1 Hx1) as [_ _ O3 O4]. destruct (O3 (bool_decide_eq_true_2 _ eq_refl)) as (_ & Hr1 & Hv). destruct (O4 Hr1) as (_ & _ & Ed). by rewrite <- En1, <- Ed. }
  rewrite Ety. destruct (Z.eqb_spec (i_type x1) T_DIR) as [Ht|Ht]; cbn [negb andb].
  2: { exists sp, name. rewrite (bind_ret_l _ _ _ _ _ Rp). split; [done|]. split; [done|]. eapply cache_weaken; [done|lia|lia]. }
  rewrite <- En1. destruct (dir_find s0 (i_inum x1) name) as [j|] eqn:Ef.
  - destruct (find_some s1 b (length (elements path') + f) ip x1 name j RS1 C1 Hx1 Ht Ef ltac:(lia)) as (i & s2 & z & R2 & RS2 & C2 & Hz & Ez & Hrz & Hself & [x2 Hx2]).
    rewrite (bind_ret_l _ _ _ _ _ R2). destruct (put_step s2 (b + 1) _ ip x2 RS2 C2 Hx2 ltac:(lia)) as (s3 & R3 & RS3 & C3 & E3 & Er3). rewrite (bind_ret_l _ _ _ _ _ R3).
    assert (exists z', icache s3 !! i = Some z' /\ i_inum z' = i_inum z /\ 0 < i_ref z') as (z' & Hz' & Ez' & Hrz').
    { rewrite E3. destruct (decide (i = ip)) as [->|Hne]; [|rewrite list_lookup_insert_ne by done; by exists z].
      rewrite Hx2 in Hz. injection Hz as ->. exists (put_inode z). split; [apply list_lookup_insert_eq; by eapply lookup_lt_Some|]. split; [done|]. specialize (Hself eq_refl). lia. }
    pose proof (IH s3 i z' path' name (b + 1) f RS3 C3 Hz' Hrz' ltac:(lia) ltac:(lia)) as HW. rewrite Ez', Ez in HW.
    replace (b + Z.of_nat (S (length (elements path')))) with (b + 1 + Z.of_nat (length (elements path'))) by lia. done.
  - destruct (find_none s1 b _ ip x1 name RS1 C1 Hx1 Ht Ef) as (s2 & R2 & RS2 & Ei2). rewrite (bind_ret_l _ _ _ _ _ R2).
    destruct (put_step s2 b _ ip x1 RS2 ltac:(by rewrite Ei2) ltac:(by rewrite Ei2) ltac:(lia)) as (s3 & R3 & RS3 & C3 & _). rewrite (bind_ret_l _ _ _ _ _ R3).
    exists s3, name. split; [done|]. split; [done|]. eapply cache_weaken; [done|lia|lia].
Qed.

End steps.

(** The inode where the walk starts: the root, or the current directory. *)
Definition starts (p : proc) (s : kstate) (path : list Z) (i : Z) : Prop :=
  match path with
  | c :: _ => if c =? slash then i = ROOTINO /\ live s ROOTINO else exists k x, p_cwd p = Some k /\ icache s !! k = Some x /\ 0 < i_ref x /\ i_inum x = i
  | [] => exists k x, p_cwd p = Some k /\ icache s !! k = Some x /\ 0 < i_ref x /\ i_inum x = i
  end.

Lemma cwd_run {B} D w me p hs s b f k x (g : option nat -> K B) : fs_ok D s -> txn w me p [] hs s -> cache_ok p s b (S f) None (icache s) -> b + 1 < 2 ^ 31 ->
  p_cwd p = Some k -> icache s !! k = Some x -> 0 < i_ref x ->
  exists s' x', (r <- (me <- curproc ;; p <- proc_at me ;; idup (p_cwd p)) ;; g r) s = g (Some k) s' /\ txn w me p [] hs s' /\ alike s s' /\
    cache_ok p s (b + 1) f None (icache s') /\ icache s' !! k = Some x' /\ i_inum x' = i_inum x /\ 0 < i_ref x'.
Proof.
  intros OK X C Hb Hk Hx Hr. pose proof (tx_caller _ _ _ _ _ _ X) as [Hc Hp _ Hh]. pose proof (co_slot _ _ _ _ _ _ C k x Hx) as O. destruct (so_live _ _ _ _ _ O Hr) as (Hd & Hl & _).
  rewrite run_bind, (run_curproc me) by done. rewrite run_bind. erewrite run_proc_at by exact Hp. rewrite Hk.
  rewrite (bind_ret_l _ _ _ _ _ (idup_run k x s Hx ltac:(rewrite Hh; apply not_elem_of_nil))).
  destruct (got_slot p s b _ (i_inum x) x O Hl ltac:(by left) Hb) as [Og Er]. unfold got in Og, Er. rewrite (proj2 (Z.ltb_lt 0 _) Hr) in Og, Er.
  eexists _, _. split; [done|]. split; [by apply txn_icache|]. split; [done|]. ksimpl. pose proof (lookup_lt_Some _ _ _ Hx).
  split; [|split; [by apply list_lookup_insert_eq|split; [done|rewrite Er; lia]]].
  eapply (cache_insert p s b (S f)); [done|done|done|done|lia|]. unfold is_free at 1. destruct (i_ref x =? 0); lia.
Qed.

Lemma root_get {B} D w me p hs s b f (g : option nat -> K B) : fs_ok D s -> txn w me p [] hs s -> cache_ok p s b (S f) None (icache s) -> b + 1 < 2 ^ 31 -> live s ROOTINO ->
  exists k s' x', (r <- (i <- iget ROOTDEV ROOTINO ;; ret (Some i)) ;; g r) s = g (Some k) s' /\ txn w me p [] hs s' /\ alike s s' /\
    cache_ok p s (b + 1) f None (icache s') /\ icache s' !! k = Some x' /\ i_inum x' = ROOTINO /\ 0 < i_ref x'.
Proof.
  intros OK X C Hb Hl. destruct (free_slots_find (icache s) ROOTINO) as [k Hk]; [pose proof (co_free _ _ _ _ _ _ C); lia|].
  destruct (iget_slot_is _ _ _ Hk) as (x & Hx & Hg). pose proof (iget_run me p s ROOTINO k x (tx_caller _ _ _ _ _ _ X) Hk Hx) as R.
  pose proof (co_slot _ _ _ _ _ _ C k x Hx) as O. destruct (got_slot p s b _ ROOTINO x O Hl Hg Hb) as [Og Er]. pose proof (so_ref _ _ _ _ _ O).
  exists k, (with_inode k (got ROOTINO x) s), (got ROOTINO x). change ROOTDEV with 1. rewrite run_bind, (bind_ret_l _ _ _ _ _ R). split; [done|].
  split; [by apply txn_icache|]. split; [done|]. unfold with_inode. ksimpl. pose proof (lookup_lt_Some _ _ _ Hx).
  split; [|split; [by apply list_lookup_insert_eq|split; [by apply got_is|rewrite Er; lia]]].
  eapply (cache_insert p s b (S f)); [done|done|done|done|lia|]. unfold is_free at 1. destruct (i_ref x =? 0); lia.
Qed.

(** What namei returns. *)
Definition resolved (w : Z) (me : nat) (p : proc) (hs : list Z) (s : kstate) (b : Z) (f : nat) (r : outcome kstate (option nat)) (t : option Z) : Prop :=
  match t with
  | Some t => exists k s' x, r = Ret (Some k) s' /\ txn w me p [] hs s' /\ alike s s' /\ cache_ok p s b f None (icache s') /\ icache s' !! k = Some x /\ i_inum x = t /\ 0 < i_ref x
  | None => exists s', r = Ret None s' /\ txn w me p [] hs s' /\ alike s s' /\ cache_ok p s b f None (icache s')
  end.

(** The first inode of the walk. *)
Lemma namex_start D w me p hs s path i b f : fs_ok D s -> txn w me p [] hs s -> cache_ok p s b (S f) None (icache s) -> b + 1 < 2 ^ 31 -> starts p s path i ->
  exists k s1 x1, namex path false s = namex_loop (length path) k path false [] s1 /\ txn w me p [] hs s1 /\ alike s s1 /\
    cache_ok p s (b + 1) f None (icache s1) /\ icache s1 !! k = Some x1 /\ i_inum x1 = i /\ 0 < i_ref x1.
Proof.
  intros OK X C Hb Hst. unfold namex. set (g := fun oip : option nat => match oip with Some ip => namex_loop (length path) ip path false [] | None => undef "namex: null inode" end).
  assert ((exists k x, p_cwd p = Some k /\ icache s !! k = Some x /\ 0 < i_ref x /\ i_inum x = i) ->
    exists k s1 x1, (r <- (me <- curproc ;; p <- proc_at me ;; idup (p_cwd p)) ;; g r) s = g (Some k) s1 /\ txn w me p [] hs s1 /\ alike s s1 /\
      cache_ok p s (b + 1) f None (icache s1) /\ icache s1 !! k = Some x1 /\ i_inum x1 = i /\ 0 < i_ref x1) as HC.
  { intros (k & x & Hk & Hx & Hr & <-). destruct (cwd_run D w me p hs s b f k x g OK X C Hb Hk Hx Hr) as (s' & x' & H). by exists k, s', x'. }
  unfold starts in Hst. destruct path as [|c path']; [by apply HC|]. destruct (c =? slash); [|by apply HC].
  destruct Hst as [-> Hlv]. apply (root_get D w me p hs s b f g OK X C Hb Hlv).
Qed.

Lemma namei_run D w me p hs s path i b f : let n := length (elements path) in fs_ok D s -> txn w me p [] hs s -> (length hs < NBUF)%nat ->
  cache_ok p s b (S n + f) None (icache s) -> b + 1 + Z.of_nat n < 2 ^ 31 -> starts p s path i ->
  resolved w me p hs s (b + 1 + Z.of_nat n) f (namei path s) (walk s (elements path) i).
Proof.
  intros n OK X Hl C Hb Hst. destruct (namex_start D w me p hs s path i b (n + f) OK X C ltac:(lia) Hst) as (k & s1 & x1 & E & X1 & A1 & C1 & Hx1 & Ei & Hr).
  pose proof (namex_loop_walk D w me p hs s OK Hl (length path) s1 k x1 path [] (b + 1) f (conj X1 A1) C1 Hx1 Hr ltac:(fold n; lia) ltac:(lia)) as HW. rewrite <- E, Ei in HW. fold n in HW.
  unfold walked in HW. unfold resolved, namei. destruct (walk s (elements path) i) as [t|].
  - destruct HW as (i' & s' & z & nm & R & [X' A'] & C' & Hz & Ez & Hrz). rewrite (bind_ret_l _ _ _ _ _ R). by exists i', s', z.
  - destruct HW as (s' & nm & R & [X' A'] & C'). rewrite (bind_ret_l _ _ _ _ _ R). by exists s'.
Qed.

(** A path that leads to a file: namei finds it, ilock reads its inode, and
    readi returns its bytes. *)
Lemma path_reads D w me p hs s path i b f t : let n := length (elements path) in fs_ok D s -> txn w me p [] hs s -> (length hs < NBUF)%nat ->
  cache_ok p s b (S n + f) None (icache s) -> b + 1 + Z.of_nat n < 2 ^ 31 -> starts p s path i -> walk s (elements path) i = Some t -> di_type (disk_inode s t) <> T_DEV ->
  let size := di_size (disk_inode s t) in
  exists ip s1 s2 s3, namei path s = Ret (Some ip) s1 /\ ilock (Some ip) s1 = Ret tt s2 /\
    readi ip to_local 0 size s2 = Ret (size, map (fbyte s (inode_of s t)) (seqZ 0 size)) s3.
Proof.
  intros n OK X Hl C Hb Hst Hw Hdev size. pose proof (namei_run D w me p hs s path i b f OK X Hl C Hb Hst) as HN. rewrite Hw in HN.
  destruct HN as (ip & s1 & x & R1 & X1 & A1 & C1 & Hx & Ei & Hr).
  destruct (lock_step D w me p hs s OK Hl s1 _ _ ip x (conj X1 A1) C1 Hx Hr) as (s2 & x' & R2 & [X2 A2] & C2 & Hx2 & Ei2 & Er2). rewrite Ei in Ei2.
  destruct (co_slot _ _ _ _ _ _ C2 ip x' Hx2) as [_ _ O3 O4]. destruct (O3 (bool_decide_eq_true_2 _ eq_refl)) as (_ & Hr2 & Hv). destruct (O4 Hr2) as (Hd & Hlv & Ed). specialize (Ed Hv). rewrite Ei2 in Hlv, Ed.
  destruct (fk_file _ _ OK t Hlv) as [F _]. assert (i_size x' = size) as Es by (unfold size; by rewrite <- Ed). assert (i_type x' <> T_DEV) as Ht by (by rewrite <- Ed in Hdev).
  destruct (copy_addrs D s (inode_of s t) x' F) as (Eb & Ef & F'); [done|by unfold inode_of; rewrite <- Ed|].
  assert (file_ok D s x') as Fx.
  { rewrite Es in F'. apply F'; [|apply (fo_size _ _ _ F)]. intros bn Hbn Hlt. rewrite Eb. by apply (fo_full _ _ _ F). }
  destruct (alike_file _ _ _ _ Fx A2) as [F2 Ef2]. pose proof (fo_size _ _ _ F2) as Hs. rewrite Es in Hs. change (MAXFILE * BSIZE) with 71680 in *.
  destruct (readi_run D w me p hs s2 ip x' 0 size X2 (alike_layout _ _ _ A2 (fk_layout _ _ OK)) Hx2 F2 Ht Hl) as (s3 & R3 & _); [lia|lia|lia|].
  rewrite Es, Z.sub_0_r, Z.min_id in R3. exists ip, s1, s2, s3. split; [done|]. split; [done|]. rewrite R3. f_equal. f_equal. apply map_ext_in.
  intros o Ho%list_elem_of_In%elem_of_seqZ. rewrite Ef2 by lia. apply Ef.
Qed.

End names.
