(* ===== verification/MkfsSpec.v ===== *)
(** * The image that mkfs builds

    The kernel's view of the image while it is being built: [kst img fb] is a
    kernel with an empty cache on the disk [img], whose bitmap marks the blocks
    below [fb], as mkfs writes it in the end.  The files are well formed in
    that view at every step, and their bytes are what has been appended. *)

From S2P Require Import Prelude CString Mem KState Mmu Kalloc Vm File Proc Console Ulib Posix Text Bio Layout Log Inode Fs.
From S2P Require Import ProcMem WaitSpec BioSpec LogSpec TxnSpec FileSpec RwSpec DirSpec PathSpec Mkfs.

(** ** The host *)

(** What mkfs relies on: [sect] are the sectors of the image, [nsect] their
    number, [pos] the offset of its descriptor, and [rest] the descriptor of the
    input file that is open and what is left of it. *)
Record image_host {W} {HO : Host W} (fsfd : Z) (sect : W -> Z -> list Z) (nsect pos : W -> Z) (rest : W -> option (Z * list Z)) : Prop := {
  ih_lseek w o : 0 <= o -> exists w', ho_lseek fsfd o w = Ret o w' /\ pos w' = o /\ sect w' = sect w /\ nsect w' = nsect w /\ rest w' = rest w;
  ih_write w k bs : 0 <= k -> pos w = k * BSIZE -> length bs = Z.to_nat BSIZE -> exists w', io_write fsfd bs w = Ret BSIZE w' /\
    (forall j, sect w' j = if j =? k then bs else sect w j) /\ nsect w' = Z.max (nsect w) (k + 1) /\ rest w' = rest w;
  ih_read w k : 0 <= k < nsect w -> pos w = k * BSIZE -> exists w', io_read fsfd (Z.to_nat BSIZE) w = Ret (BSIZE, sect w k) w' /\
    sect w' = sect w /\ nsect w' = nsect w /\ rest w' = rest w;
  ih_create w path : exists w', io_open path IMG_FLAGS 0x1b6 w = Ret fsfd w' /\ nsect w' = 0 /\ rest w' = rest w;
  ih_fd : 0 <= fsfd;
  ih_stdout w bs : exists w', px_stdout bs w = Ret tt w' /\ sect w' = sect w /\ nsect w' = nsect w /\ rest w' = rest w;
}.

(** The input files; a read may stop short. *)
Record input_host {W} {HO : Host W} (fsfd : Z) (sect : W -> Z -> list Z) (nsect : W -> Z) (rest : W -> option (Z * list Z)) (files : list Z -> option (list Z)) : Prop := {
  in_open w arg bs : files arg = Some bs -> exists fd w', io_open arg 0 0 w = Ret fd w' /\ 0 <= fd /\ fd <> fsfd /\ sect w' = sect w /\ nsect w' = nsect w /\ rest w' = Some (fd, bs);
  in_read w fd bs : fd <> fsfd -> rest w = Some (fd, bs) -> exists k w', io_read fd (Z.to_nat BSIZE) w = Ret (Z.of_nat k, take k bs) w' /\
    (k <= length bs)%nat /\ (bs <> [] -> (0 < k)%nat) /\ sect w' = sect w /\ nsect w' = nsect w /\ rest w' = Some (fd, drop k bs);
  in_close w fd bs : fd <> fsfd -> rest w = Some (fd, bs) -> exists w', io_close fd w = Ret tt w' /\ sect w' = sect w /\ nsect w' = nsect w /\ rest w' = None;
}.

Section sectors.
Context {W : Type} {HO : Host W} {fsfd : Z} {sect : W -> Z -> list Z} {nsect pos : W -> Z} {rest : W -> option (Z * list Z)}.
Context (IH : image_host fsfd sect nsect pos rest).

(** The program's state: [n] sectors with the contents [img]. *)
Record sees (t : mkst W) (n : Z) (img : Z -> list Z) (fi fb : Z) (r : option (Z * list Z)) : Prop := {
  se_fd : mk_fsfd t = fsfd;
  se_sect : forall j, 0 <= j < n -> sect (mk_world t) j = img j;
  se_nsect : nsect (mk_world t) = n;
  se_inode : mk_freeinode t = fi;
  se_block : mk_freeblock t = fb;
  se_rest : rest (mk_world t) = r;
}.

Definition upd (img : Z -> list Z) (k : Z) (b : list Z) : Z -> list Z := fun j => if j =? k then b else img j.

Lemma run_host {A B} (m : M W A) a w' (f : A -> M (mkst W) B) t : m (mk_world t) = Ret a w' ->
  bind (host m) f t = f a (mk_mkst w' (mk_fsfd t) (mk_freeinode t) (mk_freeblock t)).
Proof. intros H. unfold bind, host. by rewrite H. Qed.

Lemma run_mgets {A B} (g : mkst W -> A) (f : A -> M (mkst W) B) t : bind (gets g) f t = f (g t) t.
Proof. done. Qed.

Lemma run_mbind {A B C} (m : M (mkst W) C) (g : C -> M (mkst W) A) (f : A -> M (mkst W) B) t :
  bind (bind m g) f t = bind m (fun c => bind (g c) f) t.
Proof. unfold bind. by destruct (m t). Qed.

Lemma wsect_run t n img fi fb r sec buf : sees t n img fi fb r -> 0 <= sec <= n -> n <= 2 ^ 22 -> length buf = Z.to_nat BSIZE ->
  exists t', wsect sec buf t = Ret tt t' /\ sees t' (Z.max n (sec + 1)) (upd img sec buf) fi fb r.
Proof.
  intros [S1 S2 S3 S4 S5 S6] Hs Hn Hb. unfold wsect. rewrite run_mgets, S1, (u32_id (sec * BSIZE)) by (unfold BSIZE; lia).
  destruct (ih_lseek _ _ _ _ _ IH (mk_world t) (sec * BSIZE) ltac:(unfold BSIZE; lia)) as (w1 & R1 & P1 & E1 & E2 & E3).
  rewrite (run_host _ _ _ _ _ R1), Z.eqb_refl. cbn [negb].
  destruct (ih_write _ _ _ _ _ IH w1 sec buf ltac:(lia) P1 Hb) as (w2 & R2 & F1 & F2 & F3).
  erewrite run_host by exact R2. rewrite Z.eqb_refl. cbn [negb]. eexists. split; [done|]. constructor; cbn [mk_world mk_fsfd mk_freeinode mk_freeblock]; try done.
  - intros j Hj. rewrite F1. unfold upd. destruct (Z.eqb_spec j sec); [done|]. by rewrite E1, S2 by lia.
  - by rewrite F2, E2, S3.
  - by rewrite F3, E3.
Qed.

Lemma rsect_run t n img fi fb r sec : sees t n img fi fb r -> 0 <= sec < n -> n <= 2 ^ 22 ->
  exists t', rsect sec t = Ret (img sec) t' /\ sees t' n img fi fb r.
Proof.
  intros [S1 S2 S3 S4 S5 S6] Hs Hn. unfold rsect. rewrite run_mgets, S1, (u32_id (sec * BSIZE)) by (unfold BSIZE; lia).
  destruct (ih_lseek _ _ _ _ _ IH (mk_world t) (sec * BSIZE) ltac:(unfold BSIZE; lia)) as (w1 & R1 & P1 & E1 & E2 & E3).
  rewrite (run_host _ _ _ _ _ R1), Z.eqb_refl. cbn [negb].
  destruct (ih_read _ _ _ _ _ IH w1 sec ltac:(lia) P1) as (w2 & R2 & F1 & F2 & F3).
  erewrite run_host by exact R2. cbn [fst snd]. rewrite Z.eqb_refl. cbn [negb]. rewrite E1, S2 by done. eexists. split; [done|].
  constructor; cbn [mk_world mk_fsfd mk_freeinode mk_freeblock]; try done.
  - intros j Hj. rewrite F1, E1. by apply S2.
  - by rewrite F2, E2.
  - by rewrite F3, E3.
Qed.

Lemma stdout_run {B} t n img fi fb r bs (f : unit -> M (mkst W) B) : sees t n img fi fb r ->
  exists t', bind (host (px_stdout bs)) f t = f tt t' /\ sees t' n img fi fb r.
Proof.
  intros [S1 S2 S3 S4 S5 S6]. destruct (ih_stdout _ _ _ _ _ IH (mk_world t) bs) as (w1 & R1 & E1 & E2 & E3).
  rewrite (run_host _ _ _ _ _ R1). eexists. split; [done|]. constructor; cbn [mk_world mk_fsfd mk_freeinode mk_freeblock]; try done.
  - intros j Hj. rewrite E1. by apply S2.
  - by rewrite E2.
  - by rewrite E3.
Qed.

Lemma next_block_run t n img fi fb r : sees t n img fi fb r -> 0 <= fb < 2 ^ 31 ->
  exists t', next_block t = Ret fb t' /\ sees t' n img fi (fb + 1) r.
Proof.
  intros [S1 S2 S3 S4 S5 S6] Hb. eexists. split; [unfold next_block; by rewrite S5|].
  constructor; cbn [mk_world mk_fsfd mk_freeinode mk_freeblock]; try done. by rewrite u32_id by lia.
Qed.

Lemma next_inode_run t n img fi fb r : sees t n img fi fb r -> 0 <= fi < 2 ^ 31 ->
  exists t', next_inode t = Ret fi t' /\ sees t' n img (fi + 1) fb r.
Proof.
  intros [S1 S2 S3 S4 S5 S6] Hb. eexists. split; [unfold next_inode; by rewrite S4|].
  constructor; cbn [mk_world mk_fsfd mk_freeinode mk_freeblock]; try done. by rewrite u32_id by lia.
Qed.

End sectors.

Lemma xint_id x : 0 <= x < 2 ^ 32 -> xint x = x.
Proof. intros H. unfold xint. exact (get32_put32 [0; 0; 0; 0] 0 x ltac:(cbn; lia) H). Qed.

Lemma xshort_id x : 0 <= x < 2 ^ 16 -> xshort x = x.
Proof. intros H. unfold xshort. exact (get16_put16 [0; 0] 0 x ltac:(cbn; lia) H). Qed.

(** ** The kernel's view *)

Section view.
Context {LK : Linker} {FS : FsOps} {DK : Disk} (base : kstate).

(** The disk with the bitmap that marks the blocks below [fb]. *)
Definition marked (img : Z -> list Z) (fb : Z) : Z -> list Z := fun k => if k =? 58 then bitmap fb else img k.

Definition kst (img : Z -> list Z) (fb : Z) : kstate :=
  set_disk0 (marked img fb) (set_writes [] (set_bufs [] (set_sb mk_sb base))).

Lemma kst_content img fb k : content (kst img fb) k = marked img fb k.
Proof. done. Qed.

Lemma length_mark_used k : forall i buf, length (mark_used k i buf) = length buf.
Proof. induction k as [|k IH]; intros i buf; cbn [mark_used]; [done|]. rewrite IH. unfold bit_set. by rewrite length_insert. Qed.

Lemma mark_used_free k : forall i buf j, 0 <= i -> 0 <= j -> i + Z.of_nat k <= 8 * Z.of_nat (length buf) ->
  bit_free (mark_used k i buf) j = if (i <=? j) && (j <? i + Z.of_nat k) then false else bit_free buf j.
Proof.
  induction k as [|k IH]; intros i buf j Hi Hj Hk; cbn [mark_used].
  - destruct (i <=? j) eqn:E1, (j <? i + Z.of_nat 0) eqn:E2; bool_prop; try done. lia.
  - assert (byte_of i < length buf)%nat as Hb by (unfold byte_of; apply Nat2Z.inj_lt; rewrite Z2Nat.id by (apply Z.div_pos; lia); apply Z.div_lt_upper_bound; lia).
    rewrite IH; [|lia|lia|unfold bit_set; rewrite length_insert; lia]. rewrite bit_set_free by done.
    destruct (Z.eqb_spec i j) as [->|Hne].
    + rewrite Z.leb_refl, (proj2 (Z.ltb_lt j (j + Z.of_nat (S k)))) by lia. cbn [andb]. by destruct (_ && _).
    + destruct (Z.leb_spec i j), (Z.leb_spec (i + 1) j), (Z.ltb_spec j (i + 1 + Z.of_nat k)), (Z.ltb_spec j (i + Z.of_nat (S k))); cbn [andb]; try done; lia.
Qed.

Lemma zeros_free n j : bit_free (replicate n 0) j = true.
Proof. unfold bit_free. rewrite nth_zeros. by rewrite Z.land_0_l. Qed.

Lemma kst_used img fb a : 0 <= fb <= 4096 -> 0 <= a < FSSIZE -> used (kst img fb) a <-> a < fb.
Proof.
  intros Hf Ha. unfold FSSIZE in Ha. unfold used. rewrite kst_content. change (sb (kst img fb)) with mk_sb.
  assert (BBLOCK a mk_sb = 58) as ->. { unfold BBLOCK, BPB. rewrite Z.div_small by lia. done. }
  unfold marked. rewrite Z.eqb_refl, Z.mod_small by (unfold BPB; lia). unfold bitmap.
  rewrite mark_used_free; [|lia|lia|rewrite length_replicate, Z2Nat.id by lia; unfold BSIZE; lia].
  rewrite zeros_free, Z2Nat.id by lia. destruct (Z.leb_spec 0 a), (Z.ltb_spec a (0 + fb)); cbn [andb]; split; intros; try done; lia.
Qed.

(** ** A file that grows *)

Definition blank : list Z := replicate (Z.to_nat BSIZE) 0.

Record grew (img : Z -> list Z) (fb : Z) (x : inode) (img' : Z -> list Z) (fb' : Z) (x' : inode) : Prop := {
  gw_fb : fb <= fb';
  gw_file : file_ok nmeta (kst img' fb') x';
  gw_inode : x' = set_i_addrs (i_addrs x') x;
  gw_keep : forall bn, 0 <= bn < MAXFILE -> block_of (kst img fb) x bn <> 0 -> block_of (kst img' fb') x' bn = block_of (kst img fb) x bn;
  gw_other : forall c, c < fb -> ~ owns (kst img fb) x c -> img' c = img c;
  gw_owns : forall c, owns (kst img' fb') x' c -> owns (kst img fb) x c \/ fb <= c < fb';
  gw_zero : (forall c, fb <= c -> img c = blank) -> forall c, fb' <= c -> img' c = blank;
  gw_len : (forall c, length (img c) = Z.to_nat BSIZE) -> forall c, length (img' c) = Z.to_nat BSIZE;
}.

Lemma grew_refl img fb x : file_ok nmeta (kst img fb) x -> grew img fb x img fb x.
Proof. intros F. constructor; try done; [by destruct x|]. intros c Hc. by left. Qed.

Lemma grew_trans img fb x img1 fb1 x1 img2 fb2 x2 : grew img fb x img1 fb1 x1 -> grew img1 fb1 x1 img2 fb2 x2 -> grew img fb x img2 fb2 x2.
Proof.
  intros [A1 A2 A3 A4 A5 A6 A7 A8] [B1 B2 B3 B4 B5 B6 B7 B8]. constructor; try done.
  - lia.
  - rewrite B3, A3. by destruct x.
  - intros bn Hbn Hne. rewrite B4; rewrite ?A4; done.
  - intros c Hc Hno. rewrite B5; [by apply A5|lia|]. intros [?|?]%A6; [done|lia].
  - intros c [[?|?]%A6|?]%B6; [by left|right; lia|right; lia].
  - auto.
  - auto.
Qed.

Lemma data_range img fb a : 0 <= fb <= 4096 -> data_block nmeta (kst img fb) a <-> nmeta <= a < FSSIZE /\ a < fb.
Proof.
  intros Hf. unfold data_block. change (sb_size (sb (kst img fb))) with FSSIZE. change nmeta with 59.
  split; intros [H1 H2]; (split; [done|]); [by apply (kst_used img fb a Hf); [lia|]|by apply (kst_used img fb a Hf); [lia|]].
Qed.

(** One more block is marked. *)
Lemma more img fb x : nmeta <= fb < FSSIZE -> file_ok nmeta (kst img fb) x -> img fb = blank ->
  file_ok nmeta (kst img (fb + 1)) x /\ (forall bn, block_of (kst img (fb + 1)) x bn = block_of (kst img fb) x bn) /\
  (forall o, 0 <= o < MAXFILE * BSIZE -> fbyte (kst img (fb + 1)) x o = fbyte (kst img fb) x o) /\
  data_block nmeta (kst img (fb + 1)) fb /\ ~ owns (kst img (fb + 1)) x fb /\ content (kst img (fb + 1)) fb = blank.
Proof.
  intros Hf F Hz. assert (nmeta = 59) as En by done. assert (FSSIZE = 1000) as Ef by done.
  destruct (file_same nmeta (kst img fb) (kst img (fb + 1)) x F) as (F' & Eb & Efb); [done|..].
  { intros c Hc. change (sb_size (sb (kst img fb))) with FSSIZE in Hc. rewrite !kst_used by lia. lia. }
  { intros c Ho. destruct (owned_data _ _ _ _ F Ho) as [Hr _]. rewrite !kst_content. unfold marked. by rewrite (proj2 (Z.eqb_neq c 58)) by lia. }
  do 3 (split; [done|]). split; [apply data_range; lia|]. split.
  - intros Ho. assert (owns (kst img fb) x fb) as Ho'.
    { destruct Ho as [H0 [E|(bn & Hbn & E)]]; (split; [done|]); [by left|]. right. exists bn. by rewrite <- Eb. }
    apply (owned_data _ _ _ _ F), data_range in Ho'; lia.
  - rewrite kst_content. unfold marked. by rewrite (proj2 (Z.eqb_neq fb 58)) by lia.
Qed.

Lemma grow_direct img fb x bn : nmeta <= fb < FSSIZE -> file_ok nmeta (kst img fb) x -> img fb = blank ->
  0 <= bn < NDIRECT -> block_of (kst img fb) x bn = 0 ->
  let x' := set_i_addrs (<[Z.to_nat bn := fb]> (i_addrs x)) x in
  grew img fb x img (fb + 1) x' /\ ind x' = ind x /\
  (forall bm, 0 <= bm < MAXFILE -> block_of (kst img (fb + 1)) x' bm = if bm =? bn then fb else block_of (kst img fb) x bm) /\
  (forall o, 0 <= o < MAXFILE * BSIZE -> fbyte (kst img (fb + 1)) x' o = fbyte (kst img fb) x o).
Proof.
  intros Hf F Hz Hbn Hb0 x'. destruct (more img fb x Hf F Hz) as (F1 & Eb & Ef & Hd & Hno & Hc). assert (nmeta = 59) as En by done.
  pose proof (fo_len _ _ _ F) as Hl. assert (0 <= bn < MAXFILE) as Hbn' by (unfold MAXFILE, NDIRECT, NINDIRECT in *; lia).
  assert (ind x' = ind x) as Ei by (apply ind_insert; unfold NDIRECT in *; lia).
  assert (forall bm, 0 <= bm < MAXFILE -> block_of (kst img (fb + 1)) x' bm = if bm =? bn then fb else block_of (kst img (fb + 1)) x bm) as Eb'
    by (intros bm Hbm; apply direct_insert; [done..|lia]).
  destruct (file_link nmeta (kst img (fb + 1)) (kst img (fb + 1)) x x' bn fb F1) as [F' Ef']; try done.
  { unfold x'. ksimpl. by rewrite length_insert. }
  { by rewrite Eb. }
  { lia. }
  assert (forall bm, 0 <= bm < MAXFILE -> block_of (kst img (fb + 1)) x' bm = if bm =? bn then fb else block_of (kst img fb) x bm) as Eb2
    by (intros bm Hbm; by rewrite Eb', Eb).
  split; [|split; [done|split; [done|intros o Ho; by rewrite Ef', Ef]]]. constructor; try done.
  - lia.
  - intros bm Hbm Hne. rewrite Eb2 by done. destruct (Z.eqb_spec bm bn) as [->|]; done.
  - intros c [H0 [E|(bm & Hbm & E)]]; [left; split; [done|left; congruence]|]. rewrite Eb2 in E by done.
    destruct (bm =? bn); [right; lia|]. left. split; [done|]. right. by exists bm.
  - intros Hzero c Hc'. apply Hzero. lia.
Qed.

Lemma grow_ind img fb x : nmeta <= fb < FSSIZE -> file_ok nmeta (kst img fb) x -> img fb = blank -> ind x = 0 ->
  let x' := set_i_addrs (<[Z.to_nat NDIRECT := fb]> (i_addrs x)) x in
  grew img fb x img (fb + 1) x' /\ ind x' = fb /\
  (forall bm, 0 <= bm < MAXFILE -> block_of (kst img (fb + 1)) x' bm = block_of (kst img fb) x bm) /\
  (forall o, 0 <= o < MAXFILE * BSIZE -> fbyte (kst img (fb + 1)) x' o = fbyte (kst img fb) x o).
Proof.
  intros Hf F Hz Hi x'. destruct (more img fb x Hf F Hz) as (F1 & Eb & Ef & Hd & Hno & Hc). assert (nmeta = 59) as En by done.
  pose proof (fo_len _ _ _ F) as Hl.
  assert (ind x' = fb) as Ei.
  { unfold ind, x'. ksimpl. rewrite nth_lookup, list_lookup_insert_eq by (rewrite Hl; unfold NDIRECT; lia). done. }
  destruct (file_link_ind nmeta (kst img (fb + 1)) x x' fb F1) as (F' & Eb' & Ef'); try done.
  { unfold x'. ksimpl. by rewrite length_insert. }
  { intros i Hi'. unfold x'. ksimpl. rewrite !nth_lookup, list_lookup_insert_ne by (unfold NDIRECT; lia). done. }
  { lia. }
  assert (forall bm, 0 <= bm < MAXFILE -> block_of (kst img (fb + 1)) x' bm = block_of (kst img fb) x bm) as Eb2 by (intros bm Hbm; by rewrite Eb', Eb).
  split; [|split; [done|split; [done|intros o Ho; by rewrite Ef', Ef]]]. constructor; try done.
  - lia.
  - intros bm Hbm Hne. by apply Eb2.
  - intros c [H0 [E|(bm & Hbm & E)]]; [right; lia|]. left. split; [done|]. right. exists bm. by rewrite <- Eb2.
  - intros Hzero c Hc'. apply Hzero. lia.
Qed.

(** A store into a block below [fb]. *)
Lemma kst_upd img fb a d k : a <> 58 -> content (kst (upd img a d) fb) k = if k =? a then d else content (kst img fb) k.
Proof. intros Ha. rewrite !kst_content. unfold marked, upd. destruct (Z.eqb_spec k 58) as [->|]; [|done]. by rewrite (proj2 (Z.eqb_neq 58 a)). Qed.

Lemma grow_slot img fb x bn : nmeta <= fb < FSSIZE -> file_ok nmeta (kst img fb) x -> img fb = blank -> (forall c, length (img c) = Z.to_nat BSIZE) ->
  NDIRECT <= bn < MAXFILE -> ind x <> 0 -> block_of (kst img fb) x bn = 0 ->
  let img' := upd img (ind x) (put32 (img (ind x)) (4 * Z.to_nat (bn - NDIRECT)) fb) in
  grew img fb x img' (fb + 1) x /\
  (forall bm, 0 <= bm < MAXFILE -> block_of (kst img' (fb + 1)) x bm = if bm =? bn then fb else block_of (kst img fb) x bm) /\
  (forall o, 0 <= o < MAXFILE * BSIZE -> fbyte (kst img' (fb + 1)) x o = fbyte (kst img fb) x o).
Proof.
  intros Hf F Hz Hlen Hbn Hi Hb0 img'. destruct (more img fb x Hf F Hz) as (F1 & Eb & Ef & Hd & Hno & Hc). assert (nmeta = 59) as En by done.
  assert (FSSIZE = 1000) as EF by done. assert (nmeta <= ind x < FSSIZE /\ ind x < fb) as [Hir Hif] by (apply (data_range img); [lia|by apply (fo_ind _ _ _ F)]).
  assert (0 <= bn < MAXFILE) as Hbn' by (unfold NDIRECT in *; lia).
  assert (forall k, content (kst img' (fb + 1)) k = if k =? ind x then put32 (img (ind x)) (4 * Z.to_nat (bn - NDIRECT)) fb else content (kst img (fb + 1)) k) as N by (intros k; apply kst_upd; lia).
  assert (forall bm, 0 <= bm < MAXFILE -> block_of (kst img' (fb + 1)) x bm = if bm =? bn then fb else block_of (kst img (fb + 1)) x bm) as Eb'.
  { intros bm Hbm. apply slot_insert; [done| |done|done|lia|].
    - rewrite kst_content. unfold marked. rewrite (proj2 (Z.eqb_neq _ 58)) by lia. apply Hlen.
    - rewrite N, Z.eqb_refl. rewrite kst_content. unfold marked. by rewrite (proj2 (Z.eqb_neq (ind x) 58)) by lia. }
  destruct (file_link nmeta (kst img (fb + 1)) (kst img' (fb + 1)) x x bn fb F1) as [F' Ef']; try done.
  { intros c Hc'. change (sb_size (sb (kst img (fb + 1)))) with FSSIZE in Hc'. by rewrite !kst_used by lia. }
  { apply (fo_len _ _ _ F). }
  { intros c Hci. rewrite N. by rewrite (proj2 (Z.eqb_neq c (ind x))). }
  { by rewrite Eb. }
  { lia. }
  assert (forall bm, 0 <= bm < MAXFILE -> block_of (kst img' (fb + 1)) x bm = if bm =? bn then fb else block_of (kst img fb) x bm) as Eb2 by (intros bm Hbm; by rewrite Eb', Eb).
  split; [|split; [done|intros o Ho; by rewrite Ef', Ef]]. constructor; try done.
  - lia.
  - by destruct x.
  - intros bm Hbm Hne. rewrite Eb2 by done. destruct (Z.eqb_spec bm bn) as [->|]; done.
  - intros c Hcf Ho. unfold img', upd. rewrite (proj2 (Z.eqb_neq c (ind x))); [done|]. intros ->. apply Ho. split; [done|by left].
  - intros c [H0 [E|(bm & Hbm & E)]]; [left; split; [done|by left]|]. rewrite Eb2 in E by done.
    destruct (bm =? bn); [right; lia|]. left. split; [done|]. right. by exists bm.
  - intros Hzero c Hcf. unfold img', upd. rewrite (proj2 (Z.eqb_neq c (ind x))) by lia. apply Hzero. lia.
  - intros _ c. unfold img', upd. destruct (c =? ind x); [|done]. rewrite length_put32; rewrite Hlen; [done|].
    unfold MAXFILE, NDIRECT, NINDIRECT in *. change (Z.to_nat BSIZE) with 512%nat. lia.
Qed.

Lemma grow_data img fb x bn d : nmeta <= fb <= FSSIZE -> file_ok nmeta (kst img fb) x -> 0 <= bn < MAXFILE -> block_of (kst img fb) x bn <> 0 ->
  length d = Z.to_nat BSIZE -> let a := block_of (kst img fb) x bn in
  grew img fb x (upd img a d) fb x /\ (forall bm, block_of (kst (upd img a d) fb) x bm = block_of (kst img fb) x bm) /\
  (forall k, content (kst (upd img a d) fb) k = if k =? a then d else content (kst img fb) k).
Proof.
  intros Hf F Hbn Hne Hd a. assert (nmeta = 59) as En by done. assert (FSSIZE = 1000) as EF by done.
  assert (nmeta <= a < FSSIZE /\ a < fb) as [Har Haf] by (apply (data_range img); [lia|by apply (fo_data _ _ _ F)]).
  assert (forall k, content (kst (upd img a d) fb) k = if k =? a then d else content (kst img fb) k) as N by (intros k; apply kst_upd; lia).
  destruct (file_data nmeta (kst img fb) (kst (upd img a d) fb) x bn d F) as [F' Eb]; try done.
  { intros c Hc. change (sb_size (sb (kst img fb))) with FSSIZE in Hc. by rewrite !kst_used by lia. }
  split; [|done]. constructor; try done.
  - by destruct x.
  - intros c Hcf Ho. unfold upd. rewrite (proj2 (Z.eqb_neq c a)); [done|]. intros ->. apply Ho. split; [lia|]. right. by exists bn.
  - intros c Ho. left. by eapply owns_blocks.
  - intros Hzero c Hcf. unfold upd. rewrite (proj2 (Z.eqb_neq c a)) by lia. by apply Hzero.
  - intros Hlen c. unfold upd. by destruct (c =? a).
Qed.

End view.

(** ** Appending *)

Section build.
Context {LK : Linker} {FS : FsOps} {DK : Disk} (base : kstate).
Context {W : Type} {HO : Host W} {fsfd : Z} {sect : W -> Z -> list Z} {nsect pos : W -> Z} {rest : W -> option (Z * list Z)}.
Context (IH : image_host fsfd sect nsect pos rest).

Abbreviation kst := (kst base).
Abbreviation grew := (grew base).
Abbreviation sees := (@sees W fsfd sect nsect rest).

(** The file has exactly [n] blocks. *)
Record exact (img : Z -> list Z) (fb : Z) (x : inode) (n : Z) : Prop := {
  ex_block : forall bn, 0 <= bn < MAXFILE -> block_of (kst img fb) x bn <> 0 <-> bn < n;
  ex_ind : ind x <> 0 <-> NDIRECT < n;
}.

(** The blocks of the disk for [n] blocks of a file. *)
Definition space (n : Z) : Z := n + if NDIRECT <? n then 1 else 0.

Record building (t : mkst W) (img : Z -> list Z) (fi fb : Z) (r : option (Z * list Z)) : Prop := {
  bd_sees : sees t FSSIZE img fi fb r;
  bd_fb : nmeta <= fb <= FSSIZE;
  bd_zero : forall c, fb <= c -> img c = blank;
  bd_len : forall c, length (img c) = Z.to_nat BSIZE;
}.

Lemma addr_small img fb i d k : nmeta <= fb <= FSSIZE -> file_ok nmeta (kst img fb) (node i d) -> (k <= 12)%nat ->
  0 <= nth k (di_addrs d) 0 < FSSIZE.
Proof.
  intros Hf F Hk. assert (nmeta = 59 /\ FSSIZE = 1000) as [E1 E2] by done. destruct (Z.eqb_spec (nth k (di_addrs d) 0) 0) as [->|Hne]; [lia|].
  destruct (decide (k = 12)%nat) as [->|Hk'].
  - destruct (fo_ind _ _ _ F Hne) as [Hr _]. change (ind (node i d)) with (nth 12 (di_addrs d) 0) in Hr. change (sb_size (sb (kst img fb))) with FSSIZE in Hr. lia.
  - assert (block_of (kst img fb) (node i d) (Z.of_nat k) = nth k (di_addrs d) 0) as Hb.
    { unfold block_of. rewrite (proj2 (Z.ltb_lt _ _)) by (unfold NDIRECT; lia). by rewrite Nat2Z.id. }
    destruct (fo_data _ _ _ F (Z.of_nat k)) as [Hr _]; [unfold MAXFILE, NDIRECT, NINDIRECT; lia|congruence|].
    rewrite Hb in Hr. change (sb_size (sb (kst img fb))) with FSSIZE in Hr. lia.
Qed.

Lemma next_building t img fi fb r : building t img fi fb r -> fb < FSSIZE ->
  exists t', next_block t = Ret fb t' /\ building t' img fi (fb + 1) r.
Proof.
  intros [S Hf Hz Hl] Hlt. assert (nmeta = 59 /\ FSSIZE = 1000) as [E1 E2] by done.
  destruct (next_block_run t _ _ _ _ _ S ltac:(lia)) as (t' & R & S'). exists t'. split; [done|].
  constructor; [done|lia|intros c Hc; apply Hz; lia|done].
Qed.

(** The address of a direct block or of the indirect block. *)
Lemma fill_addr_run t img fi fb r i d k : building t img fi fb r -> file_ok nmeta (kst img fb) (node i d) -> (k <= 12)%nat ->
  fb + (if nth k (di_addrs d) 0 =? 0 then 1 else 0) <= FSSIZE ->
  if nth k (di_addrs d) 0 =? 0
  then exists t', fill_addr k d t = Ret (set_addr k fb d) t' /\ building t' img fi (fb + 1) r
  else fill_addr k d t = Ret d t.
Proof.
  intros B F Hk Hf. pose proof (addr_small img fb i d k (bd_fb _ _ _ _ _ B) F Hk) as Ha. assert (nmeta = 59 /\ FSSIZE = 1000) as [E1 E2] by done.
  unfold fill_addr. rewrite xint_id by lia. destruct (nth k (di_addrs d) 0 =? 0); [|done].
  destruct (next_building t img fi fb r B ltac:(lia)) as (t' & R & B'). exists t'. split; [|done].
  rewrite (bind_ret_l _ _ _ _ _ R), xint_id; [done|]. pose proof (bd_fb _ _ _ _ _ B). lia.
Qed.

Lemma nth_set_addr k a d : (k < length (di_addrs d))%nat -> nth k (di_addrs (set_addr k a d)) 0 = a.
Proof. intros H. cbn [set_addr di_addrs]. by rewrite nth_lookup, list_lookup_insert_eq. Qed.

(** What [append_block] leaves. *)
Record block_ready (img : Z -> list Z) (fb : Z) (i : Z) (d : dinode) (fbn n : Z) (img' : Z -> list Z) (fb' : Z) (d' : dinode) : Prop := {
  br_grew : grew img fb (node i d) img' fb' (node i d');
  br_exact : exact img' fb' (node i d') (Z.max n (fbn + 1));
  br_fb : fb' = fb + space (Z.max n (fbn + 1)) - space n;
  br_bytes : forall o, 0 <= o < MAXFILE * BSIZE -> fbyte (kst img' fb') (node i d') o = fbyte (kst img fb) (node i d) o;
}.

Lemma append_direct t img fi fb r i d fbn n : building t img fi fb r -> file_ok nmeta (kst img fb) (node i d) -> exact img fb (node i d) n ->
  0 <= fbn <= n -> fbn < NDIRECT -> fb + space (Z.max n (fbn + 1)) - space n <= FSSIZE ->
  exists t' img' fb' d', append_block fbn d t = Ret (block_of (kst img' fb') (node i d') fbn, d') t' /\
    building t' img' fi fb' r /\ block_ready img fb i d fbn n img' fb' d'.
Proof.
  intros B F [E1 E2] Hn Hd Hs. assert (nmeta = 59 /\ FSSIZE = 1000) as [EN EF] by done. pose proof (fo_len _ _ _ F) as Hlen.
  assert (0 <= fbn < MAXFILE) as Hbn by (unfold MAXFILE, NDIRECT, NINDIRECT in *; lia). pose proof (bd_fb _ _ _ _ _ B) as Hfb.
  assert (block_of (kst img fb) (node i d) fbn = nth (Z.to_nat fbn) (di_addrs d) 0) as Eb by (unfold block_of; by rewrite (proj2 (Z.ltb_lt _ _) Hd)).
  pose proof (addr_small img fb i d (Z.to_nat fbn) Hfb F ltac:(unfold NDIRECT in *; lia)) as Ha.
  unfold append_block. rewrite (proj2 (Z.ltb_lt _ _) Hd).
  destruct (Z.eqb_spec (nth (Z.to_nat fbn) (di_addrs d) 0) 0) as [Hz|Hnz].
  - assert (fbn = n) as -> by (destruct (decide (fbn < n)) as [H|H]; [apply E1 in H; [congruence|done]|lia]).
    assert (space (Z.max n (n + 1)) = space n + 1) as Esp.
    { rewrite Z.max_r by lia. unfold space, NDIRECT in *. rewrite !(proj2 (Z.ltb_ge _ _)) by lia. lia. }
    pose proof (fill_addr_run t img fi fb r i d (Z.to_nat n) B F ltac:(unfold NDIRECT in *; lia)) as Hfill. rewrite Hz in Hfill. cbn [Z.eqb] in Hfill.
    destruct (Hfill ltac:(lia)) as (t' & R & B').
    destruct (grow_direct base img fb (node i d) n) as (G & Ei & Eb' & Ef); [lia|done|apply (bd_zero _ _ _ _ _ B); lia|lia|by rewrite Eb|].
    change (set_i_addrs _ _) with (node i (set_addr (Z.to_nat n) fb d)) in *.
    exists t', img, (fb + 1), (set_addr (Z.to_nat n) fb d). split; [|split; [done|constructor; [exact G| |lia|exact Ef]]].
    + rewrite (bind_ret_l _ _ _ _ _ R), nth_set_addr by (cbn in Hlen; unfold NDIRECT in *; lia). rewrite xint_id by lia.
      do 2 f_equal. by rewrite (Eb' n Hbn), Z.eqb_refl.
    + constructor; [|].
      * intros bm Hbm. rewrite Z.max_r by lia. rewrite (Eb' bm Hbm).
        destruct (Z.eqb_spec bm n) as [->|Hne]; [split; [lia|intros _; lia]|]. rewrite E1 by done. lia.
      * rewrite Z.max_r by lia. rewrite Ei, E2. unfold NDIRECT in *. lia.
  - assert (fbn < n) as Hlt by (apply E1; [done|congruence]).
    pose proof (fill_addr_run t img fi fb r i d (Z.to_nat fbn) B F ltac:(unfold NDIRECT in *; lia)) as Hfill.
    rewrite (proj2 (Z.eqb_neq _ _) Hnz) in Hfill. specialize (Hfill ltac:(lia)).
    exists t, img, fb, d. split; [rewrite (bind_ret_l _ _ _ _ _ Hfill), xint_id, Eb by lia; done|]. split; [done|].
    constructor; [by apply grew_refl| |rewrite Z.max_l by lia; lia|done]. rewrite Z.max_l by lia. by constructor.
Qed.

Lemma append_slot t img fi fb r i d fbn n : building t img fi fb r -> file_ok nmeta (kst img fb) (node i d) -> (forall bn, 0 <= bn < MAXFILE -> block_of (kst img fb) (node i d) bn <> 0 <-> bn < n) ->
  ind (node i d) <> 0 -> NDIRECT <= fbn <= n -> fbn < MAXFILE -> fb + (if fbn =? n then 1 else 0) <= FSSIZE ->
  let o := (4 * Z.to_nat (fbn - NDIRECT))%nat in
  exists t' img' fb', (indirect <- rsect (ind (node i d)) ;;
      indirect <- (if get32 indirect o =? 0 then
                     b <- next_block ;;
                     wsect (ind (node i d)) (put32 indirect o (xint b)) ;;
                     ret (put32 indirect o (xint b))
                   else ret indirect) ;;
      ret (xint (get32 indirect o), d)) t = Ret (block_of (kst img' fb') (node i d) fbn, d) t' /\
    building t' img' fi fb' r /\ grew img fb (node i d) img' fb' (node i d) /\ fb' = fb + (if fbn =? n then 1 else 0) /\
    (forall bn, 0 <= bn < MAXFILE -> block_of (kst img' fb') (node i d) bn <> 0 <-> bn < Z.max n (fbn + 1)) /\
    (forall o, 0 <= o < MAXFILE * BSIZE -> fbyte (kst img' fb') (node i d) o = fbyte (kst img fb) (node i d) o).
Proof.
  intros B F E1 Hi Hn Hmax Hs o. assert (nmeta = 59 /\ FSSIZE = 1000) as [EN EF] by done. pose proof B as [S Hfb Hz Hl].
  assert (nmeta <= ind (node i d) < FSSIZE /\ ind (node i d) < fb) as [Hir Hif] by (apply (data_range base img); [lia|by apply (fo_ind _ _ _ F)]).
  destruct (rsect_run IH t _ _ _ _ _ (ind (node i d)) S ltac:(lia) ltac:(lia)) as (t1 & R1 & S1). rewrite (bind_ret_l _ _ _ _ _ R1).
  assert (block_of (kst img fb) (node i d) fbn = get32 (img (ind (node i d))) o) as Eb.
  { unfold block_of. rewrite (proj2 (Z.ltb_ge fbn NDIRECT)), (proj2 (Z.eqb_neq _ 0) Hi) by lia. rewrite kst_content. unfold marked.
    by rewrite (proj2 (Z.eqb_neq (ind (node i d)) 58)) by lia. }
  assert (0 <= fbn < MAXFILE) as Hbn by (unfold NDIRECT in *; lia). rewrite <- Eb.
  destruct (Z.eqb_spec (block_of (kst img fb) (node i d) fbn) 0) as [Hb|Hb].
  - assert (fbn = n) as -> by (destruct (decide (fbn < n)) as [H|H]; [by apply E1 in H|lia]).
    rewrite Z.eqb_refl in *.
    destruct (next_building t1 img fi fb r ltac:(by constructor) ltac:(lia)) as (t2 & R2 & [S2 _ _ _]). rewrite run_mbind, (bind_ret_l _ _ _ _ _ R2), xint_id by lia.
    destruct (grow_slot base img fb (node i d) n) as (G & Eb' & Ef); try done; [lia|apply Hz; lia|lia|]. fold o in G, Eb', Ef. set (img' := upd img _ _) in *.
    destruct (wsect_run IH t2 _ _ _ _ _ (ind (node i d)) (put32 (img (ind (node i d))) o fb) S2 ltac:(lia) ltac:(lia)) as (t3 & R3 & S3).
    { rewrite length_put32; rewrite Hl; [done|]. unfold o, MAXFILE, NDIRECT, NINDIRECT in *. change (Z.to_nat BSIZE) with 512%nat. lia. }
    rewrite Z.max_l in S3 by lia. fold img' in S3. rewrite run_mbind, (bind_ret_l _ _ _ _ _ R3).
    exists t3, img', (fb + 1). split; [|split; [|split; [exact G|split; [lia|split; [|exact Ef]]]]].
    + rewrite (Eb' n Hbn), Z.eqb_refl. unfold bind, ret. rewrite get32_put32, xint_id; [done|lia| |lia].
      rewrite Hl. unfold o, MAXFILE, NDIRECT, NINDIRECT in *. change (Z.to_nat BSIZE) with 512%nat. lia.
    + constructor; [done|lia| |by apply (gw_len _ _ _ _ _ _ _ G)]. by apply (gw_zero _ _ _ _ _ _ _ G).
    + intros bm Hbm. rewrite Z.max_r, (Eb' bm Hbm) by lia. destruct (Z.eqb_spec bm n) as [->|Hne]; [split; [lia|intros _; lia]|]. rewrite E1 by done. lia.
  - assert (fbn < n) as Hlt by (by apply E1). rewrite (proj2 (Z.eqb_neq fbn n)) in * by lia. exists t1, img, fb. split; [|split; [by constructor|split; [by apply grew_refl|split; [lia|split; [|done]]]]].
    + unfold bind, ret. rewrite <- Eb, xint_id; [done|]. rewrite Eb. apply get32_range.
    + by rewrite Z.max_l by lia.
Qed.

(** [append_block] finds or allocates the block, as [bmap] does in the kernel. *)
Lemma append_block_run t img fi fb r i d fbn n : building t img fi fb r -> file_ok nmeta (kst img fb) (node i d) -> exact img fb (node i d) n ->
  0 <= fbn <= n -> fbn < MAXFILE -> fb + space (Z.max n (fbn + 1)) - space n <= FSSIZE ->
  exists t' img' fb' d', append_block fbn d t = Ret (block_of (kst img' fb') (node i d') fbn, d') t' /\
    building t' img' fi fb' r /\ block_ready img fb i d fbn n img' fb' d'.
Proof.
  intros B F E Hn Hmax Hs. destruct (decide (fbn < NDIRECT)) as [Hd|Hd]; [by apply append_direct|].
  assert (nmeta = 59 /\ FSSIZE = 1000) as [EN EF] by done. pose proof (bd_fb _ _ _ _ _ B) as Hfb. pose proof (fo_len _ _ _ F) as Hlen.
  unfold append_block. rewrite (proj2 (Z.ltb_ge fbn NDIRECT)) by lia. pose proof (addr_small img fb i d 12 Hfb F ltac:(lia)) as Ha.
  pose proof (fill_addr_run t img fi fb r i d 12 B F ltac:(lia)) as Hfill. change (nth 12 (di_addrs d) 0) with (ind (node i d)) in *.
  pose proof (ex_ind _ _ _ _ E) as E2. destruct (Z.eqb_spec (ind (node i d)) 0) as [Hi|Hi].
  - assert (fbn = n /\ n = NDIRECT) as [-> ->] by (destruct (decide (NDIRECT < n)) as [H|H]; [by apply E2 in H|lia]).
    change (space (Z.max NDIRECT (NDIRECT + 1))) with 14 in Hs. change (space NDIRECT) with 12 in Hs. destruct (Hfill ltac:(lia)) as (t1 & R1 & B1).
    destruct (grow_ind base img fb (node i d)) as (G & Ei & Eb & Ef); [lia|done|apply (bd_zero _ _ _ _ _ B); lia|done|].
    change (set_i_addrs _ _) with (node i (set_addr 12 fb d)) in *. set (d1 := set_addr 12 fb d) in *.
    destruct (append_slot t1 img fi (fb + 1) r i d1 NDIRECT NDIRECT B1 (gw_file _ _ _ _ _ _ _ G)) as (t' & img' & fb' & R2 & B2 & G2 & Efb & Eb2 & Ef2).
    { intros bn Hbn. rewrite Eb by done. by apply (ex_block _ _ _ _ E). }
    { lia. }
    { lia. }
    { done. }
    { rewrite Z.eqb_refl. lia. }
    rewrite Z.eqb_refl in Efb. exists t', img', fb', d1. split; [|split; [done|]].
    + rewrite (bind_ret_l _ _ _ _ _ R1). change (nth (Z.to_nat NDIRECT) (di_addrs d1) 0) with (ind (node i d1)). rewrite xint_id by (rewrite Ei; lia). exact R2.
    + constructor; [by eapply grew_trans| |change (space (Z.max NDIRECT (NDIRECT + 1))) with 14; change (space NDIRECT) with 12; lia|intros o Ho; by rewrite Ef2, Ef].
      constructor; [exact Eb2|]. rewrite Ei. unfold NDIRECT. lia.
  - specialize (Hfill ltac:(lia)). assert (fb + (if fbn =? n then 1 else 0) = fb + space (Z.max n (fbn + 1)) - space n) as Esp.
    { apply E2 in Hi. unfold space. rewrite !(proj2 (Z.ltb_lt _ _)) by lia. destruct (Z.eqb_spec fbn n); lia. }
    destruct (append_slot t img fi fb r i d fbn n B F (ex_block _ _ _ _ E) Hi) as (t' & img' & fb' & R2 & B2 & G2 & Efb & Eb2 & Ef2); [lia..|].
    exists t', img', fb', d. split; [|split; [done|]].
    + rewrite (bind_ret_l _ _ _ _ _ Hfill). change (nth (Z.to_nat NDIRECT) (di_addrs d) 0) with (ind (node i d)). rewrite xint_id by lia. exact R2.
    + constructor; [done| |lia|done]. constructor; [exact Eb2|]. rewrite E2. lia.
Qed.

(** The blocks of [n] bytes. *)
Definition blocks (n : Z) : Z := (n + 511) / 512.

Lemma space_mono a b : a <= b -> space a <= space b.
Proof. intros H. unfold space. destruct (Z.ltb_spec NDIRECT a), (Z.ltb_spec NDIRECT b); lia. Qed.

Lemma blocks_step off m : 0 <= off -> 0 < m <= (off / BSIZE + 1) * BSIZE - off ->
  blocks (off + m) = Z.max (blocks off) (off / BSIZE + 1) /\ off / BSIZE <= blocks off.
Proof. intros Ho Hm. unfold blocks, BSIZE in *. Z.div_mod_to_equations. lia. Qed.

Lemma blocks_mono a b : a <= b -> blocks a <= blocks b.
Proof. intros H. unfold blocks. apply Z.div_le_mono; lia. Qed.

(** A round: the block, and the bytes into it. *)
Lemma append_round t img fi fb r i d off p : building t img fi fb r -> file_ok nmeta (kst img fb) (node i d) -> exact img fb (node i d) (blocks off) ->
  0 <= off -> p <> [] -> let fbn := off / BSIZE in off < MAXFILE * BSIZE -> Z.of_nat (length p) <= (fbn + 1) * BSIZE - off ->
  fb + space (blocks (off + Z.of_nat (length p))) - space (blocks off) <= FSSIZE ->
  exists t1 t2 t' img' fb' d' a buf, append_block fbn d t = Ret (a, d') t1 /\ rsect a t1 = Ret buf t2 /\
    wsect a (splice buf (Z.to_nat (off - fbn * BSIZE)) p) t2 = Ret tt t' /\ building t' img' fi fb' r /\
    grew img fb (node i d) img' fb' (node i d') /\ exact img' fb' (node i d') (blocks (off + Z.of_nat (length p))) /\
    fb' = fb + space (blocks (off + Z.of_nat (length p))) - space (blocks off) /\
    (forall o, 0 <= o < MAXFILE * BSIZE -> fbyte (kst img' fb') (node i d') o = overlay (fbyte (kst img fb) (node i d)) off p o).
Proof.
  intros B F E Ho Hp fbn Hmax Hle Hs. assert (nmeta = 59 /\ FSSIZE = 1000) as [EN EF] by done. assert (0 <= fbn < MAXFILE) as Hbn by (apply offset_block; lia).
  assert (0 < Z.of_nat (length p)) as Hpos by (destruct p; [done|cbn [length]; lia]).
  destruct (blocks_step off (Z.of_nat (length p)) Ho ltac:(lia)) as [Eb Hb]. fold fbn in Eb, Hb. rewrite Eb in Hs |- *.
  destruct (append_block_run t img fi fb r i d fbn (blocks off) B F E ltac:(lia) ltac:(lia) Hs) as (t1 & img1 & fb1 & d1 & R1 & B1 & [G1 X1 Efb Ef]).
  pose proof (gw_file _ _ _ _ _ _ _ G1) as F1. set (a := block_of (kst img1 fb1) (node i d1) fbn) in *.
  assert (a <> 0) as Ha by (apply (ex_block _ _ _ _ X1); [done|lia]). pose proof B1 as [S1 Hfb1 Hz1 Hl1].
  assert (nmeta <= a < FSSIZE /\ a < fb1) as [Har Haf] by (apply (data_range base img1); [lia|by apply (fo_data _ _ _ F1)]).
  destruct (rsect_run IH t1 _ _ _ _ _ a S1 ltac:(lia) ltac:(lia)) as (t2 & R2 & S2).
  pose proof (Z.mod_pos_bound off BSIZE ltac:(unfold BSIZE; lia)) as Hm. assert (off - fbn * BSIZE = off mod BSIZE) as Em by (rewrite Z.mod_eq by (unfold BSIZE; lia); unfold fbn; lia).
  set (bs := splice (img1 a) (Z.to_nat (off - fbn * BSIZE)) p).
  assert (length bs = Z.to_nat BSIZE) as Hbs by (unfold bs; rewrite length_splice; rewrite Hl1; [done|lia]).
  destruct (wsect_run IH t2 _ _ _ _ _ a bs S2 ltac:(lia) ltac:(lia) Hbs) as (t' & R3 & S3). rewrite Z.max_l in S3 by lia.
  destruct (grow_data base img1 fb1 (node i d1) fbn bs Hfb1 F1 Hbn Ha Hbs) as (G2 & Eb2 & N2). fold a in G2, Eb2, N2.
  exists t1, t2, t', (upd img1 a bs), fb1, d1, a, (img1 a). split; [exact R1|]. split; [exact R2|]. split; [exact R3|]. split; [|split; [by eapply grew_trans|split; [|split; [done|]]]].
  - constructor; [done|lia|by apply (gw_zero _ _ _ _ _ _ _ G2)|by apply (gw_len _ _ _ _ _ _ _ G2)].
  - constructor; [|apply (ex_ind _ _ _ _ X1)]. intros bm Hbm. rewrite Eb2. by apply (ex_block _ _ _ _ X1).
  - intros o Hoo. assert (content (kst img1 fb1) a = img1 a) as Ca by (rewrite kst_content; unfold marked; by rewrite (proj2 (Z.eqb_neq a 58)) by lia).
    rewrite (data_bytes nmeta (kst img1 fb1) (kst (upd img1 a bs) fb1) (node i d1) fbn off p F1); try done; [unfold overlay; by rewrite Ef|lia|fold a; by rewrite Ca|].
    intros k. fold a. rewrite N2. destruct (Z.eqb_spec k a) as [->|]; [|done]. rewrite Ca. unfold bs. by rewrite Em.
Qed.

Lemma iappend_loop_run fi r i : forall k p t img fb d off, (length p <= k)%nat -> building t img fi fb r -> file_ok nmeta (kst img fb) (node i d) ->
  exact img fb (node i d) (blocks off) -> 0 <= off -> let n := Z.of_nat (length p) in off + n <= MAXFILE * BSIZE ->
  fb + space (blocks (off + n)) - space (blocks off) <= FSSIZE ->
  exists t' img' fb' d', iappend_loop k p off d t = Ret (off + n, d') t' /\ building t' img' fi fb' r /\
    grew img fb (node i d) img' fb' (node i d') /\ exact img' fb' (node i d') (blocks (off + n)) /\
    fb' = fb + space (blocks (off + n)) - space (blocks off) /\
    (forall o, 0 <= o < MAXFILE * BSIZE -> fbyte (kst img' fb') (node i d') o = overlay (fbyte (kst img fb) (node i d)) off p o).
Proof.
  induction k as [|k IHk]; intros p t img fb d off Hk B F E Ho n Hmax Hs; (destruct p as [|c p]; [
    exists t, img, fb, d; unfold n; cbn [length iappend_loop]; rewrite Z.add_0_r; split; [done|]; split; [done|]; split; [by apply grew_refl|];
    split; [done|]; split; [lia|]; intros o _; by rewrite overlay_nil|]); [cbn [length] in Hk; lia|].
  cbn [iappend_loop]. set (q := c :: p) in *. set (fbn := off / BSIZE). assert (fbn < MAXFILE) as Hf by (apply offset_block; unfold n, q in *; cbn [length] in *; lia).
  rewrite (proj2 (Z.ltb_lt _ _) Hf). cbn [massert]. rewrite (bind_ret_l _ _ _ tt t) by done.
  assert (0 < (fbn + 1) * BSIZE - off) as Hroom by (unfold fbn, BSIZE; Z.div_mod_to_equations; lia).
  set (n1 := Z.to_nat (Z.min (Z.of_nat (length q)) ((fbn + 1) * BSIZE - off))). assert (0 < n)%Z as Hn by (unfold n, q; cbn [length]; lia). fold n in n1.
  assert (Z.of_nat (length (take n1 q)) = Z.of_nat n1) as Hl1 by (rewrite length_take; unfold n1, n; lia).
  pose proof (space_mono _ _ (blocks_mono (off + Z.of_nat n1) (off + n) ltac:(unfold n1; lia))) as Hmono.
  destruct (append_round t img fi fb r i d off (take n1 q) B F E Ho) as (t1 & t2 & t3 & img1 & fb1 & d1 & a & buf & R1 & R2 & R3 & B1 & G1 & X1 & Efb1 & Ef1).
  { intros Hnil. rewrite Hnil in Hl1. cbn [length] in Hl1. unfold n1 in Hl1. lia. }
  { lia. }
  { rewrite Hl1. fold fbn. unfold n1. lia. }
  { rewrite Hl1. lia. }
  rewrite Hl1 in X1, Efb1. fold fbn in R1, R3.
  assert (n = Z.of_nat n1 + Z.of_nat (length (drop n1 q))) as En by (rewrite length_drop; unfold n1, n; lia).
  destruct (IHk (drop n1 q) t3 img1 fb1 d1 (off + Z.of_nat n1)) as (t' & img' & fb' & d' & R & B' & G & X & Efb & Ef).
  { rewrite length_drop. unfold n1, q in *. cbn [length] in *. lia. }
  { done. }
  { apply (gw_file _ _ _ _ _ _ _ G1). }
  { done. }
  { lia. }
  { lia. }
  { rewrite <- Z.add_assoc, <- En. lia. }
  rewrite <- Z.add_assoc, <- En in R, X, Efb.
  exists t', img', fb', d'. split; [|split; [done|split; [by eapply grew_trans|split; [done|split; [lia|]]]]].
  - rewrite (bind_ret_l _ _ _ _ _ R1). cbn [fst snd]. rewrite (bind_ret_l _ _ _ _ _ R2), (bind_ret_l _ _ _ _ _ R3). exact R.
  - intros o Hoo. rewrite Ef, <- (take_drop n1 q), <- overlay_app, Hl1, take_drop by done. unfold overlay at 1 3. by rewrite Ef1.
Qed.

(** ** Files of the image *)

Definition dino (img : Z -> list Z) (i : Z) : dinode := get_dinode (img (IBLOCK i mk_sb)) (dinode_off i).
Definition fnode (img : Z -> list Z) (i : Z) : inode := node i (dino img i).

(** Inode [i] of the image is a file with the bytes [bs] and zeros after them. *)
Record whole_file (img : Z -> list Z) (fb : Z) (i : Z) (bs : list Z) : Prop := {
  fa_inum : 0 <= i < NINODES;
  fa_file : file_ok nmeta (kst img fb) (fnode img i);
  fa_exact : exact img fb (fnode img i) (blocks (Z.of_nat (length bs)));
  fa_size : di_size (dino img i) = Z.of_nat (length bs);
  fa_bytes : forall o, 0 <= o < MAXFILE * BSIZE -> fbyte (kst img fb) (fnode img i) o = nth (Z.to_nat o) bs 0;
}.

Lemma iblock_mk i : 0 <= i < NINODES -> 32 <= IBLOCK i mk_sb < 58.
Proof. unfold NINODES. intros Hi. unfold IBLOCK, IPB. change (sb_inodestart mk_sb) with 32. rewrite u32_id by (Z.div_mod_to_equations; lia). Z.div_mod_to_equations. lia. Qed.

Lemma i16_range v : - 2 ^ 15 <= i16 v < 2 ^ 15.
Proof. unfold i16. pose proof (Z.mod_pos_bound (v + 2 ^ 15) (2 ^ 16) ltac:(lia)). lia. Qed.

(** A change of an inode block. *)
Lemma low_upd img fb x b d : b < 58 -> file_ok nmeta (kst img fb) x ->
  file_ok nmeta (kst (upd img b d) fb) x /\ (forall bn, block_of (kst (upd img b d) fb) x bn = block_of (kst img fb) x bn) /\
  (forall o, 0 <= o < MAXFILE * BSIZE -> fbyte (kst (upd img b d) fb) x o = fbyte (kst img fb) x o).
Proof.
  intros Hb F. assert (nmeta = 59) as EN by done. assert (forall c, 58 <= c -> content (kst (upd img b d) fb) c = content (kst img fb) c) as HC.
  { intros c Hc. rewrite kst_upd by lia. by rewrite (proj2 (Z.eqb_neq c b)) by lia. }
  apply file_same; [done|done| |].
  - intros c Hc. unfold used. change (sb (kst (upd img b d) fb)) with mk_sb. change (sb (kst img fb)) with mk_sb. rewrite HC; [done|].
    change (sb_size (sb (kst img fb))) with 1000 in Hc. unfold BBLOCK, BPB. rewrite Z.div_small by lia. done.
  - intros c Ho. apply HC. destruct (owned_data _ _ _ _ F Ho) as [? _]. lia.
Qed.

Lemma rinode_run t img fi fb r i : building t img fi fb r -> 0 <= i < NINODES ->
  exists t', rinode i t = Ret (dino img i) t' /\ building t' img fi fb r.
Proof.
  intros [S Hfb Hz Hl] Hi. pose proof (iblock_mk i Hi). destruct (rsect_run IH t _ _ _ _ _ (IBLOCK i mk_sb) S ltac:(unfold FSSIZE; lia) ltac:(unfold FSSIZE; lia)) as (t' & R & S').
  exists t'. split; [unfold rinode; by rewrite (bind_ret_l _ _ _ _ _ R)|by constructor].
Qed.

(** The image with the disk inode [d]. *)
Definition with_dinode (img : Z -> list Z) (i : Z) (d : dinode) : Z -> list Z :=
  upd img (IBLOCK i mk_sb) (put_dinode (img (IBLOCK i mk_sb)) (dinode_off i) d).

Lemma winode_run t img fi fb r i d : building t img fi fb r -> 0 <= i < NINODES -> length (di_addrs d) = 13%nat ->
  exists t', winode i d t = Ret tt t' /\ building t' (with_dinode img i d) fi fb r.
Proof.
  intros [S Hfb Hz Hl] Hi Hd. pose proof (iblock_mk i Hi) as Hb. assert (nmeta = 59 /\ FSSIZE = 1000) as [EN EF] by done.
  destruct (rsect_run IH t _ _ _ _ _ (IBLOCK i mk_sb) S ltac:(lia) ltac:(lia)) as (t1 & R1 & S1). pose proof (dinode_room i) as Hroom.
  assert (length (put_dinode (img (IBLOCK i mk_sb)) (dinode_off i) d) = Z.to_nat BSIZE) as Hlen by (rewrite length_put_dinode; rewrite ?Hl; done).
  destruct (wsect_run IH t1 _ _ _ _ _ (IBLOCK i mk_sb) _ S1 ltac:(lia) ltac:(lia) Hlen) as (t2 & R2 & S2). rewrite Z.max_l in S2 by lia.
  exists t2. split; [unfold winode; by rewrite (bind_ret_l _ _ _ _ _ R1)|]. constructor; [done|done| |].
  - intros c Hc. unfold with_dinode, upd. rewrite (proj2 (Z.eqb_neq c _)) by lia. by apply Hz.
  - intros c. unfold with_dinode, upd. destruct (c =? _); [done|apply Hl].
Qed.

Lemma dino_same img i d : 0 <= i < NINODES -> (forall c, length (img c) = Z.to_nat BSIZE) -> dinode_ok d -> dino (with_dinode img i d) i = d.
Proof.
  intros Hi Hl Hd. unfold dino, with_dinode, upd. rewrite Z.eqb_refl. apply get_put_dinode; [rewrite Hl; apply dinode_room|done].
Qed.

Lemma dino_other img i j d : 0 <= i < NINODES -> 0 <= j < NINODES -> i <> j -> (forall c, length (img c) = Z.to_nat BSIZE) ->
  length (di_addrs d) = 13%nat -> dino (with_dinode img i d) j = dino img j.
Proof.
  intros Hi Hj Hne Hl Hd. unfold dino, with_dinode, upd. destruct (Z.eqb_spec (IBLOCK j mk_sb) (IBLOCK i mk_sb)) as [E|]; [|done].
  rewrite E. apply put_dinode_other; [by rewrite Hl|done|lia|lia|done|]. unfold IBLOCK, IPB, NINODES in *. change (sb_inodestart mk_sb) with 32 in E.
  rewrite !u32_id in E by (Z.div_mod_to_equations; lia). lia.
Qed.

(** Another file when this one grows. *)
Lemma grew_apart img fb x img' fb' x' y : nmeta <= fb <= FSSIZE -> fb' <= FSSIZE -> grew img fb x img' fb' x' ->
  file_ok nmeta (kst img fb) y -> apart (kst img fb) x y ->
  file_ok nmeta (kst img' fb') y /\ apart (kst img' fb') x' y /\ (forall bn, block_of (kst img' fb') y bn = block_of (kst img fb) y bn) /\
  (forall o, 0 <= o < MAXFILE * BSIZE -> fbyte (kst img' fb') y o = fbyte (kst img fb) y o).
Proof.
  intros Hf Hf' [A1 A2 A3 A4 A5 A6 A7 A8] F Hap. assert (nmeta = 59 /\ FSSIZE = 1000) as [EN EF] by done.
  assert (forall c, owns (kst img fb) y c -> nmeta <= c < FSSIZE /\ c < fb) as Hown by (intros c Hc; apply (data_range base img); [lia|by eapply owned_data]).
  destruct (file_same nmeta (kst img fb) (kst img' fb') y F) as (F' & Eb & Ef); [done|..].
  { intros c Hc. change (sb_size (sb (kst img fb))) with FSSIZE in Hc. rewrite !kst_used by lia. lia. }
  { intros c Hc. destruct (Hown c Hc). rewrite !kst_content. unfold marked. rewrite (proj2 (Z.eqb_neq c 58)) by lia. apply A5; [lia|].
    intros Hx. by apply (Hap c). }
  split; [done|]. split; [|done]. intros c Hx Hy. apply (owns_blocks (kst img fb) (kst img' fb') y c Eb) in Hy.
  destruct (A6 c Hx) as [?|?]; [by apply (Hap c)|]. destruct (Hown c Hy). lia.
Qed.

Lemma dino_ok img fb i : nmeta <= fb <= FSSIZE -> file_ok nmeta (kst img fb) (fnode img i) -> dinode_ok (dino img i).
Proof.
  intros Hf F. pose proof (fo_len _ _ _ F) as Hlen. pose proof (fo_size _ _ _ F) as Hsz. assert (FSSIZE = 1000) as EF by done.
  constructor; try apply i16_range; [apply get32_range|done|]. apply Forall_lookup. intros k w Hw. pose proof (lookup_lt_Some _ _ _ Hw) as Hk.
  change (length (di_addrs (dino img i)) = 13%nat) in Hlen.
  pose proof (addr_small img fb i (dino img i) k Hf F ltac:(lia)) as Ha. rewrite nth_lookup, Hw in Ha. cbn [from_option] in Ha. unfold id in Ha. lia.
Qed.

(** The fields that a file that grows keeps. *)
Lemma grew_dinode_ok img fb i d img' fb' d' n : nmeta <= fb' <= FSSIZE -> dinode_ok d -> grew img fb (node i d) img' fb' (node i d') ->
  0 <= n < 2 ^ 32 -> dinode_ok (set_size n d').
Proof.
  intros Hf [D1 D2 D3 D4 D5 D6 D7] G Hn. assert (FSSIZE = 1000) as EF by done. pose proof (gw_inode _ _ _ _ _ _ _ G) as E. pose proof (gw_file _ _ _ _ _ _ _ G) as F.
  cbn in E. injection E as E1 E2 E3 E4 E5. constructor; cbn [set_size di_type di_major di_minor di_nlink di_size di_addrs]; rewrite ?E1, ?E2, ?E3, ?E4; try done.
  - apply (fo_len _ _ _ F).
  - apply Forall_lookup. intros k w Hw. pose proof (lookup_lt_Some _ _ _ Hw) as Hk. pose proof (fo_len _ _ _ F) as Hlen.
    change (length (di_addrs d') = 13%nat) in Hlen. change (di_addrs (set_size n d')) with (di_addrs d') in Hk.
    pose proof (addr_small img' fb' i d' k Hf F ltac:(lia)) as Ha. change (di_addrs d' !! k = Some w) in Hw. rewrite nth_lookup, Hw in Ha. cbn [from_option] in Ha. unfold id in Ha. lia.
Qed.

Lemma exact_full img fb x n : exact img fb x (blocks n) -> full (kst img fb) x n.
Proof. intros E bn Hbn Hlt. apply (ex_block _ _ _ _ E); [done|]. unfold blocks, BSIZE in *. Z.div_mod_to_equations. lia. Qed.

Lemma overlay_end bs p o f : (forall o, 0 <= o < MAXFILE * BSIZE -> f o = nth (Z.to_nat o) bs 0) -> 0 <= o < MAXFILE * BSIZE ->
  overlay f (Z.of_nat (length bs)) p o = nth (Z.to_nat o) (bs ++ p) 0.
Proof.
  intros Hf Ho. unfold overlay. destruct (Z.leb_spec (Z.of_nat (length bs)) o); cbn [andb].
  - rewrite app_nth2 by lia. destruct (Z.ltb_spec o (Z.of_nat (length bs) + Z.of_nat (length p))); [f_equal; lia|].
    rewrite Hf, !nth_overflow by lia. done.
  - rewrite app_nth1 by lia. by apply Hf.
Qed.

(** A file that is not touched. *)
Record kept (img : Z -> list Z) (fb : Z) (img' : Z -> list Z) (fb' : Z) (i j : Z) (ys : list Z) : Prop := {
  kp_file : whole_file img' fb' j ys;
  kp_apart : apart (kst img' fb') (fnode img' i) (fnode img' j);
  kp_node : fnode img' j = fnode img j;
  kp_block : forall bn, block_of (kst img' fb') (fnode img' j) bn = block_of (kst img fb) (fnode img j) bn;
}.

Lemma other_kept img fb i d1 img1 fb1 j ys n : nmeta <= fb <= FSSIZE -> nmeta <= fb1 <= FSSIZE -> 0 <= i < NINODES -> file_ok nmeta (kst img fb) (fnode img i) ->
  grew img fb (fnode img i) img1 fb1 (node i d1) -> (forall c, length (img1 c) = Z.to_nat BSIZE) -> length (di_addrs (set_size n d1)) = 13%nat ->
  dinode_ok (set_size n d1) -> j <> i -> whole_file img fb j ys -> apart (kst img fb) (fnode img i) (fnode img j) ->
  kept img fb (with_dinode img1 i (set_size n d1)) fb1 i j ys.
Proof.
  intros Hfb Hfb1 Hi F G Hl Hlen Hok Hj [J1 J2 J3 J4 J5] Hap. assert (nmeta = 59 /\ FSSIZE = 1000) as [EN EF] by done.
  pose proof (iblock_mk i Hi) as Hib. pose proof (iblock_mk j J1) as Hjb. set (img' := with_dinode img1 i (set_size n d1)).
  destruct (grew_apart img fb (fnode img i) img1 fb1 (node i d1) (fnode img j)) as (F1 & Hap1 & Eb1 & Ef1); [done|lia|done..|].
  assert (dino img' j = dino img j) as Ed.
  { unfold img'. rewrite dino_other by done. unfold dino. rewrite (gw_other _ _ _ _ _ _ _ G (IBLOCK j mk_sb)); [done|lia|].
    intros Ho. apply (owned_data _ _ _ _ F), (data_range base img) in Ho; lia. }
  assert (fnode img' j = fnode img j) as En by (unfold fnode; by rewrite Ed).
  assert (fnode img' i = set_i_size n (node i d1)) as Ei by (unfold fnode, img'; by rewrite dino_same).
  destruct (low_upd img1 fb1 (fnode img j) (IBLOCK i mk_sb) (put_dinode (img1 (IBLOCK i mk_sb)) (dinode_off i) (set_size n d1)) ltac:(lia) F1) as (F2 & Eb2 & Ef2).
  fold (with_dinode img1 i (set_size n d1)) in F2, Eb2, Ef2. fold img' in F2, Eb2, Ef2.
  destruct (low_upd img1 fb1 (node i d1) (IBLOCK i mk_sb) (put_dinode (img1 (IBLOCK i mk_sb)) (dinode_off i) (set_size n d1)) ltac:(lia) (gw_file _ _ _ _ _ _ _ G)) as (_ & Eb3 & _).
  fold (with_dinode img1 i (set_size n d1)) in Eb3. fold img' in Eb3.
  constructor; rewrite ?En.
  - constructor; rewrite ?En, ?Ed; try done.
    + constructor; [|apply (ex_ind _ _ _ _ J3)]. intros bn Hbn. rewrite Eb2, Eb1. by apply (ex_block _ _ _ _ J3).
    + intros o Ho. rewrite Ef2, Ef1 by done. by apply J5.
  - rewrite Ei. intros c Hc Hc'. apply (Hap1 c); [|by apply (owns_blocks _ _ _ _ Eb2)]. apply (owns_blocks (kst img1 fb1) (kst img' fb1) (node i d1) c Eb3). exact Hc.
  - done.
  - intros bn. by rewrite Eb2, Eb1.
Qed.

(** The type and the number of links of an inode. *)
Definition kind (img : Z -> list Z) (i : Z) : Z * Z := (di_type (dino img i), di_nlink (dino img i)).

Lemma iappend_run t img fi fb r i bs p : building t img fi fb r -> whole_file img fb i bs ->
  let n := Z.of_nat (length (bs ++ p)) in n <= MAXFILE * BSIZE -> fb + space (blocks n) - space (blocks (Z.of_nat (length bs))) <= FSSIZE ->
  exists t' img' fb', iappend i p t = Ret tt t' /\ building t' img' fi fb' r /\ whole_file img' fb' i (bs ++ p) /\ (forall j, 0 <= j < NINODES -> kind img' j = kind img j) /\
    fb' = fb + space (blocks n) - space (blocks (Z.of_nat (length bs))) /\ (forall c, c < 32 -> img' c = img c) /\
    (forall j ys, j <> i -> whole_file img fb j ys -> apart (kst img fb) (fnode img i) (fnode img j) -> kept img fb img' fb' i j ys).
Proof.
  intros B [Hi F E Hsz Hby] n Hmax Hs. assert (nmeta = 59 /\ FSSIZE = 1000 /\ MAXFILE * BSIZE = 71680) as (EN & EF & EM) by done. pose proof (bd_fb _ _ _ _ _ B) as Hfb.
  set (d := dino img i) in *. set (off := Z.of_nat (length bs)) in *. assert (n = off + Z.of_nat (length p)) as En by (unfold n, off; rewrite length_app; lia).
  assert (0 <= off) as Hoff by (unfold off; lia).
  destruct (rinode_run t img fi fb r i B Hi) as (t1 & R1 & B1).
  destruct (iappend_loop_run fi r i (length p) p t1 img fb d off ltac:(lia) B1 F E Hoff) as (t2 & img1 & fb1 & d1 & R2 & B2 & G & X1 & Efb & Ef); [lia|rewrite <- En; lia|].
  rewrite <- En in R2, X1, Efb. pose proof (gw_file _ _ _ _ _ _ _ G) as F1. pose proof (bd_fb _ _ _ _ _ B2) as Hfb1.
  pose proof (grew_dinode_ok img fb i d img1 fb1 d1 n Hfb1 (dino_ok img fb i Hfb F) G ltac:(lia)) as Hok.
  destruct (winode_run t2 img1 fi fb1 r i (set_size n d1) B2 Hi (do_len _ Hok)) as (t3 & R3 & B3). set (img' := with_dinode img1 i (set_size n d1)) in *.
  pose proof (iblock_mk i Hi) as Hib. assert (fnode img' i = set_i_size n (node i d1)) as Enode.
  { unfold fnode, img'. rewrite dino_same; [done|done|apply (bd_len _ _ _ _ _ B2)|done]. }
  pose proof (file_resize nmeta (kst img1 fb1) (node i d1) n F1 (exact_full _ _ _ _ X1) ltac:(lia)) as F1'.
  destruct (low_upd img1 fb1 (set_i_size n (node i d1)) (IBLOCK i mk_sb) (put_dinode (img1 (IBLOCK i mk_sb)) (dinode_off i) (set_size n d1)) ltac:(lia) F1') as (F2 & Eb2 & Ef2).
  fold (with_dinode img1 i (set_size n d1)) in F2, Eb2, Ef2. fold img' in F2, Eb2, Ef2.
  assert (dino img' i = set_size n d1) as Edi by (unfold img'; rewrite dino_same; [done|done|apply (bd_len _ _ _ _ _ B2)|done]).
  exists t3, img', fb1. split; [|split; [done|split; [|split; [|split; [done|split]]]]].
  - unfold iappend. rewrite (bind_ret_l _ _ _ _ _ R1). fold d. rewrite Hsz, xint_id by lia. rewrite (bind_ret_l _ _ _ _ _ R2). cbn [fst snd]. by rewrite xint_id by lia.
  - constructor; rewrite ?Enode; try done.
    + constructor; [|apply (ex_ind _ _ _ _ X1)]. intros bn Hbn. rewrite Eb2. fold n. by apply (ex_block _ _ _ _ X1).
    + by rewrite Edi.
    + intros o Ho. rewrite Ef2 by done. etransitivity; [exact (Ef o Ho)|]. by apply overlay_end.
  - intros j Hj. unfold kind. destruct (decide (j = i)) as [->|Hne].
    + rewrite Edi. pose proof (gw_inode _ _ _ _ _ _ _ G) as Eg. cbn in Eg. injection Eg as E1 E2 E3 E4. cbn [set_size di_type di_nlink]. by rewrite E1, E4.
    + unfold img'. rewrite dino_other; [|done|done|done|apply (bd_len _ _ _ _ _ B2)|apply (do_len _ Hok)]. unfold dino at 1 2. pose proof (iblock_mk j Hj).
      rewrite (gw_other _ _ _ _ _ _ _ G); [done|lia|]. intros Ho. apply (owned_data _ _ _ _ F), (data_range base img) in Ho; lia.
  - intros c Hc. unfold img', with_dinode, upd. rewrite (proj2 (Z.eqb_neq c _)) by lia. apply (gw_other _ _ _ _ _ _ _ G); [lia|].
    intros Ho. apply (owned_data _ _ _ _ F), (data_range base img) in Ho; lia.
  - intros j ys Hj Fj Hap. apply (other_kept img fb i d1 img1 fb1 j ys n); try done; [apply (bd_len _ _ _ _ _ B2)|apply (do_len _ Hok)].
Qed.

(** ** The tree of the image *)

(** The inodes in use have one link; the others are free. *)
Definition kind_of (tys : list Z) (i : Z) : Z * Z := match tys !! Z.to_nat (i - 1) with Some ty => (ty, 1) | None => (0, 0) end.

(** The files with the contents [cs] and the types [tys], in the order of their inodes. *)
Definition total (cs : list (list Z)) : Z := foldr (fun bs n => space (blocks (Z.of_nat (length bs))) + n) 0 cs.

Record tree (img : Z -> list Z) (fb : Z) (cs : list (list Z)) (tys : list Z) : Prop := {
  tr_file : forall k bs, cs !! k = Some bs -> whole_file img fb (Z.of_nat k + 1) bs;
  tr_type : forall i, 0 < i < NINODES -> kind img i = kind_of tys i;
  tr_apart : forall k l, k <> l -> (k < length cs)%nat -> (l < length cs)%nat -> apart (kst img fb) (fnode img (Z.of_nat k + 1)) (fnode img (Z.of_nat l + 1));
  tr_fb : fb = nmeta + total cs;
  tr_len : length tys = length cs;
  tr_super : img 1 = sb_bytes mk_sb;
}.

Lemma total_cons bs cs : total (bs :: cs) = space (blocks (Z.of_nat (length bs))) + total cs.
Proof. done. Qed.

Lemma total_concat cs cs' : total (cs ++ cs') = total cs + total cs'.
Proof. induction cs as [|c cs IHc]; [done|]. cbn [app]. rewrite !total_cons, IHc. lia. Qed.

Lemma total_insert cs k bs bs' : cs !! k = Some bs ->
  total (<[k := bs']> cs) = total cs + space (blocks (Z.of_nat (length bs'))) - space (blocks (Z.of_nat (length bs))).
Proof.
  intros H. rewrite <- (take_drop_middle cs k bs H) at 2. rewrite insert_take_drop by (by eapply lookup_lt_Some).
  rewrite !total_concat, !total_cons. lia.
Qed.

Lemma space_pos n : 0 <= n -> 0 <= space (blocks n).
Proof. intros H. unfold space, blocks. assert (0 <= (n + 511) / 512) by (apply Z.div_pos; lia). destruct (_ <? _); lia. Qed.

Lemma total_app cs bs : total (cs ++ [bs]) = total cs + space (blocks (Z.of_nat (length bs))).
Proof. rewrite total_concat, total_cons. cbn [total foldr]. lia. Qed.

(** An append keeps the tree. *)
Lemma tree_append t img fi fb r cs tys k bs p : building t img fi fb r -> tree img fb cs tys -> cs !! k = Some bs ->
  Z.of_nat (length (bs ++ p)) <= MAXFILE * BSIZE -> nmeta + total (<[k := bs ++ p]> cs) <= FSSIZE ->
  exists t' img' fb', iappend (Z.of_nat k + 1) p t = Ret tt t' /\ building t' img' fi fb' r /\ tree img' fb' (<[k := bs ++ p]> cs) tys.
Proof.
  intros B [T1 T2 T3 T4 T5 T6] Hk Hmax Hs. rewrite (total_insert _ _ _ _ Hk) in Hs. pose proof (lookup_lt_Some _ _ _ Hk) as Hlt.
  destruct (iappend_run t img fi fb r (Z.of_nat k + 1) bs p B (T1 k bs Hk) Hmax ltac:(lia)) as (t' & img' & fb' & R & B' & F' & Ety & Efb & Hlow & Hoth).
  assert (forall l ys, l <> k -> cs !! l = Some ys -> kept img fb img' fb' (Z.of_nat k + 1) (Z.of_nat l + 1) ys) as HK.
  { intros l ys Hl Hys. pose proof (lookup_lt_Some _ _ _ Hys). apply Hoth; [lia|by apply T1|by apply T3]. }
  assert (forall l, l <> k -> (l < length cs)%nat -> fnode img' (Z.of_nat l + 1) = fnode img (Z.of_nat l + 1) /\
    forall bn, block_of (kst img' fb') (fnode img' (Z.of_nat l + 1)) bn = block_of (kst img fb) (fnode img (Z.of_nat l + 1)) bn) as HN.
  { intros l Hl Hlt'. destruct (lookup_lt_is_Some_2 cs l Hlt') as [ys Hys]. destruct (HK l ys Hl Hys). done. }
  exists t', img', fb'. split; [done|]. split; [done|]. constructor.
  - intros l ys Hl. destruct (decide (l = k)) as [->|Hne]; [rewrite list_lookup_insert_eq in Hl by done; by injection Hl as <-|].
    rewrite list_lookup_insert_ne in Hl by done. apply (kp_file _ _ _ _ _ _ _ (HK l ys Hne Hl)).
  - intros i Hi. rewrite Ety by lia. by apply T2.
  - rewrite length_insert. intros l m Hlm Hl Hm c Hc Hc'.
    destruct (decide (l = k)) as [->|Hlk]; [|destruct (decide (m = k)) as [->|Hmk]].
    + destruct (lookup_lt_is_Some_2 cs m Hm) as [ys Hys]. by apply (kp_apart _ _ _ _ _ _ _ (HK m ys ltac:(lia) Hys) c).
    + destruct (lookup_lt_is_Some_2 cs l Hl) as [ys Hys]. by apply (kp_apart _ _ _ _ _ _ _ (HK l ys ltac:(lia) Hys) c).
    + destruct (HN l Hlk Hl) as [El Bl], (HN m Hmk Hm) as [Em Bm]. rewrite El in Hc, Bl. rewrite Em in Hc', Bm.
      apply (T3 l m Hlm Hl Hm c); [by eapply owns_blocks|by eapply owns_blocks].
  - rewrite (total_insert _ _ _ _ Hk). lia.
  - by rewrite length_insert.
  - rewrite <- T6. by apply Hlow.
Qed.

(** A new inode is an empty file. *)
Definition new_dinode (ty : Z) : dinode := mk_dinode ty 0 0 1 0 (replicate 13 0).

Lemma new_block img fb i ty bn : block_of (kst img fb) (node i (new_dinode ty)) bn = 0.
Proof. unfold block_of. destruct (bn <? NDIRECT); [apply (nth_zeros 13)|done]. Qed.

Lemma new_file img fb i ty : file_ok nmeta (kst img fb) (node i (new_dinode ty)) /\ exact img fb (node i (new_dinode ty)) 0 /\
  (forall o, fbyte (kst img fb) (node i (new_dinode ty)) o = 0) /\ (forall c, ~ owns (kst img fb) (node i (new_dinode ty)) c).
Proof.
  split; [|split; [|split]].
  - constructor; try done; try (intros bn *; by rewrite new_block). intros bn Hbn Hlt. cbn in Hlt. unfold BSIZE in Hlt. lia.
  - constructor; [|by cbn]. intros bn Hbn. rewrite new_block. lia.
  - intros o. unfold fbyte. by rewrite new_block.
  - intros c [H0 [->|(bn & _ & <-)]]; [done|]. by rewrite new_block in H0.
Qed.

(** The files of the other inodes stay when an inode is written. *)
Lemma dinode_keeps img fb i d j bs : 0 <= i < NINODES -> (forall c, length (img c) = Z.to_nat BSIZE) -> length (di_addrs d) = 13%nat -> j <> i -> whole_file img fb j bs ->
  let img' := with_dinode img i d in fnode img' j = fnode img j /\ whole_file img' fb j bs /\
  forall bn, block_of (kst img' fb) (fnode img j) bn = block_of (kst img fb) (fnode img j) bn.
Proof.
  intros Hi Hl Hd Hj [J1 J2 J3 J4 J5] img'. pose proof (iblock_mk _ Hi) as Hib.
  destruct (low_upd img fb (fnode img j) _ (put_dinode (img (IBLOCK i mk_sb)) (dinode_off i) d) (proj2 Hib) J2) as (F2 & Eb2 & Ef2).
  fold (with_dinode img i d) in F2, Eb2, Ef2. fold img' in F2, Eb2, Ef2.
  assert (dino img' j = dino img j) as Ed by (apply dino_other; done || lia). assert (fnode img' j = fnode img j) as Ef by (unfold fnode; by rewrite Ed).
  split; [done|]. split; [|done]. constructor; rewrite ?Ef, ?Ed; try done.
  - constructor; [|apply (ex_ind _ _ _ _ J3)]. intros bn Hbn. rewrite Eb2. by apply (ex_block _ _ _ _ J3).
  - intros o Ho. rewrite Ef2 by done. by apply J5.
Qed.

Lemma tree_alloc t img fb r cs tys ty : let n := Z.of_nat (length cs) in building t img (n + 1) fb r -> tree img fb cs tys ->
  n + 1 < NINODES -> 0 <= ty < 2 ^ 15 ->
  exists t' img', mk_ialloc ty t = Ret (n + 1) t' /\ building t' img' (n + 2) fb r /\ tree img' fb (cs ++ [[]]) (tys ++ [ty]).
Proof.
  intros n [S Hfb Hz Hl] [T1 T2 T3 T4 T5 T6] Hn Hty. unfold NINODES in Hn. assert (0 <= n) as Hn0 by (unfold n; lia).
  destruct (next_inode_run t _ _ _ _ _ S ltac:(lia)) as (t1 & R1 & S1). replace (n + 1 + 1) with (n + 2) in S1 by lia.
  assert (dinode_ok (new_dinode ty)) as Hok by (constructor; cbn [new_dinode di_type di_major di_minor di_nlink di_size di_addrs]; try lia; [done|by apply Forall_replicate]).
  destruct (winode_run t1 img (n + 2) fb r (n + 1) (new_dinode ty)) as (t2 & R2 & B2); [by constructor|unfold NINODES; lia|done|].
  set (img' := with_dinode img (n + 1) (new_dinode ty)) in *. assert (0 <= n + 1 < NINODES) as Hi by (unfold NINODES; lia). pose proof (iblock_mk _ Hi) as Hib.
  assert (forall k, (k < length cs)%nat -> dino img' (Z.of_nat k + 1) = dino img (Z.of_nat k + 1)) as Ed.
  { intros k Hk. apply dino_other; try done; unfold n, NINODES in *; lia. }
  assert (dino img' (n + 1) = new_dinode ty) as En by (by apply dino_same).
  assert (forall k bs, cs !! k = Some bs -> fnode img' (Z.of_nat k + 1) = fnode img (Z.of_nat k + 1) /\ whole_file img' fb (Z.of_nat k + 1) bs /\
    forall bn, block_of (kst img' fb) (fnode img (Z.of_nat k + 1)) bn = block_of (kst img fb) (fnode img (Z.of_nat k + 1)) bn) as HK.
  { intros k bs Hk. apply lookup_lt_Some in Hk as Hlt. apply dinode_keeps; try done; [unfold n; lia|by apply T1]. }
  assert (fnode img' (n + 1) = node (n + 1) (new_dinode ty)) as Enode by (unfold fnode; by rewrite En).
  destruct (new_file img' fb (n + 1) ty) as (Fn & Xn & Bn & On).
  exists t2, img'. split; [|split; [done|]].
  { unfold mk_ialloc. rewrite (bind_ret_l _ _ _ _ _ R1). change (i16 (xshort 1)) with 1. change (xint 0) with 0.
    replace (i16 (xshort ty)) with ty; [by rewrite (bind_ret_l _ _ _ _ _ R2)|]. rewrite xshort_id by lia.
    unfold i16. rewrite Z.mod_small by lia. lia. }
  constructor.
  - intros k bs [Hk|[Hk Hb]]%lookup_app_Some; [by apply (HK k bs)|]. apply list_lookup_singleton_Some in Hb as [Hk0 <-].
    assert (Z.of_nat k + 1 = n + 1) as -> by (unfold n; lia). constructor; rewrite ?Enode, ?En; try done. intros o Ho. rewrite Bn. by destruct (Z.to_nat o).
  - intros i Hi'. unfold kind_of, kind. destruct (decide (i = n + 1)) as [->|Hne].
    + rewrite En, lookup_app_r by (unfold n; lia). replace (Z.to_nat (n + 1 - 1) - length tys)%nat with 0%nat by (unfold n; lia). done.
    + unfold img'. rewrite dino_other by (done || lia). fold (kind img i). rewrite T2 by lia. unfold kind_of. destruct (decide (i <= n)) as [Hin|Hin].
      * by rewrite lookup_app_l by (unfold n in *; lia).
      * rewrite !lookup_ge_None_2; [done|rewrite length_app; cbn [length]; unfold n in *; lia|unfold n in *; lia].
  - rewrite length_app. cbn [length]. intros k l Hkl Hk Hl' c Hc Hc'.
    destruct (decide (k = length cs)) as [->|Hk1]; [fold n in Hc; rewrite Enode in Hc; by apply (On c)|].
    destruct (decide (l = length cs)) as [->|Hl1]; [fold n in Hc'; rewrite Enode in Hc'; by apply (On c)|].
    destruct (lookup_lt_is_Some_2 cs k ltac:(lia)) as [bk Hbk]. destruct (lookup_lt_is_Some_2 cs l ltac:(lia)) as [bl Hbl].
    destruct (HK k bk Hbk) as (E1 & _ & B1), (HK l bl Hbl) as (E2 & _ & B2'). rewrite E1 in Hc. rewrite E2 in Hc'.
    apply (T3 k l Hkl ltac:(lia) ltac:(lia) c); by eapply owns_blocks.
  - rewrite total_app. change (space (blocks (Z.of_nat (length (@nil Z))))) with 0. lia.
  - rewrite !length_app. cbn [length]. lia.
  - unfold img', with_dinode, upd. rewrite (proj2 (Z.eqb_neq 1 _)) by lia. done.
Qed.

(** A file whose size is rounded up to whole blocks has zeros after its bytes. *)
Definition rounded (bs : list Z) : list Z := bs ++ replicate (512 - length bs mod 512)%nat 0.

Lemma length_rounded bs : Z.of_nat (length (rounded bs)) = (Z.of_nat (length bs) / 512 + 1) * 512.
Proof.
  unfold rounded. rewrite length_app, length_replicate. pose proof (Nat.mod_upper_bound (length bs) 512 ltac:(lia)).
  rewrite Nat2Z.inj_add, Nat2Z.inj_sub, Nat2Z.inj_mod by lia. change (Z.of_nat 512) with 512. Z.div_mod_to_equations. lia.
Qed.

Lemma rounded_nth bs o : nth o (rounded bs) 0 = nth o bs 0.
Proof.
  unfold rounded. destruct (decide (o < length bs)%nat); [by rewrite app_nth1|]. rewrite app_nth2, nth_zeros, nth_overflow by lia. done.
Qed.

Definition root_resized (img : Z -> list Z) (n : Z) : Z -> list Z := with_dinode img 1 (set_size n (dino img 1)).

Lemma fix_root_run t img fi fb r bs : building t img fi fb r -> whole_file img fb 1 bs -> Z.of_nat (length bs) < MAXFILE * BSIZE ->
  exists t', fix_root 1 t = Ret tt t' /\ building t' (root_resized img (Z.of_nat (length (rounded bs)))) fi fb r.
Proof.
  intros B [Hi F E Hsz Hby] Hmax. destruct (rinode_run t img fi fb r 1 B ltac:(done)) as (t1 & R1 & B1).
  assert (MAXFILE * BSIZE = 71680) as EM by done. pose proof (length_rounded bs) as Hr. unfold fix_root. rewrite (bind_ret_l _ _ _ _ _ R1), Hsz, (xint_id (Z.of_nat _)), xint_id.
  - change BSIZE with 512. rewrite <- Hr. apply winode_run; [done|done|]. apply (fo_len _ _ _ F).
  - change BSIZE with 512. Z.div_mod_to_equations. lia.
  - lia.
Qed.

Lemma dino_resized img fb n : (forall c, length (img c) = Z.to_nat BSIZE) -> nmeta <= fb <= FSSIZE -> file_ok nmeta (kst img fb) (fnode img 1) -> 0 <= n < 2 ^ 32 ->
  dino (root_resized img n) 1 = set_size n (dino img 1).
Proof. intros Hl Hfb F Hn. destruct (dino_ok img fb 1 Hfb F). apply dino_same; [done|done|]. by constructor. Qed.

(** Rounding keeps the tree unless the last block is already full. *)
Lemma tree_resized img fb bs cs tys : (forall c, length (img c) = Z.to_nat BSIZE) -> nmeta <= fb <= FSSIZE -> tree img fb (bs :: cs) tys ->
  (length bs mod 512 <> 0)%nat -> Z.of_nat (length (rounded bs)) <= MAXFILE * BSIZE ->
  tree (root_resized img (Z.of_nat (length (rounded bs)))) fb (rounded bs :: cs) tys.
Proof.
  intros Hl Hfb [T1 T2 T3 T4 T5 T6] Hm Hmax. set (n := Z.of_nat (length (rounded bs))) in *. set (img' := root_resized img n).
  pose proof (T1 0%nat bs eq_refl) as [Hi F E Hsz Hby]. change (Z.of_nat 0 + 1) with 1 in *. change (MAXFILE * BSIZE) with 71680 in *.
  assert (dino img' 1 = set_size n (dino img 1)) as Ed by (apply (dino_resized img fb); try done; unfold n in *; lia).
  assert (blocks n = blocks (Z.of_nat (length bs))) as Eb.
  { unfold n. rewrite length_rounded. unfold blocks. assert (Z.of_nat (length bs) mod 512 <> 0) by (change 512 with (Z.of_nat 512); rewrite <- Nat2Z.inj_mod; lia). Z.div_mod_to_equations. lia. }
  assert (length (di_addrs (set_size n (dino img 1))) = 13%nat) as Hd by (apply (fo_len _ _ _ F)).
  assert (forall k ys, cs !! k = Some ys -> let j := Z.of_nat (S k) + 1 in fnode img' j = fnode img j /\ whole_file img' fb j ys /\
    forall bn, block_of (kst img' fb) (fnode img j) bn = block_of (kst img fb) (fnode img j) bn) as HK.
  { intros k ys Hk j. exact (dinode_keeps img fb 1 _ j ys Hi Hl Hd ltac:(unfold j; lia) (T1 (S k) ys Hk)). }
  destruct (low_upd img fb (fnode img 1) _ (put_dinode (img (IBLOCK 1 mk_sb)) (dinode_off 1) (set_size n (dino img 1))) (proj2 (iblock_mk 1 Hi)) F) as (F2 & Eb2 & Ef2).
  fold (with_dinode img 1 (set_size n (dino img 1))) in F2, Eb2, Ef2. fold (root_resized img n) in F2, Eb2, Ef2. fold img' in F2, Eb2, Ef2.
  assert (fnode img' 1 = node 1 (set_size n (dino img 1))) as En by (unfold fnode; by rewrite Ed).
  destruct (copy_addrs nmeta (kst img' fb) (fnode img 1) (fnode img' 1) F2) as (Eb3 & Ef3 & F3); [done|by rewrite En|].
  assert (exact img' fb (fnode img' 1) (blocks n)) as X.
  { rewrite Eb. constructor; [intros bn Hbn; rewrite Eb3, Eb2; by apply (ex_block _ _ _ _ E)|]. rewrite En. apply (ex_ind _ _ _ _ E). }
  assert (forall k, (k < length (bs :: cs))%nat -> forall c, owns (kst img' fb) (fnode img' (Z.of_nat k + 1)) c -> owns (kst img fb) (fnode img (Z.of_nat k + 1)) c) as HO'.
  { intros [|k] Hk c Hc.
    - change (Z.of_nat 0 + 1) with 1 in *. apply (owns_blocks _ (kst img' fb)); [done|]. destruct Hc as [H0 [Hc|(bn & Hbn & Hc)]]; (split; [done|]); [left; by rewrite Hc, En|right; exists bn; by rewrite <- Eb3].
    - cbn [length] in Hk. destruct (lookup_lt_is_Some_2 cs k ltac:(lia)) as [ys Hys]. destruct (HK k ys Hys) as (E1 & _ & E2). rewrite E1 in Hc. by apply (owns_blocks _ (kst img' fb)). }
  constructor.
  - intros [|k] ys Hk; [|by apply HK]. injection Hk as <-. change (Z.of_nat 0 + 1) with 1.
    constructor; [done| |done|by rewrite Ed|].
    + assert (i_size (fnode img' 1) = n) as En' by (by rewrite En). apply F3; rewrite En'; [by apply exact_full|change (MAXFILE * BSIZE) with 71680; unfold n in *; lia].
    + intros o Ho. rewrite Ef3, Ef2, rounded_nth by done. by apply Hby.
  - intros i Hi'. rewrite <- T2 by done. unfold kind. destruct (decide (i = 1)) as [->|Hne]; [by rewrite Ed|]. unfold img', root_resized. by rewrite dino_other by (done || lia).
  - intros k l Hkl Hk Hl' c Hc Hc'. apply (T3 k l Hkl Hk Hl' c); by apply HO'.
  - rewrite T4, !total_cons. fold n. by rewrite Eb.
  - exact T5.
  - exact T6.
Qed.

(** ** The files of the command line *)

Section inputs.
Context {files : list Z -> option (list Z)} (IN : input_host fsfd sect nsect rest files).

Lemma building_world t img fi fb r w r' : building t img fi fb r -> sect w = sect (mk_world t) -> nsect w = nsect (mk_world t) -> rest w = r' ->
  building (mk_mkst w (mk_fsfd t) (mk_freeinode t) (mk_freeblock t)) img fi fb r'.
Proof.
  intros [[S1 S2 S3 S4 S5 S6] Hfb Hz Hl] E1 E2 E3. constructor; try done. constructor; cbn [mk_world mk_fsfd mk_freeinode mk_freeblock]; try done.
  - intros j Hj. rewrite E1. by apply S2.
  - by rewrite E2.
Qed.

Lemma total_nonneg cs : 0 <= total cs.
Proof. induction cs as [|c cs IHc]; [done|]. rewrite total_cons. pose proof (space_pos (Z.of_nat (length c)) ltac:(lia)). lia. Qed.

Lemma space_le a b : a <= b -> space (blocks a) <= space (blocks b).
Proof. intros H. by apply space_mono, blocks_mono. Qed.

(** The loop over one input file appends all of it. *)
Lemma append_file_run n t img fi fb fd more cs tys k bs : building t img fi fb (Some (fd, more)) -> tree img fb cs tys -> cs !! k = Some bs ->
  Z.of_nat (length (bs ++ more)) <= MAXFILE * BSIZE -> nmeta + total (<[k := bs ++ more]> cs) <= FSSIZE -> (length more < n)%nat -> fd <> fsfd ->
  exists t' img' fb', append_file n fd (Z.of_nat k + 1) t = Ret tt t' /\ building t' img' fi fb' (Some (fd, [])) /\ tree img' fb' (<[k := bs ++ more]> cs) tys.
Proof.
  revert t img fb more cs bs. induction n as [|n IHn]; intros t img fb more cs bs B T Hk Hmax Hs Hn Hfd; [lia|].
  destruct (in_read _ _ _ _ _ IN (mk_world t) fd more Hfd (se_rest _ _ _ _ _ _ (bd_sees _ _ _ _ _ B))) as (j & w & R & Hj & Hp & E1 & E2 & E3).
  cbn [append_file]. rewrite (run_host _ _ _ _ _ R). cbn [fst snd]. pose proof (building_world _ _ _ _ _ _ _ B E1 E2 E3) as B1.
  destruct more as [|b more].
  { cbn in Hj. assert (j = 0%nat) as -> by lia. rewrite app_nil_r, list_insert_id by done. by eexists _, _, _. }
  specialize (Hp ltac:(done)). rewrite (proj2 (Z.ltb_lt 0 _)) by lia. rewrite length_app in Hmax. rewrite (total_insert _ _ _ _ Hk), length_app in Hs.
  set (p := take j (b :: more)) in *. assert (length p = j) as Lp by (unfold p; rewrite length_take; lia).
  edestruct (tree_append _ _ _ _ _ cs tys k bs p B1 T Hk) as (t2 & img2 & fb2 & R2 & B2 & T2).
  { rewrite length_app. lia. }
  { rewrite (total_insert _ _ _ _ Hk), length_app. pose proof (space_le (Z.of_nat (length bs + length p)) (Z.of_nat (length bs + length (b :: more)))). lia. }
  rewrite (bind_ret_l _ _ _ _ _ R2). pose proof (lookup_lt_Some _ _ _ Hk) as Hlt.
  assert ((bs ++ p) ++ drop j (b :: more) = bs ++ b :: more) as Ea by (by rewrite <- app_assoc; unfold p; rewrite take_drop).
  destruct (IHn t2 img2 fb2 (drop j (b :: more)) (<[k := bs ++ p]> cs) (bs ++ p) B2 T2) as (t3 & img3 & fb3 & R3 & B3 & T3).
  - by rewrite list_lookup_insert_eq.
  - rewrite Ea, length_app. lia.
  - rewrite Ea, list_insert_insert_eq, (total_insert _ _ _ _ Hk), length_app. lia.
  - rewrite length_drop. lia.
  - done.
  - rewrite Ea, list_insert_insert_eq in T3. by exists t3, img3, fb3.
Qed.

(** The directory entries of the files, from inode [i] on. *)
Fixpoint name_entries (i : Z) (args : list (list Z)) : list Z :=
  match args with
  | [] => []
  | arg :: args' => dirent_bytes i (dirent_pad (skip_underscore arg)) ++ name_entries (i + 1) args'
  end.

(** An argument that names a file of the host with the contents [bs]. *)
Record input (k : nat) (arg bs : list Z) : Prop := {
  ip_file : files arg = Some bs;
  ip_slash : slash ∉ arg;
  ip_str : chars arg;
  ip_max : Z.of_nat (length bs) <= MAXFILE * BSIZE;
  ip_fuel : (length bs < k)%nat;
}.

Lemma chars_skip arg : chars arg -> chars (skip_underscore arg).
Proof. intros H. destruct H as [|c arg Hc H]; [constructor|]. cbn. destruct (c =? 95); [done|by constructor]. Qed.

Lemma dirent_new i arg : chars arg -> dirent_bytes i (dirent_pad (skip_underscore arg)) = new_entry i (skip_underscore arg).
Proof. intros H. unfold new_entry. by rewrite dirent_pad_padded by (by apply chars_skip). Qed.

Lemma length_new i name : length (new_entry i name) = 16%nat.
Proof. unfold new_entry, dirent_bytes. by rewrite length_app, length_padded. Qed.

Lemma length_dirent i arg : chars arg -> length (dirent_bytes i (dirent_pad (skip_underscore arg))) = 16%nat.
Proof. intros H. by rewrite dirent_new, length_new. Qed.

(** One argument: a new inode, its directory entry, its contents. *)
Lemma add_file_run k arg args bs t img fb root cs tys : building t img (Z.of_nat (length (root :: cs)) + 1) fb None -> tree img fb (root :: cs) tys ->
  input k arg bs -> length root = (16 * (length cs + 2))%nat -> Z.of_nat (length cs) + 2 < NINODES ->
  let i := Z.of_nat (length cs) + 2 in let e := dirent_bytes i (dirent_pad (skip_underscore arg)) in
  nmeta + total ((root ++ e) :: cs ++ [bs]) <= FSSIZE ->
  exists t' img' fb', add_files k 1 (arg :: args) t = add_files k 1 args t' /\ building t' img' (i + 1) fb' None /\
    tree img' fb' ((root ++ e) :: cs ++ [bs]) (tys ++ [T_FILE]).
Proof.
  intros B T [I1 I2 I3 I4 I5] Hr Hn i e Hs.
  cbn [add_files].
  assert (length e = 16%nat) as Le by (by apply length_dirent).
  rewrite total_cons, total_app in Hs. pose proof (space_pos (Z.of_nat (length bs)) ltac:(lia)) as Sf.
  rewrite bool_decide_true by done. change (massert true) with (ret (S := mkst W) tt). change (bind (ret tt) ?f t) with (f tt t). cbv beta.
  destruct (in_open _ _ _ _ _ IN (mk_world t) arg bs I1) as (fd & w & R1 & Hfd & Hne & E1 & E2 & E3).
  rewrite (run_host _ _ _ _ _ R1), (proj2 (Z.ltb_ge fd 0) Hfd). pose proof (building_world _ _ _ _ _ _ _ B E1 E2 E3) as B1.
  destruct (tree_alloc _ _ _ _ (root :: cs) tys T_FILE B1 T) as (t2 & img2 & R2 & B2 & T2); [cbn [length]; lia|unfold T_FILE; lia|].
  rewrite (bind_ret_l _ _ _ _ _ R2). cbn [length] in *. replace (Z.of_nat (S (length cs)) + 1) with i in * by (unfold i; lia).
  unfold NINODES in Hn. rewrite xshort_id by (unfold i; lia). fold e.
  destruct (tree_append _ _ _ _ _ ((root :: cs) ++ [[]]) (tys ++ [T_FILE]) 0 root e B2 T2) as (t3 & img3 & fb3 & R3 & B3 & T3); [done| | |].
  { rewrite length_app. change (MAXFILE * BSIZE) with 71680. lia. }
  { cbn [app insert list_insert]. rewrite total_cons, total_app. change (space (blocks (Z.of_nat (length (@nil Z))))) with 0. lia. }
  assert (<[S (length cs) := [] ++ bs]> ((root ++ e) :: cs ++ [[]]) = (root ++ e) :: cs ++ [bs]) as Elast.
  { change ((root ++ e) :: <[length cs := bs]> (cs ++ [[]]) = (root ++ e) :: cs ++ [bs]). by rewrite insert_app_r_alt, Nat.sub_diag by lia. }
  change (Z.of_nat 0 + 1) with 1 in R3. rewrite (bind_ret_l _ _ _ _ _ R3). cbn [app insert list_insert] in T3.
  destruct (append_file_run k t3 img3 _ fb3 fd bs _ _ (S (length cs)) [] B3 T3) as (t4 & img4 & fb4 & R4 & B4 & T4); try done.
  { change ((cs ++ [[]]) !! length cs = Some (@nil Z)). by apply list_lookup_middle. }
  { rewrite Elast, total_cons, total_app. lia. }
  replace (Z.of_nat (S (length cs)) + 1) with i in R4 by (unfold i; lia). rewrite (bind_ret_l _ _ _ _ _ R4).
  destruct (in_close _ _ _ _ _ IN (mk_world t4) fd [] Hne (se_rest _ _ _ _ _ _ (bd_sees _ _ _ _ _ B4))) as (w5 & R5 & F1 & F2 & F3).
  rewrite (run_host _ _ _ _ _ R5). pose proof (building_world _ _ _ _ _ _ _ B4 F1 F2 F3) as B5.
  rewrite Elast in T4.
  replace (Z.of_nat (S (length cs)) + 2) with (i + 1) in B5 by (unfold i; lia). by eexists _, img4, fb4.
Qed.

Lemma add_files_run k args bss t img fb root cs tys : building t img (Z.of_nat (length (root :: cs)) + 1) fb None -> tree img fb (root :: cs) tys ->
  Forall2 (input k) args bss -> length root = (16 * (length cs + 2))%nat -> Z.of_nat (length cs + length args) + 1 < NINODES ->
  let i := Z.of_nat (length cs) + 2 in
  nmeta + total ((root ++ name_entries i args) :: cs ++ bss) <= FSSIZE ->
  exists t' img' fb', add_files k 1 args t = Ret tt t' /\ building t' img' (i + Z.of_nat (length args)) fb' None /\
    tree img' fb' ((root ++ name_entries i args) :: cs ++ bss) (tys ++ replicate (length args) T_FILE).
Proof.
  intros B T HF. revert t img fb root cs tys B T. induction HF as [|arg bs args bss HI HF IHF]; intros t img fb root cs tys B T Hr Hn i Hs.
  { cbn [name_entries length replicate]. rewrite !app_nil_r. exists t, img, fb. cbn [length] in B. replace (i + Z.of_nat 0) with (Z.of_nat (S (length cs)) + 1) by (unfold i; lia). done. }
  cbn [name_entries length] in *. set (e := dirent_bytes i (dirent_pad (skip_underscore arg))) in *.
  assert (length e = 16%nat) as Le by (apply length_dirent, HI). unfold NINODES in Hn.
  destruct (add_file_run k arg args bs t img fb root cs tys B T HI Hr) as (t1 & img1 & fb1 & R1 & B1 & T1); fold i; fold e.
  { unfold NINODES. lia. }
  { rewrite !total_cons, total_concat, total_cons in Hs. rewrite total_cons, total_app. pose proof (total_nonneg bss).
    pose proof (space_le (Z.of_nat (length (root ++ e))) (Z.of_nat (length (root ++ e ++ name_entries (i + 1) args))) ltac:(rewrite !length_app; lia)). lia. }
  fold i in B1. fold i e in T1. rewrite R1.
  assert (Z.of_nat (length (cs ++ [bs])) + 2 = i + 1) as Ei by (rewrite length_app; cbn [length]; unfold i; lia).
  replace (i + 1) with (Z.of_nat (S (length (cs ++ [bs]))) + 1) in B1 by lia.
  destruct (IHF _ img1 fb1 (root ++ e) (cs ++ [bs]) _ B1 T1) as (t6 & img6 & fb6 & R6 & B6 & T6); rewrite ?Ei, <- ?app_assoc.
  - rewrite !length_app. cbn [length]. lia.
  - rewrite length_app. cbn [length]. unfold NINODES. lia.
  - done.
  - exists t6, img6, fb6. split; [done|]. rewrite Ei in B6, T6. rewrite <- !app_assoc in T6. cbn [app replicate] in *.
    replace (i + Z.of_nat (S (length args))) with (i + 1 + Z.of_nat (length args)) by lia. done.
Qed.

(** ** main *)

Lemma zero_disk_run k t i fi fb r : sees t i (fun _ => blank) fi fb r -> 0 <= i -> i + Z.of_nat k <= FSSIZE ->
  exists t', zero_disk k i t = Ret tt t' /\ sees t' (i + Z.of_nat k) (fun _ => blank) fi fb r.
Proof.
  unfold FSSIZE. revert t i. induction k as [|k IHk]; intros t i S Hi Hk; [exists t; by rewrite Z.add_0_r|].
  destruct (wsect_run IH t i _ fi fb r i blank S ltac:(lia) ltac:(lia) (length_replicate _ _)) as (t1 & R1 & S1).
  cbn [zero_disk]. fold blank. rewrite (bind_ret_l _ _ _ _ _ R1). destruct (IHk t1 (i + 1)) as (t2 & R2 & S2); [|lia|lia|].
  - destruct S1 as [S1 S2 S3 S4 S5 S6]. constructor; try done; [|lia]. intros j Hj. rewrite S2 by lia. unfold upd. by destruct (j =? i).
  - exists t2. by replace (i + Z.of_nat (Datatypes.S k)) with (i + 1 + Z.of_nat k) by lia.
Qed.

(** The root directory after the entries of the directory itself. *)
Definition dots : list Z := dirent_bytes 1 (short_name (bytes ".")) ++ dirent_bytes 1 (short_name (bytes "..")).
Definition root_dir (args : list (list Z)) : list Z := dots ++ name_entries 2 args.

Lemma blank_tree img fb : img 1 = sb_bytes mk_sb -> (forall c, 1 < c -> img c = blank) -> fb = nmeta -> tree img fb [] [].
Proof.
  intros H HB ->. constructor; try done; [|intros k l _ Hk; cbn in Hk; lia].
  intros i Hi. pose proof (iblock_mk i ltac:(lia)) as Hib. unfold kind, dino. rewrite HB by lia. unfold get_dinode, get16, blank. cbn [di_type di_nlink]. by rewrite !nth_zeros.
Qed.

(** The disk before the first inode. *)
Lemma empty_run t fb : sees t FSSIZE (fun _ => blank) 1 fb None -> fb = nmeta ->
  exists t', wsect 1 (sb_bytes mk_sb) t = Ret tt t' /\ building t' (upd (fun _ => blank) 1 (sb_bytes mk_sb)) 1 nmeta None.
Proof.
  intros S ->. destruct (wsect_run IH t _ _ _ _ _ 1 (sb_bytes mk_sb) S) as (t' & R & S'); [unfold FSSIZE; lia|unfold FSSIZE; lia|reflexivity|].
  exists t'. split; [done|]. change (Z.max FSSIZE (1 + 1)) with FSSIZE in S'. assert (nmeta = 59) as EN by done. constructor; [done|unfold FSSIZE; lia| |].
  - intros c Hc. unfold upd. by rewrite (proj2 (Z.eqb_neq c 1)) by lia.
  - intros c. unfold upd. by destruct (c =? 1).
Qed.

(** The root directory with its first two entries. *)
Lemma root_run {B} t img (f : Z -> M (mkst W) B) : building t img 1 nmeta None -> tree img nmeta [] [] ->
  exists t' img' fb', (rootino <- mk_ialloc T_DIR ;; massert (rootino =? ROOTINO) ;;
    iappend rootino (dirent_bytes (xshort rootino) (short_name (bytes "."))) ;;
    iappend rootino (dirent_bytes (xshort rootino) (short_name (bytes ".."))) ;; f rootino) t = f 1 t' /\
    building t' img' 2 fb' None /\ tree img' fb' [dots] [T_DIR].
Proof.
  intros B1 T1. destruct (tree_alloc t img nmeta None [] [] T_DIR B1 T1 ltac:(done) ltac:(unfold T_DIR; lia)) as (t2 & img2 & R2 & B2 & T2).
  rewrite (bind_ret_l _ _ _ _ _ R2). change (Z.of_nat (length (@nil (list Z)))) with 0 in *. change (0 + 1) with 1. change (0 + 2) with 2 in B2. change (1 =? ROOTINO) with true. change (massert true) with (ret (S := mkst W) tt).
  change (bind (ret tt) ?g t2) with (g tt t2). cbv beta. change (xshort 1) with 1. cbn [app] in T2.
  destruct (tree_append _ _ _ _ _ [[]] [T_DIR] 0 [] (dirent_bytes 1 (short_name (bytes "."))) B2 T2) as (t3 & img3 & fb3 & R3 & B3 & T3); [done|by vm_compute|by vm_compute|].
  change (Z.of_nat 0 + 1) with 1 in R3. rewrite (bind_ret_l _ _ _ _ _ R3). cbn [insert list_insert app] in T3.
  destruct (tree_append _ _ _ _ _ _ [T_DIR] 0 (dirent_bytes 1 (short_name (bytes "."))) (dirent_bytes 1 (short_name (bytes ".."))) B3 T3) as (t4 & img4 & fb4 & R4 & B4 & T4); [done|by vm_compute|by vm_compute|].
  change (Z.of_nat 0 + 1) with 1 in R4. rewrite (bind_ret_l _ _ _ _ _ R4). by exists t4, img4, fb4.
Qed.

(** Everything before the size of the root directory is rounded. *)
Lemma mkfs_prefix k image args bss w fd0 : rest w = None -> Forall2 (input k) args bss -> Z.of_nat (length args) + 1 < NINODES ->
  nmeta + total (root_dir args :: bss) <= FSSIZE ->
  exists t img fb, mkfs_main k (image :: args) (mk_mkst w fd0 1 0) = (fix_root 1 ;; b <- gets mk_freeblock ;; mk_balloc b) t /\
    building t img (Z.of_nat (length args) + 2) fb None /\ tree img fb (root_dir args :: bss) (T_DIR :: replicate (length args) T_FILE).
Proof.
  intros Hr HI Hn Hs. unfold mkfs_main. destruct (ih_create _ _ _ _ _ IH w image) as (w1 & R1 & E1 & E2).
  erewrite run_host by exact R1. cbn [mk_fsfd mk_freeinode mk_freeblock].
  change (bind (set_fsfd fsfd) ?f (mk_mkst w1 fd0 1 0)) with (f tt (mk_mkst w1 fsfd 1 0)). cbv beta. rewrite (proj2 (Z.ltb_ge fsfd 0) (ih_fd _ _ _ _ _ IH)).
  assert (sees (mk_mkst w1 fsfd 1 0) 0 (fun _ => blank) 1 0 None) as S1 by (constructor; try done; [intros j Hj; lia|cbn; congruence]).
  match goal with |- context [bind (host (px_stdout _)) ?f _] => destruct (stdout_run IH _ _ _ _ _ _ nmeta_message f S1) as (t3 & R3 & S3); rewrite R3; clear R3 end.
  destruct t3 as [w3 f3 i3 b3]. change (bind (set_freeblock nmeta) ?f (mk_mkst w3 f3 i3 b3)) with (f tt (mk_mkst w3 f3 i3 nmeta)). cbv beta.
  assert (sees (mk_mkst w3 f3 i3 nmeta) 0 (fun _ => blank) 1 nmeta None) as S4 by (destruct S3; by constructor).
  destruct (zero_disk_run (Z.to_nat FSSIZE) _ 0 _ _ _ S4 ltac:(lia) ltac:(by vm_compute)) as (t5 & R5 & S5). rewrite (bind_ret_l _ _ _ _ _ R5).
  change (0 + Z.of_nat (Z.to_nat FSSIZE)) with FSSIZE in S5. destruct (empty_run t5 _ S5 eq_refl) as (t6 & R6 & B6). rewrite (bind_ret_l _ _ _ _ _ R6).
  assert (forall c, 1 < c -> upd (fun _ => blank) 1 (sb_bytes mk_sb) c = blank) as upd_blank by (intros c Hc; unfold upd; by rewrite (proj2 (Z.eqb_neq c 1)) by lia).
  destruct (root_run t6 _ (fun rootino => add_files k rootino args ;; fix_root rootino ;; b <- gets mk_freeblock ;; mk_balloc b) B6 (blank_tree _ _ eq_refl upd_blank eq_refl)) as (t7 & img7 & fb7 & R7 & B7 & T7).
  rewrite R7. clear R7.
  destruct (add_files_run k args bss t7 img7 fb7 dots [] [T_DIR] B7 T7 HI) as (t8 & img8 & fb8 & R8 & B8 & T8); [done|done|done|].
  rewrite (bind_ret_l _ _ _ _ _ R8). exists t8, img8, fb8. split; [done|]. split; [|done]. by replace (Z.of_nat (length args) + 2) with (Z.of_nat (length (@nil (list Z))) + 2 + Z.of_nat (length args)) by (cbn; lia).
Qed.

(** The bitmap completes the disk. *)
Lemma mk_balloc_run t img fi fb r : building t img fi fb r -> fb < BPB ->
  exists t', mk_balloc fb t = Ret tt t' /\ nsect (mk_world t') = FSSIZE /\ forall c, 0 <= c < FSSIZE -> sect (mk_world t') c = marked img fb c.
Proof.
  intros [S Hfb Hz Hl] Hlt. unfold mk_balloc.
  match goal with |- context [bind (host (px_stdout ?bs)) ?f _] => destruct (stdout_run IH _ _ _ _ _ _ bs f S) as (t1 & -> & S1) end.
  rewrite (proj2 (Z.ltb_lt fb (BSIZE * 8))) by (unfold BPB, BSIZE in *; lia). change (massert true) with (ret (S := mkst W) tt). change (bind (ret tt) ?g t1) with (g tt t1). cbv beta.
  match goal with |- context [bind (host (px_stdout ?bs)) ?f _] => destruct (stdout_run IH _ _ _ _ _ _ bs f S1) as (t2 & -> & S2) end.
  change (sb_bmapstart mk_sb) with 58.
  destruct (wsect_run IH t2 _ _ _ _ _ 58 (bitmap fb) S2) as (t3 & R3 & [Q1 Q2 Q3 Q4 Q5 Q6]); [unfold FSSIZE; lia|unfold FSSIZE; lia|unfold bitmap; by rewrite length_mark_used, length_replicate|].
  exists t3. split; [done|]. split; [done|]. exact Q2.
Qed.

End inputs.

(** ** The kernel on the image *)

(** The inode table, the bitmap and the blocks of the files, as the kernel sees them. *)
Record disk_tree (s : kstate) (cs : list (list Z)) (tys : list Z) : Prop := {
  dt_file : forall k bs, cs !! k = Some bs -> let d := disk_inode s (Z.of_nat k + 1) in
    file_ok nmeta s (node (Z.of_nat k + 1) d) /\ di_size d = Z.of_nat (length bs) /\
    forall o, 0 <= o < MAXFILE * BSIZE -> fbyte s (node (Z.of_nat k + 1) d) o = nth (Z.to_nat o) bs 0;
  dt_type : forall i, 0 < i < NINODES -> (di_type (disk_inode s i), di_nlink (disk_inode s i)) = kind_of tys i;
  dt_apart : forall k l, k <> l -> (k < length cs)%nat -> (l < length cs)%nat ->
    apart s (node (Z.of_nat k + 1) (disk_inode s (Z.of_nat k + 1))) (node (Z.of_nat l + 1) (disk_inode s (Z.of_nat l + 1)));
  dt_used : forall a, 0 <= a < FSSIZE -> used s a <-> a < nmeta + total cs;
}.

Lemma tree_view img fb cs tys s : tree img fb cs tys -> nmeta <= fb <= FSSIZE -> Z.of_nat (length cs) < NINODES ->
  sb s = mk_sb -> (forall c, 0 <= c < FSSIZE -> content s c = marked img fb c) -> disk_tree s cs tys.
Proof.
  intros [T1 T2 T3 T4 T5 T6] Hfb Hn Esb HC. unfold FSSIZE, NINODES in *. assert (nmeta = 59) as EN by done.
  assert (forall a, 0 <= a < 1000 -> used s a <-> used (kst img fb) a) as HU.
  { intros a Ha. unfold used. rewrite Esb. change (sb (kst img fb)) with mk_sb. assert (BBLOCK a mk_sb = 58) as ->; [unfold BBLOCK, BPB; by rewrite Z.div_small by lia|]. by rewrite HC by lia. }
  assert (forall i, 0 <= i < NINODES -> disk_inode s i = dino img i) as Ed'.
  { intros i Hi. unfold disk_inode, dino. rewrite Esb. pose proof (iblock_mk i Hi) as Hib. rewrite HC by lia. unfold marked. by rewrite (proj2 (Z.eqb_neq _ 58)) by lia. }
  assert (forall k, (k < length cs)%nat -> disk_inode s (Z.of_nat k + 1) = dino img (Z.of_nat k + 1)) as Ed by (intros k Hk; apply Ed'; unfold NINODES; lia).
  assert (forall k bs, cs !! k = Some bs -> file_ok nmeta s (fnode img (Z.of_nat k + 1)) /\ (forall bn, block_of s (fnode img (Z.of_nat k + 1)) bn = block_of (kst img fb) (fnode img (Z.of_nat k + 1)) bn) /\
    (forall o, 0 <= o < MAXFILE * BSIZE -> fbyte s (fnode img (Z.of_nat k + 1)) o = fbyte (kst img fb) (fnode img (Z.of_nat k + 1)) o)) as HF.
  { intros k bs Hk. pose proof (fa_file _ _ _ _ (T1 k bs Hk)) as F. apply (file_same nmeta (kst img fb)); [done|done| |].
    - intros c Hc. change (sb_size (sb (kst img fb))) with 1000 in Hc. apply HU. lia.
    - intros c Hc. apply (owned_data _ _ _ _ F), (data_range base img) in Hc; [|unfold FSSIZE; lia]. rewrite HC, kst_content by lia. done. }
  constructor.
  - intros k bs Hk d. destruct (HF k bs Hk) as (F1 & _ & F3). unfold d. rewrite Ed by (by eapply lookup_lt_Some). split; [done|].
    split; [apply (fa_size _ _ _ _ (T1 k bs Hk))|]. intros o Ho. etransitivity; [by apply F3|]. by apply (fa_bytes _ _ _ _ (T1 k bs Hk)).
  - intros i Hi. rewrite Ed' by lia. by apply T2.
  - intros k l Hkl Hk Hl c. rewrite !Ed by done. destruct (lookup_lt_is_Some_2 cs k Hk) as [bk Hbk], (lookup_lt_is_Some_2 cs l Hl) as [bl Hbl].
    destruct (HF k bk Hbk) as (_ & E1 & _), (HF l bl Hbl) as (_ & E2 & _). intros Hc Hc'. apply (T3 k l Hkl Hk Hl c); by eapply owns_blocks.
  - intros a Ha. rewrite <- T4, HU by done. apply kst_used; [lia|done].
Qed.

(** The file system of the image. *)
Lemma mk_layout s : sb s = mk_sb -> FSSIZE <= disksize <= 2 ^ 31 -> fs_layout nmeta s.
Proof.
  intros Esb Hd. unfold FSSIZE in Hd. assert (nmeta = 59) as EN by done. constructor; rewrite ?Esb, ?EN; [..|lia|].
  - change (sb_size mk_sb) with 1000. lia.
  - done.
  - change (sb_size mk_sb) with 1000. change (sb_bmapstart mk_sb + (1000 - 1) / BPB) with 58. lia.
  - change (sb_bmapstart mk_sb) with 58. change (sb_inodestart mk_sb + (sb_ninodes mk_sb - 1) / IPB) with 56. change (sb_inodestart mk_sb) with 32. lia.
Qed.

(** ** The name_entries of the root directory *)

(** The names in the root directory with their inodes. *)
Definition root_entries (args : list (list Z)) : list (Z * list Z) :=
  [(1, bytes "."); (1, bytes "..")] ++ imap (fun k arg => (Z.of_nat k + 2, skip_underscore arg)) args.

Lemma entries_concat args : forall i, Forall chars args ->
  name_entries i args = concat (imap (fun k arg => new_entry (i + Z.of_nat k) (skip_underscore arg)) args).
Proof.
  induction args as [|arg args IHa]; intros i H; [done|]. apply Forall_cons in H as [H1 H2]. cbn [name_entries imap concat]. rewrite dirent_new, IHa by done.
  f_equal; [f_equal; lia|]. f_equal. apply imap_ext. intros k y _. unfold compose. f_equal. lia.
Qed.

Lemma root_concat args : Forall chars args -> root_dir args = concat (map (fun r => new_entry r.1 r.2) (root_entries args)).
Proof.
  intros H. unfold root_dir, root_entries. rewrite map_app, concat_app, entries_concat by done. f_equal. f_equal.
  change (map ?f ?l) with (f <$> l). rewrite fmap_imap. apply imap_ext. intros k y _. unfold compose. cbn [fst snd]. f_equal. lia.
Qed.

Lemma length_concat_same {A} n (es : list (list A)) : Forall (fun e => length e = n) es -> length (concat es) = (n * length es)%nat.
Proof. induction 1 as [|e es He H IHe]; cbn [concat length]; [lia|]. rewrite length_app, IHe, He. lia. Qed.

(** Position [k] of a file of 16-byte entries. *)
Lemma concat_slot (es : list (list Z)) pad k e : Forall (fun e => length e = 16%nat) es -> es !! k = Some e ->
  map (fun o => nth (Z.to_nat o) (concat es ++ pad) 0) (seqZ (16 * Z.of_nat k) 16) = e.
Proof.
  intros H. revert k. induction H as [|e' es He H IHe]; intros [|k] Hk; try done.
  - injection Hk as ->. apply list_eq. intros i. rewrite list_lookup_fmap. destruct (decide (i < 16)%nat) as [Hi|Hi].
    + rewrite lookup_seqZ_lt by lia. cbn [fmap option_fmap option_map concat]. rewrite <- app_assoc, app_nth1 by lia.
      destruct (lookup_lt_is_Some_2 e i ltac:(lia)) as [v Hv]. rewrite Hv, nth_lookup. replace (Z.to_nat _) with i by lia. by rewrite Hv.
    + rewrite lookup_seqZ_ge by lia. by rewrite lookup_ge_None_2 by lia.
  - rewrite <- (IHe k Hk). replace (16 * Z.of_nat (S k)) with (16 + 16 * Z.of_nat k) by lia. rewrite <- fmap_add_seqZ. rewrite map_map. apply map_ext_in.
    intros o Ho%list_elem_of_In%elem_of_seqZ. cbn [concat]. rewrite <- app_assoc, app_nth2 by lia. f_equal. lia.
Qed.

(** The types of the inodes that mkfs makes. *)
Definition mk_types (n : nat) : list Z := T_DIR :: replicate n T_FILE.

Section tree.
Context (s : kstate) (args bss : list (list Z)).
Context (DT : disk_tree s (rounded (root_dir args) :: bss) (mk_types (length args))) (Esb : sb s = mk_sb).
Context (Hch : Forall chars args) (Hlen : length args = length bss) (Hn : Z.of_nat (length args) + 1 < NINODES).

Lemma mk_kind i : 0 < i < NINODES -> (di_type (disk_inode s i), di_nlink (disk_inode s i)) =
  if i =? 1 then (T_DIR, 1) else if i <=? Z.of_nat (length args) + 1 then (T_FILE, 1) else (0, 0).
Proof.
  intros Hi. rewrite (dt_type _ _ _ DT i Hi). unfold kind_of, mk_types. destruct (Z.eqb_spec i 1) as [->|Hne]; [done|].
  destruct (Z.to_nat (i - 1)) as [|k] eqn:Ek; [lia|]. change ((T_DIR :: replicate (length args) T_FILE) !! S k) with (replicate (length args) T_FILE !! k).
  destruct (Z.leb_spec i (Z.of_nat (length args) + 1)); [by rewrite lookup_replicate_2 by lia|]. by rewrite lookup_ge_None_2 by (rewrite length_replicate; lia).
Qed.

Lemma mk_type i : 0 < i < NINODES -> di_type (disk_inode s i) = if i =? 1 then T_DIR else if i <=? Z.of_nat (length args) + 1 then T_FILE else 0.
Proof. intros Hi. pose proof (f_equal fst (mk_kind i Hi)) as E. cbn [fst] in E. etransitivity; [exact E|]. destruct (i =? 1); [done|]. by destruct (i <=? _). Qed.

Lemma mk_live i : live s i <-> 0 < i <= Z.of_nat (length args) + 1.
Proof.
  unfold live. rewrite Esb. change (sb_ninodes mk_sb) with 200. unfold NINODES in Hn. split.
  - intros [Hi Ht]. rewrite mk_type in Ht by (unfold NINODES; lia). destruct (Z.eqb_spec i 1), (Z.leb_spec i (Z.of_nat (length args) + 1)); try done; lia.
  - intros Hi. split; [lia|]. rewrite mk_type by (unfold NINODES; lia). destruct (i =? 1); [done|]. by rewrite (proj2 (Z.leb_le _ _)) by lia.
Qed.

Lemma mk_file i : live s i -> exists bs, (rounded (root_dir args) :: bss) !! Z.to_nat (i - 1) = Some bs /\ file_ok nmeta s (inode_of s i) /\
  di_size (disk_inode s i) = Z.of_nat (length bs) /\ (forall o, 0 <= o < MAXFILE * BSIZE -> fbyte s (inode_of s i) o = nth (Z.to_nat o) bs 0) /\ di_nlink (disk_inode s i) = 1.
Proof.
  intros Hl. apply mk_live in Hl as Hi. destruct (lookup_lt_is_Some_2 (rounded (root_dir args) :: bss) (Z.to_nat (i - 1))) as [bs Hbs]; [cbn [length]; lia|].
  exists bs. split; [done|]. destruct (dt_file _ _ _ DT _ _ Hbs) as (F & Es & Ef). replace (Z.of_nat (Z.to_nat (i - 1)) + 1) with i in * by lia. split; [done|]. split; [done|]. split; [done|].
  unfold NINODES in Hn. pose proof (f_equal snd (mk_kind i ltac:(unfold NINODES; lia))) as E. rewrite (proj2 (Z.leb_le i _)) in E by lia. cbn [snd] in E. etransitivity; [exact E|]. by destruct (i =? 1).
Qed.

Lemma mk_root_size : di_size (disk_inode s 1) = Z.of_nat (length (rounded (root_dir args))) /\ file_ok nmeta s (inode_of s 1).
Proof. destruct (mk_file 1) as (bs & Hbs & F & Es & _); [apply mk_live; lia|]. by injection Hbs as <-. Qed.

Lemma length_slots : Forall (fun e : list Z => length e = 16%nat) (map (fun r : Z * list Z => new_entry r.1 r.2) (root_entries args)).
Proof. apply Forall_forall. intros e [r [-> _]]%list_elem_of_fmap. apply length_new. Qed.

(** The name_entries of the root directory as the kernel reads them. *)
Lemma mk_entry j : (j < nents (inode_of s 1))%nat ->
  entry s (inode_of s 1) j = match root_entries args !! j with Some r => new_entry r.1 r.2 | None => replicate 16 0 end.
Proof.
  intros Hj. destruct mk_root_size as [Es F]. destruct (nents_bound _ _ _ _ F Hj) as (B1 & B2 & B3). change (i_size (inode_of s 1)) with (di_size (disk_inode s 1)) in B2, B3.
  destruct (mk_file 1) as (bs & Hbs & _ & _ & Ef & _); [apply mk_live; lia|]. injection Hbs as <-.
  assert (entry s (inode_of s 1) j = map (fun o => nth (Z.to_nat o) (root_dir args) 0) (seqZ (16 * Z.of_nat j) 16)) as ->.
  { apply map_ext_in. intros o Ho%list_elem_of_In%elem_of_seqZ. rewrite Ef by (change (MAXFILE * BSIZE) with 71680; lia). apply rounded_nth. }
  pose proof length_slots as HF. rewrite root_concat by done. set (es := map _ (root_entries args)) in *.
  destruct (root_entries args !! j) as [r|] eqn:Er.
  - rewrite <- (app_nil_r (concat es)). apply concat_slot; [done|]. unfold es. change (map ?f ?l) with (f <$> l). by rewrite list_lookup_fmap, Er.
  - apply list_eq. intros k. rewrite list_lookup_fmap. destruct (decide (k < 16)%nat) as [Hk|Hk].
    + rewrite lookup_seqZ_lt, lookup_replicate_2 by lia. cbn [fmap option_fmap option_map]. f_equal. apply nth_overflow. apply lookup_ge_None in Er.
      rewrite (length_concat_same 16) by done. unfold es. rewrite length_map. lia.
    + rewrite lookup_seqZ_ge by lia. by rewrite lookup_ge_None_2 by (rewrite length_replicate; lia).
Qed.

Lemma root_entries_inum j r : root_entries args !! j = Some r -> 0 < r.1 <= Z.of_nat (length args) + 1.
Proof.
  unfold root_entries. intros [Hr|[Hj Hr]]%lookup_app_Some.
  - destruct j as [|[|j]]; [injection Hr as <-; cbn; lia..|done].
  - rewrite list_lookup_imap in Hr. destruct (args !! _) as [arg|] eqn:Ea; [|done]. injection Hr as <-. apply lookup_lt_Some in Ea. cbn [fst length] in *. lia.
Qed.

(** The image is a well-formed file system. *)
Lemma mk_fs_ok : FSSIZE <= disksize <= 2 ^ 31 -> fs_ok nmeta s.
Proof.
  intros Hd. constructor.
  - by apply mk_layout.
  - intros i Hl. destruct (mk_file i Hl) as (bs & _ & F & _ & _ & El). rewrite El. done.
  - intros i Hl Ht. assert (i = 1) as ->.
    { apply mk_live in Hl as Hi. unfold NINODES in Hn. rewrite mk_type in Ht by (unfold NINODES; lia). destruct (Z.eqb_spec i 1); [done|]. by rewrite (proj2 (Z.leb_le i _)) in Ht by lia. }
    split.
    + rewrite (proj1 mk_root_size), length_rounded. apply Z.mod_divide; [lia|]. exists ((Z.of_nat (length (root_dir args)) / 512 + 1) * 32). lia.
    + intros j Hj. rewrite mk_entry by done. destruct (root_entries args !! j) as [r|] eqn:Er; [|done]. pose proof (root_entries_inum j r Er) as Hr. unfold NINODES in Hn.
      rewrite new_entry_inum by lia. intros _. by apply mk_live.
Qed.

Lemma nents_root : (length args + 2 <= nents (inode_of s 1))%nat.
Proof.
  unfold nents. change (i_size (inode_of s 1)) with (di_size (disk_inode s 1)). rewrite (proj1 mk_root_size), length_rounded.
  assert (length (root_dir args) = (16 * (length args + 2))%nat) as ->; [|Z.div_mod_to_equations; lia].
  rewrite root_concat, (length_concat_same 16), length_map by (done || apply length_slots). unfold root_entries. rewrite length_app, length_imap. cbn [length]. lia.
Qed.

(** The path name of an input file. *)
Lemma mk_walk j arg : args !! j = Some arg -> NoDup (map (take DIRSIZ) (map snd (root_entries args))) ->
  walk s [take DIRSIZ (skip_underscore arg)] 1 = Some (Z.of_nat j + 2).
Proof.
  intros Ha Hnd. apply lookup_lt_Some in Ha as Hj. unfold NINODES in Hn. assert (root_entries args !! (j + 2)%nat = Some (Z.of_nat j + 2, skip_underscore arg)) as Er.
  { unfold root_entries. rewrite lookup_app_r by (cbn [length]; lia). cbn [length]. replace (j + 2 - 2)%nat with j by lia. by rewrite list_lookup_imap, Ha. }
  pose proof nents_root as Hne. assert (di_type (disk_inode s 1) = T_DIR) as Ht by (by rewrite mk_type by done).
  assert (forall k r, root_entries args !! k = Some r -> chars r.2) as Hcr.
  { intros k r. unfold root_entries. intros [Hr|[_ Hr]]%lookup_app_Some.
    - destruct k as [|[|k]]; [injection Hr as <-; by repeat constructor..|done].
    - rewrite list_lookup_imap in Hr. destruct (args !! (k - _)%nat) as [a|] eqn:E; [|done]. injection Hr as <-. eapply chars_skip, Forall_lookup_1; done. }
  assert (chars (take DIRSIZ (skip_underscore arg))) as Hc by (apply Forall_take, (Hcr _ _ Er)).
  assert (dir_find s 1 (take DIRSIZ (skip_underscore arg)) = Some (j + 2)%nat) as Hf.
  { apply find_index_Some. split.
    - eexists. split; [apply entries_lookup; lia|]. rewrite mk_entry, Er by lia. apply matches_new; [cbn [fst]; lia|done|apply (Hcr _ _ Er)|]. by rewrite take_take, Nat.min_id.
    - intros k e Hk He. rewrite entries_lookup in He by lia. injection He as <-. rewrite mk_entry by lia.
      destruct (lookup_lt_is_Some_2 (root_entries args) k) as [r Hr]; [apply lookup_lt_Some in Er; lia|]. rewrite Hr. apply not_true_iff_false. intros Hm.
      apply matches_new in Hm; [|pose proof (root_entries_inum k r Hr); lia|done|apply (Hcr _ _ Hr)]. rewrite take_take, Nat.min_id in Hm. cut (j + 2 = k)%nat; [lia|].
      eapply NoDup_lookup; [exact Hnd| |]; change (map ?f ?l) with (f <$> l); rewrite !list_lookup_fmap; [by rewrite Er|rewrite Hr; cbn [fmap option_fmap option_map snd]; by rewrite Hm]. }
  cbn [walk]. rewrite Ht, Z.eqb_refl, Hf, mk_entry, Er by lia. cbn [fst snd]. by rewrite new_entry_inum by lia.
Qed.

End tree.

End build.
