(* ===== verification/Crash.v ===== *)
(** * The writes of commit and of recovery, and crashes

    [commit] sends to the disk: the changed blocks to the log, the header with
    their numbers, the blocks to their homes, the cleared header.
    [recover_from_log] installs what a header on the disk names, and clears
    it.  A crash leaves a prefix of the writes of [commit]. *)

From S2P Require Import Prelude Mem KState Mmu Kalloc Vm File Proc Bio Layout Log ProcMem WaitSpec BioSpec.
From S2P Require Import LogSpec.

Section logcommit.
Context {LK : Linker} {FS : FsOps} {DK : Disk}.

(** The log of a transaction on the blocks [hs]: the header is at
    [lg_start], the log blocks after it, and the blocks [hs] elsewhere. *)
Record log_layout (l : logst) (hs : list Z) : Prop := {
  ll_dev : lg_dev l = 1;
  ll_n : lg_n l = Z.of_nat (length hs);
  ll_hs : take (length hs) (lg_block l) = hs;
  ll_max : Z.of_nat (length hs) <= LOGSIZE;
  ll_start : 0 <= lg_start l;
  ll_room : lg_start l + Z.of_nat (length hs) < disksize;
  ll_disk : disksize <= 2 ^ 31;
  ll_home : forall h, h ∈ hs ->
    0 <= h < disksize /\ (h < lg_start l \/ lg_start l + Z.of_nat (length hs) < h);
  ll_nodup : NoDup hs;
}.

(** The blocks [c h] of [hs], at consecutive addresses from [a]. *)
Fixpoint log_images (a : Z) (c : Z -> list Z) (hs : list Z) : list (Z * list Z) :=
  match hs with
  | [] => []
  | h :: hs' => (a, c h) :: log_images (a + 1) c hs'
  end.

(** The blocks of [hs], with the data found at consecutive addresses from [a]. *)
Fixpoint installs (a : Z) (c : Z -> list Z) (hs : list Z) : list (Z * list Z) :=
  match hs with
  | [] => []
  | h :: hs' => (h, c a) :: installs (a + 1) c hs'
  end.

Lemma log_images_ext a c c' hs : (forall h, h ∈ hs -> c h = c' h) -> log_images a c hs = log_images a c' hs.
Proof.
  revert a. induction hs as [|h hs IH]; intros a Hc; [done|]. cbn. f_equal; [f_equal; apply Hc; left|].
  apply IH. intros h' Hh. apply Hc. by right.
Qed.

Lemma installs_ext a c c' hs : (forall k, a <= k < a + Z.of_nat (length hs) -> c k = c' k) ->
  installs a c hs = installs a c' hs.
Proof.
  revert a. induction hs as [|h hs IH]; intros a Hc; [done|]. cbn [installs length] in *.
  f_equal; [f_equal; apply Hc; lia|]. apply IH. intros k Hk. apply Hc. lia.
Qed.

Lemma log_images_fst a c hs k : k ∈ (log_images a c hs).*1 -> a <= k < a + Z.of_nat (length hs).
Proof.
  revert a. induction hs as [|h hs IH]; intros a; [by intros ?%not_elem_of_nil|]. cbn [log_images length].
  rewrite fmap_cons. cbn [fst]. intros [->|Hk%IH]%elem_of_cons; lia.
Qed.

Lemma installs_fst a c hs : (installs a c hs).*1 = hs.
Proof. revert a. induction hs as [|h hs IH]; intros a; [done|]. cbn. f_equal. apply IH. Qed.

Lemma take_S_drop {A} (l hs : list A) t h hs' : take (length hs) l = hs -> drop t hs = h :: hs' -> l !! t = Some h.
Proof.
  intros Hl Hd. assert (hs !! t = Some h) as Ht.
  { rewrite <- (Nat.add_0_r t), <- lookup_drop, Hd. done. }
  rewrite <- Hl in Ht. apply lookup_take_Some in Ht as [Ht _]. done.
Qed.

Lemma drop_S_tail {A} (hs : list A) t h hs' : drop t hs = h :: hs' -> drop (S t) hs = hs'.
Proof. intros Hd. rewrite <- Nat.add_1_r, <- drop_drop, Hd. done. Qed.

(** ** write_log *)

Lemma write_log_loop_run l hs L me p t rest s : log_layout l hs -> klog s = l -> fscaller s me p ->
  binv s (p_pid p) [] -> dirty_in s L -> (length L < NBUF)%nat -> (forall h, h ∈ hs -> isdirty s h) ->
  drop t hs = rest ->
  exists s', write_log_loop (length rest) t s = Ret tt s' /\
    cache_step s s' me p (log_images (lg_start l + Z.of_nat t + 1) (content s) rest).
Proof.
  intros Hl. revert t s. induction rest as [|h rest IH]; intros t s Hk C I HL Hn Hd Ht.
  { exists s. split; [done|]. by apply cache_step_refl. }
  assert (t < length hs)%nat as Hlt.
  { assert (length (drop t hs) = S (length rest)) as E by (by rewrite Ht). rewrite length_drop in E. lia. }
  assert (h ∈ hs) as Hh by (rewrite <- (take_drop t hs), Ht; apply elem_of_app; right; left).
  destruct (ll_home _ _ Hl h Hh) as [Hhr Hho]. pose proof (ll_start _ _ Hl). pose proof (ll_room _ _ Hl).
  pose proof (ll_disk _ _ Hl). cbn [write_log_loop length]. krun. rewrite Hk, (ll_dev _ _ Hl).
  rewrite (u32_id 1), (u32_id (_ + 1)) by lia.
  destruct (copy_to_first s me p (lg_start l + Z.of_nat t + 1) h L)
    as (b & c & d & s1 & s2 & s3 & s4 & s5 & s6 & R1 & K1 & R2 & R3 & R4 & R5 & R6 & R7 & St);
    [done|done|lia|lia|done|done|done|left; by apply Hd|].
  rewrite (bind_ret_l _ _ _ _ _ R1). unfold log_block at 1, bind at 1. rewrite K1, Hk.
  rewrite (take_S_drop _ _ _ _ _ (ll_hs _ _ Hl) Ht), (u32_id h) by lia.
  rewrite (bind_ret_l _ _ _ _ _ R2), (bind_ret_l _ _ _ _ _ R3), (bind_ret_l _ _ _ _ _ R4),
    (bind_ret_l _ _ _ _ _ R5), (bind_ret_l _ _ _ _ _ R6), (bind_ret_l _ _ _ _ _ R7).
  assert (forall h', h' ∈ hs -> h' ∉ [(lg_start l + Z.of_nat t + 1, content s h)].*1) as Hnot.
  { intros h' Hh'. cbn. rewrite list_elem_of_singleton. destruct (ll_home _ _ Hl h' Hh') as [_ ?]. lia. }
  destruct (IH (S t) s6) as (s' & Hrun & Hs').
  - by rewrite (cache_step_klog _ _ _ _ _ St).
  - apply (ct_caller _ _ _ _ _ St).
  - apply (ct_inv _ _ _ _ _ St).
  - intros k [Hk' _]%(ct_dirty _ _ _ _ _ St). by apply HL.
  - done.
  - intros h' Hh'. apply (ct_dirty _ _ _ _ _ St). split; [by apply Hd|by apply Hnot].
  - by apply (drop_S_tail _ _ h).
  - exists s'. split; [done|]. cbn [log_images]. change (?x :: ?r) with ([x] ++ r).
    eapply cache_step_trans; [exact St|].
    rewrite (log_images_ext _ (content s) (content s6)).
    + replace (lg_start l + Z.of_nat t + 1 + 1) with (lg_start l + Z.of_nat (S t) + 1) by lia. done.
    + intros h' Hh'. rewrite (ct_content _ _ _ _ _ St). symmetry. apply disk_after_other, Hnot.
      rewrite <- (take_drop t hs), Ht. apply elem_of_app. right. by right.
Qed.

(** ** install_trans *)

Lemma install_trans_loop_run l hs L me p t rest s : log_layout l hs -> klog s = l -> fscaller s me p ->
  binv s (p_pid p) [] -> dirty_in s L -> (length L < NBUF)%nat ->
  (forall h, h ∈ rest -> isdirty s h \/ (S (length L) < NBUF)%nat) -> drop t hs = rest ->
  exists s', install_trans_loop (length rest) t s = Ret tt s' /\
    cache_step s s' me p (installs (lg_start l + Z.of_nat t + 1) (content s) rest).
Proof.
  intros Hl. revert t s. induction rest as [|h rest IH]; intros t s Hk C I HL Hn Hd Ht.
  { exists s. split; [done|]. by apply cache_step_refl. }
  assert (t < length hs)%nat as Hlt.
  { assert (length (drop t hs) = S (length rest)) as E by (by rewrite Ht). rewrite length_drop in E. lia. }
  assert (forall h', h' ∈ h :: rest -> h' ∈ hs) as Hin.
  { intros h' Hh'. rewrite <- (take_drop t hs), Ht. apply elem_of_app. by right. }
  assert (h ∉ rest) as Hnd.
  { pose proof (ll_nodup _ _ Hl) as N. rewrite <- (take_drop t hs), Ht in N.
    apply NoDup_app in N as (_ & _ & N). by apply NoDup_cons in N as [? _]. }
  destruct (ll_home _ _ Hl h (Hin h ltac:(left))) as [Hhr Hho]. pose proof (ll_start _ _ Hl).
  pose proof (ll_room _ _ Hl). pose proof (ll_disk _ _ Hl). cbn [install_trans_loop length]. krun.
  rewrite Hk, (ll_dev _ _ Hl). rewrite (u32_id 1), (u32_id (_ + 1)) by lia.
  destruct (copy_to_second s me p (lg_start l + Z.of_nat t + 1) h L)
    as (b & c & d & s1 & s2 & s3 & s4 & s5 & s6 & R1 & K1 & R2 & R3 & R4 & R5 & R6 & R7 & St);
    [done|done|lia|lia|done|done|done|apply Hd; left|].
  rewrite (bind_ret_l _ _ _ _ _ R1). unfold log_block at 1, bind at 1. rewrite K1, Hk.
  rewrite (take_S_drop _ _ _ _ _ (ll_hs _ _ Hl) Ht), (u32_id h) by lia.
  rewrite (bind_ret_l _ _ _ _ _ R2), (bind_ret_l _ _ _ _ _ R3), (bind_ret_l _ _ _ _ _ R4),
    (bind_ret_l _ _ _ _ _ R5), (bind_ret_l _ _ _ _ _ R6), (bind_ret_l _ _ _ _ _ R7).
  destruct (IH (S t) s6) as (s' & Hrun & Hs').
  - by rewrite (cache_step_klog _ _ _ _ _ St).
  - apply (ct_caller _ _ _ _ _ St).
  - apply (ct_inv _ _ _ _ _ St).
  - intros k [Hk' _]%(ct_dirty _ _ _ _ _ St). by apply HL.
  - done.
  - intros h' Hh'. destruct (Hd h' ltac:(by right)) as [Hdd|]; [|by right]. left.
    apply (ct_dirty _ _ _ _ _ St). split; [done|]. cbn. rewrite list_elem_of_singleton. by intros ->.
  - by apply (drop_S_tail _ _ h).
  - exists s'. split; [done|]. cbn [installs]. change (?x :: ?r) with ([x] ++ r).
    eapply cache_step_trans; [exact St|].
    rewrite (installs_ext _ (content s) (content s6)).
    + replace (lg_start l + Z.of_nat t + 1 + 1) with (lg_start l + Z.of_nat (S t) + 1) by lia. done.
    + intros k Hk'. rewrite (ct_content _ _ _ _ _ St). symmetry. apply disk_after_other. cbn.
      rewrite list_elem_of_singleton. intros ->.
      assert (length (drop t hs) = S (length rest)) as E by (by rewrite Ht). rewrite length_drop in E. lia.
Qed.

(** ** The header *)

(** The header block [d] with the block numbers [hs]. *)
Definition header (d : list Z) (hs : list Z) : list Z := put_words (put32 d 0 (Z.of_nat (length hs))) 4 hs.

Lemma length_header d hs : length d = Z.to_nat BSIZE -> Z.of_nat (length hs) <= LOGSIZE ->
  length (header d hs) = Z.to_nat BSIZE.
Proof.
  intros Hd Hn. unfold header. change LOGSIZE with 30 in Hn. change (Z.to_nat BSIZE) with 512%nat in *.
  rewrite length_put_words; rewrite length_put32; lia.
Qed.

Lemma write_head_run l hs L me p s : log_layout l hs -> klog s = l -> fscaller s me p ->
  binv s (p_pid p) [] -> dirty_in s L -> (length L < NBUF)%nat ->
  exists s', write_head s = Ret tt s' /\
    cache_step s s' me p [(lg_start l, header (content s (lg_start l)) hs)].
Proof.
  intros Hl Hk C I HL Hn. pose proof (length_content _ _ _ (lg_start l) I) as Hlen. pose proof (ll_start _ _ Hl). pose proof (ll_room _ _ Hl). pose proof (ll_disk _ _ Hl).
  pose proof (ll_max _ _ Hl).
  destruct (put_block s me p (lg_start l) L (header (content s (lg_start l)) hs))
    as (b & x & s1 & s2 & s3 & s' & R1 & Hx & Dx & R2 & R3 & R4 & St); [done|done|lia|done|done|by apply length_header|].
  exists s'. split; [|done]. unfold write_head. krun. rewrite Hk, (ll_dev _ _ Hl).
  rewrite (u32_id 1), (u32_id (lg_start l)) by lia. rewrite (bind_ret_l _ _ _ _ _ R1). unfold buf_data. krun.
  rewrite (run_buf_at _ _ _ _ Hx). krun. rewrite (ll_n _ _ Hl), (proj2 (Z.ltb_ge _ _)) by lia.
  rewrite Nat2Z.id, (ll_hs _ _ Hl), Dx. fold (header (content s (lg_start l)) hs).
  by rewrite (bind_ret_l _ _ _ _ _ R2), (bind_ret_l _ _ _ _ _ R3).
Qed.

(** ** commit *)

(** The writes of a commit of the blocks [hs] with contents [c]. *)
Definition commit_writes (st : Z) (c : Z -> list Z) (hs : list Z) : list (Z * list Z) :=
  log_images (st + 1) c hs ++ [(st, header (c st) hs)] ++
  map (fun h => (h, c h)) hs ++ [(st, header (header (c st) hs) [])].

Lemma cache_step_set_klog l s s' me p ws : cache_step s s' me p ws ->
  cache_step (set_klog l s) (set_klog l s') me p ws.
Proof.
  intros [A1 A2 A3 A4 A5 A6]. constructor; try done.
  - destruct A1. by constructor.
  - destruct A2. by constructor.
  - rewrite A3 at 1. by knorm.
Qed.

(** Blocks copied to the log and back. *)
Lemma installs_images a c d hs : installs a (disk_after d (log_images a c hs)) hs = map (fun h => (h, c h)) hs.
Proof.
  revert a d. induction hs as [|h hs IH]; intros a d; [done|]. cbn [installs log_images map]. f_equal.
  - f_equal. cbn. rewrite (disk_after_other _ (log_images (a + 1) c hs)); [by rewrite Z.eqb_refl|].
    intros Hk%log_images_fst. lia.
  - apply (IH (a + 1) (fun b => if b =? a then c h else d b)).
Qed.

Lemma map_pair_fst (c : Z -> list Z) hs : (map (fun h => (h, c h)) hs).*1 = hs.
Proof. induction hs as [|h hs IH]; [done|]. cbn. f_equal. exact IH. Qed.

Lemma log_layout_clear l hs : log_layout l hs -> log_layout (set_lg_n 0 l) [].
Proof.
  intros [H1 H2 H3 H4 H5 H6 H7 H8 H9]. constructor; try done; ksimpl.
  - cbn [length]. lia.
  - by intros h ?%not_elem_of_nil.
  - constructor.
Qed.

Lemma home_not_log l hs h c : log_layout l hs -> h ∈ hs ->
  h ∉ (log_images (lg_start l + 1) c hs ++ [(lg_start l, header (c (lg_start l)) hs)]).*1.
Proof.
  intros Hl Hh. destruct (ll_home _ _ Hl h Hh) as [_ Hho]. rewrite fmap_app, elem_of_app. cbn.
  rewrite list_elem_of_singleton. intros [?%log_images_fst| ->]; lia.
Qed.

(** The blocks and the header are in the log: the transaction is committed. *)
Lemma commit_logs l hs me p s : log_layout l hs -> klog s = l -> (length hs < NBUF)%nat ->
  fscaller s me p -> binv s (p_pid p) [] -> (forall k, isdirty s k <-> k ∈ hs) ->
  exists s1 s2, write_log s = Ret tt s1 /\ write_head s1 = Ret tt s2 /\
    cache_step s s2 me p (log_images (lg_start l + 1) (content s) hs ++
                          [(lg_start l, header (content s (lg_start l)) hs)]).
Proof.
  intros Hl Hk Hn C I Hd.
  destruct (write_log_loop_run l hs hs me p 0 hs s) as (s1 & R1 & S1); try done; [intros k; apply Hd|intros h; apply Hd|].
  rewrite Z.add_0_r in S1.
  destruct (write_head_run l hs hs me p s1) as (s2 & R2 & S2); [done|by rewrite (cache_step_klog _ _ _ _ _ S1)|
    apply (ct_caller _ _ _ _ _ S1)|apply (ct_inv _ _ _ _ _ S1)| |done|].
  { intros k [Hk' _]%(ct_dirty _ _ _ _ _ S1). by apply Hd. }
  rewrite (ct_content _ _ _ _ _ S1), (disk_after_other _ (log_images _ _ _)) in S2 by (intros ?%log_images_fst; lia).
  exists s1, s2. split; [|split; [done|by eapply cache_step_trans]].
  unfold write_log. krun. by rewrite Hk, (ll_n _ _ Hl), Nat2Z.id.
Qed.

(** The blocks are at their homes. *)
Lemma commit_installs l hs me p s s2 : log_layout l hs -> klog s = l -> (length hs < NBUF)%nat ->
  (forall k, isdirty s k <-> k ∈ hs) ->
  cache_step s s2 me p (log_images (lg_start l + 1) (content s) hs ++
                        [(lg_start l, header (content s (lg_start l)) hs)]) ->
  exists s3, install_trans s2 = Ret tt s3 /\ cache_step s2 s3 me p (map (fun h => (h, content s h)) hs) /\
    (forall k, ~ isdirty s3 k).
Proof.
  intros Hl Hk Hn Hd S2.
  assert (forall k, isdirty s2 k <-> k ∈ hs) as Hd2.
  { intros k. rewrite (ct_dirty _ _ _ _ _ S2), Hd. split; [by intros [? _]|]. intros Hh. split; [done|by apply home_not_log]. }
  destruct (install_trans_loop_run l hs hs me p 0 hs s2) as (s3 & R3 & S3); [done| | | | |done| |done|].
  { by rewrite (cache_step_klog _ _ _ _ _ S2). }
  { apply (ct_caller _ _ _ _ _ S2). }
  { apply (ct_inv _ _ _ _ _ S2). }
  { intros k. apply Hd2. }
  { intros h Hh. left. by apply Hd2. }
  rewrite Z.add_0_r in S3. exists s3. split; [|split].
  - unfold install_trans. krun. by rewrite (cache_step_klog _ _ _ _ _ S2), Hk, (ll_n _ _ Hl), Nat2Z.id.
  - rewrite (installs_ext _ _ (disk_after (content s) (log_images (lg_start l + 1) (content s) hs))) in S3.
    + by rewrite installs_images in S3.
    + intros k Hk'. rewrite (ct_content _ _ _ _ _ S2), disk_after_app. cbn. by rewrite (proj2 (Z.eqb_neq _ _)) by lia.
  - intros k [Hk' Hk'']%(ct_dirty _ _ _ _ _ S3). rewrite installs_fst in Hk''. by apply Hk'', Hd2.
Qed.

Lemma commit_run l hs me p s : log_layout l hs -> klog s = l -> hs <> [] -> (length hs < NBUF)%nat ->
  fscaller s me p -> binv s (p_pid p) [] -> (forall k, isdirty s k <-> k ∈ hs) ->
  exists s', commit s = Ret tt s' /\
    cache_step (set_klog (set_lg_n 0 l) s) s' me p (commit_writes (lg_start l) (content s) hs) /\
    (forall k, ~ isdirty s' k).
Proof.
  intros Hl Hk Hne Hn C I Hd.
  destruct (commit_logs l hs me p s) as (s1 & s2 & R1 & R2 & S2); [done..|].
  destruct (commit_installs l hs me p s s2) as (s3 & R3 & S3 & Hc3); [done..|].
  pose proof (cache_step_trans _ _ _ _ _ _ _ S2 S3) as S23.
  pose proof (cache_step_set_klog (set_lg_n 0 l) _ _ _ _ _ S23) as S4.
  destruct (write_head_run (set_lg_n 0 l) [] [] me p (set_klog (set_lg_n 0 l) s3)) as (s' & R5 & S5);
    [by eapply log_layout_clear|done|apply (ct_caller _ _ _ _ _ S4)|apply (ct_inv _ _ _ _ _ S4)| |by apply Nat.ltb_lt|].
  { intros k Hk'. by destruct (Hc3 k). }
  exists s'. split; [|split].
  - unfold commit. krun. rewrite Hk, (ll_n _ _ Hl), (proj2 (Z.ltb_lt _ _)) by (destruct hs; [done|cbn; lia]).
    unfold when. rewrite (bind_ret_l _ _ _ _ _ R1), (bind_ret_l _ _ _ _ _ R2), (bind_ret_l _ _ _ _ _ R3).
    unfold upd_log. krun. by rewrite (cache_step_klog _ _ _ _ _ S23), Hk.
  - unfold commit_writes. rewrite !app_assoc. eapply cache_step_trans; [exact S4|].
    change (content (set_klog ?l ?s)) with (content s) in S5. ksimpl_in S5.
    rewrite (ct_content _ _ _ _ _ S23), disk_after_app in S5. rewrite disk_after_other in S5.
    + rewrite disk_after_app in S5. cbn in S5. by rewrite Z.eqb_refl in S5.
    + rewrite map_pair_fst. intros Hh. destruct (ll_home _ _ Hl _ Hh) as [_ ?]. lia.
  - intros k [Hk' _]%(ct_dirty _ _ _ _ _ S5). by destruct (Hc3 k).
Qed.

(** ** Recovery *)

(** The block numbers of a header. *)
Definition header_count (d : list Z) : Z := i32 (get32 d 0).
Definition header_blocks (d : list Z) : list Z := map i32 (get_words d 4 (Z.to_nat (header_count d))).

(** The in-memory log after [read_head]. *)
Definition read_log (d : list Z) (l : logst) : logst :=
  set_lg_block (header_blocks d ++ drop (Z.to_nat (header_count d)) (lg_block l)) (set_lg_n (header_count d) l).

(** The writes of the recovery of a disk. *)
Definition recover_writes (st : Z) (d : Z -> list Z) : list (Z * list Z) :=
  installs (st + 1) d (header_blocks (d st)) ++ [(st, header (d st) [])].

Lemma read_head_run l me p s : klog s = l -> lg_dev l = 1 -> 0 <= lg_start l < disksize -> disksize <= 2 ^ 31 ->
  fscaller s me p -> binv s (p_pid p) [] -> dirty_in s [] ->
  header_count (content s (lg_start l)) <= LOGSIZE ->
  exists s', read_head s = Ret tt s' /\
    cache_step (set_klog (read_log (content s (lg_start l)) l) s) s' me p [].
Proof.
  intros Hk Hdev Hst Hds C I HL Hn.
  destruct (get_block s me p (lg_start l) []) as (b & x & s1 & R1 & Hx & Dx & K1 & Hrel); [done|done|done|done|by apply Nat.ltb_lt|].
  destruct (Hrel (read_log (content s (lg_start l)) l)) as (s' & R2 & St). exists s'. split; [|done].
  unfold read_head. krun. rewrite Hk, Hdev, (u32_id 1), (u32_id (lg_start l)) by lia.
  rewrite (bind_ret_l _ _ _ _ _ R1). unfold buf_data. krun. rewrite (run_buf_at _ _ _ _ Hx). unfold upd_log. krun.
  rewrite Dx. fold (header_count (content s (lg_start l))). rewrite (proj2 (Z.ltb_ge _ _)) by lia. krun.
  rewrite <- R2. f_equal. unfold read_log. rewrite K1, Hk. by knorm.
Qed.

Lemma recover_run l me p s : klog s = l -> fscaller s me p -> binv s (p_pid p) [] -> dirty_in s [] ->
  log_layout (read_log (content s (lg_start l)) l) (header_blocks (content s (lg_start l))) ->
  exists s' l', recover_from_log s = Ret tt s' /\
    cache_step (set_klog l' s) s' me p (recover_writes (lg_start l) (content s)) /\
    lg_n l' = 0 /\ (forall k, ~ isdirty s' k).
Proof.
  intros Hk C I HL Hl. set (d := content s (lg_start l)) in *. set (l1 := read_log d l) in *.
  set (hs := header_blocks d) in *. pose proof (ll_start _ _ Hl) as Hst. pose proof (ll_room _ _ Hl) as Hrm.
  pose proof (ll_max _ _ Hl) as Hmx. pose proof (ll_n _ _ Hl) as Hn. unfold l1, read_log in Hst, Hrm, Hn. ksimpl_all.
  destruct (read_head_run l me p s) as (s1 & R1 & S1); [done|exact (ll_dev _ _ Hl)|lia|apply (ll_disk _ _ Hl)|done|done|done|fold d; lia|].
  fold d l1 in S1.
  destruct (install_trans_loop_run l1 hs [] me p 0 hs s1) as (s2 & R2 & S2); [done| | | | |by apply Nat.ltb_lt|right; by apply Nat.ltb_lt|done|].
  { by rewrite (cache_step_klog _ _ _ _ _ S1). }
  { apply (ct_caller _ _ _ _ _ S1). }
  { apply (ct_inv _ _ _ _ _ S1). }
  { intros k [Hk' _]%(ct_dirty _ _ _ _ _ S1). by apply HL. }
  rewrite Z.add_0_r in S2.
  pose proof (cache_step_set_klog (set_lg_n 0 l1) _ _ _ _ _ (cache_step_trans _ _ _ _ _ _ _ S1 S2)) as S3.
  destruct (write_head_run (set_lg_n 0 l1) [] [] me p (set_klog (set_lg_n 0 l1) s2)) as (s' & R5 & S5);
    [by eapply log_layout_clear|done|apply (ct_caller _ _ _ _ _ S3)|apply (ct_inv _ _ _ _ _ S3)| |by apply Nat.ltb_lt|].
  { intros k [[Hk' _]%(ct_dirty _ _ _ _ _ S1) _]%(ct_dirty _ _ _ _ _ S2). by apply HL. }
  assert (forall k, content s1 k = content s k) as E1 by (intros k; by rewrite (ct_content _ _ _ _ _ S1)).
  exists s', (set_lg_n 0 l1). split; [|split; [|split; [done|]]].
  - unfold recover_from_log. rewrite (bind_ret_l _ _ _ _ _ R1). unfold install_trans, upd_log. krun.
    rewrite (cache_step_klog _ _ _ _ _ S1). ksimpl. rewrite (ll_n _ _ Hl), Nat2Z.id.
    rewrite (bind_ret_l _ _ _ _ _ R2). krun.
    by rewrite (cache_step_klog _ _ _ _ _ S2), (cache_step_klog _ _ _ _ _ S1).
  - unfold recover_writes. fold d hs. eapply cache_step_trans.
    + rewrite (installs_ext _ _ (content s1)) by (intros k _; by rewrite E1). exact S3.
    + replace (header d []) with (header (content s2 (lg_start l)) []); [exact S5|]. f_equal.
      rewrite (ct_content _ _ _ _ _ S2), disk_after_other; [apply E1|]. rewrite installs_fst. intros Hh.
      destruct (ll_home _ _ Hl _ Hh) as [_ Ho]. unfold l1, read_log in Ho. ksimpl_in Ho. lia.
  - intros k [[[Hk' _]%(ct_dirty _ _ _ _ _ S1) _]%(ct_dirty _ _ _ _ _ S2) _]%(ct_dirty _ _ _ _ _ S5).
    by eapply not_elem_of_nil, HL.
Qed.

End logcommit.

(** * A crash during commit

    The disk of a machine that stops after any number of the writes of a
    commit, recovered at the next boot, holds outside the log either the
    blocks from before the transaction or all the blocks of the
    transaction. *)

Section crash.
Context {LK : Linker} {FS : FsOps} {DK : Disk}.

(** ** The header can be read back *)

Lemma header_count_header d hs : length d = Z.to_nat BSIZE -> Z.of_nat (length hs) <= LOGSIZE ->
  header_count (header d hs) = Z.of_nat (length hs).
Proof.
  change LOGSIZE with 30. change (Z.to_nat BSIZE) with 512%nat. intros Hd Hn. unfold header_count, header.
  rewrite get32_put_words_other by (rewrite ?length_put32; lia). rewrite get32_put32 by lia. apply i32_id. lia.
Qed.

Lemma header_blocks_header d hs : length d = Z.to_nat BSIZE -> Z.of_nat (length hs) <= LOGSIZE ->
  (forall h, h ∈ hs -> 0 <= h < 2 ^ 31) -> header_blocks (header d hs) = hs.
Proof.
  intros Hd Hn Hh. unfold header_blocks. rewrite header_count_header by done. rewrite Nat2Z.id. unfold header.
  change LOGSIZE with 30 in Hn. change (Z.to_nat BSIZE) with 512%nat in Hd.
  rewrite get_put_words.
  - clear Hd Hn. induction hs as [|h hs IH]; [done|]. cbn. f_equal; [apply i32_id; specialize (Hh h ltac:(left)); lia|].
    apply IH. intros k Hk. apply Hh. by right.
  - rewrite length_put32; lia.
  - apply Forall_forall. intros h Hin. specialize (Hh h Hin). lia.
Qed.

(** ** Prefixes of the writes *)

Section atomic.
Context (st : Z) (hs : list Z) (c d : Z -> list Z).
Hypothesis Hmax : Z.of_nat (length hs) <= LOGSIZE.
Hypothesis Hhome : forall h, h ∈ hs -> 0 <= h < 2 ^ 31 /\ (h < st \/ st + Z.of_nat (length hs) < h).
Hypothesis Hlen : length (c st) = Z.to_nat BSIZE.

(** Block [k] is not in the log. *)
Definition outside (k : Z) : Prop := k < st \/ st + Z.of_nat (length hs) < k.

Definition homes : list (Z * list Z) := map (fun h => (h, c h)) hs.

Lemma prefix_cases ws ws' : commit_writes st c hs = ws ++ ws' ->
  (exists m, log_images (st + 1) c hs = ws ++ m) \/
  (exists m1 m2, homes = m1 ++ m2 /\ ws = log_images (st + 1) c hs ++ [(st, header (c st) hs)] ++ m1) \/
  ws = commit_writes st c hs.
Proof.
  unfold commit_writes. fold homes. intros E.
  apply app_eq_inv in E as [(m & E1 & E2)|(m & E1 & E2)]; [left; by exists m|].
  destruct m as [|w m]; cbn in E2; [left; exists []; by rewrite E1, !app_nil_r|].
  injection E2 as <- E2. subst ws. right.
  apply app_eq_inv in E2 as [(m1 & E3 & E4)|(m1 & E3 & E4)]; [left; by exists m, m1|].
  destruct m1 as [|w m1]; cbn in E4.
  - left. exists m, []. by rewrite app_nil_r in E3 |- *.
  - right. injection E4 as <- E4. destruct m1; [|done]. by rewrite E3.
Qed.

Lemma homes_fst : homes.*1 = hs.
Proof. apply map_pair_fst. Qed.

Lemma homes_prefix m1 m2 k : homes = m1 ++ m2 -> k ∈ m1.*1 -> k ∈ hs.
Proof. intros E Hk. rewrite <- homes_fst, E, fmap_app. apply elem_of_app. by left. Qed.

Lemma home_outside k : k ∈ hs -> outside k.
Proof. intros Hk. apply (Hhome k Hk). Qed.

(** Before the header is written nothing has changed outside the log. *)
Lemma before_commit ws m : log_images (st + 1) c hs = ws ++ m ->
  disk_after d ws st = d st /\ forall k, outside k -> disk_after d ws k = d k.
Proof using. clear Hmax Hhome Hlen.
  intros E. assert (forall k, k ∈ ws.*1 -> st + 1 <= k < st + 1 + Z.of_nat (length hs)) as Hin.
  { intros k Hk. apply (log_images_fst _ c). rewrite E, fmap_app. apply elem_of_app. by left. }
  split; [|intros k Hk]; apply disk_after_other; intros Hk'%Hin; unfold outside in *; lia.
Qed.

(** The disk after the header and some of the homes have been written. *)
Lemma after_header m1 m2 : homes = m1 ++ m2 ->
  let D := disk_after d (log_images (st + 1) c hs ++ [(st, header (c st) hs)] ++ m1) in
  D st = header (c st) hs /\ installs (st + 1) D hs = homes /\
  forall k, outside k -> D k = d k \/ k ∈ hs.
Proof.
  intros E D. unfold D. rewrite !disk_after_app. cbn [disk_after foldl fst snd]. split; [|split].
  - rewrite disk_after_other; [by rewrite Z.eqb_refl|]. intros Hk%(homes_prefix _ _ _ E)%home_outside. unfold outside in *. lia.
  - rewrite (installs_ext _ _ (disk_after d (log_images (st + 1) c hs))); [apply installs_images|].
    intros k Hk. rewrite disk_after_other; [by rewrite (proj2 (Z.eqb_neq _ _)) by lia|].
    intros Hk'%(homes_prefix _ _ _ E)%home_outside. unfold outside in *. lia.
  - intros k Hk. destruct (decide (k ∈ hs)) as [|Hn]; [by right|left]. rewrite disk_after_other.
    + unfold outside in Hk. rewrite (proj2 (Z.eqb_neq _ _)) by lia. apply disk_after_other. intros ?%log_images_fst. lia.
    + by intros ?%(homes_prefix _ _ _ E).
Qed.

(** All the writes go to the log or to the homes. *)
Lemma commit_writes_fst k : k ∈ (commit_writes st c hs).*1 -> ~ outside k \/ k ∈ hs.
Proof using. clear Hmax Hhome Hlen.
  unfold commit_writes. fold homes. rewrite !fmap_app, homes_fst, !elem_of_app. cbn. rewrite !list_elem_of_singleton.
  unfold outside. intros [?%log_images_fst|[->|[?| ->]]]; [left; lia|left; lia|by right|left; lia].
Qed.

Lemma commit_done k : outside k -> disk_after d (commit_writes st c hs) k = disk_after d homes k.
Proof using. clear Hmax Hhome Hlen.
  unfold outside. intros Hk. unfold commit_writes. fold homes. rewrite !disk_after_app.
  cbn [disk_after foldl fst snd]. rewrite (proj2 (Z.eqb_neq k st)) by lia. apply disk_after_agree. left.
  rewrite (proj2 (Z.eqb_neq _ _)) by lia. apply disk_after_other. intros ?%log_images_fst. lia.
Qed.

(** The recovery of a disk whose header is clear changes nothing outside the log. *)
Lemma recover_clear D k : header_count (D st) = 0 -> outside k -> disk_after D (recover_writes st D) k = D k.
Proof using. clear Hmax Hhome Hlen.
  intros E Hk. unfold recover_writes.
  assert (header_blocks (D st) = []) as -> by (unfold header_blocks; by rewrite E). cbn. unfold outside in Hk. by rewrite (proj2 (Z.eqb_neq _ _)) by lia.
Qed.

Lemma crash_recover ws ws' : header_count (d st) = 0 -> commit_writes st c hs = ws ++ ws' ->
  let D := disk_after d ws in
  let R := disk_after D (recover_writes st D) in
  (header_count (D st) = 0 \/ D st = header (c st) hs) /\
  ((forall k, outside k -> R k = d k) \/ (forall k, outside k -> R k = disk_after d homes k)).
Proof.
  intros Hclr E D R. assert (forall h, h ∈ hs -> 0 <= h < 2 ^ 31) as Hr by (intros h Hh; apply (Hhome h Hh)).
  destruct (prefix_cases ws ws' E) as [(m & Em)|[(m1 & m2 & Em & Ew)|Ew]].
  - destruct (before_commit _ _ Em) as [B1 B2]. fold D in B1, B2. rewrite <- B1 in Hclr. split; [by left|]. left.
    intros k Hk. unfold R. by rewrite recover_clear, B2.
  - destruct (after_header _ _ Em) as (A1 & A2 & A3). rewrite <- Ew in A1, A2, A3. fold D in A1, A2, A3.
    assert (header_blocks (D st) = hs) as Eh by (rewrite A1; by apply header_blocks_header).
    split; [by right|]. right. intros k Hk. unfold R, recover_writes. rewrite Eh, A2, disk_after_app. cbn.
    unfold outside in Hk. rewrite (proj2 (Z.eqb_neq _ _)) by lia. apply disk_after_agree. rewrite homes_fst. by apply A3.
  - assert (header_count (D st) = 0) as Eh.
    { unfold D. rewrite Ew. unfold commit_writes. rewrite !app_assoc, disk_after_app. cbn [disk_after foldl fst snd].
      rewrite Z.eqb_refl. apply (header_count_header _ []); [by apply length_header|done]. }
    split; [by left|]. right. intros k Hk. unfold R. rewrite recover_clear by done. unfold D. rewrite Ew.
    by apply commit_done.
Qed.

End atomic.

(** ** Booting *)

Lemma content_clean s pid k : binv s pid [] -> ~ isdirty s k -> content s k = disk s k.
Proof.
  intros I Hd. unfold content. destruct (find_index _ _) as [b|] eqn:E; [|done].
  apply find_index_Some in E as [(x & Hx & [Dx Nx]%holds_block_iff) _]. rewrite Hx, <- Nx.
  apply (bi_clean _ _ _ I b); [done|apply not_elem_of_nil|].
  destruct (bi_ok _ _ _ I _ _ Hx) as [[_ ?]|[[?|?] _]]; [done|done|]. destruct Hd. by exists b, x.
Qed.

(** A kernel that has just started on the disk [D]. *)
Record booted (t : kstate) (me : nat) (p : proc) (D : Z -> list Z) : Prop := {
  bo_caller : fscaller t me p;
  bo_cache : binv t (p_pid p) [];
  bo_clean : dirty_in t [];
  bo_disk : forall k, disk t k = D k;
}.

Lemma booted_content t me p D k : booted t me p D -> content t k = D k.
Proof.
  intros [_ I Hd HD]. rewrite <- HD. eapply content_clean; [done|]. intros H%Hd. by apply not_elem_of_nil in H.
Qed.

(** The in-memory log once the super block has been read. *)
Definition init_log (sb : superblock) (l : logst) : logst :=
  set_lg_dev 1 (set_lg_size (i32 (sb_nlog sb)) (set_lg_start (i32 (sb_logstart sb)) l)).

Lemma initlog_run t me p D : booted t me p D -> 1 < disksize ->
  let l := init_log (get_superblock (D 1)) (klog t) in
  log_layout (read_log (D (lg_start l)) l) (header_blocks (D (lg_start l))) ->
  exists t', initlog 1 t = Ret tt t' /\ lg_n (klog t') = 0 /\
    forall k, disk t' k = disk_after D (recover_writes (lg_start l) D) k.
Proof.
  intros B Hds l Hl. pose proof (booted_content t me p D) as HC. pose proof B as [C I HL HD].
  destruct (get_block t me p 1 []) as (b & x & s1 & R1 & Hx & Dx & K1 & Hrel); [done|done|lia|done|by apply Nat.ltb_lt|].
  destruct (Hrel (klog t)) as (s2 & R2 & S2).
  assert (set_klog (klog t) s1 = s1) as E1 by (rewrite <- K1; by destruct s1).
  assert (set_klog (klog t) t = t) as E2 by (by destruct t). rewrite E1 in R2. rewrite E2 in S2.
  pose proof (cache_step_set_klog l _ _ _ _ _ S2) as S3. set (s3 := set_klog l s2) in *.
  assert (forall k, content s3 k = D k) as HC3.
  { intros k. rewrite (ct_content _ _ _ _ _ S3). by apply HC. }
  destruct (recover_run l me p s3) as (t' & l' & R4 & S4 & Hn & _).
  - done.
  - apply (ct_caller _ _ _ _ _ S3).
  - apply (ct_inv _ _ _ _ _ S3).
  - intros k [Hk _]%(ct_dirty _ _ _ _ _ S3). by apply HL.
  - by rewrite HC3.
  - exists t'. split; [|split].
    + unfold initlog, readsb, buf_data. krun. rewrite (fc_held _ _ _ C). cbn [filter list_filter].
      rewrite set_held_id by apply (fc_held _ _ _ C). rewrite (u32_id 1) by lia. krun.
      rewrite (bind_ret_l _ _ _ _ _ R1). krun. rewrite (run_buf_at _ _ _ _ Hx). krun. rewrite (bind_ret_l _ _ _ _ _ R2).
      unfold upd_log. krun. rewrite Dx, (HC 1 B). rewrite <- R4. f_equal. unfold s3, l, init_log.
      rewrite (cache_step_klog _ _ _ _ _ S2). by knorm.
    + by rewrite (cache_step_klog _ _ _ _ _ S4).
    + intros k. rewrite (cache_step_disk _ _ _ _ _ S4). unfold recover_writes.
      rewrite (installs_ext _ _ D) by (intros j _; apply HC3). rewrite HC3. apply disk_after_ext. intros j.
      change (disk s3 j = D j). rewrite <- HD, (cache_step_disk _ _ _ _ _ S3). done.
Qed.

(** ** Commit, crash and recovery *)

(** A transaction on the blocks [hs] is ready to commit in [s]. *)
Record committable (s : kstate) (me : nat) (p : proc) (hs : list Z) : Prop := {
  cm_caller : fscaller s me p;
  cm_cache : binv s (p_pid p) [];
  cm_layout : log_layout (klog s) hs;
  cm_nonempty : hs <> [];
  cm_fits : (length hs < NBUF)%nat;
  cm_dirty : forall k, isdirty s k <-> k ∈ hs;
  cm_header : header_count (disk s (lg_start (klog s))) = 0;
  cm_super : i32 (sb_logstart (get_superblock (disk s 1))) = lg_start (klog s);
  cm_super_out : 1 < lg_start (klog s) /\ 1 ∉ hs;
}.

(** The blocks of the file system are those outside the log. *)
Definition outside_log (l : logst) (hs : list Z) (k : Z) : Prop := outside (lg_start l) hs k.

Lemma layout_of_read l hs l' d : log_layout l hs -> lg_dev l' = 1 -> lg_start l' = lg_start l ->
  length d = Z.to_nat BSIZE ->
  header_count d = 0 \/ (exists d0, length d0 = Z.to_nat BSIZE /\ d = header d0 hs) ->
  log_layout (read_log d l') (header_blocks d).
Proof.
  intros Hl Hd Hs Hlen Hc. pose proof Hl as [_ _ _ L4 L5 L6 L7 L8 L9].
  assert (header_count d = Z.of_nat (length (header_blocks d)) /\ (header_blocks d = [] \/ header_blocks d = hs)) as [Hn Hb].
  { destruct Hc as [Hc|(d0 & Hd0 & ->)].
    - assert (header_blocks d = []) as -> by (unfold header_blocks; by rewrite Hc). split; [done|by left].
    - rewrite header_blocks_header, header_count_header; [by split; [|right]|done..|].
      intros h Hh. destruct (L8 h Hh). lia. }
  unfold read_log. constructor; ksimpl; rewrite ?Hs; try done.
  - apply take_app_length.
  - destruct Hb as [-> | ->]; [done|lia].
  - destruct Hb as [-> | ->]; [cbn; lia|lia].
  - destruct Hb as [-> | ->]; [by intros h ?%not_elem_of_nil|done].
  - destruct Hb as [-> | ->]; [constructor|done].
Qed.

Lemma homes_content s pid hs k : binv s pid [] -> (forall k, isdirty s k <-> k ∈ hs) ->
  disk_after (disk s) (homes hs (content s)) k = content s k.
Proof.
  intros I Hd. destruct (decide (k ∈ hs)) as [Hk|Hk].
  - rewrite (disk_after_agree (disk s) (content s)) by (right; by rewrite homes_fst).
    apply disk_after_same. intros w (h & <- & _)%list_elem_of_In%in_map_iff. done.
  - rewrite disk_after_other by (by rewrite homes_fst). symmetry. eapply content_clean; [done|]. by rewrite Hd.
Qed.

(** What the next boot finds after a crash in the middle of a commit. *)
Definition crash_result (s : kstate) (hs : list Z) (t : kstate) : Prop :=
  exists t', initlog 1 t = Ret tt t' /\ lg_n (klog t') = 0 /\
    ((forall k, outside_log (klog s) hs k -> disk t' k = disk s k) \/
     (forall k, outside_log (klog s) hs k -> disk t' k = content s k)).

Lemma commit_crash s me p hs : committable s me p hs ->
  exists s' ws, commit s = Ret tt s' /\ writes s' = writes s ++ ws /\
    (forall k, outside_log (klog s) hs k -> disk s' k = content s k) /\
    forall n t me' p', booted t me' p' (disk_after (disk s) (take n ws)) -> crash_result s hs t.
Proof.
  intros [C I Hl Hne Hn Hd Hh Hsb [H1 H1h]]. set (l := klog s) in *. set (st := lg_start l) in *.
  destruct (commit_run l hs me p s) as (s' & R & St & _); [done..|].
  assert (forall h, h ∈ hs -> 0 <= h < 2 ^ 31 /\ (h < st \/ st + Z.of_nat (length hs) < h)) as Hhome.
  { intros h Hin. destruct (ll_home _ _ Hl h Hin). pose proof (ll_disk _ _ Hl). split; [lia|done]. }
  assert (content s st = disk s st) as Est.
  { eapply content_clean; [done|]. rewrite Hd. intros Hst%Hhome. lia. }
  assert (length (content s st) = Z.to_nat BSIZE) as Hlen by (by eapply length_content).
  exists s', (commit_writes st (content s) hs). split; [done|]. split; [by rewrite (ct_writes _ _ _ _ _ St)|]. split.
  - intros k Hk. rewrite (cache_step_disk _ _ _ _ _ St). change (disk (set_klog ?l ?s)) with (disk s).
    rewrite commit_done by done. by eapply homes_content.
  - intros n t me' p' B. set (ws := take n (commit_writes st (content s) hs)) in *. set (D := disk_after (disk s) ws) in *.
    destruct (crash_recover st hs (content s) (disk s) (ll_max _ _ Hl) Hhome Hlen ws
      (drop n (commit_writes st (content s) hs))) as [Hhd Hres]; [done|unfold ws; by rewrite take_drop|].
    fold D in Hhd, Hres.
    assert (D 1 = disk s 1) as E1.
    { apply disk_after_other. unfold ws. rewrite fmap_take. intros Hw%subseteq_take.
      apply commit_writes_fst in Hw as [Hw|Hw]; [|done]. apply Hw. left. lia. }
    assert (lg_start (init_log (get_superblock (D 1)) (klog t)) = st) as Ei by (by rewrite E1).
    destruct (initlog_run t me' p' D) as (t' & Ri & Hn0 & HD); [done|pose proof (ll_room _ _ Hl); lia| |].
    + rewrite Ei. eapply (layout_of_read l hs); [done|done|done| |].
      * rewrite <- (bo_disk _ _ _ _ B). apply (bi_disk _ _ _ (bo_cache _ _ _ _ B)).
      * destruct Hhd as [?| ->]; [by left|right]. by exists (content s st).
    + exists t'. split; [done|]. split; [done|]. rewrite Ei in HD.
      destruct Hres as [Hr|Hr]; [left|right]; intros k Hk; rewrite HD, (Hr k Hk); [done|by eapply homes_content].
Qed.

End crash.
