(* ===== verification/PipeSpec.v ===== *)
(** * A pipe is a bounded queue of bytes

    [pipe_rep x q]: the ring buffer [x] holds the bytes [q], oldest first.  The
    counters are 32-bit and run freely; the size of the buffer divides 2^32,
    so wrapping around is harmless.  [pipewrite] appends to the queue as much
    as fits before it sleeps, [piperead] takes from its front. *)

From S2P Require Import Prelude Mem KState Mmu Kalloc Vm AddrSpace VmSpec VmFork File Proc ProcMem.
From S2P Require Import WaitSpec Syscall UserMem Msg Pipe.

Section pipespec.
Context {LK : Linker} {FS : FsOps}.

(** ** The ring buffer *)

Record pipe_rep (x : pipe) (q : list Z) : Prop := {
  pr_len : length (pi_data x) = 512%nat;
  pr_read : 0 <= pi_nread x < 2 ^ 32;
  pr_max : (length q <= 512)%nat;
  pr_write : pi_nwrite x = u32 (pi_nread x + Z.of_nat (length q));
  pr_bytes k c : q !! k = Some c ->
    pi_data x !! Z.to_nat ((pi_nread x + Z.of_nat k) mod 512) = Some c;
}.

(** Indices are not changed by the wrap-around of the counters. *)
Lemma u32_mod z : u32 z mod 512 = z mod 512.
Proof.
  unfold u32. change (2 ^ 32) with (512 * 8388608). rewrite Z.rem_mul_r by lia.
  rewrite (Z.mul_comm 512), Z.mod_add by lia. apply Z.mod_mod. lia.
Qed.

Lemma u32_inj_small a i j : 0 <= i <= 512 -> 0 <= j <= 512 -> u32 (a + i) = u32 (a + j) -> i = j.
Proof. unfold u32. intros Hi Hj E. Z.div_mod_to_equations. lia. Qed.

Lemma pipe_empty x q : pipe_rep x q -> (pi_nread x =? pi_nwrite x) = bool_decide (q = []).
Proof.
  intros [_ Hr Hm Hw _]. rewrite Hw. case_bool_decide as D.
  - subst q. cbn [length]. rewrite Z.add_0_r, u32_id by done. apply Z.eqb_refl.
  - apply Z.eqb_neq. intros E. apply D, length_zero_iff_nil.
    rewrite <- (u32_id (pi_nread x)) in E at 1 by done. rewrite <- (Z.add_0_r (pi_nread x)) in E at 1.
    apply u32_inj_small in E; lia.
Qed.

Lemma pipe_full x q : pipe_rep x q ->
  (pi_nwrite x =? u32 (pi_nread x + PIPESIZE)) = (512 <=? length q)%nat.
Proof.
  intros [_ Hr Hm Hw _]. rewrite Hw. unfold PIPESIZE.
  destruct (512 <=? length q)%nat eqn:E.
  - apply Nat.leb_le in E. replace (length q) with 512%nat by lia. apply Z.eqb_refl.
  - apply Nat.leb_gt in E. apply Z.eqb_neq. intros E'. apply u32_inj_small in E'; lia.
Qed.

Lemma pipe_put_rep x q c : pipe_rep x q -> (length q < 512)%nat -> pipe_rep (pipe_put c x) (q ++ [c]).
Proof.
  intros [Hl Hr Hm Hw Hb] Hlt. unfold pipe_put, PIPESIZE.
  constructor; ksimpl; rewrite ?length_insert, ?length_app; cbn [length]; try done; try lia.
  - rewrite Hw. unfold u32. rewrite Zplus_mod_idemp_l. f_equal. lia.
  - intros k d Hk. rewrite Hw, u32_mod. apply lookup_app_Some in Hk as [Hk|[Hge Hk]].
    + pose proof (lookup_lt_Some _ _ _ Hk) as Hklt. rewrite list_lookup_insert_ne; [by apply Hb|].
      intros E. apply Z2Nat.inj in E; [|apply Z.mod_pos_bound; lia..].
      Z.div_mod_to_equations. lia.
    + apply list_lookup_singleton_Some in Hk as [Hk <-]. replace k with (length q) by lia.
      apply list_lookup_insert_eq. rewrite Hl. pose proof (Z.mod_pos_bound (pi_nread x + Z.of_nat (length q)) 512). lia.
Qed.

Lemma pipe_take_rep x c q : pipe_rep x (c :: q) -> pipe_next x = Some c /\ pipe_rep (pipe_advance x) q.
Proof.
  intros [Hl Hr Hm Hw Hb]. split.
  - unfold pipe_next, PIPESIZE. rewrite <- (Hb 0%nat c eq_refl). do 3 f_equal. lia.
  - unfold pipe_advance. constructor; ksimpl; cbn [length] in *; try done; try lia.
    + apply u32_range.
    + rewrite Hw. unfold u32. rewrite Zplus_mod_idemp_l. f_equal. lia.
    + intros k d Hk. rewrite <- (Hb (S k) d Hk). do 2 f_equal.
      rewrite <- Zplus_mod_idemp_l, u32_mod, Zplus_mod_idemp_l. f_equal. lia.
Qed.

(** ** Writing *)

Lemma pipe_at_run p x s : pipes s !! p = Some x -> pipe_at p s = Ret x s.
Proof. intros H. unfold pipe_at. by rewrite H. Qed.

Lemma alter_pipe (f : pipe -> pipe) p x (ps : gmap Z pipe) :
  ps !! p = Some x -> alter f p ps = <[p := f x]> ps.
Proof.
  intros H. apply map_eq. intros i. destruct (decide (i = p)) as [->|Hne].
  - by rewrite lookup_alter_eq, lookup_insert_eq, H.
  - by rewrite lookup_alter_ne, lookup_insert_ne.
Qed.

Lemma me_killed_run me p s : cur s = Some me -> ptable s !! me = Some p ->
  me_killed s = Ret (negb (p_killed p =? 0)) s.
Proof. intros Hc Hp. unfold me_killed. by rewrite (run_curproc me), (run_proc_at me p). Qed.

(** The bytes [bs] can be read from [a] on. *)
Definition readable (s : kstate) (a : Z) (bs : list Z) : Prop :=
  forall k c, bs !! k = Some c -> vread8 (u32 (a + Z.of_nat k)) s = Ret c s.

Lemma readable_ext s s' a bs : mem s' = mem s -> cr3 s' = cr3 s -> readable s a bs -> readable s' a bs.
Proof. intros Hm Hc Hr k c Hk. eapply vread8_ext; eauto. Qed.

Lemma readable_cons s a c bs : readable s a (c :: bs) ->
  vread8 (u32 a) s = Ret c s /\ readable s (a + 1) bs.
Proof.
  intros H. split; [rewrite <- (Z.add_0_r a); by apply (H 0%nat)|].
  intros k d Hk. replace (a + 1 + Z.of_nat k) with (a + Z.of_nat (S k)) by lia. by apply H.
Qed.

(** The pipe [p] of [s] replaced by [x], and its readers woken up. *)
Definition with_pipe (p : Z) (x : pipe) (s : kstate) : kstate := set_pipes (<[p := x]> (pipes s)) s.
Definition woken (ch : channel) (s : kstate) : kstate := set_ptable (wake (Some ch) <$> ptable s) s.

(** What the loop does with [bs] left to write. *)
Definition write_outcome (s : kstate) (me : nat) (pr : proc) (p n : Z) (x : pipe) (fits : bool)
    (o : outcome kstate Z) : Prop :=
  if fits then o = Ret n (set_held [] (woken (ChPipeRead p) (with_pipe p x s)))
  else if (pi_readopen x =? 0) || negb (p_killed pr =? 0) then o = Ret (-1) (set_held [] (with_pipe p x s))
  else o = Block (asleep me (ChPipeWrite p) (set_held [LkPtable] (woken (ChPipeRead p) (with_pipe p x s)))).

Lemma pipewrite_loop_spec p addr n me pr bs : forall i s x q,
  held s = [LkPipe p] -> cur s = Some me -> ptable s !! me = Some pr -> p_state pr <> SLEEPING ->
  pipes s !! p = Some x -> pipe_rep x q -> readable s (addr + i) bs ->
  exists x', pipe_rep x' (take 512 (q ++ bs)) /\ x' = set_pi_nwrite (pi_nwrite x') (set_pi_data (pi_data x') x) /\
    write_outcome s me pr p n x' (length q + length bs <=? 512)%nat
      (pipewrite_loop (length bs) p addr i n s).
Proof.
  induction bs as [|c bs IH]; intros i s x q Hh Hc Hp Hns Hx Hrep Hrd; cbn [pipewrite_loop length].
  - exists x. rewrite app_nil_r, Nat.add_0_r. pose proof (pr_max _ _ Hrep) as Hmax.
    rewrite take_ge by lia. split; [done|]. split; [by destruct x|].
    rewrite (proj2 (Nat.leb_le _ _)) by done. unfold write_outcome.
    erewrite bind_ret_l by (apply wakeup_run; rewrite Hh; intros [=]%list_elem_of_singleton).
    erewrite run_release; [|ksimpl; exact Hh|apply not_elem_of_nil]. unfold ret, woken, with_pipe.
    by rewrite insert_id.
  - erewrite bind_ret_l by (by apply pipe_at_run). rewrite (pipe_full x q Hrep).
    pose proof (pr_max _ _ Hrep) as Hmax. destruct (512 <=? length q)%nat eqn:Hfull.
    + apply Nat.leb_le in Hfull. exists x. rewrite take_app_le, take_ge by lia.
      split; [done|]. split; [by destruct x|]. rewrite (proj2 (Nat.leb_gt _ _)) by lia.
      assert (with_pipe p x s = s) as Hw by (unfold with_pipe; rewrite insert_id by done; by destruct s).
      unfold write_outcome. rewrite Hw.
      assert ((if pi_readopen x =? 0 then ret true else me_killed) s
              = Ret ((pi_readopen x =? 0) || negb (p_killed pr =? 0)) s) as Hk.
      { destruct (pi_readopen x =? 0); [done|]. by erewrite me_killed_run. }
      rewrite (bind_ret_l _ _ _ _ _ Hk). destruct (_ || _).
      * by erewrite run_release; [|exact Hh|apply not_elem_of_nil].
      * erewrite bind_ret_l by (apply wakeup_run; rewrite Hh; intros [=]%list_elem_of_singleton).
        apply (sleep_run me (wake (Some (ChPipeRead p)) pr)); [done| |done|done].
        unfold woken. ksimpl. by rewrite list_lookup_fmap, Hp.
    + apply Nat.leb_gt in Hfull. apply readable_cons in Hrd as [Hr0 Hrd].
      rewrite (bind_ret_l _ _ _ _ _ Hr0). unfold upd_pipe. krun. rewrite (alter_pipe _ p x) by done.
      set (s1 := set_pipes _ s).
      destruct (IH (i + 1) s1 (pipe_put c x) (q ++ [c])) as (x' & Hrep' & Hx' & Ho); try done.
      * unfold s1. ksimpl. apply lookup_insert_eq.
      * by apply pipe_put_rep.
      * eapply readable_ext; [..|replace (addr + (i + 1)) with (addr + i + 1) by lia; exact Hrd]; done.
      * exists x'. rewrite <- app_assoc in Hrep'. split; [done|].
        split; [rewrite Hx'; unfold pipe_put; by destruct x|].
        replace (length q + S (length bs))%nat with (length (q ++ [c]) + length bs)%nat
          by (rewrite length_app; cbn; lia).
        revert Ho. unfold write_outcome, with_pipe, woken, s1. ksimpl. rewrite insert_insert_eq.
        done.
Qed.

(** ** Reading *)

Lemma piperead_copy_spec p addr k : forall i s x q m',
  pipes s !! p = Some x -> pipe_rep x q -> vwrite (addr + i) (take k q) s = Ret tt (set_mem m' s) ->
  exists x', pipe_rep x' (drop k q) /\ x' = set_pi_nread (pi_nread x') x /\
    piperead_copy k p addr i s = Ret (i + Z.of_nat (length (take k q))) (set_mem m' (with_pipe p x' s)).
Proof.
  induction k as [|k IH]; intros i s x q m' Hx Hrep Hw.
  - cbn [take vwrite piperead_copy drop] in *. injection Hw as Hm. exists x. split; [done|].
    split; [by destruct x|]. unfold ret. f_equal; [rewrite ?take_0, ?take_nil; cbn [length]; lia|].
    unfold with_pipe. rewrite insert_id by done. rewrite Hm at 1. by destruct s.
  - cbn [piperead_copy]. erewrite bind_ret_l by (by apply pipe_at_run). rewrite (pipe_empty x q Hrep).
    destruct q as [|c q].
    + cbn [take vwrite drop] in *. injection Hw as Hm. exists x. split; [done|].
      split; [by destruct x|]. unfold ret. f_equal; [rewrite ?take_0, ?take_nil; cbn [length]; lia|].
      unfold with_pipe. rewrite insert_id by done. rewrite Hm at 1. by destruct s.
    + rewrite bool_decide_eq_false_2 by done. destruct (pipe_take_rep x c q Hrep) as [-> Hrep'].
      cbn [take] in Hw. apply vwrite_cons_inv in Hw as (m1 & Hw1 & Hw2).
      unfold upd_pipe. krun. rewrite (alter_pipe _ p x) by done.
      erewrite bind_ret_l by (by eapply vwrite8_ext).
      destruct (IH (i + 1) (set_mem m1 (set_pipes (<[p := pipe_advance x]> (pipes s)) s)) (pipe_advance x) q m')
        as (x' & Hr' & Hx' & Ho).
      * ksimpl. apply lookup_insert_eq.
      * done.
      * replace (addr + (i + 1)) with (addr + i + 1) by lia.
        by eapply (vwrite_ext _ _ (set_mem m1 s)).
      * exists x'. split; [done|]. split; [rewrite Hx'; unfold pipe_advance; by destruct x|].
        rewrite Ho. cbn [take length]. f_equal; [lia|]. unfold with_pipe. ksimpl. rewrite insert_insert_eq.
        by knorm.
Qed.

(** ** The calls *)

Lemma ucaller_readable s l me pr a n : ucaller s l me pr -> 0 <= a -> a + Z.of_nat n <= p_sz pr ->
  readable s a (map (fun k => user_byte s pr (a + Z.of_nat k)) (seq 0 n)).
Proof.
  intros Hu Ha Hn k c Hk. rewrite list_lookup_fmap_Some in Hk. destruct Hk as (j & -> & Hj).
  apply lookup_seq in Hj as [-> Hj]. rewrite (user_u32 s l me pr) by (done || lia).
  eapply vread8_user; [done|lia].
Qed.

(** The bytes of the caller at [a]. *)
Definition user_bytes (s : kstate) (pr : proc) (a : Z) (n : nat) : list Z :=
  map (fun k => user_byte s pr (a + Z.of_nat k)) (seq 0 n).

Lemma length_user_bytes s pr a n : length (user_bytes s pr a n) = n.
Proof. unfold user_bytes. by rewrite length_map, length_seq. Qed.

Lemma pipewrite_spec s l me pr p a n x q :
  ucaller s l me pr -> p_state pr <> SLEEPING -> pipes s !! p = Some x -> pipe_rep x q ->
  0 <= a -> 0 <= n -> a + n <= p_sz pr ->
  let bs := user_bytes s pr a (Z.to_nat n) in
  exists x', pipe_rep x' (take 512 (q ++ bs)) /\
    x' = set_pi_nwrite (pi_nwrite x') (set_pi_data (pi_data x') x) /\
    write_outcome s me pr p n x' (Z.of_nat (length q) + n <=? 512) (pipewrite p a n s).
Proof.
  intros Hu Hns Hx Hrep Ha Hn Hsz bs. pose proof (uc_caller _ _ _ _ Hu) as [_ _ Hc Hme _ Hh].
  unfold pipewrite. rewrite run_acquire by (rewrite Hh; apply not_elem_of_nil).
  set (s1 := set_held _ s).
  destruct (pipewrite_loop_spec p a n me pr bs 0 s1 x q) as (x' & Hr' & Hx' & Ho); try done.
  { unfold s1. ksimpl. by rewrite Hh. }
  { rewrite Z.add_0_r. intros k c Hk. eapply (vread8_ext _ s); [|done|done].
    eapply ucaller_readable; [done|done| |exact Hk]. lia. }
  exists x'. split; [done|]. split; [done|]. revert Ho. unfold bs. rewrite length_user_bytes.
  replace (length q + Z.to_nat n <=? 512)%nat with (Z.of_nat (length q) + n <=? 512)
    by (apply eq_true_iff_eq; rewrite Z.leb_le, Nat.leb_le; lia).
  unfold write_outcome, with_pipe, woken, asleep, s1. ksimpl. destruct (_ <=? _); [|destruct (_ || _)];
    intros ->; by knorm.
Qed.

(** One round of piperead, entered with the lock of the pipe. *)
Definition read_outcome (s : kstate) (l : list Z) (me : nat) (pr : proc) (p a n : Z) (x : pipe) (q : list Z)
    (o : outcome kstate Z) : Prop :=
  if bool_decide (q = []) && negb (pi_writeopen x =? 0) then
    o = if p_killed pr =? 0 then Block (asleep me (ChPipeRead p) (set_held [LkPtable] s))
        else Ret (-1) s
  else exists x' m', let s' := woken (ChPipeWrite p) (set_mem m' (with_pipe p x' s)) in
    let bs := take (Z.to_nat n) q in
    o = Ret (Z.of_nat (length bs)) s' /\
    pipe_rep x' (drop (Z.to_nat n) q) /\ x' = set_pi_nread (pi_nread x') x /\
    ucaller (set_mem m' s) l me pr /\
    (forall k c, bs !! k = Some c -> user_byte s' pr (a + Z.of_nat k) = u8 c) /\
    (forall va, 0 <= va < p_sz pr -> ~ (a <= va < a + Z.of_nat (length bs)) ->
       user_byte s' pr va = user_byte s pr va).

Lemma piperead_round_spec s l me pr p a n x q :
  held s = [LkPipe p] -> ucaller (set_held [] s) l me pr -> pipes s !! p = Some x -> pipe_rep x q ->
  0 <= a -> 0 <= n -> a + n <= p_sz pr -> (forall va, a <= va < a + n -> writable s pr va) ->
  read_outcome (set_held [] s) l me pr p a n x q (piperead_round p a n s).
Proof.
  intros Hh Hu Hx Hrep Ha Hn Hsz Hw. pose proof (uc_caller _ _ _ _ Hu) as [_ _ Hc Hme _ _]. ksimpl_all.
  unfold read_outcome, piperead_round.
  erewrite bind_ret_l by (by apply pipe_at_run). rewrite (pipe_empty x q Hrep).
  destruct (bool_decide (q = []) && negb (pi_writeopen x =? 0)).
  - erewrite bind_ret_l by (by apply (me_killed_run me pr)). destruct (p_killed pr =? 0); cbn [negb].
    + rewrite (sleep_run me pr) by done. by knorm.
    + by erewrite run_release; [|exact Hh|apply not_elem_of_nil].
  - set (bs := take (Z.to_nat n) q). assert (Z.of_nat (length bs) <= n) as Hlen
      by (unfold bs; rewrite length_take; lia).
    destruct (vwrite_user l me pr bs (set_held [] s) a Hu Ha) as (m' & Hvw & Hu' & _ & Hb); [lia| |].
    { intros k Hk. apply Hw. lia. }
    destruct (piperead_copy_spec p a (Z.to_nat n) 0 s x q m') as (x' & Hr' & Hx' & Ho);
      [done|done|rewrite Z.add_0_r; by eapply (vwrite_ext _ _ (set_held [] s))|].
    exists x', m'. erewrite bind_ret_l by exact Ho. fold bs. rewrite Z.add_0_l. unfold with_pipe.
    erewrite bind_ret_l by (apply wakeup_run; ksimpl; rewrite Hh; intros [=]%list_elem_of_singleton).
    erewrite run_release; [|ksimpl; exact Hh|apply not_elem_of_nil]. unfold ret, woken. ksimpl.
    split; [f_equal; by knorm|]. split; [done|]. split; [done|]. split; [done|].
    split.
    + intros k c Hk. pose proof (lookup_lt_Some _ _ _ Hk) as Hlt.
      change (user_byte _ pr (a + Z.of_nat k)) with (user_byte (set_mem m' (set_held [] s)) pr (a + Z.of_nat k)).
      rewrite Hb by lia. rewrite decide_True by lia.
      replace (Z.to_nat (a + Z.of_nat k - a)) with k by lia. f_equal. by apply nth_lookup_Some.
    + intros va Hva Hout.
      change (user_byte _ pr va) with (user_byte (set_mem m' (set_held [] s)) pr va) at 1.
      rewrite Hb by done. by rewrite decide_False.
Qed.

Lemma piperead_spec s l me pr p a n x q :
  ucaller s l me pr -> pipes s !! p = Some x -> pipe_rep x q ->
  0 <= a -> 0 <= n -> a + n <= p_sz pr -> (forall va, a <= va < a + n -> writable s pr va) ->
  read_outcome s l me pr p a n x q (piperead p a n s).
Proof.
  intros Hu Hx Hrep Ha Hn Hsz Hw. pose proof (uc_caller _ _ _ _ Hu) as [_ _ Hc Hme _ Hh].
  unfold piperead. rewrite run_acquire by (rewrite Hh; apply not_elem_of_nil). rewrite Hh.
  assert (set_held [] (set_held [LkPipe p] s) = s) as E by (knorm; by apply set_held_id).
  rewrite <- E at 1. apply piperead_round_spec; rewrite ?E; done.
Qed.

(** ** The stream *)

(** A run of the kernel with what went into the pipe and what its readers
    found in their memory.  The steps are the critical sections of pipewrite
    (from byte [i]) and of piperead, which [pipewrite], [piperead] and their
    resumptions enter with the lock held; other steps leave the pipe alone. *)
Record stream : Type := mk_stream { str_st : kstate; str_in : list Z; str_out : list Z }.

(** The number of bytes a step has put in the pipe. *)
Definition put_count (p : Z) (s s' : kstate) : nat :=
  match pipes s !! p, pipes s' !! p with
  | Some x, Some x' => Z.to_nat (u32 (pi_nwrite x' - pi_nwrite x))
  | _, _ => 0
  end.

Inductive pstep (p : Z) : stream -> stream -> Prop :=
  | ps_write s w r me pr a i n bs :
      held s = [LkPipe p] -> cur s = Some me -> ptable s !! me = Some pr -> p_state pr <> SLEEPING ->
      readable s (a + i) bs -> Forall (fun c => 0 <= c < 256) bs ->
      let s' := post (pipewrite_loop (length bs) p a i n s) in
      pstep p (mk_stream s w r) (mk_stream s' (w ++ take (put_count p s s') bs) r)
  | ps_read s w r l me pr a n k s' :
      held s = [LkPipe p] -> ucaller (set_held [] s) l me pr -> 0 <= a -> 0 <= n -> a + n <= p_sz pr ->
      (forall va, a <= va < a + n -> writable s pr va) ->
      piperead_round p a n s = Ret k s' -> 0 <= k ->
      pstep p (mk_stream s w r) (mk_stream s' w (r ++ user_bytes s' pr a (Z.to_nat k)))
  | ps_other s w r s' : pipes s' !! p = pipes s !! p -> pstep p (mk_stream s w r) (mk_stream s' w r).

Definition pinv (p : Z) (c : stream) : Prop :=
  exists x q, pipes (str_st c) !! p = Some x /\ pipe_rep x q /\ Forall (fun b => 0 <= b < 256) q /\
    str_in c = str_out c ++ q.

Lemma u32_count a i j : 0 <= i <= 512 -> 0 <= j <= 512 -> i <= j -> u32 (u32 (a + j) - u32 (a + i)) = j - i.
Proof. intros. unfold u32. rewrite <- Zminus_mod. rewrite Z.mod_small; lia. Qed.

Lemma pinv_write p s w r me pr a i n bs :
  pinv p (mk_stream s w r) ->
  held s = [LkPipe p] -> cur s = Some me -> ptable s !! me = Some pr -> p_state pr <> SLEEPING ->
  readable s (a + i) bs -> Forall (fun c => 0 <= c < 256) bs ->
  let s' := post (pipewrite_loop (length bs) p a i n s) in
  pinv p (mk_stream s' (w ++ take (put_count p s s') bs) r).
Proof.
  intros (x & q & Hx & Hrep & Hq & Hin) Hh Hc Hp Hns Hrd Hbs s'. cbn in *.
  destruct (pipewrite_loop_spec p a n me pr bs i s x q Hh Hc Hp Hns Hx Hrep Hrd) as (x' & Hr' & Hx' & Ho).
  assert (pipes s' !! p = Some x') as Hp'.
  { unfold s'. revert Ho. unfold write_outcome, with_pipe, woken, asleep.
    destruct (_ <=? _)%nat; [|destruct (_ || _)]; intros ->; cbn [post]; ksimpl; apply lookup_insert_eq. }
  pose proof (pr_max _ _ Hrep) as Hmax.
  assert (take 512 (q ++ bs) = q ++ take (512 - length q) bs) as E by (by rewrite take_app, take_ge by lia).
  rewrite E in Hr'. exists x', (q ++ take (512 - length q) bs). cbn. split; [done|]. split; [done|].
  split; [apply Forall_app; split; [done|by apply Forall_take]|].
  unfold put_count. rewrite Hx, Hp', (pr_write _ _ Hrep), (pr_write _ _ Hr').
  pose proof (pr_max _ _ Hr') as Hmax'. rewrite length_app in *.
  assert (pi_nread x' = pi_nread x) as -> by (by rewrite Hx').
  rewrite u32_count by lia. rewrite Hin, <- app_assoc. do 2 f_equal.
  rewrite length_take. destruct (decide (512 - length q <= length bs)%nat).
  - f_equal. lia.
  - rewrite !take_ge; [done|lia|lia].
Qed.

Lemma pinv_read p s w r l me pr a n k s' :
  pinv p (mk_stream s w r) ->
  held s = [LkPipe p] -> ucaller (set_held [] s) l me pr -> 0 <= a -> 0 <= n -> a + n <= p_sz pr ->
  (forall va, a <= va < a + n -> writable s pr va) ->
  piperead_round p a n s = Ret k s' -> 0 <= k ->
  pinv p (mk_stream s' w (r ++ user_bytes s' pr a (Z.to_nat k))).
Proof.
  intros (x & q & Hx & Hrep & Hq & Hin) Hh Hu Ha Hn Hsz Hw Hr Hk. cbn in *.
  pose proof (piperead_round_spec s l me pr p a n x q Hh Hu Hx Hrep Ha Hn Hsz Hw) as Ho.
  rewrite Hr in Ho. unfold read_outcome in Ho. destruct (_ && _).
  { destruct (p_killed pr =? 0); [done|]. injection Ho as -> _. lia. }
  destruct Ho as (x' & m' & E & Hr' & Hx' & _ & Hb & _). injection E as -> ->.
  exists x', (drop (Z.to_nat n) q). cbn [str_st str_in str_out].
  split; [unfold with_pipe, woken; ksimpl; apply lookup_insert_eq|]. split; [done|]. split; [by apply Forall_drop|].
  rewrite Hin, <- app_assoc. f_equal. rewrite <- (take_drop (Z.to_nat n) q) at 1. f_equal.
  rewrite Nat2Z.id. apply list_eq. intros j. unfold user_bytes. rewrite list_lookup_fmap.
  destruct (take (Z.to_nat n) q !! j) as [c|] eqn:Ej.
  - pose proof (lookup_lt_Some _ _ _ Ej) as Hj. rewrite lookup_seq_lt by done. cbn [fmap option_fmap option_map Nat.add].
    rewrite (Hb j c Ej). f_equal. symmetry. apply u8_id.
    apply (Forall_lookup_1 (fun b => 0 <= b < 256) (take (Z.to_nat n) q) j); [by apply Forall_take|exact Ej].
  - apply lookup_ge_None in Ej. by rewrite lookup_seq_ge.
Qed.

Lemma pstep_inv p c c' : pstep p c c' -> pinv p c -> pinv p c'.
Proof.
  destruct 1 as [s w r me pr a i n bs H1 H2 H3 H4 H5 H6|s w r l me pr a n k s' H1 H2 H3 H4 H5 H6 H7 H8|s w r s' H];
    intros Hi.
  - exact (pinv_write p s w r me pr a i n bs Hi H1 H2 H3 H4 H5 H6).
  - exact (pinv_read p s w r l me pr a n k s' Hi H1 H2 H3 H4 H5 H6 H7 H8).
  - destruct Hi as (x & q & Hx & Hrest). exists x, q. cbn in *. by rewrite H.
Qed.

End pipespec.
