(* ===== verification/ConsoleSpec.v ===== *)
(** * The line editor of the console

    [input] represents two lists: the committed bytes, which readers may take,
    and the pending line, which the user can still edit.  [consoleintr_char]
    implements the abstract editor [edit], and [consoleread_loop] takes bytes
    from the committed list. *)

From S2P Require Import Prelude Mem KState Mmu Kalloc Vm File Proc ProcMem WaitSpec Bio Layout Log.
From S2P Require Import Console Inode Pipe PipeSpec ConsoleDev.

Section consolespec.
Context {LK : Linker} {FS : FsOps} {DK : Disk}.

Record line_rep (x : cinput) (comm pend : list Z) : Prop := {
  lr_len : length (in_buf x) = 128%nat;
  lr_r : 0 <= in_r x < 2 ^ 32;
  lr_max : (length comm + length pend <= 128)%nat;
  lr_w : in_w x = u32 (in_r x + Z.of_nat (length comm));
  lr_e : in_e x = u32 (in_r x + Z.of_nat (length comm + length pend));
  lr_bytes k c : (comm ++ pend) !! k = Some c ->
    in_buf x !! Z.to_nat ((in_r x + Z.of_nat k) mod 128) = Some c;
  lr_pend : Forall (fun c => c <> 10 /\ c <> 4) pend;
}.

Lemma u32_mod128 z : u32 z mod 128 = z mod 128.
Proof.
  unfold u32. change (2 ^ 32) with (128 * 33554432). rewrite Z.rem_mul_r by lia.
  rewrite (Z.mul_comm 128), Z.mod_add by lia. apply Z.mod_mod. lia.
Qed.

Lemma u32_inj128 a i j : 0 <= i <= 128 -> 0 <= j <= 128 -> u32 (a + i) = u32 (a + j) -> i = j.
Proof. unfold u32. intros Hi Hj E. Z.div_mod_to_equations. lia. Qed.

Lemma u32_diff128 a i j : 0 <= i <= 128 -> 0 <= j <= 128 -> i <= j -> u32 (u32 (a + j) - u32 (a + i)) = j - i.
Proof. intros. unfold u32. rewrite <- Zminus_mod, Z.mod_small; lia. Qed.

Lemma u32_pred z : u32 (u32 z - 1) = u32 (z - 1).
Proof. unfold u32. by rewrite Zminus_mod_idemp_l. Qed.

Lemma u32_succ z : u32 (u32 z + 1) = u32 (z + 1).
Proof. unfold u32. by rewrite Zplus_mod_idemp_l. Qed.

(** ** The tests of the code *)

Lemma line_empty x comm pend : line_rep x comm pend -> (in_e x =? in_w x) = bool_decide (pend = []).
Proof.
  intros [_ _ Hm Hw He _ _]. rewrite Hw, He. case_bool_decide as D.
  - subst pend. cbn [length]. rewrite Nat.add_0_r. apply Z.eqb_refl.
  - apply Z.eqb_neq. intros E%u32_inj128; [|lia..]. apply D, length_zero_iff_nil. lia.
Qed.

Lemma line_count x comm pend : line_rep x comm pend ->
  u32 (in_e x - in_r x) = Z.of_nat (length comm + length pend) /\ u32 (in_e x - in_w x) = Z.of_nat (length pend).
Proof.
  intros [_ Hr Hm Hw He _ _]. rewrite He, Hw. split.
  - rewrite <- (u32_id (in_r x)) at 2 by done. rewrite <- (Z.add_0_r (in_r x)) at 2. rewrite u32_diff128; lia.
  - rewrite u32_diff128; lia.
Qed.

Lemma line_last x comm pend c : line_rep x comm (pend ++ [c]) -> in_at x (u32 (in_e x - 1)) = c.
Proof.
  intros [_ Hr Hm Hw He Hb _]. unfold in_at, INPUT_BUF. rewrite He, u32_pred, u32_mod128, length_app in *. cbn [length] in *.
  apply nth_lookup_Some. rewrite <- (Hb (length comm + length pend)%nat c).
  - do 3 f_equal. lia.
  - rewrite app_assoc, <- length_app. by apply list_lookup_middle.
Qed.

(** ** The changes of the code *)

(** [input.e--] takes the last byte of the pending line away. *)
Lemma line_erase x comm pend c : line_rep x comm (pend ++ [c]) ->
  line_rep (set_in_e (u32 (in_e x - 1)) x) comm pend.
Proof.
  intros [Hl Hr Hm Hw He Hb Hp]. rewrite length_app in *. cbn [length] in *. apply Forall_app in Hp as [Hp _].
  constructor; ksimpl; try done; [lia| |].
  - rewrite He, u32_pred. f_equal. lia.
  - intros k d Hk. apply Hb. rewrite app_assoc. by apply lookup_app_l_Some.
Qed.

(** A byte is added to the pending line. *)
Definition typed (c : Z) (x : cinput) : cinput :=
  set_in_e (u32 (in_e x + 1)) (set_in_buf (<[Z.to_nat (in_e x mod INPUT_BUF) := c]> (in_buf x)) x).

Lemma typed_bytes x comm pend c : line_rep x comm pend -> (length comm + length pend < 128)%nat ->
  length (in_buf (typed c x)) = 128%nat /\ in_e (typed c x) = u32 (in_r x + Z.of_nat (length comm + length (pend ++ [c]))) /\
  forall k d, (comm ++ pend ++ [c]) !! k = Some d ->
    in_buf (typed c x) !! Z.to_nat ((in_r x + Z.of_nat k) mod 128) = Some d.
Proof.
  intros [Hl Hr Hm Hw He Hb Hp] Hlt. unfold typed, INPUT_BUF. ksimpl. rewrite length_insert, length_app. cbn [length].
  split; [done|]. split; [rewrite He, u32_succ; f_equal; lia|].
  intros k d Hk. rewrite He, u32_mod128. rewrite app_assoc in Hk. apply lookup_app_Some in Hk as [Hk|[Hge Hk]].
  - pose proof (lookup_lt_Some _ _ _ Hk) as Hklt. rewrite length_app in Hklt. rewrite list_lookup_insert_ne; [by apply Hb|].
    intros E. apply Z2Nat.inj in E; [|apply Z.mod_pos_bound; lia..]. Z.div_mod_to_equations. lia.
  - apply list_lookup_singleton_Some in Hk as [Hk <-]. rewrite length_app in *.
    replace k with (length comm + length pend)%nat by lia. apply list_lookup_insert_eq. rewrite Hl.
    pose proof (Z.mod_pos_bound (in_r x + Z.of_nat (length comm + length pend)) 128). lia.
Qed.

Lemma line_type x comm pend c : line_rep x comm pend -> (length comm + length pend < 128)%nat -> c <> 10 -> c <> 4 ->
  line_rep (typed c x) comm (pend ++ [c]).
Proof.
  intros Hx Hlt H10 H4. destruct (typed_bytes x comm pend c Hx Hlt) as (A1 & A2 & A3). destruct Hx as [Hl Hr Hm Hw He Hb Hp].
  constructor; try done.
  - rewrite length_app. cbn [length]. lia.
  - apply Forall_app. split; [done|]. by constructor.
Qed.

(** The line is committed with its last byte. *)
Lemma line_commit x comm pend c : line_rep x comm pend -> (length comm + length pend < 128)%nat ->
  line_rep (set_in_w (in_e (typed c x)) (typed c x)) (comm ++ pend ++ [c]) [].
Proof.
  intros Hx Hlt. destruct (typed_bytes x comm pend c Hx Hlt) as (A1 & A2 & A3). destruct Hx as [Hl Hr Hm Hw He Hb Hp].
  rewrite length_app in *. cbn [length] in *.
  constructor; ksimpl; try done; rewrite ?length_app; cbn [length]; [lia| | |].
  - rewrite A2. change (in_r (typed c x)) with (in_r x). f_equal; lia.
  - rewrite A2. change (in_r (typed c x)) with (in_r x). f_equal; lia.
  - intros k d. rewrite app_nil_r. apply A3.
Qed.

(** ** The abstract editor *)

(** The new committed and pending bytes, the bytes echoed, and whether readers
    are woken up. *)
Definition edit (c : Z) (comm pend : list Z) : list Z * list Z * list Z * bool :=
  if c =? Ctrl "U" then (comm, [], concat (replicate (length pend) [8; 32; 8]), false)
  else if (c =? Ctrl "H") || (c =? 127) then
    (comm, removelast pend, if bool_decide (pend = []) then [] else [8; 32; 8], false)
  else if negb (c =? 0) && (Z.of_nat (length comm + length pend) <? 128) then
    let c := if c =? 13 then 10 else c in
    if (c =? 10) || (c =? Ctrl "D") || (Z.of_nat (length comm + length pend) =? 127)
    then (comm ++ pend ++ [c], [], [c], true)
    else (comm, pend ++ [c], [c], false)
  else (comm, pend, [], false).

(** The kernel state after an edit. *)
Definition edited (x : cinput) (echo : list Z) (woke : bool) (s : kstate) : kstate :=
  set_input x (set_out (out s ++ echo)
    (set_ptable (if woke then wake (Some ChInput) <$> ptable s else ptable s) s)).

Lemma run_upd_input {B} g (f : unit -> K B) s : bind (upd_input g) f s = f tt (set_input (g (input s)) s).
Proof. done. Qed.

Lemma kill_line_run pend : forall comm s, line_rep (input s) comm pend ->
  exists x, kill_line (length pend) s = Ret tt (edited x (concat (replicate (length pend) [8; 32; 8])) false s) /\
    line_rep x comm [] /\ in_r x = in_r (input s).
Proof.
  induction pend as [|c pend IH] using rev_ind; intros comm s Hx.
  - exists (input s). cbn [length kill_line replicate concat]. rewrite run_gets, (line_empty _ _ _ Hx).
    rewrite bool_decide_eq_true_2 by done. split; [|done]. unfold ret, edited. rewrite app_nil_r. by destruct s.
  - rewrite length_app, Nat.add_1_r. cbn [kill_line]. rewrite run_gets, (line_empty _ _ _ Hx).
    rewrite bool_decide_eq_false_2 by (by destruct pend). rewrite (line_last _ _ _ _ Hx).
    pose proof (lr_pend _ _ _ Hx) as Hp. apply Forall_app in Hp as [_ [[Hc _] _]%Forall_cons].
    rewrite (proj2 (Z.eqb_neq c 10)) by done. cbn [negb andb]. rewrite run_upd_input. unfold consputc. krun.
    change (BACKSPACE =? BACKSPACE) with true. apply line_erase in Hx.
    destruct (IH comm (set_out (out s ++ [8; 32; 8]) (set_input (set_in_e (u32 (in_e (input s) - 1)) (input s)) s)))
      as (x & Hk & Hr & Hrr); [by ksimpl|]. exists x. split; [|done].
    etransitivity; [exact Hk|]. unfold edited. ksimpl. f_equal. cbn [replicate concat]. rewrite <- app_assoc. by knorm.
Qed.

Lemma consoleintr_char_run c comm pend s : 0 <= c < 256 -> line_rep (input s) comm pend -> LkPtable ∉ held s ->
  let '(comm', pend', echo, woke) := edit c comm pend in
  exists x, consoleintr_char c s = Ret tt (edited x echo woke s) /\ line_rep x comm' pend' /\ in_r x = in_r (input s).
Proof.
  intros Hc Hx Hl. unfold consoleintr_char, edit. rewrite run_gets. destruct (line_count _ _ _ Hx) as [Hn1 Hn2].
  destruct (c =? Ctrl "U").
  { rewrite Hn2, Nat2Z.id. by apply kill_line_run. }
  destruct ((c =? Ctrl "H") || (c =? 127)).
  { rewrite (line_empty _ _ _ Hx). destruct pend as [|d pend _] using rev_ind.
    - rewrite bool_decide_eq_true_2 by done. exists (input s). split; [|done].
      unfold when, ret, edited. cbn [negb]. rewrite app_nil_r. by destruct s.
    - rewrite bool_decide_eq_false_2 by (by destruct pend). rewrite removelast_last.
      exists (set_in_e (u32 (in_e (input s) - 1)) (input s)). split; [|split; [by eapply line_erase|done]].
      cbn [negb]. unfold when. rewrite run_upd_input. unfold consputc, modify. change (BACKSPACE =? BACKSPACE) with true.
      unfold edited. ksimpl. by f_equal; knorm. }
  rewrite Hn1. change INPUT_BUF with 128. destruct (negb (c =? 0) && (Z.of_nat (length comm + length pend) <? 128)) eqn:E.
  2:{ exists (input s). split; [|done]. unfold when, ret, edited. rewrite app_nil_r. by destruct s. }
  apply andb_prop in E as [_ E]. bool_prop. unfold when at 1.
  set (c' := if c =? 13 then 10 else c). assert (0 <= c' < 256) as Hc' by (unfold c'; destruct (c =? 13); lia).
  rewrite run_upd_input, run_upd_input. ksimpl. unfold consputc. krun. rewrite u8_id by done.
  assert ((c' =? BACKSPACE) = false) as -> by (unfold BACKSPACE; apply Z.eqb_neq; lia).
  assert (set_in_e (u32 (in_e (input s) + 1)) (set_in_buf (<[Z.to_nat (in_e (input s) mod 128):=c']> (in_buf (input s))) (input s))
          = typed c' (input s)) as -> by done.
  destruct (typed_bytes (input s) comm pend c' Hx ltac:(lia)) as (_ & He & _).
  assert ((u32 (in_e (input s) + 1) =? u32 (in_r (input s) + 128)) = (Z.of_nat (length comm + length pend) =? 127)) as Ef.
  { change (u32 (in_e (input s) + 1)) with (in_e (typed c' (input s))). rewrite He, length_app. cbn [length]. destruct (Z.eqb_spec (Z.of_nat (length comm + length pend)) 127) as [D|D].
    - apply Z.eqb_eq. f_equal. lia.
    - apply Z.eqb_neq. intros E'%u32_inj128; lia. }
  rewrite Ef.
  destruct ((c' =? 10) || (c' =? Ctrl "D") || (Z.of_nat (length comm + length pend) =? 127)) eqn:Eb.
  - exists (set_in_w (in_e (typed c' (input s))) (typed c' (input s))). split; [|split; [by apply line_commit; [|lia]|done]].
    unfold when. rewrite run_upd_input. ksimpl. rewrite wakeup_run by (by ksimpl). unfold edited. ksimpl. by f_equal; knorm.
  - exists (typed c' (input s)). split; [unfold when, ret, edited; f_equal; by knorm|]. split; [|done].
    apply orb_false_iff in Eb as [Eb _]. apply orb_false_iff in Eb as [E1 E2]. change (Ctrl "D") with 4 in E2. bool_prop.
    apply line_type; [done|lia|done|done].
Qed.

(** ** A burst of characters *)

(** The editor on a list of characters; ^P only asks for a process listing. *)
Fixpoint edit_all (cs comm pend : list Z) : list Z * list Z :=
  match cs with
  | [] => (comm, pend)
  | c :: cs' =>
      if c =? Ctrl "P" then edit_all cs' comm pend
      else let '(comm', pend', _, _) := edit c comm pend in edit_all cs' comm' pend'
  end.

Lemma consoleintr_loop_run cs : forall comm pend dump s, Forall (fun c => 0 <= c < 256) cs ->
  line_rep (input s) comm pend -> LkPtable ∉ held s ->
  exists x o pt, consoleintr_loop cs dump s =
      Ret (dump || existsb (fun c => c =? Ctrl "P") cs) (set_input x (set_out (out s ++ o) (set_ptable pt s))) /\
    line_rep x (edit_all cs comm pend).1 (edit_all cs comm pend).2.
Proof.
  induction cs as [|c cs IH]; intros comm pend dump s Hcs Hx Hl.
  - exists (input s), [], (ptable s). split; [|done]. cbn [consoleintr_loop existsb]. rewrite orb_false_r, app_nil_r.
    unfold ret. by destruct s.
  - apply Forall_cons in Hcs as [Hc Hcs]. cbn [consoleintr_loop existsb edit_all]. destruct (c =? Ctrl "P") eqn:E.
    + destruct (IH comm pend true s Hcs Hx Hl) as (x & o & pt & Hrun & Hr). exists x, o, pt. split; [|done].
      rewrite Hrun. by rewrite orb_true_r.
    + pose proof (consoleintr_char_run c comm pend s Hc Hx Hl) as Hchar.
      destruct (edit c comm pend) as [[[comm' pend'] echo] woke]. destruct Hchar as (x & Hrun & Hr & _).
      rewrite (bind_ret_l _ _ _ _ _ Hrun). unfold edited.
      set (pt1 := if woke then _ else _). set (s1 := set_input x _).
      destruct (IH comm' pend' dump s1 Hcs) as (x' & o & pt & Hrun' & Hr'); [done|done|].
      exists x', (echo ++ o), pt. split; [|done]. rewrite Hrun'. cbn [orb]. f_equal. unfold s1. ksimpl.
      rewrite app_assoc. by knorm.
Qed.

(** A console interrupt with the characters [cs] (none of them ^P, which
    prints a process listing) returns with all locks released, and the buffer
    holds what the editor makes of [cs]. *)
Lemma consoleintr_run cs comm pend s : Forall (fun c => 0 <= c < 256 /\ c <> Ctrl "P") cs ->
  line_rep (input s) comm pend -> held s = [] ->
  exists x o pt, consoleintr cs s = Ret tt (set_input x (set_out (out s ++ o) (set_ptable pt s))) /\
    line_rep x (edit_all cs comm pend).1 (edit_all cs comm pend).2.
Proof.
  intros Hcs Hx Hh. unfold consoleintr. rewrite run_acquire by (rewrite Hh; apply not_elem_of_nil). rewrite Hh.
  destruct (consoleintr_loop_run cs comm pend false (set_held [LkCons] s)) as (x & o & pt & Hrun & Hr).
  - by eapply Forall_impl; [exact Hcs|intros c [? _]].
  - done.
  - ksimpl. by intros ?%list_elem_of_singleton.
  - exists x, o, pt. split; [|done]. rewrite (bind_ret_l _ _ _ _ _ Hrun).
    erewrite run_release; [|ksimpl; done|apply not_elem_of_nil].
    assert (existsb (fun c => c =? Ctrl "P") cs = false) as ->.
    { clear -Hcs. induction Hcs as [|c cs [_ Hc] _ IH]; [done|]. cbn [existsb]. by rewrite (proj2 (Z.eqb_neq _ _) Hc), IH. }
    cbn [orb when]. unfold ret. f_equal. ksimpl. rewrite <- Hh. by knorm.
Qed.

(** ** Reading a line *)

(** What a read of at most [k] more bytes does with the committed bytes: it
    ends with the bytes in [acc], or it has to wait for more input. *)
Inductive reading :=
| Line (acc rest : list Z)
| Wait (acc : list Z).

Fixpoint read_line (k : nat) (comm acc : list Z) : reading :=
  match k, comm with
  | O, _ => Line acc comm
  | S _, [] => Wait acc
  | S k', c :: comm' =>
      if c =? Ctrl "D" then Line acc (if bool_decide (acc = []) then comm' else comm)
      else if c =? 10 then Line (acc ++ [c]) comm'
      else read_line k' comm' (acc ++ [c])
  end.

Lemma line_wait x comm pend : line_rep x comm pend -> (in_r x =? in_w x) = bool_decide (comm = []).
Proof.
  intros [_ Hr Hm Hw He _ _]. rewrite Hw. case_bool_decide as D.
  - subst comm. cbn [length Z.of_nat]. rewrite Z.add_0_r, u32_id by done. apply Z.eqb_refl.
  - apply Z.eqb_neq. intros E. rewrite <- (u32_id (in_r x)) in E at 1 by done. rewrite <- (Z.add_0_r (in_r x)) in E at 1.
    apply u32_inj128 in E; [|lia..]. apply D, length_zero_iff_nil. lia.
Qed.

Lemma line_first x c comm pend : line_rep x (c :: comm) pend -> in_at x (in_r x) = c.
Proof.
  intros [_ Hr Hm Hw He Hb _]. unfold in_at, INPUT_BUF. apply nth_lookup_Some. rewrite <- (Hb 0%nat c eq_refl).
  do 3 f_equal. lia.
Qed.

(** [input.r++] takes the first committed byte away. *)
Lemma line_take x c comm pend : line_rep x (c :: comm) pend ->
  line_rep (set_in_r (u32 (in_r x + 1)) x) comm pend.
Proof.
  intros [Hl Hr Hm Hw He Hb Hp]. cbn [length] in *. constructor; ksimpl; try done; try lia.
  - unfold u32. apply Z.mod_pos_bound. lia.
  - rewrite Hw. unfold u32. rewrite Zplus_mod_idemp_l. f_equal. lia.
  - rewrite He. unfold u32. rewrite Zplus_mod_idemp_l. f_equal. lia.
  - intros k d Hk. rewrite <- (Hb (S k) d Hk). do 2 f_equal.
    rewrite <- Zplus_mod_idemp_l, u32_mod128, Zplus_mod_idemp_l. f_equal. lia.
Qed.

(** Bytes stored one by one, where [put] stores one byte at an offset. *)
Fixpoint stored (put : Z -> Z -> memory -> memory) (o : Z) (bs : list Z) (m : memory) : memory :=
  match bs with
  | [] => m
  | c :: bs' => stored put (o + 1) bs' (put o c m)
  end.

(** The end of [consoleread]. *)
Definition console_return (ip : nat) (r : Z) (acc : list Z) : K (Z * list Z) :=
  release LkCons ;;
  ilock (Some ip) ;;
  ret (r, acc).

Section reading.
Variables (ip me : nat) (p : proc) (put : Z -> Z -> memory -> memory) (dst : Z -> list Z -> K unit).
Hypothesis Hdst : forall o c s, dst o [c] s = Ret tt (set_mem (put o c (mem s)) s).

(** The state in which a read stops. *)
Definition after_read (x : cinput) (acc new : list Z) (s : kstate) : kstate :=
  set_input x (set_mem (stored put (Z.of_nat (length acc)) new (mem s)) s).

Definition read_result (k : nat) (target : Z) (pend acc : list Z) (s : kstate) (r : reading) : Prop :=
  match r with
  | Line acc' rest => exists x new, acc' = acc ++ new /\ line_rep x rest pend /\
      consoleread_loop k ip dst target (Z.of_nat k) acc s =
      console_return ip (Z.of_nat (length acc')) acc' (after_read x acc new s)
  | Wait acc' => exists x new, acc' = acc ++ new /\ line_rep x [] pend /\
      consoleread_loop k ip dst target (Z.of_nat k) acc s =
      if p_killed p =? 0 then Block (asleep me ChInput (set_held [LkPtable] (after_read x acc new s)))
      else console_return ip (-1) acc' (after_read x acc new s)
  end.

Lemma set_back y s : set_input (set_in_r (in_r (input s)) (set_in_r y (input s))) (set_input (set_in_r y (input s)) s) = s.
Proof. destruct s; cbn. by destruct input. Qed.

Lemma after_read_nil acc s : after_read (input s) acc [] s = s.
Proof. unfold after_read. cbn [stored]. by destruct s. Qed.

Lemma after_read_cons x y acc c new s :
  after_read x (acc ++ [c]) new (set_mem (put (Z.of_nat (length acc)) c (mem s)) (set_input y s)) =
  after_read x acc (c :: new) s.
Proof.
  unfold after_read. ksimpl. cbn [stored]. rewrite length_app. cbn [length].
  replace (Z.of_nat (length acc + 1)) with (Z.of_nat (length acc) + 1) by lia. by knorm.
Qed.

Lemma consoleread_loop_run k : forall target comm pend acc s, cur s = Some me -> ptable s !! me = Some p ->
  held s = [LkCons] -> line_rep (input s) comm pend -> target = Z.of_nat (k + length acc) -> target < 2 ^ 31 ->
  read_result k target pend acc s (read_line k comm acc).
Proof using Hdst.
  induction k as [|k IH]; intros target comm pend acc s Hc Hp Hh Hx Ht Hlt.
  { exists (input s), []. rewrite app_nil_r, after_read_nil. split; [done|]. split; [done|].
    cbn [consoleread_loop]. rewrite i32_id by lia. replace (target - Z.of_nat 0) with (Z.of_nat (length acc)) by lia. done. }
  destruct comm as [|c comm]; cbn [read_line].
  - exists (input s), []. rewrite app_nil_r, after_read_nil. split; [done|]. split; [done|].
    cbn [consoleread_loop]. rewrite run_gets, (line_wait _ _ _ Hx), bool_decide_eq_true_2 by done.
    rewrite (bind_ret_l _ _ _ _ _ (me_killed_run me p s Hc Hp)). destruct (p_killed p =? 0); cbn [negb]; [|done].
    by apply (sleep_run me p).
  - unfold read_result. cbn [consoleread_loop]. rewrite run_gets, (line_wait _ _ _ Hx), (bool_decide_eq_false_2 (c :: comm = [])) by done.
    rewrite (line_first _ _ _ _ Hx). pose proof (line_take _ _ _ _ Hx) as Hx'. rewrite run_upd_input.
    destruct (c =? Ctrl "D") eqn:ED.
    + case_bool_decide as Da.
      * exists (set_in_r (u32 (in_r (input s) + 1)) (input s)), []. rewrite app_nil_r. split; [done|]. split; [done|].
        subst acc. cbn [length] in *. rewrite (proj2 (Z.ltb_ge _ _)) by lia. unfold when. krun.
        rewrite i32_id by lia. replace (target - Z.of_nat (S k)) with 0 by lia. unfold after_read. cbn [stored].
        unfold console_return. by destruct s.
      * exists (input s), []. rewrite app_nil_r, after_read_nil. split; [done|]. split; [done|].
        assert (length acc <> 0%nat) by (by rewrite length_zero_iff_nil).
        rewrite (proj2 (Z.ltb_lt _ _)) by lia. unfold when. rewrite run_upd_input. ksimpl.
        rewrite u32_pred, i32_id by lia. replace (in_r (input s) + 1 - 1) with (in_r (input s)) by lia.
        rewrite (u32_id (in_r (input s))) by (apply (lr_r _ _ _ Hx)).
        replace (target - Z.of_nat (S k)) with (Z.of_nat (length acc)) by lia. unfold console_return.
        by rewrite set_back.
    + rewrite (bind_ret_l _ _ _ _ _ (Hdst _ _ _)). ksimpl. destruct (c =? 10).
      * exists (set_in_r (u32 (in_r (input s) + 1)) (input s)), [c]. split; [done|]. split; [done|].
        rewrite length_app. cbn [length]. rewrite i32_id by lia.
        replace (target - (Z.of_nat (S k) - 1)) with (Z.of_nat (length acc + 1)) by lia. unfold console_return, after_read.
        cbn [stored]. by knorm.
      * set (s1 := set_mem _ _). replace (Z.of_nat (S k) - 1) with (Z.of_nat k) by lia.
        assert (target = Z.of_nat (k + length (acc ++ [c]))) as Ht' by (rewrite length_app; cbn [length]; lia).
        pose proof (IH target comm pend (acc ++ [c]) s1 Hc Hp Hh Hx' Ht' Hlt) as H.
        destruct (read_line k comm (acc ++ [c])) as [acc' rest|acc']; destruct H as (x & new & -> & Hr & H);
          exists x, (c :: new); rewrite <- app_assoc in *; (split; [done|]); (split; [done|]);
          unfold s1 in H; rewrite after_read_cons in H; exact H.
Qed.

End reading.

End consolespec.
