(* ===== verification/DevSpec.v ===== *)
(** * The keyboard, the serial port, the clock and the processor table

    The scan codes of a text, sent by a keyboard, reach the console's line
    editor as that text; the clock's registers are decoded into a date; the
    loop of [mpinit] over a configuration table finds the processors, and does
    not end when an entry has an unknown type. *)

From S2P Require Import Prelude CString Mem KState Mmu Kalloc Vm File Proc Bio Layout Log Console Inode.
From S2P Require Import Pipe ConsoleDev ConsoleSpec Trap Devices.

(** ** The keyboard *)

Section decode.
Import Kbd.

(** [kbdgetc] on one scan code: the new value of [shift] and the result. *)
Definition kbd_step (shift data : Z) : Z * Z :=
  if data =? 0xE0 then (Z.lor shift E0ESC, 0)
  else if negb (Z.land data 0x80 =? 0) then
    let data := if negb (Z.land shift E0ESC =? 0) then data else Z.land data 0x7F in
    (Z.land shift (Z.lnot (Z.lor (shiftcode data) E0ESC)), 0)
  else
    let esc := negb (Z.land shift E0ESC =? 0) in
    let data := if esc then Z.lor data 0x80 else data in
    let shift := if esc then Z.land shift (Z.lnot E0ESC) else shift in
    let shift := Z.lxor (Z.lor shift (shiftcode data)) (togglecode data) in
    (shift, capslock shift (charcode (Z.land shift (Z.lor CTL SHIFT)) data)).

(** The results of [kbdgetc] for a sequence of scan codes, and [shift]
    afterwards. *)
Fixpoint kbd_decode (shift : Z) (codes : list Z) : list Z * Z :=
  match codes with
  | [] => ([], shift)
  | c :: codes' =>
      let '(shift', ch) := kbd_step shift c in
      let '(cs, shift'') := kbd_decode shift' codes' in
      (ch :: cs, shift'')
  end.

Lemma kbd_decode_app codes1 codes2 shift :
  kbd_decode shift (codes1 ++ codes2) =
  ((kbd_decode shift codes1).1 ++ (kbd_decode (kbd_decode shift codes1).2 codes2).1,
   (kbd_decode (kbd_decode shift codes1).2 codes2).2).
Proof.
  revert shift. induction codes1 as [|c codes1 IH]; intros shift; cbn [kbd_decode app fst snd]; [by destruct (kbd_decode shift codes2)|].
  destruct (kbd_step shift c) as [sh ch]. rewrite IH. destruct (kbd_decode sh codes1) as [cs sh']. cbn [fst snd].
  by destruct (kbd_decode sh' codes2).
Qed.

Definition small (m : Z -> Z) : bool := forallb (fun i => (0 <=? m i) && (m i <? 256)) (seqZ 0 256).

Lemma small_range m i : small m = true -> 0 <= i < 256 -> 0 <= m i < 256.
Proof.
  intros H Hi. unfold small in H. rewrite forallb_forall in H.
  specialize (H i (proj1 (list_elem_of_In _ _) (proj2 (elem_of_seqZ _ _ _) Hi))). bool_prop. lia.
Qed.

Lemma charcode_range k i : 0 <= i < 256 -> 0 <= charcode k i < 256.
Proof.
  intros Hi. unfold charcode. destruct (k =? 0); [|destruct (k =? 1)]; by apply small_range; [vm_compute|].
Qed.

Lemma kbd_step_range shift data : 0 <= data < 256 -> 0 <= (kbd_step shift data).2 < 256.
Proof.
  intros Hd. unfold kbd_step. destruct (data =? 0xE0); [done|]. destruct (negb (Z.land data 128 =? 0)) eqn:E; [done|]. cbv zeta.
  set (data' := if negb (Z.land shift E0ESC =? 0) then Z.lor data 128 else data).
  assert (0 <= data' < 256) as Hd'.
  { subst data'. destruct (negb (Z.land shift _ =? 0)); [|done]. split; [apply Z.lor_nonneg; lia|].
    change 256 with (2 ^ 8). apply Z.log2_lt_pow2; [|rewrite Z.log2_lor by lia; apply Z.max_lub_lt; [|done]].
    - assert (0 <= Z.lor data 128) by (apply Z.lor_nonneg; lia). enough (Z.lor data 128 <> 0) by lia.
      intros H0%Z.lor_eq_0_iff. lia.
    - destruct (Z.eqb_spec data 0) as [->|]; [done|]. apply Z.log2_lt_pow2; lia. }
  cbn [snd]. clearbody data'. generalize (Z.lxor (Z.lor (if negb (Z.land shift E0ESC =? 0) then Z.land shift (Z.lnot E0ESC) else shift)
    (shiftcode data')) (togglecode data')). intros sh. pose proof (charcode_range (Z.land sh (Z.lor CTL SHIFT)) data' Hd') as Hc.
  generalize dependent (charcode (Z.land sh (Z.lor CTL SHIFT)) data'). intros c Hc.
  unfold capslock. change (chr "a") with 97. change (chr "z") with 122. change (chr "A") with 65. change (chr "Z") with 90.
  destruct (negb (Z.land sh _ =? 0)); [|done]. destruct ((97 <=? c) && _) eqn:E1; bool_prop; [rewrite u32_id; lia|].
  destruct ((65 <=? c) && _) eqn:E2; bool_prop; [rewrite u32_id; lia|done].
Qed.

(** ** Typing *)

(** The key of the main block whose character in a map is [c]. *)
Definition key_for (m : Z -> Z) (c : Z) : option Z :=
  Z.of_nat <$> find_index (fun i => m i =? c) (seqZ 0 0x58).

(** The scan codes of the keystrokes for a character: press and release the
    key, with a shift or control key around it where needed. *)
Definition keystrokes (c : Z) : option (list Z) :=
  if c =? 0 then None
  else match key_for normalmap c with
       | Some k => Some [k; k + 0x80]
       | None =>
           match key_for shiftmap c with
           | Some k => Some [0x2A; k; k + 0x80; 0xAA]
           | None =>
               match key_for ctlmap c with
               | Some k => Some [0x1D; k; k + 0x80; 0x9D]
               | None => None
               end
           end
       end.

Definition typing (text : list Z) : option (list Z) := concat (A := Z) <$> mapM keystrokes text.

(** Every key of the three blocks gives its character and leaves [shift] as it
    was. *)
Definition key_ok (c : Z) : bool :=
  match keystrokes c with
  | Some ks => bool_decide (filter (fun c => c <> 0) (kbd_decode 0 ks).1 = [c]) && ((kbd_decode 0 ks).2 =? 0)
               && forallb (fun k => (0 <=? k) && (k <? 256)) ks
  | None => true
  end.

Lemma keys_ok : forallb key_ok (seqZ 0 256) = true.
Proof. by vm_compute. Qed.

Lemma keystrokes_decode c ks : 0 <= c < 256 -> keystrokes c = Some ks ->
  filter (fun c => c <> 0) (kbd_decode 0 ks).1 = [c] /\ (kbd_decode 0 ks).2 = 0 /\ Forall (fun k => 0 <= k < 256) ks.
Proof.
  intros Hc Hk. pose proof keys_ok as H. rewrite forallb_forall in H.
  specialize (H c (proj1 (list_elem_of_In _ _) (proj2 (elem_of_seqZ _ _ _) Hc))).
  unfold key_ok in H. rewrite Hk in H. apply andb_prop in H as [[H1 H2]%andb_prop H3].
  split; [by apply bool_decide_eq_true_1 in H1|]. split; [by apply Z.eqb_eq|].
  apply Forall_forall. intros k Hin. rewrite forallb_forall in H3. specialize (H3 k (proj1 (list_elem_of_In _ _) Hin)). bool_prop. lia.
Qed.

Lemma typing_decode text codes : Forall (fun c => 0 <= c < 256) text -> typing text = Some codes ->
  filter (fun c => c <> 0) (kbd_decode 0 codes).1 = text /\ (kbd_decode 0 codes).2 = 0 /\ Forall (fun k => 0 <= k < 256) codes.
Proof.
  unfold typing. intros Hf (kss & H & ->)%fmap_Some. apply mapM_Some in H. induction H as [|c ks text kss Hk _ IH]; [done|].
  apply Forall_cons in Hf as [Hc Hf]. destruct (keystrokes_decode _ _ Hc Hk) as (H1 & H2 & H3). destruct (IH Hf) as (H4 & H5 & H6).
  cbn [concat]. rewrite kbd_decode_app, H2. cbn [fst snd]. rewrite filter_app, H1, H4. split; [done|]. split; [done|]. by apply Forall_app.
Qed.

End decode.

Section keyboard.
Context {LK : Linker} {FS : FsOps} {DK : Disk} {W : Type} {PT : Ports W} (polls : nat).
Import Kbd.

(** The controller holds the scan codes [keys w]: the status register says
    whether there are any, the data register delivers the first. *)
Record kbd_laws (keys : W -> list Z) : Prop := {
  kl_status : forall w, (Z.land (u8 (pt_inb KBSTATP w).1) KBS_DIB =? 0) = bool_decide (keys w = []) /\
    keys (pt_inb KBSTATP w).2 = keys w;
  kl_data : forall w c cs, keys w = c :: cs -> (pt_inb KBDATAP w).1 = c /\ keys (pt_inb KBDATAP w).2 = cs;
}.

Context (keys : W -> list Z) (L : kbd_laws keys).
Implicit Types d : devst W.

Lemma run_inb {A} port (f : Z -> D W A) d : (v <- inb port ;; f v) d =
  f (u8 (pt_inb port (dv_w d)).1) (set_dv_w (pt_inb port (dv_w d)).2 d).
Proof. unfold bind, inb. by destruct (pt_inb _ _). Qed.

Lemma kbdgetc_nil d : keys (dv_w d) = [] ->
  exists w, kbdgetc d = Ret (-1) (set_dv_w w d) /\ keys w = [].
Proof.
  intros Hk. destruct (kl_status _ L (dv_w d)) as [H1 H2]. unfold kbdgetc. rewrite run_inb, H1, Hk.
  rewrite bool_decide_eq_true_2 by done. eexists. split; [done|]. by rewrite H2.
Qed.

Lemma kbdgetc_cons d c cs : keys (dv_w d) = c :: cs -> 0 <= c < 256 ->
  exists w, kbdgetc d = Ret (kbd_step (dv_shift d) c).2 (set_dv_shift (kbd_step (dv_shift d) c).1 (set_dv_w w d)) /\
    keys w = cs.
Proof.
  intros Hk Hc. destruct (kl_status _ L (dv_w d)) as [H1 H2]. unfold kbdgetc. rewrite run_inb, H1, Hk.
  rewrite bool_decide_eq_false_2 by done. set (w1 := (pt_inb KBSTATP (dv_w d)).2) in *. rewrite Hk in H2.
  destruct (kl_data _ L w1 c cs H2) as [H3 H4]. rewrite run_inb. cbn [dv_w set_dv_w]. rewrite H3, u8_id by done.
  exists (pt_inb KBDATAP w1).2. split; [|done]. unfold kbd_step, bind, gets, modify, ret. cbn [dv_shift set_dv_w].
  destruct (c =? 0xE0); [done|]. by destruct (negb (Z.land c 128 =? 0)).
Qed.

(** The loop of [consoleintr] with the keyboard is the loop over the decoded
    characters. *)
Lemma getc_loop_run codes : forall k dump d r s, keys (dv_w d) = codes -> Forall (fun c => 0 <= c < 256) codes ->
  (length codes <= k)%nat -> consoleintr_loop (kbd_decode (dv_shift d) codes).1 dump (dv_k d) = Ret r s ->
  exists w, consoleintr_getc k kbdgetc dump d =
    Ret r (set_dv_k s (set_dv_shift (kbd_decode (dv_shift d) codes).2 (set_dv_w w d))) /\ keys w = [].
Proof.
  induction codes as [|c codes IH]; intros k dump d r s Hk Hf Hl Hr.
  - destruct (kbdgetc_nil d Hk) as (w & R & Hw). exists w. split; [|done].
    injection Hr as <- <-. destruct k; cbn [consoleintr_getc]; rewrite (bind_ret_l _ _ _ _ _ R); by destruct d.
  - apply Forall_cons in Hf as [Hc Hf]. destruct (kbdgetc_cons d c codes Hk Hc) as (w1 & R1 & Hw1).
    pose proof (kbd_step_range (dv_shift d) c Hc) as Hch. destruct k as [|k]; cbn [length] in Hl; [lia|].
    cbn [consoleintr_getc kbd_decode] in *. rewrite (bind_ret_l _ _ _ _ _ R1). rewrite (proj2 (Z.ltb_ge _ _)) by lia.
    destruct (kbd_step (dv_shift d) c) as [sh ch]. cbn [fst snd] in *.
    destruct (kbd_decode sh codes) as [cs sh'] eqn:Ed. cbn [fst snd consoleintr_loop] in *.
    destruct (ch =? Ctrl "P").
    + destruct (IH k true (set_dv_shift sh (set_dv_w w1 d)) r s) as (w & R & Hw); [done..|lia|by cbn; rewrite Ed|].
      exists w. rewrite R. cbn [dv_shift set_dv_shift]. by rewrite Ed.
    + unfold bind in Hr at 1. destruct (consoleintr_char ch (dv_k d)) as [[] s1| | |] eqn:Ec; try done.
      rewrite (bind_ret_l _ _ _ tt (set_dv_k s1 (set_dv_shift sh (set_dv_w w1 d)))) by (unfold lift_k; cbn [dv_k set_dv_shift set_dv_w]; by rewrite Ec).
      destruct (IH k dump (set_dv_k s1 (set_dv_shift sh (set_dv_w w1 d))) r s) as (w & R & Hw); [done..|lia|by cbn; rewrite Ed|].
      exists w. rewrite R. cbn [dv_shift set_dv_shift set_dv_k]. by rewrite Ed.
Qed.

(** The editor ignores the zeros that releases and escapes give. *)
Lemma consoleintr_loop_zeros cs : forall dump s,
  consoleintr_loop cs dump s = consoleintr_loop (filter (fun c => c <> 0) cs) dump s.
Proof.
  induction cs as [|c cs IH]; intros dump s; [done|]. destruct (Z.eqb_spec c 0) as [->|Hc].
  - rewrite filter_cons_False by naive_solver. rewrite <- IH. done.
  - rewrite filter_cons_True by done. cbn [consoleintr_loop]. destruct (c =? Ctrl "P"); [apply IH|].
    apply bind_cong_r. intros a s' _. apply IH.
Qed.

(** A keyboard interrupt after a text was typed is [consoleintr] of the text. *)
Lemma kbd_intr_run text codes d s : Forall (fun c => 0 <= c < 256) text -> typing text = Some codes ->
  keys (dv_w d) = codes -> dv_shift d = 0 -> (length codes <= polls)%nat -> consoleintr text (dv_k d) = Ret tt s ->
  exists w, kbd_intr polls d = Ret tt (set_dv_k s (set_dv_w w d)) /\ keys w = [].
Proof.
  intros Hf Ht Hk Hsh Hp Hr. destruct (typing_decode _ _ Hf Ht) as (H1 & H2 & H3). unfold consoleintr in Hr.
  unfold bind in Hr at 1. destruct (acquire LkCons (dv_k d)) as [[] s1| | |] eqn:Ea; try done.
  unfold bind in Hr at 1. destruct (consoleintr_loop text false s1) as [dump s2| | |] eqn:El; try done.
  unfold bind in Hr. destruct (release LkCons s2) as [[] s3| | |] eqn:Er; try done.
  unfold kbd_intr, dev_consoleintr. rewrite (bind_ret_l _ _ _ tt (set_dv_k s1 d)) by (unfold lift_k; by rewrite Ea).
  destruct (getc_loop_run codes polls false (set_dv_k s1 d) dump s2) as (w & R & Hw); [done..| |].
  { cbn [dv_shift set_dv_k dv_k]. rewrite Hsh, consoleintr_loop_zeros, H1. exact El. }
  exists w. split; [|done]. rewrite (bind_ret_l _ _ _ _ _ R). cbn [dv_shift set_dv_k]. rewrite Hsh, H2.
  rewrite (bind_ret_l _ _ _ tt (set_dv_k s3 (set_dv_w w d))).
  - destruct dump; cbn [when] in *; [unfold lift_k; cbn [dv_k set_dv_k]; by rewrite Hr|injection Hr as <-; done].
  - unfold lift_k. cbn [dv_k set_dv_k]. rewrite Er. destruct d; cbn in *. by subst.
Qed.

End keyboard.

(** ** The processor table *)

(** The entries of a configuration table that [mpinit] knows: a processor with
    its APIC id, an I/O APIC with its id, and the types that are skipped. *)
Inductive mp_entry : Type :=
  | EProc (apicid : Z)
  | EIoapic (apicno : Z)
  | ESkip (t : Z).

(** The table from [p] to [e] has the entries [es]. *)
Fixpoint mp_table (m : memory) (p e : Z) (es : list mp_entry) : Prop :=
  match es with
  | [] => p = e
  | EProc a :: es' => ld8 m p = MPPROC /\ mpproc_apicid m p = a /\ mp_table m (p + sizeof_mpproc) e es'
  | EIoapic a :: es' => ld8 m p = MPIOAPIC /\ mpioapic_apicno m p = a /\ mp_table m (p + sizeof_mpioapic) e es'
  | ESkip t :: es' => ld8 m p = t /\ t ∈ [MPBUS; MPIOINTR; MPLINTR] /\ mp_table m (p + 8) e es'
  end.

Definition mp_procs (es : list mp_entry) : list Z :=
  omap (fun x => match x with EProc a => Some a | _ => None end) es.

Definition mp_ioapics (es : list mp_entry) : list Z :=
  omap (fun x => match x with EIoapic a => Some a | _ => None end) es.

Lemma mp_table_le m p e es : mp_table m p e es -> p + 8 * Z.of_nat (length es) <= e.
Proof.
  revert p. induction es as [|[a|a|t] es IH]; intros p; cbn [mp_table length]; [intros ->; lia|..].
  all: intros (_ & _ & H%IH); unfold sizeof_mpproc, sizeof_mpioapic in *; lia.
Qed.

Section mp.
Context {W : Type} {PT : Ports W} (polls : nat).
Implicit Types d : devst W.

(** The first [NCPU] processors are entered in [cpus]. *)
Record found d (ids : list Z) : Prop := {
  fd_len : length (dv_apicids d) = Z.to_nat NCPU;
  fd_ncpu : ncpu (dv_k d) = Z.of_nat (length ids);
  fd_max : (length ids <= Z.to_nat NCPU)%nat;
  fd_ids : take (length ids) (dv_apicids d) = ids;
}.

(** The state after the loop. *)
Definition mp_state d (n : Z) (ids : list Z) (io : Z) : devst W :=
  set_dv_apicids ids (set_dv_ioapicid io (set_dv_k (set_ncpu n (dv_k d)) d)).

Lemma mp_state_again d n l io n' l' io' : mp_state (mp_state d n l io) n' l' io' = mp_state d n' l' io'.
Proof. done. Qed.

Lemma mp_state_id d : mp_state d (ncpu (dv_k d)) (dv_apicids d) (dv_ioapicid d) = d.
Proof. destruct d as [s]. unfold mp_state, set_dv_apicids, set_dv_ioapicid, set_dv_k. cbn. f_equal. by destruct s. Qed.

Lemma found_next d ids a io : found d ids -> (length ids < Z.to_nat NCPU)%nat ->
  found (mp_state d (ncpu (dv_k d) + 1) (<[Z.to_nat (ncpu (dv_k d)) := a]> (dv_apicids d)) io) (ids ++ [a]).
Proof.
  intros [H1 H2 H3 H4] Hlt. constructor; cbn [dv_apicids dv_k mp_state set_dv_apicids set_dv_ioapicid set_dv_k].
  - by rewrite length_insert.
  - change (ncpu (dv_k d) + 1 = Z.of_nat (length (ids ++ [a]))). rewrite H2, length_app. cbn [length]. lia.
  - rewrite length_app. cbn [length]. lia.
  - rewrite H2, Nat2Z.id, length_app. cbn [length]. rewrite Nat.add_1_r.
    erewrite take_S_r by (apply list_lookup_insert_eq; by rewrite H1). rewrite take_insert_ge by lia. by rewrite H4.
Qed.

Lemma mp_entries_run es : forall k p e d ids, mp_table (mem (dv_k d)) p e es -> (length es <= k)%nat -> found d ids ->
  exists n l, let d' := mp_state d n l (default (dv_ioapicid d) (last (mp_ioapics es))) in
    mp_entries k p e true d = Ret true d' /\ found d' (take (Z.to_nat NCPU) (ids ++ mp_procs es)).
Proof.
  induction es as [|x es IH]; intros k p e d ids Ht Hk Hd.
  { cbn [mp_table] in Ht. subst e. exists (ncpu (dv_k d)), (dv_apicids d). cbn [mp_ioapics omap list_omap last default].
    rewrite mp_state_id. split; [|by rewrite app_nil_r, take_ge by apply (fd_max _ _ Hd)].
    destruct k; cbn [mp_entries]; by rewrite Z.ltb_irrefl. }
  pose proof (mp_table_le _ _ _ _ Ht) as Hle. cbn [length] in Hle. destruct k as [|k]; cbn [length] in Hk; [lia|].
  cbn [mp_entries]. rewrite (proj2 (Z.ltb_lt p e)) by lia. rewrite (bind_ret_l (gets _) _ d _ d eq_refl). cbv zeta.
  destruct x as [a|a|t]; cbn [mp_table] in Ht; destruct Ht as (H1 & H2 & Ht); rewrite H1.
  - cbn [Z.eqb MPPROC]. rewrite (bind_ret_l (gets _) _ d _ d eq_refl), H2. cbn [mp_ioapics mp_procs omap list_omap].
    destruct (ncpu (dv_k d) <? NCPU) eqn:En; bool_prop; cbn [when].
    + set (d1 := mp_state d (ncpu (dv_k d) + 1) (<[Z.to_nat (ncpu (dv_k d)) := a]> (dv_apicids d)) (dv_ioapicid d)).
      rewrite (bind_ret_l _ _ d tt d1) by (by destruct d).
      assert (length ids < Z.to_nat NCPU)%nat as Hlt by (rewrite (fd_ncpu _ _ Hd) in En; lia).
      destruct (IH k (p + sizeof_mpproc) e d1 (ids ++ [a]) Ht ltac:(lia) (found_next d ids a _ Hd Hlt)) as (n & l & R & F).
      exists n, l. rewrite <- app_assoc in F. done.
    + rewrite (bind_ret_l _ _ d tt d) by done. destruct (IH k (p + sizeof_mpproc) e d ids Ht ltac:(lia) Hd) as (n & l & R & F).
      exists n, l. split; [done|]. assert (length ids = Z.to_nat NCPU) as E by (pose proof (fd_max _ _ Hd); rewrite (fd_ncpu _ _ Hd) in En; lia).
      rewrite <- E, take_app_length in F |- *. done.
  - cbn [Z.eqb MPPROC MPIOAPIC Pos.eqb]. set (d1 := mp_state d (ncpu (dv_k d)) (dv_apicids d) a).
    rewrite (bind_ret_l _ _ d tt d1) by (rewrite H2; destruct d as [s]; unfold modify, d1, mp_state, set_dv_apicids, set_dv_ioapicid, set_dv_k; cbn; do 2 f_equal; by destruct s).
    assert (found d1 ids) as Hd1 by (destruct Hd; by constructor).
    destruct (IH k (p + sizeof_mpioapic) e d1 ids Ht ltac:(lia) Hd1) as (n & l & R & F). exists n, l.
    cbn [mp_ioapics mp_procs omap list_omap]. rewrite last_cons. destruct (last _); done.
  - destruct (IH k (p + 8) e d ids Ht ltac:(lia) Hd) as (n & l & R & F). exists n, l. split; [|exact F].
    rewrite !elem_of_cons in H2. destruct H2 as [->|[->|[->|[]%elem_of_nil]]]; exact R.
Qed.

(** The table that [mpinit] reads: the floating structure and the configuration
    it points to are found, and the entries from [conf+1] on are known ones. *)
Definition mp_config (m : memory) (mp conf : Z) (es : list mp_entry) : Prop :=
  mpconfig m = Some (mp, conf) /\ mp_table m (conf + sizeof_mpconf) (conf + mpconf_length m conf) es.

Lemma mpinit_run mp conf es d : mp_config (mem (dv_k d)) mp conf es -> (length es <= polls)%nat -> found d [] ->
  exists n l w, let d' := set_dv_w w (mp_state (set_dv_lapic (mpconf_lapicaddr (mem (dv_k d)) conf) d) n l
                                       (default (dv_ioapicid d) (last (mp_ioapics es)))) in
    mpinit polls d = Ret tt d' /\ found d' (take (Z.to_nat NCPU) (mp_procs es)) /\
    (w = dv_w d \/ exists v, w = pt_outb 0x23 v (pt_inb 0x23 (pt_outb 0x22 0x70 (dv_w d))).2).
Proof.
  intros [Hc Ht] Hp Hf. unfold mpinit. erewrite (bind_ret_l (gets _)) by reflexivity. rewrite Hc.
  set (d1 := set_dv_lapic (mpconf_lapicaddr (mem (dv_k d)) conf) d).
  rewrite (bind_ret_l _ _ d tt d1) by done.
  destruct (mp_entries_run es polls _ _ d1 [] Ht Hp) as (n & l & R & F); [by destruct Hf; constructor|].
  rewrite app_nil_l in F. set (d2 := mp_state d1 n l _) in *. rewrite (bind_ret_l _ _ _ _ _ R). cbn [negb].
  set (m := mem (dv_k d)).
  assert (exists w2, (when (negb (mp_imcrp m mp =? 0)) (outb 0x22 0x70 ;; v <- inb 0x23 ;; outb 0x23 (Z.lor v 1))) d2 =
    Ret tt (set_dv_w w2 d2) /\ (w2 = dv_w d \/ exists v, w2 = pt_outb 0x23 v (pt_inb 0x23 (pt_outb 0x22 0x70 (dv_w d))).2)) as (w2 & R2 & Hw2).
  { destruct (negb _); cbn [when]; [|exists (dv_w d2); split; [by destruct d2|by left]].
    unfold bind, outb, inb. change (dv_w d2) with (dv_w d). change (u8 0x70) with 0x70. cbn [dv_w set_dv_w].
    destruct (pt_inb 0x23 _) as [v w]. eexists. split; [done|]. right. by eexists. }
  exists n, l, w2. split; [exact R2|]. split; [by destruct F; constructor|done].
Qed.

(** An entry of another type: the loop stays at it, whatever the bound. *)
Lemma mp_entries_stuck k : forall es p q e ismp d, mp_table (mem (dv_k d)) p q es -> q < e ->
  ld8 (mem (dv_k d)) q ∉ [MPPROC; MPBUS; MPIOAPIC; MPIOINTR; MPLINTR] ->
  exists d', mp_entries k p e ismp d = Undef "mpinit: loop bound" d'.
Proof.
  induction k as [|k IH]; intros es p q e ismp d Ht Hq Hu; pose proof (mp_table_le _ _ _ _ Ht) as Hle.
  all: cbn [mp_entries]; rewrite (proj2 (Z.ltb_lt p e)) by lia.
  { by eexists. }
  rewrite (bind_ret_l (gets _) _ d _ d eq_refl). cbv zeta. destruct es as [|[a|a|t] es]; cbn [mp_table] in Ht.
  - subst q. pose proof Hu as Hu'. rewrite !not_elem_of_cons in Hu'. destruct Hu' as (U0 & U1 & U2 & U3 & U4 & _).
    rewrite !(proj2 (Z.eqb_neq _ _)) by done. by apply (IH [] p p).
  - destruct Ht as (H1 & _ & Ht). rewrite H1. cbn [Z.eqb MPPROC]. rewrite (bind_ret_l (gets _) _ d _ d eq_refl).
    destruct (ncpu (dv_k d) <? NCPU); cbn [when]; erewrite bind_ret_l by reflexivity; by apply (IH es _ q).
  - destruct Ht as (H1 & _ & Ht). rewrite H1. cbn [Z.eqb MPPROC MPIOAPIC Pos.eqb].
    erewrite bind_ret_l by reflexivity. by apply (IH es _ q).
  - destruct Ht as (H1 & H2 & Ht). rewrite H1. rewrite !elem_of_cons in H2.
    destruct H2 as [->|[->|[->|[]%elem_of_nil]]]; by apply (IH es _ q).
Qed.

(** [mycpu] finds the processor that runs among the entries of [cpus]. *)
Lemma mycpu_run d ids i a : found d ids -> NoDup ids -> ids !! i = Some a -> dv_if d = false -> dv_lapic d <> 0 ->
  Z.shiftr (u32 (pt_load (dv_lapic d + 4 * Lapic.ID) (dv_w d)).1) 24 = a ->
  mycpu d = Ret i (set_dv_w (pt_load (dv_lapic d + 4 * Lapic.ID) (dv_w d)).2 d).
Proof.
  intros [F1 F2 F3 F4] Hnd Hi Hif Hl Ha. unfold mycpu. erewrite (bind_ret_l (gets dv_if)) by reflexivity. rewrite Hif.
  set (d1 := set_dv_w (pt_load (dv_lapic d + 4 * Lapic.ID) (dv_w d)).2 d).
  rewrite (bind_ret_l lapicid _ d a d1).
  - erewrite (bind_ret_l (gets _)) by reflexivity. unfold find_cpu. change (dv_k d1) with (dv_k d). change (dv_apicids d1) with (dv_apicids d).
    rewrite F2, Nat2Z.id, F4. assert (find_index (fun b => b =? a) ids = Some i) as ->; [|done].
    apply find_index_Some. split; [exists a; split; [done|apply Z.eqb_refl]|]. intros j y Hj Hy. apply Z.eqb_neq. intros ->.
    pose proof (NoDup_lookup _ _ _ _ Hnd Hi Hy). lia.
  - unfold lapicid. erewrite (bind_ret_l (gets dv_lapic)) by reflexivity. rewrite (proj2 (Z.eqb_neq _ _) Hl).
    unfold lapicr, mmio_load. unfold bind, gets, ret. rewrite (proj2 (Z.eqb_neq _ _) Hl). subst d1.
    destruct (pt_load _ _) as [v w]. cbn [fst snd] in *. by rewrite Ha.
Qed.

End mp.

(** ** The clock *)

Section clock.
Context {W : Type} {PT : Ports W} (polls : nat).
Import Lapic.
Implicit Types d : devst W.

(** A clock that shows [regs] while it is read: a store to port 0x70 selects a
    register, a load from port 0x71 reads it. *)
Record rtc_laws (idx : W -> Z) (regs : Z -> Z) (stands : W -> Prop) : Prop := {
  rl_select : forall w v, stands w -> stands (pt_outb CMOS_PORT v w) /\ idx (pt_outb CMOS_PORT v w) = v;
  rl_read : forall w, stands w -> stands (pt_inb CMOS_RETURN w).2 /\ (pt_inb CMOS_RETURN w).1 = regs (idx w);
}.

Context (idx : W -> Z) (regs : Z -> Z) (stands : W -> Prop) (L : rtc_laws idx regs stands).

Lemma cmos_read_run r d : stands (dv_w d) -> 0 <= r < 256 ->
  exists w, cmos_read r d = Ret (u8 (regs r)) (set_dv_w w d) /\ stands w.
Proof.
  intros Hs Hr. destruct (rl_select _ _ _ L _ (u8 r) Hs) as [S1 I1]. destruct (rl_read _ _ _ L _ S1) as [S2 R2].
  eexists. split; [|exact S2]. rewrite I1, u8_id in R2 by done. unfold cmos_read, bind, outb, microdelay, ret, inb. cbn [dv_w set_dv_w].
  rewrite u8_id in * by done. destruct (pt_inb _ _) as [v w]. cbn [fst snd] in *. by subst.
Qed.

Definition shown : rtcdate :=
  mk_rtcdate (u8 (regs SECS)) (u8 (regs MINS)) (u8 (regs HOURS)) (u8 (regs DAY)) (u8 (regs MONTH)) (u8 (regs YEAR)).

Ltac clock_step r d0 H :=
  let w := fresh "w" in let E := fresh "E" in let H' := fresh "H" in
  destruct (cmos_read_run r d0 H) as (w & E & H'); [unfold SECS, MINS, HOURS, DAY, MONTH, YEAR, CMOS_STATA, CMOS_STATB; lia|];
  rewrite (bind_ret_l _ _ _ _ _ E); clear E H; rename H' into H.

Lemma fill_rtcdate_run d : stands (dv_w d) -> exists w, fill_rtcdate d = Ret shown (set_dv_w w d) /\ stands w.
Proof.
  intros Hs. unfold fill_rtcdate, shown. clock_step SECS d Hs.
  do 5 match goal with H : stands ?w |- context [bind (cmos_read ?r) _ ?d1] => change w with (dv_w d1) in H; clock_step r d1 H end.
  eexists. split; [reflexivity|exact Hs].
Qed.

Lemma cmos_stable_run k d : stands (dv_w d) -> Z.land (u8 (regs CMOS_STATA)) CMOS_UIP = 0 ->
  exists w, cmos_stable k d = Ret shown (set_dv_w w d) /\ stands w.
Proof.
  intros Hs Hu. destruct (fill_rtcdate_run d Hs) as (w1 & E1 & S1).
  destruct (cmos_read_run CMOS_STATA (set_dv_w w1 d) S1) as (w2 & E2 & S2); [unfold CMOS_STATA; lia|].
  destruct (fill_rtcdate_run (set_dv_w w2 d) S2) as (w3 & E3 & S3). exists w3. split; [|done].
  destruct k; cbn [cmos_stable]; rewrite (bind_ret_l _ _ _ _ _ E1), (bind_ret_l _ _ _ _ _ E2), Hu; cbn [Z.eqb negb];
    change (set_dv_w w2 (set_dv_w w1 d)) with (set_dv_w w2 d); rewrite (bind_ret_l _ _ _ _ _ E3), bool_decide_eq_true_2 by done; done.
Qed.

(** [CONV] undoes binary-coded decimal. *)
Definition bcd (x : Z) : Z := 16 * (x / 10) + x mod 10.

Lemma conv_bcd_bcd x : 0 <= x < 100 -> conv_bcd (bcd x) = x.
Proof.
  intros Hx. unfold conv_bcd, bcd. rewrite Z.shiftr_div_pow2 by lia. change 0xf with (Z.ones 4). rewrite Z.land_ones by lia.
  rewrite u32_id; Z.div_mod_to_equations; lia.
Qed.

(** A date of this century as the registers show it. *)
Definition coded (enc : Z -> Z) (t : rtcdate) : rtcdate :=
  mk_rtcdate (enc (rt_second t)) (enc (rt_minute t)) (enc (rt_hour t)) (enc (rt_day t)) (enc (rt_month t)) (enc (rt_year t - 2000)).

Definition in_range (t : rtcdate) : Prop :=
  Forall (fun x => 0 <= x < 100) [rt_second t; rt_minute t; rt_hour t; rt_day t; rt_month t; rt_year t - 2000].

Lemma cmostime_run d t : stands (dv_w d) -> Z.land (u8 (regs CMOS_STATA)) CMOS_UIP = 0 -> in_range t ->
  shown = coded (if Z.land (u8 (regs CMOS_STATB)) 4 =? 0 then bcd else fun x => x) t ->
  exists w, cmostime polls d = Ret t (set_dv_w w d) /\ stands w.
Proof.
  intros Hs Hu Hr Ht. unfold cmostime. clock_step CMOS_STATB d Hs.
  destruct (cmos_stable_run polls (set_dv_w w d) Hs Hu) as (w2 & E2 & S2).
  rewrite (bind_ret_l _ _ _ _ _ E2). exists w2. split; [|exact S2]. change (Z.shiftl 1 2) with 4.
  unfold in_range in Hr. rewrite !Forall_cons in Hr. destruct Hr as (R1 & R2 & R3 & R4 & R5 & R6 & _).
  unfold ret. rewrite Ht. destruct t as [sec min hour day mon year]. cbn [rt_second rt_minute rt_hour rt_day rt_month rt_year coded] in *.
  destruct (Z.land _ 4 =? 0); cbn [rt_second rt_minute rt_hour rt_day rt_month rt_year coded]; rewrite ?conv_bcd_bcd by done;
    do 2 f_equal; rewrite u32_id; lia.
Qed.

End clock.
