(* ===== verification/Boot.v ===== *)
(** * Starting the machine
    (bootmain.c, main.c, the hardware half of console.c, [seginit] of vm.c,
    [tvinit] and [idtinit] of trap.c)

    The boot loader reads the kernel from the first drive; [main] initialises
    the parts of the kernel and starts the other processors; the screen is the
    memory at 0xb8000.  The boot loader runs without paging: byte [a] of the
    physical memory is byte [P2V a] of the memory of the model.  A processor
    that spins until another one has started is a [Block], and [_resume] is
    what it does when it looks again.  The second half has the lemmas about the
    boot loader and the screen; those about [main] are in BootMain. *)

From S2P Require Import Prelude CString Mem KState Mmu Console Kalloc Vm File Proc Syscall Msg Trap Bio Layout Log.
From S2P Require Import Inode ConsoleDev Devices Ide Fs FileIO Exec IdeSpec.

(** ** The boot loader (bootmain.c) *)

Definition SECTSIZE : Z := 512.

(** [ph->paddr] *)
Definition ph_paddr (d : list Z) : Z := get32 d 12.

Section bootmain.
Context {W : Type} {PT : Ports W} (polls : nat).

Definition waitdisk : D W unit :=
  poll polls (inb 0x1F7) (fun r => Z.land r 0xC0 =? 0x40) ;;
  ret tt.

(** Read a single sector at [offset] into [dst]. *)
Definition readsect (dst offset : Z) : D W unit :=
  waitdisk ;;
  outb 0x1F2 1 ;;
  outb 0x1F3 offset ;;
  outb 0x1F4 (Z.shiftr offset 8) ;;
  outb 0x1F5 (Z.shiftr offset 16) ;;
  outb 0x1F6 (Z.lor (Z.shiftr offset 24) 0xE0) ;;
  outb 0x1F7 0x20 ;;
  waitdisk ;;
  bs <- insl 0x1F0 (Z.to_nat (SECTSIZE / 4)) ;;
  lift_k (upd_mem (fun m => st_bytes m (P2V dst) bs)).

(** [for(; pa < epa; pa += SECTSIZE, offset++)] *)
Fixpoint readseg_loop (k : nat) (pa epa offset : Z) : D W unit :=
  if pa <? epa then
    match k with
    | O => undef "readseg: loop bound"
    | S k' =>
        readsect pa offset ;;
        readseg_loop k' (u32 (pa + SECTSIZE)) epa (u32 (offset + 1))
    end
  else ret tt.

(** Read [count] bytes at [offset] from the kernel into physical address [pa]. *)
Definition readseg (pa count offset : Z) : D W unit :=
  let epa := u32 (pa + count) in
  readseg_loop (Z.to_nat (count / SECTSIZE + 2)) (u32 (pa - offset mod SECTSIZE)) epa
    (u32 (offset / SECTSIZE + 1)).

(** The bytes of a structure at a physical address. *)
Definition phys_bytes (a : Z) (n : nat) : D W (list Z) := gets (fun d => ld_bytes (mem (dv_k d)) (P2V a) n).

(** [for(; ph < eph; ph++)] *)
Fixpoint load_segments (k : nat) (ph eph : Z) : D W unit :=
  if ph <? eph then
    match k with
    | O => undef "bootmain: loop bound"
    | S k' =>
        h <- phys_bytes ph 32 ;;
        let pa := ph_paddr h in
        readseg pa (ph_filesz h) (ph_off h) ;;
        h <- phys_bytes ph 32 ;;
        when (ph_filesz h <? ph_memsz h)
          (lift_k (upd_mem (fun m =>
             stosb m (P2V (u32 (pa + ph_filesz h))) 0 (u32 (ph_memsz h - ph_filesz h))))) ;;
        load_segments k' (u32 (ph + PROGHDR_SIZE)) eph
    end
  else ret tt.

(** The entry point the loader calls, or [None] when it returns to bootasm.S. *)
Definition bootmain : D W (option Z) :=
  let elf := 0x10000 in
  readseg elf 4096 0 ;;
  h <- phys_bytes elf 52 ;;
  if negb (elf_magic h =? ELF_MAGIC) then ret None
  else
    let ph := u32 (elf + elf_phoff h) in
    load_segments (Z.to_nat (elf_phnum h)) ph (u32 (ph + elf_phnum h * PROGHDR_SIZE)) ;;
    h <- phys_bytes elf 52 ;;
    ret (Some (elf_entry h)).

End bootmain.

(** ** The screen and the console (console.c) *)

Definition CRTPORT : Z := 0x3d4.
Definition crt : Z := P2V 0xb8000.

Section console.
Context {LK : Linker} {FS : FsOps} {W : Type} {PT : Ports W} (polls : nat).

(** [crt[pos] = v] *)
Definition crt_put (pos v : Z) : D W unit :=
  lift_k (upd_mem (fun m => st_bytes m (crt + 2 * pos) (le16 (u16 v)))).

Definition cga_cursor : D W Z :=
  outb CRTPORT 14 ;;
  hi <- inb (CRTPORT + 1) ;;
  outb CRTPORT 15 ;;
  lo <- inb (CRTPORT + 1) ;;
  ret (Z.lor (Z.shiftl hi 8) lo).

Definition cga_char (c pos : Z) : D W Z :=
  if c =? 10 then ret (pos + (80 - pos mod 80))
  else if c =? BACKSPACE then ret (if 0 <? pos then pos - 1 else pos)
  else crt_put pos (Z.lor (Z.land c 0xff) 0x0700) ;; ret (pos + 1).

(** [if((pos/80) >= 24)] *)
Definition cga_scroll (pos : Z) : D W Z :=
  if 24 <=? pos / 80 then
    lift_k (upd_mem (fun m => memmove m crt (crt + 2 * 80) (2 * 23 * 80))) ;;
    let pos := pos - 80 in
    lift_k (upd_mem (fun m => memset m (crt + 2 * pos) 0 (2 * (24 * 80 - pos)))) ;;
    ret pos
  else ret pos.

Definition cgaputc (c : Z) : D W unit :=
  pos <- cga_cursor ;;
  pos <- cga_char c pos ;;
  if (pos <? 0) || (25 * 80 <? pos) then panic "pos under/overflow"
  else
    pos <- cga_scroll pos ;;
    outb CRTPORT 14 ;;
    outb (CRTPORT + 1) (Z.shiftr pos 8) ;;
    outb CRTPORT 15 ;;
    outb (CRTPORT + 1) pos ;;
    crt_put pos (Z.lor 32 0x0700).

(** After a panic the processor spins for ever. *)
Definition dev_consputc (c : Z) : D W unit :=
  panicked <- gets dv_panicked ;;
  if (panicked : bool) then modify (set_dv_if false) ;; panic "frozen"
  else
    (if c =? BACKSPACE then uartputc 8 ;; uartputc 32 ;; uartputc 8 else uartputc c) ;;
    cgaputc c.

Fixpoint dev_consputs (cs : list Z) : D W unit :=
  match cs with
  | [] => ret tt
  | c :: cs' => dev_consputc c ;; dev_consputs cs'
  end.

(** [cprintf] with its calls of [consputc] on the hardware. *)
Definition dev_cprintf (fmt : list Z) (args : list parg) : D W unit :=
  n <- gets (fun d => length (out (dv_k d))) ;;
  lift_k (cprintf fmt args) ;;
  cs <- gets (fun d => drop n (out (dv_k d))) ;;
  dev_consputs cs.

Fixpoint dev_print_pcs (pcs : list Z) : D W unit :=
  match pcs with
  | [] => ret tt
  | pc :: pcs' => dev_cprintf (bytes " %p") [PInt pc] ;; dev_print_pcs pcs'
  end.

(** [panic(s)]; [v] is the address of its argument. *)
Definition dev_panic (s : list Z) (v : Z) : D W unit :=
  modify (set_dv_if false) ;;
  lift_k (modify (set_cons_locking false)) ;;
  id <- lapicid ;;
  dev_cprintf (bytes "lapicid %d: panic: ") [PInt id] ;;
  dev_cprintf s [] ;;
  dev_cprintf [10] [] ;;
  m <- gets (fun d => mem (dv_k d)) ;;
  dev_print_pcs (getcallerpcs m v) ;;
  modify (set_dv_panicked true) ;;
  panic "panic".

(** The console's entries of [devsw] are constant in the model. *)
Definition consoleinit : D W unit :=
  lift_k (initlock LkCons) ;;
  lift_k (modify (set_cons_locking true)) ;;
  ioapicenable IRQ_KBD 0.

End console.

(** ** Segments and gates (mmu.h, vm.c, trap.c) *)

Definition NSEGS : nat := 6.
Definition STA_X : Z := 0x8.
Definition STA_W : Z := 0x2.
Definition STA_R : Z := 0x2.
Definition STS_IG32 : Z := 0xE.
Definition STS_TG32 : Z := 0xF.

Definition SEG (type base lim dpl : Z) : segdesc :=
  mk_segdesc (Z.land (Z.shiftr lim 12) 0xffff) (Z.land base 0xffff) (Z.land (Z.shiftr base 16) 0xff)
    type 1 dpl 1 (Z.shiftr lim 28) 0 0 1 1 (Z.shiftr base 24).

Definition SETGATE (istrap : bool) (sel off d : Z) : gatedesc :=
  mk_gatedesc (Z.land off 0xffff) sel 0 0 (if istrap then STS_TG32 else STS_IG32) 0 d 1 (Z.shiftr off 16).

(** What the linker and the generated files provide: the entry code of the other
    processors and the first program as bytes of memory, the addresses of
    [mpenter] and [entrypgdir], and the table of vectors.S. *)
Class BootImage : Type := {
  entryother_start : Z;
  entryother_size : Z;
  initcode_start : Z;
  initcode_size : Z;
  mpenter_addr : Z;
  entrypgdir_addr : Z;
  vectors : list Z;
}.

Section startup.
Context {LK : Linker} {FS : FsOps} {BI : BootImage} {W : Type} {PT : Ports W} (polls : nat).

(** [lgdt] and [lidt] load registers that no other code reads. *)
Definition seginit : D W unit :=
  c <- cpuid ;;
  let set i x (gdt : list segdesc) := <[Z.to_nat i := x]> gdt in
  modify (fun d => set_dv_gdts (alter (fun gdt =>
    set SEG_UDATA (SEG STA_W 0 0xffffffff DPL_USER)
      (set SEG_UCODE (SEG (Z.lor STA_X STA_R) 0 0xffffffff DPL_USER)
        (set SEG_KDATA (SEG STA_W 0 0xffffffff 0)
          (set SEG_KCODE (SEG (Z.lor STA_X STA_R) 0 0xffffffff 0) gdt)))) (Z.to_nat c) (dv_gdts d)) d).

(** [for(i = 0; i < 256; i++)] from [i] on *)
Fixpoint tvinit_loop (k i : nat) : D W unit :=
  match k with
  | O => ret tt
  | S k' =>
      modify (fun d => set_dv_idt (<[i := SETGATE false (Z.shiftl SEG_KCODE 3) (nth i vectors 0) 0]> (dv_idt d)) d) ;;
      tvinit_loop k' (S i)
  end.

Definition tvinit : D W unit :=
  tvinit_loop 256 0 ;;
  let i := Z.to_nat T_SYSCALL in
  modify (fun d => set_dv_idt (<[i := SETGATE true (Z.shiftl SEG_KCODE 3) (nth i vectors 0) DPL_USER]> (dv_idt d)) d) ;;
  lift_k (initlock LkTicks).

Definition idtinit : D W unit := ret tt.

(** ** Initialisation (main.c) *)

(** Common CPU setup code, up to the call of [scheduler]. *)
Definition mpmain : D W unit :=
  id <- cpuid ;;
  id2 <- cpuid ;;
  lift_k (cprintf (bytes "cpu%d: starting %d" ++ [10]) [PInt id; PInt id2]) ;;
  idtinit ;;
  c <- mycpu ;;
  modify (fun d => set_dv_started (<[c := 1]> (dv_started d)) d).

(** The other processors come here from entryother.S. *)
Definition mpenter : D W unit :=
  lift_k switchkvm ;;
  seginit ;;
  lapicinit polls ;;
  mpmain.

Definition ap_code : Z := P2V 0x7000.

(** The body of the loop of [startothers] up to the wait. *)
Definition start_cpu (c : nat) : D W unit :=
  stack <- lift_k kalloc ;;
  lift_k (store32 (ap_code - 4) (u32 (stack + KSTACKSIZE)) ;;
          store32 (ap_code - 8) mpenter_addr ;;
          store32 (ap_code - 12) (V2P entrypgdir_addr)) ;;
  apicid <- gets (fun d => nth c (dv_apicids d) 0) ;;
  lapicstartap apicid (V2P ap_code).

(** [while(c->started == 0) ;] *)
Definition wait_cpu (c : nat) : D W unit :=
  st <- gets (fun d => nth c (dv_started d) 0) ;;
  if st =? 0 then Block else ret tt.

(** [for(c = cpus; c < cpus+ncpu; c++)], [k] processors from [c] on *)
Fixpoint start_cpus (k c : nat) : D W unit :=
  match k with
  | O => ret tt
  | S k' =>
      me <- mycpu ;;
      (if (c =? me)%nat then ret tt else start_cpu c ;; wait_cpu c) ;;
      start_cpus k' (S c)
  end.

Definition startothers : D W unit :=
  lift_k (upd_mem (fun m => memmove m ap_code entryother_start entryother_size)) ;;
  n <- gets (fun d => ncpu (dv_k d)) ;;
  start_cpus (Z.to_nat n) 0.

(** The loop again when it has waited for processor [c]. *)
Definition startothers_resume (c : nat) : D W unit :=
  wait_cpu c ;;
  n <- gets (fun d => ncpu (dv_k d)) ;;
  start_cpus (Z.to_nat n - S c) (S c).

(** [main] before and after [startothers]. *)
Definition main_before : D W unit :=
  lift_k (kinit1 kend (P2V (4 * 1024 * 1024))) ;;
  lift_k kvmalloc ;;
  mpinit polls ;;
  lapicinit polls ;;
  seginit ;;
  picinit ;;
  ioapicinit ;;
  consoleinit ;;
  uartinit ;;
  lift_k pinit ;;
  lift_k shminit ;;
  tvinit ;;
  lift_k binit ;;
  lift_k fileinit ;;
  ideinit polls.

Definition main_after : D W unit :=
  lift_k (kinit2 (P2V (4 * 1024 * 1024)) (P2V PHYSTOP)) ;;
  lift_k (userinit initcode_start initcode_size) ;;
  mpmain.

Definition main : D W unit :=
  main_before ;;
  startothers ;;
  main_after.

Definition main_resume (c : nat) : D W unit :=
  startothers_resume c ;;
  main_after.

End startup.

(** * Loading and starting the kernel

    The boot loader: [readseg] copies the sectors of the image, the segments
    keep what earlier ones loaded, so that the memory holds the segments of the
    ELF file when the kernel is entered. *)

(** ** Bytes of memory *)

Lemma nth_drop {A} (l : list A) o i x : nth i (drop o l) x = nth (o + i) l x.
Proof. by rewrite !nth_lookup, lookup_drop. Qed.

Lemma nth_take {A} (l : list A) n i x : (i < n)%nat -> nth i (take n l) x = nth i l x.
Proof. intros. by rewrite !nth_lookup, lookup_take_lt. Qed.

Lemma P2V_eq a : 0 <= a < 2 ^ 31 -> P2V a = a + KERNBASE.
Proof. intros. unfold P2V, KERNBASE. rewrite u32_id; lia. Qed.

(** [m'] has the bytes of [image] from [o] on in the [n] bytes at [a], and is
    [m] elsewhere. *)
Definition loaded (image : list Z) (m : memory) (a o n : Z) (m' : memory) : Prop :=
  forall x, m' x = if decide (a <= x < a + n) then nth (Z.to_nat (o + (x - a))) image 0 else m x.

Lemma loaded_app image m a o n1 n2 m1 m2 : 0 <= n1 -> 0 <= n2 ->
  loaded image m a o n1 m1 -> loaded image m1 (a + n1) (o + n1) n2 m2 -> loaded image m a o (n1 + n2) m2.
Proof.
  intros H1 H2 L1 L2 x. rewrite L2, L1. repeat case_decide; try lia; try done. do 2 f_equal. lia.
Qed.

Section bootload.
Context {LK : Linker} {FS : FsOps} {W : Type} {PT : Ports W}.
Context (polls limit : nat) (view : W -> ide_view) (L : ide_laws view limit) (Hlim : (limit <= polls)%nat).
Implicit Types d : devst W.

Lemma waitdisk_run d : (iv_busy (view (dv_w d)) <= polls)%nat ->
  hw view (waitdisk polls) d tt (set_busy 0 (view (dv_w d))).
Proof.
  intros Hb. destruct (status_run limit view L polls d Hb) as (r & R & _). unfold waitdisk.
  eapply hw_bind; [exact R|]. intros w V. by apply hw_ret.
Qed.

(** The task file after the stores of [readsect]. *)
Definition sect_task (n : Z) (v : ide_view) : ide_view :=
  mk_view 1 (u8 n) (u8 (Z.shiftr n 8)) (u8 (Z.shiftr n 16)) (u8 (Z.lor (Z.shiftr n 24) 0xE0))
    (iv_busy v) (iv_err v) (iv_xfer v) (iv_sect v) (iv_bad v).

Lemma sect_task_at n v : 0 <= n < 2 ^ 28 -> drive_of (sect_task n v) = 0 /\ sector_of (sect_task n v) = n.
Proof.
  intros Hn. unfold drive_of, sector_of, sect_task. cbn [iv_dev iv_lba0 iv_lba1 iv_lba2].
  rewrite !Z.shiftr_div_pow2 by lia. assert (0 <= n / 2 ^ 24 < 16) as Hh by (Z.div_mod_to_equations; lia).
  assert (exists k, (k < 16)%nat /\ n / 2 ^ 24 = Z.of_nat k) as (k & Hk & E) by (exists (Z.to_nat (n / 2 ^ 24)); lia).
  rewrite E. assert (u8 (Z.lor (Z.of_nat k) 224) = 224 + Z.of_nat k) as -> by (do 16 (destruct k as [|k]; [done|]); lia).
  split; [do 16 (destruct k as [|k]; [done|]); lia|].
  assert (Z.land (224 + Z.of_nat k) 15 = Z.of_nat k) as -> by (do 16 (destruct k as [|k]; [done|]); lia).
  rewrite <- E. unfold u8. Z.div_mod_to_equations. lia.
Qed.

Lemma sect_task_run {A} n (f : D W A) d : exists w, view w = sect_task n (view (dv_w d)) /\
  (outb 0x1F2 1 ;; outb 0x1F3 n ;; outb 0x1F4 (Z.shiftr n 8) ;; outb 0x1F5 (Z.shiftr n 16) ;;
   outb 0x1F6 (Z.lor (Z.shiftr n 24) 0xE0) ;; f) d = f (set_dv_w w d).
Proof.
  unfold sect_task. eexists. split; [|reflexivity].
  destruct (view (dv_w d)) as [c a0 a1 a2 dv b e x0 sct bd] eqn:V. cbn [dv_w set_dv_w].
  rewrite !(il_task _ _ L) by lia. by rewrite V.
Qed.

(** One sector arrives in memory; the drive is ready again. *)
Lemma readsect_run dst n d : 0 <= n < 2 ^ 28 -> sector (iv_sect (view (dv_w d)) 0 n) ->
  iv_bad (view (dv_w d)) 0 n = false -> (iv_busy (view (dv_w d)) <= polls)%nat ->
  exists w, readsect polls dst n d = Ret tt
      (set_dv_k (set_mem (st_bytes (mem (dv_k d)) (P2V dst) (iv_sect (view (dv_w d)) 0 n)) (dv_k d)) (set_dv_w w d)) /\
    iv_sect (view w) = iv_sect (view (dv_w d)) /\ iv_bad (view w) = iv_bad (view (dv_w d)) /\ iv_busy (view w) = 0%nat.
Proof.
  intros Hn Hs Hbad Hb. unfold readsect. destruct (waitdisk_run d Hb) as (w0 & R0 & V0). rewrite (bind_ret_l _ _ _ _ _ R0).
  match goal with |- exists w, bind _ (fun _ => bind _ (fun _ => bind _ (fun _ => bind _ (fun _ => bind _ (fun _ => ?f))))) ?d1 = _ /\ _ =>
    destruct (sect_task_run n f d1) as (w1 & V1 & E) end.
  rewrite E. cbn [dv_w set_dv_w] in V1. clear E. rewrite (bind_ret_l (outb 0x1F7 0x20) _ _ tt _ eq_refl). cbn [set_dv_w dv_w].
  destruct (il_read _ _ L w1) as (k & Hk & V2); [by rewrite V1, V0|by rewrite V1|].
  destruct (sect_task_at n (set_busy 0 (view (dv_w d))) Hn) as [Hdr Hse].
  unfold start_read in V2. rewrite V1, V0, Hdr, Hse in V2. cbn [iv_bad iv_sect sect_task set_busy] in V2. rewrite Hbad in V2.
  set (w2 := pt_outb 0x1F7 IDE_CMD_READ w1) in *. change (pt_outb 503 (u8 32) w1) with w2.
  match goal with |- exists w, bind _ ?f ?d2 = _ /\ _ =>
    destruct (waitdisk_run d2) as (w3 & R3 & V3); [cbn [dv_w set_dv_w]; rewrite V2; cbn; lia|] end.
  rewrite (bind_ret_l _ _ _ _ _ R3). cbn [dv_w set_dv_w] in V3. rewrite V2 in V3.
  match goal with |- exists w, bind _ ?f ?d3 = _ /\ _ =>
    destruct (insl_run limit view L (get_words (iv_sect (view (dv_w d)) 0 n) 0 128) d3) as (w4 & R4 & V4);
      [cbn [dv_w set_dv_w]; by rewrite V3|apply words_range|] end.
  change (length (get_words (iv_sect (view (dv_w d)) 0 n) 0 128)) with (Z.to_nat (SECTSIZE / 4)) in R4.
  rewrite (bind_ret_l _ _ _ _ _ R4), sector_words by done. exists w4. split; [by destruct d|].
  cbn [dv_w set_dv_w] in V4. rewrite V3 in V4. by rewrite V4.
Qed.

(** The kernel's file on the first drive, from sector 1 on. *)
Record kernel_disk (image : list Z) (v : ide_view) : Prop := {
  kd_size : exists n, length image = (512 * n)%nat /\ Z.of_nat n < 2 ^ 28 - 1;
  kd_bytes : Forall (fun c => 0 <= c < 256) image;
  kd_sect j : 0 <= j -> 512 * (j + 1) <= Z.of_nat (length image) ->
    iv_sect v 0 (j + 1) = take 512 (drop (Z.to_nat (512 * j)) image) /\ iv_bad v 0 (j + 1) = false;
}.

(** Bytes of the image arrive at [a]; nothing else changes but the controller. *)
Definition reads (image : list Z) d (a o n : Z) d' : Prop :=
  exists w m', d' = set_dv_k (set_mem m' (dv_k d)) (set_dv_w w d) /\ loaded image (mem (dv_k d)) a o n m' /\
    iv_sect (view w) = iv_sect (view (dv_w d)) /\ iv_bad (view w) = iv_bad (view (dv_w d)) /\ (iv_busy (view w) <= polls)%nat.

Lemma kernel_disk_ext image v v' : iv_sect v' = iv_sect v -> iv_bad v' = iv_bad v -> kernel_disk image v -> kernel_disk image v'.
Proof. intros Hs Hb [H1 H2 H3]. constructor; [done|done|]. rewrite Hs, Hb. exact H3. Qed.

Lemma reads_trans image d a o n1 n2 d1 d2 : 0 <= n1 -> 0 <= n2 -> reads image d a o n1 d1 ->
  reads image d1 (a + n1) (o + n1) n2 d2 -> reads image d a o (n1 + n2) d2.
Proof.
  intros H1 H2 (w1 & m1 & -> & L1 & S1 & B1 & Y1) (w2 & m2 & -> & L2 & S2 & B2 & Y2). exists w2, m2.
  cbn [dv_k dv_w set_dv_k set_dv_w mem set_mem] in *. split; [done|]. split; [by eapply loaded_app|]. by rewrite S2, B2.
Qed.

Lemma readsect_image image j pa d : kernel_disk image (view (dv_w d)) -> (iv_busy (view (dv_w d)) <= polls)%nat ->
  0 <= j -> 512 * (j + 1) <= Z.of_nat (length image) ->
  exists d', readsect polls pa (j + 1) d = Ret tt d' /\ reads image d (P2V pa) (512 * j) 512 d'.
Proof.
  intros [(ns & Hlen & Hns) Hby Hse] Hb Hj Hle. destruct (Hse j Hj Hle) as [Hs Hbad].
  assert (sector (take 512 (drop (Z.to_nat (512 * j)) image))) as Hsec.
  { split; [rewrite length_take, length_drop; lia|]. apply Forall_take. by apply Forall_drop. }
  destruct (readsect_run pa (j + 1) d) as (w & R & S & B & Y); [lia|by rewrite Hs|done|done|].
  rewrite Hs in R. eexists. split; [exact R|]. eexists w, _. split; [reflexivity|]. split; [|by rewrite S, B, Y; auto with lia].
  intros x. rewrite st_bytes_eq by apply Hsec. destruct Hsec as [-> _]. change (Z.of_nat 512) with 512. case_decide; [|done].
  rewrite nth_take, nth_drop by lia. f_equal. lia.
Qed.

Lemma readseg_loop_run image n : forall k pa epa j d, (n <= k)%nat -> kernel_disk image (view (dv_w d)) ->
  (iv_busy (view (dv_w d)) <= polls)%nat -> 0 <= j -> 512 * (j + Z.of_nat n) <= Z.of_nat (length image) ->
  0 <= pa -> pa + 512 * Z.of_nat n < 2 ^ 31 -> pa + 512 * (Z.of_nat n - 1) < epa <= pa + 512 * Z.of_nat n ->
  exists d', readseg_loop polls k pa epa (j + 1) d = Ret tt d' /\ reads image d (P2V pa) (512 * j) (512 * Z.of_nat n) d'.
Proof.
  induction n as [|n IH]; intros k pa epa j d Hk KD Hb Hj Hle Hpa Hp31 He.
  { exists d. destruct k; cbn [readseg_loop]; rewrite (proj2 (Z.ltb_ge _ _)) by lia.
    all: split; [done|]; exists (dv_w d), (mem (dv_k d)); split; [by destruct d as [[] ?]|]; split; [|done].
    all: intros x; by rewrite decide_False by lia. }
  destruct k as [|k]; [lia|]. cbn [readseg_loop]. rewrite (proj2 (Z.ltb_lt _ _)) by lia.
  destruct (readsect_image image j pa d KD Hb Hj) as (d1 & R1 & H1); [lia|]. rewrite (bind_ret_l _ _ _ _ _ R1).
  pose proof KD as [(ns & Hlen & Hns) _ _].
  unfold SECTSIZE. rewrite !u32_id by lia. pose proof H1 as (w & m' & -> & _ & Se & B & Y).
  destruct (IH k (pa + 512) epa (j + 1) (set_dv_k (set_mem m' (dv_k d)) (set_dv_w w d))) as (d2 & R2 & H2); cbn [dv_w set_dv_k set_dv_w];
    try lia; [by eapply kernel_disk_ext|].
  exists d2. split; [exact R2|]. replace (512 * Z.of_nat (S n)) with (512 + 512 * Z.of_nat n) by lia.
  rewrite (P2V_eq pa) in H1 |- * by lia. rewrite (P2V_eq (pa + 512)) in H2 by lia. eapply reads_trans; [lia|lia|exact H1|].
  replace (pa + KERNBASE + 512) with (pa + 512 + KERNBASE) by lia. by replace (512 * j + 512) with (512 * (j + 1)) by lia.
Qed.

(** [readseg] loads its range, and at most a sector more on either side. *)
Lemma readseg_run image pa count off d : kernel_disk image (view (dv_w d)) -> (iv_busy (view (dv_w d)) <= polls)%nat ->
  0 <= count -> 0 <= off -> off + count <= Z.of_nat (length image) -> off mod 512 <= pa -> pa + count + 512 <= 2 ^ 31 ->
  exists d' n, readseg polls pa count off d = Ret tt d' /\
    reads image d (pa + KERNBASE - off mod 512) (off - off mod 512) n d' /\
    count + off mod 512 <= n < count + off mod 512 + 512.
Proof.
  intros KD Hb Hc Ho Hle Hpa Hp31. pose proof KD as [(ns & Hlen & Hns) _ _].
  pose proof (Z.mod_pos_bound off 512 ltac:(lia)) as Hm. set (r := off mod 512) in *.
  assert (0 <= (count + r + 511) / 512) as Hn0 by (apply Z.div_pos; lia).
  unfold readseg, SECTSIZE. fold r. rewrite !u32_id by (unfold r in *; Z.div_mod_to_equations; lia).
  destruct (readseg_loop_run image (Z.to_nat ((count + r + 511) / 512)) (Z.to_nat (count / 512 + 2)) (pa - r) (pa + count) (off / 512) d)
    as (d' & R & H); try done; rewrite ?Z2Nat.id by done; try (unfold r in *; Z.div_mod_to_equations; lia).
  exists d', (512 * ((count + r + 511) / 512)). split; [exact R|]. split; [|Z.div_mod_to_equations; lia].
  rewrite Z2Nat.id in H by done. rewrite P2V_eq in H by lia.
  replace (pa + KERNBASE - r) with (pa - r + KERNBASE) by lia. by replace (off - r) with (512 * (off / 512)) by (unfold r; Z.div_mod_to_equations; lia).
Qed.

(** ** The segments *)

(** The memory is [m'] now; the controller may have changed, the disk has not. *)
Definition moved d (m' : memory) d' : Prop :=
  exists w, d' = set_dv_k (set_mem m' (dv_k d)) (set_dv_w w d) /\
    iv_sect (view w) = iv_sect (view (dv_w d)) /\ iv_bad (view w) = iv_bad (view (dv_w d)) /\ (iv_busy (view w) <= polls)%nat.

Lemma moved_trans d m1 d1 m2 d2 : moved d m1 d1 -> moved d1 m2 d2 -> moved d m2 d2.
Proof.
  intros (w1 & -> & S1 & B1 & _) (w2 & -> & S2 & B2 & Y2). exists w2. cbn [dv_w set_dv_k set_dv_w] in *. by rewrite S2, B2.
Qed.

Lemma moved_disk image d m' d' : moved d m' d' -> kernel_disk image (view (dv_w d)) ->
  kernel_disk image (view (dv_w d')) /\ (iv_busy (view (dv_w d')) <= polls)%nat /\ mem (dv_k d') = m'.
Proof. intros (w & -> & S & B & Y) KD. split; [by eapply kernel_disk_ext|]. done. Qed.

Definition phdr (image : list Z) (i : Z) : list Z := take 32 (drop (Z.to_nat (elf_phoff image + 32 * i)) image).

(** Where a segment ends in memory, and where its first sector goes. *)
Definition seg_end (h : list Z) : Z := ph_paddr h + Z.max (ph_filesz h) (ph_memsz h).
Definition seg_start (h : list Z) : Z := ph_paddr h - ph_off h mod 512.

(** A kernel file that the loader can load: the headers are in the first page,
    the segments lie behind the scratch page, in increasing order. *)
Record bootable (image : list Z) : Prop := {
  bt_magic : elf_magic image = ELF_MAGIC;
  bt_page : 4096 <= Z.of_nat (length image);
  bt_phdrs : elf_phoff image + 32 * elf_phnum image <= 4096;
  bt_seg i : 0 <= i < elf_phnum image -> let h := phdr image i in
    0x11000 <= seg_start h /\ seg_end h + 512 <= 2 ^ 31 /\ ph_off h + ph_filesz h <= Z.of_nat (length image);
  bt_order i j : 0 <= i < j -> j < elf_phnum image -> seg_end (phdr image i) <= seg_start (phdr image j);
}.

(** The first page of the file at 0x10000. *)
Definition header_in (image : list Z) (m : memory) : Prop :=
  forall x, 0 <= x < 4096 -> m (KERNBASE + 0x10000 + x) = nth (Z.to_nat x) image 0.

(** A segment in memory: the bytes of the file, then zeros. *)
Definition seg_loaded (image : list Z) (m : memory) (h : list Z) : Prop :=
  (forall x, 0 <= x < ph_filesz h -> m (KERNBASE + ph_paddr h + x) = nth (Z.to_nat (ph_off h + x)) image 0) /\
  (forall x, ph_filesz h <= x < ph_memsz h -> m (KERNBASE + ph_paddr h + x) = 0).

Lemma header_bytes image m o n : Forall (fun c => 0 <= c < 256) image -> header_in image m -> 0 <= o ->
  o + Z.of_nat n <= 4096 -> 4096 <= Z.of_nat (length image) ->
  ld_bytes m (P2V (0x10000 + o)) n = take n (drop (Z.to_nat o) image).
Proof.
  intros Hb Hh Ho Hn Hl. rewrite P2V_eq by lia. apply (nth_ext _ _ 0 0).
  { rewrite length_take, length_drop. rewrite ld_bytes_length. lia. }
  intros i Hi. rewrite ld_bytes_length in Hi.
  rewrite ld_bytes_nth, nth_take, nth_drop by done. unfold ld8.
  replace (0x10000 + o + KERNBASE + Z.of_nat i) with (KERNBASE + 0x10000 + (o + Z.of_nat i)) by lia. rewrite Hh by lia.
  replace (Z.to_nat (o + Z.of_nat i)) with (Z.to_nat o + i)%nat by lia. apply u8_id.
  destruct (lookup_lt_is_Some_2 image (Z.to_nat o + i) ltac:(lia)) as [c Hc]. rewrite (nth_lookup_Some _ _ _ _ Hc).
  by eapply (Forall_lookup_1 _ _ _ _ Hb).
Qed.

Lemma phdr_bytes image m i : kernel_disk image (view m.2) -> bootable image -> header_in image m.1 -> 0 <= i < elf_phnum image ->
  ld_bytes m.1 (P2V (0x10000 + elf_phoff image + 32 * i)) 32 = phdr image i.
Proof.
  intros [_ Hb _] BT Hh Hi. pose proof (bt_phdrs _ BT). pose proof (bt_page _ BT).
  assert (0 <= elf_phoff image) by apply get32_range.
  rewrite <- Z.add_assoc. apply header_bytes; done || lia.
Qed.

(** One round of the loop over the segments. *)
Lemma segment_step image i k eph d : kernel_disk image (view (dv_w d)) -> (iv_busy (view (dv_w d)) <= polls)%nat ->
  bootable image -> header_in image (mem (dv_k d)) -> 0 <= i < elf_phnum image ->
  let ph := 0x10000 + elf_phoff image + 32 * i in let h := phdr image i in ph < eph ->
  exists m' d', load_segments polls (S k) ph eph d = load_segments polls k (ph + 32) eph d' /\ moved d m' d' /\
    seg_loaded image m' h /\ (forall x, x < KERNBASE + seg_start h -> m' x = mem (dv_k d) x).
Proof.
  intros KD Hb BT Hh Hi ph h Heph. pose proof (phdr_bytes image (mem (dv_k d), dv_w d) i KD BT Hh Hi) as Hph. cbn [fst] in Hph. fold ph h in Hph.
  destruct (bt_seg _ BT i Hi) as (Hst & Hen & Hof). fold h in Hst, Hen, Hof. unfold seg_start, seg_end in *.
  assert (0 <= ph_filesz h < 2 ^ 32 /\ 0 <= ph_memsz h < 2 ^ 32 /\ 0 <= ph_off h) as (Hf0 & Hm0 & Ho0) by (repeat split; apply get32_range).
  pose proof (Z.mod_pos_bound (ph_off h) 512 ltac:(lia)) as Hmod. pose proof (bt_phdrs _ BT).
  assert (0 <= elf_phoff image) by apply get32_range.
  destruct (readseg_run image (ph_paddr h) (ph_filesz h) (ph_off h) d KD Hb) as (d1 & n & R1 & (w1 & m1 & -> & L1 & S1 & B1 & Y1) & Hn); try lia.
  assert (forall x, x < KERNBASE + seg_start h -> m1 x = mem (dv_k d) x) as Hlow1.
  { intros x Hx. unfold seg_start in Hx. rewrite L1. by rewrite decide_False by lia. }
  assert (header_in image m1) as Hh1.
  { intros x Hx. rewrite Hlow1 by (unfold seg_start; lia). by apply Hh. }
  assert (kernel_disk image (view w1)) as KD1 by (by eapply kernel_disk_ext).
  pose proof (phdr_bytes image (m1, w1) i KD1 BT Hh1 Hi) as Hph1. cbn [fst] in Hph1. fold ph h in Hph1.
  set (m2 := if ph_filesz h <? ph_memsz h then stosb m1 (KERNBASE + ph_paddr h + ph_filesz h) 0 (ph_memsz h - ph_filesz h) else m1).
  exists m2, (set_dv_k (set_mem m2 (dv_k d)) (set_dv_w w1 d)). split; [|split; [by exists w1|]].
  - cbn [load_segments]. rewrite (proj2 (Z.ltb_lt _ _) Heph). unfold bind at 1, phys_bytes at 1, gets. rewrite Hph.
    rewrite (bind_ret_l _ _ _ _ _ R1). unfold bind at 1, phys_bytes at 1, gets. cbn [dv_k set_dv_k mem set_mem]. rewrite Hph1.
    unfold PROGHDR_SIZE. rewrite (u32_id (ph + 32)) by (unfold ph; lia). unfold m2.
    destruct (ph_filesz h <? ph_memsz h) eqn:E; [|done]. bool_prop. rewrite !u32_id, P2V_eq by lia. rewrite (Z.add_comm _ KERNBASE), Z.add_assoc. done.
  - assert (forall x, x < KERNBASE + ph_paddr h + ph_filesz h -> m2 x = m1 x) as Hm2.
    { intros x Hx. unfold m2. destruct (ph_filesz h <? ph_memsz h); [|done]. unfold stosb. by rewrite (proj2 (Z.leb_gt _ _)) by lia. }
    split; [split|].
    + intros x Hx. rewrite Hm2, L1 by lia. rewrite decide_True by lia. f_equal. lia.
    + intros x Hx. unfold m2. rewrite (proj2 (Z.ltb_lt _ _)) by lia. unfold stosb.
      rewrite (proj2 (Z.leb_le _ _)), (proj2 (Z.ltb_lt _ _)) by lia. done.
    + intros x Hx. rewrite Hm2 by (unfold seg_start in Hx; lia). by apply Hlow1.
Qed.

Lemma load_segments_run image k : forall i d, 0 <= i -> i + Z.of_nat k = elf_phnum image ->
  kernel_disk image (view (dv_w d)) -> (iv_busy (view (dv_w d)) <= polls)%nat -> bootable image -> header_in image (mem (dv_k d)) ->
  (forall j, 0 <= j < i -> seg_loaded image (mem (dv_k d)) (phdr image j)) ->
  let ph j := 0x10000 + elf_phoff image + 32 * j in
  exists m' d', load_segments polls k (ph i) (ph (elf_phnum image)) d = Ret tt d' /\ moved d m' d' /\ header_in image m' /\
    forall j, 0 <= j < elf_phnum image -> seg_loaded image m' (phdr image j).
Proof.
  induction k as [|k IH]; intros i d Hi Hk KD Hb BT Hh Hl ph.
  { exists (mem (dv_k d)), d. cbn [load_segments]. rewrite (proj2 (Z.ltb_ge _ _)) by (unfold ph; lia).
    split; [done|]. split; [exists (dv_w d); split; [by destruct d as [[] ?]|done]|]. split; [done|]. intros j Hj. apply Hl. lia. }
  destruct (segment_step image i k (ph (elf_phnum image)) d KD Hb BT Hh ltac:(lia)) as (m1 & d1 & R & M1 & HS & Hlow); [unfold ph; lia|].
  unfold ph at 1. rewrite R. destruct (moved_disk image _ _ _ M1 KD) as (KD1 & Hb1 & E1).
  destruct (bt_seg _ BT i ltac:(lia)) as (Hst & _).
  replace (0x10000 + elf_phoff image + 32 * i + 32) with (ph (i + 1)) by (unfold ph; lia).
  destruct (IH (i + 1) d1) as (m2 & d2 & R2 & M2 & H2); try done; try lia.
  - rewrite E1. intros x Hx. rewrite Hlow by lia. by apply Hh.
  - intros j Hj. rewrite E1. destruct (decide (j = i)) as [->|]; [done|]. destruct (Hl j ltac:(lia)) as [Hl1 Hl2].
    pose proof (bt_order _ BT j i ltac:(lia) ltac:(lia)) as Hord. unfold seg_end in Hord.
    split; intros x Hx; rewrite Hlow by lia; [by apply Hl1|by apply Hl2].
  - exists m2, d2. split; [exact R2|]. split; [by eapply moved_trans|exact H2].
Qed.

Lemma bootmain_run image d : kernel_disk image (view (dv_w d)) -> (iv_busy (view (dv_w d)) <= polls)%nat -> bootable image ->
  exists m' d', bootmain polls d = Ret (Some (elf_entry image)) d' /\ moved d m' d' /\
    forall j, 0 <= j < elf_phnum image -> seg_loaded image m' (phdr image j).
Proof.
  intros KD Hb BT. pose proof (bt_page _ BT). pose proof (bt_phdrs _ BT). pose proof KD as [_ Hby _].
  assert (0 <= elf_phoff image) by apply get32_range. assert (0 <= elf_phnum image).
  { unfold elf_phnum, get16. pose proof (u8_range (nth 44 image 0)). pose proof (u8_range (nth (44 + 1) image 0)). lia. }
  unfold bootmain. destruct (readseg_run image 0x10000 4096 0 d KD Hb) as (d1 & n & R1 & (w1 & m1 & -> & L1 & S1 & B1 & Y1) & Hn);
    rewrite ?Z.mod_0_l in * by done; try lia.
  rewrite (bind_ret_l _ _ _ _ _ R1). assert (header_in image m1) as Hh.
  { intros x Hx. rewrite L1. rewrite decide_True by lia. f_equal. lia. }
  assert (forall m, header_in image m -> ld_bytes m (P2V 0x10000) 52 = take 52 image) as Hhdr.
  { intros m Hm. apply (header_bytes image m 0 52 Hby Hm); lia. }
  unfold bind at 1, phys_bytes at 1, gets at 1. cbn [dv_k set_dv_k mem set_mem]. rewrite (Hhdr m1 Hh).
  assert (elf_magic (take 52 image) = elf_magic image /\ elf_phoff (take 52 image) = elf_phoff image /\
    elf_phnum (take 52 image) = elf_phnum image /\ elf_entry (take 52 image) = elf_entry image) as (-> & -> & -> & Hent).
  { unfold elf_magic, elf_phoff, elf_phnum, elf_entry, get32, get16. by rewrite !nth_take by lia. }
  rewrite (bt_magic _ BT). change (negb (ELF_MAGIC =? ELF_MAGIC)) with false. cbv iota. unfold PROGHDR_SIZE. rewrite !u32_id by lia.
  destruct (load_segments_run image (Z.to_nat (elf_phnum image)) 0 (set_dv_k (set_mem m1 (dv_k d)) (set_dv_w w1 d)))
    as (m2 & d2 & R2 & M2 & Hh2 & HS); try done; try lia.
  { by eapply kernel_disk_ext. }
  rewrite Z.mul_0_r, Z.add_0_r in R2. rewrite (Z.mul_comm _ 32), (bind_ret_l _ _ _ _ _ R2).
  exists m2, d2. split; [|split; [eapply moved_trans; [|exact M2]; by exists w1|exact HS]].
  destruct M2 as (w2 & -> & _). unfold bind, phys_bytes, gets. cbn [dv_k set_dv_k mem set_mem]. by rewrite (Hhdr m2 Hh2), Hent.
Qed.

End bootload.

(** ** The screen

    The cursor registers of the CRT controller, and the bytes the serial port
    has sent. *)

Record tty : Type := mk_tty { ty_index : Z; ty_hi : Z; ty_lo : Z; ty_sent : list Z }.

Definition ty_pos (t : tty) : Z := 256 * ty_hi t + ty_lo t.

Section tty_laws.
Context {W : Type} {PT : Ports W} (tview : W -> tty).

Record tty_laws : Prop := {
  tl_index w v : tview (pt_outb CRTPORT v w) = mk_tty v (ty_hi (tview w)) (ty_lo (tview w)) (ty_sent (tview w));
  tl_get w : tview (pt_inb (CRTPORT + 1) w).2 = tview w /\
    (ty_index (tview w) = 14 -> (pt_inb (CRTPORT + 1) w).1 = ty_hi (tview w)) /\
    (ty_index (tview w) = 15 -> (pt_inb (CRTPORT + 1) w).1 = ty_lo (tview w));
  tl_set_hi w v : ty_index (tview w) = 14 ->
    tview (pt_outb (CRTPORT + 1) v w) = mk_tty 14 v (ty_lo (tview w)) (ty_sent (tview w));
  tl_set_lo w v : ty_index (tview w) = 15 ->
    tview (pt_outb (CRTPORT + 1) v w) = mk_tty 15 (ty_hi (tview w)) v (ty_sent (tview w));
  tl_status w : tview (pt_inb (COM1 + 5) w).2 = tview w;
  tl_send w v : tview (pt_outb COM1 v w) =
    mk_tty (ty_index (tview w)) (ty_hi (tview w)) (ty_lo (tview w)) (ty_sent (tview w) ++ [v]);
}.
End tty_laws.

(** The character and the attribute at a position of the screen. *)
Definition cell (m : memory) (i : Z) : Z := ld16 m (crt + 2 * i).

Definition put_cell (m : memory) (i v : Z) : memory := st_bytes m (crt + 2 * i) (le16 (u16 v)).

Definition char_pos (c pos : Z) : Z :=
  if c =? 10 then pos + (80 - pos mod 80)
  else if c =? BACKSPACE then if 0 <? pos then pos - 1 else pos
  else pos + 1.

Definition char_mem (c pos : Z) (m : memory) : memory :=
  if (c =? 10) || (c =? BACKSPACE) then m else put_cell m pos (Z.lor (Z.land c 0xff) 0x0700).

Definition scroll_mem (m : memory) : memory :=
  memset (memmove m crt (crt + 2 * 80) (2 * 23 * 80)) (crt + 2 * 1840) 0 (2 * 80).

(** The cursor and the screen after [cgaputc(c)]. *)
Definition cga_pos (c pos : Z) : Z := if char_pos c pos =? 1920 then 1840 else char_pos c pos.
Definition cga_mem (c pos : Z) (m : memory) : memory :=
  let m1 := char_mem c pos m in
  put_cell (if char_pos c pos =? 1920 then scroll_mem m1 else m1) (cga_pos c pos) 0x0720.

Lemma char_pos_range c pos : 0 <= pos < 1920 -> 0 <= char_pos c pos <= 1920.
Proof.
  intros Hp. unfold char_pos. destruct (c =? 10); [Z.div_mod_to_equations; lia|].
  destruct (c =? BACKSPACE); [destruct (0 <? pos) eqn:?; bool_prop; lia|lia].
Qed.

Lemma cga_pos_range c pos : 0 <= pos < 1920 -> 0 <= cga_pos c pos < 1920.
Proof. intros Hp. pose proof (char_pos_range c pos Hp). unfold cga_pos. destruct (_ =? 1920) eqn:?; bool_prop; lia. Qed.

Section cga.
Context {LK : Linker} {FS : FsOps} {W : Type} {PT : Ports W} (tview : W -> tty) (TL : tty_laws tview).
Implicit Types d : devst W.

Definition tty_ok (t : tty) : Prop := 0 <= ty_hi t < 256 /\ 0 <= ty_lo t < 256 /\ ty_pos t < 1920.

Lemma lor_bytes hi lo : 0 <= hi -> 0 <= lo < 256 -> Z.lor (Z.shiftl hi 8) lo = 256 * hi + lo.
Proof.
  intros Hh Hl. rewrite <- Z.add_nocarry_lor; [rewrite Z.shiftl_mul_pow2; lia|].
  apply Z.bits_inj'. intros k Hk. rewrite Z.land_spec, Z.bits_0. destruct (decide (k < 8)).
  - by rewrite Z.shiftl_spec_low by lia.
  - rewrite (Z.bits_above_log2 lo), andb_false_r; [done|lia|]. destruct (decide (lo = 0)) as [->|]; [cbn; lia|].
    apply Z.log2_lt_pow2; [lia|]. assert (2 ^ 8 <= 2 ^ k) by (apply Z.pow_le_mono_r; lia). lia.
Qed.

Lemma cga_cursor_run d : tty_ok (tview (dv_w d)) -> exists w, cga_cursor d = Ret (ty_pos (tview (dv_w d))) (set_dv_w w d) /\
  tview w = mk_tty 15 (ty_hi (tview (dv_w d))) (ty_lo (tview (dv_w d))) (ty_sent (tview (dv_w d))).
Proof.
  intros (Hhi & Hlo & _). set (t := tview (dv_w d)) in *. set (w1 := pt_outb CRTPORT 14 (dv_w d)).
  pose proof (tl_index _ TL (dv_w d) 14) as V1. fold w1 t in V1. destruct (tl_get _ TL w1) as (V2 & G2 & _). rewrite V1 in V2, G2.
  set (w2 := (pt_inb (CRTPORT + 1) w1).2) in *. set (w3 := pt_outb CRTPORT 15 w2). pose proof (tl_index _ TL w2 15) as V3. fold w3 in V3.
  rewrite V2 in V3. cbn [ty_hi ty_lo ty_sent] in V3. destruct (tl_get _ TL w3) as (V4 & _ & G4). rewrite V3 in V4, G4.
  exists (pt_inb (CRTPORT + 1) w3).2. split; [|exact V4]. unfold cga_cursor.
  rewrite (bind_ret_l (outb CRTPORT 14) _ _ tt _ eq_refl). cbn [set_dv_w dv_w]. change (u8 14) with 14. fold w1.
  rewrite (bind_ret_l _ _ _ _ _ (inb_eq _ _)). cbn [set_dv_w dv_w]. fold w2.
  rewrite (bind_ret_l (outb CRTPORT 15) _ _ tt _ eq_refl). cbn [set_dv_w dv_w]. change (u8 15) with 15. fold w3.
  rewrite (bind_ret_l _ _ _ _ _ (inb_eq _ _)). cbn [set_dv_w dv_w]. rewrite G2, G4 by done.
  cbn [ty_hi ty_lo]. rewrite !u8_id, lor_bytes by (done || lia). done.
Qed.

Lemma cga_char_run c pos d : cga_char c pos d =
  Ret (char_pos c pos) (set_dv_k (set_mem (char_mem c pos (mem (dv_k d))) (dv_k d)) d).
Proof.
  unfold cga_char, char_pos, char_mem. destruct (c =? 10); [by destruct d as [[] ?]|].
  destruct (c =? BACKSPACE); [by destruct d as [[] ?]|done].
Qed.

Lemma cga_scroll_run pos d : 0 <= pos <= 1920 -> cga_scroll pos d =
  Ret (if pos =? 1920 then 1840 else pos)
    (set_dv_k (set_mem (if pos =? 1920 then scroll_mem (mem (dv_k d)) else mem (dv_k d)) (dv_k d)) d).
Proof.
  intros Hp. unfold cga_scroll. destruct (pos =? 1920) eqn:E; bool_prop; [by subst|].
  rewrite (proj2 (Z.leb_gt _ _)) by (apply Z.div_lt_upper_bound; lia). by destruct d as [[] ?].
Qed.

Lemma cursor_store pos d : 0 <= pos < 1920 -> exists w,
  (outb CRTPORT 14 ;; outb (CRTPORT + 1) (Z.shiftr pos 8) ;; outb CRTPORT 15 ;; outb (CRTPORT + 1) pos) d = Ret tt (set_dv_w w d) /\
  tview w = mk_tty 15 (pos / 256) (pos mod 256) (ty_sent (tview (dv_w d))).
Proof.
  intros Hp. eexists. split; [reflexivity|]. cbn [dv_w set_dv_w]. change (u8 14) with 14. change (u8 15) with 15.
  rewrite Z.shiftr_div_pow2 by lia. change (2 ^ 8) with 256. rewrite (u8_id (pos / 256)) by (Z.div_mod_to_equations; lia). unfold u8.
  rewrite (tl_set_lo _ TL) by (by rewrite (tl_index _ TL)). rewrite (tl_index _ TL). cbn [ty_hi ty_sent].
  rewrite (tl_set_hi _ TL) by (by rewrite (tl_index _ TL)). rewrite (tl_index _ TL). done.
Qed.

Lemma cgaputc_run c d : let t := tview (dv_w d) in tty_ok t -> let pos := cga_pos c (ty_pos t) in
  exists w, cgaputc c d = Ret tt (set_dv_k (set_mem (cga_mem c (ty_pos t) (mem (dv_k d))) (dv_k d)) (set_dv_w w d)) /\
    tview w = mk_tty 15 (pos / 256) (pos mod 256) (ty_sent t).
Proof.
  intros t Ht pos. destruct (cga_cursor_run d Ht) as (w1 & R1 & V1). fold t in R1, V1.
  assert (0 <= ty_pos t < 1920) as Hp by (destruct Ht as (? & ? & ?); unfold ty_pos in *; lia).
  pose proof (char_pos_range c _ Hp) as Hcp. pose proof (cga_pos_range c _ Hp) as Hpos. fold pos in Hpos.
  unfold cgaputc. rewrite (bind_ret_l _ _ _ _ _ R1), (bind_ret_l _ _ _ _ _ (cga_char_run _ _ _)).
  rewrite (proj2 (Z.ltb_ge _ _)), (proj2 (Z.ltb_ge _ _)) by lia. cbn [orb].
  rewrite (bind_ret_l _ _ _ _ _ (cga_scroll_run _ _ Hcp)). fold (cga_pos c (ty_pos t)). fold pos.
  match goal with |- exists w, bind _ _ ?d2 = _ /\ _ => destruct (cursor_store pos d2 Hpos) as (w & R & V) end.
  exists w. split; [|rewrite V; cbn [dv_w set_dv_w set_dv_k]; by rewrite V1].
  assert (forall (f : D W unit) d2 w2, (outb CRTPORT 14 ;; outb (CRTPORT + 1) (Z.shiftr pos 8) ;; outb CRTPORT 15 ;; outb (CRTPORT + 1) pos) d2 =
    Ret tt (set_dv_w w2 d2) -> (outb CRTPORT 14 ;; outb (CRTPORT + 1) (Z.shiftr pos 8) ;; outb CRTPORT 15 ;; outb (CRTPORT + 1) pos ;; f) d2 =
    f (set_dv_w w2 d2)) as Hseq by (intros f d2 w2 [= <-]; done).
  rewrite (Hseq _ _ _ R). unfold crt_put, lift_k, upd_mem, modify. unfold cga_mem. fold pos.
  destruct (char_pos c (ty_pos t) =? 1920); by destruct d as [[] ?].
Qed.

Lemma uart_wait_run k d : exists w, uart_wait k d = Ret tt (set_dv_w w d) /\ tview w = tview (dv_w d).
Proof.
  revert d. induction k as [|k IH]; intros d; cbn [uart_wait]; [exists (dv_w d); by destruct d|].
  rewrite (bind_ret_l _ _ _ _ _ (inb_eq _ _)). set (w1 := (pt_inb (COM1 + 5) (dv_w d)).2).
  pose proof (tl_status _ TL (dv_w d)) as V1. fold w1 in V1. destruct (Z.land _ 32 =? 0); [|by exists w1].
  destruct (IH (set_dv_w w1 d)) as (w & R & V). exists w. split; [exact R|]. by rewrite V.
Qed.

Lemma uartputc_run c d : dv_uart d = true -> exists w, uartputc c d = Ret tt (set_dv_w w d) /\
  let t := tview (dv_w d) in tview w = mk_tty (ty_index t) (ty_hi t) (ty_lo t) (ty_sent t ++ [u8 c]).
Proof.
  intros Hu. unfold uartputc, bind at 1, gets. rewrite Hu. cbn [negb]. destruct (uart_wait_run 128 d) as (w1 & R1 & V1).
  rewrite (bind_ret_l _ _ _ _ _ R1). eexists. split; [reflexivity|]. cbn [dv_w set_dv_w]. by rewrite Z.add_0_r, (tl_send _ TL), V1.
Qed.

(** The bytes [consputc(c)] sends to the serial port. *)
Definition serial (c : Z) : list Z := if c =? BACKSPACE then [8; 32; 8] else [u8 c].

Lemma consputc_run c d : let t := tview (dv_w d) in tty_ok t -> dv_uart d = true -> dv_panicked d = false ->
  let pos := cga_pos c (ty_pos t) in
  exists w, dev_consputc c d = Ret tt (set_dv_k (set_mem (cga_mem c (ty_pos t) (mem (dv_k d))) (dv_k d)) (set_dv_w w d)) /\
    tview w = mk_tty 15 (pos / 256) (pos mod 256) (ty_sent t ++ serial c).
Proof.
  intros t Ht Hu Hp pos. unfold dev_consputc, bind at 1, gets. rewrite Hp. cbv iota.
  assert (exists w, (if c =? BACKSPACE then uartputc 8 ;; uartputc 32 ;; uartputc 8 else uartputc c) d = Ret tt (set_dv_w w d) /\
    tview w = mk_tty (ty_index t) (ty_hi t) (ty_lo t) (ty_sent t ++ serial c)) as (w1 & R1 & V1).
  { unfold serial. destruct (c =? BACKSPACE); [|by apply uartputc_run].
    destruct (uartputc_run 8 d Hu) as (w1 & R1 & V1). destruct (uartputc_run 32 (set_dv_w w1 d) Hu) as (w2 & R2 & V2).
    destruct (uartputc_run 8 (set_dv_w w2 d) Hu) as (w3 & R3 & V3). exists w3.
    rewrite (bind_ret_l _ _ _ _ _ R1), (bind_ret_l _ _ _ _ _ R2). split; [exact R3|]. cbn [dv_w set_dv_w] in *.
    rewrite V3, V2, V1. cbn [ty_index ty_hi ty_lo ty_sent]. by rewrite <- !app_assoc. }
  rewrite (bind_ret_l _ _ _ _ _ R1). destruct (cgaputc_run c (set_dv_w w1 d)) as (w & R & V); cbn [dv_w set_dv_w] in *; rewrite V1 in *; [done|].
  exists w. split; [exact R|exact V].
Qed.

End cga.

(** ** The text on the screen *)

Definition glyph (c : Z) : Z := Z.lor (Z.land c 0xff) 0x0700.

Lemma glyph_u16 c : u16 (glyph c) = glyph c.
Proof.
  unfold glyph. change 0xff with (Z.ones 8). rewrite Z.land_ones, Z.lor_comm by lia. change 0x0700 with (Z.shiftl 7 8).
  pose proof (Z.mod_pos_bound c (2 ^ 8) ltac:(lia)). rewrite lor_bytes by lia. unfold u16. apply Z.mod_small. lia.
Qed.

Lemma cell_put m p i v : cell (put_cell m p v) i = if decide (i = p) then u16 v else cell m i.
Proof.
  unfold cell, put_cell, ld16, ld8. pose proof (Z.mod_pos_bound v (2 ^ 16) ltac:(lia)) as Hv. fold (u16 v) in Hv.
  assert (Forall (fun c => 0 <= c < 256) (le16 (u16 v))) as Hb
    by (unfold le16; repeat constructor; apply Z.mod_pos_bound; lia).
  rewrite !st_bytes_eq by done. change (Z.of_nat (length (le16 (u16 v)))) with 2. destruct (decide (i = p)) as [->|Hi].
  - rewrite !decide_True by lia. rewrite Z.sub_diag. replace (crt + 2 * p + 1 - (crt + 2 * p)) with 1 by lia.
    change (u8 (u16 v mod 256) + 2 ^ 8 * u8 ((u16 v / 2 ^ 8) mod 256) = u16 v). generalize dependent (u16 v). intros x Hx _.
    unfold u8. change (2 ^ 8) with 256. change (2 ^ 16) with 65536 in Hx. rewrite !Z.mod_mod by done. Z.div_mod_to_equations. lia.
  - by rewrite !decide_False by lia.
Qed.

Lemma cell_scroll m i : 0 <= i < 1920 -> cell (scroll_mem m) i = if decide (i < 1840) then cell m (i + 80) else 0.
Proof.
  intros Hi. unfold cell, scroll_mem, ld16. case_decide.
  - unfold ld8. rewrite !memset_out by lia. rewrite !memmove_in by lia. unfold ld8, u8. rewrite !Z.mod_mod by done.
    by replace (crt + 2 * i - crt + (crt + 2 * 80)) with (crt + 2 * (i + 80)) by lia;
      replace (crt + 2 * i + 1 - crt + (crt + 2 * 80)) with (crt + 2 * (i + 80) + 1) by lia.
  - unfold ld8. rewrite !memset_in by lia. done.
Qed.

(** Lines of text, the last one first and in row [r]: every character of a line
    that is still on the screen is in its place. *)
Definition lines_at (m : memory) (r : Z) (ls : list (list Z)) : Prop :=
  0 <= r < 24 /\ forall q line j c, ls !! q = Some line -> Z.of_nat q <= r -> line !! j = Some c ->
    (j < 80)%nat /\ cell m (80 * (r - Z.of_nat q) + Z.of_nat j) = glyph c.

Lemma lines_cursor m r cur prev k v : lines_at m r (cur :: prev) -> (length cur <= k < 80)%nat ->
  lines_at (put_cell m (80 * r + Z.of_nat k) v) r (cur :: prev).
Proof.
  intros [Hr H] Hk. split; [done|]. intros q line j c Hq Hle Hj. destruct (H q line j c Hq Hle Hj) as [Hj80 Hc]. split; [done|].
  rewrite cell_put, decide_False; [done|]. destruct q as [|q]; [|lia]. injection Hq as <-. apply lookup_lt_Some in Hj. lia.
Qed.

Lemma lines_char m r cur prev c : lines_at m r (cur :: prev) -> (length cur < 80)%nat ->
  lines_at (put_cell m (80 * r + Z.of_nat (length cur)) (glyph c)) r ((cur ++ [c]) :: prev).
Proof.
  intros [Hr H] Hk. split; [done|]. intros [|q] line j c' Hq Hle Hj; cbn in Hq.
  - injection Hq as <-. rewrite cell_put, glyph_u16. apply lookup_app_Some in Hj as [Hj|[Hge Hj]].
    + pose proof (lookup_lt_Some _ _ _ Hj). rewrite decide_False by lia. by apply (H 0%nat cur j c').
    + apply list_lookup_singleton_Some in Hj as [Hj <-]. rewrite decide_True by lia. split; [lia|done].
  - destruct (H (S q) line j c' Hq Hle Hj) as [Hj80 Hc]. split; [done|]. by rewrite cell_put, decide_False by lia.
Qed.

(** The next line, with the text moved up when the last row is full. *)
Lemma lines_next m r ls : lines_at m r ls ->
  lines_at (if r =? 23 then scroll_mem m else m) (if r =? 23 then 23 else r + 1) ([] :: ls).
Proof.
  intros [Hr H]. destruct (r =? 23) eqn:E; bool_prop; (split; [lia|]); intros [|q] line j c Hq Hle Hj; try (by injection Hq as <-).
  - subst r. destruct (H q line j c Hq ltac:(lia) Hj) as [Hj80 Hc]. split; [done|]. rewrite cell_scroll, decide_True by lia.
    rewrite <- Hc. f_equal. lia.
  - destruct (H q line j c Hq ltac:(lia) Hj) as [Hj80 Hc]. split; [done|]. rewrite <- Hc. f_equal. lia.
Qed.

(** One more character of the text; a full line starts a new one. *)
Definition text_put (ls : list (list Z)) (c : Z) : list (list Z) :=
  match ls with
  | [] => []
  | cur :: prev =>
      if c =? 10 then [] :: cur :: prev
      else if c =? BACKSPACE then take (length cur - 1) cur :: prev
      else if (length cur =? 79)%nat then [] :: (cur ++ [c]) :: prev
      else (cur ++ [c]) :: prev
  end.

(** The screen shows the text and the cursor is at its end. *)
Definition shows (m : memory) (pos : Z) (ls : list (list Z)) : Prop :=
  exists r cur prev, ls = cur :: prev /\ lines_at m r ls /\ (length cur < 80)%nat /\ pos = 80 * r + Z.of_nat (length cur).

Lemma shows_next m r ls : lines_at m r ls -> let pos := if r =? 23 then 1840 else 80 * (r + 1) in
  shows (put_cell (if r =? 23 then scroll_mem m else m) pos 0x0720) pos ([] :: ls).
Proof.
  intros H pos. pose proof (lines_next m r ls H) as Hn. set (r' := if r =? 23 then 23 else r + 1) in *.
  assert (pos = 80 * r' + Z.of_nat 0) as -> by (unfold pos, r'; destruct (r =? 23); lia).
  exists r', [], ls. split; [done|]. split; [|cbn; lia]. apply lines_cursor; [done|cbn; lia].
Qed.

Lemma lines_prefix m r cur prev n : lines_at m r (cur :: prev) -> lines_at m r (take n cur :: prev).
Proof.
  intros [Hr H]. split; [done|]. intros [|q] line j c Hq Hle Hj; [|by apply (H (S q) line j c)].
  injection Hq as <-. apply lookup_take_Some in Hj as [Hj _]. by apply (H 0%nat cur j c).
Qed.

Lemma shows_put m pos ls c : shows m pos ls -> (c = BACKSPACE -> head ls <> Some []) ->
  shows (cga_mem c pos m) (cga_pos c pos) (text_put ls c).
Proof.
  intros (r & cur & prev & -> & H & Hk & ->) Hbs. pose proof H as [Hr _]. set (k := length cur) in *.
  unfold cga_mem, cga_pos, char_pos, char_mem, text_put. fold k. fold (glyph c).
  assert ((80 * (r + 1) =? 1920) = (r =? 23)) as Hrow by (destruct (r =? 23) eqn:E; bool_prop; [subst; done|apply Z.eqb_neq; lia]).
  destruct (c =? 10) eqn:E1; cbn [orb].
  { replace (80 * r + Z.of_nat k + (80 - (80 * r + Z.of_nat k) mod 80)) with (80 * (r + 1)) by (Z.div_mod_to_equations; lia).
    rewrite Hrow. by apply shows_next. }
  destruct (c =? BACKSPACE) eqn:E2; bool_prop.
  { assert (0 < k)%nat as Hk0 by (unfold k; destruct cur; [by destruct (Hbs E2)|cbn; lia]).
    rewrite (proj2 (Z.ltb_lt _ _)) by lia. rewrite (proj2 (Z.eqb_neq _ 1920)) by lia.
    replace (80 * r + Z.of_nat k - 1) with (80 * r + Z.of_nat (k - 1)) by lia. exists r, (take (k - 1) cur), prev.
    assert (length (take (k - 1) cur) = (k - 1)%nat) as Hl by (rewrite length_take; lia). rewrite Hl.
    split; [done|]. split; [|lia]. apply lines_cursor; [by apply lines_prefix|lia]. }
  pose proof (lines_char m r cur prev c H Hk) as Hc. fold k in Hc. destruct (k =? 79)%nat eqn:E3.
  - apply Nat.eqb_eq in E3. replace (80 * r + Z.of_nat k + 1) with (80 * (r + 1)) by lia. rewrite Hrow. by apply shows_next.
  - apply Nat.eqb_neq in E3. rewrite (proj2 (Z.eqb_neq _ 1920)) by lia.
    replace (80 * r + Z.of_nat k + 1) with (80 * r + Z.of_nat (S k)) by lia. exists r, (cur ++ [c]), prev.
    assert (length (cur ++ [c]) = S k) as Hl by (rewrite length_app; cbn; lia). rewrite Hl.
    split; [done|]. split; [|lia]. apply lines_cursor; [done|lia].
Qed.

Lemma put_cell_other m p v x : x < crt + 2 * p \/ crt + 2 * p + 2 <= x -> put_cell m p v x = m x.
Proof.
  intros Hx. unfold put_cell. rewrite st_bytes_eq by (unfold le16; repeat constructor; apply Z.mod_pos_bound; lia).
  change (Z.of_nat (length (le16 (u16 v)))) with 2. by rewrite decide_False by lia.
Qed.

(** Only the memory of the screen is written. *)
Lemma cga_mem_other c pos m x : 0 <= pos < 1920 -> x < crt \/ crt + 3840 <= x -> cga_mem c pos m x = m x.
Proof.
  intros Hp Hx. pose proof (cga_pos_range c pos Hp). unfold cga_mem. rewrite put_cell_other by lia.
  assert (char_mem c pos m x = m x) as <- by (unfold char_mem; destruct (_ || _); [done|]; apply put_cell_other; lia).
  destruct (_ =? 1920); [|done]. unfold scroll_mem. rewrite memset_out, memmove_out by lia. done.
Qed.

(** A backspace only within the current line. *)
Fixpoint text_ok (ls : list (list Z)) (cs : list Z) : Prop :=
  match cs with
  | [] => True
  | c :: cs' => (c = BACKSPACE -> head ls <> Some []) /\ text_ok (text_put ls c) cs'
  end.

Section screen.
Context {LK : Linker} {FS : FsOps} {W : Type} {PT : Ports W} (tview : W -> tty) (TL : tty_laws tview).
Implicit Types d : devst W.

Lemma shows_pos m pos ls : shows m pos ls -> 0 <= pos < 1920.
Proof. intros (r & cur & prev & _ & [Hr _] & Hk & ->). lia. Qed.

Lemma dev_consputs_run cs : forall d ls, let t := tview (dv_w d) in 0 <= ty_hi t < 256 -> 0 <= ty_lo t < 256 ->
  dv_uart d = true -> dv_panicked d = false -> shows (mem (dv_k d)) (ty_pos t) ls -> text_ok ls cs ->
  exists w m', dev_consputs cs d = Ret tt (set_dv_k (set_mem m' (dv_k d)) (set_dv_w w d)) /\
    shows m' (ty_pos (tview w)) (fold_left text_put cs ls) /\
    ty_sent (tview w) = ty_sent t ++ concat (map serial cs) /\
    (forall x, x < crt \/ crt + 3840 <= x -> m' x = mem (dv_k d) x).
Proof.
  induction cs as [|c cs IH]; intros d ls t Hhi Hlo Hu Hp Hs Hok; cbn [dev_consputs fold_left map concat].
  { exists (dv_w d), (mem (dv_k d)). rewrite app_nil_r. split; [by destruct d as [[] ?]|]. done. }
  destruct Hok as [Hbs Hok]. pose proof (shows_pos _ _ _ Hs) as Hpos.
  destruct (consputc_run tview TL c d) as (w1 & R1 & V1); [exact (conj Hhi (conj Hlo (proj2 Hpos)))|done|done|]. fold t in R1, V1.
  rewrite (bind_ret_l _ _ _ _ _ R1). pose proof (cga_pos_range c _ Hpos) as Hpos'. set (p := cga_pos c (ty_pos t)) in *.
  destruct (IH (set_dv_k (set_mem (cga_mem c (ty_pos t) (mem (dv_k d))) (dv_k d)) (set_dv_w w1 d)) (text_put ls c))
    as (w & m' & R & H1 & H2 & H3); cbn [dv_w dv_k set_dv_w set_dv_k]; rewrite ?V1; cbn [ty_hi ty_lo]; try done;
    try (Z.div_mod_to_equations; lia).
  { assert (ty_pos (mk_tty 15 (p / 256) (p mod 256) (ty_sent t ++ serial c)) = p) as -> by (unfold ty_pos; cbn [ty_hi ty_lo]; Z.div_mod_to_equations; lia).
    by apply shows_put. }
  exists w, m'. split; [rewrite R; by destruct d as [[] ?]|]. split; [exact H1|]. split.
  - rewrite H2. cbn [dv_w set_dv_w set_dv_k]. rewrite V1. cbn [ty_sent]. by rewrite <- app_assoc.
  - intros x Hx. rewrite H3 by done. cbn [dv_k set_dv_k mem set_mem]. by apply cga_mem_other.
Qed.

End screen.
