(* ===== verification/BootMain.v ===== *)
(** * [main]: from the reset state to the first process

    First the calls of [main] that set up memory: the free list, the kernel's
    page table and the first process; they end in a state that satisfies the
    invariants that the other operations preserve.  Then the calls between them,
    which start the devices and the other processors, and the whole of [main],
    alternating with [mpenter] on the other processors. *)

From S2P Require Import Prelude CString Mem KState Mmu Console Kalloc Vm AddrSpace VmSpec VmGrow VmFork File Proc.
From S2P Require Import Msg Trap Bio Layout Inode ConsoleDev Devices Ide FileIO ProcMem DevSpec Boot.

Section bootmem.
Context {LK : Linker} {FS : FsOps}.

(** ** The kernel's page table *)

(** A directory without user pages has at most 513 of the pages. *)
Lemma kernel_own_length s m dir l l' : free_pages s l -> no_low_pde m dir -> (forall q, res m dir l' q <-> q ∈ l) ->
  (length l <= 513 + length l')%nat.
Proof.
  intros (_ & Hnd & _) Hno Hres. destruct (kernel_own m dir Hno) as (ts & Hts & Hin). rewrite <- Hts, <- length_app.
  apply submseteq_length, NoDup_submseteq; [done|]. intros q [Hq|Hq]%Hres; apply elem_of_app; [left; by apply Hin|by right].
Qed.

Lemma kvmalloc_spec s l : free_pages s l -> LkKmem ∉ held s -> (513 < length l)%nat ->
  exists s' l', kvmalloc s = Ret tt s' /\ free_pages s' l' /\ frame (fun q => q ∈ l) (mem s) (mem s') /\
    aspace (mem s') (kpgdir s') l' /\ (forall q, res (mem s') (kpgdir s') l' q <-> q ∈ l) /\
    (forall e, e ∈ kmap -> kmapped (mem s') (kpgdir s') e) /\ cr3 s' = V2P (kpgdir s') /\ (length l <= 513 + length l')%nat /\
    s' = set_cr3 (cr3 s') (set_kpgdir (kpgdir s') (set_out (out s') (set_freelist (freelist s') (set_mem (mem s') s)))).
Proof.
  intros Hf Hh Hl. destruct (setupkvm_spec s l Hf Hh) as (r & s1 & l1 & R & St & F1 & M1 & Hcase).
  destruct Hcase as [(Hr & A1 & R1 & _ & K1 & N1)|(_ & _ & Hle)]; [|lia].
  exists (set_cr3 (V2P r) (set_kpgdir r s1)), l1. split; [unfold kvmalloc; by rewrite (bind_ret_l _ _ _ _ _ R)|].
  split; [done|]. split; [done|]. split; [done|]. split; [done|]. split; [done|]. split; [done|]. split; [by eapply kernel_own_length|].
  unfold vmstep in St. rewrite St at 1. by destruct s.
Qed.

(** ** The first page of a process *)

Lemma inituvm_spec s dir p l1 init sz : free_pages s (p :: l1) -> aspace (mem s) dir (p :: l1) -> LkKmem ∉ held s -> l1 <> [] ->
  present (pte_of (mem s) dir 0) = false -> 0 <= sz < 4096 ->
  (forall x q, init <= x < init + sz -> is_page q -> x < q \/ q + 4096 <= x) ->
  exists s' l', inituvm dir init sz s = Ret tt s' /\ vmstep s s' /\ free_pages s' l' /\ aspace (mem s') dir l' /\
    (forall q, res (mem s') dir l' q <-> res (mem s) dir (p :: l1) q) /\
    frame (fun q => tabs (mem s) dir q \/ q ∈ p :: l1) (mem s) (mem s') /\
    (forall vb, vpage vb -> pte_of (mem s') dir vb =
       if decide (vb = 0) then Z.lor (Z.lor (V2P p) (Z.lor PTE_W PTE_U)) PTE_P else pte_of (mem s) dir vb) /\
    leaf (pte_of (mem s') dir 0) = p /\
    (forall o, 0 <= o < 4096 -> mem s' (p + o) = if decide (o < sz) then ld8 (mem s) (init + o) else 0).
Proof.
  intros Hf Ha Hh Hl1 Hnp Hsz Hinit. unfold inituvm. rewrite (proj2 (Z.leb_gt PGSIZE sz)) by (unfold PGSIZE; lia).
  destruct (take_page s dir p l1 (fun m => memset m p 0 PGSIZE) Hf Ha Hh (fun m => frame_memset p m 0)) as (s0 & Rk & Hm0 & T).
  rewrite (bind_ret_l _ _ _ _ _ Rk). unfold upd_mem at 1. rewrite (bind_ret_l (modify _) _ _ tt _ eq_refl).
  set (s1 := set_mem (memset (mem s0) p 0 PGSIZE) s0) in *. assert (uva 0) as H0 by (by split).
  destruct (map_taken s s1 dir p l1 0 (Z.lor PTE_W PTE_U) T Hh H0 Hnp) as [[-> _]|(s2 & l2 & Rm & G & Hpte & Hby)]; [by split|done|].
  rewrite (bind_ret_l _ _ _ _ _ Rm). destruct T as [St1 F1 A1 P1 O1 T1 M1 Hpp Hn1 Hl]. destruct G as [St2 F2 A2 R2 O2 B2 T2 M2].
  assert (pte_of (mem s2) dir 0 = Z.lor (Z.lor (V2P p) (Z.lor PTE_W PTE_U)) PTE_P) as E0 by (rewrite Hpte by (by apply uva_vpage); done).
  destruct (zero_page_entry (mem s2) dir l2 p 0 Hpp H0 A2 E0) as [Hpr Hlf].
  pose proof (untouched_leaf _ _ _ _ A2 H0 Hpr) as Hun. rewrite Hlf in Hun.
  assert (forall q, p = q -> is_page q) as HP by (by intros ? <-).
  assert (frame (eq p) (mem s2) (memmove (mem s2) p init sz)) as M3 by (rewrite <- (Z.add_0_r p) at 2; apply frame_memmove; lia).
  assert (p ∉ l2) as Hpl2.
  { eapply as_free; [exact A2|]. rewrite <- Hlf. by constructor. }
  exists (set_mem (memmove (mem s2) p init sz) s2), l2. split; [done|]. ksimpl.
  assert (forall vb, pte_of (memmove (mem s2) p init sz) dir vb = pte_of (mem s2) dir vb) as Hpte3 by (intros vb; by eapply pte_frame).
  split; [eapply vmstep_trans; [exact St2|apply vmstep_set_mem]|].
  split; [by eapply free_pages_mem; [exact F2|exact M3|done|intros q Hq <-]|]. split; [by eapply aspace_frame|].
  split; [intros q; unfold res at 1; rewrite (own_frame (eq p) _ _ _ _ _ M3 HP A2 Hun); specialize (R2 q); unfold res in *; tauto|].
  split; [eapply frame_trans; [exact M2|]; eapply frame_weaken; [|exact M3]; intros q <-; right; apply list_elem_of_here|].
  split; [intros vb Hvb; by rewrite Hpte3, Hpte|]. split; [by rewrite Hpte3|]. intros o Ho. case_decide.
  - rewrite memmove_in by lia. replace (p + o - p + init) with (init + o) by lia. unfold ld8. f_equal.
    apply M2. intros q Hq. apply Hinit; [lia|]. destruct Hq as [Hq|Hq]; [eapply as_page; [exact Ha|by apply tabs_own]|exact (free_pages_is_page _ _ _ Hf Hq)].
  - rewrite memmove_out by lia. rewrite Hby by done. unfold s1. ksimpl. rewrite memset_in by (unfold PGSIZE; lia). done.
Qed.

(** ** The first process *)

Definition init_tf : trapframe :=
  set_tf_eip 0 (set_tf_esp PGSIZE (set_tf_eflags FL_IF
    (set_tf_ss user_ds (set_tf_es user_ds (set_tf_ds user_ds (set_tf_cs user_cs zero_trapframe)))))).

Definition first_proc (p0 : proc) (pid t ks d : Z) (nm : list Z) (cwd : option nat) : proc :=
  set_p_state RUNNABLE (set_p_cwd cwd (set_p_name nm (set_p_tf init_tf (set_p_sz PGSIZE
    (set_p_pgdir d (new_proc p0 pid t ks)))))).

(** [namei("/")] finds the root directory and changes the inode cache only. *)
Definition root_found (ic : list inode) : Prop :=
  forall s, held s = [] -> icache s = ic -> exists cwd ic', fs_namei (bytes "/") s = Ret cwd (set_icache ic' s).

Lemma initcode_name s : length s = 16%nat ->
  exists r, safestrcpy s (bytes "initcode" ++ [0]) 16 = Some r /\ length r = 16%nat /\ cstr r = bytes "initcode".
Proof.
  intros Hs. do 16 (destruct s as [|? s]; [discriminate Hs|]). destruct s; [|discriminate Hs].
  eexists. split; [reflexivity|]. split; reflexivity.
Qed.

(** What [userinit] does once the page table is there. *)
Lemma userinit_finish s i c sz : ptable s !! i = Some c -> held s = [] -> length (p_name c) = 16%nat -> root_found (icache s) ->
  exists nm cwd ic, (upd_proc i (set_p_sz sz) ;; upd_proc i (set_p_tf init_tf) ;; set_name i (bytes "initcode" ++ [0]) ;;
      cwd <- fs_namei (bytes "/") ;; upd_proc i (set_p_cwd cwd) ;; acquire LkPtable ;; upd_proc i (set_p_state RUNNABLE) ;;
      release LkPtable) s =
    Ret tt (set_icache ic (set_ptable (<[i := set_p_state RUNNABLE (set_p_cwd cwd (set_p_name nm (set_p_tf init_tf (set_p_sz sz c))))]>
      (ptable s)) s)) /\ length nm = 16%nat /\ cstr nm = bytes "initcode".
Proof.
  intros Hi Hh Hn Hroot. pose proof (lookup_lt_Some _ _ _ Hi) as Hlt. destruct (initcode_name (p_name c) Hn) as (nm & Rn & Hl & Hc).
  krun. rewrite (alter_eq_insert _ i c (ptable s)), !alter_insert_eq by done. unfold set_name. rewrite run_bind.
  erewrite run_proc_at; [|ksimpl; by apply list_lookup_insert_eq]. ksimpl. rewrite Rn. krun. rewrite alter_insert_eq by done.
  match goal with |- context [bind (fs_namei _) _ ?s1] => destruct (Hroot s1) as (cwd & ic & R); [by ksimpl|by ksimpl|] end.
  rewrite (bind_ret_l _ _ _ _ _ R). krun. rewrite alter_insert_eq by done. rewrite run_acquire by (ksimpl; rewrite Hh; apply not_elem_of_nil). krun.
  rewrite alter_insert_eq by done. exists nm, cwd, ic. split; [|done].
  erewrite release_run; [|by ksimpl|ksimpl; rewrite Hh; apply not_elem_of_nil]. knorm. by rewrite set_held_id by (by ksimpl).
Qed.

(** The state behind [userinit]: process [i] is new, the other slots and the
    rest of the kernel are as before. *)
Record first_done (s s' : kstate) (l l' : list Z) (i : nat) (c : proc) (init sz : Z) : Prop := {
  fd_pmem : pmem s' l';
  fd_table : ptable s' = <[i := c]> (ptable s);
  fd_init : initproc s' = Some i;
  fd_held : held s' = [];
  fd_same : kpgdir s' = kpgdir s /\ ncpu s' = ncpu s;
  fd_pages q : q ∈ l <-> powns (mem s') c q \/ q ∈ l';
  fd_frame : frame (fun q => q ∈ l) (mem s) (mem s');
  fd_kernel e : e ∈ kmap -> kmapped (mem s') (p_pgdir c) e;
  fd_code o : 0 <= o < 4096 -> mem s' (leaf (pte_of (mem s') (p_pgdir c) 0) + o) =
    if decide (o < sz) then ld8 (mem s) (init + o) else 0;
  fd_proc : p_state c = RUNNABLE /\ p_pid c = nextpid s /\ p_sz c = PGSIZE /\ p_tf c = init_tf /\
    cstr (p_name c) = bytes "initcode" /\ length (p_name c) = 16%nat;
  fd_ofile p0 : ptable s !! i = Some p0 -> p_ofile c = p_ofile p0;
}.

(** The record from what [userinit] has done to the memory. *)
Lemma first_done_intro s s5 ks l1 l5 i p0 d p nm cwd ic init sz : let c := first_proc p0 (nextpid s) (ticks s) ks d nm cwd in
  pmem s (ks :: l1) -> ptable s !! i = Some p0 -> is_page ks -> ~ ks ∈ l1 -> initproc s5 = Some i -> held s5 = [] -> kpgdir s5 = kpgdir s /\ ncpu s5 = ncpu s ->
  free_pages s5 l5 -> aspace (mem s5) d l5 -> (forall q, res (mem s5) d l5 q <-> q ∈ l1) ->
  frame (fun q => q ∈ ks :: l1) (mem s) (mem s5) ->
  (forall vb, uva vb -> present (pte_of (mem s5) d vb) = true <-> vb = 0) -> leaf (pte_of (mem s5) d 0) = p ->
  (forall e, e ∈ kmap -> kmapped (mem s5) d e) ->
  (forall o, 0 <= o < 4096 -> mem s5 (p + o) = if decide (o < sz) then ld8 (mem s) (init + o) else 0) ->
  length nm = 16%nat -> cstr nm = bytes "initcode" ->
  first_done s (set_icache ic (set_ptable (<[i := c]> (ptable s)) s5)) (ks :: l1) l5 i c init sz.
Proof.
  intros c Hp Hi Hks Hksn Hin Hh Hsame Hf Ha Hres M Hpte Hlf Hk Hby Hl Hc. pose proof (lookup_lt_Some _ _ _ Hi) as Hlt.
  assert (forall q, own (mem s5) d q -> q ∈ l1) as Hown by (intros q Hq; apply Hres; by left).
  assert (forall q, q ∈ l5 -> q ∈ l1) as Hl5 by (intros q Hq; apply Hres; by right).
  assert (~ ks ∈ l5) as Hks5 by auto.
  constructor; ksimpl; try done.
  - eapply (pmem_slot s _ (ks :: l1) l5 i c (fun q => q ∈ ks :: l1)); [exact Hp|exact M|by left|done| |by ksimpl|done| | |done].
    + intros x Hx. left. apply list_elem_of_further. auto.
    + intros x [[_ ->]|[_ Ho]]; [split; [left; apply list_elem_of_here|done]|]. split; [left; apply list_elem_of_further; auto|by eapply as_free].
    + intros _. split; [by apply page_neq_0|]. split; [intros Ho; by apply Hksn, Hown|]. split; [done|]. split; [|by unfold c, KERNBASE, PGSIZE; cbn].
      intros vb Hvb. change (present (pte_of (mem s5) d vb) = true <-> vb < 4096). rewrite Hpte by done.
      destruct Hvb as [Hvb Hal]. Z.div_mod_to_equations. lia.
  - intros q. unfold powns. change (p_kstack c) with ks. change (p_pgdir c) with d. rewrite elem_of_cons, <- (Hres q). unfold res.
    pose proof (page_neq_0 ks Hks). split; [intros [->|[?|?]]; auto|]. intros [[[_ ->]|[_ ?]]|?]; auto.
  - by change (p_pgdir c) with d; rewrite Hlf.
  - intros p1 Hp1. by assert (p1 = p0) as -> by congruence.
Qed.

Lemma userinit_spec s l i p0 init sz : pmem s l -> held s = [] -> (515 < length l)%nat ->
  find_index unused (ptable s) = Some i -> ptable s !! i = Some p0 -> length (p_name p0) = 16%nat -> root_found (icache s) ->
  0 <= sz < 4096 -> (forall x q, init <= x < init + sz -> is_page q -> x < q \/ q + 4096 <= x) ->
  exists s' l' c, userinit init sz s = Ret tt s' /\ first_done s s' l l' i c init sz.
Proof.
  intros Hp Hh Hlen Hfi Hi Hnm Hroot Hsz Hinit. pose proof (pm_free _ _ Hp) as Hf. pose proof (lookup_lt_Some _ _ _ Hi) as Hlt.
  pose proof (allocproc_spec s l Hf Hh) as HA. rewrite Hfi in HA. destruct HA as (p0' & Hp0 & Hu & HA).
  assert (p0' = p0) as -> by congruence. destruct l as [|ks l1]; [cbn in Hlen; lia|]. destruct HA as (f & Ra & F1 & Hks & Hksn).
  set (s1 := set_mem _ _) in Ra, F1. unfold userinit. rewrite (bind_ret_l _ _ _ _ _ Ra). rewrite (bind_ret_l (modify _) _ _ tt _ eq_refl).
  set (s2 := set_initproc (Some i) s1). assert (LkKmem ∉ held s2) as Hh2 by (unfold s2, s1; ksimpl; rewrite Hh; apply not_elem_of_nil).
  destruct (setupkvm_spec s2 l1 F1 Hh2) as (d & s3 & l3 & R3 & St3 & F3 & M3 & [(Hd & A3 & O3 & U3 & K3 & N3)|(_ & _ & Hle)]); [|cbn in Hlen; lia].
  rewrite (bind_ret_l _ _ _ _ _ R3). set (c0 := new_proc p0 (nextpid s) (ticks s) ks).
  assert (ptable s3 !! i = Some c0) as Hi3.
  { rewrite (vmstep_ptable _ _ St3). unfold s2, s1. ksimpl. by apply list_lookup_insert_eq. }
  rewrite (bind_ret_l _ _ _ _ _ (upd_proc_run i _ c0 s3 Hi3)). rewrite (proj2 (Z.eqb_neq d 0)) by done.
  set (s4 := set_ptable _ s3). assert (exists p l4, l3 = p :: l4 /\ l4 <> []) as (p & l4 & -> & Hl4).
  { pose proof (kernel_own_length s2 (mem s3) d l1 l3 F1 N3 O3) as Hle. cbn in Hlen. destruct l3 as [|p [|p' l4]]; cbn in Hle; try lia. by exists p, (p' :: l4). }
  destruct (inituvm_spec s4 d p l4 init sz F3 A3) as (s5 & l5 & R5 & St5 & F5 & A5 & O5 & M5 & P5 & Hlf & Hby); try done.
  { unfold s4. ksimpl. by rewrite (vmstep_held _ _ St3). }
  { unfold s4. ksimpl. by rewrite U3 by (by split). }
  rewrite (bind_ret_l _ _ _ _ _ R5). set (c1 := set_p_pgdir d c0).
  assert (ptable s5 = <[i := c1]> (ptable s)) as Ht5.
  { rewrite (vmstep_ptable _ _ St5). unfold s4. ksimpl. rewrite (vmstep_ptable _ _ St3). unfold s2, s1. ksimpl. by rewrite list_insert_insert_eq. }
  assert (held s5 = []) as Hh5 by (rewrite (vmstep_held _ _ St5); unfold s4; ksimpl; by rewrite (vmstep_held _ _ St3)).
  assert (icache s5 = icache s) as Hic5 by (rewrite (vmstep_icache _ _ St5); unfold s4; ksimpl; by rewrite (vmstep_icache _ _ St3)).
  destruct (userinit_finish s5 i c1 PGSIZE) as (nm & cwd & ic & R6 & Hl6 & Hc6); [rewrite Ht5; by apply list_lookup_insert_eq|done|done|by rewrite Hic5|].
  set (c := first_proc p0 (nextpid s) (ticks s) ks d nm cwd).
  exists (set_icache ic (set_ptable (<[i := c]> (ptable s)) s5)), l5, c. split; [rewrite Ht5, list_insert_insert_eq in R6; exact R6|].
  assert (forall q, tabs (mem s4) d q \/ q ∈ p :: l4 -> q ∈ l1) as Hsub by (intros q [H|H]; apply O3; [left; by apply tabs_own|by right]).
  assert (frame (fun q => q ∈ ks :: l1) (mem s) (mem s3)) as Ms3.
  { apply (frame_trans _ _ (mem s2)); [eapply frame_weaken; [|apply (frame_st32 ks 4016); lia]; intros q <-; apply list_elem_of_here|].
    eapply frame_weaken; [|exact M3]. intros q Hq. by apply list_elem_of_further. }
  assert (frame (fun q => q ∈ ks :: l1) (mem s) (mem s5)) as M.
  { apply (frame_trans _ _ (mem s3)); [done|]. eapply frame_weaken; [|exact M5]. intros q Hq. apply list_elem_of_further. auto. }
  assert (forall q, res (mem s5) d l5 q <-> q ∈ l1) as Hres by (intros q; rewrite O5; apply O3).
  apply (first_done_intro s s5 ks l1 l5 i p0 d p nm cwd ic init sz); try done.
  - unfold vmstep in St3, St5. rewrite St5. ksimpl. unfold s4. ksimpl. by rewrite St3.
  - unfold vmstep in St3, St5. rewrite St5. ksimpl. unfold s4. ksimpl. by rewrite St3.
  - intros vb Hvb. rewrite P5 by (by apply uva_vpage). case_decide; [split; [done|]; intros _; apply lor_present|].
    unfold s4. ksimpl. by rewrite U3.
  - intros [[[virt ps] pe] perm] He. pose proof (kentries_in _ _ _ kmap_ok He) as Hok.
    eapply kmapped_ext; [|exact Hok|by apply K3]. intros vb Hvb Hvr. rewrite P5 by done. destruct Hok as [Hv _]. unfold KERNBASE in Hv. by rewrite decide_False by lia.
  - intros o Ho. rewrite Hby by done. case_decide; [|done]. unfold ld8. f_equal. apply Ms3. intros q Hq. apply Hinit; [lia|].
    by apply (free_pages_is_page _ _ _ Hf).
Qed.

(** ** The kernel's memory while the other parts start

    The steps of [main] between [kvmalloc] and [kinit2] write below the kernel's
    link address only, and take pages from the free list. *)

(** [s'] differs from [s] in low memory and in variables of other components. *)
Record kframe (s s' : kstate) : Prop := {
  kf_free : freelist s' = freelist s;
  kf_pgdir : kpgdir s' = kpgdir s;
  kf_table : ptable s' = ptable s;
  kf_pid : nextpid s' = nextpid s;
  kf_icache : icache s' = icache s;
  kf_ncpu : ncpu s' = ncpu s;
  kf_held : held s' = held s;
  kf_mem x : KERNLINK <= x -> mem s' x = mem s x;
}.

Lemma kframe_refl s : kframe s s.
Proof. by constructor. Qed.

Lemma kframe_trans s1 s2 s3 : kframe s1 s2 -> kframe s2 s3 -> kframe s1 s3.
Proof.
  intros [] []. constructor; try congruence. intros x Hx. rewrite kf_mem1, kf_mem0; done.
Qed.

(** Page tables whose own pages keep their bytes. *)
Lemma tables_same m m' dir l : aspace m dir l -> (forall q o, tabs m dir q -> 0 <= o < 4096 -> m' (q + o) = m (q + o)) ->
  (forall va, pte_of m' dir va = pte_of m dir va) /\ (forall q, own m' dir q <-> own m dir q) /\ aspace m' dir l.
Proof.
  intros Ha Hm.
  assert (forall i, 0 <= i < 1024 -> pde m' dir i = pde m dir i) as Hd.
  { intros i Hi. apply ld32_ext. intros x Hx. replace x with (dir + (x - dir)) by lia. apply Hm; [by left|lia]. }
  assert (forall va, pte_of m' dir va = pte_of m dir va) as Hp.
  { intros va. unfold pte_of, tab. pose proof (PDX_range va) as H1. pose proof (PTX_range va) as H2. rewrite Hd by done.
  destruct (present _) eqn:Hpr; [|done]. apply ld32_ext. intros x Hx. fold (tab m dir (PDX va)) in Hx |- *.
  replace x with (tab m dir (PDX va) + (x - tab m dir (PDX va))) by lia. apply Hm; [right; by exists (PDX va)|lia]. }
  split; [done|]. split; [|by eapply aspace_ext]. intros q. split; intros Ho; (eapply own_ext; [| |exact Ho]); intros; rewrite ?Hd, ?Hp; done.
Qed.

(** The kernel's page table and the free list [l]; [stacks] are the pages given
    to the other processors, and these are all pages that satisfy [P]. *)
Record kready (P : Z -> Prop) (s : kstate) (l stacks : list Z) : Prop := {
  kr_free : free_pages s l;
  kr_held : held s = [];
  kr_as : aspace (mem s) (kpgdir s) l;
  kr_map e : e ∈ kmap -> kmapped (mem s) (kpgdir s) e;
  kr_pages q : P q <-> own (mem s) (kpgdir s) q \/ q ∈ stacks \/ q ∈ l;
  kr_stacks q : q ∈ stacks -> ~ own (mem s) (kpgdir s) q /\ ~ q ∈ l;
}.

Lemma kready_ext P s s' l stacks : kready P s l stacks -> kpgdir s' = kpgdir s -> held s' = [] -> free_pages s' l ->
  (forall q o, own (mem s) (kpgdir s) q -> 0 <= o < 4096 -> mem s' (q + o) = mem s (q + o)) -> kready P s' l stacks.
Proof.
  intros [F H A M Pg St] Hk Hh Hf Hm.
  destruct (tables_same (mem s) (mem s') (kpgdir s) l A) as (Hp & Ho & A'); [intros q o Hq; by apply Hm, tabs_own|].
  constructor; rewrite ?Hk; try done.
  - intros [[[virt ps] pe] perm] He. eapply kmapped_ext; [|exact (kentries_in _ _ _ kmap_ok He)|by apply M]. intros; apply Hp.
  - intros q. by rewrite Ho.
  - intros q. rewrite Ho. apply St.
Qed.

Lemma high_page q o : is_page q -> 0 <= o -> KERNLINK <= q + o.
Proof. intros Hq%is_page_bounds Ho. unfold KERNLINK, EXTMEM. lia. Qed.

Lemma chain_ext m m' h l : (forall p x, p ∈ l -> p <= x < p + 4 -> m' x = m x) -> chain m h l -> chain m' h l.
Proof.
  revert h. induction l as [|p l IH]; intros h Hm; [done|]. cbn. intros [-> Hc]. split; [done|].
  rewrite (ld32_ext m m') by (intros x Hx; apply (Hm p); [apply list_elem_of_here|lia]).
  apply IH; [|done]. intros q x Hq. apply Hm. by apply list_elem_of_further.
Qed.

Lemma kready_frame P s s' l stacks : kready P s l stacks -> kframe s s' -> kready P s' l stacks.
Proof.
  intros R [Ff Fp _ _ _ _ Fh Fm]. pose proof R as [F H A _ _ _]. apply (kready_ext P s); [done|done|congruence| |].
  - destruct F as (Hc & Hn & Hp). split; [|done]. rewrite Ff. eapply chain_ext; [|exact Hc]. intros p x Hpl Hx. apply Fm.
    rewrite Forall_forall in Hp. pose proof (high_page p (x - p) (Hp p Hpl)). replace (p + (x - p)) with x in * by lia. lia.
  - intros q o Hq Ho. apply Fm, high_page; [by eapply as_page|lia].
Qed.

(** [kalloc] gives a page to a processor. *)
Lemma kready_kalloc P s p l stacks : kready P s (p :: l) stacks ->
  exists f, kalloc s = Ret p (set_freelist f s) /\ kready P (set_freelist f s) l (p :: stacks).
Proof.
  intros [F H A M Pg St]. destruct (kalloc_pop s p l F) as (f & R & F' & Hp & Hn); [rewrite H; apply not_elem_of_nil|].
  exists f. split; [done|]. constructor; ksimpl; try done.
  - eapply aspace_subset; [exact A|]. intros q Hq. by apply list_elem_of_further.
  - intros q. rewrite Pg, !elem_of_cons. tauto.
  - intros q [->|Hq]%elem_of_cons; [split; [|done]; intros Ho; apply (as_free _ _ _ A _ Ho), list_elem_of_here|].
    destruct (St q Hq) as [H1 H2]. split; [done|]. intros Hl. by apply H2, list_elem_of_further.
Qed.

(** ** The memory calls of [main] *)

Definition low_end : Z := P2V (4 * 1024 * 1024).

(** The pages that the first page table of the boot code maps. *)
Definition low_page (q : Z) : Prop := is_page q /\ q + 4096 <= low_end.

(** What the calls leave as it was. *)
Record kept (s s' : kstate) : Prop := {
  kt_table : ptable s' = ptable s;
  kt_pid : nextpid s' = nextpid s;
  kt_icache : icache s' = icache s;
  kt_ncpu : ncpu s' = ncpu s;
  kt_image x : x < kend -> mem s' x = mem s x;
}.

Lemma frame_low (P : Z -> Prop) m m' x : frame P m m' -> (forall q, P q -> is_page q) -> x < kend -> m' x = m x.
Proof. intros Hf HP Hx. apply Hf. intros q [_ ?]%HP. lia. Qed.

Lemma kinit1_kvmalloc s : freelist s = 0 -> held s = [] -> PGROUNDUP kend + 522 * 4096 <= low_end ->
  exists s1 s2 l, kinit1 kend low_end s = Ret tt s1 /\ kvmalloc s1 = Ret tt s2 /\ kready low_page s2 l [] /\ kept s s2 /\
    (8 < length l)%nat.
Proof.
  intros Hfl Hh Hroom. set (s0 := set_use_lock false (set_held (filter (fun l => l <> LkKmem) (held s)) s)).
  assert (held s0 = []) as Hh0 by (unfold s0; ksimpl; by rewrite Hh). change low_end with (KERNBASE + 4194304) in *.
  assert (free_pages s0 []) as F0 by (split; [done|]; split; constructor).
  destruct (PGROUNDUP_bounds kend) as [Hp1 Hp2]; [pose proof kdata_low; pose proof kend_low; pose proof kend_high; unfold KERNLINK, EXTMEM, KERNBASE in *; lia|].
  destruct (freerange_spec s0 [] kend (KERNBASE + 4194304)) as (s1 & l & R1 & F1 & Hin & Hlen & E1 & M1);
    [done|rewrite Hh0; apply not_elem_of_nil|lia|lia|unfold PHYSTOP; lia|intros q _; apply not_elem_of_nil|]. rewrite app_nil_r in F1.
  assert (held s1 = []) as Hh1 by (by rewrite E1).
  assert (521 < length l)%nat as Hl.
  { assert (522 <= (KERNBASE + 4194304 - PGROUNDUP kend) / 4096); [|lia]. apply Z.div_le_lower_bound; lia. }
  destruct (kvmalloc_spec s1 l F1) as (s2 & l2 & R2 & F2 & M2 & A2 & O2 & K2 & _ & Hl2 & E2); [rewrite Hh1; apply not_elem_of_nil|lia|].
  exists s1, s2, l2. split; [exact R1|]. split; [exact R2|]. split; [|split; [|lia]].
  - constructor; [done|by rewrite E2|done|done| |intros q []%elem_of_nil].
    intros q. specialize (O2 q). unfold res in O2. rewrite elem_of_nil. unfold low_page, is_page. rewrite Hin in O2.
    change low_end with (KERNBASE + 4194304). unfold KERNBASE, PHYSTOP in *. intuition lia.
  - constructor; try (rewrite E2, E1; reflexivity). intros x Hx.
    rewrite (frame_low _ (mem s1) (mem s2) x M2) by (done || intros q; apply (free_pages_is_page _ _ _ F1)).
    rewrite (frame_low _ (mem s0) (mem s1) x M1) by (done || intros q; apply (free_pages_is_page _ _ _ F1)). done.
Qed.

(** The rest of memory joins the free list. *)
Lemma kinit2_ready s l stacks : kready low_page s l stacks ->
  exists s' l', kinit2 low_end (P2V PHYSTOP) s = Ret tt s' /\ kready is_page s' l' stacks /\ kept s s' /\ (515 < length l')%nat.
Proof.
  intros R. pose proof R as [F H A M Pg St]. pose proof kend_high. change low_end with (KERNBASE + 4194304) in *.
  change (P2V PHYSTOP) with (KERNBASE + PHYSTOP).
  destruct (freerange_spec s l (KERNBASE + 4194304) (KERNBASE + PHYSTOP)) as (s1 & l1 & R1 & F1 & Hin & Hlen & E1 & M1);
    [done|rewrite H; apply not_elem_of_nil|lia|unfold PHYSTOP; lia|lia| |].
  { intros q Hq Hl. assert (low_page q) as [_ Hlow] by (apply Pg; tauto). change low_end with (KERNBASE + 4194304) in Hlow. lia. }
  assert (forall q, q ∈ l1 -> is_page q) as HP by (intros q Hq; apply (free_pages_is_page _ _ _ F1), elem_of_app; by left).
  assert (forall q, q ∈ l1 -> ~ low_page q) as Hno.
  { intros q Hq [_ Hlow]. apply Hin in Hq. change low_end with (KERNBASE + 4194304) in Hlow. lia. }
  assert (forall q o, own (mem s) (kpgdir s) q -> 0 <= o < 4096 -> mem s1 (q + o) = mem s (q + o)) as Hm.
  { intros q o Hq Ho. apply M1. intros p Hp. assert (p <> q) by (intros ->; apply (Hno q Hp), Pg; by left).
    assert (is_page q) as Hqp by (by eapply as_page). destruct (HP p Hp) as [Hp4 _], Hqp as [Hq4 _]. Z.div_mod_to_equations. lia. }
  destruct (tables_same (mem s) (mem s1) (kpgdir s) l A) as (Hp & Ho & A1); [intros q o Hq; by apply Hm, tabs_own|].
  exists (set_use_lock true s1), (l1 ++ l). split; [unfold kinit2; by rewrite (bind_ret_l _ _ _ _ _ R1)|].
  assert (kpgdir s1 = kpgdir s) as Ek by (by rewrite E1). split; [|split].
  - constructor; ksimpl; rewrite ?Ek; [done|by rewrite E1| | | |].
    + eapply aspace_list; [exact A1|]. intros q Hq%Ho [Hl|Hl]%elem_of_app; [apply (Hno q Hl), Pg; by left|].
      by apply (as_free _ _ _ A _ Hq).
    + intros [[[virt ps] pe] perm] He. eapply kmapped_ext; [|exact (kentries_in _ _ _ kmap_ok He)|by apply M]. intros; apply Hp.
    + intros q. rewrite Ho, elem_of_app. specialize (Pg q). specialize (Hin q). unfold low_page in Pg. split.
      * intros Hq. destruct (decide (q + 4096 <= low_end)) as [|Hn]; [tauto|]. right. right. left. apply Hin.
        destruct Hq as [Hq1 Hq2]. change low_end with (KERNBASE + 4194304) in Hn. unfold KERNBASE, PHYSTOP in *. Z.div_mod_to_equations. lia.
      * intros [?|[?|[?|?]]]; try (by apply Pg; tauto). auto.
    + intros q Hq. rewrite Ho, elem_of_app. destruct (St q Hq) as [H1 H2]. split; [done|]. intros [Hl|?]; [|done].
      apply (Hno q Hl), Pg. auto.
  - constructor; try (rewrite E1; reflexivity). intros x Hx. ksimpl. by apply (frame_low _ _ _ _ M1).
  - rewrite length_app. change (PGROUNDUP (KERNBASE + 4194304)) with (KERNBASE + 4194304) in Hlen. unfold PHYSTOP, KERNBASE in Hlen.
    change ((0x80000000 + 0xE000000 - (0x80000000 + 4194304)) / 4096) with 56320 in Hlen. lia.
Qed.

(** Before the first process every slot of the table is unused. *)
Definition empty_slot (p : proc) : Prop :=
  p_state p = UNUSED /\ p_kstack p = 0 /\ length (p_ofile p) = NOFILE /\ length (p_name p) = 16%nat.

Lemma pmem_empty s l : free_pages s l -> Forall empty_slot (ptable s) -> pmem s l.
Proof.
  intros Hf Hall. assert (forall i p, ptable s !! i = Some p -> p_kstack p = 0 /\ has_mem p = false) as Hno.
  { intros i p Hi. destruct (Forall_lookup_1 _ _ _ _ Hall Hi) as (Hu & Hk & _). unfold has_mem. by rewrite Hu. }
  assert (forall i p x, ptable s !! i = Some p -> ~ powns (mem s) p x) as Hown.
  { intros i p x Hi [[Hk _]|[Hm _]]; destruct (Hno i p Hi); congruence. }
  constructor; try done; intros i p; intros; try (by edestruct Hown); destruct (Hno i p) as [Hk Hm]; congruence.
Qed.

(** The state in which the scheduler starts. *)
Record first_ready (s s' : kstate) (l stacks : list Z) (c : proc) (init sz : Z) : Prop := {
  fr_pmem : pmem s' l;
  fr_shape : pshape s';
  fr_table : ptable s' = <[0%nat := c]> (ptable s);
  fr_init : initproc s' = Some 0%nat;
  fr_proc : p_state c = RUNNABLE /\ p_pid c = nextpid s /\ p_sz c = PGSIZE /\ p_tf c = init_tf /\
    cstr (p_name c) = bytes "initcode";
  fr_code o : 0 <= o < 4096 -> mem s' (leaf (pte_of (mem s') (p_pgdir c) 0) + o) =
    if decide (o < sz) then ld8 (mem s) (init + o) else 0;
  fr_kernel e : e ∈ kmap -> kmapped (mem s') (p_pgdir c) e /\ kmapped (mem s') (kpgdir s') e;
  fr_kpgdir : aspace (mem s') (kpgdir s') l;
  fr_pages q : is_page q <-> own (mem s') (kpgdir s') q \/ q ∈ stacks \/ powns (mem s') c q \/ q ∈ l;
}.

Lemma first_ready_intro s0 s s' l l' stacks c init sz : kept s0 s -> kready is_page s l stacks -> first_done s s' l l' 0 c init sz ->
  length (ptable s) = NPROC -> Forall empty_slot (ptable s) -> init + sz <= kend -> first_ready s0 s' l' stacks c init sz.
Proof.
  intros Kt R [Pm Ht Hi Hh [Hk _] Hpg Hf Hk' Hc (P1 & P2 & P3 & P4 & P5 & P6) Hof] Hl Hall Hsz. pose proof R as [F H A M Pg St].
  assert (forall q, q ∈ l -> is_page q) as HP by (intros q; apply (free_pages_is_page _ _ _ F)).
  destruct (bystander _ _ _ _ _ Hf HP (as_free _ _ _ A) A) as (Hp & Ho & A' & _). destruct Kt as [T1 T2 _ _ T5].
  destruct (lookup_lt_is_Some_2 (ptable s) 0) as [p0 Hp0]; [rewrite Hl; unfold NPROC; lia|].
  constructor; rewrite ?Hk, <- ?T1, <- ?T2; try done.
  - constructor; rewrite Ht; [by rewrite length_insert| |];
      intros i p [(<- & <- & _)|[_ Hp']]%list_lookup_insert_Some; try done; try (by apply (Forall_lookup_1 _ _ _ _ Hall) in Hp' as (_ & _ & ? & ?)).
    rewrite (Hof p0 Hp0). by apply (Forall_lookup_1 _ _ _ _ Hall) in Hp0 as (_ & _ & ? & ?).
  - intros o Ho'. rewrite Hc by done. case_decide; [|done]. unfold ld8. f_equal. apply T5. lia.
  - intros e He. split; [by apply Hk'|]. destruct e as [[[virt ps] pe] perm].
    eapply kmapped_ext; [|exact (kentries_in _ _ _ kmap_ok He)|by apply M]. intros; apply Hp.
  - eapply aspace_subset; [exact A'|]. intros q Hq. apply Hpg. by right.
  - intros q. rewrite Ho, Pg, Hpg. done.
Qed.

Lemma kinit2_userinit s l stacks init sz : kready low_page s l stacks -> length (ptable s) = NPROC -> Forall empty_slot (ptable s) ->
  root_found (icache s) -> 0 <= sz < 4096 -> init + sz <= kend ->
  exists s1 s2 l' c, kinit2 low_end (P2V PHYSTOP) s = Ret tt s1 /\ userinit init sz s1 = Ret tt s2 /\
    first_ready s s2 l' stacks c init sz /\ held s2 = [] /\ ncpu s2 = ncpu s.
Proof.
  intros R Hl Hall Hroot Hsz Hi. destruct (kinit2_ready s l stacks R) as (s1 & l1 & R1 & K1 & T1 & Hl1). pose proof T1 as [E1 E2 E3 E4 _].
  destruct (ptable s) as [|p0 pt] eqn:Ept; [discriminate Hl|]. apply Forall_cons_1 in Hall as Hall'. destruct Hall' as [(Hu & _ & _ & Hn) _].
  destruct (userinit_spec s1 l1 0 p0 init sz) as (s2 & l2 & c & R2 & F2);
    [apply pmem_empty; [apply K1|by rewrite E1]|apply K1|exact Hl1|rewrite E1; cbn; unfold unused; by rewrite Hu|by rewrite E1
    |exact Hn|by rewrite E3|exact Hsz|intros x q Hx [_ ?]; lia|].
  exists s1, s2, l2, c. split; [done|]. split; [done|]. split; [|split; [apply F2|rewrite (proj2 (fd_same _ _ _ _ _ _ _ _ F2)); done]].
  eapply first_ready_intro; [exact T1|exact K1|exact F2|by rewrite E1|by rewrite E1|done].
Qed.

End bootmem.

(** * [main] (main.c): from the reset state to the first process

    The steps of [main] between [kvmalloc] and [kinit2] start the devices and
    the other processors.  They are [calm]: they return, and leave the memory
    behind the kernel's link address, the process table and the locks as they
    were.  [boot_run] alternates [main] on the first processor with [mpenter] on
    each other one. *)

(** The ports of the two IDE drives. *)
Definition ide_port (p : Z) : Prop := 0x1f0 <= p <= 0x1f7.

(** The drivers' state [d'] differs from [d] in the hardware, in variables that
    [kframe] does not list and in those of the devices. *)
Record dsame {W} (d d' : devst W) : Prop := {
  sm_k : kframe (dv_k d) (dv_k d');
  sm_ids : dv_apicids d' = dv_apicids d;
  sm_started : dv_started d' = dv_started d;
  sm_if : dv_if d' = dv_if d;
  sm_lapic : dv_lapic d' = dv_lapic d;
  sm_ioapic : dv_ioapic d' = dv_ioapic d;
}.

Lemma dsame_refl {W} (d : devst W) : dsame d d.
Proof. by constructor. Qed.

Lemma dsame_trans {W} (d1 d2 d3 : devst W) : dsame d1 d2 -> dsame d2 d3 -> dsame d1 d3.
Proof. intros [] []. constructor; try congruence. by eapply kframe_trans. Qed.

Lemma dsame_w {W} (d : devst W) w : dsame d (set_dv_w w d).
Proof. by constructor. Qed.

Section calm.
Context {LK : Linker} {FS : FsOps} {BI : BootImage} {W : Type} {PT : Ports W} (polls : nat).
Context (rdy : W -> Prop) (okp : Z -> Prop) (la me : Z).
Implicit Types d : devst W.

(** The machine as the processor with APIC id [me] sees it: the accesses to
    devices keep [rdy], the id register of its local APIC has [me], and an
    interprocessor interrupt is delivered when the register is read. *)
Record quiet : Prop := {
  qt_inb p w : okp p -> rdy w -> rdy (pt_inb p w).2;
  qt_outb p v w : okp p -> rdy w -> rdy (pt_outb p v w);
  qt_load a w : rdy w -> rdy (pt_load a w).2;
  qt_store a v w : rdy w -> rdy (pt_store a v w);
  qt_id w : rdy w -> Z.shiftr (u32 (pt_load (la + 4 * Lapic.ID) w).1) 24 = me;
  qt_icr w : rdy w -> Z.land (u32 (pt_load (la + 4 * Lapic.ICRLO) w).1) Lapic.DELIVS = 0;
}.

Context (Q : quiet) (ids : list Z) (i : nat) (io : Prop).
Context (Hla : la <> 0) (Hids : NoDup ids) (Hme : ids !! i = Some me).

(** The drivers' state while the kernel starts; [io] says that the I/O APIC's
    pointer is set. *)
Record up d : Prop := {
  up_rdy : rdy (dv_w d);
  up_held : held (dv_k d) = [];
  up_found : found d ids;
  up_if : dv_if d = false;
  up_lapic : dv_lapic d = la;
  up_ioapic : io -> dv_ioapic d <> 0;
}.

Lemma dsame_up d d' : up d -> dsame d d' -> rdy (dv_w d') -> up d'.
Proof.
  intros [U1 U2 [F1 F2 F3 F4] U4 U5 U6] [S1 S2 S3 S4 S5 S6] Hr. constructor; try congruence; [by rewrite (kf_held _ _ S1)| |intros Hio; rewrite S6; auto].
  constructor; rewrite ?S2; try done. by rewrite (kf_ncpu _ _ S1).
Qed.

Definition calm {A} (m : D W A) : Prop :=
  forall d, up d -> exists a d', m d = Ret a d' /\ dsame d d' /\ rdy (dv_w d').

Lemma calm_bind {A B} (m : D W A) (f : A -> D W B) : calm m -> (forall a, calm (f a)) -> calm (bind m f).
Proof.
  intros Hm Hf d U. destruct (Hm d U) as (a & d1 & R1 & S1 & H1).
  destruct (Hf a d1 (dsame_up _ _ U S1 H1)) as (b & d2 & R2 & S2 & H2).
  exists b, d2. rewrite (bind_ret_l _ _ _ _ _ R1). split; [done|]. split; [by eapply dsame_trans|done].
Qed.

Lemma calm_ret {A} (a : A) : calm (ret a).
Proof. intros d U. exists a, d. split; [done|]. split; [apply dsame_refl|apply U]. Qed.

Lemma calm_gets {A} (f : devst W -> A) : calm (gets f).
Proof. intros d U. exists (f d), d. split; [done|]. split; [apply dsame_refl|apply U]. Qed.

Lemma calm_modify f : (forall d, dsame d (f d) /\ dv_w (f d) = dv_w d) -> calm (modify f).
Proof. intros Hf d U. destruct (Hf d) as [S E]. exists tt, (f d). split; [done|]. split; [done|]. rewrite E. apply U. Qed.

Lemma calm_when b (m : D W unit) : calm m -> calm (when b m).
Proof. intros Hm. destruct b; [done|apply calm_ret]. Qed.

Lemma calm_lift {A} (m : K A) : (forall s, held s = [] -> exists a s', m s = Ret a s' /\ kframe s s') -> calm (lift_k m).
Proof.
  intros Hm d U. destruct (Hm (dv_k d) (up_held _ U)) as (a & s' & R & F). exists a, (set_dv_k s' d).
  unfold lift_k. rewrite R. split; [done|]. split; [by constructor|apply U].
Qed.

Lemma calm_inb p : okp p -> calm (inb p).
Proof.
  intros Hp d U. unfold inb. pose proof (qt_inb Q p (dv_w d) Hp (up_rdy _ U)) as Hr. destruct (pt_inb p (dv_w d)) as [v w].
  eexists _, _. split; [done|]. by split; [apply dsame_w|].
Qed.

Lemma calm_outb p v : okp p -> calm (outb p v).
Proof. intros Hp d U. eexists _, _. split; [done|]. split; [apply dsame_w|]. by apply (qt_outb Q), U. Qed.

Lemma calm_load base off : base <> 0 -> calm (mmio_load base off).
Proof.
  intros Hb d U. unfold mmio_load. rewrite (proj2 (Z.eqb_neq _ _) Hb).
  pose proof (qt_load Q (base + off) (dv_w d) (up_rdy _ U)) as Hr. destruct (pt_load _ _) as [v w].
  eexists _, _. split; [done|]. by split; [apply dsame_w|].
Qed.

Lemma calm_store base off v : base <> 0 -> calm (mmio_store base off v).
Proof.
  intros Hb d U. unfold mmio_store. rewrite (proj2 (Z.eqb_neq _ _) Hb). eexists _, _. split; [done|].
  split; [apply dsame_w|]. apply (qt_store Q), U.
Qed.

(** The bind of a variable whose value [up] gives. *)
Lemma calm_get {A B} (f : devst W -> A) (P : A -> Prop) (g : A -> D W B) :
  (forall d, up d -> P (f d)) -> (forall a, P a -> calm (g a)) -> calm (bind (gets f) g).
Proof.
  intros Hf Hg d U. destruct (Hg (f d) (Hf d U) d U) as (b & d' & R & S). by exists b, d'.
Qed.

(** ** The drivers *)

Lemma calm_lapicr idx : calm (lapicr idx).
Proof. apply (calm_get dv_lapic (eq la)); [intros d U; symmetry; apply U|]. intros ? <-. by apply calm_load. Qed.

Lemma calm_lapicw idx v : calm (lapicw idx v).
Proof.
  apply (calm_get dv_lapic (eq la)); [intros d U; symmetry; apply U|]. intros ? <-.
  apply calm_bind; [by apply calm_store|]. intros _. apply calm_bind; [apply calm_lapicr|intros _; apply calm_ret].
Qed.

Lemma calm_icr : calm (poll polls (lapicr Lapic.ICRLO) (fun r => Z.land r Lapic.DELIVS =? 0)).
Proof.
  intros d U. destruct (calm_lapicr Lapic.ICRLO d U) as (v & d1 & R & S). exists v, d1. split; [|done].
  assert (Z.land v Lapic.DELIVS = 0) as Hv.
  { revert R. unfold lapicr, bind, gets, mmio_load. rewrite (up_lapic _ U), (proj2 (Z.eqb_neq _ _) Hla).
    pose proof (qt_icr Q (dv_w d) (up_rdy _ U)) as Hi. destruct (pt_load _ _) as [x w]. by intros [= <- _]. }
  destruct polls; cbn [poll]; rewrite (bind_ret_l _ _ _ _ _ R), Hv; done.
Qed.

(** One step of a sequence. *)
Ltac cstep := first
  [ apply calm_ret | apply calm_gets | apply calm_lapicw | apply calm_lapicr | apply calm_icr
  | apply calm_when | apply calm_bind; [|intros ?] ].

Lemma calm_lapicinit : calm (lapicinit polls).
Proof.
  apply (calm_get dv_lapic (eq la)); [intros d U; symmetry; apply U|]. intros ? <-. rewrite (proj2 (Z.eqb_neq _ _) Hla).
  repeat cstep.
Qed.

Lemma mycpu_w d : up d -> exists w, mycpu d = Ret i (set_dv_w w d) /\ rdy w.
Proof.
  intros U. eexists. split; [eapply mycpu_run; [apply U|done|done|apply U|by rewrite (up_lapic _ U)|rewrite (up_lapic _ U); apply (qt_id Q), U]|].
  apply (qt_load Q), U.
Qed.

Lemma mycpu_up d : up d -> exists d', mycpu d = Ret i d' /\ dsame d d' /\ rdy (dv_w d').
Proof. intros U. destruct (mycpu_w d U) as (w & R & H). exists (set_dv_w w d). split; [done|]. by split; [apply dsame_w|]. Qed.

Lemma calm_cpuid : calm cpuid.
Proof. apply calm_bind; [|intros; apply calm_ret]. intros d U. destruct (mycpu_up d U) as (d' & R & S). by exists i, d'. Qed.

Lemma calm_seginit : calm seginit.
Proof. apply calm_bind; [apply calm_cpuid|]. intros c. by apply calm_modify. Qed.

Lemma calm_ioapicwrite reg v : io -> calm (ioapicwrite reg v).
Proof.
  intros Hio. apply (calm_get dv_ioapic (fun x => x <> 0)); [intros d U; by apply U|]. intros a Ha.
  apply calm_bind; [by apply calm_store|intros _; by apply calm_store].
Qed.

Lemma calm_ioapicread reg : io -> calm (ioapicread reg).
Proof.
  intros Hio. apply (calm_get dv_ioapic (fun x => x <> 0)); [intros d U; by apply U|]. intros a Ha.
  apply calm_bind; [by apply calm_store|intros _; by apply calm_load].
Qed.

Lemma calm_ioapicenable irq cpu : io -> calm (ioapicenable irq cpu).
Proof. intros Hio. apply calm_bind; [|intros _]; by apply calm_ioapicwrite. Qed.

Lemma calm_ioapic_disable k : io -> forall j, calm (ioapic_disable k j).
Proof.
  intros Hio. induction k as [|k IH]; intros j; cbn [ioapic_disable]; [apply calm_ret|].
  apply calm_bind; [by apply calm_ioapicwrite|intros _]. apply calm_bind; [by apply calm_ioapicwrite|intros _; apply IH].
Qed.

(** *** Output *)

(** [m] prints. *)
Definition prints (m : K unit) : Prop := forall s, exists o, m s = Ret tt (set_out o s).

Lemma prints_bind m f : prints m -> prints (f tt) -> prints (bind m f).
Proof.
  intros Hm Hf s. destruct (Hm s) as (o & R). destruct (Hf (set_out o s)) as (o' & R'). exists o'.
  by rewrite (bind_ret_l _ _ _ _ _ R), R'.
Qed.

Lemma prints_consputs cs : prints (consputs cs).
Proof.
  induction cs as [|c cs IH]; [intros s; exists (out s); by destruct s|]. apply prints_bind; [|done].
  intros s. by eexists.
Qed.

Lemma prints_char c fmt args : negb (c =? chr "%") = true -> prints (cprintf_loop fmt args) -> prints (cprintf_loop (c :: fmt) args).
Proof. intros Hc H. cbn [cprintf_loop]. rewrite Hc. apply prints_bind; [intros s; by eexists|done]. Qed.

Lemma prints_int z fmt args : prints (cprintf_loop fmt args) -> prints (cprintf_loop (chr "%" :: chr "d" :: fmt) (PInt z :: args)).
Proof. intros H. apply prints_bind; [apply prints_consputs|done]. Qed.

Lemma cprintf_out fmt args s : prints (cprintf_loop fmt args) -> held s = [] -> exists o, cprintf fmt args s = Ret tt (set_out o s).
Proof.
  intros Hp Hh. unfold cprintf. rewrite (bind_ret_l (gets _) _ _ _ _ eq_refl). destruct (cons_locking s); cbn [when].
  - rewrite (bind_ret_l _ _ _ _ _ (acquire_run LkCons s ltac:(rewrite Hh; apply not_elem_of_nil))).
    match goal with |- context [bind (cprintf_loop _ _) _ ?s1] => destruct (Hp s1) as (o & R) end. rewrite (bind_ret_l _ _ _ _ _ R).
    exists o. erewrite release_run; [|by ksimpl|ksimpl; rewrite Hh; apply not_elem_of_nil]. by destruct s.
  - rewrite (bind_ret_l (ret tt) _ _ _ _ eq_refl). destruct (Hp s) as (o & R). exists o. by rewrite (bind_ret_l _ _ _ _ _ R).
Qed.

Lemma calm_cprintf fmt args : prints (cprintf_loop fmt args) -> calm (lift_k (cprintf fmt args)).
Proof.
  intros Hp. apply calm_lift. intros s Hh. destruct (cprintf_out fmt args s Hp Hh) as (o & R). exists tt, (set_out o s).
  split; [done|]. by constructor.
Qed.

Lemma prints_plain fmt : plain fmt = true -> prints (cprintf_loop fmt []).
Proof. intros Hp s. eexists. by apply cprintf_loop_plain. Qed.

(** *** The steps of [main] *)

(** What [ioapicinit] does once the pointer is set. *)
Lemma calm_ioapic_rest : io -> calm (
  ver <- ioapicread REG_VER ;;
  let maxintr := Z.land (Z.shiftr ver 16) 0xFF in
  r <- ioapicread REG_ID ;;
  let id := Z.shiftr r 24 in
  ioapicid <- gets dv_ioapicid ;;
  when (negb (id =? ioapicid))
    (lift_k (cprintf (bytes "ioapicinit: id isn't equal to ioapicid; not a MP" ++ [10]) [])) ;;
  ioapic_disable (Z.to_nat (maxintr + 1)) 0).
Proof.
  intros Hio. repeat first [by apply calm_ioapicread|by apply calm_ioapic_disable|cstep]. by apply calm_cprintf, prints_plain.
Qed.

Lemma calm_picinit : okp 0x21 -> okp 0xA1 -> calm picinit.
Proof. intros H1 H2. apply calm_bind; [|intros _]; by apply calm_outb. Qed.

Lemma kframe_initlock lk s : held s = [] -> exists a s', initlock lk s = Ret a s' /\ kframe s s'.
Proof. intros Hh. eexists tt, _. split; [reflexivity|]. constructor; ksimpl; try done. by rewrite Hh. Qed.

Lemma calm_consoleinit : io -> calm consoleinit.
Proof.
  intros Hio. apply calm_bind; [apply calm_lift, kframe_initlock|intros _].
  apply calm_bind; [|intros _; by apply calm_ioapicenable]. apply calm_lift. intros s _. eexists tt, _. split; [reflexivity|]. by constructor.
Qed.

Definition uart_port (p : Z) : Prop := 0x3f8 <= p <= 0x3fd.

Lemma calm_uart_wait k : (forall p, uart_port p -> okp p) -> calm (uart_wait k).
Proof.
  intros Hp. induction k as [|k IH]; cbn [uart_wait]; [apply calm_ret|].
  apply calm_bind; [apply calm_inb, Hp; unfold uart_port, COM1; lia|]. intros st. destruct (_ =? 0); [|apply calm_ret].
  apply calm_bind; [apply calm_ret|intros _; apply IH].
Qed.

Lemma calm_uart_puts cs : (forall p, uart_port p -> okp p) -> calm (uart_puts cs).
Proof.
  intros Hp. induction cs as [|c cs IH]; cbn [uart_puts]; [apply calm_ret|]. apply calm_bind; [|intros _; apply IH].
  apply calm_bind; [apply calm_gets|]. intros [|]; cbn [negb]; [|apply calm_ret].
  apply calm_bind; [by apply calm_uart_wait|]. intros _. apply calm_outb, Hp. unfold uart_port, COM1. lia.
Qed.

Lemma calm_uartinit : io -> (forall p, uart_port p -> okp p) -> calm uartinit.
Proof.
  intros Hio Hp. assert (forall k, 0 <= k <= 5 -> okp (COM1 + k)) as Hk by (intros k Hk; apply Hp; unfold uart_port, COM1; lia).
  repeat first [apply calm_outb; apply Hk; lia|apply calm_inb; apply Hk; lia|by apply calm_ioapicenable|by apply calm_uart_puts
    |by apply calm_modify|apply calm_bind; [|intros ?]].
  destruct (_ =? 0xFF); [apply calm_ret|].
  repeat first [apply calm_outb; apply Hk; lia|apply calm_inb; apply Hk; lia|by apply calm_ioapicenable|by apply calm_uart_puts
    |by apply calm_modify|apply calm_bind; [|intros ?]].
Qed.

Lemma calm_tvinit : calm tvinit.
Proof.
  assert (forall k j, calm (tvinit_loop k j)) as Hl.
  { induction k as [|k IH]; intros j; cbn [tvinit_loop]; [apply calm_ret|]. apply calm_bind; [by apply calm_modify|intros _; apply IH]. }
  apply calm_bind; [apply Hl|intros _]. cbv zeta. apply calm_bind; [by apply calm_modify|intros _; apply calm_lift, kframe_initlock].
Qed.

Lemma calm_binit : calm (lift_k binit).
Proof.
  apply calm_lift. intros s Hh. unfold binit. rewrite (bind_ret_l (modify _) _ _ tt _ eq_refl), (bind_ret_l (modify _) _ _ tt _ eq_refl).
  assert (forall bs s, held s = [] -> exists a s', binit_loop bs s = Ret a s' /\ kframe s s') as Hl.
  { clear. induction bs as [|x bs IH]; intros s Hh; cbn [binit_loop]; [exists tt, s; split; [done|apply kframe_refl]|].
    unfold initsleeplock. rewrite bind_assoc, (bind_ret_l (modify _) _ _ tt _ eq_refl). cbn [sl_set buf_lock].
    erewrite (bind_ret_l (bind _ _)) by reflexivity.
    rewrite (bind_ret_l (modify _) _ _ tt _ eq_refl). match goal with |- exists _ _, _ ?s1 = _ /\ _ => destruct (IH s1) as (a & s' & R & F) end.
    - ksimpl. by rewrite Hh.
    - exists a, s'. split; [done|]. eapply kframe_trans; [|exact F]. constructor; ksimpl; try done. by rewrite Hh. }
  match goal with |- exists _ _, _ ?s1 = _ /\ _ => destruct (Hl (seq 0 NBUF) s1) as (a & s' & R & F) end; [ksimpl; by rewrite Hh|].
  exists a, s'. split; [done|]. eapply kframe_trans; [|exact F]. constructor; ksimpl; try done. by rewrite Hh.
Qed.

Lemma calm_unlock lk : calm (lift_k (modify (fun s => set_held (filter (fun l => l <> lk) (held s)) s))).
Proof. apply calm_lift. intros s Hh. eexists tt, _. split; [reflexivity|]. constructor; ksimpl; try done. by rewrite Hh. Qed.

Lemma calm_shminit : calm (lift_k shminit).
Proof. apply calm_lift. intros s Hh. eexists tt, _. split; [reflexivity|]. by constructor. Qed.

(** The rest of a sequence runs in the state behind a calm step. *)
Lemma calm_elim {A B} (m : D W A) (f : A -> D W B) d (P : outcome (devst W) B -> Prop) : calm m -> up d ->
  (forall a d', dsame d d' -> up d' -> P (f a d')) -> P (bind m f d).
Proof.
  intros Hm U HP. destruct (Hm d U) as (a & d1 & R & S & H). rewrite (bind_ret_l _ _ _ _ _ R). apply HP; [done|by eapply dsame_up].
Qed.

(** *** The start of a processor *)

Lemma up_w d w : up d -> rdy w -> up (set_dv_w w d).
Proof. intros U Hw. eapply dsame_up; [exact U|apply dsame_w|done]. Qed.

Lemma mpmain_run d : up d -> exists o w, rdy w /\
  mpmain d = Ret tt (set_dv_started (<[i := 1]> (dv_started d)) (set_dv_w w (set_dv_k (set_out o (dv_k d)) d))).
Proof.
  intros U. unfold mpmain, cpuid. destruct (mycpu_w d U) as (w1 & R1 & H1). pose proof (up_w d w1 U H1) as U1.
  rewrite bind_assoc, (bind_ret_l _ _ _ _ _ R1), (bind_ret_l (ret _) _ _ _ _ eq_refl).
  destruct (mycpu_w _ U1) as (w2 & R2 & H2). rewrite bind_assoc, (bind_ret_l _ _ _ _ _ R2), (bind_ret_l (ret _) _ _ _ _ eq_refl).
  change (set_dv_w w2 (set_dv_w w1 d)) with (set_dv_w w2 d).
  destruct (cprintf_out (bytes "cpu%d: starting %d" ++ [10]) [PInt (Z.of_nat i); PInt (Z.of_nat i)] (dv_k d)) as (o & Ro); [|apply U|].
  { cbn [bytes app]. repeat first [apply prints_char; [reflexivity|]|apply prints_int]. by apply prints_plain. }
  set (d3 := set_dv_k (set_out o (dv_k d)) (set_dv_w w2 d)).
  rewrite (bind_ret_l _ _ _ tt d3) by (unfold lift_k; cbn [dv_k set_dv_w]; by rewrite Ro).
  assert (up d3) as U3 by (destruct (up_w d w2 U H2) as [? ? [] ? ? ?]; by constructor).
  destruct (mycpu_w _ U3) as (w4 & R4 & H4). exists o, w4. split; [done|].
  rewrite (bind_ret_l idtinit _ _ tt d3 eq_refl), (bind_ret_l _ _ _ _ _ R4). done.
Qed.

Lemma mpenter_run d : up d ->
  exists d', dsame d d' /\ rdy (dv_w d') /\ mpenter polls d = Ret tt (set_dv_started (<[i := 1]> (dv_started d')) d').
Proof.
  intros U. unfold mpenter.
  apply (calm_elim _ _ d); [apply calm_lift|done|]. { intros s _. eexists tt, _. split; [reflexivity|]. by constructor. }
  intros [] d1 S1 U1. apply (calm_elim _ _ d1); [apply calm_seginit|done|]. intros [] d2 S2 U2.
  apply (calm_elim _ _ d2); [apply calm_lapicinit|done|]. intros [] d3 S3 U3.
  destruct (mpmain_run d3 U3) as (o & w & H4 & R4). eexists. split; [|split; [|exact R4]]; [|done].
  do 3 (eapply dsame_trans; [eassumption|]). by constructor.
Qed.

(** Stores below the kernel's link address. *)
Lemma calm_low (f : memory -> memory) : (forall m x, KERNLINK <= x -> f m x = m x) -> calm (lift_k (upd_mem f)).
Proof. intros Hf. apply calm_lift. intros s _. eexists tt, _. split; [reflexivity|]. constructor; ksimpl; try done. intros x Hx. by apply Hf. Qed.

Lemma calm_wrv j v : 0 <= j <= 1 -> calm (set_wrv j v).
Proof.
  intros Hj. apply calm_low. intros m x Hx. unfold le16. cbn [st_bytes].
  change (P2V (Z.lor (Z.shiftl 64 4) 103)) with (KERNBASE + 0x467). unfold KERNLINK, EXTMEM, KERNBASE in *. by rewrite !st8_other by lia.
Qed.

Lemma calm_lapicstartap apicid addr : okp 0x70 -> okp 0x71 -> calm (lapicstartap apicid addr).
Proof.
  intros H1 H2. unfold lapicstartap. cbv zeta.
  repeat first [apply calm_outb; assumption|apply calm_wrv; lia|cstep].
Qed.

(** [start_cpu] gives the first free page to the processor. *)
Lemma start_cpu_run c d P p l stacks : okp 0x70 -> okp 0x71 -> up d -> kready P (dv_k d) (p :: l) stacks ->
  exists d', start_cpu c d = Ret tt d' /\ dsame (set_dv_k (set_freelist (freelist (dv_k d')) (dv_k d)) d) d' /\ up d' /\
    kready P (dv_k d') l (p :: stacks).
Proof.
  intros H1 H2 U R. destruct (kready_kalloc P (dv_k d) p l stacks R) as (f & Rk & R1). unfold start_cpu.
  set (d0 := set_dv_k (set_freelist f (dv_k d)) d).
  assert (lift_k kalloc d = Ret p d0) as R0 by (unfold lift_k; by rewrite Rk). rewrite (bind_ret_l _ _ _ _ _ R0).
  assert (up d0) as U0 by (destruct U as [? ? [] ? ? ?]; by constructor).
  apply (calm_elim _ _ d0); [|done|].
  { apply calm_lift. intros s _. eexists tt, _. split; [reflexivity|]. constructor; ksimpl; try done. intros x Hx.
    change ap_code with (KERNBASE + 0x7000). unfold KERNLINK, EXTMEM, KERNBASE in *. by rewrite !st32_other by lia. }
  intros [] d1 S1 U1. apply (calm_elim _ _ d1); [apply calm_gets|done|]. intros a d2 S2 U2.
  destruct (calm_lapicstartap a (V2P ap_code) H1 H2 d2 U2) as ([] & d3 & R3 & S3 & H3). exists d3. split; [done|].
  assert (dsame d0 d3) as S by (do 2 (eapply dsame_trans; [eassumption|]); done).
  assert (freelist (dv_k d3) = f) as -> by (by rewrite (kf_free _ _ (sm_k _ _ S))).
  split; [done|]. split; [by eapply dsame_up|]. eapply kready_frame; [exact R1|apply S].
Qed.

End calm.

(** ** The tables of the BIOS, read in a memory that agrees with them *)

Section tables.
Context (m m' : memory) (B : Z) (Hm : forall x, x < B -> m' x = m x).

Lemma sum_ext a n : a + n <= B -> sum m' a n = sum m a n.
Proof.
  intros Ha. unfold sum. f_equal. assert (a + Z.of_nat (Z.to_nat n) <= B \/ Z.to_nat n = 0%nat) as H by lia. clear Ha.
  generalize 0. revert a H. induction (Z.to_nat n) as [|k IH]; intros a H acc; [done|]. cbn [sum_loop]. replace (ld8 m' a) with (ld8 m a) by (unfold ld8; by rewrite Hm by lia).
  apply IH. lia.
Qed.

Lemma signature_ext a s : a + 4 <= B -> has_signature m' a s = has_signature m a s.
Proof. intros Ha. unfold has_signature. by rewrite (ld_bytes_ext m m') by (intros x Hx; apply Hm; lia). Qed.

Lemma mpsearch_loop_ext k p e : e + 16 <= B -> mpsearch_loop k m' p e = mpsearch_loop k m p e.
Proof.
  intros He. revert p. induction k as [|k IH]; intros p; [done|]. cbn [mpsearch_loop]. destruct (p <? e) eqn:E; [|done]. bool_prop.
  rewrite signature_ext, sum_ext by (unfold sizeof_mp; lia). by rewrite IH.
Qed.

Lemma mp_table_ext es : forall p e, e + 2 <= B -> mp_table m p e es -> mp_table m' p e es.
Proof.
  induction es as [|x es IH]; intros p e He Ht; [done|]. pose proof (mp_table_le _ _ _ _ Ht) as Hle. cbn [length] in Hle.
  destruct x; cbn [mp_table] in *; destruct Ht as (H1 & H2 & Ht); unfold mpproc_apicid, mpioapic_apicno, ld8 in *; rewrite ?Hm by lia; auto.
Qed.

(** The pointer to the extended BIOS data area. *)
Definition ebda (m : memory) : Z := Z.shiftl (Z.lor (Z.shiftl (ld8 m (P2V 0x400 + 0x0F)) 8) (ld8 m (P2V 0x400 + 0x0E))) 4.

Lemma mp_config_ext mp conf es : P2V 0x800 <= B -> ebda m <> 0 -> P2V (ebda m) + 1040 <= B -> mp + 16 <= B -> conf + 0x10002 <= B ->
  mpsearch1 m (ebda m) 1024 = Some mp -> mp_config m mp conf es ->
  mp_config m' mp conf es /\ mpconf_lapicaddr m' conf = mpconf_lapicaddr m conf.
Proof.
  intros Hlow He Hebda Hmp Hconf Hs [Hc Ht]. change (P2V 0x800) with (KERNBASE + 0x800) in Hlow.
  assert (ebda m' = ebda m) as Ee by (unfold ebda, ld8; change (P2V 0x400) with (KERNBASE + 0x400); by rewrite !Hm by lia).
  assert (forall x, x < B -> ld8 m' x = ld8 m x) as H8 by (intros x Hx; unfold ld8; by rewrite Hm).
  assert (mpsearch m' = Some mp /\ mpsearch m = Some mp) as [Es' Es].
  { unfold mpsearch. fold (ebda m) (ebda m'). rewrite Ee, (proj2 (Z.eqb_neq _ _) He). cbn [negb]. rewrite Hs. split; [|done].
    unfold mpsearch1 in Hs |- *. by rewrite mpsearch_loop_ext, Hs by lia. }
  unfold mp_config, mpconfig in *. rewrite Es in Hc. rewrite Es'.
  assert (mp_physaddr m' mp = mp_physaddr m mp) as E1 by (unfold mp_physaddr, ld32; by rewrite !H8 by lia). rewrite E1.
  destruct (mp_physaddr m mp =? 0); [done|]. destruct (negb (has_signature m _ _)) eqn:Eh; [done|].
  destruct (negb _ && _) eqn:Ev; [done|]. destruct (negb (sum m _ _ =? 0)) eqn:Esum; [done|]. injection Hc as Ec. rewrite Ec in *.
  assert (0 <= mpconf_length m conf < 0x10000) as Hlen.
  { unfold mpconf_length, ld16. pose proof (ld8_range m (conf + 4)). pose proof (ld8_range m (conf + 4 + 1)). lia. }
  assert (mpconf_length m' conf = mpconf_length m conf) as E2 by (unfold mpconf_length, ld16; by rewrite !H8 by lia).
  assert (mpconf_version m' conf = mpconf_version m conf) as E3 by (unfold mpconf_version; by rewrite !H8 by lia).
  rewrite signature_ext, Eh, E3, Ev, E2, sum_ext, Esum by lia. split; [split; [done|]|].
  - apply mp_table_ext; [lia|done].
  - unfold mpconf_lapicaddr, ld32. by rewrite !H8 by lia.
Qed.
End tables.

(** What [userinit] uses of the state in which [main] starts. *)
Record kbase {LK : Linker} (s s' : kstate) : Prop := {
  kb_table : ptable s' = ptable s;
  kb_pid : nextpid s' = nextpid s;
  kb_icache : icache s' = icache s;
  kb_image x : KERNLINK <= x < kend -> mem s' x = mem s x;
}.

Lemma kbase_trans {LK : Linker} s1 s2 s3 : kbase s1 s2 -> kbase s2 s3 -> kbase s1 s3.
Proof. intros [A1 A2 A3 A4] [B1 B2 B3 B4]. constructor; try congruence. intros x Hx. by rewrite B4, A4. Qed.

Lemma kframe_base {LK : Linker} s s' : kframe s s' -> kbase s s'.
Proof. intros [? ? ? ? ? ? ? Hm]. constructor; try done. intros x Hx. apply Hm. lia. Qed.

Lemma kept_base {LK : Linker} s s' : kept s s' -> kbase s s'.
Proof. intros [? ? ? ? Hm]. constructor; try done. intros x Hx. apply Hm. lia. Qed.

Section boot.
Context {LK : Linker} {FS : FsOps} {BI : BootImage} {W : Type} (ports : nat -> Ports W) (polls : nat).

(** Processor [b] runs [main].  When it waits for another one, that one has run
    [mpenter]; [cs] are the processors it waits for, in order. *)
Fixpoint boot_run (b : nat) (cs : list nat) (o : outcome (devst W) unit) : outcome (devst W) unit :=
  match cs, o with
  | c :: cs', Block d =>
      match mpenter (PT := ports c) polls d with
      | Ret _ d' => boot_run b cs' (main_resume (PT := ports b) c d')
      | o' => o'
      end
  | _, _ => o
  end.

Context (inv : W -> Prop) (la : Z) (ids : list Z) (b : nat) (mb : Z).
Context (Hla : la <> 0) (Hids : NoDup ids) (Hb : ids !! b = Some mb).
Context (Hq : forall i me, ids !! i = Some me -> quiet (PT := ports i) inv (fun _ => True) la me).
Implicit Types d : devst W.

Definition others (c k : nat) : list nat := filter (fun j => j <> b) (seq c k).

(** The other processors from [c] on have started. *)
Record started_from (c : nat) d d' (l' stacks stacks' : list Z) (k : nat) : Prop := {
  sf_up : up inv la ids True d';
  sf_ready : kready low_page (dv_k d') l' stacks';
  sf_base : kbase (dv_k d) (dv_k d');
  sf_stacks : length stacks' = (length (others c k) + length stacks)%nat;
  sf_len : length (dv_started d') = length (dv_started d);
  sf_on j : (c <= j < c + k)%nat -> j <> b -> nth j (dv_started d') 0 = 1;
  sf_old j : (j < c)%nat -> nth j (dv_started d') 0 = nth j (dv_started d) 0;
}.

(** One other processor. *)
Lemma wait_run c d l p stacks : up inv la ids True d -> kready low_page (dv_k d) (p :: l) stacks -> c <> b -> (c < length ids)%nat ->
  (length ids <= length (dv_started d))%nat -> nth c (dv_started d) 0 = 0 ->
  exists d1 d2, (me <- mycpu (PT := ports b) ;; (if (c =? me)%nat then ret tt else start_cpu (PT := ports b) c ;; wait_cpu c)) d = Block d1 /\
    mpenter (PT := ports c) polls d1 = Ret tt d2 /\ up inv la ids True d2 /\ kready low_page (dv_k d2) l (p :: stacks) /\
    kbase (dv_k d) (dv_k d2) /\ dv_started d2 = <[c := 1]> (dv_started d).
Proof.
  intros U R Hcb Hc Hlen H0. set (PTb := ports b). destruct (mycpu_up (PT := PTb) inv (fun _ => True) la mb (Hq b mb Hb) ids b True Hla Hids Hb d U) as (d0 & R0 & S0 & H0').
  assert (up inv la ids True d0) as U0 by (by eapply dsame_up).
  assert (kready low_page (dv_k d0) (p :: l) stacks) as K0 by (eapply kready_frame; [exact R|apply S0]).
  destruct (start_cpu_run (PT := PTb) inv (fun _ => True) la mb (Hq b mb Hb) ids True Hla c d0 low_page p l stacks I I U0 K0) as (d1 & R1 & S1 & U1 & K1).
  destruct (lookup_lt_is_Some_2 ids c Hc) as [mc Hmc].
  destruct (mpenter_run (PT := ports c) polls inv (fun _ => True) la mc (Hq c mc Hmc) ids c True Hla Hids Hmc d1 U1) as (d2 & S2 & H2 & R2).
  assert (dv_started d1 = dv_started d) as E1 by (rewrite (sm_started _ _ S1); cbn; apply (sm_started _ _ S0)).
  exists d1, (set_dv_started (<[c := 1]> (dv_started d2)) d2). split.
  { rewrite (bind_ret_l _ _ _ _ _ R0). rewrite (proj2 (Nat.eqb_neq c b)) by done. rewrite (bind_ret_l _ _ _ _ _ R1).
    unfold wait_cpu. rewrite (bind_ret_l (gets _) _ _ _ _ eq_refl). by rewrite E1, H0. }
  split; [done|]. pose proof (dsame_up _ _ _ _ _ _ U1 S2 H2) as U2.
  split; [destruct U2 as [? ? [] ? ? ?]; by constructor|]. split; [eapply kready_frame; [exact K1|apply S2]|].
  split; [|cbn; by rewrite (sm_started _ _ S2), E1]. eapply kbase_trans; [apply kframe_base, S0|].
  eapply kbase_trans; [|apply kframe_base, S2]. apply (kbase_trans _ (set_freelist (freelist (dv_k d1)) (dv_k d0))); [by constructor|].
  apply kframe_base, S1.
Qed.

(** The loop goes on behind a processor that it need not start, and behind one
    that has started. *)
Lemma start_cpus_skip k d d0 : mycpu (PT := ports b) d = Ret b d0 ->
  (start_cpus (PT := ports b) (S k) b ;; main_after (PT := ports b)) d =
  (start_cpus (PT := ports b) k (S b) ;; main_after (PT := ports b)) d0.
Proof. intros R. cbn [start_cpus]. by rewrite bind_assoc, (bind_ret_l _ _ _ _ _ R), Nat.eqb_refl. Qed.

Lemma main_resume_run c k d : ncpu (dv_k d) = Z.of_nat (S c + k) -> nth c (dv_started d) 0 = 1 ->
  main_resume (PT := ports b) c d = (start_cpus (PT := ports b) k (S c) ;; main_after (PT := ports b)) d.
Proof.
  intros Hn Hs. unfold main_resume, startothers_resume. rewrite bind_assoc. unfold wait_cpu at 1.
  rewrite bind_assoc, (bind_ret_l (gets _) _ _ _ _ eq_refl), Hs. change (1 =? 0) with false. cbv iota. rewrite (bind_ret_l (ret tt) _ _ tt d eq_refl).
  rewrite bind_assoc, (bind_ret_l (gets _) _ _ _ _ eq_refl), Hn. by replace (Z.to_nat (Z.of_nat (S c + k)) - S c)%nat with k by lia.
Qed.

Lemma others_run k : forall c d l stacks, (c + k = length ids)%nat -> up inv la ids True d -> kready low_page (dv_k d) l stacks ->
  (k <= length l)%nat -> (length ids <= length (dv_started d))%nat -> (forall j, (c <= j)%nat -> nth j (dv_started d) 0 = 0) ->
  exists d' l' stacks', started_from c d d' l' stacks stacks' k /\
    boot_run b (others c k) ((start_cpus (PT := ports b) k c ;; main_after (PT := ports b)) d) = main_after (PT := ports b) d'.
Proof.
  induction k as [|k IH]; intros c d l stacks Hck U R Hl Hlen Hz.
  { exists d, l, stacks. split; [|done]. constructor; try done; try lia. }
  unfold others. cbn [seq]. rewrite filter_cons. destruct (decide (c <> b)) as [Hcb|Hcb%dec_stable].
  - destruct l as [|p l]; [cbn in Hl; lia|].
    destruct (wait_run c d l p stacks U R Hcb) as (d1 & d2 & Rw & Rm & U2 & K2 & B2 & E2); [lia|done|apply Hz; lia|].
    assert ((start_cpus (PT := ports b) (S k) c ;; main_after (PT := ports b)) d = Block d1) as ->.
    { cbn [start_cpus]. rewrite bind_assoc. unfold bind in Rw |- *. destruct (mycpu d); try done. by rewrite Rw. }
    cbn [boot_run]. rewrite Rm. rewrite (main_resume_run c k); [|rewrite (fd_ncpu _ _ (up_found _ _ _ _ _ U2)); lia|].
    2:{ rewrite E2. apply nth_lookup_Some, list_lookup_insert_eq. lia. }
    destruct (IH (S c) d2 l (p :: stacks)) as (d' & l' & stacks' & [F1 F2 F3 F4 F5 F6 F7] & E); [lia|done|done|cbn in Hl; lia|by rewrite E2, length_insert| |].
    { intros j Hj. rewrite E2, !nth_lookup, list_lookup_insert_ne, <- nth_lookup by lia. apply Hz. lia. }
    exists d', l', stacks'. split; [|exact E]. constructor; try done; [by eapply kbase_trans| | | |].
    + unfold others in *. cbn [seq]. rewrite filter_cons, decide_True by done. rewrite F4. cbn [length]. lia.
    + by rewrite F5, E2, length_insert.
    + intros j Hj Hjb. destruct (decide (j = c)) as [->|]; [|apply F6; [lia|done]].
      rewrite F7, E2 by lia. apply nth_lookup_Some, list_lookup_insert_eq. lia.
    + intros j Hj. rewrite F7, E2, !nth_lookup, list_lookup_insert_ne by lia. done.
  - subst c. destruct (mycpu_up (PT := ports b) inv (fun _ => True) la mb (Hq b mb Hb) ids b True Hla Hids Hb d U) as (d0 & R0 & S0 & H0).
    rewrite (start_cpus_skip k d d0 R0). destruct (IH (S b) d0 l stacks) as (d' & l' & stacks' & [F1 F2 F3 F4 F5 F6 F7] & E);
      [lia|by eapply dsame_up|eapply kready_frame; [exact R|apply S0]|lia|by rewrite (sm_started _ _ S0)| |].
    { intros j Hj. rewrite (sm_started _ _ S0). apply Hz. lia. }
    exists d', l', stacks'. split; [|exact E]. constructor; try done; [eapply kbase_trans; [apply kframe_base, S0|done]| | | |].
    + unfold others in *. cbn [seq]. rewrite filter_cons, decide_False by tauto. done.
    + by rewrite F5, (sm_started _ _ S0).
    + intros j Hj Hjb. apply F6; [lia|done].
    + intros j Hj. rewrite F7, (sm_started _ _ S0) by lia. done.
Qed.

(** ** The devices of the first processor *)

(** The disk is idle and its drive 0 is selected: the accesses to other devices
    keep it so, and the status register says ready. *)
Record idle_disk (PT : Ports W) (idle : W -> Prop) : Prop := {
  id_inb p w : ~ ide_port p -> idle w -> idle (pt_inb p w).2;
  id_outb p v w : ~ ide_port p -> idle w -> idle (pt_outb p v w);
  id_load a w : idle w -> idle (pt_load a w).2;
  id_store a v w : idle w -> idle (pt_store a v w);
  id_status w : idle w -> Z.land (u8 (pt_inb 0x1f7 w).1) (Z.lor IDE_BSY IDE_DRDY) = IDE_DRDY /\ idle (pt_inb 0x1f7 w).2;
}.

Context (idle : W -> Prop) (Hd : idle_disk (ports b) idle).

Let calm1 (w : W) : Prop := inv w /\ idle w.
Let other_port (p : Z) : Prop := ~ ide_port p.

Lemma quiet_idle : quiet (PT := ports b) calm1 other_port la mb.
Proof.
  pose proof (Hq b mb Hb) as [Q1 Q2 Q3 Q4 Q5 Q6]. pose proof Hd as [D1 D2 D3 D4 _].
  constructor; intros; repeat match goal with H : calm1 _ |- _ => destruct H end; try (split; auto); auto.
Qed.

Lemma up_weaken d : up calm1 la ids True d -> up inv la ids True d.
Proof. intros [[U _] ? ? ? ? ?]. by constructor. Qed.

Lemma ideinit_run d : up calm1 la ids True d ->
  exists d', ideinit (PT := ports b) polls d = Ret tt d' /\ dsame d d' /\ inv (dv_w d').
Proof.
  intros U. unfold ideinit. set (PTb := ports b). pose proof quiet_idle as Q1. pose proof (Hq b mb Hb) as Q2.
  apply (calm_elim calm1 la ids True _ _ d); [apply calm_unlock|done|]. intros [] d1 S1 U1.
  apply (calm_elim calm1 la ids True _ _ d1); [apply calm_gets|done|]. intros n d2 S2 U2.
  apply (calm_elim calm1 la ids True _ _ d2); [by eapply calm_ioapicenable|done|]. intros [] d3 S3 U3.
  destruct U3 as [[I3 D3] H3 F3 If3 L3 IO3]. destruct (id_status _ _ Hd (dv_w d3) D3) as [Hst Hi].
  assert (exists d4, idewait polls false d3 = Ret 0 d4 /\ dsame d3 d4 /\ inv (dv_w d4)) as (d4 & R4 & S4 & I4).
  { pose proof (qt_inb _ _ _ _ Q2 0x1f7 (dv_w d3) I I3) as I4. unfold idewait.
    destruct (pt_inb 0x1f7 (dv_w d3)) as [v w] eqn:Ew. exists (set_dv_w w d3). split; [|by split; [apply dsame_w|]].
    erewrite bind_ret_l; [reflexivity|]. cbn [fst snd] in Hst.
    destruct polls; cbn [poll]; (erewrite bind_ret_l; [|unfold inb, PTb; rewrite Ew; reflexivity]); rewrite Hst; reflexivity. }
  rewrite (bind_ret_l _ _ _ _ _ R4).
  assert (up inv la ids True d4) as U4 by (eapply dsame_up; [|exact S4|exact I4]; by constructor).
  assert (calm inv la ids True (outb (PT := PTb) 0x1f6 (Z.lor 0xe0 (Z.shiftl 1 4)) ;; ide_probe 1000 ;; outb 0x1f6 (Z.lor 0xe0 (Z.shiftl 0 4)))) as HC.
  { apply calm_bind; [by eapply calm_outb|intros _]. apply calm_bind; [|intros _; by eapply calm_outb].
    generalize 1000%nat. induction n0 as [|k IH]; cbn [ide_probe]; [apply calm_ret|].
    apply calm_bind; [by eapply calm_inb|]. intros r. destruct (negb _); [by apply calm_modify|done]. }
  destruct (HC d4 U4) as ([] & d5 & R5 & S5 & I5). exists d5. split; [done|]. split; [|done].
  do 4 (eapply dsame_trans; [eassumption|]). done.
Qed.

Lemma ioapicinit_run d : up calm1 la ids False d ->
  exists d', ioapicinit (PT := ports b) d = Ret tt d' /\ dsame (set_dv_ioapic IOAPIC d) d' /\ up calm1 la ids True d'.
Proof.
  intros [U1 U2 [F1 F2 F3 F4] U4 U5 U6]. set (PTb := ports b). set (d0 := set_dv_ioapic IOAPIC d).
  assert (up calm1 la ids True d0) as U0 by (constructor; try done; by constructor).
  destruct (calm_ioapic_rest (PT := PTb) calm1 other_port la mb quiet_idle ids True I d0 U0) as ([] & d1 & R1 & S1 & H1).
  exists d1. split; [exact R1|]. split; [done|by eapply dsame_up].
Qed.

(** The steps from [lapicinit] on. *)
Definition start_devices : D W unit :=
  let _ := ports b in
  lapicinit polls ;; seginit ;; picinit ;; ioapicinit ;; consoleinit ;; uartinit ;; lift_k pinit ;; lift_k shminit ;;
  tvinit ;; lift_k binit ;; lift_k fileinit ;; ideinit polls.

Lemma start_devices_run d : up calm1 la ids False d ->
  exists d', start_devices d = Ret tt d' /\ kframe (dv_k d) (dv_k d') /\ dv_started d' = dv_started d /\ up inv la ids True d'.
Proof.
  intros U. unfold start_devices. set (PTb := ports b). cbv zeta. pose proof quiet_idle as Q1.
  assert (forall p, uart_port p -> other_port p) as Hu by (intros p Hp; unfold other_port, ide_port, uart_port in *; lia).
  assert (forall p, p = 0x21 \/ p = 0xA1 -> other_port p) as Hpic by (intros p Hp; unfold other_port, ide_port; lia).
  apply (calm_elim calm1 la ids False _ _ d); [by eapply calm_lapicinit|done|]. intros [] d1 S1 U1.
  apply (calm_elim calm1 la ids False _ _ d1); [by eapply calm_seginit|done|]. intros [] d2 S2 U2.
  apply (calm_elim calm1 la ids False _ _ d2); [eapply calm_picinit; eauto|done|]. intros [] d3 S3 U3.
  destruct (ioapicinit_run d3 U3) as (d4 & R4 & S4 & U4). rewrite (bind_ret_l _ _ _ _ _ R4).
  apply (calm_elim calm1 la ids True _ _ d4); [by eapply calm_consoleinit|done|]. intros [] d5 S5 U5.
  apply (calm_elim calm1 la ids True _ _ d5); [by eapply calm_uartinit|done|]. intros [] d6 S6 U6.
  apply (calm_elim calm1 la ids True _ _ d6); [apply calm_unlock|done|]. intros [] d7 S7 U7.
  apply (calm_elim calm1 la ids True _ _ d7); [apply calm_shminit|done|]. intros [] d8 S8 U8.
  apply (calm_elim calm1 la ids True _ _ d8); [apply calm_tvinit|done|]. intros [] d9 S9 U9.
  apply (calm_elim calm1 la ids True _ _ d9); [apply calm_binit|done|]. intros [] d10 S10 U10.
  apply (calm_elim calm1 la ids True _ _ d10); [apply calm_unlock|done|]. intros [] d11 S11 U11.
  destruct (ideinit_run d11 U11) as (d12 & R12 & S12 & I12). exists d12. split; [done|].
  assert (dsame d d3) as Sa by (do 2 (eapply dsame_trans; [eassumption|]); done).
  assert (dsame (set_dv_ioapic IOAPIC d3) d12) as Sb by (do 8 (eapply dsame_trans; [eassumption|]); done).
  split; [eapply kframe_trans; [apply Sa|apply (sm_k _ _ Sb)]|].
  split; [rewrite (sm_started _ _ Sb); apply Sa|]. eapply dsame_up; [by apply up_weaken|exact S12|exact I12].
Qed.

(** ** [main] *)

(** The state in which the boot loader leaves the kernel: its variables are
    those of the image, and every process slot is unused. *)
Record reset d : Prop := {
  rs_free : freelist (dv_k d) = 0;
  rs_held : held (dv_k d) = [];
  rs_found : found d [];
  rs_if : dv_if d = false;
  rs_started : dv_started d = replicate (Z.to_nat NCPU) 0;
  rs_table : length (ptable (dv_k d)) = NPROC;
  rs_slots : Forall empty_slot (ptable (dv_k d));
  rs_root : root_found (icache (dv_k d));
  rs_inv : inv (dv_w d);
  rs_idle : idle (dv_w d);
}.

(** The tables of the BIOS lie outside the pages. *)
Definition bios (m : memory) (mp conf : Z) (es : list mp_entry) : Prop :=
  forall m', (forall x, x < kend -> m' x = m x) -> mp_config m' mp conf es /\ mpconf_lapicaddr m' conf = la.

Lemma kready_ncpu P s l stacks n : kready P s l stacks -> kready P (set_ncpu n s) l stacks.
Proof. intros R. apply (kready_ext P s); [done|done|apply R|apply R|done]. Qed.

Lemma main_before_run mp conf es d : reset d -> bios (mem (dv_k d)) mp conf es -> (length es <= polls)%nat ->
  ids = take (Z.to_nat NCPU) (mp_procs es) -> PGROUNDUP kend + 522 * 4096 <= low_end ->
  exists d' l, main_before (PT := ports b) polls d = Ret tt d' /\ up inv la ids True d' /\ kready low_page (dv_k d') l [] /\
    kbase (dv_k d) (dv_k d') /\ dv_started d' = dv_started d /\ (8 < length l)%nat.
Proof.
  intros [R1 R2 R3 R4 R5 R6 R7 R8 R9 R10] Hbios Hp Hes Hroom.
  destruct (kinit1_kvmalloc (dv_k d) R1 R2 Hroom) as (s1 & s2 & l & K1 & K2 & Kr & Kt & Hl).
  unfold main_before. rewrite (bind_ret_l _ _ d tt (set_dv_k s1 d)) by (unfold lift_k; fold low_end; by rewrite K1).
  set (d2 := set_dv_k s2 d). rewrite (bind_ret_l _ _ _ tt d2) by (unfold lift_k; cbn [dv_k set_dv_k]; by rewrite K2).
  destruct (Hbios (mem s2)) as [Hm Hl2]; [apply Kt|].
  assert (found d2 []) as F2 by (destruct R3 as [A1 A2 A3 A4]; constructor; try done; cbn; by rewrite (kt_ncpu _ _ Kt)).
  destruct (mpinit_run (PT := ports b) polls mp conf es d2 Hm Hp F2) as (n & l3 & w & R & F & Hw). set (d3 := set_dv_w w _) in R, F.
  rewrite (bind_ret_l _ _ _ _ _ R). rewrite <- Hes in F.
  assert (calm1 w) as Cw.
  { change (dv_w d2) with (dv_w d) in Hw. destruct Hw as [->|(v & ->)]; [by split|].
    destruct quiet_idle as [Q1 Q2 _ _ _ _]. apply Q2; [|apply Q1; [|apply Q2; [|by split]]]; unfold other_port, ide_port; lia. }
  assert (up calm1 la ids False d3) as U3 by (constructor; try done; cbn; apply Kr).
  destruct (start_devices_run d3 U3) as (d4 & R5' & F4 & S4 & U4). exists d4, l.
  split; [exact R5'|]. split; [done|]. split; [eapply kready_frame; [|exact F4]; by apply kready_ncpu|].
  split; [|done]. eapply kbase_trans; [apply kept_base, Kt|]. eapply kbase_trans; [|apply kframe_base, F4]. by constructor.
Qed.

Lemma first_ready_base s0 s s' l stacks c init sz : kbase s0 s -> KERNLINK <= init -> init + sz <= kend ->
  first_ready s s' l stacks c init sz -> first_ready s0 s' l stacks c init sz.
Proof.
  intros [B1 B2 B3 B4] Hlo Hhi [F1 F2 F3 F4 F5 F6 F7 F8]. constructor; try done; [by rewrite <- B1|by rewrite <- B2|].
  intros o Ho. rewrite F6 by done. case_decide; [|done]. unfold ld8. f_equal. apply B4. lia.
Qed.

Lemma first_ready_out s s' l stacks c init sz o : first_ready s s' l stacks c init sz -> first_ready s (set_out o s') l stacks c init sz.
Proof. intros [[] [] F3 F4 F5 F6 F7 F8]. constructor; try done; by constructor. Qed.

(** The state behind [main] of the first processor. *)
Record boots d d' (l stacks : list Z) (c : proc) : Prop := {
  bt_first : first_ready (dv_k d) (dv_k d') l stacks c initcode_start initcode_size;
  bt_ncpu : ncpu (dv_k d') = Z.of_nat (length ids);
  bt_stacks : (length stacks + 1 = length ids)%nat;
  bt_started j : (j < length ids)%nat -> nth j (dv_started d') 0 = 1;
  bt_held : held (dv_k d') = [];
}.

Lemma main_after_run d l stacks : up inv la ids True d -> kready low_page (dv_k d) l stacks -> length (ptable (dv_k d)) = NPROC ->
  Forall empty_slot (ptable (dv_k d)) -> root_found (icache (dv_k d)) -> 0 <= initcode_size < 4096 -> initcode_start + initcode_size <= kend ->
  exists d' l' c, main_after (PT := ports b) d = Ret tt d' /\ held (dv_k d') = [] /\ ncpu (dv_k d') = Z.of_nat (length ids) /\
    first_ready (dv_k d) (dv_k d') l' stacks c initcode_start initcode_size /\ dv_started d' = <[b := 1]> (dv_started d).
Proof.
  intros U R Hl Hs Hr Hsz Hi. destruct (kinit2_userinit (dv_k d) l stacks _ _ R Hl Hs Hr Hsz Hi) as (s1 & s2 & l' & c & R1 & R2 & F & Hh & Hn).
  unfold main_after. rewrite (bind_ret_l _ _ d tt (set_dv_k s1 d)) by (unfold lift_k; fold low_end; by rewrite R1).
  rewrite (bind_ret_l _ _ _ tt (set_dv_k s2 d)) by (unfold lift_k; cbn [dv_k set_dv_k]; by rewrite R2).
  destruct U as [U1 U2 [A1 A2 A3 A4] U4 U5 U6].
  assert (up inv la ids True (set_dv_k s2 d)) as U' by (constructor; try done; constructor; try done; cbn; by rewrite Hn).
  destruct (mpmain_run (PT := ports b) inv (fun _ => True) la mb (Hq b mb Hb) ids b True Hla Hids Hb _ U') as (o & w & _ & R3).
  eexists _, l', c. split; [exact R3|]. cbn [dv_k set_dv_w set_dv_k set_dv_started]. split; [done|]. split; [cbn; by rewrite Hn|].
  split; [by apply first_ready_out|done].
Qed.

Lemma others_out c k : (b < c \/ c + k <= b)%nat -> length (others c k) = k.
Proof.
  revert c. induction k as [|k IH]; intros c Hc; [done|]. unfold others in *. cbn [seq].
  rewrite filter_cons, decide_True by lia. cbn [length]. by rewrite IH by lia.
Qed.

Lemma length_others : (length (others 0 (length ids)) + 1 = length ids)%nat.
Proof.
  pose proof (lookup_lt_Some _ _ _ Hb) as Hlt. replace (length ids) with (b + S (length ids - b - 1))%nat at 1 by lia.
  unfold others. rewrite seq_app, filter_app, length_app. cbn [seq plus]. rewrite filter_cons, decide_False by tauto.
  fold (others 0 b) (others (S b) (length ids - b - 1)). rewrite !others_out by lia. lia.
Qed.

Lemma main_run mp conf es d : reset d -> bios (mem (dv_k d)) mp conf es -> (length es <= polls)%nat ->
  ids = take (Z.to_nat NCPU) (mp_procs es) -> PGROUNDUP kend + 522 * 4096 <= low_end ->
  0 <= entryother_size <= 0x1000 -> 0 <= initcode_size < 4096 -> KERNLINK <= initcode_start -> initcode_start + initcode_size <= kend ->
  exists d' l stacks c, boot_run b (others 0 (length ids)) (main (PT := ports b) polls d) = Ret tt d' /\ boots d d' l stacks c.
Proof.
  intros Rs Hbios Hp Hes Hroom Heo Hsz Hlo Hhi. pose proof Rs as [R1 R2 R3 R4 R5 R6 R7 R8 R9 R10].
  destruct (main_before_run mp conf es d Rs Hbios Hp Hes Hroom) as (d1 & l1 & M1 & U1 & K1 & B1 & S1 & Hl1).
  unfold main. rewrite (bind_ret_l _ _ _ _ _ M1). unfold startothers. rewrite bind_assoc.
  apply (calm_elim inv la ids True _ _ d1 (fun o => exists d' l stacks c, boot_run b _ o = Ret tt d' /\ boots d d' l stacks c)); [|done|].
  { apply calm_low. intros m x Hx. change ap_code with (KERNBASE + 0x7000). apply memmove_out; unfold KERNLINK, EXTMEM in *; lia. }
  intros [] d2 S2 U2. rewrite bind_assoc, (bind_ret_l (gets _) _ _ _ _ eq_refl), (fd_ncpu _ _ (up_found _ _ _ _ _ U2)), Nat2Z.id.
  assert (length ids <= 8)%nat as H8 by (rewrite Hes, length_take; change (Z.to_nat NCPU) with 8%nat; lia).
  assert (dv_started d2 = replicate 8 0) as E2 by (by rewrite (sm_started _ _ S2), S1).
  destruct (others_run (length ids) 0 d2 l1 []) as (d3 & l3 & st & [F1 F2 F3 F4 F5 F6 F7] & E); try done.
  { eapply kready_frame; [exact K1|apply S2]. } { lia. } { rewrite E2, length_replicate. lia. }
  { intros j _. rewrite E2. destruct (decide (j < 8)%nat); [apply nth_lookup_Some, lookup_replicate; done|].
    apply nth_overflow. rewrite length_replicate. lia. }
  assert (kbase (dv_k d) (dv_k d3)) as B3 by (eapply kbase_trans; [exact B1|]; eapply kbase_trans; [apply kframe_base, S2|done]).
  pose proof B3 as [B31 B32 B33 _].
  destruct (main_after_run d3 l3 st F1 F2) as (d4 & l4 & c & R4' & Hh & Hn & Hf & Hs); rewrite ?B31, ?B33; try done.
  exists d4, l4, st, c. rewrite E. split; [done|]. constructor; [by eapply first_ready_base|exact Hn| | |exact Hh].
  - pose proof length_others. rewrite F4. cbn [length]. lia.
  - intros j Hj. pose proof (lookup_lt_Some _ _ _ Hb). rewrite Hs. destruct (decide (j = b)) as [->|Hjb].
    + apply nth_lookup_Some, list_lookup_insert_eq. rewrite F5, E2, length_replicate. lia.
    + rewrite nth_lookup, list_lookup_insert_ne, <- nth_lookup by done. apply F6; [lia|done].
Qed.

End boot.
