(* ===== verification/MsgSpec.v ===== *)
(** * Message queues as lists

    The linked list of a queue represents a list of messages: [msg_append]
    adds at its end, and the search of msgrcv with its unlinking takes out the
    first message of the wanted type and keeps the order of the others. *)

From S2P Require Import Prelude Mem KState Mmu Kalloc Vm File Proc ProcMem WaitSpec Syscall Msg.

Section msgspec.
Context {LK : Linker} {FS : FsOps}.

(** ** Messages and chains of nodes *)

Record message : Type := mk_message { m_typ : Z; m_len : Z; m_data : list Z }.

Definition node_of (next : Z) (m : message) : msg_node := mk_msg_node next (m_typ m) (m_len m) (m_data m).

(** From the pointer [h] on, the nodes of [l]. *)
Fixpoint mchain (ns : gmap Z msg_node) (h : Z) (l : list (Z * message)) : Prop :=
  match l with
  | [] => h = 0
  | (a, m) :: l' => h = a /\ a <> 0 /\ exists next, ns !! a = Some (node_of next m) /\ mchain ns next l'
  end.

(** The address of the last node, [d] if there is none. *)
Definition last_addr (d : Z) (l : list (Z * message)) : Z := default d (last (l.*1)).

Record qrep (s : kstate) (q : Z) (l : list (Z * message)) : Prop := {
  qr_queue : exists x, queues s !! q = Some x /\ mchain (nodes s) (mq_head x) l /\ mq_tail x = last_addr 0 l;
  qr_nodup : NoDup l.*1;
}.

Lemma mchain_ext ns ns' h l : (forall a, a ∈ l.*1 -> ns' !! a = ns !! a) -> mchain ns h l -> mchain ns' h l.
Proof.
  revert h. induction l as [|[a m] l IH]; intros h Hext Hm; [done|]. destruct Hm as (-> & Ha & nx & Hnx & Hm).
  split; [done|]. split; [done|]. exists nx. rewrite Hext by left. split; [done|].
  apply IH; [|done]. intros b Hb. apply Hext. by right.
Qed.

Lemma mchain_head ns h l : mchain ns h l -> h = 0 <-> l = [].
Proof. destruct l as [|[a m] l]; cbn; [naive_solver|]. intros (-> & Ha & _). split; [done|by intros]. Qed.

Lemma mchain_size ns h l : mchain ns h l -> NoDup l.*1 -> (length l <= size ns)%nat.
Proof.
  intros Hm Hnd. rewrite <- (length_fmap fst), <- (size_list_to_set (C := gset Z)) by done.
  rewrite <- (size_dom (D := gset Z)). apply subseteq_size. intros a. rewrite elem_of_list_to_set.
  intros Ha. clear Hnd. revert h Hm Ha. induction l as [|[b m] l IH]; intros h Hm Ha; [by apply not_elem_of_nil in Ha|].
  destruct Hm as (_ & _ & nx & Hb & Hm). apply elem_of_cons in Ha as [->|Ha]; [by eapply elem_of_dom_2|by eapply IH].
Qed.

Lemma last_addr_cons d a m l : last_addr d ((a, m) :: l) = last_addr a l.
Proof. unfold last_addr. rewrite fmap_cons. cbn [fst]. rewrite last_cons. by destruct (last l.*1). Qed.

Lemma last_addr_in d l : last_addr d l = d \/ last_addr d l ∈ l.*1.
Proof. unfold last_addr. destruct (last l.*1) as [a|] eqn:E; [right; by apply last_Some_elem_of|by left]. Qed.

(** ** Appending *)

(** The last node gets a successor. *)
Lemma mchain_snoc ns h l n m : mchain ns h l -> l <> [] -> NoDup (l.*1 ++ [n]) -> n <> 0 ->
  ns !! n = Some (node_of 0 m) ->
  mchain (alter (set_mn_next n) (last_addr 0 l) ns) h (l ++ [(n, m)]).
Proof.
  revert h. induction l as [|[a m0] l IH]; intros h Hm Hne Hnd Hn Hns; [done|].
  destruct Hm as (-> & Ha & nx & Hnx & Hm). rewrite fmap_cons in Hnd. apply NoDup_cons in Hnd as [Hna Hnd]. cbn [fst] in *.
  rewrite last_addr_cons. destruct l as [|[b m1] l].
  - cbn in Hm. subst nx. cbn. split; [done|]. split; [done|]. exists n. rewrite lookup_alter_eq, Hnx. split; [done|].
    split; [done|]. split; [done|]. exists 0. rewrite lookup_alter_ne; [done|]. intros ->. apply Hna. apply elem_of_app. right. left.
  - rewrite last_addr_cons. rewrite last_addr_cons in IH. split; [done|]. split; [done|]. exists nx.
    rewrite lookup_alter_ne.
    + split; [done|]. by apply IH.
    + intros E. apply Hna. rewrite <- E. apply elem_of_app. left.
      destruct (last_addr_in b l) as [->|H]; [left|by right].
Qed.

Lemma run_node_at {B} n x (f : msg_node -> K B) s : nodes s !! n = Some x -> bind (node_at n) f s = f x s.
Proof. intros H. unfold bind, node_at. by rewrite H. Qed.

Lemma run_queue_at {B} q x (f : msg_queue -> K B) s : queues s !! q = Some x -> bind (queue_at q) f s = f x s.
Proof. intros H. unfold bind, queue_at. by rewrite H. Qed.

(** The state after a change of the queue [q] and of the nodes, with its
    sleepers woken up or not. *)
Definition with_queue (s : kstate) (ns : gmap Z msg_node) (qs : gmap Z msg_queue) : kstate :=
  set_queues qs (set_nodes ns s).

Lemma alter_lookup_insert {A} (f : A -> A) (k : Z) x (m : gmap Z A) : m !! k = Some x -> alter f k m = <[k := f x]> m.
Proof.
  intros H. apply map_eq. intros j. destruct (decide (j = k)) as [->|].
  - by rewrite lookup_alter_eq, lookup_insert_eq, H.
  - by rewrite lookup_alter_ne, lookup_insert_ne.
Qed.

Lemma msg_append_run s q l n m : LkQueue q ∉ held s -> LkPtable ∉ held s -> qrep s q l ->
  nodes s !! n = Some (node_of 0 m) -> (n ∉ l.*1) -> n <> 0 ->
  exists ns qs, let s' := set_ptable (wake (Some (ChQueue q)) <$> ptable s) (with_queue s ns qs) in
    msg_append q n s = Ret tt s' /\ qrep s' q (l ++ [(n, m)]).
Proof.
  intros Hl1 Hl2 [(x & Hx & Hm & Ht) Hnd] Hn Hnl Hn0.
  assert (NoDup (l ++ [(n, m)]).*1) as Hnd'.
  { rewrite fmap_app. apply NoDup_app. split; [done|]. split; [|apply NoDup_singleton].
    by intros k Hk ->%list_elem_of_singleton. }
  assert (LkPtable ∉ LkQueue q :: held s) as Hl3 by (by apply not_elem_of_cons).
  unfold msg_append. rewrite run_acquire by done. rewrite (run_queue_at q x) by (by ksimpl).
  destruct (Z.eqb_spec (mq_head x) 0) as [E|E].
  - assert (l = []) as -> by (by apply (mchain_head _ _ _ Hm)).
    exists (nodes s), (<[q := set_mq_tail n (set_mq_head n x)]> (queues s)). unfold upd_queue. krun.
    rewrite (alter_lookup_insert _ q x (queues s)) by done.
    rewrite (alter_lookup_insert _ q (set_mq_head n x)) by apply lookup_insert_eq. rewrite insert_insert_eq.
    erewrite bind_ret_l by (apply wakeup_run; by ksimpl). ksimpl.
    erewrite release_run; [|by ksimpl|done]. split.
    + unfold with_queue. knorm. by rewrite set_held_id.
    + constructor; [|done]. exists (set_mq_tail n (set_mq_head n x)). unfold with_queue. ksimpl. rewrite lookup_insert_eq.
      split; [done|]. split; [|done]. cbn. split; [done|]. split; [done|]. by exists 0.
  - assert (l <> []) as Hne by (intros ->; by apply E, (mchain_head _ _ _ Hm)).
    exists (alter (set_mn_next n) (last_addr 0 l) (nodes s)), (<[q := set_mq_tail n x]> (queues s)).
    assert (exists y, nodes s !! last_addr 0 l = Some y) as (y & Hy).
    { clear -Hm Hne. generalize 0 at 1 as d. revert Hm. generalize (mq_head x). induction l as [|[a m0] l IH]; [done|].
      intros h (-> & _ & nx & Ha & Hm) d. rewrite last_addr_cons. destruct l as [|w l]; [by exists (node_of nx m0)|by eapply IH]. }
    rewrite Ht. erewrite run_bind, run_node_at by (ksimpl; exact Hy). unfold upd_node, upd_queue. krun.
    rewrite (alter_lookup_insert _ q x (queues s)) by done.
    erewrite bind_ret_l by (apply wakeup_run; by ksimpl). ksimpl.
    erewrite release_run; [|by ksimpl|done]. split.
    + unfold with_queue. knorm. by rewrite set_held_id.
    + constructor; [|done]. exists (set_mq_tail n x). unfold with_queue. ksimpl. rewrite lookup_insert_eq.
      split; [done|]. split; [apply mchain_snoc; try done; by rewrite fmap_app in Hnd'|].
      unfold last_addr. rewrite fmap_app. change ([(n, m)].*1) with [n]. by rewrite last_snoc.
Qed.

(** ** Receiving *)

Definition wanted (typ : Z) (m : message) : bool := (typ =? 0) || (m_typ m =? typ).

(** The first wanted message: what comes before it, its node, and the rest. *)
Fixpoint pick (typ : Z) (l : list (Z * message)) : option (list (Z * message) * (Z * message) * list (Z * message)) :=
  match l with
  | [] => None
  | e :: l' =>
      if wanted typ e.2 then Some ([], e, l')
      else match pick typ l' with
           | Some (l1, e', l2) => Some (e :: l1, e', l2)
           | None => None
           end
  end.

Lemma pick_Some typ l l1 e l2 : pick typ l = Some (l1, e, l2) ->
  l = l1 ++ e :: l2 /\ wanted typ e.2 = true /\ Forall (fun e => wanted typ e.2 = false) l1.
Proof.
  revert l1. induction l as [|e0 l IH]; intros l1; [done|]. cbn [pick]. destruct (wanted typ e0.2) eqn:W.
  - intros [= <- <- <-]. by rewrite W.
  - destruct (pick typ l) as [[[k1 e'] k2]|]; [|done]. intros [= <- <- <-].
    destruct (IH k1 eq_refl) as (-> & Hw & Hf). split; [done|]. split; [done|]. by constructor.
Qed.

Lemma pick_None typ l : pick typ l = None -> Forall (fun e => wanted typ e.2 = false) l.
Proof.
  induction l as [|e l IH]; [done|]. cbn [pick]. destruct (wanted typ e.2) eqn:W; [done|].
  destruct (pick typ l) as [[[? ?] ?]|]; [done|]. intros _. constructor; [done|by apply IH].
Qed.

Lemma node_search_run typ l : forall fuel prev h s, mchain (nodes s) h l -> (length l < fuel)%nat ->
  node_search fuel typ prev h s =
  Ret (match pick typ l with Some (l1, e, l2) => Some (last_addr prev l1, e.1) | None => None end) s.
Proof.
  induction l as [|[a m] l IH]; intros fuel prev h s Hm Hf; (destruct fuel as [|fuel]; [cbn in Hf; lia|]); cbn [node_search].
  - cbn in Hm. by subst h.
  - destruct Hm as (-> & Ha & nx & Hnx & Hm). rewrite (proj2 (Z.eqb_neq _ _)) by done.
    rewrite (run_node_at _ _ _ _ Hnx). cbn [pick snd fst]. change (_ || (mn_msgtyp (node_of nx m) =? typ)) with (wanted typ m).
    destruct (wanted typ m); [done|]. change (mn_next (node_of nx m)) with nx. rewrite (IH fuel a _ _ Hm) by (cbn in Hf; lia).
    destruct (pick typ l) as [[[l1 e] l2]|]; [|done]. by rewrite last_addr_cons.
Qed.

(** A chain without the node after [l1]. *)
Lemma mchain_remove ns h l1 a m l2 : mchain ns h (l1 ++ (a, m) :: l2) -> NoDup (l1 ++ (a, m) :: l2).*1 ->
  exists next, ns !! a = Some (node_of next m) /\
    if decide (l1 = []) then mchain ns next l2
    else (exists y, ns !! last_addr 0 l1 = Some y) /\ mchain (alter (set_mn_next next) (last_addr 0 l1) ns) h (l1 ++ l2).
Proof.
  revert h. induction l1 as [|[b m0] l1 IH]; intros h Hm Hnd.
  - destruct Hm as (_ & _ & nx & Hnx & Hm). exists nx. by rewrite decide_True.
  - destruct Hm as (-> & Hb & nx & Hnx & Hm). cbn [app fmap list_fmap fst] in Hnd. apply NoDup_cons in Hnd as [Hnb Hnd].
    destruct (IH nx Hm Hnd) as (next & Hnext & Hrest). exists next. split; [done|]. rewrite decide_False by done.
    rewrite last_addr_cons. case_decide as D.
    + subst l1. cbn. split; [by eauto|]. split; [done|]. split; [done|]. exists next. rewrite lookup_alter_eq, Hnx. split; [done|].
      eapply mchain_ext; [|exact Hrest]. intros c Hc. apply lookup_alter_ne. intros ->. apply Hnb. by right.
    + destruct l1 as [|[c m1] l1]; [done|]. rewrite last_addr_cons in Hrest |- *. destruct Hrest as [Hy Hrest].
      split; [done|]. split; [done|]. split; [done|]. exists nx. rewrite lookup_alter_ne; [done|].
      intros E. apply Hnb. rewrite <- E, fmap_app. apply elem_of_app. left.
      destruct (last_addr_in c l1) as [->|H]; [left|by right].
Qed.

Lemma mchain_nonzero ns h l a : mchain ns h l -> a ∈ l.*1 -> a <> 0.
Proof.
  revert h. induction l as [|[b m] l IH]; intros h; [by intros _ ?%not_elem_of_nil|].
  intros (_ & Hb & nx & _ & Hm) [->|Ha]%elem_of_cons; [done|by eapply IH].
Qed.

Lemma last_addr_app d l1 l2 : last_addr d (l1 ++ l2) = last_addr (last_addr d l1) l2.
Proof. unfold last_addr. rewrite fmap_app, last_app. by destruct (last l2.*1), (last l1.*1). Qed.

Lemma last_addr_zero ns h l : mchain ns h l -> last_addr 0 l = 0 <-> l = [].
Proof.
  intros Hm. split; [|by intros ->]. destruct l as [|[a m] l]; [done|]. rewrite last_addr_cons. intros E.
  destruct (last_addr_in a l) as [H|H]; exfalso; (eapply mchain_nonzero; [exact Hm| |exact E]).
  - rewrite H. left.
  - by right.
Qed.

Lemma mchain_prefix ns h l1 l2 : mchain ns h (l1 ++ l2) -> last_addr 0 l1 = 0 -> l1 = [].
Proof.
  destruct l1 as [|[b m] l1]; [done|]. intros Hm E. exfalso. rewrite last_addr_cons in E.
  destruct (last_addr_in b l1) as [H|H]; (eapply mchain_nonzero; [exact Hm| |exact E]); rewrite fmap_app; apply elem_of_app; left.
  - rewrite H. left.
  - by right.
Qed.

(** The tail pointer after the removal of the node [a]. *)
Lemma tail_removed l1 a m l2 : NoDup (l1 ++ (a, m) :: l2).*1 ->
  (if a =? last_addr 0 (l1 ++ (a, m) :: l2) then last_addr 0 l1 else last_addr 0 (l1 ++ (a, m) :: l2)) =
  last_addr 0 (l1 ++ l2).
Proof.
  intros Hnd. rewrite !last_addr_app, last_addr_cons. destruct l2 as [|[b m'] l2]; [cbn; by rewrite Z.eqb_refl|].
  rewrite !last_addr_cons. destruct (Z.eqb_spec a (last_addr b l2)) as [E|]; [|done]. exfalso.
  rewrite fmap_app in Hnd. apply NoDup_app in Hnd as (_ & _ & Hnd). apply NoDup_cons in Hnd as [Hna _]. apply Hna.
  cbn [fst]. rewrite E. destruct (last_addr_in b l2) as [->|H]; [left|by right].
Qed.

Lemma msg_unlink_run s q l1 a m l2 : qrep s q (l1 ++ (a, m) :: l2) ->
  exists ns qs next, let s' := with_queue s ns qs in
    msg_unlink q (last_addr 0 l1) a s = Ret tt s' /\ qrep s' q (l1 ++ l2) /\ ns !! a = Some (node_of next m).
Proof.
  intros [(x & Hx & Hm & Ht) Hnd]. destruct (mchain_remove _ _ _ _ _ _ Hm Hnd) as (next & Ha & Hrest).
  pose proof (tail_removed l1 a m l2 Hnd) as Htl. rewrite <- Ht in Htl.
  assert (NoDup (l1 ++ l2).*1) as Hnd'.
  { rewrite fmap_app in Hnd |- *. apply NoDup_app in Hnd as (N1 & N2 & N3). apply NoDup_cons in N3 as [_ N3].
    apply NoDup_app. split; [done|]. split; [|done]. intros k Hk1 Hk2. apply (N2 k Hk1). by right. }
  unfold msg_unlink. rewrite (run_node_at _ _ _ _ Ha). change (mn_next (node_of next m)) with next.
  destruct (Z.eqb_spec (last_addr 0 l1) 0) as [E|E]; cbn [negb].
  - assert (l1 = []) as -> by (by eapply mchain_prefix). rewrite decide_True in Hrest by done. cbn [app] in *.
    set (x' := set_mq_tail (last_addr 0 l2) (set_mq_head next x)).
    exists (nodes s), (<[q := x']> (queues s)), next. unfold upd_queue. krun.
    rewrite (alter_lookup_insert _ q x) by done. erewrite run_queue_at by (ksimpl; apply lookup_insert_eq). ksimpl.
    split; [|split; [|done]].
    + unfold with_queue, x'. rewrite <- Htl. unfold when. destruct (a =? mq_tail x).
      * unfold modify. ksimpl. rewrite (alter_lookup_insert _ q (set_mq_head next x)), insert_insert_eq by apply lookup_insert_eq.
        by knorm.
      * unfold ret. by f_equal.
    + constructor; [|done]. exists x'. unfold with_queue. ksimpl. rewrite lookup_insert_eq. done.
  - assert (l1 <> []) as Hne by (by intros ->). rewrite decide_False in Hrest by done. destruct Hrest as ((y & Hy) & Hrest).
    set (x' := set_mq_tail (last_addr 0 (l1 ++ l2)) x).
    exists (alter (set_mn_next next) (last_addr 0 l1) (nodes s)), (<[q := x']> (queues s)), next.
    rewrite run_bind, (run_node_at _ _ _ _ Hy). unfold upd_node, upd_queue. krun.
    erewrite run_queue_at by (ksimpl; exact Hx). split; [|split].
    + unfold with_queue, x'. rewrite <- Htl. unfold when. destruct (a =? mq_tail x).
      * unfold modify. ksimpl. rewrite (alter_lookup_insert _ q x) by done. by knorm.
      * unfold ret. f_equal. knorm. rewrite insert_id; [by destruct s|]. rewrite Hx. f_equal. by destruct x.
    + constructor; [|done]. exists x'. unfold with_queue. ksimpl. rewrite lookup_insert_eq. done.
    + rewrite lookup_alter_ne; [done|]. intros Ea. rewrite fmap_app in Hnd. apply NoDup_app in Hnd as (_ & N2 & _).
      destruct (last_addr_in 0 l1) as [H|H]; [done|]. apply (N2 _ H). rewrite Ea. left.
Qed.

(** One round of msgrcv: the first wanted message leaves the queue and is
    delivered, or the receiver gives up or goes to sleep. *)
Lemma msgrcv_round_run s q l me p msgsz typ flg : held s = [LkQueue q] -> cur s = Some me -> ptable s !! me = Some p ->
  qrep s q l ->
  match pick typ l with
  | Some (l1, (a, m), l2) => exists s' next, qrep s' q (l1 ++ l2) /\ nodes s' !! a = Some (node_of next m) /\
      s' = set_held [] (with_queue s (nodes s') (queues s')) /\
      msgrcv_round q msgsz typ flg s = msg_deliver a msgsz s'
  | None => msgrcv_round q msgsz typ flg s =
      if negb (Z.land flg IPC_NOWAIT =? 0) || negb (p_killed p =? 0) then Ret (-1) (set_held [] s)
      else Block (asleep me (ChQueue q) (set_held [LkPtable] s))
  end.
Proof.
  intros Hh Hc Hp Hq. pose proof Hq as [(x & Hx & Hm & Ht) Hnd]. unfold msgrcv_round.
  rewrite (run_queue_at _ _ _ _ Hx). krun.
  erewrite bind_ret_l by (apply (node_search_run typ l); [done|unfold node_fuel; pose proof (mchain_size _ _ _ Hm Hnd); lia]).
  destruct (pick typ l) as [[[l1 [a m]] l2]|] eqn:Epk.
  - destruct (pick_Some _ _ _ _ _ Epk) as (-> & _ & _).
    destruct (msg_unlink_run s q l1 a m l2 Hq) as (ns & qs & next & Hu & Hq' & Ha). cbn [fst].
    rewrite (bind_ret_l _ _ _ _ _ Hu). exists (set_held [] (with_queue s ns qs)), next. split; [by destruct Hq'; constructor|].
    split; [done|]. split; [done|]. by erewrite run_release; [|exact Hh|apply not_elem_of_nil].
  - destruct (negb (Z.land flg IPC_NOWAIT =? 0)); cbn [orb].
    { by erewrite run_release; [|exact Hh|apply not_elem_of_nil]. }
    rewrite (run_curproc _ _ _ Hc), (run_proc_at _ _ _ _ Hp). destruct (negb (p_killed p =? 0)).
    + by erewrite run_release; [|exact Hh|apply not_elem_of_nil].
    + by rewrite (sleep_run me p).
Qed.

End msgspec.
