(* ===== verification/MutexProto.v ===== *)
(** * Mutual exclusion, and no lost wakeup

    First what each system call on mutexes does.  Then the system of the
    processes that use them, on one processor, as a step relation: the steps
    are the critical sections of the handlers and the context switches between
    them, so a process can be preempted between the release of a mutex and the
    wakeup.  In every reachable state a mutex has at most one holder, a locked
    mutex has one, and a process sleeps on a mutex only while it is locked or
    a wakeup is on its way. *)

From stdpp Require Import relations functions.
From S2P Require Import Prelude CString Mem KState Mmu Console Kalloc Vm AddrSpace VmSpec VmGrow VmFork.
From S2P Require Import File Proc Syscall Sysproc ProcMem WaitSpec.

Section mutexspec.
Context {LK : Linker} {FS : FsOps}.

(** ** The handlers *)

Lemma mutex_table_init_run s : held s = [] ->
  mutex_table_init s = Ret tt (set_mutex_table_inited true s).
Proof.
  intros Hh. unfold mutex_table_init. krun. destruct (mutex_table_inited s) eqn:Hi; cbn [negb]; unfold when.
  - unfold ret. f_equal. rewrite <- Hi. by destruct s.
  - krun. rewrite Hh. change (filter _ []) with (@nil lockid). by rewrite set_held_id.
Qed.

Lemma mutex_at_run id m s : user_mutexes s !! id = Some m -> mutex_at id s = Ret m s.
Proof. intros H. unfold mutex_at. by rewrite H. Qed.

Lemma mutex_lock_round_run s id m me p :
  held s = [LkMutexTable] -> cur s = Some me -> ptable s !! me = Some p -> user_mutexes s !! id = Some m ->
  mutex_lock_round id s =
  if mx_locked m then Block (asleep me (ChMutex id) (set_held [LkPtable] s))
  else Ret 0 (set_held [] (set_user_mutexes
         (<[id := set_mx_pid (p_pid p) (set_mx_locked true m)]> (user_mutexes s)) s)).
Proof.
  intros Hh Hc Hp Hm. pose proof (lookup_lt_Some _ _ _ Hm) as Hlt. unfold mutex_lock_round.
  erewrite bind_ret_l by (by apply mutex_at_run). destruct (mx_locked m).
  - by apply (sleep_run me p).
  - unfold upd_mutex. krun. rewrite (run_curproc me) by done. krun.
    erewrite run_proc_at by (ksimpl; exact Hp). krun.
    rewrite (alter_eq_insert _ id m (user_mutexes s)), alter_insert_eq by done.
    erewrite run_release; [|ksimpl; exact Hh|apply not_elem_of_nil]. by knorm.
Qed.

Lemma mutex_lock_run s id m me p :
  held s = [] -> cur s = Some me -> ptable s !! me = Some p ->
  0 <= id < MAX_MUTEXES -> user_mutexes s !! Z.to_nat id = Some m ->
  let s0 := set_mutex_table_inited true s in
  mutex_lock id s =
  if negb (mx_allocated m) then Ret (-1) s0
  else if mx_locked m then Block (asleep me (ChMutex (Z.to_nat id)) (set_held [LkPtable] s0))
  else Ret 0 (set_user_mutexes
         (<[Z.to_nat id := set_mx_pid (p_pid p) (set_mx_locked true m)]> (user_mutexes s)) s0).
Proof.
  intros Hh Hc Hp Hid Hm s0. unfold mutex_lock. zbool.
  erewrite bind_ret_l by (by apply mutex_table_init_run). fold s0.
  rewrite run_acquire by (unfold s0; ksimpl; rewrite Hh; apply not_elem_of_nil).
  erewrite bind_ret_l by (apply mutex_at_run; ksimpl; exact Hm).
  destruct (mx_allocated m); cbn [negb].
  - rewrite (mutex_lock_round_run _ _ m me p); [|unfold s0; ksimpl; by rewrite ?Hh..].
    destruct (mx_locked m).
    + by unfold s0, asleep; knorm.
    + unfold s0. knorm. by rewrite set_held_id by (ksimpl; exact Hh).
  - erewrite run_release; [|by ksimpl|unfold s0; ksimpl; rewrite Hh; apply not_elem_of_nil].
    unfold ret, s0. knorm. by rewrite set_held_id.
Qed.

Lemma mutex_unlock_release_run s id m me p :
  held s = [] -> cur s = Some me -> ptable s !! me = Some p -> user_mutexes s !! id = Some m ->
  mutex_unlock_release id s =
  if mx_allocated m && mx_locked m && (mx_pid m =? p_pid p)
  then Ret true (set_user_mutexes (<[id := set_mx_pid 0 (set_mx_locked false m)]> (user_mutexes s)) s)
  else Ret false s.
Proof.
  intros Hh Hc Hp Hm. pose proof (lookup_lt_Some _ _ _ Hm) as Hlt. unfold mutex_unlock_release.
  rewrite run_acquire by (rewrite Hh; apply not_elem_of_nil).
  erewrite bind_ret_l by (apply mutex_at_run; ksimpl; exact Hm). rewrite (run_curproc me) by done.
  erewrite run_proc_at by (ksimpl; exact Hp).
  destruct (mx_allocated m && mx_locked m && (mx_pid m =? p_pid p)) eqn:E.
  - replace (_ || _) with false
      by (destruct (mx_allocated m), (mx_locked m), (mx_pid m =? p_pid p); done).
    unfold upd_mutex. krun. rewrite (alter_eq_insert _ id m (user_mutexes s)), alter_insert_eq by done.
    erewrite run_release; [|by ksimpl|rewrite Hh; apply not_elem_of_nil].
    unfold ret. knorm. by rewrite set_held_id by (by ksimpl).
  - replace (_ || _) with true
      by (destruct (mx_allocated m), (mx_locked m), (mx_pid m =? p_pid p); done).
    erewrite run_release; [|by ksimpl|rewrite Hh; apply not_elem_of_nil].
    unfold ret. knorm. by rewrite set_held_id.
Qed.

Lemma mutex_create_run s : held s = [] ->
  let s0 := set_mutex_table_inited true s in
  sys_mutex_create s =
  match find_index (fun m => negb (mx_allocated m)) (user_mutexes s) with
  | Some i => Ret (Z.of_nat i) (set_user_mutexes (<[i := mk_umutex true false 0]> (user_mutexes s)) s0)
  | None => Ret (-1) s0
  end.
Proof.
  intros Hh s0. unfold sys_mutex_create. erewrite bind_ret_l by (by apply mutex_table_init_run). fold s0.
  rewrite run_acquire by (unfold s0; ksimpl; rewrite Hh; apply not_elem_of_nil). krun.
  change (user_mutexes s0) with (user_mutexes s).
  destruct (find_index (fun m => negb (mx_allocated m)) (user_mutexes s)) as [i|] eqn:Hf.
  - pose proof Hf as [(m & Hm & _) _]%find_index_Some. pose proof (lookup_lt_Some _ _ _ Hm) as Hlt.
    unfold upd_mutex. krun. change (user_mutexes s0) with (user_mutexes s).
    rewrite (alter_eq_insert _ i m (user_mutexes s)), !alter_insert_eq by done.
    erewrite run_release; [|by ksimpl|unfold s0; ksimpl; rewrite Hh; apply not_elem_of_nil].
    unfold ret, s0. knorm. rewrite set_held_id by (by ksimpl). by destruct m.
  - erewrite run_release; [|by ksimpl|unfold s0; ksimpl; rewrite Hh; apply not_elem_of_nil].
    unfold ret, s0. knorm. by rewrite set_held_id.
Qed.

End mutexspec.

(** * The mutex protocol: mutual exclusion, no lost wakeup

    The processes that use the mutexes, on one processor, as a step relation.
    The steps are the critical sections of the handlers of [Sysproc] and the
    context switches between them, so a process can be preempted between the
    release of a mutex and the wakeup, and killed while it waits.  In every
    reachable state a mutex has at most one holder, a locked mutex has one,
    and a process sleeps on a mutex only while the mutex is locked or a
    wakeup is on its way. *)

Section mutexproto.
Context {LK : Linker} {FS : FsOps}.

(** ** The system *)

(** Where a process is: outside the calls, in the loop of mutex_lock, or
    between the two halves of mutex_unlock. *)
Inductive activity : Type := User | Waiting (id : nat) | Waking (id : nat).

(** [holds]: the process has returned from mutex_lock and not yet from the
    critical section of mutex_unlock. *)
Record config : Type := mk_config {
  c_st : kstate;
  c_act : nat -> activity;
  c_holds : gset (nat * nat);
}.

Inductive mstep : config -> config -> Prop :=
  | step_create s a h me r s' :
      held s = [] -> cur s = Some me -> a me = User -> sys_mutex_create s = Ret r s' ->
      mstep (mk_config s a h) (mk_config s' a h)
  | step_lock s a h me id r s' :
      held s = [] -> cur s = Some me -> a me = User -> mutex_lock id s = Ret r s' ->
      mstep (mk_config s a h)
        (mk_config s' a (if r =? 0 then {[ (me, Z.to_nat id) ]} ∪ h else h))
  | step_lock_sleep s a h me id s' :
      held s = [] -> cur s = Some me -> a me = User -> mutex_lock id s = Block s' ->
      mstep (mk_config s a h) (mk_config s' (<[me := Waiting (Z.to_nat id)]> a) h)
  | step_unlock s a h me id s' :
      held s = [] -> cur s = Some me -> a me = User -> 0 <= id < MAX_MUTEXES ->
      (mutex_table_init ;; mutex_unlock_release (Z.to_nat id)) s = Ret true s' ->
      mstep (mk_config s a h)
        (mk_config s' (<[me := Waking (Z.to_nat id)]> a) (h ∖ {[ (me, Z.to_nat id) ]}))
  | step_unlock_refused s a h me id s' :
      held s = [] -> cur s = Some me -> a me = User -> 0 <= id < MAX_MUTEXES ->
      (mutex_table_init ;; mutex_unlock_release (Z.to_nat id)) s = Ret false s' ->
      mstep (mk_config s a h) (mk_config s' a h)
  | step_wake s a h me id s' :
      held s = [] -> cur s = Some me -> a me = Waking id -> mutex_unlock_wake id s = Ret tt s' ->
      mstep (mk_config s a h) (mk_config s' (<[me := User]> a) h)
  | step_kill s a h me pid r s' :
      held s = [] -> cur s = Some me -> a me = User -> kill pid s = Ret r s' ->
      mstep (mk_config s a h) (mk_config s' a h)
  | step_yield s a h me s' :
      held s = [] -> cur s = Some me -> yield s = Block s' ->
      mstep (mk_config s a h) (mk_config s' a h)
  | step_dispatch s a h j p s1 s' :
      held s = [LkPtable] -> ptable s !! j = Some p -> p_state p = RUNNABLE ->
      (forall id, a j <> Waiting id) ->
      (scheduler_back ;; scheduler_switch j) s = Ret tt s1 -> yield_resume s1 = Ret tt s' ->
      mstep (mk_config s a h) (mk_config s' a h)
  | step_retry s a h j p id s1 r s' :
      held s = [LkPtable] -> ptable s !! j = Some p -> p_state p = RUNNABLE -> a j = Waiting id ->
      (scheduler_back ;; scheduler_switch j) s = Ret tt s1 -> mutex_lock_resume id s1 = Ret r s' ->
      mstep (mk_config s a h) (mk_config s' (<[j := User]> a) ({[ (j, id) ]} ∪ h))
  | step_retry_sleep s a h j p id s1 s' :
      held s = [LkPtable] -> ptable s !! j = Some p -> p_state p = RUNNABLE -> a j = Waiting id ->
      (scheduler_back ;; scheduler_switch j) s = Ret tt s1 -> mutex_lock_resume id s1 = Block s' ->
      mstep (mk_config s a h) (mk_config s' a h).

(** ** The invariant *)

(** The wakeup of [id] is still to come. *)
Definition pending (ms : list umutex) (a : nat -> activity) (id : nat) : Prop :=
  (exists m, ms !! id = Some m /\ mx_locked m = true) \/ exists j, a j = Waking id.

(** The part of the state the protocol is about. *)
Record mview (pt : list proc) (ms : list umutex) (a : nat -> activity) (h : gset (nat * nat)) : Prop := {
  mv_len : length ms = Z.to_nat MAX_MUTEXES;
  mv_pids i j p q : pt !! i = Some p -> pt !! j = Some q -> p_state p <> UNUSED -> p_state q <> UNUSED ->
    p_pid p = p_pid q -> i = j;
  mv_holds i id : (i, id) ∈ h -> exists p m, pt !! i = Some p /\ p_state p <> UNUSED /\
    ms !! id = Some m /\ mx_allocated m = true /\ mx_locked m = true /\ mx_pid m = p_pid p;
  mv_locked id m : ms !! id = Some m -> mx_locked m = true -> exists i, (i, id) ∈ h;
  mv_sleep i p : pt !! i = Some p -> p_state p = SLEEPING ->
    exists id, a i = Waiting id /\ p_chan p = Some (ChMutex id) /\ pending ms a id;
  mv_wait i id : a i = Waiting id -> exists m, ms !! id = Some m /\ mx_allocated m = true;
  mv_live i : a i <> User -> exists p, pt !! i = Some p /\
    (p_state p = RUNNABLE \/ p_state p = RUNNING \/ p_state p = SLEEPING);
}.

Record minv (c : config) : Prop := {
  mi_view : mview (ptable (c_st c)) (user_mutexes (c_st c)) (c_act c) (c_holds c);
  mi_cur : exists me p, cur (c_st c) = Some me /\ ptable (c_st c) !! me = Some p /\
    p_state p <> UNUSED /\ (held (c_st c) = [] /\ p_state p = RUNNING \/ held (c_st c) = [LkPtable]);
}.

(** No call is in progress, nothing is locked. *)
Record minit (c : config) : Prop := {
  mn_act i : c_act c i = User;
  mn_holds : c_holds c = ∅;
  mn_mutex id m : user_mutexes (c_st c) !! id = Some m -> mx_locked m = false;
  mn_len : length (user_mutexes (c_st c)) = Z.to_nat MAX_MUTEXES;
  mn_awake i p : ptable (c_st c) !! i = Some p -> p_state p <> SLEEPING;
  mn_pids i j p q : ptable (c_st c) !! i = Some p -> ptable (c_st c) !! j = Some q ->
    p_state p <> UNUSED -> p_state q <> UNUSED -> p_pid p = p_pid q -> i = j;
  mn_cur : exists me p, cur (c_st c) = Some me /\ ptable (c_st c) !! me = Some p /\
    p_state p = RUNNING /\ held (c_st c) = [];
}.

Lemma minit_inv c : minit c -> minv c.
Proof.
  intros [Ha Hh Hm Hl Hs Hp (me & p & Hc & Hme & Hr & Hd)]. constructor.
  - constructor; [done|exact Hp| | | | |]; rewrite ?Hh.
    + intros i id Hin. set_solver.
    + intros id m Hid Hlk. by rewrite (Hm id m) in Hlk.
    + intros i q Hi Hq. by eapply Hs in Hi.
    + intros i id. by rewrite Ha.
    + intros i. by rewrite Ha.
  - exists me, p. rewrite Hr, Hd. naive_solver.
Qed.

(** ** Updates of one process *)

(** [p'] in the place of [p]: same process, perhaps in another state. *)
Definition same_proc (p p' : proc) : Prop :=
  p_pid p' = p_pid p /\ (p_state p' = UNUSED <-> p_state p = UNUSED).

Lemma mview_procs pt pt' ms a h :
  mview pt ms a h ->
  (forall i p', pt' !! i = Some p' -> exists p, pt !! i = Some p /\ same_proc p p' /\
     (p_state p' = SLEEPING -> (p_state p = SLEEPING /\ p_chan p' = p_chan p) \/
        exists id, a i = Waiting id /\ p_chan p' = Some (ChMutex id) /\ pending ms a id) /\
     (a i <> User -> p_state p' = RUNNABLE \/ p_state p' = RUNNING \/ p_state p' = SLEEPING)) ->
  length pt' = length pt ->
  mview pt' ms a h.
Proof.
  intros [Hlen Hpids Hholds Hlk Hsl Hw Hlive] Hpt Hl.
  assert (forall i p, pt !! i = Some p -> exists p', pt' !! i = Some p') as Hback.
  { intros i p Hi%lookup_lt_Some. rewrite <- Hl in Hi. by apply lookup_lt_is_Some_2 in Hi as [p' ?]; eauto. }
  constructor; [done| | |exact Hlk| |exact Hw|].
  - intros i j p' q' Hi Hj Hp Hq E. destruct (Hpt i p' Hi) as (p & Hpi & [Ep Up] & _).
    destruct (Hpt j q' Hj) as (q & Hqj & [Eq Uq] & _). eapply Hpids; [done|done|by rewrite <- Up|by rewrite <- Uq|congruence].
  - intros i id (p & m & Hi & Hu & Hid & Hal & Hlo & Hpid)%Hholds.
    destruct (Hback _ _ Hi) as [p' Hi']. destruct (Hpt _ _ Hi') as (p2 & Hi2 & [E U] & _).
    simplify_eq. exists p', m. rewrite E, U. done.
  - intros i p' Hi Hs. destruct (Hpt i p' Hi) as (p & Hpi & _ & Hsl' & _).
    destruct (Hsl' Hs) as [[Hsp Ec]|?]; [|done]. rewrite Ec. by apply (Hsl i p).
  - intros i Ha. destruct (Hlive i Ha) as (p & Hi & _). destruct (Hback _ _ Hi) as [p' Hi'].
    exists p'. split; [done|]. destruct (Hpt i p' Hi') as (_ & _ & _ & _ & Hlv). by apply Hlv.
Qed.

(** The process in slot [k] changes its state, but does not fall asleep. *)
Lemma mview_state pt ms a h k p p' :
  mview pt ms a h -> pt !! k = Some p -> same_proc p p' -> p_state p' <> SLEEPING ->
  (a k <> User -> p_state p' = RUNNABLE \/ p_state p' = RUNNING) ->
  mview (<[k := p']> pt) ms a h.
Proof.
  intros Hv Hk Hsame Hns Hl. eapply mview_procs; [exact Hv| |by rewrite length_insert].
  intros i q Hi. apply list_lookup_insert_Some in Hi as [(-> & <- & _)|[Hne Hi]].
  - exists p. repeat (split; [done|]). intros Ha. destruct (Hl Ha); auto.
  - exists q. split; [done|]. split; [done|]. split; [by left|]. intros Ha.
    destruct (mv_live _ _ _ _ Hv i Ha) as (q' & Hq' & Hst). simplify_eq. done.
Qed.

Lemma mview_alone pt ms a h i j id :
  mview pt ms a h -> (i, id) ∈ h -> (j, id) ∈ h -> i = j.
Proof.
  intros Hv (p & m & Hp & Hup & Hm & _ & _ & Ep)%(mv_holds _ _ _ _ Hv)
    (q & m' & Hq & Huq & Hm' & _ & _ & Eq)%(mv_holds _ _ _ _ Hv).
  simplify_eq. eapply (mv_pids _ _ _ _ Hv); eauto; congruence.
Qed.

(** ** Updates of a mutex and of an activity *)

Lemma pending_act ms a k x id : (forall id', a k <> Waking id') -> pending ms a id ->
  pending ms (<[k := x]> a) id.
Proof.
  intros Hk [Hm|[j Hj]]; [by left|]. right. exists j. rewrite fn_lookup_insert_ne; [done|].
  intros ->. by eapply Hk.
Qed.

Lemma pending_mutex ms a k m m' id : ms !! k = Some m -> (mx_locked m = true -> mx_locked m' = true) ->
  pending ms a id -> pending (<[k := m']> ms) a id.
Proof.
  intros Hk Hm [(n & Hn & Hl)|Hw]; [left|by right]. pose proof (lookup_lt_Some _ _ _ Hk).
  destruct (decide (k = id)) as [->|Hne].
  - exists m'. rewrite list_lookup_insert_eq by done. simplify_eq. auto.
  - exists n. by rewrite list_lookup_insert_ne.
Qed.

Lemma mview_create pt ms a h k m : mview pt ms a h -> ms !! k = Some m -> mx_allocated m = false ->
  mview pt (<[k := mk_umutex true false 0]> ms) a h.
Proof.
  intros Hv Hk Hf. pose proof (lookup_lt_Some _ _ _ Hk).
  assert (mx_locked m = true -> False) as Hun.
  { intros [i (p & m' & _ & _ & Hm' & Ha & _)%(mv_holds _ _ _ _ Hv)]%(mv_locked _ _ _ _ Hv k m Hk).
    simplify_eq. congruence. }
  destruct Hv as [Hlen Hpids Hholds Hlk Hsl Hw Hlive].
  constructor; [by rewrite length_insert|exact Hpids| | | | |exact Hlive].
  - intros i id (p & m' & Hi & Hu & Hid & Ha & Hrest)%Hholds. exists p, m'.
    rewrite list_lookup_insert_ne; [done|]. intros ->. simplify_eq. congruence.
  - intros id n [(-> & <- & _)|[Hne Hn]]%list_lookup_insert_Some; [done|]. by apply Hlk.
  - intros i p Hi Hs. destruct (Hsl i p Hi Hs) as (id & Ha & Hc & Hp). exists id.
    split; [done|]. split; [done|]. eapply pending_mutex; [done| |done]. naive_solver.
  - intros i id (n & Hn & Ha)%Hw. exists n. rewrite list_lookup_insert_ne; [done|].
    intros ->. simplify_eq. congruence.
Qed.

Lemma mview_acquire pt ms a h k m me p :
  mview pt ms a h -> ms !! k = Some m -> mx_allocated m = true -> mx_locked m = false ->
  pt !! me = Some p -> p_state p <> UNUSED ->
  mview pt (<[k := set_mx_pid (p_pid p) (set_mx_locked true m)]> ms) a ({[ (me, k) ]} ∪ h).
Proof.
  intros [Hlen Hpids Hholds Hlk Hsl Hw Hlive] Hk Hal Hf Hp Hu. pose proof (lookup_lt_Some _ _ _ Hk).
  constructor; [by rewrite length_insert|exact Hpids| | | | |exact Hlive].
  - intros i id [[= -> ->]%elem_of_singleton|Hin]%elem_of_union.
    + exists p. eexists. rewrite list_lookup_insert_eq by done. repeat (split; [done|]). by destruct m.
    + apply Hholds in Hin as (q & m' & Hi & Hq & Hid & Ha & Hl & Hpid). exists q, m'.
      rewrite list_lookup_insert_ne; [done|]. intros ->. simplify_eq. congruence.
  - intros id n [(-> & <- & _)|[Hne Hn]]%list_lookup_insert_Some Hl.
    + exists me. set_solver.
    + destruct (Hlk id n Hn Hl) as [i Hi]. exists i. set_solver.
  - intros i q Hi Hs. destruct (Hsl i q Hi Hs) as (id & Ha & Hc & Hpe). exists id.
    split; [done|]. split; [done|]. eapply pending_mutex; [done| |done]. naive_solver.
  - intros i id (n & Hn & Ha)%Hw. destruct (decide (k = id)) as [->|Hne].
    + eexists. rewrite list_lookup_insert_eq by done. split; [done|]. by destruct m.
    + exists n. by rewrite list_lookup_insert_ne.
Qed.

Lemma mview_release pt ms a h k m me p :
  mview pt ms a h -> ms !! k = Some m -> mx_locked m = true -> mx_pid m = p_pid p ->
  pt !! me = Some p -> p_state p = RUNNING -> a me = User ->
  mview pt (<[k := set_mx_pid 0 (set_mx_locked false m)]> ms) (<[me := Waking k]> a) (h ∖ {[ (me, k) ]}).
Proof.
  intros Hv Hk Hl Hpid Hp Hr Hme. pose proof (lookup_lt_Some _ _ _ Hk).
  assert (forall i, (i, k) ∈ h -> i = me) as Hmine.
  { intros i (q & m' & Hq & Huq & Hm' & _ & _ & E)%(mv_holds _ _ _ _ Hv). simplify_eq.
    eapply (mv_pids _ _ _ _ Hv); [done|done|done|by rewrite Hr|congruence]. }
  destruct Hv as [Hlen Hpids Hholds Hlk Hsl Hw Hlive].
  constructor; [by rewrite length_insert|exact Hpids| | | | |].
  - intros i id [Hin Hout]%elem_of_difference.
    destruct (Hholds i id Hin) as (q & m' & Hi & Hq & Hid & Hrest). exists q, m'.
    rewrite list_lookup_insert_ne; [done|]. intros <-. apply Hout, elem_of_singleton.
    by rewrite (Hmine i Hin).
  - intros id n [(-> & <- & _)|[Hne Hn]]%list_lookup_insert_Some Hln; [done|].
    destruct (Hlk id n Hn Hln) as [i Hi]. exists i. apply elem_of_difference. split; [done|].
    intros [= -> ->]%elem_of_singleton. done.
  - intros i q Hi Hs. destruct (Hsl i q Hi Hs) as (id & Ha & Hc & Hpe). exists id.
    assert (i <> me) by (intros ->; congruence).
    rewrite fn_lookup_insert_ne by done. split; [done|]. split; [done|].
    destruct (decide (id = k)) as [->|Hne]; [right; exists me; apply fn_lookup_insert|].
    destruct Hpe as [(n & Hn & Hln)|[j Hj]].
    + left. exists n. by rewrite list_lookup_insert_ne.
    + right. exists j. rewrite fn_lookup_insert_ne; [done|]. intros ->. congruence.
  - intros i id Hi. destruct (decide (me = i)) as [->|Hne]; [by rewrite fn_lookup_insert in Hi|].
    rewrite fn_lookup_insert_ne in Hi by done. destruct (Hw i id Hi) as (n & Hn & Han).
    destruct (decide (k = id)) as [->|Hne']; [|exists n; by rewrite list_lookup_insert_ne].
    eexists. rewrite list_lookup_insert_eq by done. split; [done|]. simplify_eq. done.
  - intros i Hi. destruct (decide (me = i)) as [->|Hne]; [exists p; auto|].
    rewrite fn_lookup_insert_ne in Hi by done. by apply Hlive.
Qed.

(** A process leaves a call. *)
Lemma mview_user pt ms a h me : mview pt ms a h ->
  (forall p, pt !! me = Some p -> p_state p <> SLEEPING) ->
  (forall i p k, a me = Waking k -> pt !! i = Some p -> p_state p = SLEEPING -> p_chan p <> Some (ChMutex k)) ->
  mview pt ms (<[me := User]> a) h.
Proof.
  intros [Hlen Hpids Hholds Hlk Hsl Hw Hlive] Hme Hk.
  constructor; [exact Hlen|exact Hpids|exact Hholds|exact Hlk| | |].
  - intros i p Hi Hs. destruct (Hsl i p Hi Hs) as (id & Ha & Hc & Hpe). exists id.
    assert (me <> i) by (intros ->; by eapply Hme). rewrite fn_lookup_insert_ne by done.
    split; [done|]. split; [done|]. destruct Hpe as [Hm|[j Hj]]; [by left|]. right. exists j.
    rewrite fn_lookup_insert_ne; [done|]. intros ->. by eapply Hk.
  - intros i id. destruct (decide (me = i)) as [->|Hne]; [by rewrite fn_lookup_insert|].
    rewrite fn_lookup_insert_ne by done. apply Hw.
  - intros i. destruct (decide (me = i)) as [->|Hne]; [by rewrite fn_lookup_insert|].
    rewrite fn_lookup_insert_ne by done. apply Hlive.
Qed.

(** A process enters the loop of mutex_lock. *)
Lemma mview_waiting pt ms a h me p k m : mview pt ms a h -> a me = User -> pt !! me = Some p ->
  p_state p = RUNNING -> ms !! k = Some m -> mx_allocated m = true ->
  mview pt ms (<[me := Waiting k]> a) h.
Proof.
  intros [Hlen Hpids Hholds Hlk Hsl Hw Hlive] Hme Hp Hr Hk Hal.
  constructor; [exact Hlen|exact Hpids|exact Hholds|exact Hlk| | |].
  - intros i q Hi Hs. destruct (Hsl i q Hi Hs) as (id & Ha & Hc & Hpe). exists id.
    rewrite fn_lookup_insert_ne by (intros ->; congruence).
    split; [done|]. split; [done|]. apply pending_act; [by rewrite Hme|done].
  - intros i id. destruct (decide (me = i)) as [->|Hne].
    + rewrite fn_lookup_insert. intros [= <-]. eauto.
    + rewrite fn_lookup_insert_ne by done. apply Hw.
  - intros i. destruct (decide (me = i)) as [->|Hne]; [exists p; auto|].
    rewrite fn_lookup_insert_ne by done. apply Hlive.
Qed.

Lemma mview_asleep pt ms a h me p k m : mview pt ms a h -> pt !! me = Some p -> p_state p <> UNUSED ->
  a me = Waiting k -> ms !! k = Some m -> mx_locked m = true ->
  mview (alter (fun p => set_p_state SLEEPING (set_p_chan (Some (ChMutex k)) p)) me pt) ms a h.
Proof.
  intros Hv Hp Hu Ha Hk Hl. rewrite (alter_eq_insert _ me p) by done.
  eapply mview_procs; [exact Hv| |by rewrite length_insert].
  intros i q Hi. apply list_lookup_insert_Some in Hi as [(-> & <- & _)|[Hne Hi]].
  - exists p. split; [done|]. unfold same_proc. ksimpl. split; [done|]. split; [|auto].
    intros _. right. exists k. split; [done|]. split; [done|]. left. eauto.
  - exists q. split; [done|]. split; [done|]. split; [by left|]. intros Hai.
    destruct (mv_live _ _ _ _ Hv i Hai) as (q' & Hq' & Hst). simplify_eq. done.
Qed.

(** The wakeup of mutex_unlock. *)
Lemma mview_woken pt ms a h me k : mview pt ms a h -> a me = Waking k ->
  mview (wake (Some (ChMutex k)) <$> pt) ms (<[me := User]> a) h.
Proof.
  intros Hv Hme. assert (mview (wake (Some (ChMutex k)) <$> pt) ms a h) as Hv'.
  { eapply mview_procs; [exact Hv| |by rewrite length_fmap].
    intros i p' (p & Hi & ->)%wake_lookup. exists p. split; [done|]. rewrite wake_state. unfold same_proc.
    rewrite wake_state, wake_eq. ksimpl. case_decide as D.
    - destruct D as [D _]. rewrite D. split; [done|]. split; [done|]. by left.
    - split; [done|]. split; [by left|]. intros Ha.
      destruct (mv_live _ _ _ _ Hv i Ha) as (q & Hq & Hst). by simplify_eq. }
  apply mview_user; [exact Hv'| |].
  - intros p Hp Hs. destruct (mv_sleep _ _ _ _ Hv' me p Hp Hs) as (id & Ha & _). congruence.
  - intros i p' k' [= <-]%(eq_trans (eq_sym Hme)) (p & Hi & ->)%wake_lookup. rewrite wake_state, wake_eq.
    ksimpl. case_decide as D; [done|]. intros Hs Hc. by apply D.
Qed.

(** ** Every step preserves the invariant *)

Lemma minv_intro s a h me p : mview (ptable s) (user_mutexes s) a h -> cur s = Some me ->
  ptable s !! me = Some p -> p_state p <> UNUSED ->
  (held s = [] /\ p_state p = RUNNING \/ held s = [LkPtable]) -> minv (mk_config s a h).
Proof. intros. constructor; [done|]. exists me, p. done. Qed.

(** What the invariant says while a process runs. *)
Lemma minv_running s a h me : minv (mk_config s a h) -> held s = [] -> cur s = Some me ->
  exists p, ptable s !! me = Some p /\ p_state p = RUNNING.
Proof.
  intros [_ (me' & p & Hc & Hp & _ & [[_ Hr]|Hh])]; cbn in *; intros; [|congruence].
  simplify_eq. eauto.
Qed.

Lemma minv_create s a h me r s' : minv (mk_config s a h) -> held s = [] -> cur s = Some me ->
  sys_mutex_create s = Ret r s' -> minv (mk_config s' a h).
Proof.
  intros Hi Hh Hc. destruct (minv_running _ _ _ _ Hi Hh Hc) as (p & Hp & Hr).
  rewrite mutex_create_run by done. destruct (find_index _ _) as [k|] eqn:Hf; intros [= _ <-].
  - apply find_index_Some in Hf as [(m & Hm & Hal%negb_true_iff) _].
    apply (minv_intro _ _ _ me p); ksimpl; rewrite ?Hr; auto.
    eapply mview_create; [apply Hi|done..].
  - apply (minv_intro _ _ _ me p); ksimpl; rewrite ?Hr; auto. apply Hi.
Qed.

(** The outcomes of mutex_lock, by cases. *)
Lemma mutex_lock_cases s a h me p id o : minv (mk_config s a h) -> held s = [] -> cur s = Some me ->
  ptable s !! me = Some p -> mutex_lock id s = o ->
  (exists s', o = Ret (-1) s' /\ (s' = s \/ s' = set_mutex_table_inited true s)) \/
  exists m, user_mutexes s !! Z.to_nat id = Some m /\ mx_allocated m = true /\
    o = if mx_locked m
        then Block (asleep me (ChMutex (Z.to_nat id)) (set_held [LkPtable] (set_mutex_table_inited true s)))
        else Ret 0 (set_user_mutexes
               (<[Z.to_nat id := set_mx_pid (p_pid p) (set_mx_locked true m)]> (user_mutexes s))
               (set_mutex_table_inited true s)).
Proof.
  intros Hi Hh Hc Hp <-. destruct (decide (0 <= id < MAX_MUTEXES)) as [Hid|Hid].
  - destruct (lookup_lt_is_Some_2 (user_mutexes s) (Z.to_nat id)) as [m Hm].
    { pose proof (mv_len _ _ _ _ (mi_view _ Hi)) as E. cbn in E. rewrite E. lia. }
    rewrite (mutex_lock_run s id m me p) by done. destruct (mx_allocated m) eqn:Hal; cbn [negb]; [|eauto].
    right. exists m. destruct (mx_locked m); done.
  - left. exists s. unfold mutex_lock. split; [|by left].
    destruct (id <? 0) eqn:E1, (MAX_MUTEXES <=? id) eqn:E2; try done. bool_prop. lia.
Qed.

Lemma minv_lock s a h me id r s' : minv (mk_config s a h) -> held s = [] -> cur s = Some me ->
  mutex_lock id s = Ret r s' ->
  minv (mk_config s' a (if r =? 0 then {[ (me, Z.to_nat id) ]} ∪ h else h)).
Proof.
  intros Hi Hh Hc Hl. destruct (minv_running _ _ _ _ Hi Hh Hc) as (p & Hp & Hr).
  destruct (mutex_lock_cases _ _ _ _ _ _ _ Hi Hh Hc Hp Hl) as [(s1 & [= -> ->] & Hs)|(m & Hm & Hal & E)].
  - apply (minv_intro _ _ _ me p); destruct Hs as [-> | ->]; ksimpl; rewrite ?Hr; auto; apply Hi.
  - destruct (mx_locked m) eqn:Hlk; [done|]. injection E as -> ->. cbn [Z.eqb].
    apply (minv_intro _ _ _ me p); ksimpl; rewrite ?Hr; auto.
    eapply mview_acquire; [apply Hi|done..|by rewrite Hr].
Qed.

Lemma asleep_lookup me ch s p : ptable s !! me = Some p ->
  ptable (asleep me ch s) !! me = Some (set_p_state SLEEPING (set_p_chan (Some ch) p)).
Proof. intros Hp. unfold asleep. ksimpl. by rewrite list_lookup_alter_eq, Hp. Qed.

Lemma minv_lock_sleep s a h me id s' : minv (mk_config s a h) -> held s = [] -> cur s = Some me ->
  a me = User -> mutex_lock id s = Block s' ->
  minv (mk_config s' (<[me := Waiting (Z.to_nat id)]> a) h).
Proof.
  intros Hi Hh Hc Ha Hl. destruct (minv_running _ _ _ _ Hi Hh Hc) as (p & Hp & Hr).
  destruct (mutex_lock_cases _ _ _ _ _ _ _ Hi Hh Hc Hp Hl) as [(s1 & [=] & Hs)|(m & Hm & Hal & E)].
  destruct (mx_locked m) eqn:Hlk; [|done]. injection E as ->.
  eapply (minv_intro _ _ _ me); [|by ksimpl|by apply asleep_lookup; ksimpl|done|right; by ksimpl].
  unfold asleep. ksimpl. eapply mview_asleep; [|exact Hp|by rewrite Hr|apply fn_lookup_insert|exact Hm|done].
  eapply mview_waiting; [apply Hi|done..].
Qed.

Lemma minv_unlock s a h me id ok s' : minv (mk_config s a h) -> held s = [] -> cur s = Some me ->
  a me = User -> 0 <= id < MAX_MUTEXES ->
  (mutex_table_init ;; mutex_unlock_release (Z.to_nat id)) s = Ret ok s' ->
  if ok then (me, Z.to_nat id) ∈ h /\
    minv (mk_config s' (<[me := Waking (Z.to_nat id)]> a) (h ∖ {[ (me, Z.to_nat id) ]}))
  else minv (mk_config s' a h).
Proof.
  intros Hi Hh Hc Ha Hid. destruct (minv_running _ _ _ _ Hi Hh Hc) as (p & Hp & Hr).
  destruct (lookup_lt_is_Some_2 (user_mutexes s) (Z.to_nat id)) as [m Hm].
  { pose proof (mv_len _ _ _ _ (mi_view _ Hi)) as E. cbn in E. rewrite E. lia. }
  erewrite bind_ret_l by (by apply mutex_table_init_run).
  rewrite (mutex_unlock_release_run _ _ m me p) by (by ksimpl).
  destruct (mx_allocated m && mx_locked m && (mx_pid m =? p_pid p)) eqn:E; intros [= <- <-].
  - bool_prop. split.
    + destruct (mv_locked _ _ _ _ (mi_view _ Hi) _ _ Hm) as [i Hin]; [done|].
      destruct (mv_holds _ _ _ _ (mi_view _ Hi) _ _ Hin) as (q & m' & Hq & Hu & Hm' & _ & _ & Eq).
      cbn in *. simplify_eq. by rewrite (mv_pids _ _ _ _ (mi_view _ Hi) me i p q)
        by (first [done|by rewrite Hr|congruence]).
    + apply (minv_intro _ _ _ me p); ksimpl; rewrite ?Hr; auto.
      eapply mview_release; [apply Hi|done..].
  - apply (minv_intro _ _ _ me p); ksimpl; rewrite ?Hr; auto. apply Hi.
Qed.

Lemma minv_wake s a h me k s' : minv (mk_config s a h) -> held s = [] -> cur s = Some me ->
  a me = Waking k -> mutex_unlock_wake k s = Ret tt s' -> minv (mk_config s' (<[me := User]> a) h).
Proof.
  intros Hi Hh Hc Ha. destruct (minv_running _ _ _ _ Hi Hh Hc) as (p & Hp & Hr).
  unfold mutex_unlock_wake. rewrite wakeup_run by (rewrite Hh; apply not_elem_of_nil). intros [= <-].
  assert (p_state (wake (Some (ChMutex k)) p) = RUNNING) as Hw
    by (rewrite wake_state, Hr; by case_decide as D; [destruct D|]).
  eapply (minv_intro _ _ _ me (wake (Some (ChMutex k)) p)); ksimpl; rewrite ?Hw; auto.
  - by apply mview_woken; [apply Hi|].
  - by rewrite list_lookup_fmap, Hp.
Qed.

Lemma minv_kill s a h me pid r s' : minv (mk_config s a h) -> held s = [] -> cur s = Some me ->
  kill pid s = Ret r s' -> minv (mk_config s' a h).
Proof.
  intros Hi Hh Hc. destruct (minv_running _ _ _ _ Hi Hh Hc) as (p & Hp & Hr).
  rewrite kill_run by (rewrite Hh; apply not_elem_of_nil).
  destruct (find_index _ _) as [k|] eqn:Hf; intros [= _ <-]; [|done].
  apply find_index_Some in Hf as [(q & Hq & _) _]. rewrite (alter_eq_insert _ k q) by done.
  set (q' := if bool_decide _ then _ else _).
  assert (p_state q' = if decide (p_state q = SLEEPING) then RUNNABLE else p_state q) as Hst
    by (unfold q'; ksimpl; case_decide; [by rewrite bool_decide_eq_true_2|by rewrite bool_decide_eq_false_2]).
  assert (p_pid q' = p_pid q) as Hpid by (unfold q'; by destruct (bool_decide _)).
  assert (mview (<[k := q']> (ptable s)) (user_mutexes s) a h) as Hv.
  { eapply mview_state; [apply Hi|exact Hq| | |]; unfold same_proc; rewrite ?Hst.
    - split; [done|]. case_decide as D; [by rewrite D|done].
    - by case_decide.
    - intros Hak. destruct (mv_live _ _ _ _ (mi_view _ Hi) k Hak) as (q2 & Hq2 & Hs2). cbn in *.
      simplify_eq. case_decide; [by left|]. tauto. }
  destruct (decide (k = me)) as [->|Hne].
  - simplify_eq. rewrite Hr in Hst. apply (minv_intro _ _ _ me q'); ksimpl; rewrite ?Hst; auto.
    by rewrite list_lookup_insert_eq by (by eapply lookup_lt_Some).
  - apply (minv_intro _ _ _ me p); ksimpl; rewrite ?Hr; auto. by rewrite list_lookup_insert_ne.
Qed.

Lemma minv_yield s a h me s' : minv (mk_config s a h) -> held s = [] -> cur s = Some me ->
  yield s = Block s' -> minv (mk_config s' a h).
Proof.
  intros Hi Hh Hc. destruct (minv_running _ _ _ _ Hi Hh Hc) as (p & Hp & Hr).
  rewrite (yield_run me p) by done. intros [= <-].
  apply (minv_intro _ _ _ me (set_p_state RUNNABLE p)); ksimpl; auto.
  - eapply mview_state; [apply Hi|exact Hp| | |]; unfold same_proc; ksimpl; auto. by rewrite Hr.
  - by rewrite list_lookup_insert_eq by (by eapply lookup_lt_Some).
Qed.

(** A process that was chosen by the scheduler, before it leaves [sched]. *)
Lemma minv_chosen s a h j p s1 : minv (mk_config s a h) -> held s = [LkPtable] ->
  ptable s !! j = Some p -> p_state p = RUNNABLE -> (scheduler_back ;; scheduler_switch j) s = Ret tt s1 ->
  mview (ptable s1) (user_mutexes s1) a h /\ cur s1 = Some j /\ held s1 = [LkPtable] /\
  ptable s1 !! j = Some (set_p_state RUNNING p).
Proof.
  intros Hi Hh Hj Hr (p' & Hp' & _ & _ & ->)%dispatch_inv. simplify_eq. ksimpl.
  split; [|by rewrite list_lookup_insert_eq by (by eapply lookup_lt_Some)].
  eapply mview_state; [apply Hi|exact Hj| | |]; unfold same_proc; ksimpl; auto. by rewrite Hr.
Qed.

Lemma minv_dispatch s a h j p s1 s' : minv (mk_config s a h) -> held s = [LkPtable] ->
  ptable s !! j = Some p -> p_state p = RUNNABLE -> (scheduler_back ;; scheduler_switch j) s = Ret tt s1 ->
  yield_resume s1 = Ret tt s' -> minv (mk_config s' a h).
Proof.
  intros Hi Hh Hj Hr Hd. destruct (minv_chosen _ _ _ _ _ _ Hi Hh Hj Hr Hd) as (Hv & Hc & Hh1 & Hp1).
  unfold yield_resume. erewrite release_run; [|exact Hh1|apply not_elem_of_nil]. intros [= <-].
  eapply (minv_intro _ _ _ j); [exact Hv|exact Hc|exact Hp1|done|by left].
Qed.

(** The waiter is back in its loop, with the lock of the table. *)
Lemma retry_run s a h j p id s1 o : minv (mk_config s a h) -> held s = [LkPtable] ->
  ptable s !! j = Some p -> p_state p = RUNNABLE -> a j = Waiting id ->
  (scheduler_back ;; scheduler_switch j) s = Ret tt s1 -> mutex_lock_resume id s1 = o ->
  exists s2 m, let q := set_p_chan None (set_p_state RUNNING p) in
    mview (ptable s2) (user_mutexes s2) a h /\ cur s2 = Some j /\ held s2 = [LkMutexTable] /\
    ptable s2 !! j = Some q /\
    user_mutexes s2 !! id = Some m /\ mx_allocated m = true /\
    o = if mx_locked m then Block (asleep j (ChMutex id) (set_held [LkPtable] s2))
        else Ret 0 (set_held [] (set_user_mutexes
               (<[id := set_mx_pid (p_pid q) (set_mx_locked true m)]> (user_mutexes s2)) s2)).
Proof.
  intros Hi Hh Hj Hr Ha Hd <-. destruct (minv_chosen _ _ _ _ _ _ Hi Hh Hj Hr Hd) as (Hv & Hc & Hh1 & Hp1).
  destruct (mv_wait _ _ _ _ Hv j id Ha) as (m & Hm & Hal).
  set (s2 := set_held [LkMutexTable] (set_ptable (alter (set_p_chan None) j (ptable s1)) s1)).
  assert (ptable s2 !! j = Some (set_p_chan None (set_p_state RUNNING p))) as Hp2
    by (unfold s2; ksimpl; by rewrite list_lookup_alter_eq, Hp1).
  exists s2, m. unfold mutex_lock_resume.
  erewrite bind_ret_l by (by apply (sleep_resume_run j)). fold s2.
  rewrite (mutex_lock_round_run s2 id m j _) by (try exact Hp2; unfold s2; by ksimpl).
  split; [|split; [|split; [|split; [exact Hp2|]]]]; try (unfold s2; by ksimpl).
  unfold s2. ksimpl. erewrite alter_eq_insert by exact Hp1.
  eapply mview_state; [exact Hv|exact Hp1| | |]; unfold same_proc; ksimpl; auto.
Qed.

Lemma minv_retry s a h j p id s1 r s' : minv (mk_config s a h) -> held s = [LkPtable] ->
  ptable s !! j = Some p -> p_state p = RUNNABLE -> a j = Waiting id ->
  (scheduler_back ;; scheduler_switch j) s = Ret tt s1 -> mutex_lock_resume id s1 = Ret r s' ->
  minv (mk_config s' (<[j := User]> a) ({[ (j, id) ]} ∪ h)).
Proof.
  intros Hi Hh Hj Hr Ha Hd Hl.
  destruct (retry_run _ _ _ _ _ _ _ _ Hi Hh Hj Hr Ha Hd Hl) as (s2 & m & Hv & Hc & Hh2 & Hp & Hm & Hal & E).
  destruct (mx_locked m) eqn:Hlk; [done|]. injection E as -> ->.
  eapply (minv_intro _ _ _ j); [|by ksimpl|by ksimpl|done|left; by ksimpl]. ksimpl.
  apply mview_user.
  - exact (mview_acquire _ _ _ _ _ _ _ _ Hv Hm Hal Hlk Hp ltac:(done)).
  - intros q Hq. simplify_eq. done.
  - intros i q k. by rewrite Ha.
Qed.

Lemma minv_retry_sleep s a h j p id s1 s' : minv (mk_config s a h) -> held s = [LkPtable] ->
  ptable s !! j = Some p -> p_state p = RUNNABLE -> a j = Waiting id ->
  (scheduler_back ;; scheduler_switch j) s = Ret tt s1 -> mutex_lock_resume id s1 = Block s' ->
  minv (mk_config s' a h).
Proof.
  intros Hi Hh Hj Hr Ha Hd Hl.
  destruct (retry_run _ _ _ _ _ _ _ _ Hi Hh Hj Hr Ha Hd Hl) as (s2 & m & Hv & Hc & Hh2 & Hp & Hm & Hal & E).
  destruct (mx_locked m) eqn:Hlk; [|done]. injection E as ->.
  eapply (minv_intro _ _ _ j); [|by ksimpl|apply asleep_lookup; ksimpl; exact Hp|done|right; by ksimpl].
  unfold asleep. ksimpl. by eapply mview_asleep; [exact Hv|exact Hp|done|exact Ha|exact Hm|done].
Qed.

Lemma mstep_inv c c' : mstep c c' -> minv c -> minv c'.
Proof.
  destruct 1; intros Hi; eauto using minv_create, minv_lock, minv_lock_sleep, minv_wake, minv_kill,
    minv_yield, minv_dispatch, minv_retry, minv_retry_sleep.
  - by eapply (minv_unlock _ _ _ _ _ true) in Hi as [_ Hi]; [|eassumption..].
  - by eapply (minv_unlock _ _ _ _ _ false) in Hi; [|eassumption..].
Qed.

Lemma reachable_inv c c' : minit c -> rtc mstep c c' -> minv c'.
Proof. intros Hi%minit_inv. induction 1; eauto using mstep_inv. Qed.

End mutexproto.
