(* ===== verification/Spinlock.v ===== *)
(** * Spin locks on several processors (spinlock.c)

    The other files see a spin lock as an entry in the list of locks that the
    processor holds.  Here the processors run the instructions of [acquire] and
    [release] interleaved, on the words of [struct spinlock] and the counters of
    [struct cpu].  The kernel's view is an invariant of every interleaving, and
    no two processors hold the same lock. *)

From stdpp Require Import functions.
From stdpp Require Import relations functions.
From S2P Require Import Prelude KState.

(** ** State *)

(** struct spinlock, without the debugging fields. *)
Record spinlock := mk_spinlock { lk_locked : Z; lk_cpu : option nat }.

(** The fields of struct cpu that spinlock.c uses, and the interrupt flag of
    the processor. *)
Record cpu := mk_cpu { c_ncli : Z; c_intena : bool; c_if : bool }.

Record smp := mk_smp { locks : lockid -> spinlock; cpus : nat -> cpu }.

Definition set_lock (lk : lockid) (l : spinlock) (s : smp) : smp := mk_smp (<[lk := l]> (locks s)) (cpus s).
Definition set_cpu (c : nat) (x : cpu) (s : smp) : smp := mk_smp (locks s) (<[c := x]> (cpus s)).

Module Spin.

Definition initlock (lk : lockid) : M smp unit := modify (set_lock lk (mk_spinlock 0 None)).

(** ** Interrupts *)

Definition pushcli (c : nat) : M smp unit := modify (fun s =>
  let x := cpus s c in
  set_cpu c (mk_cpu (c_ncli x + 1) (if c_ncli x =? 0 then c_if x else c_intena x) false) s).

Definition popcli (c : nat) : M smp unit := fun s =>
  let x := cpus s c in
  if c_if x then Panic "popcli - interruptible" s
  else
    let n := c_ncli x - 1 in
    let s' := set_cpu c (mk_cpu n (c_intena x) (c_if x)) s in
    if n <? 0 then Panic "popcli" s'
    else if (n =? 0) && c_intena x then Ret tt (set_cpu c (mk_cpu n (c_intena x) true) s)
    else Ret tt s'.

(** Check whether this cpu is holding the lock. *)
Definition holding (c : nat) (lk : lockid) : M smp bool :=
  pushcli c ;;
  r <- gets (fun s => negb (lk_locked (locks s lk) =? 0) && bool_decide (lk_cpu (locks s lk) = Some c)) ;;
  popcli c ;;
  ret r.

(** ** acquire, instruction by instruction *)

(** [pushcli(); if(holding(lk)) panic("acquire");] *)
Definition acquire_enter (c : nat) (lk : lockid) : M smp unit :=
  pushcli c ;;
  h <- holding c lk ;;
  if h then panic "acquire" else ret tt.

(** [xchg(&lk->locked, 1)] *)
Definition xchg (lk : lockid) : M smp Z :=
  l <- gets (fun s => locks s lk) ;;
  modify (set_lock lk (mk_spinlock 1 (lk_cpu l))) ;;
  ret (lk_locked l).

(** [lk->cpu = mycpu();] *)
Definition acquire_record (c : nat) (lk : lockid) : M smp unit :=
  modify (fun s => set_lock lk (mk_spinlock (lk_locked (locks s lk)) (Some c)) s).

(** ** release *)

(** [if(!holding(lk)) panic("release"); ... lk->cpu = 0;] *)
Definition release_enter (c : nat) (lk : lockid) : M smp unit :=
  h <- holding c lk ;;
  if negb h then panic "release"
  else modify (fun s => set_lock lk (mk_spinlock (lk_locked (locks s lk)) None) s).

(** [movl $0, lk->locked] *)
Definition release_store (lk : lockid) : M smp unit :=
  modify (fun s => set_lock lk (mk_spinlock 0 (lk_cpu (locks s lk))) s).

(** The whole functions; [spin] bounds the iterations of the loop. *)
Fixpoint spin (k : nat) (lk : lockid) : M smp unit :=
  match k with
  | O => undef "acquire: still spinning"
  | S k' => old <- xchg lk ;; if negb (old =? 0) then spin k' lk else ret tt
  end.

Definition acquire (k c : nat) (lk : lockid) : M smp unit :=
  acquire_enter c lk ;;
  spin k lk ;;
  acquire_record c lk.

Definition release (c : nat) (lk : lockid) : M smp unit :=
  release_enter c lk ;;
  release_store lk ;;
  popcli c.

End Spin.

(** * Mutual exclusion of spin locks

    Processors that run the code of spinlock.c interleaved, one instruction on
    the shared words at a time.  A processor may enable and disable interrupts
    itself while its count of [pushcli] is zero. *)

(** Where a processor is in the code. *)
Inductive place :=
| PRun                  (** outside acquire and release *)
| PSpin (lk : lockid)   (** in the loop of acquire *)
| PGot (lk : lockid)    (** after the loop, before [lk->cpu = mycpu()] *)
| PStore (lk : lockid)  (** in release, before [lk->locked = 0] *)
| PPop.                 (** before the last [popcli] of release *)

(** The machine, the place of every processor, and the locks it holds. *)
Record sconf := mk_sconf { sc_smp : smp; sc_place : nat -> place; sc_held : nat -> list lockid }.

Inductive sstep : sconf -> sconf -> Prop :=
| SEnter s s' pl h c lk : pl c = PRun -> Spin.acquire_enter c lk s = Ret tt s' ->
    sstep (mk_sconf s pl h) (mk_sconf s' (<[c := PSpin lk]> pl) h)
| SSpin s s' pl h c lk v : pl c = PSpin lk -> Spin.xchg lk s = Ret v s' -> v <> 0 ->
    sstep (mk_sconf s pl h) (mk_sconf s' pl h)
| SGot s s' pl h c lk : pl c = PSpin lk -> Spin.xchg lk s = Ret 0 s' ->
    sstep (mk_sconf s pl h) (mk_sconf s' (<[c := PGot lk]> pl) h)
| SRecord s s' pl h c lk : pl c = PGot lk -> Spin.acquire_record c lk s = Ret tt s' ->
    sstep (mk_sconf s pl h) (mk_sconf s' (<[c := PRun]> pl) (<[c := lk :: h c]> h))
| SLeave s s' pl h c lk : pl c = PRun -> Spin.release_enter c lk s = Ret tt s' ->
    sstep (mk_sconf s pl h) (mk_sconf s' (<[c := PStore lk]> pl) (<[c := filter (fun l => l <> lk) (h c)]> h))
| SStore s s' pl h c lk : pl c = PStore lk -> Spin.release_store lk s = Ret tt s' ->
    sstep (mk_sconf s pl h) (mk_sconf s' (<[c := PPop]> pl) h)
| SPop s s' pl h c : pl c = PPop -> Spin.popcli c s = Ret tt s' ->
    sstep (mk_sconf s pl h) (mk_sconf s' (<[c := PRun]> pl) h)
| SIntr s pl h c x b : pl c = PRun -> cpus s c = x -> c_ncli x = 0 ->
    sstep (mk_sconf s pl h) (mk_sconf (set_cpu c (mk_cpu 0 (c_intena x) b) s) pl h).

(** At the start no lock is taken and no processor is in the code. *)
Definition sinit (x : sconf) : Prop :=
  (forall lk, locks (sc_smp x) lk = mk_spinlock 0 None) /\ (forall c, c_ncli (cpus (sc_smp x) c) = 0) /\
  (forall c, sc_place x c = PRun) /\ (forall c, sc_held x c = []).

(** ** The invariant *)

(** The processor has won the exchange and not yet stored 0. *)
Definition owner (pl : nat -> place) (h : nat -> list lockid) (c : nat) (lk : lockid) : Prop :=
  lk ∈ h c \/ pl c = PGot lk \/ pl c = PStore lk.

Definition in_code (p : place) : Z := match p with PRun => 0 | _ => 1 end.

Record sinv (x : sconf) : Prop := {
  si_lock lk : lk_locked (locks (sc_smp x) lk) <> 0 <-> exists c, owner (sc_place x) (sc_held x) c lk;
  si_one c d lk : owner (sc_place x) (sc_held x) c lk -> owner (sc_place x) (sc_held x) d lk -> c = d;
  si_cpu c lk : lk_cpu (locks (sc_smp x) lk) = Some c <-> lk ∈ sc_held x c;
  si_nodup c : NoDup (sc_held x c);
  si_out c lk : sc_place x c = PGot lk \/ sc_place x c = PStore lk -> lk ∉ sc_held x c;
  si_ncli c : c_ncli (cpus (sc_smp x) c) = Z.of_nat (length (sc_held x c)) + in_code (sc_place x c);
  si_if c : 0 < c_ncli (cpus (sc_smp x) c) -> c_if (cpus (sc_smp x) c) = false;
}.

Lemma sinit_inv x : sinit x -> sinv x.
Proof.
  destruct x as [s pl h]. intros (Hl & Hn & Hp & Hh). cbn in *.
  assert (forall c lk, ~ owner pl h c lk) as Ho.
  { intros c lk [H|[H|H]]; rewrite ?Hh, ?Hp in H; [by apply not_elem_of_nil in H|done..]. }
  constructor; cbn; intros.
  - rewrite Hl. cbn. split; [done|]. intros (c & H). by apply Ho in H.
  - by apply Ho in H.
  - rewrite Hl, Hh. cbn. split; [done|]. by intros ?%not_elem_of_nil.
  - rewrite Hh. constructor.
  - rewrite Hh. apply not_elem_of_nil.
  - by rewrite Hh, Hn, Hp.
  - rewrite Hn in H. lia.
Qed.

(** ** Interrupts *)

(** The processor's counter is not negative, and interrupts are off while it is
    positive. *)
Definition cpu_ok (x : cpu) : Prop := 0 <= c_ncli x /\ (0 < c_ncli x -> c_if x = false).

(** A matched pair of pushcli and popcli only refreshes [intena]. *)
Definition refreshed (x : cpu) : cpu := mk_cpu (c_ncli x) (if c_ncli x =? 0 then c_if x else c_intena x) (c_if x).

(** Only the processor's own fields have changed. *)
Definition only_cpu (c : nat) (x : cpu) (s s' : smp) : Prop :=
  locks s' = locks s /\ forall d, cpus s' d = if decide (d = c) then x else cpus s d.

Lemma set_cpu_at c x s d : cpus (set_cpu c x s) d = if decide (d = c) then x else cpus s d.
Proof. unfold set_cpu. cbn. destruct (decide (d = c)) as [->|]; [by rewrite fn_lookup_insert|by rewrite fn_lookup_insert_ne]. Qed.

Lemma set_lock_at lk l s k : locks (set_lock lk l s) k = if decide (k = lk) then l else locks s k.
Proof. unfold set_lock. cbn. destruct (decide (k = lk)) as [->|]; [by rewrite fn_lookup_insert|by rewrite fn_lookup_insert_ne]. Qed.

Lemma holding_run c lk s : cpu_ok (cpus s c) ->
  exists s', Spin.holding c lk s =
      Ret (negb (lk_locked (locks s lk) =? 0) && bool_decide (lk_cpu (locks s lk) = Some c)) s' /\
    only_cpu c (refreshed (cpus s c)) s s'.
Proof.
  intros [Hn Hi]. unfold Spin.holding, Spin.pushcli, Spin.popcli, bind, modify, gets, ret. cbn [locks set_cpu].
  rewrite set_cpu_at, decide_True by done. cbn [c_if c_ncli c_intena]. replace (c_ncli (cpus s c) + 1 - 1) with (c_ncli (cpus s c)) by lia.
  rewrite (proj2 (Z.ltb_ge _ 0)) by done. unfold refreshed. destruct (c_ncli (cpus s c) =? 0) eqn:E; cbn [andb].
  - destruct (c_if (cpus s c)) eqn:Ei; eexists; (split; [done|]); (split; [done|]); intros d; rewrite !set_cpu_at;
      destruct (decide (d = c)); done.
  - bool_prop. eexists. split; [done|]. split; [done|]. intros d. rewrite !set_cpu_at. destruct (decide (d = c)); [|done].
    rewrite Hi by lia. done.
Qed.

Lemma acquire_enter_run c lk s : cpu_ok (cpus s c) ->
  let h := negb (lk_locked (locks s lk) =? 0) && bool_decide (lk_cpu (locks s lk) = Some c) in
  exists s' i, Spin.acquire_enter c lk s = (if h then Panic "acquire" s' else Ret tt s') /\
    only_cpu c (mk_cpu (c_ncli (cpus s c) + 1) i false) s s'.
Proof.
  intros [Hn Hi] h. unfold Spin.acquire_enter, Spin.pushcli.
  destruct (holding_run c lk (set_cpu c (mk_cpu (c_ncli (cpus s c) + 1)
    (if c_ncli (cpus s c) =? 0 then c_if (cpus s c) else c_intena (cpus s c)) false) s)) as (s' & Hr & Hl & Hc).
  { rewrite set_cpu_at, decide_True by done. split; cbn; [lia|done]. }
  exists s'. eexists. split.
  - unfold bind at 1, modify. rewrite (bind_ret_l _ _ _ _ _ Hr). cbn [locks set_cpu]. fold h. by destruct h.
  - split; [done|]. intros d. rewrite Hc, !set_cpu_at. destruct (decide (d = c)) as [->|]; [|done].
    rewrite decide_True by done. unfold refreshed. cbn. rewrite (proj2 (Z.eqb_neq _ 0)) by lia. done.
Qed.

Lemma release_enter_run c lk s : cpu_ok (cpus s c) ->
  let h := negb (lk_locked (locks s lk) =? 0) && bool_decide (lk_cpu (locks s lk) = Some c) in
  exists s', Spin.release_enter c lk s = (if h then Ret tt s' else Panic "release" s') /\
    (forall d, cpus s' d = if decide (d = c) then refreshed (cpus s c) else cpus s d) /\
    forall k, locks s' k = if h && bool_decide (k = lk) then mk_spinlock (lk_locked (locks s lk)) None else locks s k.
Proof.
  intros Hok h. destruct (holding_run c lk s Hok) as (s1 & Hr & Hl & Hc). fold h in Hr.
  unfold Spin.release_enter. rewrite (bind_ret_l _ _ _ _ _ Hr). destruct h; cbn [negb andb].
  - eexists. split; [done|]. split; [done|]. intros k. rewrite set_lock_at, Hl.
    destruct (decide (k = lk)); [by rewrite bool_decide_eq_true_2|by rewrite bool_decide_eq_false_2].
  - exists s1. split; [done|]. split; [done|]. intros k. by rewrite Hl.
Qed.

(** ** Every step keeps the invariant *)

Lemma sinv_cpu_ok x c : sinv x -> cpu_ok (cpus (sc_smp x) c).
Proof.
  intros Hx. split; [|apply (si_if _ Hx)]. rewrite (si_ncli _ Hx). unfold in_code. destruct (sc_place x c); lia.
Qed.

(** The test of [holding] is membership in the list of the held locks. *)
Lemma sinv_holding x c lk : sinv x ->
  negb (lk_locked (locks (sc_smp x) lk) =? 0) && bool_decide (lk_cpu (locks (sc_smp x) lk) = Some c) =
  bool_decide (lk ∈ sc_held x c).
Proof.
  intros Hx. destruct (decide (lk ∈ sc_held x c)) as [Hin|Hin].
  - rewrite (bool_decide_eq_true_2 (lk ∈ _)), bool_decide_eq_true_2 by (done || by apply (si_cpu _ Hx)).
    rewrite andb_true_r. apply negb_true_iff, Z.eqb_neq. apply (si_lock _ Hx). exists c. by left.
  - rewrite (bool_decide_eq_false_2 (lk ∈ _)) by done. rewrite bool_decide_eq_false_2; [apply andb_false_r|].
    by rewrite (si_cpu _ Hx).
Qed.

(** A change of place between places without ownership. *)
Lemma owner_move pl h c p d lk : (forall k, pl c <> PGot k /\ pl c <> PStore k) -> (forall k, p <> PGot k /\ p <> PStore k) ->
  owner (<[c := p]> pl) h d lk <-> owner pl h d lk.
Proof.
  intros H1 H2. unfold owner. destruct (decide (c = d)) as [<-|Hne]; [|by rewrite fn_lookup_insert_ne].
  rewrite fn_lookup_insert. destruct (H1 lk), (H2 lk). tauto.
Qed.

(** The processor [c] changes its place and its own fields, and nobody's
    ownership changes. *)
Lemma sinv_move s s' pl h c p y : sinv (mk_sconf s pl h) ->
  (forall k, pl c <> PGot k /\ pl c <> PStore k) -> (forall k, p <> PGot k /\ p <> PStore k) ->
  only_cpu c y s s' -> c_ncli y = Z.of_nat (length (h c)) + in_code p -> (0 < c_ncli y -> c_if y = false) ->
  sinv (mk_sconf s' (<[c := p]> pl) h).
Proof.
  intros [I1 I2 I3 I4 I5 I6 I7] Hp Hp' [Hl Hc] Hn Hi. cbn in *. constructor; cbn; intros.
  - rewrite Hl, I1. split; intros (d & Hd); exists d; by apply owner_move in Hd || apply owner_move.
  - rewrite owner_move in H, H0 by done. by eapply I2.
  - by rewrite Hl.
  - done.
  - apply (I5 c0). destruct (decide (c = c0)) as [<-|]; [|by rewrite fn_lookup_insert_ne in H].
    rewrite fn_lookup_insert in H. destruct (Hp' lk). tauto.
  - rewrite Hc. destruct (decide (c0 = c)) as [->|Hne]; [by rewrite fn_lookup_insert|by rewrite fn_lookup_insert_ne].
  - rewrite Hc in *. destruct (decide (c0 = c)); auto.
Qed.

Lemma sinv_enter s s' pl h c lk : sinv (mk_sconf s pl h) -> pl c = PRun -> Spin.acquire_enter c lk s = Ret tt s' ->
  sinv (mk_sconf s' (<[c := PSpin lk]> pl) h).
Proof.
  intros Hx Hp Hr. pose proof (sinv_cpu_ok _ c Hx) as Hok. cbn in Hok.
  destruct (acquire_enter_run c lk s Hok) as (s1 & i & E & Ho). rewrite Hr in E.
  destruct (_ && _) in E; [done|]. injection E as <-.
  eapply sinv_move; [done|by rewrite Hp|done|done| |done]. cbn. pose proof (si_ncli _ Hx c) as Hn. cbn in Hn. rewrite Hp in Hn. cbn in Hn. lia.
Qed.

Lemma sinv_pop s s' pl h c : sinv (mk_sconf s pl h) -> pl c = PPop -> Spin.popcli c s = Ret tt s' ->
  sinv (mk_sconf s' (<[c := PRun]> pl) h).
Proof.
  intros Hx Hp. unfold Spin.popcli. pose proof (si_ncli _ Hx c) as Hn. cbn in Hn. rewrite Hp in Hn. cbn in Hn.
  destruct (c_if (cpus s c)) eqn:Ei; [done|]. destruct (_ <? 0) eqn:E0; [done|].
  destruct ((_ =? 0) && _) eqn:E1; intros [= <-].
  - apply andb_prop in E1 as [E1 _]. bool_prop.
    eapply sinv_move; [done|by rewrite Hp|done|split; [done|intros d; apply set_cpu_at]|cbn; lia|cbn; lia].
  - eapply sinv_move; [done|by rewrite Hp|done|split; [done|intros d; apply set_cpu_at]|cbn; lia|done].
Qed.

Lemma sinv_intr s pl h c b : sinv (mk_sconf s pl h) -> pl c = PRun -> c_ncli (cpus s c) = 0 ->
  sinv (mk_sconf (set_cpu c (mk_cpu 0 (c_intena (cpus s c)) b) s) pl h).
Proof.
  intros [I1 I2 I3 I4 I5 I6 I7] Hp Hn. cbn in *. constructor; cbn; try done.
  - intros d. pose proof (I6 d) as Hd. pose proof (set_cpu_at c (mk_cpu 0 (c_intena (cpus s c)) b) s d) as E. cbn in E. rewrite E.
    destruct (decide (d = c)) as [->|]; [|done]. cbn. lia.
  - intros d. pose proof (set_cpu_at c (mk_cpu 0 (c_intena (cpus s c)) b) s d) as E. cbn in E. rewrite E.
    destruct (decide (d = c)); [cbn; lia|apply I7].
Qed.

(** [xchg] on a lock that is taken. *)
Lemma sinv_spin s s' pl h lk v : sinv (mk_sconf s pl h) -> Spin.xchg lk s = Ret v s' -> v <> 0 -> sinv (mk_sconf s' pl h).
Proof.
  intros [I1 I2 I3 I4 I5 I6 I7] [= Hv <-] Hne. constructor; try done.
  - intros k. cbn. pose proof (set_lock_at lk (mk_spinlock 1 (lk_cpu (locks s lk))) s k) as E. cbn in E. rewrite E.
    rewrite <- I1. destruct (decide (k = lk)) as [->|]; [|done]. cbn. subst v. split; [done|lia].
  - intros c k. cbn. pose proof (set_lock_at lk (mk_spinlock 1 (lk_cpu (locks s lk))) s k) as E. cbn in E. rewrite E.
    rewrite <- I3. destruct (decide (k = lk)) as [->|]; done.
Qed.

(** [xchg] on a free lock: the processor becomes its owner. *)
Lemma sinv_got s s' pl h c lk : sinv (mk_sconf s pl h) -> pl c = PSpin lk -> Spin.xchg lk s = Ret 0 s' ->
  sinv (mk_sconf s' (<[c := PGot lk]> pl) h).
Proof.
  intros [I1 I2 I3 I4 I5 I6 I7] Hp [= Hv <-]. cbn in *.
  assert (forall d, ~ owner pl h d lk) as Hfree. { intros d Hd. apply (proj2 (I1 lk)); [by exists d|done]. }
  assert (forall d k, owner (<[c := PGot lk]> pl) h d k <-> owner pl h d k \/ (d = c /\ k = lk)) as Ho.
  { intros d k. unfold owner. destruct (decide (c = d)) as [<-|Hne].
    - rewrite fn_lookup_insert, Hp. split; [intros [H|[H|H]]; [auto|injection H as ->; auto|done]|]. intros [[H|[H|H]]|[_ ->]]; auto; done.
    - rewrite fn_lookup_insert_ne by done. split; [auto|]. by intros [H|[-> _]]. }
  assert (forall k, locks (set_lock lk (mk_spinlock 1 (lk_cpu (locks s lk))) s) k =
    if decide (k = lk) then mk_spinlock 1 (lk_cpu (locks s lk)) else locks s k) as E by (intros; apply set_lock_at).
  constructor; cbn in *.
  - intros k. rewrite E. setoid_rewrite Ho. destruct (decide (k = lk)) as [->|Hne].
    + split; [intros _; exists c; by right|done].
    + rewrite I1. split; intros (d & Hd); exists d; [by left|]. by destruct Hd as [?|[_ ?]].
  - intros d1 d2 k [H1|[-> ->]]%Ho [H2|[-> Hk]]%Ho; [by eapply I2|subst; by apply Hfree in H1|by apply Hfree in H2|done].
  - intros d k. rewrite E, <- I3. by destruct (decide (k = lk)) as [->|].
  - done.
  - intros d k. destruct (decide (c = d)) as [<-|Hne]; [|rewrite fn_lookup_insert_ne by done; apply I5].
    rewrite fn_lookup_insert. intros [H|?]; [injection H as ->|done]. intros Hin. apply (Hfree c). by left.
  - intros d. rewrite I6. destruct (decide (c = d)) as [<-|Hne]; [by rewrite fn_lookup_insert, Hp|by rewrite fn_lookup_insert_ne].
  - done.
Qed.

(** The processor enters itself in the lock. *)
Lemma sinv_record s s' pl h c lk : sinv (mk_sconf s pl h) -> pl c = PGot lk -> Spin.acquire_record c lk s = Ret tt s' ->
  sinv (mk_sconf s' (<[c := PRun]> pl) (<[c := lk :: h c]> h)).
Proof.
  intros [I1 I2 I3 I4 I5 I6 I7] Hp [= <-]. cbn in *.
  assert (owner pl h c lk) as Hown by (right; by left).
  assert (forall d k, owner (<[c := PRun]> pl) (<[c := lk :: h c]> h) d k <-> owner pl h d k) as Ho.
  { intros d k. unfold owner. destruct (decide (c = d)) as [<-|Hne]; [|by rewrite !fn_lookup_insert_ne].
    rewrite !fn_lookup_insert, Hp, elem_of_cons. split; [intros [[->|?]|[?|?]]; auto; done|].
    intros [?|[H|?]]; [auto|injection H as ->; auto|done]. }
  assert (forall k, locks (set_lock lk (mk_spinlock (lk_locked (locks s lk)) (Some c)) s) k =
    if decide (k = lk) then mk_spinlock (lk_locked (locks s lk)) (Some c) else locks s k) as E by (intros; apply set_lock_at).
  assert (forall d, lk ∈ h d -> False) as Hnone.
  { intros d Hd. assert (d = c) as -> by (eapply I2; [left|]; done). by apply (I5 c lk); [left|]. }
  constructor; cbn in *.
  - intros k. rewrite E. setoid_rewrite Ho. rewrite <- I1. by destruct (decide (k = lk)) as [->|].
  - intros d1 d2 k. rewrite !Ho. apply I2.
  - intros d k. rewrite E. destruct (decide (c = d)) as [<-|Hne].
    + rewrite fn_lookup_insert, elem_of_cons, <- I3. destruct (decide (k = lk)) as [->|]; [cbn; tauto|]. tauto.
    + rewrite fn_lookup_insert_ne by done. destruct (decide (k = lk)) as [->|]; [|apply I3]. cbn.
      split; [congruence|]. by intros ?%Hnone.
  - intros d. destruct (decide (c = d)) as [<-|Hne]; [|by rewrite fn_lookup_insert_ne].
    rewrite fn_lookup_insert. constructor; [|done]. by intros ?%Hnone.
  - intros d k. destruct (decide (c = d)) as [<-|Hne]; [|rewrite !fn_lookup_insert_ne by done; apply I5].
    rewrite fn_lookup_insert. by intros [?|?].
  - intros d. rewrite I6. destruct (decide (c = d)) as [<-|Hne]; [|by rewrite !fn_lookup_insert_ne].
    rewrite !fn_lookup_insert, Hp. cbn [length in_code]. lia.
  - done.
Qed.

Lemma filter_length_remove (lk : lockid) l : NoDup l -> lk ∈ l -> length l = S (length (filter (fun k => k <> lk) l)).
Proof.
  intros Hn Hin. apply elem_of_Permutation in Hin as (l' & El). rewrite El in *. apply NoDup_cons in Hn as [Hk _].
  rewrite filter_cons, decide_False by auto. cbn [length]. do 2 f_equal. clear El l.
  induction l' as [|k l' IH]; [done|]. apply not_elem_of_cons in Hk as [Hne Hk]. rewrite filter_cons, decide_True by auto.
  by rewrite <- IH.
Qed.

(** The processor takes itself out of the lock, but still owns it. *)
Lemma sinv_leave s s' pl h c lk : sinv (mk_sconf s pl h) -> pl c = PRun -> Spin.release_enter c lk s = Ret tt s' ->
  sinv (mk_sconf s' (<[c := PStore lk]> pl) (<[c := filter (fun l => l <> lk) (h c)]> h)).
Proof.
  intros Hx Hp Hr. pose proof (sinv_cpu_ok _ c Hx) as Hok. cbn in Hok.
  destruct (release_enter_run c lk s Hok) as (s1 & E & Hc & Hl). pose proof (sinv_holding _ c lk Hx) as Hh. cbn in Hh.
  rewrite Hh in E, Hl. rewrite Hr in E. destruct (bool_decide_reflect (lk ∈ h c)) as [Hin|]; [|done]. injection E as <-.
  cbn [andb] in Hl. destruct Hx as [I1 I2 I3 I4 I5 I6 I7]. cbn in *.
  assert (forall d k, owner (<[c := PStore lk]> pl) (<[c := filter (fun l => l <> lk) (h c)]> h) d k <-> owner pl h d k) as Ho.
  { intros d k. unfold owner. destruct (decide (c = d)) as [<-|Hne]; [|by rewrite !fn_lookup_insert_ne].
    rewrite !fn_lookup_insert, Hp, list_elem_of_filter. split.
    - intros [[_ H]|[H|H]]; [by left|done|]. injection H as ->. by left.
    - intros [H|[H|H]]; [|done..]. destruct (decide (k = lk)) as [->|]; [by right; right|by left]. }
  constructor; cbn.
  - intros k. setoid_rewrite Ho. rewrite <- I1, Hl. destruct (bool_decide_reflect (k = lk)) as [->|]; reflexivity.
  - intros d1 d2 k. rewrite !Ho. apply I2.
  - intros d k. rewrite Hl. destruct (decide (c = d)) as [<-|Hne].
    + rewrite fn_lookup_insert, list_elem_of_filter, <- I3.
      destruct (bool_decide_reflect (k = lk)) as [->|Hk]; cbn; [|tauto]. split; [done|by intros [? _]].
    + rewrite fn_lookup_insert_ne by done. destruct (bool_decide_reflect (k = lk)) as [->|]; [|apply I3]. cbn. split; [done|].
      intros Hd. by destruct (Hne (I2 c d lk (or_introl Hin) (or_introl Hd))).
  - intros d. destruct (decide (c = d)) as [<-|]; [|by rewrite fn_lookup_insert_ne]. rewrite fn_lookup_insert. by apply NoDup_filter.
  - intros d k. destruct (decide (c = d)) as [<-|]; [|rewrite !fn_lookup_insert_ne by done; apply I5].
    rewrite !fn_lookup_insert. intros [?|H]; [done|]. injection H as ->. by intros [? _]%list_elem_of_filter.
  - intros d. rewrite Hc. destruct (decide (d = c)) as [->|]; [|by rewrite !fn_lookup_insert_ne].
    rewrite !fn_lookup_insert. cbn. rewrite I6, Hp. cbn. rewrite (filter_length_remove lk (h c)) by done. lia.
  - intros d. rewrite Hc. destruct (decide (d = c)) as [->|]; [|apply I7]. cbn. apply I7.
Qed.

(** The lock is free again. *)
Lemma sinv_store s s' pl h c lk : sinv (mk_sconf s pl h) -> pl c = PStore lk -> Spin.release_store lk s = Ret tt s' ->
  sinv (mk_sconf s' (<[c := PPop]> pl) h).
Proof.
  intros [I1 I2 I3 I4 I5 I6 I7] Hp [= <-]. cbn in *.
  assert (owner pl h c lk) as Hown by (by right; right).
  assert (forall d k, owner (<[c := PPop]> pl) h d k <-> owner pl h d k /\ k <> lk) as Ho.
  { intros d k. unfold owner. destruct (decide (c = d)) as [<-|Hne].
    - rewrite fn_lookup_insert, Hp. split.
      + intros [H|[?|?]]; [|done..]. split; [by left|]. intros ->. by apply (I5 c lk); [right|].
      + intros [[H|[H|H]] Hk]; [by left|done|]. by injection H as ->.
    - rewrite fn_lookup_insert_ne by done. split; [|by intros [? _]]. intros H. split; [done|]. intros ->.
      by destruct (Hne (I2 c d lk Hown H)). }
  assert (forall k, locks (set_lock lk (mk_spinlock 0 (lk_cpu (locks s lk))) s) k =
    if decide (k = lk) then mk_spinlock 0 (lk_cpu (locks s lk)) else locks s k) as E by (intros; apply set_lock_at).
  constructor; cbn in *.
  - intros k. rewrite E. setoid_rewrite Ho. destruct (decide (k = lk)) as [->|]; cbn.
    + split; [done|]. by intros (d & _ & ?).
    + rewrite I1. split; intros (d & H); exists d; tauto.
  - intros d1 d2 k [H1 _]%Ho [H2 _]%Ho. by eapply I2.
  - intros d k. rewrite E, <- I3. by destruct (decide (k = lk)) as [->|].
  - done.
  - intros d k. destruct (decide (c = d)) as [<-|Hne]; [|rewrite fn_lookup_insert_ne by done; apply I5].
    rewrite fn_lookup_insert. by intros [?|?].
  - intros d. rewrite I6. destruct (decide (c = d)) as [<-|Hne]; [by rewrite fn_lookup_insert, Hp|by rewrite fn_lookup_insert_ne].
  - done.
Qed.

Lemma sstep_inv x x' : sstep x x' -> sinv x -> sinv x'.
Proof.
  destruct 1; intros Hx; subst;
    eauto using sinv_enter, sinv_spin, sinv_got, sinv_record, sinv_leave, sinv_store, sinv_pop, sinv_intr.
Qed.

Lemma spin_reachable x0 x : sinit x0 -> rtc sstep x0 x -> sinv x.
Proof. intros Hi%sinit_inv Hr. induction Hr as [|a b c Hs _ IH]; eauto using sstep_inv. Qed.
