(* ===== verification/Example.v ===== *)
(** * A concrete machine

    Values for the symbols of the linker and a kernel state to run the
    definitions on: process 1 runs with one page of user memory, process 2 is
    its exited child, and a hundred pages are free.  The state satisfies the
    invariants of the development, which shows that they can hold together. *)

From S2P Require Import Prelude CString Mem KState Mmu Console Kalloc Vm AddrSpace VmSpec VmGrow.
From S2P Require Import VmFork File Proc ProcMem ForkSpec WaitSpec Syscall UserMem Bio.

(** ** Symbols *)

#[export] Instance linker0 : Linker := {|
  kdata := 0x80108000; kend := 0x801154a8; forkret_addr := 0x80103c40; trapret_addr := 0x80105aa2;
  kdata_low := eq_refl; kdata_aligned := eq_refl; kend_low := ltac:(done); kend_high := eq_refl
|}.

(** A file system without files: no transaction, no pipe, no path. *)
#[export] Instance fsops0 : FsOps := {|
  fs_begin_op := ret tt; fs_end_op := ret tt; fs_iput := fun _ => ret tt; fs_pipeclose := fun _ _ => ret tt;
  fs_namei := fun _ => ret None; fs_iinit := fun _ => ret tt; fs_initlog := fun _ => ret tt
|}.

(** A disk of a thousand blocks. *)
#[export] Instance disk_1000 : Disk := {| disksize := 1000 |}.

(** ** Memory *)

Definition pg (n : Z) : Z := 0x80200000 + 4096 * n.

Definition stack0 : Z := pg 0.
Definition dir0 : Z := pg 1.
Definition tab0 : Z := pg 2.
Definition user0 : Z := pg 3.
Definition stack1 : Z := pg 4.
Definition dir1 : Z := pg 5.
Definition free0 : list Z := pg <$> seqZ 6 100.

(** Each page of the list points to the next one. *)
Fixpoint link_pages (m : memory) (l : list Z) : memory :=
  match l with
  | [] => m
  | p :: l' => st32 (link_pages m l') p (hd 0 l')
  end.

Definition mem_free : memory := link_pages (fun _ => 0) free0.
Definition mem_table : memory := with_table mem_free dir0 0 tab0.
Definition mem0 : memory := st32 mem_table tab0 (table_entry user0).

(** ** Processes *)

Definition tf0 : trapframe :=
  mk_trapframe 0 0 0 0 0 0 0 1 0 0 0x23 0x23 64 0 0 0x1b FL_IF 4000 0x23.

Definition name0 : list Z := bytes "init" ++ replicate 12 0.

Definition parent0 : proc :=
  mk_proc 4096 dir0 stack0 RUNNING 1 None tf0 (mk_context 0 0 0 0 0) None 0
    (Some 0%nat :: replicate 15 None) (Some 0%nat) name0 60 0 0 0.

Definition child0 : proc :=
  mk_proc 0 dir1 stack1 ZOMBIE 2 (Some 0%nat) tf0 (mk_context 0 0 0 0 0) None 0
    (replicate 16 None) None name0 60 3 9 2.

Definition unused0 : proc :=
  mk_proc 0 0 0 UNUSED 0 None tf0 (mk_context 0 0 0 0 0) None 0 (replicate 16 None) None
    (replicate 16 0) 0 0 0 0.

Definition file0 : file := mk_file FD_INODE 1 1 1 0 (Some 0%nat) 0.
Definition inode0 : inode := mk_inode 1 1 1 false 0 false 0 0 0 0 0 [].

Definition s0 : kstate :=
  mk_kstate [] (Some 0%nat) mem0 (pg 6) true (parent0 :: child0 :: replicate 62 unused0) 3 10
    (Some 0%nat) false (V2P dir0) 0 (replicate 8 (mk_shm_region 0 0)) (replicate 4 0)
    (mk_umutex true false 0 :: replicate 9 (mk_umutex false false 0)) true 0 false 1 ∅ ∅
    (file0 :: replicate 99 (mk_file FD_NONE 0 0 0 0 None 0))
    (inode0 :: replicate 49 (mk_inode 0 0 0 false 0 false 0 0 0 0 0 [])) 1 true []
    ∅ (replicate NBUF (mk_buf 0 0 0 false 0 0 (replicate 512 0))) (rev (seq 0 NBUF))
    (mk_logst 2 30 0 false 1 0 (replicate 30 0)) (mk_superblock 1000 941 200 30 2 32 58)
    (fun _ => replicate 512 0) [] (mk_cinput (replicate 128 0) 0 0 0).

(** ** The invariants hold *)

Lemma pg_page n : 0 <= n < 1000 -> is_page (pg n).
Proof.
  intros Hn. split; [unfold pg; Z.div_mod_to_equations; lia|].
  change kend with 0x801154a8. unfold pg, KERNBASE, PHYSTOP. lia.
Qed.

Lemma pg_inj a b : pg a = pg b -> a = b.
Proof. unfold pg. lia. Qed.

Lemma elem_of_free0 q : q ∈ free0 <-> exists n, q = pg n /\ 6 <= n < 106.
Proof.
  unfold free0. rewrite list_elem_of_fmap. split; intros (n & -> & Hn); exists n; (split; [done|]);
    revert Hn; rewrite elem_of_seqZ; lia.
Qed.

Lemma pg_not_free n : 0 <= n < 6 -> ~ pg n ∈ free0.
Proof. intros Hn (k & E%pg_inj & Hk)%elem_of_free0. lia. Qed.

Lemma free0_pages : Forall is_page free0.
Proof. apply Forall_forall. intros q (n & -> & Hn)%elem_of_free0. apply pg_page. lia. Qed.

Lemma free0_nodup : NoDup free0.
Proof. apply NoDup_fmap_2_strong; [|apply NoDup_seqZ]. intros a b _ _. apply pg_inj. Qed.

Lemma frame_first m p v : frame (eq p) m (st32 m p v).
Proof. pose proof (frame_st32 p 0 m v) as H. rewrite Z.add_0_r in H. apply H. lia. Qed.

Lemma link_pages_frame m l : frame (fun q => q ∈ l) m (link_pages m l).
Proof.
  induction l as [|p l IH]; [apply frame_refl|]. cbn [link_pages].
  eapply frame_trans; [eapply frame_weaken; [|exact IH]; intros q Hq; by apply list_elem_of_further|].
  eapply frame_weaken; [|apply frame_first].
  intros q <-. apply list_elem_of_here.
Qed.

Lemma link_pages_chain m l : Forall is_page l -> NoDup l -> chain (link_pages m l) (hd 0 l) l.
Proof.
  induction l as [|p l IH]; [done|]. intros [Hp Hl]%Forall_cons [Hn Hd]%NoDup_cons. cbn [chain link_pages hd].
  split; [done|]. rewrite ld32_st32_same.
  - eapply (chain_frame (eq p)); [|by intros ? <-|done|intros q Hq ->; done|by apply IH].
    apply frame_first.
  - destruct l as [|q l]; [cbn; lia|]. apply is_page_u32. by apply Forall_cons in Hl as [? _].
Qed.


(** The directory of the parent has one table with one page; the child's is
    empty. *)

Lemma mem_free_zero n i : 0 <= n < 6 -> 0 <= i < 1024 -> ld32 mem_free (pg n + 4 * i) = 0.
Proof.
  intros Hn Hi. unfold mem_free. rewrite (frame_ld32 (fun q => q ∈ free0) (fun _ => 0));
    [done|apply link_pages_frame|apply pg_page; lia| |by apply pg_not_free|lia].
  intros q Hq. by eapply Forall_forall in Hq; [|exact free0_pages].
Qed.

Lemma aspace_free0 n k : 0 <= n < 6 -> 0 <= k < 6 -> n <> k ->
  aspace mem_free (pg n) (pg k :: free0) /\ (forall vb, pte_of mem_free (pg n) vb = 0) /\
  (forall q, own mem_free (pg n) q -> q = pg n).
Proof.
  intros Hn Hk Hne. apply aspace_zero_dir; [apply pg_page; lia| |intros i Hi; by apply mem_free_zero].
  intros [E%pg_inj|H]%elem_of_cons; [done|by apply (pg_not_free n)].
Qed.

Lemma table0_absent : present (pde mem_free dir0 0) = false.
Proof. unfold pde, dir0. by rewrite (mem_free_zero 1 0) by lia. Qed.

Lemma mem_table_as : aspace mem_table dir0 free0.
Proof.
  destruct (aspace_free0 1 2) as (Ha & _ & _); [lia..|].
  eapply new_table_aspace; [exact Ha|apply pg_page; lia|lia|exact table0_absent|by apply (pg_not_free 2)].
Qed.

Lemma mem_table_own q : own mem_table dir0 q <-> q = dir0 \/ q = tab0.
Proof.
  destruct (aspace_free0 1 2) as (Ha & _ & Ho); [lia..|].
  unfold mem_table. rewrite (new_table_own _ _ _ _ _ Ha);
    [|apply pg_page; lia|lia|exact table0_absent].
  split; (intros [H| ->]; [left|by right]); [by apply Ho|subst q; constructor].
Qed.

Lemma mem_table_pte vb : pte_of mem_table dir0 vb = 0.
Proof.
  destruct (aspace_free0 1 2) as (Ha & Hz & _); [lia..|].
  unfold mem_table. rewrite (new_table_pte _ _ _ _ _ Ha);
    [apply Hz|apply pg_page; lia|lia|exact table0_absent].
Qed.

Lemma mem_table_tab : present (pde mem_table dir0 0) = true /\ tab mem_table dir0 0 = tab0.
Proof.
  destruct (aspace_free0 1 2) as (Ha & _ & _); [lia..|]. unfold mem_table.
  rewrite (new_table_present _ _ _ _ _ Ha), (new_table_tab _ _ _ _ _ Ha) by (first [apply pg_page; lia|lia]).
  done.
Qed.

Lemma user0_entry : leaf (table_entry user0) = user0 /\ present (table_entry user0) = true /\
  0 <= table_entry user0 < 2 ^ 32.
Proof. apply table_entry_leaf, pg_page. lia. Qed.

Lemma mem0_eq : mem0 = st32 mem_table (tab mem_table dir0 (PDX 0) + 4 * PTX 0) (table_entry user0).
Proof. change (PDX 0) with 0. change (PTX 0) with 0. by rewrite (proj2 mem_table_tab). Qed.

Lemma user0_new : ~ own mem_table dir0 user0.
Proof. by intros [E%pg_inj|E%pg_inj]%mem_table_own. Qed.

Lemma uva_0 : uva 0.
Proof. by split. Qed.

Lemma dir0_as : aspace mem0 dir0 free0.
Proof.
  rewrite mem0_eq. destruct user0_entry as (Hl & Hp & Hr).
  eapply set_pte_aspace; [exact mem_table_as|apply mem_table_tab|exact uva_0| |exact Hr|exact Hl|exact Hp
    |apply pg_page; lia|by apply (pg_not_free 3)|exact user0_new].
  by rewrite mem_table_pte.
Qed.

Lemma dir0_own q : own mem0 dir0 q <-> q ∈ [dir0; tab0; user0].
Proof.
  rewrite mem0_eq. destruct user0_entry as (Hl & Hp & Hr).
  rewrite (set_pte_own _ _ _ _ user0 _ mem_table_as);
    [|apply mem_table_tab|exact uva_0|by rewrite mem_table_pte|exact Hr|exact Hl|exact Hp].
  rewrite mem_table_own, !elem_of_cons, elem_of_nil. tauto.
Qed.

Lemma dir0_pte vb : vpage vb -> pte_of mem0 dir0 vb = if decide (vb = 0) then table_entry user0 else 0.
Proof.
  intros Hvb. rewrite mem0_eq. rewrite (set_pte_pte _ _ _ _ _ mem_table_as);
    [|apply mem_table_tab|exact uva_0|apply user0_entry|done].
  by rewrite mem_table_pte.
Qed.

Lemma mem0_frame : frame (fun q => q = dir0 \/ q = tab0) mem_free mem0.
Proof.
  eapply frame_trans; [apply (new_table_frame mem_free dir0 tab0 0); lia|].
  eapply frame_weaken; [|apply frame_first]. intros q <-. by right.
Qed.

Lemma tables_pages q : q = dir0 \/ q = tab0 -> is_page q.
Proof. intros [-> | ->]; apply pg_page; lia. Qed.

Lemma tables_not_dir1 : untouched (fun q => q = dir0 \/ q = tab0) mem_free dir1.
Proof.
  split; [by intros [E%pg_inj|E%pg_inj]|]. intros i Hi Hp. exfalso. revert Hp.
  unfold pde, dir1. by rewrite mem_free_zero by lia.
Qed.

Lemma dir1_as : aspace mem0 dir1 free0.
Proof.
  destruct (aspace_free0 5 0) as (Ha & _ & _); [lia..|].
  eapply aspace_frame; [exact mem0_frame|exact tables_pages| |exact tables_not_dir1].
  eapply aspace_subset; [exact Ha|]. intros q Hq. by apply list_elem_of_further.
Qed.

Lemma dir1_pte vb : pte_of mem0 dir1 vb = 0.
Proof.
  destruct (aspace_free0 5 0) as (Ha & Hz & _); [lia..|].
  unfold dir1. rewrite (pte_frame _ _ _ _ _ vb mem0_frame tables_pages Ha tables_not_dir1). apply Hz.
Qed.

Lemma dir1_own q : own mem0 dir1 q <-> q = dir1.
Proof.
  destruct (aspace_free0 5 0) as (Ha & _ & Ho); [lia..|].
  unfold dir1. rewrite (own_frame _ _ _ _ _ q mem0_frame tables_pages Ha tables_not_dir1).
  split; [apply Ho|intros ->; constructor].
Qed.

Lemma s0_free : free_pages s0 free0.
Proof.
  split; [|split; [exact free0_nodup|exact free0_pages]].
  eapply (chain_frame (fun q => q = dir0 \/ q = tab0));
    [exact mem0_frame|exact tables_pages|exact free0_pages| |].
  - intros q Hq [-> | ->]; by eapply pg_not_free in Hq.
  - exact (link_pages_chain (fun _ => 0) free0 free0_pages free0_nodup).
Qed.

Lemma s0_slot i p : ptable s0 !! i = Some p ->
  (i = 0%nat /\ p = parent0) \/ (i = 1%nat /\ p = child0) \/ p = unused0.
Proof.
  destruct i as [|[|i]]; cbn [s0 ptable lookup list_lookup]; [intros [= <-]; by left|intros [= <-]; right; by left|].
  intros [-> _]%lookup_replicate. by do 2 right.
Qed.

(** Who owns the first pages. *)
Definition owned0 (i : nat) : list Z :=
  match i with
  | O => [stack0; dir0; tab0; user0]
  | S O => [stack1; dir1]
  | _ => []
  end.

Lemma s0_owns i p x : ptable s0 !! i = Some p -> powns mem0 p x -> x ∈ owned0 i.
Proof.
  intros [[-> ->]|[[-> ->]| ->]]%s0_slot; intros [[Hk ->]|[Hm Ho]]; try done.
  - apply list_elem_of_here.
  - apply dir0_own in Ho. by apply list_elem_of_further.
  - apply list_elem_of_here.
  - apply dir1_own in Ho as ->. apply list_elem_of_further, list_elem_of_here.
Qed.

Lemma owned0_pg i x : x ∈ owned0 i ->
  exists n, x = pg n /\ (i = 0%nat /\ 0 <= n < 4 \/ i = 1%nat /\ 4 <= n < 6).
Proof.
  destruct i as [|[|i]]; cbn [owned0]; rewrite ?elem_of_cons, elem_of_nil.
  - intros [->|[->|[->|[->|[]]]]]; eexists; (split; [reflexivity|lia]).
  - intros [->|[->|[]]]; eexists; (split; [reflexivity|lia]).
  - done.
Qed.

Lemma s0_full vb i p : ptable s0 !! i = Some p -> has_mem p = true -> uva vb ->
  present (pte_of mem0 (p_pgdir p) vb) = true <-> vb < p_sz p.
Proof.
  intros [[-> ->]|[[-> ->]| ->]]%s0_slot Hm Hvb; [| |done].
  - cbn [p_pgdir p_sz parent0]. rewrite dir0_pte by (by apply uva_vpage). destruct Hvb as [Hr Ha].
    case_decide as E; [rewrite E; split; [lia|intros _; apply user0_entry]|].
    split; [done|]. Z.div_mod_to_equations. lia.
  - cbn [p_pgdir p_sz child0]. rewrite dir1_pte. destruct Hvb. split; [done|lia].
Qed.

Lemma s0_pmem : pmem s0 free0.
Proof.
  constructor.
  - exact s0_free.
  - intros i p x Hi (n & -> & Hn)%(s0_owns i p x Hi)%owned0_pg. apply pg_page. lia.
  - intros i p x Hi (n & -> & Hn)%(s0_owns i p x Hi)%owned0_pg. apply pg_not_free. lia.
  - intros i j p q x Hi Hj (n & -> & Hn)%(s0_owns i p x Hi)%owned0_pg
      (k & E%pg_inj & Hk)%(s0_owns j q _ Hj)%owned0_pg. lia.
  - intros i p [[-> ->]|[[-> ->]| ->]]%s0_slot; done.
  - intros i p [[-> ->]|[[-> ->]| ->]]%s0_slot Hm; [| |done].
    + intros H%dir0_own. rewrite !elem_of_cons, elem_of_nil in H. by destruct H as [|[|[|[]]]].
    + intros H%dir1_own. done.
  - intros i p [[-> ->]|[[-> ->]| ->]]%s0_slot Hm; [exact dir0_as|exact dir1_as|done].
  - intros i p vb. apply s0_full.
  - intros i p [[-> ->]|[[-> ->]| ->]]%s0_slot Hm; unfold KERNBASE; cbn; [lia|lia|done].
  - intros i p [[-> ->]|[[-> ->]| ->]]%s0_slot; done.
Qed.

Lemma s0_shape : pshape s0.
Proof.
  constructor; [done| |]; intros i p [[-> ->]|[[-> ->]| ->]]%s0_slot; done.
Qed.

Lemma s0_parent : parent_ok s0 0 parent0.
Proof.
  constructor; [done|done| |by exists 0%nat, inode0].
  intros fd Hfd%elem_of_seq. destruct fd as [|fd].
  - exists (Some 0%nat). split; [done|]. intros f [= <-]. exists file0. split; [done|]. cbn. lia.
  - exists None. split; [|done]. cbn [parent0 p_ofile]. rewrite lookup_cons, lookup_replicate.
    unfold NOFILE in Hfd. split; [done|lia].
Qed.

Lemma s0_caller : caller s0 free0 0 parent0.
Proof. constructor; [exact s0_pmem|done..]. Qed.

Lemma s0_ucaller : ucaller s0 free0 0 parent0.
Proof. constructor; [exact s0_caller|done]. Qed.

(** The user page of the parent is all zeros, and so are the arguments of its
    system calls. *)

Lemma user0_zero o : 0 <= o < 4096 -> user_byte s0 parent0 o = 0.
Proof.
  intros Ho. unfold user_byte. cbn [s0 mem parent0 p_pgdir].
  rewrite <- (pte_of_page mem0 dir0 o) by lia.
  replace (o - o mod 4096) with 0 by (Z.div_mod_to_equations; lia).
  rewrite dir0_pte by (split; [lia|done]). rewrite decide_True by done.
  rewrite (proj1 user0_entry). rewrite Z.mod_small by (unfold PGSIZE; lia). unfold ld8.
  rewrite (frame_byte _ _ _ user0 (user0 + o) mem0_frame); [|apply pg_page; lia|exact tables_pages
    |by intros [E%pg_inj|E%pg_inj]|lia].
  unfold mem_free. rewrite (frame_byte _ _ _ user0 (user0 + o) (link_pages_frame (fun _ => 0) free0));
    [done|apply pg_page; lia| |by apply (pg_not_free 3)|lia].
  intros q Hq. by eapply Forall_forall in Hq; [|exact free0_pages].
Qed.

Lemma arg0_zero : argint 0 s0 = Ret (Some 0) s0.
Proof.
  rewrite (argint_spec s0 free0 0 parent0 0 s0_ucaller). change (arg_addr parent0 0) with 4004.
  unfold user_word. by rewrite !user0_zero by lia.
Qed.
