(* ===== verification/ProcResults.v ===== *)
(** * Main theorems: memory, processes, scheduling and exit

    What the page allocator, the address spaces, the process operations and the
    scheduler guarantee together, each with an instance on the machine of
    [Example]. *)

From S2P Require Import Prelude CString Mem KState Mmu Console Kalloc Vm AddrSpace VmSpec VmGrow VmFork.
From S2P Require Import File Proc Syscall Sysproc ProcMem ForkSpec ProcGrow WaitSpec UserMem Sched.
From S2P Require Import Example.

Section results.
Context {LK : Linker} {FS : FsOps}.

(** C2: fork creates a process whose memory is a copy of the caller's in pages
    that were free, keeps the invariant that no page belongs to two owners,
    counts the new references to open files, and takes the first unused slot;
    when it fails no page is lost and no process appears. *)
Theorem fork_isolates s l me p :
  pmem s l -> pshape s -> cur s = Some me -> parent_ok s me p -> held s = [] ->
  exists r s' l', fork s = Ret r s' /\ pmem s' l' /\
    ((r = nextpid s /\ fork_done s s' l l' me p (fun c => c)) \/ (r = -1 /\ fork_failed s s' l l')).
Proof.
  intros Hp Hsh Hc Hpa Hh. unfold fork. rewrite (run_curproc me) by done.
  apply (fork_from_spec s l me p (fun _ => ret tt) (fun c => c)); auto using sets_priority_fork.
Qed.

(** Fork2 refuses a priority outside 0..100 without any effect, and
    otherwise forks like fork, with the priority stored in the child. *)
Theorem fork2_priority s l me p pr :
  pmem s l -> pshape s -> cur s = Some me -> parent_ok s me p -> held s = [] ->
  if (0 <=? pr) && (pr <=? 100)
  then exists r s' l', fork2 pr s = Ret r s' /\ pmem s' l' /\
    ((r = nextpid s /\ fork_done s s' l l' me p (set_p_priority pr)) \/ (r = -1 /\ fork_failed s s' l l'))
  else fork2 pr s = Ret (-1) s.
Proof.
  intros Hp Hsh Hc Hpa Hh. unfold fork2. rewrite (run_curproc me) by done.
  destruct ((0 <=? pr) && (pr <=? 100)) eqn:E.
  - bool_prop. zbool.
    apply (fork_from_spec s l me p (fun np => upd_proc np (set_p_priority pr)) (set_p_priority pr));
      auto using sets_priority_fork2.
  - replace (_ || _) with true; [done|]. bool_prop.
    destruct (pr <? 0) eqn:E1, (100 <? pr) eqn:E2; try done. bool_prop. destruct E; bool_prop; lia.
Qed.


(** C24: wait returns the pid of the first exited child and gives all its pages
    back to the free list; without an exited child it sleeps when it has a
    live child and was not killed, and returns -1 otherwise. *)
Theorem wait_reaps s l me p : caller s l me p ->
  round_spec (my_child me) (set_held [LkPtable] s) l me p (wait s).
Proof. apply wait_spec. Qed.

(** Waitpid does what wait does, for the child with the given pid only. *)
Theorem waitpid_reaps s l me p pid : caller s l me p -> argint 0 s = Ret (Some pid) s ->
  round_spec (my_child_pid me pid) (set_held [LkPtable] s) l me p (sys_waitpid s).
Proof. apply sys_waitpid_spec. Qed.

(** Allocating user memory (unless it fails) and deallocating it again
    restores which addresses are mapped and the set of free pages together
    with those the address space owns. *)
Theorem alloc_dealloc_roundtrip s dir oldsz newsz l :
  free_pages s l -> aspace (mem s) dir l -> LkKmem ∉ held s -> LkCons ∉ held s ->
  0 <= oldsz <= newsz -> 0 < newsz < KERNBASE ->
  (forall vb, uva vb -> PGROUNDUP oldsz <= vb < newsz -> present (pte_of (mem s) dir vb) = false) ->
  exists r s1, allocuvm dir oldsz newsz s = Ret r s1 /\
    (r = 0 \/ exists s2 l2, r = newsz /\ deallocuvm dir newsz oldsz s1 = Ret oldsz s2 /\
      free_pages s2 l2 /\ aspace (mem s2) dir l2 /\
      (forall q, res (mem s2) dir l2 q <-> res (mem s) dir l q) /\
      (forall vb, uva vb -> present (pte_of (mem s2) dir vb) = present (pte_of (mem s) dir vb))).
Proof.
  intros Hf Ha Hk Hc Ho Hn Hfree.
  destruct (allocuvm_spec s dir oldsz newsz l) as (r & s1 & l1 & Hr & Hcase);
    [done|done|done|done|lia|lia|done|].
  destruct Hcase as [(-> & [Hst Hf1 Ha1 Hres Hown Hsub Htabs Hfr] & Hout & _)|(-> & _)].
  - destruct (deallocuvm_spec s1 dir newsz oldsz l1) as (s2 & l2 & Hd & [Q1 Q2 Q3 Q4 Q5 Q6 Q7 Q8]);
      [done|done|by rewrite (vmstep_held _ _ Hst)|lia..|].
    exists newsz, s1. split; [done|]. right. exists s2, l2. rewrite Z.min_r in Hd by lia.
    do 4 (split; [done|]). split.
    + intros q. rewrite Q4, Hres. tauto.
    + intros vb Hvb. destruct (decide (PGROUNDUP oldsz <= vb < newsz)) as [Hin|Hnin].
      * by rewrite Q6, Hfree.
      * by rewrite Q7, Hout by (by try apply uva_vpage).
  - exists 0, s1. split; [done|]. by left.
Qed.

(** Freevm returns exactly the pages of the address space (directory,
    tables and user pages) to the free list, and writes to no other page. *)
Theorem freevm_returns_all s dir l :
  free_pages s l -> aspace (mem s) dir l -> LkKmem ∉ held s ->
  exists s' l', freevm dir s = Ret tt s' /\ free_pages s' l' /\
    (forall q, q ∈ l' <-> own (mem s) dir q \/ q ∈ l) /\
    frame (own (mem s) dir) (mem s) (mem s').
Proof.
  intros Hf Ha Hk. destruct (freevm_spec s dir l Hf Ha Hk) as (s' & l' & Hr & _ & Hf' & Hq & Hfr).
  exists s', l'. done.
Qed.

(** Setupkvm builds a directory of free pages that maps every range of
    kmap with its permissions and no user address; out of memory it returns 0
    and has given every page back. *)
Theorem setupkvm_maps_kernel s l : free_pages s l -> LkKmem ∉ held s ->
  exists r s' l', setupkvm s = Ret r s' /\ free_pages s' l' /\
    frame (fun q => q ∈ l) (mem s) (mem s') /\
    ((r <> 0 /\ aspace (mem s') r l' /\ (forall q, own (mem s') r q \/ q ∈ l' <-> q ∈ l) /\
      (forall vb, uva vb -> pte_of (mem s') r vb = 0) /\
      (forall e, e ∈ kmap -> kmapped (mem s') r e)) \/
     (r = 0 /\ (forall q, q ∈ l' <-> q ∈ l) /\ (length l <= 513)%nat)).
Proof.
  intros Hf Hk. destruct (setupkvm_spec s l Hf Hk) as (r & s' & l' & Hr & _ & Hf' & Hfr & Hcase).
  exists r, s', l'. do 3 (split; [done|]). destruct Hcase as [(? & ? & ? & ? & ? & _)|?]; [left|right]; done.
Qed.

(** Freeing a page that kalloc returned restores the free list, and in
    between the page is in no list: the allocator is a stack of pages. *)
Theorem kalloc_kfree_stack s p l : free_pages s (p :: l) -> LkKmem ∉ held s ->
  exists s1 s2, kalloc s = Ret p s1 /\ free_pages s1 l /\ ~ p ∈ l /\
    kfree p s1 = Ret tt s2 /\ free_pages s2 (p :: l) /\ frame (eq p) (mem s) (mem s2).
Proof.
  intros Hf Hk. destruct (kalloc_pop s p l Hf Hk) as (f & Ha & Hf1 & Hp & Hn).
  destruct (kfree_spec (set_freelist f s) l p Hf1 Hk Hp Hn) as (s2 & Hr & Hf2 & _ & Hfr).
  exists (set_freelist f s), s2. done.
Qed.

(** Kfree panics on every address that is not a page of physical memory
    behind the kernel. *)
Theorem kfree_rejects v s : 0 <= v < 2 ^ 32 -> ~ is_page v -> kfree v s = Panic "kfree" s.
Proof. intros Hv Hn. by apply kfree_panics. Qed.

End results.

(** ** Instances on the example machine *)

Lemma not_held0 lk : lk ∉ held s0.
Proof. apply not_elem_of_nil. Qed.

Lemma fork_isolates_witness : exists r s' l', fork s0 = Ret r s' /\ pmem s' l' /\
  ((r = 3 /\ fork_done s0 s' free0 l' 0 parent0 (fun c => c)) \/ (r = -1 /\ fork_failed s0 s' free0 l')).
Proof. exact (fork_isolates s0 free0 0 parent0 s0_pmem s0_shape eq_refl s0_parent eq_refl). Defined.

Lemma fork2_priority_witness : (exists r s' l', fork2 20 s0 = Ret r s' /\ pmem s' l' /\
    ((r = 3 /\ fork_done s0 s' free0 l' 0 parent0 (set_p_priority 20)) \/
     (r = -1 /\ fork_failed s0 s' free0 l'))) /\ fork2 101 s0 = Ret (-1) s0.
Proof.
  split.
  - exact (fork2_priority s0 free0 0 parent0 20 s0_pmem s0_shape eq_refl s0_parent eq_refl).
  - exact (fork2_priority s0 free0 0 parent0 101 s0_pmem s0_shape eq_refl s0_parent eq_refl).
Defined.


(** The exited child in slot 1 is found, and its two pages come back. *)
Lemma wait_reaps_witness : exists s' l', wait s0 = Ret 2 s' /\ pmem s' l' /\
  reap_done (set_held [LkPtable] s0) s' free0 l' 1 child0.
Proof.
  destruct (wait_reaps s0 free0 0 parent0 s0_caller) as (q & s' & l' & [= <-] & _ & _ & H). eauto.
Defined.

(** Argument 0 of the example process is pid 0, which no child has. *)
Lemma waitpid_reaps_witness : sys_waitpid s0 = Ret (-1) s0.
Proof. exact (waitpid_reaps s0 free0 0 parent0 0 s0_caller arg0_zero). Defined.

Lemma alloc_dealloc_roundtrip_witness : exists r s1, allocuvm dir0 4096 8192 s0 = Ret r s1 /\
  (r = 0 \/ exists s2 l2, r = 8192 /\ deallocuvm dir0 8192 4096 s1 = Ret 4096 s2 /\ free_pages s2 l2 /\ aspace (mem s2) dir0 l2 /\
    (forall q, res (mem s2) dir0 l2 q <-> res mem0 dir0 free0 q) /\
    (forall vb, uva vb -> present (pte_of (mem s2) dir0 vb) = present (pte_of mem0 dir0 vb))).
Proof.
  apply (alloc_dealloc_roundtrip s0 dir0 4096 8192 free0 s0_free dir0_as (not_held0 _) (not_held0 _));
    [lia|unfold KERNBASE; lia|].
  intros vb Hvb Hr. cbn [s0 mem]. rewrite dir0_pte by (by apply uva_vpage). rewrite decide_False; [done|].
  change (PGROUNDUP 4096) with 4096 in Hr. lia.
Defined.

Lemma freevm_returns_all_witness : exists s' l', freevm dir0 s0 = Ret tt s' /\ free_pages s' l' /\
  (forall q, q ∈ l' <-> own mem0 dir0 q \/ q ∈ free0) /\ frame (own mem0 dir0) mem0 (mem s').
Proof. exact (freevm_returns_all s0 dir0 free0 s0_free dir0_as (not_held0 _)). Defined.

Lemma setupkvm_maps_kernel_witness : exists r s' l', setupkvm s0 = Ret r s' /\ free_pages s' l' /\
  frame (fun q => q ∈ free0) mem0 (mem s') /\
  ((r <> 0 /\ aspace (mem s') r l' /\ (forall q, own (mem s') r q \/ q ∈ l' <-> q ∈ free0) /\
    (forall vb, uva vb -> pte_of (mem s') r vb = 0) /\ (forall e, e ∈ kmap -> kmapped (mem s') r e)) \/
   (r = 0 /\ (forall q, q ∈ l' <-> q ∈ free0) /\ (length free0 <= 513)%nat)).
Proof. exact (setupkvm_maps_kernel s0 free0 s0_free (not_held0 _)). Defined.

Lemma kalloc_kfree_stack_witness : exists s1 s2, kalloc s0 = Ret (pg 6) s1 /\ free_pages s1 (tl free0) /\
  ~ pg 6 ∈ tl free0 /\ kfree (pg 6) s1 = Ret tt s2 /\ free_pages s2 free0 /\
  frame (eq (pg 6)) mem0 (mem s2).
Proof. exact (kalloc_kfree_stack s0 (pg 6) (tl free0) s0_free (not_held0 _)). Defined.

Lemma kfree_rejects_witness : kfree 0x80000000 s0 = Panic "kfree" s0.
Proof.
  apply (kfree_rejects 0x80000000 s0); [lia|]. intros [_ [H _]]. change kend with 0x801154a8 in H. lia.
Defined.

(** * Main theorems: scheduling and exit *)

Section results.
Context {LK : Linker} {FS : FsOps}.



(** C25: the last step of exit turns the caller into a zombie with its time of
    exit, gives its children to init, wakes its parent and, if a child has
    already exited, init; every other process keeps its slot as it was. *)
Theorem exit_reparents me s p : cur s = Some me -> ptable s !! me = Some p -> held s = [] ->
  length (ptable s) = NPROC ->
  exists s', exit_zombie me s = Block s' /\ held s' = [LkPtable] /\
    ptable s' !! me = Some (set_p_state ZOMBIE (set_p_etime (i32 (ticks s)) (after_exit me (initproc s) (ptable s) p p))) /\
    forall j, j <> me -> ptable s' !! j = after_exit me (initproc s) (ptable s) p <$> ptable s !! j.
Proof. intros Hc Hp Hh Hlen. by apply exit_zombie_run. Qed.

End results.

(** ** Instances *)

(** Init sleeps for a child, its child 1 runs, and the child of 1 has exited. *)
Definition sleeping_init : proc := set_p_chan (Some (ChProc 0)) (set_p_state SLEEPING parent0).
Definition leaver : proc := set_p_state RUNNING (set_p_pid 5 child0).
Definition orphan : proc := set_p_parent (Some 1%nat) (set_p_pid 6 child0).

Definition leaving : kstate :=
  set_cur (Some 1%nat) (set_ptable (sleeping_init :: leaver :: orphan :: replicate 61 unused0) s0).

Lemma exit_reparents_witness : exists s', exit_zombie 1 leaving = Block s' /\ held s' = [LkPtable] /\
  ptable s' !! 1%nat = Some (set_p_state ZOMBIE (set_p_etime 10 leaver)) /\
  forall j, j <> 1%nat -> ptable s' !! j = after_exit 1 (Some 0%nat) (ptable leaving) leaver <$> ptable leaving !! j.
Proof. exact (exit_reparents 1 leaving leaver eq_refl eq_refl eq_refl eq_refl). Defined.





