(* ===== verification/IpcResults.v ===== *)
(** * Main theorems: mutexes, spin locks, pipes and message queues

    The protocol theorems of [MutexProto] and their instances on a run of the
    machine of [Example] in which one process takes mutex 0 and the other one
    goes to sleep on it; the theorem of [Spinlock] about spin locks; the
    theorems of [PipeSpec] and [MsgSpec] on a pipe and a queue of that machine. *)

From stdpp Require Import relations functions.
From stdpp Require Import relations.
From S2P Require Import Prelude CString Mem KState Mmu Console Kalloc Vm AddrSpace VmSpec VmGrow VmFork File Proc.
From S2P Require Import Syscall Sysproc Msg Pipe ProcMem WaitSpec UserMem PipeSpec MsgSpec MutexProto Spinlock.
From S2P Require Import Example.

Section results.
Context {LK : Linker} {FS : FsOps}.

(** C3: in every reachable state at most one process is between a successful
    mutex_lock and the matching mutex_unlock of a mutex, and it is the process
    whose pid the kernel has recorded. *)
Theorem mutex_exclusion c0 c i j id :
  minit c0 -> rtc mstep c0 c -> (i, id) ∈ c_holds c -> (j, id) ∈ c_holds c ->
  i = j /\ exists p m, ptable (c_st c) !! i = Some p /\ user_mutexes (c_st c) !! id = Some m /\
    mx_locked m = true /\ mx_pid m = p_pid p.
Proof.
  intros Hi Hr H1 H2. destruct (reachable_inv _ _ Hi Hr) as [Hv _]. split; [by eapply mview_alone|].
  destruct (mv_holds _ _ _ _ Hv i id H1) as (p & m & Hp & _ & Hm & _ & Hl & E). by exists p, m.
Qed.


(** Mutex_unlock succeeds only for the process that holds the mutex; any
    other caller gets -1 and changes no mutex. *)
Theorem mutex_unlock_owner c0 s a h me id r s' :
  minit c0 -> rtc mstep c0 (mk_config s a h) -> held s = [] -> cur s = Some me -> a me = User ->
  mutex_unlock id s = Ret r s' ->
  (r = 0 /\ (me, Z.to_nat id) ∈ h) \/ (r = -1 /\ user_mutexes s' = user_mutexes s).
Proof.
  intros Hi Hr Hh Hc Ha. pose proof (reachable_inv _ _ Hi Hr) as Hinv. unfold mutex_unlock.
  destruct ((id <? 0) || (MAX_MUTEXES <=? id)) eqn:Hid; [intros [= <- <-]; by right|].
  rewrite <- bind_assoc.
  destruct ((mutex_table_init ;; mutex_unlock_release (Z.to_nat id)) s) as [ok s1|?|?|?] eqn:E;
    try (unfold bind at 1; by rewrite E).
  rewrite (bind_ret_l _ _ _ _ _ E). bool_prop.
  assert (0 <= id < MAX_MUTEXES) as Hrange by lia.
  pose proof (minv_unlock _ _ _ _ _ _ _ Hinv Hh Hc Ha Hrange E) as Hu. destruct ok; cbn [negb].
  - intros Hw. left. split; [|apply Hu]. revert Hw. unfold bind, mutex_unlock_wake.
    destruct (wakeup _ s1); try done. by intros [= <- _].
  - intros [= <- <-]. right. split; [done|]. revert E.
    destruct (minv_running _ _ _ _ Hinv Hh Hc) as (p & Hp & Hrun).
    destruct (lookup_lt_is_Some_2 (user_mutexes s) (Z.to_nat id)) as [m Hm].
    { pose proof (mv_len _ _ _ _ (mi_view _ Hinv)) as El. cbn in El. rewrite El. lia. }
    erewrite bind_ret_l by (by apply mutex_table_init_run).
    rewrite (mutex_unlock_release_run _ _ m me p) by (by ksimpl).
    destruct (_ && _); [done|]. by intros [= <-].
Qed.

(** C4: spin locks exclude: over every interleaving of the instructions of
    acquire and release on any number of processors, no lock is held by two of
    them; a processor that holds a lock has its interrupts off; and holding,
    on which the panics of acquire and release depend, tells exactly whether
    the processor holds the lock, which is how the rest of the kernel model
    sees locks. *)
Theorem spin_exclusion x0 x c : sinit x0 -> rtc sstep x0 x ->
  (forall d lk, lk ∈ sc_held x c -> lk ∈ sc_held x d -> c = d) /\
  (sc_held x c <> [] -> c_if (cpus (sc_smp x) c) = false) /\
  (forall lk, exists s', Spin.holding c lk (sc_smp x) = Ret (bool_decide (lk ∈ sc_held x c)) s').
Proof.
  intros Hi Hr. pose proof (spin_reachable _ _ Hi Hr) as Hx. split; [|split].
  - intros d lk H1 H2. eapply (si_one _ Hx); by left.
  - intros Hne. apply (si_if _ Hx). rewrite (si_ncli _ Hx). unfold in_code.
    destruct (sc_held x c); [done|]. cbn [length]. destruct (sc_place x c); lia.
  - intros lk. destruct (holding_run c lk (sc_smp x) (sinv_cpu_ok _ c Hx)) as (s' & Hrun & _). exists s'.
    by rewrite <- (sinv_holding _ c lk Hx).
Qed.

End results.

(** ** A run with two processes *)

(** Process 0 takes mutex 0 and is preempted; process 1 runs and asks for it. *)
Definition t0 : kstate :=
  set_ptable (parent0 :: set_p_state RUNNABLE child0 :: replicate 62 unused0) s0.
Definition t1 : kstate := Eval cbv -[mem0] in post (mutex_lock 0 t0).
Definition t2 : kstate := Eval cbv -[mem0] in post (yield t1).
Definition t3 : kstate := Eval cbv -[mem0] in post ((scheduler_back ;; scheduler_switch 1) t2).
Definition t4 : kstate := Eval cbv -[mem0] in post (yield_resume t3).
Definition t5 : kstate := Eval cbv -[mem0] in post (mutex_lock 0 t4).

Definition c0 : config := mk_config t0 (fun _ => User) ∅.
Definition c5 : config := mk_config t5 (<[1%nat := Waiting 0]> (fun _ => User)) ({[ (0%nat, 0%nat) ]} ∪ ∅).

Lemma t0_slot i p : ptable t0 !! i = Some p ->
  (i = 0%nat /\ p = parent0) \/ (i = 1%nat /\ p = set_p_state RUNNABLE child0) \/ p = unused0.
Proof.
  destruct i as [|[|i]]; cbn [t0 ptable set_ptable lookup list_lookup];
    [intros [= <-]; by left|intros [= <-]; right; by left|].
  intros [-> _]%lookup_replicate. by do 2 right.
Qed.

Lemma c0_init : minit c0.
Proof.
  constructor; [done|done| |done| | |by exists 0%nat, parent0].
  - intros [|id] m; [by intros [= <-]|]. cbn [c0 c_st t0 set_ptable s0 user_mutexes lookup list_lookup].
    by intros [-> _]%lookup_replicate.
  - intros i p [[-> ->]|[[-> ->]| ->]]%t0_slot; done.
  - intros i j p q [[-> ->]|[[-> ->]| ->]]%t0_slot [[-> ->]|[[-> ->]| ->]]%t0_slot; done.
Qed.

Lemma c0_c5 : rtc mstep c0 c5.
Proof.
  eapply rtc_l; [eapply (step_lock t0 _ _ 0 0 0 t1); reflexivity|].
  eapply rtc_l; [eapply (step_yield t1 _ _ 0 t2); reflexivity|].
  eapply rtc_l; [eapply (step_dispatch t2 _ _ 1 _ t3 t4); [reflexivity..|done|reflexivity|reflexivity]|].
  eapply rtc_l; [eapply (step_lock_sleep t4 _ _ 1 0 t5); reflexivity|].
  apply rtc_refl.
Qed.

Lemma c5_holds : (0%nat, 0%nat) ∈ c_holds c5.
Proof. apply elem_of_union_l, elem_of_singleton. done. Qed.

Lemma mutex_exclusion_witness : 0%nat = 0%nat /\ exists p m, ptable (c_st c5) !! 0%nat = Some p /\
  user_mutexes (c_st c5) !! 0%nat = Some m /\ mx_locked m = true /\ mx_pid m = p_pid p.
Proof. exact (mutex_exclusion c0 c5 0 0 0 c0_init c0_c5 c5_holds c5_holds). Defined.




(** Before it locks anything, process 0 cannot unlock mutex 0. *)
Lemma mutex_unlock_owner_witness : (-1 = 0 /\ (0%nat, Z.to_nat 0) ∈ c_holds c0) \/
  (-1 = -1 /\ user_mutexes (post (mutex_unlock 0 t0)) = user_mutexes t0).
Proof.
  apply (mutex_unlock_owner c0 t0 (fun _ => User) ∅ 0 0 (-1) _ c0_init (rtc_refl _ _)); reflexivity.
Defined.

(** ** Two processors and one lock *)

Definition x0 : sconf :=
  mk_sconf (mk_smp (fun _ => mk_spinlock 0 None) (fun _ => mk_cpu 0 false true)) (fun _ => PRun) (fun _ => []).

(** Processor 0 holds the lock, processor 1 spins. *)
Definition x4 : sconf :=
  let s1 := post (Spin.acquire_enter 0 LkKmem (sc_smp x0)) in
  let s2 := post (Spin.acquire_enter 1 LkKmem s1) in
  let s3 := post (Spin.xchg LkKmem s2) in
  let s4 := post (Spin.acquire_record 0 LkKmem s3) in
  let s5 := post (Spin.xchg LkKmem s4) in
  mk_sconf s5 (<[0%nat := PRun]> (<[0%nat := PGot LkKmem]> (<[1%nat := PSpin LkKmem]> (<[0%nat := PSpin LkKmem]> (sc_place x0)))))
    (<[0%nat := [LkKmem]]> (sc_held x0)).

Lemma x4_reached : rtc sstep x0 x4.
Proof.
  eapply rtc_l; [by eapply (SEnter _ _ _ _ 0 LkKmem)|].
  eapply rtc_l; [by eapply (SEnter _ _ _ _ 1 LkKmem)|].
  eapply rtc_l; [by eapply (SGot _ _ _ _ 0 LkKmem)|].
  eapply rtc_l; [by eapply (SRecord _ _ _ _ 0 LkKmem)|].
  eapply rtc_l; [by eapply (SSpin _ _ _ _ 1 LkKmem 1)|]. apply rtc_refl.
Qed.

Lemma spin_exclusion_witness :
  (forall d lk, lk ∈ sc_held x4 0%nat -> lk ∈ sc_held x4 d -> 0%nat = d) /\
  (sc_held x4 0%nat <> [] -> c_if (cpus (sc_smp x4) 0%nat) = false) /\
  (forall lk, exists s', Spin.holding 0 lk (sc_smp x4) = Ret (bool_decide (lk ∈ sc_held x4 0%nat)) s').
Proof. apply (spin_exclusion x0 x4 0); [by split|exact x4_reached]. Defined.

(** * Main theorems: pipes

    The bytes of a pipe come out in the order they went in, and what the
    calls of pipewrite and piperead do to the pipe, to the caller's memory and
    to the sleepers. *)

Section results.
Context {LK : Linker} {FS : FsOps}.

(** C5: a pipe is a FIFO of bytes: after any interleaving of (partial) writes
    and reads by any processes, what the readers have received is a prefix of
    what the writers have put in, and the rest, at most PIPESIZE bytes, is in
    the buffer; also across the wrap-around of the 32-bit counters. *)
Theorem pipe_fifo p s x c : pipes s !! p = Some x -> pipe_rep x [] ->
  rtc (pstep p) (mk_stream s [] []) c ->
  exists x' q, pipes (str_st c) !! p = Some x' /\ pipe_rep x' q /\ str_in c = str_out c ++ q /\
    (length q <= 512)%nat.
Proof.
  intros Hx Hr Hsteps.
  assert (forall a b, rtc (pstep p) a b -> pinv p a -> pinv p b) as Hinv.
  { induction 1 as [|a a' b Hs _ IH]; [done|]. intros Ha. by eapply IH, pstep_inv. }
  destruct (Hinv _ _ Hsteps) as (x' & q & Hx' & Hr' & _ & E); [by exists x, []|].
  exists x', q. do 3 (split; [done|]). apply (pr_max _ _ Hr').
Qed.

(** C32: pipewrite appends the caller's bytes to the pipe in order, as many as
    fit.  If all fit it returns [n] and wakes the readers; if the buffer fills
    up it returns -1 when the readers are gone or the caller was killed, and
    otherwise wakes the readers and sleeps; nothing else changes. *)
Theorem pipewrite_appends s l me pr p a n x q :
  ucaller s l me pr -> p_state pr <> SLEEPING -> pipes s !! p = Some x -> pipe_rep x q ->
  0 <= a -> 0 <= n -> a + n <= p_sz pr ->
  exists x', pipe_rep x' (take 512 (q ++ user_bytes s pr a (Z.to_nat n))) /\
    x' = set_pi_nwrite (pi_nwrite x') (set_pi_data (pi_data x') x) /\
    write_outcome s me pr p n x' (Z.of_nat (length q) + n <=? 512) (pipewrite p a n s).
Proof. apply pipewrite_spec. Qed.

(** C33: piperead sleeps while the pipe is empty and a writer is open (or
    returns -1 if the caller was killed); otherwise it moves the first bytes
    of the pipe, at most [n], to the caller's memory at [a], changes no other
    byte of it, returns their number and wakes the writers. *)
Theorem piperead_delivers s l me pr p a n x q :
  ucaller s l me pr -> pipes s !! p = Some x -> pipe_rep x q ->
  0 <= a -> 0 <= n -> a + n <= p_sz pr -> (forall va, a <= va < a + n -> writable s pr va) ->
  read_outcome s l me pr p a n x q (piperead p a n s).
Proof. apply piperead_spec. Qed.

End results.

(** ** A pipe of the machine of [Example] *)

Definition pipe_addr : Z := 0x80400000.

(** A pipe whose counters are about to wrap around, with [q] inside. *)
Definition wrap_pipe : pipe := mk_pipe (replicate 512 0) (2 ^ 32 - 1) (2 ^ 32 - 1) 1 1.
Definition full1 : pipe := mk_pipe (replicate 511 0 ++ [65]) (2 ^ 32 - 1) 0 1 1.

Definition with_wrap : kstate := set_pipes (<[pipe_addr := wrap_pipe]> ∅) s0.
Definition with_full1 : kstate := set_pipes (<[pipe_addr := full1]> ∅) s0.

Lemma wrap_rep : pipe_rep wrap_pipe [].
Proof. constructor; try done. cbn. lia. Qed.

Lemma full1_rep : pipe_rep full1 [65].
Proof.
  constructor; try done; [cbn; lia..|].
  intros [|k] c Hk; cbn in Hk; [|done]. injection Hk as <-. reflexivity.
Qed.

Lemma with_pipes_ucaller ps : ucaller (set_pipes ps s0) free0 0 parent0.
Proof.
  pose proof s0_ucaller as [[H1 H2 H3 H4 H5 H6] H7]. constructor; [|exact H7].
  constructor; [|exact H2|exact H3|exact H4|exact H5|exact H6].
  eapply pmem_same; [exact H1|done|done|]. intros i q Hi. by exists q.
Qed.

Lemma user0_writable ps va : 0 <= va < 4096 -> writable (set_pipes ps s0) parent0 va.
Proof.
  intros Hva. unfold writable. cbn [set_pipes s0 mem parent0 p_pgdir]. rewrite <- pte_of_page by lia.
  replace (va - va mod 4096) with 0 by (Z.div_mod_to_equations; lia).
  rewrite dir0_pte by (split; [lia|done]). by rewrite decide_True.
Qed.

Definition locked_pipe : kstate := set_held [LkPipe pipe_addr] with_wrap.

(** Three bytes of user memory go into the pipe. *)
Definition written : kstate := post (pipewrite_loop (length [0; 0; 0]) pipe_addr 16 0 3 locked_pipe).

Definition stream1 : stream :=
  mk_stream written ([] ++ take (put_count pipe_addr locked_pipe written) [0; 0; 0]) [].

Lemma locked_pipe_at : pipes locked_pipe !! pipe_addr = Some wrap_pipe.
Proof. apply lookup_insert_eq. Qed.

Lemma stream1_reached : rtc (pstep pipe_addr) (mk_stream locked_pipe [] []) stream1.
Proof.
  apply rtc_once. apply (ps_write pipe_addr locked_pipe [] [] 0 parent0 16 0 3 [0; 0; 0]);
    [reflexivity|reflexivity|reflexivity|discriminate| |by repeat constructor].
  intros k c Hk. assert (k < 3)%nat as Hlt by (by apply lookup_lt_Some in Hk). rewrite u32_id by lia.
  eapply (vread8_ext _ s0); [|reflexivity|reflexivity].
  rewrite (vread8_user s0 free0 0 parent0); [|exact s0_ucaller|cbn; lia].
  rewrite user0_zero by lia. destruct k as [|[|[|k]]]; cbn in Hk; by simplify_eq.
Qed.

Lemma pipe_fifo_witness : exists x' q, pipes (str_st stream1) !! pipe_addr = Some x' /\ pipe_rep x' q /\
  str_in stream1 = str_out stream1 ++ q /\ (length q <= 512)%nat.
Proof. exact (pipe_fifo pipe_addr locked_pipe wrap_pipe stream1 locked_pipe_at wrap_rep stream1_reached). Defined.

Lemma pipewrite_appends_witness :
  exists x', pipe_rep x' (take 512 ([] ++ user_bytes with_wrap parent0 16 (Z.to_nat 3))) /\
    x' = set_pi_nwrite (pi_nwrite x') (set_pi_data (pi_data x') wrap_pipe) /\
    write_outcome with_wrap 0 parent0 pipe_addr 3 x' (Z.of_nat 0 + 3 <=? 512) (pipewrite pipe_addr 16 3 with_wrap).
Proof.
  apply (pipewrite_appends with_wrap free0 0 parent0 pipe_addr 16 3 wrap_pipe []);
    [apply with_pipes_ucaller|done|done|exact wrap_rep|lia|lia|cbn; lia].
Defined.

Lemma piperead_delivers_witness :
  read_outcome with_full1 free0 0 parent0 pipe_addr 16 3 full1 [65] (piperead pipe_addr 16 3 with_full1).
Proof.
  apply (piperead_delivers with_full1 free0 0 parent0 pipe_addr 16 3 full1 [65]);
    [apply with_pipes_ucaller|done|exact full1_rep|lia|lia|cbn; lia|].
  intros va Hva. apply user0_writable. lia.
Defined.

(** * Main theorems: message queues

    Sending and receiving on the list of messages that a queue represents. *)

Section results.
Context {LK : Linker} {FS : FsOps}.

(** The last step of msgsnd puts the new message at the end of the list
    the queue represents, behind all earlier messages, and makes the sleeping
    receivers of the queue runnable; it touches no other queue or node list. *)
Theorem msgsnd_appends s q l n m : LkQueue q ∉ held s -> LkPtable ∉ held s -> qrep s q l ->
  nodes s !! n = Some (node_of 0 m) -> (n ∉ l.*1) -> n <> 0 ->
  exists ns qs, let s' := set_ptable (wake (Some (ChQueue q)) <$> ptable s) (with_queue s ns qs) in
    msg_append q n s = Ret tt s' /\ qrep s' q (l ++ [(n, m)]).
Proof. apply msg_append_run. Qed.

(** C34: msgrcv takes the oldest message of the wanted type (any type for 0)
    and leaves the other messages in their order; without such a message it
    returns -1 for IPC_NOWAIT or a killed caller, and otherwise sleeps on the
    queue with the list unchanged. *)
Theorem msgrcv_takes_first s q l me p msgsz typ flg : held s = [LkQueue q] -> cur s = Some me ->
  ptable s !! me = Some p -> qrep s q l ->
  match pick typ l with
  | Some (l1, (a, m), l2) =>
      l = l1 ++ (a, m) :: l2 /\ wanted typ m = true /\ Forall (fun e => wanted typ e.2 = false) l1 /\
      exists s' next, qrep s' q (l1 ++ l2) /\ nodes s' !! a = Some (node_of next m) /\
        s' = set_held [] (with_queue s (nodes s') (queues s')) /\
        msgrcv_round q msgsz typ flg s = msg_deliver a msgsz s'
  | None =>
      Forall (fun e => wanted typ e.2 = false) l /\
      msgrcv_round q msgsz typ flg s =
        if negb (Z.land flg IPC_NOWAIT =? 0) || negb (p_killed p =? 0) then Ret (-1) (set_held [] s)
        else Block (asleep me (ChQueue q) (set_held [LkPtable] s))
  end.
Proof.
  intros Hh Hc Hp Hq. pose proof (msgrcv_round_run s q l me p msgsz typ flg Hh Hc Hp Hq) as H.
  destruct (pick typ l) as [[[l1 [a m]] l2]|] eqn:E.
  - by destruct (pick_Some _ _ _ _ _ E) as (? & ? & ?).
  - split; [by apply pick_None|done].
Qed.

End results.

(** ** A queue with two messages *)

Definition q0 : Z := 0x80500000.
Definition msg_a : message := mk_message 5 2 [1; 2].
Definition msg_b : message := mk_message 9 1 [3].
Definition msg_c : message := mk_message 5 1 [4].

Definition queue_nodes : gmap Z msg_node :=
  <[100 := node_of 200 msg_a]> (<[200 := node_of 0 msg_b]> (<[300 := node_of 0 msg_c]> ∅)).

Definition queued : kstate :=
  set_queues (<[q0 := mk_msg_queue 0 1 7 100 200]> ∅) (set_nodes queue_nodes s0).

Definition queued_list : list (Z * message) := [(100, msg_a); (200, msg_b)].

Lemma queued_rep h : qrep (set_held h queued) q0 queued_list.
Proof.
  constructor; [|apply (bool_decide_unpack (NoDup [100; 200])); done].
  exists (mk_msg_queue 0 1 7 100 200). split; [reflexivity|]. split; [|reflexivity].
  split; [done|]. split; [done|]. exists 200. split; [reflexivity|].
  split; [done|]. split; [done|]. exists 0. split; reflexivity.
Qed.

Lemma msgsnd_appends_witness :
  exists ns qs, let s' := set_ptable (wake (Some (ChQueue q0)) <$> ptable (set_held [] queued)) (with_queue (set_held [] queued) ns qs) in
    msg_append q0 300 (set_held [] queued) = Ret tt s' /\ qrep s' q0 (queued_list ++ [(300, msg_c)]).
Proof.
  apply (msgsnd_appends (set_held [] queued) q0 queued_list 300 msg_c);
    [apply not_elem_of_nil|apply not_elem_of_nil|apply queued_rep|reflexivity| |done].
  apply (bool_decide_unpack (300 ∉ [100; 200])). done.
Defined.

(** A receiver of messages of type 9 skips the older message of type 5. *)
Lemma msgrcv_takes_first_witness :
  queued_list = [(100, msg_a)] ++ (200, msg_b) :: [] /\ wanted 9 msg_b = true /\
  Forall (fun e => wanted 9 e.2 = false) [(100, msg_a)] /\
  exists s' next, qrep s' q0 ([(100, msg_a)] ++ []) /\ nodes s' !! 200 = Some (node_of next msg_b) /\
    s' = set_held [] (with_queue (set_held [LkQueue q0] queued) (nodes s') (queues s')) /\
    msgrcv_round q0 64 9 0 (set_held [LkQueue q0] queued) = msg_deliver 200 64 s'.
Proof.
  exact (msgrcv_takes_first (set_held [LkQueue q0] queued) q0 queued_list 0 parent0 64 9 0 eq_refl eq_refl eq_refl
    (queued_rep [LkQueue q0])).
Defined.
