(* ===== verification/FsResults.v ===== *)
(** * Main theorems: buffer cache, log, on-disk format and contents of files

    The theorems of [BioSpec], [LogSpec] and [Crash] about the operations of
    bio.c and log.c, those of [RwSpec] and [DirSpec] about files and
    directories, and their instances on a disk of a thousand blocks. *)

From S2P Require Import Prelude CString Mem KState Mmu Console Kalloc Vm File Proc Bio Layout Log Inode ConsoleDev.
From S2P Require Import Fs FileIO ProcMem WaitSpec PathSpec BioSpec LogSpec TxnSpec FileSpec RwSpec DirSpec Crash.
From S2P Require Import Example.

Section results.
Context {LK : Linker} {FS : FsOps} {DK : Disk}.

(** C1: commit is atomic with respect to crashes.  It writes the disk so that
    the blocks outside the log end up with the contents of the transaction,
    and whatever number [n] of its writes reach the disk before the machine
    stops, initlog at the next boot returns with an empty log and a disk whose
    blocks outside the log are either all as before the transaction or all as
    the transaction left them. *)
Theorem commit_atomic s me p hs : committable s me p hs ->
  exists s' ws, commit s = Ret tt s' /\ writes s' = writes s ++ ws /\
    (forall k, outside_log (klog s) hs k -> disk s' k = content s k) /\
    forall n t me' p', booted t me' p' (disk_after (disk s) (take n ws)) -> crash_result s hs t.
Proof. apply commit_crash. Qed.

(** C19: the buffer cache is transparent.  With a buffer to spare, bread returns
    a buffer locked by the caller that holds the latest data of the block,
    from the cache or from the disk; no block changes its content and no
    dirty block is lost, whichever buffer is recycled. *)
Theorem bread_latest s me p H n : fscaller s me p -> binv s (p_pid p) H -> 0 <= n < disksize ->
  (forall b x, bufs s !! b = Some x -> b ∈ H -> b_blockno x <> n) -> room s H n ->
  exists b x, bread 1 n s = Ret b (with_buf b x s) /\ b_data x = content s n /\ b_locked x = true /\
    binv (with_buf b x s) (p_pid p) (b :: H) /\
    (forall k, content (with_buf b x s) k = content s k) /\
    (forall k, isdirty (with_buf b x s) k <-> isdirty s k).
Proof.
  intros C I Hn HH Hr. destruct (bread_run s me p H n C I Hn HH Hr) as (b & x & E & [P0 P1 P2 P3 P4 Pc P5 P6 P7 P8]).
  exists b, x. do 2 (split; [done|]). split; [|done]. by destruct (bi_mine _ _ _ P5 b x P0 ltac:(left)).
Qed.

(** A disk inode that iupdate writes into its block is what ilock reads
    back, whatever else the block holds. *)
Theorem dinode_roundtrip d inum x : length d = Z.to_nat BSIZE -> dinode_ok x ->
  get_dinode (put_dinode d (dinode_off inum) x) (dinode_off inum) = x.
Proof.
  intros Hd Hx. apply get_put_dinode; [|done]. unfold dinode_off, IPB. rewrite Hd. change (Z.to_nat BSIZE) with 512%nat.
  pose proof (Z.mod_pos_bound inum 8 ltac:(lia)). lia.
Qed.

(** C26: log_write puts a block of a transaction into the log header once,
    however often it is written, pins its buffer as dirty, and sends nothing to
    the disk; the header keeps listing exactly the dirty blocks. *)
Theorem log_write_absorbs s me p H b x hs : fscaller s me p -> binv s (p_pid p) H -> bufs s !! b = Some x ->
  b ∈ H -> trans_inv s hs -> Z.of_nat (length hs) < Z.min LOGSIZE (lg_size (klog s) - 1) ->
  1 <= lg_outstanding (klog s) -> disksize <= 2 ^ 31 ->
  exists s', log_write b s = Ret tt s' /\ writes s' = writes s /\ binv s' (p_pid p) H /\
    trans_inv s' (absorb hs (b_blockno x)) /\ (forall k, content s' k = content s k).
Proof.
  intros C I Hb HbH T Hn Ho Hds. eexists. split; [by eapply log_write_run|]. split; [done|].
  apply log_write_inv; try done. lia.
Qed.

(** Begin_op admits an operation only when the log has room for
    MAXOPBLOCKS blocks of every admitted operation, and otherwise sleeps
    until a commit or an end_op. *)
Theorem begin_op_reserves s me p : fscaller s me p ->
  0 <= lg_n (klog s) <= LOGSIZE -> 0 <= lg_outstanding (klog s) <= LOGSIZE ->
  if lg_committing (klog s) || (LOGSIZE <? lg_n (klog s) + (lg_outstanding (klog s) + 1) * MAXOPBLOCKS)
  then begin_op s = Block (asleep me ChLog (set_held [LkPtable] s))
  else exists l, begin_op s = Ret tt (set_klog l s) /\ lg_n l = lg_n (klog s) /\
         lg_outstanding l = lg_outstanding (klog s) + 1 /\
         lg_n l + lg_outstanding l * MAXOPBLOCKS <= LOGSIZE.
Proof.
  intros [Hc Hp Hr Hh] Hn Ho. unfold begin_op, begin_op_round. change LOGSIZE with 30 in *. change MAXOPBLOCKS with 10 in *.
  rewrite run_acquire by (rewrite Hh; apply not_elem_of_nil). krun. rewrite Hh.
  destruct (lg_committing (klog s)); cbn [orb]; [rewrite (sleep_run me p) by done; by knorm|].
  rewrite (i32_id (lg_n (klog s) + _)) by lia.
  destruct (30 <? lg_n (klog s) + (lg_outstanding (klog s) + 1) * 10) eqn:E;
    [rewrite (sleep_run me p) by done; by knorm|]. bool_prop.
  rewrite (i32_id (lg_outstanding (klog s) + 1)) by lia.
  exists (set_lg_outstanding (lg_outstanding (klog s) + 1) (klog s)). unfold upd_log. krun.
  erewrite release_run; [|by ksimpl|apply not_elem_of_nil]. split; [knorm; by rewrite set_held_id|].
  split; [done|]. split; [done|]. ksimpl. lia.
Qed.

(** Namex looks up exactly the elements of a path.  Repeated calls of
    skipelem produce the non-empty pieces between the slashes, each cut to
    DIRSIZ bytes, and there are at most as many calls as bytes in the path. *)
Theorem skipelem_elements path : skip_all (length path) path = Some (elements path).
Proof. by apply skip_all_spec. Qed.

(** The loops of namex, readi and writei end.  The bounds on the number
    of iterations in their definitions (the length of the path; an upper bound on
    the blocks that the bytes touch) are never reached: allowing [j] more
    iterations changes nothing, from any state. *)
Theorem fs_loops_terminate j ip path np name off n dst src s : 0 <= n -> 0 <= off ->
  namex_loop (length path + j) ip path np name s = namex_loop (length path) ip path np name s /\
  readi_loop (Z.to_nat (n / BSIZE + 2) + j) ip dst 0 off n [] s = readi_loop (Z.to_nat (n / BSIZE + 2)) ip dst 0 off n [] s /\
  writei_loop (Z.to_nat (n / BSIZE + 2) + j) ip src 0 off n s = writei_loop (Z.to_nat (n / BSIZE + 2)) ip src 0 off n s.
Proof.
  intros Hn Ho. split; [by apply namex_loop_fuel|].
  split; [apply readi_loop_fuel|apply writei_loop_fuel]; try lia; by apply io_bound.
Qed.

End results.

(** ** A disk *)

Definition zeros : list Z := replicate 512 0.
Definition ones : list Z := replicate 512 1.

(** The super block of a file system whose log starts at block 2. *)
Definition super_block : list Z :=
  concat (map le32 [1000; 941; 200; 30; 2; 32; 58]) ++ replicate 484 0.

Definition fs_disk (b : Z) : list Z := if b =? 1 then super_block else zeros.

Definition free_buf : buf := mk_buf 0 0 0 false 0 0 zeros.

(** A kernel that has just been started on the disk [D]. *)
Definition boot (D : Z -> list Z) : kstate := set_bufs (replicate NBUF free_buf) (set_writes [] (set_disk0 D s0)).

(** A transaction that has changed block 100. *)
Definition trans : kstate :=
  set_klog (mk_logst 2 30 0 true 1 1 (100 :: replicate 29 0))
    (set_bufs (mk_buf 6 1 100 false 0 0 ones :: replicate 29 free_buf) (boot fs_disk)).

Lemma s0_fscaller : fscaller s0 0 parent0.
Proof. by constructor. Qed.

Lemma free_buf_at b x : replicate NBUF free_buf !! b = Some x -> x = free_buf.
Proof. by intros [? _]%lookup_replicate. Qed.

Lemma boot_booted D : (forall k, length (D k) = 512%nat) -> booted (boot D) 0 parent0 D.
Proof.
  intros HD. constructor; [by constructor| |by intros k (b & x & ->%free_buf_at & ? & _)|done].
  constructor; try done.
  - cbn. by rewrite <- (Permutation_rev (seq 0 NBUF)).
  - by intros b c x y ->%free_buf_at.
  - by intros b x _ ?%not_elem_of_nil.
  - by intros b x ->%free_buf_at.
  - intros b x ->%free_buf_at. by left.
  - by intros b x ->%free_buf_at.
Qed.

Lemma fs_disk_length k : length (fs_disk k) = 512%nat.
Proof. unfold fs_disk. by destruct (k =? 1). Qed.

Lemma trans_buf b x : bufs trans !! b = Some x ->
  (b = 0%nat /\ x = mk_buf 6 1 100 false 0 0 ones) \/ x = free_buf.
Proof.
  destruct b as [|b]; cbn [trans bufs set_bufs set_klog lookup list_lookup]; [intros [= <-]; by left|].
  intros [-> _]%lookup_replicate. by right.
Qed.

Lemma trans_cache : binv trans 1 [].
Proof.
  constructor; try done.
  - cbn. by rewrite <- (Permutation_rev (seq 0 NBUF)).
  - intros b c x y [[-> ->]| ->]%trans_buf [[-> ->]| ->]%trans_buf; done.
  - by intros b x _ ?%not_elem_of_nil.
  - by intros b x [[-> ->]| ->]%trans_buf.
  - intros b x [[-> ->]| ->]%trans_buf; [|by left]. right. split; [by right|]. split; [done|]. split; [|done].
    cbn. lia.
  - by intros b x [[-> ->]| ->]%trans_buf.
  - apply fs_disk_length.
Qed.

Lemma trans_committable : committable trans 0 parent0 [100].
Proof.
  constructor; [by constructor|exact trans_cache| |done|by apply Nat.ltb_lt| |reflexivity|reflexivity|].
  - constructor; try done; cbn; try lia.
    + intros h ->%list_elem_of_singleton. lia.
    + apply NoDup_singleton.
  - intros k. rewrite list_elem_of_singleton. split.
    + by intros (b & x & [[-> ->]| ->]%trans_buf & ? & <-).
    + intros ->. by exists 0%nat, (mk_buf 6 1 100 false 0 0 ones).
  - split; [cbn; lia|]. intros [=]%list_elem_of_singleton.
Qed.

(** A crash after the first [n] writes, and the recovery on the next boot. *)
Lemma commit_atomic_witness : exists s' ws, commit trans = Ret tt s' /\ writes s' = writes trans ++ ws /\
  crash_result trans [100] (boot fs_disk) /\
  forall n, booted (boot (disk_after fs_disk (take n ws))) 0 parent0 (disk_after (disk trans) (take n ws)) ->
    crash_result trans [100] (boot (disk_after fs_disk (take n ws))).
Proof.
  destruct (commit_atomic trans 0 parent0 [100] trans_committable) as (s' & ws & R & W & _ & H).
  exists s', ws. split; [exact R|]. split; [exact W|]. split.
  - exact (H 0%nat _ _ _ (boot_booted _ fs_disk_length)).
  - intros n B. exact (H n _ _ _ B).
Defined.

Lemma bread_latest_witness : exists b x, bread 1 100 trans = Ret b (with_buf b x trans) /\
  b_data x = content trans 100 /\ b_locked x = true /\ binv (with_buf b x trans) 1 [b] /\
  (forall k, content (with_buf b x trans) k = content trans k) /\
  (forall k, isdirty (with_buf b x trans) k <-> isdirty trans k).
Proof.
  apply (bread_latest trans 0 parent0 [] 100); [by constructor|exact trans_cache|cbn; lia| |].
  - by intros b x _ ?%not_elem_of_nil.
  - left. by exists 0%nat, (mk_buf 6 1 100 false 0 0 ones).
Defined.

Lemma dinode_roundtrip_witness :
  get_dinode (put_dinode zeros (dinode_off 9) (mk_dinode 2 0 0 1 700 (61 :: 62 :: replicate 11 0))) (dinode_off 9) =
  mk_dinode 2 0 0 1 700 (61 :: 62 :: replicate 11 0).
Proof.
  apply dinode_roundtrip; [reflexivity|].
  constructor; cbn; try lia. repeat (constructor; [lia|]). constructor.
Defined.

(** The same buffer, locked by process 1 inside an operation. *)
Definition held_buf : buf := mk_buf 2 1 100 true 1 1 ones.

Definition writing : kstate :=
  set_klog (mk_logst 2 30 1 false 1 0 (replicate 30 0))
    (set_bufs (held_buf :: replicate 29 free_buf) (boot fs_disk)).

Lemma writing_buf b x : bufs writing !! b = Some x -> (b = 0%nat /\ x = held_buf) \/ (b <> 0%nat /\ x = free_buf).
Proof.
  destruct b as [|b]; cbn [writing bufs set_bufs set_klog lookup list_lookup]; [intros [= <-]; by left|].
  intros [-> _]%lookup_replicate. by right.
Qed.

Lemma writing_cache : binv writing 1 [0%nat].
Proof.
  constructor; try done.
  - cbn. by rewrite <- (Permutation_rev (seq 0 NBUF)).
  - intros b c x y [[-> ->]|[_ ->]]%writing_buf [[-> ->]|[_ ->]]%writing_buf; done.
  - by intros b x [[-> ->]|[? ->]]%writing_buf ?%list_elem_of_singleton.
  - intros b x [[-> ->]|[_ ->]]%writing_buf; [intros Hn; destruct Hn; left|done].
  - intros b x [[-> ->]|[_ ->]]%writing_buf; [|by left]. right. split; [by left|]. split; [done|]. split; [|done].
    cbn. lia.
  - intros b x [[-> ->]|[_ ->]]%writing_buf; [intros Hn; destruct Hn; left|done].
  - apply fs_disk_length.
Qed.

Lemma log_write_absorbs_witness : exists s', log_write 0 writing = Ret tt s' /\ writes s' = writes writing /\
  binv s' 1 [0%nat] /\ trans_inv s' (absorb [] 100) /\ (forall k, content s' k = content writing k).
Proof.
  apply (log_write_absorbs writing 0 parent0 [0%nat] 0 held_buf []); [by constructor|exact writing_cache|done|left| |done|done|done].
  constructor; try done.
  - by intros h ?%not_elem_of_nil.
  - constructor.
  - intros k. split; [by intros (b & x & [[-> ->]|[_ ->]]%writing_buf & ? & _)|by intros ?%not_elem_of_nil].
Defined.

Lemma begin_op_reserves_witness :
  if lg_committing (klog s0) || (LOGSIZE <? lg_n (klog s0) + (lg_outstanding (klog s0) + 1) * MAXOPBLOCKS)
  then begin_op s0 = Block (asleep 0 ChLog (set_held [LkPtable] s0))
  else exists l, begin_op s0 = Ret tt (set_klog l s0) /\ lg_n l = lg_n (klog s0) /\
         lg_outstanding l = lg_outstanding (klog s0) + 1 /\
         lg_n l + lg_outstanding l * MAXOPBLOCKS <= LOGSIZE.
Proof. apply (begin_op_reserves s0 0 parent0); [exact s0_fscaller|by split|by split]. Defined.

Lemma fs_loops_terminate_witness :
  namex_loop (length (bytes "/usr/ls") + 5) 0 (bytes "/usr/ls") true [] s0 =
    namex_loop (length (bytes "/usr/ls")) 0 (bytes "/usr/ls") true [] s0 /\
  readi_loop (Z.to_nat (600 / BSIZE + 2) + 5) 0 (fun _ _ => ret tt) 0 1000 600 [] s0 =
    readi_loop (Z.to_nat (600 / BSIZE + 2)) 0 (fun _ _ => ret tt) 0 1000 600 [] s0 /\
  writei_loop (Z.to_nat (600 / BSIZE + 2) + 5) 0 (fun _ k => ret (replicate k 7)) 0 1000 600 s0 =
    writei_loop (Z.to_nat (600 / BSIZE + 2)) 0 (fun _ k => ret (replicate k 7)) 0 1000 600 s0.
Proof. apply (fs_loops_terminate 5 0 (bytes "/usr/ls") true [] 1000 600); lia. Defined.

(** * Main theorems: the contents of files

    The theorems of [TxnSpec], [BmapSpec] and [RwSpec] about balloc, readi and
    writei, and their instances on a small file system. *)

Section results.
Context {LK : Linker} {FS : FsOps} {DK : Disk}.

(** C13: what writei has written is what readi reads back.  For a write of the
    size that filewrite uses, at an offset within the file and with enough free
    blocks, writei returns the number of bytes, the size becomes the end of the
    write if that is larger, readi of the same range returns the bytes written,
    and readi of the whole file returns the old bytes everywhere else. *)
Theorem writei_readi D me p ip hs s x off src bs : file_ready D me p hs s ip x -> sourced s src bs -> let n := Z.of_nat (length bs) in
  0 <= off <= i_size x -> off + n <= MAXFILE * BSIZE -> n <= write_max -> frees s (touched off n + 1) -> spare [] hs 11 s ->
  exists hs' s' x' s1 s2, writei ip src off n s = Ret n s' /\ file_ready D me p hs' s' ip x' /\ i_size x' = Z.max (i_size x) (off + n) /\
    readi ip to_local off n s' = Ret (n, bs) s1 /\
    readi ip to_local 0 (i_size x') s' = Ret (i_size x', map (overlay (fbyte s x) off bs) (seqZ 0 (i_size x'))) s2.
Proof.
  intros HR Hsrc n Ho Hmax Hn Hfr Hsp. destruct (writei_chunk D me p ip hs s x off src bs HR Hsrc Ho Hmax Hn Hfr Hsp) as (hs' & s' & x' & R & W & Hl).
  pose proof (write_ready _ _ _ _ _ _ _ _ _ _ _ _ HR W) as HR'. pose proof HR' as [X' L' HM' Hx' F' Y' Hty'].
  assert (i_size x' = Z.max (i_size x) (off + n)) as Es by (by rewrite (wp_inode _ _ _ _ _ _ _ _ _ _ _ _ W)).
  assert (MAXFILE * BSIZE = 71680) as EM by done. pose proof (fo_size _ _ _ F'). assert (length hs' < NBUF)%nat as Hlen by (unfold spare in Hsp; cbn [length] in Hsp; lia).
  destruct (readi_run D 1 me p hs' s' ip x' off n X' L' Hx' F' Hty' Hlen) as (s1 & R1 & _); [lia..|].
  destruct (readi_run D 1 me p hs' s' ip x' 0 (i_size x') X' L' Hx' F' Hty' Hlen) as (s2 & R2 & _); [lia..|].
  assert (forall o k, 0 <= o -> o + k <= MAXFILE * BSIZE -> map (fbyte s' x') (seqZ o k) = map (overlay (fbyte s x) off bs) (seqZ o k)) as Hmap.
  { intros o k H0 Hk. apply map_ext_in. intros i Hi. apply (wp_bytes _ _ _ _ _ _ _ _ _ _ _ _ W). apply list_elem_of_In, elem_of_seqZ in Hi. lia. }
  exists hs', s', x', s1, s2. do 3 (split; [done|]). rewrite R1, R2, Z.sub_0_r, Z.min_id, Z.min_l, !Hmap by lia. split; [|done].
  do 2 f_equal. apply overlay_read.
Qed.

(** C15: a write stays inside its file.  Another file whose blocks are different
    keeps its blocks and bytes and stays disjoint, every other inode on the disk
    is unchanged, and the inode of the written file on the disk is up to date. *)
Theorem writei_isolated D me p ip hs s x off src bs y : file_ready D me p hs s ip x -> sourced s src bs -> let n := Z.of_nat (length bs) in
  0 <= off <= i_size x -> off + n <= MAXFILE * BSIZE -> n <= write_max -> frees s (touched off n + 1) -> spare [] hs 11 s ->
  file_ok D s y -> apart s x y ->
  exists s' x', writei ip src off n s = Ret n s' /\ disk s' = disk s /\ file_ok D s' y /\ apart s' x' y /\
    (forall o, 0 <= o < MAXFILE * BSIZE -> fbyte s' y o = fbyte s y o) /\ disk_inode s' (i_inum x) = dinode_of x' /\
    (forall i, 0 <= i < sb_ninodes (sb s) -> i <> i_inum x -> disk_inode s' i = disk_inode s i).
Proof.
  intros HR Hsrc n Ho Hmax Hn Hfr Hsp Fy Hap. destruct (writei_chunk D me p ip hs s x off src bs HR Hsrc Ho Hmax Hn Hfr Hsp) as (hs' & s' & x' & R & W & Hl).
  pose proof W as [W1 W2 W3 W4 W5 W6 W7 W8 W9 W10]. destruct (W9 y Fy Hap) as (Fy' & Hap' & Ef). exists s', x'. split; [done|].
  split; [by apply filed_disk|]. do 3 (split; [done|]). split; [|done]. pose proof (sy_disk _ _ W7) as E. rewrite W5 in E at 1. exact E.
Qed.

(** C17: the blocks that begin_op reserves for an operation are enough for a
    write of filewrite: however it lies in the file and however many blocks it
    allocates, writei adds at most MAXOPBLOCKS blocks to the transaction. *)
Theorem writei_fits D me p ip hs s x off src bs : file_ready D me p hs s ip x -> sourced s src bs -> let n := Z.of_nat (length bs) in
  0 <= off <= i_size x -> off + n <= MAXFILE * BSIZE -> n <= write_max -> frees s (touched off n + 1) -> spare [] hs 11 s ->
  exists hs' s', writei ip src off n s = Ret n s' /\ trans_inv s' hs' /\ Z.of_nat (length hs') <= Z.of_nat (length hs) + MAXOPBLOCKS.
Proof.
  intros HR Hsrc n Ho Hmax Hn Hfr Hsp. destruct (writei_chunk D me p ip hs s x off src bs HR Hsrc Ho Hmax Hn Hfr Hsp) as (hs' & s' & x' & R & W & Hl).
  exists hs', s'. split; [done|]. split; [apply (tx_trans _ _ _ _ _ _ (wp_txn _ _ _ _ _ _ _ _ _ _ _ _ W))|]. unfold MAXOPBLOCKS. lia.
Qed.

(** Balloc returns a block that was free.  If the bitmap has a clear bit,
    the block is a data block, it comes back zeroed with its bit set, and no
    other bit and no block in use outside of the bitmap changes. *)
Theorem balloc_fresh D me p H hs s : txn 1 me p H hs s -> fs_layout D s -> meta_used D s -> held_used D H s -> spare H hs 2 s ->
  (exists a, 0 <= a < sb_size (sb s) /\ ~ used s a) ->
  exists a s', balloc 1 s = Ret a s' /\ D <= a < sb_size (sb s) /\ ~ used s a /\ content s' a = replicate (Z.to_nat BSIZE) 0 /\
    (forall c, 0 <= c < sb_size (sb s) -> used s' c <-> used s c \/ c = a) /\ (forall c, settled s c -> content s' c = content s c).
Proof.
  intros X L HM HU Hsp Hex. destruct (balloc_run D me p H hs s X L HM HU Hsp Hex) as (a & s' & R & A). exists a, s'. split; [done|].
  split; [apply (al_range _ _ _ _ _ _ _ _ A)|]. split; [apply (al_free _ _ _ _ _ _ _ _ A)|]. split; [|split].
  - rewrite (al_content _ _ _ _ _ _ _ _ A). unfold allocated. by rewrite Z.eqb_refl.
  - intros c Hc. eapply alloc_used; [done|apply (tx_inv _ _ _ _ _ _ X)|done|done].
  - intros c Hc. by eapply alloc_settled.
Qed.

(** C18: what dirlink has entered is what dirlookup finds.  For a name that the
    directory does not have, dirlink returns 0, the directory stays well formed
    and keeps its other entries, and dirlookup of the name then returns the new
    entry, with the inode number in the slot of the inode cache that it
    returns. *)
Theorem dirlink_dirlookup D me p hs s dp x name inum j i : dir_ready D me p hs s dp x -> missing s x name -> free_entry s x j ->
  chars name -> 0 < inum < 2 ^ 16 -> 16 * Z.of_nat j + 16 <= MAXFILE * BSIZE -> frees s 2 -> spare [] hs 11 s -> iget_slot (icache s) inum = Some i ->
  exists hs' s' x' s1 y, dirlink dp name inum s = Ret 0 s' /\ dir_ready D me p hs' s' dp x' /\
    (forall k, (k < nents x)%nat -> k <> j -> entry s' x' k = entry s x k) /\
    dirlookup dp name s' = Ret (Some (i, 16 * Z.of_nat j)) (with_inode i y s1) /\ i_inum y = inum /\ same s' s1.
Proof.
  intros R Hmiss Hfree Hc Hi Hmax Hfr Hsp Hslot. destruct (dirlink_run D me p hs s dp x name inum j R Hmiss Hfree Hc Hi Hmax Hfr Hsp) as (hs' & s' & x' & E & P & Hl).
  assert (length hs' < NBUF)%nat as Hl' by (unfold spare in Hsp; cbn [length] in Hsp; lia). pose proof (lp_ready _ _ _ _ _ _ _ _ _ _ _ P) as R'.
  pose proof (linked_found _ _ _ _ _ _ _ _ _ _ _ _ P Hmiss (proj1 Hfree) Hc Hi) as Hf.
  assert (iget_slot (icache s') inum = Some i) as Hslot'.
  { rewrite (lp_icache _ _ _ _ _ _ _ _ _ _ _ P). rewrite (iget_slot_insert _ _ x); [done|apply (fr_icache _ _ _ _ _ _ _ (dr_file _ _ _ _ _ _ _ R))|apply (lp_same _ _ _ _ _ _ _ _ _ _ _ P)]. }
  destruct (dirlookup_found D 1 me p hs' s' dp x' name j i (ready_dir _ _ _ _ _ _ _ R' Hl') Hf) as (s1 & z & L & Hz & _ & S1).
  { by rewrite (lp_new _ _ _ _ _ _ _ _ _ _ _ P), new_entry_inum by lia. }
  rewrite (lp_new _ _ _ _ _ _ _ _ _ _ _ P), new_entry_inum in L by lia. destruct (iget_slot_is _ _ _ Hslot') as (z' & Hz' & Hg). assert (z' = z) as -> by congruence.
  exists hs', s', x', s1, (got inum z). split; [done|]. split; [done|]. split; [apply (lp_other _ _ _ _ _ _ _ _ _ _ _ P)|]. split; [done|]. split; [|done]. by apply got_is.
Qed.

End results.

(** ** A file of 700 bytes *)

(** Blocks 0 to 61 are in use: 59 and 60 belong to inode 5, 61 to inode 6. *)
Definition bitmap0 : list Z := replicate 7 255 ++ [63] ++ replicate 504 0.

Definition dinode5 : dinode := mk_dinode 2 0 0 1 700 ([59; 60] ++ replicate 11 0).
Definition inode5 : inode := mk_inode 1 5 1 true 1 true 2 0 0 1 700 ([59; 60] ++ replicate 11 0).

(** Inode 6 is a directory of 31 entries. *)
Definition dinode6 : dinode := mk_dinode 1 0 0 1 496 (61 :: replicate 12 0).
Definition inode6 : inode := mk_inode 1 6 1 true 1 true 1 0 0 1 496 (61 :: replicate 12 0).
Definition no_inode : inode := mk_inode 0 0 0 false 0 false 0 0 0 0 0 (replicate 13 0).

Definition file_disk (b : Z) : list Z :=
  if b =? 58 then bitmap0 else if b =? 32 then put_dinode (put_dinode zeros (dinode_off 5) dinode5) (dinode_off 6) dinode6 else if b =? 61 then ones else fs_disk b.

(** An operation has begun; the cache of blocks is empty. *)
Definition op_on (ic : list inode) (D : Z -> list Z) : kstate := set_icache ic (set_klog (mk_logst 2 30 1 false 1 0 (replicate 30 0)) (boot D)).

Lemma op_on_txn ic D : (forall k, length (D k) = 512%nat) -> txn 1 0 parent0 [] [] (op_on ic D).
Proof.
  intros HD. destruct (boot_booted D HD) as [C I _ _]. constructor; [by destruct C|by destruct I| |done].
  constructor; try done.
  - by intros h ?%not_elem_of_nil.
  - constructor.
  - intros k. split; [by intros (b & x & ->%free_buf_at & ? & _)|by intros ?%not_elem_of_nil].
Qed.

Definition in_op : kstate := op_on [inode5; inode6; no_inode] file_disk.

Lemma file_disk_length k : length (file_disk k) = 512%nat.
Proof. unfold file_disk. destruct (k =? 58), (k =? 32), (k =? 61); try reflexivity. apply fs_disk_length. Qed.

Lemma in_op_txn : txn 1 0 parent0 [] [] in_op.
Proof. by apply op_on_txn, file_disk_length. Qed.

Lemma in_op_content k : content in_op k = file_disk k.
Proof. done. Qed.

Lemma in_op_layout : fs_layout 59 in_op.
Proof. by constructor. Qed.

Lemma in_op_used a : 0 <= a < 62 -> used in_op a.
Proof.
  intros Ha. unfold used. rewrite in_op_content.
  assert (forallb (fun a => negb (bit_free (file_disk (BBLOCK a (sb in_op))) (a mod BPB))) (seqZ 0 62) = true) as H by (vm_compute; reflexivity).
  rewrite forallb_forall in H. apply negb_true_iff, H, list_elem_of_In, elem_of_seqZ. lia.
Qed.

(** The blocks of a file without an indirect block. *)
Lemma direct_blocks s x bn : ind x = 0 -> length (i_addrs x) = 13%nat -> 0 <= bn -> block_of s x bn <> 0 ->
  block_of s x bn = nth (Z.to_nat bn) (i_addrs x) 0 /\ bn < 12.
Proof.
  intros Hi Hl Hbn. unfold block_of. rewrite Hi. cbn [Z.eqb]. destruct (bn <? NDIRECT) eqn:E; bool_prop; [|done]. unfold NDIRECT in E. done.
Qed.

Lemma inode5_block bn : 0 <= bn < MAXFILE -> block_of in_op inode5 bn <> 0 ->
  (bn = 0 /\ block_of in_op inode5 bn = 59) \/ (bn = 1 /\ block_of in_op inode5 bn = 60).
Proof.
  intros Hbn Hne. destruct (direct_blocks in_op inode5 bn) as [E Hlt]; [done|done|lia|done|]. rewrite E in *.
  destruct (decide (bn = 0)) as [->|]; [by left|]. destruct (decide (bn = 1)) as [->|]; [by right|]. exfalso. apply Hne.
  destruct (Z.to_nat bn) as [|[|k]] eqn:Ek; [lia..|]. apply (nth_zeros 11 k).
Qed.

Lemma inode6_block bn : 0 <= bn < MAXFILE -> block_of in_op inode6 bn <> 0 -> bn = 0 /\ block_of in_op inode6 bn = 61.
Proof.
  intros Hbn Hne. destruct (direct_blocks in_op inode6 bn) as [E Hlt]; [done|done|lia|done|]. rewrite E in *.
  destruct (decide (bn = 0)) as [->|]; [done|]. exfalso. apply Hne. destruct (Z.to_nat bn) as [|k] eqn:Ek; [lia|]. apply (nth_zeros 12 k).
Qed.

Lemma inode5_ok : file_ok 59 in_op inode5.
Proof.
  constructor; try done.
  - intros bn Hbn [[_ ->]|[_ ->]]%inode5_block; [..|done]; (split; [cbn; lia|apply in_op_used; lia]).
  - intros bn bm Hbn Hbm Hne E. pose proof Hne as Hm. rewrite E in Hm. apply inode5_block in Hne as [[-> E1]|[-> E1]], Hm as [[-> E2]|[-> E2]]; try done; congruence.
  - intros bn Hbn Hlt. cbn in Hlt. unfold BSIZE in Hlt. assert (bn = 0 \/ bn = 1) as [-> | ->] by lia; done.
Qed.

Lemma inode6_ok : file_ok 59 in_op inode6.
Proof.
  constructor; try done.
  - intros bn Hbn [_ ->]%inode6_block; [|done]. split; [cbn; lia|apply in_op_used; lia].
  - intros bn bm Hbn Hbm Hne E. pose proof Hne as Hm. rewrite E in Hm. by apply inode6_block in Hne as [-> _], Hm as [-> _].
  - intros bn Hbn Hlt. cbn in Hlt. unfold BSIZE in Hlt. by assert (bn = 0) as -> by lia.
Qed.

Lemma in_op_ready : file_ready 59 0 parent0 [] in_op 0 inode5.
Proof.
  constructor; try done.
  - exact in_op_txn.
  - intros a Ha. apply in_op_used. lia.
  - exact inode5_ok.
  - constructor; [done| |vm_compute; reflexivity]. constructor; cbn; try lia. repeat (constructor; [lia|]). constructor.
Qed.

Lemma in_op_free : frees in_op 4.
Proof.
  exists [100; 101; 102; 103]. split; [by apply (bool_decide_unpack _); vm_compute|]. split; [done|].
  intros a Ha. repeat (apply elem_of_cons in Ha as [->|Ha]; [split; [cbn; lia|unfold used; rewrite in_op_content; vm_compute; discriminate]|]).
  by apply not_elem_of_nil in Ha.
Qed.

Lemma in_op_spare : spare [] [] 11 in_op.
Proof. split; [apply Nat.ltb_lt; vm_compute; reflexivity|done]. Qed.

Lemma in_op_apart : apart in_op inode5 inode6.
Proof.
  intros c [H0 [->|(bn & Hbn & <-)]]; [done|]. apply inode5_block in H0; [|done]. intros [H1 [E|(bm & Hbm & E)]].
  - destruct H0 as [[_ E0]|[_ E0]]; rewrite E0 in E; done.
  - rewrite <- E in H1. apply inode6_block in H1 as [_ E6]; [|done]. rewrite E6 in E. destruct H0 as [[_ E0]|[_ E0]]; rewrite E0 in E; done.
Qed.

(** 1000 bytes at offset 600: the rest of the second block and two new ones. *)
Lemma writei_readi_witness : exists hs' s' x' s1 s2,
  writei 0 (from_bytes (replicate 1000 7)) 600 1000 in_op = Ret 1000 s' /\ file_ready 59 0 parent0 hs' s' 0 x' /\ i_size x' = 1600 /\
  readi 0 to_local 600 1000 s' = Ret (1000, replicate 1000 7) s1 /\
  readi 0 to_local 0 (i_size x') s' = Ret (i_size x', map (overlay (fbyte in_op inode5) 600 (replicate 1000 7)) (seqZ 0 (i_size x'))) s2.
Proof.
  exact (writei_readi 59 0 parent0 0 [] in_op inode5 600 (from_bytes (replicate 1000 7)) (replicate 1000 7) in_op_ready (sourced_bytes _ _)
    ltac:(split; discriminate) ltac:(discriminate) ltac:(discriminate) in_op_free in_op_spare).
Defined.

Lemma writei_isolated_witness : exists s' x',
  writei 0 (from_bytes (replicate 1000 7)) 600 1000 in_op = Ret 1000 s' /\ disk s' = disk in_op /\ file_ok 59 s' inode6 /\ apart s' x' inode6 /\
  (forall o, 0 <= o < MAXFILE * BSIZE -> fbyte s' inode6 o = fbyte in_op inode6 o) /\ disk_inode s' 5 = dinode_of x' /\
  (forall i, 0 <= i < 200 -> i <> 5 -> disk_inode s' i = disk_inode in_op i).
Proof.
  exact (writei_isolated 59 0 parent0 0 [] in_op inode5 600 (from_bytes (replicate 1000 7)) (replicate 1000 7) inode6 in_op_ready (sourced_bytes _ _)
    ltac:(split; discriminate) ltac:(discriminate) ltac:(discriminate) in_op_free in_op_spare inode6_ok in_op_apart).
Defined.

Lemma writei_fits_witness : exists hs' s',
  writei 0 (from_bytes (replicate 1000 7)) 600 1000 in_op = Ret 1000 s' /\ trans_inv s' hs' /\ Z.of_nat (length hs') <= 10.
Proof.
  exact (writei_fits 59 0 parent0 0 [] in_op inode5 600 (from_bytes (replicate 1000 7)) (replicate 1000 7) in_op_ready (sourced_bytes _ _)
    ltac:(split; discriminate) ltac:(discriminate) ltac:(discriminate) in_op_free in_op_spare).
Defined.

Lemma balloc_fresh_witness : exists a s', balloc 1 in_op = Ret a s' /\ 59 <= a < 1000 /\ ~ used in_op a /\
  content s' a = replicate (Z.to_nat BSIZE) 0 /\ (forall c, 0 <= c < 1000 -> used s' c <-> used in_op c \/ c = a) /\
  (forall c, settled in_op c -> content s' c = content in_op c).
Proof.
  apply (balloc_fresh 59 0 parent0 [] [] in_op in_op_txn in_op_layout).
  - intros a Ha. apply in_op_used. lia.
  - intros b x _ Hb. by apply not_elem_of_nil in Hb.
  - eapply spare_le; [exact in_op_spare|lia].
  - exact (frees_one in_op 3 in_op_free).
Defined.

Lemma in_op_dir : dir_ready 59 0 parent0 [] in_op 1 inode6.
Proof.
  constructor; [|done|done]. constructor; try done.
  - exact in_op_txn.
  - intros a Ha. apply in_op_used. lia.
  - exact inode6_ok.
  - constructor; [done| |vm_compute; reflexivity]. constructor; cbn; try lia. repeat (constructor; [lia|]). constructor.
Qed.

Definition entry6 (j : nat) : list Z := entry in_op inode6 j.

Lemma entries6 (f : list Z -> bool) : forallb (fun j => f (entry6 j)) (seq 0 31) = true -> forall j, (j < 31)%nat -> f (entry6 j) = true.
Proof. intros H j Hj. rewrite forallb_forall in H. apply H, in_seq. lia. Qed.

(** The file ls becomes the 32nd entry of the directory. *)
Lemma dirlink_dirlookup_witness : exists hs' s' x' s1 y,
  dirlink 1 (bytes "ls") 9 in_op = Ret 0 s' /\ dir_ready 59 0 parent0 hs' s' 1 x' /\
  (forall k, (k < 31)%nat -> k <> 31%nat -> entry s' x' k = entry6 k) /\
  dirlookup 1 (bytes "ls") s' = Ret (Some (2%nat, 496)) (with_inode 2 y s1) /\ i_inum y = 9 /\ same s' s1.
Proof.
  apply (dirlink_dirlookup 59 0 parent0 [] in_op 1 inode6 (bytes "ls") 9 31 2 in_op_dir).
  - intros j Hj. apply negb_true_iff. apply (entries6 (fun e => negb (names_entry (bytes "ls") e))); [vm_compute; reflexivity|exact Hj].
  - split; [done|]. split; [by left|]. intros j Hj. apply Z.eqb_neq, negb_true_iff. apply (entries6 (fun e => negb (dirent_inum e =? 0))); [vm_compute; reflexivity|exact Hj].
  - unfold chars. apply Forall_cons; split; [by split|]. apply Forall_cons; split; [by split|]. constructor.
  - lia.
  - done.
  - eapply frees_le; [exact in_op_free|lia].
  - exact in_op_spare.
  - reflexivity.
Defined.
