(* ===== verification/MkfsResults.v ===== *)
(** * Main theorems: the image of mkfs and the kernel that runs on it

    mkfs and the kernel share the layout of the disk and nothing else.  The
    theorems put the two together: the image is a file system that satisfies
    the kernel's invariants, and the kernel finds and reads in it what mkfs was
    given.  The end of the file has a concrete host on which they are used. *)

From S2P Require Import Prelude CString Mem KState Mmu Kalloc Vm File Proc Console Ulib Posix Text Bio Layout Log Inode Fs.
From S2P Require Import ProcMem WaitSpec BioSpec LogSpec TxnSpec FileSpec RwSpec DirSpec PathSpec Mkfs MkfsSpec Example FsResults.

(** ** Paths of one element *)

Lemma split_plain name : slash ∉ name -> split_path name = (name, []).
Proof.
  induction name as [|c name IH]; intros H; [done|]. apply not_elem_of_cons in H as [Hc H]. cbn [split_path]. rewrite IH by done. by rewrite (proj2 (Z.eqb_neq c slash)).
Qed.

Lemma elements_root name : slash ∉ name -> name <> [] -> elements (slash :: name) = [take DIRSIZ name].
Proof. intros H Hne. unfold elements. cbn [split_path]. rewrite split_plain by done. by destruct name. Qed.

Section results.
Context {LK : Linker} {FS : FsOps} {DK : Disk}.
Context {W : Type} {HO : Host W} {fsfd : Z} {sect : W -> Z -> list Z} {nsect pos : W -> Z} {rest : W -> option (Z * list Z)}.

(** The kernel runs on the image: it has read the super block, and its blocks
    are the sectors. *)
Definition mounted (img : Z -> list Z) (s : kstate) : Prop := sb s = get_superblock (img 1) /\ forall c, 0 <= c < FSSIZE -> content s c = img c.

(** The command line: the files exist and are small enough for their inodes
    and, together, for the disk. *)
Record mkfs_args (files : list Z -> option (list Z)) (k : nat) (args bss : list (list Z)) : Prop := {
  ma_inputs : Forall2 (input (files := files) k) args bss;
  ma_inodes : Z.of_nat (length args) + 1 < NINODES;
  ma_blocks : nmeta + total (root_dir args :: bss) <= FSSIZE;
  ma_round : ((length args + 2) mod 32 <> 0)%nat;
}.

Lemma inputs_chars files k args bss : Forall2 (input (files := files) k) args bss -> Forall chars args /\ length args = length bss.
Proof.
  intros H. split; [|by eapply Forall2_length]. induction H as [|arg bs args bss I H IH]; constructor; [apply (ip_str _ _ _ I)|done].
Qed.

Lemma skip_slash files k args bss j arg : Forall2 (input (files := files) k) args bss -> args !! j = Some arg -> slash ∉ skip_underscore arg.
Proof.
  intros H Ha. destruct (Forall2_lookup_l _ _ _ _ _ H Ha) as (bs & _ & I). pose proof (ip_slash _ _ _ I) as Hs. destruct arg as [|c arg]; [done|]. cbn. apply not_elem_of_cons in Hs as Hs'.
  destruct (c =? 95); [apply Hs'|done].
Qed.

Lemma length_root_dir args : Forall chars args -> length (root_dir args) = (16 * (length args + 2))%nat.
Proof.
  intros H. rewrite root_concat, (length_concat_same 16), length_map by (done || apply length_slots). unfold root_entries. rewrite length_app, length_imap. cbn [length]. lia.
Qed.

Lemma mkfs_run files k image args bss w fd0 : image_host fsfd sect nsect pos rest -> input_host fsfd sect nsect rest files -> rest w = None -> mkfs_args files k args bss ->
  exists t, mkfs_main k (image :: args) (mk_mkst w fd0 1 0) = Ret tt t /\ nsect (mk_world t) = FSSIZE /\ get_superblock (sect (mk_world t) 1) = mk_sb /\
    forall s, mounted (sect (mk_world t)) s -> disk_tree s (rounded (root_dir args) :: bss) (mk_types (length args)).
Proof.
  intros IH IN Hr [HI Hn Hs Hm]. destruct (inputs_chars _ _ _ _ HI) as [Hc Hl]. pose proof (length_root_dir args Hc) as Hlr. unfold NINODES in Hn.
  destruct (mkfs_prefix s0 IH IN k image args bss w fd0 Hr HI Hn Hs) as (t1 & img & fb & R1 & B1 & T1). pose proof (bd_fb _ _ _ _ _ B1) as Hfb. pose proof (length_rounded (root_dir args)) as Hlrd. rewrite Hlr in Hlrd.
  destruct (fix_root_run s0 IH t1 img _ fb None (root_dir args) B1 (tr_file _ _ _ _ _ T1 0%nat _ eq_refl)) as (t2 & R2 & B2); [change (MAXFILE * BSIZE) with 71680; lia|].
  assert (tree s0 (root_resized img (Z.of_nat (length (rounded (root_dir args))))) fb (rounded (root_dir args) :: bss) (mk_types (length args))) as T2.
  { apply tree_resized; [apply (bd_len _ _ _ _ _ B1)|done|done| |change (MAXFILE * BSIZE) with 71680; Z.div_mod_to_equations; lia].
    rewrite Hlr. replace 512%nat with (16 * 32)%nat by lia. rewrite Nat.Div0.mul_mod_distr_l. lia. }
  set (img' := root_resized img _) in *. destruct (mk_balloc_run IH t2 img' _ fb None B2 ltac:(unfold FSSIZE, BPB in *; lia)) as (t3 & R3 & Hns & Himg).
  assert (get_superblock (sect (mk_world t3) 1) = mk_sb) as Esb by (rewrite Himg by (unfold FSSIZE; lia); unfold marked; rewrite (tr_super _ _ _ _ _ T2); by vm_compute).
  exists t3. split; [|split; [done|split; [done|]]].
  - rewrite R1, (bind_ret_l _ _ _ _ _ R2), run_mgets. by rewrite (se_block _ _ _ _ _ _ (bd_sees _ _ _ _ _ B2)).
  - intros s [Es Hc']. rewrite Esb in Es. apply (tree_view s0 img' fb); [done|done|cbn [length]; rewrite <- Hl; unfold NINODES; lia|done|]. intros c Hc0. rewrite Hc' by done. by apply Himg.
Qed.


(** C12: what mkfs has put into the image is what the kernel reads.  In a kernel
    that runs on the image, namei of the file's name finds an inode, ilock
    reads it from the disk, and readi returns the bytes of the host's file. *)
Theorem mkfs_namei_readi files k image args bss w fd0 : image_host fsfd sect nsect pos rest -> input_host fsfd sect nsect rest files -> rest w = None -> mkfs_args files k args bss ->
  NoDup (map (take DIRSIZ) (map snd (root_entries args))) ->
  exists t, mkfs_main k (image :: args) (mk_mkst w fd0 1 0) = Ret tt t /\
    forall s u me p hs b f j arg bs, mounted (sect (mk_world t)) s -> FSSIZE <= disksize <= 2 ^ 31 -> txn u me p [] hs s -> (length hs < NBUF)%nat ->
      cache_ok p s b (2 + f) None (icache s) -> b + 2 < 2 ^ 31 -> args !! j = Some arg -> bss !! j = Some bs -> skip_underscore arg <> [] ->
      exists ip s1 s2 s3, namei (slash :: skip_underscore arg) s = Ret (Some ip) s1 /\ ilock (Some ip) s1 = Ret tt s2 /\
        readi ip to_local 0 (Z.of_nat (length bs)) s2 = Ret (Z.of_nat (length bs), bs) s3.
Proof.
  intros IH IN Hr HA Hnd. destruct (inputs_chars _ _ _ _ (ma_inputs _ _ _ _ HA)) as [Hc Hl].
  destruct (mkfs_run files k image args bss w fd0 IH IN Hr HA) as (t & R & Hn & Esb & HT). exists t. split; [done|].
  intros s u me p hs b f j arg bs Hm Hd X Hlen C Hb Ha Hbs Hne. pose proof (HT s Hm) as DT. assert (sb s = mk_sb) as Es by (by rewrite (proj1 Hm)).
  assert (fs_ok nmeta s) as OK by (eapply mk_fs_ok; try done; apply (ma_inodes _ _ _ _ HA)). pose proof (lookup_lt_Some _ _ _ Ha) as Hj. pose proof (ma_inodes _ _ _ _ HA) as Hin.
  assert (forall i, live s i <-> 0 < i <= Z.of_nat (length args) + 1) as Hlive by (intros i; eapply mk_live; done).
  destruct (mk_file s args bss DT Es Hl Hin (Z.of_nat j + 2)) as (bs' & Hbs' & F & Esz & Ef & _); [apply Hlive; lia|].
  replace (Z.to_nat (Z.of_nat j + 2 - 1)) with (S j) in Hbs' by lia. change (bss !! j = Some bs') in Hbs'. assert (bs' = bs) as -> by congruence.
  assert (slash ∉ skip_underscore arg) as Hsl by (apply (skip_slash files k args bss j arg); [apply HA|done]).
  destruct (path_reads nmeta u me p hs s (slash :: skip_underscore arg) 1 b f (Z.of_nat j + 2)) as (ip & s1 & s2 & s3 & R1 & R2 & R3); rewrite ?(elements_root _ Hsl Hne); cbn [length]; try done.
  - lia.
  - split; [done|]. apply Hlive. unfold ROOTINO. lia.
  - by eapply mk_walk.
  - unfold NINODES in Hin. rewrite (mk_type s args bss DT) by (unfold NINODES; lia). rewrite (proj2 (Z.eqb_neq _ 1)), (proj2 (Z.leb_le _ _)) by lia. done.
  - exists ip, s1, s2, s3. split; [done|]. split; [done|]. rewrite Esz in R3. rewrite R3. f_equal. f_equal. pose proof (fo_size _ _ _ F) as Hsz. change (i_size (inode_of s (Z.of_nat j + 2))) with (di_size (disk_inode s (Z.of_nat j + 2))) in Hsz. rewrite Esz in Hsz.
    rewrite <- (overlay_read (fbyte s (inode_of s (Z.of_nat j + 2))) 0 bs) at 2. apply map_ext_in. intros o Ho%list_elem_of_In%elem_of_seqZ. rewrite Ef by lia.
    unfold overlay. rewrite (proj2 (Z.leb_le 0 o)), (proj2 (Z.ltb_lt o _)) by lia. cbn [andb]. by rewrite Z.sub_0_r.
Qed.

(** C14: namei computes the meaning of a path.  In a well-formed file system and
    from the root or the current directory, it returns the inode to which the
    directories on the disk lead, with a reference to it, or none if an element
    is missing or what it follows is not a directory.  The disk, the locks and
    the references to the other inodes are as before. *)
Theorem namei_walk D u me p hs s path i b f : let n := length (elements path) in fs_ok D s -> txn u me p [] hs s -> (length hs < NBUF)%nat ->
  cache_ok p s b (S n + f) None (icache s) -> b + 1 + Z.of_nat n < 2 ^ 31 -> starts p s path i ->
  resolved u me p hs s (b + 1 + Z.of_nat n) f (namei path s) (walk s (elements path) i).
Proof. apply namei_run. Qed.

(** If the entries of the root directory fill whole blocks, mkfs makes it one
    block longer than the blocks it has: the last block of its size is not
    allocated. *)
Theorem mkfs_root_hole files k image args bss w fd0 : image_host fsfd sect nsect pos rest -> input_host fsfd sect nsect rest files -> rest w = None ->
  Forall2 (input (files := files) k) args bss -> Z.of_nat (length args) + 1 < NINODES -> nmeta + total (root_dir args :: bss) <= FSSIZE -> ((length args + 2) mod 32 = 0)%nat ->
  exists t, mkfs_main k (image :: args) (mk_mkst w fd0 1 0) = Ret tt t /\
    forall s, mounted (sect (mk_world t)) s -> ~ full s (inode_of s 1) (di_size (disk_inode s 1)).
Proof.
  intros IH IN Hr HI Hn Hs Hm. destruct (inputs_chars _ _ _ _ HI) as [Hc Hl]. pose proof (length_root_dir args Hc) as Hlr. unfold NINODES in Hn.
  destruct (mkfs_prefix s0 IH IN k image args bss w fd0 Hr HI Hn Hs) as (t1 & img & fb & R1 & B1 & T1). pose proof (bd_fb _ _ _ _ _ B1) as Hfb. pose proof (length_rounded (root_dir args)) as Hlrd. rewrite Hlr in Hlrd.
  pose proof (tr_file _ _ _ _ _ T1 0%nat _ eq_refl) as FA. change (Z.of_nat 0 + 1) with 1 in FA. pose proof FA as [_ F E _ _].
  destruct (fix_root_run s0 IH t1 img _ fb None (root_dir args) B1 FA) as (t2 & R2 & B2); [change (MAXFILE * BSIZE) with 71680; lia|].
  set (img' := root_resized img _) in *. destruct (mk_balloc_run IH t2 img' _ fb None B2 ltac:(unfold FSSIZE, BPB in *; lia)) as (t3 & R3 & Hns & Himg).
  exists t3. split; [rewrite R1, (bind_ret_l _ _ _ _ _ R2), run_mgets; by rewrite (se_block _ _ _ _ _ _ (bd_sees _ _ _ _ _ B2))|]. intros s [Es Hc'].
  assert (forall c, 0 <= c < FSSIZE -> content s c = marked img' fb c) as HC by (intros c Hc0; rewrite Hc' by done; by apply Himg).
  assert (sb s = mk_sb) as Esb by (rewrite Es, Himg by (unfold FSSIZE; lia); unfold marked; change (img' 1) with (img 1); rewrite (tr_super _ _ _ _ _ T1); by vm_compute).
  assert (disk_inode s 1 = set_size (Z.of_nat (length (rounded (root_dir args)))) (dino img 1)) as Ed.
  { unfold disk_inode. rewrite Esb, HC by (vm_compute; by split). change (marked img' fb (IBLOCK 1 mk_sb)) with (img' (IBLOCK 1 mk_sb)).
    apply (dino_resized s0 img fb); [apply (bd_len _ _ _ _ _ B1)|done|done|]. Z.div_mod_to_equations. lia. }
  assert (block_of s (inode_of s 1) (Z.of_nat (length (root_dir args)) / 512) = block_of (kst s0 img fb) (fnode img 1) (Z.of_nat (length (root_dir args)) / 512)) as Eb.
  { unfold block_of, inode_of. rewrite Ed, (proj2 (Z.ltb_lt _ NDIRECT)) by (unfold NDIRECT; rewrite Hlr; Z.div_mod_to_equations; lia). done. }
  rewrite Ed. cbn [di_size set_size]. rewrite Hlrd. intros Hfull. apply (Hfull (Z.of_nat (length (root_dir args)) / 512)).
  - change MAXFILE with 140. rewrite Hlr. Z.div_mod_to_equations. lia.
  - change BSIZE with 512. rewrite Hlr. lia.
  - rewrite Eb. destruct (decide (block_of (kst s0 img fb) (fnode img 1) (Z.of_nat (length (root_dir args)) / 512) = 0)) as [|Hne]; [done|]. exfalso.
    apply (ex_block _ _ _ _ _ E) in Hne; [|change MAXFILE with 140; rewrite Hlr; Z.div_mod_to_equations; lia]. unfold blocks in Hne.
    assert (Z.of_nat (length (root_dir args)) mod 512 = 0) as H0 by (rewrite Hlr; change 512 with (Z.of_nat (16 * 32)); rewrite <- Nat2Z.inj_mod, Nat.Div0.mul_mod_distr_l, Hm; done).
    Z.div_mod_to_equations. lia.
Qed.

End results.

(** ** A host *)

(** The sectors of the image and their number, the offset in the image, and
    the input file that is open. *)
Record hworld : Type := mk_hworld {
  h_sect : Z -> list Z;
  h_nsect : Z;
  h_pos : Z;
  h_rest : option (Z * list Z);
}.

(** The input files. *)
Definition readme : list Z := replicate 700 65.
Definition cat : list Z := bytes "cat".
Definition host_files (path : list Z) : option (list Z) :=
  if bool_decide (path = bytes "README") then Some readme else if bool_decide (path = bytes "_cat") then Some cat else None.

Definition host_read (fd : Z) (n : nat) : M hworld (Z * list Z) := fun w =>
  if fd =? 3 then Ret (BSIZE, h_sect w (h_pos w / BSIZE)) (mk_hworld (h_sect w) (h_nsect w) (h_pos w + BSIZE) (h_rest w))
  else match h_rest w with
       | Some (fd', bs) => if fd =? fd' then Ret (Z.of_nat (length (take n bs)), take n bs) (mk_hworld (h_sect w) (h_nsect w) (h_pos w) (Some (fd', drop n bs))) else Ret (-1, []) w
       | None => Ret (-1, []) w
       end.

#[local] Instance host_io : Io hworld := {
  io_open path flags _ w :=
    if flags =? 0 then
      match host_files path with
      | Some bs => Ret 4 (mk_hworld (h_sect w) (h_nsect w) (h_pos w) (Some (4, bs)))
      | None => Ret (-1) w
      end
    else Ret 3 (mk_hworld (h_sect w) 0 0 (h_rest w));
  io_read := host_read;
  io_write fd bs w :=
    let k := h_pos w / BSIZE in
    Ret (Z.of_nat (length bs)) (mk_hworld (upd (h_sect w) k bs) (Z.max (h_nsect w) (k + 1)) (h_pos w + Z.of_nat (length bs)) (h_rest w));
  io_close fd w := Ret tt (mk_hworld (h_sect w) (h_nsect w) (h_pos w) (if fd =? 3 then h_rest w else None));
}.

Definition host_posix : Posix hworld := {|
  px_io := host_io;
  px_stdout _ := ret tt;
  px_stderr _ := ret tt;
  px_errno := ret 2;
  px_strerror _ := bytes "No such file or directory";
  px_fstat _ := ret None;
  px_stat _ := ret None;
  px_lstat _ := ret None;
  px_unlink _ := ret (-1);
  px_rmdir _ := ret (-1);
  px_rename _ _ := ret (-1);
  px_chmod _ _ := ret (-1);
  px_utime _ := ret (-1);
  px_opendir _ := ret None;
  px_readdir _ := ret None;
  px_closedir _ := ret tt;
  px_alloc _ := ret true;
  px_dup2 _ _ := ret tt;
  px_contents _ := ret None;
|}.

#[local] Instance host0 : Host hworld := {|
  ho_posix := host_posix;
  ho_lseek fd o w := Ret o (mk_hworld (h_sect w) (h_nsect w) o (h_rest w));
|}.

Lemma host0_image : image_host 3 h_sect h_nsect h_pos h_rest.
Proof.
  constructor.
  - intros w o Ho. by eexists.
  - intros w k bs Hk Hp Hl. assert (h_pos w / BSIZE = k) as Ek by (rewrite Hp; by apply Z.div_mul). eexists. split; [cbn; rewrite Hl; reflexivity|]. cbn. by rewrite Ek.
  - intros w k Hk Hp. assert (h_pos w / BSIZE = k) as Ek by (rewrite Hp; by apply Z.div_mul). eexists. split; [cbn; unfold host_read; cbn; rewrite Ek; reflexivity|]. done.
  - intros w path. by eexists.
  - done.
  - intros w bs. by eexists.
Qed.

Lemma take_length_take n (l : list Z) : take (length (take n l)) l = take n l.
Proof. rewrite length_take. destruct (decide (n <= length l)%nat); [by rewrite Nat.min_l|]. rewrite Nat.min_r by lia. by rewrite !take_ge by lia. Qed.

Lemma drop_length_take n (l : list Z) : drop (length (take n l)) l = drop n l.
Proof. rewrite length_take. destruct (decide (n <= length l)%nat); [by rewrite Nat.min_l|]. rewrite Nat.min_r by lia. by rewrite !drop_ge by lia. Qed.

Lemma host0_input : input_host 3 h_sect h_nsect h_rest host_files.
Proof.
  constructor.
  - intros w arg bs E. exists 4. eexists. split; [cbn; rewrite E; reflexivity|]. done.
  - intros w fd bs Hfd E. exists (length (take (Z.to_nat BSIZE) bs)). eexists. split.
    { cbn. unfold host_read. rewrite (proj2 (Z.eqb_neq fd 3)), E, Z.eqb_refl by done. rewrite take_length_take. reflexivity. }
    rewrite length_take. split; [lia|]. split; [intros Hb; destruct bs; [done|]; cbn [length]; unfold BSIZE; lia|]. split; [done|]. split; [done|]. cbn [h_rest]. by rewrite <- length_take, drop_length_take.
  - intros w fd bs Hfd E. eexists. split; [reflexivity|]. cbn. by rewrite (proj2 (Z.eqb_neq fd 3)).
Qed.

(** mkfs fs.img README _cat *)
Definition names0 : list (list Z) := [bytes "README"; bytes "_cat"].

Lemma names0_args : mkfs_args host_files 1000 names0 [readme; cat].
Proof.
  constructor.
  - apply Forall2_cons; split; [|apply Forall2_cons; split; [|constructor]].
    all: constructor; [reflexivity|by apply (bool_decide_unpack _); vm_compute|repeat (constructor; [by split|]); constructor|by vm_compute|by apply Nat.ltb_lt; vm_compute].
  - done.
  - by vm_compute.
  - by vm_compute.
Qed.

Lemma names0_distinct : NoDup (map (take DIRSIZ) (map snd (root_entries names0))).
Proof. by apply (bool_decide_unpack _); vm_compute. Qed.

Definition world0 : hworld := mk_hworld (fun _ => []) 0 0 None.


(** The image, and a kernel that has booted on it. *)
Definition built : Z -> list Z :=
  match mkfs_main 1000 (bytes "fs.img" :: names0) (mk_mkst world0 0 1 0) with Ret _ t => h_sect (mk_world t) | _ => fun _ => [] end.

Definition image0 (c : Z) : list Z := if (0 <=? c) && (c <? 1000) then built c else zeros.

Definition kernel0 : kstate := op_on [no_inode; no_inode; no_inode] image0.

Lemma image0_length c : length (image0 c) = 512%nat.
Proof.
  unfold image0. destruct (Z.leb_spec 0 c), (Z.ltb_spec c 1000); try reflexivity. cbn [andb].
  assert (forallb (fun c => (length (built c) =? 512)%nat) (seqZ 0 1000) = true) as H' by (vm_compute; reflexivity).
  rewrite forallb_forall in H'. apply Nat.eqb_eq, H', list_elem_of_In, elem_of_seqZ. lia.
Qed.

Lemma kernel0_mounted t : mkfs_main 1000 (bytes "fs.img" :: names0) (mk_mkst world0 0 1 0) = Ret tt t -> mounted (h_sect (mk_world t)) kernel0.
Proof.
  intros R. assert (h_sect (mk_world t) = built) as -> by (unfold built; by rewrite R). split; [vm_compute; reflexivity|].
  intros c Hc. change (content kernel0 c) with (image0 c). unfold image0. unfold FSSIZE in Hc. by rewrite (proj2 (Z.leb_le 0 c)), (proj2 (Z.ltb_lt c 1000)) by lia.
Qed.

Lemma kernel0_cache s : cache_ok parent0 s 0 3 None (icache kernel0).
Proof. constructor; [|done]. intros k x Hx. destruct k as [|[|[|k]]]; [injection Hx as <-..|done]; rewrite bool_decide_false by done; by constructor. Qed.

Lemma mkfs_namei_readi_witness : exists t, mkfs_main 1000 (bytes "fs.img" :: names0) (mk_mkst world0 0 1 0) = Ret tt t /\
  exists ip s1 s2 s3, namei (bytes "/cat") kernel0 = Ret (Some ip) s1 /\ ilock (Some ip) s1 = Ret tt s2 /\ readi ip to_local 0 3 s2 = Ret (3, bytes "cat") s3.
Proof.
  destruct (mkfs_namei_readi host_files 1000 (bytes "fs.img") names0 [readme; cat] world0 0 host0_image host0_input eq_refl names0_args names0_distinct) as (t & R & H).
  exists t. split; [exact R|]. apply (H kernel0 1 0%nat parent0 [] 0 1%nat 1%nat (bytes "_cat") cat).
  - by apply kernel0_mounted.
  - change (1000 <= 1000 <= 2 ^ 31). lia.
  - apply op_on_txn, image0_length.
  - apply Nat.ltb_lt. reflexivity.
  - apply kernel0_cache.
  - lia.
  - reflexivity.
  - reflexivity.
  - discriminate.
Defined.

Lemma kernel0_fs_ok : fs_ok nmeta kernel0.
Proof.
  destruct (mkfs_run host_files 1000 (bytes "fs.img") names0 [readme; cat] world0 0 host0_image host0_input eq_refl names0_args) as (t & R & _ & _ & HT).
  destruct (inputs_chars _ _ _ _ (ma_inputs _ _ _ _ names0_args)) as [Hc Hl]. eapply (mk_fs_ok kernel0 names0 [readme; cat]); [by apply HT, kernel0_mounted|reflexivity|done|done|done|].
  change (1000 <= 1000 <= 2 ^ 31). lia.
Qed.

Lemma kernel0_starts : starts parent0 kernel0 (bytes "//cat/") 1.
Proof. change (1 = ROOTINO /\ live kernel0 ROOTINO). split; [done|]. split; [by vm_compute|vm_compute; discriminate]. Qed.

Lemma namei_walk_witness : exists k s' x, namei (bytes "//cat/") kernel0 = Ret (Some k) s' /\ txn 1 0 parent0 [] [] s' /\ alike kernel0 s' /\
  cache_ok parent0 kernel0 2 1 None (icache s') /\ icache s' !! k = Some x /\ i_inum x = 3 /\ 0 < i_ref x.
Proof.
  assert (walk kernel0 (elements (bytes "//cat/")) 1 = Some 3) as E by (vm_compute; reflexivity).
  pose proof (namei_walk nmeta 1 0 parent0 [] kernel0 (bytes "//cat/") 1 0 1 kernel0_fs_ok (op_on_txn _ _ image0_length) ltac:(apply Nat.ltb_lt; reflexivity) (kernel0_cache _) ltac:(reflexivity) kernel0_starts) as H. rewrite E in H. exact H.
Defined.
