(* ===== verification/UserResults.v ===== *)
(** * Results about the user programs *)

From stdpp Require Import gmap fin_maps sorting.
From S2P Require Import Prelude CString Console Ulib Grep Posix Text Sort FileTools Myshell Sh TextSpec RmSpec ShellSpec UserWorld ShSpec.

(** ** grep *)

(** C38: The matcher of grep finds a match exactly if the text has a part in the
    language of the pattern: a part at the beginning after a caret, at the end
    before a dollar sign, any character for a dot and any number of repetitions
    for a star. *)
Theorem match_correct re text : match_ re text = true <-> matches re text.
Proof. apply match_spec. Qed.

#[export] Instance matches_dec re text : Decision (matches re text).
Proof.
  refine (match match_ re text as b return match_ re text = b -> _ with true => fun E => left _ | false => fun E => right _ end eq_refl).
  - by apply match_spec.
  - intros H. apply match_spec in H. congruence.
Defined.



Definition grep_input : list Z := bytes "abc" ++ [10] ++ bytes "xyz" ++ [10] ++ bytes "adc" ++ [10].
Definition grep_world : uworld := mk_uworld grep_input [] [] ∅.


(** ** The shell of xv6 *)

(** On every line without null bytes the parser of sh returns or stops with
    a syntax error, within its bounds.  The strings of the command it returns,
    which share the line's buffer and are terminated in place, are exactly the
    tokens of the line. *)
Theorem parsecmd_tokens buf : Forall (fun c => c <> 0) buf ->
  match parsecmd buf 0%nat with
  | Ret (c, buf') _ => read_cmd (string_at buf') c = read_cmd (slice buf) c
  | Panic _ _ => True
  | _ => False
  end.
Proof.
  intros H. pose proof (parsecmd_good buf H) as Hg. unfold good in Hg. by destruct (parsecmd buf 0%nat) as [[c buf'] s'| | |].
Qed.

Definition sh_line : list Z := bytes "(a b;c)|d >e&".

Lemma parsecmd_tokens_witness : exists c buf' n, parsecmd sh_line 0%nat = Ret (c, buf') n /\
  read_cmd (string_at buf') c = read_cmd (slice sh_line) c.
Proof.
  pose proof (parsecmd_tokens sh_line ltac:(repeat constructor; done)) as H.
  assert (exists r n, parsecmd sh_line 0%nat = Ret r n) as ([c buf'] & n & E) by (eexists _, _; vm_compute; reflexivity).
  rewrite E in H. exists c, buf', n. split; [exact E|exact H].
Defined.

(** C23: Parsing the printed form of a command gives back the command: its
    structure, its words and its redirections. *)
Theorem parsecmd_roundtrip c : wf c ->
  exists c' buf', parsecmd (show c) 0%nat = Ret (c', buf') (length (show c)) /\ read_cmd (string_at buf') c' = c.
Proof. apply parsecmd_show. Qed.

Definition sh_cmd : scmd :=
  SBack (SPipe (SList (SExec [bytes "ls"]) (SExec [bytes "cat"; bytes "f"])) (SRedir (SExec [bytes "wc"]) (bytes "out") (Z.lor SH_WRONLY SH_CREATE) 1)).

Lemma word_check w : w <> [] -> forallb (fun c => negb (c =? 0) && negb (is_ws c) && negb (is_sym c)) w = true -> word w.
Proof.
  intros Hne H. split; [done|]. apply Forall_forall. intros c Hc. apply list_elem_of_In in Hc. apply (proj1 (forallb_forall _ _) H) in Hc.
  unfold word_char. apply andb_prop in Hc as [[H1 H2]%andb_prop H3]. apply negb_true_iff in H1, H2, H3. apply Z.eqb_neq in H1. done.
Qed.

Lemma sh_cmd_wf : wf sh_cmd.
Proof.
  assert (forall ws, forallb (fun w => (0 <? length w)%nat && forallb (fun c => negb (c =? 0) && negb (is_ws c) && negb (is_sym c)) w) ws = true ->
    (length ws < MAXARGS)%nat -> wf (SExec ws)) as Hexec.
  { intros ws H Hl. split; [|done]. apply Forall_forall. intros w Hw. apply list_elem_of_In in Hw. apply (proj1 (forallb_forall _ _) H) in Hw.
    apply andb_prop in Hw as [H1 H2]. apply word_check; [by destruct w|done]. }
  refine (conj (conj (Hexec _ _ _) (Hexec _ _ _)) (conj (Hexec _ _ _) (conj (word_check _ _ _) _)));
    try done; try (cbn; unfold MAXARGS; lia).
Qed.

Lemma parsecmd_roundtrip_witness :
  exists c' buf', parsecmd (show sh_cmd) 0%nat = Ret (c', buf') (length (show sh_cmd)) /\ read_cmd (string_at buf') c' = sh_cmd.
Proof. exact (parsecmd_roundtrip sh_cmd sh_cmd_wf). Defined.

(** A pipeline of sh connects its two commands: the left one runs with the
    write end of a new pipe as its standard output and the right one with the
    read end as its standard input, all their other descriptors are those of
    the shell, and no process keeps a further descriptor of the pipe, so that
    the right command sees the end of the left one's output. *)
Theorem sh_pipeline {W} {XV : Xv6 W} fds (XF : xv_fds fds) buf l r w : is_Some (fds w !! 0) -> is_Some (fds w !! 1) ->
  exists p id wp, runcmd buf (PIPE l r) w = fork1 (pipe_left p ;; runcmd buf l) (fork1 (pipe_right p ;; runcmd buf r) (pipe_parent p)) wp /\
    forall wc, fds wc = fds wp ->
      (exists wl, (pipe_left p ;; runcmd buf l) wc = runcmd buf l wl /\ fds wl = <[1 := OPipeWrite id]> (fds w)) /\
      (exists wr, (pipe_right p ;; runcmd buf r) wc = runcmd buf r wr /\ fds wr = <[0 := OPipeRead id]> (fds w)) /\
      (exists w', pipe_parent p wc = (xv_wait ;; xv_wait ;; ret tt) w' /\ fds w' = fds w).
Proof. by apply runcmd_pipe. Qed.

Definition tty_fds : gmap Z ofile := {[ 0 := OPath (bytes "console") 2; 1 := OPath (bytes "console") 2; 2 := OPath (bytes "console") 2 ]}.

Lemma sh_pipeline_witness : exists p id wp,
  runcmd (XV := xv_user) [] (PIPE (EXEC []) (EXEC [])) (mk_xworld tty_fds 0) =
    fork1 (XV := xv_user) (pipe_left (XV := xv_user) p ;; ret tt) (fork1 (XV := xv_user) (pipe_right (XV := xv_user) p ;; ret tt) (pipe_parent (XV := xv_user) p)) wp /\
  exists wl, (pipe_left (XV := xv_user) p ;; ret tt) wp = ret tt wl /\ x_fds wl = <[1 := OPipeWrite id]> tty_fds.
Proof.
  destruct (sh_pipeline (XV := xv_user) x_fds xv_user_fds [] (EXEC []) (EXEC []) (mk_xworld tty_fds 0)) as (p & id & wp & Hr & Hc).
  - by eexists.
  - by eexists.
  - exists p, id, wp. split; [exact Hr|]. exact (proj1 (Hc wp eq_refl)).
Defined.

(** ** Copying *)

(** Custom_cp copies its source to its destination byte for byte, whatever
    the counts of the reads and writes in between, and reports success. *)
Theorem cp_copies {W} {PX : Posix W} src dst rest out (St : Stream src dst rest out) k a b w w1 w2 w3 st :
  io_open a PX_RDONLY 0 w = Ret src w1 -> 0 <= src -> px_fstat src w1 = Ret st w2 ->
  io_open b (Z.lor (Z.lor PX_WRONLY PX_CREAT) PX_TRUNC) (match st with Some m => Z.land m 0x1ff | None => 0x1a4 end) w2 = Ret dst w3 ->
  0 <= dst -> (length (rest w3) < k)%nat ->
  (forall fd w, exists w', io_close fd w = Ret tt w' /\ out w' = out w) ->
  (forall bs w, exists w', px_stdout bs w = Ret tt w' /\ out w' = out w) ->
  exists w', cp_main k [a; b] w = Ret 0 w' /\ out w' = out w3 ++ rest w3.
Proof.
  intros Hsrc Hs Hst Hdst Hd Hk Hclose Hout. unfold cp_main. rewrite (bind_ret_l _ _ _ _ _ Hsrc), (proj2 (Z.ltb_ge src 0)) by lia.
  unfold copy_mode. rewrite bind_assoc, (bind_ret_l _ _ _ _ _ Hst), (bind_ret_l (ret _) _ w2 _ w2 eq_refl), (bind_ret_l _ _ _ _ _ Hdst).
  rewrite (proj2 (Z.ltb_ge dst 0)) by lia. destruct (pump_run src dst rest out St k w3 Hk) as (w4 & Hp & Ho4 & _).
  rewrite (bind_ret_l _ _ _ _ _ Hp), (bind_ret_l (ret tt) _ w4 tt w4 eq_refl).
  destruct (Hclose src w4) as (w5 & H5 & Ho5). destruct (Hclose dst w5) as (w6 & H6 & Ho6). destruct (Hout (arrow "Copied" a b) w6) as (w7 & H7 & Ho7).
  rewrite (bind_ret_l _ _ _ _ _ H5), (bind_ret_l _ _ _ _ _ H6), (bind_ret_l _ _ _ _ _ H7). exists w7. split; [done|]. congruence.
Qed.

(** The file that is written, apart from the standard output. *)
Definition quiet_posix : Posix uworld := let P := user_posix three three in {|
  px_io := user_io three three; px_stdout bs w := Ret tt w; px_stderr := px_stderr; px_errno := px_errno; px_strerror := px_strerror;
  px_fstat := px_fstat; px_stat := px_stat; px_lstat := px_lstat; px_unlink := px_unlink; px_rmdir := px_rmdir; px_rename := px_rename;
  px_chmod := px_chmod; px_utime := px_utime; px_opendir := px_opendir; px_readdir := px_readdir; px_closedir := px_closedir;
  px_alloc := px_alloc; px_dup2 := px_dup2; px_contents := px_contents |}.

Lemma cp_copies_witness : exists w',
  cp_main (PX := quiet_posix) 100 [bytes "a"; bytes "b"] grep_world = Ret 0 w' /\ u_out w' = grep_input.
Proof.
  edestruct (cp_copies (PX := quiet_posix) 0 1 u_in u_out (user_stream three three 0 1 three_ok three_ok) 100 (bytes "a") (bytes "b") grep_world) as (w' & Hr & Ho).
  - vm_compute. reflexivity.
  - lia.
  - vm_compute. reflexivity.
  - vm_compute. reflexivity.
  - lia.
  - vm_compute. lia.
  - intros fd w. by eexists.
  - intros bs w. by exists w.
  - exists w'. split; [exact Hr|]. rewrite Ho. vm_compute. reflexivity.
Defined.

(** ** head and tail *)

(** Custom_tail prints the last [keep] lines of its file with their
    newlines, in their order and for every size of the reads, when no line
    fills its line buffer, there is no null byte and memory suffices. *)
Theorem tail_prints {W} {PX : Posix W} fd rest out (St : Stream fd 1 rest out) (Al : allocs rest out) keep k path w w0 : 0 < keep ->
  io_open path PX_RDONLY 0 w = Ret fd w0 -> 0 <= fd -> (length (rest w0) < k)%nat ->
  Forall (fun c => c <> 0) (rest w0) -> fits_buffer (rest w0) ->
  (forall w, exists w', io_close fd w = Ret tt w' /\ out w' = out w) ->
  exists w', dump_tail k path keep w = Ret 0 w' /\
    out w' = out w0 ++ concat (last_n (Z.to_nat keep) (with_newlines (split_lines (rest w0)).1 (split_lines (rest w0)).2)).
Proof.
  intros Hkeep Ho Hfd Hk Hn Hfit Hclose. destruct (dump_tail_run fd rest out St Al keep k path w w0) as (w1 & Hr & Hout); [done..|].
  destruct (Hclose w1) as (w2 & Hc & Ho2). exists w2. rewrite Hr, (bind_ret_l _ _ _ _ _ Hc). split; [done|].
  by rewrite Ho2, Hout, tail_cut_all.
Qed.

Lemma fits_check data :
  forallb (fun l => (length l <? MAX_LINE_LEN - 1)%nat) ((split_lines data).2 :: (split_lines data).1) = true -> fits_buffer data.
Proof.
  cbn [forallb]. intros [H1 H2]%andb_prop. split; [|by apply Nat.ltb_lt]. apply Forall_forall. intros l Hl. apply list_elem_of_In in Hl.
  apply Nat.ltb_lt. by apply (proj1 (forallb_forall _ _) H2).
Qed.

Lemma tail_prints_witness : exists w', dump_tail (PX := user_posix three three) 100 (bytes "f") 2 grep_world = Ret 0 w' /\
  u_out w' = bytes "xyz" ++ [10] ++ bytes "adc" ++ [10].
Proof.
  edestruct (tail_prints (PX := user_posix three three) 0 u_in u_out (user_stream three three 0 1 three_ok three_ok) (fun n w => ex_intro _ w (conj eq_refl (conj eq_refl eq_refl))) 2 100
    (bytes "f") grep_world) as (w' & Hr & Ho).
  - lia.
  - vm_compute. reflexivity.
  - lia.
  - vm_compute. lia.
  - repeat constructor; done.
  - apply fits_check. vm_compute. reflexivity.
  - intros w. by eexists.
  - exists w'. split; [exact Hr|]. rewrite Ho. vm_compute. reflexivity.
Defined.

(** Custom_head prints the bytes of its file up to and including the
    [n]-th newline, and all of a shorter file. *)
Theorem head_prints {W} {PX : Posix W} fd rest out (F : Full fd 1 rest out) n k path w w0 :
  io_open path PX_RDONLY 0 w = Ret fd w0 -> 0 <= fd -> (length (rest w0) < k)%nat ->
  (forall w, exists w', io_close fd w = Ret tt w' /\ out w' = out w) ->
  exists w', head_file k path n w = Ret 0 w' /\ out w' = out w0 ++ first_lines n (rest w0).
Proof.
  intros Ho Hfd Hk Hclose. destruct (head_file_run fd rest out F n k path w w0) as (w1 & Hr & Hout); [done..|].
  destruct (Hclose w1) as (w2 & Hc & Ho2). exists w2. rewrite Hr, (bind_ret_l _ _ _ _ _ Hc). split; [done|]. congruence.
Qed.

Lemma head_prints_witness : exists w', head_file (PX := user_posix whole whole) 100 (bytes "f") 2 grep_world = Ret 0 w' /\
  u_out w' = bytes "abc" ++ [10] ++ bytes "xyz" ++ [10].
Proof.
  edestruct (head_prints (PX := user_posix whole whole) 0 u_in u_out (user_full 0 1) 2 100 (bytes "f") grep_world) as (w' & Hr & Ho).
  - vm_compute. reflexivity.
  - lia.
  - vm_compute. lia.
  - intros w. by eexists.
  - exists w'. split; [exact Hr|]. rewrite Ho. vm_compute. reflexivity.
Defined.

(** ** sort *)










(** ** The shell of the second project *)





(** ** rm *)

(** C27: custom_rm -r removes a path and everything below it and nothing else,
    closes the directories it opened and returns 0, when every path of the
    subtree fits its buffer. *)
Theorem rm_removes {W} {PX : Posix W} files streams (TC : tree_calls files streams) k args p w :
  flag_args "-r" args false None = (true, Some p) -> is_Some (files w !! p) -> tree_ok (files w) -> paths_fit p (files w) ->
  (size (below p (files w)) + 3 <= k)%nat ->
  exists w', rm_main k args w = Ret 0 w' /\ files w' = without p (files w) /\ streams w' = streams w.
Proof. intros Ha Hp Hok Hfit Hk. unfold rm_main. rewrite Ha. by apply (remove_recursive_run files streams TC k). Qed.

Definition small_tree : gmap (list Z) bool :=
  {[ bytes "d" := true; bytes "d/e" := true; bytes "d/e/f" := false; bytes "d/g" := false; bytes "d2" := false ]}.

(** The laws of a finite tree, entry by entry. *)
Definition tree_check (m : gmap (list Z) bool) : bool :=
  forallb (fun kv => forallb (fun kr =>
    negb (bool_decide (under kv.1 kr.1)) || bool_decide (kr.1 = kv.1) ||
    (kv.2 && existsb (fun kn => match entry_of kv.1 kn.1 with Some _ => bool_decide (under kn.1 kr.1) | None => false end) (map_to_list m)))
    (map_to_list m)) (map_to_list m).

Lemma tree_check_ok m : tree_check m = true -> tree_ok m.
Proof.
  intros H p r [b Hb] [b' Hr]. unfold tree_check in H. apply elem_of_map_to_list, list_elem_of_In in Hb, Hr.
  apply (proj1 (forallb_forall _ _) H) in Hb as Hp. apply (proj1 (forallb_forall _ _) Hp) in Hr as Hx. cbn [fst snd] in Hx.
  rewrite bool_decide_eq_true_2 in Hx by apply under_child. rewrite (bool_decide_eq_false_2 (child p r = p)) in Hx by apply child_not_self.
  cbn [negb orb] in Hx. apply andb_prop in Hx as [-> Hx]. split; [by apply elem_of_map_to_list, list_elem_of_In|].
  apply existsb_exists in Hx as ([q b''] & Hin & He). cbn [fst] in He. destruct (entry_of p q) as [n|] eqn:En; [|done].
  apply entry_of_child in En as [-> Hn]. exists n. split; [done|]. split; [|by apply bool_decide_eq_true in He].
  exists b''. by apply elem_of_map_to_list, list_elem_of_In.
Qed.

Lemma rm_removes_witness : exists w',
  rm_main (PX := tree_posix) 10 [bytes "-r"; bytes "d"] (mk_tworld small_tree ∅) = Ret 0 w' /\ t_files w' = {[ bytes "d2" := false ]}.
Proof.
  edestruct (rm_removes (PX := tree_posix) t_files t_streams tree_posix_calls 10 [bytes "-r"; bytes "d"] (bytes "d") (mk_tworld small_tree ∅))
    as (w' & Hr & Hf & _).
  - vm_compute. reflexivity.
  - by eexists.
  - apply tree_check_ok. vm_compute. reflexivity.
  - intros q _ [b Hb]. apply elem_of_map_to_list, list_elem_of_In in Hb. change (length q) with (length (q, b).1).
    apply Nat.ltb_lt. revert Hb. generalize (q, b). apply forallb_forall. vm_compute. reflexivity.
  - apply Nat.leb_le. vm_compute. reflexivity.
  - exists w'. split; [exact Hr|]. rewrite Hf. vm_compute. reflexivity.
Defined.
