(* ===== verification/KernelResults.v ===== *)
(** * Main theorems: defects, the console, library functions and arguments

    First the places where the kernel does something else than its comments or
    documents promise, or where it loses track of memory; then the console,
    string.c and the fetching of system call arguments. *)

From S2P Require Import Prelude CString Mem KState Mmu Console Kalloc Vm AddrSpace VmSpec VmGrow VmFork File Proc.
From S2P Require Import Syscall Sysproc Msg Bio ConsoleDev Sysfile ProcMem WaitSpec UserMem Sched ConsoleSpec.
From S2P Require Import Example.

Section defects.
Context {LK : Linker} {FS : FsOps}.

(** set_priority stores the priority and returns the old one, and this has no
    influence on the scheduler: the next process is the same from every
    position. *)
Theorem set_priority_unscheduled pid prio s i p : held s = [] -> 0 <= prio <= 100 ->
  find_index (fun q => p_pid q =? pid) (ptable s) = Some i -> ptable s !! i = Some p ->
  exists s', set_priority pid prio s = Ret (p_priority p) s' /\
    ptable s' !! i = Some (set_p_priority prio p) /\
    forall pos, scheduler_next pos (ptable s') = scheduler_next pos (ptable s).
Proof.
  intros Hh Hr Hf Hp. pose proof (lookup_lt_Some _ _ _ Hp) as Hlt. unfold set_priority.
  rewrite (proj2 (Z.ltb_ge prio 0)), (proj2 (Z.ltb_ge 100 prio)) by lia. cbn [orb].
  rewrite run_acquire by (rewrite Hh; apply not_elem_of_nil). krun. rewrite Hf. krun.
  rewrite (run_proc_at i p) by done. unfold upd_proc. krun. rewrite Hh.
  erewrite run_release; [|by ksimpl|apply not_elem_of_nil]. eexists. split; [done|]. ksimpl.
  split; [by rewrite list_lookup_alter_eq, Hp|].
  intros pos. apply scheduler_next_states, list_eq. intros j. rewrite !list_lookup_fmap.
  destruct (decide (i = j)) as [<-|Hj]; [by rewrite list_lookup_alter_eq, Hp|by rewrite list_lookup_alter_ne].
Qed.

(** The address space of a process that exits is freed together with its
    shared pages, which shmget still hands out. *)
Theorem shm_page_freed s dir l id r : free_pages s l -> aspace (mem s) dir l -> LkKmem ∉ held s ->
  shmtable s !! id = Some r -> own (mem s) dir (sr_page r) ->
  exists s' l', freevm dir s = Ret tt s' /\ free_pages s' l' /\ sr_page r ∈ l' /\ shmtable s' !! id = Some r.
Proof.
  intros Hf Ha Hk Hr Ho. destruct (freevm_spec s dir l Hf Ha Hk) as (s' & l' & Hrun & Hst & Hf' & Hq & _).
  exists s', l'. split; [done|]. split; [done|]. split; [apply Hq; by left|]. by rewrite Hst.
Qed.

(** kill with pid 0 finds an unused slot: it succeeds, and the next process
    that is created in the slot is born killed. *)
Theorem kill_marks_unused s i p : held s = [] -> find_index unused (ptable s) = Some i ->
  find_index (fun q => p_pid q =? 0) (ptable s) = Some i -> ptable s !! i = Some p ->
  exists s', kill 0 s = Ret 0 s' /\
    allocproc s' = allocproc_stack i (set_ptable (<[i := embryo (set_p_killed 1 p) (nextpid s) (ticks s)]> (ptable s'))
                                        (set_nextpid (i32 (nextpid s + 1)) s')).
Proof.
  intros Hh Hu Hf Hp. pose proof (lookup_lt_Some _ _ _ Hp) as Hlt.
  destruct (proj1 (find_index_Some _ _ _) Hu) as [(p' & Hp' & Hs) Hmin]. assert (p' = p) as -> by congruence.
  apply bool_decide_eq_true in Hs.
  exists (set_ptable (<[i := set_p_killed 1 p]> (ptable s)) s). split.
  - unfold kill. rewrite run_acquire by (rewrite Hh; apply not_elem_of_nil). krun. rewrite Hf. unfold upd_proc. krun. rewrite Hh.
    erewrite run_release; [|by ksimpl|apply not_elem_of_nil]. unfold ret. f_equal. ksimpl.
    rewrite (alter_eq_insert (set_p_killed 1) i p (ptable s)) by done. rewrite alter_insert_eq by done. ksimpl. rewrite Hs. rewrite bool_decide_eq_false_2 by done.
    rewrite <- Hh. by knorm.
  - refine (allocproc_found (set_ptable (<[i := set_p_killed 1 p]> (ptable s)) s) i _ Hh _ _); ksimpl; [|by apply list_lookup_insert_eq].
    apply find_index_Some. split.
    + exists (set_p_killed 1 p). split; [by apply list_lookup_insert_eq|]. unfold unused. ksimpl. by rewrite Hs.
    + intros j y Hj. rewrite list_lookup_insert_ne by lia. by apply Hmin.
Qed.

(** growproc by minus the whole size (sbrk(-sz)) reports failure although it
    has freed every page, and leaves the old size in place. *)
Theorem growproc_all_freed s l me p : pmem s l -> cur s = Some me -> ptable s !! me = Some p -> has_mem p = true ->
  0 < p_sz p < KERNBASE -> held s = [] ->
  exists s' l', growproc (- p_sz p) s = Ret (-1) s' /\ free_pages s' l' /\
    ptable s' !! me = Some p /\ forall vb, uva vb -> vb < p_sz p -> present (pte_of (mem s') (p_pgdir p) vb) = false.
Proof.
  intros Hp Hc Hme Hm Hsz Hh. destruct (deallocuvm_spec s (p_pgdir p) (p_sz p) 0 l) as (s' & l' & Hr & [S1 S2 _ _ _ S6 _ _]).
  - by eapply pm_free.
  - by eapply pm_as.
  - rewrite Hh. apply not_elem_of_nil.
  - unfold KERNBASE. lia.
  - lia.
  - exists s', l'. split; [|split; [done|split]].
    + unfold growproc. rewrite (run_curproc me) by done. rewrite (run_proc_at me p) by done.
      rewrite (proj2 (Z.ltb_ge 0 _)), (proj2 (Z.ltb_lt _ 0)) by lia.
      replace (u32 (p_sz p + - p_sz p)) with 0 by (rewrite Z.add_opp_diag_r; done). krun.
      rewrite (bind_ret_l _ _ _ _ _ Hr). rewrite Z.min_r by lia. done.
    + by rewrite (vmstep_ptable _ _ S1).
    + intros vb Hu Hlt. apply S6; [done|]. change (PGROUNDUP 0) with 0. destruct Hu. lia.
Qed.

(** msgsnd with more data than fits behind the node's header writes past the
    page, for every message the caller may send from its memory. *)
Theorem msgsnd_overruns node msgp msgsz s : 4084 < msgsz -> node_fill node msgp msgsz s = Undef "msgsnd: past the page" s.
Proof. intros H. unfold node_fill. by rewrite (proj2 (Z.ltb_lt NODE_ROOM msgsz)). Qed.

End defects.

(** * Main theorems: the console

    The line editor of [consoleintr] and the reader [consoleread], with
    [ConsoleSpec]'s abstract editor as specification. *)

Section results.
Context {LK : Linker} {FS : FsOps} {DK : Disk}.


(** A console interrupt with the characters [cs] (none of them ^P, which
    prints a process listing) returns with all locks released, and the buffer
    holds what the editor makes of [cs]. *)
Theorem consoleintr_line cs comm pend s : Forall (fun c => 0 <= c < 256 /\ c <> Ctrl "P") cs ->
  line_rep (input s) comm pend -> held s = [] ->
  exists x o pt, consoleintr cs s = Ret tt (set_input x (set_out (out s ++ o) (set_ptable pt s))) /\
    line_rep x (edit_all cs comm pend).1 (edit_all cs comm pend).2.
Proof. apply consoleintr_run. Qed.

(** A read from the console takes the next line.  It returns the committed
    bytes up to and including the first newline, at most [k] of them; at ^D it
    returns the bytes before it, and leaves ^D for the next read unless there
    were none; without a whole line it sleeps, or fails if it was killed. *)
Theorem consoleread_line ip me p put dst k comm pend s :
  (forall o c t, dst o [c] t = Ret tt (set_mem (put o c (mem t)) t)) ->
  cur s = Some me -> ptable s !! me = Some p -> held s = [LkCons] -> line_rep (input s) comm pend ->
  Z.of_nat k < 2 ^ 31 ->
  read_result ip me p put dst k (Z.of_nat k) pend [] s (read_line k comm []).
Proof.
  intros Hdst Hc Hp Hh Hx Hk. apply consoleread_loop_run with (comm := comm); try done.
  cbn [length]. by rewrite Nat.add_0_r.
Qed.

End results.

(** ** Instances *)

Lemma empty_line : line_rep (input s0) [] [].
Proof. by constructor; cbn; try lia; try done. Qed.


(** The user types [lx], a backspace, [s] and return: readers see [ls]. *)
Lemma consoleintr_line_witness :
  exists x o pt, consoleintr [108; 120; 8; 115; 13] s0 = Ret tt (set_input x (set_out (out s0 ++ o) (set_ptable pt s0))) /\
    line_rep x [108; 115; 10] [].
Proof.
  apply (consoleintr_line [108; 120; 8; 115; 13] [] [] s0); [|exact empty_line|done].
  repeat (constructor; [by split; [lia|]|]). constructor.
Defined.

(** A reader in the kernel that holds the console lock, with a line and a half
    of input. *)
Definition reading0 : kstate :=
  set_held [LkCons] (set_input (mk_cinput ([108; 115; 10; 99; 100] ++ replicate 123 0) 0 3 5) s0).

Lemma reading0_line : line_rep (input reading0) [108; 115; 10] [99; 100].
Proof.
  constructor; cbn; try lia; try done.
  - intros k c Hk. do 5 (destruct k as [|k]; [exact Hk|]). done.
  - repeat constructor; lia.
Qed.

Lemma consoleread_line_witness :
  read_result 0 0 parent0 (fun o c m => st8 m (stack0 + o) c)
    (fun o bs t => match bs with [c] => Ret tt (set_mem (st8 (mem t) (stack0 + o) c) t) | _ => undef "not a byte" t end)
    100 100 [99; 100] [] reading0 (Line [108; 115; 10] []).
Proof.
  apply (consoleread_line 0 0 parent0 _ _ 100 [108; 115; 10] [99; 100] reading0); try done. exact reading0_line.
Defined.

(** * Main theorems: library functions and system call arguments

    The memory and string functions of string.c, the number printing of
    console.c, and the functions of syscall.c and sysfile.c that fetch
    arguments from user memory. *)

Section results.
Context {LK : Linker} {FS : FsOps} {DK : Disk}.

(** Memmove copies a block as if through a separate buffer, whichever way
    the two blocks overlap, and changes no byte outside the destination. *)
Theorem memmove_overlap m dst src n x : 0 <= n ->
  memmove m dst src n x = if (dst <=? x) && (x <? dst + n) then ld8 m (x - dst + src) else m x.
Proof. apply memmove_spec. Qed.

(** Memset by words (rep stosl) and memset by bytes (rep stosb) fill the
    same bytes, and only them. *)
Theorem memset_fills m dst c n x : 0 <= n ->
  memset m dst c n x = stosb m dst c n x.
Proof. intros Hn. by rewrite memset_spec. Qed.

(** Safestrcpy always leaves a terminated string in a buffer of at least
    [n] bytes: the source, cut after n - 1 characters; it never writes past
    the buffer and never needs the source's terminator beyond that point. *)
Theorem safestrcpy_terminates s t n : 0 < n <= Z.of_nat (length s) -> n - 1 <= Z.of_nat (length t) ->
  exists r, safestrcpy s t n = Some r /\ length r = length s /\ 0 ∈ r /\
    cstr r = take (Z.to_nat (n - 1)) (cstr t).
Proof. apply safestrcpy_spec. Qed.

(** Printint prints every int correctly in decimal: a minus sign for a
    negative number, then digits that denote its absolute value (also for the
    smallest int), at most 11 characters for the 16-byte buffer. *)
Theorem printint_decimal xx : - 2 ^ 31 <= xx < 2 ^ 31 ->
  exists ds, printint_bytes xx 10 true = (if xx <? 0 then [chr "-"] else []) ++ ds /\
    Forall (fun c => is_digit c = true) ds /\ decimal 0 ds = Z.abs xx /\
    (length (printint_bytes xx 10 true) <= 11)%nat.
Proof.
  intros Hx. unfold printint_bytes. cbn [andb].
  assert ((if xx <? 0 then u32 (- xx) else u32 xx) = Z.abs xx) as ->.
  { destruct (xx <? 0) eqn:E; bool_prop; rewrite u32_id; lia. }
  rewrite (printint_loop_fuel 10 22) by lia.
  destruct (printint_loop_value 10 (Z.abs xx) []) as (ds & -> & Hd & Hv & Hl); [lia|lia|].
  exists ds. rewrite app_nil_r. destruct (xx <? 0); (split; [done|]); (split; [done|]); (split; [done|]); cbn [length]; lia.
Qed.


(** A path argument is read without a fault and without looking outside
    the caller's memory; the kernel gets exactly the bytes before the first
    NUL. *)
Theorem argpath_safe s l me p n : ucaller s l me p ->
  exists r, argpath n s = Ret r s /\
    forall bs, r = Some bs -> Forall (fun c => 0 < c < 256) bs /\
      exists a, 0 <= a /\ a + Z.of_nat (length bs) < p_sz p /\ user_byte s p (a + Z.of_nat (length bs)) = 0 /\
        forall k, (k < length bs)%nat -> bs !! k = Some (user_byte s p (a + Z.of_nat k)).
Proof.
  intros Hu. unfold argpath. destruct (argstr_spec s l me p n Hu) as (r & Hr & Hc).
  rewrite (bind_ret_l _ _ _ _ _ Hr). destruct r as [[a len]|]; [|exists None; split; [done|by intros]].
  destruct Hc as (H1 & H2 & H3 & H4 & H5).
  destruct (vread_user s l me p a (Z.to_nat len)) as (bs & Hb & Hl & Hk); [done|lia|lia|].
  rewrite (bind_ret_l _ _ _ _ _ Hb). exists (Some bs). split; [done|]. intros bs' [= <-].
  assert (Z.of_nat (length bs) = len) as Hlen by lia. split.
  - apply Forall_lookup. intros k c Hc. pose proof (lookup_lt_Some _ _ _ Hc) as Hlt.
    rewrite (Hk k) in Hc by lia. injection Hc as <-.
    assert (0 <= user_byte s p (a + Z.of_nat k) < 256) by apply ld8_range.
    specialize (H5 (Z.of_nat k) ltac:(lia)). lia.
  - exists a. rewrite Hlen. do 3 (split; [done|]). intros k Hlt. apply Hk. lia.
Qed.

End results.

(** ** Instances *)

Lemma memmove_overlap_witness :
  memmove (fun x => x mod 256) 1002 1000 5 1004 =
  if (1002 <=? 1004) && (1004 <? 1002 + 5) then ld8 (fun x => x mod 256) (1004 - 1002 + 1000) else 1004 mod 256.
Proof. exact (memmove_overlap (fun x => x mod 256) 1002 1000 5 1004 ltac:(lia)). Defined.

Lemma memset_fills_witness : memset (fun _ => 7) 4096 5 64 4100 = stosb (fun _ => 7) 4096 5 64 4100.
Proof. apply memset_fills. lia. Defined.

Lemma safestrcpy_terminates_witness :
  exists r, safestrcpy (replicate 4 1) (bytes "initcode" ++ [0]) 4 = Some r /\ length r = length (replicate 4 1) /\
    0 ∈ r /\ cstr r = take (Z.to_nat (4 - 1)) (cstr (bytes "initcode" ++ [0])).
Proof. apply safestrcpy_terminates; cbn; lia. Defined.

Lemma printint_decimal_witness :
  exists ds, printint_bytes (- 2 ^ 31) 10 true = (if - 2 ^ 31 <? 0 then [chr "-"] else []) ++ ds /\
    Forall (fun c => is_digit c = true) ds /\ decimal 0 ds = Z.abs (- 2 ^ 31) /\
    (length (printint_bytes (- 2 ^ 31) 10 true) <= 11)%nat.
Proof. apply printint_decimal. lia. Defined.


Lemma argpath_safe_witness : exists r, argpath 0 s0 = Ret r s0 /\
  forall bs, r = Some bs -> Forall (fun c => 0 < c < 256) bs /\
    exists a, 0 <= a /\ a + Z.of_nat (length bs) < 4096 /\ user_byte s0 parent0 (a + Z.of_nat (length bs)) = 0 /\
      forall k, (k < length bs)%nat -> bs !! k = Some (user_byte s0 parent0 (a + Z.of_nat k)).
Proof. exact (argpath_safe s0 free0 0 parent0 0 s0_ucaller). Defined.
