(* ===== verification/DevResults.v ===== *)
(** * Main theorems: devices

    The IDE driver serves its requests in order and does to a buffer what the
    memory disk does; a text typed on the keyboard reaches the line editor; the
    processors of a configuration table are found, and an unknown entry makes
    [mpinit] loop; the clock's date is decoded.  The instances run on [pc], a
    machine with a disk controller, a keyboard, a clock and a local APIC. *)

From S2P Require Import Prelude CString Mem KState Mmu Kalloc Vm AddrSpace VmSpec VmGrow VmFork File Proc ProcMem.
From S2P Require Import ForkSpec WaitSpec Bio Layout Log BioSpec Console Inode Pipe ConsoleDev ConsoleSpec Trap.
From S2P Require Import Devices Ide IdeSpec DevSpec Syscall UserMem Example.

(** ** The IDE driver and the memory disk *)

Section memide.
Context {LK : Linker} {FS : FsOps} {DK : Disk}.

Lemma flags_served f : Z.land (Z.lor f B_VALID) (Z.lnot B_DIRTY) = Z.lor (Z.land f (Z.lnot B_DIRTY)) B_VALID.
Proof. by rewrite Z.land_lor_distr_l. Qed.

Lemma flags_clean f : Z.land f B_DIRTY = 0 -> Z.land f (Z.lnot B_DIRTY) = f.
Proof. intros H. pose proof (Z.lor_ldiff_and f B_DIRTY) as E. rewrite H, Z.lor_0_r in E. by rewrite <- Z.ldiff_land. Qed.

(** What memide.c's [iderw] does, in the terms of the driver's specification. *)
Lemma iderw_run s me p b x : fscaller s me p -> bufs s !! b = Some x -> b_locked x = true -> b_lkpid x = p_pid p ->
  Z.land (b_flags x) (Z.lor B_VALID B_DIRTY) <> B_VALID -> b_dev x = 1 -> b_blockno x < disksize ->
  iderw b s = Ret tt (set_writes (if has_flag B_DIRTY x then writes s ++ [(b_blockno x, b_data x)] else writes s)
    (with_buf b (served (fun _ _ => false) (fun _ n => disk s n) x) s)).
Proof.
  intros C Hb Hl Hk Hf Hd Hn. pose proof (lookup_lt_Some _ _ _ Hb) as Hlt. unfold iderw.
  erewrite bind_ret_l by (by eapply holdingsleep_run). cbn [negb]. erewrite run_buf_at by done.
  rewrite (proj2 (Z.eqb_neq _ _) Hf), Hd, (proj2 (Z.leb_gt _ _)) by lia. cbn [Z.eqb Pos.eqb negb].
  unfold served, with_buf. destruct (has_flag B_DIRTY x) eqn:E; cbn [orb]; krun.
  - erewrite run_upd_buf by done. krun. erewrite upd_buf_eq by (ksimpl; by apply list_lookup_insert_eq).
    ksimpl. rewrite list_insert_insert_eq, flags_served. by knorm.
  - erewrite run_upd_buf by done. erewrite upd_buf_eq by (ksimpl; by apply list_lookup_insert_eq).
    ksimpl. rewrite list_insert_insert_eq, flags_served, flags_clean.
    + knorm. by destruct s.
    + unfold has_flag in E. by apply negb_false_iff, Z.eqb_eq in E.
Qed.

End memide.

Section results.
Context {LK : Linker} {FS : FsOps} {DK : Disk} {W : Type} {PT : Ports W}.
Implicit Types (d : devst W) (view : W -> ide_view).

(** C11: the IDE driver is a queue of disk requests.  In every state it can
    reach, [iderw] of a process that has the buffer's lock puts the request at
    the end of the queue and goes to sleep; an interrupt completes the first
    request as [served] says (a read gets the sector as the earlier requests
    left it, a write is on the drive, the sleepers of that buffer and nobody
    else become runnable), and hands the next one to the controller; with an
    empty queue the drives hold the effect of all requests, and an interrupt
    changes nothing.  No step panics or waits for ever. *)
Theorem ide_fifo polls limit view disk q d : ide_laws view limit -> (limit <= polls)%nat ->
  ide_run polls limit view disk q d ->
  (forall me p b x, rw_caller d me p b x -> b ∉ q -> exists d', ide_rw polls b d = Block d' /\
     dv_k d' = waiting me b (dv_k d) /\ ide_run polls limit view disk (q ++ [b]) d') /\
  (forall b q', q = b :: q' -> LkIde ∉ held (dv_k d) -> LkPtable ∉ held (dv_k d) ->
     exists x d', bufs (dv_k d) !! b = Some x /\ ide_intr polls d = Ret tt d' /\
     dv_k d' = completed b (served (bad_of view d) disk x) (dv_k d) /\
     ide_run polls limit view (served_disk disk x) q' d') /\
  (q = [] -> LkIde ∉ held (dv_k d) -> (forall dr n, iv_sect (view (dv_w d)) dr n = disk dr n) /\ ide_intr polls d = Ret tt d).
Proof.
  intros L Hl R. pose proof (ide_run_inv polls limit view L Hl disk q d R) as I. split; [|split].
  - intros me p b x C Hb. destruct (ide_rw_run polls limit view L Hl d disk q me p b x I C Hb) as (d' & R' & Hk & _).
    exists d'. split; [done|]. split; [done|]. by eapply run_request.
  - intros b q' -> Hi Hp. destruct (ide_intr_run polls limit view L Hl d disk b q' I Hi Hp) as (x & d' & Hx & R' & Hk & _).
    exists x, d'. split; [done|]. split; [done|]. split; [done|]. by eapply run_interrupt.
  - intros -> Hi. split; [by apply (iq_idle _ _ _ _ _ I)|by eapply ide_intr_none].
Qed.

(** C30: a request with [k] others before it is complete after [k + 1]
    interrupts.  The interrupts return; the buffer is valid and clean, and the
    process that slept on it is runnable; what the buffers and the drives hold
    is the effect of the requests one after the other. *)
Theorem ide_completes polls limit view disk q1 b q2 d me p : ide_laws view limit -> (limit <= polls)%nat ->
  ide_run polls limit view disk (q1 ++ b :: q2) d -> LkIde ∉ held (dv_k d) -> LkPtable ∉ held (dv_k d) ->
  ptable (dv_k d) !! me = Some p -> p_state p = SLEEPING -> p_chan p = Some (ChBuf b) ->
  exists d' x p', ide_intrs polls (S (length q1)) d = Ret tt d' /\ bufs (dv_k d') !! b = Some x /\
    Z.land (b_flags x) (Z.lor B_VALID B_DIRTY) = B_VALID /\ ptable (dv_k d') !! me = Some p' /\ p_state p' = RUNNABLE /\
    bufs (dv_k d') = (served_all (bad_of view d) disk (bufs (dv_k d)) (q1 ++ [b])).2.
Proof.
  intros L Hl R Hi Hp Hme Hs Hc. pose proof (ide_run_inv polls limit view L Hl _ _ _ R) as I.
  replace (q1 ++ b :: q2) with ((q1 ++ [b]) ++ q2) in I by (by rewrite <- app_assoc).
  destruct (ide_intrs_run polls limit view L Hl (q1 ++ [b]) q2 d disk I Hi Hp) as (d' & R' & Hb & _ & Ht & _).
  rewrite length_app, Nat.add_1_r in R'.
  destruct (iq_request _ _ _ _ _ I b) as (y & Hy & _); [rewrite !elem_of_app, list_elem_of_singleton; auto|].
  destruct (served_last (bad_of view d) q1 b disk (bufs (dv_k d))) as (x & Hx & Hf); [by eapply lookup_lt_Some|].
  destruct (wakes_run (q1 ++ [b]) (ChBuf b) (ptable (dv_k d)) me p Hme Hc) as (p' & Hp' & Hr).
  { right. split; [done|]. rewrite fmap_app. apply elem_of_app. right. apply list_elem_of_here. }
  exists d', x, p'. rewrite Hb, Ht. done.
Qed.

(** C21: ide.c and memide.c are the same disk.  A call of ide.c's [iderw] sleeps;
    after the interrupt and the switch back to the caller it returns, with the
    buffers that memide.c's [iderw] leaves, and disk 1 holds what the memory
    disk holds then, if both held the same before. *)
Theorem ide_is_memide polls limit view disk1 d me p b x : ide_laws view limit -> (limit <= polls)%nat ->
  ide_inv limit view d disk1 [] -> rw_caller d me p b x -> p_kstack p <> 0 -> p_pgdir p <> 0 ->
  b_dev x = 1 -> b_blockno x < disksize -> bad_of view d 1 (b_blockno x) = false ->
  (forall n, disk1 1 n = disk (dv_k d) n) ->
  exists s d1 d2, iderw b (dv_k d) = Ret tt s /\ ide_rw polls b d = Block d1 /\ ide_rw_rest polls me b d1 = Ret tt d2 /\
    bufs (dv_k d2) = bufs s /\ held (dv_k d2) = held s /\ cur (dv_k d2) = cur s /\
    (forall n, iv_sect (view (dv_w d2)) 1 n = disk s n).
Proof.
  intros L Hl I C Hk Hg Hdev Hn Hbad Hdisk.
  destruct (ide_rw_whole polls limit view L Hl d disk1 me p b x I C Hk Hg) as (d1 & d2 & R1 & R2 & Hb & Hh & Hc & I2).
  pose proof C as [Cc Hx Hlk Hpid Rq _ _]. pose proof Cc as [C1 C2 C3 C4].
  pose proof (iderw_run (dv_k d) me p b x Cc Hx Hlk Hpid (rq_flags _ Rq) Hdev Hn) as R.
  eexists _, d1, d2. split; [exact R|]. split; [done|]. split; [done|].
  assert (drive x = 1) as Hdr by (unfold drive; by rewrite Hdev).
  split; [|split; [unfold with_buf; by ksimpl; rewrite C4|split; [unfold with_buf; by ksimpl; rewrite C1|]]].
  - rewrite Hb. unfold with_buf. ksimpl. f_equal. unfold served. rewrite Hdr, Hbad, orb_false_r, Hdisk. done.
  - intros n. rewrite (iq_idle _ _ _ _ _ I2) by done. unfold served_disk, Bio.disk, with_buf. ksimpl.
    destruct (has_flag B_DIRTY x); [|by rewrite Hdisk]. unfold disk_after, upd_sect. rewrite foldl_app. cbn [foldl fst snd].
    rewrite Hdr, Z.eqb_refl, Hdisk. done.
Qed.

(** C29: typing reaches the line editor.  When the keyboard holds the scan codes
    of the keystrokes of a text (presses and releases, with shift and control
    keys), one interrupt does to the kernel what [consoleintr] does with the
    text itself, empties the keyboard and leaves no modifier on; the console's
    buffer then represents what the editor makes of the text. *)
Theorem keyboard_types polls keys text codes comm pend d : kbd_laws keys ->
  Forall (fun c => 0 <= c < 256 /\ c <> Ctrl "P") text -> typing text = Some codes -> keys (dv_w d) = codes ->
  (length codes <= polls)%nat -> dv_shift d = 0 -> held (dv_k d) = [] -> line_rep (input (dv_k d)) comm pend ->
  exists s w, consoleintr text (dv_k d) = Ret tt s /\ Kbd.kbd_intr polls d = Ret tt (set_dv_k s (set_dv_w w d)) /\
    keys w = [] /\ line_rep (input s) (edit_all text comm pend).1 (edit_all text comm pend).2.
Proof.
  intros L Ht Hty Hk Hp Hs Hh Hline. destruct (consoleintr_run text comm pend (dv_k d) Ht Hline Hh) as (x & o & pt & R & Hx).
  destruct (kbd_intr_run polls keys L text codes d _ ltac:(by eapply Forall_impl; [exact Ht|intros c []]) Hty Hk Hs Hp R) as (w & Rw & Hw).
  eexists _, w. split; [exact R|]. split; [done|]. split; [done|]. by ksimpl.
Qed.

(** [mpinit] finds the processors.  For a configuration table with known
    entries it returns; [cpus] then has the APIC ids of the first [NCPU]
    processor entries, in order, [ncpu] is their number, [ioapicid] is the last
    I/O APIC's, and on a processor whose APIC id is the i-th of them [mycpu]
    returns the i-th element. *)
Theorem mpinit_finds polls mp conf es d : mp_config (mem (dv_k d)) mp conf es -> (length es <= polls)%nat -> found d [] ->
  exists d', mpinit polls d = Ret tt d' /\ found d' (take (Z.to_nat NCPU) (mp_procs es)) /\
    dv_lapic d' = mpconf_lapicaddr (mem (dv_k d)) conf /\
    dv_ioapicid d' = default (dv_ioapicid d) (last (mp_ioapics es)) /\
    forall w i a, NoDup (take (Z.to_nat NCPU) (mp_procs es)) -> take (Z.to_nat NCPU) (mp_procs es) !! i = Some a ->
      dv_if d = false -> dv_lapic d' <> 0 -> Z.shiftr (u32 (pt_load (dv_lapic d' + 4 * Lapic.ID) w).1) 24 = a ->
      exists w', mycpu (set_dv_w w d') = Ret i (set_dv_w w' d').
Proof.
  intros Hc Hp Hf. destruct (mpinit_run polls mp conf es d Hc Hp Hf) as (n & l & w2 & R & F & _). set (d2 := mp_state _ _ _ _) in R, F.
  assert (dv_lapic d2 = mpconf_lapicaddr (mem (dv_k d)) conf /\ dv_ioapicid d2 = default (dv_ioapicid d) (last (mp_ioapics es)) /\
    dv_if d2 = dv_if d) as (E1 & E2 & E3) by done. clearbody d2.
  exists (set_dv_w w2 d2). split; [exact R|]. split; [exact F|]. split; [done|]. split; [done|].
  intros w i a Hnd Hi Hif Hl Ha. rewrite <- E3 in Hif. eexists. eapply (mycpu_run (set_dv_w w (set_dv_w w2 d2)) _ i a); [|done..].
  by destruct F; constructor.
Qed.

(** An entry of a type that [mpinit] does not know makes it loop for ever:
    the [break] of its default case leaves the [switch] and not the loop, so
    the pointer stays at the entry, and the panic after the loop is never
    reached. *)
Theorem mpinit_hangs polls mp conf es q d : let m := mem (dv_k d) in
  mpconfig m = Some (mp, conf) -> mp_table m (conf + sizeof_mpconf) q es -> q < conf + mpconf_length m conf ->
  ld8 m q ∉ [MPPROC; MPBUS; MPIOAPIC; MPIOINTR; MPLINTR] ->
  exists d', mpinit polls d = Undef "mpinit: loop bound" d'.
Proof.
  intros m Hc Ht Hq Hu. unfold mpinit. erewrite (bind_ret_l (gets _)) by reflexivity. fold m. rewrite Hc.
  set (d1 := set_dv_lapic (mpconf_lapicaddr m conf) d). rewrite (bind_ret_l _ _ d tt d1) by done.
  destruct (mp_entries_stuck polls es _ q _ true d1 Ht Hq Hu) as (d' & R). exists d'. unfold bind at 1. by rewrite R.
Qed.

(** [cmostime] reads the date.  With the clock at rest and no update in
    progress it returns after one reading, with the date that the registers
    show, in binary-coded decimal or in binary as status register B says. *)
Theorem cmostime_date polls idx regs stands d t : rtc_laws idx regs stands -> stands (dv_w d) ->
  Z.land (u8 (regs Lapic.CMOS_STATA)) Lapic.CMOS_UIP = 0 -> in_range t ->
  shown regs = coded (if Z.land (u8 (regs Lapic.CMOS_STATB)) 4 =? 0 then bcd else fun x => x) t ->
  exists w, cmostime polls d = Ret t (set_dv_w w d) /\ stands w.
Proof. intros L. by apply (cmostime_run polls idx regs stands L). Qed.

End results.

(** ** A machine *)

(** A disk controller that is busy for two status reads after a command, a
    keyboard with pending scan codes, a clock, and the id of the local APIC. *)
Record pc : Type := mk_pc {
  pc_ide : ide_view;
  pc_keys : list Z;
  pc_index : Z;
  pc_apicid : Z;
}.

(** 16 November 2026, 12:34:56, in binary-coded decimal; status register B is 2. *)
Definition rtc0 (i : Z) : Z :=
  nth (Z.to_nat i) [0x56; 0; 0x34; 0; 0x12; 0; 0; 0x16; 0x11; 0x26; 0x26; 0x02] 0.

Definition with_ide (v : ide_view) (m : pc) : pc := mk_pc v (pc_keys m) (pc_index m) (pc_apicid m).

#[export] Instance pc_ports : Ports pc := {|
  pt_inb port m :=
    if port =? 0x1f7 then
      match iv_busy (pc_ide m) with
      | S n => (0x80, with_ide (set_busy n (pc_ide m)) m)
      | O => (if iv_err (pc_ide m) then 0x41 else 0x40, m)
      end
    else if port =? 0x64 then (if bool_decide (pc_keys m = []) then 0 else 1, m)
    else if port =? 0x60 then (hd 0 (pc_keys m), mk_pc (pc_ide m) (tl (pc_keys m)) (pc_index m) (pc_apicid m))
    else if port =? 0x71 then (rtc0 (pc_index m), m)
    else (0, m);
  pt_outb port v m :=
    if (0x1f2 <=? port) && (port <=? 0x1f6) then with_ide (set_task port v (pc_ide m)) m
    else if port =? 0x1f7 then
      if v =? IDE_CMD_READ then with_ide (set_busy 2 (start_read (pc_ide m))) m
      else if v =? IDE_CMD_WRITE then
        with_ide (set_data false (FromHost (drive_of (pc_ide m)) (sector_of (pc_ide m)) []) (pc_ide m)) m
      else m
    else if port =? 0x70 then mk_pc (pc_ide m) (pc_keys m) v (pc_apicid m)
    else m;
  pt_inl port m :=
    match iv_xfer (pc_ide m) with
    | ToHost (v :: ws) => (v, with_ide (set_data (iv_err (pc_ide m)) (ToHost ws) (pc_ide m)) m)
    | _ => (0, m)
    end;
  pt_outl port v m :=
    match iv_xfer (pc_ide m) with
    | FromHost dr n ws => with_ide (set_busy 2 (take_word dr n (ws ++ [v]) (pc_ide m))) m
    | _ => m
    end;
  pt_load a m := (if a =? 0xFEE00020 then Z.shiftl (pc_apicid m) 24 else 0, m);
  pt_store a v m := m;
|}.

Lemma pc_ide_laws : ide_laws pc_ide 2.
Proof.
  constructor; cbn [pt_inb pt_outb pt_inl pt_outl pc_ports Z.eqb Pos.eqb].
  - intros w n ->. by split.
  - intros w ->. by destruct (iv_err (pc_ide w)).
  - done.
  - intros w port val Hp. by zbool.
  - intros w _ _. exists 2%nat. split; [lia|done].
  - done.
  - intros w v ws ->. done.
  - intros w v dr n ws -> _. exists 2%nat. split; [lia|done].
Qed.

Lemma pc_kbd_laws : kbd_laws pc_keys.
Proof.
  constructor; cbn [pt_inb pc_ports Z.eqb Pos.eqb Kbd.KBSTATP Kbd.KBDATAP].
  - intros w. by case_bool_decide.
  - intros w c cs ->. done.
Qed.

Lemma pc_rtc_laws : rtc_laws pc_index rtc0 (fun _ => True).
Proof. by constructor. Qed.

(** ** Instances *)

(** Buffers 5 and 6 belong to process 1: a read of block 7 and a write of block
    8 of disk 1. *)
Definition zeros : list Z := replicate 512 0.
Definition buf5 : buf := mk_buf 0 1 7 true 1 1 zeros.
Definition buf6 : buf := mk_buf 6 1 8 true 1 1 (replicate 512 66).
Definition disk7 (dr n : Z) : list Z := if (dr =? 1) && (n =? 7) then replicate 512 65 else zeros.

Definition sdev0 : kstate := set_disk0 (disk7 1) (set_bufs (<[6%nat := buf6]> (<[5%nat := buf5]> (bufs s0))) s0).

Definition pc0 (keys : list Z) : pc :=
  mk_pc (mk_view 0 0 0 0 0xe0 1 false Idle disk7 (fun _ n => n =? 13)) keys 0 1.

Definition dev0 (s : kstate) (keys : list Z) : devst pc :=
  mk_devst s (pc0 keys) false 0xFEE00000 IOAPIC 0 (replicate 8 0) (replicate 8 0) [] [] true false 0 None
    (replicate NBUF None) true.

Lemma sector_replicate c : 0 <= c < 256 -> sector (replicate 512 c).
Proof. intros Hc. split; [apply length_replicate|]. by apply Forall_replicate. Qed.

Lemma dev0_inv keys : ide_inv 2 pc_ide (dev0 sdev0 keys) disk7 [].
Proof.
  constructor; try done.
  - constructor.
  - intros b []%elem_of_nil.
  - intros dr n. unfold disk7. destruct (_ && _); apply sector_replicate; lia.
  - cbn. lia.
Qed.

Lemma dev0_caller5 keys : rw_caller (dev0 sdev0 keys) 0 parent0 5 buf5.
Proof.
  constructor; try done; [|by right|unfold NBUF, MAXOPBLOCKS; lia]. constructor; [done|apply sector_replicate; lia|done].
Qed.

Lemma ide_fifo_witness : exists d, ide_rw 2 5 (dev0 sdev0 []) = Block d /\ ide_run 2 2 pc_ide disk7 [5%nat] d.
Proof.
  destruct (ide_fifo 2 2 pc_ide disk7 [] (dev0 sdev0 []) pc_ide_laws) as [H _]; [lia|apply run_start, dev0_inv|].
  destruct (H 0%nat parent0 5%nat buf5 (dev0_caller5 []) (not_elem_of_nil _)) as (d & R & _ & Hr). by exists d.
Defined.

(** The driver with the request of process 1 pending, and no process running. *)
Lemma dev0_pending : exists d, ide_run 2 2 pc_ide disk7 [5%nat] d /\ held (dv_k d) = [] /\
  exists p, ptable (dv_k d) !! 0%nat = Some p /\ p_state p = SLEEPING /\ p_chan p = Some (ChBuf 5).
Proof.
  destruct (ide_rw_run 2 2 pc_ide pc_ide_laws ltac:(lia) (dev0 sdev0 []) disk7 [] 0 parent0 5 buf5 (dev0_inv _) (dev0_caller5 _) (not_elem_of_nil _))
    as (d & R & K & _).
  exists (set_dv_k (descheduled (dv_k d)) d). split; [|split; [done|]].
  - apply run_kernel; [|done]. eapply (run_request _ _ _ _ _ _ []); [apply run_start, dev0_inv|apply dev0_caller5|apply not_elem_of_nil|done].
  - cbn [dv_k set_dv_k]. rewrite K. by eexists.
Qed.

Lemma ide_completes_witness : exists d d' x, ide_run 2 2 pc_ide disk7 [5%nat] d /\ ide_intrs 2 1 d = Ret tt d' /\
  bufs (dv_k d') !! 5%nat = Some x /\ Z.land (b_flags x) (Z.lor B_VALID B_DIRTY) = B_VALID.
Proof.
  destruct dev0_pending as (d & R & Hh & p & Hp & Hs & Hc).
  destruct (ide_completes 2 2 pc_ide disk7 [] 5 [] d 0 p pc_ide_laws) as (d' & x & p' & R' & Hx & Hf & _);
    [lia|done|rewrite Hh; apply not_elem_of_nil..|done|done|done|].
  by exists d, d', x.
Defined.

Lemma ide_is_memide_witness : exists s d1 d2, iderw 5 sdev0 = Ret tt s /\ ide_rw 2 5 (dev0 sdev0 []) = Block d1 /\
  ide_rw_rest 2 0 5 d1 = Ret tt d2 /\ bufs (dv_k d2) = bufs s.
Proof.
  destruct (ide_is_memide 2 2 pc_ide disk7 (dev0 sdev0 []) 0 parent0 5 buf5 pc_ide_laws) as (s & d1 & d2 & R & R1 & R2 & Hb & _);
    [lia|apply dev0_inv|apply dev0_caller5|done..|]. by exists s, d1, d2.
Defined.

(** The keystrokes of [Ls] and return, with a shift key for the capital. *)
Lemma keyboard_types_witness : exists s w, consoleintr [76; 115; 10] s0 = Ret tt s /\
  Kbd.kbd_intr 8 (dev0 s0 [0x2A; 0x26; 0xA6; 0xAA; 0x1F; 0x9F; 0x1C; 0x9C]) =
    Ret tt (set_dv_k s (set_dv_w w (dev0 s0 [0x2A; 0x26; 0xA6; 0xAA; 0x1F; 0x9F; 0x1C; 0x9C]))) /\
  line_rep (input s) [76; 115; 10] [].
Proof.
  destruct (keyboard_types 8 pc_keys [76; 115; 10] [0x2A; 0x26; 0xA6; 0xAA; 0x1F; 0x9F; 0x1C; 0x9C] [] []
    (dev0 s0 [0x2A; 0x26; 0xA6; 0xAA; 0x1F; 0x9F; 0x1C; 0x9C]) pc_kbd_laws) as (s & w & R1 & R2 & _ & Hl);
    [..|exact (ex_intro _ s (ex_intro _ w (conj R1 (conj R2 Hl))))].
  - repeat (constructor; [by split; [lia|]|]). constructor.
  - by vm_compute.
  - done.
  - cbn [length]. lia.
  - done.
  - done.
  - by constructor; cbn; try lia; try done.
Defined.

(** The tables of a machine with two processors: the pointer to the extended
    BIOS data area, the floating structure at its start, and the configuration
    table with two processors, a bus and an I/O APIC. *)
Definition mp_float : list Z := bytes "_MP_" ++ le32 0x9fc40 ++ [1; 4; 0x5B; 0; 0; 0; 0; 0].

Definition mp_conf (check skip : Z) : list Z :=
  bytes "PCMP" ++ le16 100 ++ [4; check] ++ replicate 20 0 ++ le32 0 ++ le16 0 ++ le16 4 ++ le32 0xFEE00000 ++ replicate 4 0 ++
  [0; 0; 0x14; 3] ++ replicate 16 0 ++ [0; 1; 0x14; 1] ++ replicate 16 0 ++ skip :: replicate 7 0 ++
  [2; 2; 0x11; 1] ++ le32 0xFEC00000.

Definition mp_mem (check skip : Z) : memory :=
  st_bytes (st_bytes (st_bytes (fun _ => 0) (P2V 0x40E) (le16 0x9fc0)) (P2V 0x9fc00) mp_float)
    (P2V 0x9fc40) (mp_conf check skip).

Definition mp_dev (check skip : Z) : devst pc := dev0 (set_ncpu 0 (set_mem (mp_mem check skip) s0)) [].

Lemma mpinit_finds_witness : exists d, mpinit 4 (mp_dev 132 1) = Ret tt d /\ ncpu (dv_k d) = 2 /\ dv_ioapicid d = 2 /\
  exists w, mycpu (set_dv_w (pc0 []) d) = Ret 1%nat (set_dv_w w d).
Proof.
  destruct (mpinit_finds 4 (P2V 0x9fc00) (P2V 0x9fc40) [EProc 0; EProc 1; ESkip 1; EIoapic 2] (mp_dev 132 1))
    as (d & R & F & Hl & Hi & H).
  - split; [by vm_compute|]. cbn [mp_table]. repeat split; try by vm_compute. apply list_elem_of_here.
  - cbn [length]. lia.
  - by constructor; try done; cbn; lia.
  - exists d. split; [exact R|]. split; [exact (fd_ncpu _ _ F)|]. split; [exact Hi|].
    assert (dv_lapic d = 0xFEE00000) as Ha by (rewrite Hl; by vm_compute).
    apply (H (pc0 []) 1%nat 1); [by repeat constructor; rewrite ?list_elem_of_singleton; try apply not_elem_of_nil|done|done|by rewrite Ha|].
    rewrite Ha. by vm_compute.
Defined.

Lemma mpinit_hangs_witness : exists d, mpinit 1000 (mp_dev 124 9) = Undef "mpinit: loop bound" d.
Proof.
  apply (mpinit_hangs 1000 (P2V 0x9fc00) (P2V 0x9fc40) [EProc 0; EProc 1] (P2V 0x9fc40 + 84) (mp_dev 124 9)).
  - by vm_compute.
  - cbn [mp_table]. repeat split; by vm_compute.
  - by vm_compute.
  - change (ld8 (mem (dv_k (mp_dev 124 9))) (P2V 0x9fc40 + 84)) with (ld8 (mp_mem 124 9) (P2V 0x9fc40 + 84)).
    replace (ld8 (mp_mem 124 9) (P2V 0x9fc40 + 84)) with 9 by (by vm_compute).
    unfold MPPROC, MPBUS, MPIOAPIC, MPIOINTR, MPLINTR. rewrite !not_elem_of_cons. repeat split; try done. apply not_elem_of_nil.
Defined.

Lemma cmostime_date_witness : exists w, cmostime 0 (dev0 s0 []) = Ret (mk_rtcdate 56 34 12 16 11 2026) (set_dv_w w (dev0 s0 [])).
Proof.
  destruct (cmostime_date 0 pc_index rtc0 (fun _ => True) (dev0 s0 []) (mk_rtcdate 56 34 12 16 11 2026) pc_rtc_laws)
    as (w & R & _); [done|done| |by vm_compute|by exists w].
  unfold in_range. cbn [rt_second rt_minute rt_hour rt_day rt_month rt_year]. repeat (constructor; [lia|]). constructor.
Defined.
