(* ===== verification/Umalloc.v ===== *)
(** * The user-level allocator (umalloc.c)

    [malloc] and [free] of Kernighan and Ritchie on the memory of a process.  A
    header is a pointer and a size in units of 8 bytes; the free blocks form a
    circular list through [base], which has size 0.  [sbrk] is the system call,
    a function on the state [W] of the kernel; [base_addr] is where the linker
    puts [base].  The loops over the list have no bound in the code; [loops]
    bounds them here.
    The second half has the invariant of the list and what each function does
    to it. *)

From S2P Require Import Prelude Mem.

Definition sizeof_Header : Z := 8.

(** The memory of the process, [freep], and the kernel's side of [sbrk]. *)
Record uheap (W : Type) : Type := mk_uheap {
  uh_mem : memory;
  uh_freep : Z;
  uh_w : W;
}.

Arguments mk_uheap {W}.
Arguments uh_mem {W}.
Arguments uh_freep {W}.
Arguments uh_w {W}.

Section umalloc.
Context {W : Type} (base_addr : Z) (sbrk : Z -> W -> Z * W) (loops : nat).

Definition U (A : Type) : Type := M (uheap W) A.

(** [p->s.ptr] and [p->s.size] *)
Definition hd_ptr (p : Z) : U Z := gets (fun u => ld32 (uh_mem u) p).
Definition hd_size (p : Z) : U Z := gets (fun u => ld32 (uh_mem u) (p + 4)).

Definition store_word (a v : Z) : U unit :=
  modify (fun u => mk_uheap (st32 (uh_mem u) a v) (uh_freep u) (uh_w u)).
Definition set_ptr (p v : Z) : U unit := store_word p v.
Definition set_size (p v : Z) : U unit := store_word (p + 4) v.
Definition set_freep (p : Z) : U unit := modify (fun u => mk_uheap (uh_mem u) p (uh_w u)).

(** [p + n] for a [Header*] *)
Definition header_at (p n : Z) : Z := u32 (p + n * sizeof_Header).

(** [for(p = freep; !(bp > p && bp < p->s.ptr); p = p->s.ptr)] with the
    [break] at the end of the arena. *)
Fixpoint free_loop (k : nat) (bp p : Z) : U Z :=
  nx <- hd_ptr p ;;
  if (p <? bp) && (bp <? nx) then ret p
  else if (nx <=? p) && ((p <? bp) || (bp <? nx)) then ret p
  else match k with
       | O => undef "free: loop bound"
       | S k' => free_loop k' bp nx
       end.

Definition free (ap : Z) : U unit :=
  let bp := u32 (ap - sizeof_Header) in
  freep <- gets uh_freep ;;
  p <- free_loop loops bp freep ;;
  nx <- hd_ptr p ;;
  bsize <- hd_size bp ;;
  (if header_at bp bsize =? nx then
     nsize <- hd_size nx ;;
     set_size bp (u32 (bsize + nsize)) ;;
     nnx <- hd_ptr nx ;;
     set_ptr bp nnx
   else set_ptr bp nx) ;;
  psize <- hd_size p ;;
  (if header_at p psize =? bp then
     bsize <- hd_size bp ;;
     set_size p (u32 (psize + bsize)) ;;
     bnx <- hd_ptr bp ;;
     set_ptr p bnx
   else set_ptr p bp) ;;
  set_freep p.

(** The system call; [sbrk] takes an [int]. *)
Definition call_sbrk (n : Z) : U Z := fun u =>
  let '(r, w) := sbrk (i32 n) (uh_w u) in Ret (u32 r) (mk_uheap (uh_mem u) (uh_freep u) w).

Definition morecore (nu : Z) : U Z :=
  let nu := if nu <? 4096 then 4096 else nu in
  p <- call_sbrk (u32 (nu * sizeof_Header)) ;;
  if p =? 2 ^ 32 - 1 then ret 0
  else
    set_size p nu ;;
    free (u32 (p + sizeof_Header)) ;;
    gets uh_freep.

(** The block [p] after [prevp] is large enough. *)
Definition malloc_take (nunits prevp p : Z) : U Z :=
  size <- hd_size p ;;
  p <- (if size =? nunits then
          nx <- hd_ptr p ;;
          set_ptr prevp nx ;;
          ret p
        else
          set_size p (u32 (size - nunits)) ;;
          let p' := header_at p (u32 (size - nunits)) in
          set_size p' nunits ;;
          ret p') ;;
  set_freep prevp ;;
  ret (u32 (p + sizeof_Header)).

(** [for(p = prevp->s.ptr; ; prevp = p, p = p->s.ptr)] *)
Fixpoint malloc_loop (k : nat) (nunits prevp p : Z) : U Z :=
  size <- hd_size p ;;
  if nunits <=? size then malloc_take nunits prevp p
  else
    let next p :=
      match k with
      | O => undef "malloc: loop bound"
      | S k' => nx <- hd_ptr p ;; malloc_loop k' nunits p nx
      end in
    freep <- gets uh_freep ;;
    if p =? freep then
      p <- morecore nunits ;;
      if p =? 0 then ret 0 else next p
    else next p.

Definition malloc_units (nbytes : Z) : Z := u32 (u32 (nbytes + sizeof_Header - 1) / sizeof_Header + 1).

Definition malloc (nbytes : Z) : U Z :=
  let nunits := malloc_units nbytes in
  freep <- gets uh_freep ;;
  prevp <- (if freep =? 0 then
              set_ptr base_addr base_addr ;;
              set_freep base_addr ;;
              set_size base_addr 0 ;;
              ret base_addr
            else ret freep) ;;
  p <- hd_ptr prevp ;;
  malloc_loop loops nunits prevp p.

End umalloc.

(** * The free list of the user-level allocator

    [links m p F e]: from the header [p], the pointers lead through the blocks
    of [F] to [e].  The blocks are in the order of their addresses and no two of
    them touch.  [free] puts a block between its neighbours and joins it with
    those it touches; [malloc] cuts a block off the end of one that is large
    enough. *)

(** A block: the address of its header and its size in units. *)
Abbreviation block := (Z * Z)%type.

Definition block_end (b : block) : Z := b.1 + 8 * b.2.

Definition apart (b c : block) : Prop := block_end b <= c.1 \/ block_end c <= b.1.

Fixpoint links (m : memory) (p : Z) (F : list block) (e : Z) : Prop :=
  match F with
  | [] => ld32 m p = e
  | b :: F' => ld32 m p = b.1 /\ ld32 m (b.1 + 4) = b.2 /\ links m b.1 F' e
  end.

(** The blocks lie between [lo] and [hi], in order, with a gap between any
    two. *)
Fixpoint blocks (lo : Z) (F : list block) (hi : Z) : Prop :=
  match F with
  | [] => True
  | b :: F' => lo <= b.1 /\ 1 <= b.2 /\ block_end b <= hi /\ blocks (block_end b + 1) F' hi
  end.

(** The header before the blocks that follow [F], the first header of [F], and
    the first address after [F]. *)
Definition last_header (p : Z) (F : list block) : Z := match last F with Some b => b.1 | None => p end.
Definition first_header (F : list block) (e : Z) : Z := match F with [] => e | b :: _ => b.1 end.
Definition after (lo : Z) (F : list block) : Z := match last F with Some b => block_end b + 1 | None => lo end.

(** The blocks of [F] behind their first header. *)
Definition rest_links (m : memory) (F : list block) (e : Z) : Prop :=
  match F with [] => True | b :: F' => ld32 m (b.1 + 4) = b.2 /\ links m b.1 F' e end.

Lemma links_app m p F1 F2 e : links m p (F1 ++ F2) e <-> links m p F1 (first_header F2 e) /\ rest_links m F2 e.
Proof.
  revert p. induction F1 as [|b F1 IH]; intros p; cbn [links app]; [destruct F2; cbn; tauto|].
  rewrite IH. tauto.
Qed.

Lemma blocks_app lo F1 F2 hi : blocks lo (F1 ++ F2) hi <-> blocks lo F1 hi /\ blocks (after lo F1) F2 hi.
Proof.
  revert lo. induction F1 as [|b F1 IH]; intros lo; cbn [blocks app]; [tauto|]. rewrite IH.
  assert (after (block_end b + 1) F1 = after lo (b :: F1)) as -> by (unfold after; by rewrite last_cons; destruct (last F1)).
  tauto.
Qed.

Lemma blocks_weaken lo lo' F hi hi' : blocks lo F hi -> lo' <= lo -> hi <= hi' -> blocks lo' F hi'.
Proof.
  revert lo lo'. induction F as [|b F IH]; intros lo lo'; cbn [blocks]; [done|]. intros (H1 & H2 & H3 & H4) Hl Hh.
  repeat split; try lia. eapply IH; [exact H4|lia|done].
Qed.

Lemma blocks_in lo F hi b : blocks lo F hi -> b ∈ F -> lo <= b.1 /\ 1 <= b.2 /\ block_end b <= hi.
Proof.
  revert lo. induction F as [|c F IH]; intros lo; cbn [blocks]; [intros _ []%elem_of_nil|].
  intros (H1 & H2 & H3 & H4) [->|Hb]%elem_of_cons; [done|]. destruct (IH _ H4 Hb) as (H5 & H6 & H7).
  unfold block_end in *. repeat split; lia.
Qed.

Lemma last_header_bound p lo F hi : blocks lo F hi -> F <> [] -> lo <= last_header p F /\ last_header p F + 8 < after lo F.
Proof.
  intros H HF. unfold last_header, after. destruct (last F) as [b|] eqn:E; [|by apply last_None in E].
  apply last_Some_elem_of in E. destruct (blocks_in _ _ _ _ H E) as (H1 & H2 & _). unfold block_end. lia.
Qed.

(** A store outside the headers does not change the list. *)
Lemma links_frame m m' p F e : (forall x, p <= x < p + 4 -> m' x = m x) ->
  (forall b x, b ∈ F -> b.1 <= x < b.1 + 8 -> m' x = m x) -> links m p F e -> links m' p F e.
Proof.
  revert p. induction F as [|b F IH]; intros p Hp HF; cbn [links]; [by rewrite (ld32_ext m m' p)|].
  intros (H1 & H2 & H3). rewrite (ld32_ext m m' p) by done.
  rewrite (ld32_ext m m' (b.1 + 4)) by (intros x Hx; apply (HF b); [apply list_elem_of_here|lia]).
  split; [done|]. split; [done|]. apply IH; [|intros c x Hc; apply HF; by apply list_elem_of_further|done].
  intros x Hx. apply (HF b); [apply list_elem_of_here|lia].
Qed.

Lemma rest_links_frame m m' F e : (forall b x, b ∈ F -> b.1 <= x < b.1 + 8 -> m' x = m x) ->
  rest_links m F e -> rest_links m' F e.
Proof.
  destruct F as [|b F]; cbn [rest_links]; [done|]. intros HF [H1 H2].
  rewrite (ld32_ext m m' (b.1 + 4)) by (intros x Hx; apply (HF b); [apply list_elem_of_here|lia]). split; [done|].
  eapply links_frame; [| |done]; intros; eapply HF; [apply list_elem_of_here|lia|by apply list_elem_of_further|done].
Qed.

(** A store to the pointer of the last header. *)
Lemma links_set m p F lo hi x y : blocks lo F hi -> p + 8 <= lo -> 0 <= y < 2 ^ 32 -> links m p F x ->
  links (st32 m (last_header p F) y) p F y.
Proof.
  revert p lo. induction F as [|b F IH]; intros p lo Hb Hp Hy; cbn [links]; [intros _; by apply ld32_st32_same|].
  destruct Hb as (H1 & H2 & H3 & H4). intros (L1 & L2 & L3).
  assert (last_header p (b :: F) = last_header b.1 F) as -> by (unfold last_header; rewrite last_cons; by destruct (last F)).
  assert (last_header b.1 F = b.1 \/ b.1 + 8 < last_header b.1 F) as Hq.
  { destruct F as [|c F]; [by left|right]. destruct (last_header_bound b.1 _ _ _ H4 ltac:(done)). unfold block_end in *. lia. }
  rewrite !ld32_st32_other by lia. split; [done|]. split; [done|]. eapply IH; [exact H4|unfold block_end; lia|done|exact L3].
Qed.

(** The word [links] ends with is the pointer of the last header. *)
Lemma links_last m p F e : links m p F e -> ld32 m (last_header p F) = e.
Proof.
  revert p. induction F as [|b F IH]; intros p; cbn [links]; [done|]. intros (_ & _ & H%IH).
  unfold last_header in *. rewrite last_cons. by destruct (last F).
Qed.

(** ** Joining neighbours *)

Lemma header_at_eq p n : 0 <= p + 8 * n < 2 ^ 32 -> header_at p n = p + 8 * n.
Proof. intros. unfold header_at, sizeof_Header. rewrite u32_id; lia. Qed.

(** The first [if] of [free]: [bp] takes over the block behind it, or points to
    it. *)
Definition join_up (m : memory) (bp nx : Z) : memory :=
  let bsize := ld32 m (bp + 4) in
  if header_at bp bsize =? nx then
    let m1 := st32 m (bp + 4) (u32 (bsize + ld32 m (nx + 4))) in
    st32 m1 bp (ld32 m1 nx)
  else st32 m bp nx.

(** The second [if]: [p] takes over [bp], or points to it. *)
Definition join_down (m : memory) (p bp : Z) : memory :=
  let psize := ld32 m (p + 4) in
  if header_at p psize =? bp then
    let m1 := st32 m (p + 4) (u32 (psize + ld32 m (bp + 4))) in
    st32 m1 p (ld32 m1 bp)
  else st32 m p bp.

Section join.
Context (base lo hi : Z) (Hbase : 0 <= base) (Hlo : base + 8 <= lo) (Hhi : hi <= 2 ^ 31).

(** [n] units at [bp] and the free blocks [F] behind them. *)
Record upper (m : memory) (bp n : Z) (F : list block) : Prop := {
  up_low : lo <= bp;
  up_pos : 1 <= n;
  up_size : ld32 m (bp + 4) = n;
  up_rest : rest_links m F base;
  up_blocks : blocks (bp + 8 * n) F hi;
  up_end : bp + 8 * n <= hi;
}.

Lemma join_up_spec m bp n F : upper m bp n F ->
  let m' := join_up m bp (first_header F base) in
  exists n' F', upper m' bp n' F' /\ ld32 m' bp = first_header F' base /\ blocks (bp + 8 * n' + 1) F' hi /\
    (n' = n /\ F' = F \/ exists k, F = (bp + 8 * n, k) :: F' /\ n' = n + k) /\
    (forall x, x < bp \/ bp + 8 <= x -> m' x = m x).
Proof.
  intros [U1 U2 U3 U4 U5 U6]. unfold join_up. rewrite U3, header_at_eq by lia.
  assert (forall a v x, bp <= a <= bp + 4 -> x < bp \/ bp + 8 <= x -> st32 m a v x = m x) as Hout by (intros; apply st32_other; lia).
  destruct (bp + 8 * n =? first_header F base) eqn:E; bool_prop.
  - destruct F as [|b F]; cbn [first_header] in *; [lia|]. destruct U5 as (B1 & B2 & B3 & B4). destruct U4 as [R1 R2].
    unfold block_end in *. rewrite <- E in *. rewrite R1, u32_id by lia. set (m1 := st32 m (bp + 4) (n + b.2)).
    set (m2 := st32 m1 bp _).
    assert (forall x, x < bp \/ bp + 8 <= x -> m2 x = m x) as Hm2.
    { intros x Hx. unfold m2. rewrite st32_other by lia. unfold m1. apply Hout; lia. }
    assert (forall c x, c ∈ F -> c.1 <= x < c.1 + 8 -> m2 x = m x) as HF.
    { intros c x Hc Hx. apply Hm2. destruct (blocks_in _ _ _ _ B4 Hc). lia. }
    assert (ld32 m1 (bp + 8 * n) = first_header F base) as Hnx.
    { unfold m1. rewrite ld32_st32_other by lia. destruct F; cbn in R2; tauto. }
    exists (n + b.2), F. rewrite <- Hnx. split; [|split; [|split; [|split]]].
    + constructor; try lia.
      * unfold m2. rewrite ld32_st32_other by lia. apply ld32_st32_same. lia.
      * apply (rest_links_frame m); [done|]. destruct F; cbn in *; tauto.
      * eapply blocks_weaken; [exact B4|lia|lia].
    + apply ld32_st32_same. apply ld32_range.
    + eapply blocks_weaken; [exact B4|lia|lia].
    + right. exists b.2. split; [by destruct b; cbn in *; subst|done].
    + done.
  - assert (0 <= first_header F base < 2 ^ 32) as Hr.
    { destruct F as [|b F]; cbn [first_header]; [lia|]. destruct U5 as (B1 & B2 & B3 & _). unfold block_end in *. lia. }
    exists n, F. split; [|split; [by apply ld32_st32_same|split; [|split; [by left|intros; apply Hout; lia]]]].
    + constructor; try done.
      * rewrite ld32_st32_other by lia. done.
      * apply (rest_links_frame m); [|done]. intros c x Hc Hx. destruct (blocks_in _ _ _ _ U5 Hc). apply Hout; lia.
    + destruct F as [|b F]; [done|]. cbn [first_header] in E. destruct U5 as (B1 & B2 & B3 & B4). split; [lia|done].
Qed.
Lemma last_header_snoc p F b : last_header p (F ++ [b]) = b.1.
Proof. unfold last_header. by rewrite last_snoc. Qed.

Lemma blocks_before F h b : blocks lo F h -> b ∈ F -> lo <= b.1 /\ b.1 + 8 <= block_end b < after lo F.
Proof.
  intros HF (F1 & F2 & ->)%list_elem_of_split. apply blocks_app in HF as [H1 (H2 & H3 & H4 & H5)].
  assert (forall G, blocks lo G h -> lo <= after lo G) as Hlow.
  { intros G HG. unfold after. destruct (last G) as [c|] eqn:E; [|lia]. apply last_Some_elem_of in E.
    destruct (blocks_in _ _ _ _ HG E) as (A1 & A2 & _). unfold block_end. lia. }
  specialize (Hlow F1 H1). unfold block_end in *. split; [lia|]. split; [lia|]. unfold after at 1. rewrite last_app_cons. unfold block_end.
  destruct F2 as [|c F2]; [cbn [last]; lia|]. rewrite last_cons_cons.
  destruct (last (c :: F2)) as [e|] eqn:E; [|by apply last_None in E]. apply last_Some_elem_of in E.
  destruct (blocks_in _ _ _ _ H5 E) as (A1 & A2 & _). lia.
Qed.

Lemma after_low F h : blocks lo F h -> lo <= after lo F.
Proof.
  intros HF. unfold after. destruct (last F) as [c|] eqn:E; [|lia]. apply last_Some_elem_of in E.
  destruct (blocks_before _ _ _ HF E). unfold block_end. destruct (blocks_in _ _ _ _ HF E) as (_ & A2 & _). lia.
Qed.

Lemma join_down_spec m F bp n e : blocks lo F bp -> links m base F e -> ld32 m (base + 4) = 0 ->
  lo <= bp -> 1 <= n -> bp + 8 * n <= hi -> ld32 m (bp + 4) = n ->
  let q := last_header base F in let m' := join_down m q bp in
  exists P, links m' base P (ld32 m bp) /\ blocks lo P (bp + 8 * n) /\ ld32 m' (base + 4) = 0 /\
    (P = F ++ [(bp, n)] \/ exists F' a k, F = F' ++ [(a, k)] /\ a + 8 * k = bp /\ P = F' ++ [(a, k + n)]) /\
    q ∈ base :: P.*1 /\ (forall x, x < q \/ q + 8 <= x -> m' x = m x).
Proof.
  intros HF HL H0 Hbp Hn Hend Hsz q. unfold join_down. destruct F as [|b F _] using rev_ind.
  { change q with base in *. clear q. rewrite H0, header_at_eq by lia. rewrite (proj2 (Z.eqb_neq _ _)) by lia.
    exists [(bp, n)]. cbn [links blocks fst snd]. rewrite ld32_st32_same, !ld32_st32_other by lia. unfold block_end. cbn [fst snd].
    split; [done|]. split; [lia|]. split; [done|]. split; [by left|]. split; [apply list_elem_of_here|]. intros. apply st32_other. lia. }
  unfold q. rewrite last_header_snoc. clear q. pose proof HL as HL0. apply links_app in HL as (HL1 & HL2 & HL3). cbn [first_header links] in *.
  apply blocks_app in HF as [HF (B1 & B2 & B3 & _)]. unfold block_end in *. pose proof (after_low _ _ HF) as Hal.
  rewrite HL2, header_at_eq by lia.
  destruct (b.1 + 8 * b.2 =? bp) eqn:E; bool_prop.
  - rewrite Hsz, u32_id by lia. set (m1 := st32 m (b.1 + 4) (b.2 + n)).
    assert (ld32 m1 bp = ld32 m bp) as -> by (apply ld32_st32_other; lia).
    assert (forall x, x < b.1 \/ b.1 + 8 <= x -> st32 m1 b.1 (ld32 m bp) x = m x) as Hout.
    { intros x Hx. rewrite st32_other by lia. apply st32_other. lia. }
    exists (F ++ [(b.1, b.2 + n)]). split; [|split; [|split; [|split; [|split]]]].
    + apply links_app. cbn [first_header rest_links links fst snd]. split; [|split].
      * eapply links_frame; [| |exact HL1]; [intros x Hx; apply Hout; lia|].
        intros c x Hc Hx. destruct (blocks_before _ _ _ HF Hc). apply Hout. lia.
      * rewrite ld32_st32_other by lia. apply ld32_st32_same. lia.
      * apply ld32_st32_same, ld32_range.
    + apply blocks_app. split; [eapply blocks_weaken; [exact HF|lia|lia]|]. cbn [blocks]. unfold block_end. cbn [fst snd]. lia.
    + rewrite (ld32_ext m) by (intros; apply Hout; lia). done.
    + right. exists F, b.1, b.2. split; [by destruct b|]. done.
    + rewrite fmap_app. apply list_elem_of_further, elem_of_app. right. apply list_elem_of_here.
    + done.
  - exists ((F ++ [b]) ++ [(bp, n)]). split; [|split; [|split; [|split; [|split]]]].
    + apply links_app. cbn [first_header rest_links links fst snd]. rewrite !ld32_st32_other by lia. split; [|done].
      rewrite <- (last_header_snoc base F b). eapply (links_set _ _ _ lo bp); [|lia|lia|exact HL0].
      apply blocks_app. split; [done|]. cbn [blocks]. unfold block_end. lia.
    + apply blocks_app. split; [|unfold after; rewrite last_snoc; cbn [blocks]; unfold block_end; cbn [fst snd]; lia].
      apply blocks_app. split; [eapply blocks_weaken; [exact HF|lia|lia]|]. cbn [blocks]. unfold block_end. lia.
    + rewrite ld32_st32_other by lia. done.
    + by left.
    + rewrite !fmap_app. apply list_elem_of_further, elem_of_app. left. apply elem_of_app. right. apply list_elem_of_here.
    + intros. apply st32_other. lia.
Qed.

End join.

(** ** The place of a block *)

(** The blocks before and behind a block that touches none of them. *)
Lemma split_blocks lo F hi b : blocks lo F hi -> 1 <= b.2 -> (forall c, c ∈ F -> apart b c) -> block_end b <= hi ->
  exists F1 F2, F = F1 ++ F2 /\ blocks lo F1 b.1 /\ blocks (block_end b) F2 hi.
Proof.
  revert lo. induction F as [|c F IH]; intros lo HF Hb Hap He; [by exists [], []|]. destruct HF as (B1 & B2 & B3 & B4).
  destruct (Hap c (list_elem_of_here _ _)) as [Hbc|Hcb].
  - exists [], (c :: F). split; [done|]. split; [done|]. cbn [blocks]. done.
  - destruct (IH _ B4 Hb) as (F1 & F2 & -> & H1 & H2); [intros d Hd; apply Hap; by apply list_elem_of_further|done|].
    exists (c :: F1), F2. split; [done|]. split; [|done]. cbn [blocks]. done.
Qed.

Section walk.
Context {W : Type} (base lo hi : Z) (Hbase : 0 <= base) (Hlo : base + 8 <= lo).
Implicit Types u : uheap W.

Lemma free_step k bp p u nx : ld32 (uh_mem u) p = nx ->
  free_loop (W := W) k bp p u =
  if (p <? bp) && (bp <? nx) then Ret p u
  else if (nx <=? p) && ((p <? bp) || (bp <? nx)) then Ret p u
  else match k with O => Undef "free: loop bound" u | S k' => free_loop k' bp nx u end.
Proof.
  intros <-. destruct k; cbn [free_loop]; unfold bind, hd_ptr, gets; destruct ((p <? bp) && _); try done; by destruct (_ && (_ || _)).
Qed.

(** From a header before [bp] the loop stops at the last one. *)
Lemma walk_low u bp F2 G' : forall G k, blocks lo (G ++ G') bp -> blocks (bp + 1) F2 hi -> lo <= bp ->
  links (uh_mem u) base (G ++ G') (first_header F2 base) -> (length G' <= k)%nat ->
  free_loop k bp (last_header base G) u = Ret (last_header base (G ++ G')) u.
Proof.
  induction G' as [|c G' IH]; intros G k HG HF2 Hbp HL Hk.
  - rewrite app_nil_r in *. rewrite (free_step _ _ _ _ _ (links_last _ _ _ _ HL)).
    assert (base <= last_header base G < bp) as Hp.
    { unfold last_header. destruct (last G) as [b|] eqn:E; [|lia]. apply last_Some_elem_of in E.
      destruct (blocks_in _ _ _ _ HG E) as (A1 & A2 & A3). unfold block_end in *. lia. }
    rewrite (proj2 (Z.ltb_lt _ _)) by lia. destruct F2 as [|d F2]; cbn [first_header].
    + rewrite (proj2 (Z.ltb_ge _ _)), (proj2 (Z.leb_le _ _)) by lia. done.
    + destruct HF2 as (A1 & A2 & _). by rewrite (proj2 (Z.ltb_lt _ _)) by lia.
  - pose proof HL as [HL1 _]%links_app. cbn [first_header] in HL1. rewrite (free_step _ _ _ _ _ (links_last _ _ _ _ HL1)).
    pose proof HG as [HG1 (B1 & B2 & B3 & _)]%blocks_app. unfold block_end in B3.
    assert (last_header base G < c.1) as Hp.
    { unfold last_header. destruct (last G) as [b|] eqn:E; [|unfold after in B1; rewrite E in B1; lia].
      apply last_Some_elem_of in E. destruct (blocks_before _ _ _ _ HG1 E). lia. }
    rewrite (proj2 (Z.ltb_ge bp c.1)), andb_false_r by lia. rewrite (proj2 (Z.leb_gt _ _)) by lia. cbn [andb].
    destruct k as [|k]; cbn [length] in Hk; [lia|]. rewrite (cons_middle c G G'), app_assoc in *.
    rewrite <- (last_header_snoc base G c). apply IH; [done..|lia].
Qed.

(** From a header behind [bp] the loop goes through [base]. *)
Lemma walk_high u bp F1 H' : forall H k, H <> [] -> blocks lo F1 bp -> blocks (bp + 1) (H ++ H') hi -> lo <= bp ->
  links (uh_mem u) base (F1 ++ H ++ H') base -> (length F1 + length H' < k)%nat ->
  free_loop k bp (last_header base H) u = Ret (last_header base F1) u.
Proof.
  induction H' as [|c H' IH]; intros H k HH HF1 HF2 Hbp HL Hk.
  all: assert (bp < last_header base H) as Hp by (apply blocks_app in HF2 as [HF2 _]; destruct (last_header_bound base _ _ _ HF2 HH); lia).
  all: assert (last_header base (F1 ++ H) = last_header base H) as El
    by (unfold last_header; rewrite last_app; destruct (last H) eqn:E; [done|by apply last_None in E]).
  all: pose proof HL as HL0; rewrite app_assoc in HL; apply links_app in HL as [HL1%links_last _]; rewrite El in HL1.
  all: rewrite (free_step _ _ _ _ _ HL1), (proj2 (Z.ltb_ge _ bp)) by lia; cbn [andb orb first_header].
  - rewrite (proj2 (Z.ltb_ge bp base)), andb_false_r by lia. destruct k as [|k]; [lia|]. rewrite app_nil_r in HL0, HF2.
    apply (walk_low u bp H F1 [] k); [done|done|done| |lia]. by apply links_app in HL0 as [HL0 _]; destruct H.
  - pose proof HF2 as [HF3 (B1 & B2 & B3 & _)]%blocks_app. destruct (last_header_bound base _ _ _ HF3 HH) as [_ B4].
    rewrite (proj2 (Z.leb_gt _ _)) by lia. cbn [andb]. destruct k as [|k]; cbn [length] in Hk; [lia|].
    rewrite (cons_middle c H H'), app_assoc in HL0, HF2. rewrite <- (last_header_snoc base H c).
    apply IH; [by destruct H|done|by rewrite <- app_assoc in *|done|by rewrite <- app_assoc in *|lia].
Qed.
End walk.

(** ** The heap *)

Section heap.
Context {W : Type} (base lo : Z) (Hbase : 0 < base) (Hlo : base + 8 <= lo) (loops : nat).
Implicit Types u : uheap W.

(** The free list of a heap that ends at [hi]. *)
Record heap (hi : Z) u (F : list block) : Prop := {
  hp_hi : hi <= 2 ^ 31;
  hp_blocks : blocks lo F hi;
  hp_links : links (uh_mem u) base F base;
  hp_zero : ld32 (uh_mem u) (base + 4) = 0;
  hp_freep : uh_freep u ∈ base :: F.*1;
}.

Definition in_blocks (F : list block) (x : Z) : Prop := exists b, b ∈ F /\ b.1 <= x < block_end b.

Lemma in_blocks_app F G x : in_blocks (F ++ G) x <-> in_blocks F x \/ in_blocks G x.
Proof.
  split; [intros (b & [Hb|Hb]%elem_of_app & Hx); [left|right]; by exists b|].
  intros [(b & Hb & Hx)|(b & Hb & Hx)]; exists b; rewrite elem_of_app; auto.
Qed.

Lemma in_blocks_one b x : in_blocks [b] x <-> b.1 <= x < block_end b.
Proof.
  split; [by intros (c & ->%list_elem_of_singleton & Hx)|]. intros Hx. exists b. by rewrite list_elem_of_singleton.
Qed.

Lemma header_split p F : p ∈ base :: F.*1 -> exists G G', F = G ++ G' /\ p = last_header base G.
Proof.
  intros [->|H]%elem_of_cons; [by exists [], F|]. apply list_elem_of_fmap in H as (b & -> & H).
  apply list_elem_of_split in H as (G & G' & ->). exists (G ++ [b]), G'. rewrite last_header_snoc. by rewrite <- app_assoc.
Qed.

(** The loop of [free] finds the header before the block. *)
Lemma free_loop_run hi u F1 F2 bp : heap hi u (F1 ++ F2) -> blocks lo F1 bp -> blocks (bp + 1) F2 hi -> lo <= bp ->
  (length (F1 ++ F2) <= loops)%nat -> free_loop loops bp (uh_freep u) u = Ret (last_header base F1) u.
Proof.
  intros [Hh HB HL Hz Hf] HF1 HF2 Hbp Hk. apply header_split in Hf as (G & G' & E & ->). rewrite length_app in Hk.
  destruct (decide (length G <= length F1)%nat) as [Hg|Hg].
  - assert (exists K, F1 = G ++ K) as [K ->].
    { exists (drop (length G) F1). rewrite <- (take_drop (length G) F1) at 1. f_equal.
      assert (take (length G) (F1 ++ F2) = take (length G) (G ++ G')) as E' by (by rewrite E).
      rewrite take_app_le, take_app_length in E' by lia. done. }
    rewrite length_app in Hk. eapply (walk_low base lo hi); [lia|done|done|done| |lia].
    by apply links_app in HL as [HL _].
  - assert (exists H, H <> [] /\ G = F1 ++ H /\ F2 = H ++ G') as (H & HH & -> & ->).
    { exists (drop (length F1) G). assert (drop (length F1) (F1 ++ F2) = drop (length F1) (G ++ G')) as E1 by (by rewrite E).
      assert (take (length F1) (F1 ++ F2) = take (length F1) (G ++ G')) as E2 by (by rewrite E).
      rewrite drop_app_length, drop_app_le in E1 by lia. rewrite take_app_length, take_app_le in E2 by lia.
      split; [intros H0%(f_equal length); rewrite length_drop in H0; cbn in H0; lia|]. split; [|done].
      rewrite <- (take_drop (length F1) G) at 1. by rewrite <- E2. }
    assert (last_header base (F1 ++ H) = last_header base H) as ->
      by (unfold last_header; rewrite last_app; destruct (last H) eqn:E'; [done|by apply last_None in E']).
    rewrite length_app in Hk. assert (0 < length H)%nat by (destruct H; cbn; [done|lia]).
    eapply (walk_high base lo hi); [lia|done|done|done|done|done|lia].
Qed.

Lemma free_run u bp p : 0 <= bp -> bp + 8 < 2 ^ 32 -> free_loop loops bp (uh_freep u) u = Ret p u ->
  free loops (bp + 8) u = Ret tt (mk_uheap (join_down (join_up (uh_mem u) bp (ld32 (uh_mem u) p)) p bp) p (uh_w u)).
Proof.
  intros H0 Hb Hl. unfold free. replace (u32 (bp + 8 - sizeof_Header)) with bp by (unfold sizeof_Header; rewrite u32_id; lia).
  erewrite (bind_ret_l (gets uh_freep)) by reflexivity. rewrite (bind_ret_l _ _ _ _ _ Hl).
  unfold join_up, join_down, bind, hd_ptr, hd_size, set_size, set_ptr, store_word, set_freep, gets, modify.
  destruct (header_at bp _ =? _); cbn [uh_mem uh_freep uh_w]; by destruct (header_at p _ =? bp).
Qed.

Lemma in_blocks_sub F b x : b ∈ F -> b.1 <= x < block_end b -> in_blocks F x.
Proof. intros. by exists b. Qed.

(** What the joined lists cover. *)
Lemma up_cover hi bp n n' F F' : blocks (bp + 8 * n) F hi -> 1 <= n ->
  (n' = n /\ F' = F \/ exists k, F = (bp + 8 * n, k) :: F' /\ n' = n + k) ->
  n <= n' /\ (length F' <= length F)%nat /\
  forall x, in_blocks F x \/ bp <= x < bp + 8 * n <-> in_blocks F' x \/ bp <= x < bp + 8 * n'.
Proof.
  intros HF Hn [[-> ->]|(k & -> & ->)]; [split; [lia|done]|]. destruct HF as (_ & A2 & _). cbn [fst snd length] in *.
  split; [lia|]. split; [lia|]. intros x. change ((bp + 8 * n, k) :: F') with ([(bp + 8 * n, k)] ++ F').
  rewrite in_blocks_app, in_blocks_one. unfold block_end. cbn [fst snd].
  assert (bp <= x < bp + 8 * (n + k) <-> bp + 8 * n <= x < bp + 8 * n + 8 * k \/ bp <= x < bp + 8 * n) as -> by lia. tauto.
Qed.

Lemma down_cover bp n F P : blocks lo F bp -> 1 <= n ->
  (P = F ++ [(bp, n)] \/ exists F' a k, F = F' ++ [(a, k)] /\ a + 8 * k = bp /\ P = F' ++ [(a, k + n)]) ->
  after lo P = bp + 8 * n + 1 /\ (length P <= S (length F))%nat /\ (exists c, c ∈ P /\ n <= c.2) /\
  forall x, in_blocks P x <-> in_blocks F x \/ bp <= x < bp + 8 * n.
Proof.
  intros HF Hn [->|(F' & a & k & -> & E & ->)]; unfold after; rewrite last_snoc, ?length_app; unfold block_end; cbn [fst snd length].
  - split; [done|]. split; [lia|]. split; [|intros x; by rewrite in_blocks_app, in_blocks_one].
    exists (bp, n). split; [apply elem_of_app; right; apply list_elem_of_here|done].
  - apply blocks_app in HF as [_ (A1 & A2 & A3 & _)]. cbn [fst snd] in *. split; [lia|]. split; [lia|]. split.
    + exists (a, k + n). split; [apply elem_of_app; right; apply list_elem_of_here|cbn; lia].
    + intros x. rewrite !in_blocks_app, !in_blocks_one. unfold block_end. cbn [fst snd].
      assert (a <= x < a + 8 * (k + n) <-> a <= x < a + 8 * k \/ bp <= x < bp + 8 * n) as -> by lia. tauto.
Qed.

Lemma lower_header F bp : blocks lo F bp -> lo <= bp -> let q := last_header base F in
  q < bp /\ forall x, q <= x < q + 8 -> in_blocks F x \/ base <= x < base + 8.
Proof.
  intros HF Hbp. unfold last_header. destruct (last F) as [c|] eqn:E; [|split; [lia|by right]]. apply last_Some_elem_of in E.
  destruct (blocks_in _ _ _ _ HF E) as (A1 & A2 & A3). unfold block_end in A3. split; [lia|]. intros x Hx. left.
  exists c. split; [done|]. unfold block_end. lia.
Qed.

(** The two joins together: the list with the block, its neighbours joined. *)
Lemma join_spec hi m F1 F2 b : hi <= 2 ^ 31 -> blocks lo F1 b.1 -> blocks (block_end b) F2 hi -> lo <= b.1 -> 1 <= b.2 -> block_end b <= hi ->
  ld32 m (b.1 + 4) = b.2 -> links m base (F1 ++ F2) base -> ld32 m (base + 4) = 0 ->
  let q := last_header base F1 in let m' := join_down (join_up m b.1 (ld32 m q)) q b.1 in
  exists F', blocks lo F' hi /\ links m' base F' base /\ ld32 m' (base + 4) = 0 /\ q ∈ base :: F'.*1 /\
    (length F' <= S (length (F1 ++ F2)))%nat /\
    (forall x, in_blocks F' x <-> in_blocks (F1 ++ F2) x \/ b.1 <= x < block_end b) /\
    (exists c, c ∈ F' /\ b.2 <= c.2) /\
    (forall x, ~ in_blocks F' x -> x < base \/ base + 8 <= x -> m' x = m x).
Proof.
  intros Hhi HF1 HF2 Hlob Hn Hend Hsz HL Hz q. destruct b as [bp n]. unfold block_end in *. cbn [fst snd] in *.
  apply links_app in HL as [HL1 HL2]. assert (ld32 m q = first_header F2 base) as -> by (by apply links_last).
  destruct (lower_header F1 bp HF1 Hlob) as [Hq Hqx]. fold q in Hq, Hqx.
  destruct (join_up_spec base lo hi ltac:(lia) Hlo Hhi m bp n F2) as (n' & F2' & [U1 U2 U3 U4 U5 U6] & Hnx & HB2 & Hcase & Hm1); [by constructor|].
  destruct (up_cover hi bp n n' F2 F2' HF2 Hn Hcase) as (Hnn & Hlen2 & HF2x). set (m1 := join_up m bp (first_header F2 base)) in *.
  assert (links m1 base F1 (first_header F2 base)) as HL1'.
  { eapply links_frame; [| |exact HL1]; [intros x Hx; apply Hm1; lia|]. intros c x Hc Hx.
    destruct (blocks_in _ _ _ _ HF1 Hc) as (A1 & A2 & A3). unfold block_end in A3. apply Hm1. lia. }
  assert (ld32 m1 (base + 4) = 0) as Hz1 by (rewrite (ld32_ext m) by (intros; apply Hm1; lia); done).
  destruct (join_down_spec base lo hi ltac:(lia) Hlo Hhi m1 F1 bp n' _ HF1 HL1' Hz1 U1 U2 U6 U3) as (P & HLP & HBP & HzP & HP & HqP & Hm2).
  fold q in HqP, Hm2, HzP, HLP. rewrite Hnx in HLP. destruct (down_cover bp n' F1 P HF1 U2 HP) as (Haf & Hlen1 & (c & Hc & Hcn) & HPx).
  exists (P ++ F2'). split; [|split; [|split; [done|split; [|split; [|split; [|split]]]]]].
  - apply blocks_app. rewrite Haf. split; [eapply blocks_weaken; [exact HBP|lia|lia]|done].
  - apply links_app. split; [done|]. eapply rest_links_frame; [|exact U4]. intros d x Hd Hx.
    destruct (blocks_in _ _ _ _ HB2 Hd). apply Hm2. lia.
  - rewrite fmap_app. apply elem_of_cons in HqP as [->|HqP]; [apply list_elem_of_here|]. apply list_elem_of_further, elem_of_app. by left.
  - rewrite !length_app. lia.
  - intros x. rewrite !in_blocks_app, HPx. specialize (HF2x x). tauto.
  - exists c. split; [apply elem_of_app; by left|lia].
  - intros x Hx Hxb. rewrite in_blocks_app, HPx in Hx. rewrite Hm2; [apply Hm1; lia|].
    destruct (decide (q <= x < q + 8)) as [Hin|]; [|lia]. destruct (Hqx x Hin); [exfalso; tauto|lia].
Qed.

(** [free] returns a block to the list. *)
Lemma free_spec hi u F b : heap hi u F -> lo <= b.1 -> 1 <= b.2 -> block_end b <= hi -> ld32 (uh_mem u) (b.1 + 4) = b.2 ->
  (forall c, c ∈ F -> apart b c) -> (length F <= loops)%nat ->
  exists u' F', free loops (b.1 + 8) u = Ret tt u' /\ heap hi u' F' /\ uh_w u' = uh_w u /\ (length F' <= S (length F))%nat /\
    (forall x, in_blocks F' x <-> in_blocks F x \/ b.1 <= x < block_end b) /\ (exists c, c ∈ F' /\ b.2 <= c.2) /\
    (forall x, ~ in_blocks F' x -> x < base \/ base + 8 <= x -> uh_mem u' x = uh_mem u x).
Proof.
  intros H Hlb Hn He Hs Hap Hlen. pose proof H as [Hhi HB HL Hz Hf].
  destruct (split_blocks lo F hi b HB Hn Hap He) as (F1 & F2 & -> & HF1 & HF2).
  assert (blocks (b.1 + 1) F2 hi) as HF2' by (eapply blocks_weaken; [exact HF2|unfold block_end; lia|lia]).
  pose proof (free_loop_run hi u F1 F2 b.1 H HF1 HF2' Hlb Hlen) as Hloop.
  destruct (join_spec hi (uh_mem u) F1 F2 b Hhi HF1 HF2 Hlb Hn He Hs HL Hz) as (F' & A1 & A2 & A3 & A4 & A5 & A6 & A7 & A8).
  eexists _, F'. split; [apply free_run; [lia|unfold block_end in He; lia|exact Hloop]|]. split; [by constructor|]. done.
Qed.

(** ** Taking a block *)

(** The list without [n] units at the end of [b]. *)
Definition cut (n : Z) (F1 : list block) (b : block) (F2 : list block) : list block :=
  if b.2 =? n then F1 ++ F2 else F1 ++ (b.1, b.2 - n) :: F2.

Lemma prev_header F1 hi b F2 : blocks lo (F1 ++ b :: F2) hi -> let q := last_header base F1 in
  q + 8 <= b.1 /\ (q = base \/ lo <= q) /\ forall G, q ∈ base :: (F1 ++ G).*1.
Proof.
  intros [HB1 (B1 & _)]%blocks_app. unfold last_header. destruct (last F1) as [c|] eqn:E.
  - apply last_Some_elem_of in E. destruct (blocks_before lo F1 hi c HB1 E). split; [lia|]. split; [by right|]. intros G.
    apply list_elem_of_further. rewrite fmap_app. apply elem_of_app. left. by apply list_elem_of_fmap_2.
  - unfold after in B1. rewrite E in B1. split; [lia|]. split; [by left|]. intros G. apply list_elem_of_here.
Qed.

Lemma take_exact hi u F1 b F2 : heap hi u (F1 ++ b :: F2) ->
  heap hi (mk_uheap (st32 (uh_mem u) (last_header base F1) (ld32 (uh_mem u) b.1)) (last_header base F1) (uh_w u)) (F1 ++ F2).
Proof.
  intros [Hhi HB HL Hz Hf]. destruct (prev_header _ _ _ _ HB) as (Hq & Hq0 & Hqin).
  apply blocks_app in HB as [HB1 (B1 & B2 & B3 & B4)]. apply links_app in HL as (HL1 & HL2 & HL3). unfold block_end in *.
  assert (ld32 (uh_mem u) b.1 = first_header F2 base) as -> by (destruct F2; cbn in HL3; tauto).
  constructor; cbn [uh_mem uh_freep uh_w]; [done| | |rewrite ld32_st32_other by lia; done|apply Hqin].
  - apply blocks_app. split; [done|]. eapply blocks_weaken; [exact B4| |lia]. unfold after in *. destruct (last F1); lia.
  - apply links_app. split.
    + eapply (links_set _ _ _ lo hi); [done|lia| |exact HL1]. destruct F2 as [|c F2]; cbn [first_header]; [lia|].
      destruct B4 as (C1 & C2 & C3 & _). unfold block_end in *. lia.
    + apply (rest_links_frame (uh_mem u)); [|destruct F2; cbn in *; tauto]. intros c x Hc Hx. destruct (blocks_in _ _ _ _ B4 Hc). apply st32_other. lia.
Qed.

Lemma take_part hi u F1 b F2 n : heap hi u (F1 ++ b :: F2) -> 1 <= n < b.2 -> let a := b.1 + 8 * (b.2 - n) in
  heap hi (mk_uheap (st32 (st32 (uh_mem u) (b.1 + 4) (b.2 - n)) (a + 4) n) (last_header base F1) (uh_w u)) (F1 ++ (b.1, b.2 - n) :: F2).
Proof.
  intros [Hhi HB HL Hz Hf] Hn a. destruct (prev_header _ _ _ _ HB) as (Hq & Hq0 & Hqin).
  apply blocks_app in HB as [HB1 (B1 & B2 & B3 & B4)]. apply links_app in HL as (HL1 & HL2 & HL3). unfold block_end in *.
  set (m' := st32 _ _ _). pose proof (after_low lo F1 hi HB1) as Hal.
  assert (forall x, x < b.1 + 4 \/ block_end b <= x -> m' x = uh_mem u x) as Hout.
  { intros x Hx. unfold m', block_end in *. rewrite !st32_other by lia. done. }
  constructor; cbn [uh_mem uh_freep uh_w]; [done| | | |apply Hqin].
  - apply blocks_app. split; [done|]. cbn [blocks]. unfold block_end. cbn [fst snd]. split; [done|]. split; [lia|]. split; [lia|].
    eapply blocks_weaken; [exact B4|lia|lia].
  - apply links_app. cbn [first_header rest_links fst snd] in *. split; [|split].
    + eapply links_frame; [| |exact HL1]; [intros x Hx; apply Hout; lia|]. intros c x Hc Hx.
      destruct (blocks_before lo F1 hi c HB1 Hc). apply Hout. lia.
    + unfold m'. rewrite ld32_st32_other by lia. apply ld32_st32_same. lia.
    + eapply links_frame; [| |exact HL3]; [intros x Hx; apply Hout; lia|]. intros c x Hc Hx.
      destruct (blocks_in _ _ _ _ B4 Hc). apply Hout. unfold block_end. lia.
  - rewrite (ld32_ext (uh_mem u)) by (intros; apply Hout; lia). done.
Qed.

Lemma cut_cover hi n F1 b F2 : blocks lo (F1 ++ b :: F2) hi -> 1 <= n <= b.2 -> let a := b.1 + 8 * (b.2 - n) in
  (forall x, in_blocks (F1 ++ b :: F2) x <-> in_blocks (cut n F1 b F2) x \/ a <= x < a + 8 * n) /\
  (forall x, in_blocks (cut n F1 b F2) x -> x < a \/ a + 8 * n <= x).
Proof.
  intros [HB1 (B1 & B2 & B3 & B4)]%blocks_app Hn a. unfold cut, block_end in *.
  assert (forall x, in_blocks F1 x -> x < b.1) as H1.
  { intros x (c & Hc & Hx). destruct (blocks_before lo F1 hi c HB1 Hc). unfold block_end in *. lia. }
  assert (forall x, in_blocks F2 x -> b.1 + 8 * b.2 < x) as H2.
  { intros x (c & Hc & Hx). destruct (blocks_in _ _ _ _ B4 Hc). lia. }
  assert (forall c F x, in_blocks (c :: F) x <-> c.1 <= x < c.1 + 8 * c.2 \/ in_blocks F x) as Hcons.
  { intros c F x. rewrite (in_blocks_app [c] F x), in_blocks_one. done. }
  destruct (b.2 =? n) eqn:E; bool_prop; split; intros x; rewrite ?in_blocks_app, ?Hcons, ?in_blocks_app; cbn [fst snd]; subst a.
  - assert (b.1 <= x < b.1 + 8 * b.2 <-> b.1 + 8 * (b.2 - n) <= x < b.1 + 8 * (b.2 - n) + 8 * n) as -> by lia. tauto.
  - intros [H%H1|H%H2]; lia.
  - assert (b.1 <= x < b.1 + 8 * b.2 <-> b.1 <= x < b.1 + 8 * (b.2 - n) \/ b.1 + 8 * (b.2 - n) <= x < b.1 + 8 * (b.2 - n) + 8 * n) as -> by lia. tauto.
  - intros [H%H1|[H|H%H2]]; lia.
Qed.

Lemma malloc_take_run hi u F1 b F2 n : heap hi u (F1 ++ b :: F2) -> 1 <= n <= b.2 -> let a := b.1 + 8 * (b.2 - n) in
  exists u', malloc_take n (last_header base F1) b.1 u = Ret (a + 8) u' /\ heap hi u' (cut n F1 b F2) /\ uh_w u' = uh_w u /\
    ld32 (uh_mem u') (a + 4) = n /\
    (forall x, ~ in_blocks (F1 ++ b :: F2) x -> x < base \/ base + 8 <= x -> uh_mem u' x = uh_mem u x).
Proof.
  intros H Hn a. pose proof H as [Hhi HB HL Hz Hf]. destruct (prev_header _ _ _ _ HB) as (Hq & Hq0 & _).
  pose proof HL as (_ & HL2 & _)%links_app. assert (lo <= b.1 /\ block_end b <= hi) as [Hb1 Hb2].
  { destruct (blocks_in _ _ _ b HB) as (? & ? & ?); [apply elem_of_app; right; apply list_elem_of_here|done]. }
  unfold block_end in Hb2. unfold malloc_take, cut. unfold bind at 1, hd_size at 1, gets. rewrite HL2.
  destruct (b.2 =? n) eqn:E; bool_prop.
  - eexists. split; [|split; [by apply take_exact|]].
    + unfold bind, hd_ptr, gets, set_ptr, store_word, modify, set_freep, ret. cbn [uh_mem uh_freep uh_w]. do 2 f_equal.
      unfold sizeof_Header. rewrite u32_id; lia.
    + cbn [uh_mem uh_w]. split; [done|]. split; [rewrite ld32_st32_other by lia; replace (a + 4) with (b.1 + 4) by lia; congruence|].
      intros x Hx Hxb. apply st32_other. destruct Hq0 as [->|Hq0]; [lia|].
      destruct (decide (last_header base F1 <= x < last_header base F1 + 4)) as [Hin|]; [|lia]. exfalso. apply Hx. apply in_blocks_app. left.
      unfold last_header in *. destruct (last F1) as [c|] eqn:El; [|lia]. apply last_Some_elem_of in El. exists c. split; [done|].
      apply blocks_app in HB as [HB _]. destruct (blocks_before lo F1 hi c HB El). lia.
  - eexists. split; [|split; [apply (take_part hi u F1 b F2 n H); lia|]].
    + rewrite (u32_id (b.2 - n)), header_at_eq by lia.
      unfold bind, set_size, store_word, modify, set_freep, ret. cbn [uh_mem uh_freep uh_w]. do 2 f_equal.
      unfold sizeof_Header. rewrite u32_id; lia.
    + cbn [uh_mem uh_w]. split; [done|]. split; [apply ld32_st32_same; lia|]. intros x Hx Hxb. rewrite !st32_other; [done| |].
      all: destruct (decide (b.1 <= x < block_end b)) as [Hin|]; [|unfold block_end in *; lia].
      all: exfalso; apply Hx, in_blocks_app; right; exists b; split; [apply list_elem_of_here|done].
Qed.

(** ** The search *)

Lemma search_step k n prev p u (sbrk : Z -> W -> Z * W) : ld32 (uh_mem u) (p + 4) < n -> p <> uh_freep u ->
  malloc_loop sbrk loops (S k) n prev p u = malloc_loop sbrk loops k n p (ld32 (uh_mem u) p) u.
Proof.
  intros Hs Hp. cbn [malloc_loop]. unfold bind, hd_size, gets, hd_ptr.
  rewrite (proj2 (Z.leb_gt _ _)), (proj2 (Z.eqb_neq _ _)) by done. done.
Qed.

Lemma search sbrk n u V : forall k prev, links (uh_mem u) prev V (uh_freep u) -> Forall (fun v => v.1 <> uh_freep u) V ->
  (length V <= k)%nat ->
  (exists V1 v V2, V = V1 ++ v :: V2 /\ n <= v.2 /\
     malloc_loop sbrk loops k n prev (first_header V (uh_freep u)) u = malloc_take n (last_header prev V1) v.1 u) \/
  (Forall (fun v => v.2 < n) V /\ malloc_loop sbrk loops k n prev (first_header V (uh_freep u)) u =
     malloc_loop sbrk loops (k - length V) n (last_header prev V) (uh_freep u) u).
Proof.
  induction V as [|v V IH]; intros k prev HL HV Hk; [right; split; [done|by rewrite Nat.sub_0_r]|].
  destruct HL as (H1 & H2 & H3). apply Forall_cons in HV as [Hv HV]. cbn [first_header length] in *.
  destruct (decide (n <= v.2)) as [Hn|Hn].
  - left. exists [], v, V. split; [done|]. split; [done|]. unfold bind.
    destruct k; cbn [malloc_loop]; unfold bind at 1, hd_size, gets; rewrite H2, (proj2 (Z.leb_le _ _) Hn); done.
  - destruct k as [|k]; [lia|]. rewrite search_step by (rewrite ?H2; lia || done).
    assert (ld32 (uh_mem u) v.1 = first_header V (uh_freep u)) as -> by (destruct V; cbn in H3; tauto).
    assert (forall G, last_header prev (v :: G) = last_header v.1 G) as Hl by (intros G; unfold last_header; rewrite last_cons; by destruct (last G)).
    destruct (IH k v.1 H3 HV ltac:(lia)) as [(V1 & w & V2 & -> & Hw & E)|[Hall E]].
    + left. exists (v :: V1), w, V2. split; [done|]. split; [done|]. by rewrite Hl.
    + right. split; [constructor; [lia|done]|]. by rewrite Hl, Nat.sub_succ.
Qed.

(** The circular list, seen from [freep]. *)
Record ring u (F V : list block) (s : Z) : Prop := {
  rg_links : links (uh_mem u) (uh_freep u) V (uh_freep u);
  rg_other : Forall (fun v => v.1 <> uh_freep u) V;
  rg_length : length V = length F;
  rg_size : ld32 (uh_mem u) (uh_freep u + 4) = s;
  rg_split V1 v V2 : V = V1 ++ v :: V2 -> 1 <= v.2 ->
    exists F1 F2, F = F1 ++ v :: F2 /\ last_header base F1 = last_header (uh_freep u) V1;
  rg_freep : 1 <= s -> exists F1 F2, F = F1 ++ (uh_freep u, s) :: F2 /\ last_header base F1 = last_header (uh_freep u) V;
  rg_all b : b ∈ F -> b ∈ V \/ b = (uh_freep u, s);
}.

Lemma heap_ring hi u F : heap hi u F -> exists V s, ring u F V s.
Proof.
  intros [Hhi HB HL Hz Hf]. apply header_split in Hf as (A & B & -> & Hf). destruct A as [|f A _] using rev_ind.
  - change (last_header base []) with base in Hf. rewrite app_nil_l in *. exists B, 0. constructor; rewrite ?Hf; try done; [| |auto].
    + apply Forall_forall. intros v Hv. destruct (blocks_in _ _ _ _ HB Hv). lia.
    + intros V1 v V2 -> Hv. by exists V1, V2.
  - rewrite last_header_snoc in Hf. rewrite <- app_assoc in *. cbn [app] in *.
    pose proof HB as [HA (B1 & B2 & B3 & B4)]%blocks_app. pose proof HL as (L1 & L2 & L3)%links_app. cbn [first_header] in L1.
    exists (B ++ (base, 0) :: A), f.2. constructor; rewrite ?Hf.
    + apply links_app. cbn [first_header rest_links fst snd]. done.
    + apply Forall_app. split; [|constructor; [cbn; pose proof (after_low lo A hi HA); lia|]]; apply Forall_forall; intros v Hv.
      * destruct (blocks_in _ _ _ _ B4 Hv). unfold block_end in *. lia.
      * destruct (blocks_before lo A hi v HA Hv). lia.
    + rewrite !length_app. cbn [length]. lia.
    + done.
    + intros V1 v V2 E Hv. destruct (decide (length V1 < length B)%nat) as [Hl|Hl].
      * assert (exists K, B = V1 ++ v :: K) as [K ->].
        { exists (drop (S (length V1)) B). assert (take (S (length V1)) (B ++ (base, 0) :: A) = take (S (length V1)) (V1 ++ v :: V2)) as E' by (by rewrite E).
          rewrite take_app_le, take_app_ge in E' by lia. replace (S (length V1) - length V1)%nat with 1%nat in E' by lia. cbn [take] in E'.
          rewrite <- (take_drop (S (length V1)) B) at 1. rewrite E', <- app_assoc. done. }
        exists (A ++ f :: V1), K. rewrite <- app_assoc. split; [done|]. unfold last_header. rewrite last_app_cons, last_cons.
        by destruct (last V1).
      * assert (exists K, V1 = B ++ K) as [K ->].
        { exists (drop (length B) V1). assert (take (length B) (B ++ (base, 0) :: A) = take (length B) (V1 ++ v :: V2)) as E' by (by rewrite E).
          rewrite take_app_length, take_app_le in E' by lia. rewrite <- (take_drop (length B) V1) at 1. by rewrite <- E'. }
        rewrite <- app_assoc in E. apply app_inv_head in E. destruct K as [|k0 K]; injection E as <- E; [cbn in Hv; lia|]. subst A.
        exists K, (V2 ++ f :: B). rewrite <- app_assoc. split; [done|]. unfold last_header. rewrite last_app_cons, last_cons. by destruct (last K).
    + intros _. exists A, B. split; [by destruct f|]. unfold last_header. rewrite last_app_cons, last_cons. by destruct (last A).
    + intros b Hb. rewrite elem_of_app, elem_of_cons in Hb. rewrite elem_of_app, elem_of_cons. 
      destruct Hb as [Hb|[->|Hb]]; [left; right; by right|right; by destruct f|left; by left].
Qed.

(** One round through the list finds a block that is large enough, or comes
    back to [freep]. *)
Lemma find_run hi u F n k sbrk : heap hi u F -> 1 <= n -> (length F <= k)%nat -> let p := uh_freep u in
  (exists F1 b F2, F = F1 ++ b :: F2 /\ n <= b.2 /\
     malloc_loop sbrk loops k n p (ld32 (uh_mem u) p) u = malloc_take n (last_header base F1) b.1 u) \/
  (forall b, b ∈ F -> b.2 < n) /\ ld32 (uh_mem u) (p + 4) < n /\
    exists prev, malloc_loop sbrk loops k n p (ld32 (uh_mem u) p) u = malloc_loop sbrk loops (k - length F) n prev p u.
Proof.
  intros H Hn Hk p. destruct (heap_ring hi u F H) as (V & s & [R1 R2 R3 R4 R5 R6 R7]). fold p in R1, R2, R4, R5, R6, R7.
  assert (ld32 (uh_mem u) p = first_header V p) as -> by (destruct V; cbn in R1; tauto).
  destruct (search sbrk n u V k p R1 R2 ltac:(lia)) as [(V1 & v & V2 & -> & Hv & E)|[Hall E]]; fold p in E.
  - left. destruct (R5 V1 v V2 eq_refl ltac:(lia)) as (F1 & F2 & -> & El). exists F1, v, F2. rewrite El. done.
  - rewrite R3 in E. destruct (decide (n <= s)) as [Hs|Hs].
    + left. destruct (R6 ltac:(lia)) as (F1 & F2 & -> & El). exists F1, (p, s), F2. split; [done|]. split; [done|]. rewrite E, El.
      destruct (k - _)%nat; cbn [malloc_loop]; unfold bind at 1, hd_size at 1, gets; rewrite R4, (proj2 (Z.leb_le _ _) Hs); done.
    + right. split; [|split; [lia|by eexists]]. intros b Hb. destruct (R7 b Hb) as [HV| ->]; [|cbn; lia].
      rewrite Forall_forall in Hall. by apply Hall.
Qed.

(** ** More memory *)

(** [sbrk] moves the break up if there is room, and fails otherwise. *)
Record sbrk_law (sbrk : Z -> W -> Z * W) (brk : W -> Z) (limit : Z) : Prop := {
  sl_limit : limit <= 2 ^ 31;
  sl_grow : forall n w, 0 < n -> brk w + n <= limit -> (sbrk n w).1 = brk w /\ brk (sbrk n w).2 = brk w + n;
  sl_full : forall n w, 0 < n -> limit < brk w + n -> (sbrk n w).1 = -1 /\ brk (sbrk n w).2 = brk w;
}.

Lemma heap_grow hi hi' u F : heap hi u F -> hi <= hi' -> hi' <= 2 ^ 31 -> heap hi' u F.
Proof. intros [H1 H2 H3 H4 H5] Hh Hl. constructor; try done. eapply blocks_weaken; [exact H2|lia|done]. Qed.

Lemma heap_frame hi u F m' w : heap hi u F -> (forall x, base <= x < base + 8 \/ in_blocks F x -> m' x = uh_mem u x) ->
  heap hi (mk_uheap m' (uh_freep u) w) F.
Proof.
  intros [H1 H2 H3 H4 H5] Hm. constructor; try done; cbn [uh_mem].
  - eapply links_frame; [| |exact H3]; [intros; apply Hm; lia|]. intros c x Hc Hx. apply Hm. right. exists c.
    destruct (blocks_in _ _ _ _ H2 Hc) as (? & ? & ?). unfold block_end. split; [done|lia].
  - rewrite (ld32_ext (uh_mem u)) by (intros; apply Hm; lia). done.
Qed.

Lemma freep_pos hi u F : heap hi u F -> 0 < uh_freep u.
Proof.
  intros [_ HB _ _ Hf]. apply elem_of_cons in Hf as [->|Hf]; [done|]. apply list_elem_of_fmap in Hf as (b & -> & Hb).
  destruct (blocks_in _ _ _ _ HB Hb). lia.
Qed.

Section grow.
Context (sbrk : Z -> W -> Z * W) (brk : W -> Z) (limit : Z) (SL : sbrk_law sbrk brk limit).

Lemma morecore_run u F n : heap (brk (uh_w u)) u F -> lo <= brk (uh_w u) -> 1 <= n -> 8 * n < 2 ^ 31 -> (length F <= loops)%nat ->
  let nu := Z.max n 4096 in
  if decide (brk (uh_w u) + 8 * nu <= limit) then
    exists u' F', morecore sbrk loops n u = Ret (uh_freep u') u' /\ heap (brk (uh_w u')) u' F' /\
      brk (uh_w u') = brk (uh_w u) + 8 * nu /\ (length F' <= S (length F))%nat /\
      (forall x, in_blocks F' x <-> in_blocks F x \/ brk (uh_w u) <= x < brk (uh_w u')) /\ (exists c, c ∈ F' /\ n <= c.2) /\
      (forall x, ~ in_blocks F' x -> x < base \/ base + 8 <= x -> uh_mem u' x = uh_mem u x)
  else exists w, morecore sbrk loops n u = Ret 0 (mk_uheap (uh_mem u) (uh_freep u) w) /\ brk w = brk (uh_w u).
Proof.
  intros H Hlb Hn Hmax Hlen nu. set (top := brk (uh_w u)) in *. pose proof (sl_limit _ _ _ SL) as Hlim. unfold morecore.
  assert ((if n <? 4096 then 4096 else n) = nu) as -> by (unfold nu; destruct (n <? 4096) eqn:E; bool_prop; lia).
  unfold sizeof_Header, call_sbrk. rewrite u32_id, i32_id by lia. unfold bind at 1. case_decide as Hd.
  - destruct (sl_grow _ _ _ SL (nu * 8) (uh_w u)) as [G1 G2]; [lia|fold top; lia|]. destruct (sbrk (nu * 8) (uh_w u)) as [r w]. cbn [fst snd] in G1, G2.
    subst r. fold top in G2 |- *. rewrite (u32_id top) by lia. rewrite (proj2 (Z.eqb_neq _ _)) by lia.
    unfold set_size, store_word. rewrite (bind_ret_l (modify _) _ _ tt _ eq_refl). cbn [uh_mem uh_freep uh_w]. rewrite u32_id by lia.
    set (u1 := mk_uheap (st32 (uh_mem u) (top + 4) nu) (uh_freep u) w).
    assert (heap (top + 8 * nu) u1 F) as H1.
    { apply (heap_grow top); [|lia|lia]. apply heap_frame; [done|]. intros x Hx. apply st32_other.
      destruct Hx as [Hx|(c & Hc & Hx)]; [lia|]. destruct (blocks_in _ _ _ _ (hp_blocks _ _ _ H) Hc). lia. }
    destruct (free_spec (top + 8 * nu) u1 F (top, nu) H1) as (u' & F' & R & H' & Hw & Hl & Hc & (c & Hc1 & Hc2) & Hm);
      unfold block_end in *; cbn [fst snd] in *; try lia.
    { unfold u1. cbn [uh_mem]. apply ld32_st32_same. lia. }
    { intros b Hb. right. cbn [fst]. destruct (blocks_in _ _ _ _ (hp_blocks _ _ _ H) Hb) as (_ & _ & E). exact E. }
    exists u', F'. rewrite (bind_ret_l _ _ _ _ _ R). rewrite Hw. change (uh_w u1) with w. rewrite G2, (Z.mul_comm nu 8).
    split; [done|]. split; [done|]. split; [done|]. split; [done|]. split; [done|]. split; [exists c; split; [done|lia]|].
    intros x Hx Hxb. rewrite Hm by done. apply st32_other. destruct (decide (top <= x < top + 8 * nu)); [|lia].
    exfalso. apply Hx, Hc. by right.
  - destruct (sl_full _ _ _ SL (nu * 8) (uh_w u)) as [G1 G2]; [lia|fold top; lia|].
    destruct (sbrk (nu * 8) (uh_w u)) as [r w] eqn:Es. cbn [fst snd] in G1, G2. subst r. exists w. split; [|exact G2].
    unfold bind at 1. rewrite Es. change (u32 (-1)) with (2 ^ 32 - 1). by rewrite Z.eqb_refl.
Qed.

(** What a call of [malloc] for [n] units does. *)
Definition got u F n (a : Z) u' F' : Prop :=
  heap (brk (uh_w u')) u' F' /\ brk (uh_w u) <= brk (uh_w u') <= Z.max limit (brk (uh_w u)) /\ lo <= a /\ a + 8 * n <= brk (uh_w u') /\
  ld32 (uh_mem u') (a + 4) = n /\
  (forall x, in_blocks F' x \/ a <= x < a + 8 * n <-> in_blocks F x \/ brk (uh_w u) <= x < brk (uh_w u')) /\
  (forall x, in_blocks F' x -> x < a \/ a + 8 * n <= x) /\
  (forall x, ~ in_blocks F x -> x < brk (uh_w u) -> x < base \/ base + 8 <= x -> uh_mem u' x = uh_mem u x).

Lemma take_got u F1 b F2 n : heap (brk (uh_w u)) u (F1 ++ b :: F2) -> 1 <= n <= b.2 ->
  exists a u', malloc_take n (last_header base F1) b.1 u = Ret (a + 8) u' /\ got u (F1 ++ b :: F2) n a u' (cut n F1 b F2).
Proof.
  intros H Hn. destruct (malloc_take_run _ u F1 b F2 n H Hn) as (u' & R & H' & Hw & Hs & Hm).
  destruct (cut_cover _ n F1 b F2 (hp_blocks _ _ _ H) Hn) as [C1 C2]. exists (b.1 + 8 * (b.2 - n)), u'. split; [done|].
  destruct (blocks_in _ _ _ b (hp_blocks _ _ _ H)) as (B1 & B2 & B3); [apply elem_of_app; right; apply list_elem_of_here|].
  unfold block_end in B3. unfold got. rewrite Hw. split; [done|]. split; [lia|]. split; [lia|]. split; [lia|]. split; [done|].
  split; [|split; [done|intros; by apply Hm]]. intros x. rewrite <- C1.
  assert (brk (uh_w u) <= x < brk (uh_w u) <-> False) as -> by lia. tauto.
Qed.

Lemma got_trans u F n u1 F1 a u' F' : heap (brk (uh_w u)) u F -> brk (uh_w u) <= brk (uh_w u1) <= Z.max limit (brk (uh_w u)) ->
  (forall x, in_blocks F1 x <-> in_blocks F x \/ brk (uh_w u) <= x < brk (uh_w u1)) ->
  (forall x, ~ in_blocks F1 x -> x < base \/ base + 8 <= x -> uh_mem u1 x = uh_mem u x) ->
  got u1 F1 n a u' F' -> got u F n a u' F'.
Proof.
  intros H Hbrk HF Hm (G1 & G2 & G3 & G4 & G5 & G6 & G7 & G8). unfold got. split; [done|]. split; [lia|]. split; [done|]. split; [done|].
  split; [done|]. split; [|split; [done|]].
  - intros x. rewrite G6, HF.
    assert (brk (uh_w u) <= x < brk (uh_w u') <-> brk (uh_w u) <= x < brk (uh_w u1) \/ brk (uh_w u1) <= x < brk (uh_w u')) as -> by lia. tauto.
  - intros x Hx Hxb Hxbase. assert (~ in_blocks F1 x) as Hx1 by (rewrite HF; intros [?|?]; [done|lia]).
    rewrite G8 by (done || lia). by apply Hm.
Qed.

Lemma search_end k n prev u : ld32 (uh_mem u) (uh_freep u + 4) < n ->
  malloc_loop sbrk loops (S k) n prev (uh_freep u) u =
  (p <- morecore sbrk loops n ;; if p =? 0 then ret 0 else nx <- hd_ptr p ;; malloc_loop sbrk loops k n p nx) u.
Proof.
  intros Hs. cbn [malloc_loop]. unfold bind at 1, hd_size, gets at 1. rewrite (proj2 (Z.leb_gt _ _) Hs).
  unfold bind at 1, gets at 1. by rewrite Z.eqb_refl.
Qed.

(** The loop of [malloc] from [freep]. *)
Lemma malloc_loop_run u F n : heap (brk (uh_w u)) u F -> lo <= brk (uh_w u) -> 1 <= n -> 8 * n < 2 ^ 31 ->
  (2 * length F + 2 <= loops)%nat ->
  (exists a u' F', malloc_loop sbrk loops loops n (uh_freep u) (ld32 (uh_mem u) (uh_freep u)) u = Ret (a + 8) u' /\ got u F n a u' F') \/
  (exists w, malloc_loop sbrk loops loops n (uh_freep u) (ld32 (uh_mem u) (uh_freep u)) u = Ret 0 (mk_uheap (uh_mem u) (uh_freep u) w) /\
     brk w = brk (uh_w u) /\ (forall b, b ∈ F -> b.2 < n) /\ limit < brk (uh_w u) + 8 * Z.max n 4096).
Proof.
  intros H Hlb Hn Hmax Hk. destruct (find_run _ u F n loops sbrk H Hn ltac:(lia)) as [(F1 & b & F2 & -> & Hb & E)|(Hall & Hs & prev & E)].
  { left. rewrite E. destruct (take_got u F1 b F2 n H ltac:(lia)) as (a & u' & R & G). by exists a, u', (cut n F1 b F2). }
  rewrite E. pose proof (morecore_run u F n H Hlb Hn Hmax ltac:(lia)) as HM. cbv zeta in HM.
  destruct (loops - length F)%nat as [|k] eqn:Ek; [lia|]. rewrite (search_end k n prev u Hs). case_decide as Hd.
  - destruct HM as (u1 & F1 & R1 & H1 & Hb1 & Hl1 & Hc1 & (c & Hc & Hcn) & Hm1). left. rewrite (bind_ret_l _ _ _ _ _ R1).
    rewrite (proj2 (Z.eqb_neq _ _)) by (pose proof (freep_pos _ _ _ H1); lia). unfold bind at 1, hd_ptr, gets at 1.
    destruct (find_run _ u1 F1 n k sbrk H1 Hn ltac:(lia)) as [(G1 & b & G2 & -> & Hb & E2)|(Hall2 & _)]; [|specialize (Hall2 c Hc); lia].
    rewrite E2. destruct (take_got u1 G1 b G2 n H1 ltac:(lia)) as (a & u' & R & G). exists a, u', (cut n G1 b G2). split; [done|].
    apply (got_trans u F n u1 (G1 ++ b :: G2)); [exact H|lia|exact Hc1|exact Hm1|exact G].
  - destruct HM as (w & R1 & Hw). right. exists w. rewrite (bind_ret_l _ _ _ _ _ R1). cbn [Z.eqb]. split; [done|].
    split; [done|]. split; [done|]. lia.
Qed.

(** The state before the first call: no list yet. *)
Definition ready u F : Prop := heap (brk (uh_w u)) u F \/ uh_freep u = 0 /\ F = [] /\ brk (uh_w u) <= 2 ^ 31.

Lemma malloc_units_eq nbytes : 0 <= nbytes -> nbytes + 7 < 2 ^ 32 -> malloc_units nbytes = (nbytes + 7) / 8 + 1.
Proof.
  intros H0 H1. unfold malloc_units, sizeof_Header. rewrite (u32_id (nbytes + 8 - 1)) by lia.
  replace (nbytes + 8 - 1) with (nbytes + 7) by lia. rewrite u32_id; [done|]. Z.div_mod_to_equations. lia.
Qed.

(** The list that [malloc] sets up before it searches. *)
Definition started u : uheap W :=
  if uh_freep u =? 0 then mk_uheap (st32 (st32 (uh_mem u) base base) (base + 4) 0) base (uh_w u) else u.

Lemma malloc_start nbytes u : let u1 := started u in malloc base sbrk loops nbytes u =
  malloc_loop sbrk loops loops (malloc_units nbytes) (uh_freep u1) (ld32 (uh_mem u1) (uh_freep u1)) u1.
Proof. unfold malloc, started, bind, gets. by destruct (uh_freep u =? 0). Qed.

Lemma started_heap u F : ready u F -> lo <= brk (uh_w u) -> base < 2 ^ 32 ->
  heap (brk (uh_w u)) (started u) F /\ uh_w (started u) = uh_w u /\
  (forall x, x < base \/ base + 8 <= x -> uh_mem (started u) x = uh_mem u x).
Proof.
  intros [H|(Hf & -> & Hb31)] Hlb Hb32; unfold started.
  - pose proof (freep_pos _ _ _ H). by rewrite (proj2 (Z.eqb_neq _ _)) by lia.
  - rewrite Hf. cbn [Z.eqb]. split; [|split; [done|intros x Hx; cbn [uh_mem]; by rewrite !st32_other by lia]].
    constructor; cbn [uh_mem uh_freep uh_w blocks links fmap list_fmap]; try done.
    + rewrite ld32_st32_other, ld32_st32_same; lia.
    + apply ld32_st32_same. lia.
    + apply list_elem_of_here.
Qed.

Lemma malloc_spec u F nbytes : ready u F -> lo <= brk (uh_w u) -> base < 2 ^ 32 -> 0 <= nbytes -> nbytes + 16 < 2 ^ 31 ->
  (2 * length F + 2 <= loops)%nat -> let n := (nbytes + 7) / 8 + 1 in
  (exists a u' F', malloc base sbrk loops nbytes u = Ret (a + 8) u' /\ got u F n a u' F') \/
  (exists u', malloc base sbrk loops nbytes u = Ret 0 u' /\ heap (brk (uh_w u')) u' F /\ brk (uh_w u') = brk (uh_w u) /\
     (forall x, x < base \/ base + 8 <= x -> uh_mem u' x = uh_mem u x) /\
     (forall b, b ∈ F -> b.2 < n) /\ limit < brk (uh_w u) + 8 * Z.max n 4096).
Proof.
  intros Hr Hlb Hb32 H0 Hmax Hk n. destruct (started_heap u F Hr Hlb Hb32) as (H & Hw & Hm).
  assert (1 <= n /\ 8 * n < 2 ^ 31) as [Hn1 Hn2] by (unfold n; Z.div_mod_to_equations; lia).
  rewrite malloc_start, malloc_units_eq by lia. fold n. set (u1 := started u) in *. rewrite <- Hw in H, Hlb.
  destruct (malloc_loop_run u1 F n H Hlb Hn1 Hn2 Hk) as [(a & u' & F' & R & G)|(w & R & Hw' & Hall & Hl)]; [left|right].
  - exists a, u', F'. split; [exact R|]. destruct G as (G1 & G2 & G3 & G4 & G5 & G6 & G7 & G8). unfold got.
    rewrite Hw in G2, G6, G8. do 7 (split; [done|]). intros x Hx Hxb Hxbase. rewrite G8 by done. by apply Hm.
  - eexists. split; [exact R|]. cbn [uh_w uh_mem]. rewrite Hw', <- Hw. split; [|done].
    destruct H. constructor; cbn [uh_w uh_mem uh_freep]; by rewrite ?Hw'.
Qed.

End grow.

End heap.
