(* ===== verification/MallocResults.v ===== *)
(** * Clients of the user-level allocator

    A client allocates, frees and writes objects in any order.  It remembers
    what it wrote; the allocator returns from every call, keeps the objects
    apart, and no call changes the contents of an object the client holds. *)

From stdpp Require Import gmap.
From S2P Require Import Prelude Mem Umalloc.

(** The calls of a client; an object is named by the pointer [malloc] gave. *)
Inductive heap_call : Type :=
| Malloc (n : nat)
| Free (p : Z)
| Store (p : Z) (j : nat) (v : Z).

(** The objects the client holds and what it believes they contain. *)
Abbreviation objects := (gmap Z (list Z)).

Section client.
Context {W : Type} (base : Z) (sbrk : Z -> W -> Z * W) (loops : nat).

Definition store_byte (a v : Z) : U (W := W) unit :=
  modify (fun u => mk_uheap (st8 (uh_mem u) a v) (uh_freep u) (uh_w u)).

Definition client_call (c : heap_call) (L : objects) : U (W := W) objects :=
  match c with
  | Malloc n =>
      p <- malloc base sbrk loops (Z.of_nat n) ;;
      if p =? 0 then ret L
      else vs <- gets (fun u => ld_bytes (uh_mem u) p n) ;; ret (<[p := vs]> L)
  | Free p =>
      match L !! p with
      | Some _ => free loops p ;; ret (delete p L)
      | None => ret L
      end
  | Store p j v =>
      match L !! p with
      | Some vs =>
          if decide (j < length vs)%nat then store_byte (p + Z.of_nat j) v ;; ret (<[p := <[j := u8 v]> vs]> L)
          else ret L
      | None => ret L
      end
  end.

Fixpoint client (cs : list heap_call) (L : objects) : U (W := W) objects :=
  match cs with
  | [] => ret L
  | c :: cs' => L' <- client_call c L ;; client cs' L'
  end.

End client.

(** The block of an object with [n] bytes at [p]. *)
Definition obj_block (p : Z) (n : nat) : block := (p - 8, (Z.of_nat n + 7) / 8 + 1).

Section invariant.
Context {W : Type} (base lo limit : Z) (brk : W -> Z).
Implicit Types (u : uheap W) (F : list block) (L : objects).

(** An object the client holds: its block is outside the free list, with its
    size in the header, and its bytes are what the client believes. *)
Record obj_ok u F (p : Z) (vs : list Z) : Prop := {
  ok_low : lo + 8 <= p;
  ok_high : block_end (obj_block p (length vs)) <= brk (uh_w u);
  ok_size : ld32 (uh_mem u) (p - 4) = (obj_block p (length vs)).2;
  ok_used : forall x, p - 8 <= x < block_end (obj_block p (length vs)) -> ~ in_blocks F x;
  ok_contents : ld_bytes (uh_mem u) p (length vs) = vs;
}.

Record alloc_ok u F L : Prop := {
  ao_ready : ready base lo brk u F;
  ao_init : uh_freep u = 0 -> L = ∅;
  ao_low : lo <= brk (uh_w u);
  ao_limit : brk (uh_w u) <= limit;
  ao_objs : forall p vs, L !! p = Some vs -> obj_ok u F p vs;
  ao_apart : forall p vs q ws, L !! p = Some vs -> L !! q = Some ws -> p <> q ->
    apart (obj_block p (length vs)) (obj_block q (length ws));
}.

End invariant.

Lemma disjoint_apart b c : 1 <= b.2 -> 1 <= c.2 -> (forall x, b.1 <= x < block_end b -> x < c.1 \/ block_end c <= x) -> apart b c.
Proof.
  intros Hb Hc H. unfold apart, block_end in *. destruct (Z.le_gt_cases (b.1 + 8 * b.2) c.1); [lia|].
  destruct (H (Z.max b.1 c.1)); lia.
Qed.

Lemma blocks_length lo F hi : blocks lo F hi -> lo <= hi -> 8 * Z.of_nat (length F) <= hi - lo.
Proof.
  revert lo. induction F as [|b F IH]; intros lo; cbn [blocks length]; [lia|]. intros (H1 & H2 & H3 & H4) Hle.
  unfold block_end in *. destruct F as [|c F']; [cbn [length]; lia|]. pose proof H4 as (_ & H5 & H6 & _).
  specialize (IH _ H4). destruct H4 as (H4 & _). unfold block_end in *. lia.
Qed.

Lemma obj_block_end p n : p + Z.of_nat n <= block_end (obj_block p n) <= p + Z.of_nat n + 7 /\ 1 <= (obj_block p n).2.
Proof. unfold block_end, obj_block. cbn [fst snd]. Z.div_mod_to_equations. lia. Qed.

Section client_runs.
Context {W : Type} (base lo : Z) (Hbase : 0 < base) (Hlo : base + 8 <= lo) (Hb32 : base < 2 ^ 32).
Context (sbrk : Z -> W -> Z * W) (brk : W -> Z) (limit : Z) (SL : sbrk_law sbrk brk limit).
Context (loops : nat) (Hloops : limit - lo + 8 <= 4 * Z.of_nat loops).
Implicit Types (u : uheap W) (F : list block) (L : objects).

Lemma obj_frame u u' F F' p vs : obj_ok lo brk u F p vs -> brk (uh_w u) <= brk (uh_w u') ->
  (forall x, p - 8 <= x < block_end (obj_block p (length vs)) -> uh_mem u' x = uh_mem u x /\ ~ in_blocks F' x) ->
  obj_ok lo brk u' F' p vs.
Proof.
  intros [O1 O2 O3 O4 O5] Hb Hx. pose proof (obj_block_end p (length vs)). constructor; [done|lia| |intros; by apply Hx|].
  - rewrite <- O3. apply ld32_ext. intros x Hr. apply Hx. unfold block_end, obj_block in *. cbn [fst snd] in *. lia.
  - rewrite <- O5 at 2. apply ld_bytes_ext. intros x Hr. apply Hx. lia.
Qed.

Lemma list_short u F L : alloc_ok base lo limit brk u F L -> (2 * length F + 2 <= loops)%nat.
Proof.
  intros [[H|(_ & -> & _)] _ Hl Hm _ _]; [|cbn; lia]. destruct H as [_ HB _ _ _].
  pose proof (blocks_length _ _ _ HB Hl). lia.
Qed.

Lemma got_ok u F L n a u' F' : let un := (Z.of_nat n + 7) / 8 + 1 in alloc_ok base lo limit brk u F L ->
  got base lo brk limit u F un a u' F' ->
  alloc_ok base lo limit brk u' F' (<[a + 8 := ld_bytes (uh_mem u') (a + 8) n]> L).
Proof.
  intros un [Hr Hi Hl Hm Ho Ha] (G1 & G2 & G3 & G4 & G5 & G6 & G7 & G8).
  assert (forall p vs x, L !! p = Some vs -> p - 8 <= x < block_end (obj_block p (length vs)) ->
    uh_mem u' x = uh_mem u x /\ ~ in_blocks F' x /\ ~ a <= x < a + 8 * un) as Hold.
  { intros p vs x Hp Hx. destruct (Ho p vs Hp) as [O1 O2 O3 O4 O5]. pose proof (O4 x Hx) as Hf.
    split; [apply G8; [done|lia|lia]|]. assert (~ (in_blocks F' x \/ a <= x < a + 8 * un)) by (rewrite G6; intros [?|?]; [done|lia]). tauto. }
  assert (forall p vs, L !! p = Some vs -> apart (obj_block p (length vs)) (obj_block (a + 8) n)) as Hnew.
  { intros p vs Hp. apply disjoint_apart; [apply obj_block_end|apply obj_block_end|]. intros x Hx.
    destruct (Hold p vs x Hp Hx) as (_ & _ & Hn). unfold block_end, obj_block. cbn [fst snd]. fold un. lia. }
  pose proof (freep_pos base lo Hbase Hlo _ _ _ G1). constructor; [by left|lia|lia|lia| |].
  - intros p vs. rewrite lookup_insert_Some. intros [[<- <-]|[_ Hp]].
    + constructor; rewrite ?ld_bytes_length; unfold block_end, obj_block; cbn [fst snd]; fold un; try lia; [|intros x Hx Hf|done].
      * rewrite <- G5. f_equal. lia.
      * specialize (G7 x Hf). lia.
    + eapply obj_frame; [by apply Ho|lia|]. intros x Hx. destruct (Hold p vs x Hp Hx) as (? & ? & _). done.
  - intros p vs q ws. rewrite !lookup_insert_Some. intros [[<- <-]|[_ Hp]] [[<- <-]|[_ Hq]] Hne; rewrite ?ld_bytes_length; try done.
    + destruct (Hnew q ws Hq); [by right|by left].
    + by apply Hnew.
    + by apply Ha.
Qed.

Lemma malloc_ok u F L n : alloc_ok base lo limit brk u F L -> Z.of_nat n + 16 < 2 ^ 31 ->
  exists L' u' F', client_call base sbrk loops (Malloc n) L u = Ret L' u' /\ alloc_ok base lo limit brk u' F' L'.
Proof.
  intros H Hn. pose proof (list_short _ _ _ H) as Hk. pose proof H as [Hr Hi Hl Hm Ho Ha].
  destruct (malloc_spec base lo Hbase Hlo loops sbrk brk limit SL u F (Z.of_nat n) Hr Hl Hb32 ltac:(lia) Hn Hk)
    as [(a & u' & F' & R & G)|(u' & R & Hr' & Hw & Hx & _ & _)]; unfold client_call; rewrite (bind_ret_l _ _ _ _ _ R).
  - pose proof G as (_ & _ & G3 & _). rewrite (proj2 (Z.eqb_neq _ _)) by lia. eexists _, _, F'. split; [reflexivity|]. by apply (got_ok u F).
  - eexists L, u', F. split; [reflexivity|]. pose proof (freep_pos base lo Hbase Hlo _ _ _ Hr').
    constructor; [by left|lia|lia|lia| |done]. intros p vs Hp. pose proof (Ho p vs Hp) as O.
    eapply obj_frame; [exact O|lia|]. intros x Hxx. split; [apply Hx|by apply (ok_used _ _ _ _ _ _ O)].
    pose proof (ok_low _ _ _ _ _ _ O). lia.
Qed.

Lemma free_live u F L p vs : alloc_ok base lo limit brk u F L -> L !! p = Some vs ->
  exists u' F', free loops p u = Ret tt u' /\ alloc_ok base lo limit brk u' F' (delete p L) /\
    exists c, c ∈ F' /\ (obj_block p (length vs)).2 <= c.2.
Proof.
  intros H Hp. pose proof (list_short _ _ _ H) as Hk. destruct H as [Hr Hi Hl Hm Ho Ha]. pose proof (Ho p vs Hp) as [O1 O2 O3 O4 O5].
  destruct Hr as [Hr|(Hf & _)]; [|rewrite (Hi Hf), lookup_empty in Hp; done].
  destruct (obj_block_end p (length vs)) as [_ On]. set (b := obj_block p (length vs)) in *.
  assert (forall c, c ∈ F -> apart b c) as Hb.
  { intros c Hc. destruct (blocks_in _ _ _ c (hp_blocks _ _ _ _ _ Hr) Hc) as (_ & C2 & _). apply disjoint_apart; [done|done|].
    intros x Hx. destruct (decide (x < c.1)); [by left|right]. destruct (decide (block_end c <= x)); [done|].
    exfalso. apply (O4 x Hx). exists c. split; [done|lia]. }
  destruct (free_spec base lo Hbase Hlo loops (brk (uh_w u)) u F b Hr) as (u' & F' & R & H' & Hw & _ & Hc & Hfit & Hx); try done.
  { unfold b, obj_block. cbn [fst]. lia. }
  { rewrite <- O3. f_equal. unfold b, obj_block. cbn [fst]. lia. }
  { lia. }
  replace (b.1 + 8) with p in R by (unfold b, obj_block; cbn [fst]; lia).
  exists u', F'. split; [done|]. split; [|exact Hfit]. pose proof (freep_pos base lo Hbase Hlo _ _ _ H').
  constructor; rewrite ?Hw; [left; by rewrite Hw|lia|done|done| |].
  - intros q ws [Hne Hq]%lookup_delete_Some. pose proof (Ho q ws Hq) as O. eapply obj_frame; [exact O|rewrite Hw; lia|].
    intros x Hxx. assert (~ in_blocks F' x) as Hno.
    { rewrite Hc. intros [Hin|Hin]; [by apply (ok_used _ _ _ _ _ _ O x)|].
      destruct (Ha p vs q ws Hp Hq Hne) as [Hap|Hap]; unfold b, obj_block in *; cbn [fst] in *; lia. }
    split; [|done]. apply Hx; [done|]. pose proof (ok_low _ _ _ _ _ _ O). lia.
  - intros q ws r xs [_ Hq]%lookup_delete_Some [_ Hrr]%lookup_delete_Some. by apply Ha.
Qed.

Lemma free_ok u F L p : alloc_ok base lo limit brk u F L ->
  exists L' u' F', client_call base sbrk loops (Free p) L u = Ret L' u' /\ alloc_ok base lo limit brk u' F' L'.
Proof.
  intros H. unfold client_call. destruct (L !! p) as [vs|] eqn:Hp; [|by exists L, u, F].
  destruct (free_live u F L p vs H Hp) as (u' & F' & R & H' & _). rewrite (bind_ret_l _ _ _ _ _ R). by exists (delete p L), u', F'.
Qed.

Lemma store_ok u F L p j v : alloc_ok base lo limit brk u F L ->
  exists L' u' F', client_call base sbrk loops (Store p j v) L u = Ret L' u' /\ alloc_ok base lo limit brk u' F' L'.
Proof.
  intros H. pose proof H as [Hr Hi Hl Hm Ho Ha]. unfold client_call.
  destruct (L !! p) as [vs|] eqn:Hp; [|by exists L, u, F]. case_decide as Hj; [|by exists L, u, F].
  unfold store_byte. rewrite (bind_ret_l (modify _) _ _ tt _ eq_refl). eexists _, _, F. split; [reflexivity|].
  pose proof (Ho p vs Hp) as [O1 O2 O3 O4 O5]. destruct (obj_block_end p (length vs)) as [Oe _].
  assert (~ in_blocks F (p + Z.of_nat j)) as Hno by (apply O4; lia).
  destruct Hr as [Hr|(Hf & _)]; [|rewrite (Hi Hf), lookup_empty in Hp; done].
  pose proof (freep_pos base lo Hbase Hlo _ _ _ Hr). constructor; cbn [uh_mem uh_w uh_freep]; [left|lia|done|done| |].
  - apply heap_frame; [done|]. intros x Hx. apply st8_other. intros ->. destruct Hx; [lia|done].
  - intros q ws. rewrite lookup_insert_Some. intros [[<- <-]|[Hne Hq]].
    + constructor; cbn [uh_mem uh_w]; rewrite ?length_insert; try done.
      * rewrite <- O3. apply ld32_ext. intros x Hx. apply st8_other. lia.
      * rewrite ld_bytes_st8 by done. by rewrite O5.
    + pose proof (Ho q ws Hq) as O. eapply obj_frame; [exact O|done|]. intros x Hx. split; [|by apply (ok_used _ _ _ _ _ _ O)].
      apply st8_other. intros ->. destruct (Ha p vs q ws Hp Hq Hne) as [Hap|Hap]; unfold block_end, obj_block in *; cbn [fst snd] in *; lia.
  - intros q ws r xs. rewrite !lookup_insert_Some. intros [[<- <-]|[_ Hq]] [[<- <-]|[_ Hrr]]; rewrite ?length_insert; by eauto.
Qed.

Definition small (c : heap_call) : Prop := match c with Malloc n => Z.of_nat n + 16 < 2 ^ 31 | _ => True end.

Lemma client_ok cs : forall u F L, Forall small cs -> alloc_ok base lo limit brk u F L ->
  exists L' u' F', client base sbrk loops cs L u = Ret L' u' /\ alloc_ok base lo limit brk u' F' L'.
Proof.
  induction cs as [|c cs IH]; intros u F L; cbn [client]; [intros _ H; by exists L, u, F|]. intros [Hc Hcs]%Forall_cons H.
  assert (exists L' u' F', client_call base sbrk loops c L u = Ret L' u' /\ alloc_ok base lo limit brk u' F' L') as (L1 & u1 & F1 & R & H1).
  { destruct c; [by apply (malloc_ok u F)|by apply (free_ok u F)|by apply (store_ok u F)]. }
  rewrite (bind_ret_l _ _ _ _ _ R). by apply (IH u1 F1 L1).
Qed.

Lemma alloc_start u : uh_freep u = 0 -> lo <= brk (uh_w u) <= limit -> alloc_ok base lo limit brk u [] ∅.
Proof.
  intros Hf Hb. pose proof (sl_limit _ _ _ SL). constructor; [right|done|lia|lia|by intros p vs|by intros p vs q ws].
  split; [done|]. split; [done|]. lia.
Qed.

End client_runs.


(** C31: memory that is given back is available again: after [free(p)] a [malloc]
    of no more than the object's size succeeds, even when [sbrk] fails. *)
Theorem free_reclaims {W} (sbrk : Z -> W -> Z * W) brk limit base lo loops cs (u u1 : uheap W) L p vs n :
  sbrk_law sbrk brk limit -> 0 < base -> base + 8 <= lo -> uh_freep u = 0 -> lo <= brk (uh_w u) <= limit ->
  limit - lo + 8 <= 4 * Z.of_nat loops -> Forall small cs ->
  client base sbrk loops cs ∅ u = Ret L u1 -> L !! p = Some vs -> 0 <= n <= Z.of_nat (length vs) ->
  exists q u2, (free loops p ;; malloc base sbrk loops n) u1 = Ret q u2 /\ lo + 8 <= q /\ q + n <= brk (uh_w u2).
Proof.
  intros SL Hbase Hlo Hf Hb Hloops Hcs R Hp Hn. pose proof (sl_limit _ _ _ SL).
  destruct (client_ok base lo Hbase Hlo ltac:(lia) sbrk brk limit SL loops Hloops cs u [] ∅ Hcs) as (L1 & u1' & F & R' & H1);
    [by eapply alloc_start|]. rewrite R in R'. injection R' as <- <-.
  destruct (free_live base lo Hbase Hlo brk limit loops Hloops u1 F L p vs H1 Hp) as (u2 & F2 & R2 & H2 & c & Hc & Hfit).
  rewrite (bind_ret_l _ _ _ _ _ R2). pose proof (list_short base lo brk limit loops Hloops _ _ _ H2) as Hk. destruct H2 as [Hr _ Hl _ _ _].
  destruct (ao_objs _ _ _ _ _ _ _ H1 p vs Hp) as [O1 O2 _ _ _]. pose proof (obj_block_end p (length vs)).
  pose proof (ao_limit _ _ _ _ _ _ _ H1).
  destruct (malloc_spec base lo Hbase Hlo loops sbrk brk limit SL u2 F2 n Hr Hl ltac:(lia) ltac:(lia) ltac:(lia) Hk)
    as [(a & u3 & F3 & R3 & G)|(_ & _ & _ & _ & _ & Hall & _)].
  - exists (a + 8), u3. split; [done|]. destruct G as (_ & _ & G3 & G4 & _). split; [lia|]. Z.div_mod_to_equations. lia.
  - specialize (Hall c Hc). unfold obj_block in Hfit. cbn [snd] in Hfit. Z.div_mod_to_equations. lia.
Qed.

(** A size within 7 bytes of [2^32] wraps around: the caller gets a block that
    has no room at all. *)
Lemma malloc_overflow {W} base (sbrk : Z -> W -> Z * W) loops nbytes u : 2 ^ 32 - 7 <= nbytes < 2 ^ 32 ->
  malloc base sbrk loops nbytes u = malloc base sbrk loops 0 u.
Proof.
  intros Hn. unfold malloc. replace (malloc_units nbytes) with (malloc_units 0); [done|].
  unfold malloc_units, sizeof_Header. replace (u32 (nbytes + 8 - 1)) with (nbytes + 7 - 2 ^ 32) by (unfold u32; Z.div_mod_to_equations; lia).
  change (u32 (u32 (0 + 8 - 1) / 8 + 1)) with 1. rewrite u32_id; Z.div_mod_to_equations; lia.
Qed.

(** ** Witnesses: a kernel whose state is the break, with room for one
    [morecore] *)

Definition sbrk_to (limit n w : Z) : Z * Z := if w + n <=? limit then (w, w + n) else (-1, w).

Lemma sbrk_to_law limit : limit <= 2 ^ 31 -> sbrk_law (sbrk_to limit) (fun w => w) limit.
Proof.
  intros Hl. constructor; [done| |]; intros n w Hn Hw; unfold sbrk_to; destruct (w + n <=? limit) eqn:E; bool_prop; done || lia.
Qed.

Definition heap0 : uheap Z := mk_uheap (fun _ => 0) 0 8192.
Definition session : list heap_call :=
  [Malloc 10; Malloc 100; Store 40832 3 65; Malloc 24; Store 40800 0 66; Free 40832; Malloc 40].

Lemma session_small : Forall small session.
Proof. repeat constructor; cbn; lia. Qed.


Lemma free_reclaims_witness : exists L u1 q u2, client 4096 (sbrk_to 40960) (Z.to_nat 9216) session ∅ heap0 = Ret L u1 /\
  (free (Z.to_nat 9216) 40800 ;; malloc 4096 (sbrk_to 40960) (Z.to_nat 9216) 20) u1 = Ret q u2 /\ 4112 <= q.
Proof.
  assert (match client 4096 (sbrk_to 40960) (Z.to_nat 9216) session ∅ heap0 with
          | Ret L _ => length <$> L !! 40800 = Some 24%nat | _ => False end) as H by (vm_compute; reflexivity).
  destruct (client 4096 (sbrk_to 40960) (Z.to_nat 9216) session ∅ heap0) as [L u1| | |] eqn:E; [|destruct H..].
  destruct (L !! 40800) as [vs|] eqn:Hp; [|discriminate H]. injection H as Hlen.
  destruct (free_reclaims (sbrk_to 40960) (fun w => w) 40960 4096 4104 (Z.to_nat 9216) session heap0 u1 L 40800 vs 20)
    as (q & u2 & R & Hq & _).
  - by apply sbrk_to_law.
  - lia.
  - lia.
  - reflexivity.
  - cbn. lia.
  - rewrite Z2Nat.id; lia.
  - exact session_small.
  - exact E.
  - exact Hp.
  - lia.
  - exists L, u1, q, u2. split; [reflexivity|]. split; [exact R|lia].
Defined.
