(* ===== verification/BootResults.v ===== *)
(** * Main theorems: booting and the screen

    The boot loader loads the kernel's segments, [main] ends with the first
    process ready and every page accounted for, and the console shows and sends
    what is printed. *)

From S2P Require Import Prelude CString Mem KState Mmu Console Kalloc Vm File Proc Bio Layout Log Inode.
From S2P Require Import ConsoleDev Trap Devices Ide DevSpec IdeSpec Fs FileIO Exec ProcMem DirSpec Boot BootMain Example DevResults.

Section results.
Context {LK : Linker} {FS : FsOps} {W : Type} {PT : Ports W}.
Implicit Types d : devst W.

(** C20: the boot loader loads the kernel.  If the first drive holds a bootable
    ELF file from sector 1 on, [bootmain] ends with the call of its entry
    point; every segment is then at its physical address, byte for byte,
    followed by zeros up to its size in memory. *)
Theorem bootmain_loads polls limit view image d : ide_laws view limit -> (limit <= polls)%nat ->
  kernel_disk image (view (dv_w d)) -> (iv_busy (view (dv_w d)) <= polls)%nat -> bootable image ->
  exists d', bootmain polls d = Ret (Some (elf_entry image)) d' /\
    forall i, 0 <= i < elf_phnum image -> seg_loaded image (mem (dv_k d')) (phdr image i).
Proof.
  intros L Hl KD Hb BT. destruct (bootmain_run polls limit view L Hl image d KD Hb BT) as (m' & d' & R & M & H).
  exists d'. split; [done|]. by destruct M as (w & -> & _).
Qed.

(** C22: what the kernel prints can be seen.  After any text, with backspaces that
    stay within their line, the cursor is at the end of the text, the lines that
    fit on the 24 rows above and including the cursor's are on the screen,
    wrapped at 80 columns, the serial port has sent the same text, and no memory
    but the screen's has changed. *)
Theorem console_shows tview cs ls d : let t := tview (dv_w d) in tty_laws tview -> 0 <= ty_hi t < 256 -> 0 <= ty_lo t < 256 ->
  dv_uart d = true -> dv_panicked d = false -> shows (mem (dv_k d)) (ty_pos t) ls -> text_ok ls cs ->
  exists w m', dev_consputs cs d = Ret tt (set_dv_k (set_mem m' (dv_k d)) (set_dv_w w d)) /\
    shows m' (ty_pos (tview w)) (fold_left text_put cs ls) /\
    ty_sent (tview w) = ty_sent t ++ concat (map serial cs) /\
    (forall x, x < crt \/ crt + 3840 <= x -> m' x = mem (dv_k d) x).
Proof. intros t TL. by apply (dev_consputs_run tview TL). Qed.

End results.

(** A machine on which the kernel starts: the view of each processor, the ids of
    the local APICs, the idle disk, and an image of the kernel that leaves room
    for its page table below 4 MB. *)
Record bootable_pc {LK : Linker} {BI : BootImage} {W : Type} (ports : nat -> Ports W) (inv idle : W -> Prop) (la : Z) (ids : list Z)
    (b : nat) : Prop := {
  bp_la : la <> 0;
  bp_ids : NoDup ids;
  bp_first : (b < length ids)%nat;
  bp_quiet i me : ids !! i = Some me -> quiet (PT := ports i) inv (fun _ => True) la me;
  bp_disk : idle_disk (ports b) idle;
  bp_room : PGROUNDUP kend + 522 * 4096 <= low_end;
  bp_entry : 0 <= entryother_size <= 0x1000;
  bp_code : 0 <= initcode_size < 4096 /\ KERNLINK <= initcode_start /\ initcode_start + initcode_size <= kend;
}.

(** C8: booting establishes the kernel's invariants.  From the reset state, on a
    machine whose BIOS tables list the processors, [main] on the first one and
    [mpenter] on each other one return; then every processor has started, the
    process table has one process, which is ready to run the first program
    from its own page, the page tables map the kernel, and every page of
    physical memory is on the free list, in the kernel's page table, the stack
    of one other processor, or the first process's. *)
Theorem main_boots {LK : Linker} {FS : FsOps} {BI : BootImage} {W : Type} (ports : nat -> Ports W) polls inv idle la b mp conf es
    (d : devst W) : let ids := take (Z.to_nat NCPU) (mp_procs es) in
  bootable_pc ports inv idle la ids b -> reset inv idle d -> bios la (mem (dv_k d)) mp conf es -> (length es <= polls)%nat ->
  exists d' l stacks c, boot_run ports polls b (others b 0 (length ids)) (main (PT := ports b) polls d) = Ret tt d' /\
    boots ids d d' l stacks c.
Proof.
  intros ids [B1 B2 B3 B4 B5 B6 B7 (B8 & B9 & B10)] Rs Hbios Hp. destruct (lookup_lt_is_Some_2 ids b B3) as [mb Hb].
  by apply (main_run ports polls inv la ids b mb B1 B2 Hb B4 idle B5 mp conf es d).
Qed.

(** ** A kernel file and a disk *)

(** Two segments: 600 bytes at offset 4096 for 0x100000, with 100 zeros behind
    them, and 300 bytes at offset 4700. *)
Definition kernel_image : list Z :=
  let ph d o off paddr filesz memsz := put32 (put32 (put32 (put32 (put32 d o 1) (o + 4) off) (o + 12) paddr) (o + 16) filesz) (o + 20) memsz in
  let d := put16 (put32 (put32 (put32 (replicate 4096 0) 0 ELF_MAGIC) 24 0x10000c) 28 52) 44 2 in
  ph (ph d 52%nat 4096 0x100000 600 700) 84%nat 4700 0x10105c 300 300 ++ ((fun i => Z.of_nat i mod 256) <$> seq 0 1024).

Definition kernel_drive : ide_view :=
  mk_view 0 0 0 0 0xe0 1 false Idle (fun _ n => take 512 (drop (Z.to_nat (512 * (n - 1))) kernel_image)) (fun _ _ => false).

Lemma kernel_image_disk : kernel_disk kernel_image kernel_drive.
Proof.
  constructor.
  - exists 10%nat. split; [vm_compute; reflexivity|lia].
  - apply (bool_decide_unpack _). vm_compute. exact I.
  - intros j Hj _. cbn [iv_sect iv_bad kernel_drive]. replace (j + 1 - 1) with j by lia. done.
Qed.

Lemma kernel_image_bootable : bootable kernel_image.
Proof.
  assert (elf_phnum kernel_image = 2) as Hn by (vm_compute; reflexivity).
  constructor; rewrite ?Hn.
  - vm_compute. reflexivity.
  - vm_compute. discriminate.
  - vm_compute. discriminate.
  - intros i Hi. assert (i = 0 \/ i = 1) as [-> | ->] by lia; vm_compute; repeat split; discriminate.
  - intros i j Hi Hj. assert (i = 0 /\ j = 1) as [-> ->] by lia. vm_compute. discriminate.
Qed.

Definition boot_pc : devst pc := set_dv_w (with_ide kernel_drive (pc0 [])) (dev0 s0 []).

Lemma bootmain_loads_witness : exists d', bootmain 2 boot_pc = Ret (Some 0x10000c) d' /\
  forall i, 0 <= i < 2 -> seg_loaded kernel_image (mem (dv_k d')) (phdr kernel_image i).
Proof.
  destruct (bootmain_loads 2 2 pc_ide kernel_image boot_pc pc_ide_laws) as (d' & R & H).
  - lia.
  - exact kernel_image_disk.
  - cbn. lia.
  - exact kernel_image_bootable.
  - exists d'. split; [exact R|exact H].
Defined.

(** A machine with a CRT controller and a serial port that is ready. *)
#[export] Instance tty_ports : Ports tty := {|
  pt_inb port t := if port =? CRTPORT + 1 then (if ty_index t =? 14 then ty_hi t else ty_lo t, t) else (0x20, t);
  pt_outb port v t :=
    if port =? CRTPORT then mk_tty v (ty_hi t) (ty_lo t) (ty_sent t)
    else if port =? CRTPORT + 1 then
      if ty_index t =? 14 then mk_tty 14 v (ty_lo t) (ty_sent t) else mk_tty (ty_index t) (ty_hi t) v (ty_sent t)
    else if port =? COM1 then mk_tty (ty_index t) (ty_hi t) (ty_lo t) (ty_sent t ++ [v])
    else t;
  pt_inl _ t := (0, t);
  pt_outl _ _ t := t;
  pt_load _ t := (0, t);
  pt_store _ _ t := t;
|}.

Lemma tty_ports_laws : tty_laws (fun t : tty => t).
Proof.
  constructor; cbn [pt_inb pt_outb tty_ports Z.eqb Pos.eqb CRTPORT COM1 Z.add Pos.add Pos.succ]; try done.
  - intros w. split; [done|]. split; intros H; by rewrite H.
  - intros w v H. by rewrite H.
  - intros w v H. by rewrite H.
Qed.

(** The cursor in the second column of the last row, behind an X. *)
Definition tty_dev : devst tty :=
  mk_devst (set_mem (put_cell (fun _ => 0) 1840 (glyph 88)) s0) (mk_tty 0 7 49 []) false 0xFEE00000 IOAPIC 0 (replicate 8 0)
    (replicate 8 0) [] [] true false 0 None (replicate NBUF None) true.

Lemma console_shows_witness : exists w m', dev_consputs (bytes "yz" ++ [BACKSPACE; 10; 65]) tty_dev =
    Ret tt (set_dv_k (set_mem m' (dv_k tty_dev)) (set_dv_w w tty_dev)) /\
  shows m' (ty_pos w) [[65]; [88; 121]].
Proof.
  destruct (console_shows (fun t => t) (bytes "yz" ++ [BACKSPACE; 10; 65]) [[88]] tty_dev tty_ports_laws) as (w & m' & R & H & _).
  - cbn. lia.
  - cbn. lia.
  - reflexivity.
  - reflexivity.
  - exists 23, [88], []. split; [done|]. split; [|split; [cbn; lia|vm_compute; reflexivity]]. split; [lia|]. intros [|q] line j c Hq Hle Hj; [|done].
    injection Hq as <-. destruct j as [|j]; [|done]. injection Hj as <-. split; [lia|vm_compute; reflexivity].
  - cbn. repeat split; discriminate.
  - exists w, m'. split; [exact R|exact H].
Defined.

(** [namei("/")] is [iget] of the root inode. *)
Lemma namei_root {LK : Linker} {DK : Disk} ic : is_Some (iget_slot ic ROOTINO) -> root_found (FS := kernel_fs) ic.
Proof.
  intros [i Hi] s Hh <-. destruct (iget_slot_is _ _ _ Hi) as (x & Hx & _). pose proof (iget_at s ROOTINO i x Hh Hi Hx) as R.
  exists (Some i), (<[i := got ROOTINO x]> (icache s)). change (fs_namei (bytes "/") s) with (namei (bytes "/") s).
  unfold namei, namex. cbn [bytes]. change (_ =? slash) with true. cbv iota. rewrite bind_assoc, bind_assoc.
  by rewrite (bind_ret_l _ _ _ _ _ R).
Qed.

(** A board whose devices answer at once: every processor sees its number in
    the id register, and the disk is ready. *)
Definition board_ports (i : nat) : Ports unit := {|
  pt_inb _ w := (0x40, w); pt_outb _ _ w := w; pt_inl _ w := (0, w); pt_outl _ _ w := w;
  pt_load a w := (if a =? 0xFEE00020 then Z.shiftl (Z.of_nat i) 24 else 0, w); pt_store _ _ w := w
|}.

(** An image with a first program of 44 bytes. *)
#[local] Instance image0 : BootImage := {|
  entryother_start := 0x8010a48c; entryother_size := 0x8a; initcode_start := 0x8010a460; initcode_size := 0x2c;
  mpenter_addr := 0x80103120; entrypgdir_addr := 0x80109000; vectors := []
|}.

Definition reset_kernel : kstate :=
  set_icache (replicate 50 (mk_inode 0 0 0 false 0 false 0 0 0 0 0 [])) (set_ptable (replicate NPROC unused0)
    (set_freelist 0 (set_ncpu 0 (set_mem (mp_mem 132 1) s0)))).

Definition reset_pc : devst unit :=
  mk_devst reset_kernel tt false 0 0 0 (replicate 8 0) (replicate 8 0) (replicate 8 []) [] false false 0 None [] false.

Lemma board_bootable : bootable_pc board_ports (fun _ => True) (fun _ => True) 0xFEE00000 [0; 1] 0.
Proof.
  constructor; [done|by apply (bool_decide_unpack (NoDup [0; 1]))|cbn; lia| |by constructor|done..].
  intros [|[|i]] me E; [| |done]; injection E as <-; by constructor.
Qed.

Lemma reset_pc_bios : bios 0xFEE00000 (mem (dv_k reset_pc)) (P2V 0x9fc00) (P2V 0x9fc40) [EProc 0; EProc 1; ESkip 1; EIoapic 2].
Proof.
  intros m' Hm. change 0xFEE00000 with (mpconf_lapicaddr (mp_mem 132 1) (P2V 0x9fc40)).
  apply (mp_config_ext (mp_mem 132 1) m' kend Hm); try (by vm_compute).
  split; [by vm_compute|]. cbn [mp_table]. repeat split; try by vm_compute. apply list_elem_of_here.
Qed.

Lemma main_boots_witness : exists d' l stacks c,
  boot_run (FS := kernel_fs) board_ports 4 0 [1%nat] (main (FS := kernel_fs) (PT := board_ports 0) 4 reset_pc) = Ret tt d' /\
  boots [0; 1] reset_pc d' l stacks c.
Proof.
  apply (main_boots (FS := kernel_fs) board_ports 4 (fun _ => True) (fun _ => True) 0xFEE00000 0 (P2V 0x9fc00) (P2V 0x9fc40)
    [EProc 0; EProc 1; ESkip 1; EIoapic 2] reset_pc); [exact board_bootable| |exact reset_pc_bios|cbn [length]; lia].
  constructor; try done.
  - constructor; try done. cbn. lia.
  - apply Forall_replicate. by split.
  - apply namei_root. by eexists.
Defined.
